(* ===== verification/_CoqProject ===== *)
-Q . S2P
Prelude.v
Stun.v
StunFacts.v
StunServer.v
StunServerFacts.v
StunNat.v
StunNatFacts.v
Base64.v
RtpTime.v
RtpPacket.v
RtpReceiver.v
RtpJitter.v
RtpReceiverFacts.v
RtpTransmitter.v
Rtcp.v
RtcpReceiver.v
RtcpFacts.v
RtcpReadFacts.v
RtcpProps.v
RtcpSafe.v
RtcpLinked.v
RtcpLoss.v
RtpSession.v
RtpSessionFacts.v
RtpSessionProps.v
DataStr.v
DataStrFacts.v
DataStrText.v
DataStrProps.v
SipHeap.v
SipTxn.v
SipSamples.v
SipTxnFacts.v
SipAnswerFacts.v
SipUdp.v
SipUdpFacts.v
SipUdpProps.v
SipTransceiver.v
SipTransceiverFacts.v
SipText.v
SipViaHdr.v
SipViaFacts.v
SipViaProps.v
SipRaw.v
SipRawFacts.v
SipRawProps.v
SipFields.v
SipParsed.v
SipEscape.v
SipUser.v
SipUri.v
SipUriFacts.v
SipUriProps.v
SipBaseUrl.v
SipAddr.v
SipAddrFacts.v
SipAddrText.v
SipAddrProps.v
SipAddrHeaders.v
SipContent.v
SipContentFacts.v
SipContentProps.v
SipStartLine.v
SipMessage.v
SipMessageFacts.v
SipMessageProps.v
SipMessageSafe.v
UaMsg.v
UaAgent.v
UaState.v
UaFacts.v
UaCalls.v
UaProps.v
