(* ===== verification/Prelude.v ===== *)
(** * Verification of VOCAL

    VOCAL is a system for voice over IP in C++: a SIP stack
    (src/sip/sipstack), a SIP user agent on top of it (src/sip/libsipua and
    src/sip/gua), an RTP stack for the media (src/rtp), a STUN server and
    client for calls through NATs (src/stund), and utilities all of them use
    (src/util).  This library models the parts of these that decide how
    messages are read, written, timed, matched, buffered and answered, and
    proves what makes them correct; where the code does not do what it means
    to do, a theorem states what it does.

    ** How the parts of the program meet

    The user agent hands messages to the transceiver and is handed those that
    come in.  The transceiver gives each to a transaction database, which
    finds the call and the transaction and decides whether the message goes
    on and whether an earlier one is still to be repeated, and to the UDP
    connection, whose tick sends what is due.  The three share message
    containers: what one writes to a container the others read.  The RTP
    receiver takes packets from its socket, puts them in order in a jitter
    buffer and plays them; packets and times are the modules below it.  A
    session has an RTP receiver and transmitter and a pair of them for RTCP: the
    RTCP transmitter reports on what the receivers have heard, and the RTCP
    receiver keeps a table of sources that points to the RTP receiver, which in
    turn tells it of its source.  Text
    is [Data] everywhere in the SIP part.  A message keeps its headers as
    text, in a container with a list for each of 56 types; a header is parsed
    by the class of its type when somebody asks for it, and printed from the
    parsed form from then on.

    ** Files, in the order they are compiled

    - [Prelude]: outcomes of C++ code ([Ret], or [Fault] for a failed
      assertion, an access out of bounds, a null pointer, a read of an
      unwritten object), machine words, byte arrays with checked access, the
      hint and rewrite databases [vocal] and [zlen] and the tactics
      [word_facts] and [zlen_lia].
    - [Stun] and [StunFacts]: the message codec of src/stund/stun.cxx
      (stunParseMessage, stunEncodeMessage and what they call): parsing stays
      inside the datagram and ends, encoding and parsing are inverse, and
      where they are not.
    - [StunServer] and [StunServerFacts]: stunServerProcessMsg,
      stunServerProcess, the user names and passwords and the sockets.
    - [StunNat] and [StunNatFacts]: stunBuildReqSimple, stunSendTest and
      stunNatType; the client classifies every kind of NAT as it behaves.
    - [Base64]: src/util/Base64.cxx; decoding undoes encoding.
    - [RtpTime]: src/rtp/rtpTools.cxx and NtpTime.cxx in 32-bit arithmetic.
    - [RtpPacket]: src/rtp/RtpPacket.cxx, the header and its wire layout.
    - [RtpReceiver], [RtpJitter], [RtpReceiverFacts]: src/rtp/RtpReceiver.cxx.
      The ring of slots implements a bounded queue (a refinement), stays
      gapless, and aborts in one case; the source is tracked.
    - [RtpTransmitter]: src/rtp/RtpTransmitter.cxx, the sending of media and of
      events.  [Rtcp], [RtcpReceiver]: RtcpPacket.cxx, RtcpTransmitter.cxx and
      RtcpReceiver.cxx, the control packets with the table of sources.
      [RtcpFacts] and [RtcpReadFacts] have the two sides of a packet,
      [RtcpProps] what goes from one to the other, [RtcpSafe] what a datagram
      can do to its reader, [RtcpLinked] the source that the two receivers of a
      session share, [RtcpLoss] the numbers of lost packets.  [RtpSession],
      [RtpSessionFacts], [RtpSessionProps]: src/rtp/RtpSession.cxx, the four
      parts of a session and their links.
    - [DataStr], [DataStrText], [DataStrFacts], [DataStrProps]: src/util/Data2.cxx.
      The objects with their capacity and unwritten characters implement
      operations on texts.
    - [SipHeap]: messages as the stack reads them, transaction identifiers and
      the heap of message containers (SipMsgContainer.cxx, SipTransactionId.cxx).
    - [SipTxn], [SipTxnFacts], [SipAnswerFacts]: SipCallContainer.cxx,
      SipTransactionDB.cxx, SipSentRequestDB.cxx, SipSentResponseDB.cxx.
      [SipSamples] has the messages of the concrete examples.
    - [SipUdp], [SipUdpFacts], [SipUdpProps]: SipUdpConnection.cxx, the queue
      and the back-off of retransmissions, against any priority queue.
    - [SipTransceiver], [SipTransceiverFacts]: SipTransceiver.cxx, and the
      theorems on all of the stack together.
    - [SipText]: the operations of Data the parsers use, on texts; each is
      equal to a function of the text alone.
    - [SipViaHdr], [SipViaFacts], [SipViaProps]: SipVia.cxx, the parser in both
      modes and the printer: where it can fail, and the round trip.
    - [SipRaw], [SipRawFacts], [SipRawProps]: SipHeader.cxx, SipRawHeader.cxx and
      SipRawHeaderContainer.cxx.  The classes of parsed headers are the type
      class [SipHeaderClass]; reading a block of headers is a relation.
    - [SipFields]: eleven classes of simple headers (SipCallId.cxx, SipCSeq.cxx,
      SipMaxForwards.cxx and others), and with SipVia.cxx an instance of
      [SipHeaderClass].  [SipParsed]: messages whose headers are parsed and
      printed again.
    - [SipEscape], [SipUser], [SipUri], [SipUriFacts], [SipUriProps]: SIP URLs, of
      SipUrl.cxx, SipUser.cxx, SipTelSubscriberUser.cxx and EmbeddedObj.cxx: the
      parser and printer with their round trip and what the parser loses, and
      the unescaping of the headers in a URL, which need not end.
    - [SipBaseUrl]: the URLs of all schemes (BaseUrl.cxx, TelUrl.cxx,
      ImpBaseUrl.cxx, UnknownUrl.cxx, NullUrl.cxx).  [SipAddr], [SipAddrFacts],
      [SipAddrText], [SipAddrProps]: the headers From and To (SipFrom.cxx,
      SipTo.cxx), which are one set of definitions with a side; round trip,
      parameters as an ordered map, and a From that ends the headers.
      [SipAddrHeaders]: both among the classes of the stack, and messages that
      are parsed and printed with them.
    - [SipContent], [SipContentFacts], [SipContentProps]: the headers that
      describe a body, SipContentType.cxx and SipContentDisposition.cxx with
      SipParameterList.cxx.  [SipStartLine]: SipMethod.cxx, SipRequestLine.cxx
      and SipStatusLine.cxx.  [SipMessage]: the reading of a datagram as a
      message with its first line, headers and body, and its printing
      (SipMsg.cxx, SipCommand.cxx, StatusMsg.cxx, SipContentDataContainer.cxx).
      [SipMessageFacts], [SipMessageProps]: the round trip of messages.
      [SipMessageSafe]: reading ends for every text, and two messages that end
      the program.
    - [UaMsg], [UaAgent], [UaState]: the user agent of src/sip/libsipua: the
      messages it makes of others (StatusMsg.cxx, AckMsg.cxx, ByeMsg.cxx,
      CancelMsg.cxx; a request line that is set is printed and read again as
      SipCommand::setRequestLine does, by [SipStartLine]), the agent (UaBase.cxx, UaClient.cxx, UaServer.cxx) and
      the handlers of its nine states (uaState/).  [UaFacts] has its
      invariant, [UaCalls] the steps of calls, [UaProps] the properties.

    ** What the theorems show

    Codecs: bounds, termination and round trips (STUN, Base64, RTP headers).
    State: invariants and refinements by abstract objects (jitter buffer as a
    bounded queue, text objects as texts, reachable user agents as well-formed
    ones).  Time: what a tick sends, when it is sent again, and that a message
    that was answered is never sent again, from the sending of an INVITE to
    any later tick.  Protocol: which message meets which transaction, what
    the application is given, how two user agents set up and end a call, and
    what one session learns from the control packets of another.
    Errors: each way found in which a message from the network or a step of
    the application aborts the process, hangs it or leaves the call in a
    wrong state.

    ** Bounds and fuel

    A loop that is not structural takes fuel and reports [OutOfFuel] when it
    ends.  The attribute loop of a STUN message has one step for each byte and
    one more; the gap filling of the jitter buffer 32769 steps, more than any
    gap of sequence numbers that the code fills; the headers of a control
    packet 513 and the items of a description 1025, since a header has four
    bytes and an item two in a buffer of 2048; the digits of an int 21; the
    loops of the UDP connection as many as there are containers in the queue
    and in the socket; the routes of a message one more than their number.
    Theorems on these functions show that the fuel is enough, except for
    [saveRouteList], where it is shown that no fuel is.

    ** Parameters

    Code outside src/ and the outside world are arguments of the sections:
    sockets with what they receive and accept, clocks, random numbers, name
    resolution, HMAC-SHA1, the priority queue of the C++ library, and the
    call controller of the user agent; and the mode of the parser, strict or
    lenient.  The stack takes the decoding of a
    datagram and what it reads of a message as a parameter: [SipMessage] models
    the decoding with all of a message.  The header classes that no file has
    are a parameter of the reading.

    ** Not modelled

    Contact, the Route headers, authentication headers, bodies of several
    parts, the constructors of messages, SDP, the TCP
    connection, registration and authentication; the call controller
    (src/sip/gua) and its media devices; the reservation of ports, the codecs
    and the event classes of src/rtp; the media library, the billing server and
    RADIUS client (src/cdr), RTSP, voice mail (src/vm, src/vmclient),
    provisioning and the installer; logging, threads, configuration; and
    src/contrib, which is the code of others.  The transaction identifiers of
    the stack are a parameter of [SipHeap] and not yet those of a message that
    [SipMessage] has decoded. *)
From stdpp Require Export base list numbers option.
From Stdlib Require Export ZArith Lia.
From Stdlib Require Export (notations) Ascii String.

Declare Scope vocal_scope.
Delimit Scope vocal_scope with vocal.
Open Scope Z_scope.

(** * Outcomes of C++ code

    A translated function returns [Ret v] when the C++ function returns, and
    [Fault f] when its execution leaves the defined behaviour of the program:
    a failed [assert], an access outside an array, a null pointer, a read of
    an object that was never written, a division by zero; an exception that
    nothing modelled catches; or ([Unexpected]) one that leaves a function whose
    exception specification does not allow it, which ends the program. *)

Inductive fault : Set :=
| AssertFailed
| OutOfBounds
| NullDeref
| UninitRead
| DivByZero
| BadCast
| Exception
| Unexpected
| OutOfFuel.

Inductive outcome (A : Type) : Type :=
| Ret (a : A)
| Fault (f : fault).
Arguments Ret {A} a.
Arguments Fault {A} f.

#[export] Instance outcome_ret : MRet outcome := fun A => @Ret A.
#[export] Instance outcome_bind : MBind outcome := fun A B k m =>
  match m with Ret a => k a | Fault f => Fault f end.
#[export] Instance outcome_fmap : FMap outcome := fun A B g m =>
  match m with Ret a => Ret (g a) | Fault f => Fault f end.
#[export] Instance fault_eq_dec : EqDecision fault.
Proof. solve_decision. Defined.
#[export] Instance outcome_eq_dec `{EqDecision A} : EqDecision (outcome A).
Proof. solve_decision. Defined.

(** [assert(b)] *)
Definition cassert (b : bool) : outcome unit :=
  if b then Ret tt else Fault AssertFailed.

(** Dereference of a possibly null pointer. *)
Definition deref {A} (p : option A) : outcome A :=
  match p with Some a => Ret a | None => Fault NullDeref end.

(** Read of a possibly never-written object. *)
Definition initialised {A} (p : option A) : outcome A :=
  match p with Some a => Ret a | None => Fault UninitRead end.

Definition returns {A} (m : outcome A) : Prop := exists a, m = Ret a.

Lemma bind_Ret {A B} (a : A) (k : A -> outcome B) : (Ret a ≫= k) = k a.
Proof. reflexivity. Qed.

Lemma bind_Fault {A B} (f : fault) (k : A -> outcome B) : (Fault f ≫= k) = Fault f.
Proof. reflexivity. Qed.

Lemma bind_Ret_inv {A B} (m : outcome A) (k : A -> outcome B) (b : B) :
  (m ≫= k) = Ret b -> exists a, m = Ret a /\ k a = Ret b.
Proof. destruct m; cbn; [eauto | discriminate]. Qed.

Lemma bind_assoc {A B C} (m : outcome A) (k : A -> outcome B) (h : B -> outcome C) :
  ((m ≫= k) ≫= h) = (m ≫= (fun a => k a ≫= h)).
Proof. destruct m; reflexivity. Qed.

Lemma bind_ext {A B} (m : outcome A) (k h : A -> outcome B) :
  (forall a, m = Ret a -> k a = h a) -> (m ≫= k) = (m ≫= h).
Proof. destruct m; cbn; auto. Qed.

Lemma cassert_true b : b = true -> cassert b = Ret tt.
Proof. intros ->; reflexivity. Qed.

Lemma cassert_Ret b u : cassert b = Ret u -> b = true.
Proof. destruct b; [reflexivity | discriminate]. Qed.

(** ** Outcomes with a condition for failure *)

(** [m] returns what satisfies [Q], or faults and [E] holds. *)
Definition wp {A} (E : Prop) (Q : A -> Prop) (m : outcome A) : Prop :=
  match m with Ret x => Q x | Fault _ => E end.

Lemma wp_bind {A B} E (Q : B -> Prop) (m : outcome A) (k : A -> outcome B) :
  wp E (fun x => wp E Q (k x)) m -> wp E Q (m ≫= k).
Proof. now destruct m. Qed.

Lemma wp_mono {A} E (P Q : A -> Prop) m : wp E P m -> (forall x, P x -> Q x) -> wp E Q m.
Proof. destruct m; cbn; auto. Qed.

Lemma wp_returns {A} E (m : outcome A) : returns m -> wp E (fun x => m = Ret x) m.
Proof. now intros [x ->]. Qed.

(** The rule for a sequence whose first part is known by a lemma. *)
Lemma wp_seq {A B} E (P : A -> Prop) (Q : B -> Prop) (m : outcome A) (k : A -> outcome B) :
  wp E P m -> (forall x, P x -> wp E Q (k x)) -> wp E Q (m ≫= k).
Proof. intros H Hk. apply wp_bind. now apply (wp_mono _ _ _ _ H). Qed.

Lemma wp_first {A B} E (Q : B -> Prop) (m : outcome A) (k : A -> outcome B) :
  returns m -> (forall x, m = Ret x -> wp E Q (k x)) -> wp E Q (m ≫= k).
Proof. intros [x Hx] Hk. rewrite Hx. apply (Hk x Hx). Qed.

(** Whatever the first part returns. *)
Lemma wp_any {A B} (Q : B -> Prop) (m : outcome A) (k : A -> outcome B) : (forall x, m = Ret x -> wp True Q (k x)) -> wp True Q (m ≫= k).
Proof. destruct m; cbn; auto. Qed.

(** * Machine integers, kept as [Z] with the wrap-around written out *)

Definition wrap (w z : Z) : Z := z mod 2 ^ w.
Abbreviation u8 := (wrap 8).
Abbreviation u16 := (wrap 16).
Abbreviation u32 := (wrap 32).
Abbreviation u64 := (wrap 64).

(** Conversion to a signed two's complement type of [w] bits. *)
Definition swrap (w z : Z) : Z :=
  let y := z mod 2 ^ w in if y <? 2 ^ (w - 1) then y else y - 2 ^ w.
Abbreviation s32 := (swrap 32).
Abbreviation s64 := (swrap 64).

(** A C truth value as an integer. *)
Definition b2z (b : bool) : Z := if b then 1 else 0.

Lemma wrap_range w z : 0 <= w -> 0 <= wrap w z < 2 ^ w.
Proof. intros Hw. apply Z.mod_pos_bound. apply Z.pow_pos_nonneg; lia. Qed.

Lemma wrap_small w z : 0 <= z < 2 ^ w -> wrap w z = z.
Proof. apply Z.mod_small. Qed.

Lemma wrap_idem w z : 0 <= w -> wrap w (wrap w z) = wrap w z.
Proof. intros Hw. apply wrap_small, wrap_range, Hw. Qed.

Lemma swrap_range w z : 0 < w -> - 2 ^ (w - 1) <= swrap w z < 2 ^ (w - 1).
Proof.
  intros Hw. unfold swrap.
  pose proof (Z.mod_pos_bound z (2 ^ w)) as Hz.
  assert (2 ^ w = 2 * 2 ^ (w - 1)) as E
    by (rewrite <- Z.pow_succ_r by lia; f_equal; lia).
  destruct (Z.ltb_spec (z mod 2 ^ w) (2 ^ (w - 1))); lia.
Qed.

Lemma swrap_small w z : 0 < w -> - 2 ^ (w - 1) <= z < 2 ^ (w - 1) -> swrap w z = z.
Proof.
  intros Hw Hz. unfold swrap.
  assert (2 ^ w = 2 * 2 ^ (w - 1)) as E
    by (rewrite <- Z.pow_succ_r by lia; f_equal; lia).
  destruct (Z.neg_nonneg_cases z) as [Hn | Hn].
  - replace (z mod 2 ^ w) with (z + 2 ^ w).
    + destruct (Z.ltb_spec (z + 2 ^ w) (2 ^ (w - 1))); lia.
    + apply (Z.mod_unique_pos _ _ (-1)); lia.
  - rewrite Z.mod_small by lia. destruct (Z.ltb_spec z (2 ^ (w - 1))); lia.
Qed.

Lemma wrap8_range z : 0 <= u8 z < 256.
Proof. apply (wrap_range 8); lia. Qed.
Lemma wrap16_range z : 0 <= u16 z < 65536.
Proof. apply (wrap_range 16); lia. Qed.
Lemma wrap32_range z : 0 <= u32 z < 4294967296.
Proof. apply (wrap_range 32); lia. Qed.

Create HintDb vocal.
#[export] Hint Resolve wrap8_range wrap16_range wrap32_range : vocal.

(** Turns every width computation in sight into linear arithmetic facts. *)
Ltac word_facts :=
  repeat match goal with
  | |- context [wrap 8 ?z] => lazymatch goal with
      | H : 0 <= wrap 8 z < 256 |- _ => fail | _ => pose proof (wrap8_range z) end
  | |- context [wrap 16 ?z] => lazymatch goal with
      | H : 0 <= wrap 16 z < 65536 |- _ => fail | _ => pose proof (wrap16_range z) end
  | |- context [wrap 32 ?z] => lazymatch goal with
      | H : 0 <= wrap 32 z < 4294967296 |- _ => fail | _ => pose proof (wrap32_range z) end
  end.

(** * Byte memory

    An array of [char] or [unsigned char] is the list of its byte values. *)

Abbreviation bytes := (list Z).

Definition zlen {A} (l : list A) : Z := Z.of_nat (length l).

Definition byte_ok (b : Z) : Prop := 0 <= b < 256.
Definition bytes_ok (l : bytes) : Prop := Forall byte_ok l.

(** A computable form of [bytes_ok], for concrete arrays. *)
Lemma bytes_ok_forallb l :
  forallb (fun b => (0 <=? b) && (b <? 256)) l = true -> bytes_ok l.
Proof.
  intros H. apply List.Forall_forall. intros b Hb.
  rewrite forallb_forall in H. specialize (H b Hb). unfold byte_ok. lia.
Qed.

(** [m[i]] *)
Definition rd {A} (m : list A) (i : Z) : outcome A :=
  if 0 <=? i then
    match m !! Z.to_nat i with Some b => Ret b | None => Fault OutOfBounds end
  else Fault OutOfBounds.

(** The [n] elements read by [memcpy(dst, m + off, n)]. *)
Definition slice {A} (m : list A) (off n : Z) : outcome (list A) :=
  if (0 <=? off) && (0 <=? n) && (off + n <=? zlen m)
  then Ret (take (Z.to_nat n) (drop (Z.to_nat off) m))
  else Fault OutOfBounds.

(** [memcpy(m + off, src, len(src))] *)
Definition overwrite {A} (m : list A) (off : Z) (src : list A) : outcome (list A) :=
  if (0 <=? off) && (off + zlen src <=? zlen m)
  then Ret (take (Z.to_nat off) m ++ src ++ drop (Z.to_nat off + length src) m)
  else Fault OutOfBounds.

(** [m[i] = b] *)
Definition wr {A} (m : list A) (i : Z) (b : A) : outcome (list A) :=
  if (0 <=? i) && (i <? zlen m) then Ret (<[Z.to_nat i := b]> m) else Fault OutOfBounds.

(** Network (big-endian) order. *)
Definition be16 (b0 b1 : Z) : Z := b0 * 256 + b1.
Definition be32 (b0 b1 b2 b3 : Z) : Z := ((b0 * 256 + b1) * 256 + b2) * 256 + b3.
Definition enc16 (x : Z) : bytes := [x / 256 mod 256; x mod 256].
Definition enc32 (x : Z) : bytes :=
  [x / 16777216 mod 256; x / 65536 mod 256; x / 256 mod 256; x mod 256].

(** [ntohs] and [ntohl] of the integer loaded from [m + off]. *)
Definition rd16 (m : bytes) (off : Z) : outcome Z :=
  b0 ← rd m off; b1 ← rd m (off + 1); mret (be16 b0 b1).
Definition rd32 (m : bytes) (off : Z) : outcome Z :=
  b0 ← rd m off; b1 ← rd m (off + 1); b2 ← rd m (off + 2); b3 ← rd m (off + 3);
  mret (be32 b0 b1 b2 b3).

(** The C string stored in an array: the bytes before the first NUL. *)
Fixpoint cstr (m : bytes) : bytes :=
  match m with
  | [] => []
  | b :: m' => if b =? 0 then [] else b :: cstr m'
  end.

(** [src] written through a pointer that advances: [out] is what has been
    written so far, [cap] the size of the array. *)
Definition put (cap : Z) (out src : bytes) : outcome bytes :=
  if zlen out + zlen src <=? cap then Ret (out ++ src) else Fault OutOfBounds.

Definition zeros (n : nat) : bytes := replicate n 0.

(** The characters of a C string literal, without its terminating NUL. *)
Definition str (s : String.string) : bytes :=
  map (fun c => Z.of_N (Ascii.N_of_ascii c)) (String.list_ascii_of_string s).
Arguments str s%_string_scope.

Lemma zlen_nonneg {A} (l : list A) : 0 <= zlen l.
Proof. unfold zlen; lia. Qed.
Lemma zlen_nil {A} : zlen (@nil A) = 0.
Proof. reflexivity. Qed.
Lemma zlen_cons {A} (x : A) l : zlen (x :: l) = 1 + zlen l.
Proof. unfold zlen; cbn [length]; lia. Qed.
Lemma zlen_app {A} (l k : list A) : zlen (l ++ k) = zlen l + zlen k.
Proof. unfold zlen; rewrite length_app; lia. Qed.
Lemma zlen_zeros n : zlen (zeros n) = Z.of_nat n.
Proof. unfold zlen, zeros; now rewrite length_replicate. Qed.
Lemma zlen_enc16 x : zlen (enc16 x) = 2.
Proof. reflexivity. Qed.
Lemma zlen_enc32 x : zlen (enc32 x) = 4.
Proof. reflexivity. Qed.
Lemma zlen_insert {A} (l : list A) i x : zlen (<[i:=x]> l) = zlen l.
Proof. unfold zlen; now rewrite length_insert. Qed.

Create Rewrite HintDb zlen.
#[export] Hint Rewrite @zlen_nil @zlen_cons @zlen_app zlen_zeros zlen_enc16 zlen_enc32 @zlen_insert : zlen.
#[export] Hint Resolve zlen_nonneg : vocal.

(** Solves goals about lengths of concatenated arrays. *)
Ltac zlen_lia :=
  autorewrite with zlen in *;
  repeat match goal with
  | |- context [zlen ?l] => lazymatch goal with
      | H : 0 <= zlen l |- _ => fail | _ => pose proof (zlen_nonneg l) end
  | _ : context [zlen ?l] |- _ => lazymatch goal with
      | H : 0 <= zlen l |- _ => fail | _ => pose proof (zlen_nonneg l) end
  end; lia.

Lemma rd_Ret {A} (m : list A) i b : rd m i = Ret b <-> 0 <= i /\ m !! Z.to_nat i = Some b.
Proof.
  unfold rd. destruct (Z.leb_spec 0 i), (m !! Z.to_nat i); split; intuition (congruence || lia).
Qed.

Lemma rd_in_range {A} (m : list A) i : 0 <= i < zlen m -> exists b, rd m i = Ret b.
Proof.
  intros Hi. destruct (lookup_lt_is_Some_2 m (Z.to_nat i)) as [b Hb].
  - unfold zlen in Hi; lia.
  - exists b. apply rd_Ret; auto with lia.
Qed.

Lemma rd_bytes_ok m i b : bytes_ok m -> rd m i = Ret b -> byte_ok b.
Proof.
  intros Hm [_ Hb]%rd_Ret. eapply Forall_lookup_1; eauto.
Qed.

(** Reading inside the middle block of an array. *)
Lemma rd_mid {A} (pre l post : list A) k :
  0 <= k < zlen l -> rd (pre ++ l ++ post) (zlen pre + k) = rd l k.
Proof.
  intros Hk. unfold rd, zlen in *.
  destruct (Z.leb_spec 0 (Z.of_nat (length pre) + k)), (Z.leb_spec 0 k); try lia.
  rewrite lookup_app_r by lia.
  replace (Z.to_nat (Z.of_nat (length pre) + k) - length pre)%nat with (Z.to_nat k) by lia.
  rewrite lookup_app_l by lia. reflexivity.
Qed.

Lemma slice_mid {A} (pre l post : list A) :
  slice (pre ++ l ++ post) (zlen pre) (zlen l) = Ret l.
Proof.
  unfold slice.
  destruct (Z.leb_spec 0 (zlen pre)), (Z.leb_spec 0 (zlen l)),
    (Z.leb_spec (zlen pre + zlen l) (zlen (pre ++ l ++ post))); cbn [andb];
    try zlen_lia.
  unfold zlen. rewrite !Nat2Z.id, drop_app_length, take_app_length. reflexivity.
Qed.

Lemma slice_in_range {A} (m : list A) off n :
  0 <= off -> 0 <= n -> off + n <= zlen m ->
  exists l, slice m off n = Ret l /\ zlen l = n.
Proof.
  intros Ho Hn Hm. unfold slice.
  destruct (Z.leb_spec 0 off), (Z.leb_spec 0 n), (Z.leb_spec (off + n) (zlen m)); cbn [andb]; try lia.
  eexists; split; [reflexivity|]. unfold zlen in *.
  rewrite length_take, length_drop. lia.
Qed.

Lemma overwrite_Ret_zlen {A} (m : list A) off src m' :
  overwrite m off src = Ret m' -> zlen m' = zlen m.
Proof.
  unfold overwrite. destruct (Z.leb_spec 0 off), (Z.leb_spec (off + zlen src) (zlen m));
    cbn [andb]; try discriminate.
  intros [= <-]. unfold zlen in *. rewrite !length_app, length_take, length_drop. lia.
Qed.

Lemma overwrite_mid {A} (a b c b' : list A) :
  length b' = length b -> overwrite (a ++ b ++ c) (zlen a) b' = Ret (a ++ b' ++ c).
Proof.
  intros H. unfold overwrite, zlen. rewrite !length_app.
  destruct (Z.leb_spec 0 (Z.of_nat (length a))); [|lia].
  destruct (Z.leb_spec (Z.of_nat (length a) + Z.of_nat (length b'))
    (Z.of_nat (length a + (length b + length c)))); [|lia].
  cbn [andb]. rewrite Nat2Z.id, take_app_length. do 3 f_equal.
  rewrite H, <- drop_drop, drop_app_length, drop_app_length. reflexivity.
Qed.

Lemma overwrite_start {A} (m src : list A) :
  zlen src <= zlen m -> overwrite m 0 src = Ret (src ++ drop (length src) m).
Proof.
  intros H. unfold overwrite. destruct (Z.leb_spec (0 + zlen src) (zlen m)); [|lia]. reflexivity.
Qed.

Lemma overwrite_zeros src n :
  zlen src <= Z.of_nat n -> overwrite (zeros n) 0 src = Ret (src ++ zeros (n - length src)).
Proof.
  intros H. unfold overwrite.
  destruct (Z.leb_spec 0 0); [|lia]. rewrite zlen_zeros.
  destruct (Z.leb_spec (0 + zlen src) (Z.of_nat n)); [|lia]. cbn.
  unfold zeros. now rewrite drop_replicate.
Qed.

(** Big-endian encoding round trips. *)
Lemma be16_enc16 x : 0 <= x < 65536 -> be16 (x / 256 mod 256) (x mod 256) = x.
Proof. intros; unfold be16; Z.to_euclidean_division_equations; lia. Qed.

Lemma be32_enc32 x : 0 <= x < 4294967296 ->
  be32 (x / 16777216 mod 256) (x / 65536 mod 256) (x / 256 mod 256) (x mod 256) = x.
Proof. intros; unfold be32; Z.to_euclidean_division_equations; lia. Qed.

Lemma be16_range b0 b1 : byte_ok b0 -> byte_ok b1 -> 0 <= be16 b0 b1 < 65536.
Proof. unfold byte_ok, be16; lia. Qed.

Lemma byte_ok_mod x : byte_ok (x mod 256).
Proof. apply Z.mod_pos_bound; lia. Qed.

Lemma enc16_ok x : bytes_ok (enc16 x).
Proof. repeat constructor; apply byte_ok_mod. Qed.
Lemma enc32_ok x : bytes_ok (enc32 x).
Proof. repeat constructor; apply byte_ok_mod. Qed.

Lemma rd16_mid pre l post k :
  0 <= k -> k + 2 <= zlen l -> rd16 (pre ++ l ++ post) (zlen pre + k) = rd16 l k.
Proof.
  intros H0 H2. unfold rd16. rewrite <- Z.add_assoc, !rd_mid by lia. reflexivity.
Qed.

Lemma rd32_mid pre l post k :
  0 <= k -> k + 4 <= zlen l -> rd32 (pre ++ l ++ post) (zlen pre + k) = rd32 l k.
Proof.
  intros H0 H2. unfold rd32. rewrite <- !Z.add_assoc, !rd_mid by lia. reflexivity.
Qed.

#[export] Hint Resolve enc16_ok enc32_ok byte_ok_mod : vocal.

Lemma put_fits cap out src : zlen out + zlen src <= cap -> put cap out src = Ret (out ++ src).
Proof. intros H. unfold put. now destruct (Z.leb_spec (zlen out + zlen src) cap); [|lia]. Qed.

Lemma put_outcome cap out src : put cap out src = Ret (out ++ src) \/ cap < zlen out + zlen src.
Proof. unfold put. destruct (Z.leb_spec (zlen out + zlen src) cap); auto. Qed.

Lemma cstr_nonzero l k : Forall (fun b => b <> 0) l -> cstr (l ++ 0 :: k) = l.
Proof.
  induction 1 as [|b l Hb _ IH]; cbn; [reflexivity|].
  destruct (Z.eqb_spec b 0); [contradiction | now rewrite IH].
Qed.

(** * Bit fields

    Masks and shifts of non-overlapping fields as division and addition. *)

Lemma lor_add a b k : 0 <= k -> 0 <= b < 2 ^ k -> Z.lor (Z.shiftl a k) b = a * 2 ^ k + b.
Proof.
  intros Hk Hb. rewrite <- Z.shiftl_mul_pow2, <- Z.add_lor_land by assumption.
  replace (Z.land (Z.shiftl a k) b) with 0; [lia|]. symmetry. apply Z.bits_inj'. intros n Hn.
  rewrite Z.land_spec, Z.bits_0. destruct (Z.lt_ge_cases n k).
  - now rewrite Z.shiftl_spec_low.
  - rewrite <- (Z.mod_small b (2 ^ k)), Z.mod_pow2_bits_high by lia. apply andb_false_r.
Qed.

(** [(x & mask) >> k] for a field of [w] bits at position [k]. *)
Lemma field_shiftr x mask k w :
  0 <= k -> 0 <= w -> Z.shiftr mask k = Z.ones w ->
  Z.shiftr (Z.land x mask) k = x / 2 ^ k mod 2 ^ w.
Proof.
  intros Hk Hw Hm. rewrite Z.shiftr_land, Hm, Z.land_ones, Z.shiftr_div_pow2 by assumption.
  reflexivity.
Qed.

Lemma field_low x w : 0 <= w -> Z.land x (Z.ones w) = x mod 2 ^ w.
Proof. apply Z.land_ones. Qed.
