(* ===== verification/Stun.v ===== *)
(** The STUN message codec of stund/stun.h and stund/stun.cxx: the message
    structures, [stunParseMessage] with its attribute parsers, and
    [stunEncodeMessage] with its attribute encoders.

    Output parameters of the C++ functions are returned next to the [bool]
    result, also when the result is [false]: [stunNatType] uses a message
    whatever [stunParseMessage] returned.  A pointer into the received
    datagram is the buffer and an offset.  The attribute structures and their
    [hasX] flags of [StunMessage] are kept together as [attr]. *)
From S2P Require Import Prelude.

Module Stun.

(** * Constants of stun.h *)

Definition STUN_MAX_STRING : Z := 256.
Definition STUN_MAX_UNKNOWN_ATTRIBUTES : Z := 4.
Definition STUN_MAX_MESSAGE_SIZE : Z := 2048.

Definition IPv4Family : Z := 1.
Definition IPv6Family : Z := 2.
Definition ChangeIpFlag : Z := 4.
Definition ChangePortFlag : Z := 2.

Definition MappedAddress : Z := 1.
Definition ResponseAddress : Z := 2.
Definition ChangeRequest : Z := 3.
Definition SourceAddress : Z := 4.
Definition ChangedAddress : Z := 5.
Definition Username : Z := 6.
Definition Password : Z := 7.
Definition MessageIntegrity : Z := 8.
Definition ErrorCode : Z := 9.
Definition UnknownAttribute : Z := 10.
Definition ReflectedFrom : Z := 11.

Definition BindRequestMsg : Z := 0x0001.
Definition BindResponseMsg : Z := 0x0101.
Definition BindErrorResponseMsg : Z := 0x0111.
Definition SharedSecretRequestMsg : Z := 0x0002.
Definition SharedSecretResponseMsg : Z := 0x0102.
Definition SharedSecretErrorResponseMsg : Z := 0x0112.

(** * Structures of stun.h *)

Record StunMsgHdr := mkStunMsgHdr { msgType : Z; msgLength : Z; id : bytes }.

Record StunAddress4 := mkStunAddress4 { port : Z; addr : Z }.

Record StunAtrAddress4 := mkStunAtrAddress4 { pad : Z; family : Z; ipv4 : StunAddress4 }.

Record StunAtrChangeRequest := mkStunAtrChangeRequest { value : Z }.

Record StunAtrError := mkStunAtrError {
  errPad : Z; errorClass : Z; number : Z; reason : bytes; sizeReason : Z
}.

Record StunAtrUnknown := mkStunAtrUnknown { attrType : list Z; numAttributes : Z }.

Record StunAtrString := mkStunAtrString { strValue : bytes; sizeValue : Z }.

Record StunAtrIntegrity := mkStunAtrIntegrity { hash : bytes }.

(** [hasX] and [x] of [StunMessage]. *)
Record attr (A : Type) := mkAttr { has : bool; val : A }.
Arguments mkAttr {A}.
Arguments has {A}.
Arguments val {A}.

(** [sizeof] of the structures whose size the parsers compare with. *)
Definition sizeof_StunMsgHdr : Z := 20.
Definition sizeof_StunAtrError : Z := 262.
Definition sizeof_StunAtrUnknown : Z := 10.

Record StunMessage := mkStunMessage {
  msgHdr : StunMsgHdr;
  mappedAddress : attr StunAtrAddress4;
  responseAddress : attr StunAtrAddress4;
  changeRequest : attr StunAtrChangeRequest;
  sourceAddress : attr StunAtrAddress4;
  changedAddress : attr StunAtrAddress4;
  username : attr StunAtrString;
  password : attr StunAtrString;
  messageIntegrity : attr StunAtrIntegrity;
  errorCode : attr StunAtrError;
  unknownAttributes : attr StunAtrUnknown;
  reflectedFrom : attr StunAtrAddress4
}.

Definition set_msgHdr (v : StunMsgHdr) (m : StunMessage) : StunMessage :=
  {| msgHdr := v;
     mappedAddress := m.(mappedAddress);
     responseAddress := m.(responseAddress);
     changeRequest := m.(changeRequest);
     sourceAddress := m.(sourceAddress);
     changedAddress := m.(changedAddress);
     username := m.(username);
     password := m.(password);
     messageIntegrity := m.(messageIntegrity);
     errorCode := m.(errorCode);
     unknownAttributes := m.(unknownAttributes);
     reflectedFrom := m.(reflectedFrom) |}.
Definition set_mappedAddress (v : attr StunAtrAddress4) (m : StunMessage) : StunMessage :=
  {| msgHdr := m.(msgHdr);
     mappedAddress := v;
     responseAddress := m.(responseAddress);
     changeRequest := m.(changeRequest);
     sourceAddress := m.(sourceAddress);
     changedAddress := m.(changedAddress);
     username := m.(username);
     password := m.(password);
     messageIntegrity := m.(messageIntegrity);
     errorCode := m.(errorCode);
     unknownAttributes := m.(unknownAttributes);
     reflectedFrom := m.(reflectedFrom) |}.
Definition set_responseAddress (v : attr StunAtrAddress4) (m : StunMessage) : StunMessage :=
  {| msgHdr := m.(msgHdr);
     mappedAddress := m.(mappedAddress);
     responseAddress := v;
     changeRequest := m.(changeRequest);
     sourceAddress := m.(sourceAddress);
     changedAddress := m.(changedAddress);
     username := m.(username);
     password := m.(password);
     messageIntegrity := m.(messageIntegrity);
     errorCode := m.(errorCode);
     unknownAttributes := m.(unknownAttributes);
     reflectedFrom := m.(reflectedFrom) |}.
Definition set_changeRequest (v : attr StunAtrChangeRequest) (m : StunMessage) : StunMessage :=
  {| msgHdr := m.(msgHdr);
     mappedAddress := m.(mappedAddress);
     responseAddress := m.(responseAddress);
     changeRequest := v;
     sourceAddress := m.(sourceAddress);
     changedAddress := m.(changedAddress);
     username := m.(username);
     password := m.(password);
     messageIntegrity := m.(messageIntegrity);
     errorCode := m.(errorCode);
     unknownAttributes := m.(unknownAttributes);
     reflectedFrom := m.(reflectedFrom) |}.
Definition set_sourceAddress (v : attr StunAtrAddress4) (m : StunMessage) : StunMessage :=
  {| msgHdr := m.(msgHdr);
     mappedAddress := m.(mappedAddress);
     responseAddress := m.(responseAddress);
     changeRequest := m.(changeRequest);
     sourceAddress := v;
     changedAddress := m.(changedAddress);
     username := m.(username);
     password := m.(password);
     messageIntegrity := m.(messageIntegrity);
     errorCode := m.(errorCode);
     unknownAttributes := m.(unknownAttributes);
     reflectedFrom := m.(reflectedFrom) |}.
Definition set_changedAddress (v : attr StunAtrAddress4) (m : StunMessage) : StunMessage :=
  {| msgHdr := m.(msgHdr);
     mappedAddress := m.(mappedAddress);
     responseAddress := m.(responseAddress);
     changeRequest := m.(changeRequest);
     sourceAddress := m.(sourceAddress);
     changedAddress := v;
     username := m.(username);
     password := m.(password);
     messageIntegrity := m.(messageIntegrity);
     errorCode := m.(errorCode);
     unknownAttributes := m.(unknownAttributes);
     reflectedFrom := m.(reflectedFrom) |}.
Definition set_username (v : attr StunAtrString) (m : StunMessage) : StunMessage :=
  {| msgHdr := m.(msgHdr);
     mappedAddress := m.(mappedAddress);
     responseAddress := m.(responseAddress);
     changeRequest := m.(changeRequest);
     sourceAddress := m.(sourceAddress);
     changedAddress := m.(changedAddress);
     username := v;
     password := m.(password);
     messageIntegrity := m.(messageIntegrity);
     errorCode := m.(errorCode);
     unknownAttributes := m.(unknownAttributes);
     reflectedFrom := m.(reflectedFrom) |}.
Definition set_password (v : attr StunAtrString) (m : StunMessage) : StunMessage :=
  {| msgHdr := m.(msgHdr);
     mappedAddress := m.(mappedAddress);
     responseAddress := m.(responseAddress);
     changeRequest := m.(changeRequest);
     sourceAddress := m.(sourceAddress);
     changedAddress := m.(changedAddress);
     username := m.(username);
     password := v;
     messageIntegrity := m.(messageIntegrity);
     errorCode := m.(errorCode);
     unknownAttributes := m.(unknownAttributes);
     reflectedFrom := m.(reflectedFrom) |}.
Definition set_messageIntegrity (v : attr StunAtrIntegrity) (m : StunMessage) : StunMessage :=
  {| msgHdr := m.(msgHdr);
     mappedAddress := m.(mappedAddress);
     responseAddress := m.(responseAddress);
     changeRequest := m.(changeRequest);
     sourceAddress := m.(sourceAddress);
     changedAddress := m.(changedAddress);
     username := m.(username);
     password := m.(password);
     messageIntegrity := v;
     errorCode := m.(errorCode);
     unknownAttributes := m.(unknownAttributes);
     reflectedFrom := m.(reflectedFrom) |}.
Definition set_errorCode (v : attr StunAtrError) (m : StunMessage) : StunMessage :=
  {| msgHdr := m.(msgHdr);
     mappedAddress := m.(mappedAddress);
     responseAddress := m.(responseAddress);
     changeRequest := m.(changeRequest);
     sourceAddress := m.(sourceAddress);
     changedAddress := m.(changedAddress);
     username := m.(username);
     password := m.(password);
     messageIntegrity := m.(messageIntegrity);
     errorCode := v;
     unknownAttributes := m.(unknownAttributes);
     reflectedFrom := m.(reflectedFrom) |}.
Definition set_unknownAttributes (v : attr StunAtrUnknown) (m : StunMessage) : StunMessage :=
  {| msgHdr := m.(msgHdr);
     mappedAddress := m.(mappedAddress);
     responseAddress := m.(responseAddress);
     changeRequest := m.(changeRequest);
     sourceAddress := m.(sourceAddress);
     changedAddress := m.(changedAddress);
     username := m.(username);
     password := m.(password);
     messageIntegrity := m.(messageIntegrity);
     errorCode := m.(errorCode);
     unknownAttributes := v;
     reflectedFrom := m.(reflectedFrom) |}.
Definition set_reflectedFrom (v : attr StunAtrAddress4) (m : StunMessage) : StunMessage :=
  {| msgHdr := m.(msgHdr);
     mappedAddress := m.(mappedAddress);
     responseAddress := m.(responseAddress);
     changeRequest := m.(changeRequest);
     sourceAddress := m.(sourceAddress);
     changedAddress := m.(changedAddress);
     username := m.(username);
     password := m.(password);
     messageIntegrity := m.(messageIntegrity);
     errorCode := m.(errorCode);
     unknownAttributes := m.(unknownAttributes);
     reflectedFrom := v |}.

(** [memset(&msg, 0, sizeof(msg))] *)
Definition zeroAddress4 : StunAtrAddress4 := mkStunAtrAddress4 0 0 (mkStunAddress4 0 0).
Definition zeroString : StunAtrString := mkStunAtrString (zeros 256) 0.
Definition zeroMessage : StunMessage :=
  {| msgHdr := mkStunMsgHdr 0 0 (zeros 16);
     mappedAddress := mkAttr false zeroAddress4;
     responseAddress := mkAttr false zeroAddress4;
     changeRequest := mkAttr false (mkStunAtrChangeRequest 0);
     sourceAddress := mkAttr false zeroAddress4;
     changedAddress := mkAttr false zeroAddress4;
     username := mkAttr false zeroString;
     password := mkAttr false zeroString;
     messageIntegrity := mkAttr false (mkStunAtrIntegrity (zeros 20));
     errorCode := mkAttr false (mkStunAtrError 0 0 0 (zeros 256) 0);
     unknownAttributes := mkAttr false (mkStunAtrUnknown (zeros 4) 0);
     reflectedFrom := mkAttr false zeroAddress4 |}.

(** * Attribute parsers *)

Definition stunParseAtrAddress (buf : bytes) (body hdrLen : Z) (result : StunAtrAddress4)
  : outcome (bool * StunAtrAddress4) :=
  if negb (hdrLen =? 8) then mret (false, result)
  else
    b0 ← rd buf body;
    b1 ← rd buf (body + 1);
    if b1 =? IPv4Family then
      nport ← rd16 buf (body + 2);
      naddr ← rd32 buf (body + 4);
      mret (true, mkStunAtrAddress4 b0 b1 (mkStunAddress4 nport naddr))
    else mret (false, mkStunAtrAddress4 b0 b1 (ipv4 result)).

Definition stunParseAtrChangeRequest (buf : bytes) (body hdrLen : Z)
  (result : StunAtrChangeRequest) : outcome (bool * StunAtrChangeRequest) :=
  if negb (hdrLen =? 4) then mret (false, result)
  else
    v ← rd32 buf body;
    mret (true, mkStunAtrChangeRequest v).

(** [sizeReason] is a [UInt16], [hdrLen - 4] an [unsigned int]. *)
Definition stunParseAtrError (buf : bytes) (body hdrLen : Z) (result : StunAtrError)
  : outcome (bool * StunAtrError) :=
  if sizeof_StunAtrError <=? hdrLen then mret (false, result)
  else
    p ← rd16 buf body;
    cl ← rd buf (body + 2);
    nb ← rd buf (body + 3);
    let size := u16 (u32 (hdrLen - 4)) in
    src ← slice buf (body + 4) size;
    r ← overwrite (reason result) 0 src;
    r ← wr r size 0;
    mret (true, mkStunAtrError p cl nb r size).

Fixpoint parseUnknownLoop (n : nat) (buf : bytes) (body i : Z) (types : list Z)
  : outcome (list Z) :=
  match n with
  | O => mret types
  | S n' =>
      t ← rd16 buf body;
      types ← wr types i t;
      parseUnknownLoop n' buf (body + 2) (i + 1) types
  end.

Definition stunParseAtrUnknown (buf : bytes) (body hdrLen : Z) (result : StunAtrUnknown)
  : outcome (bool * StunAtrUnknown) :=
  if sizeof_StunAtrUnknown <=? hdrLen then mret (false, result)
  else if negb (hdrLen mod 4 =? 0) then mret (false, result)
  else
    let n := hdrLen / 4 in
    types ← parseUnknownLoop (Z.to_nat n) buf body 0 (attrType result);
    mret (true, mkStunAtrUnknown types n).

Definition stunParseAtrString (buf : bytes) (body hdrLen : Z) (result : StunAtrString)
  : outcome (bool * StunAtrString) :=
  if STUN_MAX_STRING <=? hdrLen then mret (false, result)
  else if negb (hdrLen mod 4 =? 0) then mret (false, result)
  else
    src ← slice buf body hdrLen;
    v ← overwrite (strValue result) 0 src;
    v ← wr v hdrLen 0;
    mret (true, mkStunAtrString v hdrLen).

Definition stunParseAtrIntegrity (buf : bytes) (body hdrLen : Z) (result : StunAtrIntegrity)
  : outcome (bool * StunAtrIntegrity) :=
  if negb (hdrLen =? 20) then mret (false, result)
  else
    src ← slice buf body hdrLen;
    h ← overwrite (hash result) 0 src;
    mret (true, mkStunAtrIntegrity h).

(** One case of the [switch] of [stunParseMessage]: the [hasX] flag is set
    before the attribute is parsed. *)
Definition parseInto {A} (parser : bytes -> Z -> Z -> A -> outcome (bool * A))
  (buf : bytes) (body attrLen : Z) (get : StunMessage -> attr A)
  (set : attr A -> StunMessage -> StunMessage) (msg : StunMessage)
  : outcome (bool * StunMessage) :=
  '(ok, a) ← parser buf body attrLen (val (get msg));
  mret (ok, set (mkAttr true a) msg).

Definition parseAttr (buf : bytes) (body attrLen atrType : Z) (msg : StunMessage)
  : outcome (bool * StunMessage) :=
  if atrType =? MappedAddress then
    parseInto stunParseAtrAddress buf body attrLen mappedAddress set_mappedAddress msg
  else if atrType =? ResponseAddress then
    parseInto stunParseAtrAddress buf body attrLen responseAddress set_responseAddress msg
  else if atrType =? ChangeRequest then
    parseInto stunParseAtrChangeRequest buf body attrLen changeRequest set_changeRequest msg
  else if atrType =? SourceAddress then
    parseInto stunParseAtrAddress buf body attrLen sourceAddress set_sourceAddress msg
  else if atrType =? ChangedAddress then
    parseInto stunParseAtrAddress buf body attrLen changedAddress set_changedAddress msg
  else if atrType =? Username then
    parseInto stunParseAtrString buf body attrLen username set_username msg
  else if atrType =? Password then
    parseInto stunParseAtrString buf body attrLen password set_password msg
  else if atrType =? MessageIntegrity then
    parseInto stunParseAtrIntegrity buf body attrLen messageIntegrity set_messageIntegrity msg
  else if atrType =? ErrorCode then
    parseInto stunParseAtrError buf body attrLen errorCode set_errorCode msg
  else if atrType =? UnknownAttribute then
    parseInto stunParseAtrUnknown buf body attrLen unknownAttributes set_unknownAttributes msg
  else if atrType =? ReflectedFrom then
    parseInto stunParseAtrAddress buf body attrLen reflectedFrom set_reflectedFrom msg
  else mret (negb (atrType <=? 0x7FFF), msg).

(** The [while ( size > 0 )] loop. *)
Fixpoint parseAttrs (fuel : nat) (buf : bytes) (body size : Z) (msg : StunMessage)
  : outcome (bool * StunMessage) :=
  match fuel with
  | O => Fault OutOfFuel
  | S fuel' =>
      if negb (0 <? size) then mret (true, msg)
      else
        attrLen ← rd16 buf (body + 2);
        atrType ← rd16 buf body;
        if size <? attrLen + 4 then mret (false, msg)
        else
          '(ok, msg) ← parseAttr buf (body + 4) attrLen atrType msg;
          if negb ok then mret (false, msg)
          else parseAttrs fuel' buf (body + 4 + attrLen) (size - 4 - attrLen) msg
  end.

Definition stunParseMessage (buf : bytes) (bufLen : Z) : outcome (bool * StunMessage) :=
  let msg := zeroMessage in
  if bufLen <? sizeof_StunMsgHdr then mret (false, msg)
  else
    ty ← rd16 buf 0;
    len ← rd16 buf 2;
    tid ← slice buf 4 16;
    let msg := set_msgHdr (mkStunMsgHdr ty len tid) msg in
    if negb (len + sizeof_StunMsgHdr =? bufLen) then mret (false, msg)
    else parseAttrs (S (Z.to_nat len)) buf sizeof_StunMsgHdr len msg.

(** * Encoders

    The buffer written so far, [cap] the size of the destination array. *)

Definition encode16 (cap : Z) (out : bytes) (data : Z) : outcome bytes :=
  put cap out (enc16 data).

Definition encode32 (cap : Z) (out : bytes) (data : Z) : outcome bytes :=
  put cap out (enc32 data).

Definition encode (cap : Z) (out : bytes) (data : bytes) (length : Z) : outcome bytes :=
  src ← slice data 0 length;
  put cap out src.

Definition encodeAtrAddress4 (cap : Z) (ptr : bytes) (type : Z) (atr : StunAtrAddress4)
  : outcome bytes :=
  ptr ← encode16 cap ptr type;
  ptr ← encode16 cap ptr 8;
  ptr ← put cap ptr [pad atr];
  ptr ← put cap ptr [IPv4Family];
  ptr ← encode16 cap ptr (port (ipv4 atr));
  encode32 cap ptr (addr (ipv4 atr)).

Definition encodeAtrChangeRequest (cap : Z) (ptr : bytes) (atr : StunAtrChangeRequest)
  : outcome bytes :=
  ptr ← encode16 cap ptr ChangeRequest;
  ptr ← encode16 cap ptr 4;
  encode32 cap ptr (value atr).

Definition encodeAtrError (cap : Z) (ptr : bytes) (atr : StunAtrError) : outcome bytes :=
  ptr ← encode16 cap ptr ErrorCode;
  ptr ← encode16 cap ptr (6 + sizeReason atr);
  ptr ← encode16 cap ptr (errPad atr);
  ptr ← put cap ptr [errorClass atr];
  ptr ← put cap ptr [number atr];
  encode cap ptr (reason atr) (sizeReason atr).

Fixpoint encodeUnknownLoop (n : nat) (cap : Z) (ptr : bytes) (i : Z) (types : list Z)
  : outcome bytes :=
  match n with
  | O => mret ptr
  | S n' =>
      t ← rd types i;
      ptr ← encode16 cap ptr t;
      encodeUnknownLoop n' cap ptr (i + 1) types
  end.

Definition encodeAtrUnknown (cap : Z) (ptr : bytes) (atr : StunAtrUnknown) : outcome bytes :=
  ptr ← encode16 cap ptr UnknownAttribute;
  ptr ← encode16 cap ptr (2 + 2 * numAttributes atr);
  encodeUnknownLoop (Z.to_nat (numAttributes atr)) cap ptr 0 (attrType atr).

Definition encodeAtrString (cap : Z) (ptr : bytes) (type : Z) (atr : StunAtrString)
  : outcome bytes :=
  _ ← cassert (sizeValue atr mod 4 =? 0);
  ptr ← encode16 cap ptr type;
  ptr ← encode16 cap ptr (sizeValue atr);
  encode cap ptr (strValue atr) (sizeValue atr).

Definition encodeAtrIntegrity (cap : Z) (ptr : bytes) (atr : StunAtrIntegrity)
  : outcome bytes :=
  ptr ← encode16 cap ptr MessageIntegrity;
  ptr ← encode16 cap ptr 20;
  encode cap ptr (hash atr) 20.

(** [if (msg.hasX) ptr = encodeX(ptr, msg.x);] *)
Definition encodeIf {A} (enc : bytes -> A -> outcome bytes) (a : attr A) (ptr : bytes)
  : outcome bytes :=
  if has a then enc ptr (val a) else mret ptr.

Section Encode.

(** [HMAC(EVP_sha1(), key, data)] of OpenSSL. *)
Variable hmac_sha1 : bytes -> bytes -> bytes.

(** [computeHmac]: the key is the first [sizeKey] bytes of the array, and the
    digest is checked to have 20 bytes. *)
Definition computeHmac (input key : bytes) (sizeKey : Z) : outcome bytes :=
  k ← slice key 0 sizeKey;
  let h := hmac_sha1 k input in
  _ ← cassert (zlen h =? 20);
  mret h.

(** The attributes, in the order of the [if]s of [stunEncodeMessage]. *)
Definition encodeAttrs (msg : StunMessage) (cap : Z) (ptr : bytes) : outcome bytes :=
  ptr ← encodeIf (fun p => encodeAtrAddress4 cap p MappedAddress) (mappedAddress msg) ptr;
  ptr ← encodeIf (fun p => encodeAtrAddress4 cap p ResponseAddress) (responseAddress msg) ptr;
  ptr ← encodeIf (encodeAtrChangeRequest cap) (changeRequest msg) ptr;
  ptr ← encodeIf (fun p => encodeAtrAddress4 cap p SourceAddress) (sourceAddress msg) ptr;
  ptr ← encodeIf (fun p => encodeAtrAddress4 cap p ChangedAddress) (changedAddress msg) ptr;
  ptr ← encodeIf (fun p => encodeAtrString cap p Username) (username msg) ptr;
  ptr ← encodeIf (fun p => encodeAtrString cap p Password) (password msg) ptr;
  ptr ← encodeIf (encodeAtrError cap) (errorCode msg) ptr;
  ptr ← encodeIf (encodeAtrUnknown cap) (unknownAttributes msg) ptr;
  encodeIf (fun p => encodeAtrAddress4 cap p ReflectedFrom) (reflectedFrom msg) ptr.

(** The bytes written to [buf]; their number is the C++ result.  The digest is
    taken while the length field of the header is still zero. *)
Definition stunEncodeMessage (msg : StunMessage) (bufLen : Z) (passwd : StunAtrString)
  : outcome bytes :=
  _ ← cassert (sizeof_StunMsgHdr <=? bufLen);
  ptr ← encode16 bufLen [] (msgType (msgHdr msg));
  ptr ← encode16 bufLen ptr 0;
  ptr ← encode bufLen ptr (id (msgHdr msg)) 16;
  ptr ← encodeAttrs msg bufLen ptr;
  ptr ← (if 0 <? sizeValue passwd then
           h ← computeHmac ptr (strValue passwd) (sizeValue passwd);
           encodeAtrIntegrity bufLen ptr (mkStunAtrIntegrity h)
         else mret ptr);
  overwrite ptr 2 (enc16 (zlen ptr - sizeof_StunMsgHdr)).

End Encode.
End Stun.
