(* ===== verification/StunFacts.v ===== *)
(** Theorems about the STUN codec of [Stun]: the attribute loop terminates, a
    message survives encoding and parsing, parsing a well-delimited datagram
    stays inside it, and the two attributes whose encoder writes a wrong
    length. *)
From S2P Require Import Prelude Stun.
Import Stun.

Module StunFacts.

(** * The attribute loop *)

(** The attribute [type, length, value] as it stands in a datagram. *)
Definition tlv (ty : Z) (b : bytes) : bytes := enc16 ty ++ enc16 (zlen b) ++ b.

Lemma zlen_tlv ty b : zlen (tlv ty b) = 4 + zlen b.
Proof. unfold tlv. zlen_lia. Qed.
#[export] Hint Rewrite zlen_tlv : zlen.

Lemma rd16_enc16 x l : 0 <= x < 65536 -> rd16 (enc16 x ++ l) 0 = Ret x.
Proof.
  intros Hx. transitivity (Ret (be16 (x / 256 mod 256) (x mod 256))); [reflexivity|].
  now rewrite be16_enc16.
Qed.

Lemma rd16_enc16' x : 0 <= x < 65536 -> rd16 (enc16 x) 0 = Ret x.
Proof. intros Hx. rewrite <- (app_nil_r (enc16 x)). now apply rd16_enc16. Qed.

Lemma rd16_tlv_length ty b : zlen b < 65536 -> rd16 (tlv ty b) 2 = Ret (zlen b).
Proof.
  intros Hx. pose proof (zlen_nonneg b).
  transitivity (Ret (be16 (zlen b / 256 mod 256) (zlen b mod 256))); [reflexivity|].
  now rewrite be16_enc16.
Qed.

Lemma rd16_range buf off x : bytes_ok buf -> rd16 buf off = Ret x -> 0 <= x < 65536.
Proof.
  intros Hb (b0 & H0 & (b1 & H1 & [= <-])%bind_Ret_inv)%bind_Ret_inv.
  apply be16_range; eapply rd_bytes_ok; eauto.
Qed.

(** One iteration, for a size that is not exhausted. *)
Lemma parseAttrs_unfold f buf body size msg :
  0 < size ->
  parseAttrs (S f) buf body size msg =
  (attrLen ← rd16 buf (body + 2);
   atrType ← rd16 buf body;
   if size <? attrLen + 4 then mret (false, msg)
   else
     '(ok, msg) ← parseAttr buf (body + 4) attrLen atrType msg;
     if negb ok then mret (false, msg)
     else parseAttrs f buf (body + 4 + attrLen) (size - 4 - attrLen) msg).
Proof. intros H. cbn. destruct (Z.ltb_spec 0 size); [reflexivity | lia]. Qed.

Lemma parseAttrs_done f buf body msg : parseAttrs (S f) buf body 0 msg = Ret (true, msg).
Proof. reflexivity. Qed.

Lemma parseAttrs_fuel f1 f2 buf body size msg :
  0 <= size -> size < Z.of_nat f1 -> size < Z.of_nat f2 -> bytes_ok buf ->
  parseAttrs f1 buf body size msg = parseAttrs f2 buf body size msg.
Proof.
  revert f2 body size msg. induction f1 as [|f1 IH]; intros f2 body size msg H0 H1 H2 Hb; [lia|].
  destruct f2 as [|f2]; [lia|].
  destruct (Z.eq_dec size 0) as [->|Hs]; [reflexivity|].
  rewrite !parseAttrs_unfold by lia.
  apply bind_ext; intros len Hlen. apply rd16_range in Hlen; [|assumption].
  apply bind_ext; intros ty _.
  destruct (Z.ltb_spec size (len + 4)); [reflexivity|].
  apply bind_ext; intros [[] m] _; cbn; [|reflexivity].
  apply IH; auto; lia.
Qed.

(** The loop over [size] bytes of attributes, with enough fuel. *)
Definition parse_all (buf : bytes) (body size : Z) (msg : StunMessage) :=
  parseAttrs (S (Z.to_nat size)) buf body size msg.

Lemma parse_all_tlv pre ty b post size msg :
  bytes_ok (pre ++ tlv ty b ++ post) -> 0 <= ty < 65536 -> zlen b < 65536 ->
  4 + zlen b <= size ->
  parse_all (pre ++ tlv ty b ++ post) (zlen pre) size msg =
  ('(ok, msg) ← parseAttr (pre ++ tlv ty b ++ post) (zlen pre + 4) (zlen b) ty msg;
   if negb ok then mret (false, msg)
   else parse_all (pre ++ tlv ty b ++ post) (zlen (pre ++ tlv ty b)) (size - zlen (tlv ty b)) msg).
Proof.
  intros Hb Hty Hlen Hsize. unfold parse_all at 1.
  pose proof (zlen_nonneg b). rewrite parseAttrs_unfold by lia.
  assert (rd16 (pre ++ tlv ty b ++ post) (zlen pre + 2) = Ret (zlen b)) as ->.
  { rewrite rd16_mid by zlen_lia. now apply rd16_tlv_length. }
  assert (rd16 (pre ++ tlv ty b ++ post) (zlen pre) = Ret ty) as ->.
  { rewrite <- (Z.add_0_r (zlen pre)), rd16_mid by zlen_lia. now apply rd16_enc16. }
  cbn [mbind outcome_bind]. destruct (Z.ltb_spec size (zlen b + 4)); [lia|].
  apply bind_ext; intros [[] m] _; cbn [negb]; [|reflexivity].
  rewrite zlen_app, zlen_tlv. unfold parse_all.
  replace (zlen pre + 4 + zlen b) with (zlen pre + (4 + zlen b)) by lia.
  replace (size - 4 - zlen b) with (size - (4 + zlen b)) by lia.
  apply parseAttrs_fuel; auto; lia.
Qed.


(** * Staying inside the datagram *)

(** The array members keep the sizes they have in stun.h. *)
Definition arrays_ok (m : StunMessage) : Prop :=
  zlen (strValue (val (username m))) = 256 /\ zlen (strValue (val (password m))) = 256 /\
  zlen (reason (val (errorCode m))) = 256 /\ zlen (attrType (val (unknownAttributes m))) = 4 /\
  zlen (hash (val (messageIntegrity m))) = 20.

Lemma arrays_ok_zero hdr : arrays_ok (set_msgHdr hdr zeroMessage).
Proof. repeat split. Qed.

Lemma rd16_in_range m off : 0 <= off -> off + 2 <= zlen m -> exists x, rd16 m off = Ret x.
Proof.
  intros H0 H1. unfold rd16.
  destruct (rd_in_range m off) as [? ->]; [lia|].
  destruct (rd_in_range m (off + 1)) as [? ->]; [lia|]. cbn; eauto.
Qed.

Lemma rd32_in_range m off : 0 <= off -> off + 4 <= zlen m -> exists x, rd32 m off = Ret x.
Proof.
  intros H0 H1. unfold rd32.
  destruct (rd_in_range m off) as [? ->]; [lia|].
  destruct (rd_in_range m (off + 1)) as [? ->]; [lia|].
  destruct (rd_in_range m (off + 2)) as [? ->]; [lia|].
  destruct (rd_in_range m (off + 3)) as [? ->]; [lia|]. cbn; eauto.
Qed.

Lemma overwrite_in_range {A} (m src : list A) off :
  0 <= off -> off + zlen src <= zlen m ->
  exists m', overwrite m off src = Ret m' /\ zlen m' = zlen m.
Proof.
  intros H0 H1. destruct (overwrite m off src) as [m'|] eqn:E.
  - eauto using overwrite_Ret_zlen.
  - exfalso. unfold overwrite in E.
    destruct (Z.leb_spec 0 off), (Z.leb_spec (off + zlen src) (zlen m)); try lia; discriminate.
Qed.

Lemma wr_in_range {A} (m : list A) i b :
  0 <= i < zlen m -> exists m', wr m i b = Ret m' /\ zlen m' = zlen m.
Proof.
  intros H. unfold wr. destruct (Z.leb_spec 0 i), (Z.ltb_spec i (zlen m)); try lia.
  eexists; split; [reflexivity | apply zlen_insert].
Qed.

(** Steps over a bounds-checked access whose bounds [lia] can check. *)
Ltac step_in_range :=
  match goal with
  | |- context [rd ?m ?i] =>
      let b := fresh "b" in destruct (rd_in_range m i) as [b ->]; [lia|]
  | |- context [rd16 ?m ?i] =>
      let x := fresh "x" in destruct (rd16_in_range m i) as [x ->]; [lia|lia|]
  | |- context [rd32 ?m ?i] =>
      let x := fresh "x" in destruct (rd32_in_range m i) as [x ->]; [lia|lia|]
  | |- context [slice ?m ?o ?n] =>
      let l := fresh "l" in destruct (slice_in_range m o n) as (l & -> & ?); [lia|lia|lia|]
  | |- context [overwrite ?m ?o ?s] =>
      let l := fresh "l" in destruct (overwrite_in_range m s o) as (l & -> & ?); [lia|lia|]
  | |- context [wr ?m ?i ?b] =>
      let l := fresh "l" in destruct (wr_in_range m i b) as (l & -> & ?); [lia|]
  end; cbn [mbind outcome_bind].

(** Closes [exists ok a, Ret .. = Ret (ok, a) /\ size of a]. *)
Ltac ret_pair := cbn; do 2 eexists; split; [reflexivity | cbn; first [assumption | lia]].

Section InRange.
Context (buf : bytes) (body len : Z).
Hypothesis Hbody : 0 <= body.
Hypothesis Hlen : 0 <= len.
Hypothesis Hin : body + len <= zlen buf.

Lemma parseAtrAddress_in_range r : exists a, stunParseAtrAddress buf body len r = Ret a.
Proof.
  unfold stunParseAtrAddress. destruct (Z.eqb_spec len 8); cbn [negb]; [|eauto].
  do 2 step_in_range. destruct (_ =? _); [|cbn; eauto]. do 2 step_in_range. cbn; eauto.
Qed.

Lemma parseAtrChangeRequest_in_range r :
  exists a, stunParseAtrChangeRequest buf body len r = Ret a.
Proof.
  unfold stunParseAtrChangeRequest. destruct (Z.eqb_spec len 4); cbn [negb]; [|eauto].
  step_in_range. cbn; eauto.
Qed.

Lemma parseAtrError_in_range r :
  4 <= len < 260 -> zlen (reason r) = 256 ->
  exists ok a, stunParseAtrError buf body len r = Ret (ok, a) /\ zlen (reason a) = 256.
Proof.
  intros Hl Hr. unfold stunParseAtrError, sizeof_StunAtrError.
  destruct (Z.leb_spec 262 len); [lia|].
  do 3 step_in_range. rewrite (wrap_small 32), (wrap_small 16) by lia.
  do 3 step_in_range. ret_pair.
Qed.

Lemma parseUnknownLoop_in_range n : forall bd i types,
  0 <= bd -> bd + 2 * Z.of_nat n <= zlen buf -> 0 <= i -> i + Z.of_nat n <= zlen types ->
  exists t, parseUnknownLoop n buf bd i types = Ret t /\ zlen t = zlen types.
Proof.
  clear. induction n as [|n IH]; intros bd i types H0 H1 H2 H3; cbn [parseUnknownLoop]; [cbn; eauto|].
  do 2 step_in_range. destruct (IH (bd + 2) (i + 1) l) as (t & -> & ?); try lia.
  eexists; split; [reflexivity | lia].
Qed.

Lemma parseAtrUnknown_in_range r :
  zlen (attrType r) = 4 ->
  exists ok a, stunParseAtrUnknown buf body len r = Ret (ok, a) /\ zlen (attrType a) = 4.
Proof.
  intros Hr. unfold stunParseAtrUnknown, sizeof_StunAtrUnknown.
  destruct (Z.leb_spec 10 len); [ret_pair|].
  destruct (Z.eqb_spec (len mod 4) 0); cbn [negb]; [|cbn; eauto].
  destruct (parseUnknownLoop_in_range (Z.to_nat (len / 4)) body 0 (attrType r)) as (t & -> & ?);
    try (Z.to_euclidean_division_equations; lia).
  ret_pair.
Qed.

Lemma parseAtrString_in_range r :
  zlen (strValue r) = 256 ->
  exists ok a, stunParseAtrString buf body len r = Ret (ok, a) /\ zlen (strValue a) = 256.
Proof.
  intros Hr. unfold stunParseAtrString, STUN_MAX_STRING.
  destruct (Z.leb_spec 256 len); [ret_pair|].
  destruct (Z.eqb_spec (len mod 4) 0); cbn [negb]; [|cbn; eauto].
  do 3 step_in_range. ret_pair.
Qed.

Lemma parseAtrIntegrity_in_range r :
  zlen (hash r) = 20 ->
  exists ok a, stunParseAtrIntegrity buf body len r = Ret (ok, a) /\ zlen (hash a) = 20.
Proof.
  intros Hr. unfold stunParseAtrIntegrity.
  destruct (Z.eqb_spec len 20); cbn [negb]; [|cbn; eauto].
  do 2 step_in_range. ret_pair.
Qed.

(** One attribute, of any type, inside the buffer. *)
Lemma parseAttr_in_range ty m :
  arrays_ok m -> (ty = ErrorCode -> 4 <= len < 260) ->
  exists ok m', parseAttr buf body len ty m = Ret (ok, m') /\ arrays_ok m'.
Proof.
  intros (Hu & Hp & He & Hk & Hh) Herr. unfold parseAttr, parseInto.
  repeat (match goal with |- context [if ?b then _ else _] => destruct b eqn:? end;
    [ first
      [ match goal with |- context [stunParseAtrAddress _ _ _ ?r] =>
          destruct (parseAtrAddress_in_range r) as [[] ->] end
      | match goal with |- context [stunParseAtrChangeRequest _ _ _ ?r] =>
          destruct (parseAtrChangeRequest_in_range r) as [[] ->] end
      | match goal with |- context [stunParseAtrString _ _ _ ?r] =>
          destruct (parseAtrString_in_range r) as (? & ? & -> & ?); [assumption|] end
      | match goal with |- context [stunParseAtrIntegrity _ _ _ ?r] =>
          destruct (parseAtrIntegrity_in_range r) as (? & ? & -> & ?); [assumption|] end
      | match goal with |- context [stunParseAtrUnknown _ _ _ ?r] =>
          destruct (parseAtrUnknown_in_range r) as (? & ? & -> & ?); [assumption|] end
      | match goal with |- context [stunParseAtrError _ _ _ ?r] =>
          destruct (parseAtrError_in_range r) as (? & ? & -> & ?);
            [apply Herr, Z.eqb_eq; assumption | assumption |] end ];
      cbn; do 2 eexists; split; [reflexivity | repeat split; assumption] |]).
  cbn; do 2 eexists; split; [reflexivity | repeat split; assumption].
Qed.

End InRange.

(** The attributes the loop visits: offset, length and type of each. *)
Inductive attr_at (buf : bytes) : Z -> Z -> Z -> Z -> Z -> Prop :=
| attr_here body size len ty :
    0 < size -> rd16 buf (body + 2) = Ret len -> rd16 buf body = Ret ty -> len + 4 <= size ->
    attr_at buf body size (body + 4) len ty
| attr_later body size len ty o l t :
    0 < size -> rd16 buf (body + 2) = Ret len -> rd16 buf body = Ret ty -> len + 4 <= size ->
    attr_at buf (body + 4 + len) (size - 4 - len) o l t ->
    attr_at buf body size o l t.

Lemma parseAttrs_in_range f : forall buf body size m,
  0 <= body -> 0 <= size < Z.of_nat f -> bytes_ok buf -> body + size + 3 <= zlen buf ->
  (forall o l t, attr_at buf body size o l t -> t = ErrorCode -> 4 <= l < 260) ->
  arrays_ok m ->
  exists ok m', parseAttrs f buf body size m = Ret (ok, m') /\ arrays_ok m'.
Proof.
  induction f as [|f IH]; intros buf body size m Hb Hs Hok Hlen Herr Hm; [lia|].
  destruct (Z.eq_dec size 0) as [->|Hne]; [ret_pair|].
  rewrite parseAttrs_unfold by lia.
  destruct (rd16_in_range buf (body + 2)) as [len Hl]; [lia|lia|].
  destruct (rd16_in_range buf body) as [ty Ht]; [lia|lia|].
  pose proof (rd16_range _ _ _ Hok Hl). rewrite Hl, Ht. cbn [mbind outcome_bind].
  destruct (Z.ltb_spec size (len + 4)); [ret_pair|].
  destruct (parseAttr_in_range buf (body + 4) len) with (ty := ty) (m := m)
    as ([] & m' & -> & Hm'); try lia; auto.
  - intros ->. eapply Herr; [eapply attr_here; eauto; lia | reflexivity].
  - cbn [mbind outcome_bind negb].
    apply IH; try lia; auto. intros o l t Hat. eapply Herr. eapply attr_later; eauto; lia.
  - cbn. eauto.
Qed.

(** * Encoding *)

(** The value part of each attribute on the wire. *)
Definition address_value (a : StunAtrAddress4) : bytes :=
  [pad a; IPv4Family] ++ enc16 (port (ipv4 a)) ++ enc32 (addr (ipv4 a)).
Definition change_value (a : StunAtrChangeRequest) : bytes := enc32 (value a).
Definition string_value (a : StunAtrString) : bytes := take (Z.to_nat (sizeValue a)) (strValue a).

(** An attribute that is present or not. *)
Definition opt_tlv {A} (ty : Z) (f : A -> bytes) (a : attr A) : bytes :=
  if has a then tlv ty (f (val a)) else [].

Definition address_wf (a : StunAtrAddress4) : Prop :=
  byte_ok (pad a) /\ 0 <= port (ipv4 a) < 65536 /\ 0 <= addr (ipv4 a) < 4294967296.
Definition string_wf (a : StunAtrString) : Prop :=
  sizeValue a mod 4 = 0 /\ 0 <= sizeValue a < 256 /\ zlen (strValue a) = 256 /\
  bytes_ok (strValue a).
Definition opt_wf {A} (P : A -> Prop) (a : attr A) : Prop := has a = true -> P (val a).

Record msg_wf (m : StunMessage) : Prop := {
  wf_type : 0 <= msgType (msgHdr m) < 65536;
  wf_id : zlen (id (msgHdr m)) = 16 /\ bytes_ok (id (msgHdr m));
  wf_mapped : opt_wf address_wf (mappedAddress m);
  wf_response : opt_wf address_wf (responseAddress m);
  wf_change : opt_wf (fun a => 0 <= value a < 4294967296) (changeRequest m);
  wf_source : opt_wf address_wf (sourceAddress m);
  wf_changed : opt_wf address_wf (changedAddress m);
  wf_username : opt_wf string_wf (username m);
  wf_password : opt_wf string_wf (password m);
  wf_reflected : opt_wf address_wf (reflectedFrom m)
}.

(** Runs a sequence of [put]s that fits. *)
Ltac run_puts :=
  unfold encode16, encode32;
  repeat (rewrite put_fits by zlen_lia; cbn [mbind outcome_bind]);
  rewrite <- ?app_assoc; cbn [app].

Lemma encodeAtrAddress4_fits cap ptr ty a :
  zlen ptr + 12 <= cap ->
  encodeAtrAddress4 cap ptr ty a = Ret (ptr ++ tlv ty (address_value a)).
Proof. intros H. unfold encodeAtrAddress4. now run_puts. Qed.

Lemma encodeAtrChangeRequest_fits cap ptr a :
  zlen ptr + 8 <= cap ->
  encodeAtrChangeRequest cap ptr a = Ret (ptr ++ tlv ChangeRequest (change_value a)).
Proof. intros H. unfold encodeAtrChangeRequest. now run_puts. Qed.

Lemma slice_prefix {A} (l : list A) n :
  0 <= n <= zlen l -> slice l 0 n = Ret (take (Z.to_nat n) l).
Proof.
  intros H. unfold slice.
  destruct (Z.leb_spec 0 0), (Z.leb_spec 0 n), (Z.leb_spec (0 + n) (zlen l)); try lia.
  reflexivity.
Qed.

Lemma zlen_take_prefix {A} (l : list A) n : 0 <= n <= zlen l -> zlen (take (Z.to_nat n) l) = n.
Proof. unfold zlen. intros H. rewrite length_take. lia. Qed.

Lemma encodeAtrString_fits cap ptr ty a :
  string_wf a -> zlen ptr + 4 + sizeValue a <= cap ->
  encodeAtrString cap ptr ty a = Ret (ptr ++ tlv ty (string_value a)).
Proof.
  intros (Hm & Hs & Hl & _) H. unfold encodeAtrString, encode, string_value, tlv.
  rewrite Hm, slice_prefix by lia. cbn [Z.eqb cassert mbind outcome_bind].
  pose proof (zlen_take_prefix (strValue a) (sizeValue a)) as Ht.
  unfold encode16. rewrite !put_fits by zlen_lia. cbn [mbind outcome_bind].
  rewrite !put_fits by zlen_lia. cbn [mbind outcome_bind].
  rewrite put_fits by zlen_lia. rewrite Ht by lia. now rewrite <- !app_assoc.
Qed.

Lemma encodeIf_fits {A} (enc : bytes -> A -> outcome bytes) ty f a ptr (P : A -> Prop) cap :
  (forall p v, P v -> zlen p + zlen (tlv ty (f v)) <= cap -> enc p v = Ret (p ++ tlv ty (f v))) ->
  opt_wf P a -> zlen ptr + zlen (opt_tlv ty f a) <= cap ->
  encodeIf enc a ptr = Ret (ptr ++ opt_tlv ty f a).
Proof.
  intros He Hp. unfold encodeIf, opt_tlv. destruct (has a) eqn:Ha; intros Hc.
  - now apply He; [apply Hp|].
  - now rewrite app_nil_r.
Qed.

(** The attribute bytes of a message without ERROR-CODE and
    UNKNOWN-ATTRIBUTES. *)
Definition wire_attrs (m : StunMessage) : list bytes :=
  [ opt_tlv MappedAddress address_value (mappedAddress m);
    opt_tlv ResponseAddress address_value (responseAddress m);
    opt_tlv ChangeRequest change_value (changeRequest m);
    opt_tlv SourceAddress address_value (sourceAddress m);
    opt_tlv ChangedAddress address_value (changedAddress m);
    opt_tlv Username string_value (username m);
    opt_tlv Password string_value (password m);
    opt_tlv ReflectedFrom address_value (reflectedFrom m) ].

Lemma zlen_address_value a : zlen (address_value a) = 8.
Proof. reflexivity. Qed.
Lemma zlen_change_value a : zlen (change_value a) = 4.
Proof. reflexivity. Qed.
Lemma zlen_string_value a : string_wf a -> zlen (string_value a) = sizeValue a.
Proof. intros (_ & H1 & H2 & _). apply zlen_take_prefix. lia. Qed.
#[export] Hint Rewrite zlen_address_value zlen_change_value : zlen.

Lemma encodeIf_address ty a ptr cap :
  zlen ptr + zlen (opt_tlv ty address_value a) <= cap ->
  encodeIf (fun p => encodeAtrAddress4 cap p ty) a ptr = Ret (ptr ++ opt_tlv ty address_value a).
Proof.
  intros H. apply (encodeIf_fits _ _ _ _ _ (fun _ => True) cap); [|unfold opt_wf; auto|assumption].
  intros p v _ Hp. apply encodeAtrAddress4_fits. zlen_lia.
Qed.

Lemma encodeIf_string ty a ptr cap :
  opt_wf string_wf a -> zlen ptr + zlen (opt_tlv ty string_value a) <= cap ->
  encodeIf (fun p => encodeAtrString cap p ty) a ptr = Ret (ptr ++ opt_tlv ty string_value a).
Proof.
  intros Hw H. apply (encodeIf_fits _ _ _ _ _ string_wf cap); [|assumption|assumption].
  intros p v Hv Hp. apply encodeAtrString_fits; [assumption|].
  rewrite zlen_tlv, zlen_string_value in Hp by assumption. lia.
Qed.

Lemma encodeIf_change a ptr cap :
  zlen ptr + zlen (opt_tlv ChangeRequest change_value a) <= cap ->
  encodeIf (encodeAtrChangeRequest cap) a ptr = Ret (ptr ++ opt_tlv ChangeRequest change_value a).
Proof.
  intros H. apply (encodeIf_fits _ _ _ _ _ (fun _ => True) cap); [|unfold opt_wf; auto|assumption].
  intros p v _ Hp. apply encodeAtrChangeRequest_fits. zlen_lia.
Qed.

Lemma encodeAttrs_fits m cap ptr :
  msg_wf m -> has (errorCode m) = false -> has (unknownAttributes m) = false ->
  zlen ptr + zlen (concat (wire_attrs m)) <= cap ->
  encodeAttrs m cap ptr = Ret (ptr ++ concat (wire_attrs m)).
Proof.
  intros Hm He Hu. unfold wire_attrs. cbn [concat]. intros Hc. unfold encodeAttrs.
  assert (encodeIf (encodeAtrError cap) (errorCode m) = mret) as -> by (unfold encodeIf; now rewrite He).
  assert (encodeIf (encodeAtrUnknown cap) (unknownAttributes m) = mret) as ->
    by (unfold encodeIf; now rewrite Hu).
  repeat (first [rewrite encodeIf_address by zlen_lia | rewrite encodeIf_change by zlen_lia
    | rewrite encodeIf_string by first [apply Hm | zlen_lia]]; cbn [mbind outcome_bind]).
  cbn [mret outcome_ret mbind outcome_bind].
  rewrite encodeIf_address by zlen_lia. now rewrite <- !app_assoc, app_nil_r.
Qed.

(** * Parsing what was encoded *)

Definition address_norm (a : StunAtrAddress4) : StunAtrAddress4 :=
  mkStunAtrAddress4 (pad a) IPv4Family (ipv4 a).
Definition string_norm (a : StunAtrString) : StunAtrString :=
  mkStunAtrString (string_value a ++ zeros (256 - Z.to_nat (sizeValue a))) (sizeValue a).
Definition attr_norm {A} (f : A -> A) (d : A) (a : attr A) : attr A :=
  if has a then mkAttr true (f (val a)) else mkAttr false d.

(** A parser reads a value: wherever it stands, and over a zeroed result. *)
Definition parses_to {A} (parser : bytes -> Z -> Z -> A -> outcome (bool * A)) (d : A)
  (b : bytes) (v : A) : Prop :=
  forall pre post, parser (pre ++ b ++ post) (zlen pre) (zlen b) d = Ret (true, v).

Lemma rd_mid0 {A} (pre l post : list A) :
  0 < zlen l -> rd (pre ++ l ++ post) (zlen pre) = rd l 0.
Proof. intros H. rewrite <- (Z.add_0_r (zlen pre)). apply rd_mid. lia. Qed.
Lemma rd32_mid0 pre l post : 4 <= zlen l -> rd32 (pre ++ l ++ post) (zlen pre) = rd32 l 0.
Proof. intros H. rewrite <- (Z.add_0_r (zlen pre)). apply rd32_mid; lia. Qed.

Lemma rd32_enc32 x l : 0 <= x < 4294967296 -> rd32 (enc32 x ++ l) 0 = Ret x.
Proof.
  intros Hx. transitivity (Ret (be32 (x / 16777216 mod 256) (x / 65536 mod 256)
    (x / 256 mod 256) (x mod 256))); [reflexivity|]. now rewrite be32_enc32.
Qed.

Lemma address_parses d a :
  address_wf a -> parses_to stunParseAtrAddress d (address_value a) (address_norm a).
Proof.
  intros (_ & Hp & Ha) pre post. unfold stunParseAtrAddress.
  rewrite zlen_address_value. cbn [Z.eqb negb].
  rewrite rd_mid0, rd_mid by zlen_lia. cbn [mbind outcome_bind].
  rewrite rd16_mid, rd32_mid by zlen_lia.
  replace (rd16 (address_value a) 2) with (Ret (port (ipv4 a)))
    by (symmetry; apply (rd16_enc16 (port (ipv4 a)) (enc32 (addr (ipv4 a)))); assumption).
  replace (rd32 (address_value a) 4) with (Ret (addr (ipv4 a)))
    by (symmetry; apply (rd32_enc32 (addr (ipv4 a)) []); assumption).
  cbn. unfold address_norm. now destruct (ipv4 a).
Qed.

Lemma change_parses d a :
  0 <= value a < 4294967296 -> parses_to stunParseAtrChangeRequest d (change_value a) a.
Proof.
  intros H pre post. unfold stunParseAtrChangeRequest.
  rewrite zlen_change_value, rd32_mid0 by zlen_lia. cbn [Z.eqb negb].
  replace (rd32 (change_value a) 0) with (Ret (value a))
    by (symmetry; apply (rd32_enc32 (value a) []); assumption).
  cbn. now destruct a.
Qed.

Lemma wr_zero_tail b n :
  0 < Z.of_nat n -> wr (b ++ zeros n) (zlen b) 0 = Ret (b ++ zeros n).
Proof.
  intros Hn. unfold wr.
  destruct (Z.leb_spec 0 (zlen b)), (Z.ltb_spec (zlen b) (zlen (b ++ zeros n))); cbn [andb];
    try zlen_lia.
  f_equal. unfold zlen. rewrite Nat2Z.id. apply list_insert_id.
  rewrite lookup_app_r, Nat.sub_diag by lia. apply lookup_replicate. lia.
Qed.

Lemma string_parses a :
  string_wf a -> parses_to stunParseAtrString zeroString (string_value a) (string_norm a).
Proof.
  intros Hw pre post. pose proof (zlen_string_value a Hw) as Hv. destruct Hw as (Hm & Hs & Hl & _).
  unfold stunParseAtrString, STUN_MAX_STRING.
  destruct (Z.leb_spec 256 (zlen (string_value a))); [lia|].
  rewrite Hv, Hm at 1. cbn [Z.eqb negb].
  rewrite slice_mid. cbn [mbind outcome_bind strValue zeroString].
  rewrite overwrite_zeros by lia. cbn [mbind outcome_bind].
  assert (length (string_value a) = Z.to_nat (sizeValue a)) as Hn by (unfold zlen in Hv; lia).
  rewrite Hn, wr_zero_tail by lia. cbn. unfold string_norm. now rewrite Hv.
Qed.

Lemma integrity_parses h :
  zlen h = 20 -> parses_to stunParseAtrIntegrity (mkStunAtrIntegrity (zeros 20)) h
    (mkStunAtrIntegrity h).
Proof.
  intros H pre post. unfold stunParseAtrIntegrity. rewrite slice_mid, H. cbn [Z.eqb negb].
  cbn [mbind outcome_bind hash]. rewrite overwrite_zeros by lia. cbn.
  replace (20 - length h)%nat with 0%nat by (unfold zlen in H; lia).
  cbn. now rewrite app_nil_r.
Qed.

(** The step over one optional attribute. *)
Lemma parse_all_opt {A} ty (parser : bytes -> Z -> Z -> A -> outcome (bool * A))
    (get : StunMessage -> attr A) (set : attr A -> StunMessage -> StunMessage)
    (f : A -> bytes) (norm : A -> A) (d : A) (a : attr A) (m : StunMessage) pre post rest :
  bytes_ok (pre ++ opt_tlv ty f a ++ post) ->
  0 <= ty < 65536 ->
  (forall buf bd len, parseAttr buf bd len ty m = parseInto parser buf bd len get set m) ->
  (has a = true -> parses_to parser d (f (val a)) (norm (val a)) /\ zlen (f (val a)) < 65536) ->
  get m = mkAttr false d -> set (mkAttr false d) m = m ->
  0 <= rest ->
  parse_all (pre ++ opt_tlv ty f a ++ post) (zlen pre) (zlen (opt_tlv ty f a) + rest) m =
  parse_all ((pre ++ opt_tlv ty f a) ++ post) (zlen (pre ++ opt_tlv ty f a)) rest
    (set (attr_norm norm d a) m).
Proof.
  unfold opt_tlv, attr_norm. destruct (has a); intros Hb Hty Hpa Hp Hget Hset Hrest.
  - destruct Hp as [Hp Hlen]; [reflexivity|].
    rewrite parse_all_tlv by (try zlen_lia; assumption).
    rewrite Hpa. unfold parseInto. rewrite Hget. cbn [val].
    replace (parser (pre ++ tlv ty (f (val a)) ++ post) (zlen pre + 4) (zlen (f (val a))) d)
      with (Ret (true, norm (val a))); cycle 1.
    { rewrite <- (Hp (pre ++ enc16 ty ++ enc16 (zlen (f (val a)))) post).
      unfold tlv. rewrite <- !app_assoc. f_equal. zlen_lia. }
    cbn [mbind outcome_bind mret outcome_ret negb].
    rewrite <- app_assoc. f_equal. lia.
  - cbn [app]. rewrite app_nil_r, zlen_nil, Hset. reflexivity.
Qed.

(** The message a receiver sees, given the digest of the sender. *)
Definition received (m : StunMessage) (len : Z) (mi : attr StunAtrIntegrity) : StunMessage :=
  {| msgHdr := mkStunMsgHdr (msgType (msgHdr m)) len (id (msgHdr m));
     mappedAddress := attr_norm address_norm zeroAddress4 (mappedAddress m);
     responseAddress := attr_norm address_norm zeroAddress4 (responseAddress m);
     changeRequest := attr_norm (fun a => a) (mkStunAtrChangeRequest 0) (changeRequest m);
     sourceAddress := attr_norm address_norm zeroAddress4 (sourceAddress m);
     changedAddress := attr_norm address_norm zeroAddress4 (changedAddress m);
     username := attr_norm string_norm zeroString (username m);
     password := attr_norm string_norm zeroString (password m);
     messageIntegrity := attr_norm (fun a => a) (mkStunAtrIntegrity (zeros 20)) mi;
     errorCode := errorCode zeroMessage;
     unknownAttributes := unknownAttributes zeroMessage;
     reflectedFrom := attr_norm address_norm zeroAddress4 (reflectedFrom m) |}.

(** The digest the sender appends, if it has a password. *)
Definition integrity_of (hmac : bytes -> bytes -> bytes) (m : StunMessage) (pw : StunAtrString)
  : attr StunAtrIntegrity :=
  mkAttr (0 <? sizeValue pw) (mkStunAtrIntegrity (hmac (string_value pw)
    (enc16 (msgType (msgHdr m)) ++ enc16 0 ++ id (msgHdr m) ++ concat (wire_attrs m)))).

(** The datagram. *)
Definition wire (m : StunMessage) (mi : attr StunAtrIntegrity) : bytes :=
  let body := concat (wire_attrs m) ++ opt_tlv MessageIntegrity hash mi in
  enc16 (msgType (msgHdr m)) ++ enc16 (zlen body) ++ id (msgHdr m) ++ body.

Lemma bytes_ok_app l k : bytes_ok (l ++ k) <-> bytes_ok l /\ bytes_ok k.
Proof. apply Forall_app. Qed.

Lemma opt_tlv_ok {A} ty f (a : attr A) (P : A -> Prop) :
  opt_wf P a -> (forall v, P v -> bytes_ok (f v)) -> bytes_ok (opt_tlv ty f a).
Proof.
  unfold opt_wf, opt_tlv, tlv. destruct (has a); intros H Hf; [|constructor].
  rewrite !bytes_ok_app. eauto 6 with vocal.
Qed.

Lemma address_value_ok a : address_wf a -> bytes_ok (address_value a).
Proof.
  intros (Hp & _). unfold address_value. rewrite !bytes_ok_app.
  split; [|auto with vocal].
  apply Forall_cons; [exact Hp|].
  apply Forall_singleton. unfold byte_ok, IPv4Family; lia.
Qed.

Lemma string_value_ok a : string_wf a -> bytes_ok (string_value a).
Proof. intros (_ & _ & _ & H). now apply Forall_take. Qed.

Lemma wire_attrs_ok m : msg_wf m -> bytes_ok (concat (wire_attrs m)).
Proof.
  intros []. unfold wire_attrs. cbn [concat]. rewrite !bytes_ok_app.
  repeat split; try constructor;
    eauto using opt_tlv_ok, address_value_ok, string_value_ok.
  eapply opt_tlv_ok; [eassumption|]. intros v _. apply enc32_ok.
Qed.

Lemma opt_address_parses a d :
  opt_wf address_wf a -> has a = true ->
  parses_to stunParseAtrAddress d (address_value (val a)) (address_norm (val a)) /\
  zlen (address_value (val a)) < 65536.
Proof. intros Hw Ha. split; [now apply address_parses, Hw | zlen_lia]. Qed.

Lemma opt_string_parses a :
  opt_wf string_wf a -> has a = true ->
  parses_to stunParseAtrString zeroString (string_value (val a)) (string_norm (val a)) /\
  zlen (string_value (val a)) < 65536.
Proof.
  intros Hw Ha. specialize (Hw Ha). split; [now apply string_parses|].
  rewrite zlen_string_value by assumption. destruct Hw as (_ & ? & _); lia.
Qed.

(** Brings a chain of field updates to a record. *)
Ltac norm_msg := cbv beta iota delta [zeroMessage msgHdr mappedAddress responseAddress changeRequest sourceAddress changedAddress username password messageIntegrity errorCode unknownAttributes reflectedFrom
    set_msgHdr set_mappedAddress set_responseAddress set_changeRequest set_sourceAddress set_changedAddress set_username set_password set_messageIntegrity set_errorCode set_unknownAttributes set_reflectedFrom].

(** Parses the next optional attribute, leaving its value for the caller. *)
Ltac opt_step nf := erewrite parse_all_opt with (norm := nf);
  [ | rewrite !bytes_ok_app; tauto | vm_compute; intuition discriminate
    | intros; reflexivity | | norm_msg; reflexivity | norm_msg; reflexivity | zlen_lia ]; norm_msg.

(** The attribute loop over what [encodeAttrs] wrote. *)
Lemma parse_wire_attrs m mi hdr pre :
  let body := concat (wire_attrs m) ++ opt_tlv MessageIntegrity hash mi in
  msg_wf m -> (has mi = true -> zlen (hash (val mi)) = 20) -> bytes_ok (pre ++ body) ->
  parse_all (pre ++ body) (zlen pre) (zlen body) (set_msgHdr hdr zeroMessage) =
  Ret (true, set_msgHdr hdr (received m 0 mi)).
Proof.
  intros body Hm Hmi Hb. subst body. unfold wire_attrs in *. cbn [concat] in *.
  rewrite <- !app_assoc in *. cbn [app] in *. rewrite <- (app_nil_r (opt_tlv MessageIntegrity _ _)) in *.
  rewrite !zlen_app.
  assert (forall l k : bytes, bytes_ok (l ++ k) -> bytes_ok l /\ bytes_ok k)
    as Hsplit by (intros; now apply bytes_ok_app).
  destruct Hm. rewrite !bytes_ok_app in Hb. destruct_and!.
  opt_step address_norm; [|now apply opt_address_parses].
  opt_step address_norm; [|now apply opt_address_parses].
  opt_step (fun a : StunAtrChangeRequest => a);
    [|intros Ha; split; [now apply change_parses, wf_change0 | zlen_lia]].
  opt_step address_norm; [|now apply opt_address_parses].
  opt_step address_norm; [|now apply opt_address_parses].
  opt_step string_norm; [|now apply opt_string_parses].
  opt_step string_norm; [|now apply opt_string_parses].
  opt_step address_norm; [|now apply opt_address_parses].
  opt_step (fun a : StunAtrIntegrity => a); cycle 1.
  { intros Ha. rewrite (Hmi Ha). split; [|lia].
    destruct (val mi) as [h] eqn:E. apply integrity_parses. specialize (Hmi Ha).
    now rewrite ?E in Hmi. }
  rewrite zlen_nil. reflexivity.
Qed.

Lemma wire_length_field ty rest n :
  overwrite (enc16 ty ++ enc16 0 ++ rest) 2 (enc16 n) = Ret (enc16 ty ++ enc16 n ++ rest).
Proof.
  unfold overwrite. destruct (Z.leb_spec 0 2); [|lia].
  destruct (Z.leb_spec (2 + zlen (enc16 n)) (zlen (enc16 ty ++ enc16 0 ++ rest))); [|zlen_lia].
  reflexivity.
Qed.

Lemma encodeAtrIntegrity_fits cap ptr h :
  zlen h = 20 -> zlen ptr + 24 <= cap ->
  encodeAtrIntegrity cap ptr (mkStunAtrIntegrity h) = Ret (ptr ++ tlv MessageIntegrity h).
Proof.
  intros Hh Hc. unfold encodeAtrIntegrity, encode, encode16, tlv. cbn [hash].
  rewrite !put_fits by zlen_lia. cbn [mbind outcome_bind].
  rewrite !put_fits by zlen_lia. cbn [mbind outcome_bind].
  rewrite slice_prefix by lia. cbn [mbind outcome_bind].
  rewrite take_ge by (unfold zlen in Hh; lia).
  rewrite put_fits by zlen_lia. rewrite Hh, <- !app_assoc. reflexivity.
Qed.

(** The encoder produces the datagram [wire]. *)
Lemma stunEncodeMessage_wire hmac m pw cap :
  (forall k d, zlen (hmac k d) = 20) ->
  msg_wf m -> has (errorCode m) = false -> has (unknownAttributes m) = false ->
  0 <= sizeValue pw <= zlen (strValue pw) ->
  44 + zlen (concat (wire_attrs m)) <= cap -> cap < 65536 ->
  stunEncodeMessage hmac m cap pw = Ret (wire m (integrity_of hmac m pw)).
Proof.
  intros Hh Hm He Hu Hpw Hc Hcap. pose proof (wf_id _ Hm) as [Hid _].
  unfold stunEncodeMessage, encode, encode16, sizeof_StunMsgHdr.
  destruct (Z.leb_spec 20 cap); [|zlen_lia]. cbn [cassert mbind outcome_bind].
  rewrite put_fits by zlen_lia. cbn [mbind outcome_bind app].
  rewrite put_fits by zlen_lia. cbn [mbind outcome_bind].
  rewrite slice_prefix by lia. cbn [mbind outcome_bind].
  rewrite take_ge by (unfold zlen in Hid; lia).
  rewrite put_fits by zlen_lia. cbn [mbind outcome_bind].
  rewrite encodeAttrs_fits by (try assumption; zlen_lia). cbn [mbind outcome_bind].
  unfold wire, integrity_of, opt_tlv. cbn [has val hash].
  destruct (Z.ltb_spec 0 (sizeValue pw)).
  - unfold computeHmac. rewrite slice_prefix by lia. cbn [mbind outcome_bind].
    rewrite Hh. cbn [Z.eqb Pos.eqb cassert mbind outcome_bind mret outcome_ret].
    rewrite encodeAtrIntegrity_fits by (try apply Hh; zlen_lia). cbn [mbind outcome_bind].
    unfold string_value. rewrite <- !app_assoc, wire_length_field.
    do 3 f_equal. autorewrite with zlen. rewrite Hid, Hh. f_equal. lia.
  - cbn [mbind outcome_bind mret outcome_ret]. rewrite <- !app_assoc, wire_length_field.
    rewrite app_nil_r. do 3 f_equal. autorewrite with zlen. rewrite Hid. f_equal. lia.
Qed.

(** The header checks of [stunParseMessage], on a datagram of the announced
    length. *)
Lemma stunParseMessage_header ty tid body :
  0 <= ty < 65536 -> zlen tid = 16 -> zlen body < 65536 ->
  stunParseMessage (enc16 ty ++ enc16 (zlen body) ++ tid ++ body) (20 + zlen body) =
  parse_all (enc16 ty ++ enc16 (zlen body) ++ tid ++ body) 20 (zlen body)
    (set_msgHdr (mkStunMsgHdr ty (zlen body) tid) zeroMessage).
Proof.
  intros Hty Hid Hb. pose proof (zlen_nonneg body).
  unfold stunParseMessage, sizeof_StunMsgHdr. destruct (Z.ltb_spec (20 + zlen body) 20); [lia|].
  rewrite rd16_enc16 by assumption. cbn [mbind outcome_bind].
  pose proof (rd16_mid (enc16 ty) (enc16 (zlen body)) (tid ++ body) 0) as Hrd.
  rewrite rd16_enc16' in Hrd by lia. change (zlen (enc16 ty) + 0) with 2 in Hrd.
  rewrite Hrd by zlen_lia.
  pose proof (slice_mid (enc16 ty ++ enc16 (zlen body)) tid body) as Hs.
  rewrite Hid, <- app_assoc in Hs.
  change (zlen (enc16 ty ++ enc16 (zlen body))) with 4 in Hs. rewrite Hs.
  cbn [mbind outcome_bind].
  destruct (Z.eqb_spec (zlen body + 20) (20 + zlen body)); [|lia]. reflexivity.
Qed.

(** The parser accepts the datagram [wire]. *)
Lemma wire_parses m mi :
  msg_wf m -> (has mi = true -> zlen (hash (val mi)) = 20 /\ bytes_ok (hash (val mi))) ->
  zlen (wire m mi) < 65536 ->
  stunParseMessage (wire m mi) (zlen (wire m mi)) = Ret (true, received m (zlen (wire m mi) - 20) mi).
Proof.
  intros Hm Hmi. pose proof (wf_id _ Hm) as [Hid Hidok].
  set (body := concat (wire_attrs m) ++ opt_tlv MessageIntegrity hash mi).
  assert (bytes_ok body) as Hok.
  { apply bytes_ok_app; split; [now apply wire_attrs_ok|].
    apply (opt_tlv_ok _ _ _ (fun v => zlen (hash v) = 20 /\ bytes_ok (hash v))); [exact Hmi | tauto]. }
  assert (zlen (wire m mi) = 20 + zlen body) as -> by (unfold wire; fold body; zlen_lia).
  intros Hlen. unfold wire. fold body.
  rewrite stunParseMessage_header; try assumption; [|apply Hm | lia].
  replace (20 + zlen body - 20) with (zlen body) by lia. rewrite !app_assoc.
  set (hdr := (enc16 _ ++ enc16 _) ++ id (msgHdr m)).
  replace 20 with (zlen hdr) by (subst hdr; zlen_lia).
  apply (parse_wire_attrs m mi (mkStunMsgHdr (msgType (msgHdr m)) (zlen body) (id (msgHdr m))) hdr);
    [assumption | intros; now apply Hmi |].
  subst hdr. fold body. rewrite 3!bytes_ok_app. auto 10 with vocal.
Qed.

Lemma zlen_wire m mi :
  msg_wf m -> (has mi = true -> zlen (hash (val mi)) = 20) ->
  20 <= zlen (wire m mi) <= 44 + zlen (concat (wire_attrs m)).
Proof.
  intros Hm Hmi. pose proof (wf_id _ Hm) as [Hid _]. unfold wire, opt_tlv.
  destruct (has mi) eqn:E; [rewrite !zlen_app, !zlen_tlv, Hmi by auto | ]; zlen_lia.
Qed.

(** C8: a message without ERROR-CODE and UNKNOWN-ATTRIBUTES that
    [stunEncodeMessage] writes is accepted by [stunParseMessage], which
    recovers every field: addresses (with the family forced to IPv4), change
    flags, user name, password, and the digest over the datagram with a zero
    length field as MESSAGE-INTEGRITY exactly when a password was given. *)
Theorem stun_roundtrip hmac m pw cap :
  (forall k d, zlen (hmac k d) = 20 /\ bytes_ok (hmac k d)) ->
  msg_wf m -> has (errorCode m) = false -> has (unknownAttributes m) = false ->
  0 <= sizeValue pw <= zlen (strValue pw) ->
  44 + zlen (concat (wire_attrs m)) <= cap -> cap < 65536 ->
  exists out,
    stunEncodeMessage hmac m cap pw = Ret out /\ zlen out <= cap /\
    stunParseMessage out (zlen out) =
      Ret (true, received m (zlen out - 20) (integrity_of hmac m pw)).
Proof.
  intros Hh Hm He Hu Hpw Hc Hcap.
  assert (zlen (wire m (integrity_of hmac m pw)) <= cap)
    by (pose proof (zlen_wire m (integrity_of hmac m pw) Hm) as Hz;
        destruct Hz; [intros; apply Hh | lia]).
  exists (wire m (integrity_of hmac m pw)).
  split; [apply stunEncodeMessage_wire; auto; apply Hh|]. split; [assumption|].
  apply wire_parses; [assumption | intros; apply Hh | lia].
Qed.

Definition sample_address : StunAtrAddress4 := mkStunAtrAddress4 0 1 (mkStunAddress4 3478 3232235777).
Definition sample_string : StunAtrString := mkStunAtrString ([97; 98; 99; 100] ++ zeros 252) 4.
Definition sample_message : StunMessage :=
  set_username (mkAttr true sample_string) (set_mappedAddress (mkAttr true sample_address)
    (set_changeRequest (mkAttr true (mkStunAtrChangeRequest 6))
      (set_msgHdr (mkStunMsgHdr BindRequestMsg 0 (zeros 16)) zeroMessage))).

Lemma zeros_ok n : bytes_ok (zeros n).
Proof. apply Forall_replicate. split; lia. Qed.

Lemma sample_message_wf : msg_wf sample_message.
Proof.
  split; cbn; unfold opt_wf, address_wf, string_wf, byte_ok, BindRequestMsg; cbn;
    try discriminate; try (intros _; repeat split; lia).
  - lia.
  - split; [reflexivity | apply (zeros_ok 16)].
  - intros _. repeat split; try (vm_compute; congruence).
    apply bytes_ok_forallb. reflexivity.
Qed.

Lemma stun_roundtrip_witness :
  exists out,
    stunEncodeMessage (fun _ _ => zeros 20) sample_message STUN_MAX_MESSAGE_SIZE sample_string = Ret out /\
    zlen out <= STUN_MAX_MESSAGE_SIZE /\
    stunParseMessage out (zlen out) = Ret (true, received sample_message (zlen out - 20)
      (integrity_of (fun _ _ => zeros 20) sample_message sample_string)).
Proof.
  apply stun_roundtrip; try (vm_compute; intuition congruence).
  - intros _ _. split; [reflexivity | apply zeros_ok].
  - apply sample_message_wf.
Defined.

Lemma slice_out_of_range {A} (m : list A) off n :
  zlen m < off + n -> slice m off n = Fault OutOfBounds.
Proof.
  intros H. unfold slice. destruct (Z.leb_spec (off + n) (zlen m)); [lia|].
  now rewrite andb_false_r.
Qed.

(** Reading past an array, or returning: the only outcomes of the parser. *)
Definition oob_or_returns {A} (m : outcome A) : Prop :=
  m = Fault OutOfBounds \/ exists a, m = Ret a.

Lemma rd_outcome {A} (m : list A) i : oob_or_returns (rd m i).
Proof. unfold rd, oob_or_returns. destruct (0 <=? i), (m !! Z.to_nat i); eauto. Qed.

Lemma rd16_outcome m i : oob_or_returns (rd16 m i).
Proof.
  unfold rd16, oob_or_returns. destruct (rd_outcome m i) as [->|[? ->]]; [now left|].
  destruct (rd_outcome m (i + 1)) as [->|[? ->]]; [now left|]. cbn; eauto.
Qed.

Lemma slice_outcome {A} (m : list A) o n : oob_or_returns (slice m o n).
Proof. unfold slice, oob_or_returns. destruct (_ && _); eauto. Qed.

Lemma parse_error_value_fault buf bd len m :
  len < 4 \/ 260 <= len < 262 -> zlen buf = bd + len -> 0 <= bd -> 0 <= len ->
  zlen (reason (val (errorCode m))) = 256 ->
  parseAttr buf bd len ErrorCode m = Fault OutOfBounds.
Proof.
  intros Hl Hbuf Hbd Hlen Hr. change (parseAttr buf bd len ErrorCode m) with
    (parseInto stunParseAtrError buf bd len errorCode set_errorCode m).
  unfold parseInto.
  enough (stunParseAtrError buf bd len (val (errorCode m)) = Fault OutOfBounds) as -> by reflexivity.
  unfold stunParseAtrError, sizeof_StunAtrError.
  destruct (Z.leb_spec 262 len); [lia|].
  destruct (rd16_outcome buf bd) as [->|[p ->]]; [reflexivity|].
  destruct (rd_outcome buf (bd + 2)) as [->|[cl ->]]; [reflexivity|].
  destruct (rd_outcome buf (bd + 3)) as [->|[nb ->]]; [reflexivity|]. cbn [mbind outcome_bind].
  destruct Hl as [Hl | Hl].
  - replace (u16 (u32 (len - 4))) with (65532 + len)
      by (unfold wrap; Z.to_euclidean_division_equations; lia).
    rewrite slice_out_of_range by lia. reflexivity.
  - rewrite (wrap_small 32), (wrap_small 16) by lia.
    step_in_range. destruct (Z.eq_dec len 260) as [->|].
    + step_in_range. unfold wr.
      destruct (Z.ltb_spec (260 - 4) (zlen l0)); [lia|]. now rewrite andb_false_r.
    + unfold overwrite. destruct (Z.leb_spec (0 + zlen l) (zlen (reason (val (errorCode m))))); [lia|].
      now rewrite andb_false_r.
Qed.

(** C36: whatever a datagram contains, the parser stays inside the allocated
    array and keeps the sizes of the message's arrays, provided the array has
    three bytes after the datagram (an attribute header may be read across its
    end) and every ERROR-CODE attribute announces between 4 and 259 bytes. *)
Theorem stunParseMessage_in_bounds buf bufLen :
  bytes_ok buf -> bufLen + 3 <= zlen buf ->
  (forall o l t, attr_at buf 20 (bufLen - 20) o l t -> t = ErrorCode -> 4 <= l < 260) ->
  exists ok m, stunParseMessage buf bufLen = Ret (ok, m) /\ arrays_ok m.
Proof.
  intros Hb Hlen Herr. unfold stunParseMessage, sizeof_StunMsgHdr.
  destruct (Z.ltb_spec bufLen 20); [do 2 eexists; split; [reflexivity | repeat split]|].
  destruct (rd16_in_range buf 0) as [ty ->]; [lia|lia|].
  destruct (rd16_in_range buf 2) as [len Hl]; [lia|lia|].
  pose proof (rd16_range _ _ _ Hb Hl). rewrite Hl. cbn [mbind outcome_bind].
  destruct (slice_in_range buf 4 16) as (tid & -> & _); [lia|lia|lia|]. cbn [mbind outcome_bind].
  destruct (Z.eqb_spec (len + 20) bufLen) as [E|]; cbn [negb].
  - apply parseAttrs_in_range; try assumption; try lia; try apply arrays_ok_zero.
    replace len with (bufLen - 20) by lia. assumption.
  - do 2 eexists; split; [reflexivity | apply arrays_ok_zero].
Qed.

(** A binding request with one CHANGE-REQUEST, as received in a larger array. *)
Definition sample_datagram : bytes :=
  enc16 BindRequestMsg ++ enc16 8 ++ zeros 16 ++ tlv ChangeRequest (enc32 6) ++ zeros 3.

Lemma sample_datagram_attrs o l t :
  attr_at sample_datagram 20 8 o l t -> t = ErrorCode -> 4 <= l < 260.
Proof.
  inversion 1 as [? ? len ty ? Hl Ht | ? ? len ty ? ? ? ? Hl Ht Hle Hat]; subst.
  - vm_compute in Ht. injection Ht as <-. discriminate.
  - vm_compute in Hl. injection Hl as <-. inversion Hat; lia.
Qed.

Lemma stunParseMessage_in_bounds_witness :
  exists ok m, stunParseMessage sample_datagram 28 = Ret (ok, m) /\ arrays_ok m.
Proof.
  apply stunParseMessage_in_bounds.
  - unfold sample_datagram, tlv. rewrite !bytes_ok_app. auto 10 using zeros_ok with vocal.
  - vm_compute; discriminate.
  - exact sample_datagram_attrs.
Defined.

(** An ERROR-CODE attribute shorter than 4 bytes, or of 260 or 261 bytes,
    makes the parser leave its arrays: the reason size wraps around or is past
    the 256 bytes of [reason]. *)
Theorem parse_error_attr_out_of_bounds ty tid b :
  0 <= ty < 65536 -> zlen tid = 16 -> bytes_ok tid -> bytes_ok b ->
  zlen b < 4 \/ 260 <= zlen b < 262 ->
  let body := tlv ErrorCode b in
  stunParseMessage (enc16 ty ++ enc16 (zlen body) ++ tid ++ body) (20 + zlen body) =
  Fault OutOfBounds.
Proof.
  intros Hty Hid Hidok Hok Hb body. pose proof (zlen_nonneg b).
  assert (zlen body = 4 + zlen b) as Hlen by apply zlen_tlv.
  rewrite stunParseMessage_header by (try assumption; lia).
  set (pre := enc16 ty ++ enc16 (zlen body) ++ tid).
  replace (enc16 ty ++ enc16 (zlen body) ++ tid ++ body) with (pre ++ tlv ErrorCode b ++ [])
    by (subst pre; rewrite app_nil_r, <- !app_assoc; reflexivity).
  replace 20 with (zlen pre) by (subst pre; zlen_lia).
  assert (bytes_ok (pre ++ tlv ErrorCode b ++ [])) as Hall.
  { subst pre. unfold tlv. rewrite !bytes_ok_app. repeat split; auto with vocal. constructor. }
  rewrite parse_all_tlv by first [assumption | unfold ErrorCode; lia].
  replace (parseAttr _ _ _ _ _) with (Fault (A := bool * StunMessage) OutOfBounds); [reflexivity|].
  symmetry. apply parse_error_value_fault; [lia | zlen_lia | zlen_lia | lia | reflexivity].
Qed.

Lemma parse_error_attr_out_of_bounds_witness :
  stunParseMessage (enc16 1 ++ enc16 7 ++ zeros 16 ++ tlv ErrorCode [0; 0; 4]) 27 =
  Fault OutOfBounds.
Proof.
  apply (parse_error_attr_out_of_bounds 1 (zeros 16) [0; 0; 4]); try lia;
    try (apply bytes_ok_forallb); try reflexivity.
  left. reflexivity.
Defined.

Lemma oob_bind {A B} (m : outcome A) (k : A -> outcome B) :
  oob_or_returns m -> (forall a, m = Ret a -> oob_or_returns (k a)) -> oob_or_returns (m ≫= k).
Proof. intros [->|[a ->]] H; [now left | now apply H]. Qed.

Lemma oob_ret {A} (a : A) : oob_or_returns (mret a : outcome A).
Proof. right; now exists a. Qed.
Lemma oob_rd32 m i : oob_or_returns (rd32 m i).
Proof. unfold rd32. do 4 (apply oob_bind; [apply rd_outcome | intros ? _]). apply oob_ret. Qed.
Lemma oob_overwrite {A} (m : list A) o s : oob_or_returns (overwrite m o s).
Proof. unfold overwrite, oob_or_returns. destruct (_ && _); eauto. Qed.
Lemma oob_wr {A} (m : list A) i b : oob_or_returns (wr m i b).
Proof. unfold wr, oob_or_returns. destruct (_ && _); eauto. Qed.

Create HintDb oob.
#[export] Hint Resolve oob_ret oob_rd32 oob_overwrite oob_wr : oob.
#[export] Hint Resolve rd_outcome rd16_outcome slice_outcome : oob.

Ltac oob :=
  repeat first
    [ solve [auto with oob]
    | apply oob_bind; [solve [auto with oob] | intros ? _]
    | match goal with |- context [if ?b then _ else _] => destruct b end
    | match goal with x : (_ * _)%type |- _ => destruct x end ].

Lemma oob_unknown_loop n : forall buf bd i t, oob_or_returns (parseUnknownLoop n buf bd i t).
Proof. induction n; intros; cbn [parseUnknownLoop]; oob. Qed.
#[export] Hint Resolve oob_unknown_loop : oob.

Lemma oob_parseAttr buf bd len ty m : oob_or_returns (parseAttr buf bd len ty m).
Proof.
  unfold parseAttr, parseInto, stunParseAtrAddress, stunParseAtrChangeRequest, stunParseAtrString,
    stunParseAtrIntegrity, stunParseAtrError, stunParseAtrUnknown. cbv zeta.
  repeat (match goal with |- context [if ?b then _ else _] => destruct b end;
    [apply oob_bind; [solve [oob] | intros ? _; oob] |]).
  oob.
Qed.
#[export] Hint Resolve oob_parseAttr : oob.

Lemma oob_parseAttrs f : forall buf bd size m,
  bytes_ok buf -> 0 <= size < Z.of_nat f -> oob_or_returns (parseAttrs f buf bd size m).
Proof.
  induction f as [|f IH]; intros buf bd size m Hb Hs; [lia|].
  destruct (Z.eq_dec size 0) as [->|]; [apply oob_ret|].
  rewrite parseAttrs_unfold by lia.
  apply oob_bind; [auto with oob | intros len Hl]. pose proof (rd16_range _ _ _ Hb Hl).
  apply oob_bind; [auto with oob | intros ty _].
  destruct (Z.ltb_spec size (len + 4)); [apply oob_ret|].
  apply oob_bind; [auto with oob | intros [[] m'] _]; cbn [negb]; [|apply oob_ret].
  apply IH; [assumption | lia].
Qed.

(** C37: on every datagram the attribute loop ends within the announced length:
    the parser answers or runs into an array bound; it never loops and never
    reaches a failing assertion. *)
Theorem stunParseMessage_terminates buf bufLen :
  bytes_ok buf ->
  (exists ok m, stunParseMessage buf bufLen = Ret (ok, m)) \/
  stunParseMessage buf bufLen = Fault OutOfBounds.
Proof.
  intros Hb. assert (oob_or_returns (stunParseMessage buf bufLen)) as [H|[[ok m] H]];
    [|now right | left; eauto].
  unfold stunParseMessage. destruct (_ <? _); [apply oob_ret|].
  apply oob_bind; [auto with oob | intros ty _].
  apply oob_bind; [auto with oob | intros len Hl]. pose proof (rd16_range _ _ _ Hb Hl).
  apply oob_bind; [auto with oob | intros tid _].
  cbv zeta. destruct (negb _); [apply oob_ret|]. apply oob_parseAttrs; [assumption | lia].
Qed.

Lemma stunParseMessage_terminates_witness :
  (exists ok m, stunParseMessage sample_datagram 28 = Ret (ok, m)) \/
  stunParseMessage sample_datagram 28 = Fault OutOfBounds.
Proof. apply stunParseMessage_terminates. apply bytes_ok_forallb. reflexivity. Defined.

(** * Attributes the encoder mismeasures *)

(** A message of one attribute block whose announced length is too large is
    rejected by the parser. *)
Lemma parse_overlong ty tid aty claimed b :
  0 <= ty < 65536 -> zlen tid = 16 -> 0 <= aty < 65536 -> zlen b < claimed < 65536 -> zlen b < 65000 ->
  let body := enc16 aty ++ enc16 claimed ++ b in
  exists m, stunParseMessage (enc16 ty ++ enc16 (zlen body) ++ tid ++ body) (20 + zlen body) =
    Ret (false, m).
Proof.
  intros Hty Hid Haty Hc Hsmall body. pose proof (zlen_nonneg b).
  assert (zlen body = 4 + zlen b) as Hlen by (subst body; zlen_lia).
  rewrite stunParseMessage_header by (try assumption; lia). unfold parse_all.
  rewrite parseAttrs_unfold by lia.
  set (pre := enc16 ty ++ enc16 (zlen body) ++ tid).
  replace (enc16 ty ++ enc16 (zlen body) ++ tid ++ body) with (pre ++ body ++ [])
    by (subst pre; rewrite app_nil_r, <- !app_assoc; reflexivity).
  replace 20 with (zlen pre) by (subst pre; zlen_lia).
  rewrite rd16_mid by lia.
  replace (rd16 body 2) with (Ret claimed); cycle 1.
  { transitivity (Ret (be16 (claimed / 256 mod 256) (claimed mod 256))); [|reflexivity].
    now rewrite be16_enc16 by lia. }
  replace (rd16 (pre ++ body ++ []) (zlen pre)) with (Ret aty); cycle 1.
  { rewrite <- (Z.add_0_r (zlen pre)), rd16_mid by lia. symmetry. now apply rd16_enc16. }
  cbn [mbind outcome_bind]. destruct (Z.ltb_spec (zlen body) (claimed + 4)); [|lia]. eauto.
Qed.

(** The header [stunEncodeMessage] puts before attributes already known. *)
Lemma stunEncodeMessage_header hmac m cap pw body :
  zlen (id (msgHdr m)) = 16 -> sizeValue pw = 0 -> 20 <= cap ->
  (forall ptr, zlen ptr = 20 -> encodeAttrs m cap ptr = Ret (ptr ++ body)) ->
  stunEncodeMessage hmac m cap pw =
  Ret (enc16 (msgType (msgHdr m)) ++ enc16 (zlen body) ++ id (msgHdr m) ++ body).
Proof.
  intros Hid Hpw Hc Hb. unfold stunEncodeMessage, encode, encode16, sizeof_StunMsgHdr.
  destruct (Z.leb_spec 20 cap); [|lia]. cbn [cassert mbind outcome_bind].
  rewrite put_fits by zlen_lia. cbn [mbind outcome_bind app].
  rewrite put_fits by zlen_lia. cbn [mbind outcome_bind].
  rewrite slice_prefix by lia. cbn [mbind outcome_bind].
  rewrite take_ge by (unfold zlen in Hid; lia).
  rewrite put_fits by zlen_lia. cbn [mbind outcome_bind].
  rewrite Hb by zlen_lia. rewrite Hpw. cbn [Z.ltb Z.compare mbind outcome_bind mret outcome_ret].
  rewrite <- !app_assoc, wire_length_field. do 3 f_equal.
  autorewrite with zlen. rewrite Hid. f_equal. lia.
Qed.

Definition error_value (e : StunAtrError) : bytes :=
  enc16 (errPad e) ++ [errorClass e; number e] ++ take (Z.to_nat (sizeReason e)) (reason e).

Lemma encodeAtrError_fits cap ptr e :
  0 <= sizeReason e <= zlen (reason e) -> zlen ptr + 8 + sizeReason e <= cap ->
  encodeAtrError cap ptr e =
  Ret (ptr ++ enc16 ErrorCode ++ enc16 (6 + sizeReason e) ++ error_value e).
Proof.
  intros Hs Hc. unfold encodeAtrError, encode, encode16, error_value.
  pose proof (zlen_take_prefix (reason e) (sizeReason e) Hs).
  repeat (rewrite put_fits by zlen_lia; cbn [mbind outcome_bind]).
  rewrite slice_prefix by lia. cbn [mbind outcome_bind].
  rewrite put_fits by zlen_lia. now rewrite <- !app_assoc.
Qed.

Lemma zlen_error_value e :
  0 <= sizeReason e <= zlen (reason e) -> zlen (error_value e) = 4 + sizeReason e.
Proof.
  intros H. unfold error_value. autorewrite with zlen. rewrite zlen_take_prefix by lia. lia.
Qed.

Definition unknown_value (n : nat) (l : list Z) : bytes := concat (map enc16 (take n l)).

Definition bare_message (ty : Z) (tid : bytes) : StunMessage :=
  set_msgHdr (mkStunMsgHdr ty 0 tid) zeroMessage.

Lemma encodeUnknownLoop_app cap types n : forall i ptr,
  0 <= i -> i + Z.of_nat n <= zlen types -> zlen ptr + 2 * Z.of_nat n <= cap ->
  encodeUnknownLoop n cap ptr i types =
  Ret (ptr ++ unknown_value n (drop (Z.to_nat i) types)).
Proof.
  induction n as [|n IH]; intros i ptr Hi Ht Hc; cbn [encodeUnknownLoop].
  { unfold unknown_value. now rewrite take_0, app_nil_r. }
  destruct (rd_in_range types i) as [t Hrd]; [lia|]. rewrite Hrd. cbn [mbind outcome_bind].
  unfold encode16. rewrite put_fits by zlen_lia. cbn [mbind outcome_bind].
  rewrite IH by zlen_lia. apply rd_Ret in Hrd as [_ Hlk].
  rewrite (drop_S _ _ _ Hlk). replace (Z.to_nat (i + 1)) with (S (Z.to_nat i)) by lia.
  unfold unknown_value. cbn [take map concat]. now rewrite <- app_assoc.
Qed.

Lemma zlen_unknown_value n l : (n <= length l)%nat -> zlen (unknown_value n l) = 2 * Z.of_nat n.
Proof.
  unfold unknown_value. revert l. induction n as [|n IH]; intros [|x l] H; try reflexivity;
    cbn [length] in H; [lia|].
  cbn [take map concat]. rewrite zlen_app, IH by lia. rewrite zlen_enc16. lia.
Qed.

Lemma encodeAtrUnknown_fits cap ptr u :
  0 <= numAttributes u <= zlen (attrType u) -> zlen ptr + 4 + 2 * numAttributes u <= cap ->
  encodeAtrUnknown cap ptr u =
  Ret (ptr ++ enc16 UnknownAttribute ++ enc16 (2 + 2 * numAttributes u) ++
       unknown_value (Z.to_nat (numAttributes u)) (attrType u)).
Proof.
  intros Hn Hc. unfold encodeAtrUnknown, encode16.
  repeat (rewrite put_fits by zlen_lia; cbn [mbind outcome_bind]).
  rewrite encodeUnknownLoop_app by zlen_lia. now rewrite <- !app_assoc.
Qed.

(** An ERROR-CODE attribute announces two bytes more than are written, and
    so does an UNKNOWN-ATTRIBUTES attribute: a message that carries one of
    them, such as every error response of the server, is rejected by the
    program's own parser. *)
Theorem encoded_error_and_unknown_rejected hmac ty tid :
  0 <= ty < 65536 -> zlen tid = 16 ->
  (forall e, 0 <= sizeReason e <= zlen (reason e) -> zlen (reason e) = 256 ->
     exists out m,
       stunEncodeMessage hmac (set_errorCode (mkAttr true e) (bare_message ty tid))
         STUN_MAX_MESSAGE_SIZE zeroString = Ret out /\
       stunParseMessage out (zlen out) = Ret (false, m)) /\
  (forall u, 0 <= numAttributes u <= zlen (attrType u) -> zlen (attrType u) = 4 ->
     exists out m,
       stunEncodeMessage hmac (set_unknownAttributes (mkAttr true u) (bare_message ty tid))
         STUN_MAX_MESSAGE_SIZE zeroString = Ret out /\
       stunParseMessage out (zlen out) = Ret (false, m)).
Proof.
  intros Hty Hid. split; intros v Hs Hl.
  - pose proof (zlen_error_value v Hs) as Hv.
    destruct (parse_overlong ty tid ErrorCode (6 + sizeReason v) (error_value v)) as [m Hm];
      try (unfold ErrorCode; lia).
    exists (enc16 ty ++ enc16 (zlen (enc16 ErrorCode ++ enc16 (6 + sizeReason v) ++ error_value v)) ++
      tid ++ enc16 ErrorCode ++ enc16 (6 + sizeReason v) ++ error_value v), m. split.
    + apply stunEncodeMessage_header; try assumption; try reflexivity; [discriminate|].
      intros ptr Hptr. unfold encodeAttrs. cbn -[encodeAtrError].
      rewrite encodeAtrError_fits by (unfold STUN_MAX_MESSAGE_SIZE; lia). reflexivity.
    + rewrite <- Hm. f_equal. zlen_lia.
  - set (w := unknown_value (Z.to_nat (numAttributes v)) (attrType v)).
    assert (zlen w = 2 * numAttributes v) as Hw
      by (subst w; rewrite zlen_unknown_value by (unfold zlen in *; lia); lia).
    destruct (parse_overlong ty tid UnknownAttribute (2 + 2 * numAttributes v) w) as [m Hm];
      try (unfold UnknownAttribute; lia).
    exists (enc16 ty ++ enc16 (zlen (enc16 UnknownAttribute ++ enc16 (2 + 2 * numAttributes v) ++ w)) ++
      tid ++ enc16 UnknownAttribute ++ enc16 (2 + 2 * numAttributes v) ++ w), m. split.
    + apply stunEncodeMessage_header; try assumption; try reflexivity; [discriminate|].
      intros ptr Hptr. unfold encodeAttrs. cbn -[encodeAtrUnknown].
      rewrite encodeAtrUnknown_fits by (unfold STUN_MAX_MESSAGE_SIZE; lia). reflexivity.
    + rewrite <- Hm. f_equal. zlen_lia.
Qed.

Lemma encoded_error_and_unknown_rejected_witness :
  exists out m,
    stunEncodeMessage (fun _ _ => zeros 20)
      (set_errorCode (mkAttr true (mkStunAtrError 0 4 33 (zeros 256) 0))
         (bare_message SharedSecretErrorResponseMsg (zeros 16)))
      STUN_MAX_MESSAGE_SIZE zeroString = Ret out /\
    stunParseMessage out (zlen out) = Ret (false, m).
Proof.
  refine (proj1 (encoded_error_and_unknown_rejected (fun _ _ => zeros 20)
    SharedSecretErrorResponseMsg (zeros 16) _ _) (mkStunAtrError 0 4 33 (zeros 256) 0) _ _);
    vm_compute; intuition congruence.
Defined.


End StunFacts.
