(* ===== verification/StunServer.v ===== *)
(** The STUN server of stund/stun.cxx over the sockets of stund/udp.cxx: user
    names and passwords, [stunServerProcessMsg], [stunServerProcess],
    [stunInitServer] and [stunStopServer].

    What the operating system answers is an argument of the definitions: the
    ready descriptors of [select], the result of [recvfrom], the clock and the
    random numbers.  What it is asked to do is a result: the datagrams handed
    to [sendto], the descriptors opened and closed. *)
From S2P Require Import Prelude Stun.
Import Stun.

Module StunServer.

(** * udp.h, udp.cxx *)

Definition INVALID_SOCKET : Z := -1.
Definition udpMaxMessageLength : Z := 16 * 1024.

(** What [recvfrom] returns. *)
Inductive recv :=
| RecvError
| Received (data : bytes) (srcIp srcPort : Z).

(** [getMessage]: the result, the receive array, the length and the source
    (unwritten when nothing was received). *)
Definition getMessage (fd : Z) (buf : bytes) (len : Z) (r : recv)
  : outcome (bool * bytes * Z * option StunAddress4) :=
  _ ← cassert (negb (fd =? INVALID_SOCKET));
  match r with
  | RecvError => mret (false, buf, -1, None)
  | Received data ip p =>
      let got := take (Z.to_nat len) data in
      buf ← overwrite buf 0 got;
      let n := zlen got in
      if n =? 0 then mret (false, buf, n, None)
      else
        let src := Some (mkStunAddress4 p ip) in
        if len <=? n + 1 then mret (false, buf, n, src)
        else
          buf ← wr buf n 0;
          mret (true, buf, n, src)
  end.

(** A datagram handed to the operating system; [dst] is [None] on a connected
    socket. *)
Record sent := mkSent { sentFd : Z; sentData : bytes; sentTo : option StunAddress4 }.

Definition sendMessage (fd : Z) (buf : bytes) (l dstIp dstPort : Z) : outcome sent :=
  _ ← cassert (negb (fd =? INVALID_SOCKET));
  data ← slice buf 0 l;
  if dstPort =? 0 then
    _ ← cassert (dstIp =? 0);
    mret (mkSent fd data None)
  else
    _ ← cassert (negb (dstIp =? 0));
    mret (mkSent fd data (Some (mkStunAddress4 dstPort dstIp))).

(** * Strings the server makes *)

(** One hexadecimal digit, lower case, of [hexmap]. *)
Definition hexDigit (d : Z) : Z := if d <? 10 then 48 + d else 87 + d.

(** [toHex]: two digits per byte, then a NUL. *)
Definition toHex (buffer : bytes) (bufferSize : Z) (output : bytes) : outcome bytes :=
  src ← slice buffer 0 bufferSize;
  overwrite output 0
    (concat (map (fun b => [hexDigit (Z.shiftr (Z.land b 0xf0) 4); hexDigit (Z.land b 0xf)]) src)
       ++ [0]).

(** The conversion [%08lx] of [sprintf], on 32 bits. *)
Definition hex08 (x : Z) : bytes :=
  map (fun k => hexDigit (Z.land (Z.shiftr x (4 * k)) 0xf)) [7; 6; 5; 4; 3; 2; 1; 0].

(** [isspace], [isxdigit] and digit values of the C locale. *)
Definition isspace (c : Z) : bool := (c =? 32) || ((9 <=? c) && (c <=? 13)).
Definition hexValue (c : Z) : option Z :=
  if (48 <=? c) && (c <=? 57) then Some (c - 48)
  else if (97 <=? c) && (c <=? 102) then Some (c - 87)
  else if (65 <=? c) && (c <=? 70) then Some (c - 55)
  else None.

Fixpoint hexDigits (s : bytes) (acc : Z) (any : bool) : option Z :=
  match s with
  | [] => if any then Some acc else None
  | c :: s' => match hexValue c with
               | Some d => hexDigits s' (acc * 16 + d) true
               | None => if any then Some acc else None
               end
  end.

Fixpoint dropSpaces (s : bytes) : bytes :=
  match s with
  | c :: s' => if isspace c then dropSpaces s' else s
  | [] => []
  end.

(** The conversion [%lx] of [sscanf] into 32 bits: [None] when it matches
    nothing and leaves its argument unwritten. *)
Definition sscanf_lx (s : bytes) : option Z :=
  let s := dropSpaces s in
  let '(neg, s) := match s with
                   | c :: s' => if c =? 45 then (true, s')
                                else if c =? 43 then (false, s') else (false, s)
                   | [] => (false, s)
                   end in
  let s := match s with
           | z :: x :: s' => if (z =? 48) && ((x =? 120) || (x =? 88)) then s' else s
           | _ => s
           end in
  v ← hexDigits s 0 false;
  let v := Z.min v 4294967295 in
  Some (if neg : bool then u32 (- v) else v).

Section Server.

(** [HMAC(EVP_sha1(), key, data)] of OpenSSL. *)
Variable hmac_sha1 : bytes -> bytes -> bytes.

(** [time] is the result of [stunGetSystemTimeSecs], [rnd] that of
    [stunRand].  As in the code, [time % 20*60] is [(time % 20) * 60]. *)
Definition stunCreateUserName (source : StunAddress4) (rnd time : Z) (username : StunAtrString)
  : outcome StunAtrString :=
  let time := u64 (time - u64 (time mod 20 * 60)) in
  let lotime := Z.land time 0xFFFFFFFF in
  let buffer := hex08 (addr source) ++ [58] ++ hex08 (u32 rnd) ++ [58] ++
                hex08 (u32 lotime) ++ [58] in
  _ ← cassert (zlen buffer <? 1024);
  _ ← cassert (zlen buffer + 41 <? STUN_MAX_STRING);
  let key := str "Jason" in
  hmac ← computeHmac hmac_sha1 buffer key (zlen key);
  hmacHex ← toHex hmac 20 (zeros 41);
  hmacHex ← wr hmacHex 40 0;
  let buffer := buffer ++ cstr hmacHex in
  let l := zlen buffer in
  _ ← cassert (l + 1 <? STUN_MAX_STRING);
  value ← overwrite (strValue username) 0 buffer;
  value ← wr value l 0;
  mret (mkStunAtrString value l).

Definition stunCreatePassword (username password : StunAtrString) : outcome StunAtrString :=
  let key := str "Fluffy" in
  hmac ← computeHmac hmac_sha1 (cstr (strValue username)) key (zlen key);
  value ← toHex hmac 20 (strValue password);
  value ← wr value 40 0;
  mret (mkStunAtrString value 40).

(** * Responses *)

(** [sizeReason] keeps its value. *)
Definition setError (msgTy cl nb : Z) (msg : bytes) (response : StunMessage)
  : outcome StunMessage :=
  let e := val (errorCode response) in
  r ← overwrite (reason e) 0 (msg ++ [0]);
  mret (set_errorCode (mkAttr true (mkStunAtrError (errPad e) cl nb r (sizeReason e)))
    (set_msgHdr (mkStunMsgHdr msgTy (msgLength (msgHdr response)) (id (msgHdr response)))
       response)).

Definition stunCreateErrorResponse (response : StunMessage) (cl nb : Z) (msg : bytes) :=
  setError BindErrorResponseMsg cl nb msg response.

Definition stunCreateSharedSecretErrorResponse (response : StunMessage) (cl nb : Z)
  (msg : bytes) :=
  setError SharedSecretErrorResponseMsg cl nb msg response.

Definition stunCreateSharedSecretResponse (request : StunMessage) (source : StunAddress4)
  (rnd time : Z) (response : StunMessage) : outcome StunMessage :=
  let response := set_msgHdr (mkStunMsgHdr SharedSecretResponseMsg
    (msgLength (msgHdr response)) (id (msgHdr request))) response in
  u ← stunCreateUserName source rnd time (val (username response));
  let response := set_username (mkAttr true u) response in
  p ← stunCreatePassword u (val (password response));
  mret (set_password (mkAttr true p) response).

(** * stunServerProcessMsg *)

(** The result and the output parameters; [destination] is [None] while
    nothing has been stored in it. *)
Record processed := mkProcessed {
  ok : bool;
  resp : StunMessage;
  destination : option StunAddress4;
  hmacPassword : StunAtrString;
  changePort : bool;
  changeIp : bool
}.

(** The authentication part of the [BindRequestMsg] case: [inl] is the early
    return with an error response, [inr] the response to go on with. *)
Definition bindRequestAuth (buf : bytes) (bufLen : Z) (req resp : StunMessage)
  : outcome (StunMessage + StunMessage) :=
  if negb (has (messageIntegrity req)) then mret (inr resp)
  else if negb (has (username req)) then
    r ← stunCreateErrorResponse resp 4 32 (str "No UserName and contains MessageIntegrity");
    mret (inl r)
  else if bool_decide (cstr (strValue (val (username req))) = str "test") then
    input ← slice buf 0 (u32 (bufLen - 20 - 4));
    let hmac := hmac_sha1 (str "1234") input in
    _ ← cassert (zlen hmac =? 20);
    first20 ← slice buf 0 20;
    if negb (bool_decide (first20 = hmac)) then
      r ← stunCreateErrorResponse resp 4 3 (str "Unknown username. Try test with password 1234");
      mret (inl r)
    else
      let resp := set_messageIntegrity (mkAttr true (val (messageIntegrity resp))) resp in
      mret (inr (set_username (mkAttr true (val (username req))) resp))
  else mret (inr resp).

(** [x.ipv4.port = p; x.ipv4.addr = a] of a response address. *)
Definition put_ipv4 (p a : Z) (x : StunAtrAddress4) : StunAtrAddress4 :=
  mkStunAtrAddress4 (pad x) (family x) (mkStunAddress4 p a).

(** The rest of the [BindRequestMsg] case. *)
Definition bindRequestAnswer (req : StunMessage) (from myAddr altAddr : StunAddress4)
  (hmacPassword : StunAtrString) (resp : StunMessage) : outcome processed :=
  let mapped := ipv4 (val (mappedAddress req)) in
  let respondTo := ipv4 (val (responseAddress req)) in
  let flags := value (val (changeRequest req)) in
  let respondTo := if port respondTo =? 0 then from else respondTo in
  let mapped := if port mapped =? 0 then from else mapped in
  let changeIp := negb (Z.land flags ChangeIpFlag =? 0) in
  let changePort := negb (Z.land flags ChangePortFlag =? 0) in
  let resp := set_msgHdr (mkStunMsgHdr BindResponseMsg (msgLength (msgHdr resp))
    (id (msgHdr req))) resp in
  let resp := set_mappedAddress
    (mkAttr true (put_ipv4 (port mapped) (addr mapped) (val (mappedAddress resp)))) resp in
  let resp := set_sourceAddress
    (mkAttr true (put_ipv4 (if changePort then port altAddr else port myAddr)
      (if changeIp then addr altAddr else addr myAddr) (val (sourceAddress resp)))) resp in
  let resp := set_changedAddress
    (mkAttr true (put_ipv4 (port altAddr) (addr altAddr) (val (changedAddress resp)))) resp in
  resp ← (if has (username req) && (0 <? sizeValue (val (username req))) then
            src ← slice (strValue (val (username req))) 0 (sizeValue (val (username req)));
            v ← overwrite (strValue (val (username resp))) 0 src;
            mret (set_username
              (mkAttr true (mkStunAtrString v (sizeValue (val (username resp))))) resp)
          else mret resp);
  hmacPassword ← (if has (messageIntegrity req) && has (username req)
                  then stunCreatePassword (val (username req)) hmacPassword
                  else mret hmacPassword);
  resp ← (if has (username req) && (64 <? sizeValue (val (username req))) then
            source ← initialised (sscanf_lx (cstr (strValue (val (username req)))));
            mret (set_reflectedFrom
              (mkAttr true (put_ipv4 0 source (val (reflectedFrom resp)))) resp)
          else mret resp);
  mret (mkProcessed true resp (Some respondTo) hmacPassword changePort changeIp).

Definition stunServerProcessMsg (buf : bytes) (bufLen : Z) (from myAddr altAddr : StunAddress4)
  (hmacPassword : StunAtrString) (rnd time : Z) : outcome processed :=
  let resp := zeroMessage in
  let done b r := mkProcessed b r None hmacPassword false false in
  '(parsed, req) ← stunParseMessage buf bufLen;
  if negb parsed then mret (done false resp)
  else if msgType (msgHdr req) =? SharedSecretRequestMsg then
    r ← stunCreateSharedSecretResponse req from rnd time resp;
    mret (done true r)
  else if msgType (msgHdr req) =? BindRequestMsg then
    auth ← bindRequestAuth buf bufLen req resp;
    match auth with
    | inl r => mret (done true r)
    | inr resp => bindRequestAnswer req from myAddr altAddr hmacPassword resp
    end
  else mret (done false resp).

(** * stunServerProcess *)

Record StunServerInfo := mkStunServerInfo {
  myAddr : StunAddress4; altAddr : StunAddress4;
  myFd : Z; altPortFd : Z; altIpFd : Z; altIpPortFd : Z
}.

(** The world during one call: the ready descriptors ([None] when [select]
    fails), what [recvfrom] gives on each, the clock and the random number,
    and what the receive array holds beforehand. *)
Record world := mkWorld {
  ready : option (list Z);
  incoming : Z -> recv;
  clock : Z;
  random : Z;
  stale : bytes
}.

Definition FD_ISSET (fd : Z) (fds : list Z) : bool := existsb (Z.eqb fd) fds.

(** The socket the request is read from, with [recvAlt]. *)
Definition selectFd (info : StunServerInfo) (fds : list Z) : option (Z * bool) :=
  if FD_ISSET (myFd info) fds then Some (myFd info, false)
  else if FD_ISSET (altPortFd info) fds then Some (altPortFd info, false)
  else if FD_ISSET (altIpFd info) fds then Some (altIpFd info, true)
  else if FD_ISSET (altIpPortFd info) fds then Some (altIpPortFd info, true)
  else None.

(** The socket the response leaves by. *)
Definition replyFd (info : StunServerInfo) (recvAlt changePort changeIp : bool) : Z :=
  let sendAlt := false in
  let sendAlt := if recvAlt then negb sendAlt else sendAlt in
  let sendAlt := if changeIp then negb sendAlt else sendAlt in
  if negb changePort then if negb sendAlt then myFd info else altIpFd info
  else if negb sendAlt then altPortFd info else altIpPortFd info.

(** The request in [msg] answered: what is sent. *)
Definition answerRequest (info : StunServerInfo) (w : world) (recvAlt : bool)
  (msg : bytes) (msgLen : Z) (from : StunAddress4) : outcome (bool * list sent) :=
  p ← stunServerProcessMsg msg msgLen from
        (if recvAlt then altAddr info else myAddr info)
        (if recvAlt then myAddr info else altAddr info)
        zeroString (random w) (clock w);
  if negb (ok p) then mret (true, [])
  else
    buf ← stunEncodeMessage hmac_sha1 (resp p) STUN_MAX_MESSAGE_SIZE (hmacPassword p);
    dest ← initialised (destination p);
    if (addr dest =? 0) || (port dest =? 0) then mret (true, [])
    else
      s ← sendMessage (replyFd info recvAlt (changePort p) (changeIp p)) buf (zlen buf)
            (addr dest) (port dest);
      mret (true, [s]).

Definition stunServerProcess (info : StunServerInfo) (w : world) : outcome (bool * list sent) :=
  match ready w with
  | None => mret (true, [])
  | Some fds =>
      match selectFd info fds with
      | None => mret (true, [])
      | Some (fd, recvAlt) =>
          '(good, msg, msgLen, from) ← getMessage fd (stale w) udpMaxMessageLength (incoming w fd);
          if negb good then mret (true, [])
          else if msgLen <=? 0 then mret (true, [])
          else
            from ← initialised from;
            answerRequest info w recvAlt msg msgLen from
      end
  end.

End Server.

(** * stunInitServer, stunStopServer *)

(** The descriptors [stunStopServer] closes. *)
Definition stunStopServer (info : StunServerInfo) : list Z :=
  filter (fun fd => 0 < fd) [myFd info; altPortFd info; altIpFd info; altIpPortFd info].

(** [opened port ip] is the result of [openPort].  The result is the flag, the
    server and the descriptors closed. *)
Definition stunInitServer (opened : Z -> Z -> Z) (my alt : StunAddress4)
  : outcome (bool * StunServerInfo * list Z) :=
  _ ← cassert (negb (port my =? 0));
  _ ← cassert (negb (port alt =? 0));
  _ ← cassert (negb (addr my =? 0));
  _ ← cassert (negb (addr alt =? 0));
  let fail info := mret (false, info, stunStopServer info) in
  let f1 := opened (port my) (addr my) in
  let info := mkStunServerInfo my alt f1 (-1) (-1) (-1) in
  if f1 =? INVALID_SOCKET then fail info
  else
    let f2 := opened (port alt) (addr my) in
    let info := mkStunServerInfo my alt f1 f2 (-1) (-1) in
    if f2 =? INVALID_SOCKET then fail info
    else
      let f3 := opened (port my) (addr alt) in
      let info := mkStunServerInfo my alt f1 f2 f3 (-1) in
      if f3 =? INVALID_SOCKET then fail info
      else
        let f4 := opened (port alt) (addr alt) in
        let info := mkStunServerInfo my alt f1 f2 f3 f4 in
        if f4 =? INVALID_SOCKET then fail info
        else mret (true, info, []).

End StunServer.
