(* ===== verification/StunServerFacts.v ===== *)
(** Theorems about the STUN server of [StunServer]: which requests are
    answered, what the answer says and by which socket it leaves, the requests
    that stop the server, and the user names that carry the client's address. *)
From S2P Require Import Prelude Stun StunFacts StunServer.
Import Stun StunFacts StunServer.

Module StunServerFacts.

(** * A datagram in a larger array *)

(** What an access delivers in an array it also delivers in a longer one. *)
Definition refines {A} (m m' : outcome A) : Prop := forall a, m = Ret a -> m' = Ret a.

Lemma refines_refl {A} (m : outcome A) : refines m m.
Proof. intros a H; exact H. Qed.

Lemma refines_bind {A B} (m m' : outcome A) (k k' : A -> outcome B) :
  refines m m' -> (forall a, refines (k a) (k' a)) -> refines (m ≫= k) (m' ≫= k').
Proof.
  intros Hm Hk b (a & Ha & Hb)%bind_Ret_inv. rewrite (Hm _ Ha). cbn. now apply Hk.
Qed.

Lemma refines_rd {A} (m t : list A) i : refines (rd m i) (rd (m ++ t) i).
Proof.
  intros a [H0 Ha]%rd_Ret. apply rd_Ret. split; [assumption|]. now apply lookup_app_l_Some.
Qed.

Lemma refines_slice {A} (m t : list A) o n : refines (slice m o n) (slice (m ++ t) o n).
Proof.
  intros a. unfold slice.
  destruct (Z.leb_spec 0 o), (Z.leb_spec 0 n), (Z.leb_spec (o + n) (zlen m)); try discriminate.
  destruct (Z.leb_spec (o + n) (zlen (m ++ t))); [|zlen_lia]. cbn. intros [= <-]. f_equal.
  unfold zlen in *. rewrite drop_app_le, take_app_le by (rewrite ?length_drop; lia). reflexivity.
Qed.

Create HintDb refines.
#[export] Hint Resolve refines_refl refines_rd refines_slice refines_bind : refines.

Lemma refines_rd16 m t i : refines (rd16 m i) (rd16 (m ++ t) i).
Proof. unfold rd16. auto with refines. Qed.
Lemma refines_rd32 m t i : refines (rd32 m i) (rd32 (m ++ t) i).
Proof. unfold rd32. auto 10 with refines. Qed.
#[export] Hint Resolve refines_rd16 refines_rd32 : refines.

Ltac refines :=
  repeat first
    [ solve [auto with refines]
    | apply refines_bind; [solve [auto with refines] | intros ?]
    | match goal with |- context [if ?b then _ else _] => destruct b end
    | match goal with x : (_ * _)%type |- _ => destruct x end ].

Lemma refines_unknown t n : forall m bd i ty,
  refines (parseUnknownLoop n m bd i ty) (parseUnknownLoop n (m ++ t) bd i ty).
Proof. induction n; intros; cbn [parseUnknownLoop]; refines. Qed.
#[export] Hint Resolve refines_unknown : refines.

Lemma refines_parseAttr m t bd len ty msg :
  refines (parseAttr m bd len ty msg) (parseAttr (m ++ t) bd len ty msg).
Proof.
  unfold parseAttr, parseInto, stunParseAtrAddress, stunParseAtrChangeRequest, stunParseAtrString,
    stunParseAtrIntegrity, stunParseAtrError, stunParseAtrUnknown. cbv zeta.
  repeat (match goal with |- context [if ?b then _ else _] => destruct b end;
    [apply refines_bind; [solve [refines] | intros ?; refines] |]).
  refines.
Qed.
#[export] Hint Resolve refines_parseAttr : refines.

Lemma refines_parseAttrs t f : forall m bd size msg,
  refines (parseAttrs f m bd size msg) (parseAttrs f (m ++ t) bd size msg).
Proof. induction f; intros; cbn [parseAttrs]; refines. Qed.
#[export] Hint Resolve refines_parseAttrs : refines.

Lemma refines_parse m t n : refines (stunParseMessage m n) (stunParseMessage (m ++ t) n).
Proof. unfold stunParseMessage. cbv zeta. refines. Qed.

(** * Receiving *)

Lemma take_zlen {A} (l : list A) n : zlen l <= n -> take (Z.to_nat n) l = l.
Proof. intros H. apply take_ge. unfold zlen in H. lia. Qed.

(** The receive array after a datagram that fits. *)
Lemma getMessage_fits fd cap stl data ip p :
  fd <> INVALID_SOCKET -> zlen stl = cap -> 0 < zlen data < cap - 1 ->
  exists t, getMessage fd stl cap (Received data ip p) =
    Ret (true, data ++ t, zlen data, Some (mkStunAddress4 p ip)).
Proof.
  intros Hfd Hs Hd. unfold getMessage.
  destruct (Z.eqb_spec fd INVALID_SOCKET); [contradiction|]. cbn [negb cassert mbind outcome_bind].
  rewrite take_zlen by lia. unfold overwrite.
  destruct (Z.leb_spec 0 0), (Z.leb_spec (0 + zlen data) (zlen stl)); try lia. cbn.
  destruct (Z.eqb_spec (zlen data) 0); [lia|].
  destruct (Z.leb_spec cap (zlen data + 1)); [lia|].
  set (rest := drop (length data) stl).
  assert (zlen rest = zlen stl - zlen data) as Hrest
    by (subst rest; unfold zlen in *; rewrite length_drop; lia).
  change (take (Z.to_nat 0) stl ++ data ++ drop (Z.to_nat 0 + length data) stl)
    with (data ++ rest).
  unfold wr. destruct (Z.leb_spec 0 (zlen data)), (Z.ltb_spec (zlen data) (zlen (data ++ rest)));
    cbn; try zlen_lia.
  exists (<[0%nat:=0]> rest).
  assert (<[Z.to_nat (zlen data):=0]> (data ++ rest) = data ++ <[0%nat:=0]> rest) as ->; [|reflexivity].
  unfold zlen. rewrite Nat2Z.id, insert_app_r_alt, Nat.sub_diag by lia. reflexivity.
Qed.

Section Handling.
Context (hmac : bytes -> bytes -> bytes).
Hypothesis hmac_ok : forall k d, zlen (hmac k d) = 20 /\ bytes_ok (hmac k d).

(** A datagram [data] from [from] waiting on the socket [fd], and what it
    parses to. *)
Record arrives (info : StunServerInfo) (w : world) (recvAlt : bool) (data : bytes)
  (from : StunAddress4) (req : StunMessage) : Prop := {
  arr_select : exists fds fd, ready w = Some fds /\ selectFd info fds = Some (fd, recvAlt) /\
    fd <> INVALID_SOCKET /\ incoming w fd = Received data (addr from) (port from);
  arr_stale : zlen (stale w) = udpMaxMessageLength;
  arr_size : 0 < zlen data < udpMaxMessageLength - 1;
  arr_parse : stunParseMessage data (zlen data) = Ret (true, req)
}.

Lemma serverProcess_arrives info w recvAlt data from req :
  arrives info w recvAlt data from req ->
  exists t, stunServerProcess hmac info w =
            answerRequest hmac info w recvAlt (data ++ t) (zlen data) from /\
            stunParseMessage (data ++ t) (zlen data) = Ret (true, req).
Proof.
  intros [(fds & fd & Hr & Hsel & Hfd & Hin) Hst Hsz Hp].
  destruct (getMessage_fits fd udpMaxMessageLength (stale w) data (addr from) (port from)) as [t Ht];
    [assumption..|].
  exists t. split; [|now apply refines_parse].
  unfold stunServerProcess. rewrite Hr, Hsel, Hin, Ht. cbn.
  destruct (Z.leb_spec (zlen data) 0); [lia|]. now destruct from.
Qed.

(** * Answers to binding requests *)

Definition addr_wf (a : StunAddress4) : Prop :=
  0 <= port a < 65536 /\ 0 <= addr a < 4294967296.

Definition change_flag (req : StunMessage) (f : Z) : bool :=
  negb (Z.land (value (val (changeRequest req))) f =? 0).

(** The response to an unauthenticated request: [my] and [alt] are the
    addresses of the receiving socket and of the other one. *)
Definition bind_response (req : StunMessage) (from my alt : StunAddress4) : StunMessage :=
  let src := mkStunAddress4 (if change_flag req ChangePortFlag then port alt else port my)
                            (if change_flag req ChangeIpFlag then addr alt else addr my) in
  set_mappedAddress (mkAttr true (mkStunAtrAddress4 0 0 from))
   (set_sourceAddress (mkAttr true (mkStunAtrAddress4 0 0 src))
     (set_changedAddress (mkAttr true (mkStunAtrAddress4 0 0 alt))
       (set_msgHdr (mkStunMsgHdr BindResponseMsg 0 (id (msgHdr req))) zeroMessage))).

Lemma processMsg_bind_request buf n req from my alt pw rnd time :
  stunParseMessage buf n = Ret (true, req) ->
  msgType (msgHdr req) = BindRequestMsg ->
  has (messageIntegrity req) = false -> has (username req) = false ->
  port (ipv4 (val (mappedAddress req))) = 0 ->
  stunServerProcessMsg hmac buf n from my alt pw rnd time =
  Ret (mkProcessed true (bind_response req from my alt)
    (Some (if port (ipv4 (val (responseAddress req))) =? 0 then from
           else ipv4 (val (responseAddress req)))) pw
    (change_flag req ChangePortFlag) (change_flag req ChangeIpFlag)).
Proof.
  intros Hp Hty Hmi Hu Hmap. unfold stunServerProcessMsg. rewrite Hp.
  cbn [mbind outcome_bind negb]. rewrite Hty. cbn [Z.eqb BindRequestMsg SharedSecretRequestMsg Pos.eqb].
  unfold bindRequestAuth. rewrite Hmi. cbn [negb mret outcome_ret mbind outcome_bind].
  unfold bindRequestAnswer. rewrite Hu, Hmi, Hmap. cbn. unfold bind_response, put_ipv4.
  now destruct from, alt.
Qed.

Lemma bind_response_wf req from my alt :
  zlen (id (msgHdr req)) = 16 -> bytes_ok (id (msgHdr req)) ->
  addr_wf from -> addr_wf my -> addr_wf alt -> msg_wf (bind_response req from my alt).
Proof.
  intros Hid Hok [] [] []. unfold bind_response.
  split; cbn; unfold opt_wf, address_wf, byte_ok; cbn; try discriminate; auto.
  - unfold BindResponseMsg; lia.
  - intros _. repeat split; lia.
  - intros _. repeat split; try lia; destruct change_flag; lia.
  - intros _. repeat split; lia.
Qed.

Lemma bind_response_size req from my alt :
  zlen (concat (wire_attrs (bind_response req from my alt))) = 36.
Proof. reflexivity. Qed.

(** The identifier of a parsed message has its 16 octets. *)
Lemma parseAttr_hdr buf bd len ty m ok m' :
  parseAttr buf bd len ty m = Ret (ok, m') -> msgHdr m' = msgHdr m.
Proof.
  unfold parseAttr, parseInto.
  repeat (match goal with |- context [if ?b then _ else _] => destruct b end;
    [intros ([o a] & _ & [= <- <-])%bind_Ret_inv; reflexivity|]).
  intros [= <- <-]. reflexivity.
Qed.

Lemma parseAttrs_hdr f : forall buf bd size m ok m',
  parseAttrs f buf bd size m = Ret (ok, m') -> msgHdr m' = msgHdr m.
Proof.
  induction f as [|f IH]; intros buf bd size m ok m'; cbn [parseAttrs]; [discriminate|].
  destruct (negb (0 <? size)); [now intros [= <- <-]|].
  intros (len & _ & (ty & _ & H)%bind_Ret_inv)%bind_Ret_inv.
  destruct (size <? len + 4); [now injection H as <- <-|].
  apply bind_Ret_inv in H as ([b m1] & Ha%parseAttr_hdr & H).
  destruct b; cbn [negb] in H; [apply IH in H; congruence | injection H as <- <-; assumption].
Qed.

Lemma slice_Ret_inv {A} (m : list A) o n l :
  slice m o n = Ret l -> zlen l = n /\ l = take (Z.to_nat n) (drop (Z.to_nat o) m).
Proof.
  unfold slice. destruct (Z.leb_spec 0 o), (Z.leb_spec 0 n), (Z.leb_spec (o + n) (zlen m));
    try discriminate. intros [= <-]. split; [|reflexivity].
  unfold zlen in *. rewrite length_take, length_drop. lia.
Qed.

Lemma parse_id buf n req :
  bytes_ok buf -> stunParseMessage buf n = Ret (true, req) ->
  zlen (id (msgHdr req)) = 16 /\ bytes_ok (id (msgHdr req)).
Proof.
  intros Hb. unfold stunParseMessage. destruct (n <? sizeof_StunMsgHdr); [discriminate|].
  intros (ty & _ & (len & _ & (tid & Ht%slice_Ret_inv & H)%bind_Ret_inv)%bind_Ret_inv)%bind_Ret_inv.
  destruct (negb _); [discriminate|]. apply parseAttrs_hdr in H. rewrite H. cbn.
  destruct Ht as [Hl ->]. split; [assumption|]. now apply Forall_take, Forall_drop.
Qed.

(** What the server does with such a request, before any theorem about the
    datagram it sends. *)
Lemma answer_bind_request info w recvAlt data from req :
  arrives info w recvAlt data from req -> bytes_ok data ->
  msgType (msgHdr req) = BindRequestMsg ->
  has (messageIntegrity req) = false -> has (username req) = false ->
  port (ipv4 (val (mappedAddress req))) = 0 -> port (ipv4 (val (responseAddress req))) = 0 ->
  addr_wf from -> port from <> 0 -> addr from <> 0 ->
  addr_wf (myAddr info) -> addr_wf (altAddr info) ->
  let fd := replyFd info recvAlt (change_flag req ChangePortFlag) (change_flag req ChangeIpFlag) in
  let my := if recvAlt then altAddr info else myAddr info in
  let alt := if recvAlt then myAddr info else altAddr info in
  fd <> INVALID_SOCKET ->
  stunServerProcess hmac info w =
  Ret (true, [mkSent fd (wire (bind_response req from my alt)
    (integrity_of hmac (bind_response req from my alt) zeroString)) (Some from)]).
Proof.
  intros Harr Hb Hty Hmi Hu Hmap Hresp Hfrom Hp Ha Hmy Halt fd my alt Hfd.
  destruct (parse_id _ _ _ Hb (arr_parse _ _ _ _ _ _ Harr)) as [Hid Hidok].
  destruct (serverProcess_arrives _ _ _ _ _ _ Harr) as (t & -> & Ht).
  unfold answerRequest. fold my alt.
  rewrite (processMsg_bind_request _ _ req) by assumption. rewrite Hresp.
  cbn [Z.eqb mbind outcome_bind ok negb resp hmacPassword destination initialised changePort changeIp].
  set (r := bind_response req from my alt).
  assert (msg_wf r) as Hwf by (subst r my alt; apply bind_response_wf; destruct recvAlt; assumption).
  rewrite stunEncodeMessage_wire;
    [|intros; apply hmac_ok | exact Hwf | reflexivity | reflexivity | vm_compute; intuition discriminate
     | vm_compute; discriminate | reflexivity].
  cbn [mbind outcome_bind].
  destruct (Z.eqb_spec (addr from) 0); [contradiction|].
  destruct (Z.eqb_spec (port from) 0); [contradiction|]. cbn [orb].
  unfold sendMessage. fold fd. destruct (Z.eqb_spec fd INVALID_SOCKET); [contradiction|].
  destruct (Z.eqb_spec (port from) 0); [contradiction|].
  destruct (Z.eqb_spec (addr from) 0); [contradiction|]. cbn [negb cassert mbind outcome_bind].
  rewrite slice_prefix by (pose proof (zlen_nonneg (wire r (integrity_of hmac r zeroString))); lia).
  rewrite take_zlen by lia. cbn. now destruct from.
Qed.

Lemma zlen_wire_plain m mi :
  msg_wf m -> zlen (wire m (mkAttr false mi)) = 20 + zlen (concat (wire_attrs m)).
Proof.
  intros Hm. destruct (wf_id _ Hm) as [Hid _]. unfold wire, opt_tlv. cbn [has].
  rewrite app_nil_r. zlen_lia.
Qed.

(** C32: a binding request without MESSAGE-INTEGRITY and USERNAME that arrives
    on one of the four sockets is answered by exactly one datagram, to its
    sender: a binding response with the identifier of the request, the sender's
    address as MAPPED-ADDRESS, the other address as CHANGED-ADDRESS and the
    address selected by the change flags as SOURCE-ADDRESS, which the program's
    own parser accepts. *)
Theorem bind_request_answered info w recvAlt data from req :
  arrives info w recvAlt data from req -> bytes_ok data ->
  msgType (msgHdr req) = BindRequestMsg ->
  has (messageIntegrity req) = false -> has (username req) = false ->
  port (ipv4 (val (mappedAddress req))) = 0 -> port (ipv4 (val (responseAddress req))) = 0 ->
  addr_wf from -> port from <> 0 -> addr from <> 0 ->
  addr_wf (myAddr info) -> addr_wf (altAddr info) ->
  let fd := replyFd info recvAlt (change_flag req ChangePortFlag) (change_flag req ChangeIpFlag) in
  let my := if recvAlt then altAddr info else myAddr info in
  let alt := if recvAlt then myAddr info else altAddr info in
  fd <> INVALID_SOCKET ->
  exists out len mi,
    stunServerProcess hmac info w = Ret (true, [mkSent fd out (Some from)]) /\
    stunParseMessage out (zlen out) =
      Ret (true, received (bind_response req from my alt) len (mkAttr false mi)).
Proof.
  intros Harr Hb Hty Hmi Hu Hmap Hresp Hfrom Hp Ha Hmy Halt fd my alt Hfd.
  destruct (parse_id _ _ _ Hb (arr_parse _ _ _ _ _ _ Harr)) as [Hid Hidok].
  assert (msg_wf (bind_response req from my alt)) as Hwf
    by (subst my alt; apply bind_response_wf; destruct recvAlt; assumption).
  pose proof (answer_bind_request _ _ _ _ _ _ Harr Hb Hty Hmi Hu Hmap Hresp Hfrom Hp Ha Hmy Halt Hfd)
    as Hans.
  do 3 eexists. split; [exact Hans|].
  unfold integrity_of. cbn [sizeValue zeroString]. apply wire_parses; [exact Hwf | discriminate |].
  rewrite (zlen_wire_plain _ _ Hwf), bind_response_size. reflexivity.
Qed.

(** * Requests that stop the server *)

Lemma zlen_hex08 x : zlen (hex08 x) = 8.
Proof. reflexivity. Qed.

Lemma hexDigit_nonzero d : 0 <= d -> hexDigit d <> 0.
Proof. intros H. unfold hexDigit. destruct (d <? 10); lia. Qed.

(** The digits [toHex] writes. *)
Definition hexOf (src : bytes) : bytes :=
  concat (map (fun b => [hexDigit (Z.shiftr (Z.land b 0xf0) 4); hexDigit (Z.land b 0xf)]) src).

Lemma zlen_hexOf src : zlen (hexOf src) = 2 * zlen src.
Proof. unfold hexOf. induction src; cbn [map concat]; [reflexivity | zlen_lia]. Qed.

Lemma land_nonneg a b : 0 <= b -> 0 <= Z.land a b.
Proof. intros H. apply Z.land_nonneg. now right. Qed.

Lemma hexOf_nonzero src : Forall (fun b => b <> 0) (hexOf src).
Proof.
  unfold hexOf. induction src; cbn [map concat]; [constructor|].
  constructor; [|constructor; [|assumption]];
    apply hexDigit_nonzero; [apply Z.shiftr_nonneg|]; now apply land_nonneg.
Qed.

Lemma toHex_fits src out :
  zlen src = 20 -> 41 <= zlen out ->
  toHex src 20 out = Ret (hexOf src ++ 0 :: drop 41 out).
Proof.
  intros Hs Ho. unfold toHex. rewrite slice_prefix, take_zlen by lia. cbn [mbind outcome_bind].
  fold (hexOf src). pose proof (zlen_hexOf src). unfold overwrite.
  destruct (Z.leb_spec 0 0), (Z.leb_spec (0 + zlen (hexOf src ++ [0])) (zlen out)); try zlen_lia.
  replace (Z.to_nat 0 + length (hexOf src ++ [0%Z]))%nat with 41%nat
    by (rewrite length_app; unfold zlen in *; cbn [length]; lia).
  cbn [andb]. now rewrite <- app_assoc.
Qed.

Lemma wr_same_zero l k : zlen l = 40 -> wr (l ++ 0 :: k) 40 0 = Ret (l ++ 0 :: k).
Proof.
  intros Hl. unfold wr.
  destruct (Z.leb_spec 0 40), (Z.ltb_spec 40 (zlen (l ++ 0 :: k))); try zlen_lia.
  cbn -[Z.to_nat]. f_equal. apply list_insert_id. rewrite lookup_app_r by (unfold zlen in Hl; lia).
  unfold zlen in Hl. replace (Z.to_nat 40 - length l)%nat with 0%nat by lia. reflexivity.
Qed.

Lemma createPassword_returns u p :
  zlen (strValue p) = 256 ->
  exists v, stunCreatePassword hmac u p = Ret (mkStunAtrString v 40) /\ zlen v = 256.
Proof.
  intros Hp. unfold stunCreatePassword, computeHmac. rewrite slice_prefix by (vm_compute; intuition congruence).
  cbn [mbind outcome_bind]. destruct (hmac_ok (take (Z.to_nat (zlen (str "Fluffy"))) (str "Fluffy")) (cstr (strValue u))) as [Hl _].
  rewrite Hl. cbn [Z.eqb Pos.eqb cassert mbind outcome_bind mret outcome_ret].
  rewrite toHex_fits by lia. cbn [mbind outcome_bind].
  rewrite wr_same_zero by (rewrite zlen_hexOf, Hl; reflexivity). cbn [mbind outcome_bind mret outcome_ret].
  eexists; split; [reflexivity|]. rewrite zlen_app, zlen_cons, zlen_hexOf, Hl.
  unfold zlen in *. rewrite length_drop. lia.
Qed.

(** The user name: three words in hexadecimal and a digest of them. *)
Definition userNameText (source : StunAddress4) (rnd time : Z) : bytes :=
  let lotime := Z.land (u64 (time - u64 (time mod 20 * 60))) 0xFFFFFFFF in
  hex08 (addr source) ++ [58] ++ hex08 (u32 rnd) ++ [58] ++ hex08 (u32 lotime) ++ [58].

Definition userName (source : StunAddress4) (rnd time : Z) : bytes :=
  userNameText source rnd time ++ hexOf (hmac (str "Jason") (userNameText source rnd time)).

Lemma zlen_userName source rnd time : zlen (userName source rnd time) = 67.
Proof.
  unfold userName. rewrite zlen_app, zlen_hexOf. now rewrite (proj1 (hmac_ok _ _)).
Qed.

Lemma createUserName_returns source rnd time u :
  zlen (strValue u) = 256 ->
  exists t, zlen t = 188 /\
    stunCreateUserName hmac source rnd time u =
    Ret (mkStunAtrString (userName source rnd time ++ 0 :: t) 67).
Proof.
  intros Hu. unfold stunCreateUserName. cbv zeta. fold (userNameText source rnd time).
  change (zlen (userNameText source rnd time)) with 27.
  cbn [Z.ltb Z.compare Pos.compare Pos.compare_cont Z.add Pos.add Pos.succ STUN_MAX_STRING cassert mbind outcome_bind].
  unfold computeHmac. rewrite slice_prefix, take_zlen by (vm_compute; intuition congruence).
  cbn [mbind outcome_bind]. destruct (hmac_ok (str "Jason") (userNameText source rnd time)) as [Hl _].
  rewrite Hl. cbn [Z.eqb Pos.eqb cassert mbind outcome_bind mret outcome_ret].
  rewrite toHex_fits by (rewrite ?zlen_zeros; lia). cbn [mbind outcome_bind].
  rewrite wr_same_zero by (rewrite zlen_hexOf, Hl; reflexivity). cbn [mbind outcome_bind].
  rewrite cstr_nonzero by apply hexOf_nonzero.
  fold (userName source rnd time). rewrite zlen_userName.
  cbn [Z.ltb Z.compare Pos.compare Pos.compare_cont Z.add Pos.add Pos.succ STUN_MAX_STRING cassert mbind outcome_bind].
  pose proof (zlen_userName source rnd time) as Hn.
  unfold overwrite. rewrite Hn, Hu. cbn [Z.leb Z.compare Z.add Pos.compare Pos.compare_cont andb mbind outcome_bind].
  set (rest := drop (Z.to_nat 0 + length (userName source rnd time)) (strValue u)).
  assert (zlen rest = 189) as Hrest
    by (subst rest; unfold zlen in *; rewrite length_drop; lia).
  change (take (Z.to_nat 0) (strValue u) ++ userName source rnd time ++ rest)
    with (userName source rnd time ++ rest).
  destruct rest as [|x t] eqn:E; [discriminate|]. exists t. split; [zlen_lia|].
  change (27 + 41 <? STUN_MAX_STRING) with true. change (67 + 1 <? STUN_MAX_STRING) with true.
  change (0 + 67 <=? 256) with true. cbn [cassert mbind outcome_bind].
  unfold wr. destruct (Z.leb_spec 0 67), (Z.ltb_spec 67 (zlen (userName source rnd time ++ x :: t))); try zlen_lia.
  cbn [andb mbind outcome_bind]. rewrite insert_app_r_alt by (unfold zlen in Hn; lia).
  unfold zlen in Hn. replace (Z.to_nat 67 - length (userName source rnd time))%nat with 0%nat by lia.
  reflexivity.
Qed.

Lemma encode_username_assert m cap pw u :
  zlen (id (msgHdr m)) = 16 -> 20 <= cap ->
  has (mappedAddress m) = false -> has (responseAddress m) = false ->
  has (changeRequest m) = false -> has (sourceAddress m) = false ->
  has (changedAddress m) = false -> username m = mkAttr true u -> sizeValue u mod 4 <> 0 ->
  stunEncodeMessage hmac m cap pw = Fault AssertFailed.
Proof.
  intros Hid Hc Hm Hr Hch Hs Hcd Hu Hmod.
  unfold stunEncodeMessage, encode, encode16, sizeof_StunMsgHdr.
  destruct (Z.leb_spec 20 cap); [|lia]. cbn [cassert mbind outcome_bind].
  rewrite put_fits by zlen_lia. cbn [mbind outcome_bind app].
  rewrite put_fits by zlen_lia. cbn [mbind outcome_bind].
  rewrite slice_prefix, take_zlen by lia. cbn [mbind outcome_bind].
  rewrite put_fits by zlen_lia. cbn [mbind outcome_bind].
  unfold encodeAttrs, encodeIf. rewrite Hm, Hr, Hch, Hs, Hcd, Hu.
  cbn [has val mret outcome_ret mbind outcome_bind]. unfold encodeAtrString.
  destruct (Z.eqb_spec (sizeValue u mod 4) 0); [contradiction | reflexivity].
Qed.

(** A shared-secret request received over UDP, even a bare header of 20
    bytes, stops the server: the user name it makes has 67 characters, and the
    encoder asserts that a string attribute has a multiple of four. *)
Theorem shared_secret_request_aborts info w recvAlt data from req :
  arrives info w recvAlt data from req -> bytes_ok data ->
  msgType (msgHdr req) = SharedSecretRequestMsg ->
  stunServerProcess hmac info w = Fault AssertFailed.
Proof.
  intros Harr Hb Hty.
  destruct (parse_id _ _ _ Hb (arr_parse _ _ _ _ _ _ Harr)) as [Hid _].
  destruct (serverProcess_arrives _ _ _ _ _ _ Harr) as (t & -> & Ht).
  unfold answerRequest, stunServerProcessMsg. rewrite Ht. cbn [mbind outcome_bind negb].
  rewrite Hty. cbn [Z.eqb Pos.eqb SharedSecretRequestMsg].
  unfold stunCreateSharedSecretResponse.
  destruct (createUserName_returns from (random w) (clock w) (val (username zeroMessage)))
    as (t' & _ & Hu); [reflexivity|].
  cbn -[zeroMessage stunCreateUserName stunCreatePassword stunEncodeMessage]. rewrite Hu. cbn [mbind outcome_bind].
  destruct (createPassword_returns (mkStunAtrString (userName from (random w) (clock w) ++ 0 :: t') 67)
    (val (password zeroMessage))) as (v & Hv & _); [reflexivity|].
  cbn -[zeroMessage stunCreatePassword stunEncodeMessage userName]. rewrite Hv.
  cbn [mbind outcome_bind mret outcome_ret ok negb resp hmacPassword].
  rewrite (encode_username_assert _ _ _
    (mkStunAtrString (userName from (random w) (clock w) ++ 0 :: t') 67));
    [reflexivity | exact Hid | vm_compute; discriminate | reflexivity.. | vm_compute; discriminate].
Qed.

Lemma encode_error_returns m pw e :
  zlen (id (msgHdr m)) = 16 -> sizeValue pw = 0 ->
  m = set_errorCode (mkAttr true e) (bare_message (msgType (msgHdr m)) (id (msgHdr m))) ->
  sizeReason e = 0 ->
  exists out, stunEncodeMessage hmac m STUN_MAX_MESSAGE_SIZE pw = Ret out.
Proof.
  intros Hid Hpw Hm He. eexists. apply stunEncodeMessage_header with
    (body := enc16 ErrorCode ++ enc16 (6 + sizeReason e) ++ error_value e);
    [assumption | assumption | vm_compute; discriminate |].
  intros ptr Hptr. rewrite Hm. unfold encodeAttrs. cbn -[encodeAtrError].
  pose proof (zlen_nonneg (reason e)).
  rewrite encodeAtrError_fits by (rewrite ?He; unfold STUN_MAX_MESSAGE_SIZE; lia). reflexivity.
Qed.

(** A binding request with MESSAGE-INTEGRITY and without USERNAME is meant
    to be refused with error 432, but the server never sets the destination of
    that response and goes on to read it. *)
Theorem error_response_without_destination info w recvAlt data from req :
  arrives info w recvAlt data from req ->
  msgType (msgHdr req) = BindRequestMsg ->
  has (messageIntegrity req) = true -> has (username req) = false ->
  (exists p, stunServerProcessMsg hmac data (zlen data) from
      (if recvAlt then altAddr info else myAddr info)
      (if recvAlt then myAddr info else altAddr info) zeroString (random w) (clock w) = Ret p /\
    ok p = true /\ msgType (msgHdr (resp p)) = BindErrorResponseMsg /\
    errorClass (val (errorCode (resp p))) = 4 /\ number (val (errorCode (resp p))) = 32 /\
    destination p = None) /\
  stunServerProcess hmac info w = Fault UninitRead.
Proof.
  intros Harr Hty Hmi Hu.
  destruct (serverProcess_arrives _ _ _ _ _ _ Harr) as (t & -> & Ht).
  unfold answerRequest, stunServerProcessMsg. rewrite Ht, (arr_parse _ _ _ _ _ _ Harr).
  cbn [mbind outcome_bind negb]. rewrite Hty. cbn [Z.eqb Pos.eqb SharedSecretRequestMsg BindRequestMsg].
  unfold bindRequestAuth. rewrite Hmi, Hu. cbn [negb].
  set (r := stunCreateErrorResponse zeroMessage 4 32 _).
  assert (exists e, sizeReason e = 0 /\ errorClass e = 4 /\ number e = 32 /\
    r = Ret (set_errorCode (mkAttr true e) (bare_message BindErrorResponseMsg (zeros 16))))
    as (e & He & Hc & Hn & ->) by (eexists; split; [|split; [|split; [|reflexivity]]]; reflexivity).
  cbn [mbind outcome_bind mret outcome_ret ok negb resp hmacPassword destination].
  split; [eexists; split; [reflexivity|]; repeat split; assumption|].
  destruct (encode_error_returns
    (set_errorCode (mkAttr true e) (bare_message BindErrorResponseMsg (zeros 16))) zeroString e)
    as [out ->]; try reflexivity; assumption.
Qed.

(** * User names carry the client's address *)

Lemma hexValue_hexDigit d : 0 <= d < 16 -> hexValue (hexDigit d) = Some d.
Proof.
  intros H. unfold hexDigit. destruct (Z.ltb_spec d 10); unfold hexValue.
  - destruct (Z.leb_spec 48 (48 + d)), (Z.leb_spec (48 + d) 57); try lia. cbn [andb]. f_equal; lia.
  - destruct (Z.leb_spec (87 + d) 57); [lia|]. rewrite andb_false_r.
    destruct (Z.leb_spec 97 (87 + d)), (Z.leb_spec (87 + d) 102); try lia. cbn [andb]. f_equal; lia.
Qed.

Lemma nibble x k : 0 <= k -> Z.land (Z.shiftr x (4 * k)) 0xf = x / 16 ^ k mod 16.
Proof.
  intros Hk. change 0xf with (Z.ones 4). rewrite Z.land_ones, Z.shiftr_div_pow2 by lia.
  rewrite Z.pow_mul_r by lia. reflexivity.
Qed.

Lemma hexDigits_step d s acc any :
  0 <= d < 16 -> hexDigits (hexDigit d :: s) acc any = hexDigits s (acc * 16 + d) true.
Proof. intros H. cbn [hexDigits]. now rewrite hexValue_hexDigit. Qed.

Lemma hexDigits_hex08 x s :
  0 <= x < 4294967296 -> hexDigits (hex08 x ++ 58 :: s) 0 false = Some x.
Proof.
  intros Hx. unfold hex08. cbn [map app]. rewrite !nibble by lia.
  rewrite !hexDigits_step by (apply Z.mod_pos_bound; lia).
  cbn [hexDigits hexValue Z.leb Z.compare Pos.compare Pos.compare_cont andb]. f_equal.
  cbn [Z.pow Z.pow_pos Pos.iter Z.mul Pos.mul Pos.add Pos.succ].
  Z.to_euclidean_division_equations; lia.
Qed.

(** A hexadecimal digit is no space, sign or [x]. *)
Lemma hexDigit_plain d : 0 <= d < 16 ->
  isspace (hexDigit d) = false /\ hexDigit d <> 45 /\ hexDigit d <> 43 /\
  hexDigit d <> 120 /\ hexDigit d <> 88.
Proof.
  intros H. unfold isspace, hexDigit.
  destruct (Z.ltb_spec d 10);
    (split; [apply orb_false_iff; split; [lia | apply andb_false_iff; lia] | repeat split; lia]).
Qed.

Lemma sscanf_hex08 x s : 0 <= x < 4294967296 -> sscanf_lx (hex08 x ++ 58 :: s) = Some x.
Proof.
  intros Hx. pose proof (hexDigits_hex08 x s Hx) as Hd. unfold sscanf_lx.
  unfold hex08 in *. cbn [map app] in *. rewrite !nibble in * by lia.
  set (a := x / 16 ^ 7 mod 16) in *. set (b := x / 16 ^ 6 mod 16) in *.
  destruct (hexDigit_plain a) as (Hs & H45 & H43 & _); [apply Z.mod_pos_bound; lia|].
  destruct (hexDigit_plain b) as (_ & _ & _ & H120 & H88); [apply Z.mod_pos_bound; lia|].
  cbn [dropSpaces]. rewrite Hs.
  set (rest := _ :: 58 :: s) in *. clearbody rest.
  destruct (Z.eqb_spec (hexDigit a) 45); [contradiction|].
  destruct (Z.eqb_spec (hexDigit a) 43); [contradiction|].
  destruct (Z.eqb_spec (hexDigit b) 120); [contradiction|].
  destruct (Z.eqb_spec (hexDigit b) 88); [contradiction|].
  rewrite andb_false_r, Hd. cbn. f_equal. lia.
Qed.

Lemma hex08_nonzero x : Forall (fun b => b <> 0) (hex08 x).
Proof.
  unfold hex08. apply List.Forall_map, List.Forall_forall. intros k _. apply hexDigit_nonzero.
  now apply land_nonneg.
Qed.

Lemma userName_nonzero source rnd time : Forall (fun b => b <> 0) (userName source rnd time).
Proof.
  unfold userName, userNameText.
  assert (Forall (fun b => b <> 0) [58]) by (constructor; [discriminate | constructor]).
  rewrite !Forall_app. repeat split; auto using hex08_nonzero, hexOf_nonzero.
Qed.

(** The user name the server hands out starts with the address it was
    made for, and reading it back with the [%lx] conversion, as the server
    does for REFLECTED-FROM, gives that address. *)
Theorem username_reflects_source source rnd time u :
  addr_wf source -> zlen (strValue u) = 256 ->
  exists u', stunCreateUserName hmac source rnd time u = Ret u' /\ sizeValue u' = 67 /\
    sscanf_lx (cstr (strValue u')) = Some (addr source).
Proof.
  intros [_ Ha] Hu. destruct (createUserName_returns source rnd time u Hu) as (t & _ & ->).
  eexists; split; [reflexivity|]. split; [reflexivity|]. cbn [strValue].
  rewrite cstr_nonzero by apply userName_nonzero.
  unfold userName, userNameText. rewrite <- !app_assoc. now apply (sscanf_hex08 (addr source)).
Qed.

End Handling.

(** * Sockets *)

(** The address each socket of a server is bound to. *)
Inductive bound (info : StunServerInfo) : Z -> StunAddress4 -> Prop :=
| bound_my : bound info (myFd info) (myAddr info)
| bound_altPort : bound info (altPortFd info)
    (mkStunAddress4 (port (altAddr info)) (addr (myAddr info)))
| bound_altIp : bound info (altIpFd info)
    (mkStunAddress4 (port (myAddr info)) (addr (altAddr info)))
| bound_altIpPort : bound info (altIpPortFd info) (altAddr info).

(** [stunInitServer] succeeds exactly when the four sockets could be
    opened, each then being bound to its combination of address and port; when
    one cannot be opened, the positive descriptors opened before are closed. *)
Theorem stunInitServer_opens opened my alt :
  port my <> 0 -> port alt <> 0 -> addr my <> 0 -> addr alt <> 0 ->
  exists good info closed,
    stunInitServer opened my alt = Ret (good, info, closed) /\
    (if good : bool then
       closed = [] /\ myAddr info = my /\ altAddr info = alt /\
       forall fd a, bound info fd a -> fd = opened (port a) (addr a) /\ fd <> INVALID_SOCKET
     else
       closed = stunStopServer info /\
       exists fd a, bound info fd a /\ opened (port a) (addr a) = INVALID_SOCKET).
Proof.
  intros H1 H2 H3 H4. unfold stunInitServer.
  destruct (Z.eqb_spec (port my) 0); [contradiction|]. destruct (Z.eqb_spec (port alt) 0); [contradiction|].
  destruct (Z.eqb_spec (addr my) 0); [contradiction|]. destruct (Z.eqb_spec (addr alt) 0); [contradiction|].
  cbn [negb cassert mbind outcome_bind].
  destruct (Z.eqb_spec (opened (port my) (addr my)) INVALID_SOCKET) as [E1|].
  { do 3 eexists; split; [reflexivity|]; split; [reflexivity|].
    do 2 eexists; split; [apply bound_my | exact E1]. }
  destruct (Z.eqb_spec (opened (port alt) (addr my)) INVALID_SOCKET) as [E2|].
  { do 3 eexists; split; [reflexivity|]; split; [reflexivity|].
    do 2 eexists; split; [apply bound_altPort | exact E2]. }
  destruct (Z.eqb_spec (opened (port my) (addr alt)) INVALID_SOCKET) as [E3|].
  { do 3 eexists; split; [reflexivity|]; split; [reflexivity|].
    do 2 eexists; split; [apply bound_altIp | exact E3]. }
  destruct (Z.eqb_spec (opened (port alt) (addr alt)) INVALID_SOCKET) as [E4|].
  { do 3 eexists; split; [reflexivity|]; split; [reflexivity|].
    do 2 eexists; split; [apply bound_altIpPort | exact E4]. }
  do 3 eexists; split; [reflexivity|]. do 3 (split; [reflexivity|]).
  intros fd a Hb. inversion Hb; subst; cbn; auto.
Qed.

Lemma stunInitServer_opens_witness :
  exists good info closed,
    stunInitServer (fun p a => if (p =? 3479) && (a =? 2) then -1 else p + a)
      (mkStunAddress4 3478 1) (mkStunAddress4 3479 2) = Ret (good, info, closed) /\
    (if good : bool then
       closed = [] /\ myAddr info = mkStunAddress4 3478 1 /\ altAddr info = mkStunAddress4 3479 2 /\
       forall fd a, bound info fd a ->
         fd = (if (port a =? 3479) && (addr a =? 2) then -1 else port a + addr a) /\ fd <> INVALID_SOCKET
     else
       closed = stunStopServer info /\
       exists fd a, bound info fd a /\
         (if (port a =? 3479) && (addr a =? 2) then -1 else port a + addr a) = INVALID_SOCKET).
Proof. apply stunInitServer_opens; discriminate. Defined.

Lemma bindRequestAnswer_source hmac req from my alt pw resp0 p :
  bindRequestAnswer hmac req from my alt pw resp0 = Ret p ->
  ipv4 (val (sourceAddress (resp p))) =
  mkStunAddress4 (if changePort p then port alt else port my)
                 (if changeIp p then addr alt else addr my).
Proof.
  unfold bindRequestAnswer. intros (r1 & H1 & H)%bind_Ret_inv.
  apply bind_Ret_inv in H as (pw' & _ & H). apply bind_Ret_inv in H as (r2 & H2 & [= <-]).
  cbn [resp changePort changeIp].
  assert (sourceAddress r2 = sourceAddress r1) as ->.
  { destruct (has (username req) && (64 <? sizeValue (val (username req))));
      [|injection H2 as <-; reflexivity].
    apply bind_Ret_inv in H2 as (? & _ & [= <-]). reflexivity. }
  destruct (has (username req) && (0 <? sizeValue (val (username req)))); [|injection H1 as <-; reflexivity].
  apply bind_Ret_inv in H1 as (? & _ & (? & _ & [= <-])%bind_Ret_inv). reflexivity.
Qed.

(** An answer leaves by a socket of the address it announces as
    SOURCE-ADDRESS, and the announced port is that socket's for requests that
    arrive on the primary address; for requests that arrive on the alternate
    address the announced port is the other one of the server. *)
Theorem answer_socket_is_announced hmac info (recvAlt : bool) buf n from rnd time pw p :
  stunServerProcessMsg hmac buf n from
    (if recvAlt then altAddr info else myAddr info)
    (if recvAlt then myAddr info else altAddr info) pw rnd time = Ret p ->
  destination p <> None ->
  let announced := ipv4 (val (sourceAddress (resp p))) in
  exists a, bound info (replyFd info recvAlt (changePort p) (changeIp p)) a /\
    addr a = addr announced /\
    (if recvAlt
     then (port announced = port (myAddr info) /\ port a = port (altAddr info)) \/
          (port announced = port (altAddr info) /\ port a = port (myAddr info))
     else a = announced).
Proof.
  cbv zeta. intros H Hd. unfold stunServerProcessMsg in H.
  apply bind_Ret_inv in H as ([parsed req] & _ & H).
  destruct parsed; cbn [negb] in H; [|injection H as <-; now cbn in Hd].
  destruct (msgType (msgHdr req) =? SharedSecretRequestMsg).
  { apply bind_Ret_inv in H as (? & _ & [= <-]). now cbn in Hd. }
  destruct (msgType (msgHdr req) =? BindRequestMsg); [|injection H as <-; now cbn in Hd].
  apply bind_Ret_inv in H as ([r|r] & _ & H); [injection H as <-; now cbn in Hd|].
  apply bindRequestAnswer_source in H. rewrite H. clear H Hd.
  destruct recvAlt, (changePort p), (changeIp p); cbn;
    eexists; (split; [constructor|]); cbn; auto;
    try (split; [reflexivity | now destruct (myAddr info), (altAddr info)]).
Qed.

(** * Witnesses *)

Definition sample_info : StunServerInfo :=
  mkStunServerInfo (mkStunAddress4 3478 167772161) (mkStunAddress4 3479 167772162) 3 4 5 6.
Definition sample_client : StunAddress4 := mkStunAddress4 40000 3232235777.
Definition no_hmac : bytes -> bytes -> bytes := fun _ _ => zeros 20.

(** A bare header of the given type. *)
Definition bare_datagram (ty : Z) : bytes := enc16 ty ++ enc16 0 ++ zeros 16.

(** [data] waits on the socket 5, of the alternate address. *)
Definition sample_world (data : bytes) : world :=
  mkWorld (Some [5]) (fun _ => Received data (addr sample_client) (port sample_client)) 1000 7
    (zeros (Z.to_nat udpMaxMessageLength)).

Lemma no_hmac_ok k d : zlen (no_hmac k d) = 20 /\ bytes_ok (no_hmac k d).
Proof. split; [reflexivity | apply zeros_ok]. Qed.

Lemma sample_arrives data req :
  0 < zlen data < udpMaxMessageLength - 1 -> stunParseMessage data (zlen data) = Ret (true, req) ->
  arrives sample_info (sample_world data) true data sample_client req.
Proof.
  intros Hd Hp. split; [| |assumption|assumption].
  - exists [5], 5. repeat split; discriminate.
  - unfold sample_world. cbn [stale]. rewrite zlen_zeros. reflexivity.
Qed.

Definition sample_bind : StunMessage :=
  set_msgHdr (mkStunMsgHdr BindRequestMsg 0 (zeros 16)) zeroMessage.

Lemma bind_request_answered_witness :
  exists out len mi,
    stunServerProcess no_hmac sample_info (sample_world (bare_datagram BindRequestMsg)) =
      Ret (true, [mkSent 5 out (Some sample_client)]) /\
    stunParseMessage out (zlen out) =
      Ret (true, received (bind_response sample_bind sample_client (altAddr sample_info)
        (myAddr sample_info)) len (mkAttr false mi)).
Proof.
  refine (bind_request_answered no_hmac no_hmac_ok sample_info _ true _ sample_client sample_bind
    (sample_arrives _ _ _ _) _ _ _ _ _ _ _ _ _ _ _ _);
    first [apply bytes_ok_forallb; reflexivity | vm_compute; intuition congruence].
Defined.

Lemma shared_secret_request_aborts_witness :
  stunServerProcess no_hmac sample_info (sample_world (bare_datagram SharedSecretRequestMsg)) =
  Fault AssertFailed.
Proof.
  refine (shared_secret_request_aborts no_hmac no_hmac_ok sample_info _ true
    (bare_datagram SharedSecretRequestMsg) sample_client
    (set_msgHdr (mkStunMsgHdr SharedSecretRequestMsg 0 (zeros 16)) zeroMessage)
    (sample_arrives _ _ _ _) _ _);
    first [apply bytes_ok_forallb; reflexivity | vm_compute; intuition congruence].
Defined.

Definition integrity_datagram : bytes :=
  enc16 BindRequestMsg ++ enc16 24 ++ zeros 16 ++ tlv MessageIntegrity (zeros 20).

Lemma error_response_without_destination_witness :
  stunServerProcess no_hmac sample_info (sample_world integrity_datagram) = Fault UninitRead.
Proof.
  refine (proj2 (error_response_without_destination no_hmac sample_info _ true integrity_datagram
    sample_client
    (set_messageIntegrity (mkAttr true (mkStunAtrIntegrity (zeros 20)))
      (set_msgHdr (mkStunMsgHdr BindRequestMsg 24 (zeros 16)) zeroMessage))
    (sample_arrives _ _ _ _) _ _ _)); vm_compute; intuition congruence.
Defined.

Lemma username_reflects_source_witness :
  exists u', stunCreateUserName no_hmac sample_client 5 1000 zeroString = Ret u' /\
    sizeValue u' = 67 /\ sscanf_lx (cstr (strValue u')) = Some (addr sample_client).
Proof.
  apply (username_reflects_source no_hmac no_hmac_ok); [vm_compute; intuition congruence | reflexivity].
Defined.

Lemma answer_socket_is_announced_witness :
  exists p, stunServerProcessMsg no_hmac (bare_datagram BindRequestMsg) 20 sample_client
      (altAddr sample_info) (myAddr sample_info) zeroString 0 0 = Ret p /\
    exists a, bound sample_info (replyFd sample_info true (changePort p) (changeIp p)) a /\
      addr a = addr (ipv4 (val (sourceAddress (resp p)))).
Proof.
  eexists. split; [vm_compute; reflexivity|].
  edestruct (answer_socket_is_announced no_hmac sample_info true (bare_datagram BindRequestMsg) 20
    sample_client 0 0 zeroString) as (a & Ha & Hb & _); [vm_compute; reflexivity | discriminate |].
  exists a. split; [exact Ha | exact Hb].
Defined.

End StunServerFacts.
