(* ===== verification/StunNat.v ===== *)
(** The STUN client of stund/stun.cxx: [stunBuildReqSimple], [stunSendTest]
    and [stunNatType], which classifies the NAT in front of the host.

    [stunNatType] waits ten times in [select]; what each wait brings is an
    [event], and the datagrams it sends are collected in its state.  Whether a
    socket could be bound to the mapped address at the end is the argument
    [bindable]. *)
From S2P Require Import Prelude Stun StunServer.
Import Stun StunServer.

Module StunNat.

Inductive NatType :=
| StunTypeUnknown
| StunTypeOpen
| StunTypeConeNat
| StunTypeRestrictedNat
| StunTypePortRestrictedNat
| StunTypeSymNat
| StunTypeSymFirewall
| StunTypeBlocked.

#[export] Instance NatType_eq_dec : EqDecision NatType.
Proof. solve_decision. Defined.

(** [stunBuildReqSimple]: the identifier is four results of [stunRand], least
    significant octet first, and [id] replaces its first octet unless zero. *)
Definition randOctets (r : Z) : bytes :=
  [u8 r; u8 (Z.shiftr r 8); u8 (Z.shiftr r 16); u8 (Z.shiftr r 24)].

Definition stunBuildReqSimple (username : StunAtrString) (changePort changeIp : bool)
  (id : Z) (r0 r1 r2 r3 : Z) : StunMessage :=
  let tid := randOctets r0 ++ randOctets r1 ++ randOctets r2 ++ randOctets r3 in
  let tid := if negb (id =? 0) then <[0%nat := u8 id]> tid else tid in
  let msg := set_msgHdr (mkStunMsgHdr BindRequestMsg 0 tid) zeroMessage in
  let flags := Z.lor (if changeIp then ChangeIpFlag else 0)
                     (if changePort then ChangePortFlag else 0) in
  let msg := set_changeRequest (mkAttr true (mkStunAtrChangeRequest flags)) msg in
  if 0 <? sizeValue username then set_username (mkAttr true username) msg else msg.

(** The change flags of a test: [None] for a number that is not one. *)
Definition testFlags (testNum : Z) : option (bool * bool) :=
  if (testNum =? 1) || (testNum =? 10) then Some (false, false)
  else if testNum =? 2 then Some (true, true)
  else if testNum =? 3 then Some (true, false)
  else if testNum =? 4 then Some (false, true)
  else if testNum =? 5 then Some (false, false)
  else None.

Section Client.

(** [HMAC(EVP_sha1(), key, data)] of OpenSSL, and the [n]-th result of
    [stunRand]. *)
Variable hmac_sha1 : bytes -> bytes -> bytes.
Variable stunRand : nat -> Z.

Definition stunSendTest (fd : Z) (dest : StunAddress4) (username password : StunAtrString)
  (testNum : Z) (rnd : nat) : outcome sent :=
  _ ← cassert (negb (addr dest =? 0));
  _ ← cassert (negb (port dest =? 0));
  match testFlags testNum with
  | None => Fault AssertFailed
  | Some (changePort, changeIP) =>
      let req := stunBuildReqSimple username changePort changeIP testNum
                   (stunRand rnd) (stunRand (rnd + 1)) (stunRand (rnd + 2)) (stunRand (rnd + 3)) in
      buf ← stunEncodeMessage hmac_sha1 req STUN_MAX_MESSAGE_SIZE password;
      sendMessage fd buf (zlen buf) (addr dest) (port dest)
  end.

(** * stunNatType *)

Record natState := mkNatState {
  respTestI : bool;
  testImappedAddr : StunAddress4;
  respTestI2 : bool;
  mappedIpSame : bool;
  testI2dest : StunAddress4;
  respTestII : bool;
  respTestIII : bool;
  rands : nat;            (** results of [stunRand] used *)
  outbox : list sent      (** datagrams sent, oldest first *)
}.

(** One return of [select]: an error, a timeout, or a readable socket with the
    earlier contents of the receive array and what [recvfrom] gives. *)
Inductive event :=
| SelectError
| SelectTimeout
| Readable (stale : bytes) (r : recv).

(** [stunSendTest], its datagram added to those sent. *)
Definition send (fd : Z) (dest : StunAddress4) (username password : StunAtrString)
  (testNum : Z) (s : natState) : outcome natState :=
  m ← stunSendTest fd dest username password testNum (rands s);
  mret (mkNatState (respTestI s) (testImappedAddr s) (respTestI2 s) (mappedIpSame s)
    (testI2dest s) (respTestII s) (respTestIII s) (rands s + 4) (outbox s ++ [m])).

Definition sendIf (b : bool) (fd : Z) (dest : StunAddress4) (username password : StunAtrString)
  (testNum : Z) (s : natState) : outcome natState :=
  if b then send fd dest username password testNum s else mret s.

(** The timeout branch: the tests not answered yet are sent again. *)
Definition onTimeout (fd : Z) (dest : StunAddress4) (username password : StunAtrString)
  (s : natState) : outcome natState :=
  s ← sendIf (negb (respTestI s)) fd dest username password 1 s;
  s ← sendIf (negb (respTestI2 s) && respTestI s &&
              (negb (addr (testI2dest s) =? 0) && negb (port (testI2dest s) =? 0)))
             fd (testI2dest s) username password 10 s;
  s ← sendIf (negb (respTestII s)) fd dest username password 2 s;
  sendIf (negb (respTestIII s)) fd dest username password 3 s.

Definition address_eqb (a b : StunAddress4) : bool :=
  (addr a =? addr b) && (port a =? port b).

(** The [switch] on the first octet of the identifier. *)
Definition onResponse (resp : StunMessage) (s : natState) : outcome natState :=
  octet0 ← rd (id (msgHdr resp)) 0;
  let mapped := ipv4 (val (mappedAddress resp)) in
  let changed := ipv4 (val (changedAddress resp)) in
  mret (if octet0 =? 1 then
          mkNatState true mapped (respTestI2 s) (mappedIpSame s)
            (mkStunAddress4 (port (testI2dest s)) (addr changed))
            (respTestII s) (respTestIII s) (rands s) (outbox s)
        else if octet0 =? 2 then
          mkNatState (respTestI s) (testImappedAddr s) (respTestI2 s) (mappedIpSame s)
            (testI2dest s) true (respTestIII s) (rands s) (outbox s)
        else if octet0 =? 3 then
          mkNatState (respTestI s) (testImappedAddr s) (respTestI2 s) (mappedIpSame s)
            (testI2dest s) (respTestII s) true (rands s) (outbox s)
        else if octet0 =? 10 then
          mkNatState (respTestI s) (testImappedAddr s) true
            (address_eqb mapped (testImappedAddr s))
            (testI2dest s) (respTestII s) (respTestIII s) (rands s) (outbox s)
        else s).

(** One turn of the [while] loop.  The message is used whatever
    [stunParseMessage] answers, and parsed even when nothing was received. *)
Definition natStep (fd : Z) (dest : StunAddress4) (username password : StunAtrString)
  (s : natState) (e : event) : outcome natState :=
  match e with
  | SelectError => mret s
  | SelectTimeout => onTimeout fd dest username password s
  | Readable stale r =>
      '(_, msg, msgLen, _) ← getMessage fd stale udpMaxMessageLength r;
      '(_, resp) ← stunParseMessage msg (u32 msgLen);
      onResponse resp s
  end.

Fixpoint natLoop (fd : Z) (dest : StunAddress4) (username password : StunAtrString)
  (es : list event) (s : natState) : outcome natState :=
  match es with
  | [] => mret s
  | e :: es' =>
      s ← natStep fd dest username password s e;
      natLoop fd dest username password es' s
  end.

(** The flow chart. *)
Definition natDecision (s : natState) (isNat : bool) : NatType :=
  if respTestI s then
    if isNat then
      if respTestII s then StunTypeConeNat
      else if mappedIpSame s then
        if respTestIII s then StunTypeRestrictedNat else StunTypePortRestrictedNat
      else StunTypeSymNat
    else if respTestII s then StunTypeOpen else StunTypeSymFirewall
  else StunTypeBlocked.

Definition natInit (dest : StunAddress4) : natState :=
  mkNatState false (mkStunAddress4 0 0) false true dest false false 0 [].

(** [fd] is the socket opened, [es] the ten results of [select]. *)
Definition stunNatType (fd : Z) (dest : StunAddress4) (es : list event)
  (bindable : StunAddress4 -> bool) : outcome (NatType * list sent) :=
  _ ← cassert (negb (addr dest =? 0));
  _ ← cassert (negb (port dest =? 0));
  s ← send fd dest zeroString zeroString 1 (natInit dest);
  s ← natLoop fd dest zeroString zeroString (take 10 es) s;
  let isNat := negb (bindable (mkStunAddress4 11000 (addr (testImappedAddr s)))) in
  mret (natDecision s isNat, outbox s).

End Client.
End StunNat.
