(* ===== verification/StunNatFacts.v ===== *)
(** Theorems about the STUN client of [StunNat]: the classification follows
    the responses received, the number of datagrams is bounded, and a test
    answered by the server of [StunServer] is recognised. *)
From S2P Require Import Prelude Stun StunFacts StunServer StunServerFacts StunNat.
Import Stun StunFacts StunServer StunServerFacts StunNat.

Module StunNatFacts.

Section Nat.
Context (hmac : bytes -> bytes -> bytes) (stunRand : nat -> Z).
Hypothesis hmac_ok : forall k d, zlen (hmac k d) = 20 /\ bytes_ok (hmac k d).

(** * What the client learns *)

(** An answer: the first octet of its identifier, and its mapped address. *)
Definition answer : Type := Z * StunAddress4.

(** The answer an event brings, when there is one. *)
Definition event_answer (fd : Z) (e : event) : outcome (list answer) :=
  match e with
  | Readable stale r =>
      '(_, msg, msgLen, _) ← getMessage fd stale udpMaxMessageLength r;
      '(_, resp) ← stunParseMessage msg (u32 msgLen);
      octet0 ← rd (id (msgHdr resp)) 0;
      mret [(octet0, ipv4 (val (mappedAddress resp)))]
  | _ => mret []
  end.

Fixpoint answers (fd : Z) (es : list event) : outcome (list answer) :=
  match es with
  | [] => mret []
  | e :: es' => a ← event_answer fd e; l ← answers fd es'; mret (a ++ l)
  end.

Definition answered (n : Z) (l : list answer) : bool := existsb (fun a => fst a =? n) l.

(** The mapped address of the last answer to test [n]. *)
Fixpoint last_mapped (n : Z) (l : list answer) (d : StunAddress4) : StunAddress4 :=
  match l with
  | [] => d
  | (k, a) :: l' => last_mapped n l' (if k =? n then a else d)
  end.

(** Whether the last answer to test 10 reported the address test 1 had
    reported by then; [m] is the address reported before [l]. *)
Fixpoint same_mapped (l : list answer) (m : StunAddress4) (same : bool) : bool :=
  match l with
  | [] => same
  | (k, a) :: l' =>
      same_mapped l' (if k =? 1 then a else m) (if k =? 10 then address_eqb a m else same)
  end.

(** What a state has learned from a list of answers. *)
Definition learned (l : list answer) (s s' : natState) : Prop :=
  respTestI s' = respTestI s || answered 1 l /\
  respTestII s' = respTestII s || answered 2 l /\
  respTestIII s' = respTestIII s || answered 3 l /\
  testImappedAddr s' = last_mapped 1 l (testImappedAddr s) /\
  mappedIpSame s' = same_mapped l (testImappedAddr s) (mappedIpSame s).

Lemma learned_nil s s' :
  respTestI s' = respTestI s -> respTestII s' = respTestII s -> respTestIII s' = respTestIII s ->
  testImappedAddr s' = testImappedAddr s -> mappedIpSame s' = mappedIpSame s -> learned [] s s'.
Proof. intros. repeat split; cbn; rewrite ?orb_false_r; assumption. Qed.

Lemma same_mapped_app l k m b :
  same_mapped (l ++ k) m b = same_mapped k (last_mapped 1 l m) (same_mapped l m b).
Proof. revert m b. induction l as [|[n a] l IH]; intros m b; cbn; auto. Qed.

Lemma last_mapped_app n l k d : last_mapped n (l ++ k) d = last_mapped n k (last_mapped n l d).
Proof. revert d. induction l as [|[j a] l IH]; intros d; cbn; auto. Qed.

Lemma answered_app n l k : answered n (l ++ k) = answered n l || answered n k.
Proof. apply existsb_app. Qed.

Lemma learned_trans l k s s' s'' : learned l s s' -> learned k s' s'' -> learned (l ++ k) s s''.
Proof.
  intros (H1 & H2 & H3 & H4 & H5) (K1 & K2 & K3 & K4 & K5). unfold learned.
  rewrite !answered_app, last_mapped_app, same_mapped_app, !orb_assoc.
  rewrite K1, K2, K3, K4, K5, H1, H2, H3, H4, H5. repeat split.
Qed.

(** Sending changes nothing that is learned. *)
Lemma sendIf_learns b fd dest u p n s s' :
  sendIf hmac stunRand b fd dest u p n s = Ret s' ->
  learned [] s s' /\ testI2dest s' = testI2dest s /\
  exists ms, outbox s' = outbox s ++ ms /\ (length ms <= 1)%nat.
Proof.
  unfold sendIf, send. destruct b.
  - intros (m & _ & [= <-])%bind_Ret_inv. split; [now apply learned_nil|].
    split; [reflexivity|]. exists [m]. auto.
  - intros [= <-]. split; [now apply learned_nil|]. split; [reflexivity|].
    exists []. rewrite app_nil_r. auto.
Qed.

Lemma onTimeout_learns fd dest u p s s' :
  onTimeout hmac stunRand fd dest u p s = Ret s' ->
  learned [] s s' /\ exists ms, outbox s' = outbox s ++ ms /\ (length ms <= 4)%nat.
Proof.
  unfold onTimeout. intros (s1 & H1 & H)%bind_Ret_inv.
  apply bind_Ret_inv in H as (s2 & H2 & H). apply bind_Ret_inv in H as (s3 & H3 & H4).
  apply sendIf_learns in H1 as (L1 & _ & m1 & O1 & N1), H2 as (L2 & _ & m2 & O2 & N2),
    H3 as (L3 & _ & m3 & O3 & N3), H4 as (L4 & _ & m4 & O4 & N4).
  split.
  - exact (learned_trans [] [] _ _ _ (learned_trans [] [] _ _ _ (learned_trans [] [] _ _ _ L1 L2) L3) L4).
  - exists (m1 ++ m2 ++ m3 ++ m4). rewrite O4, O3, O2, O1, !length_app, <- !app_assoc.
    split; [reflexivity | lia].
Qed.

Lemma onResponse_learns resp s s' :
  onResponse resp s = Ret s' ->
  exists o, rd (id (msgHdr resp)) 0 = Ret o /\
    learned [(o, ipv4 (val (mappedAddress resp)))] s s' /\ outbox s' = outbox s.
Proof.
  unfold onResponse. intros (o & Ho & [= <-])%bind_Ret_inv. exists o. split; [assumption|].
  unfold learned. cbn [answered existsb fst last_mapped same_mapped].
  destruct (Z.eqb_spec o 1) as [->|N1]; [cbn; rewrite ?orb_true_r, ?orb_false_r; auto 10|].
  destruct (Z.eqb_spec o 2) as [->|N2]; [cbn; rewrite ?orb_true_r, ?orb_false_r; auto 10|].
  destruct (Z.eqb_spec o 3) as [->|N3]; [cbn; rewrite ?orb_true_r, ?orb_false_r; auto 10|].
  destruct (Z.eqb_spec o 10) as [->|N10]; cbn; rewrite ?orb_true_r, ?orb_false_r; auto 10.
Qed.

Lemma natStep_learns fd dest u p s e s' :
  natStep hmac stunRand fd dest u p s e = Ret s' ->
  exists l, event_answer fd e = Ret l /\ learned l s s' /\
    exists ms, outbox s' = outbox s ++ ms /\ (length ms <= 4)%nat.
Proof.
  destruct e as [| |stale r]; cbn [natStep event_answer].
  - intros [= <-]. exists []. split; [reflexivity|]. split; [now apply learned_nil|].
    exists []. rewrite app_nil_r. cbn. split; [reflexivity | lia].
  - intros [H1 H2]%onTimeout_learns. eauto.
  - intros ([[[g msg] len] src] & -> & ([b resp] & Hp & (o & Ho & HL & HO)%onResponse_learns)%bind_Ret_inv)%bind_Ret_inv.
    cbn [mbind outcome_bind]. rewrite Hp. cbn [mbind outcome_bind]. rewrite Ho.
    eexists; split; [reflexivity|]. split; [assumption|].
    exists []. rewrite app_nil_r. cbn. split; [assumption | lia].
Qed.

Lemma natLoop_learns fd dest u p es : forall s s',
  natLoop hmac stunRand fd dest u p es s = Ret s' ->
  exists l, answers fd es = Ret l /\ learned l s s' /\
    exists ms, outbox s' = outbox s ++ ms /\ (length ms <= 4 * length es)%nat.
Proof.
  induction es as [|e es IH]; intros s s'; cbn [natLoop answers].
  - intros [= <-]. exists []. split; [reflexivity|]. split; [now apply learned_nil|].
    exists []. rewrite app_nil_r. cbn. split; [reflexivity | lia].
  - intros (s1 & (l1 & -> & L1 & m1 & O1 & N1)%natStep_learns & H)%bind_Ret_inv.
    destruct (IH _ _ H) as (l2 & -> & L2 & m2 & O2 & N2).
    cbn [mbind outcome_bind mret outcome_ret]. eexists; split; [reflexivity|].
    split; [eapply learned_trans; eassumption|].
    exists (m1 ++ m2). rewrite O2, O1, length_app, <- app_assoc. cbn [length].
    split; [reflexivity | lia].
Qed.

(** C24: the NAT type is decided by the answers received in the ten waits: it
    is Blocked exactly without an answer to test 1, Open or SymFirewall when
    the mapped address can be bound, and otherwise Cone, Symmetric, Restricted
    or PortRestricted by the answers to tests 2, 10 and 3; it is never
    StunTypeUnknown, and at most 41 datagrams are sent. *)
Theorem stunNatType_classifies fd dest es bindable t out :
  stunNatType hmac stunRand fd dest es bindable = Ret (t, out) ->
  exists l, answers fd (take 10 es) = Ret l /\ (length out <= 41)%nat /\
    let nat := negb (bindable (mkStunAddress4 11000
                 (addr (last_mapped 1 l (mkStunAddress4 0 0))))) in
    let i := answered 1 l in let ii := answered 2 l in let iii := answered 3 l in
    let same := same_mapped l (mkStunAddress4 0 0) true in
    (t = StunTypeBlocked <-> i = false) /\
    (t = StunTypeOpen <-> i = true /\ nat = false /\ ii = true) /\
    (t = StunTypeSymFirewall <-> i = true /\ nat = false /\ ii = false) /\
    (t = StunTypeConeNat <-> i = true /\ nat = true /\ ii = true) /\
    (t = StunTypeSymNat <-> i = true /\ nat = true /\ ii = false /\ same = false) /\
    (t = StunTypeRestrictedNat <->
       i = true /\ nat = true /\ ii = false /\ same = true /\ iii = true) /\
    (t = StunTypePortRestrictedNat <->
       i = true /\ nat = true /\ ii = false /\ same = true /\ iii = false) /\
    t <> StunTypeUnknown.
Proof.
  unfold stunNatType. intros (? & _ & (? & _ & (s & Hs & H)%bind_Ret_inv)%bind_Ret_inv)%bind_Ret_inv.
  apply bind_Ret_inv in H as (s' & H & [= <- <-]).
  destruct (sendIf_learns true _ _ _ _ _ _ _ Hs) as ((I1 & I2 & I3 & I4 & I5) & _ & m0 & O0 & N0).
  cbn in I1, I2, I3, I4, I5, O0.
  apply natLoop_learns in H as (l & Hl & (L1 & L2 & L3 & L4 & L5) & ms & O & N).
  exists l. split; [assumption|]. split.
  - rewrite O, O0, length_app. rewrite length_take in N. cbn [app]. lia.
  - rewrite L4, I4. unfold natDecision. rewrite L1, L2, L3, L5, I1, I2, I3, I4, I5.
    cbn [orb]. cbv zeta. generalize (negb (bindable (mkStunAddress4 11000 (addr (last_mapped 1 l (mkStunAddress4 0 0)))))).
    intros nat. destruct nat, (answered 1 l), (answered 2 l), (answered 3 l),
      (same_mapped l (mkStunAddress4 0 0) true); intuition congruence.
Qed.

(** * A test and its answer *)

Definition test_flags (n : Z) : Z :=
  if n =? 2 then 6 else if n =? 3 then 2 else 0.

(** The requests of tests 1, 2, 3 and 10. *)
Definition is_test (n : Z) : Prop := n = 1 \/ n = 2 \/ n = 3 \/ n = 10.

Definition test_request (n : Z) (rnd : nat) : StunMessage :=
  set_changeRequest (mkAttr true (mkStunAtrChangeRequest (test_flags n)))
    (set_msgHdr (mkStunMsgHdr BindRequestMsg 0
       (n :: tail (randOctets (stunRand rnd)) ++ randOctets (stunRand (rnd + 1)) ++
        randOctets (stunRand (rnd + 2)) ++ randOctets (stunRand (rnd + 3)))) zeroMessage).

Lemma randOctets_ok r : bytes_ok (randOctets r).
Proof. repeat constructor; apply (wrap_range 8); lia. Qed.

Lemma test_request_wf n rnd : is_test n -> msg_wf (test_request n rnd).
Proof.
  intros Hn. split; cbn; unfold opt_wf; cbn; try discriminate.
  - unfold BindRequestMsg; lia.
  - split; [reflexivity|]. pose proof (randOctets_ok (stunRand rnd)) as H.
    unfold randOctets in *. repeat constructor; try apply (wrap_range 8); try lia;
      unfold is_test in Hn; lia.
  - intros _. unfold test_flags, is_test in *. destruct (n =? 2), (n =? 3); lia.
Qed.

Lemma sendTest_request fd dest n rnd :
  is_test n -> addr dest <> 0 -> port dest <> 0 -> fd <> INVALID_SOCKET ->
  stunSendTest hmac stunRand fd dest zeroString zeroString n rnd =
  Ret (mkSent fd (wire (test_request n rnd) (integrity_of hmac (test_request n rnd) zeroString))
        (Some dest)).
Proof.
  intros Hn Ha Hp Hfd. unfold stunSendTest.
  destruct (Z.eqb_spec (addr dest) 0); [contradiction|].
  destruct (Z.eqb_spec (port dest) 0); [contradiction|]. cbn [negb cassert mbind outcome_bind].
  assert (exists c i, testFlags n = Some (c, i) /\
    stunBuildReqSimple zeroString c i n (stunRand rnd) (stunRand (rnd + 1)) (stunRand (rnd + 2))
      (stunRand (rnd + 3)) = test_request n rnd) as (c & i & -> & ->)
    by (destruct Hn as [-> | [-> | [-> | ->]]]; do 2 eexists; split; reflexivity).
  rewrite stunEncodeMessage_wire;
    [|intros; apply hmac_ok | now apply test_request_wf | reflexivity | reflexivity
     | vm_compute; intuition discriminate | vm_compute; discriminate | reflexivity].
  cbn [mbind outcome_bind]. unfold sendMessage.
  destruct (Z.eqb_spec fd INVALID_SOCKET); [contradiction|].
  destruct (Z.eqb_spec (port dest) 0); [contradiction|].
  destruct (Z.eqb_spec (addr dest) 0); [contradiction|]. cbn [negb cassert mbind outcome_bind].
  set (m := wire _ _). pose proof (zlen_nonneg m).
  rewrite slice_prefix, take_zlen by lia. cbn. now destruct dest.
Qed.

(** A datagram waiting on one of the server's sockets of the primary
    address. *)
Definition waits (info : StunServerInfo) (w : world) (client : StunAddress4) (data : bytes) : Prop :=
  zlen (stale w) = udpMaxMessageLength /\
  exists fds fd, ready w = Some fds /\ selectFd info fds = Some (fd, false) /\
    fd <> INVALID_SOCKET /\ incoming w fd = Received data (addr client) (port client).

Lemma natStep_reply fd dest u p s stl ip pt m mi :
  fd <> INVALID_SOCKET -> zlen stl = udpMaxMessageLength -> msg_wf m ->
  zlen (concat (wire_attrs m)) <= 1000 ->
  natStep hmac stunRand fd dest u p s
    (Readable stl (Received (wire m (mkAttr false mi)) ip pt)) =
  onResponse (received m (zlen (wire m (mkAttr false mi)) - 20) (mkAttr false mi)) s.
Proof.
  intros Hfd Hs Hm Hl. pose proof (zlen_wire_plain m mi Hm) as Hz.
  pose proof (zlen_nonneg (concat (wire_attrs m))).
  destruct (getMessage_fits fd udpMaxMessageLength stl (wire m (mkAttr false mi)) ip pt) as [t Ht];
    [assumption | assumption | unfold udpMaxMessageLength; lia |].
  unfold natStep. rewrite Ht. cbn [mbind outcome_bind].
  rewrite wrap_small by lia.
  rewrite (refines_parse (wire m (mkAttr false mi)) t _ _
    (wire_parses m (mkAttr false mi) Hm ltac:(discriminate) ltac:(lia))).
  reflexivity.
Qed.

(** A test 1, 2, 3 or 10 the client sends to the primary address of the
    server is answered in a way the client recognises: the answer records that
    this test was answered and, for test 1, the client's own address as the
    mapped address and the server's alternate address as the destination of
    test 10; nothing else changes. *)
Theorem test_exchange info w client fd dest n rnd s stl ip pt :
  is_test n -> addr dest <> 0 -> port dest <> 0 -> fd <> INVALID_SOCKET ->
  addr_wf client -> port client <> 0 -> addr client <> 0 ->
  addr_wf (myAddr info) -> addr_wf (altAddr info) ->
  replyFd info false (negb (Z.land (test_flags n) ChangePortFlag =? 0))
    (negb (Z.land (test_flags n) ChangeIpFlag =? 0)) <> INVALID_SOCKET ->
  zlen stl = udpMaxMessageLength ->
  exists request, stunSendTest hmac stunRand fd dest zeroString zeroString n rnd = Ret request /\
    sentTo request = Some dest /\
    (waits info w client (sentData request) ->
     exists reply s',
       stunServerProcess hmac info w = Ret (true, [reply]) /\ sentTo reply = Some client /\
       natStep hmac stunRand fd dest zeroString zeroString s
         (Readable stl (Received (sentData reply) ip pt)) = Ret s' /\
       respTestI s' = respTestI s || (n =? 1) /\ respTestII s' = respTestII s || (n =? 2) /\
       respTestIII s' = respTestIII s || (n =? 3) /\ respTestI2 s' = respTestI2 s || (n =? 10) /\
       testImappedAddr s' = (if n =? 1 then client else testImappedAddr s) /\
       mappedIpSame s' = (if n =? 10 then address_eqb client (testImappedAddr s) else mappedIpSame s) /\
       addr (testI2dest s') = (if n =? 1 then addr (altAddr info) else addr (testI2dest s)) /\
       outbox s' = outbox s).
Proof.
  intros Hn Ha Hp Hfd Hc Hcp Hca Hmy Halt Hr Hstl.
  pose proof (test_request_wf n rnd Hn) as Hwf.
  eexists; split; [now apply sendTest_request|]. split; [reflexivity|]. cbn [sentData].
  intros [Hstale Hw].
  set (mi := integrity_of hmac (test_request n rnd) zeroString) in *.
  pose proof (zlen_wire_plain (test_request n rnd) (val mi) Hwf) as Hz.
  change (mkAttr false (val mi)) with mi in Hz. change (zlen (concat _)) with 8 in Hz.
  set (req := received (test_request n rnd) 8 mi).
  assert (arrives info w false (wire (test_request n rnd) mi) client req) as Harr.
  { split; [assumption | assumption | unfold udpMaxMessageLength; lia|].
    pose proof (wire_parses (test_request n rnd) mi Hwf ltac:(discriminate) ltac:(lia)) as Hparse.
    rewrite Hz in *. exact Hparse. }
  assert (bytes_ok (wire (test_request n rnd) mi)) as Hok.
  { unfold wire. rewrite !bytes_ok_app. destruct (wf_id _ Hwf). repeat split; auto with vocal.
    - now apply wire_attrs_ok. - constructor. }
  pose proof (answer_bind_request hmac hmac_ok _ _ _ _ _ _ Harr Hok eq_refl eq_refl eq_refl eq_refl
    eq_refl Hc Hcp Hca Hmy Halt Hr) as Hans. cbv zeta in Hans.
  destruct (parse_id _ _ _ Hok (arr_parse _ _ _ _ _ _ Harr)) as [Hid Hidok].
  set (r := bind_response req client (myAddr info) (altAddr info)) in *.
  assert (msg_wf r) as Hrwf by (subst r; now apply bind_response_wf).
  do 2 eexists. split; [exact Hans|]. split; [reflexivity|]. cbn [sentData].
  unfold integrity_of. cbn [sizeValue zeroString Z.ltb Z.compare].
  rewrite (natStep_reply fd dest zeroString zeroString s stl ip pt r) by
    (try assumption; subst r; rewrite bind_response_size; lia).
  unfold onResponse.
  assert (rd (id (msgHdr (received r (zlen (wire r (mkAttr false (mkStunAtrIntegrity
    (hmac (string_value zeroString) (enc16 (msgType (msgHdr r)) ++ enc16 0 ++ id (msgHdr r) ++
    concat (wire_attrs r)))))) - 20) (mkAttr false (mkStunAtrIntegrity
    (hmac (string_value zeroString) (enc16 (msgType (msgHdr r)) ++ enc16 0 ++ id (msgHdr r) ++
    concat (wire_attrs r)))))))) 0 = Ret n) as -> by reflexivity.
  cbn [mbind outcome_bind]. split; [reflexivity|].
  destruct Hn as [-> | [-> | [-> | ->]]]; cbn; rewrite ?orb_true_r, ?orb_false_r;
    repeat split; now destruct client.
Qed.

End Nat.

(** * Witnesses *)

Definition sample_rand : nat -> Z := fun n => Z.of_nat n + 77.

Lemma stunNatType_classifies_witness :
  exists l out, stunNatType no_hmac sample_rand 9 sample_client [SelectTimeout; SelectError]
      (fun _ => false) = Ret (StunTypeBlocked, out) /\
    answers 9 [SelectTimeout; SelectError] = Ret l /\ answered 1 l = false.
Proof.
  assert (exists out, stunNatType no_hmac sample_rand 9 sample_client [SelectTimeout; SelectError]
    (fun _ => false) = Ret (StunTypeBlocked, out)) as [out E] by (eexists; vm_compute; reflexivity).
  destruct (stunNatType_classifies no_hmac sample_rand 9 sample_client _ _ _ _ E)
    as (l & Hl & _ & Hb & _).
  exists l, out. split; [exact E|]. split; [exact Hl | now apply Hb].
Defined.

Definition sample_exchange_world (data : bytes) : world :=
  mkWorld (Some [3]) (fun _ => Received data (addr sample_client) (port sample_client)) 1000 7
    (zeros (Z.to_nat udpMaxMessageLength)).

Lemma test_exchange_witness :
  exists request reply s',
    stunSendTest no_hmac sample_rand 9 (myAddr sample_info) zeroString zeroString 1 0 = Ret request /\
    stunServerProcess no_hmac sample_info (sample_exchange_world (sentData request)) =
      Ret (true, [reply]) /\
    natStep no_hmac sample_rand 9 (myAddr sample_info) zeroString zeroString
      (natInit (myAddr sample_info))
      (Readable (zeros (Z.to_nat udpMaxMessageLength)) (Received (sentData reply) 0 0)) = Ret s' /\
    respTestI s' = true /\ testImappedAddr s' = sample_client.
Proof.
  assert (forall k d, zlen (no_hmac k d) = 20 /\ bytes_ok (no_hmac k d)) as Hh by apply no_hmac_ok.
  assert (exists rq, stunSendTest no_hmac sample_rand 9 (myAddr sample_info) zeroString zeroString 1 0
    = Ret rq) as [rq E] by (eexists; vm_compute; reflexivity).
  assert (is_test 1) as Ht by (left; reflexivity).
  assert (addr_wf sample_client /\ addr_wf (myAddr sample_info) /\ addr_wf (altAddr sample_info))
    as (W1 & W2 & W3) by (vm_compute; intuition congruence).
  destruct (test_exchange no_hmac sample_rand Hh sample_info
    (sample_exchange_world (sentData rq)) sample_client 9 (myAddr sample_info)
    1 0 (natInit (myAddr sample_info)) (zeros (Z.to_nat udpMaxMessageLength)) 0 0 Ht
    ltac:(discriminate) ltac:(discriminate) ltac:(discriminate) W1 ltac:(discriminate)
    ltac:(discriminate) W2 W3 ltac:(discriminate) (zlen_zeros _)) as (request & Hreq & _ & H).
  rewrite E in Hreq. injection Hreq as <-.
  destruct H as (reply & s' & H1 & _ & H2 & H3 & _ & _ & _ & H4 & _).
  - split; [cbn [stale sample_exchange_world]; rewrite zlen_zeros; reflexivity|].
    exists [3], 3. repeat split; discriminate.
  - exists rq, reply, s'. split; [exact E|]. split; [exact H1|]. split; [exact H2|].
    split; [exact H3 | exact H4].
Defined.

End StunNatFacts.
