(* ===== verification/Base64.v ===== *)
(** The Base64 coder of util/Base64.cxx, and its round trip. *)
From S2P Require Import Prelude.

Module Base64.

(** * Tables *)

Definition basis_64 : bytes :=
  str "ABCDEFGHIJKLMNOPQRSTUVWXYZabcdefghijklmnopqrstuvwxyz0123456789+/".

Definition index_64 : list Z :=
  [-1; -1; -1; -1; -1; -1; -1; -1; -1; -1; -1; -1; -1; -1; -1; -1;
   -1; -1; -1; -1; -1; -1; -1; -1; -1; -1; -1; -1; -1; -1; -1; -1;
   -1; -1; -1; -1; -1; -1; -1; -1; -1; -1; -1; 62; -1; -1; -1; 63;
   52; 53; 54; 55; 56; 57; 58; 59; 60; 61; -1; -1; -1; -1; -1; -1;
   -1;  0;  1;  2;  3;  4;  5;  6;  7;  8;  9; 10; 11; 12; 13; 14;
   15; 16; 17; 18; 19; 20; 21; 22; 23; 24; 25; -1; -1; -1; -1; -1;
   -1; 26; 27; 28; 29; 30; 31; 32; 33; 34; 35; 36; 37; 38; 39; 40;
   41; 42; 43; 44; 45; 46; 47; 48; 49; 50; 51; -1; -1; -1; -1; -1].

(** [char64], as stored in an [unsigned char]. *)
Definition char64 (c : Z) : outcome Z :=
  if 127 <? c then mret (u8 (-1))
  else i ← rd index_64 c; mret (u8 i).

Definition pad : Z := 61.   (** the character [=] *)

(** * Operations *)

(** The first and last digits of three bytes, and the two in between. *)
Definition digit1 (c1 : Z) : Z := Z.shiftr c1 2.
Definition digit2 (c1 c2 : Z) : Z :=
  Z.lor (Z.shiftl (Z.land c1 0x03) 4) (Z.shiftr (Z.land c2 0xF0) 4).
Definition digit3 (c2 c3 : Z) : Z :=
  Z.lor (Z.shiftl (Z.land c2 0x0F) 2) (Z.shiftr (Z.land c3 0xC0) 6).
Definition digit4 (c3 : Z) : Z := Z.land c3 0x3F.

(** The [while] loop of [encode]; [input] is what is left of the input. *)
Fixpoint encodeLoop (cap : Z) (out input : bytes) : outcome bytes :=
  match input with
  | [] => mret out
  | [c1] =>
      d1 ← rd basis_64 (digit1 c1); d2 ← rd basis_64 (digit2 c1 0);
      put cap out [d1; d2; pad; pad]
  | [c1; c2] =>
      d1 ← rd basis_64 (digit1 c1); d2 ← rd basis_64 (digit2 c1 c2);
      d3 ← rd basis_64 (digit3 c2 0);
      put cap out [d1; d2; d3; pad]
  | c1 :: c2 :: c3 :: input' =>
      d1 ← rd basis_64 (digit1 c1); d2 ← rd basis_64 (digit2 c1 c2);
      d3 ← rd basis_64 (digit3 c2 c3); d4 ← rd basis_64 (digit4 c3);
      out ← put cap out [d1; d2; d3; d4];
      encodeLoop cap out input'
  end.

(** The bytes written to the output array of [cap] bytes, and [strlen] of it. *)
Definition encode (cap : Z) (inputBuf : bytes) (inputLen : Z) : outcome (bytes * Z) :=
  input ← slice inputBuf 0 inputLen;
  out ← encodeLoop cap [] input;
  out ← put cap out [0];
  mret (out, zlen (cstr out)).

(** The bytes of one group of four characters. *)
Definition decodeGroup (c1 c2 c3 c4 : Z) : outcome bytes :=
  c1 ← char64 c1;
  c2 ← char64 c2;
  let o1 := u8 (Z.lor (Z.shiftl c1 2) (Z.shiftr (Z.land c2 0x30) 4)) in
  if c3 =? pad then mret [o1]
  else
    c3 ← char64 c3;
    let o2 := u8 (Z.lor (Z.shiftl (Z.land c2 0xF) 4) (Z.shiftr (Z.land c3 0x3C) 2)) in
    if c4 =? pad then mret [o1; o2]
    else
      c4 ← char64 c4;
      mret [o1; o2; u8 (Z.lor (Z.shiftl (Z.land c3 0x03) 6) c4)].

(** The [while] loop of [decode]; [rest] is what follows [c1]. *)
Fixpoint decodeLoop (cap : Z) (out : bytes) (c1 : Z) (rest : bytes) : outcome bytes :=
  if c1 =? 0 then mret out
  else match rest with
  | c2 :: c3 :: c4 :: next :: rest' =>
      o ← decodeGroup c1 c2 c3 c4;
      out ← put cap out o;
      if next =? 13 then
        match rest' with
        | next2 :: rest2 =>
            if next2 =? 10 then
              match rest2 with
              | next3 :: rest3 => decodeLoop cap out next3 rest3
              | [] => Fault OutOfBounds
              end
            else decodeLoop cap out next2 rest2
        | [] => Fault OutOfBounds
        end
      else decodeLoop cap out next rest'
  | _ => Fault OutOfBounds
  end.

(** The bytes written to the output array of [cap] bytes; their number is the
    result. *)
Definition decode (cap : Z) (inputBuf : bytes) : outcome bytes :=
  match inputBuf with
  | c1 :: rest => decodeLoop cap [] c1 rest
  | [] => Fault OutOfBounds
  end.

(** * Digits *)

(** The character of a digit. *)
Definition char_of (d : Z) : Z := nth (Z.to_nat d) basis_64 0.

Lemma tables_inverse :
  forallb (fun n => let c := char_of (Z.of_nat n) in
    bool_decide (rd basis_64 (Z.of_nat n) = Ret c) && bool_decide (char64 c = Ret (Z.of_nat n)) &&
    negb (c =? 0) && negb (c =? 13) && negb (c =? pad)) (seq 0 64) = true.
Proof. vm_compute. reflexivity. Qed.

Lemma char_of_digit d : 0 <= d < 64 ->
  rd basis_64 d = Ret (char_of d) /\ char64 (char_of d) = Ret d /\
  char_of d <> 0 /\ char_of d <> 13 /\ char_of d <> pad.
Proof.
  intros Hd. pose proof tables_inverse as H. rewrite forallb_forall in H.
  specialize (H (Z.to_nat d)). rewrite Z2Nat.id in H by lia.
  assert (In (Z.to_nat d) (seq 0 64)) as Hin by (apply in_seq; lia).
  specialize (H Hin). cbv zeta in H. rewrite !andb_true_iff, !bool_decide_eq_true, !negb_true_iff, !Z.eqb_neq in H.
  tauto.
Qed.

(** The digits are the base-64 digits of the three bytes. *)
Lemma digits_value c1 c2 c3 : byte_ok c1 -> byte_ok c2 -> byte_ok c3 ->
  digit1 c1 = c1 / 4 /\ digit2 c1 c2 = c1 mod 4 * 16 + c2 / 16 /\
  digit3 c2 c3 = c2 mod 16 * 4 + c3 / 64 /\ digit4 c3 = c3 mod 64.
Proof.
  unfold byte_ok, digit1, digit2, digit3, digit4. intros H1 H2 H3.
  rewrite (field_shiftr c2 _ 4 4), (field_shiftr c3 _ 6 2) by (try reflexivity; lia).
  change 0x03 with (Z.ones 2). change 0x0F with (Z.ones 4). change 0x3F with (Z.ones 6).
  rewrite !field_low, Z.shiftr_div_pow2, !lor_add by
    (try lia; Z.to_euclidean_division_equations; lia).
  repeat split; Z.to_euclidean_division_equations; lia.
Qed.

Lemma digits_range c1 c2 c3 : byte_ok c1 -> byte_ok c2 -> byte_ok c3 ->
  0 <= digit1 c1 < 64 /\ 0 <= digit2 c1 c2 < 64 /\ 0 <= digit3 c2 c3 < 64 /\ 0 <= digit4 c3 < 64.
Proof.
  intros H1 H2 H3. destruct (digits_value c1 c2 c3) as (-> & -> & -> & ->); try assumption.
  unfold byte_ok in *. repeat split; Z.to_euclidean_division_equations; lia.
Qed.

(** What [decodeGroup] puts together again. *)
Lemma join1 d1 d2 : 0 <= d1 < 64 -> 0 <= d2 < 64 ->
  u8 (Z.lor (Z.shiftl d1 2) (Z.shiftr (Z.land d2 0x30) 4)) = (d1 * 4 + d2 / 16).
Proof.
  intros H1 H2. rewrite (field_shiftr d2 _ 4 2) by (try reflexivity; lia).
  rewrite lor_add by (Z.to_euclidean_division_equations; lia).
  unfold wrap. Z.to_euclidean_division_equations; lia.
Qed.

Lemma join2 d2 d3 : 0 <= d2 < 64 -> 0 <= d3 < 64 ->
  u8 (Z.lor (Z.shiftl (Z.land d2 0xF) 4) (Z.shiftr (Z.land d3 0x3C) 2)) = d2 mod 16 * 16 + d3 / 4.
Proof.
  intros H1 H2. rewrite (field_shiftr d3 _ 2 4) by (try reflexivity; lia).
  change 0xF with (Z.ones 4). rewrite field_low, lor_add by
    (try lia; Z.to_euclidean_division_equations; lia).
  unfold wrap. Z.to_euclidean_division_equations; lia.
Qed.

Lemma join3 d3 d4 : 0 <= d3 < 64 -> 0 <= d4 < 64 ->
  u8 (Z.lor (Z.shiftl (Z.land d3 0x03) 6) d4) = d3 mod 4 * 64 + d4.
Proof.
  intros H1 H2. change 0x03 with (Z.ones 2). rewrite field_low, lor_add by lia.
  unfold wrap. Z.to_euclidean_division_equations; lia.
Qed.

Lemma decodeGroup_full c1 c2 c3 : byte_ok c1 -> byte_ok c2 -> byte_ok c3 ->
  decodeGroup (char_of (digit1 c1)) (char_of (digit2 c1 c2)) (char_of (digit3 c2 c3))
    (char_of (digit4 c3)) = Ret [c1; c2; c3].
Proof.
  intros H1 H2 H3. destruct (digits_range c1 c2 c3) as (R1 & R2 & R3 & R4); try assumption.
  destruct (char_of_digit _ R1) as (_ & E1 & _), (char_of_digit _ R2) as (_ & E2 & _),
    (char_of_digit _ R3) as (_ & E3 & _ & _ & P3), (char_of_digit _ R4) as (_ & E4 & _ & _ & P4).
  unfold decodeGroup. rewrite E1, E2. cbn [mbind outcome_bind].
  destruct (Z.eqb_spec (char_of (digit3 c2 c3)) pad); [contradiction|].
  rewrite E3. cbn [mbind outcome_bind].
  destruct (Z.eqb_spec (char_of (digit4 c3)) pad); [contradiction|].
  rewrite E4. cbn [mbind outcome_bind]. rewrite join1, join2, join3 by assumption.
  destruct (digits_value c1 c2 c3) as (-> & -> & -> & ->); try assumption.
  unfold byte_ok in *. cbn. do 2 f_equal; [|do 2 f_equal; [|f_equal]];
    Z.to_euclidean_division_equations; lia.
Qed.

Lemma decodeGroup_two c1 c2 : byte_ok c1 -> byte_ok c2 ->
  decodeGroup (char_of (digit1 c1)) (char_of (digit2 c1 c2)) (char_of (digit3 c2 0)) pad =
  Ret [c1; c2].
Proof.
  intros H1 H2. assert (byte_ok 0) as H3 by (split; lia).
  destruct (digits_range c1 c2 0) as (R1 & R2 & R3 & _); try assumption.
  destruct (char_of_digit _ R1) as (_ & E1 & _), (char_of_digit _ R2) as (_ & E2 & _),
    (char_of_digit _ R3) as (_ & E3 & _ & _ & P3).
  unfold decodeGroup. rewrite E1, E2. cbn [mbind outcome_bind].
  destruct (Z.eqb_spec (char_of (digit3 c2 0)) pad); [contradiction|].
  rewrite E3. cbn [mbind outcome_bind]. rewrite Z.eqb_refl, join1, join2 by assumption.
  destruct (digits_value c1 c2 0) as (-> & -> & -> & _); try assumption.
  unfold byte_ok in *. cbn. do 2 f_equal; [|do 2 f_equal];
    Z.to_euclidean_division_equations; lia.
Qed.

Lemma decodeGroup_one c1 : byte_ok c1 ->
  decodeGroup (char_of (digit1 c1)) (char_of (digit2 c1 0)) pad pad = Ret [c1].
Proof.
  intros H1. assert (byte_ok 0) as H3 by (split; lia).
  destruct (digits_range c1 0 0) as (R1 & R2 & _ & _); try assumption.
  destruct (char_of_digit _ R1) as (_ & E1 & _), (char_of_digit _ R2) as (_ & E2 & _).
  unfold decodeGroup. rewrite E1, E2. cbn [mbind outcome_bind].
  rewrite Z.eqb_refl, join1 by assumption.
  destruct (digits_value c1 0 0) as (-> & -> & _); try assumption.
  unfold byte_ok in *. cbn. do 2 f_equal; Z.to_euclidean_division_equations; lia.
Qed.

(** * Round trip *)

(** The text of a byte sequence. *)
Fixpoint text (l : bytes) : bytes :=
  match l with
  | [] => []
  | [c1] => [char_of (digit1 c1); char_of (digit2 c1 0); pad; pad]
  | [c1; c2] => [char_of (digit1 c1); char_of (digit2 c1 c2); char_of (digit3 c2 0); pad]
  | c1 :: c2 :: c3 :: l' =>
      [char_of (digit1 c1); char_of (digit2 c1 c2); char_of (digit3 c2 c3); char_of (digit4 c3)]
        ++ text l'
  end.

(** Induction by groups of three. *)
Lemma group_ind (P : bytes -> Prop) :
  P [] -> (forall a, P [a]) -> (forall a b, P [a; b]) ->
  (forall a b c l, P l -> P (a :: b :: c :: l)) -> forall l, P l.
Proof.
  intros H0 H1 H2 H3 l. assert (P l /\ (forall a, P (a :: l)) /\ (forall a b, P (a :: b :: l))) as [H _];
    [|exact H].
  induction l as [|x l (IH1 & IH2 & IH3)]; auto.
Qed.

Ltac read_digits :=
  repeat match goal with
  | |- context [rd basis_64 ?d] =>
      let E := fresh in
      assert (rd basis_64 d = Ret (char_of d)) as E by (apply char_of_digit; lia);
      rewrite E; clear E; cbn [mbind outcome_bind]
  end.

Lemma zlen_text l : zlen (text l) = 4 * ((zlen l + 2) / 3).
Proof.
  induction l as [|a|a b|a b c l IH] using group_ind; try reflexivity.
  change (text (a :: b :: c :: l)) with
    ([char_of (digit1 a); char_of (digit2 a b); char_of (digit3 b c); char_of (digit4 c)] ++ text l).
  rewrite zlen_app, IH. autorewrite with zlen. pose proof (zlen_nonneg l).
  Z.to_euclidean_division_equations; lia.
Qed.

Lemma encodeLoop_text cap l : forall out,
  bytes_ok l -> zlen out + zlen (text l) <= cap -> encodeLoop cap out l = Ret (out ++ text l).
Proof.
  assert (byte_ok 0) as H0 by (split; lia).
  induction l as [|a|a b|a b c l IH] using group_ind; intros out Hl Hc.
  - cbn. now rewrite app_nil_r.
  - apply Forall_cons_1 in Hl as [Ha _].
    destruct (digits_range a 0 0) as (R1 & R2 & R3 & R4); try assumption.
    cbn [encodeLoop]. read_digits. now rewrite put_fits by exact Hc.
  - apply Forall_cons_1 in Hl as [Ha [Hb _]%Forall_cons_1].
    destruct (digits_range a b 0) as (R1 & R2 & R3 & R4); try assumption.
    cbn [encodeLoop]. read_digits. now rewrite put_fits by exact Hc.
  - apply Forall_cons_1 in Hl as [Ha [Hb [Hcc Hl]%Forall_cons_1]%Forall_cons_1].
    destruct (digits_range a b c) as (R1 & R2 & R3 & R4); try assumption.
    change (text (a :: b :: c :: l)) with
      ([char_of (digit1 a); char_of (digit2 a b); char_of (digit3 b c); char_of (digit4 c)] ++ text l) in *.
    cbn [encodeLoop]. read_digits. pose proof (zlen_nonneg (text l)).
    rewrite put_fits by zlen_lia. cbn [mbind outcome_bind]. rewrite IH by (try assumption; zlen_lia).
    now rewrite <- app_assoc.
Qed.

Lemma text_nonzero l : bytes_ok l -> Forall (fun c => c <> 0) (text l).
Proof.
  assert (byte_ok 0) as H0 by (split; lia). assert (pad <> 0) as Hp by discriminate.
  induction l as [|a|a b|a b c l IH] using group_ind; intros Hl; cbn [text app].
  - constructor.
  - apply Forall_cons_1 in Hl as [Ha _].
    destruct (digits_range a 0 0) as (R1 & R2 & R3 & R4); try assumption.
    repeat constructor; try assumption; apply char_of_digit; assumption.
  - apply Forall_cons_1 in Hl as [Ha [Hb _]%Forall_cons_1].
    destruct (digits_range a b 0) as (R1 & R2 & R3 & R4); try assumption.
    repeat constructor; try assumption; apply char_of_digit; assumption.
  - apply Forall_cons_1 in Hl as [Ha [Hb [Hcc Hl]%Forall_cons_1]%Forall_cons_1].
    destruct (digits_range a b c) as (R1 & R2 & R3 & R4); try assumption.
    do 4 (constructor; [apply char_of_digit; assumption|]). now apply IH.
Qed.

Lemma text_head l c t : text l ++ [0] = c :: t -> bytes_ok l -> c <> 13.
Proof.
  intros E Hl. assert (byte_ok 0) as H0 by (split; lia).
  destruct l as [|a [|b [|d l]]]; cbn in E; injection E as <- _; try lia;
    apply Forall_cons_1 in Hl as [Ha _]; destruct (digits_range a 0 0) as (R1 & _); try assumption;
    apply char_of_digit; assumption.
Qed.

(** Decoding the text that follows a decoded prefix. *)
Lemma decodeLoop_text cap l : forall out c t,
  bytes_ok l -> text l ++ [0] = c :: t -> zlen out + zlen l <= cap ->
  decodeLoop cap out c t = Ret (out ++ l).
Proof.
  assert (byte_ok 0) as H0 by (split; lia).
  assert (forall d, 0 <= d < 64 -> (char_of d =? 0) = false) as Hnz
    by (intros d Hd; apply Z.eqb_neq; now apply char_of_digit).
  induction l as [|a|a b|a b d l IH] using group_ind; intros out c t Hl E Hc.
  - injection E as <- <-. cbn. now rewrite app_nil_r.
  - injection E as <- <-. apply Forall_cons_1 in Hl as [Ha _].
    destruct (digits_range a 0 0) as (R1 & R2 & _); try assumption.
    cbn -[decodeGroup digit1 digit2 char_of]. rewrite Hnz, decodeGroup_one by assumption.
    cbn [mbind outcome_bind]. now rewrite put_fits by assumption.
  - injection E as <- <-. apply Forall_cons_1 in Hl as [Ha [Hb _]%Forall_cons_1].
    destruct (digits_range a b 0) as (R1 & R2 & R3 & _); try assumption.
    cbn -[decodeGroup digit1 digit2 digit3 char_of]. rewrite Hnz, decodeGroup_two by assumption.
    cbn [mbind outcome_bind]. now rewrite put_fits by assumption.
  - apply Forall_cons_1 in Hl as [Ha [Hb [Hd Hl]%Forall_cons_1]%Forall_cons_1].
    destruct (digits_range a b d) as (R1 & R2 & R3 & R4); try assumption.
    change (text (a :: b :: d :: l)) with
      ([char_of (digit1 a); char_of (digit2 a b); char_of (digit3 b d); char_of (digit4 d)] ++ text l) in E.
    rewrite <- app_assoc in E. destruct (text l ++ [0]) as [|n t'] eqn:En;
      [destruct (text l); discriminate|].
    pose proof (text_head _ _ _ En Hl). injection E as <- <-. cbn [decodeLoop].
    rewrite Hnz, decodeGroup_full by assumption. cbn [mbind outcome_bind].
    pose proof (zlen_nonneg l). rewrite put_fits by zlen_lia. cbn [mbind outcome_bind].
    destruct (Z.eqb_spec n 13); [contradiction|].
    rewrite (IH _ n t') by (try assumption; try reflexivity; zlen_lia). now rewrite <- app_assoc.
Qed.

(** C38: encoding any bytes, zero bytes included, writes four characters for
    each group of three and a NUL that is not counted, and decoding the result
    gives the bytes back. *)
Theorem base64_roundtrip l n cap cap' :
  bytes_ok l -> 0 <= n <= zlen l -> 4 * ((n + 2) / 3) + 1 <= cap -> n <= cap' ->
  exists out, encode cap l n = Ret (out, 4 * ((n + 2) / 3)) /\
    decode cap' out = Ret (take (Z.to_nat n) l).
Proof.
  intros Hl Hn Hc Hc'. set (m := take (Z.to_nat n) l).
  assert (bytes_ok m) as Hm by now apply Forall_take.
  assert (zlen m = n) as Hz by (subst m; unfold zlen in *; rewrite length_take; lia).
  pose proof (zlen_text m) as Ht. rewrite Hz in Ht.
  assert (slice l 0 n = Ret m) as Hs.
  { unfold slice. destruct (Z.leb_spec 0 0), (Z.leb_spec 0 n), (Z.leb_spec (0 + n) (zlen l)); try lia.
    reflexivity. }
  unfold encode. rewrite Hs. cbn [mbind outcome_bind].
  rewrite encodeLoop_text by (try assumption; zlen_lia). cbn [mbind outcome_bind app].
  rewrite put_fits by zlen_lia. cbn [mbind outcome_bind].
  exists (text m ++ [0]). split.
  - now rewrite cstr_nonzero, Ht by now apply text_nonzero.
  - unfold decode. destruct (text m ++ [0]) as [|c t] eqn:E; [destruct (text m); discriminate|].
    apply (decodeLoop_text cap' m []); [assumption | exact E | zlen_lia].
Qed.

Lemma base64_roundtrip_witness :
  exists out, encode 9 [0; 255; 16; 7; 9] 4 = Ret (out, 4 * ((4 + 2) / 3)) /\
    decode 4 out = Ret (take (Z.to_nat 4) [0; 255; 16; 7; 9]).
Proof.
  apply base64_roundtrip; [apply bytes_ok_forallb; reflexivity | vm_compute; intuition congruence..].
Defined.

End Base64.
