(* ===== verification/RtpTime.v ===== *)
(** Sequence number and time arithmetic of the RTP stack: rtp/rtpTools.cxx and
    the class [NtpTime] of rtp/NtpTime.hxx and rtp/NtpTime.cxx, with the
    theorems about wrap-around, carry and clamping. *)
From S2P Require Import Prelude.

Module RtpTime.

(** * rtpTools.cxx *)

Definition RTP_SEQ_MOD : Z := 65536.
Definition RTP_TIME_MOD : Z := 4294967295.

(** The result is an [int]; the operands are [unsigned int]. *)
Definition RtpSeqDifference (a b : Z) : outcome Z :=
  _ ← cassert (a <=? RTP_SEQ_MOD);
  _ ← cassert (b <=? RTP_SEQ_MOD);
  mret (if a =? b then 0
        else if b <? a then
          if Z.shiftr RTP_SEQ_MOD 1 <? u32 (a - b)
          then s32 (u32 (- u32 (u32 (RTP_SEQ_MOD - a) + b)))
          else s32 (u32 (a - b))
        else
          if Z.shiftr RTP_SEQ_MOD 1 <? u32 (b - a)
          then s32 (u32 (a + u32 (RTP_SEQ_MOD - b)))
          else s32 (u32 (- u32 (b - a)))).

Definition RtpSeqGreater (a b : Z) : outcome bool :=
  d ← RtpSeqDifference a b; mret (0 <? d).

Definition RtpTimeGreater (a b : Z) : outcome bool :=
  _ ← cassert (a <=? RTP_TIME_MOD);
  _ ← cassert (b <=? RTP_TIME_MOD);
  mret (if a =? b then false
        else if b <? a then
          if Z.shiftr RTP_TIME_MOD 1 <? u32 (a - b) then false else true
        else
          if Z.shiftr RTP_TIME_MOD 1 <? u32 (b - a) then true else false).

(** * NtpTime *)

Record NtpTime := mkNtpTime { seconds : Z; fractional : Z }.

#[export] Instance NtpTime_eq_dec : EqDecision NtpTime.
Proof. solve_decision. Defined.

Definition getSeconds (t : NtpTime) : Z := seconds t.
Definition getFractional (t : NtpTime) : Z := fractional t.

Definition getUs (t : NtpTime) : Z := u64 (seconds t * 1000000 + fractional t / 4294).
Definition getMs (t : NtpTime) : Z := u64 (seconds t * 1000 + fractional t / 4294967).

(** [operator+(const NtpTime&, unsigned int msec)] *)
Definition ntp_add (lhs : NtpTime) (msec : Z) : NtpTime :=
  let delayFrac := u32 (msec mod 1000 * 4294967) in
  let s := u32 (seconds lhs + msec / 1000) in
  let f := u32 (fractional lhs + delayFrac) in
  mkNtpTime (if (f <? fractional lhs) && (f <? delayFrac) then u32 (s + 1) else s) f.

(** [operator-(const NtpTime&, unsigned int msec)] *)
Definition ntp_sub_ms (lhs : NtpTime) (msec : Z) : NtpTime :=
  let delayFrac := u32 (msec mod 1000 * 4294967) in
  if msec / 1000 <? seconds lhs then
    let s := u32 (seconds lhs - msec / 1000) in
    mkNtpTime (if fractional lhs <? delayFrac then u32 (s - 1) else s)
              (u32 (fractional lhs - delayFrac))
  else
    mkNtpTime 0 (if fractional lhs <=? delayFrac then 0 else u32 (fractional lhs - delayFrac)).

Definition ntp_eq (rhs lhs : NtpTime) : bool :=
  if seconds rhs =? seconds lhs then fractional rhs =? fractional lhs
  else seconds rhs =? seconds lhs.
Definition ntp_lt (rhs lhs : NtpTime) : bool :=
  if seconds rhs =? seconds lhs then fractional rhs <? fractional lhs
  else seconds rhs <? seconds lhs.
Definition ntp_gt (rhs lhs : NtpTime) : bool :=
  if seconds rhs =? seconds lhs then fractional lhs <? fractional rhs
  else seconds lhs <? seconds rhs.

(** [operator-(const NtpTime&, const NtpTime&)]: an [int64] computed in
    [u_int32_t]. *)
Definition ntp_diff (lhs rhs : NtpTime) : Z :=
  if ntp_eq lhs rhs then 0
  else if ntp_gt lhs rhs then
    let s := u32 (seconds lhs - seconds rhs) in
    let '(s, f) :=
      if fractional rhs <? fractional lhs then (s, u32 (fractional lhs - fractional rhs))
      else if fractional lhs <? fractional rhs
           then (u32 (s - 1), u32 (fractional lhs - fractional rhs))
      else (s, 0) in
    s64 (u32 (u32 (s * 1000) + f / 4294967))
  else
    let s := u32 (seconds rhs - seconds lhs) in
    let '(s, f) :=
      if fractional lhs <=? fractional rhs then (s, u32 (fractional rhs - fractional lhs))
      else if fractional rhs <? fractional lhs
           then (u32 (s - 1), u32 (fractional rhs - fractional lhs))
      else (s, 0) in
    s64 (u32 (- u32 (u32 (s * 1000) + f / 4294967))).

(** [getNtpTime], from the result of [gettimeofday]. *)
Definition getNtpTime (tv_sec tv_usec : Z) : NtpTime :=
  mkNtpTime (u32 tv_sec) (u32 (tv_usec * 4294)).

(** * Sequence numbers *)

Lemma seqDifference_spec a b :
  0 <= a < 65536 -> 0 <= b < 65536 ->
  exists d, RtpSeqDifference a b = Ret d /\ - 32768 <= d <= 32768 /\ (d - (a - b)) mod 65536 = 0 /\
    (d = 32768 -> b < a) /\ (d = - 32768 -> a < b).
Proof.
  intros Ha Hb. unfold RtpSeqDifference, RTP_SEQ_MOD.
  destruct (Z.leb_spec a 65536), (Z.leb_spec b 65536); try lia. cbn [cassert mbind outcome_bind].
  change (Z.shiftr 65536 1) with 32768. eexists; split; [reflexivity|].
  destruct (Z.eqb_spec a b) as [->|N]; [rewrite Z.sub_diag; change ((0 - 0) mod 65536) with 0; lia|].
  destruct (Z.ltb_spec b a) as [Hlt|Hge].
  - rewrite (wrap_small 32 (a - b)) by lia. destruct (Z.ltb_spec 32768 (a - b)).
    + rewrite (wrap_small 32 (65536 - a)), (wrap_small 32 (65536 - a + b)) by lia.
      unfold wrap, swrap. destruct (Z.ltb_spec ((- (65536 - a + b)) mod 2 ^ 32 mod 2 ^ 32) (2 ^ (32 - 1)));
        Z.to_euclidean_division_equations; lia.
    + rewrite (swrap_small 32), Z.sub_diag by lia. change (0 mod 65536) with 0; lia.
  - rewrite (wrap_small 32 (b - a)) by lia. destruct (Z.ltb_spec 32768 (b - a)).
    + rewrite (wrap_small 32 (65536 - b)), (wrap_small 32 (a + (65536 - b))), (swrap_small 32) by lia.
      replace (a + (65536 - b) - (a - b)) with 65536 by lia. change (65536 mod 65536) with 0; lia.
    + unfold wrap, swrap. destruct (Z.ltb_spec ((- (b - a)) mod 2 ^ 32 mod 2 ^ 32) (2 ^ (32 - 1)));
        Z.to_euclidean_division_equations; lia.
Qed.

(** The difference of two numbers less than half the cycle apart. *)
Lemma seqDifference_near a b d :
  0 <= a < 65536 -> 0 <= b < 65536 -> - 32768 < d < 32768 -> a = (b + d) mod 65536 ->
  RtpSeqDifference a b = Ret d.
Proof.
  intros Ha Hb Hd E. destruct (seqDifference_spec a b Ha Hb) as (d' & -> & Hr & Hm & _).
  f_equal. Z.to_euclidean_division_equations; lia.
Qed.

(** The difference of two sequence numbers is congruent to their integer
    difference modulo 65536, lies within half a cycle, and changes its sign
    with the order of the arguments; so of two different numbers exactly one
    is greater. *)
Theorem seqDifference_circular a b :
  0 <= a < 65536 -> 0 <= b < 65536 ->
  exists d, RtpSeqDifference a b = Ret d /\ RtpSeqDifference b a = Ret (- d) /\
    - 32768 <= d <= 32768 /\ (d - (a - b)) mod 65536 = 0 /\
    RtpSeqGreater a b = Ret (0 <? d) /\ RtpSeqGreater b a = Ret (d <? 0) /\
    (d = 0 <-> a = b).
Proof.
  intros Ha Hb. destruct (seqDifference_spec a b Ha Hb) as (d & Hd & Hr & Hm & H1 & H2).
  destruct (seqDifference_spec b a Hb Ha) as (e & He & Hr' & Hm' & H1' & H2').
  assert (e = - d) as -> by (Z.to_euclidean_division_equations; lia).
  exists d. unfold RtpSeqGreater. rewrite Hd, He. cbn [mbind outcome_bind mret outcome_ret].
  split; [reflexivity|]. split; [reflexivity|]. split; [assumption|]. split; [assumption|].
  split; [reflexivity|]. split.
  - f_equal. destruct (Z.ltb_spec 0 (- d)), (Z.ltb_spec d 0); lia.
  - Z.to_euclidean_division_equations; lia.
Qed.

Lemma seqDifference_circular_witness :
  exists d, RtpSeqDifference 3 65530 = Ret d /\ RtpSeqDifference 65530 3 = Ret (- d) /\
    - 32768 <= d <= 32768 /\ (d - (3 - 65530)) mod 65536 = 0 /\
    RtpSeqGreater 3 65530 = Ret (0 <? d) /\ RtpSeqGreater 65530 3 = Ret (d <? 0) /\
    (d = 0 <-> 3 = 65530).
Proof. apply seqDifference_circular; lia. Defined.

(** Timestamps less than half the cycle apart. *)
Lemma timeGreater_near a b d :
  0 <= a < 4294967296 -> 0 <= b < 4294967296 -> - 2147483647 <= d <= 2147483647 ->
  a = (b + d) mod 4294967296 -> RtpTimeGreater a b = Ret (0 <? d).
Proof.
  intros Ha Hb Hd E. unfold RtpTimeGreater, RTP_TIME_MOD.
  destruct (Z.leb_spec a 4294967295), (Z.leb_spec b 4294967295); try lia.
  cbn [cassert mbind outcome_bind]. change (Z.shiftr 4294967295 1) with 2147483647. unfold mret, outcome_ret.
  f_equal.
  destruct (Z.eqb_spec a b); [destruct (Z.ltb_spec 0 d); Z.to_euclidean_division_equations; lia|].
  destruct (Z.ltb_spec b a).
  - rewrite wrap_small by lia. destruct (Z.ltb_spec 2147483647 (a - b)), (Z.ltb_spec 0 d);
      Z.to_euclidean_division_equations; lia.
  - rewrite wrap_small by lia. destruct (Z.ltb_spec 2147483647 (b - a)), (Z.ltb_spec 0 d);
      Z.to_euclidean_division_equations; lia.
Qed.

(** * NTP time *)

Definition ntp_wf (t : NtpTime) : Prop :=
  0 <= seconds t < 4294967296 /\ 0 <= fractional t < 4294967296.

(** A time in units of 2^-32 seconds. *)
Definition ntp_units (t : NtpTime) : Z := seconds t * 4294967296 + fractional t.

(** Milliseconds in these units, as the class approximates them. *)
Definition ms_units (m : Z) : Z := m / 1000 * 4294967296 + m mod 1000 * 4294967.

Lemma ntp_add_units t m :
  ntp_wf t -> 0 <= m < 4294967296 ->
  ntp_wf (ntp_add t m) /\
  ntp_units (ntp_add t m) = (ntp_units t + ms_units m) mod 18446744073709551616.
Proof.
  intros [Hs Hf] Hm. unfold ntp_units, ms_units, ntp_wf, ntp_add. cbv zeta. cbn [seconds fractional].
  rewrite (wrap_small 32 (m mod 1000 * 4294967)) by (Z.to_euclidean_division_equations; lia).
  set (q := m / 1000). set (d := m mod 1000 * 4294967).
  assert (0 <= q < 4294968) by (subst q; Z.to_euclidean_division_equations; lia).
  assert (0 <= d < 4294967296) by (subst d; Z.to_euclidean_division_equations; lia).
  destruct (Z.ltb_spec (u32 (fractional t + d)) (fractional t)),
    (Z.ltb_spec (u32 (fractional t + d)) d); cbn [andb]; unfold wrap in *;
    (split; [split; Z.to_euclidean_division_equations; lia|]);
    Z.to_euclidean_division_equations; lia.
Qed.

(** The difference of ordered times: whole milliseconds, modulo 2^32. *)
Lemma ntp_diff_units t u :
  ntp_wf t -> ntp_wf u -> ntp_units u < ntp_units t ->
  let d := ntp_units t - ntp_units u in
  ntp_diff t u = (d / 4294967296 * 1000 + d mod 4294967296 / 4294967) mod 4294967296.
Proof.
  intros [Ht Hft] [Hu Hfu] Hlt d. unfold ntp_units in *. unfold ntp_diff, ntp_eq, ntp_gt.
  assert (Hs64 : forall z, s64 (u32 z) = z mod 4294967296).
  { intros z. rewrite swrap_small; [reflexivity | lia |]. pose proof (wrap32_range z). lia. }
  destruct (Z.eqb_spec (seconds t) (seconds u)) as [E|N].
  - destruct (Z.eqb_spec (fractional t) (fractional u)); [lia|].
    destruct (Z.ltb_spec (fractional u) (fractional t)); [|lia].
    rewrite Hs64, E, Z.sub_diag. replace d with (fractional t - fractional u) by (subst d; lia).
    unfold wrap. f_equal. Z.to_euclidean_division_equations; lia.
  - destruct (Z.ltb_spec (seconds u) (seconds t)); [|lia].
    destruct (Z.ltb_spec (fractional u) (fractional t)); [|destruct (Z.ltb_spec (fractional t) (fractional u))];
      rewrite Hs64.
    + replace (d / 4294967296) with (seconds t - seconds u) by (subst d; Z.to_euclidean_division_equations; lia).
      replace (d mod 4294967296) with (fractional t - fractional u) by (subst d; Z.to_euclidean_division_equations; lia).
      rewrite (wrap_small 32 (seconds t - seconds u)), (wrap_small 32 (fractional t - fractional u)) by lia.
      unfold wrap. now rewrite Zplus_mod_idemp_l.
    + replace (d / 4294967296) with (seconds t - seconds u - 1) by (subst d; Z.to_euclidean_division_equations; lia).
      replace (d mod 4294967296) with (fractional t - fractional u + 4294967296) by (subst d; Z.to_euclidean_division_equations; lia).
      rewrite (wrap_small 32 (seconds t - seconds u)), (wrap_small 32 (seconds t - seconds u - 1)) by lia.
      replace (u32 (fractional t - fractional u)) with (fractional t - fractional u + 4294967296)
        by (unfold wrap; Z.to_euclidean_division_equations; lia).
      unfold wrap. now rewrite Zplus_mod_idemp_l.
    + replace (d / 4294967296) with (seconds t - seconds u) by (subst d; Z.to_euclidean_division_equations; lia).
      replace (d mod 4294967296) with 0 by (subst d; Z.to_euclidean_division_equations; lia).
      rewrite (wrap_small 32 (seconds t - seconds u)) by lia.
      unfold wrap. now rewrite Zplus_mod_idemp_l.
Qed.

(** Adding milliseconds to a time and taking the difference with the time
    gives the milliseconds back, whatever carry the addition produces, unless
    the seconds overflow. *)
Theorem ntp_add_diff t m :
  ntp_wf t -> 0 <= m < 4294967296 -> ntp_units t + ms_units m < 18446744073709551616 ->
  ntp_diff (ntp_add t m) t = m.
Proof.
  intros Ht Hm Hov. destruct (ntp_add_units t m Ht Hm) as [Hwf E].
  assert (0 <= ntp_units t) by (unfold ntp_units; destruct Ht; lia).
  assert (0 <= ms_units m) by (unfold ms_units; Z.to_euclidean_division_equations; lia).
  rewrite Z.mod_small in E by lia.
  destruct (Z.eq_dec m 0) as [->|].
  - replace (ntp_add t 0) with t; [unfold ntp_diff, ntp_eq; now rewrite !Z.eqb_refl|].
    destruct t as [s f]. destruct Ht as [Hs Hf]. cbn in Hs, Hf. unfold ntp_add. cbn [seconds fractional].
    change (u32 (0 mod 1000 * 4294967)) with 0. change (0 / 1000) with 0.
    rewrite !Z.add_0_r, (wrap_small 32 f), (wrap_small 32 s) by lia. now rewrite Z.ltb_irrefl.
  - assert (0 < ms_units m) by (unfold ms_units; Z.to_euclidean_division_equations; lia).
    rewrite ntp_diff_units by (try assumption; lia). cbv zeta. rewrite E.
    replace (ntp_units t + ms_units m - ntp_units t) with (ms_units m) by lia. unfold ms_units.
    assert (0 <= m mod 1000 < 1000) by (apply Z.mod_pos_bound; lia).
    rewrite Z.div_add_l by lia. rewrite (Z.div_small (_ * 4294967)) by lia.
    rewrite (Z.add_comm _ (m mod 1000 * 4294967)), Z.mod_add by lia.
    rewrite (Z.mod_small (_ * 4294967)), Z.div_mul, Z.add_0_r by lia.
    rewrite Z.mod_small; Z.to_euclidean_division_equations; lia.
Qed.

Lemma ntp_add_diff_witness :
  ntp_diff (ntp_add (mkNtpTime 1000 4294967000) 1999) (mkNtpTime 1000 4294967000) = 1999.
Proof. apply ntp_add_diff; vm_compute; intuition congruence. Defined.

(** Subtracting milliseconds is exact when the whole seconds suffice; for
    a longer time the seconds are clamped to zero, but the fraction is reduced
    by the fraction of the operand alone, so the result can be later than
    time zero although the true difference is negative. *)
Theorem ntp_sub_ms_clamps t m :
  ntp_wf t -> 0 <= m < 4294967296 ->
  (m / 1000 < seconds t -> ntp_units (ntp_sub_ms t m) = ntp_units t - ms_units m) /\
  (seconds t <= m / 1000 ->
   ntp_units (ntp_sub_ms t m) = Z.max 0 (fractional t - m mod 1000 * 4294967)).
Proof.
  intros [Hs Hf] Hm. unfold ntp_units, ms_units, ntp_sub_ms. cbv zeta.
  rewrite (wrap_small 32 (m mod 1000 * 4294967)) by (Z.to_euclidean_division_equations; lia).
  set (q := m / 1000). set (d := m mod 1000 * 4294967).
  assert (0 <= q < 4294968) by (subst q; Z.to_euclidean_division_equations; lia).
  assert (0 <= d < 4294967296) by (subst d; Z.to_euclidean_division_equations; lia).
  destruct (Z.ltb_spec q (seconds t)); (split; intros; [try lia | try lia]).
  - cbn [seconds fractional]. rewrite (wrap_small 32 (seconds t - q)) by lia.
    destruct (Z.ltb_spec (fractional t) d).
    + rewrite (wrap_small 32 (seconds t - q - 1)) by lia. unfold wrap.
      Z.to_euclidean_division_equations; lia.
    + rewrite (wrap_small 32 (fractional t - d)) by lia. lia.
  - cbn [seconds fractional]. destruct (Z.leb_spec (fractional t) d); [lia|].
    rewrite wrap_small by lia. lia.
Qed.

Lemma ntp_sub_ms_clamps_witness :
  ntp_units (ntp_sub_ms (mkNtpTime 5 2147483648) 7000) = 2147483648.
Proof.
  assert (ntp_wf (mkNtpTime 5 2147483648) /\ 0 <= 7000 < 4294967296) as [H1 H2]
    by (vm_compute; intuition congruence).
  exact (proj2 (ntp_sub_ms_clamps _ _ H1 H2) ltac:(vm_compute; intuition congruence)).
Defined.

(** The difference to a later time is never negative: it is computed in
    unsigned 32-bit arithmetic, so a time that is one to 2^32-1 milliseconds
    earlier differs by 2^32 minus that. *)
Theorem ntp_diff_of_earlier t m :
  ntp_wf t -> 0 < m < 4294967296 -> ntp_units t + ms_units m < 18446744073709551616 ->
  ntp_diff t (ntp_add t m) = 4294967296 - m.
Proof.
  intros Ht Hm Hov. destruct (ntp_add_units t m Ht) as [Hwf E]; [lia|].
  assert (0 <= ntp_units t) by (unfold ntp_units; destruct Ht; lia).
  assert (0 < ms_units m) by (unfold ms_units; Z.to_euclidean_division_equations; lia).
  rewrite Z.mod_small in E by lia.
  destruct Ht as [Hs Hf], Hwf as [Hs' Hf']. set (u := ntp_add t m) in *.
  assert (Hs64 : forall z, s64 (u32 z) = z mod 4294967296).
  { intros z. rewrite swrap_small; [reflexivity | lia |]. pose proof (wrap32_range z). lia. }
  assert (0 <= m mod 1000 < 1000) by (apply Z.mod_pos_bound; lia).
  assert (Hd : (seconds u - seconds t = m / 1000 /\ fractional u - fractional t = m mod 1000 * 4294967) \/
    (seconds u - seconds t = m / 1000 + 1 /\ fractional u - fractional t = m mod 1000 * 4294967 - 4294967296)).
  { unfold ntp_units, ms_units in E. lia. }
  assert (Hfrac : forall z, z = m mod 1000 * 4294967 -> z / 4294967 = m mod 1000)
    by (intros z ->; apply Z.div_mul; lia).
  assert (Hq : m = 1000 * (m / 1000) + m mod 1000) by (apply Z.div_mod; lia).
  assert (ntp_eq t u = false /\ ntp_gt t u = false) as [Heq Hgt].
  { unfold ntp_eq, ntp_gt, ntp_units, ms_units in *.
    destruct (Z.eqb_spec (seconds t) (seconds u)); split;
      first [apply Z.eqb_neq | apply Z.ltb_ge | idtac]; lia. }
  unfold ntp_diff. rewrite Heq, Hgt.
  destruct Hd as [[D1 D2]|[D1 D2]]; rewrite D1.
  - destruct (Z.leb_spec (fractional t) (fractional u)); [|lia].
    rewrite Hs64, (Hfrac (u32 (fractional u - fractional t))) by (rewrite wrap_small by lia; exact D2).
    unfold wrap. Z.to_euclidean_division_equations; lia.
  - destruct (Z.leb_spec (fractional t) (fractional u)); [lia|].
    destruct (Z.ltb_spec (fractional u) (fractional t)); [|lia].
    rewrite Hs64, (Hfrac (u32 (fractional u - fractional t))) by
      (unfold wrap; rewrite D2; Z.to_euclidean_division_equations; lia).
    unfold wrap. Z.to_euclidean_division_equations; lia.
Qed.

Lemma ntp_diff_of_earlier_witness :
  ntp_diff (mkNtpTime 1000 5) (ntp_add (mkNtpTime 1000 5) 20) = 4294967276.
Proof. apply (ntp_diff_of_earlier (mkNtpTime 1000 5) 20); vm_compute; intuition congruence. Defined.

End RtpTime.
