(* ===== verification/RtpPacket.v ===== *)
(** RTP packets: the class [RtpPacket] of rtp/RtpPacket.hxx and
    rtp/RtpPacket.cxx over the bytes of its buffer, with the header structure
    of rtp/rtpTypes.h in its little-endian layout, and [rtp_ntohl] of
    rtp/rtpCodec.cxx. *)
From S2P Require Import Prelude.

Module RtpPacket.

Definition RTP_VERSION : Z := 2.
Definition RTP_MTU : Z := 8129.
Definition sizeof_RtpHeader : Z := 16.
Definition sizeof_RtpSrc : Z := 4.

(** The payload types the stack treats specially. *)
Definition rtpPayloadPCMU : Z := 0.
Definition rtpPayloadL16_mono : Z := 11.
Definition rtpPayloadCN : Z := 19.
Definition rtpPayloadDTMF_RFC2833 : Z := 100.
Definition rtpPayloadCiscoRtp : Z := 121.
Definition rtpPayloadUndefined : Z := 128.

(** [is_silence_fill] is not set by the constructor. *)
Record RtpPacket := mkRtpPacket {
  packetData : bytes;
  packetAlloc : Z;
  unusedSize : Z;
  npadSize : Z;
  csrc_count : Z;
  sequenceSet : bool;
  timestampSet : bool;
  converted_to_nbo : bool;
  converted_to_hbo : bool;
  is_silence_fill : option bool
}.

Definition with_data (d : bytes) (p : RtpPacket) : RtpPacket :=
  mkRtpPacket d (packetAlloc p) (unusedSize p) (npadSize p) (csrc_count p) (sequenceSet p)
    (timestampSet p) (converted_to_nbo p) (converted_to_hbo p) (is_silence_fill p).
Definition with_unused (u : Z) (p : RtpPacket) : RtpPacket :=
  mkRtpPacket (packetData p) (packetAlloc p) u (npadSize p) (csrc_count p) (sequenceSet p)
    (timestampSet p) (converted_to_nbo p) (converted_to_hbo p) (is_silence_fill p).
Definition with_flags (seqSet timeSet nbo hbo : bool) (p : RtpPacket) : RtpPacket :=
  mkRtpPacket (packetData p) (packetAlloc p) (unusedSize p) (npadSize p) (csrc_count p) seqSet
    timeSet nbo hbo (is_silence_fill p).

(** * The bytes of the header

    The offsets are constants below [RTP_MTU], the size of the array. *)

Definition byteAt (d : bytes) (i : nat) : Z := nth i d 0.

(** The bit field of [w] bits at bit [k] of a byte, and a store to it. *)
Definition getBits (k w b : Z) : Z := b / 2 ^ k mod 2 ^ w.
Definition putBits (k w v b : Z) : Z :=
  b / 2 ^ (k + w) * 2 ^ (k + w) + v mod 2 ^ w * 2 ^ k + b mod 2 ^ k.

Definition putByte (i : nat) (f : Z -> Z) (p : RtpPacket) : RtpPacket :=
  with_data (<[i := f (byteAt (packetData p) i)]> (packetData p)) p.

(** A store of consecutive bytes. *)
Fixpoint store (i : nat) (bs : bytes) (d : bytes) : bytes :=
  match bs with [] => d | b :: bs' => store (S i) bs' (<[i := b]> d) end.

Definition getVersion (p : RtpPacket) : Z := getBits 6 2 (byteAt (packetData p) 0).
Definition setVersion (i : Z) (p : RtpPacket) : RtpPacket := putByte 0 (putBits 6 2 i) p.
Definition getPaddingFlag (p : RtpPacket) : Z := getBits 5 1 (byteAt (packetData p) 0).
Definition setPaddingFlag (i : Z) (p : RtpPacket) : RtpPacket := putByte 0 (putBits 5 1 i) p.
Definition getExtFlag (p : RtpPacket) : Z := getBits 4 1 (byteAt (packetData p) 0).
Definition setExtFlag (i : Z) (p : RtpPacket) : RtpPacket := putByte 0 (putBits 4 1 i) p.
Definition getCSRCcount (p : RtpPacket) : Z := getBits 0 4 (byteAt (packetData p) 0).
Definition setCSRCcount (i : Z) (p : RtpPacket) : RtpPacket := putByte 0 (putBits 0 4 i) p.
Definition getMarkerFlag (p : RtpPacket) : Z := getBits 7 1 (byteAt (packetData p) 1).
Definition setMarkerFlag (i : Z) (p : RtpPacket) : RtpPacket := putByte 1 (putBits 7 1 i) p.

Definition getPayloadType (p : RtpPacket) : Z := getBits 0 7 (byteAt (packetData p) 1).

(** [header->type = type], as [clear] and [setPayloadType] do it. *)
Definition storeType (t : Z) (p : RtpPacket) : RtpPacket := putByte 1 (putBits 0 7 t) p.

Definition setPayloadType (t : Z) (p : RtpPacket) : outcome RtpPacket :=
  _ ← cassert (0 <=? t);
  _ ← cassert (t <=? 127);
  mret (storeType t p).

(** [htons] of an [unsigned int] takes its low 16 bits. *)
Definition setSequence (nseq : Z) (p : RtpPacket) : RtpPacket :=
  let p := with_flags true (timestampSet p) (converted_to_nbo p) (converted_to_hbo p) p in
  with_data (store 2 (enc16 (u16 nseq)) (packetData p)) p.
Definition getSequence (p : RtpPacket) : Z :=
  be16 (byteAt (packetData p) 2) (byteAt (packetData p) 3).

Definition setRtpTime (time : Z) (p : RtpPacket) : RtpPacket :=
  let p := with_flags (sequenceSet p) true (converted_to_nbo p) (converted_to_hbo p) p in
  with_data (store 4 (enc32 (u32 time)) (packetData p)) p.
Definition getRtpTime (p : RtpPacket) : Z :=
  be32 (byteAt (packetData p) 4) (byteAt (packetData p) 5)
       (byteAt (packetData p) 6) (byteAt (packetData p) 7).

Definition setSSRC (src : Z) (p : RtpPacket) : RtpPacket :=
  with_data (store 8 (enc32 (u32 src)) (packetData p)) p.
Definition getSSRC (p : RtpPacket) : Z :=
  be32 (byteAt (packetData p) 8) (byteAt (packetData p) 9)
       (byteAt (packetData p) 10) (byteAt (packetData p) 11).

(** Contributing sources, numbered from 1. *)
Definition setCSRC (src i : Z) (p : RtpPacket) : outcome RtpPacket :=
  _ ← cassert (1 <=? i);
  _ ← cassert (i <=? getCSRCcount p);
  mret (with_data (store (Z.to_nat (12 + 4 * (i - 1))) (enc32 (u32 src)) (packetData p)) p).
Definition getCSRC (i : Z) (p : RtpPacket) : outcome Z :=
  _ ← cassert (1 <=? i);
  _ ← cassert (i <=? getCSRCcount p);
  let o := Z.to_nat (12 + 4 * (i - 1)) in
  mret (be32 (byteAt (packetData p) o) (byteAt (packetData p) (o + 1))
             (byteAt (packetData p) (o + 2)) (byteAt (packetData p) (o + 3))).

(** * Sizes *)

Definition getPadbyteSize (p : RtpPacket) : Z := 0.

(** Offset of the payload in [packetData]. *)
Definition getPayloadLoc (p : RtpPacket) : Z :=
  sizeof_RtpHeader - sizeof_RtpSrc + getCSRCcount p * sizeof_RtpSrc.

Definition getPayloadSize (p : RtpPacket) : Z :=
  packetAlloc p - sizeof_RtpHeader + sizeof_RtpSrc - getCSRCcount p * sizeof_RtpSrc
  - getPadbyteSize p.

Definition setPayloadUsage (size : Z) (p : RtpPacket) : outcome RtpPacket :=
  _ ← cassert (size <=? getPayloadSize p);
  mret (with_unused (getPayloadSize p - size) p).

Definition getPayloadUsage (p : RtpPacket) : Z := getPayloadSize p - unusedSize p.

Definition setTotalUsage (size : Z) (p : RtpPacket) : outcome RtpPacket :=
  _ ← cassert (size <=? packetAlloc p);
  mret (with_unused (packetAlloc p - size) p).

Definition getTotalUsage (p : RtpPacket) : Z := packetAlloc p - unusedSize p.

(** * Construction *)

Definition recalcPacketAlloc (newpayloadSize : Z) (p : RtpPacket) : RtpPacket :=
  mkRtpPacket (packetData p)
    (sizeof_RtpHeader - sizeof_RtpSrc + csrc_count p * sizeof_RtpSrc + newpayloadSize + npadSize p)
    (unusedSize p) (npadSize p) (csrc_count p) (sequenceSet p) (timestampSet p)
    (converted_to_nbo p) (converted_to_hbo p) (is_silence_fill p).

(** [memset(packetData, 0, packetAlloc)] *)
Definition zeroPrefix (n : Z) (d : bytes) : bytes := zeros (Z.to_nat n) ++ drop (Z.to_nat n) d.

(** [clear]; [rtpPayloadUndefined] is stored in the seven bits of the type. *)
Definition clear (p : RtpPacket) : outcome RtpPacket :=
  _ ← cassert (packetAlloc p <? RTP_MTU);
  let p := with_data (zeroPrefix (packetAlloc p) (packetData p)) p in
  p ← setPayloadUsage 0 p;
  let p := setVersion RTP_VERSION p in
  let p := setPaddingFlag (b2z (0 <? npadSize p)) p in
  let p := setExtFlag 0 p in
  let p := setCSRCcount (csrc_count p) p in
  let p := setMarkerFlag 0 p in
  let p := storeType rtpPayloadUndefined p in
  let p := with_data (store 2 [0; 0] (packetData p)) p in
  let p := with_data (store 4 [0; 0; 0; 0] (packetData p)) p in
  mret (with_flags false false false false p).

(** [RtpPacket(newpayloadSize, npadSize, csrc_count)]; [raw] is the memory the
    object is built in. *)
Definition newRtpPacket (raw : bytes) (newpayloadSize npad count : Z) : outcome RtpPacket :=
  _ ← cassert (0 <=? count);
  _ ← cassert (count <=? 15);
  _ ← cassert (0 <=? newpayloadSize);
  _ ← cassert (0 <=? npad);
  let p := mkRtpPacket raw 0 0 npad count false false false false None in
  let p := recalcPacketAlloc newpayloadSize p in
  p ← clear p;
  _ ← cassert (unusedSize p =? newpayloadSize);
  mret p.

(** [isValid]; payload type 13 is changed to PCMU on the way. *)
Definition isValid (p : RtpPacket) : outcome (bool * RtpPacket) :=
  if getTotalUsage p <=? 0 then mret (false, p)
  else if negb (getVersion p =? RTP_VERSION) then mret (false, p)
  else if getPayloadType p =? 13 then
    p ← setPayloadType rtpPayloadPCMU p; mret (true, p)
  else mret (true, p).

(** * Payload access *)

Definition payload (p : RtpPacket) : outcome bytes :=
  slice (packetData p) (getPayloadLoc p) (getPayloadUsage p).

Definition writePayload (b : bytes) (p : RtpPacket) : outcome RtpPacket :=
  d ← overwrite (packetData p) (getPayloadLoc p) b;
  mret (with_data d p).

(** [rtp_ntohl]: the bytes of 16-bit samples are swapped in pairs. *)
Fixpoint swapPairs (n : nat) (i : Z) (d : bytes) : outcome bytes :=
  match n with
  | O => mret d
  | S n' =>
      a ← rd d i; b ← rd d (i + 1);
      d ← wr d i b; d ← wr d (i + 1) a;
      swapPairs n' (i + 2) d
  end.

Definition rtp_ntohl (p : RtpPacket) : outcome RtpPacket :=
  p ← (if getPayloadType p =? rtpPayloadL16_mono then
         d ← swapPairs (Z.to_nat ((getPayloadUsage p + 1) / 2)) (getPayloadLoc p) (packetData p);
         mret (with_data d p)
       else mret p);
  mret (with_flags (sequenceSet p) (timestampSet p) (converted_to_nbo p) true p).

(** * Header fields *)

(** The fields of the fixed header. *)
Inductive field := FVersion | FPadding | FExt | FCount | FMarker | FType | FSequence | FTime | FSsrc.

#[export] Instance field_eq_dec : EqDecision field.
Proof. solve_decision. Defined.

Definition field_get (f : field) : RtpPacket -> Z :=
  match f with
  | FVersion => getVersion | FPadding => getPaddingFlag | FExt => getExtFlag
  | FCount => getCSRCcount | FMarker => getMarkerFlag | FType => getPayloadType
  | FSequence => getSequence | FTime => getRtpTime | FSsrc => getSSRC
  end.

Definition field_set (f : field) : Z -> RtpPacket -> RtpPacket :=
  match f with
  | FVersion => setVersion | FPadding => setPaddingFlag | FExt => setExtFlag
  | FCount => setCSRCcount | FMarker => setMarkerFlag | FType => storeType
  | FSequence => setSequence | FTime => setRtpTime | FSsrc => setSSRC
  end.

Definition field_width (f : field) : Z :=
  match f with
  | FVersion => 2 | FPadding => 1 | FExt => 1 | FCount => 4 | FMarker => 1 | FType => 7
  | FSequence => 16 | FTime => 32 | FSsrc => 32
  end.

Definition packet_ok (p : RtpPacket) : Prop :=
  zlen (packetData p) = RTP_MTU /\ bytes_ok (packetData p).

Lemma byteAt_insert d i j b :
  (i < length d)%nat -> byteAt (<[i := b]> d) j = if (j =? i)%nat then b else byteAt d j.
Proof.
  intros Hi. unfold byteAt. rewrite !nth_lookup. destruct (Nat.eqb_spec j i) as [->|].
  - now rewrite list_lookup_insert_eq.
  - now rewrite list_lookup_insert_ne by congruence.
Qed.

Lemma byteAt_ok d i : bytes_ok d -> byte_ok (byteAt d i).
Proof.
  intros H. unfold byteAt. rewrite nth_lookup. destruct (d !! i) as [b|] eqn:E; cbn.
  - eapply Forall_lookup_1; eauto.
  - split; lia.
Qed.

Lemma putBits_ok k w v b :
  0 <= k -> 0 <= w -> k + w <= 8 -> byte_ok b -> byte_ok (putBits k w v b).
Proof.
  intros Hk Hw Hkw [H0 H1]. unfold byte_ok, putBits.
  assert (2 ^ (k + w) = 2 ^ k * 2 ^ w) as E by (apply Z.pow_add_r; assumption).
  assert (256 = 2 ^ (k + w) * 2 ^ (8 - (k + w))) as E8
    by (rewrite <- Z.pow_add_r by lia; replace (k + w + (8 - (k + w))) with 8 by lia; reflexivity).
  pose proof (Z.pow_pos_nonneg 2 k). pose proof (Z.pow_pos_nonneg 2 w).
  pose proof (Z.mod_pos_bound v (2 ^ w)). pose proof (Z.mod_pos_bound b (2 ^ k)).
  assert (b / 2 ^ (k + w) < 2 ^ (8 - (k + w))) by (apply Z.div_lt_upper_bound; lia).
  pose proof (Z.div_pos b (2 ^ (k + w))). nia.
Qed.

Lemma getBits_ok k w b : 0 <= w -> 0 <= getBits k w b < 2 ^ w.
Proof. intros Hw. apply Z.mod_pos_bound. apply Z.pow_pos_nonneg; lia. Qed.

Lemma putByte_ok i k w v p :
  packet_ok p -> 0 <= k -> 0 <= w -> k + w <= 8 -> packet_ok (putByte i (putBits k w v) p).
Proof.
  intros [Hl Hb] Hk Hw Hkw. split; cbn; [now rewrite zlen_insert|].
  apply Forall_insert; [assumption|]. apply putBits_ok; try assumption. now apply byteAt_ok.
Qed.

Lemma store_ok bs : forall i d,
  zlen d = RTP_MTU -> bytes_ok d -> bytes_ok bs ->
  zlen (store i bs d) = RTP_MTU /\ bytes_ok (store i bs d).
Proof.
  induction bs as [|b bs IH]; intros i d Hl Hd Hb; cbn [store]; [auto|].
  apply Forall_cons_1 in Hb as [Hb1 Hb2]. apply IH; [now rewrite zlen_insert | | assumption].
  now apply Forall_insert.
Qed.

(** Every store to the header keeps the array a byte array of its size. *)
Lemma field_set_ok f v p : packet_ok p -> packet_ok (field_set f v p).
Proof.
  intros Hp. destruct f; cbn [field_set];
    try (apply putByte_ok; [assumption | lia | lia | lia]);
    destruct Hp; apply store_ok; auto with vocal.
Qed.

Lemma byteAt_store2 d i j a b :
  (S i < length d)%nat ->
  byteAt (store i [a; b] d) j =
  if (j =? S i)%nat then b else if (j =? i)%nat then a else byteAt d j.
Proof. intros H. cbn [store]. now rewrite !byteAt_insert by (rewrite ?length_insert; lia). Qed.

Lemma byteAt_store4 d i j a b c e :
  (S (S (S i)) < length d)%nat ->
  byteAt (store i [a; b; c; e] d) j =
  if (j =? S (S (S i)))%nat then e else if (j =? S (S i))%nat then c
  else if (j =? S i)%nat then b else if (j =? i)%nat then a else byteAt d j.
Proof. intros H. cbn [store]. now rewrite !byteAt_insert by (rewrite ?length_insert; lia). Qed.

Lemma getBits_putBits_byte0 k w k' w' v b :
  In (k, w) [(6, 2); (5, 1); (4, 1); (0, 4)] -> In (k', w') [(6, 2); (5, 1); (4, 1); (0, 4)] ->
  byte_ok b ->
  getBits k w (putBits k' w' v b) = if (k =? k') then v mod 2 ^ w else getBits k w b.
Proof.
  unfold byte_ok. intros H1 H2 Hb. unfold getBits, putBits. cbn [In] in H1, H2.
  repeat (destruct H1 as [[= <- <-]|H1]; [|]); [..|contradiction];
    repeat (destruct H2 as [[= <- <-]|H2]; [|]); try contradiction;
    cbn [Z.eqb Pos.eqb Z.add Pos.add Pos.succ Z.pow Z.pow_pos Pos.iter Z.mul Pos.mul];
    Z.to_euclidean_division_equations; lia.
Qed.

Lemma getBits_putBits_byte1 k w k' w' v b :
  In (k, w) [(7, 1); (0, 7)] -> In (k', w') [(7, 1); (0, 7)] -> byte_ok b ->
  getBits k w (putBits k' w' v b) = if (k =? k') then v mod 2 ^ w else getBits k w b.
Proof.
  unfold byte_ok. intros H1 H2 Hb. unfold getBits, putBits. cbn [In] in H1, H2.
  repeat (destruct H1 as [[= <- <-]|H1]; [|]); [..|contradiction];
    repeat (destruct H2 as [[= <- <-]|H2]; [|]); try contradiction;
    cbn [Z.eqb Pos.eqb Z.add Pos.add Pos.succ Z.pow Z.pow_pos Pos.iter Z.mul Pos.mul];
    Z.to_euclidean_division_equations; lia.
Qed.

Lemma packet_long p : packet_ok p -> (11 < length (packetData p))%nat.
Proof. intros [Hl _]. unfold zlen, RTP_MTU in Hl. lia. Qed.

Lemma be16_wrap v : be16 (u16 v / 256 mod 256) (u16 v mod 256) = v mod 2 ^ 16.
Proof. apply be16_enc16. apply (wrap_range 16). lia. Qed.

Lemma be32_wrap v :
  be32 (u32 v / 16777216 mod 256) (u32 v / 65536 mod 256) (u32 v / 256 mod 256) (u32 v mod 256) =
  v mod 2 ^ 32.
Proof. apply be32_enc32. apply (wrap_range 32). lia. Qed.

(** Reading a field after a store to a field. *)
Lemma field_get_set f g v p :
  packet_ok p ->
  field_get g (field_set f v p) =
  if decide (f = g) then v mod 2 ^ field_width f else field_get g p.
Proof.
  intros Hp. pose proof (packet_long p Hp) as Hn. destruct Hp as [_ Hb].
  pose proof (byteAt_ok (packetData p) 0 Hb). pose proof (byteAt_ok (packetData p) 1 Hb).
  destruct f, g; cbn [field_get field_set field_width];
    unfold getVersion, setVersion, getPaddingFlag, setPaddingFlag, getExtFlag, setExtFlag, getCSRCcount,
      setCSRCcount, getMarkerFlag, setMarkerFlag, getPayloadType, storeType, getSequence, setSequence,
      getRtpTime, setRtpTime, getSSRC, setSSRC, putByte, enc16, enc32;
    cbn [packetData with_data with_flags];
    rewrite ?byteAt_insert, ?byteAt_store2, ?byteAt_store4 by lia; cbn [Nat.eqb];
    first [ reflexivity | apply be16_wrap | apply be32_wrap
      | rewrite getBits_putBits_byte0 by (cbn [In]; tauto); reflexivity
      | rewrite getBits_putBits_byte1 by (cbn [In]; tauto); reflexivity ].
Qed.

(** The accessors of the RTP header agree: after any store to a field of
    the fixed header, reading that field gives the value stored, cut to the
    width of the field, and every other field reads as before; the buffer
    remains an array of bytes of its size. *)
Theorem header_get_set f g v p :
  packet_ok p ->
  packet_ok (field_set f v p) /\
  field_get f (field_set f v p) = v mod 2 ^ field_width f /\
  (f <> g -> field_get g (field_set f v p) = field_get g p).
Proof.
  intros Hp. split; [now apply field_set_ok|]. split.
  - rewrite field_get_set by assumption. now rewrite decide_True.
  - intros Hne. rewrite field_get_set by assumption. now rewrite decide_False.
Qed.

Definition blank_packet : RtpPacket :=
  mkRtpPacket (zeros (Z.to_nat RTP_MTU)) 172 0 0 0 false false false false None.

Lemma blank_packet_ok : packet_ok blank_packet.
Proof.
  split; [cbn [packetData blank_packet]; rewrite zlen_zeros; reflexivity|].
  apply Forall_replicate. split; lia.
Qed.

Lemma header_get_set_witness :
  field_get FSequence (field_set FSequence 70000 blank_packet) = 70000 mod 2 ^ 16 /\
  field_get FMarker (field_set FSequence 70000 blank_packet) = field_get FMarker blank_packet.
Proof.
  destruct (header_get_set FSequence FMarker 70000 blank_packet blank_packet_ok) as (_ & H1 & H2).
  split; [exact H1 | apply H2; discriminate].
Defined.

(** The bytes of the fixed header are those of RFC 3550: version, padding,
    extension and CSRC count in the first, marker and payload type in the
    second, then sequence number, timestamp and source, most significant byte
    first. *)
Theorem header_wire_layout p :
  packet_ok p ->
  byteAt (packetData p) 0 = getVersion p * 64 + getPaddingFlag p * 32 + getExtFlag p * 16 + getCSRCcount p /\
  byteAt (packetData p) 1 = getMarkerFlag p * 128 + getPayloadType p /\
  slice (packetData p) 2 2 = Ret (enc16 (getSequence p)) /\
  slice (packetData p) 4 4 = Ret (enc32 (getRtpTime p)) /\
  slice (packetData p) 8 4 = Ret (enc32 (getSSRC p)).
Proof.
  intros Hp. pose proof (packet_long p Hp) as Hn. destruct Hp as [_ Hb].
  assert (forall i, byte_ok (byteAt (packetData p) i)) as Hok by (intros; now apply byteAt_ok).
  unfold getVersion, getPaddingFlag, getExtFlag, getCSRCcount, getMarkerFlag, getPayloadType,
    getSequence, getRtpTime, getSSRC.
  destruct (packetData p) as [|b0 [|b1 [|b2 [|b3 [|b4 [|b5 [|b6 [|b7 [|b8 [|b9 [|b10 [|b11 d]]]]]]]]]]]];
    cbn [length] in Hn; try lia. unfold byteAt. cbn [nth].
  pose proof (Hok 0%nat). pose proof (Hok 1%nat). pose proof (Hok 2%nat). pose proof (Hok 3%nat).
  pose proof (Hok 4%nat). pose proof (Hok 5%nat). pose proof (Hok 6%nat). pose proof (Hok 7%nat).
  pose proof (Hok 8%nat). pose proof (Hok 9%nat). pose proof (Hok 10%nat). pose proof (Hok 11%nat).
  unfold byteAt in *. cbn [nth] in *. unfold byte_ok in *. clear Hok Hb.
  assert (forall o n, 0 <= o -> 0 <= n -> o + n <= 12 ->
    slice (b0 :: b1 :: b2 :: b3 :: b4 :: b5 :: b6 :: b7 :: b8 :: b9 :: b10 :: b11 :: d) o n =
    Ret (take (Z.to_nat n) (drop (Z.to_nat o) (b0 :: b1 :: b2 :: b3 :: b4 :: b5 :: b6 :: b7 :: b8 :: b9 :: b10 :: b11 :: d)))) as Hs.
  { intros o n Ho Hn' Hon. unfold slice. destruct (Z.leb_spec 0 o), (Z.leb_spec 0 n); try lia.
    match goal with |- context [o + n <=? ?z] => destruct (Z.leb_spec (o + n) z); [reflexivity|] end.
    zlen_lia. }
  rewrite !Hs by lia. change (Z.to_nat 2) with 2%nat. change (Z.to_nat 4) with 4%nat.
  change (Z.to_nat 8) with 8%nat. cbn [drop take].
  unfold getBits, enc16, enc32, be16, be32.
  cbn [Z.eqb Pos.eqb Z.add Pos.add Pos.succ Z.pow Z.pow_pos Pos.iter Z.mul Pos.mul].
  repeat split; repeat f_equal; Z.to_euclidean_division_equations; lia.
Qed.

Lemma header_wire_layout_witness :
  slice (packetData blank_packet) 2 2 = Ret (enc16 (getSequence blank_packet)).
Proof. apply (header_wire_layout blank_packet blank_packet_ok). Defined.

(** * What the constructor builds *)

Lemma field_get_data g p q : packetData p = packetData q -> field_get g p = field_get g q.
Proof.
  intros E. destruct g; cbn [field_get];
    unfold getVersion, getPaddingFlag, getExtFlag, getCSRCcount, getMarkerFlag, getPayloadType,
      getSequence, getRtpTime, getSSRC; now rewrite E.
Qed.

(** The header stores of [clear], as field stores. *)
Definition clear_fields (p : RtpPacket) : RtpPacket :=
  field_set FTime 0 (field_set FSequence 0 (field_set FType rtpPayloadUndefined (field_set FMarker 0
    (field_set FCount (csrc_count p) (field_set FExt 0 (field_set FPadding (b2z (0 <? npadSize p))
      (field_set FVersion RTP_VERSION
        (with_data (zeroPrefix (packetAlloc p) (packetData p)) p)))))))).

Lemma zeroPrefix_ok n d :
  0 <= n <= zlen d -> zlen d = RTP_MTU -> bytes_ok d ->
  zlen (zeroPrefix n d) = RTP_MTU /\ bytes_ok (zeroPrefix n d).
Proof.
  intros Hn Hl Hd. unfold zeroPrefix. split.
  - rewrite zlen_app, zlen_zeros. unfold zlen in *. rewrite length_drop. lia.
  - apply Forall_app. split; [apply Forall_replicate; split; lia | now apply Forall_drop].
Qed.

Lemma clear_returns p :
  packet_ok p -> 12 <= packetAlloc p < RTP_MTU ->
  exists q, clear p = Ret q /\ packetData q = packetData (clear_fields p) /\
    unusedSize q = packetAlloc p - 12 /\ packetAlloc q = packetAlloc p /\
    csrc_count q = csrc_count p /\ npadSize q = npadSize p /\ is_silence_fill q = is_silence_fill p.
Proof.
  intros [Hl Hd] Ha. unfold clear. destruct (Z.ltb_spec (packetAlloc p) RTP_MTU); [|lia].
  cbn [cassert mbind outcome_bind]. unfold setPayloadUsage, getPayloadSize, getCSRCcount, getPadbyteSize.
  cbn [packetData packetAlloc with_data].
  assert (byteAt (zeroPrefix (packetAlloc p) (packetData p)) 0 = 0) as ->.
  { unfold byteAt, zeroPrefix, zeros. rewrite app_nth1 by (rewrite length_replicate; lia).
    now rewrite nth_lookup, lookup_replicate_2 by lia. }
  change (getBits 0 4 0) with 0. unfold sizeof_RtpHeader, sizeof_RtpSrc.
  destruct (Z.leb_spec 0 (packetAlloc p - 16 + 4 - 0 * 4 - 0)); [|lia].
  cbn [cassert mbind outcome_bind]. eexists. split; [reflexivity|].
  split; [reflexivity|]. cbn. repeat split. lia.
Qed.

(** The constructor of a packet returns exactly for packets without pad
    bytes and contributing sources that fit the buffer: it compares the unused
    size with the payload size after clearing the CSRC count, so a packet
    with contributing sources or padding always fails its assertion.  A new
    packet has version 2 and payload type 0, because the undefined payload
    type 128 is stored in seven bits. *)
Theorem newRtpPacket_returns raw size npad count :
  zlen raw = RTP_MTU -> bytes_ok raw -> 0 <= count <= 15 -> 0 <= npad -> 0 <= size ->
  (returns (newRtpPacket raw size npad count) <-> count = 0 /\ npad = 0 /\ size < 8117) /\
  (forall p, newRtpPacket raw size npad count = Ret p ->
     packet_ok p /\ getVersion p = 2 /\ getPayloadType p = 0 /\ getCSRCcount p = 0 /\
     getPayloadSize p = size /\ getPayloadUsage p = 0).
Proof.
  intros Hl Hd Hc Hp Hs. unfold newRtpPacket.
  destruct (Z.leb_spec 0 count), (Z.leb_spec count 15), (Z.leb_spec 0 size), (Z.leb_spec 0 npad);
    try lia. cbn [cassert mbind outcome_bind].
  set (p0 := recalcPacketAlloc size _).
  assert (packetAlloc p0 = 12 + count * 4 + size + npad) as Ha
    by (subst p0; cbn; unfold sizeof_RtpHeader, sizeof_RtpSrc; lia).
  destruct (Z.lt_ge_cases (packetAlloc p0) RTP_MTU) as [Hlt|Hge].
  - destruct (clear_returns p0) as (q & -> & Hq & Hu & Haq & Hcq & Hnq & _); [split; assumption | lia |].
    cbn [mbind outcome_bind]. rewrite Hu, Ha. unfold RTP_MTU in Hlt.
    assert (packet_ok (with_data (zeroPrefix (packetAlloc p0) (packetData p0)) p0)) as Hz
      by (apply zeroPrefix_ok; try assumption; unfold RTP_MTU in *; cbn [packetData p0 recalcPacketAlloc] in *; lia).
    assert (packet_ok (clear_fields p0)) as Hok
      by (unfold clear_fields; repeat apply field_set_ok; exact Hz).
    assert (forall g, field_get g q = field_get g (clear_fields p0)) as Hg
      by (intros; now apply field_get_data).
    destruct (Z.eqb_spec (12 + count * 4 + size + npad - 12) size); cbn [cassert mbind outcome_bind].
    + split; [split; [intros _; lia | intros _; eexists; reflexivity]|].
      intros p [= <-]. assert (count = 0) as E0 by lia.
      assert (field_get FVersion q = 2 /\ field_get FType q = 0 /\ field_get FCount q = 0)
        as (G1 & G2 & G3).
      { rewrite !Hg. unfold clear_fields.
        repeat (rewrite field_get_set by (repeat apply field_set_ok; exact Hz)).
        cbn [decide decide_rel field_eq_dec field_width csrc_count p0 recalcPacketAlloc].
        rewrite E0. repeat split. }
      cbn [field_get] in G1, G2, G3. unfold packet_ok. rewrite Hq.
      unfold getPayloadUsage, getPayloadSize, getPadbyteSize, sizeof_RtpHeader, sizeof_RtpSrc.
      rewrite G3, Hu, Haq. repeat split; try assumption; try apply Hok; lia.
    + split; [split; [intros [? [=]] | lia] | discriminate].
  - assert (clear p0 = Fault AssertFailed) as ->
      by (unfold clear; destruct (Z.ltb_spec (packetAlloc p0) RTP_MTU); [lia | reflexivity]).
    cbn [mbind outcome_bind]. unfold RTP_MTU in Hge.
    split; [split; [intros [? [=]] | lia] | discriminate].
Qed.

Lemma newRtpPacket_returns_witness :
  returns (newRtpPacket (packetData blank_packet) 160 0 0) /\
  ~ returns (newRtpPacket (packetData blank_packet) 160 0 2).
Proof.
  destruct blank_packet_ok as [Hl Hd]. split.
  - apply (newRtpPacket_returns _ 160 0 0 Hl Hd); lia.
  - intros H. apply (newRtpPacket_returns _ 160 0 2 Hl Hd) in H; lia.
Defined.

End RtpPacket.
