(* ===== verification/RtpReceiver.v ===== *)
(** The RTP receiver of rtp/RtpReceiver.hxx and rtp/RtpReceiver.cxx: its jitter
    buffer, the tracking of the source, and the arrival of packets.

    The 1024 pointers of the jitter buffer are a list of optional slots; of a
    slot's array only the [len] bytes that are set are kept.  The socket, the
    clock and the DTMF callback are arguments; calls into the RTCP receiver
    and to the DTMF callback are collected in the state. *)
From S2P Require Import Prelude RtpTime RtpPacket.
Import RtpTime RtpPacket.

Module RtpReceiver.

(** * The jitter buffer *)

Definition MAX_RTP_DATA : Z := 2048.
Definition JITTER_BUFFER_MAX : Z := 1024.

Record RtpData := mkRtpData {
  data : bytes;
  silence : bool;
  inUse : bool;
  rtp_seq_no : Z;
  rtp_time : Z
}.

Definition newRtpData : RtpData := mkRtpData [] false false 0 0.

Definition setIsInUse (b : bool) (d : RtpData) : RtpData :=
  mkRtpData (data d) (silence d) b (rtp_seq_no d) (rtp_time d).

Definition setData (incoming : bytes) (d : RtpData) : outcome RtpData :=
  _ ← cassert (zlen incoming <=? MAX_RTP_DATA);
  mret (mkRtpData incoming (silence d) (inUse d) (rtp_seq_no d) (rtp_time d)).

Record JitterBuffer := mkJB {
  inPos : Z;
  playPos : Z;
  cur_max_jbs : Z;
  jitterBuffer : list (option RtpData)
}.

Definition with_inPos (i : Z) (b : JitterBuffer) : JitterBuffer :=
  mkJB i (playPos b) (cur_max_jbs b) (jitterBuffer b).
Definition with_playPos (i : Z) (b : JitterBuffer) : JitterBuffer :=
  mkJB (inPos b) i (cur_max_jbs b) (jitterBuffer b).
Definition with_slots (l : list (option RtpData)) (b : JitterBuffer) : JitterBuffer :=
  mkJB (inPos b) (playPos b) (cur_max_jbs b) l.

(** [jitterBuffer[i] && jitterBuffer[i]->isInUse()] *)
Definition used (s : option RtpData) : bool :=
  match s with Some d => inUse d | None => false end.

Definition incrementInPos (b : JitterBuffer) : JitterBuffer :=
  let i := u32 (inPos b + 1) in
  with_inPos (if cur_max_jbs b <=? i then 0 else i) b.

Definition incrementPlayPos (b : JitterBuffer) : JitterBuffer :=
  let i := u32 (playPos b + 1) in
  with_playPos (if cur_max_jbs b <=? i then 0 else i) b.

Definition calculatePreviousInPos (b : JitterBuffer) (packets_ago : Z) : outcome Z :=
  if cur_max_jbs b =? 0 then Fault DivByZero
  else
    let tmp := packets_ago mod cur_max_jbs b in
    mret (if inPos b <? tmp then u32 (cur_max_jbs b - u32 (tmp - inPos b))
          else u32 (inPos b - tmp)).

Definition getJitterPktsInQueueCount (b : JitterBuffer) : outcome Z :=
  if inPos b =? playPos b then
    s ← rd (jitterBuffer b) (inPos b);
    mret (if used s then cur_max_jbs b else 0)
  else if inPos b <? playPos b then mret (u32 (u32 (cur_max_jbs b - playPos b) + inPos b))
  else mret (u32 (inPos b - playPos b)).

Definition getLastRtpData (b : JitterBuffer) : outcome (option RtpData) :=
  n ← getJitterPktsInQueueCount b;
  if 0 <? n then i ← calculatePreviousInPos b 1; rd (jitterBuffer b) i
  else mret None.

(** [new RtpData()] when the pointer is null. *)
Definition allocated (s : option RtpData) : RtpData :=
  match s with Some d => d | None => newRtpData end.

Definition setRtpData (pkt : RtpPacket) (idx : Z) (b : JitterBuffer) : outcome JitterBuffer :=
  s ← rd (jitterBuffer b) idx;
  let d := allocated s in
  b ← (if inUse d then
         n ← getJitterPktsInQueueCount b;
         mret (if ((n =? cur_max_jbs b) && (playPos b =? u32 idx))
                  && negb (rtp_seq_no d =? getSequence pkt)
               then incrementPlayPos b else b)
       else mret b);
  pay ← payload pkt;
  d ← setData pay d;
  slots ← wr (jitterBuffer b) idx
    (Some (mkRtpData (data d) false true (getSequence pkt) (getRtpTime pkt)));
  mret (with_slots slots b).

Definition appendRtpData (pkt : RtpPacket) (b : JitterBuffer) : outcome JitterBuffer :=
  b ← setRtpData pkt (inPos b) b;
  mret (incrementInPos b).

Definition insertSilenceRtpData (time seq : Z) (b : JitterBuffer) : outcome JitterBuffer :=
  s ← rd (jitterBuffer b) (inPos b);
  let d := allocated s in
  b ← (if inUse d then
         n ← getJitterPktsInQueueCount b;
         mret (if n =? cur_max_jbs b then incrementPlayPos b else b)
       else mret b);
  slots ← wr (jitterBuffer b) (inPos b) (Some (mkRtpData (data d) true true (u16 seq) (u32 time)));
  mret (incrementInPos (with_slots slots b)).

(** [clearJitterBuffer] *)
Definition clearJitterBuffer (b : JitterBuffer) : JitterBuffer :=
  mkJB 0 0 (cur_max_jbs b) (replicate (Z.to_nat JITTER_BUFFER_MAX) None).

(** [for (q = 0; q < n; q++) f(q)], from [i]. *)
Fixpoint forEach (n : nat) (i : Z) (f : Z -> outcome unit) : outcome unit :=
  match n with
  | O => mret tt
  | S n' => _ ← f i; forEach n' (i + 1) f
  end.

Definition assertUsed (b : JitterBuffer) (expected : bool) (i : Z) : outcome unit :=
  s ← rd (jitterBuffer b) i; cassert (Bool.eqb (used s) expected).

Definition verifyJbSanity (b : JitterBuffer) : outcome unit :=
  n ← getJitterPktsInQueueCount b;
  let cnt := s32 n in
  let max := cur_max_jbs b in
  _ ← (if 0 <? cnt then assertUsed b true (playPos b) else mret tt);
  if cnt =? s32 max then forEach (Z.to_nat cnt) 0 (assertUsed b true)
  else
    _ ← forEach (Z.to_nat cnt) 0 (fun q =>
          let i := s32 (u32 (inPos b - q - 1)) in
          assertUsed b true (if i <? 0 then i + max else i));
    forEach (Z.to_nat (u32 (max - cnt))) 0 (fun q =>
      let i := u32 (inPos b + q) in
      assertUsed b false (if max <=? i then u32 (i - max) else i)).

(** * The receiver *)

(** Calls into the RTCP receiver. *)
Inductive rtcpCall :=
| addTranInfo (src : Z)
| removeTranInfo (src : Z).

Record Source := mkSource {
  sourceSet : bool;
  ssrc : Z;
  probationSet : bool;
  srcProbation : Z;
  probation : Z;
  seedSeq : Z;
  seedNtpTime : NtpTime;
  seedRtpTime : Z;
  realPrevSeqRecv : Z;
  recv_cycles : Z;
  rtcpRecv : bool;                 (** an RTCP receiver is attached *)
  rtcpCalls : list rtcpCall
}.

Record Stats := mkStats {
  packetReceived : Z;
  payloadReceived : Z;
  lastTransit_ms : Z;
  jitter : Z;
  comfortNoiseDropped : Z;
  invalidPldSize : Z;
  readRealVoiceAlready : bool;
  receiverError : Z;
  events : list RtpPacket          (** packets given to the DTMF callback *)
}.

Record RtpReceiver := mkRtpReceiver {
  jb : JitterBuffer;
  source : Source;
  stats : Stats;
  tmpPkt : RtpPacket;
  format : Z;
  clockRate : Z;
  perSampleSize : Z;
  sampleSize : Z
}.

Definition with_jb (b : JitterBuffer) (r : RtpReceiver) : RtpReceiver :=
  mkRtpReceiver b (source r) (stats r) (tmpPkt r) (format r) (clockRate r) (perSampleSize r) (sampleSize r).
Definition with_source (s : Source) (r : RtpReceiver) : RtpReceiver :=
  mkRtpReceiver (jb r) s (stats r) (tmpPkt r) (format r) (clockRate r) (perSampleSize r) (sampleSize r).
Definition with_stats (s : Stats) (r : RtpReceiver) : RtpReceiver :=
  mkRtpReceiver (jb r) (source r) s (tmpPkt r) (format r) (clockRate r) (perSampleSize r) (sampleSize r).
Definition with_tmpPkt (p : RtpPacket) (r : RtpReceiver) : RtpReceiver :=
  mkRtpReceiver (jb r) (source r) (stats r) p (format r) (clockRate r) (perSampleSize r) (sampleSize r).

Definition with_seed (seq : Z) (ntp : NtpTime) (time : Z) (s : Source) : Source :=
  mkSource (sourceSet s) (ssrc s) (probationSet s) (srcProbation s) (probation s) seq ntp time
    (realPrevSeqRecv s) (recv_cycles s) (rtcpRecv s) (rtcpCalls s).
Definition with_probation (p : Z) (s : Source) : Source :=
  mkSource (sourceSet s) (ssrc s) (probationSet s) (srcProbation s) p (seedSeq s) (seedNtpTime s)
    (seedRtpTime s) (realPrevSeqRecv s) (recv_cycles s) (rtcpRecv s) (rtcpCalls s).
Definition with_prevSeq (p c : Z) (s : Source) : Source :=
  mkSource (sourceSet s) (ssrc s) (probationSet s) (srcProbation s) (probation s) (seedSeq s)
    (seedNtpTime s) (seedRtpTime s) p c (rtcpRecv s) (rtcpCalls s).

(** [constructRtpReceiver] on the memory [raw] of the object: the seeds, the
    transit time and the jitter keep what the memory holds. *)
Definition constructRtpReceiver (raw : RtpReceiver) (fmt clock per_sample_size samplesize jb_sz : Z)
  : outcome RtpReceiver :=
  _ ← cassert (samplesize <? 1472);
  mret (mkRtpReceiver
    (mkJB 0 0 (u32 jb_sz) (replicate (Z.to_nat JITTER_BUFFER_MAX) None))
    (mkSource false 0 false 0 (-2) (seedSeq (source raw)) (seedNtpTime (source raw))
       (seedRtpTime (source raw)) 0 0 false [])
    (mkStats (packetReceived (stats raw)) (payloadReceived (stats raw)) (lastTransit_ms (stats raw))
       (jitter (stats raw)) 0 0 false (receiverError (stats raw)) (events (stats raw)))
    (tmpPkt raw) fmt clock per_sample_size samplesize).

(** [rtp2ntp]: the offset is computed in 32 bits. *)
Definition rtp2ntp (r : RtpReceiver) (rtpTime : Z) : outcome NtpTime :=
  if u32 (clockRate r) =? 0 then Fault DivByZero
  else mret (ntp_add (seedNtpTime (source r))
         (u32 (u32 (rtpTime - seedRtpTime (source r)) * 1000) / u32 (clockRate r))).

Definition removeSource (s : Z) (flag : bool) (r : RtpReceiver) : RtpReceiver :=
  let o := source r in
  with_source (mkSource false 0 true s (-2) (seedSeq o) (seedNtpTime o) (seedRtpTime o)
    (realPrevSeqRecv o) (recv_cycles o) (rtcpRecv o)
    (if rtcpRecv o && negb flag then rtcpCalls o ++ [removeTranInfo s] else rtcpCalls o)) r.

(** [now] is the result of [getNtpTime]. *)
Definition initSource (pkt : RtpPacket) (now : NtpTime) (r : RtpReceiver) : outcome RtpReceiver :=
  _ ← cassert (ssrc (source r) =? getSSRC pkt);
  let r := with_source (with_seed (getSequence pkt) now (getRtpTime pkt) (source r)) r in
  let r := with_jb (clearJitterBuffer (jb r)) r in
  let s := stats r in
  mret (with_stats (mkStats (packetReceived s) (payloadReceived s) 0 0 (comfortNoiseDropped s)
    (invalidPldSize s) false (receiverError s) (events s)) r).

(** [addSource]: 1 when the packet is refused. *)
Definition addSource (pkt : RtpPacket) (now : NtpTime) (r : RtpReceiver) : outcome (Z * RtpReceiver) :=
  if sourceSet (source r) && (probation (source r) <? 4) then
    mret (1, with_source (with_probation (probation (source r) + 1) (source r)) r)
  else
    let r := if sourceSet (source r) then removeSource (ssrc (source r)) false r else r in
    let o := source r in
    if sourceSet o && (getSSRC pkt =? srcProbation o) && probationSet o then mret (1, r)
    else
      let r := with_source (mkSource true (getSSRC pkt) (probationSet o) (srcProbation o) 0
        (seedSeq o) (seedNtpTime o) (seedRtpTime o) 0 0 (rtcpRecv o)
        (if rtcpRecv o then rtcpCalls o ++ [addTranInfo (getSSRC pkt)] else rtcpCalls o)) r in
      let s := stats r in
      let r := with_stats (mkStats 0 0 (lastTransit_ms s) (jitter s) (comfortNoiseDropped s)
        (invalidPldSize s) (readRealVoiceAlready s) (receiverError s) (events s)) r in
      r ← initSource pkt now r;
      mret (0, r).

(** [updateSource]: 0 when the packet is to be used. *)
Definition updateSource (pkt : RtpPacket) (now : NtpTime) (r : RtpReceiver)
  : outcome (Z * RtpReceiver) :=
  let o := source r in
  if sourceSet o && (getSSRC pkt =? srcProbation o) && probationSet o then mret (1, r)
  else
    '(refused, r) ← (if negb (sourceSet o) || negb (getSSRC pkt =? ssrc o)
                     then addSource pkt now r else mret (0, r));
    if negb (refused =? 0) then mret (1, r)
    else
      let o := source r in
      let ts := u16 (getSequence pkt) in
      let cycles := if (ts <? realPrevSeqRecv o) && (ts + 10000 <? realPrevSeqRecv o)
                    then u32 (recv_cycles o + 1) else recv_cycles o in
      let r := with_source (with_prevSeq ts cycles o) r in
      _ ← cassert (0 <=? probation (source r));
      if (getPayloadType pkt =? rtpPayloadCN) || (getPayloadType pkt =? 13) then
        let s := stats r in
        mret (1, with_stats (mkStats (packetReceived s) (payloadReceived s) (lastTransit_ms s)
          (jitter s) (u32 (comfortNoiseDropped s + 1)) (invalidPldSize s) (readRealVoiceAlready s)
          (receiverError s) (events s)) r)
      else if negb (getPayloadType pkt =? format r) then
        r ← initSource pkt now r; mret (0, r)
      else mret (0, r).

(** What [UdpStack::receiveFrom] gives: nothing, an error or a datagram. *)
Inductive net :=
| NoData
| ReceiveError
| Datagram (d : bytes).

Definition EINVAL : Z := 22.

(** [getPacket(tmpPkt)]; [dtmf] tells whether a DTMF callback is set. *)
Definition getPacket (n : net) (dtmf : bool) (now : NtpTime) (r : RtpReceiver)
  : outcome (Z * RtpReceiver) :=
  let pkt := tmpPkt r in
  '(len, pkt) ← match n with
                | NoData => mret (0, pkt)
                | ReceiveError => mret (-1, pkt)
                | Datagram d =>
                    let got := take (Z.to_nat (packetAlloc pkt)) d in
                    b ← overwrite (packetData pkt) 0 got;
                    mret (zlen got, with_data b pkt)
                end;
  if len =? 0 then mret (0, with_tmpPkt pkt r)
  else
    pkt ← setTotalUsage len pkt;
    '(valid, pkt) ← isValid pkt;
    let r := with_tmpPkt pkt r in
    if negb valid then mret (- EINVAL, r)
    else if (getPayloadType pkt =? rtpPayloadDTMF_RFC2833) || (getPayloadType pkt =? rtpPayloadCiscoRtp)
    then
      if dtmf then
        let s := stats r in
        mret (0, with_stats (mkStats (packetReceived s) (payloadReceived s) (lastTransit_ms s)
          (jitter s) (comfortNoiseDropped s) (invalidPldSize s) (readRealVoiceAlready s)
          (receiverError s) (events s ++ [pkt])) r)
      else mret (len, r)
    else
      '(bad, r) ← updateSource pkt now r;
      if negb (bad =? 0) then mret (- EINVAL, r) else mret (len, r).

(** ** Storing a packet *)

(** [for (i = 0; i < p; i++)] of the priming of an empty buffer: silence for
    the [n] packets before [seq]. *)
Fixpoint primeLoop (n : nat) (time seq samples : Z) (b : JitterBuffer) : outcome JitterBuffer :=
  match n with
  | O => mret b
  | S n' =>
      b ← insertSilenceRtpData (u32 (time - samples * Z.of_nat n)) (u16 (seq - Z.of_nat n)) b;
      primeLoop n' time seq samples b
  end.

(** The [while] loop that patches missing packets with silence. *)
Fixpoint patchLoop (fuel : nat) (time seq samples prevSeq prevTime : Z) (b : JitterBuffer)
  : outcome JitterBuffer :=
  match fuel with
  | O => Fault OutOfFuel
  | S fuel' =>
      gap ← RtpTimeGreater (u32 (time - samples)) prevTime;
      if negb gap then mret b
      else
        tmp ← RtpSeqDifference seq prevSeq;
        if tmp <=? 1 then mret b
        else
          b ← insertSilenceRtpData (u32 (prevTime + samples)) (u16 (prevSeq + 1)) b;
          last ← getLastRtpData b;
          d ← deref last;
          patchLoop fuel' time seq samples (u16 (rtp_seq_no d)) (rtp_time d) b
  end.

(** The fuel of [patchLoop]: the difference of sequence numbers falls by one
    in every turn and is at most half a cycle. *)
Definition patchFuel : nat := Z.to_nat 32769.

(** The jitter-buffer part of [readNetwork]. *)
Definition storePacket (pkt : RtpPacket) (samples : Z) (b : JitterBuffer) : outcome JitterBuffer :=
  last ← getLastRtpData b;
  '(last, b) ← match last with
               | Some d =>
                   diff ← RtpSeqDifference (getSequence pkt) (rtp_seq_no d);
                   if s32 (cur_max_jbs b) <? diff then mret (None, clearJitterBuffer b)
                   else mret (Some d, b)
               | None => mret (None, b)
               end;
  match last with
  | None =>
      let p := s32 (u32 (cur_max_jbs b / 2 - 1)) in
      b ← (if 0 <? p
           then primeLoop (Z.to_nat p) (getRtpTime pkt) (getSequence pkt) samples b
           else mret b);
      appendRtpData pkt b
  | Some d =>
      let seq := getSequence pkt in
      let prevSeqRecv := u16 (rtp_seq_no d) in
      newer ← RtpSeqGreater seq prevSeqRecv;
      if newer : bool then
        b ← patchLoop patchFuel (getRtpTime pkt) seq samples prevSeqRecv (rtp_time d) b;
        appendRtpData pkt b
      else
        diff ← RtpSeqDifference (rtp_seq_no d) seq;
        let sd := diff + 1 in
        n ← getJitterPktsInQueueCount b;
        if s32 n <? sd then mret b
        else
          idx ← calculatePreviousInPos b sd;
          setRtpData pkt idx b
  end.

(** ** Jitter *)

(** The transit-time and jitter part of [readNetwork]: [now] is the arrival
    time, [again] the clock when the baseline is reset. *)
Definition updateJitter (pkt : RtpPacket) (now again : NtpTime) (r : RtpReceiver)
  : outcome RtpReceiver :=
  tmpntp ← rtp2ntp r (getRtpTime pkt);
  let transit := ntp_diff now tmpntp in
  let delay := s32 (u64 (transit - lastTransit_ms (stats r))) in
  let reset := (500000 <? delay) || (delay <? -500000) in
  let r := if reset
           then with_source (with_seed (seedSeq (source r)) again (getRtpTime pkt) (source r)) r
           else r in
  let transit := if reset then 0 else transit in
  let delay := if reset then 0 else delay in
  let s := stats r in
  let delay := if delay <? 0 then - delay else delay in
  mret (with_stats (mkStats (packetReceived s) (payloadReceived s) (u64 transit)
    (jitter s + (delay - Z.shiftr (jitter s + 8) 4)) (comfortNoiseDropped s) (invalidPldSize s)
    (readRealVoiceAlready s) (receiverError s) (events s)) r).

(** The clock at the three places that read it. *)
Record clocks := mkClocks { clkInit : NtpTime; clkNow : NtpTime; clkReset : NtpTime }.

Definition readNetwork (n : net) (dtmf : bool) (clk : clocks) (r : RtpReceiver)
  : outcome (Z * RtpReceiver) :=
  p ← clear (tmpPkt r);
  '(rv, r) ← getPacket n dtmf (clkInit clk) (with_tmpPkt p r);
  if rv <=? 0 then mret (rv, r)
  else if probation (source r) <? 0 then mret (-1, r)
  else
    pkt ← rtp_ntohl (tmpPkt r);
    let r := with_tmpPkt pkt r in
    let len := getPayloadUsage pkt in
    let s := stats r in
    if (len <=? 0) || (1012 <? len) then
      mret (-2, with_stats (mkStats (packetReceived s) (payloadReceived s) (lastTransit_ms s)
        (jitter s) (comfortNoiseDropped s) (invalidPldSize s + 1) (readRealVoiceAlready s)
        (receiverError s) (events s)) r)
    else
      b ← storePacket pkt (sampleSize r) (jb r);
      _ ← verifyJbSanity b;
      let r := with_jb b r in
      let r := with_stats (mkStats (packetReceived s + 1) (payloadReceived s + len)
        (lastTransit_ms s) (jitter s) (comfortNoiseDropped s) (invalidPldSize s)
        (readRealVoiceAlready s) (receiverError s) (events s)) r in
      r ← updateJitter pkt (clkNow clk) (clkReset clk) r;
      mret (0, r).

(** * Playing *)

(** The slot to play: a silence is skipped when the buffer is more than half
    full. *)
Definition dequeue (b : JitterBuffer) : outcome (RtpData * JitterBuffer) :=
  s ← rd (jitterBuffer b) (playPos b);
  d ← deref s;
  _ ← cassert (inUse d);
  n ← getJitterPktsInQueueCount b;
  '(d, b) ← (if silence d && ((2 <=? cur_max_jbs b) && (cur_max_jbs b / 2 + 1 <? n)) then
               slots ← wr (jitterBuffer b) (playPos b) (Some (setIsInUse false d));
               let b := incrementPlayPos (with_slots slots b) in
               s ← rd (jitterBuffer b) (playPos b);
               d ← deref s;
               mret (d, b)
             else mret (d, b));
  _ ← cassert (inUse d);
  slots ← wr (jitterBuffer b) (playPos b) (Some (setIsInUse false d));
  mret (d, incrementPlayPos (with_slots slots b)).

Definition setSampleSize (n : Z) (r : RtpReceiver) : RtpReceiver :=
  mkRtpReceiver (jb r) (source r) (stats r) (tmpPkt r) (format r) (clockRate r) (perSampleSize r) n.

(** The jitter is kept times sixteen. *)
Definition getJitter (r : RtpReceiver) : Z := Z.shiftr (jitter (stats r)) 4.

(** [retrieve]: the result, the packet filled in, and the receiver. *)
Definition retrieve (pkt : RtpPacket) (r : RtpReceiver) : outcome (Z * RtpPacket * RtpReceiver) :=
  n ← getJitterPktsInQueueCount (jb r);
  let s := stats r in
  let silent (b : bool) p := mkRtpPacket (packetData p) (packetAlloc p) (unusedSize p) (npadSize p)
    (csrc_count p) (sequenceSet p) (timestampSet p) (converted_to_nbo p) (converted_to_hbo p) (Some b) in
  if n =? 0 then
    mret (1, silent true pkt,
      with_stats (mkStats (packetReceived s) (payloadReceived s) (lastTransit_ms s) (jitter s)
        (comfortNoiseDropped s) (invalidPldSize s) (readRealVoiceAlready s) 20 (events s)) r)
  else
    pkt ← clear pkt;
    '(d, b) ← dequeue (jb r);
    let packetSize := zlen (data d) in
    pkt ← writePayload (data d) pkt;
    let pkt := silent (silence d) pkt in
    let pkt := setSSRC (ssrc (source r)) pkt in
    pkt ← setPayloadType (format r) pkt;
    pkt ← setPayloadUsage packetSize pkt;
    let pkt := setRtpTime (rtp_time d) pkt in
    let pkt := setSequence (rtp_seq_no d) pkt in
    let r := with_stats (mkStats (packetReceived s) (payloadReceived s) (lastTransit_ms s) (jitter s)
      (comfortNoiseDropped s) (invalidPldSize s) (if silence d then readRealVoiceAlready s else true)
      0 (events s)) r in
    let r := if 0 <? probation (source r)
             then with_source (with_probation (probation (source r) - 1) (source r)) r else r in
    let r := with_jb b r in
    _ ← verifyJbSanity b;
    mret (packetSize, pkt, r).

End RtpReceiver.
