(* ===== verification/RtpJitter.v ===== *)
(** The jitter buffer of [RtpReceiver] as a bounded queue: a buffer represents
    the packets between its play and insert positions, and its operations are
    those of a queue that drops the oldest packet when it is full. *)
From S2P Require Import Prelude RtpTime RtpPacket RtpReceiver.
Import RtpTime RtpPacket RtpReceiver.

Module RtpJitter.

(** * Circular positions *)

Lemma mod_wrap p i m :
  0 <= p < m -> 0 <= i <= m -> (p + i) mod m = if p + i <? m then p + i else p + i - m.
Proof.
  intros Hp Hi. destruct (Z.ltb_spec (p + i) m).
  - apply Z.mod_small. lia.
  - symmetry. apply (Z.mod_unique _ _ 1); lia.
Qed.

Lemma pos_inj p i j m :
  0 <= p < m -> 0 <= i < m -> 0 <= j < m -> (p + i) mod m = (p + j) mod m -> i = j.
Proof.
  intros Hp Hi Hj. rewrite !mod_wrap by lia.
  destruct (Z.ltb_spec (p + i) m), (Z.ltb_spec (p + j) m); lia.
Qed.

Lemma next_pos p m : 0 <= p < m -> m <= 1024 -> (if m <=? u32 (p + 1) then 0 else u32 (p + 1)) = (p + 1) mod m.
Proof.
  intros Hp Hm. rewrite wrap_small by lia. rewrite mod_wrap by lia.
  destruct (Z.leb_spec m (p + 1)), (Z.ltb_spec (p + 1) m); lia.
Qed.

(** * Representation *)

Definition slot (b : JitterBuffer) (i : Z) : option (option RtpData) :=
  jitterBuffer b !! Z.to_nat ((playPos b + i) mod cur_max_jbs b).

(** The buffer [b] holds the packets [q], oldest first. *)
Record repr (b : JitterBuffer) (q : list RtpData) : Prop := {
  repr_len : zlen (jitterBuffer b) = JITTER_BUFFER_MAX;
  repr_max : 1 <= cur_max_jbs b <= JITTER_BUFFER_MAX;
  repr_play : 0 <= playPos b < cur_max_jbs b;
  repr_in : inPos b = (playPos b + zlen q) mod cur_max_jbs b;
  repr_size : zlen q <= cur_max_jbs b;
  repr_used : forall i d, q !! i = Some d -> inUse d = true /\ slot b (Z.of_nat i) = Some (Some d);
  repr_free : forall i s, zlen q <= i < cur_max_jbs b -> slot b i = Some s -> used s = false
}.

(** A packet added to a queue of at most [max] packets. *)
Definition push (max : Z) (q : list RtpData) (d : RtpData) : list RtpData :=
  (if zlen q =? max then tail q else q) ++ [d].

Lemma repr_in_range b q : repr b q -> 0 <= inPos b < cur_max_jbs b.
Proof. intros H. rewrite (repr_in _ _ H). apply Z.mod_pos_bound. destruct (repr_max _ _ H). lia. Qed.

Lemma slot_exists b q i : repr b q -> 0 <= i -> exists s, slot b i = Some s.
Proof.
  intros H Hi. apply lookup_lt_is_Some_2. pose proof (repr_max _ _ H). pose proof (repr_len _ _ H).
  pose proof (Z.mod_pos_bound (playPos b + i) (cur_max_jbs b)). unfold JITTER_BUFFER_MAX, zlen in *. lia.
Qed.

Lemma rd_lookup {A} (l : list A) i x : 0 <= i -> l !! Z.to_nat i = Some x -> rd l i = Ret x.
Proof. intros Hi Hx. apply rd_Ret. auto. Qed.

(** Reading the slot [i] after the play position. *)
Lemma rd_slot b i s :
  1 <= cur_max_jbs b -> slot b i = Some s ->
  rd (jitterBuffer b) ((playPos b + i) mod cur_max_jbs b) = Ret s.
Proof.
  intros Hm Hs. apply rd_lookup; [|exact Hs]. apply Z.mod_pos_bound. lia.
Qed.

Lemma repr_queue_used b q i s :
  repr b q -> 0 <= i < zlen q -> slot b i = Some s -> used s = true.
Proof.
  intros H Hi Hs. destruct (lookup_lt_is_Some_2 q (Z.to_nat i)) as [d Hd]; [unfold zlen in Hi; lia|].
  destruct (repr_used _ _ H _ _ Hd) as [Hu Hs']. rewrite Z2Nat.id in Hs' by lia.
  rewrite Hs in Hs'. injection Hs' as ->. exact Hu.
Qed.

Lemma count_repr b q : repr b q -> getJitterPktsInQueueCount b = Ret (zlen q).
Proof.
  intros H. pose proof (repr_play _ _ H) as Hp. pose proof (repr_max _ _ H) as Hm.
  pose proof (repr_size _ _ H) as Hs. pose proof (zlen_nonneg q). unfold JITTER_BUFFER_MAX in Hm.
  unfold getJitterPktsInQueueCount. rewrite (repr_in _ _ H), mod_wrap by lia.
  destruct (slot_exists b q 0 H) as [s Hslot]; [lia|].
  pose proof (rd_slot b 0 s ltac:(lia) Hslot) as Hrd. rewrite Z.add_0_r, Z.mod_small in Hrd by lia.
  destruct (Z.ltb_spec (playPos b + zlen q) (cur_max_jbs b)).
  - destruct (Z.eqb_spec (playPos b + zlen q) (playPos b)).
    + assert (zlen q = 0) as Hz by lia. rewrite Hz, Z.add_0_r, Hrd. cbn.
      now rewrite (repr_free _ _ H 0 s ltac:(lia) Hslot).
    + destruct (Z.ltb_spec (playPos b + zlen q) (playPos b)); [lia|].
      rewrite wrap_small by lia. unfold mret, outcome_ret. f_equal. lia.
  - destruct (Z.eqb_spec (playPos b + zlen q - cur_max_jbs b) (playPos b)).
    + assert (zlen q = cur_max_jbs b) as Hz by lia.
      replace (playPos b + zlen q - cur_max_jbs b) with (playPos b) by lia. rewrite Hrd. cbn.
      rewrite (repr_queue_used b q 0 s H ltac:(lia) Hslot). now rewrite Hz.
    + destruct (Z.ltb_spec (playPos b + zlen q - cur_max_jbs b) (playPos b)); [|lia].
      rewrite !wrap_small by (rewrite ?wrap_small; lia). unfold mret, outcome_ret. f_equal. lia.
Qed.

Lemma calculatePreviousInPos_repr b q k :
  repr b q -> 1 <= k <= zlen q ->
  calculatePreviousInPos b k = Ret ((playPos b + (zlen q - k)) mod cur_max_jbs b).
Proof.
  intros H Hk. pose proof (repr_play _ _ H) as Hp. pose proof (repr_max _ _ H) as Hm.
  pose proof (repr_size _ _ H) as Hs. unfold JITTER_BUFFER_MAX in Hm.
  unfold calculatePreviousInPos. destruct (Z.eqb_spec (cur_max_jbs b) 0); [lia|].
  rewrite (repr_in _ _ H). rewrite !mod_wrap by lia. unfold mret, outcome_ret.
  assert (k mod cur_max_jbs b = if k =? cur_max_jbs b then 0 else k) as ->.
  { destruct (Z.eqb_spec k (cur_max_jbs b)) as [->|]; [apply Z.mod_same; lia | apply Z.mod_small; lia]. }
  f_equal.
  destruct (Z.eqb_spec k (cur_max_jbs b)), (Z.ltb_spec (playPos b + zlen q) (cur_max_jbs b)),
    (Z.ltb_spec (playPos b + (zlen q - k)) (cur_max_jbs b));
    match goal with |- context [if ?x <? ?y then _ else _] => destruct (Z.ltb_spec x y) end;
    rewrite ?wrap_small by (rewrite ?wrap_small; lia); lia.
Qed.

(** The newest packet. *)
Definition newest (q : list RtpData) : option RtpData := q !! (length q - 1)%nat.

Lemma getLastRtpData_repr b q : repr b q -> getLastRtpData b = Ret (newest q).
Proof.
  intros H. unfold getLastRtpData. rewrite (count_repr _ _ H). cbn [mbind outcome_bind].
  destruct (Z.ltb_spec 0 (zlen q)).
  - rewrite (calculatePreviousInPos_repr b q 1 H) by lia. cbn [mbind outcome_bind].
    unfold newest.
    destruct (lookup_lt_is_Some_2 q (length q - 1)) as [d Hd]; [unfold zlen in *; lia|].
    destruct (repr_used _ _ H _ _ Hd) as [_ Hs]. rewrite Hd.
    replace (zlen q - 1) with (Z.of_nat (length q - 1)) by (unfold zlen in *; lia).
    pose proof (repr_max _ _ H). apply rd_slot; [lia | exact Hs].
  - destruct q; [reflexivity|]. unfold zlen in *; cbn [length] in *; lia.
Qed.

Lemma repr_clear b : 1 <= cur_max_jbs b <= JITTER_BUFFER_MAX -> repr (clearJitterBuffer b) [].
Proof.
  intros Hm. unfold clearJitterBuffer. split; cbn [jitterBuffer cur_max_jbs playPos inPos]; try lia.
  - unfold zlen. rewrite length_replicate. unfold JITTER_BUFFER_MAX. lia.
  - change (0 = 0 mod cur_max_jbs b). symmetry. apply Z.mod_0_l. lia.
  - unfold zlen; cbn; lia.
  - discriminate.
  - intros i s Hi. unfold slot. cbn [jitterBuffer cur_max_jbs playPos]. intros Hs.
    apply lookup_replicate_1 in Hs as [-> _]. reflexivity.
Qed.

(** ** Storing at the insert position *)

Lemma lookup_insert_pos {A} (l : list A) i j x :
  0 <= i < zlen l -> 0 <= j ->
  <[Z.to_nat i := x]> l !! Z.to_nat j = if i =? j then Some x else l !! Z.to_nat j.
Proof.
  intros Hi Hj. destruct (Z.eqb_spec i j) as [->|].
  - apply list_lookup_insert_eq. unfold zlen in Hi. lia.
  - apply list_lookup_insert_ne. lia.
Qed.

Lemma repr_push_room b q d :
  repr b q -> zlen q < cur_max_jbs b -> inUse d = true ->
  repr (incrementInPos (with_slots (<[Z.to_nat (inPos b) := Some d]> (jitterBuffer b)) b)) (q ++ [d]).
Proof.
  intros H Hn Hd. pose proof (repr_play _ _ H) as Hp. pose proof (repr_max _ _ H) as Hm.
  pose proof (repr_in_range _ _ H) as Hin. pose proof (repr_len _ _ H) as Hl.
  pose proof (zlen_nonneg q). unfold JITTER_BUFFER_MAX in *.
  assert (Hslot : forall i, 0 <= i < cur_max_jbs b ->
    <[Z.to_nat (inPos b) := Some d]> (jitterBuffer b) !! Z.to_nat ((playPos b + i) mod cur_max_jbs b) =
    if i =? zlen q then Some (Some d) else slot b i).
  { intros i Hi. rewrite lookup_insert_pos by (try apply Z.mod_pos_bound; lia).
    rewrite (repr_in _ _ H). destruct (Z.eqb_spec i (zlen q)) as [->|]; [now rewrite Z.eqb_refl|].
    destruct (Z.eqb_spec ((playPos b + zlen q) mod cur_max_jbs b) ((playPos b + i) mod cur_max_jbs b)) as [E|];
      [apply pos_inj in E; lia | reflexivity]. }
  unfold incrementInPos. rewrite next_pos by (cbn [inPos cur_max_jbs with_slots]; lia).
  split; unfold slot, JITTER_BUFFER_MAX; cbn [jitterBuffer cur_max_jbs playPos inPos with_slots with_inPos]; try assumption; try lia.
  - now rewrite zlen_insert.
  - rewrite (repr_in _ _ H), Zplus_mod_idemp_l. f_equal. zlen_lia.
  - zlen_lia.
  - intros i e He. apply lookup_app_Some in He as [He|[Hi He]].
    + pose proof (lookup_lt_Some _ _ _ He). destruct (repr_used _ _ H _ _ He) as [Hu Hs].
      split; [assumption|]. rewrite Hslot by (unfold zlen in *; lia).
      destruct (Z.eqb_spec (Z.of_nat i) (zlen q)); [unfold zlen in *; lia | exact Hs].
    + destruct (i - length q)%nat eqn:E; cbn in He; [injection He as <- | discriminate].
      split; [assumption|]. rewrite Hslot by (unfold zlen in *; lia).
      destruct (Z.eqb_spec (Z.of_nat i) (zlen q)); [reflexivity | unfold zlen in *; lia].
  - intros i s Hi Hs. autorewrite with zlen in Hi. rewrite Hslot in Hs by lia.
    destruct (Z.eqb_spec i (zlen q)); [lia|]. apply (repr_free _ _ H i); [lia | exact Hs].
Qed.

Lemma repr_push_full b q d :
  repr b q -> zlen q = cur_max_jbs b -> inUse d = true ->
  repr (incrementInPos (with_slots (<[Z.to_nat (inPos b) := Some d]> (jitterBuffer b)) (incrementPlayPos b)))
    (tail q ++ [d]).
Proof.
  intros H Hn Hd. pose proof (repr_play _ _ H) as Hp. pose proof (repr_max _ _ H) as Hm.
  pose proof (repr_len _ _ H) as Hl. unfold JITTER_BUFFER_MAX in *.
  assert (inPos b = playPos b) as Hin by (rewrite (repr_in _ _ H), mod_wrap by lia;
    destruct (Z.ltb_spec (playPos b + zlen q) (cur_max_jbs b)); lia).
  destruct q as [|d0 q]; [rewrite zlen_nil in Hn; lia|]. rewrite zlen_cons in Hn. cbn [tail].
  pose proof (zlen_nonneg q).
  assert (Hpos : forall i, 0 <= i < cur_max_jbs b ->
    ((playPos b + 1) mod cur_max_jbs b + i) mod cur_max_jbs b =
    (playPos b + (if i =? zlen q then 0 else i + 1)) mod cur_max_jbs b).
  { intros i Hi. rewrite Zplus_mod_idemp_l. destruct (Z.eqb_spec i (zlen q)) as [->|].
    - rewrite Z.add_0_r. replace (playPos b + 1 + zlen q) with (playPos b + 1 * cur_max_jbs b) by lia.
      apply Z.mod_add. lia.
    - f_equal. lia. }
  assert (Hslot : forall i, 0 <= i < cur_max_jbs b ->
    <[Z.to_nat (inPos b) := Some d]> (jitterBuffer b) !!
      Z.to_nat (((playPos b + 1) mod cur_max_jbs b + i) mod cur_max_jbs b) =
    if i =? zlen q then Some (Some d) else slot b (i + 1)).
  { intros i Hi. rewrite Hpos by lia.
    rewrite lookup_insert_pos by (try apply Z.mod_pos_bound; lia). rewrite Hin.
    destruct (Z.eqb_spec i (zlen q)); [rewrite Z.add_0_r, Z.mod_small by lia; now rewrite Z.eqb_refl|].
    destruct (Z.eqb_spec (playPos b) ((playPos b + (i + 1)) mod cur_max_jbs b)) as [E|]; [|reflexivity].
    rewrite <- (Z.mod_small (playPos b) (cur_max_jbs b)) in E at 1 by lia.
    rewrite <- (Z.add_0_r (playPos b)) in E at 1. apply pos_inj in E; lia. }
  unfold incrementInPos, incrementPlayPos. rewrite !next_pos by (cbn [inPos playPos cur_max_jbs with_slots with_playPos]; lia).
  split; unfold slot, JITTER_BUFFER_MAX; cbn [jitterBuffer cur_max_jbs playPos inPos with_slots with_inPos with_playPos]; try lia.
  - now rewrite zlen_insert.
  - apply Z.mod_pos_bound. lia.
  - autorewrite with zlen. rewrite Hin, Zplus_mod_idemp_l.
    replace (playPos b + 1 + (zlen q + (1 + 0))) with (playPos b + 1 + 1 * cur_max_jbs b) by lia.
    symmetry. apply Z.mod_add. lia.
  - zlen_lia.
  - intros i e He. apply lookup_app_Some in He as [He|[Hi He]].
    + pose proof (lookup_lt_Some _ _ _ He).
      destruct (repr_used _ _ H (S i) e He) as [Hu Hs]. split; [assumption|].
      rewrite Hslot by (unfold zlen in *; lia).
      destruct (Z.eqb_spec (Z.of_nat i) (zlen q)); [unfold zlen in *; lia|].
      rewrite <- Hs. f_equal. lia.
    + destruct (i - length q)%nat eqn:E; cbn in He; [injection He as <- | discriminate].
      split; [assumption|]. rewrite Hslot by (unfold zlen in *; lia).
      destruct (Z.eqb_spec (Z.of_nat i) (zlen q)); [reflexivity | unfold zlen in *; lia].
  - intros i s Hi. autorewrite with zlen in Hi. lia.
Qed.

Lemma repr_push b q d :
  repr b q -> inUse d = true ->
  repr (incrementInPos (with_slots (<[Z.to_nat (inPos b) := Some d]> (jitterBuffer b))
    (if zlen q =? cur_max_jbs b then incrementPlayPos b else b))) (push (cur_max_jbs b) q d).
Proof.
  intros H Hd. unfold push. pose proof (repr_size _ _ H).
  destruct (Z.eqb_spec (zlen q) (cur_max_jbs b)); [now apply repr_push_full|].
  apply repr_push_room; [assumption | lia | assumption].
Qed.

(** What the insert position holds. *)
Lemma rd_inPos b q :
  repr b q -> exists s, rd (jitterBuffer b) (inPos b) = Ret s /\
    used s = (zlen q =? cur_max_jbs b) /\
    (zlen q = cur_max_jbs b -> exists d, head q = Some d /\ s = Some d).
Proof.
  intros H. pose proof (repr_max _ _ H) as Hm. pose proof (repr_play _ _ H) as Hp.
  pose proof (repr_size _ _ H). unfold JITTER_BUFFER_MAX in Hm.
  destruct (slot_exists b q (zlen q) H) as [s Hs]; [apply zlen_nonneg|].
  exists s. split; [rewrite (repr_in _ _ H); apply rd_slot; [lia | exact Hs]|].
  destruct (Z.eqb_spec (zlen q) (cur_max_jbs b)) as [E|].
  - assert (slot b (zlen q) = slot b 0) as E0.
    { unfold slot. do 2 f_equal. rewrite E, Z.add_0_r, mod_wrap by lia.
      rewrite Z.mod_small by lia. destruct (Z.ltb_spec (playPos b + cur_max_jbs b) (cur_max_jbs b)); lia. }
    rewrite Hs in E0. destruct q as [|d q]; [rewrite zlen_nil in E; lia|].
    destruct (repr_used _ _ H 0 d eq_refl) as [Hu Hd]. change (Z.of_nat 0) with 0 in Hd. rewrite Hd in E0.
    injection E0 as ->. split; [exact Hu|]. intros _. exists d. split; reflexivity.
  - split; [apply (repr_free _ _ H (zlen q)); [pose proof (zlen_nonneg q); lia | exact Hs] | lia].
Qed.

Lemma wr_repr b q i x :
  repr b q -> 0 <= i < cur_max_jbs b -> wr (jitterBuffer b) i x = Ret (<[Z.to_nat i := x]> (jitterBuffer b)).
Proof.
  intros H Hi. pose proof (repr_len _ _ H) as Hl. pose proof (repr_max _ _ H).
  unfold wr. rewrite Hl. destruct (Z.leb_spec 0 i), (Z.ltb_spec i JITTER_BUFFER_MAX); try lia. reflexivity.
Qed.

Lemma incrementPlayPos_fields b :
  inPos (incrementPlayPos b) = inPos b /\ jitterBuffer (incrementPlayPos b) = jitterBuffer b /\
  cur_max_jbs (incrementPlayPos b) = cur_max_jbs b.
Proof. repeat split. Qed.

Lemma insertSilence_repr b q t sq :
  repr b q ->
  exists b' d, insertSilenceRtpData t sq b = Ret b' /\ repr b' (push (cur_max_jbs b) q d) /\
    cur_max_jbs b' = cur_max_jbs b /\ silence d = true /\ rtp_seq_no d = u16 sq /\ rtp_time d = u32 t.
Proof.
  intros H. destruct (rd_inPos b q H) as (s & Hrd & Hu & _).
  pose proof (repr_in_range _ _ H) as Hin.
  set (d := mkRtpData (data (allocated s)) true true (u16 sq) (u32 t)).
  exists (incrementInPos (with_slots (<[Z.to_nat (inPos b) := Some d]> (jitterBuffer b))
    (if zlen q =? cur_max_jbs b then incrementPlayPos b else b))), d.
  split; [|split; [now apply repr_push | split; [|now subst d]]].
  - unfold insertSilenceRtpData. rewrite Hrd. cbn [mbind outcome_bind].
    assert (inUse (allocated s) = (zlen q =? cur_max_jbs b)) as -> by (rewrite <- Hu; now destruct s).
    rewrite (count_repr _ _ H). cbn [mbind outcome_bind]. fold d.
    destruct (zlen q =? cur_max_jbs b) eqn:E; cbn [mbind outcome_bind mret outcome_ret].
    + destruct (incrementPlayPos_fields b) as (-> & -> & _).
      now rewrite (wr_repr b q) by assumption.
    + now rewrite (wr_repr b q) by assumption.
  - now destruct (zlen q =? cur_max_jbs b).
Qed.

(** The packet a [RtpPacket] becomes in the buffer. *)
Definition packet_data (pkt : RtpPacket) (pay : bytes) : RtpData :=
  mkRtpData pay false true (getSequence pkt) (getRtpTime pkt).

Lemma append_repr b q pkt pay :
  repr b q -> payload pkt = Ret pay -> zlen pay <= MAX_RTP_DATA ->
  (zlen q = cur_max_jbs b -> forall d, head q = Some d -> rtp_seq_no d <> getSequence pkt) ->
  exists b', appendRtpData pkt b = Ret b' /\ repr b' (push (cur_max_jbs b) q (packet_data pkt pay)) /\
    cur_max_jbs b' = cur_max_jbs b.
Proof.
  intros H Hpay Hsz Hdup. destruct (rd_inPos b q H) as (s & Hrd & Hu & Hfull).
  pose proof (repr_in_range _ _ H) as Hin. pose proof (repr_max _ _ H) as Hm.
  pose proof (repr_play _ _ H) as Hp. unfold JITTER_BUFFER_MAX in Hm.
  exists (incrementInPos (with_slots (<[Z.to_nat (inPos b) := Some (packet_data pkt pay)]> (jitterBuffer b))
    (if zlen q =? cur_max_jbs b then incrementPlayPos b else b))).
  split; [|split; [now apply repr_push | now destruct (zlen q =? cur_max_jbs b)]].
  unfold appendRtpData, setRtpData. rewrite Hrd. cbn [mbind outcome_bind].
  assert (inUse (allocated s) = (zlen q =? cur_max_jbs b)) as -> by (rewrite <- Hu; now destruct s).
  rewrite (count_repr _ _ H), Hpay. cbn [mbind outcome_bind]. unfold setData.
  destruct (Z.leb_spec (zlen pay) MAX_RTP_DATA); [|lia]. cbn [cassert].
  destruct (Z.eqb_spec (zlen q) (cur_max_jbs b)) as [E|]; cbn [mbind outcome_bind mret outcome_ret].
  - destruct (Hfull E) as (d & Hd & ->). cbn [allocated].
    assert ((playPos b =? u32 (inPos b)) = true) as ->.
    { apply Z.eqb_eq. rewrite wrap_small by lia. rewrite (repr_in _ _ H), E, mod_wrap by lia.
      destruct (Z.ltb_spec (playPos b + cur_max_jbs b) (cur_max_jbs b)); lia. }
    destruct (Z.eqb_spec (rtp_seq_no d) (getSequence pkt)) as [Es|]; [now destruct (Hdup E d Hd)|].
    cbn [andb negb]. destruct (incrementPlayPos_fields b) as (Hi & Hs & _). rewrite Hs.
    rewrite (wr_repr b q) by assumption. cbn [data mbind outcome_bind]. now rewrite ?Hi.
  - rewrite (wr_repr b q) by assumption. reflexivity.
Qed.

(** Storing a packet over one of the queue; in a full buffer the oldest packet
    may only be replaced by one of the same sequence number. *)
Lemma replace_repr b q i d pkt pay :
  repr b q -> q !! i = Some d -> payload pkt = Ret pay -> zlen pay <= MAX_RTP_DATA ->
  (zlen q = cur_max_jbs b -> i = 0%nat -> rtp_seq_no d = getSequence pkt) ->
  exists b', setRtpData pkt ((playPos b + Z.of_nat i) mod cur_max_jbs b) b = Ret b' /\
    repr b' (<[i := packet_data pkt pay]> q) /\ cur_max_jbs b' = cur_max_jbs b.
Proof.
  intros H Hi Hpay Hsz Hdup. pose proof (lookup_lt_Some _ _ _ Hi) as Hlt.
  pose proof (repr_max _ _ H) as Hm. pose proof (repr_play _ _ H) as Hp.
  pose proof (repr_size _ _ H) as Hn. pose proof (repr_len _ _ H) as Hl.
  destruct (repr_used _ _ H _ _ Hi) as [Hu Hs]. unfold JITTER_BUFFER_MAX in *.
  set (idx := (playPos b + Z.of_nat i) mod cur_max_jbs b) in *.
  assert (0 <= idx < cur_max_jbs b) as Hidx by (apply Z.mod_pos_bound; lia).
  exists (with_slots (<[Z.to_nat idx := Some (packet_data pkt pay)]> (jitterBuffer b)) b).
  split; [|split; [|reflexivity]].
  - unfold setRtpData.
    assert (rd (jitterBuffer b) idx = Ret (Some d)) as -> by (apply rd_slot; [lia | exact Hs]).
    cbn [mbind outcome_bind allocated]. rewrite Hu, (count_repr _ _ H), Hpay. cbn [mbind outcome_bind].
    replace (zlen q =? cur_max_jbs b) with (zlen q =? cur_max_jbs b) by reflexivity.
    assert ((if (zlen q =? cur_max_jbs b) && (playPos b =? u32 idx) && negb (rtp_seq_no d =? getSequence pkt)
             then incrementPlayPos b else b) = b) as ->.
    { destruct (Z.eqb_spec (zlen q) (cur_max_jbs b)); [|reflexivity].
      destruct (Z.eqb_spec (playPos b) (u32 idx)) as [E|]; [|reflexivity].
      rewrite wrap_small in E by lia. subst idx.
      rewrite <- (Z.mod_small (playPos b) (cur_max_jbs b)) in E at 1 by lia.
      rewrite <- (Z.add_0_r (playPos b)) in E at 1. apply pos_inj in E; [|lia|lia|unfold zlen in *; lia].
      rewrite Hdup by lia. now rewrite Z.eqb_refl. }
    unfold setData. destruct (Z.leb_spec (zlen pay) MAX_RTP_DATA); [|lia].
    cbn [cassert mbind outcome_bind mret outcome_ret data]. now rewrite (wr_repr b q) by assumption.
  - split; unfold slot, JITTER_BUFFER_MAX; cbn [jitterBuffer cur_max_jbs playPos inPos with_slots];
      rewrite ?zlen_insert; try assumption; try apply H.
    + intros j e Hj. apply list_lookup_insert_Some in Hj as [(<- & <- & _)|(Hne & Hj)].
      * split; [reflexivity|]. fold idx. apply list_lookup_insert_eq. unfold zlen in *. lia.
      * destruct (repr_used _ _ H _ _ Hj) as [Hju Hjs]. split; [assumption|].
        apply lookup_lt_Some in Hj.
        rewrite lookup_insert_pos by (try apply Z.mod_pos_bound; lia).
        destruct (Z.eqb_spec idx ((playPos b + Z.of_nat j) mod cur_max_jbs b)) as [E|]; [|exact Hjs].
        apply pos_inj in E; unfold zlen in *; lia.
    + intros j s' Hj. rewrite lookup_insert_pos by (try apply Z.mod_pos_bound; lia).
      destruct (Z.eqb_spec idx ((playPos b + j) mod cur_max_jbs b)) as [E|].
      * apply pos_inj in E; unfold zlen in *; lia.
      * apply (repr_free _ _ H). assumption.
Qed.

(** ** The sanity check *)

Lemma forEach_ok n f : forall i,
  (forall k, i <= k < i + Z.of_nat n -> f k = Ret tt) -> forEach n i f = Ret tt.
Proof.
  induction n as [|n IH]; intros i H; cbn [forEach]; [reflexivity|].
  rewrite H by lia. cbn [mbind outcome_bind]. apply IH. intros k Hk. apply H. lia.
Qed.

Lemma assertUsed_slot b q expected i :
  repr b q -> 0 <= i < cur_max_jbs b -> expected = (i <? zlen q) ->
  assertUsed b expected ((playPos b + i) mod cur_max_jbs b) = Ret tt.
Proof.
  intros H Hi ->. destruct (slot_exists b q i H) as [s Hs]; [lia|].
  pose proof (repr_max _ _ H). unfold assertUsed. rewrite (rd_slot b i s) by (try assumption; lia).
  cbn [mbind outcome_bind]. destruct (Z.ltb_spec i (zlen q)).
  - now rewrite (repr_queue_used b q i s) by (try assumption; lia).
  - now rewrite (repr_free _ _ H i s) by (try assumption; lia).
Qed.

Lemma s32_u32 z : - 2147483648 <= z < 2147483648 -> s32 (u32 z) = z.
Proof.
  intros H. unfold swrap, wrap. rewrite Z.mod_mod by lia.
  destruct (Z.ltb_spec (z mod 2 ^ 32) (2 ^ (32 - 1))); Z.to_euclidean_division_equations; lia.
Qed.

Lemma s32_small z : - 2147483648 <= z < 2147483648 -> s32 z = z.
Proof. intros H. apply swrap_small; lia. Qed.

Lemma verify_repr b q : repr b q -> verifyJbSanity b = Ret tt.
Proof.
  intros H. pose proof (repr_max _ _ H) as Hm. pose proof (repr_play _ _ H) as Hp.
  pose proof (repr_size _ _ H) as Hs. pose proof (zlen_nonneg q) as Hz.
  pose proof (repr_in _ _ H) as Hin. rewrite mod_wrap in Hin by lia.
  unfold JITTER_BUFFER_MAX in Hm.
  unfold verifyJbSanity. rewrite (count_repr _ _ H). cbn [mbind outcome_bind].
  rewrite !s32_small by lia.
  assert (forall e j p, 0 <= j < cur_max_jbs b -> e = (j <? zlen q) ->
    p = (if playPos b + j <? cur_max_jbs b then playPos b + j else playPos b + j - cur_max_jbs b) ->
    assertUsed b e p = Ret tt) as Hat.
  { intros e j p Hj He ->. rewrite <- mod_wrap by lia. now apply (assertUsed_slot b q). }
  assert ((if 0 <? zlen q then assertUsed b true (playPos b) else mret tt) = Ret tt) as ->.
  { destruct (Z.ltb_spec 0 (zlen q)); [|reflexivity]. apply (Hat _ 0); [lia | now rewrite (proj2 (Z.ltb_lt _ _)) |].
    destruct (Z.ltb_spec (playPos b + 0) (cur_max_jbs b)); lia. }
  cbn [mbind outcome_bind]. destruct (Z.eqb_spec (zlen q) (cur_max_jbs b)) as [E|].
  - apply forEach_ok. intros k Hk. rewrite Z2Nat.id in Hk by lia.
    destruct (Z.leb_spec (playPos b) k).
    + apply (Hat _ (k - playPos b)); [lia | symmetry; apply Z.ltb_lt; lia |].
      destruct (Z.ltb_spec (playPos b + (k - playPos b)) (cur_max_jbs b)); lia.
    + apply (Hat _ (k - playPos b + cur_max_jbs b)); [lia | symmetry; apply Z.ltb_lt; lia |].
      destruct (Z.ltb_spec (playPos b + (k - playPos b + cur_max_jbs b)) (cur_max_jbs b)); lia.
  - rewrite (forEach_ok (Z.to_nat (zlen q))); cbn [mbind outcome_bind].
    + apply forEach_ok. intros k Hk. rewrite wrap_small, Z2Nat.id in Hk by (rewrite ?wrap_small; lia).
      apply (Hat _ (zlen q + k)); [lia | symmetry; apply Z.ltb_ge; lia |].
      destruct (Z.ltb_spec (playPos b + zlen q) (cur_max_jbs b)),
        (Z.ltb_spec (playPos b + (zlen q + k)) (cur_max_jbs b)); rewrite Hin;
        rewrite (wrap_small 32 (_ + _)) by lia;
        match goal with |- context [if ?x <=? ?y then _ else _] => destruct (Z.leb_spec x y) end;
        rewrite ?wrap_small by lia; lia.
    + intros k Hk. rewrite Z2Nat.id in Hk by lia. rewrite s32_u32 by (destruct (_ <? _); lia).
      apply (Hat _ (zlen q - 1 - k)); [lia | symmetry; apply Z.ltb_lt; lia |].
      destruct (Z.ltb_spec (playPos b + zlen q) (cur_max_jbs b)),
        (Z.ltb_spec (playPos b + (zlen q - 1 - k)) (cur_max_jbs b)),
        (Z.ltb_spec (inPos b - k - 1) 0); lia.
Qed.

(** ** Playing *)

Lemma repr_pop b q d :
  repr b (d :: q) ->
  repr (incrementPlayPos (with_slots (<[Z.to_nat (playPos b) := Some (setIsInUse false d)]> (jitterBuffer b)) b)) q.
Proof.
  intros H. pose proof (repr_play _ _ H) as Hp. pose proof (repr_max _ _ H) as Hm.
  pose proof (repr_len _ _ H) as Hl. pose proof (repr_size _ _ H) as Hs. pose proof (zlen_nonneg q).
  rewrite zlen_cons in Hs. unfold JITTER_BUFFER_MAX in *.
  assert (Hpos : forall i, ((playPos b + 1) mod cur_max_jbs b + i) mod cur_max_jbs b =
    (playPos b + (i + 1)) mod cur_max_jbs b)
    by (intros i; rewrite Zplus_mod_idemp_l; f_equal; lia).
  assert (Hslot : forall i, 0 <= i < cur_max_jbs b ->
    <[Z.to_nat (playPos b) := Some (setIsInUse false d)]> (jitterBuffer b) !!
      Z.to_nat (((playPos b + 1) mod cur_max_jbs b + i) mod cur_max_jbs b) =
    if i =? cur_max_jbs b - 1 then Some (Some (setIsInUse false d)) else slot b (i + 1)).
  { intros i Hi. rewrite Hpos. rewrite lookup_insert_pos by (try apply Z.mod_pos_bound; lia).
    destruct (Z.eqb_spec i (cur_max_jbs b - 1)) as [->|].
    - replace (playPos b + (cur_max_jbs b - 1 + 1)) with (playPos b + 1 * cur_max_jbs b) by lia.
      rewrite Z.mod_add, Z.mod_small by lia. now rewrite Z.eqb_refl.
    - destruct (Z.eqb_spec (playPos b) ((playPos b + (i + 1)) mod cur_max_jbs b)) as [E|]; [|reflexivity].
      rewrite <- (Z.mod_small (playPos b) (cur_max_jbs b)) in E at 1 by lia.
      rewrite <- (Z.add_0_r (playPos b)) in E at 1. apply pos_inj in E; lia. }
  unfold incrementPlayPos. rewrite next_pos by (cbn [playPos cur_max_jbs with_slots]; lia).
  split; unfold slot, JITTER_BUFFER_MAX; cbn [jitterBuffer cur_max_jbs playPos inPos with_slots with_playPos]; try lia.
  - now rewrite zlen_insert.
  - apply Z.mod_pos_bound. lia.
  - rewrite (repr_in _ _ H), Zplus_mod_idemp_l, zlen_cons. f_equal. lia.
  - intros i e He. pose proof (lookup_lt_Some _ _ _ He).
    destruct (repr_used _ _ H (S i) e He) as [Hu Hs']. split; [assumption|].
    rewrite Hslot by (unfold zlen in *; lia).
    destruct (Z.eqb_spec (Z.of_nat i) (cur_max_jbs b - 1)); [unfold zlen in *; lia|].
    rewrite <- Hs'. f_equal. lia.
  - intros i s Hi. rewrite Hslot by lia. destruct (Z.eqb_spec i (cur_max_jbs b - 1)).
    + intros [= <-]. reflexivity.
    + apply (repr_free _ _ H). rewrite zlen_cons. lia.
Qed.

Lemma rd_playPos b q d : repr b (d :: q) -> rd (jitterBuffer b) (playPos b) = Ret (Some d) /\ inUse d = true.
Proof.
  intros H. destruct (repr_used _ _ H 0 d eq_refl) as [Hu Hs]. pose proof (repr_max _ _ H).
  pose proof (repr_play _ _ H). pose proof (rd_slot b _ _ ltac:(lia) Hs) as Hrd.
  rewrite Z.add_0_r, Z.mod_small in Hrd by lia. auto.
Qed.

(** The packet to play and what remains: a silence is dropped when the queue
    is more than half full. *)
Definition play (max : Z) (q : list RtpData) : option (RtpData * list RtpData) :=
  match q with
  | [] => None
  | d :: q' =>
      if silence d && ((2 <=? max) && (max / 2 + 1 <? zlen q))
      then match q' with [] => None | d' :: q'' => Some (d', q'') end
      else Some (d, q')
  end.

Lemma dequeue_repr b q d q' :
  repr b q -> play (cur_max_jbs b) q = Some (d, q') ->
  exists b', dequeue b = Ret (d, b') /\ repr b' q' /\ cur_max_jbs b' = cur_max_jbs b.
Proof.
  intros H Hplay. destruct q as [|d0 q]; [discriminate|].
  destruct (rd_playPos _ _ _ H) as [Hrd Hu]. pose proof (repr_play _ _ H) as Hp.
  unfold dequeue. rewrite Hrd. cbn [mbind outcome_bind deref]. rewrite Hu, (count_repr _ _ H).
  cbn [cassert mbind outcome_bind]. cbn [play] in Hplay.
  set (skip := silence d0 && _) in *. destruct skip.
  - rewrite (wr_repr b (d0 :: q)) by assumption. cbn [mbind outcome_bind].
    pose proof (repr_pop _ _ _ H) as H1.
    set (b1 := incrementPlayPos _) in *. destruct q as [|d1 q]; [discriminate|].
    injection Hplay as <- <-. destruct (rd_playPos _ _ _ H1) as [Hrd1 Hu1]. pose proof (repr_play _ _ H1).
    rewrite Hrd1. cbn [mbind outcome_bind deref mret outcome_ret]. rewrite Hu1.
    cbn [cassert mbind outcome_bind]. rewrite (wr_repr b1 (d1 :: q)) by assumption.
    cbn [mbind outcome_bind mret outcome_ret]. eexists. split; [reflexivity|].
    split; [now apply repr_pop | reflexivity].
  - injection Hplay as <- <-. cbn [mbind outcome_bind mret outcome_ret]. rewrite Hu.
    cbn [cassert mbind outcome_bind]. rewrite (wr_repr b (d0 :: q)) by assumption.
    cbn [mbind outcome_bind]. eexists. split; [reflexivity|]. split; [now apply repr_pop | reflexivity].
Qed.

End RtpJitter.
