(* ===== verification/RtpReceiverFacts.v ===== *)
(** Theorems about the RTP receiver of [RtpReceiver]: the jitter buffer
    implements a bounded queue, a stream whose timestamps follow its sequence
    numbers is kept gapless and passes the sanity check, the late packet that
    breaks a buffer with a gap, the bound of the jitter estimate, the range of
    [rtp2ntp] and the switch of sources. *)
From S2P Require Import Prelude RtpTime RtpPacket RtpReceiver RtpJitter.
Import RtpTime RtpPacket RtpReceiver RtpJitter.

Module RtpReceiverFacts.

(** C3: the jitter buffer implements a queue of at most [cur_max_jbs] packets:
    clearing empties it, counting and looking at the newest packet are those
    of the queue, inserting silence and appending a packet drop the oldest one
    when the queue is full, playing takes the oldest packet (or the one after
    it when that is a silence and the queue is more than half full), and the
    sanity check passes in every represented state. *)
Theorem jitter_buffer_is_bounded_queue b q :
  repr b q ->
  repr (clearJitterBuffer b) [] /\
  getJitterPktsInQueueCount b = Ret (zlen q) /\
  getLastRtpData b = Ret (newest q) /\
  verifyJbSanity b = Ret tt /\
  (forall t s, exists b' d, insertSilenceRtpData t s b = Ret b' /\ repr b' (push (cur_max_jbs b) q d) /\
     silence d = true /\ rtp_seq_no d = u16 s /\ rtp_time d = u32 t) /\
  (forall pkt pay, payload pkt = Ret pay -> zlen pay <= MAX_RTP_DATA ->
     (zlen q = cur_max_jbs b -> forall d, head q = Some d -> rtp_seq_no d <> getSequence pkt) ->
     exists b', appendRtpData pkt b = Ret b' /\ repr b' (push (cur_max_jbs b) q (packet_data pkt pay))) /\
  (forall d q', play (cur_max_jbs b) q = Some (d, q') ->
     exists b', dequeue b = Ret (d, b') /\ repr b' q').
Proof.
  intros H. split; [apply repr_clear, (repr_max _ _ H)|].
  split; [now apply count_repr|]. split; [now apply getLastRtpData_repr|].
  split; [now apply (verify_repr b q)|]. split; [|split].
  - intros t s. destruct (insertSilence_repr b q t s H) as (b' & d & H1 & H2 & _ & H3). eauto 10.
  - intros pkt pay H1 H2 H3. destruct (append_repr b q pkt pay H H1 H2 H3) as (b' & H4 & H5 & _). eauto.
  - intros d q' Hp. destruct (dequeue_repr b q d q' H Hp) as (b' & H1 & H2 & _). eauto.
Qed.

Definition sample_jb (max : Z) : JitterBuffer :=
  mkJB 0 0 max (replicate (Z.to_nat JITTER_BUFFER_MAX) None).

Lemma sample_jb_repr max : 1 <= max <= JITTER_BUFFER_MAX -> repr (sample_jb max) [].
Proof. intros H. exact (repr_clear (sample_jb max) H). Qed.

Lemma jitter_buffer_is_bounded_queue_witness :
  getJitterPktsInQueueCount (sample_jb 5) = Ret 0 /\ verifyJbSanity (sample_jb 5) = Ret tt.
Proof.
  destruct (jitter_buffer_is_bounded_queue (sample_jb 5) []) as (_ & H1 & _ & H2 & _);
    [apply sample_jb_repr; unfold JITTER_BUFFER_MAX; lia|].
  split; [exact H1 | exact H2].
Defined.

(** * Regular streams *)

Section Stream.
Context (samples : Z).
Hypothesis samples_ok : 0 < samples < 1472.

(** The queue ends with sequence number [s] and timestamp [t] and has no gaps:
    both fall by one step for every packet before. *)
Definition gapless (s t : Z) (q : list RtpData) : Prop :=
  forall i d, q !! i = Some d ->
    rtp_seq_no d = (s - (zlen q - 1 - Z.of_nat i)) mod 65536 /\
    rtp_time d = (t - samples * (zlen q - 1 - Z.of_nat i)) mod 4294967296.

Lemma gapless_nil s t : gapless s t [].
Proof. intros i d. discriminate. Qed.

Lemma gapless_tail s t q : gapless s t q -> gapless s t (tail q).
Proof.
  intros H. destruct q as [|d q]; [assumption|]. intros i e He.
  destruct (H (S i) e He) as [-> ->]. cbn [tail]. rewrite zlen_cons. split; f_equal; lia.
Qed.

Lemma gapless_app s t q d :
  gapless s t q -> rtp_seq_no d = (s + 1) mod 65536 -> rtp_time d = (t + samples) mod 4294967296 ->
  gapless (s + 1) (t + samples) (q ++ [d]).
Proof.
  intros H Hs Ht i e He. autorewrite with zlen. apply lookup_app_Some in He as [He|[Hi He]].
  - destruct (H i e He) as [-> ->]. split; f_equal; lia.
  - destruct (i - length q)%nat eqn:E; cbn in He; [injection He as <- | discriminate].
    rewrite Hs, Ht. assert (Z.of_nat i = zlen q) as -> by (unfold zlen; lia). split; f_equal; lia.
Qed.

Lemma gapless_push m s t q d :
  gapless s t q -> rtp_seq_no d = (s + 1) mod 65536 -> rtp_time d = (t + samples) mod 4294967296 ->
  gapless (s + 1) (t + samples) (push m q d).
Proof.
  intros H Hs Ht. unfold push. destruct (zlen q =? m); apply gapless_app; auto using gapless_tail.
Qed.

Lemma gapless_eq s t s' t' q :
  gapless s t q -> (s - s') mod 65536 = 0 -> (t - t') mod 4294967296 = 0 -> gapless s' t' q.
Proof.
  intros H Hs Ht i d Hd. destruct (H i d Hd) as [-> ->].
  split; Z.to_euclidean_division_equations; lia.
Qed.

Lemma newest_push m q d : newest (push m q d) = Some d.
Proof.
  unfold newest, push. generalize (if zlen q =? m then tail q else q). intros l.
  rewrite length_app. cbn [length]. replace (length l + 1 - 1)%nat with (length l) by lia.
  now rewrite lookup_app_r, Nat.sub_diag by lia.
Qed.

Lemma zlen_push m q d : 1 <= m -> zlen q <= m -> zlen (push m q d) = Z.min m (zlen q + 1).
Proof.
  intros Hm Hq. unfold push. destruct (Z.eqb_spec (zlen q) m).
  - destruct q as [|x q]; [rewrite zlen_nil in *; lia|]. cbn [tail]. zlen_lia.
  - zlen_lia.
Qed.

(** Silences and packets pushed in turn. *)
Definition pushes (m : Z) (q l : list RtpData) : list RtpData := fold_left (push m) l q.

Lemma prime_gapless n : forall time seq b q,
  repr b q -> gapless (seq - Z.of_nat n - 1) (time - samples * (Z.of_nat n + 1)) q ->
  exists b' l, primeLoop n time seq samples b = Ret b' /\ cur_max_jbs b' = cur_max_jbs b /\
    repr b' (pushes (cur_max_jbs b) q l) /\ gapless (seq - 1) (time - samples) (pushes (cur_max_jbs b) q l) /\
    length l = n /\ Forall (fun d => silence d = true) l.
Proof.
  induction n as [|n IH]; intros time seq b q H Hg.
  - exists b, []. do 2 (split; [reflexivity|]). split; [exact H|].
    split; [|split; [reflexivity | constructor]]. eapply gapless_eq; [exact Hg | |];
      match goal with |- ?x mod _ = 0 => replace x with 0 by lia end; reflexivity.
  - cbn [primeLoop].
    destruct (insertSilence_repr b q (u32 (time - samples * Z.of_nat (S n))) (u16 (seq - Z.of_nat (S n))) H)
      as (b1 & d & -> & H1 & Hm1 & Hd1 & Hd2 & Hd3).
    cbn [mbind outcome_bind].
    destruct (IH time seq b1 (push (cur_max_jbs b) q d) H1) as (b' & l & Hl & Hm & Hr & Hgl & Hlen & Hs).
    { rewrite wrap_idem in Hd2, Hd3 by lia.
      eapply gapless_eq; [apply (gapless_push (cur_max_jbs b) _ _ q d Hg) | |].
      - rewrite Hd2. unfold wrap. f_equal. lia.
      - rewrite Hd3. unfold wrap. f_equal. lia.
      - match goal with |- ?x mod _ = 0 => replace x with 0 by lia end; reflexivity.
      - match goal with |- ?x mod _ = 0 => replace x with 0 by lia end; reflexivity. }
    rewrite Hm1 in *. exists b', (d :: l). cbn [pushes fold_left length].
    split; [exact Hl|]. split; [exact Hm|]. split; [exact Hr|]. split; [exact Hgl|].
    split; [now rewrite Hlen | now constructor].
Qed.

(** The patching loop inserts exactly the missing packets. *)
Lemma patch_gapless k : forall fuel time seq b q l,
  repr b q -> newest q = Some l ->
  gapless (rtp_seq_no l) (rtp_time l) q ->
  0 <= rtp_seq_no l < 65536 -> 0 <= rtp_time l < 4294967296 ->
  0 <= seq < 65536 -> (k < fuel)%nat -> Z.of_nat k < 1025 ->
  seq = (rtp_seq_no l + (Z.of_nat k + 1)) mod 65536 ->
  time = (rtp_time l + samples * (Z.of_nat k + 1)) mod 4294967296 ->
  exists b' sil,
    patchLoop fuel time seq samples (u16 (rtp_seq_no l)) (rtp_time l) b = Ret b' /\
    cur_max_jbs b' = cur_max_jbs b /\ repr b' (pushes (cur_max_jbs b) q sil) /\
    gapless (seq - 1) (time - samples) (pushes (cur_max_jbs b) q sil) /\
    length sil = k /\ Forall (fun d => silence d = true) sil.
Proof.
  induction k as [|k IH]; intros fuel time seq b q l H Hl Hg Hs Ht Hseq Hf Hk Es Et;
    (destruct fuel as [|fuel]; [lia|]); cbn [patchLoop].
  - rewrite (timeGreater_near _ (rtp_time l) 0); try (apply (wrap_range 32)); try lia.
    + cbn [mbind outcome_bind Z.ltb Z.compare negb]. exists b, [].
      do 2 (split; [reflexivity|]). split; [exact H|]. split; [|split; [reflexivity | constructor]].
      eapply gapless_eq; [exact Hg | |]; rewrite ?Es, ?Et; Z.to_euclidean_division_equations; lia.
    + unfold wrap. rewrite Et. Z.to_euclidean_division_equations; lia.
  - assert (0 < samples * (Z.of_nat k + 1) < 1508800) as Hx by nia.
    assert (time = (rtp_time l + (samples * (Z.of_nat k + 1) + samples)) mod 4294967296) as Et'
      by (rewrite Et; f_equal; lia).
    rewrite (timeGreater_near _ (rtp_time l) (samples * (Z.of_nat k + 1)));
      try (apply (wrap_range 32)); try lia; cycle 1.
    { unfold wrap. rewrite Et'. change (2 ^ 32) with 4294967296.
      rewrite Zminus_mod_idemp_l. f_equal. lia. }
    destruct (Z.ltb_spec 0 (samples * (Z.of_nat k + 1))); [|lia].
    cbn [mbind outcome_bind negb]. rewrite (wrap_small 16 (rtp_seq_no l)) by lia.
    rewrite (seqDifference_near seq _ (Z.of_nat k + 2)) by (try lia; rewrite Es; f_equal; lia).
    cbn [mbind outcome_bind]. destruct (Z.leb_spec (Z.of_nat k + 2) 1); [lia|].
    destruct (insertSilence_repr b q (u32 (rtp_time l + samples)) (u16 (rtp_seq_no l + 1)) H)
      as (b1 & d & -> & Hb1 & Hm1 & Hd1 & Hd2 & Hd3).
    rewrite wrap_idem in Hd2, Hd3 by lia.
    cbn [mbind outcome_bind]. rewrite (getLastRtpData_repr _ _ Hb1), newest_push.
    cbn [mbind outcome_bind deref].
    destruct (IH fuel time seq b1 (push (cur_max_jbs b) q d) d) as (b' & sil & Hp & Hm & Hr & Hgl & Hlen & Hsil);
      try assumption; try lia.
    + apply newest_push.
    + eapply gapless_eq; [apply (gapless_push (cur_max_jbs b) _ _ q d Hg) | |].
      * exact Hd2. * exact Hd3.
      * rewrite Hd2. unfold wrap. Z.to_euclidean_division_equations; lia.
      * rewrite Hd3. unfold wrap. Z.to_euclidean_division_equations; lia.
    + rewrite Hd2. apply (wrap_range 16). lia.
    + rewrite Hd3. apply (wrap_range 32). lia.
    + rewrite Hd2, Es. unfold wrap. Z.to_euclidean_division_equations; lia.
    + rewrite Hd3, Et. unfold wrap. rewrite Zplus_mod_idemp_l. f_equal. lia.
    + rewrite Hm1 in *. exists b', (d :: sil). cbn [pushes fold_left length].
      split; [exact Hp|]. split; [exact Hm|]. split; [exact Hr|]. split; [exact Hgl|].
      split; [now rewrite Hlen | now constructor].
Qed.

Lemma pushes_app m q l k : pushes m q (l ++ k) = pushes m (pushes m q l) k.
Proof. apply fold_left_app. Qed.

Lemma getSequence_range pkt : packet_ok pkt -> 0 <= getSequence pkt < 65536.
Proof. intros [_ Hb]. apply be16_range; now apply byteAt_ok. Qed.

Lemma getRtpTime_range pkt : packet_ok pkt -> 0 <= getRtpTime pkt < 4294967296.
Proof.
  intros [_ Hb]. unfold getRtpTime, be32.
  pose proof (byteAt_ok _ 4 Hb). pose proof (byteAt_ok _ 5 Hb).
  pose proof (byteAt_ok _ 6 Hb). pose proof (byteAt_ok _ 7 Hb). unfold byte_ok in *. lia.
Qed.

Section Arrival.
Context (pkt : RtpPacket) (pay : bytes).
Hypothesis pkt_ok : packet_ok pkt.
Hypothesis pay_ok : payload pkt = Ret pay.
Hypothesis pay_size : zlen pay <= MAX_RTP_DATA.

(** The packet itself, appended to a gapless queue that ends just before it. *)
Lemma append_gapless b q :
  repr b q -> gapless (getSequence pkt - 1) (getRtpTime pkt - samples) q ->
  exists b', appendRtpData pkt b = Ret b' /\ cur_max_jbs b' = cur_max_jbs b /\
    repr b' (push (cur_max_jbs b) q (packet_data pkt pay)) /\
    gapless (getSequence pkt) (getRtpTime pkt) (push (cur_max_jbs b) q (packet_data pkt pay)).
Proof.
  intros H Hg. pose proof (getSequence_range pkt pkt_ok) as Hsr.
  pose proof (getRtpTime_range pkt pkt_ok) as Htr. pose proof (repr_max _ _ H) as Hm.
  unfold JITTER_BUFFER_MAX in Hm.
  destruct (append_repr b q pkt pay H pay_ok pay_size) as (b' & Ha & Hr & Hmx).
  - intros E d Hd. destruct q as [|d0 q]; [discriminate|]. injection Hd as ->.
    destruct (Hg 0%nat d eq_refl) as [-> _]. rewrite E.
    Z.to_euclidean_division_equations; lia.
  - exists b'. split; [exact Ha|]. split; [exact Hmx|]. split; [exact Hr|].
    eapply gapless_eq; [apply (gapless_push (cur_max_jbs b) _ _ q (packet_data pkt pay) Hg) | |];
      cbn [packet_data rtp_seq_no rtp_time].
    + rewrite Z.sub_add, Z.mod_small; lia.
    + rewrite Z.sub_add, Z.mod_small; lia.
    + now rewrite Z.sub_add, Z.sub_diag.
    + now rewrite Z.sub_add, Z.sub_diag.
Qed.

(** The silences an empty buffer is primed with. *)
Definition primed (max : Z) : nat := Z.to_nat (max / 2 - 1).

Lemma prime_append b :
  repr b [] ->
  let p := s32 (u32 (cur_max_jbs b / 2 - 1)) in
  exists b1 b' sil,
    (if 0 <? p then primeLoop (Z.to_nat p) (getRtpTime pkt) (getSequence pkt) samples b else mret b) = Ret b1 /\
    appendRtpData pkt b1 = Ret b' /\ length sil = primed (cur_max_jbs b) /\
    Forall (fun d => silence d = true) sil /\
    repr b' (pushes (cur_max_jbs b) [] (sil ++ [packet_data pkt pay])) /\
    gapless (getSequence pkt) (getRtpTime pkt) (pushes (cur_max_jbs b) [] (sil ++ [packet_data pkt pay])).
Proof.
  intros H p. pose proof (repr_max _ _ H) as Hm. unfold JITTER_BUFFER_MAX in Hm.
  assert (p = cur_max_jbs b / 2 - 1) as ->
    by (subst p; apply s32_u32; Z.to_euclidean_division_equations; lia).
  destruct (Z.ltb_spec 0 (cur_max_jbs b / 2 - 1)).
  - destruct (prime_gapless (Z.to_nat (cur_max_jbs b / 2 - 1)) (getRtpTime pkt) (getSequence pkt) b [] H)
      as (b1 & sil & Hp & Hmx & Hr & Hg & Hlen & Hsil); [apply gapless_nil|].
    destruct (append_gapless b1 _ Hr Hg) as (b' & Ha & _ & Hr' & Hg').
    rewrite Hmx in *. exists b1, b', sil. rewrite pushes_app. auto 10.
  - destruct (append_gapless b [] H (gapless_nil _ _)) as (b' & Ha & _ & Hr & Hg).
    exists b, b', []. split; [reflexivity|]. split; [exact Ha|].
    split; [unfold primed; cbn; lia|]. split; [constructor|]. split; assumption.
Qed.

(** What happens to the queue when a packet [d] steps after the newest one
    arrives. *)
Definition stored (max : Z) (q : list RtpData) (d : Z) (q' : list RtpData) : Prop :=
  if (zlen q =? 0) || (max <? d) then
    exists sil, length sil = primed max /\ Forall (fun e => silence e = true) sil /\
      q' = pushes max [] (sil ++ [packet_data pkt pay])
  else if 0 <? d then
    exists sil, length sil = Z.to_nat (d - 1) /\ Forall (fun e => silence e = true) sil /\
      q' = pushes max q (sil ++ [packet_data pkt pay])
  else if 1 - d <=? zlen q then
    q' = <[Z.to_nat (zlen q - 1 + d) := packet_data pkt pay]> q
  else q' = q.

(** The packet is [d] steps after the newest one of the queue, in sequence
    number and in time. *)
Definition steps_after (q : list RtpData) (d : Z) : Prop :=
  match newest q with
  | None => True
  | Some l =>
      - 32768 < d < 32768 /\ 0 <= rtp_seq_no l < 65536 /\ 0 <= rtp_time l < 4294967296 /\
      gapless (rtp_seq_no l) (rtp_time l) q /\
      getSequence pkt = (rtp_seq_no l + d) mod 65536 /\
      getRtpTime pkt = (rtp_time l + samples * d) mod 4294967296
  end.

Lemma newest_some q : 0 < zlen q -> exists l, newest q = Some l.
Proof. intros H. apply lookup_lt_is_Some_2. unfold zlen in H. lia. Qed.

(** The late packet: stored over the slot of its own sequence number. *)
Lemma late_gapless b q l d :
  repr b q -> newest q = Some l -> steps_after q d -> d <= 0 -> 1 - d <= zlen q ->
  exists idx b', calculatePreviousInPos b (1 - d) = Ret idx /\ setRtpData pkt idx b = Ret b' /\
    repr b' (<[Z.to_nat (zlen q - 1 + d) := packet_data pkt pay]> q) /\
    gapless (rtp_seq_no l) (rtp_time l) (<[Z.to_nat (zlen q - 1 + d) := packet_data pkt pay]> q).
Proof.
  intros H Hl Hst Hd0 Hd1. unfold steps_after in Hst. rewrite Hl in Hst.
  destruct Hst as (Hd & Hs & Ht & Hg & Es & Et).
  set (i := Z.to_nat (zlen q - 1 + d)).
  destruct (lookup_lt_is_Some_2 q i) as [e He]; [unfold zlen in *; lia|].
  destruct (Hg i e He) as [He1 He2].
  assert (Hi : zlen q - 1 - Z.of_nat i = - d) by (subst i; lia). rewrite Hi in He1, He2.
  destruct (replace_repr b q i e pkt pay H He pay_ok pay_size) as (b' & Hb & Hr & _).
  { intros _ _. rewrite He1, Es. f_equal. lia. }
  exists ((playPos b + (zlen q - (1 - d))) mod cur_max_jbs b), b'.
  split; [apply calculatePreviousInPos_repr; [assumption | lia]|].
  split; [rewrite <- Hb; do 3 f_equal; subst i; lia|]. split; [exact Hr|].
  intros j x Hj. rewrite zlen_insert. apply list_lookup_insert_Some in Hj as [(<- & <- & _)|(_ & Hj)];
    [|now apply Hg].
  rewrite Hi. cbn [packet_data rtp_seq_no rtp_time]. rewrite Es, Et. split; f_equal; lia.
Qed.

(** C31: what storing a packet does to a buffer whose queue has no gaps, that is
    whose timestamps fall by exactly one sample size with every sequence number
    before the newest packet's, when the packet belongs to the same stream: it is
    [d] steps after the newest one in sequence number and in time, or before it
    when [d] is negative, and fewer than 32768 steps away.  Then storing it
    succeeds, leaves a buffer that passes the sanity check, and a queue that again
    has no gaps: an empty buffer (to which any packet may come), or one the packet
    is too far ahead of, is restarted with silence before the packet; a packet
    ahead is appended after one silence for each missing packet; a late one
    replaces the slot of its own sequence number; an older one is dropped.
    Packets whose timestamps do not advance with the sequence number are not of
    such a stream; for them the buffer may abort. *)
Theorem storePacket_gapless b q d :
  repr b q -> steps_after q d ->
  exists b' q', storePacket pkt samples b = Ret b' /\ repr b' q' /\ verifyJbSanity b' = Ret tt /\
    stored (cur_max_jbs b) q d q' /\ exists s t, gapless s t q'.
Proof.
  intros H Hst. pose proof (repr_max _ _ H) as Hm. unfold JITTER_BUFFER_MAX in Hm.
  pose proof (getSequence_range pkt pkt_ok) as Hsr. pose proof (zlen_nonneg q).
  enough (exists b' q', storePacket pkt samples b = Ret b' /\ repr b' q' /\
    stored (cur_max_jbs b) q d q' /\ exists s t, gapless s t q') as (b' & q' & H1 & H2 & H3 & H4)
    by (exists b', q'; pose proof (verify_repr b' q' H2); auto 10).
  unfold storePacket, stored. rewrite (getLastRtpData_repr _ _ H). cbn [mbind outcome_bind].
  destruct (Z.eqb_spec (zlen q) 0) as [E0|N0]; cbn [orb].
  { destruct q as [|x q]; [|rewrite zlen_cons in E0; pose proof (zlen_nonneg q); lia].
    cbn [newest length lookup list_lookup Nat.sub mbind outcome_bind mret outcome_ret].
    destruct (prime_append b H) as (b1 & b' & sil & -> & Ha & Hl & Hs & Hr & Hg).
    cbn [mbind outcome_bind]. eexists b', _. split; [exact Ha|]. split; [exact Hr|].
    split; [exists sil; auto | eauto]. }
  destruct (newest_some q) as [l Hl]; [lia|]. pose proof Hst as Hst'. unfold steps_after in Hst.
  rewrite Hl in *. destruct Hst as (Hd & Hs & Ht & Hg & Es & Et).
  rewrite (seqDifference_near (getSequence pkt) (rtp_seq_no l) d) by (try assumption; lia).
  cbn [mbind outcome_bind]. rewrite s32_small by lia.
  destruct (Z.ltb_spec (cur_max_jbs b) d); cbn [mbind outcome_bind mret outcome_ret].
  { destruct (prime_append (clearJitterBuffer b)) as (b1 & b' & sil & Hp & Ha & Hlen & Hsil & Hr & Hg');
      [apply repr_clear; unfold JITTER_BUFFER_MAX; lia|].
    cbn [cur_max_jbs clearJitterBuffer] in *. rewrite Hp. cbn [mbind outcome_bind].
    eexists b', _. split; [exact Ha|]. split; [exact Hr|]. split; [exists sil; auto | eauto]. }
  unfold RtpSeqGreater. rewrite (wrap_small 16) by lia.
  rewrite (seqDifference_near (getSequence pkt) (rtp_seq_no l) d) by (try assumption; lia).
  cbn [mbind outcome_bind mret outcome_ret]. destruct (Z.ltb_spec 0 d).
  - destruct (patch_gapless (Z.to_nat (d - 1)) patchFuel (getRtpTime pkt) (getSequence pkt) b q l)
      as (b1 & sil & Hp & Hmx & Hr & Hgl & Hlen & Hsil);
      try assumption; try lia; try (unfold patchFuel; lia).
    { rewrite Es. f_equal. lia. }
    { rewrite Et. now replace (Z.of_nat (Z.to_nat (d - 1)) + 1) with d by lia. }
    rewrite (wrap_small 16) in Hp by lia. rewrite Hp. cbn [mbind outcome_bind].
    destruct (append_gapless b1 _ Hr Hgl) as (b' & Ha & _ & Hr' & Hg'). rewrite Hmx in *.
    eexists b', _. split; [exact Ha|]. split; [exact Hr'|]. split; [|eauto].
    exists sil. rewrite pushes_app. auto.
  - rewrite (seqDifference_near (rtp_seq_no l) (getSequence pkt) (- d))
      by (try assumption; try lia; rewrite Es; Z.to_euclidean_division_equations; lia).
    cbn [mbind outcome_bind]. rewrite (count_repr _ _ H). cbn [mbind outcome_bind].
    pose proof (repr_size _ _ H). rewrite s32_small by lia.
    destruct (Z.ltb_spec (zlen q) (- d + 1)), (Z.leb_spec (1 - d) (zlen q)); try lia.
    + exists b, q. eauto 10.
    + destruct (late_gapless b q l d) as (idx & b' & Hi & Hb & Hr & Hg'); try assumption.
      replace (- d + 1) with (1 - d) by lia. rewrite Hi. cbn [mbind outcome_bind]. eauto 10.
Qed.

(** The sanity check on a full buffer whose play position alone has moved. *)
Lemma gap_check_fails b q d0 e :
  repr b (d0 :: q) -> zlen (d0 :: q) = cur_max_jbs b -> 2 <= cur_max_jbs b -> inUse e = true ->
  verifyJbSanity (with_slots (<[Z.to_nat (playPos b) := Some e]> (jitterBuffer b)) (incrementPlayPos b)) =
  Fault AssertFailed.
Proof.
  intros H Hfull H2 He. pose proof (repr_max _ _ H) as Hm. pose proof (repr_play _ _ H) as Hp.
  pose proof (repr_len _ _ H) as Hlen. unfold JITTER_BUFFER_MAX in Hm, Hlen.
  assert (inPos b = playPos b) as Hin by (rewrite (repr_in _ _ H), mod_wrap by lia;
    destruct (Z.ltb_spec (playPos b + zlen (d0 :: q)) (cur_max_jbs b)); lia).
  set (b' := with_slots _ _).
  assert (cur_max_jbs b' = cur_max_jbs b /\ inPos b' = playPos b /\
    playPos b' = (playPos b + 1) mod cur_max_jbs b) as (Em & Ei & Ep)
    by (subst b'; unfold incrementPlayPos; cbn; rewrite Hin, next_pos by lia; auto).
  assert (forall i, 0 <= i < cur_max_jbs b -> exists d, rd (jitterBuffer b') i = Ret (Some d) /\ inUse d = true)
    as Hall.
  { intros i Hi. set (j := if playPos b <=? i then i - playPos b else i - playPos b + cur_max_jbs b).
    assert (0 <= j < cur_max_jbs b /\ i = (playPos b + j) mod cur_max_jbs b) as [Hj Eij].
    { subst j. destruct (Z.leb_spec (playPos b) i); (split; [lia|]); rewrite mod_wrap by lia;
        match goal with |- context [if ?x <? ?y then _ else _] => destruct (Z.ltb_spec x y) end; lia. }
    destruct (slot_exists b (d0 :: q) j H) as [s Hs]; [lia|].
    pose proof (repr_queue_used b (d0 :: q) j s H ltac:(lia) Hs) as Hus. unfold slot in Hs. rewrite <- Eij in Hs.
    subst b'. cbn [jitterBuffer with_slots]. destruct (Z.eqb_spec (playPos b) i) as [E|N].
    - exists e. split; [|assumption]. apply rd_lookup; [lia|]. rewrite lookup_insert_pos by lia.
      destruct (Z.eqb_spec (playPos b) i); [reflexivity | lia].
    - destruct s as [d|]; [|discriminate]. exists d. split; [|exact Hus]. apply rd_lookup; [lia|].
      rewrite lookup_insert_pos by lia. destruct (Z.eqb_spec (playPos b) i); [lia | exact Hs]. }
  assert (forall ex i, 0 <= i < cur_max_jbs b ->
    assertUsed b' ex i = if ex then Ret tt else Fault AssertFailed) as Hat.
  { intros ex i Hi. destruct (Hall i Hi) as (d & Hrd & Hu). unfold assertUsed. rewrite Hrd. cbn. rewrite Hu.
    now destruct ex. }
  assert (getJitterPktsInQueueCount b' = Ret (cur_max_jbs b - 1)) as Hc.
  { unfold getJitterPktsInQueueCount. rewrite Em, Ei, Ep, mod_wrap by lia.
    destruct (Z.ltb_spec (playPos b + 1) (cur_max_jbs b)).
    - destruct (Z.eqb_spec (playPos b) (playPos b + 1)); [lia|].
      destruct (Z.ltb_spec (playPos b) (playPos b + 1)); [|lia].
      rewrite !wrap_small by (rewrite ?wrap_small; lia). unfold mret, outcome_ret. f_equal. lia.
    - destruct (Z.eqb_spec (playPos b) (playPos b + 1 - cur_max_jbs b)); [lia|].
      destruct (Z.ltb_spec (playPos b) (playPos b + 1 - cur_max_jbs b)); [lia|].
      rewrite wrap_small by lia. unfold mret, outcome_ret. f_equal. lia. }
  unfold verifyJbSanity. rewrite Hc, Em. cbn [mbind outcome_bind]. rewrite !s32_small by lia.
  destruct (Z.ltb_spec 0 (cur_max_jbs b - 1)); [|lia].
  rewrite Hat by (rewrite Ep; apply Z.mod_pos_bound; lia). cbn [mbind outcome_bind].
  destruct (Z.eqb_spec (cur_max_jbs b - 1) (cur_max_jbs b)); [lia|].
  rewrite (forEach_ok (Z.to_nat (cur_max_jbs b - 1))).
  - cbn [mbind outcome_bind]. replace (cur_max_jbs b - (cur_max_jbs b - 1)) with 1 by lia.
    change (Z.to_nat (u32 1)) with 1%nat. cbn [forEach]. rewrite Ei, Z.add_0_r.
    rewrite (wrap_small 32 (playPos b)) by lia. destruct (Z.leb_spec (cur_max_jbs b) (playPos b)); [lia|].
    now rewrite Hat by lia.
  - intros k Hk. rewrite Z2Nat.id in Hk by lia. rewrite Ei, s32_u32 by lia. apply Hat.
    destruct (Z.ltb_spec (playPos b - k - 1) 0); lia.
Qed.

(** In a full buffer whose oldest packet does not have the sequence number
    that its place implies, the late packet that belongs to this place is
    stored over it, the play position moves on although the insert position
    does not, and the sanity check that follows fails its assertion. *)
Theorem late_packet_into_gap_aborts b q l d0 :
  repr b q -> 2 <= cur_max_jbs b -> zlen q = cur_max_jbs b -> newest q = Some l -> head q = Some d0 ->
  0 <= rtp_seq_no l < 65536 ->
  getSequence pkt = (rtp_seq_no l - (cur_max_jbs b - 1)) mod 65536 ->
  rtp_seq_no d0 <> getSequence pkt ->
  exists b', storePacket pkt samples b = Ret b' /\ verifyJbSanity b' = Fault AssertFailed.
Proof.
  intros H H2 Hfull Hl Hd0 Hs Es Hne. pose proof (repr_max _ _ H) as Hm. unfold JITTER_BUFFER_MAX in Hm.
  pose proof (getSequence_range pkt pkt_ok) as Hsr. pose proof (repr_play _ _ H) as Hp.
  pose proof (repr_len _ _ H) as Hlen. unfold JITTER_BUFFER_MAX in Hlen.
  destruct q as [|d1 q]; [discriminate|]. injection Hd0 as ->.
  assert (inPos b = playPos b) as Hin by (rewrite (repr_in _ _ H), mod_wrap by lia;
    destruct (Z.ltb_spec (playPos b + zlen (d0 :: q)) (cur_max_jbs b)); lia).
  destruct (rd_playPos _ _ _ H) as [Hrd Hu].
  unfold storePacket. rewrite (getLastRtpData_repr _ _ H), Hl. cbn [mbind outcome_bind].
  set (e := 1 - cur_max_jbs b).
  rewrite (seqDifference_near (getSequence pkt) (rtp_seq_no l) e)
    by (subst e; try assumption; try lia; rewrite Es; f_equal; lia).
  cbn [mbind outcome_bind]. rewrite s32_small by lia.
  destruct (Z.ltb_spec (cur_max_jbs b) e); [lia|]. cbn [mbind outcome_bind mret outcome_ret].
  unfold RtpSeqGreater. rewrite (wrap_small 16) by lia.
  rewrite (seqDifference_near (getSequence pkt) (rtp_seq_no l) e)
    by (subst e; try assumption; try lia; rewrite Es; f_equal; lia).
  cbn [mbind outcome_bind mret outcome_ret]. destruct (Z.ltb_spec 0 e); [lia|].
  rewrite (seqDifference_near (rtp_seq_no l) (getSequence pkt) (- e))
    by (subst e; try assumption; try lia; rewrite Es; Z.to_euclidean_division_equations; lia).
  cbn [mbind outcome_bind]. rewrite (count_repr _ _ H). cbn [mbind outcome_bind].
  rewrite s32_small by lia. destruct (Z.ltb_spec (zlen (d0 :: q)) (- e + 1)); [lia|].
  replace (- e + 1) with (cur_max_jbs b) by lia.
  rewrite (calculatePreviousInPos_repr b (d0 :: q)) by (try assumption; lia).
  rewrite Hfull, Z.sub_diag, Z.add_0_r, Z.mod_small by lia. cbn [mbind outcome_bind].
  unfold setRtpData. rewrite Hrd. cbn [mbind outcome_bind allocated]. rewrite Hu, (count_repr _ _ H), pay_ok.
  cbn [mbind outcome_bind mret outcome_ret]. rewrite Hfull, Z.eqb_refl, (wrap_small 32) by lia.
  rewrite Z.eqb_refl. destruct (Z.eqb_spec (rtp_seq_no d0) (getSequence pkt)); [contradiction|].
  cbn [andb negb]. unfold setData. destruct (Z.leb_spec (zlen pay) MAX_RTP_DATA); [|lia].
  cbn [cassert mbind outcome_bind mret outcome_ret]. destruct (incrementPlayPos_fields b) as (Hi & -> & _).
  rewrite (wr_repr b (d0 :: q)) by assumption. cbn [mbind outcome_bind data].
  eexists. split; [reflexivity|].
  apply (gap_check_fails b q d0); [assumption | assumption | lia | reflexivity].
Qed.

End Arrival.
End Stream.
(** * Time and jitter *)

(** C40: the jitter estimate stays between 0 and 8,000,000 (sixteenths of a
    millisecond), whatever the packet says and whenever it arrives, because a
    delay beyond 500,000 ms is ignored. *)
Theorem jitter_bounded pkt now again r r' :
  updateJitter pkt now again r = Ret r' ->
  0 <= jitter (stats r) <= 8000000 -> 0 <= jitter (stats r') <= 8000000.
Proof.
  unfold updateJitter. intros (tmpntp & _ & [= <-])%bind_Ret_inv Hj. cbn [stats with_stats jitter].
  set (delay := s32 _). set (reset := (500000 <? delay) || (delay <? -500000)).
  assert (jitter (stats (if reset then with_source (with_seed (seedSeq (source r)) again (getRtpTime pkt)
    (source r)) r else r)) = jitter (stats r)) as -> by now destruct reset.
  assert (0 <= (if (if reset then 0 else delay) <? 0 then - (if reset then 0 else delay)
                else if reset then 0 else delay) <= 500000) as Hd.
  { subst reset. destruct (Z.ltb_spec 500000 delay), (Z.ltb_spec delay (-500000)); cbn [orb];
      try (cbn; lia). destruct (Z.ltb_spec delay 0); lia. }
  revert Hd. generalize (if (if reset then 0 else delay) <? 0 then - (if reset then 0 else delay)
    else if reset then 0 else delay). intros x Hx.
  rewrite Z.shiftr_div_pow2 by lia. change (2 ^ 4) with 16.
  Z.to_euclidean_division_equations; lia.
Qed.

(** The time estimated for a packet is the start of the source plus the
    elapsed ticks in milliseconds as long as a thousand times the ticks fit 32
    bits; the offset never exceeds that range, so it starts again from zero
    every 2^32/1000 ticks, long before the timestamp itself wraps. *)
Theorem rtp2ntp_offset r t :
  0 < clockRate r < 2147483648 ->
  let ticks := u32 (t - seedRtpTime (source r)) in
  exists ms, rtp2ntp r t = Ret (ntp_add (seedNtpTime (source r)) ms) /\
    0 <= ms <= 4294967295 / clockRate r /\
    (ticks < 4294968 -> ms = ticks * 1000 / clockRate r) /\
    (4294968 <= ticks < 2 * 4294967 -> ms = (ticks * 1000 - 4294967296) / clockRate r).
Proof.
  intros Hc ticks. unfold rtp2ntp. rewrite !(wrap_small 32 (clockRate r)) by lia.
  destruct (Z.eqb_spec (clockRate r) 0); [lia|]. fold ticks.
  pose proof (wrap32_range (t - seedRtpTime (source r))) as Ht. fold ticks in Ht.
  eexists. split; [reflexivity|]. pose proof (wrap32_range (ticks * 1000)) as Hw.
  split; [|split].
  - split; [apply Z.div_pos; lia | apply Z.div_le_mono; lia].
  - intros Hs. now rewrite wrap_small by lia.
  - intros Hs. f_equal. unfold wrap. symmetry. apply (Z.mod_unique _ _ 1); lia.
Qed.

(** * Sources *)

Lemma initSource_ok pkt now r :
  ssrc (source r) = getSSRC pkt ->
  exists r', initSource pkt now r = Ret r' /\
    source r' = with_seed (getSequence pkt) now (getRtpTime pkt) (source r) /\
    jb r' = clearJitterBuffer (jb r).
Proof. intros E. unfold initSource. rewrite E, Z.eqb_refl. cbn. eauto. Qed.

(** The source that [addSource] installs after the probation. *)
Lemma addSource_switch pkt now r :
  sourceSet (source r) = true -> 4 <= probation (source r) ->
  exists r', addSource pkt now r = Ret (0, r') /\ sourceSet (source r') = true /\
    ssrc (source r') = getSSRC pkt /\ probation (source r') = 0 /\ probationSet (source r') = true /\
    srcProbation (source r') = ssrc (source r) /\ jb r' = clearJitterBuffer (jb r) /\
    seedRtpTime (source r') = getRtpTime pkt.
Proof.
  intros Hset Hp. unfold addSource. rewrite Hset.
  destruct (Z.ltb_spec (probation (source r)) 4); [lia|]. cbn [andb]. cbv zeta.
  cbn [removeSource source with_source sourceSet andb].
  edestruct (fun r0 => initSource_ok pkt now r0) as (r' & E & Hs & Hj); [| rewrite E]; [reflexivity|].
  exists r'. split; [reflexivity|]. rewrite Hs, Hj. repeat (split; [reflexivity|]). reflexivity.
Qed.

(** While a source is set, packets of another one are refused four times,
    each time only counting up the probation; after that the receiver switches
    to the new source with an empty buffer, and refuses the old source from
    then on. *)
Theorem source_switch pkt now r :
  let o := source r in
  sourceSet o = true -> getSSRC pkt <> ssrc o ->
  (probationSet o = true -> getSSRC pkt <> srcProbation o) ->
  (probation o < 4 ->
   updateSource pkt now r = Ret (1, with_source (with_probation (probation o + 1) o) r)) /\
  (4 <= probation o ->
   exists refused r', updateSource pkt now r = Ret (refused, r') /\
     sourceSet (source r') = true /\ ssrc (source r') = getSSRC pkt /\ probation (source r') = 0 /\
     jb r' = clearJitterBuffer (jb r) /\ seedRtpTime (source r') = getRtpTime pkt /\
     forall old now', getSSRC old = ssrc o -> updateSource old now' r' = Ret (1, r')).
Proof.
  intros o Hset Hne Hprob. subst o.
  assert (sourceSet (source r) && (getSSRC pkt =? srcProbation (source r)) && probationSet (source r) = false)
    as Hnot.
  { destruct (probationSet (source r)); [|now rewrite andb_false_r].
    destruct (Z.eqb_spec (getSSRC pkt) (srcProbation (source r))); [now destruct Hprob|].
    now rewrite andb_false_r. }
  assert (forall old r', getSSRC old = ssrc (source r) -> sourceSet (source r') = true ->
    srcProbation (source r') = ssrc (source r) -> probationSet (source r') = true ->
    forall now', updateSource old now' r' = Ret (1, r')) as Hold.
  { intros old r' H1 H2 H3 H4 now'. unfold updateSource. now rewrite H2, H3, H4, H1, Z.eqb_refl. }
  unfold updateSource at 1 2. rewrite Hnot, Hset. cbn [negb orb].
  destruct (Z.eqb_spec (getSSRC pkt) (ssrc (source r))); [contradiction|]. cbn [negb].
  split; intros Hp.
  { unfold addSource. rewrite Hset. cbn [andb].
    destruct (Z.ltb_spec (probation (source r)) 4); [reflexivity | lia]. }
  destruct (addSource_switch pkt now r Hset Hp) as (r1 & -> & H1 & H2 & H3 & H4 & H5 & H6 & H7).
  cbn [mbind outcome_bind Z.eqb negb]. cbv zeta.
  set (r2 := with_source (with_prevSeq _ _ (source r1)) r1).
  assert (probation (source r2) = 0) as -> by exact H3. cbn [Z.leb Z.compare cassert mbind outcome_bind].
  destruct ((getPayloadType pkt =? rtpPayloadCN) || (getPayloadType pkt =? 13)).
  - do 2 eexists. split; [reflexivity|]. repeat (split; [assumption|]). eauto.
  - destruct (negb (getPayloadType pkt =? format r2)).
    + destruct (initSource_ok pkt now r2 H2) as (r3 & -> & Hs & Hj).
      do 2 eexists. split; [reflexivity|]. rewrite Hs, Hj. cbn [jb r2 with_source]. rewrite H6.
      repeat (split; [first [assumption | reflexivity]|]).
      intros old now' E. apply Hold; rewrite ?Hs; assumption.
    + do 2 eexists. split; [reflexivity|]. repeat (split; [assumption|]). eauto.
Qed.

(** * Witnesses *)

(** A packet of one byte with the given sequence number and timestamp. *)
Definition sample_pkt (seq time : Z) : RtpPacket :=
  with_unused (8129 - 12 - 1) (setRtpTime time (setSequence seq
    (mkRtpPacket (zeros (Z.to_nat RTP_MTU)) 8129 0 0 0 false false false false None))).

Lemma sample_pkt_ok seq time : packet_ok (sample_pkt seq time).
Proof.
  apply (field_set_ok FTime), (field_set_ok FSequence).
  split; [cbn [packetData]; rewrite zlen_zeros; reflexivity|]. apply Forall_replicate. split; lia.
Qed.

(** A buffer of eight slots after its first packet, which has the last sequence
    number before they start again. *)
Definition first_queue : list RtpData :=
  [ mkRtpData [] true true 65532 520; mkRtpData [] true true 65533 680;
    mkRtpData [] true true 65534 840; mkRtpData [0] false true 65535 1000 ].

Definition first_jb : JitterBuffer :=
  mkJB 4 0 8 (map Some first_queue ++ replicate (Z.to_nat JITTER_BUFFER_MAX - 4) None).

Lemma first_jb_reached : storePacket (sample_pkt 65535 1000) 160 (sample_jb 8) = Ret first_jb.
Proof. vm_compute. reflexivity. Qed.

Lemma first_jb_repr : repr first_jb first_queue.
Proof.
  split; try (vm_compute; intuition congruence).
  - intros i d Hi. destruct i as [|[|[|[|i]]]]; cbn in Hi; try discriminate Hi;
      injection Hi as <-; split; reflexivity.
  - intros i s Hi1 Hi2. change (zlen first_queue) with 4 in Hi1. cbn [cur_max_jbs playPos first_jb] in *.
    assert (i = 4 \/ i = 5 \/ i = 6 \/ i = 7) as [-> | [-> | [-> | ->]]] by lia;
      vm_compute in Hi2; injection Hi2 as <-; reflexivity.
Qed.

Lemma first_queue_gapless : gapless 160 65535 1000 first_queue.
Proof.
  intros i d H. destruct i as [|[|[|[|i]]]]; cbn in H; try discriminate H; injection H as <-; split; reflexivity.
Qed.

(** The packet 1 after 65535, with 0 missing. *)
Lemma storePacket_gapless_witness :
  exists b' q', storePacket (sample_pkt 1 1320) 160 first_jb = Ret b' /\ repr b' q' /\
    verifyJbSanity b' = Ret tt /\ zlen q' = 6.
Proof.
  assert (payload (sample_pkt 1 1320) = Ret [0]) as Hpay by (vm_compute; reflexivity).
  destruct (storePacket_gapless 160 ltac:(lia) (sample_pkt 1 1320) [0] (sample_pkt_ok _ _) Hpay
    ltac:(vm_compute; discriminate) first_jb first_queue 2 first_jb_repr)
    as (b' & q' & H1 & H2 & H3 & H4 & _).
  - unfold steps_after. change (newest first_queue) with (Some (mkRtpData [0] false true 65535 1000)). cbn [rtp_seq_no rtp_time].
    split; [lia|]. split; [lia|]. split; [lia|]. split; [exact first_queue_gapless|].
    split; vm_compute; reflexivity.
  - exists b', q'. split; [exact H1|]. split; [exact H2|]. split; [exact H3|].
    destruct H4 as (sil & Hl & _ & ->). destruct sil as [|x1 [|x2 sil]]; try discriminate Hl. reflexivity.
Defined.

(** A buffer of four packets filled by 10, 12 and 13: the timestamps show no
    gap between 10 and 12, so none is patched, and the oldest packet is the
    silence numbered 9. *)
Definition gap_queue : list RtpData :=
  [ mkRtpData [] true true 9 840; mkRtpData [0] false true 10 1000;
    mkRtpData [0] false true 12 1160; mkRtpData [0] false true 13 1320 ].

Definition gap_jb : JitterBuffer :=
  mkJB 0 0 4 (map Some gap_queue ++ replicate (Z.to_nat JITTER_BUFFER_MAX - 4) None).

Lemma gap_jb_reached :
  (b ← storePacket (sample_pkt 10 1000) 160 (sample_jb 4);
   b ← storePacket (sample_pkt 12 1160) 160 b;
   storePacket (sample_pkt 13 1320) 160 b) = Ret gap_jb.
Proof. vm_compute. reflexivity. Qed.

Lemma gap_jb_repr : repr gap_jb gap_queue.
Proof.
  split; try (vm_compute; intuition congruence).
  - intros i d Hi. destruct i as [|[|[|[|i]]]]; cbn in Hi; try discriminate Hi;
      injection Hi as <-; split; reflexivity.
  - intros i s Hi. change (zlen gap_queue) with 4 in Hi. cbn [cur_max_jbs gap_jb] in Hi. lia.
Qed.

Lemma late_packet_into_gap_aborts_witness :
  exists b', storePacket (sample_pkt 10 1000) 160 gap_jb = Ret b' /\
    verifyJbSanity b' = Fault AssertFailed.
Proof.
  assert (payload (sample_pkt 10 1000) = Ret [0]) as Hpay by (vm_compute; reflexivity).
  apply (late_packet_into_gap_aborts 160 (sample_pkt 10 1000) [0] (sample_pkt_ok _ _) Hpay
    ltac:(vm_compute; discriminate) gap_jb gap_queue (mkRtpData [0] false true 13 1320)
    (mkRtpData [] true true 9 840) gap_jb_repr);
    try reflexivity; vm_compute; intuition congruence.
Defined.

Definition sample_receiver (prob j : Z) : RtpReceiver :=
  mkRtpReceiver (sample_jb 8)
    (mkSource true 7 false 0 prob 0 (mkNtpTime 1000 0) 500 0 0 false [])
    (mkStats 0 0 0 j 0 0 false 0 []) (sample_pkt 0 0) 0 8000 1 160.

Lemma jitter_bounded_witness :
  exists r', updateJitter (sample_pkt 3 660) (mkNtpTime 1000 4294967000) (mkNtpTime 1001 0)
      (sample_receiver 0 90) = Ret r' /\ 0 <= jitter (stats r') <= 8000000.
Proof.
  assert (exists r', updateJitter (sample_pkt 3 660) (mkNtpTime 1000 4294967000) (mkNtpTime 1001 0)
      (sample_receiver 0 90) = Ret r') as [r' E] by (eexists; vm_compute; reflexivity).
  exists r'. split; [exact E|]. apply (jitter_bounded _ _ _ _ _ E). cbn. lia.
Defined.

Lemma rtp2ntp_offset_witness :
  exists ms, rtp2ntp (sample_receiver 0 0) 8500 = Ret (ntp_add (mkNtpTime 1000 0) ms) /\ ms = 1000.
Proof.
  destruct (rtp2ntp_offset (sample_receiver 0 0) 8500 ltac:(cbn; lia)) as (ms & H1 & _ & H2 & _).
  exists ms. split; [exact H1 | apply H2; vm_compute; reflexivity].
Defined.

Lemma source_switch_witness :
  updateSource (sample_pkt 1 1) (mkNtpTime 5 0) (sample_receiver 2 0) =
  Ret (1, with_source (with_probation 3 (source (sample_receiver 2 0))) (sample_receiver 2 0)).
Proof.
  apply (source_switch (sample_pkt 1 1) (mkNtpTime 5 0) (sample_receiver 2 0));
    try reflexivity; vm_compute; congruence.
Defined.

End RtpReceiverFacts.
