(* ===== verification/RtpTransmitter.v ===== *)
(** The RTP transmitter of rtp/RtpTransmitter.hxx and rtp/RtpTransmitter.cxx:
    the numbering of packets and what is put on the wire.  The clock and the
    random numbers are arguments; what is queued for the socket is a result. *)
From S2P Require Import Prelude RtpTime RtpPacket.
Import RtpTime RtpPacket.

Module RtpTransmitter.

(** [markerOnce] is not set by [initRtpTransmitter]. *)
Record RtpTransmitter := mkTransmitter {
  ssrc : Z;
  seedNtpTime : NtpTime;
  seedRtpTime : Z;
  prevRtpTime : Z;
  prevNtpTime : NtpTime;
  prevSequence : Z;
  packetSent : Z;
  payloadSent : Z;
  format : Z;
  sampleSize : Z;
  perSampleSize : Z;
  clockRate : Z;
  markerOnce : option bool;
  rtp_raw_tx_pkt : RtpPacket
}.

Definition with_raw (p : RtpPacket) (t : RtpTransmitter) : RtpTransmitter :=
  mkTransmitter (ssrc t) (seedNtpTime t) (seedRtpTime t) (prevRtpTime t) (prevNtpTime t) (prevSequence t) (packetSent t)
    (payloadSent t) (format t) (sampleSize t) (perSampleSize t) (clockRate t) (markerOnce t) p.

Definition setMarkerOnce (t : RtpTransmitter) : RtpTransmitter :=
  mkTransmitter (ssrc t) (seedNtpTime t) (seedRtpTime t) (prevRtpTime t) (prevNtpTime t) (prevSequence t) (packetSent t)
    (payloadSent t) (format t) (sampleSize t) (perSampleSize t) (clockRate t) (Some true) (rtp_raw_tx_pkt t).

Definition setSampleSize (n : Z) (t : RtpTransmitter) : RtpTransmitter :=
  mkTransmitter (ssrc t) (seedNtpTime t) (seedRtpTime t) (prevRtpTime t) (prevNtpTime t) (prevSequence t) (packetSent t)
    (payloadSent t) (format t) n (perSampleSize t) (clockRate t) (markerOnce t) (rtp_raw_tx_pkt t).

(** [generateSRC]: the first random number that is not 0. *)
Fixpoint generateSRC (random : list Z) : outcome (Z * list Z) :=
  match random with
  | [] => Fault OutOfFuel
  | x :: r => if x =? 0 then generateSRC r else mret (x, r)
  end.

Definition generate32 (random : list Z) : outcome (Z * list Z) :=
  match random with [] => Fault OutOfFuel | x :: r => mret (x, r) end.

Definition initRtpTransmitter (fmt clockrate per_sample_size samplesize : Z) (now : NtpTime) (random : list Z)
  (t : RtpTransmitter) : outcome (RtpTransmitter * list Z) :=
  '(src, random) ← generateSRC random;
  '(seedTime, random) ← generate32 random;
  '(sequence, random) ← generate32 random;
  mret (mkTransmitter src now seedTime seedTime now sequence 0 0 fmt samplesize per_sample_size clockrate
          (markerOnce t) (rtp_raw_tx_pkt t), random).

(** [rtp_htonl]: the bytes of 16-bit samples are swapped in pairs. *)
Definition rtp_htonl (p : RtpPacket) : outcome RtpPacket :=
  p ← (if getPayloadType p =? rtpPayloadL16_mono then
         d ← swapPairs (Z.to_nat ((getPayloadUsage p + 1) / 2)) (getPayloadLoc p) (packetData p);
         mret (with_data d p)
       else mret p);
  mret (with_flags (sequenceSet p) (timestampSet p) true (converted_to_hbo p) p).

Definition createPacket (raw : bytes) (npad count : Z) (t : RtpTransmitter) : outcome RtpPacket :=
  packet ← newRtpPacket raw 1024 npad count;
  setPayloadType (format t) (setSSRC (ssrc t) packet).

(** [transmit]: its result, what was given to the socket, the packet and the
    transmitter. *)
Definition transmit (pkt : RtpPacket) (eventFlag : bool) (now : NtpTime) (t : RtpTransmitter)
  : outcome (Z * option bytes * RtpPacket * RtpTransmitter) :=
  pkt ← (if converted_to_nbo pkt then mret pkt else rtp_htonl pkt);
  let pkt := if timestampSet pkt then pkt else setRtpTime (u32 (prevRtpTime t + sampleSize t)) pkt in
  let pkt := if sequenceSet pkt then pkt else setSequence (u32 (prevSequence t + 1)) pkt in
  if getPayloadUsage pkt <? 0 then mret (-1, None, pkt, t)
  else
    once ← initialised (markerOnce t);
    let pkt := if once : bool then setMarkerFlag 1 pkt else pkt in
    let pkt := with_flags false false (converted_to_nbo pkt) (converted_to_hbo pkt) pkt in
    sent ← slice (packetData pkt) 0 (getTotalUsage pkt);
    mret (getPayloadUsage pkt, Some sent, pkt,
      mkTransmitter (ssrc t) (seedNtpTime t) (seedRtpTime t)
        (if eventFlag then prevRtpTime t else getRtpTime pkt) (if eventFlag then prevNtpTime t else now)
        (getSequence pkt) (s32 (packetSent t + 1))
        (if eventFlag then payloadSent t else s32 (payloadSent t + getPayloadUsage pkt))
        (format t) (sampleSize t) (perSampleSize t) (clockRate t) (Some false) (rtp_raw_tx_pkt t)).

Definition transmitRaw (data : bytes) (now : NtpTime) (t : RtpTransmitter)
  : outcome (Z * option bytes * RtpTransmitter) :=
  p ← clear (rtp_raw_tx_pkt t);
  let p := recalcPacketAlloc (zlen data) p in
  let p := setSSRC (ssrc t) p in
  p ← setPayloadType (format t) p;
  p ← setPayloadUsage (zlen data) p;
  p ← writePayload data p;
  '(result, sent, p, t) ← transmit p false now t;
  mret (result, sent, with_raw p t).

(** * Events: RtpSession::transmitEvent *)

(** [RtpEventDTMFRFC2833]: event, volume with edge, and a duration that is not
    put into network order. *)
Definition eventPayload (event edge : Z) : bytes := [u8 event; edge * 128 + 10; 160; 0].

(** [transmitEvent] in a state that sends, by a transmitter that is there: the
    packet is sent three times. *)
Definition transmitEvent (raw : bytes) (event : Z) (now : NtpTime) (t : RtpTransmitter)
  : outcome (list bytes * RtpTransmitter) :=
  p ← createPacket raw 0 0 t;
  p ← setPayloadType rtpPayloadDTMF_RFC2833 p;
  p ← setPayloadUsage 4 p;
  p ← writePayload (eventPayload event 0) p;
  '(_, sent1, p, t) ← transmit p true now t;
  p ← writePayload (eventPayload event 1) p;
  '(_, sent2, p, t) ← transmit p true now t;
  p ← setPayloadUsage 0 p;
  '(_, sent3, p, t) ← transmit p true now t;
  mret (omap id [sent1; sent2; sent3], t).

End RtpTransmitter.
