(* ===== verification/Rtcp.v ===== *)
(** RTCP: the packets of rtp/RtcpPacket.cxx, the reports and descriptions of
    rtp/RtcpTransmitter.cxx and the sources of rtp/RtcpReceiver.cxx.

    A packet is the 2048 bytes of its buffer; a pointer into it is an offset,
    and what is read or written beyond the buffer is a fault.  The session has
    one RTP receiver, so that the pointer of a source to its receiver is a
    boolean. *)
From S2P Require Import Prelude RtpTime RtpPacket RtpReceiver RtpTransmitter.
Import RtpTime.
Import RtpPacket(getBits, putBits).

Module Rtcp.

(** * Packets *)

Definition RTCP_PACKETSIZE : Z := 2048.
Definition RTP_VERSION : Z := 2.
Definition rtcpTypeSR : Z := 200.
Definition rtcpTypeRR : Z := 201.
Definition rtcpTypeSDES : Z := 202.
Definition rtcpTypeBYE : Z := 203.
Definition rtcpTypeAPP : Z := 204.

Definition sizeof_RtcpHeader : Z := 4.
Definition sizeof_RtpSrc : Z := 4.
Definition sizeof_RtcpSender : Z := 24.
Definition sizeof_RtcpReport : Z := 24.

Record RtcpPacket := mkRtcpPacket { packetData : bytes; packetAlloc : Z; unusedSize : Z }.

Definition newRtcpPacket : RtcpPacket :=
  mkRtcpPacket (zeros (Z.to_nat RTCP_PACKETSIZE)) RTCP_PACKETSIZE RTCP_PACKETSIZE.

Definition with_data (d : bytes) (p : RtcpPacket) : RtcpPacket := mkRtcpPacket d (packetAlloc p) (unusedSize p).

(** Offset of the free memory. *)
Definition freeData (p : RtcpPacket) : Z := packetAlloc p - unusedSize p.

Definition getTotalUsage (p : RtcpPacket) : Z := packetAlloc p - unusedSize p.

Definition setTotalUsage (size : Z) (p : RtcpPacket) : outcome RtcpPacket :=
  _ ← cassert (size <=? packetAlloc p);
  mret (mkRtcpPacket (packetData p) (packetAlloc p) (packetAlloc p - size)).

(** [memcpy(packetData + off, b, len(b))] *)
Definition write (off : Z) (b : bytes) (p : RtcpPacket) : outcome RtcpPacket :=
  d ← overwrite (packetData p) off b; mret (with_data d p).

(** [allocData]: the memory that is cleared begins behind what was allocated. *)
Definition allocData (s : Z) (p : RtcpPacket) : outcome (Z * RtcpPacket) :=
  _ ← cassert (s <=? unusedSize p);
  let p := mkRtcpPacket (packetData p) (packetAlloc p) (unusedSize p - s) in
  p ← write (freeData p) (zeros (Z.to_nat s)) p;
  mret (s, p).

(** ** The header: version, padding and count in the first byte, the type, and
    the length in words without the first *)

Definition getVersion (d : bytes) (head : Z) : outcome Z := b ← rd d head; mret (getBits 6 2 b).
Definition getPadding (d : bytes) (head : Z) : outcome Z := b ← rd d head; mret (getBits 5 1 b).
Definition getCount (d : bytes) (head : Z) : outcome Z := b ← rd d head; mret (getBits 0 5 b).
Definition getType (d : bytes) (head : Z) : outcome Z := rd d (head + 1).
Definition getLength (d : bytes) (head : Z) : outcome Z := rd16 d (head + 2).

Definition putFlags (head k w v : Z) (p : RtcpPacket) : outcome RtcpPacket :=
  b ← rd (packetData p) head; write head [putBits k w v b] p.

(** [version], [padding], [count] and [type] in the order in which they are set. *)
Definition putHeader (head npadSize count type : Z) (p : RtcpPacket) : outcome RtcpPacket :=
  p ← putFlags head 6 2 RTP_VERSION p;
  p ← putFlags head 5 1 (b2z (0 <? npadSize)) p;
  p ← putFlags head 0 5 count p;
  write (head + 1) [u8 type] p.

Definition putLength (head usage : Z) (p : RtcpPacket) : outcome RtcpPacket :=
  write (head + 2) (enc16 (u16 (Z.quot usage 4 - 1))) p.

(** * Sources: RtpTranInfo *)

Inductive RtcpSDESType := Cname | Name | Email | Phone | Loc | Tool | Note.

Definition sdesCode (item : RtcpSDESType) : Z :=
  match item with Cname => 1 | Name => 2 | Email => 3 | Phone => 4 | Loc => 5 | Tool => 6 | Note => 7 end.

#[export] Instance RtcpSDESType_eq_dec : EqDecision RtcpSDESType.
Proof. solve_decision. Defined.

(** The type of an item that is kept; other types are logged. *)
Definition sdesOf (code : Z) : option RtcpSDESType :=
  find (fun i => sdesCode i =? code) [Cname; Name; Email; Phone; Loc; Tool; Note].

(** The seven arrays of 256 characters. *)
Definition SDESdata : Type := RtcpSDESType -> bytes.

Definition setSdes (item : RtcpSDESType) (a : bytes) (s : SDESdata) : SDESdata :=
  fun i => if decide (i = item) then a else s i.

Record RtpTranInfo := mkTranInfo {
  ssrc : Z;
  recv : bool;
  expectedPrior : Z;
  receivedPrior : Z;
  SDESInfo : SDESdata;
  lastSRTimestamp : Z;
  recvLastSRTimestamp : NtpTime
}.

Definition with_recv (b : bool) (s : RtpTranInfo) : RtpTranInfo :=
  mkTranInfo (ssrc s) b (expectedPrior s) (receivedPrior s) (SDESInfo s) (lastSRTimestamp s) (recvLastSRTimestamp s).
Definition with_prior (e r : Z) (s : RtpTranInfo) : RtpTranInfo :=
  mkTranInfo (ssrc s) (recv s) e r (SDESInfo s) (lastSRTimestamp s) (recvLastSRTimestamp s).
Definition with_sdes (x : SDESdata) (s : RtpTranInfo) : RtpTranInfo :=
  mkTranInfo (ssrc s) (recv s) (expectedPrior s) (receivedPrior s) x (lastSRTimestamp s) (recvLastSRTimestamp s).
Definition with_lastSR (stamp : Z) (t : NtpTime) (s : RtpTranInfo) : RtpTranInfo :=
  mkTranInfo (ssrc s) (recv s) (expectedPrior s) (receivedPrior s) (SDESInfo s) stamp t.

(** [map<RtpSrc, Sptr<RtpTranInfo>>], in the order of its keys. *)
Definition tranInfos : Type := list (Z * RtpTranInfo).

Fixpoint findInfo (src : Z) (l : tranInfos) : option RtpTranInfo :=
  match l with [] => None | (k, s) :: l => if k =? src then Some s else findInfo src l end.

(** [insert] of a key that may be there, and the second of its result. *)
Fixpoint insertInfo (src : Z) (s : RtpTranInfo) (l : tranInfos) : bool * tranInfos :=
  match l with
  | [] => (true, [(src, s)])
  | (k, x) :: r =>
      if k =? src then (false, l)
      else if src <? k then (true, (src, s) :: l)
      else let '(b, r') := insertInfo src s r in (b, (k, x) :: r')
  end.

(** A store through the pointer that was found. *)
Definition setInfo (src : Z) (s : RtpTranInfo) (l : tranInfos) : tranInfos :=
  map (fun e => if e.1 =? src then (e.1, s) else e) l.

Definition eraseInfo (src : Z) (l : tranInfos) : tranInfos := List.filter (fun e => negb (e.1 =? src)) l.

(** [getTranInfoList] *)
Definition getTranInfoList (index : Z) (l : tranInfos) : outcome RtpTranInfo :=
  _ ← cassert (0 <=? index);
  _ ← cassert (index <? zlen l);
  e ← rd l index; mret e.2.

(** * The transmitter *)

(** The texts of the transmitter's own description, unless they were never
    set. *)
Definition ownSDES : Type := RtcpSDESType -> option bytes.

Record RtcpTransmitter := mkRtcpTransmitter {
  nextInterval : NtpTime;
  ownInfo : option ownSDES;          (** null until an RTP transmitter is set *)
  tran : option RtpTransmitter.RtpTransmitter;
  hasReceiver : bool                 (** an RTCP receiver is attached *)
}.

Definition RTCP_INTERVAL : Z := 5000.

(** [updateInterval]; [random] is what rand() / (RAND_MAX / 1000) gives. *)
Definition updateInterval (random : Z) (t : RtcpTransmitter) : RtcpTransmitter :=
  let delayMs := Z.quot (RTCP_INTERVAL * (500 + random)) 1000 in
  mkRtcpTransmitter (ntp_add (nextInterval t) (u32 delayMs)) (ownInfo t) (tran t) (hasReceiver t).

Definition checkInterval (now : NtpTime) (random : Z) (t : RtcpTransmitter) : bool * RtcpTransmitter :=
  if ntp_gt now (nextInterval t) then (true, updateInterval random t) else (false, t).

Definition newRtcpTransmitter (now : NtpTime) (random : Z) : RtcpTransmitter :=
  updateInterval random (mkRtcpTransmitter now None None false).

Definition setRTPtran (s : RtpTransmitter.RtpTransmitter) (t : RtcpTransmitter) : RtcpTransmitter :=
  mkRtcpTransmitter (nextInterval t) (match ownInfo t with Some i => Some i | None => Some (fun _ => None) end)
    (Some s) (hasReceiver t).

(** [setSdesName] and the others; [strlen(text) < 255], or 256 for a phone. *)
Definition setSdesText (item : RtcpSDESType) (text : bytes) (t : RtcpTransmitter) : outcome RtcpTransmitter :=
  _ ← cassert (zlen text <? match item with Phone => 256 | _ => 255 end);
  i ← deref (ownInfo t);
  mret (mkRtcpTransmitter (nextInterval t) (Some (fun x => if decide (x = item) then Some text else i x)) (tran t) (hasReceiver t)).

(** [setSdesCname], of the process and the host. *)
Definition setSdesCname (pid hn : bytes) (t : RtcpTransmitter) : outcome RtcpTransmitter :=
  i ← deref (ownInfo t);
  let cname := take 147 (str "unknown_user." ++ pid ++ str "@" ++ hn) in
  mret (mkRtcpTransmitter (nextInterval t) (Some (fun x => if decide (x = Cname) then Some cname else i x)) (tran t) (hasReceiver t)).

Definition getSdes (item : RtcpSDESType) (t : RtcpTransmitter) : outcome bytes :=
  i ← deref (ownInfo t); initialised (i item).

(** ** Reports *)

Section Reports.
Variable r : RtpReceiver.RtpReceiver.

Abbreviation source := (RtpReceiver.source r).
Abbreviation stats := (RtpReceiver.stats r).

(** What is expected of the source so far, in an [unsigned int]. *)
Definition expectedPackets : Z :=
  u32 (RtpReceiver.recv_cycles source + RtpReceiver.realPrevSeqRecv source - RtpReceiver.seedSeq source + 1).

(** [calcLostFrac], and the source with its new priors. *)
Definition calcLostFrac (s : RtpTranInfo) : Z * RtpTranInfo :=
  let expected := expectedPackets in
  let expected_interval := u32 (expected - expectedPrior s) in
  let received_interval := u32 (RtpReceiver.packetReceived stats - receivedPrior s) in
  let lost_interval := u32 (expected_interval - received_interval) in
  (if (expected_interval =? 0) || (lost_interval =? 0) then 0
   else u32 (Z.shiftl lost_interval 8) / expected_interval,
   with_prior (s32 expected) (RtpReceiver.packetReceived stats) s).

Definition calcLostCount : Z := u32 (expectedPackets - RtpReceiver.packetReceived stats).

(** [lastSRDelay] of a report, in what the comment calls 1/65536 seconds. *)
Definition lastSRDelay (nowNtp : NtpTime) (s : RtpTranInfo) : Z :=
  if lastSRTimestamp s =? 0 then 0
  else if ntp_gt nowNtp (recvLastSRTimestamp s)
       then u32 (u32 (getMs nowNtp - getMs (recvLastSRTimestamp s)) * 65) else 0.

(** The fields of a report block, and the source. *)
Definition reportBlock (nowNtp : NtpTime) (s : RtpTranInfo) : bytes * RtpTranInfo :=
  let '(fraction, s) := calcLostFrac s in
  let lost := Z.land calcLostCount 16777215 in
  (enc32 (RtpReceiver.ssrc source) ++ [u8 fraction] ++
   [u8 (Z.shiftr (Z.land lost 16711680) 16); u8 (Z.shiftr (Z.land lost 65280) 8); Z.land lost 255] ++
   enc16 (u16 (RtpReceiver.recv_cycles source)) ++ enc16 (RtpReceiver.realPrevSeqRecv source) ++
   enc32 (u32 (Z.shiftr (RtpReceiver.jitter stats) 4)) ++
   enc32 (lastSRTimestamp s) ++ enc32 (lastSRDelay nowNtp s), s).

(** The loop over the sources; [head] is the header, whose count has five bits. *)
Fixpoint reportLoop (head : Z) (nowNtp : NtpTime) (l : tranInfos) (usage : Z) (p : RtcpPacket)
  : outcome (Z * RtcpPacket * tranInfos) :=
  match l with
  | [] => mret (usage, p, [])
  | (k, s) :: l =>
      '(usage, p, s) ←
        (if negb (recv s) then mret (usage, p, s)
         else if RtpReceiver.probation source <? 0 then mret (usage, p, s)
         else
           let block := freeData p in
           '(n, p) ← allocData sizeof_RtcpReport p;
           let '(b, s) := reportBlock nowNtp s in
           p ← write block b p;
           count ← getCount (packetData p) head;
           p ← putFlags head 0 5 (count + 1) p;
           mret (usage + n, p, s));
      '(usage, p, l) ← reportLoop head nowNtp l usage p;
      mret (usage, p, (k, s) :: l)
  end.

(** The time of the media at the time of the report, computed in an [int]. *)
Definition mediaTime (nowNtp : NtpTime) (t : RtpTransmitter.RtpTransmitter) : Z :=
  let seed := RtpTransmitter.seedNtpTime t in
  let diffNtp := if ntp_gt nowNtp seed then s32 (ntp_diff nowNtp seed)
                 else if ntp_gt seed nowNtp then s32 (ntp_diff seed nowNtp) else 0 in
  let diffRtp := u32 (Z.quot (s32 (diffNtp * RtpTransmitter.clockRate t)) 1000) in
  u32 (RtpTransmitter.seedRtpTime t + diffRtp).

(** The sender's part of a report. *)
Definition senderInfo (nowNtp : NtpTime) (t : RtpTransmitter.RtpTransmitter) : bytes :=
  enc32 (RtpTransmitter.ssrc t) ++ enc32 (getSeconds nowNtp) ++ enc32 (getFractional nowNtp) ++
  enc32 (mediaTime nowNtp t) ++ enc32 (u32 (RtpTransmitter.packetSent t)) ++ enc32 (u32 (RtpTransmitter.payloadSent t)).

(** [addSR]; [infos] are the sources of the RTCP receiver, if there is one. *)
Definition addSR (t : RtcpTransmitter) (infos : tranInfos) (nowNtp : NtpTime) (npadSize : Z) (p : RtcpPacket)
  : outcome (Z * RtcpPacket * tranInfos) :=
  let head := freeData p in
  '(usage, p) ← allocData sizeof_RtcpHeader p;
  p ← putHeader head npadSize 0 (match tran t with Some _ => rtcpTypeSR | None => rtcpTypeRR end) p;
  '(usage, p) ← match tran t with
                | Some x =>
                    let info := freeData p in
                    '(n, p) ← allocData sizeof_RtcpSender p;
                    p ← write info (senderInfo nowNtp x) p;
                    mret (usage + n, p)
                | None =>
                    let chunk := freeData p in
                    '(n, p) ← allocData sizeof_RtpSrc p;
                    p ← write chunk [0; 0; 0; 0] p;
                    mret (usage + n, p)
                end;
  '(usage, p, infos) ← (if hasReceiver t then reportLoop head nowNtp infos usage p else mret (usage, p, infos));
  _ ← cassert (npadSize <=? 0);
  _ ← cassert (usage mod 4 =? 0);
  p ← putLength head usage p;
  mret (usage, p, infos).

End Reports.

(** ** Descriptions *)

(** The end of a packet of items: up to a multiple of four, and the length. *)
Definition endPacket (head npadSize usage : Z) (p : RtcpPacket) : outcome (Z * RtcpPacket) :=
  _ ← cassert (npadSize <=? 0);
  '(usage, p) ← (if usage mod 4 =? 0 then mret (usage, p)
                 else '(n, p) ← allocData (4 - usage mod 4) p; mret (usage + n, p));
  p ← putLength head usage p;
  mret (usage, p).

(** One item: its text is written before the memory for it is allocated. *)
Definition addItem (code : Z) (text : bytes) (usage : Z) (p : RtcpPacket) : outcome (Z * RtcpPacket) :=
  let item := freeData p in
  '(n, p) ← allocData 2 p;
  p ← write (item + 2) text p;
  p ← write (item + 1) [u8 (zlen text)] p;
  p ← write item [code] p;
  '(m, p) ← allocData (u8 (zlen text)) p;
  mret (usage + n + m, p).

Fixpoint addItems (t : RtcpTransmitter) (l : list RtcpSDESType) (usage : Z) (p : RtcpPacket) : outcome (Z * RtcpPacket) :=
  match l with
  | [] => mret (usage, p)
  | item :: l =>
      text ← getSdes item t;
      '(usage, p) ← addItem (sdesCode item) text usage p;
      addItems t l usage p
  end.

(** [addSDES] of a list: -1 when there is no transmitter. *)
Definition addSDESlist (t : RtcpTransmitter) (l : list RtcpSDESType) (npadSize : Z) (p : RtcpPacket)
  : outcome (Z * RtcpPacket) :=
  match tran t with
  | None => mret (-1, p)
  | Some x =>
      let head := freeData p in
      '(usage, p) ← allocData sizeof_RtcpHeader p;
      p ← putHeader head npadSize 1 rtcpTypeSDES p;
      let chunk := freeData p in
      '(n, p) ← allocData sizeof_RtpSrc p;
      p ← write chunk (enc32 (RtpTransmitter.ssrc x)) p;
      '(usage, p) ← addItems t l (usage + n) p;
      let item := freeData p in
      '(n, p) ← allocData 2 p;
      p ← write item [0; 0] p;
      endPacket head npadSize (usage + n) p
  end.

Definition addSDESitem (t : RtcpTransmitter) (item : RtcpSDESType) (npadSize : Z) (p : RtcpPacket)
  : outcome (Z * RtcpPacket) :=
  match tran t with None => mret (-1, p) | Some _ => addSDESlist t [item] npadSize p end.

(** The items of the list whose texts are not empty. *)
Fixpoint nonEmpty (t : RtcpTransmitter) (l : list RtcpSDESType) : outcome (list RtcpSDESType) :=
  match l with
  | [] => mret []
  | item :: l => text ← getSdes item t; l ← nonEmpty t l; mret (if 0 <? zlen text then item :: l else l)
  end.

Definition addSDES (t : RtcpTransmitter) (npadSize : Z) (p : RtcpPacket) : outcome (Z * RtcpPacket) :=
  match tran t with
  | None => mret (-1, p)
  | Some _ =>
      l ← nonEmpty t [Cname; Name; Email; Phone; Loc; Tool; Note];
      addSDESlist t l npadSize p
  end.

(** ** Leaving *)

Fixpoint addSources (l : list Z) (usage : Z) (p : RtcpPacket) : outcome (Z * RtcpPacket) :=
  match l with
  | [] => mret (usage, p)
  | src :: l =>
      let s := freeData p in
      '(n, p) ← allocData sizeof_RtpSrc p;
      p ← write s (enc32 src) p;
      addSources l (usage + n) p
  end.

(** [addBYE] of a list of sources. *)
Definition addBYElist (l : list Z) (reason : option bytes) (npadSize : Z) (p : RtcpPacket) : outcome (Z * RtcpPacket) :=
  _ ← cassert (0 <? zlen l);
  let head := freeData p in
  '(usage, p) ← allocData sizeof_RtcpHeader p;
  p ← putHeader head npadSize (zlen l) rtcpTypeBYE p;
  '(usage, p) ← addSources l usage p;
  '(usage, p) ← match reason with
                | None => mret (usage, p)
                | Some text =>
                    let bye := freeData p in
                    '(n, p) ← allocData 1 p;
                    let length := u8 (zlen text) in
                    p ← write bye [length] p;
                    p ← write (bye + 1) (take (Z.to_nat length) text) p;
                    '(m, p) ← allocData length p;
                    mret (usage + n + m, p)
                end;
  endPacket head npadSize usage p.

Definition addBYE (t : RtcpTransmitter) (reason : option bytes) (npadSize : Z) (p : RtcpPacket) : outcome (Z * RtcpPacket) :=
  match tran t with None => mret (-1, p) | Some x => addBYElist [RtpTransmitter.ssrc x] reason npadSize p end.

(** [transmit]: what is given to the socket. *)
Definition transmit (p : RtcpPacket) : outcome bytes := slice (packetData p) 0 (getTotalUsage p).

End Rtcp.
