(* ===== verification/RtcpReceiver.v ===== *)
(** The RTCP receiver of rtp/RtcpReceiver.hxx and rtp/RtcpReceiver.cxx: which
    datagrams are taken as RTCP packets, what is read from them, and the sources
    it keeps together with the RTP receiver; and the RTCP part of
    rtp/RtpSession.cxx. *)
From S2P Require Import Prelude RtpTime RtpPacket RtpReceiver RtpTransmitter Rtcp.
Import RtpTime Rtcp.

Module RtcpReceiver.

Record RtcpReceiver := mkRtcpReceiver {
  tranInfoList : tranInfos;
  packetReceived : Z;
  accumOneWayDelay : Z;
  avgOneWayDelay : Z;
  accumRoundTripDelay : Z;
  avgRoundTripDelay : Z
}.

Definition constructRtcpReceiver : RtcpReceiver := mkRtcpReceiver [] 0 0 0 0 0.

Definition with_infos (l : tranInfos) (c : RtcpReceiver) : RtcpReceiver :=
  mkRtcpReceiver l (packetReceived c) (accumOneWayDelay c) (avgOneWayDelay c) (accumRoundTripDelay c) (avgRoundTripDelay c).

(** The RTCP receiver with the RTP receiver its sources may point to. *)
Definition receivers : Type := RtcpReceiver * RtpReceiver.RtpReceiver.

Section Receiver.
(** The memory in which an RtpTranInfo is built, and the clock. *)
Variable raw : SDESdata.
Variable nowNtp : NtpTime.

(** * Sources *)

Definition newTranInfo (src : Z) (recv : bool) : RtpTranInfo := mkTranInfo src recv 0 0 raw 0 nowNtp.

(** [addTranFinal]: whether the source was there already. *)
Definition addTranFinal (s : RtpTranInfo) (c : RtcpReceiver) : bool * RtcpReceiver :=
  let '(inserted, l) := insertInfo (Rtcp.ssrc s) s (tranInfoList c) in (negb inserted, with_infos l c).

(** [findTranInfo]: a source that is not there is added, without a receiver. *)
Definition findTranInfo (src : Z) (c : RtcpReceiver) : RtpTranInfo * RtcpReceiver :=
  match findInfo src (tranInfoList c) with
  | Some s => (s, c)
  | None => let s := newTranInfo src false in (s, (addTranFinal s c).2)
  end.

(** [addTranInfo] with the RTP receiver, whose source is [src]. *)
Definition addTranInfo (src : Z) (s : receivers) : outcome receivers :=
  let '(c, r) := s in
  _ ← cassert (src =? RtpReceiver.ssrc (RtpReceiver.source r));
  let '(there, c) := addTranFinal (newTranInfo src true) c in
  if there then
    let '(info, c) := findTranInfo src c in
    _ ← cassert (negb (recv info));
    mret (with_infos (setInfo src (with_recv true info) (tranInfoList c)) c, r)
  else mret (c, r).

Definition removeTranInfo (src : Z) (flag : bool) (s : receivers) : outcome receivers :=
  let '(c, r) := s in
  match findInfo src (tranInfoList c) with
  | None => Fault AssertFailed
  | Some info =>
      let r := if recv info && negb flag then RtpReceiver.removeSource (Rtcp.ssrc info) true r else r in
      mret (with_infos (eraseInfo src (tranInfoList c)) c, r)
  end.

(** What the RTP receiver asked for. *)
Definition rtcpCall (x : RtpReceiver.rtcpCall) (s : receivers) : outcome receivers :=
  match x with
  | RtpReceiver.addTranInfo src => addTranInfo src s
  | RtpReceiver.removeTranInfo src => removeTranInfo src true s
  end.

(** * Reports *)

(** The signed difference of two times, through an [int]. *)
Definition difference (now then_ : Z) : Z := if now <? then_ then s32 (- s32 (then_ - now)) else s32 (now - then_).

Definition average (total count : Z) : outcome Z := if count =? 0 then Fault DivByZero else mret (Z.quot total count).

(** The report blocks, of whatever sources. *)
Fixpoint readBlocks (n : nat) (d : bytes) (block : Z) (c : RtcpReceiver) : outcome RtcpReceiver :=
  match n with
  | O => mret c
  | S n =>
      srt ← rd32 d (block + 16);
      let thenNtp := mkNtpTime (Z.land (Z.shiftr srt 16) 65535) (u32 (Z.shiftl srt 16)) in
      let nowNtp1 := mkNtpTime (Z.land (getSeconds nowNtp) 65535) (Z.land (getFractional nowNtp) 4294901760) in
      let nowN := getMs nowNtp1 in
      let thenN := getMs thenNtp in
      let diff := difference nowN thenN in
      ld ← rd32 d (block + 20);
      c ← (if negb (thenN =? 0) then
             let diff := s32 (diff - ld / 65) in
             let total := s32 (accumRoundTripDelay c + diff) in
             avg ← average total (packetReceived c);
             mret (mkRtcpReceiver (tranInfoList c) (packetReceived c) (accumOneWayDelay c) (avgOneWayDelay c) total avg)
           else mret c);
      readBlocks n d (block + sizeof_RtcpReport) c
  end.

(** The sender's part: its source, the time of sending, and the delay. *)
Definition readSender (d : bytes) (head : Z) (c : RtcpReceiver) : outcome RtcpReceiver :=
  let sender := head + sizeof_RtcpHeader in
  src ← rd32 d sender;
  let '(s, c) := findTranInfo src c in
  nts ← rd32 d (sender + 4);
  ntf ← rd32 d (sender + 8);
  let stamp := Z.lor (u32 (Z.shiftl nts 16)) (Z.land (Z.shiftr ntf 16) 65535) in
  let c := with_infos (setInfo src (with_lastSR stamp nowNtp s) (tranInfoList c)) c in
  let packetReceived := s32 (packetReceived c + 1) in
  let diff := difference (getMs nowNtp) (getMs (mkNtpTime nts ntf)) in
  let total := s32 (accumOneWayDelay c + diff) in
  avg ← average total packetReceived;
  mret (mkRtcpReceiver (tranInfoList c) packetReceived total avg (accumRoundTripDelay c) (avgRoundTripDelay c)).

Definition readSR (d : bytes) (head : Z) (c : RtcpReceiver) : outcome RtcpReceiver :=
  type ← getType d head;
  '(middle, c) ← (if type =? rtcpTypeSR then
                    c ← readSender d head c; mret (head + sizeof_RtcpHeader + sizeof_RtcpSender, c)
                  else
                    mret (head + sizeof_RtcpHeader + sizeof_RtpSrc,
                      mkRtcpReceiver (tranInfoList c) (s32 (packetReceived c + 1)) (accumOneWayDelay c) (avgOneWayDelay c)
                        (accumRoundTripDelay c) (avgRoundTripDelay c)));
  count ← getCount d head;
  readBlocks (Z.to_nat count) d middle c.

(** * Descriptions *)

(** [strncpy(dst, d + i, n)]: what is written to [dst]. *)
Fixpoint strncpy (n : nat) (d : bytes) (i : Z) : outcome bytes :=
  match n with
  | O => mret []
  | S m => b ← rd d i; if b =? 0 then mret (zeros n) else r ← strncpy m d (i + 1); mret (b :: r)
  end.

(** [addSDESItem]: one more character than the item has is copied. *)
Definition addSDESItem (src : Z) (d : bytes) (item : Z) (c : RtcpReceiver) : outcome RtcpReceiver :=
  let '(s, c) := findTranInfo src c in
  type ← rd d item;
  match sdesOf type with
  | None => mret c
  | Some i =>
      length ← rd d (item + 1);
      text ← strncpy (Z.to_nat (length + 1)) d (item + 2);
      a ← overwrite (SDESInfo s i) 0 text;
      mret (with_infos (setInfo src (with_sdes (setSdes i a (SDESInfo s)) s) (tranInfoList c)) c)
  end.

(** The items from [item] on, up to one of type 0, whose place is returned. *)
Fixpoint readItems (fuel : nat) (src : Z) (d : bytes) (item : Z) (c : RtcpReceiver) : outcome (Z * RtcpReceiver) :=
  match fuel with
  | O => Fault OutOfFuel
  | S fuel =>
      type ← rd d item;
      if type =? 0 then mret (item, c)
      else
        c ← addSDESItem src d item c;
        length ← rd d (item + 1);
        readItems fuel src d (item + 2 + length) c
  end.

(** An item has two bytes at least. *)
Definition itemFuel : nat := Z.to_nat (RTCP_PACKETSIZE / 2 + 1).

(** The chunks: the next begins at the zero that ends the items of the last. *)
Fixpoint readChunks (n : nat) (d : bytes) (middle : Z) (c : RtcpReceiver) : outcome RtcpReceiver :=
  match n with
  | O => mret c
  | S n =>
      src ← rd32 d middle;
      '(item, c) ← readItems itemFuel src d (middle + 4) c;
      readChunks n d item c
  end.

Definition readSDES (d : bytes) (head : Z) (c : RtcpReceiver) : outcome RtcpReceiver :=
  count ← getCount d head; readChunks (Z.to_nat count) d (head + sizeof_RtcpHeader) c.

(** * Leaving *)

Fixpoint removeSources (n : nat) (d : bytes) (src : Z) (s : receivers) : outcome receivers :=
  match n with
  | O => mret s
  | S n => x ← rd32 d src; s ← removeTranInfo x false s; removeSources n d (src + 4) s
  end.

Definition readBYE (d : bytes) (head : Z) (s : receivers) : outcome receivers :=
  count ← getCount d head; removeSources (Z.to_nat count) d (head + sizeof_RtcpHeader) s.

(** * Compound packets *)

(** The place at which the headers of the right version end. *)
Fixpoint headersEnd (fuel : nat) (d : bytes) (begin_ end_ : Z) : outcome Z :=
  match fuel with
  | O => Fault OutOfFuel
  | S fuel =>
      if begin_ + sizeof_RtcpHeader <=? end_ then
        version ← getVersion d begin_;
        if version =? RTP_VERSION then
          length ← getLength d begin_;
          headersEnd fuel d (begin_ + (length + 1) * 4) end_
        else mret begin_
      else mret begin_
  end.

(** A header has four bytes. *)
Definition headerFuel : nat := Z.to_nat (RTCP_PACKETSIZE / 4 + 1).

Definition isValid (p : RtcpPacket) : outcome bool :=
  let d := packetData p in
  type ← getType d 0;
  if negb (type =? rtcpTypeSR) && negb (type =? rtcpTypeRR) then mret false
  else
    padding ← getPadding d 0;
    if negb (padding =? 0) then mret false
    else e ← headersEnd headerFuel d 0 (getTotalUsage p); mret (e =? getTotalUsage p).

(** One packet of a compound, and whether it was a BYE. *)
Definition readPacket (d : bytes) (head : Z) (s : receivers) : outcome (bool * receivers) :=
  let '(c, r) := s in
  type ← getType d head;
  if (type =? rtcpTypeSR) || (type =? rtcpTypeRR) then c ← readSR d head c; mret (false, (c, r))
  else if type =? rtcpTypeSDES then c ← readSDES d head c; mret (false, (c, r))
  else if type =? rtcpTypeBYE then s ← readBYE d head s; mret (true, s)
  else if type =? rtcpTypeAPP then Fault AssertFailed
  else mret (false, s).

Fixpoint readLoop (fuel : nat) (d : bytes) (begin_ end_ : Z) (ret : bool) (s : receivers) : outcome (bool * receivers) :=
  match fuel with
  | O => Fault OutOfFuel
  | S fuel =>
      if begin_ <? end_ then
        '(bye, s) ← readPacket d begin_ s;
        length ← getLength d begin_;
        readLoop fuel d (begin_ + (length + 1) * 4) end_ (ret || bye) s
      else mret (ret, s)
  end.

(** [readRTCP]: whether a BYE was among the packets. *)
Definition readRTCP (p : RtcpPacket) (s : receivers) : outcome (bool * receivers) :=
  readLoop headerFuel (packetData p) 0 (getTotalUsage p) false s.

(** [findRTCP]: the first packet of the type. *)
Fixpoint findLoop (fuel : nat) (d : bytes) (type begin_ end_ : Z) : outcome (option Z) :=
  match fuel with
  | O => Fault OutOfFuel
  | S fuel =>
      if begin_ <? end_ then
        t ← getType d begin_;
        if type =? t then mret (Some begin_)
        else length ← getLength d begin_; findLoop fuel d type (begin_ + (length + 1) * 4) end_
      else mret None
  end.

Definition findRTCP (p : RtcpPacket) (type : Z) : outcome (option Z) :=
  findLoop headerFuel (packetData p) type 0 (getTotalUsage p).

(** [getPacket] into a packet: its result and the packet. *)
Definition getPacket (n : RtpReceiver.net) (p : RtcpPacket) : outcome (Z * RtcpPacket) :=
  match n with
  | RtpReceiver.NoData => mret (0, p)
  | RtpReceiver.ReceiveError => mret (-1, p)
  | RtpReceiver.Datagram x =>
      let got := take (Z.to_nat (packetAlloc p)) x in
      if zlen got =? 0 then mret (0, p)
      else
        p ← write 0 got p;
        p ← setTotalUsage (zlen got) p;
        valid ← isValid p;
        mret (if valid : bool then zlen got else - RtpReceiver.EINVAL, p)
  end.

(** [RtpSession::receiveRTCP]; [state] is whether the session may receive. *)
Definition receiveRTCP (state : bool) (n : RtpReceiver.net) (s : receivers) : outcome (Z * receivers) :=
  '(len, p) ← getPacket n newRtcpPacket;
  if negb state then mret (-1, s)
  else if 0 <? len then
    '(bye, s) ← readRTCP p s;
    mret (if bye : bool then 1 else 2, s)
  else mret (-1, s).

(** What the RTP receiver asked of the RTCP receiver, in the order of its calls. *)
Definition serve (s : receivers) : outcome receivers :=
  let '(c, r) := s in
  let o := RtpReceiver.source r in
  let calls := RtpReceiver.rtcpCalls o in
  let r := RtpReceiver.with_source (RtpReceiver.mkSource (RtpReceiver.sourceSet o) (RtpReceiver.ssrc o) (RtpReceiver.probationSet o)
    (RtpReceiver.srcProbation o) (RtpReceiver.probation o) (RtpReceiver.seedSeq o) (RtpReceiver.seedNtpTime o)
    (RtpReceiver.seedRtpTime o) (RtpReceiver.realPrevSeqRecv o) (RtpReceiver.recv_cycles o) (RtpReceiver.rtcpRecv o) []) r in
  foldr (fun x k s => s ← rtcpCall x s; k s) (fun s => mret s) calls (c, r).

(** A packet for the RTP receiver, with what it asks of the RTCP receiver. *)
Definition receiveRTP (n : RtpReceiver.net) (dtmf : bool) (clk : RtpReceiver.clocks) (s : receivers) : outcome (Z * receivers) :=
  '(rv, r) ← RtpReceiver.readNetwork n dtmf clk s.2;
  s ← serve (s.1, r);
  mret (rv, s).

End Receiver.

(** * The session *)

(** [transmitRTCP] of a session that may send: the datagram, and the sources. *)
Definition transmitRTCP (r : RtpReceiver.RtpReceiver) (now : NtpTime) (t : RtcpTransmitter) (infos : tranInfos)
  : outcome (bytes * tranInfos) :=
  '(_, p, infos) ← addSR r t infos now 0 newRtcpPacket;
  '(_, p) ← match tran t with Some _ => addSDES t 0 p | None => mret (0, p) end;
  d ← transmit p;
  mret (d, infos).

Definition transmitRTCPBYE (r : RtpReceiver.RtpReceiver) (now : NtpTime) (t : RtcpTransmitter) (infos : tranInfos)
  : outcome (bytes * tranInfos) :=
  '(_, p, infos) ← addSR r t infos now 0 newRtcpPacket;
  '(_, p) ← match tran t with
            | Some _ => '(_, p) ← addSDESitem t Cname 0 p; addBYE t (Some (str "Program Ended.")) 0 p
            | None => mret (0, p)
            end;
  d ← transmit p;
  mret (d, infos).

End RtcpReceiver.
