(* ===== verification/RtcpFacts.v ===== *)
(** Lemmas on RTCP packets: what the transmitter has written is a prefix of the
    buffer with zeros behind it, and a compound packet is read one packet at a
    time. *)
From S2P Require Import Prelude RtpTime RtpPacket RtpReceiver RtpTransmitter Rtcp RtcpReceiver.
Import RtpTime Rtcp RtcpReceiver.
Import RtpPacket(getBits, putBits).

Module RtcpFacts.

(** One step of the monad, into the fields of a packet. *)
Ltac step := unfold with_data; cbn [mbind outcome_bind mret outcome_ret with_data packetData packetAlloc unusedSize].

(** * Writing *)

(** A packet into which [out] was written. *)
Definition filled (out : bytes) : RtcpPacket :=
  mkRtcpPacket (out ++ zeros (Z.to_nat (RTCP_PACKETSIZE - zlen out))) RTCP_PACKETSIZE (RTCP_PACKETSIZE - zlen out).

Lemma newRtcpPacket_filled : newRtcpPacket = filled [].
Proof. reflexivity. Qed.

Lemma freeData_filled out : freeData (filled out) = zlen out.
Proof. unfold freeData, filled. cbn [packetAlloc unusedSize]. lia. Qed.

Lemma getTotalUsage_filled out : getTotalUsage (filled out) = zlen out.
Proof. apply freeData_filled. Qed.

Lemma write_mid a b c x : length x = length b -> write (zlen a) x (filled (a ++ b ++ c)) = Ret (filled (a ++ x ++ c)).
Proof.
  intros H. unfold write, filled. cbn [packetData]. rewrite <- !app_assoc, overwrite_mid by exact H. step.
  unfold with_data. cbn [packetAlloc unusedSize]. assert (zlen (a ++ x ++ c) = zlen (a ++ b ++ c)) as ->; [|reflexivity].
  unfold zlen. rewrite !length_app. lia.
Qed.

Lemma zeros_app n m : zeros n ++ zeros m = zeros (n + m).
Proof. unfold zeros. now rewrite replicate_add. Qed.

(** Memory is allocated, and as much again behind it must be there. *)
Lemma allocData_filled s out : 0 <= s -> zlen out + 2 * s <= RTCP_PACKETSIZE ->
  allocData s (filled out) = Ret (s, filled (out ++ zeros (Z.to_nat s))).
Proof.
  intros Hs H. unfold allocData, filled. cbn [packetData packetAlloc unusedSize].
  rewrite cassert_true by (pose proof (zlen_nonneg out); lia). step. unfold freeData, write. cbn [packetData packetAlloc unusedSize].
  pose proof (zlen_nonneg out) as Ho.
  assert (zeros (Z.to_nat (RTCP_PACKETSIZE - zlen out)) =
    zeros (Z.to_nat s) ++ zeros (Z.to_nat s) ++ zeros (Z.to_nat (RTCP_PACKETSIZE - zlen out - 2 * s))) as ->
    by (rewrite !zeros_app; f_equal; lia).
  rewrite app_assoc. replace (RTCP_PACKETSIZE - (RTCP_PACKETSIZE - zlen out - s)) with (zlen (out ++ zeros (Z.to_nat s))) by zlen_lia.
  rewrite overwrite_mid by reflexivity. step. unfold with_data. cbn [packetAlloc unusedSize].
  assert (zlen (out ++ zeros (Z.to_nat s)) = zlen out + s) as -> by zlen_lia.
  rewrite !zeros_app, <- !app_assoc, !zeros_app. cbn [mbind outcome_bind mret outcome_ret]. do 3 f_equal; [do 2 f_equal; lia | lia].
Qed.

(** The bits of the first byte. *)
Lemma putFlags_mid a b c k w v : putFlags (zlen a) k w v (filled (a ++ [b] ++ c)) = Ret (filled (a ++ [putBits k w v b] ++ c)).
Proof.
  unfold putFlags. assert (rd (packetData (filled (a ++ [b] ++ c))) (zlen a) = Ret b) as ->.
  { unfold filled. cbn [packetData]. rewrite <- !app_assoc. rewrite <- (Z.add_0_r (zlen a)), rd_mid by zlen_lia. reflexivity. }
  step. now apply write_mid.
Qed.

(** The first four bytes of a packet. *)
Definition headerBytes (count type words : Z) : bytes := [128 + count; type] ++ enc16 words.

Lemma putHeader_filled a c count type : 0 <= count < 32 -> 0 <= type < 256 ->
  putHeader (zlen a) 0 count type (filled (a ++ zeros 4 ++ c)) = Ret (filled (a ++ headerBytes count type 0 ++ c)).
Proof.
  intros Hc Ht. unfold putHeader. change (zeros 4 ++ c) with ([0] ++ [0; 0; 0] ++ c). rewrite !putFlags_mid. step.
  rewrite putFlags_mid. step. rewrite putFlags_mid. step.
  set (b := putBits 0 5 count _). assert (b = 128 + count) as ->.
  { unfold b. change (putBits 5 1 (b2z (0 <? 0)) (putBits 6 2 RTP_VERSION 0)) with 128. unfold putBits.
    change (2 ^ (0 + 5)) with 32. change (2 ^ 5) with 32. change (2 ^ 0) with 1. Z.to_euclidean_division_equations; lia. }
  change (filled (a ++ [128 + count] ++ [0; 0; 0] ++ c)) with (filled (a ++ [128 + count] ++ [0] ++ [0; 0] ++ c)).
  rewrite (app_assoc a [128 + count]). assert (zlen a + 1 = zlen (a ++ [128 + count])) as -> by zlen_lia.
  rewrite (write_mid _ [0]) by reflexivity. unfold headerBytes. rewrite (wrap_small 8) by lia.
  change (enc16 0) with [0; 0]. now rewrite <- !app_assoc.
Qed.

Lemma putLength_filled a count type words c usage : Z.quot usage 4 - 1 = words -> 0 <= words < 65536 ->
  putLength (zlen a) usage (filled (a ++ headerBytes count type 0 ++ c)) = Ret (filled (a ++ headerBytes count type words ++ c)).
Proof.
  intros E Hw. unfold putLength. rewrite E, (wrap_small 16) by exact Hw. unfold headerBytes. rewrite <- !app_assoc, (app_assoc a).
  assert (zlen a + 2 = zlen (a ++ [128 + count; type])) as -> by zlen_lia. rewrite write_mid by reflexivity. now rewrite <- !app_assoc.
Qed.

(** * What each part of a packet adds *)

(** A block that is allocated and then written. *)
Lemma write_block out s b : zlen b = s -> write (zlen out) b (filled (out ++ zeros (Z.to_nat s))) = Ret (filled (out ++ b)).
Proof.
  intros <-. pose proof (write_mid out (zeros (Z.to_nat (zlen b))) [] b) as H. rewrite !app_nil_r in H. apply H.
  unfold zeros, zlen. now rewrite length_replicate, Nat2Z.id.
Qed.

(** A text that was written into the free memory, before it is allocated. *)
Definition ahead (out text : bytes) : RtcpPacket :=
  mkRtcpPacket (out ++ text ++ zeros (Z.to_nat (RTCP_PACKETSIZE - zlen out - zlen text))) RTCP_PACKETSIZE (RTCP_PACKETSIZE - zlen out).

Lemma write_ahead out text : zlen out + zlen text <= RTCP_PACKETSIZE -> write (zlen out) text (filled out) = Ret (ahead out text).
Proof.
  intros H. pose proof (zlen_nonneg text). pose proof (zlen_nonneg out). unfold write, filled. cbn [packetData].
  assert (zeros (Z.to_nat (RTCP_PACKETSIZE - zlen out)) = zeros (length text) ++ zeros (Z.to_nat (RTCP_PACKETSIZE - zlen out - zlen text))) as ->
    by (rewrite zeros_app; f_equal; unfold zlen in *; lia).
  rewrite overwrite_mid by (unfold zeros; now rewrite length_replicate). reflexivity.
Qed.

Lemma write_mid_ahead a b c x text : length x = length b ->
  write (zlen a) x (ahead (a ++ b ++ c) text) = Ret (ahead (a ++ x ++ c) text).
Proof.
  intros H. unfold write, ahead. cbn [packetData]. rewrite <- !app_assoc, overwrite_mid by exact H. step.
  assert (zlen (a ++ x ++ c) = zlen (a ++ b ++ c)) as ->; [|reflexivity]. unfold zlen. rewrite !length_app. lia.
Qed.

Lemma allocData_ahead out text : zlen out + 2 * zlen text <= RTCP_PACKETSIZE ->
  allocData (zlen text) (ahead out text) = Ret (zlen text, filled (out ++ text)).
Proof.
  intros H. pose proof (zlen_nonneg text). pose proof (zlen_nonneg out). unfold allocData, ahead. cbn [packetData packetAlloc unusedSize].
  rewrite cassert_true by lia. step. unfold freeData, write. cbn [packetData packetAlloc unusedSize].
  assert (zeros (Z.to_nat (RTCP_PACKETSIZE - zlen out - zlen text)) =
    zeros (Z.to_nat (zlen text)) ++ zeros (Z.to_nat (RTCP_PACKETSIZE - zlen out - 2 * zlen text))) as -> by (rewrite zeros_app; f_equal; lia).
  rewrite (app_assoc out). replace (RTCP_PACKETSIZE - (RTCP_PACKETSIZE - zlen out - zlen text)) with (zlen (out ++ text)) by zlen_lia.
  rewrite overwrite_mid by reflexivity. step. unfold filled. rewrite zlen_app. do 3 f_equal; [|lia]. rewrite zeros_app. do 2 f_equal. lia.
Qed.

(** The bytes of an item. *)
Definition itemBytes (code : Z) (text : bytes) : bytes := code :: zlen text :: text.

Lemma addItem_filled code text usage out : zlen text < 256 -> zlen out + 4 + 2 * zlen text <= RTCP_PACKETSIZE ->
  addItem code text usage (filled out) = Ret (usage + 2 + zlen text, filled (out ++ itemBytes code text)).
Proof.
  intros Ht Ho. pose proof (zlen_nonneg text) as Hn. unfold addItem. rewrite freeData_filled, allocData_filled by lia. step.
  rewrite (wrap_small 8) by lia. change (zeros (Z.to_nat 2)) with ([0] ++ [0] ++ []).
  replace (zlen out + 2) with (zlen (out ++ [0] ++ [0] ++ [])) by zlen_lia. rewrite write_ahead by zlen_lia. step.
  rewrite (app_assoc out [0]). replace (zlen out + 1) with (zlen (out ++ [0])) by zlen_lia. rewrite write_mid_ahead by reflexivity. step.
  rewrite <- (app_assoc out [0]), write_mid_ahead by reflexivity. step. rewrite allocData_ahead by zlen_lia. step.
  now rewrite <- !app_assoc.
Qed.

(** The items of a list with their texts. *)
Definition itemsBytes (t : RtcpSDESType -> bytes) (l : list RtcpSDESType) : bytes :=
  mjoin (map (fun i => itemBytes (sdesCode i) (t i)) l).

Lemma addItems_filled t texts l : forall usage out,
  Forall (fun i => getSdes i t = Ret (texts i) /\ zlen (texts i) < 256) l ->
  zlen out + zlen (itemsBytes texts l) + 258 <= RTCP_PACKETSIZE ->
  addItems t l usage (filled out) = Ret (usage + zlen (itemsBytes texts l), filled (out ++ itemsBytes texts l)).
Proof.
  induction l as [|i l IH]; intros usage out Hl Hb.
  - cbn. now rewrite app_nil_r, Z.add_0_r.
  - apply Forall_cons_1 in Hl as [[Hg Ht] Hl]. change (itemsBytes texts (i :: l)) with (itemBytes (sdesCode i) (texts i) ++ itemsBytes texts l) in *.
    cbn [addItems]. rewrite Hg. step. unfold itemBytes in *.
    rewrite addItem_filled by (exact Ht || zlen_lia). step. unfold itemBytes. rewrite IH by (exact Hl || zlen_lia).
    rewrite <- app_assoc. do 2 f_equal. zlen_lia.
Qed.

Lemma addSources_filled l : forall usage out, zlen out + 4 * zlen l + 4 <= RTCP_PACKETSIZE ->
  addSources l usage (filled out) = Ret (usage + 4 * zlen l, filled (out ++ mjoin (map enc32 l))).
Proof.
  induction l as [|x l IH]; intros usage out H; cbn [addSources map mjoin list_join foldr].
  - rewrite app_nil_r. do 2 f_equal. zlen_lia.
  - change (sizeof_RtpSrc) with 4. rewrite freeData_filled, allocData_filled by zlen_lia. step.
    rewrite write_block by reflexivity. step. rewrite IH by zlen_lia. rewrite <- app_assoc. do 2 f_equal. zlen_lia.
Qed.

(** The bytes up to a multiple of four. *)
Definition padding (n : Z) : bytes := zeros (Z.to_nat (- n mod 4)).

Lemma endPacket_filled a count type c words :
  let usage := 4 + zlen c in
  zlen a + usage + 6 <= RTCP_PACKETSIZE -> zlen (c ++ padding usage) = 4 * words ->
  endPacket (zlen a) 0 usage (filled (a ++ headerBytes count type 0 ++ c)) =
  Ret (4 + 4 * words, filled (a ++ headerBytes count type words ++ c ++ padding usage)).
Proof.
  intros usage Hb Hw. unfold endPacket. rewrite cassert_true by reflexivity. step.
  assert (usage mod 4 = 0 \/ usage mod 4 <> 0) as [E|E] by lia; unfold padding in *.
  - replace (- usage mod 4) with 0 in * by (Z.to_euclidean_division_equations; lia). rewrite E, !app_nil_r in *. cbn [Z.eqb mret outcome_ret mbind outcome_bind].
    rewrite (putLength_filled _ _ _ words) by (unfold RTCP_PACKETSIZE in *; zlen_lia || (unfold usage; rewrite Hw; Z.to_euclidean_division_equations; lia)).
    step. unfold usage. now rewrite Hw.
  - replace (- usage mod 4) with (4 - usage mod 4) in * by (Z.to_euclidean_division_equations; lia). destruct (Z.eqb_spec (usage mod 4) 0); [contradiction|].
    pose proof (Z.mod_pos_bound usage 4). rewrite allocData_filled by (unfold headerBytes; zlen_lia). step.
    rewrite zlen_app in Hw. rewrite zlen_zeros in Hw. rewrite <- !app_assoc.
    assert (usage + (4 - usage mod 4) = 4 + 4 * words) as -> by (unfold usage in *; lia).
    rewrite (putLength_filled _ _ _ words) by (unfold RTCP_PACKETSIZE in *; zlen_lia || (Z.to_euclidean_division_equations; lia)).
    reflexivity.
Qed.

(** ** Reports *)

Section Reports.
Context (r : RtpReceiver.RtpReceiver) (nowNtp : NtpTime).

(** Whether a source is reported, its block, and the source afterwards. *)
Definition reported (s : RtpTranInfo) : bool := recv s && (0 <=? RtpReceiver.probation (RtpReceiver.source r)).
Definition blockOf (s : RtpTranInfo) : bytes := if reported s then (reportBlock r nowNtp s).1 else [].
Definition afterReport (s : RtpTranInfo) : RtpTranInfo := if reported s then (reportBlock r nowNtp s).2 else s.
Definition blocksOf (l : tranInfos) : bytes := mjoin (map (fun e => blockOf e.2) l).
Definition reportCount (l : tranInfos) : Z := zlen (List.filter (fun e => reported e.2) l).

Lemma zlen_reportBlock s : zlen (reportBlock r nowNtp s).1 = 24.
Proof. reflexivity. Qed.

Lemma zlen_blocksOf l : zlen (blocksOf l) = 24 * reportCount l.
Proof.
  induction l as [|[k s] l IH]; [reflexivity|]. change (blocksOf ((k, s) :: l)) with (blockOf s ++ blocksOf l). rewrite zlen_app, IH.
  unfold reportCount, blockOf. cbn [List.filter snd]. destruct (reported s); [rewrite zlen_reportBlock|]; zlen_lia.
Qed.

Lemma getCount_mid pre count type words c post : 0 <= count < 32 ->
  getCount (pre ++ (headerBytes count type words ++ c) ++ post) (zlen pre) = Ret count.
Proof.
  intros H. unfold getCount. rewrite <- (Z.add_0_r (zlen pre)), rd_mid by (unfold headerBytes; zlen_lia). step. f_equal.
  change (rd _ 0) with (Ret (128 + count)). step. f_equal. unfold getBits. change (2 ^ 0) with 1. change (2 ^ 5) with 32.
  Z.to_euclidean_division_equations; lia.
Qed.

Lemma reportLoop_filled a type : forall l count c usage,
  0 <= count -> count + reportCount l < 32 -> zlen a + 4 + zlen c + 24 * reportCount l + 24 <= RTCP_PACKETSIZE ->
  reportLoop r (zlen a) nowNtp l usage (filled (a ++ headerBytes count type 0 ++ c)) =
  Ret (usage + 24 * reportCount l, filled (a ++ headerBytes (count + reportCount l) type 0 ++ c ++ blocksOf l),
       map (fun e => (e.1, afterReport e.2)) l).
Proof.
  induction l as [|[k s] l IH]; intros count c usage Hc Hn Hb.
  - cbn. now rewrite !app_nil_r, !Z.add_0_r.
  - assert (0 <= reportCount l) by apply zlen_nonneg. cbn [reportLoop map fst snd].
    change (blocksOf ((k, s) :: l)) with (blockOf s ++ blocksOf l). unfold afterReport at 1, blockOf at 1.
    assert (reportCount ((k, s) :: l) = (if reported s then 1 else 0) + reportCount l) as En
      by (unfold reportCount; cbn [List.filter snd]; destruct (reported s); zlen_lia).
    rewrite En in *. unfold reported in *. destruct (recv s); cbn [negb andb] in *; [destruct (Z.ltb_spec (RtpReceiver.probation (RtpReceiver.source r)) 0) as [Hp|Hp]|].
    + destruct (Z.leb_spec 0 (RtpReceiver.probation (RtpReceiver.source r))); [lia|]. step. rewrite IH by lia. step. do 4 f_equal; lia.
    + destruct (Z.leb_spec 0 (RtpReceiver.probation (RtpReceiver.source r))); [|lia]. change sizeof_RtcpReport with 24.
      rewrite freeData_filled, allocData_filled by (unfold headerBytes; zlen_lia). step.
      destruct (reportBlock r nowNtp s) as [b s'] eqn:Eb. pose proof (zlen_reportBlock s) as Hz. rewrite Eb in Hz. cbn [fst snd] in *.
      rewrite write_block by exact Hz. step.
      assert (getCount (packetData (filled ((a ++ headerBytes count type 0 ++ c) ++ b))) (zlen a) = Ret count) as ->.
      { unfold filled. cbn [packetData]. rewrite <- !app_assoc, (app_assoc _ c). apply getCount_mid. lia. }
      step. rewrite <- !app_assoc. unfold headerBytes at 1. cbn [app]. change (?x :: ?l) with ([x] ++ l). rewrite putFlags_mid. step.
      assert (putBits 0 5 (count + 1) (128 + count) = 128 + (count + 1)) as ->.
      { unfold putBits. change (2 ^ (0 + 5)) with 32. change (2 ^ 5) with 32. change (2 ^ 0) with 1. Z.to_euclidean_division_equations; lia. }
      change ([128 + (count + 1)] ++ type :: enc16 0 ++ c ++ b) with (headerBytes (count + 1) type 0 ++ (c ++ b)).
      rewrite IH by (lia || (rewrite zlen_app; lia)). step. rewrite <- app_assoc, <- Z.add_assoc. cbn [app]. do 3 f_equal; [lia|]. do 4 f_equal. lia.
    + step. rewrite IH by lia. step. do 4 f_equal; lia.
Qed.

(** ** Packets *)

(** A packet of a type with its count and contents, of whole words. *)
Definition packetBytes (count type : Z) (c : bytes) : bytes := headerBytes count type (zlen c / 4) ++ c.

(** The report of a transmitter with its sender's part. *)
Definition reportBytes (x : RtpTransmitter.RtpTransmitter) (l : tranInfos) : bytes :=
  packetBytes (reportCount l) rtcpTypeSR (senderInfo nowNtp x ++ blocksOf l).

Lemma addSR_filled t x l :
  tran t = Some x -> hasReceiver t = true -> reportCount l < 32 ->
  addSR r t l nowNtp 0 newRtcpPacket =
  Ret (28 + 24 * reportCount l, filled (reportBytes x l), map (fun e => (e.1, afterReport e.2)) l).
Proof.
  intros Ht Hr Hn. assert (0 <= reportCount l) as H0 by apply zlen_nonneg. unfold addSR. rewrite newRtcpPacket_filled, freeData_filled, Ht, Hr.
  rewrite allocData_filled by (vm_compute; congruence). step. change ([] ++ zeros (Z.to_nat sizeof_RtcpHeader)) with (zeros 4).
  pose proof (putHeader_filled [] [] 0 rtcpTypeSR) as Hh. rewrite !app_nil_r in Hh. cbn [app] in Hh. rewrite Hh by (unfold rtcpTypeSR; lia). step.
  rewrite freeData_filled, allocData_filled by (vm_compute; congruence). step. rewrite write_block by reflexivity. step.
  pose proof (reportLoop_filled [] rtcpTypeSR l 0 (senderInfo nowNtp x) (sizeof_RtcpHeader + sizeof_RtcpSender)) as Hl. cbn [app] in Hl.
  change (zlen (senderInfo nowNtp x)) with 24 in Hl. rewrite Hl by (lia || (change (zlen (@nil Z)) with 0; unfold RTCP_PACKETSIZE; lia)). clear Hl. step.
  change (sizeof_RtcpHeader + sizeof_RtcpSender) with 28.
  rewrite !cassert_true by (reflexivity || (Z.to_euclidean_division_equations; lia)). step.
  pose proof (putLength_filled [] (0 + reportCount l) rtcpTypeSR (zlen (senderInfo nowNtp x ++ blocksOf l) / 4) (senderInfo nowNtp x ++ blocksOf l) (28 + 24 * reportCount l)) as Hl.
  cbn [app] in Hl. rewrite Hl; clear Hl; [step; reflexivity | | ]; rewrite zlen_app, zlen_blocksOf; change (zlen (senderInfo nowNtp x)) with 24;
    Z.to_euclidean_division_equations; lia.
Qed.

End Reports.

(** ** Descriptions and goodbyes *)

(** Contents, up to whole words. *)
Definition padded (c : bytes) : bytes := c ++ padding (4 + zlen c).

Lemma zlen_padded c : zlen c <= zlen (padded c) < zlen c + 4 /\ zlen (padded c) mod 4 = 0.
Proof.
  unfold padded, padding. rewrite zlen_app, zlen_zeros. pose proof (zlen_nonneg c). Z.to_euclidean_division_equations; lia.
Qed.

Lemma endPacket_padded a count type c :
  zlen a + zlen c + 10 <= RTCP_PACKETSIZE ->
  endPacket (zlen a) 0 (4 + zlen c) (filled (a ++ headerBytes count type 0 ++ c)) =
  Ret (4 + zlen (padded c), filled (a ++ packetBytes count type (padded c))).
Proof.
  intros H. pose proof (zlen_padded c) as [Hz Hm]. rewrite (endPacket_filled _ _ _ _ (zlen (padded c) / 4)).
  - unfold packetBytes. fold (padded c). do 2 f_equal. Z.to_euclidean_division_equations; lia.
  - lia.
  - fold (padded c). Z.to_euclidean_division_equations; lia.
Qed.

(** The header of a packet behind what there is. *)
Lemma startPacket a count type : 0 <= count < 32 -> 0 <= type < 256 -> zlen a + 8 <= RTCP_PACKETSIZE ->
  ('(usage, p) ← allocData sizeof_RtcpHeader (filled a); p ← putHeader (zlen a) 0 count type p; mret (usage, p)) =
  Ret (4, filled (a ++ headerBytes count type 0)).
Proof.
  intros Hc Ht Ha. rewrite allocData_filled by (unfold sizeof_RtcpHeader; lia). step.
  change (zeros (Z.to_nat sizeof_RtcpHeader)) with (zeros 4).
  pose proof (putHeader_filled a [] count type Hc Ht) as H. rewrite !app_nil_r in H. now rewrite H.
Qed.

(** The two steps of [startPacket] at the head of a longer sequence. *)
Lemma startPacket_bind {B} a count type (k : Z -> RtcpPacket -> outcome B) :
  0 <= count < 32 -> 0 <= type < 256 -> zlen a + 8 <= RTCP_PACKETSIZE ->
  ('(usage, p) ← allocData sizeof_RtcpHeader (filled a); p ← putHeader (zlen a) 0 count type p; k usage p) =
  k 4 (filled (a ++ headerBytes count type 0)).
Proof.
  intros Hc Ht Ha. pose proof (startPacket a count type Hc Ht Ha) as H.
  destruct (allocData sizeof_RtcpHeader (filled a)) as [[u p]|]; [|discriminate H]. cbn [mbind outcome_bind] in *.
  destruct (putHeader (zlen a) 0 count type p); [|discriminate H]. cbn [mbind outcome_bind mret outcome_ret] in *. now injection H as -> ->.
Qed.

(** The contents of a description of one source. *)
Definition chunkBytes (src : Z) (texts : RtcpSDESType -> bytes) (l : list RtcpSDESType) : bytes :=
  enc32 src ++ itemsBytes texts l ++ [0; 0].

Definition descriptionBytes (src : Z) (texts : RtcpSDESType -> bytes) (l : list RtcpSDESType) : bytes :=
  packetBytes 1 rtcpTypeSDES (padded (chunkBytes src texts l)).

Lemma addSDESlist_filled t x texts l a :
  tran t = Some x -> Forall (fun i => getSdes i t = Ret (texts i) /\ zlen (texts i) < 256) l ->
  zlen a + zlen (itemsBytes texts l) + 266 <= RTCP_PACKETSIZE ->
  exists usage, addSDESlist t l 0 (filled a) = Ret (usage, filled (a ++ descriptionBytes (RtpTransmitter.ssrc x) texts l)).
Proof.
  intros Ht Hl Hb. pose proof (zlen_nonneg (itemsBytes texts l)) as Hi. unfold addSDESlist. rewrite Ht, freeData_filled, startPacket_bind by (unfold rtcpTypeSDES; lia).
  rewrite freeData_filled. change sizeof_RtpSrc with 4. rewrite allocData_filled by (unfold headerBytes; zlen_lia). step.
  rewrite write_block by reflexivity. step. rewrite (addItems_filled t texts) by (exact Hl || (unfold headerBytes; zlen_lia)). step.
  rewrite freeData_filled, allocData_filled by (unfold headerBytes; zlen_lia). step. rewrite write_block by reflexivity. step.
  pose proof (endPacket_padded a 1 rtcpTypeSDES (chunkBytes (RtpTransmitter.ssrc x) texts l)) as H. unfold chunkBytes at 1 2 3 in H.
  rewrite <- !app_assoc. replace (4 + 4 + zlen (itemsBytes texts l) + 2) with (4 + zlen (enc32 (RtpTransmitter.ssrc x) ++ itemsBytes texts l ++ [0; 0])) by zlen_lia.
  rewrite H by zlen_lia. eauto.
Qed.

(** The contents of a goodbye. *)
Definition byeBytes (l : list Z) (reason : option bytes) : bytes :=
  mjoin (map enc32 l) ++ match reason with None => [] | Some text => zlen text :: text end.

Lemma zlen_sources l : zlen (mjoin (map enc32 l)) = 4 * zlen l.
Proof. induction l as [|x l IH]; [reflexivity|]. change (mjoin (map enc32 (x :: l))) with (enc32 x ++ mjoin (map enc32 l)). rewrite zlen_app, IH. zlen_lia. Qed.

Lemma addBYElist_filled l reason a :
  0 < zlen l < 32 -> (forall text, reason = Some text -> zlen text < 256) -> zlen a + 800 <= RTCP_PACKETSIZE ->
  exists usage, addBYElist l reason 0 (filled a) = Ret (usage, filled (a ++ packetBytes (zlen l) rtcpTypeBYE (padded (byeBytes l reason)))).
Proof.
  intros Hl Hr Ha. unfold addBYElist. rewrite cassert_true by lia. step. rewrite freeData_filled, startPacket_bind by (unfold rtcpTypeBYE; lia).
  rewrite addSources_filled by (unfold headerBytes; zlen_lia). step.
  pose proof (endPacket_padded a (zlen l) rtcpTypeBYE (byeBytes l reason)) as H. unfold byeBytes at 1 2 3 in H. destruct reason as [text|].
  - specialize (Hr text eq_refl). pose proof (zlen_nonneg text). rewrite freeData_filled, allocData_filled by (rewrite ?zlen_app, ?zlen_sources; unfold headerBytes; zlen_lia). step.
    rewrite (wrap_small 8), write_block by (lia || reflexivity). step.
    assert (take (Z.to_nat (zlen text)) text = text) as -> by (unfold zlen; rewrite Nat2Z.id; apply firstn_all).
    match goal with |- context [zlen ?o + 1] => replace (zlen o + 1) with (zlen (o ++ [zlen text])) by zlen_lia end.
    rewrite write_ahead by (unfold headerBytes; rewrite ?zlen_app, ?zlen_sources; zlen_lia). step.
    rewrite allocData_ahead by (unfold headerBytes; rewrite ?zlen_app, ?zlen_sources; zlen_lia). step.
    rewrite <- !app_assoc. cbn [app].
    replace (4 + 4 * zlen l + 1 + zlen text) with (4 + zlen (mjoin (map enc32 l) ++ zlen text :: text)) by (rewrite zlen_app, zlen_sources; zlen_lia).
    rewrite H by (rewrite zlen_app, zlen_sources; zlen_lia). eauto.
  - step. rewrite !app_nil_r in H. rewrite <- !app_assoc, <- zlen_sources, H by (rewrite zlen_sources; lia). eauto.
Qed.

End RtcpFacts.
