(* ===== verification/RtcpReadFacts.v ===== *)
(** Lemmas on the reading of RTCP: the table of sources as a map in the order
    of its keys, and what is read from the packets that are written. *)
From S2P Require Import Prelude RtpTime RtpPacket RtpReceiver RtpTransmitter Rtcp RtcpReceiver RtcpFacts.
Import RtpTime Rtcp RtcpReceiver RtcpFacts.
Import RtpPacket(getBits, putBits).

Module RtcpReadFacts.

(** * The table of sources *)

(** An entry of the table: its source and the seven arrays of its description. *)
Definition sdesOk (x : SDESdata) : Prop := forall i, zlen (x i) = 256.
Definition infoOk (k : Z) (s : RtpTranInfo) : Prop :=
  Rtcp.ssrc s = k /\ sdesOk (SDESInfo s) /\ 0 <= lastSRTimestamp s < 4294967296.

(** The keys increase, and the entries are in order. *)
Inductive ordered : Z -> tranInfos -> Prop :=
| ordered_nil lo : ordered lo []
| ordered_cons lo k s l : lo < k -> infoOk k s -> ordered k l -> ordered lo ((k, s) :: l).

Lemma ordered_inv lo k s l : ordered lo ((k, s) :: l) -> lo < k /\ infoOk k s /\ ordered k l.
Proof. intros H. inversion H; subst. auto. Qed.

Lemma ordered_weaken lo lo' l : lo' <= lo -> ordered lo l -> ordered lo' l.
Proof. intros H Hl. destruct Hl; constructor; auto; lia. Qed.

Lemma findInfo_below src l : forall lo, ordered lo l -> src <= lo -> findInfo src l = None.
Proof.
  induction l as [|[k s] l IH]; intros lo H Hs; [reflexivity|]. apply ordered_inv in H as (Hk & Hy & Hl). cbn [findInfo].
  destruct (Z.eqb_spec k src); [lia|]. apply (IH _ Hl). lia.
Qed.

Lemma insertInfo_there src s x l : forall lo, ordered lo l -> findInfo src l = Some x -> insertInfo src s l = (false, l).
Proof.
  induction l as [|[k y] l IH]; intros lo H Hf; [discriminate Hf|]. apply ordered_inv in H as (Hk & Hy & Hl). cbn [findInfo insertInfo] in *.
  destruct (Z.eqb_spec k src) as [|Hn]; [reflexivity|]. destruct (Z.ltb_spec src k) as [Hlt|Hge].
  - rewrite (findInfo_below _ _ _ Hl) in Hf by lia. discriminate Hf.
  - now rewrite (IH _ Hl Hf).
Qed.

Lemma insertInfo_new src s l : forall lo, ordered lo l -> lo < src -> infoOk src s -> findInfo src l = None ->
  (insertInfo src s l).1 = true /\ ordered lo (insertInfo src s l).2 /\
  (forall k, findInfo k (insertInfo src s l).2 = if src =? k then Some s else findInfo k l).
Proof.
  induction l as [|[k y] l IH]; intros lo H Hlo Hs Hf.
  - split; [reflexivity|]. split; [constructor; auto; constructor|]. intros k. reflexivity.
  - apply ordered_inv in H as (Hk & Hy & Hl). cbn [findInfo insertInfo] in *. destruct (Z.eqb_spec k src) as [|Hn]; [discriminate Hf|].
    destruct (Z.ltb_spec src k) as [Hlt|Hge].
    + split; [reflexivity|]. split; [constructor; auto; now constructor|]. intros j. reflexivity.
    + destruct (IH k Hl) as (H1 & H2 & H3); [lia | exact Hs | exact Hf |]. destruct (insertInfo src s l) as [b l']. cbn [fst snd] in *.
      split; [exact H1|]. split; [now constructor|]. intros j. cbn [findInfo]. rewrite H3.
      destruct (Z.eqb_spec k j), (Z.eqb_spec src j); congruence || lia.
Qed.

Lemma findInfo_set src s l k : findInfo k (setInfo src s l) = if k =? src then (match findInfo k l with Some _ => Some s | None => None end) else findInfo k l.
Proof.
  induction l as [|[j x] l IH]; cbn [setInfo map findInfo fst]; [now destruct (k =? src)|]. fold (setInfo src s l).
  destruct (Z.eqb_spec j src) as [->|Hn]; cbn [findInfo fst].
  - destruct (Z.eqb_spec src k) as [->|]; [now rewrite Z.eqb_refl|]. rewrite IH. destruct (Z.eqb_spec k src); [congruence | reflexivity].
  - destruct (Z.eqb_spec j k) as [->|]; [|exact IH]. destruct (Z.eqb_spec k src); [contradiction | reflexivity].
Qed.

Lemma ordered_set src s l : infoOk src s -> forall lo, ordered lo l -> ordered lo (setInfo src s l).
Proof.
  intros Hs. induction l as [|[k x] l IH]; intros lo H; [constructor|]. apply ordered_inv in H as (Hk & Hx & Hl).
  cbn [setInfo map fst]. fold (setInfo src s l). destruct (Z.eqb_spec k src) as [->|]; constructor; auto.
Qed.

Lemma setInfo_twice src a b l : setInfo src a (setInfo src b l) = setInfo src a l.
Proof. unfold setInfo. rewrite map_map. apply map_ext. intros [k x]. cbn [fst]. destruct (Z.eqb_spec k src) as [->|Hn]; cbn [fst]; [now rewrite Z.eqb_refl|]. now destruct (Z.eqb_spec k src). Qed.

Lemma setInfo_absent src s l : findInfo src l = None -> setInfo src s l = l.
Proof.
  induction l as [|[k x] l IH]; [reflexivity|]. cbn [findInfo setInfo map fst]. fold (setInfo src s l).
  destruct (Z.eqb_spec k src); [discriminate|]. intros H. now rewrite IH.
Qed.

Lemma setInfo_same src s l : forall lo, ordered lo l -> findInfo src l = Some s -> setInfo src s l = l.
Proof.
  induction l as [|[k x] l IH]; intros lo H Hf; [discriminate Hf|]. apply ordered_inv in H as (Hk & Hx & Hl).
  cbn [findInfo setInfo map fst] in *. fold (setInfo src s l). destruct (Z.eqb_spec k src) as [->|].
  - injection Hf as ->. f_equal. apply setInfo_absent, (findInfo_below _ _ _ Hl). lia.
  - f_equal. exact (IH _ Hl Hf).
Qed.

Lemma findInfo_erase src l k : findInfo k (eraseInfo src l) = if k =? src then None else findInfo k l.
Proof.
  induction l as [|[j x] l IH]; cbn [eraseInfo List.filter findInfo fst]; [now destruct (k =? src)|]. fold (eraseInfo src l).
  destruct (Z.eqb_spec j src) as [->|Hn]; cbn [negb findInfo].
  - rewrite IH. destruct (Z.eqb_spec src k) as [->|]; [now rewrite Z.eqb_refl | reflexivity].
  - destruct (Z.eqb_spec j k) as [->|]; [|exact IH]. now destruct (Z.eqb_spec k src).
Qed.

Lemma ordered_erase src l : forall lo, ordered lo l -> ordered lo (eraseInfo src l).
Proof.
  induction l as [|[k x] l IH]; intros lo H; [constructor|]. apply ordered_inv in H as (Hk & Hx & Hl).
  cbn [eraseInfo List.filter fst]. fold (eraseInfo src l). destruct (k =? src); cbn [negb].
  - apply (ordered_weaken k); [lia|]. now apply IH.
  - constructor; auto.
Qed.

Lemma findInfo_ssrc src l : forall lo s, ordered lo l -> findInfo src l = Some s -> infoOk src s /\ lo < src.
Proof.
  induction l as [|[k x] l IH]; intros lo s H Hf; [discriminate Hf|]. apply ordered_inv in H as (Hk & Hx & Hl).
  cbn [findInfo] in Hf. destruct (Z.eqb_spec k src) as [->|].
  - injection Hf as ->. auto.
  - destruct (IH _ _ Hl Hf). split; [assumption | lia].
Qed.

(** The table of sources of a receiver. *)
Definition tableOk (c : RtcpReceiver) : Prop := exists lo, ordered lo (tranInfoList c).

(** Looking a source up, which adds it when it is not there. *)
Lemma findTranInfo_spec raw now src c : sdesOk raw -> tableOk c ->
  exists s c', findTranInfo raw now src c = (s, c') /\ tableOk c' /\ c' = with_infos (tranInfoList c') c /\ infoOk src s /\
    (forall k, findInfo k (tranInfoList c') = if src =? k then Some s else findInfo k (tranInfoList c)) /\
    match findInfo src (tranInfoList c) with Some x => s = x | None => s = newTranInfo raw now src false end.
Proof.
  intros Hr [lo Hc]. unfold findTranInfo. destruct (findInfo src (tranInfoList c)) as [x|] eqn:E.
  - exists x, c. destruct (findInfo_ssrc _ _ _ _ Hc E). split; [reflexivity|]. split; [now exists lo|]. split; [now destruct c|].
    split; [assumption|]. split; [|reflexivity]. intros k. destruct (Z.eqb_spec src k) as [<-|]; [exact E | reflexivity].
  - set (s := newTranInfo raw now src false).
    destruct (insertInfo_new src s (tranInfoList c) (Z.min lo (src - 1))) as (H1 & H2 & H3); [apply (ordered_weaken lo); [lia | exact Hc] | lia | now repeat split | exact E |].
    exists s, (addTranFinal s c).2. split; [reflexivity|]. unfold addTranFinal. change (Rtcp.ssrc s) with src.
    destruct (insertInfo src s (tranInfoList c)) as [b l]. cbn [fst snd with_infos tranInfoList] in *. split; [eexists; exact H2|]. repeat split; auto; cbn; lia.
Qed.

(** * Reading what was written *)

Lemma rd32_at pre h x t post off :
  off = zlen pre + zlen h -> 0 <= x < 4294967296 -> rd32 (pre ++ (h ++ enc32 x ++ t) ++ post) off = Ret x.
Proof.
  intros -> Hx. rewrite rd32_mid by (pose proof (zlen_nonneg h); zlen_lia).
  rewrite <- (Z.add_0_r (zlen h)), rd32_mid by zlen_lia. transitivity (Ret (be32 (x / 16777216 mod 256) (x / 65536 mod 256) (x / 256 mod 256) (x mod 256))); [reflexivity | now rewrite be32_enc32].
Qed.

Lemma rd_at (pre h : bytes) (x : Z) (t post : bytes) off : off = zlen pre + zlen h -> rd (pre ++ (h ++ x :: t) ++ post) off = Ret x.
Proof.
  intros ->. rewrite rd_mid by (pose proof (zlen_nonneg h); zlen_lia). change (x :: t) with ([x] ++ t).
  rewrite <- (Z.add_0_r (zlen h)), rd_mid by zlen_lia. reflexivity.
Qed.

Lemma rd_here (pre : bytes) (x : Z) (post : bytes) : rd (pre ++ x :: post) (zlen pre) = Ret x.
Proof.
  change (x :: post) with ([x] ++ post). rewrite <- (Z.add_0_r (zlen pre)), rd_mid by zlen_lia. reflexivity.
Qed.

(** ** The header of a packet *)

Section Header.
Context (pre post : bytes) (count type : Z) (c : bytes).
Hypothesis count_ok : 0 <= count < 32.
Hypothesis words_ok : 0 <= zlen c / 4 < 65536.

Abbreviation d := (pre ++ packetBytes count type c ++ post).

Lemma getCount_packet : getCount d (zlen pre) = Ret count.
Proof. now apply getCount_mid. Qed.

Lemma rd_packet k b : 0 <= k < 4 -> rd (packetBytes count type c) k = Ret b -> rd d (zlen pre + k) = Ret b.
Proof. intros Hk <-. apply rd_mid. unfold packetBytes, headerBytes. zlen_lia. Qed.

Lemma rd_first : rd d (zlen pre) = Ret (128 + count).
Proof. rewrite <- (Z.add_0_r (zlen pre)). apply rd_packet; [lia | reflexivity]. Qed.

Lemma getVersion_packet : getVersion d (zlen pre) = Ret RTP_VERSION.
Proof.
  unfold getVersion. rewrite rd_first. step. f_equal. unfold getBits, RTP_VERSION.
  change (2 ^ 6) with 64. change (2 ^ 2) with 4. Z.to_euclidean_division_equations; lia.
Qed.

Lemma getPadding_packet : getPadding d (zlen pre) = Ret 0.
Proof.
  unfold getPadding. rewrite rd_first. step. f_equal. unfold getBits.
  change (2 ^ 5) with 32. change (2 ^ 1) with 2. Z.to_euclidean_division_equations; lia.
Qed.

Lemma getType_packet : getType d (zlen pre) = Ret type.
Proof. apply rd_packet; [lia | reflexivity]. Qed.

Lemma getLength_packet : getLength d (zlen pre) = Ret (zlen c / 4).
Proof.
  unfold getLength, rd16. rewrite <- Z.add_assoc, !(rd_packet _ _) by (lia || reflexivity). step. now rewrite be16_enc16.
Qed.
End Header.

(** ** Report blocks *)

(** The time of a round trip that a block tells, and a receiver that has read it. *)
Definition tripOf (nowNtp : NtpTime) (srt ld : Z) : option Z :=
  let thenN := getMs (mkNtpTime (Z.land (Z.shiftr srt 16) 65535) (u32 (Z.shiftl srt 16))) in
  let nowN := getMs (mkNtpTime (Z.land (getSeconds nowNtp) 65535) (Z.land (getFractional nowNtp) 4294901760)) in
  if thenN =? 0 then None else Some (s32 (difference nowN thenN - ld / 65)).

Definition addTrip (c : RtcpReceiver) (x : option Z) : RtcpReceiver :=
  match x with
  | None => c
  | Some diff =>
      let total := s32 (accumRoundTripDelay c + diff) in
      mkRtcpReceiver (tranInfoList c) (packetReceived c) (accumOneWayDelay c) (avgOneWayDelay c) total (Z.quot total (packetReceived c))
  end.

Lemma addTrip_same c x : tranInfoList (addTrip c x) = tranInfoList c /\ packetReceived (addTrip c x) = packetReceived c /\
  accumOneWayDelay (addTrip c x) = accumOneWayDelay c /\ avgOneWayDelay (addTrip c x) = avgOneWayDelay c.
Proof. now destruct x. Qed.

(** Blocks, of which two fields are read. *)
Definition blockBytes (e : bytes * Z * Z) : bytes := e.1.1 ++ enc32 e.1.2 ++ enc32 e.2.
Definition blockFits (e : bytes * Z * Z) : Prop := zlen e.1.1 = 16 /\ 0 <= e.1.2 < 4294967296 /\ 0 <= e.2 < 4294967296.

Lemma readBlocks_mid now (l : list (bytes * Z * Z)) : forall pre post c,
  Forall blockFits l -> packetReceived c <> 0 ->
  readBlocks now (length l) (pre ++ mjoin (map blockBytes l) ++ post) (zlen pre) c =
  Ret (fold_left addTrip (map (fun e => tripOf now e.1.2 e.2) l) c).
Proof.
  induction l as [|[[x srt] ld] l IH]; intros pre post c Hl Hc; [reflexivity|].
  apply Forall_cons_1 in Hl as [(Hx & Hs & Hd) Hl]. cbn [fst snd] in *.
  change (mjoin (map blockBytes ((x, srt, ld) :: l))) with ((x ++ enc32 srt ++ enc32 ld) ++ mjoin (map blockBytes l)).
  cbn [length readBlocks map fold_left fst snd]. rewrite <- (app_assoc (x ++ _)), (rd32_at pre x srt _ _ (zlen pre + 16)) by (lia || zlen_lia). step.
  rewrite (app_assoc x). replace ((x ++ enc32 srt) ++ enc32 ld) with ((x ++ enc32 srt) ++ enc32 ld ++ []) by now rewrite app_nil_r.
  rewrite (rd32_at pre (x ++ enc32 srt) ld [] _ (zlen pre + 20)) by (lia || zlen_lia). step.
  match goal with |- context [addTrip c ?t] => set (x0 := t) end.
  match goal with |- (?m ≫= _) = _ => assert (m = Ret (addTrip c x0)) as -> end.
  { unfold x0, tripOf, addTrip. match goal with |- context [?t =? 0] => destruct (t =? 0) end; cbn [negb]; [reflexivity|].
    unfold average. apply Z.eqb_neq in Hc. rewrite Hc. reflexivity. }
  step. rewrite app_nil_r. assert (zlen pre + sizeof_RtcpReport = zlen (pre ++ (x ++ enc32 srt) ++ enc32 ld)) as -> by (change sizeof_RtcpReport with 24; zlen_lia).
  rewrite (app_assoc pre). apply IH; [exact Hl|]. destruct (addTrip_same c x0) as (_ & -> & _). exact Hc.
Qed.

(** ** Reports *)

(** The middle of a time, by which a report is known to its sender. *)
Definition stampOf (t : NtpTime) : Z := seconds t mod 65536 * 65536 + fractional t / 65536.

Definition timeOk (t : NtpTime) : Prop := 0 <= seconds t < 4294967296 /\ 0 <= fractional t < 4294967296.

Lemma stampOf_bits t : timeOk t ->
  Z.lor (u32 (Z.shiftl (seconds t) 16)) (Z.land (Z.shiftr (fractional t) 16) 65535) = stampOf t.
Proof.
  intros [Hs Hf]. unfold stampOf, wrap. change 65535 with (Z.ones 16). rewrite Z.land_ones, Z.shiftr_div_pow2, !Z.shiftl_mul_pow2 by lia.
  change (2 ^ 16) with 65536. change (2 ^ 32) with 4294967296.
  replace (fractional t / 65536 mod 65536) with (fractional t / 65536) by (Z.to_euclidean_division_equations; lia).
  replace (seconds t * 65536 mod 4294967296) with (Z.shiftl (seconds t mod 65536) 16)
    by (rewrite Z.shiftl_mul_pow2 by lia; change (2 ^ 16) with 65536; Z.to_euclidean_division_equations; lia).
  apply lor_add; [lia|]. change (2 ^ 16) with 65536. Z.to_euclidean_division_equations; lia.
Qed.

(** A receiver that has read the sender's part of a report. *)
Definition afterSender (nowNtp : NtpTime) (src : Z) (sent : NtpTime) (s : RtpTranInfo) (c : RtcpReceiver) : RtcpReceiver :=
  let total := s32 (accumOneWayDelay c + difference (getMs nowNtp) (getMs sent)) in
  mkRtcpReceiver (setInfo src (with_lastSR (stampOf sent) nowNtp s) (tranInfoList c)) (packetReceived c + 1) total
    (Z.quot total (packetReceived c + 1)) (accumRoundTripDelay c) (avgRoundTripDelay c).

(** The number of packets is counted in an [int]. *)
Definition counts (c : RtcpReceiver) : Prop := 0 <= packetReceived c < 2147483647.

Lemma readSender_spec raw now pre post count words src sent rest c s c1 :
  0 <= src < 4294967296 -> timeOk sent -> counts c ->
  findTranInfo raw now src c = (s, c1) -> c1 = with_infos (tranInfoList c1) c ->
  readSender raw now (pre ++ (headerBytes count rtcpTypeSR words ++ enc32 src ++ enc32 (seconds sent) ++ enc32 (fractional sent) ++ rest) ++ post)
    (zlen pre) c = Ret (afterSender now src sent s c1).
Proof.
  intros Hs Ht Hc Hf H1. unfold readSender. change sizeof_RtcpHeader with 4. set (h := headerBytes count rtcpTypeSR words).
  assert (zlen h = 4) as Hh by reflexivity. rewrite (rd32_at pre h src _ _ (zlen pre + 4)) by lia. step. rewrite Hf.
  replace (h ++ enc32 src ++ enc32 (seconds sent) ++ enc32 (fractional sent) ++ rest)
    with ((h ++ enc32 src) ++ enc32 (seconds sent) ++ enc32 (fractional sent) ++ rest) by now rewrite <- app_assoc.
  rewrite (rd32_at pre (h ++ enc32 src) _ _ _ (zlen pre + 4 + 4)) by (zlen_lia || apply Ht). step.
  replace ((h ++ enc32 src) ++ enc32 (seconds sent) ++ enc32 (fractional sent) ++ rest)
    with ((h ++ enc32 src ++ enc32 (seconds sent)) ++ enc32 (fractional sent) ++ rest) by now rewrite <- !app_assoc.
  rewrite (rd32_at pre (h ++ enc32 src ++ enc32 (seconds sent)) _ _ _ (zlen pre + 4 + 8)) by (zlen_lia || apply Ht). step.
  unfold afterSender. rewrite H1. cbn [with_infos tranInfoList packetReceived accumOneWayDelay accumRoundTripDelay avgRoundTripDelay].
  destruct sent as [nts ntf]. cbn [seconds fractional] in *. rewrite <- (stampOf_bits (mkNtpTime nts ntf)) by exact Ht. cbn [seconds fractional].
  destruct Hc. rewrite (swrap_small 32 (packetReceived c + 1)) by lia. unfold average. destruct (Z.eqb_spec (packetReceived c + 1) 0); [lia|]. reflexivity.
Qed.

(** The whole report. *)
Lemma readSR_spec raw now pre post src sent rest bl c s c1 :
  0 <= src < 4294967296 -> timeOk sent -> zlen rest = 12 -> counts c -> (length bl < 32)%nat -> Forall blockFits bl ->
  findTranInfo raw now src c = (s, c1) -> c1 = with_infos (tranInfoList c1) c ->
  readSR raw now (pre ++ packetBytes (zlen bl) rtcpTypeSR ((enc32 src ++ enc32 (seconds sent) ++ enc32 (fractional sent) ++ rest) ++ mjoin (map blockBytes bl)) ++ post)
    (zlen pre) c = Ret (fold_left addTrip (map (fun e => tripOf now e.1.2 e.2) bl) (afterSender now src sent s c1)).
Proof.
  intros Hs Ht Hr Hc Hn Hb Hf H1. unfold readSR. rewrite getType_packet. step. change (rtcpTypeSR =? rtcpTypeSR) with true. cbv iota.
  rewrite getCount_packet by (unfold zlen; lia). unfold packetBytes. set (words := zlen _ / 4). rewrite <- !app_assoc.
  pose proof (readSender_spec raw now pre (mjoin (map blockBytes bl) ++ post) (zlen bl) words src sent rest c s c1 Hs Ht Hc Hf H1) as HS.
  rewrite <- !app_assoc in HS. rewrite HS. step.
  replace (Z.to_nat (zlen bl)) with (length bl) by (unfold zlen; now rewrite Nat2Z.id).
  set (h := headerBytes (zlen bl) rtcpTypeSR words).
  replace (zlen pre + sizeof_RtcpHeader + sizeof_RtcpSender) with (zlen (pre ++ h ++ enc32 src ++ enc32 (seconds sent) ++ enc32 (fractional sent) ++ rest))
    by (assert (zlen h = 4) by reflexivity; change sizeof_RtcpHeader with 4; change sizeof_RtcpSender with 24; zlen_lia).
  match goal with |- readBlocks now _ ?d _ _ = _ => replace d with ((pre ++ h ++ enc32 src ++ enc32 (seconds sent) ++ enc32 (fractional sent) ++ rest) ++
    mjoin (map blockBytes bl) ++ post) by now rewrite <- !app_assoc end.
  apply readBlocks_mid; [exact Hb|]. unfold afterSender. rewrite H1. cbn [packetReceived with_infos]. destruct Hc. lia.
Qed.

(** ** Descriptions *)

(** What an array holds after an item was read into it: the text, the type of
    the next item, and what was there. *)
Definition nextCode (l : list RtcpSDESType) : Z := match l with [] => 0 | i :: _ => sdesCode i end.

Fixpoint describe (texts : RtcpSDESType -> bytes) (l : list RtcpSDESType) (s : SDESdata) : SDESdata :=
  match l with
  | [] => s
  | i :: l => describe texts l (setSdes i (texts i ++ [nextCode l] ++ drop (length (texts i) + 1) (s i)) s)
  end.

Definition noNul (text : bytes) : Prop := Forall (fun b => b <> 0) text.

Lemma strncpy_text text : forall pre b post, noNul text ->
  strncpy (S (length text)) (pre ++ text ++ b :: post) (zlen pre) = Ret (text ++ [b]).
Proof.
  induction text as [|x text IH]; intros pre b post H.
  - cbn [length strncpy app]. rewrite rd_here. step. destruct (Z.eqb_spec b 0) as [->|]; reflexivity.
  - apply Forall_cons_1 in H as [Hx H]. change (length (x :: text)) with (S (length text)).
    specialize (IH (pre ++ [x]) b post H). rewrite <- app_assoc in IH. replace (zlen (pre ++ [x])) with (zlen pre + 1) in IH by zlen_lia.
    change (strncpy (S (S (length text))) ?d ?i) with (b ← rd d i; if b =? 0 then mret (zeros (S (S (length text)))) else r ← strncpy (S (length text)) d (i + 1); mret (b :: r)).
    cbn [app] in *. rewrite rd_here. step. destruct (Z.eqb_spec x 0); [contradiction|]. now rewrite IH.
Qed.

Lemma sdesOf_code i : sdesOf (sdesCode i) = Some i.
Proof. now destruct i. Qed.

Lemma addSDESItem_known raw now src pre i text b post c s :
  findInfo src (tranInfoList c) = Some s -> sdesOk (SDESInfo s) -> noNul text -> zlen text < 256 ->
  addSDESItem raw now src (pre ++ itemBytes (sdesCode i) text ++ b :: post) (zlen pre) c =
  Ret (with_infos (setInfo src (with_sdes (setSdes i (text ++ [b] ++ drop (length text + 1) (SDESInfo s i)) (SDESInfo s)) s) (tranInfoList c)) c).
Proof.
  intros Hf Hs Hn Hl. unfold addSDESItem, findTranInfo. rewrite Hf. unfold itemBytes. cbn [app].
  rewrite rd_here. step. rewrite sdesOf_code. change (sdesCode i :: ?l) with ([sdesCode i] ++ l). rewrite (app_assoc pre).
  replace (zlen pre + 1) with (zlen (pre ++ [sdesCode i])) by zlen_lia. rewrite rd_here. step. change (zlen text :: ?l) with ([zlen text] ++ l). rewrite (app_assoc _ [zlen text]).
  replace (Z.to_nat (zlen text + 1)) with (S (length text)) by (unfold zlen; lia).
  replace (zlen pre + 2) with (zlen ((pre ++ [sdesCode i]) ++ [zlen text])) by zlen_lia. rewrite strncpy_text by exact Hn. step.
  specialize (Hs i). rewrite overwrite_start by (rewrite zlen_app; unfold zlen in *; cbn [length]; lia). step.
  rewrite length_app. cbn [length]. now rewrite <- app_assoc.
Qed.

(** All items of a list, by a source that is known. *)
Lemma readItems_known raw now src texts l : forall fuel pre post c s,
  (length l < fuel)%nat -> tableOk c -> findInfo src (tranInfoList c) = Some s ->
  Forall (fun i => noNul (texts i) /\ zlen (texts i) < 256) l ->
  readItems raw now fuel src (pre ++ itemsBytes texts l ++ 0 :: post) (zlen pre) c =
  Ret (zlen (pre ++ itemsBytes texts l), with_infos (setInfo src (with_sdes (describe texts l (SDESInfo s)) s) (tranInfoList c)) c).
Proof.
  induction l as [|i l IH]; intros fuel pre post c s Hfu [lo Ho] Hf Hl; (destruct fuel as [|fuel]; [cbn in Hfu; lia|]).
  - cbn [readItems itemsBytes map mjoin list_join foldr app describe]. rewrite rd_here. step. rewrite app_nil_r.
    assert (with_sdes (SDESInfo s) s = s) as -> by now destruct s. rewrite (setInfo_same _ _ _ _ Ho Hf). now destruct c.
  - apply Forall_cons_1 in Hl as [[Hn Ht] Hl]. destruct (findInfo_ssrc _ _ _ _ Ho Hf) as [(Hsr & Hsd & Hst) Hlo].
    change (itemsBytes texts (i :: l)) with (itemBytes (sdesCode i) (texts i) ++ itemsBytes texts l).
    assert (exists rest, itemsBytes texts l ++ 0 :: post = nextCode l :: rest) as [rest Er] by (destruct l; eexists; reflexivity).
    assert (rd (pre ++ (itemBytes (sdesCode i) (texts i) ++ itemsBytes texts l) ++ 0 :: post) (zlen pre) = Ret (sdesCode i)) as Ec
      by (unfold itemBytes; cbn [app]; now rewrite rd_here).
    assert (rd (pre ++ (itemBytes (sdesCode i) (texts i) ++ itemsBytes texts l) ++ 0 :: post) (zlen pre + 1) = Ret (zlen (texts i))) as El.
    { unfold itemBytes. cbn [app]. change (sdesCode i :: ?l) with ([sdesCode i] ++ l). rewrite (app_assoc pre).
      replace (zlen pre + 1) with (zlen (pre ++ [sdesCode i])) by zlen_lia. apply rd_here. }
    cbn [readItems]. rewrite Ec. step. assert ((sdesCode i =? 0) = false) as -> by now destruct i.
    rewrite <- (app_assoc (itemBytes _ _)), Er, (addSDESItem_known raw now src pre i (texts i) (nextCode l) rest c s) by assumption. step.
    rewrite <- Er. rewrite <- (app_assoc (itemBytes _ _)) in El. rewrite El. step. rewrite (app_assoc pre).
    replace (zlen pre + 2 + zlen (texts i)) with (zlen (pre ++ itemBytes (sdesCode i) (texts i))) by (unfold itemBytes; zlen_lia).
    cbn [length] in Hfu. rewrite (IH fuel _ post _ (with_sdes (setSdes i (texts i ++ [nextCode l] ++ drop (length (texts i) + 1) (SDESInfo s i)) (SDESInfo s)) s)).
    + cbn [with_infos tranInfoList with_sdes SDESInfo describe]. rewrite setInfo_twice, <- app_assoc. reflexivity.
    + lia.
    + exists lo. apply ordered_set; [|exact Ho]. split; [exact Hsr|]. split; [|exact Hst]. intros j. cbn [with_sdes SDESInfo]. unfold setSdes. destruct (decide (j = i)) as [->|]; [|apply Hsd].
      specialize (Hsd i). rewrite !zlen_app. unfold zlen in *. rewrite length_drop. cbn [length]. lia.
    + cbn [with_infos tranInfoList]. rewrite findInfo_set, Z.eqb_refl, Hf. reflexivity.
    + exact Hl.
Qed.

(** The whole description of a source that is known. *)
Lemma readSDES_spec raw now src texts l pre post c s :
  0 <= src < 4294967296 -> (length l < 1025)%nat -> tableOk c -> findInfo src (tranInfoList c) = Some s ->
  Forall (fun i => noNul (texts i) /\ zlen (texts i) < 256) l ->
  readSDES raw now (pre ++ descriptionBytes src texts l ++ post) (zlen pre) c =
  Ret (with_infos (setInfo src (with_sdes (describe texts l (SDESInfo s)) s) (tranInfoList c)) c).
Proof.
  intros Hs Hn Ho Hf Hl. unfold readSDES, descriptionBytes. rewrite getCount_packet by lia. step.
  change (Z.to_nat 1) with 1%nat. cbn [readChunks]. unfold packetBytes. set (words := _ / 4). set (h := headerBytes 1 rtcpTypeSDES words).
  unfold padded, chunkBytes. set (pad := padding _). rewrite <- (app_assoc (enc32 src)).
  rewrite (rd32_at pre h src) by (reflexivity || lia). step.
  replace (pre ++ (h ++ enc32 src ++ (itemsBytes texts l ++ [0; 0]) ++ pad) ++ post)
    with ((pre ++ h ++ enc32 src) ++ itemsBytes texts l ++ 0 :: ([0] ++ pad ++ post)) by (rewrite <- !app_assoc; reflexivity).
  replace (zlen pre + sizeof_RtcpHeader + 4) with (zlen (pre ++ h ++ enc32 src)) by (assert (zlen h = 4) by reflexivity; change sizeof_RtcpHeader with 4; zlen_lia).
  rewrite (readItems_known raw now src texts l itemFuel _ _ c s) by (assumption || (unfold itemFuel; exact Hn)). reflexivity.
Qed.

End RtcpReadFacts.
