(* ===== verification/RtcpProps.v ===== *)
(** The properties of RTCP: what is sent is what arrives, what a datagram can
    do to its reader, and how the two receivers of a session keep their sources
    together. *)
From S2P Require Import Prelude RtpTime RtpPacket RtpReceiver RtpTransmitter Rtcp RtcpReceiver RtcpFacts RtcpReadFacts.
Import RtpTime Rtcp RtcpReceiver RtcpFacts RtcpReadFacts.

Module RtcpProps.

(** * Compound packets *)

(** A packet of whole words. *)
Definition Packet (p : bytes) (count type : Z) (c : bytes) : Prop :=
  p = packetBytes count type c /\ 0 <= count < 32 /\ zlen c mod 4 = 0 /\ zlen c <= RTCP_PACKETSIZE.

Lemma Packet_words p count type c : Packet p count type c -> 0 <= zlen c / 4 < 65536 /\ zlen p = (zlen c / 4 + 1) * 4.
Proof.
  intros (-> & _ & Hm & Hl). unfold RTCP_PACKETSIZE in Hl. pose proof (zlen_nonneg c). unfold packetBytes, headerBytes.
  split; [|rewrite !zlen_app]; [|change (zlen [128 + count; type]) with 2; change (zlen (enc16 (zlen c / 4))) with 2]; Z.to_euclidean_division_equations; lia.
Qed.

(** What the headers of packets tell their reader. *)
Lemma headersEnd_packets pkts : forall fuel pre post, (length pkts < fuel)%nat ->
  Forall (fun p => exists count type c, Packet p count type c) pkts ->
  headersEnd fuel (pre ++ mjoin pkts ++ post) (zlen pre) (zlen pre + zlen (mjoin pkts)) = Ret (zlen pre + zlen (mjoin pkts)).
Proof.
  induction pkts as [|p pkts IH]; intros fuel pre post Hf Hp; (destruct fuel as [|fuel]; [cbn in Hf; lia|]); cbn [headersEnd].
  - change (zlen (mjoin [])) with 0. rewrite Z.add_0_r. change sizeof_RtcpHeader with 4. destruct (Z.leb_spec (zlen pre + 4) (zlen pre)); [lia|]. reflexivity.
  - apply Forall_cons_1 in Hp as [(count & type & c & Hp) Hps]. destruct (Packet_words _ _ _ _ Hp) as [Hw Hz]. destruct Hp as (Ep & Hc & _).
    change (mjoin (p :: pkts)) with (p ++ mjoin pkts). rewrite zlen_app. change sizeof_RtcpHeader with 4. pose proof (zlen_nonneg (mjoin pkts)).
    destruct (Z.leb_spec (zlen pre + 4) (zlen pre + (zlen p + zlen (mjoin pkts)))); [|lia]. rewrite <- (app_assoc p), Ep.
    rewrite getVersion_packet, getLength_packet by assumption. step. rewrite Z.eqb_refl, <- Hz, <- Ep, (app_assoc pre), <- (zlen_app pre p).
    rewrite Z.add_assoc, <- (zlen_app pre p). apply IH; [cbn in Hf; lia | exact Hps].
Qed.

Lemma filled_data out : packetData (filled out) = out ++ zeros (Z.to_nat (RTCP_PACKETSIZE - zlen out)).
Proof. reflexivity. Qed.

(** A datagram that fits is the start of the buffer. *)
Lemma getPacket_filled x : 0 < zlen x <= RTCP_PACKETSIZE ->
  getPacket (RtpReceiver.Datagram x) newRtcpPacket =
  (valid ← isValid (filled x); mret (if valid : bool then zlen x else - RtpReceiver.EINVAL, filled x)).
Proof.
  intros Hl. unfold getPacket. cbn [packetAlloc newRtcpPacket].
  assert (take (Z.to_nat RTCP_PACKETSIZE) x = x) as -> by (apply take_ge; unfold zlen in Hl; lia).
  destruct (Z.eqb_spec (zlen x) 0); [lia|].
  assert (write 0 x newRtcpPacket = Ret (mkRtcpPacket (packetData (filled x)) RTCP_PACKETSIZE RTCP_PACKETSIZE)) as ->.
  { unfold write, newRtcpPacket. cbn [packetData]. rewrite overwrite_zeros by lia. step. do 2 f_equal. rewrite filled_data. do 2 f_equal. unfold zlen. lia. }
  step. unfold setTotalUsage. cbn [packetAlloc packetData]. rewrite cassert_true by lia. step. reflexivity.
Qed.

(** A datagram of packets, of which the first is a report, is taken. *)
Lemma getPacket_packets p pkts count type c :
  Packet p count type c -> type = rtcpTypeSR \/ type = rtcpTypeRR ->
  Forall (fun p => exists count type c, Packet p count type c) pkts -> (length pkts < 511)%nat -> zlen (mjoin (p :: pkts)) <= RTCP_PACKETSIZE ->
  getPacket (RtpReceiver.Datagram (mjoin (p :: pkts))) newRtcpPacket = Ret (zlen (mjoin (p :: pkts)), filled (mjoin (p :: pkts))).
Proof.
  intros Hp Ht Hps Hn Hl. set (out := mjoin (p :: pkts)) in *. assert (out = p ++ mjoin pkts) as Eo by reflexivity.
  destruct (Packet_words _ _ _ _ Hp) as [Hw Hz]. destruct Hp as (Ep & Hc & Hm & Hb). pose proof (zlen_nonneg (mjoin pkts)).
  rewrite getPacket_filled by (rewrite Eo, zlen_app in *; lia). assert (isValid (filled out) = Ret true) as ->; [|reflexivity].
  unfold isValid. rewrite getTotalUsage_filled, filled_data. set (z := zeros _).
  assert (out ++ z = [] ++ packetBytes count type c ++ mjoin pkts ++ z) as Ed by (rewrite Eo, Ep, <- app_assoc; reflexivity).
  pose proof (getType_packet [] (mjoin pkts ++ z) count type c) as HT. pose proof (getPadding_packet [] (mjoin pkts ++ z) count type c Hc) as HP.
  rewrite <- Ed in HT, HP. change (zlen (@nil Z)) with 0 in HT, HP. rewrite HT. step.
  destruct (negb (type =? rtcpTypeSR) && negb (type =? rtcpTypeRR)) eqn:E; [destruct Ht; subst type; discriminate E|].
  rewrite HP by exact Hw. step. cbn [Z.eqb negb].
  pose proof (headersEnd_packets (p :: pkts) headerFuel [] z) as H'. cbn [app] in H'. fold out in H'. change (zlen (@nil Z)) with 0 in H'. rewrite !Z.add_0_l in H'.
  rewrite H'; [step; now rewrite Z.eqb_refl | unfold headerFuel; change (Z.to_nat (RTCP_PACKETSIZE / 4 + 1)) with 513%nat; cbn [length]; lia|].
  constructor; [|exact Hps]. exists count, type, c. now split.
Qed.

(** One packet after the other is read. *)
Lemma readLoop_packet raw now fuel pre p count type c post end_ ret s :
  Packet p count type c -> zlen pre < end_ ->
  readLoop raw now (S fuel) (pre ++ p ++ post) (zlen pre) end_ ret s =
  ('(bye, s) ← readPacket raw now (pre ++ p ++ post) (zlen pre) s; readLoop raw now fuel (pre ++ p ++ post) (zlen (pre ++ p)) end_ (ret || bye) s).
Proof.
  intros Hp He. destruct (Packet_words _ _ _ _ Hp) as [Hw Hz]. destruct Hp as (Ep & _). cbn [readLoop].
  destruct (Z.ltb_spec (zlen pre) end_); [|lia]. apply bind_ext. intros [bye s'] _. rewrite Ep at 1. rewrite getLength_packet by exact Hw. step.
  now rewrite zlen_app, Hz.
Qed.

(** * A report is sent *)

(** The blocks of a report as its reader takes them. *)
Definition blocks (r : RtpReceiver.RtpReceiver) (now : NtpTime) (l : tranInfos) : list (bytes * Z * Z) :=
  map (fun e => (take 16 (reportBlock r now e.2).1, lastSRTimestamp e.2, lastSRDelay now e.2)) (List.filter (fun e => reported r e.2) l).

Lemma lastSRDelay_range now s : 0 <= lastSRDelay now s < 4294967296.
Proof.
  unfold lastSRDelay. destruct (_ =? 0); [lia|]. destruct (ntp_gt _ _); [|lia]. apply wrap32_range.
Qed.

Lemma blocksOf_blocks r now l : blocksOf r now l = mjoin (map blockBytes (blocks r now l)).
Proof.
  induction l as [|[k s] l IH]; [reflexivity|]. change (blocksOf r now ((k, s) :: l)) with (blockOf r now s ++ blocksOf r now l). rewrite IH.
  unfold blocks, blockOf. cbn [List.filter snd]. now destruct (reported r s).
Qed.

Lemma blocks_fit r now l : forall lo, ordered lo l -> Forall blockFits (blocks r now l).
Proof.
  induction l as [|[k s] l IH]; intros lo H; [constructor|]. apply ordered_inv in H as (_ & (_ & _ & Hs) & Hl). specialize (IH _ Hl).
  unfold blocks in *. cbn [List.filter snd]. destruct (reported r s); [|exact IH]. constructor; [|exact IH].
  split; [reflexivity|]. split; [exact Hs | apply lastSRDelay_range].
Qed.

Lemma zlen_blocks r now l : zlen (blocks r now l) = reportCount r l.
Proof. unfold zlen, blocks, reportCount, zlen. now rewrite length_map. Qed.

(** A transmitter that has something to report and to describe. *)
Definition allItems : list RtcpSDESType := [Cname; Name; Email; Phone; Loc; Tool; Note].
Definition spoken (texts : RtcpSDESType -> bytes) : list RtcpSDESType := List.filter (fun i => 0 <? zlen (texts i)) allItems.

Record Speaks (t : RtcpTransmitter) (x : RtpTransmitter.RtpTransmitter) (texts : RtcpSDESType -> bytes) : Prop := {
  speaks_tran : tran t = Some x;
  speaks_receiver : hasReceiver t = true;
  speaks_source : 0 <= RtpTransmitter.ssrc x < 4294967296;
  speaks_texts : forall i, getSdes i t = Ret (texts i) /\ noNul (texts i) /\ zlen (texts i) < 256;
  speaks_size : zlen (itemsBytes texts (spoken texts)) <= 1000
}.

Lemma nonEmpty_spoken t texts l : (forall i, getSdes i t = Ret (texts i)) -> nonEmpty t l = Ret (List.filter (fun i => 0 <? zlen (texts i)) l).
Proof.
  intros H. induction l as [|i l IH]; [reflexivity|]. cbn [nonEmpty List.filter]. rewrite H, IH. step. now destruct (0 <? zlen (texts i)).
Qed.

Lemma spoken_texts t x texts : Speaks t x texts -> Forall (fun i => getSdes i t = Ret (texts i) /\ noNul (texts i) /\ zlen (texts i) < 256) (spoken texts).
Proof. intros H. apply List.Forall_forall. intros i _. apply H. Qed.

(** The datagram of a report. *)
Definition datagram (r : RtpReceiver.RtpReceiver) (now : NtpTime) (x : RtpTransmitter.RtpTransmitter) (texts : RtcpSDESType -> bytes)
  (infos : tranInfos) : bytes :=
  mjoin [reportBytes r now x infos; descriptionBytes (RtpTransmitter.ssrc x) texts (spoken texts)].

Lemma zlen_reportBytes r now x infos : zlen (reportBytes r now x infos) = 28 + 24 * reportCount r infos.
Proof.
  unfold reportBytes, packetBytes, headerBytes. rewrite !zlen_app, zlen_blocksOf. change (zlen (senderInfo now x)) with 24.
  change (zlen [_; _]) with 2. change (zlen (enc16 _)) with 2. lia.
Qed.

Lemma transmitRTCP_datagram r now t x texts infos :
  Speaks t x texts -> reportCount r infos < 32 ->
  transmitRTCP r now t infos = Ret (datagram r now x texts infos, map (fun e => (e.1, afterReport r now e.2)) infos).
Proof.
  intros H Hn. assert (0 <= reportCount r infos) by apply zlen_nonneg. unfold transmitRTCP.
  rewrite (addSR_filled r now t x) by (apply H || exact Hn). step. rewrite (speaks_tran _ _ _ H). unfold addSDES.
  rewrite (speaks_tran _ _ _ H), (nonEmpty_spoken t texts) by (intros i; apply (speaks_texts _ _ _ H)). step.
  destruct (addSDESlist_filled t x texts (spoken texts) (reportBytes r now x infos)) as [usage E].
  - apply H.
  - eapply List.Forall_impl; [|exact (spoken_texts _ _ _ H)]. cbn. tauto.
  - rewrite zlen_reportBytes. pose proof (speaks_size _ _ _ H). unfold RTCP_PACKETSIZE. lia.
  - change (addSDESlist t _ 0 ?p) with (addSDESlist t (spoken texts) 0 p). rewrite E. step. unfold transmit. rewrite getTotalUsage_filled, filled_data.
    assert (datagram r now x texts infos = reportBytes r now x infos ++ descriptionBytes (RtpTransmitter.ssrc x) texts (spoken texts)) as ->
      by (unfold datagram; cbn [mjoin list_join foldr]; now rewrite app_nil_r).
    set (d := reportBytes r now x infos ++ _). pose proof (slice_mid [] d (zeros (Z.to_nat (RTCP_PACKETSIZE - zlen d)))) as Hs. cbn [app] in Hs.
    change (zlen (@nil Z)) with 0 in Hs. rewrite Hs. reflexivity.
Qed.

(** ** and read *)

(** A receiver that has read a report. *)
Definition heard (now : NtpTime) (src : Z) (sent : NtpTime) (bl : list (bytes * Z * Z)) (texts : RtcpSDESType -> bytes)
  (s : RtpTranInfo) (c : RtcpReceiver) : RtcpReceiver :=
  let c := fold_left addTrip (map (fun e => tripOf now e.1.2 e.2) bl) (afterSender now src sent s c) in
  with_infos (setInfo src (with_sdes (describe texts (spoken texts) (SDESInfo s)) (with_lastSR (stampOf sent) now s)) (tranInfoList c)) c.

Lemma addTrips_same l : forall c, tranInfoList (fold_left addTrip l c) = tranInfoList c /\ packetReceived (fold_left addTrip l c) = packetReceived c /\
  accumOneWayDelay (fold_left addTrip l c) = accumOneWayDelay c /\ avgOneWayDelay (fold_left addTrip l c) = avgOneWayDelay c.
Proof.
  induction l as [|x l IH]; intros c; [auto|]. cbn [fold_left]. destruct (IH (addTrip c x)) as (-> & -> & -> & ->). apply addTrip_same.
Qed.

Lemma stampOf_range t : timeOk t -> 0 <= stampOf t < 4294967296.
Proof. intros [Hs Hf]. unfold stampOf. Z.to_euclidean_division_equations; lia. Qed.

Lemma receive_datagram raw now' r now x texts infos c r' s c1 :
  0 <= RtpTransmitter.ssrc x < 4294967296 -> timeOk now -> (exists lo, ordered lo infos) -> reportCount r infos < 32 ->
  Forall (fun i => noNul (texts i) /\ zlen (texts i) < 256) (spoken texts) -> zlen (itemsBytes texts (spoken texts)) <= 1000 ->
  counts c -> findTranInfo raw now' (RtpTransmitter.ssrc x) c = (s, c1) -> c1 = with_infos (tranInfoList c1) c ->
  tableOk c1 -> findInfo (RtpTransmitter.ssrc x) (tranInfoList c1) = Some s ->
  receiveRTCP raw now' true (RtpReceiver.Datagram (datagram r now x texts infos)) (c, r') =
  Ret (2, (heard now' (RtpTransmitter.ssrc x) now (blocks r now infos) texts s c1, r')).
Proof.
  intros Hx Ht Ho Hn Htx Hsz Hc Hf H1 Hok Hfi. assert (0 <= reportCount r infos) as H0 by apply zlen_nonneg.
  set (src := RtpTransmitter.ssrc x) in *. set (p := reportBytes r now x infos). set (q := descriptionBytes src texts (spoken texts)).
  assert (Packet p (reportCount r infos) rtcpTypeSR (senderInfo now x ++ blocksOf r now infos)) as Hp.
  { assert (zlen (senderInfo now x ++ blocksOf r now infos) = 24 + 24 * reportCount r infos) as E by (rewrite zlen_app, zlen_blocksOf; reflexivity).
    split; [reflexivity|]. rewrite E. unfold RTCP_PACKETSIZE. split; [lia|]. Z.to_euclidean_division_equations; lia. }
  assert (Packet q 1 rtcpTypeSDES (padded (chunkBytes src texts (spoken texts)))) as Hq.
  { destruct (zlen_padded (chunkBytes src texts (spoken texts))) as [Hz Hm].
    assert (zlen (chunkBytes src texts (spoken texts)) = 6 + zlen (itemsBytes texts (spoken texts))) as E by (unfold chunkBytes; zlen_lia).
    split; [reflexivity|]. unfold RTCP_PACKETSIZE. split; [lia|]. split; [exact Hm | lia]. }
  destruct (Packet_words _ _ _ _ Hq) as [Hwq Hzq]. destruct (zlen_padded (chunkBytes src texts (spoken texts))) as [Hzp _].
  assert (zlen (chunkBytes src texts (spoken texts)) = 6 + zlen (itemsBytes texts (spoken texts))) as Ec by (unfold chunkBytes; zlen_lia).
  assert (zlen q <= 1013) as Hql by (destruct Hq as (_ & _ & Hm & _); rewrite Hzq; Z.to_euclidean_division_equations; lia).
  assert (zlen (mjoin [p; q]) = zlen p + zlen q) as El by (cbn [mjoin list_join foldr]; rewrite app_nil_r; apply zlen_app).
  assert (zlen p = 28 + 24 * reportCount r infos) as Ep by apply zlen_reportBytes. pose proof (zlen_nonneg q) as Hq0.
  unfold receiveRTCP. change (datagram r now x texts infos) with (mjoin [p; q]).
  rewrite (getPacket_packets p [q] _ _ _ Hp (or_introl eq_refl)); [| repeat constructor; eauto | cbn [length]; lia | unfold RTCP_PACKETSIZE; lia].
  step. destruct (Z.ltb_spec 0 (zlen (mjoin [p; q]))); [|lia]. cbn [negb].
  unfold readRTCP. rewrite getTotalUsage_filled, filled_data. set (z := zeros _). change headerFuel with (S (S (S 510))).
  assert (mjoin [p; q] ++ z = p ++ q ++ z) as Ed by (cbn [mjoin list_join foldr]; rewrite app_nil_r; now rewrite <- app_assoc). rewrite Ed.
  pose proof (readLoop_packet raw now' (S (S 510)) [] p _ _ _ (q ++ z) (zlen (mjoin [p; q])) false (c, r') Hp) as E1.
  change (zlen (@nil Z)) with 0 in E1. cbn [app] in E1. rewrite E1 by lia. clear E1.
  assert (readPacket raw now' (p ++ q ++ z) 0 (c, r') =
    Ret (false, (fold_left addTrip (map (fun e => tripOf now' e.1.2 e.2) (blocks r now infos)) (afterSender now' src now s c1), r'))) as ->.
  { unfold readPacket, p, reportBytes. pose proof (getType_packet [] (q ++ z) (reportCount r infos) rtcpTypeSR (senderInfo now x ++ blocksOf r now infos)) as HT.
    cbn [app] in HT. change (zlen (@nil Z)) with 0 in HT. rewrite HT. step. change (rtcpTypeSR =? rtcpTypeSR) with true. cbn [orb].
    pose proof (readSR_spec raw now' [] (q ++ z) src now (enc32 (mediaTime now x) ++ enc32 (u32 (RtpTransmitter.packetSent x)) ++ enc32 (u32 (RtpTransmitter.payloadSent x)))
      (blocks r now infos) c s c1 Hx Ht eq_refl Hc) as HR.
    rewrite zlen_blocks, <- blocksOf_blocks in HR. cbn [app] in HR. change (zlen (@nil Z)) with 0 in HR.
    change (enc32 src ++ enc32 (seconds now) ++ _) with (senderInfo now x) in HR. rewrite HR; [reflexivity | pose proof (zlen_blocks r now infos); unfold zlen in *; lia | destruct Ho as [lo Ho]; exact (blocks_fit _ _ _ _ Ho) | exact Hf | exact H1]. }
  step. cbn [orb]. set (c2 := fold_left addTrip _ _). destruct (addTrips_same (map (fun e => tripOf now' e.1.2 e.2) (blocks r now infos)) (afterSender now' src now s c1)) as (Et & _).
  fold c2 in Et. cbn [afterSender tranInfoList] in Et. destruct Hok as [lo Hok]. destruct (findInfo_ssrc _ _ _ _ Hok Hfi) as [(Hs1 & Hs2 & _) _].
  pose proof (readLoop_packet raw now' (S 510) p q _ _ _ z (zlen (mjoin [p; q])) false (c2, r') Hq) as E1. rewrite E1 by lia. clear E1.
  assert (readPacket raw now' (p ++ q ++ z) (zlen p) (c2, r') = Ret (false, (heard now' src now (blocks r now infos) texts s c1, r'))) as ->.
  { unfold readPacket, q, descriptionBytes. rewrite getType_packet. step. change (rtcpTypeSDES =? rtcpTypeSR) with false. change (rtcpTypeSDES =? rtcpTypeRR) with false.
    change (rtcpTypeSDES =? rtcpTypeSDES) with true. cbn [orb]. pose proof (readSDES_spec raw now' src texts (spoken texts) p z c2 (with_lastSR (stampOf now) now' s)) as HR.
    unfold descriptionBytes in HR. rewrite HR; [reflexivity | exact Hx | | | | exact Htx].
    - assert (length (spoken texts) <= length allItems)%nat by apply filter_length_le. cbn [length allItems] in *. lia.
    - exists lo. rewrite Et. apply ordered_set; [|exact Hok]. split; [exact Hs1|]. split; [exact Hs2 | exact (stampOf_range _ Ht)].
    - now rewrite Et, findInfo_set, Z.eqb_refl, Hfi. }
  step. cbn [orb readLoop]. rewrite zlen_app. destruct (Z.ltb_spec (zlen p + zlen q) (zlen (mjoin [p; q]))); [lia|]. reflexivity.
Qed.

(** ** What the arrays of a description hold *)

Lemma describe_other texts l : forall x i, ~ In i l -> describe texts l x i = x i.
Proof.
  induction l as [|j l IH]; intros x i Hi; [reflexivity|]. cbn [describe]. rewrite IH by (intros H; apply Hi; now right).
  unfold setSdes. destruct (decide (i = j)) as [->|]; [|reflexivity]. exfalso. apply Hi. now left.
Qed.

Lemma describe_item texts pre i post x : List.NoDup (pre ++ i :: post) ->
  take (S (length (texts i))) (describe texts (pre ++ i :: post) x i) = texts i ++ [nextCode post].
Proof.
  revert x. induction pre as [|j pre IH]; intros x Hn; cbn [app describe] in *; apply List.NoDup_cons_iff in Hn as [Hi Hn]; [|now apply IH].
  rewrite describe_other by exact Hi. unfold setSdes. rewrite decide_True by reflexivity.
  change (nextCode post :: ?d) with ([nextCode post] ++ d). rewrite app_assoc. replace (S (length (texts i))) with (length (texts i ++ [nextCode post])) by (rewrite length_app; cbn; lia). apply take_app_length.
Qed.

Lemma describe_ok texts l : forall x, (forall i, zlen (texts i) < 256) -> sdesOk x -> sdesOk (describe texts l x).
Proof.
  induction l as [|j l IH]; intros x Ht Hx; [exact Hx|]. cbn [describe]. apply IH; [exact Ht|]. intros i. unfold setSdes.
  destruct (decide (i = j)) as [->|]; [|apply Hx]. specialize (Hx j). specialize (Ht j). rewrite !zlen_app. unfold zlen in *. rewrite length_drop. cbn [length]. lia.
Qed.

Lemma spoken_NoDup texts : List.NoDup (spoken texts).
Proof.
  apply List.NoDup_filter. unfold allItems. repeat constructor; cbn [In]; intuition discriminate.
Qed.

(** Both sides of a report. *)
Lemma report_heard raw now' r now t x texts infos c r' :
  Speaks t x texts -> timeOk now -> (exists lo, ordered lo infos) -> reportCount r infos < 32 -> sdesOk raw -> tableOk c -> counts c ->
  exists d c' s,
    transmitRTCP r now t infos = Ret (d, map (fun e => (e.1, afterReport r now e.2)) infos) /\
    receiveRTCP raw now' true (RtpReceiver.Datagram d) (c, r') = Ret (2, (c', r')) /\
    tableOk c' /\ packetReceived c' = packetReceived c + 1 /\
    accumOneWayDelay c' = s32 (accumOneWayDelay c + difference (getMs now') (getMs now)) /\
    findInfo (RtpTransmitter.ssrc x) (tranInfoList c') = Some s /\ lastSRTimestamp s = stampOf now /\ recvLastSRTimestamp s = now' /\
    recv s = match findInfo (RtpTransmitter.ssrc x) (tranInfoList c) with Some s0 => recv s0 | None => false end /\
    (forall pre i post, spoken texts = pre ++ i :: post -> take (S (length (texts i))) (SDESInfo s i) = texts i ++ [nextCode post]) /\
    (forall k, k <> RtpTransmitter.ssrc x -> findInfo k (tranInfoList c') = findInfo k (tranInfoList c)) /\
    (forall diff, map (fun e => tripOf now' e.1.2 e.2) (blocks r now infos) = [Some diff] ->
       accumRoundTripDelay c' = s32 (accumRoundTripDelay c + diff) /\
       avgRoundTripDelay c' = Z.quot (accumRoundTripDelay c') (packetReceived c')).
Proof.
  intros Hs Ht Ho Hn Hr Hc Hp. pose proof (speaks_source _ _ _ Hs) as Hx. set (src := RtpTransmitter.ssrc x) in *.
  destruct (findTranInfo_spec raw now' src c Hr Hc) as (s0 & c1 & Hf & Hok & H1 & Hi & Hfind & Hold).
  assert (findInfo src (tranInfoList c1) = Some s0) as Hf1 by now rewrite Hfind, Z.eqb_refl.
  exists (datagram r now x texts infos), (heard now' src now (blocks r now infos) texts s0 c1),
    (with_sdes (describe texts (spoken texts) (SDESInfo s0)) (with_lastSR (stampOf now) now' s0)).
  split; [exact (transmitRTCP_datagram r now t x texts infos Hs Hn)|]. split.
  { apply receive_datagram; try assumption; [|exact (speaks_size _ _ _ Hs)].
    eapply List.Forall_impl; [|exact (spoken_texts _ _ _ Hs)]. cbn. tauto. }
  destruct (addTrips_same (map (fun e => tripOf now' e.1.2 e.2) (blocks r now infos)) (afterSender now' src now s0 c1)) as (Et & Ep & Ed & _).
  unfold heard. set (c2 := fold_left addTrip _ _) in *. cbn [with_infos tranInfoList packetReceived accumOneWayDelay].
  rewrite H1 in Ep, Ed. cbn [afterSender with_infos packetReceived accumOneWayDelay] in Ep, Ed.
  split. { destruct Hok as [lo Hok]. exists lo. cbn [tranInfoList with_infos]. rewrite Et. cbn [afterSender tranInfoList]. rewrite setInfo_twice. apply ordered_set; [|exact Hok].
    destruct Hi as (Hi1 & Hi2 & _). split; [exact Hi1|]. split; [|exact (stampOf_range _ Ht)]. cbn [with_sdes with_lastSR SDESInfo].
    exact (describe_ok texts (spoken texts) (SDESInfo s0) (fun i => proj2 (proj2 (speaks_texts _ _ _ Hs i))) Hi2). }
  split; [exact Ep|]. split; [exact Ed|]. rewrite Et. cbn [afterSender tranInfoList]. rewrite setInfo_twice.
  split; [now rewrite findInfo_set, Z.eqb_refl, Hf1|]. split; [reflexivity|]. split; [reflexivity|].
  split; [cbn [with_sdes with_lastSR recv]; destruct (findInfo src (tranInfoList c)); now subst s0|]. split; [|split].
  - intros pre i post E. cbn [with_sdes with_lastSR SDESInfo]. rewrite E. apply describe_item. rewrite <- E. apply spoken_NoDup.
  - intros k Hk. rewrite findInfo_set. destruct (Z.eqb_spec k src); [contradiction|]. rewrite Hfind. destruct (Z.eqb_spec src k); [congruence | reflexivity].
  - intros diff E. cbn [with_infos accumRoundTripDelay avgRoundTripDelay packetReceived]. subst c2. rewrite E, H1. split; reflexivity.
Qed.

(** A report that is sent is what arrives.  The datagram that a session
    sends, with the report of a sender, up to 31 report blocks and the items of
    its description, is taken as a valid RTCP packet by a receiver in any state.
    The receiver then knows the source, the time of the report by which the next
    report answers it, and the delay; other sources are not touched.  Each text
    of the description is in its array, but followed by the type of the next
    item instead of a zero: only the last text ends as a string does. *)
Theorem report_arrives raw now' r now t x texts infos c r' :
  Speaks t x texts -> timeOk now -> (exists lo, ordered lo infos) -> reportCount r infos < 32 -> sdesOk raw -> tableOk c -> counts c ->
  exists d c' s,
    transmitRTCP r now t infos = Ret (d, map (fun e => (e.1, afterReport r now e.2)) infos) /\
    receiveRTCP raw now' true (RtpReceiver.Datagram d) (c, r') = Ret (2, (c', r')) /\
    tableOk c' /\ packetReceived c' = packetReceived c + 1 /\
    accumOneWayDelay c' = s32 (accumOneWayDelay c + difference (getMs now') (getMs now)) /\
    findInfo (RtpTransmitter.ssrc x) (tranInfoList c') = Some s /\ lastSRTimestamp s = stampOf now /\ recvLastSRTimestamp s = now' /\
    recv s = match findInfo (RtpTransmitter.ssrc x) (tranInfoList c) with Some s0 => recv s0 | None => false end /\
    (forall pre i post, spoken texts = pre ++ i :: post -> take (S (length (texts i))) (SDESInfo s i) = texts i ++ [nextCode post]) /\
    (forall k, k <> RtpTransmitter.ssrc x -> findInfo k (tranInfoList c') = findInfo k (tranInfoList c)).
Proof.
  intros Hs Ht Ho Hn Hr Hc Hp. destruct (report_heard raw now' r now t x texts infos c r' Hs Ht Ho Hn Hr Hc Hp) as (d & c' & s & H). exists d, c', s. tauto.
Qed.

(** * The time of a round trip *)

(** Milliseconds of the middle of a time, which is what reports carry. *)
Definition midMs (t : NtpTime) : Z := seconds t mod 65536 * 1000 + fractional t / 65536 * 65536 / 4294967.

Lemma midMs_range t : timeOk t -> 0 <= midMs t < 65537000.
Proof. intros [Hs Hf]. unfold midMs. Z.to_euclidean_division_equations; lia. Qed.

Lemma tripOf_stamp t3 t0 ld : timeOk t0 -> timeOk t3 ->
  tripOf t3 (stampOf t0) ld = if midMs t0 =? 0 then None else Some (s32 (difference (midMs t3) (midMs t0) - ld / 65)).
Proof.
  intros H0 H3. pose proof (midMs_range t0 H0) as R0. pose proof (midMs_range t3 H3) as R3.
  assert (getMs (mkNtpTime (Z.land (Z.shiftr (stampOf t0) 16) 65535) (u32 (Z.shiftl (stampOf t0) 16))) = midMs t0) as E0.
  { unfold getMs, midMs, stampOf, wrap in *. cbn [seconds fractional]. change 65535 with (Z.ones 16).
    rewrite Z.land_ones, Z.shiftr_div_pow2, Z.shiftl_mul_pow2 by lia. change (2 ^ 16) with 65536. change (2 ^ 32) with 4294967296. change (2 ^ 64) with 18446744073709551616.
    destruct H0 as [Hs Hf]. set (S := seconds t0 mod 65536) in *. set (F := fractional t0 / 65536) in *.
    assert (0 <= S < 65536) by (unfold S; Z.to_euclidean_division_equations; lia). assert (0 <= F < 65536) by (unfold F; Z.to_euclidean_division_equations; lia).
    replace ((S * 65536 + F) / 65536 mod 65536) with S by (Z.to_euclidean_division_equations; lia).
    replace ((S * 65536 + F) * 65536 mod 4294967296) with (F * 65536) by (Z.to_euclidean_division_equations; lia).
    apply Z.mod_small. lia. }
  assert (getMs (mkNtpTime (Z.land (getSeconds t3) 65535) (Z.land (getFractional t3) 4294901760)) = midMs t3) as E3.
  { unfold getMs, midMs, getSeconds, getFractional, wrap in *. cbn [seconds fractional].
    replace (Z.land (seconds t3) 65535) with (seconds t3 mod 65536) by (change 65535 with (Z.ones 16); now rewrite Z.land_ones by lia).
    replace (Z.land (fractional t3) 4294901760) with (fractional t3 / 65536 * 65536).
    - apply Z.mod_small. lia.
    - destruct H3 as [_ Hf]. change 65536 with (2 ^ 16). rewrite <- Z.shiftr_div_pow2, <- Z.shiftl_mul_pow2 by lia.
      apply Z.bits_inj'. intros n Hn. rewrite Z.land_spec. change 4294901760 with (Z.shiftl (Z.ones 16) 16).
      rewrite !Z.shiftl_spec by lia. destruct (Z.lt_ge_cases n 16); [rewrite !(Z.testbit_neg_r _ (n - 16)) by lia; now rewrite andb_false_r|].
      rewrite Z.shiftr_spec by lia. replace (n - 16 + 16) with n by lia. destruct (Z.lt_ge_cases (n - 16) 16).
      + rewrite Z.ones_spec_low by lia. now rewrite andb_true_r.
      + rewrite Z.ones_spec_high by lia. rewrite andb_false_r. apply Z.bits_above_log2; [lia|].
        destruct (Z.eq_dec (fractional t3) 0) as [->|]; [cbn; lia|]. apply Z.log2_lt_pow2; [lia|].
        apply Z.lt_le_trans with (2 ^ 32); [change (2 ^ 32) with 4294967296; lia | apply Z.pow_le_mono_r; lia]. }
  unfold tripOf. now rewrite E0, E3.
Qed.

(** The delay that a source reports comes back in milliseconds. *)
Lemma lastSRDelay_ms t2 s : lastSRTimestamp s <> 0 -> ntp_gt t2 (recvLastSRTimestamp s) = true ->
  0 <= getMs t2 - getMs (recvLastSRTimestamp s) < 66076419 ->
  lastSRDelay t2 s / 65 = getMs t2 - getMs (recvLastSRTimestamp s).
Proof.
  intros Hs Hg Hd. unfold lastSRDelay. destruct (Z.eqb_spec (lastSRTimestamp s) 0); [contradiction|]. rewrite Hg.
  rewrite (wrap_small 32 (getMs t2 - _)) by lia. rewrite (wrap_small 32) by lia. apply Z.div_mul. lia.
Qed.

(** The one source that is reported. *)
Lemma blocks_single r now src l : forall lo s, ordered lo l -> 0 <= RtpReceiver.probation (RtpReceiver.source r) ->
  findInfo src l = Some s -> recv s = true -> (forall k x, findInfo k l = Some x -> recv x = true -> k = src) ->
  blocks r now l = [(take 16 (reportBlock r now s).1, lastSRTimestamp s, lastSRDelay now s)].
Proof.
  intros lo s Ho Hp. revert lo s Ho. induction l as [|[k x] l IH]; intros lo s Ho Hf Hr Hu; [discriminate Hf|].
  apply ordered_inv in Ho as (Hk & _ & Ho). unfold blocks in *. cbn [List.filter snd findInfo] in *.
  assert (reported r x = recv x) as Ex by (unfold reported; destruct (Z.leb_spec 0 (RtpReceiver.probation (RtpReceiver.source r))); [apply andb_true_r | lia]).
  rewrite Ex. destruct (Z.eqb_spec k src) as [->|Hn].
  - injection Hf as ->. rewrite Hr. cbn [map snd]. f_equal.
    assert (List.filter (fun e => reported r e.2) l = []) as ->; [|reflexivity].
    assert (forall k x, findInfo k l = Some x -> recv x = false) as Hl.
    { intros j y Hj. destruct (recv y) eqn:E; [|reflexivity]. destruct (findInfo_ssrc _ _ _ _ Ho Hj) as [_ Hlt].
      assert (j = src); [|lia]. apply (Hu j y); [|exact E]. destruct (Z.eqb_spec src j); [lia | exact Hj]. }
    clear -Hl Ho. revert Ho Hl. generalize src. induction l as [|[k x] l IH]; intros lo Ho Hl; [reflexivity|]. apply ordered_inv in Ho as (Hk & _ & Ho).
    cbn [List.filter snd findInfo] in *. assert (recv x = false) as E by (apply (Hl k); now rewrite Z.eqb_refl). unfold reported at 1. rewrite E. cbn [andb].
    apply (IH k Ho). intros j y Hj. apply (Hl j). destruct (Z.eqb_spec k j) as [->|]; [|exact Hj]. rewrite (findInfo_below _ _ _ Ho) in Hj by lia. discriminate Hj.
  - destruct (recv x) eqn:E; [exfalso; apply Hn, (Hu k x); [now rewrite Z.eqb_refl | exact E]|]. apply (IH k s Ho Hf Hr).
    intros j y Hj. apply (Hu j). destruct (Z.eqb_spec k j) as [->|]; [|exact Hj]. rewrite (findInfo_below _ _ _ Ho) in Hj by lia. discriminate Hj.
Qed.

(** The receiver that hears the RTP of one source, [src]. *)
Definition listensTo (src : Z) (l : tranInfos) : Prop :=
  (exists s, findInfo src l = Some s /\ recv s = true) /\ (forall k x, findInfo k l = Some x -> recv x = true -> k = src).

(** C5: the time of a round trip is measured.  One session sends a report; the
    other, which hears its RTP, reads the report and answers with one of its
    own; the first reads that.  The receiver of the first then has added, to the
    sum of its round trips, the time between sending and reading, in the middle
    bits of its own clock, less the time for which the other has kept the report
    on the other's clock: the difference of the clocks does not matter. *)
Theorem round_trip_measured raw ra ta xa texta infosa rb tb xb textb cb ca ra' t0 t1 t2 t3 :
  Speaks ta xa texta -> Speaks tb xb textb -> sdesOk raw -> timeOk t0 -> timeOk t2 -> timeOk t3 ->
  (exists lo, ordered lo infosa) -> reportCount ra infosa < 32 -> tableOk cb -> counts cb -> tableOk ca -> counts ca ->
  listensTo (RtpTransmitter.ssrc xa) (tranInfoList cb) -> 0 <= RtpReceiver.probation (RtpReceiver.source rb) ->
  0 < midMs t0 <= midMs t3 -> ntp_gt t2 t1 = true -> 0 <= getMs t2 - getMs t1 < 66076419 ->
  exists d1 infosa' cb' d2 infosb' ca',
    transmitRTCP ra t0 ta infosa = Ret (d1, infosa') /\
    receiveRTCP raw t1 true (RtpReceiver.Datagram d1) (cb, rb) = Ret (2, (cb', rb)) /\
    transmitRTCP rb t2 tb (tranInfoList cb') = Ret (d2, infosb') /\
    receiveRTCP raw t3 true (RtpReceiver.Datagram d2) (ca, ra') = Ret (2, (ca', ra')) /\
    accumRoundTripDelay ca' = s32 (accumRoundTripDelay ca + s32 ((midMs t3 - midMs t0) - (getMs t2 - getMs t1))) /\
    avgRoundTripDelay ca' = Z.quot (accumRoundTripDelay ca') (packetReceived ca').
Proof.
  intros Ha Hb Hr H0 H2 H3 Hoa Hna Hcb Hpb Hca Hpa [(s & Hf & Hs) Hu] Hprob Hm Hg Hd. set (src := RtpTransmitter.ssrc xa) in *.
  destruct (report_heard raw t1 ra t0 ta xa texta infosa cb rb Ha H0 Hoa Hna Hr Hcb Hpb) as (d1 & cb' & s1 & E1 & E2 & Hok & _ & _ & Hs1 & Hst & Hrt & Hrv & _ & Hoth & _).
  fold src in Hs1, Hrv, Hoth. rewrite Hf, Hs in Hrv.
  assert (blocks rb t2 (tranInfoList cb') = [(take 16 (reportBlock rb t2 s1).1, lastSRTimestamp s1, lastSRDelay t2 s1)]) as Eb.
  { destruct Hok as [lo Hok]. apply (blocks_single _ _ src _ lo); [exact Hok | exact Hprob | exact Hs1 | exact Hrv |]. intros k x Hk Hx.
    destruct (Z.eq_dec k src) as [|Hn]; [assumption|]. rewrite (Hoth k Hn) in Hk. exact (Hu k x Hk Hx). }
  assert (reportCount rb (tranInfoList cb') < 32) as Hnb by (rewrite <- (zlen_blocks rb t2), Eb; reflexivity).
  destruct (report_heard raw t3 rb t2 tb xb textb (tranInfoList cb') ca ra' Hb H2 Hok Hnb Hr Hca Hpa) as (d2 & ca' & s2 & E3 & E4 & _ & _ & _ & _ & _ & _ & _ & _ & _ & Htrip).
  exists d1, (map (fun e => (e.1, afterReport ra t0 e.2)) infosa), cb', d2, (map (fun e => (e.1, afterReport rb t2 e.2)) (tranInfoList cb')), ca'.
  split; [exact E1|]. split; [exact E2|]. split; [exact E3|]. split; [exact E4|]. apply Htrip. rewrite Eb. cbn [map fst snd]. f_equal.
  rewrite Hst, tripOf_stamp by assumption. destruct (Z.eqb_spec (midMs t0) 0); [lia|]. do 2 f_equal.
  pose proof (midMs_range t0 H0). pose proof (midMs_range t3 H3). rewrite lastSRDelay_ms; rewrite ?Hrt; try assumption.
  - unfold difference. destruct (Z.ltb_spec (midMs t3) (midMs t0)); [lia|]. now rewrite swrap_small by lia.
  - rewrite Hst. unfold stampOf, midMs in *. destruct H0. Z.to_euclidean_division_equations; lia.
Qed.

(** ** Two sessions *)

Definition sampleTexts (i : RtcpSDESType) : bytes := match i with Cname => str "unknown_user.1@here" | Tool => str "vocal" | _ => [] end.
Definition sampleInfo (i : RtcpSDESType) : bytes := zeros 256.

Definition sampleTran (src : Z) : RtpTransmitter.RtpTransmitter :=
  RtpTransmitter.mkTransmitter src (mkNtpTime 900 0) 500 660 (mkNtpTime 900 85899346) 7 2 320 0 160 1 8000 (Some false)
    (RtpPacket.mkRtpPacket [] 0 0 0 0 false false false false None).

Definition sampleTransmitter (src : Z) : RtcpTransmitter :=
  mkRtcpTransmitter (mkNtpTime 1000 0) (Some (fun i => Some (sampleTexts i))) (Some (sampleTran src)) true.

Lemma sample_Speaks src : 0 <= src < 4294967296 -> Speaks (sampleTransmitter src) (sampleTran src) sampleTexts.
Proof.
  intros H. split; [reflexivity | reflexivity | exact H | | now vm_compute]. intros i. split; [reflexivity|].
  split; [|destruct i; reflexivity]. unfold noNul. apply List.Forall_forall. destruct i; cbn; intuition (subst; discriminate).
Qed.

(** A receiver that has had two packets of the source 5. *)
Definition sampleReceiver : RtpReceiver.RtpReceiver :=
  RtpReceiver.mkRtpReceiver (RtpReceiver.mkJB 0 0 5 [])
    (RtpReceiver.mkSource true 5 false 0 0 10 (mkNtpTime 901 0) 500 11 0 true [])
    (RtpReceiver.mkStats 2 320 0 0 0 0 false 0 []) (RtpPacket.mkRtpPacket [] 0 0 0 0 false false false false None) 0 8000 1 160.

Definition sampleSources : tranInfos := [(5, mkTranInfo 5 true 0 0 sampleInfo 0 (mkNtpTime 901 0))].
Definition sampleRtcp (l : tranInfos) : RtcpReceiver := mkRtcpReceiver l 0 0 0 0 0.

Lemma sampleSources_ordered : exists lo, ordered lo sampleSources.
Proof. exists 0. constructor; [lia | | constructor]. split; [reflexivity|]. split; [intros i; reflexivity | cbn; lia]. Qed.

Lemma sampleSources_listens : listensTo 5 sampleSources.
Proof.
  split; [eexists; split; reflexivity|]. intros k x. cbn [sampleSources findInfo]. destruct (Z.eqb_spec 5 k); [now subst | discriminate].
Qed.

Lemma report_arrives_witness : exists d infos c s,
  transmitRTCP sampleReceiver (mkNtpTime 1000 77) (sampleTransmitter 6) sampleSources = Ret (d, infos) /\
  receiveRTCP sampleInfo (mkNtpTime 1000 9999) true (RtpReceiver.Datagram d) (sampleRtcp [], sampleReceiver) = Ret (2, (c, sampleReceiver)) /\
  findInfo 6 (tranInfoList c) = Some s /\ take 6 (SDESInfo s Tool) = str "vocal" ++ [0].
Proof.
  destruct (report_arrives sampleInfo (mkNtpTime 1000 9999) sampleReceiver (mkNtpTime 1000 77) (sampleTransmitter 6) (sampleTran 6) sampleTexts sampleSources
    (sampleRtcp []) sampleReceiver) as (d & c & s & H1 & H2 & _ & _ & _ & H3 & _ & _ & _ & H4 & _).
  - apply sample_Speaks. lia.
  - split; cbn; lia.
  - exact sampleSources_ordered.
  - reflexivity.
  - intros i. reflexivity.
  - exists 0. constructor.
  - split; cbn; lia.
  - eexists d, _, c, s. split; [exact H1|]. split; [exact H2|]. split; [exact H3|]. exact (H4 [Cname] Tool [] eq_refl).
Defined.

Lemma round_trip_measured_witness : exists d1 infosa cb d2 infosb ca,
  transmitRTCP sampleReceiver (mkNtpTime 1000 0) (sampleTransmitter 5) [] = Ret (d1, infosa) /\
  receiveRTCP sampleInfo (mkNtpTime 2000 0) true (RtpReceiver.Datagram d1) (sampleRtcp sampleSources, sampleReceiver) = Ret (2, (cb, sampleReceiver)) /\
  transmitRTCP sampleReceiver (mkNtpTime 2001 0) (sampleTransmitter 6) (tranInfoList cb) = Ret (d2, infosb) /\
  receiveRTCP sampleInfo (mkNtpTime 1003 0) true (RtpReceiver.Datagram d2) (sampleRtcp [], sampleReceiver) = Ret (2, (ca, sampleReceiver)) /\
  accumRoundTripDelay ca = 2000.
Proof.
  destruct (round_trip_measured sampleInfo sampleReceiver (sampleTransmitter 5) (sampleTran 5) sampleTexts [] sampleReceiver (sampleTransmitter 6) (sampleTran 6)
    sampleTexts (sampleRtcp sampleSources) (sampleRtcp []) sampleReceiver (mkNtpTime 1000 0) (mkNtpTime 2000 0) (mkNtpTime 2001 0) (mkNtpTime 1003 0))
    as (d1 & ia & cb & d2 & ib & ca & H1 & H2 & H3 & H4 & H5 & _).
  - apply sample_Speaks. lia.
  - apply sample_Speaks. lia.
  - intros i. reflexivity.
  - split; cbn; lia.
  - split; cbn; lia.
  - split; cbn; lia.
  - exists 0. constructor.
  - reflexivity.
  - exact sampleSources_ordered.
  - split; cbn; lia.
  - exists 0. constructor.
  - split; cbn; lia.
  - exact sampleSources_listens.
  - cbn. lia.
  - vm_compute. split; [reflexivity | discriminate].
  - reflexivity.
  - vm_compute. split; [discriminate | reflexivity].
  - exists d1, ia, cb, d2, ib, ca. split; [exact H1|]. split; [exact H2|]. split; [exact H3|]. split; [exact H4|]. rewrite H5. reflexivity.
Defined.

End RtcpProps.
