(* ===== verification/RtcpSafe.v ===== *)
(** What a datagram can do to the reader of RTCP: it stays inside its buffer,
    and two kinds of packets end the program; and the sources that the two
    receivers of a session keep together. *)
From S2P Require Import Prelude RtpTime RtpPacket RtpReceiver RtpTransmitter Rtcp RtcpReceiver RtcpFacts RtcpReadFacts RtcpProps.
Import RtpTime Rtcp RtcpReceiver RtcpFacts RtcpReadFacts RtcpProps.

Module RtcpSafe.

(** * Outcomes that are a result or a failed assertion *)

Definition safe {A} (Q : A -> Prop) (m : outcome A) : Prop := match m with Ret x => Q x | Fault f => f = AssertFailed end.

Lemma safe_seq {A B} (P : A -> Prop) (Q : B -> Prop) (m : outcome A) (k : A -> outcome B) :
  safe P m -> (forall x, P x -> safe Q (k x)) -> safe Q (m ≫= k).
Proof. destruct m; cbn; auto. Qed.

Lemma safe_mono {A} (P Q : A -> Prop) m : safe P m -> (forall x, P x -> Q x) -> safe Q m.
Proof. destruct m; cbn; auto. Qed.

(** * What reading does to the table of sources *)

(** Sources may be added without a receiver; those that are there stay, each
    with its receiver. *)
Definition grows (c c' : RtcpReceiver) : Prop :=
  tableOk c' /\
  forall k, match findInfo k (tranInfoList c') with
            | Some x => match findInfo k (tranInfoList c) with Some y => recv x = recv y | None => recv x = false end
            | None => findInfo k (tranInfoList c) = None
            end.

Lemma grows_refl c : tableOk c -> grows c c.
Proof. intros H. split; [exact H|]. intros k. now destruct (findInfo k (tranInfoList c)). Qed.

Lemma grows_trans a b c : grows a b -> grows b c -> grows a c.
Proof.
  intros [_ H1] [Hc H2]. split; [exact Hc|]. intros k. specialize (H1 k). specialize (H2 k).
  destruct (findInfo k (tranInfoList c)), (findInfo k (tranInfoList b)), (findInfo k (tranInfoList a)); congruence.
Qed.

Lemma grows_same c c' : tableOk c -> tranInfoList c' = tranInfoList c -> grows c c'.
Proof. intros H E. unfold grows, tableOk. rewrite E. now apply grows_refl. Qed.

(** A source is looked up and stored again. *)
Lemma grows_store raw now src c s c1 s' : sdesOk raw -> tableOk c -> findTranInfo raw now src c = (s, c1) ->
  (infoOk src s -> infoOk src s' /\ recv s' = recv s) -> grows c c1 /\ grows c (with_infos (setInfo src s' (tranInfoList c1)) c1).
Proof.
  intros Hr Hc Hf Hs. destruct (findTranInfo_spec raw now src c Hr Hc) as (s0 & c0 & E & Hok & _ & Hi & Hfind & Hold).
  rewrite E in Hf. injection Hf as -> ->. destruct (Hs Hi) as [Hi' Hr']. clear Hs. destruct Hok as [lo Hok].
  split; (split; [exists lo; cbn [with_infos tranInfoList]; auto using ordered_set|]); intros k; cbn [with_infos tranInfoList];
    rewrite ?findInfo_set, Hfind; destruct (Z.eqb_spec src k) as [<-|Hn]; rewrite ?Z.eqb_refl.
  1,3: destruct (findInfo src (tranInfoList c)); subst; congruence || (rewrite ?Hr'; reflexivity).
  - now destruct (findInfo k (tranInfoList c)).
  - destruct (Z.eqb_spec k src); [congruence|]. now destruct (findInfo k (tranInfoList c)).
Qed.

Section Reading.
Context (raw : SDESdata) (now : NtpTime) (d : bytes).
Hypothesis raw_ok : sdesOk raw.
Hypothesis d_bytes : bytes_ok d.

Lemma bytesAt i b : rd d i = Ret b -> 0 <= b < 256.
Proof. apply rd_bytes_ok, d_bytes. Qed.

Lemma rd32_range i x : rd32 d i = Ret x -> 0 <= x < 4294967296.
Proof.
  unfold rd32. destruct (rd d i) as [a|] eqn:Ea; [|discriminate]. destruct (rd d (i + 1)) as [b|] eqn:Eb; [|discriminate].
  destruct (rd d (i + 2)) as [c|] eqn:Ec; [|discriminate]. destruct (rd d (i + 3)) as [e|] eqn:Ee; [|discriminate]. cbn. intros [= <-].
  apply bytesAt in Ea, Eb, Ec, Ee. unfold be32. lia.
Qed.

(** ** Reports *)

Lemma readBlocks_grows n : forall block c, tableOk c -> wp True (fun c' => grows c c' /\ packetReceived c' = packetReceived c) (readBlocks now n d block c).
Proof.
  induction n as [|n IH]; intros block c Hc; [split; [now apply grows_refl | reflexivity]|]. cbn [readBlocks].
  apply wp_any; intros srt _. apply wp_any; intros ld _.
  apply (wp_seq _ (fun c' => tranInfoList c' = tranInfoList c /\ packetReceived c' = packetReceived c)).
  - destruct (negb _); [|split; reflexivity]. unfold average. destruct (packetReceived c =? 0); [exact I|]. split; reflexivity.
  - intros c' [Et Ep]. assert (tableOk c') as Hc' by (unfold tableOk; now rewrite Et).
    apply (wp_mono _ _ _ _ (IH _ c' Hc')). intros c2 [H1 H2]. split; [|congruence]. apply (grows_trans _ c'); [now apply grows_same | exact H1].
Qed.

Lemma readSender_grows head c : tableOk c ->
  wp True (fun c' => grows c c' /\ packetReceived c' = s32 (packetReceived c + 1)) (readSender raw now d head c).
Proof.
  intros Hc. unfold readSender. apply wp_any; intros src _.
  destruct (findTranInfo raw now src c) as [s c1] eqn:Ef. apply wp_any; intros nts En.
  apply wp_any; intros ntf Et. apply rd32_range in En, Et.
  pose proof (stampOf_bits (mkNtpTime nts ntf) (conj En Et)) as Es. cbn [seconds fractional] in Es. rewrite Es.
  destruct (grows_store raw now src c s c1 (with_lastSR (stampOf (mkNtpTime nts ntf)) now s) raw_ok Hc Ef) as [_ Hg].
  { intros (H1 & H2 & _). split; [split; [exact H1|]; split; [exact H2 | exact (stampOf_range (mkNtpTime nts ntf) (conj En Et))] | reflexivity]. }
  destruct (findTranInfo_spec raw now src c raw_ok Hc) as (s0 & c0 & E & _ & Ep & _). rewrite Ef in E. injection E as <- <-.
  unfold average. destruct (_ =? 0); [exact I|]. cbn [wp]. split.
  - apply (grows_trans _ _ _ Hg). apply grows_same; [exact (proj1 Hg) | reflexivity].
  - cbn [packetReceived with_infos]. now rewrite Ep.
Qed.

Lemma readSR_grows head c : tableOk c -> wp True (fun c' => grows c c' /\ packetReceived c' = s32 (packetReceived c + 1)) (readSR raw now d head c).
Proof.
  intros Hc. unfold readSR. apply wp_any; intros type _.
  apply (wp_seq _ (fun e => grows c e.2 /\ packetReceived e.2 = s32 (packetReceived c + 1))).
  - destruct (type =? rtcpTypeSR).
    + apply (wp_seq _ _ _ _ _ (readSender_grows head c Hc)). intros c' H. exact H.
    + split; [now apply grows_same | reflexivity].
  - intros [middle c1] [Hg Hp]. cbn [fst snd] in *. apply wp_any; intros count _.
    apply (wp_mono _ _ _ _ (readBlocks_grows (Z.to_nat count) middle c1 (proj1 Hg))). intros c' [H1 H2]. split; [now apply (grows_trans _ c1) | congruence].
Qed.

(** ** Descriptions *)

Lemma addSDESItem_grows src item c : tableOk c ->
  wp True (fun c' => grows c c' /\ packetReceived c' = packetReceived c) (addSDESItem raw now src d item c).
Proof.
  intros Hc. unfold addSDESItem. destruct (findTranInfo raw now src c) as [s c1] eqn:Ef.
  destruct (findTranInfo_spec raw now src c raw_ok Hc) as (s0 & c0 & E & _ & Ep & _). rewrite Ef in E. injection E as <- <-.
  assert (packetReceived c1 = packetReceived c) as Ec by now rewrite Ep.
  destruct (grows_store raw now src c s c1 s raw_ok Hc Ef (fun H => conj H eq_refl)) as [Hg _].
  apply wp_any; intros type _. destruct (sdesOf type) as [i|]; [|split; assumption].
  apply wp_any; intros length _. apply wp_any; intros text _.
  apply wp_any; intros a Eo. cbn [wp mbind outcome_bind mret outcome_ret]. split; [|exact Ec].
  apply (grows_store raw now src c s c1 _ raw_ok Hc Ef). intros (H1 & H2 & H3). split; [|reflexivity]. split; [exact H1|]. split; [|exact H3].
  intros j. cbn [with_sdes SDESInfo]. unfold setSdes. destruct (decide (j = i)) as [->|]; [|apply H2]. rewrite (overwrite_Ret_zlen _ _ _ _ Eo). apply H2.
Qed.

Lemma readItems_grows src fuel : forall item c, tableOk c ->
  wp True (fun e => grows c e.2 /\ packetReceived e.2 = packetReceived c) (readItems raw now fuel src d item c).
Proof.
  induction fuel as [|fuel IH]; intros item c Hc; [exact I|]. cbn [readItems]. apply wp_any; intros type _.
  destruct (type =? 0); [split; [now apply grows_refl | reflexivity]|].
  apply (wp_seq _ _ _ _ _ (addSDESItem_grows src item c Hc)). intros c1 [H1 E1]. apply wp_any; intros length _.
  apply (wp_mono _ _ _ _ (IH _ c1 (proj1 H1))). intros e [H2 E2]. split; [exact (grows_trans _ _ _ H1 H2) | congruence].
Qed.

Lemma readChunks_grows n : forall middle c, tableOk c ->
  wp True (fun c' => grows c c' /\ packetReceived c' = packetReceived c) (readChunks raw now n d middle c).
Proof.
  induction n as [|n IH]; intros middle c Hc; [split; [now apply grows_refl | reflexivity]|]. cbn [readChunks].
  apply wp_any; intros src _.
  apply (wp_seq _ _ _ _ _ (readItems_grows src itemFuel (middle + 4) c Hc)). intros [item c1] [H1 E1]. cbn [fst snd] in *.
  apply (wp_mono _ _ _ _ (IH item c1 (proj1 H1))). intros c2 [H2 E2]. split; [exact (grows_trans _ _ _ H1 H2) | congruence].
Qed.

Lemma readSDES_grows head c : tableOk c -> wp True (fun c' => grows c c' /\ packetReceived c' = packetReceived c) (readSDES raw now d head c).
Proof. intros Hc. unfold readSDES. apply wp_any; intros count _. now apply readChunks_grows. Qed.

(** ** Staying inside the buffer *)

(** The datagram has [n] bytes; zeros follow. *)
Context (n : Z).
Hypothesis d_long : zlen d = RTCP_PACKETSIZE.
Hypothesis n_small : 0 <= n <= 1276.
Hypothesis d_zeros : forall i, n <= i < RTCP_PACKETSIZE -> rd d i = Ret 0.

Lemma rd_returns i : 0 <= i < RTCP_PACKETSIZE -> exists b, rd d i = Ret b /\ 0 <= b < 256.
Proof. intros Hi. destruct (rd_in_range d i) as [b Hb]; [lia|]. exists b. split; [exact Hb | exact (bytesAt i b Hb)]. Qed.

Lemma rd32_returns i : 0 <= i -> i + 4 <= RTCP_PACKETSIZE -> exists x, rd32 d i = Ret x.
Proof.
  intros H0 H4. unfold rd32. destruct (rd_returns i) as (a & -> & _); [lia|]. destruct (rd_returns (i + 1)) as (b & -> & _); [lia|].
  destruct (rd_returns (i + 2)) as (c & -> & _); [lia|]. destruct (rd_returns (i + 3)) as (e & -> & _); [lia|]. eauto.
Qed.

Lemma getCount_returns head : 0 <= head < RTCP_PACKETSIZE -> exists count, getCount d head = Ret count /\ 0 <= count < 32.
Proof.
  intros H. unfold getCount. destruct (rd_returns head H) as (b & -> & Hb). eexists. split; [reflexivity|].
  apply (RtpPacket.getBits_ok 0 5 b). lia.
Qed.

Lemma readBlocks_safe k : forall block c, 0 <= block -> block + 24 * Z.of_nat k <= RTCP_PACKETSIZE -> packetReceived c <> 0 ->
  safe (fun _ => True) (readBlocks now k d block c).
Proof.
  induction k as [|k IH]; intros block c Hb Hk Hp; [exact I|]. cbn [readBlocks].
  destruct (rd32_returns (block + 16)) as [srt ->]; [lia | lia |]. step. destruct (rd32_returns (block + 20)) as [ld ->]; [lia | lia |]. step.
  apply (safe_seq (fun c' => packetReceived c' = packetReceived c)).
  - destruct (negb _); [|reflexivity]. unfold average. apply Z.eqb_neq in Hp. rewrite Hp. reflexivity.
  - intros c' E. change sizeof_RtcpReport with 24. apply IH; [lia | lia | congruence].
Qed.

Lemma readSR_safe head c : tableOk c -> counts c -> 0 <= head < n -> safe (fun _ => True) (readSR raw now d head c).
Proof.
  intros Hc Hp Hh. unfold RTCP_PACKETSIZE in *. unfold readSR, getType. destruct (rd_returns (head + 1)) as (type & -> & _); [unfold RTCP_PACKETSIZE; lia|]. step.
  apply (safe_seq (fun e => head + 8 <= e.1 <= head + 28 /\ packetReceived e.2 = packetReceived c + 1)).
  - change sizeof_RtcpHeader with 4. change sizeof_RtcpSender with 24. change sizeof_RtpSrc with 4. destruct Hp as [Hp0 Hp1]. destruct (type =? rtcpTypeSR).
    + unfold readSender. change sizeof_RtcpHeader with 4. destruct (rd32_returns (head + 4)) as [src ->]; [lia | unfold RTCP_PACKETSIZE; lia |]. step.
      destruct (findTranInfo_spec raw now src c raw_ok Hc) as (s & c1 & -> & _ & Ep & _).
      destruct (rd32_returns (head + 4 + 4)) as [nts ->]; [lia | unfold RTCP_PACKETSIZE; lia |]. step.
      destruct (rd32_returns (head + 4 + 8)) as [ntf ->]; [lia | unfold RTCP_PACKETSIZE; lia |]. step.
      cbn [with_infos packetReceived]. assert (packetReceived c1 = packetReceived c) as -> by now rewrite Ep.
      rewrite (swrap_small 32 (packetReceived c + 1)) by lia. unfold average. destruct (Z.eqb_spec (packetReceived c + 1) 0); [lia|]. step. cbn [safe mret outcome_ret fst snd packetReceived]. lia.
    + cbn [safe mret outcome_ret fst snd packetReceived]. rewrite swrap_small by lia. lia.
  - intros [middle c1] [Hm Hq]. cbn [fst snd] in *. destruct (getCount_returns head) as (count & -> & Hcount); [unfold RTCP_PACKETSIZE; lia|]. step.
    destruct Hp. apply readBlocks_safe; [lia | unfold RTCP_PACKETSIZE; lia | lia].
Qed.

Lemma strncpy_returns k : forall i, 0 <= i -> i + Z.of_nat k <= RTCP_PACKETSIZE -> exists l, strncpy k d i = Ret l /\ length l = k.
Proof.
  induction k as [|k IH]; intros i Hi Hk; [now exists []|]. cbn [strncpy]. destruct (rd_returns i) as (b & -> & _); [lia|]. step.
  destruct (b =? 0); [eexists; split; [reflexivity|]; unfold zeros; now rewrite length_replicate|].
  destruct (IH (i + 1)) as (l & -> & <-); [lia | lia |]. eexists. split; reflexivity.
Qed.

Lemma addSDESItem_safe src item c : tableOk c -> 0 <= item < n -> safe (fun _ => True) (addSDESItem raw now src d item c).
Proof.
  intros Hc Hi. unfold RTCP_PACKETSIZE in *. unfold addSDESItem. destruct (findTranInfo_spec raw now src c raw_ok Hc) as (s & c1 & -> & _ & _ & (_ & Hs & _) & _).
  destruct (rd_returns item) as (type & -> & _); [unfold RTCP_PACKETSIZE; lia|]. step. destruct (sdesOf type) as [i|]; [|exact I].
  destruct (rd_returns (item + 1)) as (length & -> & Hl); [unfold RTCP_PACKETSIZE; lia|]. step.
  destruct (strncpy_returns (Z.to_nat (length + 1)) (item + 2)) as (text & -> & Ht); [lia | unfold RTCP_PACKETSIZE; lia |]. step.
  specialize (Hs i). rewrite overwrite_start by (unfold zlen in *; lia). exact I.
Qed.

(** An item that is not the last begins inside the datagram. *)
Lemma readItems_safe src fuel : forall item c, tableOk c -> 0 <= item -> item < RTCP_PACKETSIZE -> RTCP_PACKETSIZE - item < 2 * Z.of_nat fuel ->
  safe (fun e => item <= e.1 <= Z.max item (n + 256)) (readItems raw now fuel src d item c).
Proof.
  induction fuel as [|fuel IH]; intros item c Hc H0 Hi Hf; [lia|]. cbn [readItems]. destruct (rd_returns item) as (type & Et & _); [lia|]. rewrite Et. step.
  destruct (Z.eqb_spec type 0) as [|Hn]; [cbn; lia|].
  assert (item < n) as Hlt by (destruct (Z.lt_ge_cases item n); [assumption|]; rewrite d_zeros in Et by lia; congruence).
  pose proof (addSDESItem_grows src item c Hc) as Hg. pose proof (addSDESItem_safe src item c Hc (conj H0 Hlt)) as Hs.
  destruct (addSDESItem raw now src d item c) as [c1|f]; [|exact Hs]. destruct Hg as [[Hc1 _] _]. step.
  destruct (rd_returns (item + 1)) as (length & -> & Hl); [unfold RTCP_PACKETSIZE in *; lia|]. step.
  eapply safe_mono; [apply IH; [exact Hc1 | lia | unfold RTCP_PACKETSIZE in *; lia | lia]|]. cbn beta. intros e. lia.
Qed.

Lemma readChunks_safe k : forall middle c, tableOk c -> 0 <= middle -> Z.max middle (n + 256) + 4 * Z.of_nat k + 4 <= RTCP_PACKETSIZE ->
  safe (fun _ => True) (readChunks raw now k d middle c).
Proof.
  induction k as [|k IH]; intros middle c Hc H0 Hm; [exact I|]. cbn [readChunks]. destruct (rd32_returns middle) as [src ->]; [lia | lia |]. step.
  pose proof (readItems_grows src itemFuel (middle + 4) c Hc) as Hg.
  pose proof (readItems_safe src itemFuel (middle + 4) c Hc ltac:(lia) ltac:(lia)) as Hs.
  assert (RTCP_PACKETSIZE - (middle + 4) < 2 * Z.of_nat itemFuel) as Hfu by (change (Z.of_nat itemFuel) with 1025; unfold RTCP_PACKETSIZE; lia).
  specialize (Hs Hfu). destruct (readItems raw now itemFuel src d (middle + 4) c) as [[item c1]|f]; [|exact Hs]. destruct Hg as [[Hc1 _] _]. cbn [safe fst snd] in *. step.
  apply IH; [exact Hc1 | lia | lia].
Qed.

Lemma readSDES_safe head c : tableOk c -> 0 <= head < n -> safe (fun _ => True) (readSDES raw now d head c).
Proof.
  intros Hc Hh. unfold readSDES. destruct (getCount_returns head) as (count & -> & Hcount); [unfold RTCP_PACKETSIZE in *; lia|]. step.
  apply readChunks_safe; [exact Hc | unfold sizeof_RtcpHeader; lia | unfold sizeof_RtcpHeader, RTCP_PACKETSIZE; lia].
Qed.

(** ** Leaving, and whole packets *)

Lemma removeTranInfo_keeps src flag c r : tableOk c ->
  safe (fun s => tableOk s.1 /\ packetReceived s.1 = packetReceived c) (removeTranInfo src flag (c, r)).
Proof.
  intros [lo Hc]. unfold removeTranInfo. destruct (findInfo src (tranInfoList c)) as [info|]; [|reflexivity]. split; [|reflexivity].
  exists lo. now apply ordered_erase.
Qed.

Lemma removeSources_safe k : forall src s, tableOk s.1 -> 0 <= src -> src + 4 * Z.of_nat k <= RTCP_PACKETSIZE ->
  safe (fun s' => tableOk s'.1 /\ packetReceived s'.1 = packetReceived s.1) (removeSources k d src s).
Proof.
  induction k as [|k IH]; intros src [c r] Hc H0 Hk; [now split|]. cbn [removeSources fst] in *. destruct (rd32_returns src) as [x ->]; [lia | lia |]. step.
  apply (safe_seq _ _ _ _ (removeTranInfo_keeps x false c r Hc)). intros s' [Hc' E].
  eapply safe_mono; [apply IH; [exact Hc' | lia | lia]|]. intros s2 [H2 E2]. split; [exact H2 | congruence].
Qed.

Lemma readPacket_safe head c r : tableOk c -> counts c -> 0 <= head < n ->
  safe (fun e => tableOk e.2.1 /\ packetReceived c <= packetReceived e.2.1 <= packetReceived c + 1) (readPacket raw now d head (c, r)).
Proof.
  intros Hc Hp Hh. unfold readPacket. destruct (rd_returns (head + 1)) as (type & E & _); [unfold RTCP_PACKETSIZE; lia|].
  unfold getType at 1. rewrite E. step. destruct ((type =? rtcpTypeSR) || (type =? rtcpTypeRR)).
  - pose proof (readSR_grows head c Hc) as Hg. pose proof (readSR_safe head c Hc Hp Hh) as Hs. destruct (readSR raw now d head c) as [c1|f]; [|exact Hs].
    destruct Hg as [[Hc1 _] E1]. destruct Hp. rewrite swrap_small in E1 by lia. cbn. split; [exact Hc1 | lia].
  - destruct (type =? rtcpTypeSDES).
    + pose proof (readSDES_grows head c Hc) as Hg. pose proof (readSDES_safe head c Hc Hh) as Hs. destruct (readSDES raw now d head c) as [c1|f]; [|exact Hs].
      destruct Hg as [[Hc1 _] E1]. cbn. split; [exact Hc1 | lia].
    + destruct (type =? rtcpTypeBYE).
      * unfold readBYE. destruct (getCount_returns head) as (count & -> & Hcount); [unfold RTCP_PACKETSIZE; lia|]. step.
        apply (safe_seq (fun s' => tableOk s'.1 /\ packetReceived s'.1 = packetReceived c)).
        -- apply (removeSources_safe (Z.to_nat count) (head + sizeof_RtcpHeader) (c, r)); [exact Hc | unfold sizeof_RtcpHeader; lia | unfold sizeof_RtcpHeader, RTCP_PACKETSIZE; lia].
        -- intros s' [H1 E1]. cbn. split; [exact H1 | lia].
      * destruct (type =? rtcpTypeAPP); [reflexivity|]. cbn. split; [exact Hc | lia].
Qed.

Lemma getLength_returns head : 0 <= head < n -> exists length, getLength d head = Ret length /\ 0 <= length.
Proof.
  intros H. unfold getLength, rd16. destruct (rd_returns (head + 2)) as (a & -> & Ha); [unfold RTCP_PACKETSIZE; lia|].
  destruct (rd_returns (head + 2 + 1)) as (b & -> & Hb); [unfold RTCP_PACKETSIZE; lia|]. eexists. split; [reflexivity|]. unfold be16. lia.
Qed.

Lemma readLoop_safe fuel : forall begin_ ret c r, tableOk c -> 0 <= packetReceived c -> packetReceived c + Z.of_nat fuel <= 2147483647 ->
  0 <= begin_ -> (0 < fuel)%nat -> n - begin_ <= 4 * Z.of_nat fuel - 4 ->
  safe (fun e => tableOk e.2.1 /\ packetReceived c <= packetReceived e.2.1 <= packetReceived c + Z.of_nat fuel) (readLoop raw now fuel d begin_ n ret (c, r)).
Proof.
  induction fuel as [|fuel IH]; intros begin_ ret c r Hc Hp Hf H0 Hfu Hn; [lia|]. cbn [readLoop]. destruct (Z.ltb_spec begin_ n); [|cbn; split; [exact Hc | lia]].
  assert (safe (fun e => tableOk e.2.1 /\ packetReceived c <= packetReceived e.2.1 <= packetReceived c + 1) (readPacket raw now d begin_ (c, r))) as Hs
    by (apply readPacket_safe; [exact Hc | split; lia | lia]).
  apply (safe_seq _ _ _ _ Hs). intros [bye [c1 r1]] [Hc1 Hp1]. cbn [fst snd] in *.
  destruct (getLength_returns begin_) as (length & -> & Hl); [lia|]. step.
  eapply safe_mono; [apply IH; [exact Hc1 | lia | lia | lia | lia | lia]|]. cbn beta. intros e [H1 H2]. split; [exact H1 | lia].
Qed.

Lemma headersEnd_returns fuel : forall begin_, 0 <= begin_ -> (0 < fuel)%nat -> n - begin_ <= 4 * Z.of_nat fuel - 4 ->
  exists e, headersEnd fuel d begin_ n = Ret e.
Proof.
  induction fuel as [|fuel IH]; intros begin_ H0 Hfu Hn; [lia|]. cbn [headersEnd]. change sizeof_RtcpHeader with 4.
  destruct (Z.leb_spec (begin_ + 4) n); [|eexists; reflexivity]. unfold getVersion. destruct (rd_returns begin_) as (b & -> & _); [unfold RTCP_PACKETSIZE; lia|]. step.
  destruct (_ =? RTP_VERSION); [|eexists; reflexivity]. destruct (getLength_returns begin_) as (length & -> & Hl); [lia|]. step. apply IH; lia.
Qed.

End Reading.

(** * What a datagram can do *)

Lemma filled_ok x : bytes_ok x -> zlen x <= RTCP_PACKETSIZE ->
  bytes_ok (packetData (filled x)) /\ zlen (packetData (filled x)) = RTCP_PACKETSIZE /\
  forall i, zlen x <= i < RTCP_PACKETSIZE -> rd (packetData (filled x)) i = Ret 0.
Proof.
  intros Hx Hl. rewrite filled_data. pose proof (zlen_nonneg x). split; [|split].
  - apply Forall_app. split; [exact Hx|]. apply Forall_replicate. split; lia.
  - rewrite zlen_app, zlen_zeros. lia.
  - intros i Hi. apply rd_Ret. split; [lia|]. rewrite lookup_app_r by (unfold zlen in *; lia). apply lookup_replicate. unfold zlen in *. split; [reflexivity | lia].
Qed.

Lemma isValid_returns x : bytes_ok x -> 0 <= zlen x <= 1276 -> exists b, isValid (filled x) = Ret b.
Proof.
  intros Hx Hl. destruct (filled_ok x Hx) as (Hd & Hz & H0); [unfold RTCP_PACKETSIZE; lia|]. unfold isValid. rewrite getTotalUsage_filled.
  unfold getType, getPadding. set (d := packetData (filled x)) in *.
  destruct (rd_returns d Hd Hz (0 + 1)) as (type & -> & _); [unfold RTCP_PACKETSIZE; lia|]. step. destruct (negb _ && negb _); [eexists; reflexivity|].
  destruct (rd_returns d Hd Hz 0) as (b & -> & _); [unfold RTCP_PACKETSIZE; lia|]. step. destruct (negb _); [eexists; reflexivity|].
  destruct (headersEnd_returns d Hd (zlen x) Hz Hl headerFuel 0) as [e ->]; [lia | apply Nat.ltb_lt; reflexivity | change (Z.of_nat headerFuel) with 513; lia |].
  eexists. reflexivity.
Qed.

(** C14: a datagram does not make the reader of RTCP leave its buffer.  For any
    datagram of up to 1276 bytes and any table of sources: it is refused, or read
    to its end without a read or a write outside of the buffer and without a
    loop that does not end, or an assertion fails.  What is read leaves the
    table in the order of its keys. *)
Theorem rtcp_datagram_safe raw now state x c r :
  sdesOk raw -> bytes_ok x -> zlen x <= 1276 -> tableOk c -> 0 <= packetReceived c <= 2147483000 ->
  receiveRTCP raw now state (RtpReceiver.Datagram x) (c, r) = Fault AssertFailed \/
  exists rv c' r', receiveRTCP raw now state (RtpReceiver.Datagram x) (c, r) = Ret (rv, (c', r')) /\ tableOk c' /\
    packetReceived c <= packetReceived c' <= packetReceived c + 513.
Proof.
  intros Hr Hx Hl Hc Hp. pose proof (zlen_nonneg x) as H0. unfold receiveRTCP. destruct (Z.eq_dec (zlen x) 0) as [E|Hn].
  - assert (x = []) as -> by (destruct x; [reflexivity | unfold zlen in E; cbn in E; lia]). right. exists (-1), c, r. split; [now destruct state|]. split; [exact Hc | lia].
  - rewrite getPacket_filled by (unfold RTCP_PACKETSIZE; lia). destruct (isValid_returns x Hx) as [b ->]; [lia|]. step.
    destruct state; cbn [negb]; [|right; exists (-1), c, r; split; [reflexivity|]; split; [exact Hc | lia]].
    destruct b; [|right; exists (-1), c, r; split; [reflexivity|]; split; [exact Hc | lia]]. destruct (Z.ltb_spec 0 (zlen x)); [|lia].
    destruct (filled_ok x Hx) as (Hd & Hz & Hzero); [unfold RTCP_PACKETSIZE; lia|]. unfold readRTCP. rewrite getTotalUsage_filled.
    pose proof (readLoop_safe raw now (packetData (filled x)) Hr Hd (zlen x) Hz ltac:(lia) Hzero headerFuel 0 false c r Hc) as Hs.
    change (Z.of_nat headerFuel) with 513 in Hs. specialize (Hs ltac:(lia) ltac:(lia) ltac:(lia) ltac:(apply Nat.ltb_lt; reflexivity) ltac:(lia)).
    destruct (readLoop _ _ _ _ _ _ _ _) as [[bye [c' r']]|f]; [|left; cbn in *; now rewrite Hs]. right. cbn [safe fst snd] in Hs. eexists _, c', r'. split; [reflexivity | exact Hs].
Qed.

(** * Packets that end the program *)

(** A report without sender and blocks, as a receiver sends it. *)
Definition emptyReport (x : Z) : bytes := packetBytes 0 rtcpTypeRR (enc32 x).

(** A packet that the reader does not survive: a goodbye of a source that is
    not in the table, or anything application-defined. *)
Inductive Deadly (l : tranInfos) : bytes -> Prop :=
| deadly_bye src : 0 <= src < 4294967296 -> findInfo src l = None -> Deadly l (packetBytes 1 rtcpTypeBYE (enc32 src))
| deadly_app count body : 0 <= count < 32 -> zlen body mod 4 = 0 -> zlen body <= 1000 -> Deadly l (packetBytes count rtcpTypeAPP body).

Lemma Deadly_packet l p : Deadly l p -> exists count type body, Packet p count type body /\ zlen p <= 1004.
Proof.
  intros H. destruct H as [src Hs _|count body Hc Hm Hl].
  - exists 1, rtcpTypeBYE, (enc32 src). split; [|unfold packetBytes, headerBytes; zlen_lia]. split; [reflexivity|].
    rewrite zlen_enc32. unfold RTCP_PACKETSIZE. split; [lia|]. split; [reflexivity | lia].
  - exists count, rtcpTypeAPP, body. split; [|unfold packetBytes, headerBytes; zlen_lia]. split; [reflexivity|]. unfold RTCP_PACKETSIZE. split; [lia|]. split; [exact Hm | lia].
Qed.

(** C26: one datagram ends the program.  A report that says nothing makes the
    datagram valid; if the packet behind it is a goodbye of a source that the
    receiver has not heard of, or an application-defined packet, an assertion
    fails in the reader, whatever its state. *)
Theorem rtcp_datagram_ends_program raw now x last c r :
  Deadly (tranInfoList c) last ->
  receiveRTCP raw now true (RtpReceiver.Datagram (emptyReport x ++ last)) (c, r) = Fault AssertFailed.
Proof.
  intros Hd. destruct (Deadly_packet _ _ Hd) as (count & type & body & Hl & Hz). set (p := emptyReport x).
  assert (Packet p 0 rtcpTypeRR (enc32 x)) as Hp by (split; [reflexivity|]; rewrite zlen_enc32; unfold RTCP_PACKETSIZE; split; [lia|]; split; [reflexivity | lia]).
  assert (zlen p = 8) as Ep by reflexivity. destruct (Packet_words _ _ _ _ Hl) as [Hwl Hw].
  assert (mjoin [p; last] = p ++ last) as Em by (cbn [mjoin list_join foldr]; now rewrite app_nil_r). pose proof (zlen_nonneg last) as H0.
  unfold receiveRTCP. rewrite <- Em, (getPacket_packets p [last] _ _ _ Hp (or_intror eq_refl)); [| repeat constructor; eauto | cbn [length]; lia | rewrite Em, zlen_app; unfold RTCP_PACKETSIZE; lia].
  rewrite Em. assert (zlen (p ++ last) = 8 + zlen last) as El by (rewrite zlen_app; lia). step. destruct (Z.ltb_spec 0 (zlen (p ++ last))); [|lia]. cbn [negb].
  unfold readRTCP. rewrite getTotalUsage_filled, filled_data. set (z := zeros _). rewrite <- app_assoc. change headerFuel with (S (S 511)).
  pose proof (readLoop_packet raw now (S 511) [] p _ _ _ (last ++ z) (zlen (p ++ last)) false (c, r) Hp) as E1. change (zlen (@nil Z)) with 0 in E1. cbn [app] in E1.
  rewrite E1 by lia. clear E1. set (c1 := mkRtcpReceiver (tranInfoList c) (s32 (packetReceived c + 1)) (accumOneWayDelay c) (avgOneWayDelay c) (accumRoundTripDelay c) (avgRoundTripDelay c)).
  assert (readPacket raw now (p ++ last ++ z) 0 (c, r) = Ret (false, (c1, r))) as ->.
  { unfold readPacket, readSR, p, emptyReport. pose proof (getType_packet [] (last ++ z) 0 rtcpTypeRR (enc32 x)) as HT.
    pose proof (getCount_packet [] (last ++ z) 0 rtcpTypeRR (enc32 x) ltac:(lia)) as HC. cbn [app] in HT, HC. change (zlen (@nil Z)) with 0 in HT, HC.
    rewrite HT. step. change (rtcpTypeRR =? rtcpTypeSR) with false. change (rtcpTypeRR =? rtcpTypeRR) with true. cbn [orb]. step. rewrite HC. reflexivity. }
  step. cbn [orb]. pose proof (readLoop_packet raw now 511 p last _ _ _ z (zlen (p ++ last)) false (c1, r) Hl) as E1. rewrite E1 by lia. clear E1.
  assert (readPacket raw now (p ++ last ++ z) (zlen p) (c1, r) = Fault AssertFailed) as ->; [|reflexivity].
  unfold readPacket. destruct Hd as [src Hs Hf|count' body' Hc _ _]; rewrite getType_packet; step; [|reflexivity].
  change (rtcpTypeBYE =? rtcpTypeSR) with false. change (rtcpTypeBYE =? rtcpTypeRR) with false. change (rtcpTypeBYE =? rtcpTypeSDES) with false.
  change (rtcpTypeBYE =? rtcpTypeBYE) with true. cbn [orb]. unfold readBYE. rewrite getCount_packet by lia. step. change (Z.to_nat 1) with 1%nat.
  cbn [removeSources]. unfold packetBytes. replace (enc32 src) with (enc32 src ++ []) at 2 by apply app_nil_r.
  rewrite (rd32_at p (headerBytes 1 rtcpTypeBYE (zlen (enc32 src) / 4)) src [] z) by (reflexivity || lia). step.
  unfold removeTranInfo. cbn [tranInfoList c1]. now rewrite Hf.
Qed.

(** ** A receiver that knows the source 5 *)

Definition safeDatagram : bytes := packetBytes 0 rtcpTypeRR (enc32 9) ++ packetBytes 1 rtcpTypeBYE (enc32 5).

Lemma rtcp_datagram_safe_witness : zlen safeDatagram = 16 /\
  (receiveRTCP sampleInfo (mkNtpTime 1000 0) true (RtpReceiver.Datagram safeDatagram) (sampleRtcp sampleSources, sampleReceiver) = Fault AssertFailed \/
   exists rv c' r', receiveRTCP sampleInfo (mkNtpTime 1000 0) true (RtpReceiver.Datagram safeDatagram) (sampleRtcp sampleSources, sampleReceiver) = Ret (rv, (c', r')) /\
     tableOk c' /\ 0 <= packetReceived c' <= 0 + 513).
Proof.
  split; [reflexivity|]. apply (rtcp_datagram_safe sampleInfo (mkNtpTime 1000 0) true safeDatagram (sampleRtcp sampleSources) sampleReceiver).
  - intros i. reflexivity.
  - apply bytes_ok_forallb. reflexivity.
  - now vm_compute.
  - exact sampleSources_ordered.
  - cbn. lia.
Defined.

Lemma rtcp_datagram_ends_program_witness :
  receiveRTCP sampleInfo (mkNtpTime 1000 0) true (RtpReceiver.Datagram (emptyReport 9 ++ packetBytes 1 rtcpTypeBYE (enc32 6))) (sampleRtcp sampleSources, sampleReceiver) =
  Fault AssertFailed.
Proof. apply rtcp_datagram_ends_program. apply deadly_bye; [lia | reflexivity]. Defined.

End RtcpSafe.
