(* ===== verification/RtcpLinked.v ===== *)
(** The sources that the RTP and the RTCP receiver of a session share: whatever
    arrives, the source of the RTP receiver is in the table of the RTCP receiver
    and points back, and no other source does. *)
From S2P Require Import Prelude RtpTime RtpPacket RtpReceiver RtpTransmitter Rtcp RtcpReceiver RtcpFacts RtcpReadFacts RtcpProps RtcpSafe.
Import RtpTime Rtcp RtcpReceiver RtcpFacts RtcpReadFacts RtcpProps RtcpSafe.

Module RtcpLinked.

Abbreviation sourceOf r := (RtpReceiver.source r).

(** * What a packet does to the source of the RTP receiver *)

Inductive SourceStep (o o' : RtpReceiver.Source) : Prop :=
| source_stays : RtpReceiver.sourceSet o' = RtpReceiver.sourceSet o -> RtpReceiver.ssrc o' = RtpReceiver.ssrc o ->
    RtpReceiver.rtcpRecv o' = RtpReceiver.rtcpRecv o -> RtpReceiver.rtcpCalls o' = RtpReceiver.rtcpCalls o -> SourceStep o o'
| source_changes : RtpReceiver.sourceSet o' = true -> RtpReceiver.rtcpRecv o' = RtpReceiver.rtcpRecv o ->
    RtpReceiver.rtcpCalls o' = RtpReceiver.rtcpCalls o ++
      (if RtpReceiver.rtcpRecv o then
         (if RtpReceiver.sourceSet o then [RtpReceiver.removeTranInfo (RtpReceiver.ssrc o)] else []) ++ [RtpReceiver.addTranInfo (RtpReceiver.ssrc o')]
       else []) -> SourceStep o o'.

Lemma SourceStep_refl o : SourceStep o o.
Proof. now apply source_stays. Qed.

(** Stores to fields that have nothing to do with the source. *)
Lemma SourceStep_trans o o' o'' : SourceStep o o' ->
  RtpReceiver.sourceSet o'' = RtpReceiver.sourceSet o' -> RtpReceiver.ssrc o'' = RtpReceiver.ssrc o' ->
  RtpReceiver.rtcpRecv o'' = RtpReceiver.rtcpRecv o' -> RtpReceiver.rtcpCalls o'' = RtpReceiver.rtcpCalls o' -> SourceStep o o''.
Proof. intros [H1 H2 H3 H4|H1 H3 H4] E1 E2 E3 E4; [apply source_stays | apply source_changes]; rewrite ?E1, ?E2, ?E3, ?E4; auto. Qed.

Lemma initSource_source pkt now r : wp True (fun r' => RtpReceiver.sourceSet (sourceOf r') = RtpReceiver.sourceSet (sourceOf r) /\
  RtpReceiver.ssrc (sourceOf r') = RtpReceiver.ssrc (sourceOf r) /\ RtpReceiver.rtcpRecv (sourceOf r') = RtpReceiver.rtcpRecv (sourceOf r) /\
  RtpReceiver.rtcpCalls (sourceOf r') = RtpReceiver.rtcpCalls (sourceOf r)) (RtpReceiver.initSource pkt now r).
Proof. unfold RtpReceiver.initSource. apply wp_any. intros _ _. now repeat split. Qed.

Lemma addSource_source pkt now r : wp True (fun e => SourceStep (sourceOf r) (sourceOf e.2)) (RtpReceiver.addSource pkt now r).
Proof.
  unfold RtpReceiver.addSource. destruct (RtpReceiver.sourceSet (sourceOf r)) eqn:Es; cbn [andb].
  - destruct (_ <? 4); [now apply source_stays|]. cbn [RtpReceiver.removeSource RtpReceiver.with_source RtpReceiver.source RtpReceiver.sourceSet andb].
    apply (wp_seq _ _ _ _ _ (initSource_source pkt now _)). intros r' (E1 & E2 & E3 & E4).
    cbn [RtpReceiver.with_stats RtpReceiver.with_source RtpReceiver.source RtpReceiver.sourceSet RtpReceiver.ssrc RtpReceiver.rtcpRecv RtpReceiver.rtcpCalls] in *.
    cbn [wp mret outcome_ret snd]. apply source_changes; [exact E1 | exact E3 |]. rewrite E4, E2, Es. destruct (RtpReceiver.rtcpRecv (sourceOf r)); cbn [andb negb]; [now rewrite <- app_assoc | now rewrite app_nil_r].
  - rewrite Es. cbn [andb]. apply (wp_seq _ _ _ _ _ (initSource_source pkt now _)). intros r' (E1 & E2 & E3 & E4).
    cbn [RtpReceiver.with_stats RtpReceiver.with_source RtpReceiver.source RtpReceiver.sourceSet RtpReceiver.ssrc RtpReceiver.rtcpRecv RtpReceiver.rtcpCalls] in *.
    cbn [wp mret outcome_ret snd]. apply source_changes; [exact E1 | exact E3 |]. rewrite E4, E2, Es. destruct (RtpReceiver.rtcpRecv (sourceOf r)); [reflexivity | now rewrite app_nil_r].
Qed.

Lemma updateSource_source pkt now r : wp True (fun e => SourceStep (sourceOf r) (sourceOf e.2)) (RtpReceiver.updateSource pkt now r).
Proof.
  unfold RtpReceiver.updateSource. destruct (_ && RtpReceiver.probationSet _); [apply SourceStep_refl|].
  apply (wp_seq _ (fun e => SourceStep (sourceOf r) (sourceOf e.2))).
  - destruct (_ || _); [apply addSource_source | apply SourceStep_refl].
  - intros [refused r1] H1. cbn [snd] in H1. destruct (negb _); [exact H1|]. apply wp_any. intros _ _. destruct (_ || _).
    + cbn [wp mret outcome_ret snd]. now apply (SourceStep_trans _ _ _ H1).
    + destruct (negb _); [|cbn [wp mret outcome_ret snd]; now apply (SourceStep_trans _ _ _ H1)].
      apply (wp_seq _ _ _ _ _ (initSource_source pkt now _)). intros r2 (E1 & E2 & E3 & E4). cbn [wp mret outcome_ret snd]. now apply (SourceStep_trans _ _ _ H1).
Qed.

Lemma getPacket_source n dtmf now r : wp True (fun e => SourceStep (sourceOf r) (sourceOf e.2)) (RtpReceiver.getPacket n dtmf now r).
Proof.
  unfold RtpReceiver.getPacket. apply wp_any. intros [len pkt] _. destruct (len =? 0); [apply SourceStep_refl|].
  apply wp_any. intros pkt1 _. apply wp_any. intros [valid pkt2] _. destruct (negb valid); [apply SourceStep_refl|].
  destruct (_ || _); [destruct dtmf; apply SourceStep_refl|].
  apply (wp_seq _ _ _ _ _ (updateSource_source pkt2 now _)). intros [bad r1] H. cbn [snd] in H. destruct (negb _); exact H.
Qed.

Lemma readNetwork_source n dtmf clk r : wp True (fun e => SourceStep (sourceOf r) (sourceOf e.2)) (RtpReceiver.readNetwork n dtmf clk r).
Proof.
  unfold RtpReceiver.readNetwork. apply wp_any. intros p _. apply (wp_seq _ _ _ _ _ (getPacket_source n dtmf _ (RtpReceiver.with_tmpPkt p r))).
  intros [rv r1] H. cbn [snd] in H. change (sourceOf (RtpReceiver.with_tmpPkt p r)) with (sourceOf r) in H. destruct (rv <=? 0); [exact H|]. destruct (_ <? 0); [exact H|].
  apply wp_any. intros pkt _. destruct (_ || _); [exact H|]. apply wp_any. intros b _. apply wp_any. intros u _.
  apply wp_any. intros r2 E. revert E. set (r3 := RtpReceiver.with_stats _ _). unfold RtpReceiver.updateJitter.
  destruct (RtpReceiver.rtp2ntp r3 _) as [tmpntp|]; [|discriminate]. cbn [mbind outcome_bind]. destruct (_ || _); intros [= <-]; cbn [wp snd mret outcome_ret]; apply (SourceStep_trans _ _ _ H); reflexivity.
Qed.

(** * The two receivers *)

Record Linked (s : receivers) : Prop := {
  linked_table : tableOk s.1;
  linked_only : forall k x, findInfo k (tranInfoList s.1) = Some x -> recv x = true ->
    RtpReceiver.sourceSet (sourceOf s.2) = true /\ k = RtpReceiver.ssrc (sourceOf s.2);
  linked_source : RtpReceiver.sourceSet (sourceOf s.2) = true ->
    exists x, findInfo (RtpReceiver.ssrc (sourceOf s.2)) (tranInfoList s.1) = Some x /\ recv x = true;
  linked_attached : RtpReceiver.rtcpRecv (sourceOf s.2) = true;
  linked_calls : RtpReceiver.rtcpCalls (sourceOf s.2) = []
}.

Lemma Linked_grows c c' r : Linked (c, r) -> grows c c' -> Linked (c', r).
Proof.
  intros [H1 H2 H3 H4 H5] [Hc Hg]. cbn [fst snd] in *. split; cbn [fst snd]; auto.
  - intros k x Hk Hx. specialize (Hg k). rewrite Hk in Hg. destruct (findInfo k (tranInfoList c)) as [y|] eqn:E; [apply (H2 k y E) | ]; congruence.
  - intros Hs. destruct (H3 Hs) as (x & Hk & Hx). specialize (Hg (RtpReceiver.ssrc (sourceOf r))). rewrite Hk in Hg.
    destruct (findInfo _ (tranInfoList c')) as [y|]; [exists y; split; congruence | discriminate].
Qed.

(** A source that leaves takes the RTP receiver with it. *)
Lemma Linked_remove src s : Linked s -> wp True Linked (removeTranInfo src false s).
Proof.
  intros H. destruct s as [c r]. unfold removeTranInfo. destruct (findInfo src (tranInfoList c)) as [info|] eqn:E; [|exact I].
  destruct H as [[lo H1] H2 H3 H4 H5]. cbn [fst snd wp] in *. destruct (recv info) eqn:Er; cbn [andb negb].
  - destruct (H2 src info E Er) as [Hs ->]. split; cbn [fst snd with_infos tranInfoList RtpReceiver.removeSource RtpReceiver.with_source RtpReceiver.source
      RtpReceiver.sourceSet RtpReceiver.ssrc RtpReceiver.rtcpRecv RtpReceiver.rtcpCalls].
    + exists lo. now apply ordered_erase.
    + intros k x Hk Hx. rewrite findInfo_erase in Hk. destruct (Z.eqb_spec k (RtpReceiver.ssrc (sourceOf r))); [discriminate|]. destruct (H2 k x Hk Hx). contradiction.
    + discriminate.
    + exact H4.
    + rewrite H4, H5. reflexivity.
  - split; cbn [fst snd with_infos tranInfoList]; auto.
    + exists lo. now apply ordered_erase.
    + intros k x Hk. rewrite findInfo_erase in Hk. destruct (k =? src); [discriminate|]. now apply H2.
    + intros Hs. destruct (H3 Hs) as (x & Hk & Hx). exists x. split; [|exact Hx]. rewrite findInfo_erase. destruct (Z.eqb_spec (RtpReceiver.ssrc (sourceOf r)) src); [congruence | exact Hk].
Qed.

(** ** RTCP packets *)

Lemma overwrite_bytes_ok (m : bytes) off src m' : bytes_ok m -> bytes_ok src -> overwrite m off src = Ret m' -> bytes_ok m'.
Proof.
  unfold overwrite, bytes_ok. intros Hm Hs. destruct (_ && _); [|discriminate]. intros [= <-].
  apply Forall_app; split; [now apply Forall_take | apply Forall_app; split; [exact Hs | now apply Forall_drop]].
Qed.

Lemma zeros_bytes_ok n : bytes_ok (zeros n).
Proof. apply Forall_replicate. unfold byte_ok. lia. Qed.

Definition arrives (n : RtpReceiver.net) : Prop := match n with RtpReceiver.Datagram x => bytes_ok x | _ => True end.

Lemma getPacket_bytes n : arrives n -> wp True (fun e => bytes_ok (packetData e.2)) (getPacket n newRtcpPacket).
Proof.
  intros Hn. assert (bytes_ok (packetData newRtcpPacket)) as H0 by apply zeros_bytes_ok. unfold getPacket. destruct n as [| |x]; [exact H0 | exact H0 |].
  destruct (_ =? 0); [exact H0|]. apply wp_any. intros p Ep. assert (bytes_ok (packetData p)) as Hp.
  { unfold write in Ep. destruct (overwrite (packetData newRtcpPacket) 0 (take (Z.to_nat (packetAlloc newRtcpPacket)) x)) as [m'|] eqn:E; [|discriminate Ep]. injection Ep as <-.
    cbn [with_data packetData]. apply (overwrite_bytes_ok _ _ _ _ H0 (Forall_take _ _ _ Hn) E). }
  unfold setTotalUsage. destruct (cassert _); [|exact I]. step. apply wp_any. intros valid _. exact Hp.
Qed.

Section Steps.
Context (raw : SDESdata).
Hypothesis raw_ok : sdesOk raw.

(** What holds of the receivers, as long as sources are only added without a
    receiver or taken out, holds after any datagram. *)
Section Keeps.
Context (P : receivers -> Prop).
Hypothesis P_table : forall s, P s -> tableOk s.1.
Hypothesis P_grows : forall c c' r, P (c, r) -> grows c c' -> P (c', r).
Hypothesis P_remove : forall src s, P s -> wp True P (removeTranInfo src false s).

Lemma keeps_readPacket now d head s : bytes_ok d -> P s -> wp True (fun e => P e.2) (readPacket raw now d head s).
Proof.
  intros Hd H. destruct s as [c r]. unfold readPacket. apply wp_any. intros type _. pose proof (P_table _ H) as Hc. cbn [fst] in Hc. destruct (_ || _).
  - apply (wp_seq _ _ _ _ _ (readSR_grows raw now d raw_ok Hd head c Hc)). intros c' [Hg _]. exact (P_grows _ _ _ H Hg).
  - destruct (type =? rtcpTypeSDES).
    + apply (wp_seq _ _ _ _ _ (readSDES_grows raw now d raw_ok head c Hc)). intros c' [Hg _]. exact (P_grows _ _ _ H Hg).
    + destruct (type =? rtcpTypeBYE); [|destruct (type =? rtcpTypeAPP); [exact I | exact H]].
      apply (wp_seq _ P); [|intros s' H'; exact H']. unfold readBYE. apply wp_any. intros count _. generalize (Z.to_nat count) (head + sizeof_RtcpHeader) (c, r) H. clear - P_remove.
      intros n. induction n as [|n IH]; intros src s H; [exact H|]. cbn [removeSources]. apply wp_any. intros x _.
      apply (wp_seq _ _ _ _ _ (P_remove x s H)). intros s' H'. now apply IH.
Qed.

Lemma keeps_readLoop now d fuel : forall begin_ end_ ret s, bytes_ok d -> P s -> wp True (fun e => P e.2) (readLoop raw now fuel d begin_ end_ ret s).
Proof.
  induction fuel as [|fuel IH]; intros begin_ end_ ret s Hd H; [exact I|]. cbn [readLoop]. destruct (begin_ <? end_); [|exact H].
  apply (wp_seq _ _ _ _ _ (keeps_readPacket now d begin_ s Hd H)). intros [bye s'] H'. apply wp_any. intros length _. now apply IH.
Qed.

Lemma keeps_receiveRTCP now state n s : arrives n -> P s -> wp True (fun e => P e.2) (receiveRTCP raw now state n s).
Proof.
  intros Hn H. unfold receiveRTCP. apply (wp_seq _ _ _ _ _ (getPacket_bytes n Hn)). intros [len p] Hp. cbn [snd] in Hp.
  destruct (negb state); [exact H|]. destruct (0 <? len); [|exact H].
  apply (wp_seq _ _ _ _ _ (keeps_readLoop now _ headerFuel 0 _ false s Hp H)). intros [bye s'] H'. exact H'.
Qed.

End Keeps.

(** An RTCP datagram, for a session with an RTP receiver and for one without. *)
Lemma Linked_receiveRTCP now state n s : arrives n -> Linked s -> wp True (fun e => Linked e.2) (receiveRTCP raw now state n s).
Proof. apply keeps_receiveRTCP; [exact linked_table | exact Linked_grows | exact Linked_remove]. Qed.

Definition Unheard (s : receivers) : Prop := tableOk s.1 /\ forall k x, findInfo k (tranInfoList s.1) = Some x -> recv x = false.

Lemma Unheard_receiveRTCP now state n s : arrives n -> Unheard s -> wp True (fun e => Unheard e.2) (receiveRTCP raw now state n s).
Proof.
  apply keeps_receiveRTCP.
  - now intros s' [H _].
  - intros c c' r [H1 H2] [Hc Hg]. split; [exact Hc|]. intros k x Hk. cbn [fst] in *. specialize (Hg k). rewrite Hk in Hg.
    destruct (findInfo k (tranInfoList c)) as [y|] eqn:E; [rewrite Hg; exact (H2 k y E) | exact Hg].
  - intros src [c r] [[lo H1] H2]. unfold removeTranInfo. destruct (findInfo src (tranInfoList c)) as [info|] eqn:E; [|exact I]. cbn [wp mret outcome_ret fst] in *.
    split; cbn [fst with_infos tranInfoList]; [exists lo; now apply ordered_erase|]. intros k x Hk. rewrite findInfo_erase in Hk. destruct (k =? src); [discriminate | exact (H2 k x Hk)].
Qed.

(** ** RTP packets *)

(** The source that leaves is in the table, and no other has a receiver. *)
Lemma unlink c r : Linked (c, r) -> RtpReceiver.sourceSet (sourceOf r) = true ->
  forall r', exists c', removeTranInfo (RtpReceiver.ssrc (sourceOf r)) true (c, r') = Ret (c', r') /\ tableOk c' /\
    forall k x, findInfo k (tranInfoList c') = Some x -> recv x = false.
Proof.
  intros [[lo H1] H2 H3 _ _] Hs r'. cbn [fst snd] in *. destruct (H3 Hs) as (x & Hf & Hx). exists (with_infos (eraseInfo (RtpReceiver.ssrc (sourceOf r)) (tranInfoList c)) c).
  unfold removeTranInfo. rewrite Hf, andb_false_r. split; [reflexivity|]. cbn [with_infos tranInfoList]. split; [exists lo; now apply ordered_erase|].
  intros k y Hk. rewrite findInfo_erase in Hk. destruct (Z.eqb_spec k (RtpReceiver.ssrc (sourceOf r))); [discriminate|].
  destruct (recv y) eqn:E; [|reflexivity]. destruct (H2 k y Hk E). contradiction.
Qed.

Lemma unlinked c r : Linked (c, r) -> RtpReceiver.sourceSet (sourceOf r) = false -> forall k x, findInfo k (tranInfoList c) = Some x -> recv x = false.
Proof. intros H Hs k x Hk. destruct (recv x) eqn:E; [|reflexivity]. destruct (linked_only _ H k x Hk E). cbn [snd] in *. congruence. Qed.

(** The source that comes is added, or gets its receiver. *)
Lemma link now c r : tableOk c -> (forall k x, findInfo k (tranInfoList c) = Some x -> recv x = false) ->
  RtpReceiver.sourceSet (sourceOf r) = true -> RtpReceiver.rtcpRecv (sourceOf r) = true -> RtpReceiver.rtcpCalls (sourceOf r) = [] ->
  exists c', addTranInfo raw now (RtpReceiver.ssrc (sourceOf r)) (c, r) = Ret (c', r) /\ Linked (c', r).
Proof.
  intros [lo Hc] Hu Hs Hr Hq. set (src := RtpReceiver.ssrc (sourceOf r)) in *. unfold addTranInfo. fold src. rewrite Z.eqb_refl, cassert_true by reflexivity. step.
  set (s := newTranInfo raw now src true). assert (infoOk src s) as Hs1 by (split; [reflexivity|]; split; [exact raw_ok | cbn; lia]).
  unfold addTranFinal. change (Rtcp.ssrc s) with src. destruct (findInfo src (tranInfoList c)) as [x|] eqn:E.
  - rewrite (insertInfo_there src s x _ _ Hc E). cbn [negb]. unfold findTranInfo. cbn [with_infos tranInfoList]. rewrite E.
    rewrite (Hu _ _ E), cassert_true by reflexivity. step. cbn [with_infos tranInfoList]. eexists; split; [reflexivity|]. split; cbn [fst snd with_infos tranInfoList].
    + exists lo. apply ordered_set; [|exact Hc]. exact (proj1 (findInfo_ssrc _ _ _ _ Hc E)).
    + intros k y Hk Hy. rewrite findInfo_set in Hk. split; [exact Hs|]. destruct (Z.eqb_spec k src); [assumption|]. rewrite (Hu _ _ Hk) in Hy. discriminate.
    + intros _. fold src. rewrite findInfo_set, Z.eqb_refl, E. eexists; split; reflexivity.
    + exact Hr.
    + exact Hq.
  - destruct (insertInfo_new src s (tranInfoList c) (Z.min lo (src - 1))) as (H1 & H2 & H3); [apply (ordered_weaken lo); [lia | exact Hc] | lia | exact Hs1 | exact E |].
    destruct (insertInfo src s (tranInfoList c)) as [b l] eqn:El. cbn [fst snd] in *. subst b. cbn [negb]. eexists; split; [reflexivity|]. split; cbn [fst snd with_infos tranInfoList].
    + eexists; exact H2.
    + intros k y Hk Hy. split; [exact Hs|]. rewrite H3 in Hk. destruct (Z.eqb_spec src k); [now subst|]. rewrite (Hu _ _ Hk) in Hy. discriminate.
    + intros _. fold src. rewrite H3, Z.eqb_refl. exists s. split; reflexivity.
    + exact Hr.
    + exact Hq.
Qed.

(** What the RTP receiver asks for is granted. *)
Lemma Linked_serve now c r r1 : Linked (c, r) -> SourceStep (sourceOf r) (sourceOf r1) -> exists s', serve raw now (c, r1) = Ret s' /\ Linked s'.
Proof.
  intros H Hg. unfold serve. destruct r1 as [jb1 [b1 b2 b3 b4 b5 b6 b7 b8 b9 b10 b11 b12] st1 tm1 f1 f2 f3 f4].
  set (r2 := RtpReceiver.with_source _ _). cbn [RtpReceiver.source RtpReceiver.rtcpCalls RtpReceiver.sourceSet RtpReceiver.ssrc RtpReceiver.rtcpRecv] in Hg.
  cbn [RtpReceiver.source RtpReceiver.rtcpCalls]. pose proof (linked_attached _ H) as Ha. pose proof (linked_calls _ H) as Hq. cbn [snd] in Ha, Hq.
  destruct Hg as [E1 E2 E3 E4|E1 E3 E4]; cbn [RtpReceiver.source RtpReceiver.rtcpCalls RtpReceiver.sourceSet RtpReceiver.ssrc RtpReceiver.rtcpRecv] in *; rewrite Hq in E4; subst b12.
  - cbn [foldr]. exists (c, r2). split; [reflexivity|]. destruct H as [H1 H2 H3 _ _]. cbn [fst snd] in *.
    split; cbn [fst snd r2 RtpReceiver.with_source RtpReceiver.source RtpReceiver.sourceSet RtpReceiver.ssrc RtpReceiver.rtcpRecv RtpReceiver.rtcpCalls]; rewrite ?E1, ?E2, ?E3; auto.
  - rewrite Ha. destruct (RtpReceiver.sourceSet (sourceOf r)) eqn:Es; cbn [app foldr rtcpCall].
    + destruct (unlink c r H Es r2) as (c1 & -> & Hc & Hu). step. destruct (link now c1 r2 Hc Hu) as (c2 & E & HL); [exact E1 | now rewrite <- Ha | reflexivity |].
      change b2 with (RtpReceiver.ssrc (sourceOf r2)). rewrite E. step. exists (c2, r2). split; [reflexivity | exact HL].
    + destruct (link now c r2 (linked_table _ H) (unlinked c r H Es)) as (c2 & E & HL); [exact E1 | now rewrite <- Ha | reflexivity |].
      change b2 with (RtpReceiver.ssrc (sourceOf r2)). rewrite E. step. exists (c2, r2). split; [reflexivity | exact HL].
Qed.

(** An RTP packet: nothing but the RTP receiver itself can fail. *)
Lemma Linked_receiveRTP now n dtmf clk c r : Linked (c, r) ->
  match RtpReceiver.readNetwork n dtmf clk r with
  | Fault f => receiveRTP raw now n dtmf clk (c, r) = Fault f
  | Ret (rv, _) => exists s', receiveRTP raw now n dtmf clk (c, r) = Ret (rv, s') /\ Linked s'
  end.
Proof.
  intros H. pose proof (readNetwork_source n dtmf clk r) as Hg. unfold receiveRTP. cbn [fst snd]. destruct (RtpReceiver.readNetwork n dtmf clk r) as [[rv r1]|f]; [|reflexivity].
  cbn [wp snd] in Hg. step. destruct (Linked_serve now c r r1 H Hg) as (s' & -> & Hs). exists s'. split; [reflexivity | exact Hs].
Qed.

(** * What a session goes through *)

(** From a receiver without a source, what arrives on the two sockets. *)
Inductive session : receivers -> Prop :=
| session_start r : RtpReceiver.sourceSet (sourceOf r) = false -> RtpReceiver.rtcpRecv (sourceOf r) = true -> RtpReceiver.rtcpCalls (sourceOf r) = [] ->
    session (constructRtcpReceiver, r)
| session_rtp now n dtmf clk s rv s' : session s -> receiveRTP raw now n dtmf clk s = Ret (rv, s') -> session s'
| session_rtcp now state n s rv s' : session s -> arrives n -> receiveRTCP raw now state n s = Ret (rv, s') -> session s'.

Lemma session_Linked s : session s -> Linked s.
Proof.
  intros H. induction H as [r H1 H2 H3|now n dtmf clk [c r] rv s' _ IH E|now state n s rv s' _ IH Hn E].
  - split; [exists 0; constructor | discriminate | cbn [snd]; congruence | exact H2 | exact H3].
  - pose proof (Linked_receiveRTP now n dtmf clk c r IH) as H. destruct (RtpReceiver.readNetwork n dtmf clk r) as [[rv' r']|f]; [|congruence].
    destruct H as (s1 & E1 & H1). rewrite E in E1. injection E1 as _ <-. exact H1.
  - pose proof (Linked_receiveRTCP now state n s Hn IH) as H. rewrite E in H. exact H.
Qed.

End Steps.

(** The two receivers of a session agree on their source.  Whatever arrives on
    the two sockets, in any order: the source of the RTP receiver is in the table
    of the RTCP receiver with its receiver, and no other source has one, so that
    no assertion of [addTranInfo] and [removeTranInfo] can fail on behalf of the
    RTP receiver; what can fail when an RTP packet arrives is the RTP receiver
    itself. *)
Theorem receivers_stay_linked raw c r : sdesOk raw -> session raw (c, r) ->
  (forall k, (exists x, findInfo k (tranInfoList c) = Some x /\ recv x = true) <->
    RtpReceiver.sourceSet (RtpReceiver.source r) = true /\ k = RtpReceiver.ssrc (RtpReceiver.source r)) /\
  (forall now n dtmf clk, match RtpReceiver.readNetwork n dtmf clk r with
    | Fault f => receiveRTP raw now n dtmf clk (c, r) = Fault f
    | Ret (rv, _) => exists s', receiveRTP raw now n dtmf clk (c, r) = Ret (rv, s')
    end).
Proof.
  intros Hr H. apply (session_Linked raw Hr) in H. split.
  - intros k. split; [intros (x & Hk & Hx); exact (linked_only _ H k x Hk Hx) | intros [Hs ->]; exact (linked_source _ H Hs)].
  - intros now n dtmf clk. pose proof (Linked_receiveRTP raw Hr now n dtmf clk c r H) as E. destruct (RtpReceiver.readNetwork n dtmf clk r) as [[rv r1]|f]; [|exact E].
    destruct E as (s' & E & _). now exists s'.
Qed.

(** ** A session *)

Definition freshReceiver : RtpReceiver.RtpReceiver :=
  RtpReceiver.mkRtpReceiver (RtpReceiver.mkJB 0 0 5 (replicate (Z.to_nat RtpReceiver.JITTER_BUFFER_MAX) None))
    (RtpReceiver.mkSource false 0 false 0 (-2) 0 (mkNtpTime 900 0) 0 0 0 true [])
    (RtpReceiver.mkStats 0 0 0 0 0 0 false 0 []) (RtpPacket.mkRtpPacket (zeros 1012) 1012 0 0 0 false false false false None) 0 8000 1 160.

(** The first packet of the source 5, with four samples. *)
Definition firstPacket : bytes := [128; 0; 0; 10; 0; 0; 0; 160; 0; 0; 0; 5; 1; 2; 3; 4].

Definition sampleClocks : RtpReceiver.clocks := RtpReceiver.mkClocks (mkNtpTime 1000 0) (mkNtpTime 1000 10) (mkNtpTime 1000 20).

(** The source that the RTP receiver has then. *)
Definition sessionView (m : outcome (Z * receivers)) : outcome (Z * bool * Z) :=
  e ← m; mret (e.1, RtpReceiver.sourceSet (RtpReceiver.source e.2.2), RtpReceiver.ssrc (RtpReceiver.source e.2.2)).

Lemma sessionView_Ret m rv b k : sessionView m = Ret (rv, b, k) ->
  exists c r, m = Ret (rv, (c, r)) /\ RtpReceiver.sourceSet (RtpReceiver.source r) = b /\ k = RtpReceiver.ssrc (RtpReceiver.source r).
Proof. destruct m as [[x [c r]]|]; cbn; [intros [= <- <- <-]; now exists c, r | discriminate]. Qed.

Lemma receivers_stay_linked_witness : exists c r,
  receiveRTP sampleInfo (mkNtpTime 1000 0) (RtpReceiver.Datagram firstPacket) false sampleClocks (constructRtcpReceiver, freshReceiver) = Ret (0, (c, r)) /\
  exists x, findInfo 5 (tranInfoList c) = Some x /\ recv x = true.
Proof.
  destruct (sessionView_Ret (receiveRTP sampleInfo (mkNtpTime 1000 0) (RtpReceiver.Datagram firstPacket) false sampleClocks (constructRtcpReceiver, freshReceiver)) 0 true 5)
    as (c & r & E & Hk); [vm_compute; reflexivity|]. exists c, r. split; [exact E|].
  apply (receivers_stay_linked sampleInfo c r); [intros i; reflexivity | | exact Hk].
  refine (session_rtp sampleInfo (mkNtpTime 1000 0) (RtpReceiver.Datagram firstPacket) false sampleClocks (constructRtcpReceiver, freshReceiver) 0 (c, r) _ E).
  apply session_start; reflexivity.
Defined.

End RtcpLinked.
