(* ===== verification/RtcpLoss.v ===== *)
(** What a report says about the packets that were lost. *)
From S2P Require Import Prelude RtpTime RtpPacket RtpReceiver RtpTransmitter Rtcp RtcpReceiver RtcpFacts RtcpReadFacts.
Import RtpTime Rtcp.

Module RtcpLoss.

Section Loss.
Context (r : RtpReceiver.RtpReceiver) (now : NtpTime).

(** The two fields of a block, and what the source remembers for the next. *)
Lemma reportBlock_fields s :
  rd (reportBlock r now s).1 4 = Ret (u8 (calcLostFrac r s).1) /\
  (reportBlock r now s).2 = with_prior (s32 (expectedPackets r)) (RtpReceiver.packetReceived (RtpReceiver.stats r)) s /\
  slice (reportBlock r now s).1 5 3 =
    Ret (let lost := Z.land (calcLostCount r) 16777215 in
         [u8 (Z.shiftr (Z.land lost 16711680) 16); u8 (Z.shiftr (Z.land lost 65280) 8); Z.land lost 255]).
Proof. unfold reportBlock, calcLostFrac, slice, rd. repeat split; reflexivity. Qed.

(** The three bytes of the count are its low 24 bits. *)
Lemma lost_bytes n : 0 <= n ->
  let lost := Z.land n 16777215 in
  [u8 (Z.shiftr (Z.land lost 16711680) 16); u8 (Z.shiftr (Z.land lost 65280) 8); Z.land lost 255] =
  [n / 65536 mod 256; n / 256 mod 256; n mod 256].
Proof.
  intros Hn. cbn zeta. rewrite <- !Z.land_assoc. change (Z.land 16777215 16711680) with 16711680. change (Z.land 16777215 65280) with 65280.
  change (Z.land 16777215 255) with 255. rewrite !Z.shiftr_land. change (Z.shiftr 16711680 16) with (Z.ones 8). change (Z.shiftr 65280 8) with (Z.ones 8).
  change 255 with (Z.ones 8). rewrite !Z.land_ones, !Z.shiftr_div_pow2 by lia. unfold wrap. change (2 ^ 16) with 65536. change (2 ^ 8) with 256.
  rewrite !Z.mod_mod by lia. reflexivity.
Qed.

(** What is expected and what was received since the last report. *)
Definition expectedSince (s : RtpTranInfo) : Z := u32 (expectedPackets r - expectedPrior s).
Definition receivedSince (s : RtpTranInfo) : Z := u32 (RtpReceiver.packetReceived (RtpReceiver.stats r) - receivedPrior s).

Lemma since_range s : 0 <= expectedSince s < 4294967296 /\ 0 <= receivedSince s < 4294967296.
Proof. split; apply wrap32_range. Qed.

Lemma calcLostFrac_less s : receivedSince s <= expectedSince s < 16777216 ->
  (calcLostFrac r s).1 = (expectedSince s - receivedSince s) * 256 / expectedSince s.
Proof.
  pose proof (since_range s) as [H1 H2]. unfold calcLostFrac. cbn [fst]. fold (expectedSince s) (receivedSince s). intros H.
  rewrite (wrap_small 32 (expectedSince s - receivedSince s)) by lia. destruct (Z.eqb_spec (expectedSince s) 0) as [E|]; cbn [orb]; [rewrite E, Z.div_0_r; reflexivity|].
  destruct (Z.eqb_spec (expectedSince s - receivedSince s) 0) as [E|]; [now rewrite E, Z.div_0_l|].
  rewrite Z.shiftl_mul_pow2 by lia. change (2 ^ 8) with 256. rewrite wrap_small by lia. reflexivity.
Qed.

Lemma calcLostFrac_more s : 0 < expectedSince s < receivedSince s -> receivedSince s - expectedSince s < 16777216 ->
  (calcLostFrac r s).1 = (4294967296 - 256 * (receivedSince s - expectedSince s)) / expectedSince s.
Proof.
  pose proof (since_range s) as [H1 H2]. unfold calcLostFrac. cbn [fst]. fold (expectedSince s) (receivedSince s). intros H Hd.
  assert (u32 (expectedSince s - receivedSince s) = 4294967296 - (receivedSince s - expectedSince s)) as ->
    by (unfold wrap; change (2 ^ 32) with 4294967296; Z.to_euclidean_division_equations; lia).
  destruct (Z.eqb_spec (expectedSince s) 0); [lia|]. cbn [orb]. destruct (Z.eqb_spec (4294967296 - (receivedSince s - expectedSince s)) 0); [lia|].
  rewrite Z.shiftl_mul_pow2 by lia. change (2 ^ 8) with 256. f_equal. unfold wrap. change (2 ^ 32) with 4294967296. Z.to_euclidean_division_equations; lia.
Qed.

End Loss.

(** C27: the loss that a report shows.  Of the packets that are expected since the
    last report, it gives the part that did not arrive in 256ths, and the block
    leaves the counts from which the next report goes on.  It is wrong in two
    cases: when none has arrived, 256 does not fit into the field and nothing is
    lost; when more have arrived than were expected, which one duplicate is
    enough for, the difference is taken without a sign. *)
Theorem loss_reported r now s :
  let expected := expectedSince r s in let received := receivedSince r s in
  (0 < received <= expected -> expected < 16777216 -> rd (reportBlock r now s).1 4 = Ret ((expected - received) * 256 / expected)) /\
  (received = 0 -> expected < 16777216 -> rd (reportBlock r now s).1 4 = Ret 0) /\
  (0 < expected < received -> received - expected < 16777216 ->
     rd (reportBlock r now s).1 4 = Ret (u8 ((4294967296 - 256 * (received - expected)) / expected))) /\
  expectedPrior (reportBlock r now s).2 = s32 (expectedPackets r) /\
  receivedPrior (reportBlock r now s).2 = RtpReceiver.packetReceived (RtpReceiver.stats r).
Proof.
  cbn zeta. destruct (reportBlock_fields r now s) as (-> & -> & _). pose proof (since_range r s) as [H1 H2].
  split; [|split; [|split; [|split; reflexivity]]].
  - intros Hr He. rewrite calcLostFrac_less by lia. f_equal. apply wrap_small. change (2 ^ 8) with 256. split; [apply Z.div_pos; lia|]. apply Z.div_lt_upper_bound; lia.
  - intros Hr He. rewrite calcLostFrac_less, Hr, Z.sub_0_r by lia. f_equal. destruct (Z.eq_dec (expectedSince r s) 0) as [->|]; [reflexivity|].
    now rewrite Z.mul_comm, Z.div_mul.
  - intros Hr Hd. now rewrite calcLostFrac_more.
Qed.

(** A receiver that has been sent [n] packets from [seed] on, and got them all. *)
Record Lossless (seed n : Z) (r : RtpReceiver.RtpReceiver) : Prop := {
  lossless_seed : RtpReceiver.seedSeq (RtpReceiver.source r) = seed;
  lossless_prev : RtpReceiver.realPrevSeqRecv (RtpReceiver.source r) = (seed + n - 1) mod 65536;
  lossless_cycles : RtpReceiver.recv_cycles (RtpReceiver.source r) = (seed + n - 1) / 65536;
  lossless_received : RtpReceiver.packetReceived (RtpReceiver.stats r) = n
}.

(** C39: the count of lost packets of a stream that loses none.  It is 0 as long as
    the sequence numbers do not begin again; each time they do, 65535 is taken
    away from it, since the cycles are added as they are and not as the upper
    half of the number: 16711681 packets are reported lost. *)
Theorem lossless_stream_count r now s seed n :
  0 <= seed < 65536 -> 0 < n < 2147483648 -> Lossless seed n r ->
  let cycles := (seed + n - 1) / 65536 in let lost := (- (65535 * cycles)) mod 4294967296 in
  slice (reportBlock r now s).1 5 3 = Ret [lost / 65536 mod 256; lost / 256 mod 256; lost mod 256] /\
  (seed + n <= 65536 -> lost = 0) /\ (65536 < seed + n <= 131072 -> lost mod 16777216 = 16711681).
Proof.
  intros Hs Hn [H1 H2 H3 H4]. cbn zeta. destruct (reportBlock_fields r now s) as (_ & _ & ->). cbn zeta. split; [|split].
  - rewrite lost_bytes by apply wrap32_range. unfold calcLostCount, expectedPackets. rewrite H1, H2, H3, H4.
    assert (u32 (u32 ((seed + n - 1) / 65536 + (seed + n - 1) mod 65536 - seed + 1) - n) = (- (65535 * ((seed + n - 1) / 65536))) mod 4294967296) as ->; [|reflexivity].
    unfold wrap. change (2 ^ 32) with 4294967296. rewrite Zminus_mod_idemp_l. f_equal. pose proof (Z.div_mod (seed + n - 1) 65536). lia.
  - intros H. assert ((seed + n - 1) / 65536 = 0) as -> by (apply Z.div_small; lia). reflexivity.
  - intros H. assert ((seed + n - 1) / 65536 = 1) as -> by (Z.to_euclidean_division_equations; lia). reflexivity.
Qed.

(** ** A receiver *)

Definition lossReceiver (seed prev cycles received : Z) : RtpReceiver.RtpReceiver :=
  RtpReceiver.mkRtpReceiver (RtpReceiver.mkJB 0 0 5 [])
    (RtpReceiver.mkSource true 7 false 0 0 seed (mkNtpTime 1000 0) 500 prev cycles true [])
    (RtpReceiver.mkStats received 0 0 0 0 0 false 0 []) (RtpPacket.mkRtpPacket [] 0 0 0 0 false false false false None) 0 8000 1 160.

Definition lossInfo : RtpTranInfo := mkTranInfo 7 true 100 90 (fun _ => zeros 256) 0 (mkNtpTime 1000 0).

Lemma loss_reported_witness : rd (reportBlock (lossReceiver 1000 1149 0 130) (mkNtpTime 1001 0) lossInfo).1 4 = Ret (10 * 256 / 50).
Proof. exact (proj1 (loss_reported (lossReceiver 1000 1149 0 130) (mkNtpTime 1001 0) lossInfo) ltac:(split; vm_compute; [reflexivity | discriminate]) eq_refl). Defined.

Lemma lossless_stream_count_witness :
  slice (reportBlock (lossReceiver 65000 463 1 1000) (mkNtpTime 1001 0) lossInfo).1 5 3 = Ret [255; 0; 1].
Proof. refine (proj1 (lossless_stream_count (lossReceiver 65000 463 1 1000) (mkNtpTime 1001 0) lossInfo 65000 1000 _ _ _)); [lia | lia | split; reflexivity]. Defined.

End RtcpLoss.
