(* ===== verification/RtpSession.v ===== *)
(** The RTP session of rtp/RtpSession.hxx and rtp/RtpSession.cxx: the two
    transmitters and the two receivers of a call, how they are linked, and what a
    session sends and reads in each of its states. *)
From S2P Require Import Prelude RtpTime RtpPacket RtpReceiver RtpTransmitter Rtcp RtcpReceiver.
Import RtpTime Rtcp RtcpReceiver.

Module RtpSession.

Inductive RtpSessionState :=
| rtp_session_undefined
| rtp_session_inactive
| rtp_session_sendonly
| rtp_session_recvonly
| rtp_session_sendrecv.

#[export] Instance RtpSessionState_eq_dec : EqDecision RtpSessionState.
Proof. solve_decision. Defined.

Definition session_success : Z := 0.
Definition session_wrongState : Z := 20.

(** The RTCP transmitter points to the session's RTP transmitter when its [tran]
    is set, and to an RTCP receiver when [hasReceiver] is: the one that the
    session had then. *)
Record RtpSession := mkSession {
  tran : option RtpTransmitter.RtpTransmitter;
  recv : option RtpReceiver.RtpReceiver;
  rtcpTran : option RtcpTransmitter;
  rtcpRecv : option RtcpReceiver;
  sessionState : RtpSessionState;
  sessionError : option Z          (** not set by the constructor *)
}.

Definition with_tran (x : option RtpTransmitter.RtpTransmitter) (s : RtpSession) : RtpSession :=
  mkSession x (recv s) (rtcpTran s) (rtcpRecv s) (sessionState s) (sessionError s).
Definition with_recv (x : option RtpReceiver.RtpReceiver) (s : RtpSession) : RtpSession :=
  mkSession (tran s) x (rtcpTran s) (rtcpRecv s) (sessionState s) (sessionError s).
Definition with_rtcpTran (x : option RtcpTransmitter) (s : RtpSession) : RtpSession :=
  mkSession (tran s) (recv s) x (rtcpRecv s) (sessionState s) (sessionError s).
Definition with_rtcpRecv (x : option RtcpReceiver) (s : RtpSession) : RtpSession :=
  mkSession (tran s) (recv s) (rtcpTran s) x (sessionState s) (sessionError s).
Definition with_state (x : RtpSessionState) (s : RtpSession) : RtpSession :=
  mkSession (tran s) (recv s) (rtcpTran s) (rtcpRecv s) x (sessionError s).
Definition with_error (x : Z) (s : RtpSession) : RtpSession :=
  mkSession (tran s) (recv s) (rtcpTran s) (rtcpRecv s) (sessionState s) (Some x).

Definition sends (x : RtpSessionState) : bool := bool_decide (x = rtp_session_sendrecv) || bool_decide (x = rtp_session_sendonly).
Definition receives (x : RtpSessionState) : bool := bool_decide (x = rtp_session_sendrecv) || bool_decide (x = rtp_session_recvonly).

(** What goes to the two sockets. *)
Inductive sent :=
| Media (d : bytes)
| Control (d : bytes).

Section Session.
(** The memory in which objects are built, the name of the process and of the
    host. *)
Variable rawRecv : RtpReceiver.RtpReceiver.
Variable rawTran : RtpTransmitter.RtpTransmitter.
Variable rawPacket : bytes.
Variable rawInfo : SDESdata.
Variable pid hn : bytes.

(** * Construction and links *)

Definition newRtpTransmitter (fmt clockrate per_sample_size samplesize : Z) (now : NtpTime) (random : list Z)
  : outcome (RtpTransmitter.RtpTransmitter * list Z) :=
  p ← RtpPacket.newRtpPacket rawPacket 1012 0 0;
  RtpTransmitter.initRtpTransmitter fmt clockrate per_sample_size samplesize now random (RtpTransmitter.with_raw p rawTran).

(** [RtpReceiver::setRTCPrecv] with a receiver. *)
Definition setRTCPrecv (r : RtpReceiver.RtpReceiver) : RtpReceiver.RtpReceiver :=
  let o := RtpReceiver.source r in
  RtpReceiver.with_source (RtpReceiver.mkSource (RtpReceiver.sourceSet o) (RtpReceiver.ssrc o) (RtpReceiver.probationSet o)
    (RtpReceiver.srcProbation o) (RtpReceiver.probation o) (RtpReceiver.seedSeq o) (RtpReceiver.seedNtpTime o)
    (RtpReceiver.seedRtpTime o) (RtpReceiver.realPrevSeqRecv o) (RtpReceiver.recv_cycles o) true (RtpReceiver.rtcpCalls o)) r.

(** [RtcpTransmitter::setRTCPrecv] with a receiver. *)
Definition setReceiverLink (t : RtcpTransmitter) : RtcpTransmitter :=
  mkRtcpTransmitter (nextInterval t) (ownInfo t) (Rtcp.tran t) true.

Definition present {A} (x : option A) : bool := match x with Some _ => true | None => false end.

(** The links that the constructor and [setTransmiter] make. *)
Definition linkTransmitter (s : RtpSession) : RtpSession :=
  let t := match rtcpTran s, tran s with Some t, Some x => Some (setRTPtran x t) | t, _ => t end in
  let t := match t, rtcpRecv s with Some t, Some _ => Some (setReceiverLink t) | t, _ => t end in
  with_rtcpTran t s.

(** The link from the RTP receiver to the RTCP receiver. *)
Definition linkReceiver (s : RtpSession) : RtpSession :=
  match rtcpRecv s, recv s with Some _, Some r => with_recv (Some (setRTCPrecv r)) s | _, _ => s end.

Fixpoint setTexts (l : list RtcpSDESType) (t : RtcpTransmitter) : outcome RtcpTransmitter :=
  match l with [] => mret t | i :: l => t ← setSdesText i [] t; setTexts l t end.

(** The description of a transmitter: its name, and texts that are empty. *)
Definition describeTransmitter (l : list RtcpSDESType) (s : RtpSession) : outcome RtpSession :=
  match rtcpTran s, tran s with
  | Some t, Some _ => t ← setSdesCname pid hn t; t ← setTexts l t; mret (with_rtcpTran (Some t) s)
  | _, _ => mret s
  end.

(** [constructRtpSession]; a port of 0 leaves the part out. *)
Definition constructRtpSession (remotePort localPort rtcpRemotePort rtcpLocalPort fmt clockrate per_sample_size samplesize jb_sz : Z)
  (now : NtpTime) (offset : Z) (random : list Z) : outcome (RtpSession * list Z) :=
  recv ← (if localPort =? 0 then mret None
          else r ← RtpReceiver.constructRtpReceiver rawRecv fmt clockrate per_sample_size samplesize jb_sz; mret (Some r));
  '(tran, random) ← (if remotePort =? 0 then mret (None, random)
                     else '(x, random) ← newRtpTransmitter fmt clockrate per_sample_size samplesize now random; mret (Some x, random));
  let rtcpRecv := if rtcpLocalPort =? 0 then None else Some constructRtcpReceiver in
  let rtcpTran := if rtcpRemotePort =? 0 then None else Some (newRtcpTransmitter now offset) in
  let state := match tran, recv with
               | Some _, Some _ => rtp_session_sendrecv
               | Some _, None => rtp_session_sendonly
               | None, Some _ => rtp_session_recvonly
               | None, None => rtp_session_undefined
               end in
  let s := linkReceiver (linkTransmitter (mkSession tran recv rtcpTran rtcpRecv state None)) in
  s ← describeTransmitter [Name; Email; Phone; Loc; Tool; Note] s;
  mret (s, random).

Definition setSessionState (state : RtpSessionState) (s : RtpSession) : RtpSession := with_state state s.

(** [setReceiver]: 0, or -1 in a state that does not receive. *)
Definition setReceiver (localPort rtcpLocalPort fmt clockrate per_sample_size samplesize jb_sz : Z) (s : RtpSession)
  : outcome (Z * RtpSession) :=
  if negb (receives (sessionState s)) then mret (-1, s)
  else
    recv ← (if localPort =? 0 then mret None
            else r ← RtpReceiver.constructRtpReceiver rawRecv fmt clockrate per_sample_size samplesize jb_sz; mret (Some r));
    let s := with_recv recv s in
    let s := with_rtcpRecv (if rtcpLocalPort =? 0 then None else Some constructRtcpReceiver) s in
    let s := match rtcpTran s, rtcpRecv s with Some t, Some _ => with_rtcpTran (Some (setReceiverLink t)) s | _, _ => s end in
    mret (0, linkReceiver s).

(** [setTransmiter]: the name is left out of the description. *)
Definition setTransmiter (remotePort rtcpRemotePort fmt clockrate per_sample_size samplesize : Z)
  (now : NtpTime) (offset : Z) (random : list Z) (s : RtpSession) : outcome (Z * RtpSession * list Z) :=
  if negb (sends (sessionState s)) then mret (-1, s, random)
  else
    '(tran, random) ←
      (if remotePort =? 0 then mret (tran s, random)
       else
         '(x, random) ← match tran s with
                        | Some x => RtpTransmitter.initRtpTransmitter fmt clockrate per_sample_size samplesize now random x
                        | None => newRtpTransmitter fmt clockrate per_sample_size samplesize now random
                        end;
         mret (Some x, random));
    let s := with_tran tran s in
    let s := if rtcpRemotePort =? 0 then s
             else match rtcpTran s with Some _ => s | None => with_rtcpTran (Some (newRtcpTransmitter now offset)) s end in
    s ← describeTransmitter [Email; Phone; Loc; Tool; Note] (linkTransmitter s);
    mret (0, s, random).

Definition setFormat (type clockrate per_sample_size samplesize : Z) (s : RtpSession) : RtpSession :=
  let s := with_tran (match tran s with
    | Some t => Some (RtpTransmitter.mkTransmitter (RtpTransmitter.ssrc t) (RtpTransmitter.seedNtpTime t) (RtpTransmitter.seedRtpTime t)
        (RtpTransmitter.prevRtpTime t) (RtpTransmitter.prevNtpTime t) (RtpTransmitter.prevSequence t) (RtpTransmitter.packetSent t)
        (RtpTransmitter.payloadSent t) type samplesize per_sample_size clockrate (RtpTransmitter.markerOnce t) (RtpTransmitter.rtp_raw_tx_pkt t))
    | None => None end) s in
  with_recv (match recv s with
    | Some r => Some (RtpReceiver.mkRtpReceiver (RtpReceiver.jb r) (RtpReceiver.source r) (RtpReceiver.stats r) (RtpReceiver.tmpPkt r)
        type clockrate per_sample_size samplesize)
    | None => None end) s.

(** * Control packets *)

(** The RTCP transmitter as it sees the RTP transmitter now. *)
Definition current (s : RtpSession) (t : RtcpTransmitter) : RtcpTransmitter :=
  mkRtcpTransmitter (nextInterval t) (ownInfo t) (match Rtcp.tran t with Some _ => tran s | None => None end) (hasReceiver t).

(** The sources that it reports on.  The RTCP receiver that it points to may be
    gone. *)
Definition reportedSources (s : RtpSession) (t : RtcpTransmitter) : outcome tranInfos :=
  if hasReceiver t then match rtcpRecv s with Some c => mret (tranInfoList c) | None => Fault UninitRead end else mret [].

(** The RTP receiver that they point to. *)
Definition reportedReceiver (s : RtpSession) (infos : tranInfos) : outcome RtpReceiver.RtpReceiver :=
  match recv s with
  | Some r => mret r
  | None => if existsb (fun e => Rtcp.recv e.2) infos then Fault UninitRead else mret rawRecv
  end.

(** What the report leaves in the sources. *)
Definition storeSources (t : RtcpTransmitter) (infos : tranInfos) (s : RtpSession) : RtpSession :=
  if hasReceiver t then match rtcpRecv s with Some c => with_rtcpRecv (Some (with_infos infos c)) s | None => s end else s.

Definition transmitRTCP (now : NtpTime) (s : RtpSession) : outcome (list sent * RtpSession) :=
  if negb (sends (sessionState s)) then mret ([], with_error session_wrongState s)
  else
    match rtcpTran s with
    | None => Fault AssertFailed
    | Some t =>
        infos ← reportedSources s t;
        r ← reportedReceiver s infos;
        '(d, infos) ← RtcpReceiver.transmitRTCP r now (current s t) infos;
        mret ([Control d], storeSources t infos s)
    end.

Definition transmitRTCPBYE (now : NtpTime) (s : RtpSession) : outcome (list sent * RtpSession) :=
  match rtcpTran s with
  | None => Fault AssertFailed
  | Some t =>
      infos ← reportedSources s t;
      r ← reportedReceiver s infos;
      '(d, infos) ← RtcpReceiver.transmitRTCPBYE r now (current s t) infos;
      mret ([Control d], storeSources t infos s)
  end.

Definition checkIntervalRTCP (now : NtpTime) (offset : Z) (s : RtpSession) : outcome (bool * RtpSession) :=
  match rtcpTran s with
  | None => Fault AssertFailed
  | Some t => let '(b, t) := checkInterval now offset t in mret (b, with_rtcpTran (Some t) s)
  end.

(** A report when it is time for one. *)
Definition reportInTime (now : NtpTime) (offset : Z) (s : RtpSession) : outcome (list sent * RtpSession) :=
  match rtcpTran s with
  | None => mret ([], s)
  | Some _ => '(b, s) ← checkIntervalRTCP now offset s; if b : bool then transmitRTCP now s else mret ([], s)
  end.

(** [receiveRTCP]: the receiver's sources may reach the RTP receiver. *)
Definition receiveRTCP (now : NtpTime) (n : RtpReceiver.net) (s : RtpSession) : outcome (Z * RtpSession) :=
  match rtcpRecv s with
  | None => Fault NullDeref
  | Some c =>
      if negb (receives (sessionState s)) then
        '(len, _) ← RtcpReceiver.getPacket n newRtcpPacket;
        mret (-1, if 0 <? len then with_error session_wrongState s else s)
      else
        r ← reportedReceiver s (tranInfoList c);
        '(rv, (c, r)) ← RtcpReceiver.receiveRTCP rawInfo now true n (c, r);
        mret (rv, with_recv (match recv s with Some _ => Some r | None => None end) (with_rtcpRecv (Some c) s))
  end.

Definition processRTCP (now : NtpTime) (offset : Z) (n : RtpReceiver.net) (s : RtpSession) : outcome (list sent * RtpSession) :=
  '(out, s) ← reportInTime now offset s;
  match rtcpRecv s with
  | None => mret (out, s)
  | Some _ => '(_, s) ← receiveRTCP now n s; mret (out, s)
  end.

(** * Media *)

Definition transmit (pkt : RtpPacket.RtpPacket) (now : NtpTime) (s : RtpSession) : outcome (Z * list sent * RtpPacket.RtpPacket * RtpSession) :=
  if negb (sends (sessionState s)) then mret (-1, [], pkt, with_error session_wrongState s)
  else
    match tran s with
    | None => Fault AssertFailed
    | Some x =>
        '(rv, d, pkt, x) ← RtpTransmitter.transmit pkt false now x;
        mret (rv, match d with Some d => [Media d] | None => [] end, pkt, with_tran (Some x) (with_error session_success s))
    end.

(** [transmitRaw]; [pkt_sent] is its static counter: every eighth packet, the time
    for a report is looked at. *)
Definition transmitRaw (pkt_sent : Z) (data : bytes) (now : NtpTime) (offset : Z) (s : RtpSession)
  : outcome (Z * list sent * Z * RtpSession) :=
  if negb (sends (sessionState s)) then mret (-1, [], pkt_sent, with_error session_wrongState s)
  else
    '(out, s) ← (if Z.land pkt_sent 7 =? 0 then reportInTime now offset s else mret ([], s));
    match tran s with
    | None => Fault AssertFailed
    | Some x =>
        '(rv, d, x) ← RtpTransmitter.transmitRaw data now x;
        mret (rv, out ++ match d with Some d => [Media d] | None => [] end, s32 (pkt_sent + 1), with_tran (Some x) (with_error session_success s))
    end.

(** [notifyVADSuppression], with a counter of its own. *)
Definition notifyVADSuppression (pkt_sent : Z) (now : NtpTime) (offset : Z) (s : RtpSession) : outcome (Z * list sent * Z * RtpSession) :=
  if negb (sends (sessionState s)) then mret (-1, [], pkt_sent, with_error session_wrongState s)
  else
    '(out, s) ← (if Z.land pkt_sent 7 =? 0 then reportInTime now offset s else mret ([], s));
    match tran s with
    | None => Fault AssertFailed
    | Some _ => mret (0, out, s32 (pkt_sent + 1), with_error session_success s)
    end.

Definition transmitEvent (raw : bytes) (event : Z) (now : NtpTime) (s : RtpSession) : outcome (Z * list sent * RtpSession) :=
  if negb (sends (sessionState s)) then mret (-1, [], with_error session_wrongState s)
  else
    match tran s with
    | None => Fault AssertFailed
    | Some x =>
        '(l, x) ← RtpTransmitter.transmitEvent raw event now x;
        mret (0, map Media l, with_tran (Some x) (with_error session_success s))
    end.

Definition setSampleSize (n : Z) (s : RtpSession) : RtpSession :=
  with_recv (option_map (RtpReceiver.setSampleSize n) (recv s)) (with_tran (option_map (RtpTransmitter.setSampleSize n) (tran s)) s).

Definition setMarkerOnce (s : RtpSession) : RtpSession := with_tran (option_map RtpTransmitter.setMarkerOnce (tran s)) s.

(** [retrieve], of a receiver that must be there. *)
Definition retrieve (pkt : RtpPacket.RtpPacket) (s : RtpSession) : outcome (Z * RtpPacket.RtpPacket * RtpSession) :=
  match recv s with
  | None => Fault NullDeref
  | Some r => '(rv, pkt, r) ← RtpReceiver.retrieve pkt r; mret (rv, pkt, with_recv (Some r) s)
  end.

(** [recv->readNetwork()], with what it asks of the RTCP receiver. *)
Definition readMedia (n : RtpReceiver.net) (dtmf : bool) (now : NtpTime) (clk : RtpReceiver.clocks) (s : RtpSession) : outcome RtpSession :=
  match recv s with
  | None => Fault NullDeref
  | Some r =>
      match rtcpRecv s with
      | Some c => '(_, (c, r)) ← receiveRTP rawInfo now n dtmf clk (c, r); mret (with_recv (Some r) (with_rtcpRecv (Some c) s))
      | None =>
          '(_, r) ← RtpReceiver.readNetwork n dtmf clk r;
          match RtpReceiver.rtcpCalls (RtpReceiver.source r) with [] => mret (with_recv (Some r) s) | _ => Fault UninitRead end
      end
  end.

(** [readNetwork]; [fds] tells which of the sockets for RTP and for RTCP are
    ready.  A session that may not receive reads the RTP packet all the same. *)
Definition readNetwork (fds : option (bool * bool)) (n : RtpReceiver.net) (dtmf : bool) (clk : RtpReceiver.clocks)
  (nRtcp : RtpReceiver.net) (now : NtpTime) (s : RtpSession) : outcome (Z * RtpSession) :=
  if negb (receives (sessionState s)) then
    s ← match recv s with
        | None => mret s
        | Some _ =>
            s ← (if match fds with Some (ready, _) => ready | None => false end then readMedia n dtmf now clk s else mret s);
            mret (with_error session_wrongState s)
        end;
    mret (- RtpReceiver.EINVAL, s)
  else
    s ← (if present (rtcpRecv s) && match fds with Some (_, ready) => ready | None => true end
         then '(_, s) ← receiveRTCP now nRtcp s; mret s else mret s);
    let s := with_error session_success s in
    s ← match fds with
        | None => mret s
        | Some (ready, _) => match recv s with None => Fault NullDeref | Some _ => if ready : bool then readMedia n dtmf now clk s else mret s end
        end;
    mret (0, s).

(** * Statistics *)

Definition getPacketSent (s : RtpSession) : Z := match tran s with Some x => RtpTransmitter.packetSent x | None => 0 end.
Definition getByteSent (s : RtpSession) : Z := match tran s with Some x => RtpTransmitter.payloadSent x | None => 0 end.
Definition getPacketReceived (s : RtpSession) : Z := match recv s with Some r => RtpReceiver.packetReceived (RtpReceiver.stats r) | None => 0 end.
Definition getByteReceived (s : RtpSession) : Z := match recv s with Some r => RtpReceiver.payloadReceived (RtpReceiver.stats r) | None => 0 end.

(** What is lost of each of the sources, each of which must have a receiver. *)
Fixpoint sumLost (s : RtpSession) (l : tranInfos) (lost : Z) : outcome Z :=
  match l with
  | [] => mret lost
  | (_, x) :: l =>
      if negb (Rtcp.recv x) then Fault NullDeref
      else match recv s with None => Fault UninitRead | Some r => sumLost s l (s32 (lost + calcLostCount r)) end
  end.

Definition getPacketLost (s : RtpSession) : outcome Z :=
  match rtcpTran s, rtcpRecv s with
  | Some _, Some c => sumLost s (tranInfoList c) 0
  | _, _ => mret 0
  end.

(** What the receiver gives is divided by sixteen a second time. *)
Definition getJitter (s : RtpSession) : Z := match recv s with Some r => Z.shiftr (RtpReceiver.getJitter r) 4 | None => 0 end.
Definition getLatency (s : RtpSession) : Z := match rtcpRecv s with Some c => avgOneWayDelay c | None => 0 end.

End Session.

End RtpSession.
