(* ===== verification/RtpSessionFacts.v ===== *)
(** How the parts of a session are linked: whatever it does, what its control
    packets are made of is there. *)
From S2P Require Import Prelude RtpTime RtpPacket RtpReceiver RtpTransmitter Rtcp RtcpReceiver RtcpFacts RtcpReadFacts RtcpProps RtcpSafe RtcpLinked RtpSession.
Import RtpTime Rtcp RtcpReceiver RtcpFacts RtcpReadFacts RtcpSafe RtcpLinked.
Import RtpSession(RtpSession, mkSession, present, sent, Media, Control, sends, receives).

Module RtpSessionFacts.

(** * Lists of sources *)

Lemma existsb_false {A} (f : A -> bool) l : Forall (fun x => f x = false) l -> existsb f l = false.
Proof. induction 1 as [|x l H _ IH]; [reflexivity|]. cbn. now rewrite H. Qed.

Lemma ordered_lookup l : forall lo k x, ordered lo l -> In (k, x) l -> findInfo k l = Some x.
Proof.
  induction l as [|[i y] l IH]; intros lo k x Ho Hin; [destruct Hin|]. apply ordered_inv in Ho as (Hi & _ & Ho). cbn [findInfo]. destruct Hin as [E|Hin].
  - injection E as -> ->. now rewrite Z.eqb_refl.
  - specialize (IH i k x Ho Hin). destruct (Z.eqb_spec i k) as [->|]; [|exact IH]. rewrite (findInfo_below _ _ _ Ho) in IH by lia. discriminate IH.
Qed.

(** What holds of every source that is found holds of every entry. *)
Lemma ordered_entries (P : RtpTranInfo -> Prop) l lo : ordered lo l -> (forall k x, findInfo k l = Some x -> P x) -> Forall (fun e => P e.2) l.
Proof. intros Ho H. apply List.Forall_forall. intros [k x] Hin. exact (H k x (ordered_lookup _ _ _ _ Ho Hin)). Qed.

(** * The parts *)

(** The receivers that a session has. *)
Definition receiversOk (r : option RtpReceiver.RtpReceiver) (c : option RtcpReceiver) : Prop :=
  match r, c with
  | Some r, Some c => Linked (c, r)
  | None, Some c => forall r, Unheard (c, r)
  | Some r, None => RtpReceiver.rtcpRecv (RtpReceiver.source r) = false /\ RtpReceiver.rtcpCalls (RtpReceiver.source r) = []
  | None, None => True
  end.

(** The RTCP transmitter points to the other parts that there are. *)
Definition transmitterOk (t : option RtcpTransmitter) (x : option RtpTransmitter.RtpTransmitter) (c : option RtcpReceiver) : Prop :=
  match t with
  | Some t => present (Rtcp.tran t) = present x /\ hasReceiver t = present c /\ (present x = true -> present (ownInfo t) = true)
  | None => True
  end.

Definition Wired (s : RtpSession) : Prop :=
  receiversOk (RtpSession.recv s) (RtpSession.rtcpRecv s) /\ transmitterOk (RtpSession.rtcpTran s) (RtpSession.tran s) (RtpSession.rtcpRecv s).

(** A session whose parts are there as before, with the same receivers. *)
Definition alike (s s' : RtpSession) : Prop :=
  RtpSession.recv s' = RtpSession.recv s /\ RtpSession.rtcpRecv s' = RtpSession.rtcpRecv s /\ present (RtpSession.tran s') = present (RtpSession.tran s) /\
  RtpSession.rtcpTran s' = RtpSession.rtcpTran s.

Lemma Wired_alike s s' : Wired s -> alike s s' -> Wired s'.
Proof. intros [H1 H2] (E1 & E2 & E3 & E4). unfold Wired, transmitterOk in *. now rewrite E1, E2, E3, E4. Qed.

(** * Reports *)

Section Reports.
Context (r : RtpReceiver.RtpReceiver) (now : NtpTime).

Lemma reportLoop_infos head l : forall usage p,
  wp True (fun e => e.2 = map (fun e => (e.1, afterReport r now e.2)) l) (reportLoop r head now l usage p).
Proof.
  induction l as [|[k s] l IH]; intros usage p; [reflexivity|]. cbn [reportLoop].
  apply (wp_seq _ (fun e => e.2 = afterReport r now s)).
  - unfold afterReport, reported. destruct (negb (recv s)) eqn:E1; [destruct (recv s); [discriminate | reflexivity]|]. destruct (recv s); [|discriminate].
    destruct (Z.ltb_spec (RtpReceiver.probation (RtpReceiver.source r)) 0), (Z.leb_spec 0 (RtpReceiver.probation (RtpReceiver.source r))); try lia; [reflexivity|]. cbn [andb].
    apply wp_any. intros [n p1] _. destruct (reportBlock r now s) as [b s1]. apply wp_any. intros p2 _. apply wp_any. intros count _. apply wp_any. intros p3 _. reflexivity.
  - intros [[usage1 p1] s1] H. cbn [snd] in H. subst s1. apply (wp_seq _ _ _ _ _ (IH usage1 p1)). intros [[usage2 p2] l'] H. cbn [snd] in H. subst l'. reflexivity.
Qed.

Lemma addSR_infos t infos pad p :
  wp True (fun e => e.2 = if hasReceiver t then map (fun e => (e.1, afterReport r now e.2)) infos else infos) (addSR r t infos now pad p).
Proof.
  unfold addSR. apply wp_any. intros [usage p1] _. apply wp_any. intros p2 _. apply wp_any. intros [usage3 p3] _.
  apply (wp_seq _ (fun e => e.2 = if hasReceiver t then map (fun e => (e.1, afterReport r now e.2)) infos else infos)).
  - destruct (hasReceiver t); [apply reportLoop_infos | reflexivity].
  - intros [[usage4 p4] infos'] H. apply wp_any. intros u1 _. apply wp_any. intros u2 _. apply wp_any. intros p5 _. exact H.
Qed.

Lemma transmitRTCP_infos t infos :
  wp True (fun e => e.2 = if hasReceiver t then map (fun e => (e.1, afterReport r now e.2)) infos else infos) (transmitRTCP r now t infos).
Proof.
  unfold transmitRTCP. apply (wp_seq _ _ _ _ _ (addSR_infos t infos 0 newRtcpPacket)). intros [[usage p] infos'] H. cbn [snd] in H.
  apply wp_any. intros [usage2 p2] _. apply wp_any. intros d _. exact H.
Qed.

Lemma transmitRTCPBYE_infos t infos :
  wp True (fun e => e.2 = if hasReceiver t then map (fun e => (e.1, afterReport r now e.2)) infos else infos) (transmitRTCPBYE r now t infos).
Proof.
  unfold transmitRTCPBYE. apply (wp_seq _ _ _ _ _ (addSR_infos t infos 0 newRtcpPacket)). intros [[usage p] infos'] H. cbn [snd] in H.
  apply wp_any. intros [usage2 p2] _. apply wp_any. intros d _. exact H.
Qed.

Lemma afterReport_same s : recv (afterReport r now s) = recv s /\ forall k, infoOk k s -> infoOk k (afterReport r now s).
Proof. unfold afterReport. destruct (reported r s); [|now split]. unfold reportBlock, calcLostFrac. split; [reflexivity | now intros k]. Qed.

Lemma afterReport_find k l : findInfo k (map (fun e => (e.1, afterReport r now e.2)) l) = afterReport r now <$> findInfo k l.
Proof. induction l as [|[i s] l IH]; [reflexivity|]. cbn [map findInfo fst snd]. destruct (i =? k); [reflexivity | exact IH]. Qed.

Lemma afterReport_ordered l : forall lo, ordered lo l -> ordered lo (map (fun e => (e.1, afterReport r now e.2)) l).
Proof.
  induction l as [|[i s] l IH]; intros lo H; [constructor|]. apply ordered_inv in H as (H1 & H2 & H3). cbn [map fst snd].
  constructor; [exact H1 | now apply afterReport_same | now apply IH].
Qed.

Lemma receiversOk_report o c : receiversOk o (Some c) ->
  receiversOk o (Some (with_infos (map (fun e => (e.1, afterReport r now e.2)) (tranInfoList c)) c)).
Proof.
  unfold receiversOk. destruct o as [r0|].
  - intros [[lo H1] H2 H3 H4 H5]. cbn [fst snd] in *. split; cbn [fst snd with_infos tranInfoList]; auto.
    + exists lo. now apply afterReport_ordered.
    + intros k x Hk Hx. rewrite afterReport_find in Hk. destruct (findInfo k (tranInfoList c)) as [y|] eqn:E; [|discriminate]. injection Hk as <-.
      apply (H2 k y E). now rewrite <- (proj1 (afterReport_same y)).
    + intros Hs. destruct (H3 Hs) as (y & Hk & Hy). exists (afterReport r now y). rewrite afterReport_find, Hk. split; [reflexivity|]. now rewrite (proj1 (afterReport_same y)).
  - intros H r0. destruct (H r0) as [[lo H1] H2]. cbn [fst] in *. split; cbn [fst with_infos tranInfoList]; [exists lo; now apply afterReport_ordered|].
    intros k x Hk. rewrite afterReport_find in Hk.
    destruct (findInfo k (tranInfoList c)) as [y|] eqn:E; [|discriminate]. injection Hk as <-. rewrite (proj1 (afterReport_same y)). exact (H2 k y E).
Qed.

End Reports.

(** * What a session does *)

Section Session.
Context (rawRecv : RtpReceiver.RtpReceiver) (rawTran : RtpTransmitter.RtpTransmitter) (rawPacket : bytes) (rawInfo : SDESdata) (pid hn : bytes).
Hypothesis rawInfo_ok : sdesOk rawInfo.

(** What a report is made of is there. *)
Lemma reportedSources_there s t : Wired s -> RtpSession.rtcpTran s = Some t ->
  exists infos, RtpSession.reportedSources s t = Ret infos /\
    (if hasReceiver t then exists c, RtpSession.rtcpRecv s = Some c /\ infos = tranInfoList c else infos = []) /\
    exists r, RtpSession.reportedReceiver rawRecv s infos = Ret r.
Proof.
  intros [H1 H2] Et. rewrite Et in H2. destruct H2 as (_ & Hr & _). unfold RtpSession.reportedSources, RtpSession.reportedReceiver.
  destruct (hasReceiver t).
  - destruct (RtpSession.rtcpRecv s) as [c|]; [|discriminate Hr]. exists (tranInfoList c). split; [reflexivity|]. split; [now exists c|].
    destruct (RtpSession.recv s) as [r|]; [now exists r|]. destruct (H1 rawRecv) as [[lo Ho] Hu]. cbn [fst] in *.
    rewrite existsb_false; [now exists rawRecv|]. exact (ordered_entries (fun x => recv x = false) _ _ Ho Hu).
  - exists []. split; [reflexivity|]. split; [reflexivity|]. destruct (RtpSession.recv s) as [r|]; [now exists r | now exists rawRecv].
Qed.

Lemma Wired_store r now s t : Wired s -> RtpSession.rtcpTran s = Some t ->
  forall infos, (if hasReceiver t then exists c, RtpSession.rtcpRecv s = Some c /\ infos = tranInfoList c else infos = []) ->
  Wired (RtpSession.storeSources t (if hasReceiver t then map (fun e => (e.1, afterReport r now e.2)) infos else infos) s).
Proof.
  intros [H1 H2] Et infos Hi. unfold RtpSession.storeSources. destruct (hasReceiver t); [|split; assumption]. destruct Hi as (c & Ec & ->). rewrite Ec in *.
  split; cbn [RtpSession.with_rtcpRecv RtpSession.recv RtpSession.rtcpRecv RtpSession.rtcpTran RtpSession.tran]; [now apply receiversOk_report | exact H2].
Qed.

Lemma Wired_transmitRTCP now s : Wired s -> wp True (fun e => Wired e.2) (RtpSession.transmitRTCP rawRecv now s).
Proof.
  intros H. unfold RtpSession.transmitRTCP. destruct (negb _); [exact H|]. destruct (RtpSession.rtcpTran s) as [t|] eqn:Et; [|exact I].
  destruct (reportedSources_there s t H Et) as (infos & E1 & Hi & r & E2). rewrite E1. step. rewrite E2. step.
  apply (wp_seq _ _ _ _ _ (transmitRTCP_infos r now (RtpSession.current s t) infos)). intros [d infos'] E. cbn [snd] in E. subst infos'. exact (Wired_store r now s t H Et infos Hi).
Qed.

Lemma Wired_transmitRTCPBYE now s : Wired s -> wp True (fun e => Wired e.2) (RtpSession.transmitRTCPBYE rawRecv now s).
Proof.
  intros H. unfold RtpSession.transmitRTCPBYE. destruct (RtpSession.rtcpTran s) as [t|] eqn:Et; [|exact I].
  destruct (reportedSources_there s t H Et) as (infos & E1 & Hi & r & E2). rewrite E1. step. rewrite E2. step.
  apply (wp_seq _ _ _ _ _ (transmitRTCPBYE_infos r now (RtpSession.current s t) infos)). intros [d infos'] E. cbn [snd] in E. subst infos'. exact (Wired_store r now s t H Et infos Hi).
Qed.

Lemma Wired_checkInterval now offset s : Wired s -> wp True (fun e => Wired e.2) (RtpSession.checkIntervalRTCP now offset s).
Proof.
  intros [H1 H2]. unfold RtpSession.checkIntervalRTCP, checkInterval. destruct (RtpSession.rtcpTran s) as [t|] eqn:Et; [|exact I].
  destruct (ntp_gt now (nextInterval t)); (split; [exact H1 | exact H2]).
Qed.

Lemma Wired_reportInTime now offset s : Wired s -> wp True (fun e => Wired e.2) (RtpSession.reportInTime rawRecv now offset s).
Proof.
  intros H. unfold RtpSession.reportInTime. destruct (RtpSession.rtcpTran s); [|exact H].
  apply (wp_seq _ _ _ _ _ (Wired_checkInterval now offset s H)). intros [b s'] H'. destruct b; [now apply Wired_transmitRTCP | exact H'].
Qed.

Lemma Wired_receiveRTCP now n s : arrives n -> Wired s -> wp True (fun e => Wired e.2) (RtpSession.receiveRTCP rawRecv rawInfo now n s).
Proof.
  intros Hn [H1 H2]. unfold RtpSession.receiveRTCP. destruct (RtpSession.rtcpRecv s) as [c|] eqn:Ec; [|exact I]. destruct (negb _).
  - apply wp_any. intros [len p] _. cbn [wp mret outcome_ret snd]. destruct (0 <? len); (split; [now rewrite <- Ec in H1 | now rewrite <- Ec in H2]).
  - unfold RtpSession.reportedReceiver. destruct (RtpSession.recv s) as [r|] eqn:Er.
    + step. apply (wp_seq _ _ _ _ _ (Linked_receiveRTCP rawInfo rawInfo_ok now true n (c, r) Hn H1)). intros [rv [c' r']] H'. split; [exact H' | exact H2].
    + destruct (existsb _ _); [exact I|]. step. destruct (receiveRTCP rawInfo now true n (c, rawRecv)) as [[rv [c' r']]|] eqn:E; [|exact I].
      split; [|exact H2]. cbn [RtpSession.with_recv RtpSession.with_rtcpRecv RtpSession.recv RtpSession.rtcpRecv receiversOk]. intros r0.
      pose proof (Unheard_receiveRTCP rawInfo rawInfo_ok now true n (c, rawRecv) Hn (H1 rawRecv)) as H'. rewrite E in H'. exact H'.
Qed.

Lemma Wired_readMedia n dtmf now clk s : Wired s -> wp True Wired (RtpSession.readMedia rawInfo n dtmf now clk s).
Proof.
  intros [H1 H2]. unfold RtpSession.readMedia. destruct (RtpSession.recv s) as [r|] eqn:Er; [|exact I]. destruct (RtpSession.rtcpRecv s) as [c|] eqn:Ec.
  - pose proof (Linked_receiveRTP rawInfo rawInfo_ok now n dtmf clk c r H1) as H. destruct (RtpReceiver.readNetwork n dtmf clk r) as [[rv r1]|f]; [|now rewrite H].
    destruct H as ([c' r'] & -> & H). step. split; [exact H | exact H2].
  - pose proof (readNetwork_source n dtmf clk r) as Hs. destruct (RtpReceiver.readNetwork n dtmf clk r) as [[rv r1]|f]; [|exact I]. cbn [wp snd] in Hs. step.
    destruct H1 as [Ha Hq]. destruct Hs as [E1 E2 E3 E4|E1 E3 E4].
    + rewrite E4, Hq. unfold Wired. cbn [wp mret outcome_ret RtpSession.with_recv RtpSession.recv RtpSession.rtcpRecv RtpSession.rtcpTran RtpSession.tran]. rewrite Ec.
      split; [split; congruence | exact H2].
    + rewrite E4, Ha, Hq. unfold Wired. cbn [app wp mret outcome_ret RtpSession.with_recv RtpSession.recv RtpSession.rtcpRecv RtpSession.rtcpTran RtpSession.tran]. rewrite Ec.
      split; [split; [congruence | now rewrite E4, Ha, Hq] | exact H2].
Qed.

(** ** Media *)

Lemma Wired_error e s : Wired s -> Wired (RtpSession.with_error e s).
Proof. intros H. exact H. Qed.

Lemma Wired_tran x e s : Wired s -> present (RtpSession.tran s) = true -> Wired (RtpSession.with_tran (Some x) (RtpSession.with_error e s)).
Proof. intros H Hx. apply (Wired_alike s); [exact H|]. repeat split. now rewrite Hx. Qed.

Lemma Wired_transmit pkt now s : Wired s -> wp True (fun e => Wired e.2) (RtpSession.transmit pkt now s).
Proof.
  intros H. unfold RtpSession.transmit. destruct (negb _); [exact H|]. destruct (RtpSession.tran s) as [x|] eqn:E; [|exact I].
  apply wp_any. intros [[[rv d] p] x'] _. apply Wired_tran; [exact H | now rewrite E].
Qed.

Lemma Wired_inTime k now offset s : Wired s ->
  wp True (fun e => Wired e.2) (if Z.land k 7 =? 0 then RtpSession.reportInTime rawRecv now offset s else mret ([], s)).
Proof. intros H. destruct (_ =? 0); [now apply Wired_reportInTime | exact H]. Qed.

Lemma Wired_transmitRaw k data now offset s : Wired s -> wp True (fun e => Wired e.2) (RtpSession.transmitRaw rawRecv k data now offset s).
Proof.
  intros H. unfold RtpSession.transmitRaw. destruct (negb _); [exact H|]. apply (wp_seq _ _ _ _ _ (Wired_inTime k now offset s H)). intros [out s1] H1. cbn [snd] in H1.
  destruct (RtpSession.tran s1) as [x|] eqn:E; [|exact I]. apply wp_any. intros [[rv d] x'] _. apply Wired_tran; [exact H1 | now rewrite E].
Qed.

Lemma Wired_notifyVADSuppression k now offset s : Wired s -> wp True (fun e => Wired e.2) (RtpSession.notifyVADSuppression rawRecv k now offset s).
Proof.
  intros H. unfold RtpSession.notifyVADSuppression. destruct (negb _); [exact H|]. apply (wp_seq _ _ _ _ _ (Wired_inTime k now offset s H)). intros [out s1] H1. cbn [snd] in H1.
  destruct (RtpSession.tran s1) as [x|] eqn:E; [exact H1 | exact I].
Qed.

Lemma Wired_transmitEvent raw event now s : Wired s -> wp True (fun e => Wired e.2) (RtpSession.transmitEvent raw event now s).
Proof.
  intros H. unfold RtpSession.transmitEvent. destruct (negb _); [exact H|]. destruct (RtpSession.tran s) as [x|] eqn:E; [|exact I].
  apply wp_any. intros [l x'] _. apply Wired_tran; [exact H | now rewrite E].
Qed.

Lemma Wired_readNetwork fds n dtmf clk nRtcp now s : arrives nRtcp -> Wired s ->
  wp True (fun e => Wired e.2) (RtpSession.readNetwork rawRecv rawInfo fds n dtmf clk nRtcp now s).
Proof.
  intros Hn H. unfold RtpSession.readNetwork. destruct (negb _).
  - apply (wp_seq _ Wired); [|intros s' H'; exact H']. destruct (RtpSession.recv s); [|exact H].
    apply (wp_seq _ Wired); [|intros s' H'; exact H']. destruct (match fds with Some (ready, _) => ready | None => false end); [now apply Wired_readMedia | exact H].
  - apply (wp_seq _ Wired).
    + destruct (_ && _); [|exact H]. apply (wp_seq _ _ _ _ _ (Wired_receiveRTCP now nRtcp s Hn H)). intros [rv s'] H'. exact H'.
    + intros s1 H1. apply (wp_seq _ Wired); [|intros s' H'; exact H']. destruct fds as [[ready readyRtcp]|]; [|exact H1].
      destruct (RtpSession.recv (RtpSession.with_error _ s1)); [|exact I]. destruct ready; [apply Wired_readMedia; exact H1 | exact H1].
Qed.

Lemma Wired_processRTCP now offset n s : arrives n -> Wired s -> wp True (fun e => Wired e.2) (RtpSession.processRTCP rawRecv rawInfo now offset n s).
Proof.
  intros Hn H. unfold RtpSession.processRTCP. apply (wp_seq _ _ _ _ _ (Wired_reportInTime now offset s H)). intros [out s1] H1. cbn [snd] in H1.
  destruct (RtpSession.rtcpRecv s1); [|exact H1]. apply (wp_seq _ _ _ _ _ (Wired_receiveRTCP now n s1 Hn H1)). intros [rv s2] H2. exact H2.
Qed.

(** ** Links *)

(** A receiver that was just built. *)
Definition freshRecv (r : option RtpReceiver.RtpReceiver) : Prop :=
  match r with
  | Some r => RtpReceiver.sourceSet (RtpReceiver.source r) = false /\ RtpReceiver.rtcpRecv (RtpReceiver.source r) = false /\
      RtpReceiver.rtcpCalls (RtpReceiver.source r) = []
  | None => True
  end.

Lemma constructRtpReceiver_fresh fmt clockrate per_sample_size samplesize jb_sz (port : Z) :
  wp True freshRecv (if port =? 0 then mret None else r ← RtpReceiver.constructRtpReceiver rawRecv fmt clockrate per_sample_size samplesize jb_sz; mret (Some r)).
Proof. destruct (port =? 0); [exact I|]. unfold RtpReceiver.constructRtpReceiver. destruct (cassert _); [|exact I]. step. cbn. now repeat split. Qed.

Definition freshRtcp (c : option RtcpReceiver) : Prop := c = None \/ c = Some constructRtcpReceiver.

Lemma receiversOk_fresh s : freshRecv (RtpSession.recv s) -> freshRtcp (RtpSession.rtcpRecv s) ->
  receiversOk (RtpSession.recv (RtpSession.linkReceiver s)) (RtpSession.rtcpRecv (RtpSession.linkReceiver s)) /\
  RtpSession.rtcpTran (RtpSession.linkReceiver s) = RtpSession.rtcpTran s /\ RtpSession.tran (RtpSession.linkReceiver s) = RtpSession.tran s /\
  RtpSession.rtcpRecv (RtpSession.linkReceiver s) = RtpSession.rtcpRecv s.
Proof.
  intros Hr Hc. unfold RtpSession.linkReceiver. assert (tableOk constructRtcpReceiver) as H0 by (exists 0; constructor).
  destruct (RtpSession.rtcpRecv s) as [c|] eqn:Ec, (RtpSession.recv s) as [r|] eqn:Er; cbn [RtpSession.with_recv RtpSession.recv RtpSession.rtcpRecv RtpSession.rtcpTran RtpSession.tran]; rewrite ?Ec, ?Er.
  - destruct Hc as [Hc|Hc]; [discriminate|]. injection Hc as ->. destruct Hr as (H1 & H2 & H3). split; [|now repeat split]. split; cbn [fst snd]; auto; [discriminate|].
    cbn. congruence.
  - destruct Hc as [Hc|Hc]; [discriminate|]. injection Hc as ->. split; [|now repeat split]. intros r0. split; [exact H0 | discriminate].
  - destruct Hr as (H1 & H2 & H3). now repeat split.
  - now repeat split.
Qed.

Lemma setReceiver_Wired localPort rtcpLocalPort fmt clockrate per_sample_size samplesize jb_sz s :
  rtcpLocalPort <> 0 \/ match RtpSession.rtcpTran s with Some t => hasReceiver t = false | None => True end -> Wired s ->
  wp True (fun e => Wired e.2) (RtpSession.setReceiver rawRecv localPort rtcpLocalPort fmt clockrate per_sample_size samplesize jb_sz s).
Proof.
  intros Hp [H1 H2]. unfold RtpSession.setReceiver. destruct (negb _); [split; assumption|].
  apply (wp_seq _ _ _ _ _ (constructRtpReceiver_fresh fmt clockrate per_sample_size samplesize jb_sz localPort)). intros r Hr.
  set (c := if rtcpLocalPort =? 0 then None else Some constructRtcpReceiver). set (s1 := RtpSession.with_rtcpRecv c (RtpSession.with_recv r s)).
  assert (freshRtcp c) as Hc by (unfold c, freshRtcp; destruct (rtcpLocalPort =? 0); auto). set (s2 := match RtpSession.rtcpTran s1, RtpSession.rtcpRecv s1 with Some t, Some _ => _ | _, _ => _ end).
  assert (RtpSession.recv s2 = r /\ RtpSession.rtcpRecv s2 = c) as [E1 E2] by (unfold s2; change (RtpSession.rtcpRecv s1) with c; destruct (RtpSession.rtcpTran s1), c; split; reflexivity).
  destruct (receiversOk_fresh s2) as (H3 & E3 & E4 & E5); [now rewrite E1 | now rewrite E2 |]. cbn [wp mret outcome_ret snd]. split; [exact H3|].
  rewrite E3, E4, E5, E2. unfold transmitterOk in *. unfold s2, s1. cbn [RtpSession.with_recv RtpSession.with_rtcpRecv RtpSession.rtcpTran RtpSession.rtcpRecv RtpSession.tran].
  destruct (RtpSession.rtcpTran s) as [t|] eqn:Et.
  - destruct H2 as (A1 & A2 & A3). unfold c. destruct (Z.eqb_spec rtcpLocalPort 0) as [->|Hn].
    + destruct Hp as [Hp|Hp]; [contradiction|]. cbn [RtpSession.with_recv RtpSession.with_rtcpRecv RtpSession.rtcpTran RtpSession.rtcpRecv RtpSession.tran]. rewrite Et. now repeat split.
    + cbn [RtpSession.with_recv RtpSession.with_rtcpRecv RtpSession.with_rtcpTran RtpSession.rtcpTran RtpSession.rtcpRecv RtpSession.tran RtpSession.setReceiverLink Rtcp.tran hasReceiver ownInfo].
      now repeat split.
  - destruct c; cbn [RtpSession.with_recv RtpSession.with_rtcpRecv RtpSession.rtcpTran]; now rewrite Et.
Qed.

(** What the links make of a transmitter that points to nothing that is not there. *)
Lemma linkTransmitter_ok s :
  match RtpSession.rtcpTran s with
  | Some t => (RtpSession.tran s = None -> Rtcp.tran t = None) /\ (RtpSession.rtcpRecv s = None -> hasReceiver t = false)
  | None => True
  end ->
  let s' := RtpSession.linkTransmitter s in
  transmitterOk (RtpSession.rtcpTran s') (RtpSession.tran s') (RtpSession.rtcpRecv s') /\
  RtpSession.recv s' = RtpSession.recv s /\ RtpSession.rtcpRecv s' = RtpSession.rtcpRecv s /\ RtpSession.tran s' = RtpSession.tran s.
Proof.
  intros H. cbn zeta. split; [|now repeat split]. unfold RtpSession.linkTransmitter. cbn [RtpSession.with_rtcpTran RtpSession.rtcpTran RtpSession.tran RtpSession.rtcpRecv].
  destruct (RtpSession.rtcpTran s) as [t|]; [|exact I]. destruct H as [H1 H2].
  destruct (RtpSession.tran s) as [x|], (RtpSession.rtcpRecv s) as [c|];
    cbn [transmitterOk setRTPtran RtpSession.setReceiverLink Rtcp.tran hasReceiver ownInfo present]; rewrite ?(H1 eq_refl), ?(H2 eq_refl); repeat split; try discriminate;
    now destruct (ownInfo t).
Qed.

Lemma setTexts_keeps l : forall t, wp True (fun t' => Rtcp.tran t' = Rtcp.tran t /\ hasReceiver t' = hasReceiver t /\ present (ownInfo t') = present (ownInfo t))
  (RtpSession.setTexts l t).
Proof.
  induction l as [|i l IH]; intros t; [now repeat split|]. cbn [RtpSession.setTexts]. unfold setSdesText. destruct (cassert _); [|exact I]. step.
  destruct (ownInfo t) as [o|] eqn:Eo; [|exact I]. step. apply (wp_mono _ _ _ _ (IH _)). intros t'. cbn [Rtcp.tran hasReceiver ownInfo present]. now intros (-> & -> & ->).
Qed.

Lemma describeTransmitter_Wired l s : Wired s -> wp True Wired (RtpSession.describeTransmitter pid hn l s).
Proof.
  intros [H1 H2]. unfold RtpSession.describeTransmitter. destruct (RtpSession.rtcpTran s) as [t|] eqn:Et; [|split; [exact H1 | now rewrite Et]].
  destruct (RtpSession.tran s) as [x|] eqn:Ex; [|split; [exact H1 | now rewrite Et, Ex]].
  unfold setSdesCname. destruct (ownInfo t) as [o|] eqn:Eo; [|exact I]. step.
  apply (wp_seq _ _ _ _ _ (setTexts_keeps l _)). intros t' (E1 & E2 & E3). cbn [Rtcp.tran hasReceiver ownInfo present] in *.
  split; [exact H1|]. cbn [RtpSession.with_rtcpTran RtpSession.rtcpTran RtpSession.tran RtpSession.rtcpRecv]. rewrite Ex. destruct H2 as (A1 & A2 & _).
  split; [now rewrite E1|]. split; [now rewrite E2 | now rewrite E3].
Qed.

Lemma setTransmiter_Wired remotePort rtcpRemotePort fmt clockrate per_sample_size samplesize now offset random s : Wired s ->
  wp True (fun e => Wired e.1.2) (RtpSession.setTransmiter rawTran rawPacket pid hn remotePort rtcpRemotePort fmt clockrate per_sample_size samplesize now offset random s).
Proof.
  intros [H1 H2]. unfold RtpSession.setTransmiter. destruct (negb _); [split; assumption|].
  apply (wp_seq _ (fun e => present (RtpSession.tran s) = true -> present e.1 = true)).
  - destruct (remotePort =? 0); [cbn; auto|]. apply wp_any. intros [x random'] _. cbn. auto.
  - intros [tran random'] Hx. cbn [fst] in Hx. set (s1 := RtpSession.with_tran tran s).
    set (s2 := if rtcpRemotePort =? 0 then s1 else _).
    destruct (linkTransmitter_ok s2) as (A1 & A2 & A3 & A4).
    { unfold s2, s1. cbn [RtpSession.with_tran RtpSession.rtcpTran]. unfold transmitterOk in H2.
      destruct (rtcpRemotePort =? 0), (RtpSession.rtcpTran s) as [t|] eqn:Et;
        cbn [RtpSession.with_tran RtpSession.with_rtcpTran RtpSession.rtcpTran RtpSession.tran RtpSession.rtcpRecv]; rewrite ?Et; try exact I; try (split; [reflexivity | reflexivity]).
      all: destruct H2 as (B1 & B2 & _); split;
        [intros ->; cbn in Hx; destruct (RtpSession.tran s); [discriminate (Hx eq_refl)|]; now destruct (Rtcp.tran t)
        | intros Ec; rewrite Ec in B2; exact B2]. }
    apply (wp_seq _ Wired).
    + apply describeTransmitter_Wired. split; [|exact A1]. rewrite A2, A3. unfold s2, s1. destruct (rtcpRemotePort =? 0); [exact H1|]. cbn [RtpSession.with_tran RtpSession.rtcpTran].
      destruct (RtpSession.rtcpTran s); exact H1.
    + intros s3 H3. exact H3.
Qed.

Lemma constructRtpSession_Wired remotePort localPort rtcpRemotePort rtcpLocalPort fmt clockrate per_sample_size samplesize jb_sz now offset random :
  wp True (fun e => Wired e.1) (RtpSession.constructRtpSession rawRecv rawTran rawPacket pid hn remotePort localPort rtcpRemotePort rtcpLocalPort
    fmt clockrate per_sample_size samplesize jb_sz now offset random).
Proof.
  unfold RtpSession.constructRtpSession. apply (wp_seq _ _ _ _ _ (constructRtpReceiver_fresh fmt clockrate per_sample_size samplesize jb_sz localPort)). intros r Hr.
  apply wp_any. intros [x random'] _. cbn zeta. set (s0 := mkSession _ _ _ _ _ _).
  destruct (linkTransmitter_ok s0) as (A1 & A2 & A3 & A4).
  { unfold s0. cbn [RtpSession.rtcpTran]. destruct (rtcpRemotePort =? 0); [exact I|]. now split. }
  destruct (receiversOk_fresh (RtpSession.linkTransmitter s0)) as (B1 & B2 & B3 & B4).
  { now rewrite A2. } { rewrite A3. unfold s0, freshRtcp. cbn [RtpSession.rtcpRecv]. destruct (rtcpLocalPort =? 0); auto. }
  apply (wp_seq _ Wired).
  - apply describeTransmitter_Wired. split; [exact B1|]. now rewrite B2, B3, B4.
  - intros s3 H3. exact H3.
Qed.

(** * The life of a session *)

Inductive lives : RtpSession -> Prop :=
| lives_start remotePort localPort rtcpRemotePort rtcpLocalPort fmt clockrate per_sample_size samplesize jb_sz now offset random s random' :
    RtpSession.constructRtpSession rawRecv rawTran rawPacket pid hn remotePort localPort rtcpRemotePort rtcpLocalPort
      fmt clockrate per_sample_size samplesize jb_sz now offset random = Ret (s, random') -> lives s
| lives_state x s : lives s -> lives (RtpSession.setSessionState x s)
| lives_format type clockrate per_sample_size samplesize s : lives s -> lives (RtpSession.setFormat type clockrate per_sample_size samplesize s)
| lives_setReceiver localPort rtcpLocalPort fmt clockrate per_sample_size samplesize jb_sz s rv s' : lives s ->
    rtcpLocalPort <> 0 \/ match RtpSession.rtcpTran s with Some t => hasReceiver t = false | None => True end ->
    RtpSession.setReceiver rawRecv localPort rtcpLocalPort fmt clockrate per_sample_size samplesize jb_sz s = Ret (rv, s') -> lives s'
| lives_setTransmiter remotePort rtcpRemotePort fmt clockrate per_sample_size samplesize now offset random s rv s' random' : lives s ->
    RtpSession.setTransmiter rawTran rawPacket pid hn remotePort rtcpRemotePort fmt clockrate per_sample_size samplesize now offset random s = Ret (rv, s', random') -> lives s'
| lives_transmit pkt now s rv out pkt' s' : lives s -> RtpSession.transmit pkt now s = Ret (rv, out, pkt', s') -> lives s'
| lives_transmitRaw k data now offset s rv out k' s' : lives s -> RtpSession.transmitRaw rawRecv k data now offset s = Ret (rv, out, k', s') -> lives s'
| lives_suppressed k now offset s rv out k' s' : lives s -> RtpSession.notifyVADSuppression rawRecv k now offset s = Ret (rv, out, k', s') -> lives s'
| lives_event raw event now s rv out s' : lives s -> RtpSession.transmitEvent raw event now s = Ret (rv, out, s') -> lives s'
| lives_report now s out s' : lives s -> RtpSession.transmitRTCP rawRecv now s = Ret (out, s') -> lives s'
| lives_bye now s out s' : lives s -> RtpSession.transmitRTCPBYE rawRecv now s = Ret (out, s') -> lives s'
| lives_control now n s rv s' : lives s -> arrives n -> RtpSession.receiveRTCP rawRecv rawInfo now n s = Ret (rv, s') -> lives s'
| lives_process now offset n s out s' : lives s -> arrives n -> RtpSession.processRTCP rawRecv rawInfo now offset n s = Ret (out, s') -> lives s'
| lives_network fds n dtmf clk nRtcp now s rv s' : lives s -> arrives nRtcp ->
    RtpSession.readNetwork rawRecv rawInfo fds n dtmf clk nRtcp now s = Ret (rv, s') -> lives s'
| lives_sampleSize k s : lives s -> lives (RtpSession.setSampleSize k s)
| lives_marker s : lives s -> lives (RtpSession.setMarkerOnce s)
| lives_retrieve pkt s rv pkt' s' : lives s -> RtpSession.retrieve pkt s = Ret (rv, pkt', s') -> lives s'.

(** A step that returns keeps what its rule promises. *)
Lemma wp_step {A} (Q : A -> Prop) m x : wp True Q m -> m = Ret x -> Q x.
Proof. intros H ->. exact H. Qed.

Lemma setFormat_Wired type clockrate per_sample_size samplesize s : Wired s -> Wired (RtpSession.setFormat type clockrate per_sample_size samplesize s).
Proof.
  intros [H1 H2]. unfold RtpSession.setFormat. split; cbn [RtpSession.with_recv RtpSession.with_tran RtpSession.recv RtpSession.rtcpRecv RtpSession.rtcpTran RtpSession.tran].
  - destruct (RtpSession.recv s) as [r|]; [|exact H1]. destruct (RtpSession.rtcpRecv s) as [c|]; [|exact H1]. destruct H1 as [A1 A2 A3 A4 A5]. now split.
  - unfold transmitterOk in *. destruct (RtpSession.rtcpTran s) as [t|]; [|exact I]. now destruct (RtpSession.tran s).
Qed.

Lemma Wired_sampleSize k s : Wired s -> Wired (RtpSession.setSampleSize k s).
Proof.
  intros [H1 H2]. unfold RtpSession.setSampleSize. split; cbn [RtpSession.with_recv RtpSession.with_tran RtpSession.recv RtpSession.rtcpRecv RtpSession.rtcpTran RtpSession.tran].
  - destruct (RtpSession.recv s) as [r|]; [|exact H1]. destruct (RtpSession.rtcpRecv s) as [c|]; [|exact H1]. destruct H1 as [A1 A2 A3 A4 A5]. now split.
  - unfold transmitterOk in *. destruct (RtpSession.rtcpTran s) as [t|]; [|exact I]. now destruct (RtpSession.tran s).
Qed.

Lemma Wired_marker s : Wired s -> Wired (RtpSession.setMarkerOnce s).
Proof. intros H. apply (Wired_alike s _ H). unfold alike, RtpSession.setMarkerOnce. cbn. now destruct (RtpSession.tran s). Qed.

(** Playing uses up the probation of the source and nothing else of it. *)
Lemma retrieve_source pkt r : wp True (fun e => exists k, RtpReceiver.source e.2 = RtpReceiver.with_probation k (RtpReceiver.source r)) (RtpReceiver.retrieve pkt r).
Proof.
  unfold RtpReceiver.retrieve. apply wp_any. intros n _.
  destruct (n =? 0); [exists (RtpReceiver.probation (RtpReceiver.source r)); cbn; now destruct (RtpReceiver.source r)|].
  apply wp_any. intros p1 _. apply wp_any. intros [d b] _. apply wp_any. intros p2 _. apply wp_any. intros p3 _. apply wp_any. intros p4 _. apply wp_any. intros [] _. cbn [wp mret outcome_ret snd].
  destruct (0 <? RtpReceiver.probation (RtpReceiver.source _)); [now eexists|]. exists (RtpReceiver.probation (RtpReceiver.source r)). cbn. now destruct (RtpReceiver.source r).
Qed.

Lemma Wired_retrieve pkt s : Wired s -> wp True (fun e => Wired e.2) (RtpSession.retrieve pkt s).
Proof.
  intros [H1 H2]. unfold RtpSession.retrieve. destruct (RtpSession.recv s) as [r|] eqn:Er; [|exact I].
  apply (wp_seq _ _ _ _ _ (retrieve_source pkt r)). intros [[rv pkt'] r'] [k E]. cbn [snd] in E. split; [|exact H2].
  cbn [snd RtpSession.with_recv RtpSession.recv RtpSession.rtcpRecv mret outcome_ret]. unfold receiversOk in *. destruct (RtpSession.rtcpRecv s) as [c|].
  - destruct H1 as [A1 A2 A3 A4 A5]. cbn [fst snd] in *. split; cbn [fst snd]; now rewrite ?E.
  - now rewrite E.
Qed.

Lemma lives_Wired s : lives s -> Wired s.
Proof.
  intros H. induction H.
  - exact (wp_step _ _ _ (constructRtpSession_Wired _ _ _ _ _ _ _ _ _ _ _ _) H).
  - exact IHlives.
  - now apply setFormat_Wired.
  - exact (wp_step _ _ _ (setReceiver_Wired _ _ _ _ _ _ _ _ H0 IHlives) H1).
  - exact (wp_step _ _ _ (setTransmiter_Wired _ _ _ _ _ _ _ _ _ _ IHlives) H0).
  - exact (wp_step _ _ _ (Wired_transmit _ _ _ IHlives) H0).
  - exact (wp_step _ _ _ (Wired_transmitRaw _ _ _ _ _ IHlives) H0).
  - exact (wp_step _ _ _ (Wired_notifyVADSuppression _ _ _ _ IHlives) H0).
  - exact (wp_step _ _ _ (Wired_transmitEvent _ _ _ _ IHlives) H0).
  - exact (wp_step _ _ _ (Wired_transmitRTCP _ _ IHlives) H0).
  - exact (wp_step _ _ _ (Wired_transmitRTCPBYE _ _ IHlives) H0).
  - exact (wp_step _ _ _ (Wired_receiveRTCP _ _ _ H0 IHlives) H1).
  - exact (wp_step _ _ _ (Wired_processRTCP _ _ _ _ H0 IHlives) H1).
  - exact (wp_step _ _ _ (Wired_readNetwork _ _ _ _ _ _ _ H0 IHlives) H1).
  - now apply Wired_sampleSize.
  - now apply Wired_marker.
  - exact (wp_step _ _ _ (Wired_retrieve _ _ IHlives) H0).
Qed.

End Session.

End RtpSessionFacts.
