(* ===== verification/RtpSessionProps.v ===== *)
(** The properties of RTP sessions: what a report is made of is there, reports go
    from one session to the other, and what a changed session cannot do. *)
From S2P Require Import Prelude RtpTime RtpPacket RtpReceiver RtpTransmitter Rtcp RtcpReceiver RtcpFacts RtcpReadFacts RtcpProps RtcpSafe RtcpLinked RtpSession RtpSessionFacts.
Import RtpTime Rtcp RtcpReceiver RtcpFacts RtcpReadFacts RtcpProps RtcpSafe RtcpLinked RtpSessionFacts.
Import RtpSession(RtpSession, mkSession, present, sent, Media, Control, sends, receives).

Module RtpSessionProps.

Section Session.
Context (rawRecv : RtpReceiver.RtpReceiver) (rawTran : RtpTransmitter.RtpTransmitter) (rawPacket : bytes) (rawInfo : SDESdata) (pid hn : bytes).
Hypothesis rawInfo_ok : sdesOk rawInfo.

Abbreviation lives := (lives rawRecv rawTran rawPacket rawInfo pid hn).

(** ** What is reported *)

Lemma unreported r (l : tranInfos) : Forall (fun e => recv e.2 = false) l -> List.filter (fun e => reported r e.2) l = [].
Proof. induction 1 as [|[k x] l H _ IH]; [reflexivity|]. cbn [List.filter snd] in *. unfold reported at 1. now rewrite H. Qed.

Lemma ordered_above l : forall lo, ordered lo l -> Forall (fun e => lo < e.1) l.
Proof.
  induction l as [|[k x] l IH]; intros lo H; [constructor|]. apply ordered_inv in H as (Hk & _ & H). constructor; [exact Hk|].
  eapply List.Forall_impl; [|exact (IH k H)]. cbn. intros e He. lia.
Qed.

(** One source at most has a receiver. *)
Lemma reportCount_single r c : Linked (c, r) -> reportCount r (tranInfoList c) <= 1.
Proof.
  intros [[lo Ho] Hu _ _ _]. cbn [fst snd] in *. unfold reportCount.
  assert (Forall (fun e => recv e.2 = true -> e.1 = RtpReceiver.ssrc (RtpReceiver.source r)) (tranInfoList c)) as Hf.
  { apply List.Forall_forall. intros [k x] Hin Hx. exact (proj2 (Hu k x (ordered_lookup _ _ _ _ Ho Hin) Hx)). }
  clear Hu. revert lo Ho Hf. generalize (RtpReceiver.ssrc (RtpReceiver.source r)) (tranInfoList c). intros src l. induction l as [|[k x] l IH]; intros lo Ho Hf; [unfold zlen; cbn; lia|].
  apply ordered_inv in Ho as (_ & _ & Ho). apply Forall_cons_1 in Hf as [Hx Hf]. cbn [List.filter snd fst] in *. destruct (reported r x) eqn:Er; [|exact (IH k Ho Hf)].
  unfold reported in Er. apply andb_true_iff in Er as [Er _]. specialize (Hx Er). subst k. rewrite unreported; [unfold zlen; cbn; lia|].
  apply ordered_above in Ho. rewrite List.Forall_forall in *. intros e Hin. destruct (recv e.2) eqn:E; [|reflexivity]. specialize (Hf e Hin E). specialize (Ho e Hin). cbn in *. lia.
Qed.

Lemma reportCount_none r (l : tranInfos) : existsb (fun e => recv e.2) l = false -> reportCount r l = 0.
Proof.
  intros H. unfold reportCount. rewrite unreported; [reflexivity|]. apply List.Forall_forall. intros e Hin. destruct (recv e.2) eqn:E; [|reflexivity].
  assert (existsb (fun e => recv e.2) l = true) by (apply existsb_exists; now exists e). congruence.
Qed.

(** A session that has its description sends its report. *)
Lemma report_sent now s t c x texts : Wired s -> sends (RtpSession.sessionState s) = true -> RtpSession.rtcpTran s = Some t ->
  RtpSession.rtcpRecv s = Some c -> Speaks (RtpSession.current s t) x texts ->
  exists r s', reportCount r (tranInfoList c) < 32 /\ (exists lo, ordered lo (tranInfoList c)) /\
    RtcpReceiver.transmitRTCP r now (RtpSession.current s t) (tranInfoList c) =
      Ret (datagram r now x texts (tranInfoList c), map (fun e => (e.1, afterReport r now e.2)) (tranInfoList c)) /\
    RtpSession.transmitRTCP rawRecv now s = Ret ([Control (datagram r now x texts (tranInfoList c))], s').
Proof.
  intros HW Hs Et Ec Hsp. unfold RtpSession.transmitRTCP. rewrite Hs, Et. cbn [negb].
  destruct (reportedSources_there rawRecv s t HW Et) as (infos & E1 & Hi & r & E2). pose proof (speaks_receiver _ _ _ Hsp) as Hr. cbn [RtpSession.current hasReceiver] in Hr.
  rewrite Hr, Ec in Hi. destruct Hi as (c0 & E & ->). injection E as <-. exists r.
  assert (reportCount r (tranInfoList c) < 32 /\ exists lo, ordered lo (tranInfoList c)) as [Hn Ho].
  { destruct HW as [HW _]. rewrite Ec in HW. unfold RtpSession.reportedReceiver in E2. destruct (RtpSession.recv s) as [r0|].
    - injection E2 as ->. split; [pose proof (reportCount_single _ _ HW); lia | exact (linked_table _ HW)].
    - destruct (existsb _ _) eqn:Ee; [discriminate|]. rewrite (reportCount_none r _ Ee). split; [lia|]. exact (proj1 (HW rawRecv)). }
  rewrite E1. step. rewrite E2. step. rewrite (transmitRTCP_datagram r now _ x texts _ Hsp Hn). step. eexists. split; [exact Hn|]. split; [exact Ho|]. split; reflexivity.
Qed.

(** ** What is counted as lost *)

Lemma sumLost_unheard s l k : (forall x, In x l -> recv x.2 = true -> present (RtpSession.recv s) = true) -> (exists x, findInfo k l = Some x /\ recv x = false) ->
  forall lost, RtpSession.sumLost s l lost = Fault NullDeref.
Proof.
  induction l as [|[i x] l IH]; intros Hp (y & Hf & Hy) lost; [discriminate Hf|]. cbn [RtpSession.sumLost findInfo] in *. destruct (recv x) eqn:Ex; [|reflexivity]. cbn [negb].
  specialize (Hp (i, x) (or_introl eq_refl) Ex) as Hr. destruct (RtpSession.recv s) as [r|] eqn:Er; [|discriminate Hr]. apply IH.
  - intros z Hz. apply Hp. now right.
  - exists y. split; [|exact Hy]. destruct (i =? k); [congruence | exact Hf].
Qed.

(** Looking whether a report is due moves only the time of the next one. *)
Lemma speaks_due s t x texts now offset : Speaks (RtpSession.current s t) x texts ->
  Speaks (RtpSession.current (RtpSession.with_rtcpTran (Some (updateInterval offset t)) s) (updateInterval offset t)) x texts /\
  checkInterval now offset t = (ntp_gt now (nextInterval t), if ntp_gt now (nextInterval t) then updateInterval offset t else t).
Proof. intros [H1 H2 H3 H4 H5]. split; [now split|]. unfold checkInterval. now destruct (ntp_gt _ _). Qed.


(** C13: a report from one session to the other.  What a session that lives and is
    described sends as its report is read by any other session that lives and may
    receive: it then knows the source, its texts, and has counted one report more.
    But when it has not heard the media of that source, asking it for the number
    of lost packets ends the program: the count goes through the RTP receiver of
    every source that is known, and this one has none. *)
Theorem report_between_sessions a b ta xa texts ca cb now now' :
  lives a -> lives b -> sends (RtpSession.sessionState a) = true -> receives (RtpSession.sessionState b) = true ->
  RtpSession.rtcpTran a = Some ta -> RtpSession.rtcpRecv a = Some ca -> Speaks (RtpSession.current a ta) xa texts ->
  RtpSession.rtcpRecv b = Some cb -> counts cb -> timeOk now ->
  exists d a' b' cb' sx,
    RtpSession.transmitRTCP rawRecv now a = Ret ([Control d], a') /\
    RtpSession.receiveRTCP rawRecv rawInfo now' (RtpReceiver.Datagram d) b = Ret (2, b') /\
    RtpSession.rtcpRecv b' = Some cb' /\ packetReceived cb' = packetReceived cb + 1 /\
    findInfo (RtpTransmitter.ssrc xa) (tranInfoList cb') = Some sx /\ lastSRTimestamp sx = stampOf now /\
    (forall pre i post, spoken texts = pre ++ i :: post -> take (S (length (texts i))) (SDESInfo sx i) = texts i ++ [nextCode post]) /\
    (forall tb, RtpSession.rtcpTran b = Some tb ->
       ~ (exists x, findInfo (RtpTransmitter.ssrc xa) (tranInfoList cb) = Some x /\ recv x = true) -> RtpSession.getPacketLost b' = Fault NullDeref).
Proof.
  intros Ha Hb Hsa Hrb Eta Eca Hsp Ecb Hcnt Hnow. apply (lives_Wired _ _ _ _ _ _ rawInfo_ok) in Ha, Hb.
  destruct (report_sent now a ta ca xa texts Ha Hsa Eta Eca Hsp) as (ra & a' & Hn & Ho & Etx & Ea). destruct Hb as [Hb _]. rewrite Ecb in Hb.
  assert (exists rb, RtpSession.reportedReceiver rawRecv b (tranInfoList cb) = Ret rb /\ tableOk cb /\ (present (RtpSession.recv b) = false -> forall k x, findInfo k (tranInfoList cb) = Some x -> recv x = false)) as (rb & Er & Hok & Hun).
  { unfold RtpSession.reportedReceiver. destruct (RtpSession.recv b) as [r|].
    - exists r. split; [reflexivity|]. split; [exact (linked_table _ Hb) | discriminate].
    - destruct (Hb rawRecv) as [[lo H1] H2]. cbn [fst] in *. exists rawRecv. rewrite existsb_false by exact (ordered_entries (fun x => recv x = false) _ _ H1 H2).
      split; [reflexivity|]. split; [now exists lo | auto]. }
  destruct (report_heard rawInfo now' ra now (RtpSession.current a ta) xa texts (tranInfoList ca) cb rb Hsp Hnow Ho Hn rawInfo_ok Hok Hcnt)
    as (d & c' & sx & H1 & H2 & H3 & H4 & _ & H6 & H7 & _ & H9 & H10 & H11 & _).
  rewrite Etx in H1. injection H1 as <-. do 5 eexists. split; [exact Ea|]. split; [|split; [|split; [exact H4|]; split; [exact H6|]; split; [exact H7|]; split; [exact H10|]]].
  - unfold RtpSession.receiveRTCP. rewrite Ecb, Hrb. cbn [negb]. rewrite Er. step. rewrite H2. step. reflexivity.
  - reflexivity.
  - intros tb Etb Hnot. unfold RtpSession.getPacketLost. cbn [RtpSession.with_recv RtpSession.with_rtcpRecv RtpSession.rtcpTran RtpSession.rtcpRecv]. rewrite Etb.
    apply (sumLost_unheard _ _ (RtpTransmitter.ssrc xa)).
    + intros [k x] Hin Hx. cbn [RtpSession.with_recv RtpSession.recv snd] in *. destruct (RtpSession.recv b) as [r|] eqn:Erb; [reflexivity|]. exfalso.
      destruct H3 as [lo H3]. assert (findInfo k (tranInfoList c') = Some x) as Hk by (exact (ordered_lookup _ _ _ _ H3 Hin)).
      destruct (Z.eq_dec k (RtpTransmitter.ssrc xa)) as [->|Hne].
      * rewrite H6 in Hk. injection Hk as ->. rewrite H9 in Hx. destruct (findInfo _ (tranInfoList cb)) as [y|] eqn:Ey; [|discriminate]. rewrite (Hun eq_refl _ _ Ey) in Hx. discriminate.
      * rewrite (H11 k Hne) in Hk. rewrite (Hun eq_refl _ _ Hk) in Hx. discriminate.
    + exists sx. split; [exact H6|]. rewrite H9. destruct (findInfo _ (tranInfoList cb)) as [y|] eqn:Ey; [|reflexivity].
      destruct (recv y) eqn:Ery; [|reflexivity]. exfalso. apply Hnot. now exists y.
Qed.

(** ** Sessions as they are built *)

Lemma newRtpTransmitter_returns fmt clockrate per_sample_size samplesize now src seed seq random :
  zlen rawPacket = RtpPacket.RTP_MTU -> bytes_ok rawPacket -> src <> 0 ->
  exists x, RtpSession.newRtpTransmitter rawTran rawPacket fmt clockrate per_sample_size samplesize now (src :: seed :: seq :: random) = Ret (x, random) /\
    RtpTransmitter.ssrc x = src.
Proof.
  intros Hl Hb Hs. unfold RtpSession.newRtpTransmitter.
  destruct (RtpPacket.newRtpPacket_returns rawPacket 1012 0 0 Hl Hb) as [[_ H] _]; [lia | lia | lia|]. destruct H as [p ->]; [lia|]. step.
  unfold RtpTransmitter.initRtpTransmitter. cbn [RtpTransmitter.generateSRC]. destruct (Z.eqb_spec src 0); [contradiction|]. step. cbn [RtpTransmitter.generate32]. step.
  eexists. split; reflexivity.
Qed.

(** The name of a session's description. *)
Definition sessionName : bytes := take 147 (str "unknown_user." ++ pid ++ str "@" ++ hn).
Definition sessionTexts (i : RtcpSDESType) : bytes := match i with Cname => sessionName | _ => [] end.

Lemma sessionName_ok : noNul pid -> noNul hn -> noNul sessionName /\ 13 <= zlen sessionName <= 147.
Proof.
  intros Hp Hh. unfold sessionName. split.
  - apply Forall_take. unfold noNul in *. apply Forall_app. split; [repeat constructor; discriminate|]. apply Forall_app. split; [exact Hp|].
    apply Forall_app. split; [repeat constructor; discriminate | exact Hh].
  - unfold zlen. rewrite length_take, !length_app. cbn [length str]. change (length (str "unknown_user.")) with 13%nat. change (length (str "@")) with 1%nat. lia.
Qed.

Lemma session_spoken : noNul pid -> noNul hn -> spoken sessionTexts = [Cname].
Proof.
  intros Hp Hh. destruct (sessionName_ok Hp Hh) as [_ H]. unfold spoken, allItems. cbn [List.filter sessionTexts]. destruct (Z.ltb_spec 0 (zlen sessionName)); [reflexivity | lia].
Qed.

(** What a session with all of its ports is. *)
Record Complete (src : Z) (s : RtpSession) (t : RtcpTransmitter) (x : RtpTransmitter.RtpTransmitter) : Prop := {
  complete_state : RtpSession.sessionState s = RtpSession.rtp_session_sendrecv;
  complete_tran : RtpSession.tran s = Some x;
  complete_ssrc : RtpTransmitter.ssrc x = src;
  complete_rtcpTran : RtpSession.rtcpTran s = Some t;
  complete_rtcpRecv : RtpSession.rtcpRecv s = Some constructRtcpReceiver;
  complete_speaks : Speaks (RtpSession.current s t) x sessionTexts;
  complete_lives : lives s
}.

(** Texts that are set to nothing. *)
Lemma setTexts_value l : forall t o, ownInfo t = Some o ->
  exists t' o', RtpSession.setTexts l t = Ret t' /\ ownInfo t' = Some o' /\ (forall i, o' i = if decide (i ∈ l) then Some [] else o i) /\
    hasReceiver t' = hasReceiver t /\ Rtcp.tran t' = Rtcp.tran t.
Proof.
  induction l as [|j l IH]; intros t o Ho.
  - exists t, o. repeat split; assumption.
  - cbn [RtpSession.setTexts]. unfold setSdesText. rewrite cassert_true by (now destruct j). step. rewrite Ho. cbn [deref]. step.
    match goal with |- context [RtpSession.setTexts l ?t1] => destruct (IH t1 _ eq_refl) as (t' & o' & -> & H1 & H2 & H3 & H4) end. exists t', o'. split; [reflexivity|]. split; [exact H1|].
    split; [|split; assumption]. intros i. rewrite H2. destruct (decide (i ∈ l)) as [Hi|Hi].
    + rewrite decide_True by (now right). reflexivity.
    + destruct (decide (i = j)) as [->|Hn].
      * rewrite decide_True by left. reflexivity.
      * rewrite decide_False; [reflexivity|]. intros Hin. apply elem_of_cons in Hin as [|]; contradiction.
Qed.

(** The description of a transmitter that has texts that are not set. *)
Lemma describe_value l s t x : RtpSession.rtcpTran s = Some t -> RtpSession.tran s = Some x -> ownInfo t = Some (fun _ => None) ->
  exists t' o', RtpSession.describeTransmitter pid hn l s = Ret (RtpSession.with_rtcpTran (Some t') s) /\ ownInfo t' = Some o' /\
    (forall i, o' i = if decide (i ∈ l) then Some [] else if decide (i = Cname) then Some sessionName else None) /\
    hasReceiver t' = hasReceiver t /\ Rtcp.tran t' = Rtcp.tran t.
Proof.
  intros Et Ex Eo. unfold RtpSession.describeTransmitter. rewrite Et, Ex. unfold setSdesCname. rewrite Eo. cbn [deref]. step.
  match goal with |- context [RtpSession.setTexts ?l ?t1] => destruct (setTexts_value l t1 _ eq_refl) as (t' & o' & -> & H) end. step.
  exists t', o'. split; [reflexivity | exact H].
Qed.

Lemma getSdes_value t o : ownInfo t = Some o ->
  (forall i, o i = if decide (i ∈ [Name; Email; Phone; Loc; Tool; Note]) then Some [] else if decide (i = Cname) then Some sessionName else None) ->
  forall i, getSdes i t = Ret (sessionTexts i).
Proof. intros Ho Hv i. unfold getSdes. rewrite Ho. cbn [deref]. step. rewrite Hv. now destruct i. Qed.

(** The links of a session with all of its parts. *)
Lemma link_value x r t st : ownInfo t = None -> exists t',
  RtpSession.linkReceiver (RtpSession.linkTransmitter (mkSession (Some x) (Some r) (Some t) (Some constructRtcpReceiver) st None)) =
    mkSession (Some x) (Some (RtpSession.setRTCPrecv r)) (Some t') (Some constructRtcpReceiver) st None /\
  ownInfo t' = Some (fun _ => None) /\ hasReceiver t' = true /\ Rtcp.tran t' = Some x.
Proof.
  intros Ho. exists (RtpSession.setReceiverLink (setRTPtran x t)). split; [reflexivity|]. cbn [RtpSession.setReceiverLink setRTPtran ownInfo hasReceiver Rtcp.tran]. rewrite Ho. now repeat split.
Qed.

(** What the constructor makes of the parts. *)
Lemma construct_value remotePort localPort rtcpRemotePort rtcpLocalPort fmt clockrate per_sample_size samplesize jb_sz now offset random r x random' :
  remotePort <> 0 -> localPort <> 0 -> rtcpRemotePort <> 0 -> rtcpLocalPort <> 0 ->
  RtpReceiver.constructRtpReceiver rawRecv fmt clockrate per_sample_size samplesize jb_sz = Ret r ->
  RtpSession.newRtpTransmitter rawTran rawPacket fmt clockrate per_sample_size samplesize now random = Ret (x, random') ->
  exists t, RtpSession.constructRtpSession rawRecv rawTran rawPacket pid hn remotePort localPort rtcpRemotePort rtcpLocalPort
      fmt clockrate per_sample_size samplesize jb_sz now offset random =
    Ret (mkSession (Some x) (Some (RtpSession.setRTCPrecv r)) (Some t) (Some constructRtcpReceiver) RtpSession.rtp_session_sendrecv None, random') /\
    (forall i, getSdes i t = Ret (sessionTexts i)) /\ hasReceiver t = true /\ Rtcp.tran t = Some x.
Proof.
  intros H1 H2 H3 H4 Er Ex. unfold RtpSession.constructRtpSession.
  destruct (Z.eqb_spec localPort 0), (Z.eqb_spec remotePort 0), (Z.eqb_spec rtcpLocalPort 0), (Z.eqb_spec rtcpRemotePort 0); try contradiction.
  rewrite Er, Ex. clear Er Ex. step. destruct (link_value x r (newRtcpTransmitter now offset) RtpSession.rtp_session_sendrecv eq_refl) as (t & -> & Ho & Hr & Ht).
  destruct (describe_value [Name; Email; Phone; Loc; Tool; Note] (mkSession (Some x) (Some (RtpSession.setRTCPrecv r)) (Some t) (Some constructRtcpReceiver)
    RtpSession.rtp_session_sendrecv None) t x eq_refl eq_refl Ho) as (t' & o & -> & Ho' & Hv & Hr' & Ht'). step.
  exists t'. split; [reflexivity|]. split; [exact (getSdes_value t' o Ho' Hv)|]. split; congruence.
Qed.

Lemma construct_complete remotePort localPort rtcpRemotePort rtcpLocalPort fmt clockrate per_sample_size samplesize jb_sz now offset src seed seq random :
  remotePort <> 0 -> localPort <> 0 -> rtcpRemotePort <> 0 -> rtcpLocalPort <> 0 -> samplesize < 1472 ->
  zlen rawPacket = RtpPacket.RTP_MTU -> bytes_ok rawPacket -> 0 < src < 4294967296 -> noNul pid -> noNul hn ->
  exists s t x, RtpSession.constructRtpSession rawRecv rawTran rawPacket pid hn remotePort localPort rtcpRemotePort rtcpLocalPort
      fmt clockrate per_sample_size samplesize jb_sz now offset (src :: seed :: seq :: random) = Ret (s, random) /\ Complete src s t x.
Proof.
  intros H1 H2 H3 H4 H5 Hl Hb Hs Hp Hh. destruct (newRtpTransmitter_returns fmt clockrate per_sample_size samplesize now src seed seq random Hl Hb) as (x & Ex & Ess); [lia|].
  assert (exists r, RtpReceiver.constructRtpReceiver rawRecv fmt clockrate per_sample_size samplesize jb_sz = Ret r) as [r Er]
    by (unfold RtpReceiver.constructRtpReceiver; rewrite cassert_true by lia; eexists; reflexivity).
  destruct (construct_value remotePort localPort rtcpRemotePort rtcpLocalPort fmt clockrate per_sample_size samplesize jb_sz now offset (src :: seed :: seq :: random) r x random
    H1 H2 H3 H4 Er Ex) as (t' & E & Eg & Eh & Et).
  pose proof (lives_start rawRecv rawTran rawPacket rawInfo pid hn _ _ _ _ _ _ _ _ _ _ _ _ _ _ E) as HL. clear Er Ex.
  do 3 eexists. split; [exact E|]. split; [reflexivity | reflexivity | exact Ess | reflexivity | reflexivity | | exact HL]. destruct (sessionName_ok Hp Hh) as [Hn Hz]. split.
  - cbn [RtpSession.current Rtcp.tran RtpSession.tran]. now rewrite Et.
  - exact Eh.
  - cbn. lia.
  - intros i. split; [exact (Eg i)|]. destruct i; cbn [sessionTexts]; (split; [first [exact Hn | constructor] | first [lia | reflexivity]]).
  - rewrite (session_spoken Hp Hh). unfold itemsBytes, itemBytes. cbn [map mjoin list_join foldr sessionTexts]. rewrite app_nil_r, !zlen_cons. lia.
Qed.

(** A transmitter without a name in its description cannot send it. *)
Lemma transmitRTCP_unnamed r now t x o infos : Rtcp.tran t = Some x -> hasReceiver t = true -> reportCount r infos < 32 -> ownInfo t = Some o ->
  (exists a, o Cname = Some a) -> o Name = None -> RtcpReceiver.transmitRTCP r now t infos = Fault UninitRead.
Proof.
  intros Ht Hr Hn Ho [a Ha] Hname. unfold RtcpReceiver.transmitRTCP. rewrite (addSR_filled r now t x infos Ht Hr Hn). step. rewrite Ht. unfold addSDES. rewrite Ht.
  assert (getSdes Cname t = Ret a) as E1 by (unfold getSdes; rewrite Ho; cbn [deref]; step; now rewrite Ha).
  assert (getSdes Name t = Fault UninitRead) as E2 by (unfold getSdes; rewrite Ho; cbn [deref]; step; now rewrite Hname).
  cbn [nonEmpty]. rewrite E1. step. rewrite E2. reflexivity.
Qed.

(** A session to which a transmitter is added. *)
Lemma link_added s x r c : RtpSession.tran s = Some x -> RtpSession.rtcpTran s = Some r -> ownInfo r = None -> RtpSession.rtcpRecv s = Some c ->
  exists t, RtpSession.rtcpTran (RtpSession.linkTransmitter s) = Some t /\ RtpSession.tran (RtpSession.linkTransmitter s) = Some x /\
    RtpSession.rtcpRecv (RtpSession.linkTransmitter s) = Some c /\ RtpSession.sessionState (RtpSession.linkTransmitter s) = RtpSession.sessionState s /\
    ownInfo t = Some (fun _ => None) /\ hasReceiver t = true /\ Rtcp.tran t = Some x.
Proof.
  intros Ex Et Ho Ec. exists (RtpSession.setReceiverLink (setRTPtran x r)). unfold RtpSession.linkTransmitter. rewrite Ex, Et, Ec.
  split; [reflexivity|]. split; [exact Ex|]. split; [exact Ec|]. split; [reflexivity|]. cbn [RtpSession.setReceiverLink setRTPtran ownInfo hasReceiver Rtcp.tran]. rewrite Ho. now repeat split.
Qed.

(** C25: a session that is changed cannot send its report.  When the receiver of a
    session is set again without a port for RTCP, the RTCP receiver is deleted but
    the RTCP transmitter keeps its pointer; when transmitters are set in a session
    that had none, the name of the description is left out and its memory is not
    set.  In both cases the next report reads memory that is not there or was not
    written. *)
Theorem changed_session_cannot_report s : lives s -> RtpSession.sessionState s = RtpSession.rtp_session_sendrecv ->
  (forall t localPort fmt clockrate per_sample_size samplesize jb_sz rv s' now, RtpSession.rtcpTran s = Some t -> hasReceiver t = true ->
     RtpSession.setReceiver rawRecv localPort 0 fmt clockrate per_sample_size samplesize jb_sz s = Ret (rv, s') ->
     RtpSession.transmitRTCP rawRecv now s' = Fault UninitRead) /\
  (forall c remotePort rtcpRemotePort fmt clockrate per_sample_size samplesize t0 offset random rv s' random' now,
     RtpSession.rtcpTran s = None -> RtpSession.rtcpRecv s = Some c -> remotePort <> 0 -> rtcpRemotePort <> 0 ->
     RtpSession.setTransmiter rawTran rawPacket pid hn remotePort rtcpRemotePort fmt clockrate per_sample_size samplesize t0 offset random s = Ret (rv, s', random') ->
     RtpSession.transmitRTCP rawRecv now s' = Fault UninitRead).
Proof.
  intros HL Hst. split.
  - intros t localPort fmt clockrate per_sample_size samplesize jb_sz rv s' now Et Hr. unfold RtpSession.setReceiver. rewrite Hst. cbn [receives negb].
    destruct (if localPort =? 0 then _ else _) as [r|]; [|discriminate]. step. change (0 =? 0) with true. unfold RtpSession.linkReceiver.
    cbn [RtpSession.with_recv RtpSession.with_rtcpRecv RtpSession.rtcpTran RtpSession.rtcpRecv]. rewrite Et. intros [= _ <-]. unfold RtpSession.transmitRTCP.
    cbn [RtpSession.with_recv RtpSession.with_rtcpRecv RtpSession.rtcpTran RtpSession.rtcpRecv RtpSession.sessionState]. rewrite Hst, Et. cbn [sends negb].
    unfold RtpSession.reportedSources. now rewrite Hr.
  - intros c remotePort rtcpRemotePort fmt clockrate per_sample_size samplesize t0 offset random rv s' random' now Et Ec Hp Hrp E.
    pose proof (lives_setTransmiter _ _ _ _ _ _ _ _ _ _ _ _ _ _ _ _ _ _ _ HL E) as HL'. apply (lives_Wired _ _ _ _ _ _ rawInfo_ok) in HL'. revert E. unfold RtpSession.setTransmiter.
    rewrite Hst. cbn [sends negb]. destruct (Z.eqb_spec remotePort 0), (Z.eqb_spec rtcpRemotePort 0); try contradiction.
    destruct (match RtpSession.tran s with Some _ => _ | None => _ end) as [[x rnd]|]; [|discriminate]. step.
    cbn [RtpSession.with_tran RtpSession.rtcpTran]. rewrite Et. set (s1 := RtpSession.with_rtcpTran _ _).
    destruct (link_added s1 x (newRtcpTransmitter t0 offset) c eq_refl eq_refl eq_refl Ec) as (t & A1 & A2 & A3 & A4 & A5 & A6 & A7).
    destruct (describe_value [Email; Phone; Loc; Tool; Note] _ t x A1 A2 A5) as (t' & o & -> & B1 & B2 & B3 & B4). step. intros [= _ <- _].
    set (s2 := RtpSession.with_rtcpTran (Some t') _) in *. assert (RtpSession.rtcpTran s2 = Some t') as C1 by reflexivity.
    assert (RtpSession.rtcpRecv s2 = Some c) as C2 by exact A3. assert (RtpSession.tran s2 = Some x) as C3 by exact A2.
    destruct (reportedSources_there rawRecv s2 t' HL' C1) as (infos & E1 & Hi & r & E2). rewrite B3, A6, C2 in Hi. destruct Hi as (c' & Hc & ->). injection Hc as <-.
    assert (reportCount r (tranInfoList c) < 32) as Hn.
    { destruct HL' as [HW _]. rewrite C2 in HW. unfold RtpSession.reportedReceiver in E2. destruct (RtpSession.recv s2) as [r0|].
      - injection E2 as ->. pose proof (reportCount_single _ _ HW). lia.
      - destruct (existsb _ _) eqn:Ee; [discriminate|]. rewrite (reportCount_none r _ Ee). lia. }
    unfold RtpSession.transmitRTCP. assert (RtpSession.sessionState s2 = RtpSession.rtp_session_sendrecv) as -> by (unfold s2; cbn [RtpSession.with_rtcpTran RtpSession.sessionState]; rewrite A4; exact Hst).
    cbn [sends negb]. rewrite C1, E1. step. rewrite E2. step.
    rewrite (transmitRTCP_unnamed r now (RtpSession.current s2 t') x o); [reflexivity | | | exact Hn | exact B1 | |].
    + unfold RtpSession.current. cbn [Rtcp.tran]. now rewrite B4, A7.
    + cbn [RtpSession.current hasReceiver]. now rewrite B3.
    + exists sessionName. now rewrite B2.
    + now rewrite B2.
Qed.

End Session.

(** ** Two sessions *)

Definition samplePacket : bytes := zeros (Z.to_nat RtpPacket.RTP_MTU).
Definition samplePid : bytes := str "77".
Definition sampleHost : bytes := str "here".

Lemma samplePid_ok : noNul samplePid /\ noNul sampleHost.
Proof. split; repeat constructor; discriminate. Qed.

Lemma samplePacket_ok : zlen samplePacket = RtpPacket.RTP_MTU /\ bytes_ok samplePacket.
Proof. split; [unfold samplePacket; rewrite zlen_zeros; reflexivity | apply zeros_bytes_ok]. Qed.

Abbreviation sampleComplete := (Complete freshReceiver (sampleTran 0) samplePacket sampleInfo samplePid sampleHost).

(** A session with all of its ports, whose source is [src]. *)
Lemma sample_session src : 0 < src < 4294967296 -> exists s t x, sampleComplete src s t x.
Proof.
  intros H. destruct samplePacket_ok as [H1 H2], samplePid_ok as [H3 H4].
  destruct (construct_complete freshReceiver (sampleTran 0) samplePacket sampleInfo samplePid sampleHost 5000 5002 5001 5003 0 8000 1 160 8 (mkNtpTime 900 0) 500
    src 1000 7 []) as (s & t & x & _ & Hs); try assumption; try lia. now exists s, t, x.
Qed.

Lemma sampleInfo_ok : sdesOk sampleInfo.
Proof. intros i. reflexivity. Qed.

Lemma ntp_gt_self x : ntp_gt x x = false.
Proof. unfold ntp_gt. now rewrite Z.eqb_refl, Z.ltb_irrefl. Qed.

Lemma ntp_gt_later x : ntp_gt (mkNtpTime (seconds x + 1) 0) x = true.
Proof. unfold ntp_gt. cbn [seconds]. destruct (Z.eqb_spec (seconds x + 1) (seconds x)); lia. Qed.


Lemma report_between_sessions_witness : exists a b d a' b',
  RtpSession.transmitRTCP freshReceiver (mkNtpTime 1000 0) a = Ret ([Control d], a') /\
  RtpSession.receiveRTCP freshReceiver sampleInfo (mkNtpTime 1000 5000) (RtpReceiver.Datagram d) b = Ret (2, b') /\
  RtpSession.getPacketLost b' = Fault NullDeref.
Proof.
  destruct (sample_session 6 ltac:(lia)) as (a & ta & xa & [A1 A2 A3 A4 A5 A6 A7]), (sample_session 7 ltac:(lia)) as (b & tb & xb & [B1 B2 B3 B4 B5 B6 B7]). exists a, b.
  destruct (report_between_sessions freshReceiver (sampleTran 0) samplePacket sampleInfo samplePid sampleHost sampleInfo_ok a b ta xa (sessionTexts samplePid sampleHost)
    constructRtcpReceiver constructRtcpReceiver (mkNtpTime 1000 0) (mkNtpTime 1000 5000) A7 B7) as (d & a' & b' & c & sx & H1 & H2 & _ & _ & _ & _ & _ & H3);
    [now rewrite A1 | now rewrite B1 | exact A4 | exact A5 | exact A6 | exact B5 | split; cbn; lia | split; cbn; lia |].
  exists d, a', b'. split; [exact H1|]. split; [exact H2|]. apply (H3 tb B4). intros (x & Hx & _). discriminate Hx.
Defined.

Lemma changed_session_cannot_report_witness : exists s s', RtpSession.setReceiver freshReceiver 0 0 0 8000 1 160 8 s = Ret (0, s') /\
  RtpSession.transmitRTCP freshReceiver (mkNtpTime 1000 0) s' = Fault UninitRead.
Proof.
  destruct (sample_session 6 ltac:(lia)) as (s & t & x & [H1 H2 H3 H4 H5 H6 H7]). exists s.
  assert (exists s', RtpSession.setReceiver freshReceiver 0 0 0 8000 1 160 8 s = Ret (0, s')) as [s' E] by (unfold RtpSession.setReceiver; rewrite H1; eexists; reflexivity).
  exists s'. split; [exact E|].
  exact (proj1 (changed_session_cannot_report freshReceiver (sampleTran 0) samplePacket sampleInfo samplePid sampleHost sampleInfo_ok s H7 H1) t 0 0 8000 1 160 8 0 s' (mkNtpTime 1000 0)
    H4 (speaks_receiver _ _ _ H6) E).
Defined.

End RtpSessionProps.
