(* ===== verification/DataStr.v ===== *)
(** The string class Data of util/Data2.hxx and util/Data2.cxx, which all of
    the SIP stack parses with.

    A [Data] is its length, the array it owns and the capacity.  A cell of the
    array is [None] until it is written, so an operation that reads garbage
    faults.  [const char*] arguments that are string literals in the callers
    are lists of characters without NUL.  The instance counters, the
    conversions of doubles and [expand] (whose first statement is
    [assert(0)]) are left out. *)
From S2P Require Import Prelude.

Module DataStr.

Abbreviation cells := (list (option Z)).

Record Data := mkData {
  mLength : Z;
  mBuf : cells;
  mCapacity : Z
}.

(** [new char[n]] *)
Definition newChars (n : Z) : cells := replicate (Z.to_nat n) None.

Definition memmove {A} (m : list A) (dst src n : Z) : outcome (list A) :=
  s ← slice m src n; overwrite m dst s.

(** The value of a cell that has been written. *)
Definition rdc (m : cells) (i : Z) : outcome Z := c ← rd m i; initialised c.

(** The first [n] values of an array. *)
Definition values (m : cells) (n : Z) : outcome bytes := s ← slice m 0 n; mapM initialised s.

(** [strlen] and the C string at the start of an array. *)
Fixpoint cstring (m : cells) : outcome bytes :=
  match m with
  | [] => Fault OutOfBounds
  | c :: m' => b ← initialised c; if b =? 0 then mret [] else s ← cstring m'; mret (b :: s)
  end.

(** * Constructors *)

Definition npos : Z := 2147483647.

Definition emptyData : Data := mkData 0 (Some 0 :: newChars 63) 63.

(** [Data(int capacity, bool)] *)
Definition reserve (capacity : Z) : Data := mkData 0 (Some 0 :: newChars capacity) capacity.

(** [Data(const char* str, int length)] *)
Definition ofMem (src : cells) (length : Z) : outcome Data :=
  s ← slice src 0 length; mret (mkData length (s ++ [Some 0]) length).

(** [Data(const char* str)] *)
Definition ofStr (s : bytes) : Data := mkData (zlen s) (map Some s ++ [Some 0]) (zlen s).

(** [Data(const Data& rhs)] *)
Definition copy (rhs : Data) : outcome Data :=
  s ← slice (mBuf rhs) 0 (mLength rhs + 1); mret (mkData (mLength rhs) s (mLength rhs)).

Definition ofChar (c : Z) : Data := mkData 1 [Some c; Some 0] 1.

Definition ofBool (value : bool) : Data :=
  if value then mkData 4 (map Some (str "true") ++ [Some 0]) 4
  else mkData 5 (map Some (str "false") ++ [Some 0]) 5.

(** [while (v /= 10) c++;] on a non-negative [v]. *)
Fixpoint digitCount (fuel : nat) (v c : Z) : outcome Z :=
  match fuel with
  | O => Fault OutOfFuel
  | S fuel' => let v := Z.quot v 10 in if v =? 0 then mret c else digitCount fuel' v (c + 1)
  end.

(** [while (v) { mBuf[c--] = '0' + v%10; v /= 10; }] *)
Fixpoint putDigits (fuel : nat) (v c : Z) (buf : cells) : outcome cells :=
  match fuel with
  | O => Fault OutOfFuel
  | S fuel' =>
      if v =? 0 then mret buf
      else buf ← wr buf c (Some (48 + Z.rem v 10)); putDigits fuel' (Z.quot v 10) (c - 1) buf
  end.

(** Enough for the digits of a 64-bit number. *)
Definition digitFuel : nat := 21.

Definition ofInt (val : Z) : outcome Data :=
  if val =? 0 then mret (mkData 1 [Some 48; Some 0] 1)
  else
    let neg := val <? 0 in
    let value := if neg then s32 (- val) else val in
    c ← digitCount digitFuel value 0;
    let c := if neg then c + 1 else c in
    buf ← wr (newChars (c + 2)) (c + 1) (Some 0);
    buf ← putDigits digitFuel value c buf;
    buf ← (if neg then wr buf 0 (Some 45) else mret buf);
    mret (mkData (c + 1) buf (c + 1)).

Definition ofULong (value : Z) : outcome Data :=
  if value =? 0 then mret (mkData 1 [Some 48; Some 0] 1)
  else
    c ← digitCount digitFuel value 0;
    buf ← wr (newChars (c + 2)) (c + 1) (Some 0);
    buf ← putDigits digitFuel value c buf;
    mret (mkData (c + 1) buf (c + 1)).

(** * Capacity and assignment *)

Definition resize (newCapacity : Z) (d : Data) : outcome Data :=
  if newCapacity <? mCapacity d then mret d
  else
    old ← slice (mBuf d) 0 (mCapacity d + 1);
    buf ← overwrite (newChars (newCapacity + 1)) 0 old;
    mret (mkData (mLength d) buf newCapacity).

Definition with_buf (len : Z) (buf : cells) (d : Data) : Data := mkData len buf (mCapacity d).

Definition assignStr (s : bytes) (d : Data) : outcome Data :=
  d ← (if mCapacity d <? zlen s then resize (zlen s) d else mret d);
  buf ← overwrite (mBuf d) 0 (map Some s ++ [Some 0]);
  mret (with_buf (zlen s) buf d).

(** [*this = data] for another object. *)
Definition assign (data d : Data) : outcome Data :=
  d ← (if mCapacity d <? mLength data then resize (mLength data) d else mret d);
  s ← slice (mBuf data) 0 (mLength data + 1);
  buf ← overwrite (mBuf d) 0 s;
  mret (with_buf (mLength data) buf d).

Definition erase (d : Data) : outcome Data :=
  buf ← wr (mBuf d) 0 (Some 0); mret (with_buf 0 buf d).

(** * Characters *)

Definition getChar (i : Z) (d : Data) : outcome Z :=
  _ ← cassert (i <? mLength d); rdc (mBuf d) i.

Definition setchar (i c : Z) (d : Data) : outcome Data :=
  d ← (if mLength d <=? i then
         d ← resize (i + 1) d;
         buf ← overwrite (mBuf d) (i + 1) (replicate (Z.to_nat (mCapacity d - (i + 1) + 1)) (Some 0));
         mret (with_buf (i + 1) buf d)
       else mret d);
  _ ← cassert (i <? mLength d);
  buf ← wr (mBuf d) i (Some c);
  mret (with_buf (mLength d) buf d).

(** * Comparison *)

(** [strcmp]: negative, zero or positive. *)
Fixpoint strcmp (a b : bytes) : Z :=
  match a, b with
  | [], [] => 0
  | [], _ :: _ => -1
  | _ :: _, [] => 1
  | x :: a', y :: b' => if x =? y then strcmp a' b' else if x <? y then -1 else 1
  end.

Definition strncmp (a b : bytes) (n : Z) : Z := strcmp (take (Z.to_nat n) a) (take (Z.to_nat n) b).

(** [tolower] and [toupper] in the C locale. *)
Definition tolower (c : Z) : Z := if (65 <=? c) && (c <=? 90) then c + 32 else c.
Definition toupper (c : Z) : Z := if (97 <=? c) && (c <=? 122) then c - 32 else c.

Definition strncasecmp (a b : bytes) (n : Z) : Z := strncmp (map tolower a) (map tolower b) n.

Definition eqData (a b : Data) : outcome bool :=
  x ← cstring (mBuf a); y ← cstring (mBuf b); mret (strcmp x y =? 0).

Definition eqStr (a : Data) (s : bytes) : outcome bool :=
  x ← cstring (mBuf a); mret (strcmp x s =? 0).

Definition ltData (a b : Data) : outcome bool :=
  x ← cstring (mBuf a); y ← cstring (mBuf b); mret (strcmp x y <? 0).

Definition gtData (a b : Data) : outcome bool :=
  x ← cstring (mBuf a); y ← cstring (mBuf b); mret (0 <? strcmp x y).

(** [compare(const Data&)]: only as many characters as the argument has. *)
Definition compare (a b : Data) : outcome Z :=
  x ← cstring (mBuf a); y ← cstring (mBuf b); mret (strncmp x y (mLength b)).

Definition compareNoCase (a b : Data) : outcome Z :=
  x ← cstring (mBuf a); y ← cstring (mBuf b); mret (strncasecmp x y (mLength b)).

Definition isEqualNoCase (left right : Data) : outcome bool :=
  if negb (mLength left =? mLength right) then mret false
  else
    x ← cstring (mBuf left); y ← cstring (mBuf right);
    mret (strncasecmp x y (mLength left) =? 0).

(** * Concatenation *)

Definition plus (a data : Data) : outcome Data :=
  let ret := reserve (mLength a + mLength data) in
  s ← slice (mBuf a) 0 (mLength a);
  buf ← overwrite (mBuf ret) 0 s;
  s ← slice (mBuf data) 0 (mLength data + 1);
  buf ← overwrite buf (mLength a) s;
  mret (with_buf (mLength a + mLength data) buf ret).

Definition plusStr (a : Data) (s : bytes) : outcome Data := plus a (ofStr s).

(** [*this += data] for another object. *)
Definition plusEq (data d : Data) : outcome Data :=
  d ← (if mCapacity d <? mLength d + mLength data then resize (mLength d + mLength data) d else mret d);
  s ← slice (mBuf data) 0 (mLength data + 1);
  buf ← overwrite (mBuf d) (mLength d) s;
  mret (with_buf (mLength d + mLength data) buf d).

Definition plusEqStr (s : bytes) (d : Data) : outcome Data := plusEq (ofStr s) d.

Definition plusEqChar (c : Z) (d : Data) : outcome Data :=
  d ← (if mCapacity d <? mLength d + 1 then resize (mLength d + 1) d else mret d);
  buf ← wr (mBuf d) (mLength d) (Some c);
  buf ← wr buf (mLength d + 1) (Some 0);
  mret (with_buf (mLength d + 1) buf d).

(** * Case *)

(** Applies [f] to the characters up to the first one it maps to NUL. *)
Fixpoint mapCase (fuel : nat) (f : Z -> Z) (i : Z) (buf : cells) : outcome cells :=
  match fuel with
  | O => Fault OutOfFuel
  | S fuel' =>
      c ← rdc buf i;
      buf ← wr buf i (Some (f c));
      if f c =? 0 then mret buf else mapCase fuel' f (i + 1) buf
  end.

Definition lowercase (d : Data) : outcome Data :=
  buf ← mapCase (length (mBuf d)) tolower 0 (mBuf d); mret (with_buf (mLength d) buf d).
Definition uppercase (d : Data) : outcome Data :=
  buf ← mapCase (length (mBuf d)) toupper 0 (mBuf d); mret (with_buf (mLength d) buf d).

(** * Numbers *)

Definition isspace (c : Z) : bool := (c =? 32) || ((9 <=? c) && (c <=? 13)).

(** Advances [p] over blanks, decreasing [l] for each. *)
Fixpoint skipSpace (fuel : nat) (buf : cells) (p l : Z) : outcome (Z * Z) :=
  match fuel with
  | O => Fault OutOfFuel
  | S fuel' => c ← rdc buf p; if isspace c then skipSpace fuel' buf (p + 1) (l - 1) else mret (p, l)
  end.

(** [while (l--) ...] with the conversion [w] of the accumulator to its type. *)
Fixpoint getDigits (fuel : nat) (w : Z -> Z) (buf : cells) (p l val : Z) : outcome Z :=
  if l =? 0 then mret val
  else
    match fuel with
    | O => Fault OutOfFuel
    | S fuel' =>
        c ← rdc buf p;
        if (48 <=? c) && (c <=? 57) then getDigits fuel' w buf (p + 1) (l - 1) (w (w (val * 10) + (c - 48)))
        else mret val
    end.

Definition convert (w : Z -> Z) (d : Data) : outcome Z :=
  let fuel := length (mBuf d) in
  '(p, l) ← skipSpace fuel (mBuf d) 0 (mLength d);
  c ← rdc (mBuf d) p;
  let neg := c =? 45 in
  val ← (if neg then getDigits fuel w (mBuf d) (p + 1) (l - 1) 0
         else getDigits fuel w (mBuf d) p l 0);
  mret (w (if neg then - val else val)).

Definition convertInt (d : Data) : outcome Z := convert s32 d.
Definition convertLong (d : Data) : outcome Z := convert s64 d.

(** * Searching *)

(** [std::search]: the position of the first occurrence, counted from [i]. *)
Fixpoint prefixOf (needle hay : bytes) : bool :=
  match needle, hay with
  | [], _ => true
  | _ :: _, [] => false
  | x :: n', y :: h' => (x =? y) && prefixOf n' h'
  end.

Fixpoint search (needle hay : bytes) (i : Z) : option Z :=
  if prefixOf needle hay then Some i
  else match hay with [] => None | _ :: h' => search needle h' (i + 1) end.

Definition find (match_ : bytes) (start : Z) (d : Data) : outcome Z :=
  _ ← cassert (0 <=? start);
  _ ← cassert (start <=? mLength d);
  l ← values (mBuf d) (mLength d);
  let pos := match search match_ (drop (Z.to_nat start) l) start with
             | Some p => p | None => mLength d end in
  if pos =? mLength d then
    mret (if zlen match_ =? 0 then (if mLength d =? 0 then npos else 0) else npos)
  else mret pos.

Definition substring (first last : Z) (d : Data) : outcome Data :=
  let last := if (last =? -1) || (last =? npos) then mLength d else last in
  _ ← cassert (first <=? last);
  _ ← cassert (0 <=? first);
  _ ← cassert (last <=? mLength d);
  s ← slice (mBuf d) first (last - first);
  mret (mkData (last - first) (s ++ [Some 0]) (last - first)).

(** ** [match] *)

Inductive matchResult := NOT_FOUND | FIRST | FOUND.

(** The result, the text before the match (if there is one) and the object. *)
Definition matchData (match_ : bytes) (replace : bool) (replaceWith : Data) (d : Data)
  : outcome (matchResult * option Data * Data) :=
  replacePos ← find match_ 0 d;
  if replacePos =? npos then mret (NOT_FOUND, None, d)
  else
    ret ← ofMem (mBuf d) replacePos;
    let retVal := if mLength ret =? 0 then FIRST else FOUND in
    d ← (if replace then
           let rest := mLength d - replacePos - zlen match_ in
           if rest + mLength replaceWith <=? mCapacity d then
             buf ← memmove (mBuf d) (mLength replaceWith) (replacePos + zlen match_) (rest + 1);
             s ← slice (mBuf replaceWith) 0 (mLength replaceWith);
             buf ← overwrite buf 0 s;
             mret (with_buf (rest + mLength replaceWith) buf d)
           else Fault AssertFailed
         else mret d);
    mret (retVal, Some ret, d).

(** ** Splitting at a set of characters *)

Definition isIn (c : Z) (match_ : bytes) : bool := existsb (Z.eqb c) match_.

(** [while (!foundAny && start < mLength) foundAny = isIn(mBuf[start++], match);] *)
Fixpoint scan (fuel : nat) (d : Data) (match_ : bytes) (start : Z) : outcome (bool * Z) :=
  match fuel with
  | O => Fault OutOfFuel
  | S fuel' =>
      if start <? mLength d then
        c ← rdc (mBuf d) start;
        if isIn c match_ then mret (true, start + 1) else scan fuel' d match_ (start + 1)
      else mret (false, start)
  end.

(** [while (end < mLength && isIn(mBuf[end], match)) end++;] *)
Fixpoint skipIn (fuel : nat) (d : Data) (match_ : bytes) (e : Z) : outcome Z :=
  match fuel with
  | O => Fault OutOfFuel
  | S fuel' =>
      if e <? mLength d then
        c ← rdc (mBuf d) e;
        if isIn c match_ then skipIn fuel' d match_ (e + 1) else mret e
      else mret e
  end.

Definition fuelOf (d : Data) : nat := S (Z.to_nat (mLength d)).

(** [memmove(mBuf, mBuf + n, mLength - n + 1); mLength -= n;] *)
Definition eat (n : Z) (d : Data) : outcome Data :=
  buf ← memmove (mBuf d) 0 n (mLength d - n + 1); mret (with_buf (mLength d - n) buf d).

(** [parse]: the text before the match, [matchFail], and the object. *)
Definition parse (match_ : bytes) (d : Data) : outcome (Data * bool * Data) :=
  '(foundAny, start) ← scan (fuelOf d) d match_ 0;
  if foundAny : bool then
    let start := start - 1 in
    e ← skipIn (fuelOf d) d match_ start;
    result ← ofMem (mBuf d) start;
    d ← eat e d;
    buf ← wr (mBuf d) (mLength d) (Some 0);
    _ ← cassert (0 <=? mLength d);
    mret (result, false, with_buf (mLength d) buf d)
  else mret (emptyData, true, d).

(** [matchChar]: the text before the match, the matched character or NUL, and
    the object. *)
Definition matchChar (match_ : bytes) (d : Data) : outcome (Data * Z * Data) :=
  '(foundAny, pos) ← scan (fuelOf d) d match_ 0;
  if foundAny : bool then
    c ← rdc (mBuf d) (pos - 1);
    result ← ofMem (mBuf d) (pos - 1);
    d ← eat pos d;
    mret (result, c, d)
  else mret (emptyData, 0, d).

(** The scan of [parseOutsideQuotes]. *)
Fixpoint scanOutside (fuel : nat) (d : Data) (match_ : bytes) (useQuote useAngle inQ inA : bool) (pos : Z)
  : outcome (bool * Z) :=
  match fuel with
  | O => Fault OutOfFuel
  | S fuel' =>
      if pos <? mLength d then
        p ← rdc (mBuf d) pos;
        let inQ' := if (p =? 34) && (negb inA && useQuote) then negb inQ else inQ in
        let inA' := if (p =? 60) && (negb inQ && useAngle) then true
                    else if (p =? 62) && (negb inQ && useAngle) then false else inA in
        if negb inQ' && negb inA' && isIn p match_ then mret (true, pos + 1)
        else scanOutside fuel' d match_ useQuote useAngle inQ' inA' (pos + 1)
      else mret (false, pos)
  end.

Definition parseOutsideQuotes (match_ : bytes) (useQuote useAngle : bool) (d : Data)
  : outcome (Data * bool * Data) :=
  '(foundAny, pos) ← scanOutside (fuelOf d) d match_ useQuote useAngle false false 0;
  if foundAny : bool then
    pos2 ← skipIn (fuelOf d) d match_ pos;
    result ← ofMem (mBuf d) (pos - 1);
    d ← eat pos2 d;
    mret (result, false, d)
  else mret (emptyData, true, d).

(** ** Lines *)

Inductive lineState := STARTING | HAS_CR | HAS_LF | HAS_CRLF.

Fixpoint scanLine (fuel : nat) (d : Data) (state : lineState) (pos : Z) : outcome (bool * lineState * Z) :=
  match fuel with
  | O => Fault OutOfFuel
  | S fuel' =>
      if pos <? mLength d then
        p ← rdc (mBuf d) pos;
        if p =? 13 then scanLine fuel' d HAS_CR (pos + 1)
        else if p =? 10 then
          mret (true, match state with HAS_CR => HAS_CRLF | _ => HAS_LF end, pos + 1)
        else scanLine fuel' d STARTING (pos + 1)
      else mret (false, state, pos)
  end.

Definition getLine (d : Data) : outcome (Data * bool * Data) :=
  '(foundAny, state, pos) ← scanLine (fuelOf d) d STARTING 0;
  let pos2 := pos in
  let pos := match state with HAS_CRLF => pos - 1 | _ => pos end in
  if foundAny : bool then
    result ← ofMem (mBuf d) (pos - 1);
    d ← eat pos2 d;
    mret (result, false, d)
  else mret (emptyData, true, d).

(** ** Blanks *)

(** [while (firstChar < mLength && mBuf[firstChar] == ' ') firstChar++;] *)
Definition firstNonSpace (d : Data) : outcome Z := skipIn (fuelOf d) d [32] 0.

(** [while (lastChar > 0 && mBuf[lastChar] == ' ') lastChar--;] *)
Fixpoint lastNonSpace (fuel : nat) (d : Data) (lastChar : Z) : outcome Z :=
  match fuel with
  | O => Fault OutOfFuel
  | S fuel' =>
      if 0 <? lastChar then
        c ← rdc (mBuf d) lastChar;
        if c =? 32 then lastNonSpace fuel' d (lastChar - 1) else mret lastChar
      else mret lastChar
  end.

Definition removeSpaces (d : Data) : outcome Data :=
  firstChar ← firstNonSpace d;
  lastChar ← lastNonSpace (fuelOf d) d (mLength d - 1);
  if lastChar <? firstChar then erase d
  else
    let n := lastChar - firstChar + 1 in
    buf ← memmove (mBuf d) 0 firstChar n;
    buf ← wr buf n (Some 0);
    mret (with_buf n buf d).

(** A line break followed by a blank. *)
Definition foldedAt (buf : cells) (p : Z) : outcome bool :=
  c ← rdc buf p;
  if c =? 13 then
    c ← rdc buf (p + 1);
    if c =? 10 then
      c ← rdc buf (p + 2);
      mret ((c =? 32) || (c =? 9))
    else mret false
  else mret false.

(** The loop of [removeLWS]: a line break before a blank becomes two spaces. *)
Fixpoint unfoldLines (fuel : nat) (p e : Z) (buf : cells) : outcome cells :=
  match fuel with
  | O => Fault OutOfFuel
  | S fuel' =>
      if p <? e then
        folded ← foldedAt buf p;
        if folded : bool then
          buf ← wr buf p (Some 32); buf ← wr buf (p + 1) (Some 32);
          unfoldLines fuel' (p + 2) e buf
        else unfoldLines fuel' (p + 1) e buf
      else mret buf
  end.

Definition removeLWS (d : Data) : outcome Data :=
  buf ← unfoldLines (fuelOf d) 0 (mLength d - 2) (mBuf d); mret (with_buf (mLength d) buf d).

(** * Replacement *)

(** [replace(startPos, endPos, replaceStr, replaceLength)] *)
Definition replaceRange (startPos endPos : Z) (replacement : cells) (d : Data) : outcome Data :=
  let n := zlen replacement in
  _ ← cassert (startPos <? endPos);
  _ ← cassert (endPos <=? mLength d);
  d ← resize (startPos + n + (mLength d - endPos)) d;
  buf ← memmove (mBuf d) (startPos + n) endPos (mLength d - endPos + 1);
  buf ← overwrite buf startPos replacement;
  mret (with_buf (startPos + n + (mLength d - endPos)) buf d).

(** [replace(startPos, numElements, replacement)] *)
Definition replace (startPos numElements : Z) (replacement d : Data) : outcome Data :=
  _ ← cassert (startPos + numElements <=? mLength d);
  s ← slice (mBuf replacement) 0 (mLength replacement);
  replaceRange startPos (startPos + numElements) s d.

End DataStr.
