(* ===== verification/DataStrFacts.v ===== *)
(** What the operations of Data do to the text they hold: [repr d l] says that
    the object [d] holds the characters [l]; every operation of the class is
    the corresponding function on [l]. *)
From S2P Require Import Prelude DataStr.
Import DataStr.

Module DataStrFacts.

(** * Arrays *)

Lemma slice_start {A} (a b : list A) : slice (a ++ b) 0 (zlen a) = Ret a.
Proof. apply (slice_mid [] a b). Qed.

Lemma rd_app_mid {A} (a : list A) x b : rd (a ++ x :: b) (zlen a) = Ret x.
Proof.
  apply rd_Ret. unfold zlen. rewrite Nat2Z.id. split; [lia|]. now rewrite list_lookup_middle.
Qed.

Lemma wr_app_mid {A} (a : list A) x y b : wr (a ++ x :: b) (zlen a) y = Ret (a ++ y :: b).
Proof.
  unfold wr. rewrite zlen_app, zlen_cons.
  destruct (Z.leb_spec 0 (zlen a)), (Z.ltb_spec (zlen a) (zlen a + (1 + zlen b))); try zlen_lia.
  cbn [andb]. unfold zlen. now rewrite Nat2Z.id, insert_app_r_alt, Nat.sub_diag by lia.
Qed.

Lemma zlen_map {A B} (f : A -> B) l : zlen (map f l) = zlen l.
Proof. unfold zlen. now rewrite length_map. Qed.

Lemma zlen_newChars n : 0 <= n -> zlen (newChars n) = n.
Proof. intros. unfold zlen, newChars. rewrite length_replicate. lia. Qed.

Lemma mapM_Some (l : bytes) : mapM initialised (map Some l) = Ret l.
Proof. induction l as [|c l IH]; [reflexivity|]. cbn in *. now rewrite IH. Qed.

(** * The text of an object *)

Record repr (d : Data) (l : bytes) : Prop := mkRepr {
  repr_length : mLength d = zlen l;
  repr_buf : exists rest, mBuf d = map Some l ++ Some 0 :: rest;
  repr_capacity : zlen (mBuf d) = mCapacity d + 1
}.

Lemma repr_fits d l : repr d l -> zlen l <= mCapacity d.
Proof. intros [_ [rest E] H]. rewrite E, zlen_app, zlen_cons, zlen_map in H. zlen_lia. Qed.

Lemma ofStr_repr l : repr (ofStr l) l.
Proof.
  split; cbn; [reflexivity | now exists [] |]. rewrite zlen_app, zlen_map, zlen_cons, zlen_nil. lia.
Qed.

Lemma emptyData_repr : repr emptyData [].
Proof. split; [reflexivity | now eexists | reflexivity]. Qed.

Lemma rdc_repr d a c b : repr d (a ++ c :: b) -> rdc (mBuf d) (zlen a) = Ret c.
Proof.
  intros [_ [rest E] _]. unfold rdc. rewrite E, map_app. cbn [map]. rewrite <- app_assoc.
  rewrite <- (zlen_map Some a). cbn [app]. now rewrite rd_app_mid.
Qed.

Lemma rdc_repr_end d l : repr d l -> rdc (mBuf d) (zlen l) = Ret 0.
Proof. intros [_ [rest E] _]. unfold rdc. now rewrite E, <- (zlen_map Some l), rd_app_mid. Qed.

Lemma values_repr d l : repr d l -> values (mBuf d) (mLength d) = Ret l.
Proof.
  intros [E1 [rest E] _]. unfold values. rewrite E1, E, <- (zlen_map Some l), slice_start.
  apply mapM_Some.
Qed.

Lemma slice_repr d a b :
  repr d (a ++ b) -> slice (mBuf d) 0 (zlen a) = Ret (map Some a).
Proof.
  intros [_ [rest E] _]. rewrite E, map_app, <- app_assoc, <- (zlen_map Some a). apply slice_start.
Qed.

Lemma slice_repr_nul d l :
  repr d l -> slice (mBuf d) 0 (mLength d + 1) = Ret (map Some l ++ [Some 0]).
Proof.
  intros [E1 [rest E] _]. rewrite E1, E, cons_middle, app_assoc.
  replace (zlen l + 1) with (zlen (map Some l ++ [Some 0])); [apply slice_start|].
  rewrite zlen_app, zlen_map. reflexivity.
Qed.

Lemma ofMem_repr d a b : repr d (a ++ b) -> ofMem (mBuf d) (zlen a) = Ret (ofStr a).
Proof. intros H. unfold ofMem. now rewrite (slice_repr d a b). Qed.

(** Writing a text with its NUL at the start of the array. *)
Lemma overwrite_text d l buf :
  zlen l <= mCapacity d -> zlen buf = mCapacity d + 1 ->
  exists buf', overwrite buf 0 (map Some l ++ [Some 0]) = Ret buf' /\
    repr (with_buf (zlen l) buf' d) l.
Proof.
  intros Hc Hb. assert (zlen (map Some l ++ [Some 0]) = zlen l + 1) as Hl
    by (rewrite zlen_app, zlen_map; reflexivity).
  rewrite overwrite_start by lia. eexists. split; [reflexivity|].
  split; cbn; [reflexivity | eexists; now rewrite <- app_assoc |].
  rewrite <- Hb. unfold zlen in *. rewrite length_app, length_drop. lia.
Qed.

Lemma resize_repr n d l :
  repr d l -> exists d', resize n d = Ret d' /\ repr d' l /\ n <= mCapacity d' /\ mCapacity d <= mCapacity d'.
Proof.
  intros H. unfold resize. destruct (Z.ltb_spec n (mCapacity d)).
  { exists d. split; [reflexivity|]. split; [assumption | lia]. }
  pose proof (repr_fits d l H). destruct H as [E1 [rest E2] E3].
  assert (slice (mBuf d) 0 (mCapacity d + 1) = Ret (mBuf d)) as ->
    by (rewrite <- E3; rewrite <- (app_nil_r (mBuf d)) at 1; apply slice_start).
  cbn [mbind outcome_bind].
  assert (zlen (newChars (n + 1)) = n + 1) as Hn by (apply zlen_newChars; zlen_lia).
  rewrite overwrite_start by lia. eexists. split; [reflexivity|].
  split; [|cbn; lia]. split; cbn; [assumption | eexists; rewrite E2, <- app_assoc; reflexivity |].
  rewrite <- Hn at 2. unfold zlen in *. rewrite length_app, length_drop. lia.
Qed.

(** * Assignment and concatenation *)

Lemma grow_repr (c : bool) n d l :
  repr d l -> (c = false -> n <= mCapacity d) ->
  exists d', (if c then resize n d else mret d) = Ret d' /\ repr d' l /\ n <= mCapacity d'.
Proof.
  intros H Hc. destruct c.
  - destruct (resize_repr n d l H) as (d' & -> & ? & ? & ?). eauto.
  - exists d. auto.
Qed.

Lemma assign_repr data d l k :
  repr data l -> repr d k -> exists d', assign data d = Ret d' /\ repr d' l.
Proof.
  intros Hd Hk. unfold assign.
  destruct (grow_repr (mCapacity d <? mLength data) (mLength data) d k Hk) as (d' & -> & H & Hc).
  { intros. lia. }
  cbn [mbind outcome_bind]. rewrite (slice_repr_nul data l Hd). cbn [mbind outcome_bind].
  rewrite (repr_length data l Hd) in *.
  destruct (overwrite_text d' l (mBuf d') Hc (repr_capacity _ _ H)) as (buf & -> & ?). eauto.
Qed.

Lemma assignStr_repr s d k : repr d k -> exists d', assignStr s d = Ret d' /\ repr d' s.
Proof.
  intros Hk. unfold assignStr.
  destruct (grow_repr (mCapacity d <? zlen s) (zlen s) d k Hk) as (d' & -> & H & Hc); [lia|].
  cbn [mbind outcome_bind].
  destruct (overwrite_text d' s (mBuf d') Hc (repr_capacity _ _ H)) as (buf & -> & ?). eauto.
Qed.

Lemma erase_repr d l : repr d l -> exists d', erase d = Ret d' /\ repr d' [].
Proof.
  intros H. pose proof (repr_fits d l H). pose proof (zlen_nonneg l).
  destruct H as [_ [rest E] H]. unfold erase. rewrite E in *. destruct (map Some l ++ Some 0 :: rest) as [|x m] eqn:Em.
  { destruct l; discriminate. }
  assert (wr (x :: m) 0 (Some 0) = Ret (Some 0 :: m)) as -> by apply (wr_app_mid []). eexists. split; [reflexivity|].
  split; cbn; [reflexivity | now eexists | now rewrite zlen_cons in *].
Qed.

(** Writing a text with its NUL after the characters that stay. *)
Lemma overwrite_tail d l k :
  repr d l -> zlen l + zlen k <= mCapacity d ->
  exists buf, overwrite (mBuf d) (zlen l) (map Some k ++ [Some 0]) = Ret buf /\
    repr (with_buf (zlen l + zlen k) buf d) (l ++ k).
Proof.
  intros [_ [rest E] H] Hc. rewrite E, zlen_app, zlen_cons, zlen_map in H.
  rewrite E, <- (take_drop (length k) rest), app_comm_cons, <- (zlen_map Some l).
  rewrite overwrite_mid.
  2:{ rewrite length_app, length_map. cbn [length]. rewrite length_take. unfold zlen in *. lia. }
  eexists. split; [reflexivity|]. rewrite zlen_map.
  split; cbn; [now rewrite zlen_app | eexists; rewrite map_app, <- !app_assoc; reflexivity |].
  rewrite !zlen_app, !zlen_map, zlen_cons, zlen_nil. unfold zlen in *. rewrite length_drop. lia.
Qed.

Lemma plusEq_repr data d l k :
  repr data k -> repr d l -> exists d', plusEq data d = Ret d' /\ repr d' (l ++ k).
Proof.
  intros Hk Hl. unfold plusEq. rewrite (repr_length _ _ Hk), (repr_length _ _ Hl).
  destruct (grow_repr (mCapacity d <? zlen l + zlen k) (zlen l + zlen k) d l Hl) as (d' & -> & H & Hc); [lia|].
  cbn [mbind outcome_bind]. rewrite <- (repr_length _ _ Hk), (slice_repr_nul data k Hk).
  cbn [mbind outcome_bind]. rewrite (repr_length _ _ H), (repr_length _ _ Hk).
  destruct (overwrite_tail d' l k H Hc) as (buf & -> & ?). eauto.
Qed.

Lemma plusEqChar_repr c d l :
  repr d l -> exists d', plusEqChar c d = Ret d' /\ repr d' (l ++ [c]).
Proof.
  intros Hl. unfold plusEqChar. rewrite (repr_length _ _ Hl).
  destruct (grow_repr (mCapacity d <? zlen l + 1) (zlen l + 1) d l Hl) as (d' & -> & H & Hc); [lia|].
  cbn [mbind outcome_bind]. rewrite (repr_length _ _ H). destruct H as [H1 [rest E] H].
  rewrite E, zlen_app, zlen_cons, zlen_map in H.
  destruct rest as [|x rest]; [rewrite zlen_nil in H; lia|].
  rewrite E, <- (zlen_map Some l), wr_app_mid. cbn [mbind outcome_bind].
  rewrite (cons_middle (Some c)), app_assoc.
  replace (zlen (map Some l) + 1) with (zlen (map Some l ++ [Some c])) by (rewrite zlen_app; reflexivity).
  rewrite wr_app_mid. eexists. split; [reflexivity|].
  split; cbn; [now rewrite !zlen_app, zlen_map | eexists; rewrite map_app; reflexivity |].
  rewrite !zlen_app, !zlen_cons, zlen_nil, zlen_map in *. lia.
Qed.

Lemma reserve_repr n : 0 <= n -> repr (reserve n) [].
Proof.
  intros. split; cbn; [reflexivity | now eexists |]. rewrite zlen_cons, zlen_newChars; lia.
Qed.

Lemma plus_repr a data l k :
  repr a l -> repr data k -> exists d, plus a data = Ret d /\ repr d (l ++ k).
Proof.
  intros Ha Hk. unfold plus. pose proof (zlen_nonneg l). pose proof (zlen_nonneg k).
  rewrite (repr_length _ _ Ha), (repr_length _ _ Hk).
  rewrite (slice_repr a l []) by now rewrite app_nil_r. cbn [mbind outcome_bind mBuf reserve].
  set (r := reserve (zlen l + zlen k)).
  assert (zlen (Some 0 :: newChars (zlen l + zlen k)) = zlen l + zlen k + 1) as Hr
    by (rewrite zlen_cons, zlen_newChars; lia).
  rewrite overwrite_start by (rewrite zlen_map; lia). cbn [mbind outcome_bind].
  pose proof (slice_repr_nul data k Hk) as Es. rewrite (repr_length _ _ Hk) in Es. rewrite Es.
  cbn [mbind outcome_bind]. rewrite length_map.
  assert (length (drop (length l) (Some 0 :: newChars (zlen l + zlen k))) = S (length k)) as Hd
    by (rewrite length_drop; unfold zlen in *; lia).
  revert Hd. generalize (drop (length l) (Some 0 :: newChars (zlen l + zlen k))). intros tl Hd.
  rewrite <- (app_nil_r tl), <- (zlen_map Some l), overwrite_mid
    by (rewrite length_app, length_map; cbn [length]; lia).
  eexists. split; [reflexivity|]. rewrite zlen_map.
  split; cbn; [now rewrite zlen_app | exists []; now rewrite map_app, app_nil_r, <- app_assoc |].
  rewrite !zlen_app, !zlen_map, zlen_cons, !zlen_nil. lia.
Qed.

(** * Splitting *)

(** The text before the first character of a set, that character and the rest. *)
Fixpoint breakIn (m l : bytes) : option (bytes * Z * bytes) :=
  match l with
  | [] => None
  | c :: l' =>
      if isIn c m then Some ([], c, l')
      else '(b, x, r) ← breakIn m l'; Some (c :: b, x, r)
  end.

Fixpoint dropIn (m l : bytes) : bytes :=
  match l with [] => [] | c :: l' => if isIn c m then dropIn m l' else l end.

Lemma breakIn_Some m l b c r : breakIn m l = Some (b, c, r) -> l = b ++ c :: r /\ isIn c m = true.
Proof.
  revert b. induction l as [|x l IH]; intros b; cbn; [discriminate|].
  destruct (isIn x m) eqn:Hx; [intros [= <- <- <-]; auto|].
  destruct (breakIn m l) as [[[b' c'] r']|] eqn:E; cbn; [|discriminate].
  intros [= <- <- <-]. destruct (IH b' eq_refl) as [-> ?]. auto.
Qed.

Lemma breakIn_before m l b c r : breakIn m l = Some (b, c, r) -> forallb (fun x => negb (isIn x m)) b = true.
Proof.
  revert b. induction l as [|x l IH]; intros b; cbn; [discriminate|].
  destruct (isIn x m) eqn:Hx; [intros [= <- <- <-]; auto|].
  destruct (breakIn m l) as [[[b' c'] r']|] eqn:E; cbn; [|discriminate].
  intros [= <- <- <-]. cbn. rewrite Hx. now apply IH.
Qed.

Lemma dropIn_suffix m l : exists k, l = k ++ dropIn m l /\ forallb (fun x => isIn x m) k = true.
Proof.
  induction l as [|x l (k & E & Hk)]; [now exists []|]. cbn. destruct (isIn x m) eqn:Hx.
  - exists (x :: k). cbn. rewrite Hx. split; [congruence | assumption].
  - now exists [].
Qed.

Lemma fuelOf_repr d l : repr d l -> fuelOf d = S (length l).
Proof. intros [E _ _]. unfold fuelOf. rewrite E. unfold zlen. now rewrite Nat2Z.id. Qed.

Lemma zlen_snoc {A} (a : list A) x : zlen (a ++ [x]) = zlen a + 1.
Proof. rewrite zlen_app. reflexivity. Qed.

(** One turn of a loop that reads the character at the end of [a]. *)
Ltac at_char a c b :=
  match goal with H : repr ?d (a ++ c :: b) |- _ =>
    rewrite (repr_length _ _ H);
    destruct (Z.ltb_spec (zlen a) (zlen (a ++ c :: b))); [|zlen_lia];
    rewrite (rdc_repr d a c b H); cbn [mbind outcome_bind]
  end.

(** The end of such a loop. *)
Ltac at_end a :=
  match goal with H : repr ?d (a ++ []) |- _ =>
    rewrite (repr_length _ _ H), app_nil_r; destruct (Z.ltb_spec (zlen a) (zlen a)); [lia|]
  end.

Lemma scan_repr d m b : forall a fuel,
  repr d (a ++ b) -> (length b < fuel)%nat ->
  scan fuel d m (zlen a) =
    Ret match breakIn m b with
        | Some (x, _, _) => (true, zlen (a ++ x) + 1)
        | None => (false, zlen (a ++ b))
        end.
Proof.
  induction b as [|c b IH]; intros a fuel H Hf; (destruct fuel; [lia|]); cbn [scan breakIn length] in *.
  - at_end a. reflexivity.
  - at_char a c b. destruct (isIn c m); [now rewrite app_nil_r|].
    rewrite <- (zlen_snoc a c). rewrite cons_middle, app_assoc in H.
    rewrite (IH (a ++ [c]) fuel H) by lia.
    destruct (breakIn m b) as [[[x y] r]|]; cbn; now rewrite <- !app_assoc.
Qed.

Lemma skipIn_repr d m b : forall a fuel,
  repr d (a ++ b) -> (length b < fuel)%nat ->
  skipIn fuel d m (zlen a) = Ret (zlen (a ++ b) - zlen (dropIn m b)).
Proof.
  induction b as [|c b IH]; intros a fuel H Hf; (destruct fuel; [lia|]); cbn [skipIn dropIn length] in *.
  - at_end a. now rewrite zlen_nil, Z.sub_0_r.
  - at_char a c b. destruct (isIn c m).
    + rewrite <- (zlen_snoc a c). assert (a ++ c :: b = (a ++ [c]) ++ b) as E by now rewrite <- app_assoc.
      rewrite E in *. now rewrite (IH (a ++ [c]) fuel H) by lia.
    + cbn. f_equal. zlen_lia.
Qed.

Lemma eat_repr d a b : repr d (a ++ b) -> exists d', eat (zlen a) d = Ret d' /\ repr d' b.
Proof.
  intros H. pose proof (repr_length _ _ H) as E1. pose proof (repr_fits _ _ H) as Hc.
  destruct H as [_ [rest E] H]. unfold eat, memmove. rewrite E1, zlen_app.
  assert (zlen (map Some b ++ [Some 0]) = zlen b + 1) as Hl by (rewrite zlen_app, zlen_map; reflexivity).
  replace (zlen a + zlen b - zlen a + 1) with (zlen (map Some b ++ [Some 0])) by lia.
  assert (slice (mBuf d) (zlen a) (zlen (map Some b ++ [Some 0])) = Ret (map Some b ++ [Some 0])) as ->.
  { rewrite E, map_app, <- app_assoc, (cons_middle (Some 0)), (app_assoc (map Some b)), <- (zlen_map Some a).
    apply slice_mid. }
  cbn [mbind outcome_bind].
  rewrite zlen_app in Hc. pose proof (zlen_nonneg a).
  destruct (overwrite_text (with_buf (zlen b) (mBuf d) d) b (mBuf d)) as (buf & -> & Hb); [cbn; lia | assumption |].
  cbn [mbind outcome_bind]. eexists. split; [reflexivity|].
  replace (zlen a + zlen b - zlen a) with (zlen b) by lia. exact Hb.
Qed.

(** Eating the characters up to the last [b]. *)
Lemma eat_to d a b n :
  repr d (a ++ b) -> n = zlen (a ++ b) - zlen b -> exists d', eat n d = Ret d' /\ repr d' b.
Proof.
  intros H ->. replace (zlen (a ++ b) - zlen b) with (zlen a) by zlen_lia. now apply (eat_repr d a b).
Qed.

Lemma wr_nul_repr d l :
  repr d l -> exists buf, wr (mBuf d) (mLength d) (Some 0) = Ret buf /\ repr (with_buf (mLength d) buf d) l.
Proof.
  intros [E1 [rest E] H]. rewrite E1, E, <- (zlen_map Some l), wr_app_mid. eexists.
  split; [reflexivity|]. rewrite zlen_map. split; cbn; [reflexivity | eauto | congruence].
Qed.

Lemma parse_repr m d l :
  repr d l ->
  match breakIn m l with
  | Some (b, c, r) => exists d', parse m d = Ret (ofStr b, false, d') /\ repr d' (dropIn m r)
  | None => parse m d = Ret (emptyData, true, d)
  end.
Proof.
  intros H. unfold parse. pose proof (fuelOf_repr _ _ H) as Hf.
  pose proof (scan_repr d m l [] (fuelOf d) H ltac:(lia)) as Es. cbn [app] in Es. rewrite zlen_nil in Es.
  rewrite Es. clear Es. destruct (breakIn m l) as [[[b c] r]|] eqn:E; cbn [mbind outcome_bind]; [|reflexivity].
  destruct (breakIn_Some _ _ _ _ _ E) as [-> Hc].
  replace (zlen b + 1 - 1) with (zlen b) by lia.
  rewrite (skipIn_repr d m (c :: r) b _ H) by (rewrite Hf, length_app; lia).
  cbn [mbind outcome_bind dropIn]. rewrite Hc, (ofMem_repr d b _ H). cbn [mbind outcome_bind].
  destruct (dropIn_suffix m r) as (k & Ek & _).
  assert (b ++ c :: r = (b ++ c :: k) ++ dropIn m r) as Eb by (rewrite <- app_assoc; cbn; congruence).
  rewrite Eb in H |- *. destruct (eat_to d _ _ _ H eq_refl) as (d' & -> & H').
  cbn [mbind outcome_bind]. destruct (wr_nul_repr d' _ H') as (buf & -> & H2).
  cbn [mbind outcome_bind]. rewrite (repr_length _ _ H') in *.
  destruct (Z.leb_spec 0 (zlen (dropIn m r))); [|zlen_lia]. cbn. eauto.
Qed.

Lemma matchChar_repr m d l :
  repr d l ->
  match breakIn m l with
  | Some (b, c, r) => exists d', matchChar m d = Ret (ofStr b, c, d') /\ repr d' r
  | None => matchChar m d = Ret (emptyData, 0, d)
  end.
Proof.
  intros H. unfold matchChar. pose proof (fuelOf_repr _ _ H) as Hf.
  pose proof (scan_repr d m l [] (fuelOf d) H ltac:(lia)) as Es. cbn [app] in Es. rewrite zlen_nil in Es.
  rewrite Es. clear Es. destruct (breakIn m l) as [[[b c] r]|] eqn:E; cbn [mbind outcome_bind]; [|reflexivity].
  destruct (breakIn_Some _ _ _ _ _ E) as [-> Hc].
  replace (zlen b + 1 - 1) with (zlen b) by lia.
  rewrite (rdc_repr d b c r H), (ofMem_repr d b _ H). cbn [mbind outcome_bind].
  rewrite cons_middle, app_assoc in H. destruct (eat_to d _ _ (zlen b + 1) H) as (d' & -> & H').
  - rewrite zlen_app, zlen_snoc. lia.
  - cbn. eauto.
Qed.

End DataStrFacts.
