(* ===== verification/DataStrText.v ===== *)
(** The properties of Data that its clients rely on: assignment, concatenation
    and replacement keep the text, splitting functions split where they say,
    numbers survive being written and read, and the one operation that leaves
    garbage in the text. *)
From S2P Require Import Prelude DataStr DataStrFacts.
Import DataStr DataStrFacts.

Module DataStrText.

(** * Lines *)

Definition chopCR (l : bytes) : bytes :=
  match rev l with 13 :: r => rev r | _ => l end.

(** The state of the scan after the text [l]. *)
Definition crState (l : bytes) : lineState :=
  match rev l with 13 :: _ => HAS_CR | _ => STARTING end.

Lemma crState_snoc l c : crState (l ++ [c]) = if c =? 13 then HAS_CR else STARTING.
Proof.
  unfold crState. rewrite rev_app_distr. cbn. destruct (Z.eqb_spec c 13) as [-> | Hc]; [reflexivity|].
  destruct c as [|p|p]; try reflexivity. do 4 (destruct p; try reflexivity). congruence.
Qed.

Lemma isIn_single c x : isIn c [x] = (c =? x).
Proof. cbn. apply orb_false_r. Qed.

Lemma scanLine_repr d b : forall a fuel,
  repr d (a ++ b) -> (length b < fuel)%nat ->
  match breakIn [10] b with
  | Some (x, _, _) => exists st, scanLine fuel d (crState a) (zlen a) = Ret (true, st, zlen (a ++ x) + 1) /\
      match st with HAS_CRLF => crState (a ++ x) = HAS_CR | _ => crState (a ++ x) = STARTING end
  | None => exists st, scanLine fuel d (crState a) (zlen a) = Ret (false, st, zlen (a ++ b))
  end.
Proof.
  induction b as [|c b IH]; intros a fuel H Hf; (destruct fuel; [lia|]);
    cbn [scanLine breakIn length] in *.
  - at_end a. eauto.
  - at_char a c b. rewrite isIn_single.
    assert (a ++ c :: b = (a ++ [c]) ++ b) as E by now rewrite <- app_assoc. rewrite E in H.
    specialize (IH (a ++ [c]) fuel H ltac:(lia)). rewrite crState_snoc, zlen_snoc in IH.
    destruct (Z.eqb_spec c 10) as [-> | H10].
    { rewrite app_nil_r. eexists. split; [reflexivity|].
      unfold crState. destruct (rev a) as [|[|p|p] r]; try reflexivity.
      do 4 (destruct p; try reflexivity). }
    destruct (breakIn [10] b) as [[[x y] r]|]; cbn [mbind option_bind] in *.
    + destruct IH as (st & IH & Hs). exists st. rewrite <- app_assoc in IH, Hs. cbn [app] in IH, Hs.
      destruct (c =? 13); auto.
    + destruct IH as (st & IH). exists st. rewrite E. destruct (c =? 13); auto.
Qed.

Lemma chopCR_snoc l : chopCR (l ++ [13]) = l.
Proof. unfold chopCR. rewrite rev_app_distr. cbn. apply rev_involutive. Qed.

Lemma crState_chop l :
  match crState l with HAS_CR => l = chopCR l ++ [13] | _ => chopCR l = l end.
Proof.
  destruct l as [|c l] using rev_ind; [reflexivity|]. rewrite crState_snoc.
  destruct (Z.eqb_spec c 13) as [-> | Hc]; [now rewrite chopCR_snoc|].
  unfold chopCR. rewrite rev_app_distr. cbn. destruct c as [|p|p]; try reflexivity.
  do 4 (destruct p; try reflexivity). congruence.
Qed.

Lemma getLine_repr d l :
  repr d l ->
  match breakIn [10] l with
  | Some (b, _, r) => exists d', getLine d = Ret (ofStr (chopCR b), false, d') /\ repr d' r
  | None => getLine d = Ret (emptyData, true, d)
  end.
Proof.
  intros H. unfold getLine.
  pose proof (scanLine_repr d l [] (fuelOf d) H ltac:(rewrite (fuelOf_repr _ _ H); lia)) as Hs.
  cbn [app] in Hs. change (crState []) with STARTING in Hs. rewrite zlen_nil in Hs.
  destruct (breakIn [10] l) as [[[b c] r]|] eqn:E.
  2:{ destruct Hs as (st & ->). now destruct st. }
  destruct (breakIn_Some _ _ _ _ _ E) as [-> Hc]. rewrite isIn_single in Hc. apply Z.eqb_eq in Hc as ->.
  destruct Hs as (st & -> & Hst). cbn [mbind outcome_bind].
  pose proof (crState_chop b) as Hb.
  assert (ofMem (mBuf d) (match st with HAS_CRLF => zlen b + 1 - 1 | _ => zlen b + 1 end - 1) = Ret (ofStr (chopCR b))) as ->.
  { destruct st; rewrite Hst in Hb; try (rewrite Hb;
      replace (zlen b + 1 - 1) with (zlen b) by lia; now apply (ofMem_repr d b (10 :: r))).
    rewrite Hb in H |- *. rewrite chopCR_snoc in *. rewrite zlen_snoc, <- app_assoc in *.
    replace (zlen (chopCR b) + 1 + 1 - 1 - 1) with (zlen (chopCR b)) by lia.
    now apply (ofMem_repr d (chopCR b) ([13] ++ 10 :: r)). }
  cbn [mbind outcome_bind]. rewrite cons_middle, app_assoc in H.
  destruct (eat_to d _ _ (zlen b + 1) H) as (d' & -> & H'); [rewrite zlen_app, zlen_snoc; lia|].
  cbn. eauto.
Qed.


(** * Quotes *)

(** Whether the scan is inside quotes and inside angle brackets after a
    character. *)
Definition quoteStep (useQuote useAngle : bool) (st : bool * bool) (p : Z) : bool * bool :=
  let (inQ, inA) := st in
  (if (p =? 34) && (negb inA && useQuote) then negb inQ else inQ,
   if (p =? 60) && (negb inQ && useAngle) then true
   else if (p =? 62) && (negb inQ && useAngle) then false else inA).

(** The text before the first separator outside quotes and brackets, and the
    text after that separator. *)
Fixpoint breakOutside (uq ua : bool) (m : bytes) (st : bool * bool) (l : bytes) : option (bytes * bytes) :=
  match l with
  | [] => None
  | c :: l' =>
      let st := quoteStep uq ua st c in
      if negb st.1 && negb st.2 && isIn c m then Some ([], l')
      else '(b, r) ← breakOutside uq ua m st l'; Some (c :: b, r)
  end.

Lemma breakOutside_Some uq ua m l : forall st b r,
  breakOutside uq ua m st l = Some (b, r) -> exists c, l = b ++ c :: r /\ isIn c m = true.
Proof.
  induction l as [|c l IH]; intros st b r; cbn; [discriminate|].
  destruct (negb (quoteStep uq ua st c).1 && negb (quoteStep uq ua st c).2 && isIn c m) eqn:Hc.
  - intros [= <- <-]. exists c. apply andb_prop in Hc as [_ Hc]. auto.
  - destruct (breakOutside uq ua m (quoteStep uq ua st c) l) as [[b' r']|] eqn:E; cbn; [|discriminate].
    intros [= <- <-]. destruct (IH _ _ _ E) as (x & -> & ?). eauto.
Qed.

Lemma scanOutside_repr d m uq ua b : forall a fuel st,
  repr d (a ++ b) -> (length b < fuel)%nat ->
  scanOutside fuel d m uq ua st.1 st.2 (zlen a) =
    Ret match breakOutside uq ua m st b with
        | Some (x, _) => (true, zlen (a ++ x) + 1)
        | None => (false, zlen (a ++ b))
        end.
Proof.
  induction b as [|c b IH]; intros a fuel [inQ inA] H Hf; (destruct fuel; [lia|]);
    cbn [scanOutside breakOutside length fst snd] in *.
  - at_end a. reflexivity.
  - at_char a c b.
    set (inQ' := if (c =? 34) && _ then _ else _). set (inA' := if (c =? 60) && _ then _ else _).
    change (quoteStep uq ua (inQ, inA) c) with (inQ', inA'). cbn [fst snd].
    destruct (negb inQ' && negb inA' && isIn c m); [now rewrite app_nil_r|].
    assert (a ++ c :: b = (a ++ [c]) ++ b) as E by now rewrite <- app_assoc. rewrite E in *.
    rewrite <- (zlen_snoc a c). pose proof (IH (a ++ [c]) fuel (inQ', inA') H ltac:(lia)) as IH'.
    cbn [fst snd] in IH'. rewrite IH'.
    destruct (breakOutside uq ua m (inQ', inA') b) as [[x r]|]; cbn; [|reflexivity].
    now rewrite <- app_assoc.
Qed.

Lemma parseOutsideQuotes_repr m uq ua d l :
  repr d l ->
  match breakOutside uq ua m (false, false) l with
  | Some (b, r) => exists d', parseOutsideQuotes m uq ua d = Ret (ofStr b, false, d') /\ repr d' (dropIn m r)
  | None => parseOutsideQuotes m uq ua d = Ret (emptyData, true, d)
  end.
Proof.
  intros H. unfold parseOutsideQuotes.
  pose proof (scanOutside_repr d m uq ua l [] (fuelOf d) (false, false) H
    ltac:(rewrite (fuelOf_repr _ _ H); lia)) as Es.
  cbn [app fst snd] in Es. rewrite zlen_nil in Es. rewrite Es. clear Es.
  destruct (breakOutside uq ua m (false, false) l) as [[b r]|] eqn:E; cbn [mbind outcome_bind]; [|reflexivity].
  destruct (breakOutside_Some _ _ _ _ _ _ _ E) as (c & -> & Hc).
  assert (b ++ c :: r = (b ++ [c]) ++ r) as Eb by now rewrite <- app_assoc.
  pose proof (ofMem_repr d b _ H) as Hm. rewrite Eb in H. rewrite <- (zlen_snoc b c).
  rewrite (skipIn_repr d m r (b ++ [c]) _ H) by (rewrite (fuelOf_repr _ _ H), length_app; lia).
  cbn [mbind outcome_bind]. replace (zlen (b ++ [c]) - 1) with (zlen b) by zlen_lia.
  rewrite Hm. cbn [mbind outcome_bind].
  destruct (dropIn_suffix m r) as (k & Ek & _). revert Ek. generalize (dropIn m r). intros t ->.
  rewrite app_assoc in H |- *. destruct (eat_to d _ _ _ H eq_refl) as (d' & -> & H').
  cbn [mbind outcome_bind mret outcome_ret]. eauto.
Qed.

(** * Searching *)

Lemma prefixOf_app m h : prefixOf m h = true <-> exists t, h = m ++ t.
Proof.
  revert h. induction m as [|x m IH]; intros h; cbn; [split; eauto|].
  destruct h as [|y h]; [split; [discriminate | intros [t Ht]; discriminate]|].
  rewrite andb_true_iff, Z.eqb_eq, IH. split.
  - intros [-> [t ->]]. eauto.
  - intros [t [= -> ->]]. eauto.
Qed.

Lemma search_spec m l : forall i,
  match search m l i with
  | Some p => exists b, p = i + zlen b /\ (exists t, l = b ++ m ++ t) /\
      forall b' t', l = b' ++ m ++ t' -> zlen b <= zlen b'
  | None => forall b t, l <> b ++ m ++ t
  end.
Proof.
  induction l as [|c l IH]; intros i; cbn [search].
  - destruct (prefixOf m []) eqn:E.
    + apply prefixOf_app in E as [t E]. exists []. rewrite zlen_nil.
      split; [lia|]. split; [eauto|]. intros. apply zlen_nonneg.
    + intros b t Hb. destruct b; [|discriminate]. cbn in Hb.
      assert (prefixOf m [] = true) by (apply prefixOf_app; eauto). congruence.
  - destruct (prefixOf m (c :: l)) eqn:E.
    + apply prefixOf_app in E as [t E]. exists []. rewrite zlen_nil.
      split; [lia|]. split; [eauto|]. intros. apply zlen_nonneg.
    + assert (forall t, c :: l <> m ++ t) as Hno.
      { intros t Ht. assert (prefixOf m (c :: l) = true) by (apply prefixOf_app; eauto). congruence. }
      specialize (IH (i + 1)). destruct (search m l (i + 1)) as [p|].
      * destruct IH as (b & -> & (t & ->) & Hmin). exists (c :: b). rewrite zlen_cons.
        split; [lia|]. split; [eauto|]. intros [|c' b'] t' Hb.
        { now destruct (Hno t'). }
        injection Hb as -> Hb. rewrite zlen_cons. specialize (Hmin _ _ Hb). lia.
      * intros [|c' b] t Hb; [now destruct (Hno t)|]. injection Hb as -> Hb. now destruct (IH b t).
Qed.

Lemma find_repr m a b d :
  repr d (a ++ b) -> m <> [] -> zlen (a ++ b) < npos ->
  find m (zlen a) d = Ret match search m b (zlen a) with Some p => p | None => npos end.
Proof.
  intros H Hm Hn. unfold find. rewrite (values_repr _ _ H), (repr_length _ _ H).
  destruct (Z.leb_spec 0 (zlen a)), (Z.leb_spec (zlen a) (zlen (a ++ b))); try zlen_lia.
  cbn [cassert mbind outcome_bind].
  assert (drop (Z.to_nat (zlen a)) (a ++ b) = b) as -> by (unfold zlen; now rewrite Nat2Z.id, drop_app_length).
  assert (0 < zlen m) by (destruct m; [congruence | zlen_lia]).
  pose proof (search_spec m b (zlen a)) as Hs. destruct (search m b (zlen a)) as [p|].
  - destruct Hs as (b' & -> & (t & ->) & _).
    destruct (Z.eqb_spec (zlen a + zlen b') (zlen (a ++ b' ++ m ++ t))); [zlen_lia | reflexivity].
  - rewrite Z.eqb_refl. destruct (Z.eqb_spec (zlen m) 0); [lia | reflexivity].
Qed.

(** * Blanks at the ends *)

Definition trimEnd (l : bytes) : bytes := rev (dropIn [32] (rev l)).

Lemma trimEnd_snoc l c : trimEnd (l ++ [c]) = if c =? 32 then trimEnd l else l ++ [c].
Proof.
  unfold trimEnd. rewrite rev_app_distr. cbn [rev app dropIn]. rewrite isIn_single.
  destruct (c =? 32); [reflexivity|]. cbn. now rewrite rev_involutive.
Qed.

Lemma trimEnd_app a t : trimEnd t <> [] -> trimEnd (a ++ t) = a ++ trimEnd t.
Proof.
  induction t as [|c t IH] using rev_ind; [intros H; now destruct H|].
  rewrite app_assoc, !trimEnd_snoc. destruct (c =? 32); [apply IH | now rewrite app_assoc].
Qed.

Lemma trimEnd_prefix l : exists n, l = trimEnd l ++ replicate n 32.
Proof.
  induction l as [|c l (n & IH)] using rev_ind; [now exists 0%nat|].
  rewrite trimEnd_snoc. destruct (Z.eqb_spec c 32) as [-> |].
  - exists (S n). rewrite IH at 1. now rewrite <- app_assoc, <- replicate_cons_app.
  - exists 0%nat. now rewrite app_nil_r.
Qed.

Lemma dropIn_blanks l : exists n, l = replicate n 32 ++ dropIn [32] l.
Proof.
  induction l as [|c l (n & IH)]; [now exists 0%nat|]. cbn [dropIn]. rewrite isIn_single.
  destruct (Z.eqb_spec c 32) as [-> |]; [exists (S n); cbn; congruence | now exists 0%nat].
Qed.

Lemma lastNonSpace_repr d a : forall b fuel,
  repr d (a ++ b) -> (length a < fuel)%nat ->
  lastNonSpace fuel d (zlen a - 1) =
    Ret (match a with [] => -1 | _ => Z.max 0 (zlen (trimEnd a) - 1) end).
Proof.
  induction a as [|c a IH] using rev_ind; intros b fuel H Hf; (destruct fuel; [lia|]); cbn [lastNonSpace].
  { reflexivity. }
  rewrite zlen_snoc, trimEnd_snoc. replace (zlen a + 1 - 1) with (zlen a) by lia.
  rewrite length_app in Hf. cbn [length] in Hf. rewrite <- app_assoc in H. cbn [app] in H.
  replace (match a ++ [c] with [] => -1 | _ => Z.max 0 (zlen (if c =? 32 then trimEnd a else a ++ [c]) - 1) end)
    with (Z.max 0 (zlen (if c =? 32 then trimEnd a else a ++ [c]) - 1)) by now destruct a.
  rewrite (rdc_repr d a c b H). cbn [mbind outcome_bind].
  destruct (Z.ltb_spec 0 (zlen a)) as [Hpos | Hpos].
  - destruct (c =? 32); [|rewrite zlen_snoc; f_equal; lia].
    rewrite (IH (c :: b) fuel H) by lia. destruct a; [unfold zlen in Hpos; cbn in Hpos; lia | reflexivity].
  - destruct a; [|zlen_lia]. now destruct (c =? 32).
Qed.

Lemma dropIn_head l c t : dropIn [32] l = c :: t -> c <> 32.
Proof.
  induction l as [|x l IH]; cbn [dropIn]; [discriminate|]. rewrite isIn_single.
  destruct (Z.eqb_spec x 32); [assumption | congruence].
Qed.

Lemma trimEnd_cons c t : c <> 32 -> exists t', trimEnd (c :: t) = c :: t'.
Proof.
  intros Hc. induction t as [|x t IH] using rev_ind.
  - exists []. unfold trimEnd. cbn. destruct (Z.eqb_spec c 32); [contradiction | reflexivity].
  - rewrite app_comm_cons, trimEnd_snoc. destruct (x =? 32); [assumption | cbn; eauto].
Qed.

Lemma removeSpaces_repr d l :
  repr d l -> exists d', removeSpaces d = Ret d' /\ repr d' (trimEnd (dropIn [32] l)).
Proof.
  intros H. unfold removeSpaces, firstNonSpace. pose proof (fuelOf_repr _ _ H) as Hf.
  pose proof (skipIn_repr d [32] l [] (fuelOf d) H ltac:(lia)) as E1. cbn [app] in E1. rewrite (@zlen_nil Z) in E1.
  rewrite E1. clear E1. cbn [mbind outcome_bind].
  pose proof H as H0. rewrite <- (app_nil_r l) in H0. rewrite (repr_length _ _ H).
  rewrite (lastNonSpace_repr d l [] (fuelOf d) H0) by lia. clear H0 Hf. cbn [mbind outcome_bind].
  destruct (dropIn_blanks l) as (n & El). destruct (dropIn [32] l) as [|c t] eqn:Et.
  - rewrite app_nil_r in El. change (zlen (@nil Z)) with 0.
    assert (trimEnd l = []) as Htrim.
    { rewrite El. clear. induction n as [|n IH]; [reflexivity|].
      now rewrite replicate_S_end, trimEnd_snoc. }
    destruct (Z.ltb_spec (match l with [] => -1 | _ => Z.max 0 (zlen (trimEnd l) - 1) end) (zlen l - 0)).
    + destruct (erase_repr d l H) as (d' & -> & ?). eauto.
    + destruct l; [unfold zlen in *; cbn in *; lia|]. rewrite Htrim in *. change (zlen (@nil Z)) with 0 in *. zlen_lia.
  - destruct (trimEnd_cons c t (dropIn_head _ _ _ Et)) as (t' & Ht).
    assert (trimEnd l = replicate n 32 ++ trimEnd (c :: t)) as Htrim
      by (rewrite El; apply trimEnd_app; rewrite Ht; discriminate).
    replace (match l with [] => -1 | _ => Z.max 0 (zlen (trimEnd l) - 1) end) with (zlen (trimEnd l) - 1)
      by (rewrite Htrim, Ht; destruct l; [destruct n; discriminate | zlen_lia]).
    rewrite Htrim. destruct (trimEnd_prefix (c :: t)) as (k & Ek).
    set (u := trimEnd (c :: t)) in *. clearbody u. rewrite Ek in El. subst l.
    set (sp := replicate n 32) in *. clearbody sp. subst u.
    destruct (Z.ltb_spec (zlen (sp ++ c :: t') - 1) (zlen (sp ++ (c :: t') ++ replicate k 32) - zlen (c :: t)));
      [rewrite Ek in *; zlen_lia|].
    rewrite Ek. replace (zlen (sp ++ (c :: t') ++ replicate k 32) - zlen ((c :: t') ++ replicate k 32)) with (zlen sp) by zlen_lia.
    replace (zlen (sp ++ c :: t') - 1 - zlen sp + 1) with (zlen (c :: t')) by zlen_lia.
    clear - H. revert H. generalize (c :: t'). intros u H.
    pose proof (repr_capacity _ _ H) as Hc. destruct H as [_ [rest E] _]. rewrite E in *.
    rewrite !map_app, <- !app_assoc in *. unfold memmove.
    rewrite <- (zlen_map Some sp), <- (zlen_map Some u), slice_mid. cbn [mbind outcome_bind].
    rewrite overwrite_start by zlen_lia. cbn [mbind outcome_bind].
    destruct (drop (length (map Some u)) (map Some sp ++ map Some u ++ map Some (replicate k 32) ++ Some 0 :: rest))
      as [|x tl] eqn:Ed.
    { apply (f_equal length) in Ed. rewrite length_drop, !length_app in Ed. cbn [length] in Ed. lia. }
    rewrite wr_app_mid. cbn. eexists. split; [reflexivity|]. rewrite zlen_map.
    split; cbn; [reflexivity | eauto |]. rewrite <- Hc.
    apply (f_equal zlen) in Ed. unfold zlen in *. rewrite length_drop, !length_app in Ed.
    rewrite !length_app in *. cbn [length] in *. lia.
Qed.

(** * Numbers *)

(** The decimal digits of a positive number. *)
Fixpoint decimal (fuel : nat) (v : Z) : bytes :=
  match fuel with
  | O => []
  | S fuel' => if v =? 0 then [] else decimal fuel' (v / 10) ++ [48 + v mod 10]
  end.

Lemma decimal_fuel n : forall k v, 0 <= v < 10 ^ Z.of_nat n -> (n <= k)%nat -> decimal k v = decimal n v.
Proof.
  induction n as [|n IH]; intros k v Hv Hk.
  - replace v with 0 by lia. now destruct k.
  - destruct k as [|k]; [lia|]. cbn [decimal]. destruct (v =? 0); [reflexivity|].
    rewrite (IH k); [reflexivity | | lia].
    replace (10 ^ Z.of_nat (S n)) with (10 * 10 ^ Z.of_nat n) in Hv
      by (rewrite Nat2Z.inj_succ, Z.pow_succ_r; lia).
    split; [apply Z.div_pos; lia | apply Z.div_lt_upper_bound; lia].
Qed.

Lemma digitCount_decimal n : forall v c fuel,
  0 < v < 10 ^ Z.of_nat n -> (n <= fuel)%nat ->
  digitCount fuel v c = Ret (c + zlen (decimal n v) - 1).
Proof.
  induction n as [|n IH]; intros v c fuel Hv Hf; [cbn in Hv; lia|].
  destruct fuel as [|fuel]; [lia|]. cbn [digitCount decimal]. rewrite Z.quot_div_nonneg by lia.
  destruct (Z.eqb_spec v 0); [lia|]. rewrite zlen_snoc.
  replace (10 ^ Z.of_nat (S n)) with (10 * 10 ^ Z.of_nat n) in Hv
    by (rewrite Nat2Z.inj_succ, Z.pow_succ_r; lia).
  destruct (Z.eqb_spec (v / 10) 0) as [E | E].
  - rewrite E. destruct n; cbn [decimal]; [|rewrite Z.eqb_refl]; change (zlen (@nil Z)) with 0; f_equal; lia.
  - rewrite IH; [f_equal; lia | | lia]. pose proof (Z.div_pos v 10).
    split; [lia | apply Z.div_lt_upper_bound; lia].
Qed.

Lemma putDigits_decimal n : forall v a b tl fuel,
  0 <= v < 10 ^ Z.of_nat n -> (n < fuel)%nat -> length b = length (decimal n v) ->
  putDigits fuel v (zlen (a ++ b) - 1) (a ++ b ++ tl) = Ret (a ++ map Some (decimal n v) ++ tl).
Proof.
  induction n as [|n IH]; intros v a b tl fuel Hv Hf Hb; (destruct fuel as [|fuel]; [lia|]);
    cbn [putDigits decimal] in *.
  - replace v with 0 by lia. cbn. destruct b; [reflexivity | discriminate].
  - destruct (Z.eqb_spec v 0) as [-> | Hv0]; [destruct b; [reflexivity | discriminate]|].
    rewrite length_app in Hb. cbn [length] in Hb. destruct b as [|x b] using rev_ind; [cbn in Hb; lia|].
    clear IHb. rewrite length_app in Hb. cbn [length] in Hb.
    rewrite Z.quot_div_nonneg, Z.rem_mod_nonneg by lia.
    replace (zlen (a ++ b ++ [x]) - 1) with (zlen (a ++ b)) by zlen_lia.
    rewrite <- app_assoc. cbn [app]. rewrite app_assoc, wr_app_mid. cbn [mbind outcome_bind].
    rewrite <- app_assoc. rewrite IH.
    + now rewrite map_app, <- app_assoc.
    + replace (10 ^ Z.of_nat (S n)) with (10 * 10 ^ Z.of_nat n) in Hv
        by (rewrite Nat2Z.inj_succ, Z.pow_succ_r; lia).
      split; [apply Z.div_pos; lia | apply Z.div_lt_upper_bound; lia].
    + lia.
    + lia.
Qed.

Lemma decimal_digits n v c : In c (decimal n v) -> 48 <= c <= 57.
Proof.
  revert v. induction n as [|n IH]; intros v; cbn; [tauto|]. destruct (v =? 0); [easy|].
  intros [H | [<- | []]]%in_app_iff; [eauto|]. pose proof (Z.mod_pos_bound v 10). lia.
Qed.

(** The number written by the digits [l] after [val]. *)
Definition digitsValue (val : Z) (l : bytes) : Z := fold_left (fun v c => v * 10 + (c - 48)) l val.

Lemma digitsValue_mono l : forall val, 0 <= val -> Forall (fun c => 48 <= c <= 57) l -> val <= digitsValue val l.
Proof.
  induction l as [|c l IH]; intros val Hv Hl; cbn; [lia|].
  apply Forall_cons_1 in Hl as [Hc Hl]. etrans; [|apply IH; [lia | assumption]]. lia.
Qed.

Lemma digitsValue_decimal n v : 0 <= v < 10 ^ Z.of_nat n -> digitsValue 0 (decimal n v) = v.
Proof.
  revert v. induction n as [|n IH]; intros v Hv; cbn [decimal]; [cbn in *; lia|].
  destruct (Z.eqb_spec v 0) as [-> | Hv0]; [reflexivity|].
  replace (10 ^ Z.of_nat (S n)) with (10 * 10 ^ Z.of_nat n) in Hv
    by (rewrite Nat2Z.inj_succ, Z.pow_succ_r; lia).
  unfold digitsValue in *. rewrite fold_left_app, IH; cbn.
  - Z.to_euclidean_division_equations; lia.
  - split; [apply Z.div_pos; lia | apply Z.div_lt_upper_bound; lia].
Qed.

Lemma getDigits_value d b : forall a val fuel,
  repr d (a ++ b) -> (length b <= fuel)%nat -> Forall (fun c => 48 <= c <= 57) b ->
  0 <= val -> digitsValue val b < 2147483648 ->
  getDigits fuel s32 (mBuf d) (zlen a) (zlen b) val = Ret (digitsValue val b).
Proof.
  induction b as [|c b IH]; intros a val fuel H Hf Hb Hv Hmax.
  - now destruct fuel.
  - destruct fuel as [|fuel]; cbn [length] in Hf; [lia|]. cbn [getDigits].
    destruct (Z.eqb_spec (zlen (c :: b)) 0); [zlen_lia|].
    apply Forall_cons_1 in Hb as [Hc Hb].
    rewrite (rdc_repr d a c b H). cbn [mbind outcome_bind].
    destruct (Z.leb_spec 48 c), (Z.leb_spec c 57); try lia. cbn [andb].
    change (digitsValue val (c :: b)) with (digitsValue (val * 10 + (c - 48)) b) in *.
    pose proof (digitsValue_mono b (val * 10 + (c - 48)) ltac:(lia) Hb).
    rewrite (swrap_small 32 (val * 10)), (swrap_small 32 (val * 10 + (c - 48))) by lia. rewrite <- (zlen_snoc a c).
    replace (zlen (c :: b) - 1) with (zlen b) by zlen_lia.
    apply IH; try assumption; try lia. now rewrite <- app_assoc.
Qed.

Lemma skipSpace_none d l fuel x :
  repr d l -> (0 < fuel)%nat -> rdc (mBuf d) 0 = Ret x -> isspace x = false ->
  skipSpace fuel (mBuf d) 0 (mLength d) = Ret (0, mLength d).
Proof. intros H Hf Hx Hs. destruct fuel; [lia|]. cbn [skipSpace]. rewrite Hx. cbn. now rewrite Hs. Qed.

(** The text of a number. *)
Definition decimalText (v : Z) : bytes :=
  if v =? 0 then [48] else (if v <? 0 then [45] else []) ++ decimal 10 (Z.abs v).

Lemma ofInt_repr v :
  -2147483648 < v < 2147483648 -> exists d, ofInt v = Ret d /\ repr d (decimalText v).
Proof.
  intros Hv. unfold ofInt, decimalText. destruct (Z.eqb_spec v 0).
  { eexists. split; [reflexivity|]. split; [reflexivity | now exists [] | reflexivity]. }
  set (neg := v <? 0). assert ((if neg then s32 (- v) else v) = Z.abs v) as ->.
  { subst neg. destruct (Z.ltb_spec v 0); [rewrite swrap_small by lia|]; lia. }
  assert (0 < Z.abs v < 10 ^ Z.of_nat 10) as Ha by (cbn; lia).
  rewrite (digitCount_decimal 10 _ _ _ Ha) by (unfold digitFuel; lia). cbn [mbind outcome_bind].
  set (dg := decimal 10 (Z.abs v)). rewrite Z.add_0_l.
  set (c := if neg then zlen dg - 1 + 1 else zlen dg - 1).
  assert (c + 1 = zlen (if neg then [None : option Z] else []) + zlen dg) as Hc
    by (subst c; destruct neg; unfold zlen; cbn [length]; lia).
  assert (newChars (c + 2) = (if neg then [None] else []) ++ replicate (length dg) None ++ [None]) as ->.
  { unfold newChars. rewrite <- replicate_S_end. subst c.
    destruct neg; unfold zlen; cbn [app]; rewrite <- ?replicate_S; f_equal; lia. }
  rewrite app_assoc, Hc.
  replace (zlen (if neg then [None : option Z] else []) + zlen dg)
    with (zlen ((if neg then [None : option Z] else []) ++ replicate (length dg) None))
    by (unfold zlen; rewrite length_app, length_replicate; lia).
  rewrite wr_app_mid. cbn [mbind outcome_bind].
  rewrite <- app_assoc.
  assert (c = zlen ((if neg then [None : option Z] else []) ++ replicate (length dg) None) - 1) as ->
    by (unfold zlen in *; rewrite length_app, length_replicate; lia).
  rewrite (putDigits_decimal 10) by first [lia | unfold digitFuel; lia | now rewrite length_replicate].
  cbn [mbind outcome_bind]. fold dg.
  assert (exists buf, (if neg then wr ((if neg then [None] else []) ++ map Some dg ++ [Some 0]) 0 (Some 45)
      else mret ((if neg then [None] else []) ++ map Some dg ++ [Some 0])) = Ret buf /\
      buf = map Some ((if neg then [45] else []) ++ dg) ++ [Some 0]) as (buf & -> & ->).
  { destruct neg; cbn [app]; [|eauto]. eexists. split; [apply (wr_app_mid [])|]. reflexivity. }
  cbn [mbind outcome_bind mret outcome_ret]. eexists. split; [reflexivity|].
  match goal with |- repr (mkData ?n _ _) _ => replace n with (zlen ((if neg then [45] else []) ++ dg)) end.
  - apply ofStr_repr.
  - unfold zlen. rewrite !length_app, length_replicate. destruct neg; cbn [length]; lia.
Qed.

Lemma isspace_digit c : 48 <= c <= 57 -> isspace c = false.
Proof. intros. unfold isspace. lia. Qed.

Lemma convertInt_text d (neg : bool) dg :
  Forall (fun c => 48 <= c <= 57) dg -> dg <> [] -> digitsValue 0 dg < 2147483648 ->
  repr d ((if neg then [45] else []) ++ dg) ->
  convertInt d = Ret (if neg then - digitsValue 0 dg else digitsValue 0 dg).
Proof.
  intros Hd Hne Hmax H. unfold convertInt, convert.
  destruct dg as [|x dg]; [congruence|].
  pose proof (digitsValue_mono (x :: dg) 0 ltac:(lia) Hd) as Hpos.
  assert (S (S (length dg)) <= length (mBuf d))%nat as Hf.
  { destruct H as [_ [r ->] _]. rewrite length_app, length_map, length_app. cbn [length]. lia. }
  generalize dependent (length (mBuf d)). intros fuel Hf.
  assert (48 <= x <= 57) as Hx by now apply Forall_cons_1 in Hd.
  destruct neg; cbn [app] in H.
  - rewrite (skipSpace_none d _ fuel 45 H) by (try lia; try reflexivity; apply (rdc_repr d [] 45 _ H)).
    pose proof (rdc_repr d [] 45 _ H) as E. change (zlen (@nil Z)) with 0 in E. cbn [mbind outcome_bind].
    rewrite E. cbn [mbind outcome_bind Z.eqb Pos.eqb]. rewrite (repr_length _ _ H).
    pose proof (getDigits_value d (x :: dg) [45] 0 fuel H ltac:(cbn [length]; lia) Hd ltac:(lia) Hmax) as E2.
    replace (zlen (45 :: x :: dg) - 1) with (zlen (x :: dg)) by zlen_lia.
    change (zlen [45]) with (0 + 1) in E2. rewrite E2. cbn [mbind outcome_bind mret outcome_ret].
    rewrite swrap_small by lia. reflexivity.
  - rewrite (skipSpace_none d _ fuel x H) by (try lia; try (now apply isspace_digit); apply (rdc_repr d [] x _ H)).
    pose proof (rdc_repr d [] x _ H) as E. change (zlen (@nil Z)) with 0 in E. cbn [mbind outcome_bind].
    rewrite E. cbn [mbind outcome_bind]. destruct (Z.eqb_spec x 45); [lia|]. rewrite (repr_length _ _ H).
    pose proof (getDigits_value d (x :: dg) [] 0 fuel H ltac:(cbn [length]; lia) Hd ltac:(lia) Hmax) as E2.
    change (zlen (@nil Z)) with 0 in E2. rewrite E2. cbn [mbind outcome_bind mret outcome_ret].
    rewrite swrap_small by lia. reflexivity.
Qed.

Lemma decimal_nonempty v n : 0 < v -> decimal (S n) v <> [].
Proof.
  intros Hv. cbn [decimal]. destruct (Z.eqb_spec v 0); [lia|]. intros E. now apply app_eq_nil in E as [_ ?].
Qed.

Lemma convertInt_decimal d v :
  -2147483648 < v < 2147483648 -> repr d (decimalText v) -> convertInt d = Ret v.
Proof.
  intros Hv H. unfold decimalText in H. destruct (Z.eqb_spec v 0) as [-> | Hv0].
  - apply (convertInt_text d false [48]); try assumption; try discriminate; repeat constructor; lia.
  - assert (digitsValue 0 (decimal 10 (Z.abs v)) = Z.abs v) as E by (apply digitsValue_decimal; cbn; lia).
    rewrite (convertInt_text d (v <? 0) (decimal 10 (Z.abs v))); try assumption.
    + rewrite E. destruct (Z.ltb_spec v 0); f_equal; lia.
    + apply List.Forall_forall. apply decimal_digits.
    + apply decimal_nonempty. lia.
    + rewrite E. lia.
Qed.

(** * Replacement and parts *)

Lemma replace_text_repr a b c r data d :
  repr d (a ++ b ++ c) -> repr data r -> b <> [] ->
  exists d', replace (zlen a) (zlen b) data d = Ret d' /\ repr d' (a ++ r ++ c).
Proof.
  intros H Hr Hb. unfold replace, replaceRange.
  assert (slice (mBuf data) 0 (mLength data) = Ret (map Some r)) as ->.
  { rewrite (repr_length _ _ Hr). apply (slice_repr data r []). now rewrite app_nil_r. }
  rewrite (repr_length _ _ H).
  assert (0 < zlen b) by (destruct b; [congruence | zlen_lia]).
  destruct (Z.leb_spec (zlen a + zlen b) (zlen (a ++ b ++ c))); [|zlen_lia].
  destruct (Z.ltb_spec (zlen a) (zlen a + zlen b)); [|lia].
  cbn [cassert mbind outcome_bind]. destruct (Z.leb_spec (zlen a + zlen b) (zlen (a ++ b ++ c))); [|lia].
  cbn [cassert mbind outcome_bind]. rewrite zlen_map.
  replace (zlen (a ++ b ++ c) - (zlen a + zlen b)) with (zlen c) by zlen_lia.
  destruct (resize_repr (zlen a + zlen r + zlen c) d _ H) as (d1 & -> & Hd1 & Hc & _).
  cbn [mbind outcome_bind]. rewrite (repr_length _ _ Hd1). unfold memmove.
  replace (zlen (a ++ b ++ c) - (zlen a + zlen b)) with (zlen c) by zlen_lia.
  pose proof (repr_capacity _ _ Hd1) as Hcap. destruct Hd1 as [_ [rest E] _].
  set (tail := map Some c ++ [Some 0]).
  assert (zlen tail = zlen c + 1) as Ht by (subst tail; rewrite zlen_app, zlen_map; reflexivity).
  assert (mBuf d1 = (map Some a ++ map Some b) ++ tail ++ rest) as E'
    by (rewrite E; subst tail; rewrite !map_app, <- !app_assoc; reflexivity).
  assert (slice (mBuf d1) (zlen a + zlen b) (zlen c + 1) = Ret tail) as ->.
  { rewrite E', <- Ht, <- (zlen_map Some a), <- (zlen_map Some b), <- zlen_app. apply slice_mid. }
  cbn [mbind outcome_bind].
  destruct (overwrite (mBuf d1) (zlen a + zlen r) tail) as [buf|] eqn:Eo.
  2:{ unfold overwrite in Eo. destruct (Z.leb_spec 0 (zlen a + zlen r)), (Z.leb_spec (zlen a + zlen r + zlen tail) (zlen (mBuf d1)));
        cbn [andb] in Eo; try discriminate; zlen_lia. }
  cbn [mbind outcome_bind].
  pose proof (overwrite_Ret_zlen _ _ _ _ Eo) as Hlen.
  unfold overwrite in Eo. destruct (Z.leb_spec 0 (zlen a + zlen r)), (Z.leb_spec (zlen a + zlen r + zlen tail) (zlen (mBuf d1)));
    cbn [andb] in Eo; try discriminate. injection Eo as Eo.
  assert (exists m post, buf = map Some a ++ m ++ tail ++ post /\ length m = length r) as (m & post & -> & Hm).
  { eexists (take (length r) (drop (length a) (mBuf d1))), _. split.
    - rewrite <- Eo.
      assert (take (Z.to_nat (zlen a + zlen r)) (mBuf d1) =
        map Some a ++ take (length r) (drop (length a) (mBuf d1))) as ->; [|now rewrite <- app_assoc].
      rewrite E', <- !app_assoc.
      replace (Z.to_nat (zlen a + zlen r)) with (length (map Some a) + length r)%nat
        by (rewrite length_map; unfold zlen; lia).
      now rewrite take_app_add, <- (length_map Some a), drop_app_length.
    - rewrite length_take, length_drop. unfold zlen in *. lia. }
  rewrite <- (zlen_map Some a), overwrite_mid by now rewrite length_map.
  eexists. split; [reflexivity|]. rewrite zlen_map. split; cbn.
  - zlen_lia.
  - exists post. subst tail. rewrite !map_app, <- !app_assoc. reflexivity.
  - rewrite <- Hcap, <- Hlen. unfold zlen. rewrite !length_app, !length_map. lia.
Qed.

Lemma substring_repr a b c d :
  repr d (a ++ b ++ c) -> zlen (a ++ b) < npos -> substring (zlen a) (zlen (a ++ b)) d = Ret (ofStr b).
Proof.
  intros H Hn. unfold substring. rewrite (repr_length _ _ H).
  destruct (Z.eqb_spec (zlen (a ++ b)) (-1)); [zlen_lia|].
  destruct (Z.eqb_spec (zlen (a ++ b)) npos); [lia|]. cbn [orb].
  destruct (Z.leb_spec (zlen a) (zlen (a ++ b))), (Z.leb_spec 0 (zlen a)),
    (Z.leb_spec (zlen (a ++ b)) (zlen (a ++ b ++ c))); try zlen_lia. cbn [cassert mbind outcome_bind].
  destruct H as [_ [rest E] _]. rewrite E, !map_app, <- !app_assoc.
  replace (zlen (a ++ b) - zlen a) with (zlen (map Some b)) by (rewrite zlen_map; zlen_lia).
  rewrite <- (zlen_map Some a), slice_mid. cbn [mbind outcome_bind mret outcome_ret]. now rewrite zlen_map.
Qed.

(** * Garbage *)

Lemma setchar_inside a x b c d :
  repr d (a ++ x :: b) -> exists d', setchar (zlen a) c d = Ret d' /\ repr d' (a ++ c :: b).
Proof.
  intros H. unfold setchar. rewrite (repr_length _ _ H).
  destruct (Z.leb_spec (zlen (a ++ x :: b)) (zlen a)); [zlen_lia|]. cbn [mbind outcome_bind mret outcome_ret].
  rewrite (repr_length _ _ H). destruct (Z.ltb_spec (zlen a) (zlen (a ++ x :: b))); [|lia].
  cbn [cassert mbind outcome_bind]. destruct H as [E1 [rest E] Hc].
  rewrite E, map_app in *. cbn [map] in *. rewrite <- app_assoc in *. cbn [app] in *.
  rewrite <- (zlen_map Some a), wr_app_mid. eexists. split; [reflexivity|]. split; cbn.
  - now rewrite !zlen_app, !zlen_cons.
  - exists rest. now rewrite map_app, <- app_assoc.
  - rewrite <- Hc. unfold zlen. now rewrite !length_app.
Qed.

End DataStrText.
