(* ===== verification/DataStrProps.v ===== *)
(** The properties of Data, stated on the text of the objects. *)
From S2P Require Import Prelude DataStr DataStrFacts DataStrText.
Import DataStr DataStrFacts DataStrText.

Module DataStrProps.

Lemma copy_repr d l : repr d l -> copy d = Ret (ofStr l).
Proof. intros H. unfold copy. rewrite (slice_repr_nul _ _ H). cbn [mbind outcome_bind]. now rewrite (repr_length _ _ H). Qed.

Lemma getChar_repr d a x b : repr d (a ++ x :: b) -> getChar (zlen a) d = Ret x.
Proof.
  intros H. unfold getChar. rewrite (repr_length _ _ H), cassert_true by zlen_lia. exact (rdc_repr d a x b H).
Qed.

(** C35: an object [d] that holds a text [l] implements these operations on the
    text, whatever the capacities of the objects are: copying it, assigning
    another text to it, appending a text or a character, adding two texts,
    emptying it, taking the text between two positions inside it, replacing a
    part that is not empty, reading a character and overwriting one that is
    there, cutting the text at the first character of a set (with or without
    the run of such characters after it), cutting off a line, and dropping the
    spaces around the text.  Each returns, and the objects it leaves hold the
    expected texts.  The other operations of the class are not part of this:
    writing a character at or beyond the end and [match] with a replacement do
    not have such a contract. *)
Theorem data_holds_text d l :
  repr d l ->
  (exists d', copy d = Ret d' /\ repr d' l) /\
  (forall data k, repr data k -> exists d', assign data d = Ret d' /\ repr d' k) /\
  (forall data k, repr data k -> exists d', plusEq data d = Ret d' /\ repr d' (l ++ k)) /\
  (forall data k, repr data k -> exists d', plus d data = Ret d' /\ repr d' (l ++ k)) /\
  (forall c, exists d', plusEqChar c d = Ret d' /\ repr d' (l ++ [c])) /\
  (exists d', erase d = Ret d' /\ repr d' []) /\
  (forall a b c, l = a ++ b ++ c -> zlen (a ++ b) < npos ->
     exists d', substring (zlen a) (zlen (a ++ b)) d = Ret d' /\ repr d' b) /\
  (forall a b c data r, l = a ++ b ++ c -> b <> [] -> repr data r ->
     exists d', replace (zlen a) (zlen b) data d = Ret d' /\ repr d' (a ++ r ++ c)) /\
  (forall a x b, l = a ++ x :: b -> getChar (zlen a) d = Ret x /\
     forall c, exists d', setchar (zlen a) c d = Ret d' /\ repr d' (a ++ c :: b)) /\
  (forall m, match breakIn m l with
     | Some (b, c, r) =>
         (exists p d', parse m d = Ret (p, false, d') /\ repr p b /\ repr d' (dropIn m r)) /\
         (exists p d', matchChar m d = Ret (p, c, d') /\ repr p b /\ repr d' r)
     | None => parse m d = Ret (emptyData, true, d) /\ matchChar m d = Ret (emptyData, 0, d)
     end) /\
  match breakIn [10] l with
  | Some (b, _, r) => exists p d', getLine d = Ret (p, false, d') /\ repr p (chopCR b) /\ repr d' r
  | None => getLine d = Ret (emptyData, true, d)
  end /\
  (exists d', removeSpaces d = Ret d' /\ repr d' (trimEnd (dropIn [32] l))).
Proof.
  intros H. split; [exists (ofStr l); split; [now apply copy_repr | apply ofStr_repr]|].
  split; [intros; eapply assign_repr; eauto|]. split; [intros; now apply plusEq_repr|]. split; [intros; now apply plus_repr|].
  split; [intros; now apply plusEqChar_repr|]. split; [eapply erase_repr; eauto|].
  split; [intros a b c -> Hn; exists (ofStr b); split; [eapply substring_repr; eauto | apply ofStr_repr]|].
  split; [intros a b c data r -> Hb Hr; now apply replace_text_repr|].
  split; [intros a x b ->; split; [now apply getChar_repr with b | intros c; eapply setchar_inside; eauto]|].
  split; [|split; [|now apply removeSpaces_repr]].
  - intros m. pose proof (parse_repr m d l H) as Hp. pose proof (matchChar_repr m d l H) as Hm.
    destruct (breakIn m l) as [[[b c] r]|]; [|now split]. destruct Hp as (d1 & E1 & H1), Hm as (d2 & E2 & H2).
    split; [exists (ofStr b), d1 | exists (ofStr b), d2]; auto using ofStr_repr.
  - pose proof (getLine_repr d l H) as Hg. destruct (breakIn [10] l) as [[[b c] r]|]; [|exact Hg].
    destruct Hg as (d' & E & H'). exists (ofStr (chopCR b)), d'. auto using ofStr_repr.
Qed.

Lemma breakIn_here m b c r :
  forallb (fun x => negb (isIn x m)) b = true -> isIn c m = true -> breakIn m (b ++ c :: r) = Some (b, c, r).
Proof.
  intros Hb Hc. induction b as [|x b IH]; cbn; [now rewrite Hc|].
  cbn in Hb. apply andb_prop in Hb as [Hx Hb]. apply negb_true_iff in Hx. rewrite Hx, IH by assumption.
  reflexivity.
Qed.

Lemma breakIn_never m l : forallb (fun x => negb (isIn x m)) l = true -> breakIn m l = None.
Proof.
  induction l as [|x l IH]; cbn; [reflexivity|]. intros [Hx Hl]%andb_prop.
  apply negb_true_iff in Hx. now rewrite Hx, IH.
Qed.

Lemma dropIn_here m k r :
  forallb (fun x => isIn x m) k = true -> match r with x :: _ => isIn x m = false | [] => True end ->
  dropIn m (k ++ r) = r.
Proof.
  intros Hk Hr. induction k as [|x k IH]; cbn.
  - destruct r; cbn; [reflexivity | now rewrite Hr].
  - cbn in Hk. apply andb_prop in Hk as [-> Hk]. auto.
Qed.

(** [parse] returns the text before the first character of the set and
    leaves the text after the whole run of such characters, [matchChar] leaves
    the text after the first one; without such a character both return the
    empty text, report the failure and leave the object as it was. *)
Theorem parse_splits m d b c k r :
  repr d (b ++ c :: k ++ r) ->
  forallb (fun x => negb (isIn x m)) b = true -> isIn c m = true ->
  forallb (fun x => isIn x m) k = true -> match r with x :: _ => isIn x m = false | [] => True end ->
  (exists d', parse m d = Ret (ofStr b, false, d') /\ repr d' r) /\
  (exists d', matchChar m d = Ret (ofStr b, c, d') /\ repr d' (k ++ r)) /\
  (forall d0, repr d0 b -> parse m d0 = Ret (emptyData, true, d0) /\ matchChar m d0 = Ret (emptyData, 0, d0)).
Proof.
  intros H Hb Hc Hk Hr. pose proof (breakIn_here m b c (k ++ r) Hb Hc) as E.
  pose proof (parse_repr m d _ H) as Hp. pose proof (matchChar_repr m d _ H) as Hm.
  rewrite E in Hp, Hm. rewrite dropIn_here in Hp by assumption. split; [exact Hp|]. split; [exact Hm|].
  intros d0 H0. pose proof (parse_repr m d0 _ H0) as Hp0. pose proof (matchChar_repr m d0 _ H0) as Hm0.
  rewrite (breakIn_never m b Hb) in Hp0, Hm0. auto.
Qed.

(** [getLine] splits at the end of the first line, which is LF or CRLF and
    belongs to neither part, so that an empty line is returned as such; a text
    without LF is left alone. *)
Theorem getLine_splits d line eol rest :
  repr d (line ++ eol ++ rest) ->
  forallb (fun x => negb (x =? 10)) line = true ->
  eol = [13; 10] \/ eol = [10] /\ crState line = STARTING ->
  (exists d', getLine d = Ret (ofStr line, false, d') /\ repr d' rest) /\
  (forall d0, repr d0 line -> getLine d0 = Ret (emptyData, true, d0)).
Proof.
  intros H Hl He.
  assert (forallb (fun x => negb (isIn x [10])) line = true) as Hl'.
  { rewrite <- Hl. clear. induction line as [|x l IH]; [reflexivity|]. cbn in *. now rewrite orb_false_r, IH. }
  split.
  - pose proof (getLine_repr d _ H) as Hg. destruct He as [-> | [-> Hs]].
    + replace (line ++ [13; 10] ++ rest) with ((line ++ [13]) ++ 10 :: rest) in Hg by now rewrite <- app_assoc.
      rewrite (breakIn_here [10] (line ++ [13]) 10 rest) in Hg;
        [now rewrite chopCR_snoc in Hg | rewrite forallb_app, Hl'; reflexivity | reflexivity].
    + cbn [app] in Hg. rewrite (breakIn_here [10] line 10 rest Hl' eq_refl) in Hg.
      pose proof (crState_chop line) as Hc. rewrite Hs in Hc. now rewrite Hc in Hg.
  - intros d0 H0. pose proof (getLine_repr d0 _ H0) as Hg. now rewrite (breakIn_never [10] line Hl') in Hg.
Qed.

(** The text of an int is read back as that int. *)
Theorem int_text_roundtrip v :
  -2147483648 < v < 2147483648 -> exists d, ofInt v = Ret d /\ convertInt d = Ret v.
Proof.
  intros Hv. destruct (ofInt_repr v Hv) as (d & E & H). exists d. split; [exact E|].
  now apply convertInt_decimal.
Qed.

(** [find] returns the first position from [start] at which the pattern
    occurs, and [npos] exactly when there is none. *)
Theorem find_first m a b d :
  repr d (a ++ b) -> m <> [] -> zlen (a ++ b) < npos ->
  exists p, find m (zlen a) d = Ret p /\
    (p <> npos -> exists x t, b = x ++ m ++ t /\ p = zlen (a ++ x) /\
       forall x' t', b = x' ++ m ++ t' -> zlen x <= zlen x') /\
    (p = npos -> forall x t, b <> x ++ m ++ t).
Proof.
  intros H Hm Hn. rewrite (find_repr m a b d H Hm Hn).
  pose proof (search_spec m b (zlen a)) as Hs. destruct (search m b (zlen a)) as [p|].
  - destruct Hs as (x & -> & (t & Eb) & Hmin). eexists. split; [reflexivity|]. split.
    + intros _. exists x, t. rewrite zlen_app. auto.
    + intros Hp. subst b. zlen_lia.
  - eexists. split; [reflexivity|]. split; [congruence | auto].
Qed.

(** [removeSpaces] cuts exactly the spaces at both ends. *)
Theorem removeSpaces_trims d l :
  repr d l -> exists d' t i j, removeSpaces d = Ret d' /\ repr d' t /\
    l = replicate i 32 ++ t ++ replicate j 32 /\
    match t with x :: _ => x <> 32 | [] => True end /\ trimEnd t = t.
Proof.
  intros H. destruct (removeSpaces_repr d l H) as (d' & E & H').
  destruct (dropIn_blanks l) as (i & Ei). destruct (trimEnd_prefix (dropIn [32] l)) as (j & Ej).
  exists d', (trimEnd (dropIn [32] l)), i, j. split; [exact E|]. split; [exact H'|].
  split; [rewrite <- Ej; exact Ei|].
  destruct (dropIn [32] l) as [|c t] eqn:Ed; [split; [exact I | reflexivity]|].
  pose proof (dropIn_head _ _ _ Ed) as Hc. destruct (trimEnd_cons c t Hc) as (t' & Et). rewrite Et. split; [exact Hc|].
  rewrite <- Et. clear. induction (c :: t) as [|x l IH] using rev_ind; [reflexivity|].
  rewrite trimEnd_snoc. destruct (x =? 32) eqn:Ex; [exact IH|]. now rewrite trimEnd_snoc, Ex.
Qed.

Lemma breakOutside_plain uq ua m b : forall l,
  forallb (fun x => negb (isIn x m) && negb (x =? 34) && negb (x =? 60) && negb (x =? 62)) b = true ->
  breakOutside uq ua m (false, false) (b ++ l) =
    ('(x, r) ← breakOutside uq ua m (false, false) l; Some (b ++ x, r)).
Proof.
  induction b as [|c b IH]; intros l Hb.
  { cbn. now destruct (breakOutside uq ua m (false, false) l) as [[x r]|]. }
  cbn [forallb] in Hb. apply andb_prop in Hb as [Hc Hb]. rewrite !andb_true_iff, !negb_true_iff in Hc.
  destruct Hc as [[[Hc H1] H2] H3]. cbn [app breakOutside quoteStep]. rewrite H1, H2, H3. cbn [andb negb fst snd].
  rewrite Hc, IH by assumption. now destruct (breakOutside uq ua m (false, false) l) as [[x r]|].
Qed.

Lemma breakOutside_quoted ua m q : forall l,
  forallb (fun x => negb (x =? 34)) q = true ->
  breakOutside true ua m (true, false) (q ++ l) =
    ('(x, r) ← breakOutside true ua m (true, false) l; Some (q ++ x, r)).
Proof.
  induction q as [|c q IH]; intros l Hq.
  { cbn. now destruct (breakOutside true ua m (true, false) l) as [[x r]|]. }
  cbn [forallb] in Hq. apply andb_prop in Hq as [Hc Hq]. apply negb_true_iff in Hc.
  cbn [app breakOutside quoteStep]. rewrite Hc. cbn [andb negb]. rewrite !andb_false_r. cbn [andb negb fst snd].
  rewrite IH by assumption. now destruct (breakOutside true ua m (true, false) l) as [[x r]|].
Qed.

(** [parseOutsideQuotes] does not split inside a quoted string, whatever
    separators it contains: the field before the first separator after the
    string is returned, and the run of separators eaten. *)
Theorem quoted_separators_kept ua m d b q c k r :
  repr d (b ++ [34] ++ q ++ [34] ++ c :: k ++ r) ->
  forallb (fun x => negb (isIn x m) && negb (x =? 34) && negb (x =? 60) && negb (x =? 62)) b = true ->
  forallb (fun x => negb (x =? 34)) q = true -> isIn 34 m = false ->
  isIn c m = true -> isIn 60 m = false -> 
  forallb (fun x => isIn x m) k = true -> match r with x :: _ => isIn x m = false | [] => True end ->
  exists d', parseOutsideQuotes m true ua d = Ret (ofStr (b ++ [34] ++ q ++ [34]), false, d') /\ repr d' r.
Proof.
  intros H Hb Hq H34 Hc H60 Hk Hr. pose proof (parseOutsideQuotes_repr m true ua d _ H) as Hp.
  rewrite (breakOutside_plain true ua m b _ Hb) in Hp.
  assert (breakOutside true ua m (false, false) ([34] ++ q ++ [34] ++ c :: k ++ r) =
    Some ([34] ++ q ++ [34], k ++ r)) as E.
  { cbn [app breakOutside quoteStep Z.eqb Pos.eqb andb negb fst snd].
    rewrite (breakOutside_quoted ua m q _ Hq).
    cbn [app breakOutside quoteStep Z.eqb Pos.eqb andb negb fst snd]. rewrite H34. cbn [andb].
    assert (c <> 34 /\ c <> 60) as [H1 H2] by (split; intros ->; congruence).
    apply Z.eqb_neq in H1, H2. rewrite H1, H2. cbn [andb negb fst snd].
    replace (if (c =? 62) && ua then false else false) with false by now destruct ((c =? 62) && ua).
    cbn [negb andb]. now rewrite Hc. }
  rewrite E in Hp. cbn [mbind option_bind] in Hp. now rewrite dropIn_here in Hp.
Qed.

(** The array after writing [c] at [i] beyond the end of [l]. *)
Definition gapCells (l : bytes) (i c : Z) : cells :=
  map Some l ++ Some 0 :: newChars (i - zlen l - 1) ++ [Some c; Some 0].

Lemma newChars_app n k : 0 <= n -> 0 <= k -> newChars (n + k) = newChars n ++ newChars k.
Proof. intros. unfold newChars. now rewrite Z2Nat.inj_add, replicate_add. Qed.

Lemma setchar_beyond l i c :
  zlen l + 1 < i -> setchar i c (ofStr l) = Ret (mkData (i + 1) (gapCells l i c) (i + 1)).
Proof.
  intros Hi. pose proof (zlen_nonneg l) as Hn. unfold setchar. cbn [mLength ofStr].
  destruct (Z.leb_spec (zlen l) i); [|lia]. unfold resize. cbn [mCapacity ofStr mBuf].
  destruct (Z.ltb_spec (i + 1) (zlen l)); [lia|].
  set (t := map Some l ++ [Some 0]).
  assert (zlen t = zlen l + 1) as El by (subst t; rewrite zlen_app, zlen_map; reflexivity).
  assert (slice t 0 (zlen l + 1) = Ret t) as ->
    by (rewrite <- El; rewrite <- (app_nil_r t) at 1; apply slice_start).
  cbn [mbind outcome_bind].
  assert (newChars (i + 1 + 1) = newChars (zlen l + 1) ++ newChars (i - zlen l - 1) ++ [None; None]) as ->.
  { replace (i + 1 + 1) with (zlen l + 1 + (i - zlen l - 1 + 2)) by lia. now rewrite !newChars_app by lia. }
  set (u := newChars (i - zlen l - 1)).
  assert (zlen u = i - zlen l - 1) as Eu by (apply zlen_newChars; lia).
  assert (length (newChars (zlen l + 1)) = length t) as Hlen
    by (unfold newChars; rewrite length_replicate; unfold zlen in *; lia).
  rewrite overwrite_start by (rewrite zlen_app; unfold zlen in *; lia). rewrite <- Hlen, drop_app_length.
  cbn [mbind outcome_bind mret outcome_ret mBuf mCapacity with_buf mLength].
  replace (i + 1 - (i + 1) + 1) with 1 by lia. change (replicate (Z.to_nat 1) (Some 0)) with [Some 0].
  assert (t ++ u ++ [None; None] = (t ++ u ++ [None]) ++ [None] ++ []) as -> by now rewrite <- !app_assoc.
  replace (i + 1) with (zlen (t ++ u ++ [None])) at 1 by (rewrite !zlen_app, El, Eu; unfold zlen; cbn; lia).
  rewrite overwrite_mid by reflexivity. cbn [mbind outcome_bind mret outcome_ret with_buf mLength mBuf mCapacity].
  destruct (Z.ltb_spec i (i + 1)); [|lia]. cbn [cassert mbind outcome_bind].
  assert ((t ++ u ++ [None]) ++ [Some 0] ++ [] = (t ++ u) ++ None :: [Some 0]) as -> by now rewrite <- !app_assoc.
  replace i with (zlen (t ++ u)) at 1 by (rewrite zlen_app; lia).
  rewrite wr_app_mid. cbn. f_equal. f_equal. subst t. unfold gapCells. now rewrite <- !app_assoc.
Qed.

Lemma cstring_text l rest : Forall (fun x => x <> 0) l -> cstring (map Some l ++ Some 0 :: rest) = Ret l.
Proof.
  induction 1 as [|x l Hx _ IH]; [reflexivity|]. cbn in *. destruct (Z.eqb_spec x 0); [contradiction|].
  now rewrite IH.
Qed.

(** Writing a character beyond the end leaves the characters between the
    old end and it unwritten: the length covers them, but a comparison or a
    copy of the C string still sees the old text, and reading one of them is a
    read of garbage. *)
Theorem setchar_leaves_garbage l i c :
  Forall (fun x => x <> 0) l -> zlen l + 1 < i ->
  exists d, setchar i c (ofStr l) = Ret d /\ mLength d = i + 1 /\ cstring (mBuf d) = Ret l /\
    getChar i d = Ret c /\ forall j, zlen l < j < i -> getChar j d = Fault UninitRead.
Proof.
  intros Hl Hi. pose proof (zlen_nonneg l) as Hn.
  exists (mkData (i + 1) (gapCells l i c) (i + 1)). split; [now apply setchar_beyond|].
  split; [reflexivity|]. split; [now apply cstring_text|]. unfold getChar. cbn [mLength mBuf].
  split.
  - destruct (Z.ltb_spec i (i + 1)); [|lia]. cbn [cassert mbind outcome_bind]. unfold rdc, gapCells.
    rewrite app_comm_cons, app_assoc.
    replace i with (zlen (map Some l ++ Some 0 :: newChars (i - zlen l - 1))) at 2.
    + now rewrite rd_app_mid.
    + rewrite zlen_app, zlen_cons, zlen_map, zlen_newChars; lia.
  - intros j Hj. destruct (Z.ltb_spec j (i + 1)); [|lia]. cbn [cassert mbind outcome_bind]. unfold rdc.
    enough (rd (gapCells l i c) j = Ret None) as -> by reflexivity.
    apply rd_Ret. split; [lia|]. unfold gapCells, zlen in *.
    rewrite lookup_app_r, length_map by (rewrite length_map; lia).
    rewrite lookup_cons_ne_0, lookup_app_l by (unfold newChars; rewrite ?length_replicate; lia).
    apply lookup_replicate. split; [reflexivity | lia].
Qed.

(** * Witnesses *)

Definition sample (s : String.string) : Data := ofStr (str s).

Lemma data_holds_text_witness :
  exists d', plusEq (sample "bob") (sample "sip:") = Ret d' /\ repr d' (str "sip:bob").
Proof.
  apply (data_holds_text (sample "sip:") (str "sip:") (ofStr_repr _)). apply ofStr_repr.
Defined.

Lemma parse_splits_witness :
  exists d', parse (str " ;") (sample "a ;; b") = Ret (ofStr (str "a"), false, d') /\ repr d' (str "b").
Proof.
  apply (parse_splits (str " ;") (sample "a ;; b") (str "a") 32 (str ";; ") (str "b"));
    try reflexivity. apply ofStr_repr.
Defined.

Lemma getLine_splits_witness :
  exists d', getLine (ofStr (str "Via: a" ++ [13; 10] ++ str "To: b")) = Ret (ofStr (str "Via: a"), false, d') /\
    repr d' (str "To: b").
Proof.
  apply (getLine_splits _ (str "Via: a") [13; 10] (str "To: b")); [apply ofStr_repr | reflexivity | now left].
Defined.

Lemma int_text_roundtrip_witness : exists d, ofInt (-2147483647) = Ret d /\ convertInt d = Ret (-2147483647).
Proof. apply int_text_roundtrip. lia. Defined.

Lemma find_first_witness : exists p, find (str "@") 0 (sample "bob@host@x") = Ret p /\ p = 3.
Proof.
  destruct (find_first (str "@") [] (str "bob@host@x") (sample "bob@host@x") (ofStr_repr _) ltac:(discriminate)
    ltac:(reflexivity)) as (p & E & _).
  exists p. split; [exact E|]. vm_compute in E. congruence.
Defined.

Lemma removeSpaces_trims_witness : exists d' t, removeSpaces (sample "  a b ") = Ret d' /\ repr d' t.
Proof.
  destruct (removeSpaces_trims (sample "  a b ") (str "  a b ") (ofStr_repr _)) as (d' & t & _ & _ & E & H & _).
  exists d', t. split; [exact E | exact H].
Defined.

Lemma quoted_separators_kept_witness :
  exists d', parseOutsideQuotes (str ",") true true (ofStr ([34] ++ str "a,b" ++ [34] ++ 44 :: str " c")) =
    Ret (ofStr ([34] ++ str "a,b" ++ [34]), false, d') /\ repr d' (str " c").
Proof.
  apply (quoted_separators_kept true (str ",") _ [] (str "a,b") 44 [] (str " c")); try reflexivity.
  apply ofStr_repr.
Defined.

Lemma setchar_leaves_garbage_witness :
  exists d, setchar 5 120 (sample "ab") = Ret d /\ cstring (mBuf d) = Ret (str "ab") /\
    getChar 4 d = Fault UninitRead.
Proof.
  destruct (setchar_leaves_garbage (str "ab") 5 120 ltac:(vm_compute; repeat constructor; discriminate) ltac:(vm_compute; reflexivity))
    as (d & E & _ & Hc & _ & Hg).
  exists d. split; [exact E|]. split; [exact Hc | apply Hg; vm_compute; intuition congruence].
Defined.

End DataStrProps.
