(* ===== verification/SipHeap.v ===== *)
(** Messages, transaction identifiers and message containers of the SIP stack
    (sip/sipstack: SipMsg, SipCommand, StatusMsg, SipTransactionId,
    SipMsgContainer).

    A container is shared: the transaction database, the send queue of the
    connection and the receive queue hold pointers to the same object, and one
    of them stops what another would do by writing to it.  Containers therefore
    live in a heap and are named by handles.  Of a message the model keeps what
    the transaction layer reads; the parser and the printer of messages are the
    parameters [decode] and [encode] of the files that use them. *)
From S2P Require Import Prelude DataStr DataStrFacts DataStrText.
Import DataStr DataStrFacts.

Module SipHeap.

(** * Text comparison *)

(** [Data::operator==] *)
Definition textEq (a b : bytes) : bool := strcmp (cstr a) (cstr b) =? 0.

(** [isEqualNoCase], which comparison with a [Literal] calls. *)
Definition eqNoCase (a b : bytes) : bool :=
  (zlen a =? zlen b) && (strncasecmp (cstr a) (cstr b) (zlen a) =? 0).

Definition toInt (s : bytes) : outcome Z := convertInt (ofStr s).

(** [itoa(int)] *)
Definition itoa (i : Z) : bytes := DataStrText.decimalText i.

(** * Messages *)

Inductive Method :=
| SIP_UNKNOWN | SIP_INVITE | SIP_ACK | SIP_OPTIONS | SIP_BYE | SIP_CANCEL | SIP_REGISTER | SIP_INFO
| SIP_TRANSFER | SIP_REFER | SIP_STATUS | SIP_SUBSCRIBE | SIP_NOTIFY | SIP_MESSAGE | SIP_UNKNOWNEXTN
| SIP_INVALIDMSG.

#[export] Instance Method_eq_dec : EqDecision Method.
Proof. solve_decision. Defined.

Abbreviation is_method m m' := (bool_decide (m = m')).

Record SipVia := mkVia {
  viaTransport : bytes;
  viaHost : bytes;
  viaPort : bytes;
  branchToken : bytes;
  maddr : bytes;
  viaReceived : bool;
  receivedHost : bytes;
  rportValue : bytes
}.

Record SipUrl := mkUrl {
  urlHost : bytes;
  urlPort : bytes;
  maddrParam : bytes;
  transportParam : bytes
}.

(** The URL of a request line: none, a SIP URL, or one of another scheme. *)
Inductive BaseUrl :=
| NoUrl
| IsSipUrl (u : SipUrl)
| OtherUrl.

(** The two classes of messages. *)
Inductive msgClass :=
| Command (method : Method) (requestUrl : BaseUrl) (maxForwards : Z)
| Status (statusCode : Z).

Record SipMsg := mkSipMsg {
  class : msgClass;
  toKey : option bytes;            (** [getUniqueKey] of the URL in To *)
  fromKey : option bytes;
  callIdData : bytes;
  callIdLocal : bytes;
  cseqData : bytes;
  cseqMethod : bytes;
  topVia : SipVia;                 (** [getVia(0)]: the first Via, created with its defaults on access *)
  recvdIPName : bytes;
  recvdIPPort : bytes
}.

Definition getType (m : SipMsg) : Method :=
  match class m with Command method _ _ => method | Status _ => SIP_STATUS end.

Definition isCommand (m : SipMsg) : bool :=
  match class m with Command _ _ _ => true | Status _ => false end.

(** The result of [dynamic_cast<StatusMsg*>]: its status code. *)
Definition asStatus (m : SipMsg) : option Z :=
  match class m with Status code => Some code | Command _ _ _ => None end.

(** [StatusMsg(SipCommand&, int)]: the headers that name the transaction are
    copied. *)
Definition statusMsg (command : SipMsg) (statusCode : Z) : SipMsg :=
  mkSipMsg (Status statusCode) (toKey command) (fromKey command) (callIdData command)
    (callIdLocal command) (cseqData command) (cseqMethod command) (topVia command) [] [].

(** [toBeRetransmitted] of a response. *)
Definition toBeRetransmitted (m : SipMsg) (statusCode : Z) : bool :=
  eqNoCase (cseqMethod m) (str "INVITE") && (200 <=? statusCode).

(** [checkMaxForwards] of a request. *)
Definition checkMaxForwards (m : SipMsg) : bool :=
  match class m with Command _ _ n => 0 <=? n | Status _ => false end.

(** * Transaction identifiers *)

Record SipTransactionId := mkId {
  valid : bool;
  level1 : bytes;
  level2 : bytes;
  level3 : bytes;
  call_id : bytes
}.

Definition clearedId : SipTransactionId := mkId false [] [] [] [].

Definition orInvalid (k : option bytes) : bytes :=
  match k with Some k => k | None => str "invalid-url" end.

Definition transactionId (m : SipMsg) : SipTransactionId :=
  mkId
    (match toKey m, fromKey m with Some _, Some _ => true | _, _ => false end)
    (orInvalid (toKey m) ++ orInvalid (fromKey m) ++ callIdData m)
    (cseqData m ++ str "V" ++ branchToken (topVia m))
    (cseqMethod m)
    (cstr (callIdLocal m)).

(** [operator==]: the Call-ID is not compared. *)
Definition idEq (a b : SipTransactionId) : bool :=
  Bool.eqb (valid a) (valid b) && textEq (level1 a) (level1 b)
  && textEq (level2 a) (level2 b) && textEq (level3 a) (level3 b).

(** * Containers *)

Record NetworkAddress := mkAddr { getIp4Address : Z; addrPort : Z }.

Record SipMsgContainer := mkContainer {
  in_ : option SipMsg;
  in_encode : bytes;
  netAddr : option NetworkAddress;
  transport : bytes;
  retransCount : Z;
  retransSoFar : option Z;         (** not initialised by the constructor *)
  trans_id : SipTransactionId;
  nextTx : Z;
  wait_period : Z
}.

(** [new SipMsgContainer(id)] *)
Definition newContainer (id : SipTransactionId) : SipMsgContainer :=
  mkContainer None [] None [] 1 None id 0 0.

Definition clear (c : SipMsgContainer) : SipMsgContainer :=
  mkContainer None [] None [] 1 (retransSoFar c) clearedId 0 0.

Definition matches (c : SipMsgContainer) (id : SipTransactionId) : bool := idEq id (trans_id c).

Definition setMsgIn (m : SipMsg) (c : SipMsgContainer) : SipMsgContainer :=
  mkContainer (Some m) (in_encode c) (netAddr c) (transport c) (retransCount c) (retransSoFar c)
    (trans_id c) (nextTx c) (wait_period c).
Definition setEncode (e : bytes) (c : SipMsgContainer) : SipMsgContainer :=
  mkContainer (in_ c) e (netAddr c) (transport c) (retransCount c) (retransSoFar c)
    (trans_id c) (nextTx c) (wait_period c).
Definition setNetworkAddr (a : NetworkAddress) (c : SipMsgContainer) : SipMsgContainer :=
  mkContainer (in_ c) (in_encode c) (Some a) (transport c) (retransCount c) (retransSoFar c)
    (trans_id c) (nextTx c) (wait_period c).
Definition setTransport (t : bytes) (c : SipMsgContainer) : SipMsgContainer :=
  mkContainer (in_ c) (in_encode c) (netAddr c) t (retransCount c) (retransSoFar c)
    (trans_id c) (nextTx c) (wait_period c).
Definition setRetransmitMax (n : Z) (c : SipMsgContainer) : SipMsgContainer :=
  mkContainer (in_ c) (in_encode c) (netAddr c) (transport c) n (retransSoFar c)
    (trans_id c) (nextTx c) (wait_period c).
Definition setRetransSoFar (n : Z) (c : SipMsgContainer) : SipMsgContainer :=
  mkContainer (in_ c) (in_encode c) (netAddr c) (transport c) (retransCount c) (Some n)
    (trans_id c) (nextTx c) (wait_period c).
Definition setNextTx (t : Z) (c : SipMsgContainer) : SipMsgContainer :=
  mkContainer (in_ c) (in_encode c) (netAddr c) (transport c) (retransCount c) (retransSoFar c)
    (trans_id c) t (wait_period c).
Definition setWaitPeriod (t : Z) (c : SipMsgContainer) : SipMsgContainer :=
  mkContainer (in_ c) (in_encode c) (netAddr c) (transport c) (retransCount c) (retransSoFar c)
    (trans_id c) (nextTx c) t.

(** * The heap of containers *)

Abbreviation handle := nat.
Abbreviation heap := (list SipMsgContainer).

(** [*p] *)
Definition load (h : handle) (s : heap) : outcome SipMsgContainer := deref (s !! h).

(** A write through [p] to one or more members. *)
Definition store (h : handle) (f : SipMsgContainer -> SipMsgContainer) (s : heap) : outcome heap :=
  c ← load h s; mret (<[h := f c]> s).

Definition alloc (c : SipMsgContainer) (s : heap) : handle * heap := (length s, s ++ [c]).

(** A number survives being written and read. *)
Lemma toInt_itoa v : -2147483648 < v < 2147483648 -> toInt (itoa v) = Ret v.
Proof. intros Hv. apply DataStrText.convertInt_decimal; [exact Hv | apply DataStrFacts.ofStr_repr]. Qed.

(** * Numbers always convert *)

Lemma skipSpace_total d k : forall a fuel, repr d (a ++ k) -> (length k < fuel)%nat ->
  exists b r, a ++ k = b ++ r /\ skipSpace fuel (mBuf d) (zlen a) (zlen k) = Ret (zlen b, zlen r).
Proof.
  induction k as [|c k IH]; intros a fuel H Hf; (destruct fuel as [|fuel]; [cbn in Hf; lia|]); cbn [skipSpace].
  - rewrite app_nil_r in H. rewrite (rdc_repr_end d a H). exists a, []. split; reflexivity.
  - rewrite (rdc_repr d a c k H). cbn [mbind outcome_bind]. destruct (isspace c); [|now exists a, (c :: k)].
    rewrite cons_middle, app_assoc in H |- *.
    destruct (IH (a ++ [c]) fuel H) as (b & r & E & E'); [cbn in Hf; lia|]. exists b, r. split; [exact E|].
    rewrite <- E'. f_equal; zlen_lia.
Qed.

Lemma getDigits_total d w k : forall a fuel val, repr d (a ++ k) -> (length k <= fuel)%nat ->
  returns (getDigits fuel w (mBuf d) (zlen a) (zlen k) val).
Proof.
  induction k as [|c k IH]; intros a fuel val H Hf; cbn [length] in Hf.
  - destruct fuel; cbn; now eexists.
  - destruct fuel as [|fuel]; [lia|]. cbn [getDigits].
    destruct (Z.eqb_spec (zlen (c :: k)) 0); [now eexists|].
    rewrite (rdc_repr d a c k H). cbn [mbind outcome_bind].
    destruct ((48 <=? c) && (c <=? 57)); [|now eexists].
    rewrite cons_middle, app_assoc in H. pose proof (IH (a ++ [c]) fuel (w (w (val * 10) + (c - 48))) H) as E.
    replace (zlen (c :: k) - 1) with (zlen k) by zlen_lia. replace (zlen a + 1) with (zlen (a ++ [c])) by zlen_lia.
    apply E. lia.
Qed.

Lemma toInt_returns s : returns (toInt s).
Proof.
  unfold toInt, convertInt, convert. pose proof (ofStr_repr s) as H.
  assert (length (mBuf (ofStr s)) = S (length s)) as Hl by (cbn; rewrite length_app, length_map; cbn; lia).
  rewrite Hl, (repr_length _ _ H). generalize dependent (ofStr s). intros d H _.
  destruct (skipSpace_total _ s [] (S (length s)) H ltac:(lia)) as (b & r & E & Es).
  change (zlen (@nil Z)) with 0 in Es. rewrite Es. cbn [app] in E.
  assert (length r <= length s)%nat as Hr by (subst s; rewrite length_app; lia). rewrite E in H.
  cbn [mbind outcome_bind].
  destruct r as [|c r].
  - rewrite app_nil_r in H. rewrite (rdc_repr_end _ _ H). cbn. now eexists.
  - rewrite (rdc_repr _ b c r H). cbn [mbind outcome_bind]. cbn [length] in Hr. destruct (c =? 45).
    + rewrite cons_middle, app_assoc in H.
      destruct (getDigits_total _ s32 r (b ++ [c]) (S (length s)) 0 H ltac:(lia)) as [v Hv].
      replace (zlen (c :: r) - 1) with (zlen r) by zlen_lia. replace (zlen b + 1) with (zlen (b ++ [c])) by zlen_lia.
      rewrite Hv. cbn. now eexists.
    + destruct (getDigits_total _ s32 (c :: r) b (S (length s)) 0 H ltac:(cbn; lia)) as [v Hv].
      rewrite Hv. cbn. now eexists.
Qed.

(** * Equal texts *)

Lemma strcmp_eq a : forall b, strcmp a b = 0 <-> a = b.
Proof.
  induction a as [|x a IH]; intros [|y b]; cbn; try (split; congruence).
  destruct (Z.eqb_spec x y) as [-> | Hne].
  - rewrite IH. split; congruence.
  - destruct (x <? y); split; congruence.
Qed.

Lemma textEq_spec a b : textEq a b = true <-> cstr a = cstr b.
Proof. unfold textEq. now rewrite Z.eqb_eq, strcmp_eq. Qed.

End SipHeap.
