(* ===== verification/SipTxn.v ===== *)
(** The transaction databases of the SIP stack (sip/sipstack:
    SipCallContainer, SipTransactionDB, SipSentRequestDB, SipSentResponseDB).

    Calls and message pairs are reached only through the database that owns
    them, so they are values; the containers of a pair are handles into the
    shared heap.  The clock and the application context are arguments. *)
From stdpp Require Import gmap.
From S2P Require Import Prelude SipHeap.
Import SipHeap.

Module SipTxn.

Definition FILTER_RETRANS_COUNT : Z := 1.
Definition MAX_RETRANS_COUNT : Z := 7.

(** * Calls *)

Record SipMsgPair := mkPair {
  request : option handle;
  response : option handle
}.

Record SipCallContainer := mkCall {
  msgs : list SipMsgPair;
  id : SipTransactionId;
  curSeqNum : Z;
  setSeq : bool;
  purgeAt : Z
}.

Definition newCall (id : SipTransactionId) : SipCallContainer := mkCall [] id 0 false 0.

Definition with_msgs (l : list SipMsgPair) (c : SipCallContainer) : SipCallContainer :=
  mkCall l (id c) (curSeqNum c) (setSeq c) (purgeAt c).
Definition addMsgPair (p : SipMsgPair) (c : SipCallContainer) : SipCallContainer :=
  with_msgs (msgs c ++ [p]) c.
Definition setCurSeqNum (n : Z) (c : SipCallContainer) : SipCallContainer :=
  mkCall (msgs c) (id c) n true (purgeAt c).
Definition setPurgeTimer (t : Z) (c : SipCallContainer) : SipCallContainer :=
  mkCall (msgs c) (id c) (curSeqNum c) (setSeq c) t.

(** Whether the container that a pair points to satisfies a test. *)
Definition tests (p : option handle) (s : heap) (t : SipMsgContainer -> bool) : outcome bool :=
  match p with
  | None => mret false
  | Some h => c ← load h s; mret (t c)
  end.

(** The position of the first pair of which the request or the response
    satisfies a test. *)
Fixpoint findPair (t : SipMsgContainer -> bool) (s : heap) (l : list SipMsgPair) (i : nat)
  : outcome (option nat) :=
  match l with
  | [] => mret None
  | p :: l' =>
      a ← tests (request p) s t;
      if a : bool then mret (Some i)
      else
        b ← tests (response p) s t;
        if b : bool then mret (Some i) else findPair t s l' (S i)
  end.

(** [findMsgPair(const SipTransactionId&)] *)
Definition findMsgPair (i : SipTransactionId) (s : heap) (c : SipCallContainer) : outcome (option nat) :=
  findPair (fun x => matches x i) s (msgs c) 0.

(** [findMsgPair(Method)] *)
Definition findMsgPairMethod (m : Method) (s : heap) (c : SipCallContainer) : outcome (option nat) :=
  findPair (fun x => match in_ x with Some msg => is_method (getType msg) m | None => false end)
    s (msgs c) 0.

(** The loop of [stopAllRetrans]. *)
Fixpoint stopRequests (l : list SipMsgPair) (s : heap) : outcome heap :=
  match l with
  | [] => mret s
  | p :: l' =>
      s ← match request p with
          | None => mret s
          | Some h =>
              c ← load h s;
              if retransCount c =? 0 then mret s else store h (setRetransmitMax 0) s
          end;
      stopRequests l' s
  end.

Definition stopAllRetrans (c : SipCallContainer) (s : heap) : outcome heap := stopRequests (msgs c) s.

(** * Databases *)

Abbreviation SipTransactionDB := (gmap bytes SipCallContainer).

Definition getCallContainer (i : SipTransactionId) (db : SipTransactionDB) : option SipCallContainer :=
  db !! cstr (call_id i).

(** [table[k] = c], by the Call-ID of the call. *)
Definition addCallContainer (c : SipCallContainer) (db : SipTransactionDB) : SipTransactionDB :=
  <[cstr (call_id (id c)) := c]> db.

Definition setCallPurgeTimer (i : SipTransactionId) (expires_at : Z) (db : SipTransactionDB)
  : SipTransactionDB :=
  match getCallContainer i db with
  | Some c => <[cstr (call_id i) := setPurgeTimer expires_at c]> db
  | None => db
  end.

Definition expired (now : Z) (c : SipCallContainer) : bool :=
  negb (purgeAt c =? 0) && (purgeAt c <? now).

(** [purgeOldCalls] *)
Definition purgeOldCalls (now : Z) (db : SipTransactionDB) : SipTransactionDB :=
  filter (fun kc => expired now kc.2 = false) db.

(** Writes a call back to the table it was found in. *)
Definition putCall (i : SipTransactionId) (c : SipCallContainer) (db : SipTransactionDB) : SipTransactionDB :=
  <[cstr (call_id i) := c]> db.

(** * Requests that were sent *)

Module SipSentRequestDB.

Definition processSend (now : Z) (msg : SipMsg) (s : heap) (db : SipTransactionDB)
  : outcome (handle * heap * SipTransactionDB) :=
  _ ← cassert (isCommand msg);
  let i := transactionId msg in
  let c := setMsgIn msg (newContainer i) in
  c ← match class msg with
      | Command _ (IsSipUrl u) _ => mret (setTransport (cstr (transportParam u)) c)
      | Command _ NoUrl _ => mret c
      | Command _ OtherUrl _ => Fault BadCast
      | Status _ => mret c
      end;
  let c := if is_method (getType msg) SIP_ACK then c else setRetransmitMax MAX_RETRANS_COUNT c in
  let '(h, s) := alloc c s in
  let call := getCallContainer i db in
  mold ← match call with Some call => findMsgPair i s call | None => mret None end;
  let twice := match call, mold with
               | Some call, Some k =>
                   match msgs call !! k with
                   | Some p => match request p with Some _ => true | None => false end
                   | None => false
                   end
               | _, _ => false
               end in
  if twice : bool then mret (h, s, db)
  else
    let call := match call with Some call => call | None => newCall i end in
    s ← (if is_method (getType msg) SIP_CANCEL then stopAllRetrans call s else mret s);
    let call := if is_method (getType msg) SIP_CANCEL || is_method (getType msg) SIP_BYE
                then setPurgeTimer (now + 10 * 1000) call else call in
    mret (h, s, putCall i (addMsgPair (mkPair (Some h) None) call) db).

(** [processRecv]: the queue for the application, or none. *)
Definition processRecv (isProxy : bool) (msgContainer : handle) (s : heap) (db : SipTransactionDB)
  : outcome (option (list (option SipMsg)) * heap * SipTransactionDB) :=
  c ← load msgContainer s;
  msg ← deref (in_ c);
  statusCode ← match asStatus msg with Some code => mret code | None => Fault AssertFailed end;
  let i := transactionId msg in
  match getCallContainer i db with
  | None => mret (None, s, db)
  | Some call =>
      found ← findMsgPair i s call;
      match found with
      | None => mret (None, s, db)
      | Some k =>
          msgPair ← deref (msgs call !! k);
          s ← match request msgPair with
              | Some h => store h (setRetransmitMax 0) s
              | None => mret s
              end;
          if (statusCode <? 200)
             || (isProxy && (statusCode =? 200) && eqNoCase (cseqMethod msg) (str "INVITE"))
          then mret (Some [Some msg], s, db)
          else
            match response msgPair with
            | Some _ => mret (None, s, db)
            | None =>
                h ← deref (request msgPair);
                r ← load h s;
                mret (Some [in_ r; Some msg], s,
                  putCall i (with_msgs (<[k := mkPair (request msgPair) (Some msgContainer)]> (msgs call)) call) db)
            end
      end
  end.

End SipSentRequestDB.

(** * Responses that were sent *)

Module SipSentResponseDB.

Definition processSend (isProxy : bool) (msg : SipMsg) (s : heap) (db : SipTransactionDB)
  : outcome (handle * heap * SipTransactionDB) :=
  statusCode ← match asStatus msg with Some code => mret code | None => Fault AssertFailed end;
  let i := transactionId msg in
  let c := setTransport (cstr (viaTransport (topVia msg))) (setMsgIn msg (newContainer i)) in
  let '(h, s) := alloc c s in
  if 200 <=? statusCode then
    match getCallContainer i db with
    | Some call =>
        found ← findMsgPair i s call;
        db ← match found with
             | Some k =>
                 mp ← deref (msgs call !! k);
                 match response mp with
                 | Some _ => mret db
                 | None => mret (putCall i (with_msgs (<[k := mkPair (request mp) (Some h)]> (msgs call)) call) db)
                 end
             | None => mret db
             end;
        s ← (if toBeRetransmitted msg statusCode && negb isProxy
             then store h (setRetransmitMax MAX_RETRANS_COUNT) s else mret s);
        mret (h, s, db)
    | None => mret (h, s, db)
    end
  else mret (h, s, db).

(** The sequence number check for a request that is neither ACK nor CANCEL:
    the call with its new number, or none when the request is out of order. *)
Definition checkSeq (msgSeqNumber : Z) (call : SipCallContainer) : option SipCallContainer :=
  if setSeq call then
    if curSeqNum call <? msgSeqNumber then Some (setCurSeqNum msgSeqNumber call) else None
  else Some call.

(** The queue for an ACK: the INVITE and its final response, of which the
    retransmission is stopped, and the ACK. *)
Definition ackQueue (msg : SipMsg) (s : heap) (call : SipCallContainer)
  : outcome (list (option SipMsg) * heap) :=
  found ← findMsgPairMethod SIP_INVITE s call;
  match found with
  | None => mret ([Some msg], s)
  | Some k =>
      mp ← deref (msgs call !! k);
      req ← match request mp with Some h => c ← load h s; mret [in_ c] | None => mret [] end;
      '(rsp, s) ← match response mp with
                  | Some h => c ← load h s; s ← store h (setRetransmitMax 0) s; mret ([in_ c], s)
                  | None => mret ([], s)
                  end;
      mret (req ++ rsp ++ [Some msg], s)
  end.

(** A request seen for the first time in a call. *)
Definition firstReceive (isProxy : bool) (msgContainer : handle) (msg : SipMsg) (mp : option nat)
  (call : SipCallContainer) (s : heap) (db : SipTransactionDB)
  : outcome (option (list (option SipMsg)) * heap * SipTransactionDB) :=
  let i := transactionId msg in
  msgSeqNumber ← toInt (cseqData msg);
  let ackOrCancel := is_method (getType msg) SIP_ACK || is_method (getType msg) SIP_CANCEL in
  let known := if negb isProxy && negb ackOrCancel then
                 match mp with
                 | None => addMsgPair (mkPair (Some msgContainer) None) call
                 | Some _ => call
                 end
               else call in
  let checked := if isProxy then Some known
                 else if negb ackOrCancel then checkSeq msgSeqNumber known
                 else if curSeqNum call <? msgSeqNumber then Some (setCurSeqNum msgSeqNumber known)
                 else Some known in
  match checked with
  | None =>
      (* out of order: a 400 is put into the container and into the database *)
      let bad := statusMsg msg 400 in
      s ← store msgContainer (fun c => setRetransmitMax 1
            (setTransport (cstr (viaTransport (topVia bad))) (setMsgIn bad c))) s;
      '(_, s, db) ← processSend isProxy bad s (putCall i known db);
      mret (None, s, db)
  | Some call =>
      '(q, s) ← (if is_method (getType msg) SIP_ACK then ackQueue msg s call else mret ([Some msg], s));
      mret (Some q, s, putCall i call db)
  end.

Definition processRecv (isProxy : bool) (msgContainer : handle) (s : heap) (db : SipTransactionDB)
  : outcome (option (list (option SipMsg)) * heap * SipTransactionDB) :=
  c ← load msgContainer s;
  msg ← deref (in_ c);
  _ ← cassert (isCommand msg);
  let i := transactionId msg in
  let call := match getCallContainer i db with
              | Some call => Some call
              | None => if is_method (getType msg) SIP_INVITE then Some (newCall i) else None
              end in
  match call with
  | None => mret (Some [Some msg], s, db)
  | Some call =>
      let db := putCall i call db in
      mp ← findMsgPair i s call;
      pair ← match mp with Some k => p ← deref (msgs call !! k); mret (Some p) | None => mret None end;
      match mp, pair with
      | Some k, Some p =>
          match request p with
          | Some _ =>
              match response p with
              | Some old =>
                  s ← store old (setRetransmitMax 0) s;
                  s ← store msgContainer (setRetransmitMax FILTER_RETRANS_COUNT) s;
                  mret (None, s, putCall i (with_msgs (<[k := mkPair (request p) (Some msgContainer)]> (msgs call)) call) db)
              | None =>
                  s ← store msgContainer clear s;
                  mret (None, s, db)
              end
          | None => firstReceive isProxy msgContainer msg mp call s db
          end
      | _, _ => firstReceive isProxy msgContainer msg mp call s db
      end
  end.

End SipSentResponseDB.

End SipTxn.
