(* ===== verification/SipSamples.v ===== *)
(** Concrete messages, containers and databases of the SIP stack, on which the
    theorems about it are evaluated. *)
From stdpp Require Import gmap.
From S2P Require Import Prelude DataStr SipHeap SipTxn.
Import DataStr SipHeap SipTxn.

Module SipSamples.

Definition sampleVia : SipVia :=
  mkVia (str "UDP") (str "10.0.0.1") (str "5060") (str "z9hG4bK77") [] false [] [].

Definition sampleUrl : SipUrl := mkUrl (str "10.0.0.2") (str "5060") [] (str "udp").

(** A message of the dialog "a84b4c76" from alice to bob. *)
Definition sampleMsg (k : msgClass) (seq method : bytes) : SipMsg :=
  mkSipMsg k (Some (str "bob")) (Some (str "alice")) (str "a84b4c76") (str "a84b4c76")
    seq method sampleVia [] [].

Definition invite : SipMsg := sampleMsg (Command SIP_INVITE (IsSipUrl sampleUrl) 70) (str "1") (str "INVITE").
Definition ringing : SipMsg := sampleMsg (Status 180) (str "1") (str "INVITE").
Definition ok200 : SipMsg := sampleMsg (Status 200) (str "1") (str "INVITE").
Definition ack : SipMsg := sampleMsg (Command SIP_ACK (IsSipUrl sampleUrl) 70) (str "1") (str "ACK").
Definition cancel : SipMsg := sampleMsg (Command SIP_CANCEL (IsSipUrl sampleUrl) 70) (str "1") (str "CANCEL").
Definition bye (seq : bytes) : SipMsg := sampleMsg (Command SIP_BYE (IsSipUrl sampleUrl) 70) seq (str "BYE").

(** The container a message arrives in. *)
Definition arrived (m : SipMsg) : SipMsgContainer := setMsgIn m (newContainer (transactionId m)).

(** A container that is queued for 10.0.0.2, sent [k] times of [n]. *)
Definition queued (m : SipMsg) (k n : Z) : SipMsgContainer :=
  setRetransmitMax n (setRetransSoFar k (setNetworkAddr (mkAddr 167772162 5060)
    (setEncode (str "INVITE sip:bob@10.0.0.2 SIP/2.0") (arrived m)))).

(** The call of the dialog with the given pairs. *)
Definition sampleCall (l : list SipMsgPair) (seq : Z) (set : bool) : SipCallContainer :=
  mkCall l (transactionId invite) seq set 0.
Definition sampleDB (c : SipCallContainer) : SipTransactionDB := putCall (transactionId invite) c ∅.

Lemma sample_call_id m : transactionId m = transactionId invite -> forall c,
  getCallContainer (transactionId m) (sampleDB c) = Some c.
Proof. intros -> c. reflexivity. Qed.

End SipSamples.
