(* ===== verification/SipTxnFacts.v ===== *)
(** What the transaction databases promise: a response meets its request and
    stops it, the second final response is filtered, CANCEL stops a call's
    requests, an ACK stops the final response, duplicates are absorbed, and
    what happens to requests out of order. *)
From stdpp Require Import gmap.
From S2P Require Import Prelude DataStr SipHeap SipTxn SipSamples.
Import DataStr SipHeap SipTxn SipSamples.

Module SipTxnFacts.

(** * Identifiers *)

(** The same transaction of the same call. *)
Definition same_transaction (a b : SipTransactionId) : Prop :=
  idEq a b = true /\ cstr (call_id a) = cstr (call_id b).

Lemma idEq_spec a b :
  idEq a b = true <-> valid a = valid b /\ cstr (level1 a) = cstr (level1 b) /\
    cstr (level2 a) = cstr (level2 b) /\ cstr (level3 a) = cstr (level3 b).
Proof. unfold idEq. rewrite !andb_true_iff, Bool.eqb_true_iff, !textEq_spec. tauto. Qed.

Lemma idEq_refl a : idEq a a = true.
Proof. now apply idEq_spec. Qed.

Lemma idEq_trans a b c : idEq a b = true -> idEq a c = idEq b c.
Proof.
  intros (H1 & H2 & H3 & H4)%idEq_spec. apply eq_true_iff_eq. rewrite !idEq_spec.
  intuition congruence.
Qed.

Lemma same_transaction_refl a : same_transaction a a.
Proof. split; [apply idEq_refl | reflexivity]. Qed.

(** The response that a request's headers are copied to. *)
Lemma statusMsg_id m code : transactionId (statusMsg m code) = transactionId m.
Proof. reflexivity. Qed.

(** * The heap *)

(** [s'] has the containers of [s], and of each at least the transaction. *)
Definition extends (s s' : heap) : Prop :=
  forall h c, s !! h = Some c -> exists c', s' !! h = Some c' /\ trans_id c' = trans_id c.

Lemma extends_refl s : extends s s.
Proof. intros h c H. eauto. Qed.

Lemma extends_trans s1 s2 s3 : extends s1 s2 -> extends s2 s3 -> extends s1 s3.
Proof.
  intros H12 H23 h c H. destruct (H12 h c H) as (c2 & H2 & E2).
  destruct (H23 h c2 H2) as (c3 & H3 & E3). exists c3. split; congruence.
Qed.

Lemma extends_app s l : extends s (s ++ l).
Proof. intros h c H. exists c. split; [now apply lookup_app_l_Some | reflexivity]. Qed.

Lemma load_Ret h s c : load h s = Ret c <-> s !! h = Some c.
Proof. unfold load. destruct (s !! h); cbn; split; congruence. Qed.

Lemma store_Ret h f s s' : store h f s = Ret s' <-> exists c, s !! h = Some c /\ s' = <[h := f c]> s.
Proof.
  unfold store, load. destruct (s !! h) as [c|]; cbn; split.
  - intros [= <-]. eauto.
  - intros (c' & [= <-] & ->). reflexivity.
  - discriminate.
  - intros (c & [=] & _).
Qed.

Lemma store_extends h f s s' :
  (forall c, trans_id (f c) = trans_id c) -> store h f s = Ret s' -> extends s s'.
Proof.
  intros Hf (c & Hc & ->)%store_Ret h' c' Hc'. destruct (decide (h' = h)) as [-> | Hne].
  - exists (f c). rewrite list_lookup_insert_eq by (now apply lookup_lt_Some in Hc).
    split; [reflexivity|]. rewrite Hf. congruence.
  - exists c'. now rewrite list_lookup_insert_ne.
Qed.

Lemma store_lookup h f s s' :
  store h f s = Ret s' -> exists c, s !! h = Some c /\ s' !! h = Some (f c) /\
    forall h', h' <> h -> s' !! h' = s !! h'.
Proof.
  intros (c & Hc & ->)%store_Ret. exists c. split; [exact Hc|].
  rewrite list_lookup_insert_eq by (now apply lookup_lt_Some in Hc). split; [reflexivity|].
  intros h' Hne. now rewrite list_lookup_insert_ne by congruence.
Qed.

Lemma store_defined h f s c : s !! h = Some c -> store h f s = Ret (<[h := f c]> s).
Proof. intros H. apply store_Ret. eauto. Qed.

Lemma alloc_lookup (s : heap) c : (s ++ [c]) !! length s = Some c.
Proof. now rewrite lookup_app_r, Nat.sub_diag by lia. Qed.

(** * Finding a pair *)

Lemma tests_mono p s s' t t' b :
  (forall h c c', s !! h = Some c -> s' !! h = Some c' -> trans_id c' = trans_id c -> t' c' = t c) ->
  extends s s' -> tests p s t = Ret b -> tests p s' t' = Ret b.
Proof.
  intros Ht He. destruct p as [h|]; [|auto]. cbn. unfold load.
  destruct (s !! h) as [c|] eqn:Hc; [|discriminate]. cbn. intros [= <-].
  destruct (He h c Hc) as (c' & Hc' & Ec). rewrite Hc'. cbn. f_equal. eauto.
Qed.

Lemma findPair_mono s s' t t' :
  (forall h c c', s !! h = Some c -> s' !! h = Some c' -> trans_id c' = trans_id c -> t' c' = t c) ->
  extends s s' -> forall l n r, findPair t s l n = Ret r -> findPair t' s' l n = Ret r.
Proof.
  intros Ht He. induction l as [|p l IH]; intros n r; cbn; [auto|].
  intros (a & Ha & H)%bind_Ret_inv. rewrite (tests_mono _ _ _ _ _ _ Ht He Ha). cbn.
  destruct a; [exact H|]. apply bind_Ret_inv in H as (b & Hb & H).
  rewrite (tests_mono _ _ _ _ _ _ Ht He Hb). cbn. destruct b; [exact H | now apply IH].
Qed.

(** Finding by transaction depends only on the transaction and the heap's
    identifiers. *)
Lemma findMsgPair_mono i i' s s' call r :
  idEq i i' = true -> extends s s' ->
  findMsgPair i s call = Ret r -> findMsgPair i' s' call = Ret r.
Proof.
  intros Hi He. unfold findMsgPair. apply findPair_mono; [|exact He].
  intros h c c' _ _ E. unfold matches. rewrite E. symmetry. now apply idEq_trans.
Qed.

Lemma findPair_app t s l p : forall n,
  findPair t s l n = Ret None -> findPair t s (l ++ [p]) n = findPair t s [p] (n + length l).
Proof.
  induction l as [|q l IH]; intros n H; cbn [app length]; [now rewrite Nat.add_0_r|].
  cbn in H |- *. apply bind_Ret_inv in H as (a & Ha & H). rewrite Ha. cbn. destruct a; [discriminate|].
  apply bind_Ret_inv in H as (b & Hb & H). rewrite Hb. cbn. destruct b; [discriminate|].
  rewrite (IH (S n) H). cbn. now rewrite Nat.add_succ_r.
Qed.

Lemma findPair_Some t s l : forall n k,
  findPair t s l n = Ret (Some k) -> exists j p, k = (n + j)%nat /\ l !! j = Some p.
Proof.
  induction l as [|q l IH]; intros n k; cbn; [discriminate|].
  intros (a & _ & H)%bind_Ret_inv. destruct a; [injection H as <-; exists 0%nat, q; now rewrite Nat.add_0_r|].
  apply bind_Ret_inv in H as (b & _ & H).
  destruct b; [injection H as <-; exists 0%nat, q; now rewrite Nat.add_0_r|].
  destruct (IH _ _ H) as (j & p & -> & Hj). exists (S j), p. split; [lia | exact Hj].
Qed.

(** The pair of a request that was just added is found. *)
Lemma find_added i s call h c rsp :
  findMsgPair i s call = Ret None -> s !! h = Some c -> matches c i = true ->
  findMsgPair i s (addMsgPair (mkPair (Some h) rsp) call) = Ret (Some (length (msgs call))).
Proof.
  intros Hn Hh Hm. unfold findMsgPair. cbn [addMsgPair with_msgs msgs].
  rewrite (findPair_app _ _ _ _ _ Hn). cbn. unfold load. rewrite Hh. cbn. now rewrite Hm.
Qed.

(** Recording the response of a pair whose request matches. *)
Lemma findPair_insert t s l p p' : forall n k,
  findPair t s l n = Ret (Some (n + k)%nat) -> l !! k = Some p -> request p' = request p ->
  tests (request p) s t = Ret true ->
  findPair t s (<[k := p']> l) n = Ret (Some (n + k)%nat).
Proof.
  induction l as [|q l IH]; intros n k H Hk Hr Ht; [discriminate|]. destruct k as [|k].
  - cbn in Hk |- *. injection Hk as ->. rewrite Hr, Ht. cbn. now rewrite Nat.add_0_r.
  - cbn in H, Hk |- *. apply bind_Ret_inv in H as (a & Ha & H). rewrite Ha. cbn.
    destruct a; [injection H; lia|]. apply bind_Ret_inv in H as (b & Hb & H). rewrite Hb. cbn.
    destruct b; [injection H; lia|]. rewrite <- Nat.add_succ_comm in *. now apply IH.
Qed.

Lemma find_recorded i s call k h rsp rsp' c :
  findMsgPair i s call = Ret (Some k) -> msgs call !! k = Some (mkPair (Some h) rsp) ->
  s !! h = Some c -> matches c i = true ->
  findMsgPair i s (with_msgs (<[k := mkPair (Some h) rsp']> (msgs call)) call) = Ret (Some k).
Proof.
  intros Hf Hk Hc Hm. apply (findPair_insert _ s (msgs call) _ (mkPair (Some h) rsp') 0 k Hf Hk eq_refl).
  cbn. now rewrite (proj2 (load_Ret h s c) Hc); cbn; rewrite Hm.
Qed.

(** The call in which a transaction is new. *)
Definition new_in (i : SipTransactionId) (s : heap) (db : SipTransactionDB) (call : SipCallContainer) : Prop :=
  match getCallContainer i db with
  | Some c => call = c /\ findMsgPair i s c = Ret None
  | None => call = newCall i
  end.

Lemma new_in_find i s db call : new_in i s db call -> findMsgPair i s call = Ret None.
Proof. unfold new_in. destruct (getCallContainer i db); [now intros [-> ?] | now intros ->]. Qed.

(** * Requests that were sent *)

(** The container of a request. *)
Definition requestContainer (msg : SipMsg) : SipMsgContainer :=
  let c := setMsgIn msg (newContainer (transactionId msg)) in
  let c := match class msg with
           | Command _ (IsSipUrl u) _ => setTransport (cstr (transportParam u)) c
           | _ => c
           end in
  if is_method (getType msg) SIP_ACK then c else setRetransmitMax MAX_RETRANS_COUNT c.

Definition has_other_url (msg : SipMsg) : bool :=
  match class msg with Command _ OtherUrl _ => true | _ => false end.

Lemma requestContainer_id msg : trans_id (requestContainer msg) = transactionId msg.
Proof.
  unfold requestContainer. destruct (class msg) as [m [|u|] n|code];
    destruct (is_method (getType msg) SIP_ACK); reflexivity.
Qed.

Lemma requestContainer_in msg : in_ (requestContainer msg) = Some msg.
Proof.
  unfold requestContainer. destruct (class msg) as [m [|u|] n|code];
    destruct (is_method (getType msg) SIP_ACK); reflexivity.
Qed.

Lemma requestContainer_count msg :
  retransCount (requestContainer msg) = if is_method (getType msg) SIP_ACK then 1 else 7.
Proof.
  unfold requestContainer. destruct (class msg) as [m [|u|] n|code];
    destruct (is_method (getType msg) SIP_ACK); reflexivity.
Qed.

(** The call after a request that is not a CANCEL. *)
Definition withRequest (now : Z) (msg : SipMsg) (h : handle) (call : SipCallContainer) : SipCallContainer :=
  addMsgPair (mkPair (Some h) None)
    (if is_method (getType msg) SIP_BYE then setPurgeTimer (now + 10 * 1000) call else call).

Lemma getCallContainer_put i i' call db :
  cstr (call_id i') = cstr (call_id i) -> getCallContainer i' (putCall i call db) = Some call.
Proof. intros E. unfold getCallContainer, putCall. rewrite E. apply lookup_insert_eq. Qed.

Lemma processSend_new now msg s db call :
  isCommand msg = true -> has_other_url msg = false -> getType msg <> SIP_CANCEL ->
  new_in (transactionId msg) s db call ->
  SipSentRequestDB.processSend now msg s db =
    Ret (length s, s ++ [requestContainer msg],
         putCall (transactionId msg) (withRequest now msg (length s) call) db).
Proof.
  intros Hc Hu Hcancel Hnew. unfold SipSentRequestDB.processSend. rewrite Hc. cbn [cassert mbind outcome_bind].
  assert ((match class msg with
     | Command _ (IsSipUrl u) _ =>
         mret (setTransport (cstr (transportParam u)) (setMsgIn msg (newContainer (transactionId msg))))
     | Command _ OtherUrl _ => Fault BadCast
     | _ => mret (setMsgIn msg (newContainer (transactionId msg)))
     end : outcome SipMsgContainer) =
     Ret (match class msg with
           | Command _ (IsSipUrl u) _ =>
              setTransport (cstr (transportParam u)) (setMsgIn msg (newContainer (transactionId msg)))
           | _ => setMsgIn msg (newContainer (transactionId msg)) end)) as E.
  { unfold has_other_url in Hu. destruct (class msg) as [m [|u|] n|code]; congruence || reflexivity. }
  match goal with |- context [mbind _ ?x] => replace x with (Ret (match class msg with
           | Command _ (IsSipUrl u) _ =>
              setTransport (cstr (transportParam u)) (setMsgIn msg (newContainer (transactionId msg)))
           | _ => setMsgIn msg (newContainer (transactionId msg)) end))
    by (rewrite <- E; destruct (class msg) as [m [|u|] n|code]; reflexivity) end.
  cbn [mbind outcome_bind alloc]. fold (requestContainer msg).
  change (if is_method (getType msg) SIP_ACK then _ else _) with (requestContainer msg).
  unfold new_in in Hnew. rewrite !bool_decide_eq_false_2 by assumption. cbn [orb].
  destruct (getCallContainer (transactionId msg) db) as [c0|].
  - destruct Hnew as [-> Hf].
    rewrite (findMsgPair_mono _ _ _ _ _ _ (idEq_refl _) (extends_app s [requestContainer msg]) Hf).
    reflexivity.
  - subst call. reflexivity.
Qed.

(** A container that holds a response of the transaction [i]. *)
Definition holds_response (s : heap) (h : handle) (st : SipMsg) (code : Z) (i : SipTransactionId) : Prop :=
  exists c, s !! h = Some c /\ in_ c = Some st /\ asStatus st = Some code /\
    same_transaction (transactionId st) i.

Lemma same_transaction_sym a b : same_transaction a b -> same_transaction b a.
Proof.
  intros [(H1 & H2 & H3 & H4)%idEq_spec H5]. split; [apply idEq_spec|]; intuition congruence.
Qed.

(** Receiving a response in a call where the request's pair is number [k]. *)
Lemma processRecv_response isProxy mc st code s db i call k h rsp c :
  holds_response s mc st code i ->
  getCallContainer i db = Some call -> findMsgPair i s call = Ret (Some k) ->
  msgs call !! k = Some (mkPair (Some h) rsp) -> s !! h = Some c -> h <> mc ->
  let s' := <[h := setRetransmitMax 0 c]> s in
  SipSentRequestDB.processRecv isProxy mc s db =
    if (code <? 200) || (isProxy && (code =? 200) && eqNoCase (cseqMethod st) (str "INVITE"))
    then Ret (Some [Some st], s', db)
    else match rsp with
         | Some _ => Ret (None, s', db)
         | None => Ret (Some [in_ c; Some st], s',
             putCall (transactionId st)
               (with_msgs (<[k := mkPair (Some h) (Some mc)]> (msgs call)) call) db)
         end.
Proof.
  intros (cm & Hm & Hin & Hst & Hid) Hcall Hf Hk Hc Hne s'. unfold SipSentRequestDB.processRecv.
  rewrite (proj2 (load_Ret mc s cm) Hm). cbn [mbind outcome_bind]. rewrite Hin. cbn [deref mbind outcome_bind].
  rewrite Hst. cbn [mbind outcome_bind mret outcome_ret].
  destruct (same_transaction_sym _ _ Hid) as [Hi Hci].
  assert (getCallContainer (transactionId st) db = Some call) as ->
    by (unfold getCallContainer in *; now rewrite <- Hci).
  rewrite (findMsgPair_mono _ _ _ _ _ _ Hi (extends_refl s) Hf). cbn [mbind outcome_bind].
  rewrite Hk. cbn [deref mbind outcome_bind request response].
  rewrite (store_defined h _ s c Hc). cbn [mbind outcome_bind]. fold s'.
  destruct ((code <? 200) || _); [reflexivity|]. destruct rsp; [reflexivity|].
  cbn [deref mbind outcome_bind]. unfold load, s'.
  rewrite list_lookup_insert_eq by now apply lookup_lt_Some in Hc. reflexivity.
Qed.

(** C20: a new request is given a container that is to be sent [MAX_RETRANS_COUNT]
    times, an ACK once, and enters the database.  Whatever the connection does
    to the containers meanwhile, a response of its transaction finds it and
    ends its retransmission: a provisional response is handed to the
    application alone, the first final response together with the request, and
    every further final response is filtered. *)
Theorem response_meets_request now msg s db call :
  isCommand msg = true -> has_other_url msg = false -> getType msg <> SIP_CANCEL ->
  new_in (transactionId msg) s db call ->
  exists r db1,
    SipSentRequestDB.processSend now msg s db = Ret (length s, s ++ [r], db1) /\
    retransCount r = (if decide (getType msg = SIP_ACK) then 1 else MAX_RETRANS_COUNT) /\
    forall s2 c, extends (s ++ [r]) s2 -> s2 !! length s = Some c -> in_ c = Some msg ->
      let s3 := <[length s := setRetransmitMax 0 c]> s2 in
      forall mc st code, holds_response s2 mc st code (transactionId msg) ->
        (code < 200 -> SipSentRequestDB.processRecv false mc s2 db1 = Ret (Some [Some st], s3, db1)) /\
        (200 <= code -> exists db2,
           SipSentRequestDB.processRecv false mc s2 db1 = Ret (Some [Some msg; Some st], s3, db2) /\
           forall s4 c4 mc' st' code', extends s3 s4 -> s4 !! length s = Some c4 -> in_ c4 = Some msg ->
             holds_response s4 mc' st' code' (transactionId msg) -> 200 <= code' ->
             SipSentRequestDB.processRecv false mc' s4 db2 =
               Ret (None, <[length s := setRetransmitMax 0 c4]> s4, db2)).
Proof.
  intros Hc Hu Hn Hnew. rewrite (processSend_new now msg s db call Hc Hu Hn Hnew).
  exists (requestContainer msg). eexists. split; [reflexivity|].
  split. { rewrite requestContainer_count. now destruct (decide (getType msg = SIP_ACK)); [rewrite bool_decide_eq_true_2 | rewrite bool_decide_eq_false_2]. }
  set (i := transactionId msg). set (call1 := withRequest now msg (length s) call).
  intros s2 c He2 Hc2 Hin2 s3 mc st code Hst.
  assert (forall sx mx stx codex cx, holds_response sx mx stx codex i -> sx !! length s = Some cx ->
    in_ cx = Some msg -> length s <> mx) as Hne.
  { intros sx mx stx codex cx (cy & Hy & Hyi & Hys & _) Hx Hxi <-.
    assert (stx = msg) as -> by congruence. unfold asStatus, isCommand in *.
    destruct (class msg); discriminate. }
  assert (findMsgPair i s2 call1 = Ret (Some (length (msgs call)))) as Hf.
  { apply (findMsgPair_mono i i (s ++ [requestContainer msg]) s2); [apply idEq_refl | exact He2 |].
    replace (findMsgPair i (s ++ [requestContainer msg]) call1)
      with (findMsgPair i (s ++ [requestContainer msg]) (addMsgPair (mkPair (Some (length s)) None) call))
      by (unfold call1, withRequest; now case_match).
    apply (find_added i _ call (length s) (requestContainer msg)).
    - apply (findMsgPair_mono i i s); [apply idEq_refl | apply extends_app | now apply (new_in_find i s db)].
    - apply alloc_lookup.
    - unfold matches. rewrite requestContainer_id. apply idEq_refl. }
  assert (msgs call1 !! length (msgs call) = Some (mkPair (Some (length s)) None)) as Hk.
  { unfold call1, withRequest. case_match; cbn; now rewrite lookup_app_r, Nat.sub_diag by lia. }
  pose proof (processRecv_response false mc st code s2 _ i call1 _ _ None c Hst
    (getCallContainer_put i i call1 db eq_refl) Hf Hk Hc2 (Hne _ _ _ _ _ Hst Hc2 Hin2)) as Hr.
  cbn [andb orb] in Hr. rewrite orb_false_r in Hr. fold s3 in Hr. split.
  - intros Hcode. rewrite Hr. destruct (Z.ltb_spec code 200); [reflexivity | lia].
  - intros Hcode. rewrite Hr. destruct (Z.ltb_spec code 200); [lia|]. rewrite Hin2.
    eexists. split; [reflexivity|]. intros s4 c4 mc' st' code' He4 Hc4 Hin4 Hst' Hcode'.
    destruct Hst as (cm & Hm & _ & _ & Hid). destruct Hid as [_ Hcid].
    set (call2 := with_msgs (<[length (msgs call) := mkPair (Some (length s)) (Some mc)]> (msgs call1)) call1).
    assert (extends s2 s4) as He24.
    { eapply extends_trans; [|exact He4]. eapply store_extends; [|apply (store_defined _ _ _ _ Hc2)]. reflexivity. }
    assert (trans_id c4 = i) as Hid4.
    { destruct (extends_trans _ _ _ He2 He24 (length s) _ (alloc_lookup s (requestContainer msg))) as (c' & Hc' & E).
      rewrite requestContainer_id in E. fold i in E. congruence. }
    assert (findMsgPair i s4 call2 = Ret (Some (length (msgs call)))) as Hf4.
    { apply (find_recorded i s4 call1 _ (length s) None (Some mc) c4); try assumption.
      - apply (findMsgPair_mono i i s2); [apply idEq_refl | exact He24 | exact Hf].
      - unfold matches. rewrite Hid4. apply idEq_refl. }
    assert (msgs call2 !! length (msgs call) = Some (mkPair (Some (length s)) (Some mc))) as Hk2.
    { cbn. apply list_lookup_insert_eq. now apply lookup_lt_Some in Hk. }
    rewrite (processRecv_response false mc' st' code' s4 _ i call2 _ _ (Some mc) c4 Hst'
      (getCallContainer_put (transactionId st) i call2 _ (eq_sym Hcid)) Hf4 Hk2 Hc4 (Hne _ _ _ _ _ Hst' Hc4 Hin4)).
    destruct (Z.ltb_spec code' 200); [lia|]. reflexivity.
Qed.

Lemma response_meets_request_witness :
  exists r db1 db2, SipSentRequestDB.processSend 0 invite [] ∅ = Ret (0%nat, [r], db1) /\
    retransCount r = 7 /\
    SipSentRequestDB.processRecv false 1 [r; arrived ok200] db1 =
      Ret (Some [Some invite; Some ok200], [setRetransmitMax 0 r; arrived ok200], db2).
Proof.
  destruct (response_meets_request 0 invite [] ∅ (newCall (transactionId invite)))
    as (r & db1 & E & Hn & H); [reflexivity | reflexivity | discriminate | reflexivity |].
  exists r, db1. assert (r = requestContainer invite) as -> by (vm_compute in E; now injection E).
  destruct (H [requestContainer invite; arrived ok200] (requestContainer invite)
    (extends_app _ _) eq_refl eq_refl 1%nat ok200 200) as [_ [db2 [H2 _]]].
  - exists (arrived ok200). repeat split.
  - lia.
  - exists db2. split; [exact E|]. split; [reflexivity | exact H2].
Defined.

(** ** Cancelling *)

Lemma stopRequests_spec l : forall s s',
  stopRequests l s = Ret s' ->
  (forall h c, s !! h = Some c -> exists c', s' !! h = Some c' /\ (c' = c \/ c' = setRetransmitMax 0 c)) /\
  (forall h, ~ In (Some h) (map request l) -> s' !! h = s !! h) /\
  Forall (fun p => match request p with
                   | Some r => exists c, s' !! r = Some c /\ retransCount c = 0
                   | None => True end) l.
Proof.
  induction l as [|[rq rs] l IH]; intros s s'; cbn [stopRequests request map].
  { intros [= <-]. split; [eauto|]. split; [auto | constructor]. }
  intros (s1 & H1 & H2)%bind_Ret_inv. destruct (IH _ _ H2) as (Hp & Hu & Hf).
  assert ((forall h c, s !! h = Some c -> exists c', s1 !! h = Some c' /\ (c' = c \/ c' = setRetransmitMax 0 c)) /\
    (forall h, rq <> Some h -> s1 !! h = s !! h) /\
    match rq with Some r => exists c, s1 !! r = Some c /\ retransCount c = 0 | None => True end) as (Hp1 & Hu1 & Hr1).
  { destruct rq as [r|]; [|injection H1 as ->; split; [eauto|]; split; auto].
    apply bind_Ret_inv in H1 as (c & Hc%load_Ret & H1). destruct (Z.eqb_spec (retransCount c) 0).
    - injection H1 as <-. split; [eauto|]. split; [auto | eauto].
    - apply store_lookup in H1 as (c0 & Hc0 & Hn & Ho). assert (c0 = c) as -> by congruence.
      split; [|split; [|eauto]].
      + intros h c' Hc'. destruct (decide (h = r)) as [-> | Hne]; [|rewrite Ho; eauto].
        assert (c' = c) as -> by congruence. eauto.
      + intros h Hne. apply Ho. congruence. }
  split; [|split].
  - intros h c Hc. destruct (Hp1 h c Hc) as (c1 & Hc1 & E1). destruct (Hp h c1 Hc1) as (c2 & Hc2 & E2).
    exists c2. split; [exact Hc2|]. destruct E1 as [-> | ->], E2 as [-> | ->]; auto.
  - intros h Hh. rewrite Hu, Hu1; [reflexivity | |]; intros E; apply Hh; [left; exact E | right; exact E].
  - constructor; [|exact Hf]. cbn. destruct rq as [r|]; [|exact I]. destruct Hr1 as (c & Hc & E).
    destruct (Hp r c Hc) as (c' & Hc' & E'). exists c'. split; [exact Hc'|]. destruct E' as [-> | ->]; auto.
Qed.

(** Looking for a transaction that is not there visits every pair. *)
Lemma findPair_None_valid t s l : forall n,
  findPair t s l n = Ret None -> forall h, In (Some h) (map request l) -> exists c, s !! h = Some c.
Proof.
  induction l as [|p l IH]; intros n H h Hh; [contradiction|]. cbn in H, Hh.
  apply bind_Ret_inv in H as (a & Ha & H). destruct a; [discriminate|].
  apply bind_Ret_inv in H as (b & Hb & H). destruct b; [discriminate|].
  destruct Hh as [Hh | Hh]; [|eauto]. rewrite Hh in Ha. cbn in Ha.
  apply bind_Ret_inv in Ha as (c & Hc%load_Ret & _). eauto.
Qed.

(** Sending a CANCEL ends the retransmission of every request of its call
    and lets the call expire ten seconds later; the CANCEL itself is
    retransmitted. *)
Theorem cancel_stops_requests now msg s db call h s' db' :
  getType msg = SIP_CANCEL -> new_in (transactionId msg) s db call ->
  SipSentRequestDB.processSend now msg s db = Ret (h, s', db') ->
  Forall (fun p => match request p with
                   | Some r => exists c, s' !! r = Some c /\ retransCount c = 0
                   | None => True end) (msgs call) /\
  (exists c, s' !! h = Some c /\ retransCount c = MAX_RETRANS_COUNT) /\
  exists call', getCallContainer (transactionId msg) db' = Some call' /\ purgeAt call' = now + 10000 /\
    msgs call' = msgs call ++ [mkPair (Some h) None].
Proof.
  intros Ht Hnew. unfold SipSentRequestDB.processSend. rewrite !Ht. cbn [bool_decide].
  intros (u & _ & H)%bind_Ret_inv. apply bind_Ret_inv in H as (c & _ & H).
  rewrite bool_decide_eq_false_2, !bool_decide_eq_true_2 in H by congruence. cbn [alloc orb] in H.
  set (c7 := setRetransmitMax MAX_RETRANS_COUNT c) in *.
  pose proof (new_in_find _ _ _ _ Hnew) as Hf.
  assert (forall h0, In (Some h0) (map request (msgs call)) -> h0 <> length s) as Hval.
  { intros h0 Hh ->. destruct (findPair_None_valid _ _ _ _ Hf _ Hh) as (x & Hx).
    apply lookup_lt_Some in Hx. lia. }
  assert (exists s1, stopAllRetrans call (s ++ [c7]) = Ret s1 /\ h = length s /\ s' = s1 /\
    db' = putCall (transactionId msg) (addMsgPair (mkPair (Some (length s)) None) (setPurgeTimer (now + 10000) call)) db)
    as (s1 & Hs1 & -> & -> & ->).
  { unfold new_in in Hnew. destruct (getCallContainer (transactionId msg) db) as [c0|].
    - destruct Hnew as [-> Hf0].
      rewrite (findMsgPair_mono _ _ _ _ _ _ (idEq_refl _) (extends_app s [c7]) Hf0) in H. cbn in H.
      apply bind_Ret_inv in H as (s1 & Hs1 & H). injection H as <- <- <-. eauto.
    - subst call. cbn in H. injection H as <- <- <-. eexists. split; [reflexivity|]. auto. }
  destruct (stopRequests_spec _ _ _ Hs1) as (_ & Hkeep & Hall). split; [exact Hall|]. split.
  - exists c7. split; [|reflexivity]. rewrite Hkeep; [apply alloc_lookup|].
    intros Hin. now apply (Hval _ Hin).
  - eexists. split; [now apply getCallContainer_put|]. auto.
Qed.

Lemma cancel_stops_requests_witness :
  exists s' db',
    SipSentRequestDB.processSend 0 cancel [requestContainer invite]
      (sampleDB (sampleCall [mkPair (Some 0%nat) None] 0 false)) = Ret (1%nat, s', db') /\
    exists c, s' !! 0%nat = Some c /\ retransCount c = 0.
Proof.
  eexists _, _. split; [vm_compute; reflexivity|].
  edestruct (cancel_stops_requests 0 cancel [requestContainer invite]
    (sampleDB (sampleCall [mkPair (Some 0%nat) None] 0 false)) (sampleCall [mkPair (Some 0%nat) None] 0 false))
    as (H & _); [reflexivity | split; reflexivity | vm_compute; reflexivity |].
  exact (Forall_inv H).
Defined.

End SipTxnFacts.
