(* ===== verification/SipAnswerFacts.v ===== *)
(** The server side of the transaction layer: what the database of sent
    responses does with a first request, its duplicates, the final response,
    the ACK, and a request out of order. *)
From stdpp Require Import gmap.
From S2P Require Import Prelude DataStr SipHeap SipTxn SipSamples SipTxnFacts.
Import DataStr SipHeap SipTxn SipSamples SipTxnFacts SipTxn.SipSentResponseDB.

Module SipAnswerFacts.

(** A container that holds the request [m] of the transaction [i]. *)
Definition holds_request (s : heap) (h : handle) (m : SipMsg) (i : SipTransactionId) : Prop :=
  exists c, s !! h = Some c /\ in_ c = Some m /\ isCommand m = true /\ trans_id c = transactionId m /\
    same_transaction (transactionId m) i.

Lemma putCall_same i call db : getCallContainer i db = Some call -> putCall i call db = db.
Proof. apply insert_id. Qed.

Lemma getCallContainer_same i i' db : same_transaction i i' -> getCallContainer i db = getCallContainer i' db.
Proof. intros [_ E]. unfold getCallContainer. now rewrite E. Qed.

(** A request whose transaction is known. *)
Lemma processRecv_known isProxy mc m c s db i call k h rsp :
  s !! mc = Some c -> in_ c = Some m -> isCommand m = true -> same_transaction (transactionId m) i ->
  getCallContainer i db = Some call -> findMsgPair i s call = Ret (Some k) ->
  msgs call !! k = Some (mkPair (Some h) rsp) ->
  processRecv isProxy mc s db =
    match rsp with
    | None => Ret (None, <[mc := clear c]> s, db)
    | Some old =>
        s ← store old (setRetransmitMax 0) s;
        s ← store mc (setRetransmitMax FILTER_RETRANS_COUNT) s;
        Ret (None, s, putCall (transactionId m)
          (with_msgs (<[k := mkPair (Some h) (Some mc)]> (msgs call)) call) db)
    end.
Proof.
  intros Hc Hin Hcmd Hid Hcall Hf Hk. unfold processRecv.
  rewrite (proj2 (load_Ret mc s c) Hc). cbn [mbind outcome_bind]. rewrite Hin.
  cbn [deref mbind outcome_bind]. rewrite Hcmd. cbn [cassert mbind outcome_bind].
  rewrite (getCallContainer_same _ _ db Hid), Hcall.
  destruct (same_transaction_sym _ _ Hid) as [Hi _].
  rewrite (findMsgPair_mono _ _ _ _ _ _ Hi (extends_refl s) Hf). cbn [mbind outcome_bind].
  rewrite Hk. cbn [deref mbind outcome_bind mret outcome_ret request response].
  rewrite (putCall_same (transactionId m) call db) by now rewrite (getCallContainer_same _ _ db Hid).
  destruct rsp as [old|]; [reflexivity|]. now rewrite (store_defined mc clear s c Hc).
Qed.

(** A request whose transaction is new. *)
Lemma processRecv_new isProxy mc m c s db call :
  s !! mc = Some c -> in_ c = Some m -> isCommand m = true ->
  new_in (transactionId m) s db call ->
  (getCallContainer (transactionId m) db = None -> getType m = SIP_INVITE) ->
  processRecv isProxy mc s db =
    firstReceive isProxy mc m None call s (putCall (transactionId m) call db).
Proof.
  intros Hc Hin Hcmd Hnew Hinv. unfold processRecv.
  rewrite (proj2 (load_Ret mc s c) Hc). cbn [mbind outcome_bind]. rewrite Hin.
  cbn [deref mbind outcome_bind]. rewrite Hcmd. cbn [cassert mbind outcome_bind].
  pose proof (new_in_find _ _ _ _ Hnew) as Hf. unfold new_in in Hnew.
  destruct (getCallContainer (transactionId m) db) as [c0|].
  - destruct Hnew as [-> _]. rewrite Hf. reflexivity.
  - subst call. rewrite bool_decide_eq_true_2 by auto. rewrite Hf. reflexivity.
Qed.

(** The call in which an INVITE has been received, and answered. *)
Definition invited (i : SipTransactionId) (q : handle) : SipCallContainer :=
  mkCall [mkPair (Some q) None] i 0 false 0.
Definition answered (i : SipTransactionId) (q h : handle) : SipCallContainer :=
  mkCall [mkPair (Some q) (Some h)] i 0 false 0.

Lemma invite_found i i' s q c rsp n sq p :
  s !! q = Some c -> same_transaction (trans_id c) i -> same_transaction i' i ->
  findMsgPair i' s (mkCall [mkPair (Some q) rsp] i n sq p) = Ret (Some 0%nat).
Proof.
  intros Hq Hc Hi. unfold findMsgPair. cbn. rewrite (proj2 (load_Ret q s c) Hq). cbn.
  unfold matches. rewrite (idEq_trans _ _ _ (proj1 Hi)), (proj1 (same_transaction_sym _ _ Hc)). reflexivity.
Qed.

(** C29: the first INVITE of a call is handed to the application; its
    retransmissions are absorbed until the application answers; the final
    response is to be sent [MAX_RETRANS_COUNT] times and becomes the response
    of the transaction. *)
Theorem invite_server_transaction q m c n s db :
  let i := transactionId m in
  getType m = SIP_INVITE -> isCommand m = true -> getCallContainer i db = None ->
  s !! q = Some c -> in_ c = Some m -> trans_id c = i -> toInt (cseqData m) = Ret n ->
  exists db1, processRecv false q s db = Ret (Some [Some m], s, db1) /\
    getCallContainer i db1 = Some (invited i q) /\
    (forall s2 q2 m2, extends s s2 -> holds_request s2 q2 m2 i -> exists s3,
       processRecv false q2 s2 db1 = Ret (None, s3, db1)) /\
    (forall s2 rsp code, extends s s2 -> asStatus rsp = Some code -> 200 <= code ->
       eqNoCase (cseqMethod rsp) (str "INVITE") = true -> same_transaction (transactionId rsp) i ->
       exists r db2, processSend false rsp s2 db1 = Ret (length s2, s2 ++ [r], db2) /\
         retransCount r = MAX_RETRANS_COUNT /\ in_ r = Some rsp /\
         getCallContainer i db2 = Some (answered i q (length s2))).
Proof.
  intros i Ht Hcmd Hnone Hq Hin Hid Hn.
  assert (new_in i s db (newCall i)) as Hnew by (unfold new_in; now rewrite Hnone).
  exists (putCall i (invited i q) (putCall i (newCall i) db)).
  assert (getCallContainer i (putCall i (invited i q) (putCall i (newCall i) db)) = Some (invited i q)) as Hget
    by now apply getCallContainer_put.
  split; [|split; [exact Hget|split]].
  - rewrite (processRecv_new false q m c s db _ Hq Hin Hcmd Hnew) by auto.
    unfold firstReceive. rewrite Hn, Ht. cbn [mbind outcome_bind].
    rewrite !bool_decide_eq_false_2 by discriminate. reflexivity.
  - intros s2 q2 m2 He (c2 & Hc2 & Hin2 & Hcmd2 & Hid2 & Hs2). eexists.
    destruct (He q c Hq) as (c' & Hc' & Ec').
    apply (processRecv_known false q2 m2 c2 s2 _ i (invited i q) 0 q None); try assumption; try reflexivity.
    apply (invite_found i i s2 q c'); [assumption | rewrite Ec', Hid |]; apply same_transaction_refl.
  - intros s2 rsp code He Hst Hcode Hm Hs. destruct (He q c Hq) as (c' & Hc' & Ec').
    unfold processSend. rewrite Hst. cbn [mbind outcome_bind mret outcome_ret alloc].
    destruct (Z.leb_spec 200 code); [|lia].
    set (r0 := setTransport _ _). rewrite (getCallContainer_same _ _ _ Hs), Hget.
    assert (findMsgPair (transactionId rsp) (s2 ++ [r0]) (invited i q) = Ret (Some 0%nat)) as ->.
    { apply (invite_found i _ (s2 ++ [r0]) q c');
        [now apply lookup_app_l_Some | rewrite Ec', Hid; apply same_transaction_refl | exact Hs]. }
    cbn [mbind outcome_bind msgs invited lookup list_lookup deref response request].
    unfold toBeRetransmitted. rewrite Hm. destruct (Z.leb_spec 200 code); [|lia]. cbn [andb negb].
    rewrite (store_defined _ _ _ _ (alloc_lookup s2 r0)). cbn [mbind outcome_bind mret outcome_ret].
    exists (setRetransmitMax MAX_RETRANS_COUNT r0). eexists. split; [|split; [reflexivity|split; [reflexivity|]]].
    + rewrite insert_app_r_alt, Nat.sub_diag by lia. reflexivity.
    + apply getCallContainer_put. symmetry. apply Hs.
Qed.

Lemma invite_server_transaction_witness :
  exists db1, processRecv false 0 [arrived invite] ∅ = Ret (Some [Some invite], [arrived invite], db1) /\
    (exists s3, processRecv false 1 [arrived invite; arrived invite] db1 = Ret (None, s3, db1)) /\
    exists r db2, processSend false ok200 [arrived invite] db1 = Ret (1%nat, [arrived invite; r], db2) /\
      retransCount r = 7.
Proof.
  destruct (invite_server_transaction 0 invite (arrived invite) 1 [arrived invite] ∅)
    as (db1 & E & _ & H1 & H2); try reflexivity.
  exists db1. split; [exact E|]. split.
  - apply (H1 _ 1%nat invite (extends_app _ _)). exists (arrived invite). repeat split.
  - destruct (H2 [arrived invite] ok200 200 (extends_refl _) eq_refl) as (r & db2 & E2 & Hn & _);
      [lia | reflexivity | apply same_transaction_refl|].
    exists r, db2. split; [exact E2 | exact Hn].
Defined.

(** A duplicate of a request that has been answered is not answered
    again: it is dropped, the retransmission of the final response is ended,
    and the duplicate itself is recorded as the response. *)
Theorem duplicate_request_silences_response q2 m2 old c s db i call k q :
  holds_request s q2 m2 i -> getCallContainer i db = Some call -> findMsgPair i s call = Ret (Some k) ->
  msgs call !! k = Some (mkPair (Some q) (Some old)) -> s !! old = Some c -> old <> q2 ->
  exists s' db', processRecv false q2 s db = Ret (None, s', db') /\
    s' !! old = Some (setRetransmitMax 0 c) /\
    exists call', getCallContainer i db' = Some call' /\
      msgs call' !! k = Some (mkPair (Some q) (Some q2)).
Proof.
  intros (c2 & Hc2 & Hin2 & Hcmd2 & Hid2 & Hs2) Hcall Hf Hk Hold Hne.
  rewrite (processRecv_known false q2 m2 c2 s db i call k q (Some old) Hc2 Hin2 Hcmd2 Hs2 Hcall Hf Hk).
  rewrite (store_defined old _ s c Hold). cbn [mbind outcome_bind].
  set (s1 := <[old := setRetransmitMax 0 c]> s).
  assert (s1 !! q2 = Some c2) as Hq2 by (unfold s1; now rewrite list_lookup_insert_ne).
  rewrite (store_defined q2 _ s1 c2 Hq2). cbn [mbind outcome_bind]. do 2 eexists. split; [reflexivity|].
  split.
  - rewrite list_lookup_insert_ne by congruence. unfold s1.
    now rewrite list_lookup_insert_eq by now apply lookup_lt_Some in Hold.
  - eexists. split; [apply getCallContainer_put; symmetry; apply Hs2|].
    cbn. apply list_lookup_insert_eq. now apply lookup_lt_Some in Hk.
Qed.

Lemma duplicate_request_silences_response_witness :
  exists s' db', processRecv false 2 [arrived invite; setRetransmitMax 7 (arrived ok200); arrived invite]
      (sampleDB (sampleCall [mkPair (Some 0%nat) (Some 1%nat)] 0 false)) = Ret (None, s', db') /\
    s' !! 1%nat = Some (setRetransmitMax 0 (arrived ok200)).
Proof.
  destruct (duplicate_request_silences_response 2 invite 1 (setRetransmitMax 7 (arrived ok200))
    [arrived invite; setRetransmitMax 7 (arrived ok200); arrived invite]
    (sampleDB (sampleCall [mkPair (Some 0%nat) (Some 1%nat)] 0 false)) (transactionId invite)
    (sampleCall [mkPair (Some 0%nat) (Some 1%nat)] 0 false) 0 0) as (s' & db' & E & H & _);
    try reflexivity; try discriminate.
  - exists (arrived invite). repeat split.
  - eauto.
Defined.

(** An ACK ends the retransmission of the final response to the INVITE of
    its call, and is handed to the application after the INVITE and that
    response; the sequence number of the call does not fall. *)
Theorem ack_stops_final_response a ack ca n s db call k q rsp cq c :
  let i := transactionId ack in
  getType ack = SIP_ACK -> isCommand ack = true -> s !! a = Some ca -> in_ ca = Some ack ->
  toInt (cseqData ack) = Ret n -> getCallContainer i db = Some call ->
  findMsgPair i s call = Ret None -> findMsgPairMethod SIP_INVITE s call = Ret (Some k) ->
  msgs call !! k = Some (mkPair (Some q) (Some rsp)) -> s !! q = Some cq -> s !! rsp = Some c ->
  exists call' db',
    processRecv false a s db =
      Ret (Some [in_ cq; in_ c; Some ack], <[rsp := setRetransmitMax 0 c]> s, db') /\
    getCallContainer i db' = Some call' /\ msgs call' = msgs call /\
    curSeqNum call' = Z.max n (curSeqNum call).
Proof.
  intros i Ht Hcmd Ha Hin Hn Hcall Hf Hm Hk Hq Hr.
  assert (new_in i s db call) as Hnew by (unfold new_in; now rewrite Hcall).
  rewrite (processRecv_new false a ack ca s db call Ha Hin Hcmd Hnew) by (fold i; congruence).
  unfold firstReceive. rewrite Hn, Ht. cbn [mbind outcome_bind].
  rewrite !bool_decide_eq_true_2 by reflexivity. cbn [orb negb andb].
  assert (forall call', msgs call' = msgs call -> ackQueue ack s call' =
    Ret ([in_ cq; in_ c; Some ack], <[rsp := setRetransmitMax 0 c]> s)) as Hack.
  { intros call' E. unfold ackQueue, findMsgPairMethod in *. rewrite E, Hm. cbn [mbind outcome_bind].
    rewrite Hk. cbn [deref mbind outcome_bind request response].
    rewrite (proj2 (load_Ret q s cq) Hq), (proj2 (load_Ret rsp s c) Hr). cbn [mbind outcome_bind].
    rewrite (store_defined rsp _ s c Hr). reflexivity. }
  destruct (Z.ltb_spec (curSeqNum call) n).
  - rewrite Hack by reflexivity. do 2 eexists. split; [reflexivity|].
    split; [now apply getCallContainer_put|]. cbn. split; [reflexivity | lia].
  - rewrite Hack by reflexivity. do 2 eexists. split; [reflexivity|].
    split; [now apply getCallContainer_put|]. split; [reflexivity | lia].
Qed.

Lemma ack_stops_final_response_witness :
  exists db', processRecv false 2 [arrived invite; setRetransmitMax 7 (arrived ok200); arrived ack]
      (sampleDB (sampleCall [mkPair (Some 0%nat) (Some 1%nat)] 0 false)) =
    Ret (Some [Some invite; Some ok200; Some ack],
         [arrived invite; setRetransmitMax 0 (arrived ok200); arrived ack], db').
Proof.
  destruct (ack_stops_final_response 2 ack (arrived ack) 1
    [arrived invite; setRetransmitMax 7 (arrived ok200); arrived ack]
    (sampleDB (sampleCall [mkPair (Some 0%nat) (Some 1%nat)] 0 false))
    (sampleCall [mkPair (Some 0%nat) (Some 1%nat)] 0 false) 0 0 1 (arrived invite)
    (setRetransmitMax 7 (arrived ok200))) as (call' & db' & E & _); try reflexivity. eauto.
Defined.

End SipAnswerFacts.
