(* ===== verification/SipUdp.v ===== *)
(** The UDP connection of the SIP stack (sip/sipstack/SipUdpConnection) and
    [UdpStack::doTransmitTo], which it sends with.

    The send queue is a [std::priority_queue] of containers ordered by the time
    of their next transmission; the class [PriorityQueue] states what the
    C++ standard promises of it, and everything about the connection is proved
    for any implementation.  The time of a container may only be changed while
    it is not in the queue, which is the promise of the connection to the
    queue.  The socket ([sendto]), the random numbers, the resolver and the
    parser and printer of messages are parameters. *)
From Stdlib Require Import Sorted.
From S2P Require Import Prelude DataStr SipHeap.
Import DataStr SipHeap.

Module SipUdp.

(** * The queue *)

Class PriorityQueue := {
  pq : Type;
  pq_empty : pq;
  pq_push : (handle -> Z) -> handle -> pq -> pq;
  pq_pop : (handle -> Z) -> pq -> option (handle * pq);     (** [top] and [pop] *)
  (* the elements, and the queue being ordered for the given times *)
  pq_elems : pq -> list handle;
  pq_ok : (handle -> Z) -> pq -> Prop;
  pq_empty_elems : pq_elems pq_empty = [];
  pq_empty_ok key : pq_ok key pq_empty;
  pq_push_elems key h q : pq_elems (pq_push key h q) ≡ₚ h :: pq_elems q;
  pq_push_ok key h q : pq_ok key q -> pq_ok key (pq_push key h q);
  pq_pop_none key q : pq_pop key q = None <-> pq_elems q = [];
  pq_pop_elems key q h q' : pq_pop key q = Some (h, q') -> pq_elems q ≡ₚ h :: pq_elems q';
  pq_pop_least key q h q' : pq_ok key q -> pq_pop key q = Some (h, q') ->
    pq_ok key q' /\ Forall (fun x => key h <= key x) (pq_elems q');
  pq_ok_ext key key' q : pq_ok key q -> Forall (fun x => key x = key' x) (pq_elems q) -> pq_ok key' q
}.

(** * The environment *)

Definition ECONNREFUSED : Z := 111.
Definition EHOSTDOWN : Z := 112.
Definition EHOSTUNREACH : Z := 113.
Definition EAGAIN : Z := 11.
Definition EINTR : Z := 4.

Definition retransmitTimeInitial : Z := 500.
Definition retransmitTimeMax : Z := 4000.
Definition SIP_PORT : Z := 5060.

(** What [sendto] does with a datagram. *)
Inductive sendResult :=
| Sent
| SendError (err : Z).

Record Environment := mkEnv {
  sendto : nat -> sendResult;                   (** the result of the n-th call *)
  random : nat -> Z;                            (** the n-th random number *)
  resolve : bytes -> Z;                         (** IPv4 address of a host, 0 if there is none *)
  ipName : bytes -> bytes;                      (** [NetworkAddress(addr).getIpName()] *)
  isIp6 : bytes -> bool;                        (** [NetworkAddress::is_valid_ip6_addr] *)
  encode : SipMsg -> bytes;
  decode : bytes -> option SipMsg
}.

(** * The connection *)

Section Connection.
Context {Q : PriorityQueue}.
Variable env : Environment.

Record SipUdpConnection := mkUdp {
  sendQ : pq;
  rcvFifo : list handle;
  randomLosePercent : Z;
  sent : list (handle * bytes * NetworkAddress);   (** the datagrams given to [sendto] *)
  calls : nat;                                     (** calls of [sendto] *)
  draws : nat                                      (** calls of [random] *)
}.

Definition with_sendQ (q : pq) (u : SipUdpConnection) : SipUdpConnection :=
  mkUdp q (rcvFifo u) (randomLosePercent u) (sent u) (calls u) (draws u).
Definition with_rcvFifo (l : list handle) (u : SipUdpConnection) : SipUdpConnection :=
  mkUdp (sendQ u) l (randomLosePercent u) (sent u) (calls u) (draws u).

(** The order of the queue. *)
Definition txTime (s : heap) (h : handle) : Z :=
  match s !! h with Some c => nextTx c | None => 0 end.

Definition push (h : handle) (s : heap) (u : SipUdpConnection) : SipUdpConnection :=
  with_sendQ (pq_push (txTime s) h (sendQ u)) u.

(** [getNextMessage] *)
Definition getNextMessage (u : SipUdpConnection) : option handle * SipUdpConnection :=
  match rcvFifo u with
  | [] => (None, u)
  | h :: l => (Some h, with_rcvFifo l u)
  end.

(** [UdpStack::doTransmitTo] *)
Definition doTransmitTo (h : handle) (buffer : bytes) (dest : NetworkAddress) (u : SipUdpConnection)
  : Z * SipUdpConnection :=
  match sendto env (calls u) with
  | Sent => (zlen buffer, mkUdp (sendQ u) (rcvFifo u) (randomLosePercent u)
                            (sent u ++ [(h, buffer, dest)]) (S (calls u)) (draws u))
  | SendError err =>
      (if (err =? EAGAIN) || (err =? EINTR) then 0 else - err,
       mkUdp (sendQ u) (rcvFifo u) (randomLosePercent u) (sent u) (S (calls u)) (draws u))
  end.

Definition udpSend (h : handle) (s : heap) (u : SipUdpConnection) : outcome (Z * SipUdpConnection) :=
  c ← load h s;
  _ ← cassert (negb (zlen (in_encode c) =? 0));
  nAddr ← deref (netAddr c);
  mret (doTransmitTo h (in_encode c) nAddr u).

(** The status code that stands for an error of the socket. *)
Definition errorStatus (err : Z) : Z :=
  if err =? ECONNREFUSED then 403
  else if err =? EHOSTDOWN then 408
  else if err =? EHOSTUNREACH then 404
  else 400.

(** Puts a response to the request in [text] where received messages are. *)
Definition receiveStatus (text : bytes) (code : Z) (s : heap) (u : SipUdpConnection)
  : outcome (heap * SipUdpConnection) :=
  commandMsg ← deref (decode env text);
  _ ← (if isCommand commandMsg then mret tt else Fault NullDeref);
  let c := setMsgIn (statusMsg commandMsg code) (newContainer (transactionId commandMsg)) in
  let '(h, s) := alloc c s in
  mret (s, with_rcvFifo (rcvFifo u ++ [h]) u).

(** One attempt to transmit: none when the socket was busy, otherwise 0 or the
    status code of the error. *)
Definition attempt (h : handle) (s : heap) (u : SipUdpConnection) : outcome (option Z * SipUdpConnection) :=
  let draw := negb (randomLosePercent u =? 0) in
  let lost := draw && (Z.rem (random env (draws u)) 100 <? randomLosePercent u) in
  let u := if draw then mkUdp (sendQ u) (rcvFifo u) (randomLosePercent u) (sent u) (calls u) (S (draws u))
           else u in
  if lost : bool then mret (Some 0, u)
  else
    '(ret, u) ← udpSend h s u;
    if ret <? 0 then
      if (ret =? - EAGAIN) || (ret =? - EINTR) then mret (None, u)
      else mret (Some (errorStatus (- ret)), u)
    else if ret =? 0 then mret (None, u)
    else mret (Some 0, u).

(** The next time of a container that stays in the queue. *)
Definition backoff (now : Z) (c : SipMsgContainer) : SipMsgContainer :=
  let c := if wait_period c =? 0 then setWaitPeriod retransmitTimeInitial c
           else if wait_period c <? retransmitTimeMax then setWaitPeriod (s32 (wait_period c * 2)) c
           else c in
  setNextTx (u64 (now + wait_period c)) c.

(** The body of the loop of [tick] for a container taken from the queue;
    false when [tick] returns. *)
Definition tickMessage (h : handle) (now : Z) (s : heap) (u : SipUdpConnection)
  : outcome (bool * heap * SipUdpConnection) :=
  c ← load h s;
  soFar ← initialised (retransSoFar c);
  if soFar <? retransCount c then
    '(st, u) ← attempt h s u;
    match st with
    | None => mret (false, s, push h s u)
    | Some code =>
        '(s, u) ← (if negb (code =? 0)
                     && match in_ c with Some m => negb (is_method (getType m) SIP_STATUS) | None => false end
                   then receiveStatus (in_encode c) code s u else mret (s, u));
        let soFar := soFar + 1 in
        s ← store h (setRetransSoFar soFar) s;
        if soFar <? retransCount c then
          s ← store h (backoff now) s;
          mret (true, s, push h s u)
        else if negb (code =? 0) then
          m ← deref (in_ c);
          if negb (is_method (getType m) SIP_ACK) && negb (is_method (getType m) SIP_STATUS)
          then '(s, u) ← receiveStatus (in_encode c) code s u; mret (true, s, u)
          else mret (true, s, u)
        else mret (true, s, u)
    end
  else mret (true, s, u).

(** The [while] loop of [tick]. *)
Fixpoint sendLoop (fuel : nat) (now : Z) (s : heap) (u : SipUdpConnection)
  : outcome (heap * SipUdpConnection) :=
  match fuel with
  | O => Fault OutOfFuel
  | S fuel' =>
      match pq_pop (txTime s) (sendQ u) with
      | None => mret (s, u)
      | Some (h, q) =>
          if now <? txTime s h then mret (s, u)
          else
            '(more, s, u) ← tickMessage h now s (with_sendQ q u);
            if more : bool then sendLoop fuel' now s u else mret (s, u)
      end
  end.

(** What [UdpStack::receiveFrom] gives: nothing, an error, or a datagram with
    the text of the sender's address and its port. *)
Inductive received :=
| Nothing
| ReceiveError
| Received (text ip : bytes) (port : Z).

Definition receiveMessage (r : received) (s : heap) : option handle * heap :=
  match r with
  | Received text ip port =>
      match decode env text with
      | Some sm =>
          let senderport := swrap 16 port in
          let sm := mkSipMsg (class sm) (toKey sm) (fromKey sm) (callIdData sm) (callIdLocal sm)
            (cseqData sm) (cseqMethod sm) (topVia sm) (if zlen ip =? 0 then recvdIPName sm else ip)
            (itoa senderport) in
          let '(h, s) := alloc (setMsgIn sm (newContainer (transactionId sm))) s in (Some h, s)
      | None => (None, s)
      end
  | _ => (None, s)
  end.

(** Fuel for the loop: every container is taken at most once. *)
Definition tickFuel (u : SipUdpConnection) : nat := S (length (pq_elems (sendQ u))).

(** [tick]; [readable] tells whether the socket is in the input set. *)
Definition tick (readable : bool) (r : received) (now : Z) (s : heap) (u : SipUdpConnection)
  : outcome (heap * SipUdpConnection) :=
  let '(m, s) := if readable then receiveMessage r s else (None, s) in
  let u := match m with Some h => with_rcvFifo (rcvFifo u ++ [h]) u | None => u end in
  sendLoop (tickFuel u) now s u.

(** [setFds]: the timeout, and whether the socket is to be written. *)
Definition setFds (timeout now : Z) (s : heap) (u : SipUdpConnection) : Z * bool :=
  match pq_pop (txTime s) (sendQ u) with
  | None => (timeout, false)
  | Some (h, _) => if now <? txTime s h then (Z.min timeout (txTime s h - now), false) else (timeout, true)
  end.

(** [getHostPort] *)
Definition getHostPort (m : SipMsg) : outcome (bytes * Z) :=
  '(host, port) ← match class m with
    | Status _ =>
        let via := topVia m in
        if viaReceived via then
          port ← toInt (rportValue via); mret (receivedHost via, port)
        else
          port ← toInt (viaPort via);
          mret (if zlen (maddr via) =? 0 then viaHost via else maddr via, port)
    | Command _ (IsSipUrl dest) _ =>
        port ← toInt (urlPort dest);
        mret (if 0 <? zlen (maddrParam dest) then maddrParam dest else urlHost dest, port)
    | Command _ _ _ => Fault AssertFailed
    end;
  mret (host, if port =? 0 then SIP_PORT else port).

(** [send]: -1 when the destination does not resolve. *)
Definition send (h : handle) (host port : bytes) (s : heap) (u : SipUdpConnection)
  : outcome (Z * heap * SipUdpConnection) :=
  c ← load h s;
  '(ok, s) ← (if zlen (in_encode c) =? 0 then
       m ← match in_ c with Some m => mret m | None => Fault AssertFailed end;
       '(nhost, nport) ← (if zlen host =? 0 then getHostPort m
                          else p ← toInt port; mret (host, p));
       s ← store h (setEncode (encode env m)) s;
       match netAddr c with
       | Some _ => mret (true, s)
       | None =>
           let na := mkAddr (resolve env (cstr nhost)) nport in
           if getIp4Address na =? 0 then mret (false, s)
           else s ← store h (setNetworkAddr na) s; mret (true, s)
       end
     else mret (true, s));
  if ok : bool then
    s ← store h (setRetransSoFar 0) s;
    c ← load h s;
    na ← deref (netAddr c);
    _ ← cassert (0 <=? addrPort na);
    mret (0, s, push h s u)
  else mret (-1, s, u).

(** [setRandomLosePercent] *)
Definition setRandomLosePercent (percent : Z) (u : SipUdpConnection) : SipUdpConnection :=
  if (0 <=? percent) && (percent <=? 100)
  then mkUdp (sendQ u) (rcvFifo u) percent (sent u) (calls u) (draws u) else u.

End Connection.

(** * A queue

    A list ordered by the times is one implementation. *)

Fixpoint insertBy (key : handle -> Z) (h : handle) (l : list handle) : list handle :=
  match l with
  | [] => [h]
  | x :: l' => if key x <=? key h then x :: insertBy key h l' else h :: l
  end.

Lemma insertBy_elems key h l : insertBy key h l ≡ₚ h :: l.
Proof.
  induction l as [|x l IH]; [reflexivity|]. cbn. destruct (key x <=? key h); [|reflexivity].
  rewrite IH. constructor.
Qed.

Definition ordered (key : handle -> Z) (l : list handle) : Prop := StronglySorted (fun x y => key x <= key y) l.

Lemma insertBy_ordered key h l : ordered key l -> ordered key (insertBy key h l).
Proof.
  induction 1 as [|x l Hl IH Hx]; cbn; [repeat constructor|].
  destruct (Z.leb_spec (key x) (key h)).
  - constructor; [exact IH|]. rewrite insertBy_elems. now constructor.
  - constructor; [now constructor|]. constructor; [lia|].
    eapply List.Forall_impl; [|exact Hx]. cbn. intros. lia.
Qed.

#[export, refine] Instance listQueue : PriorityQueue := {
  pq := list handle;
  pq_empty := [];
  pq_push := insertBy;
  pq_pop key l := match l with [] => None | h :: l' => Some (h, l') end;
  pq_elems l := l;
  pq_ok := ordered
}.
Proof.
  - reflexivity.
  - constructor.
  - apply insertBy_elems.
  - apply insertBy_ordered.
  - intros key [|h l]; split; congruence.
  - intros key [|x l] h q'; [discriminate|]. now intros [= <- <-].
  - intros key [|x l] h q'; [discriminate|]. intros H [= <- <-]. now inversion H.
  - intros key key' l H He. induction H as [|x l Hl IH Hx]; [constructor|].
    apply Forall_cons_1 in He as [Ex He]. constructor; [exact (IH He)|].
    apply List.Forall_forall. intros y Hy. rewrite List.Forall_forall in Hx, He.
    rewrite <- Ex, <- He by assumption. auto.
Defined.

End SipUdp.
