(* ===== verification/SipUdpFacts.v ===== *)
(** The connection's loop: every tick returns, sends only what is due and not
    exhausted, each container at most once, and leaves every container it
    handled at its next time; a container whose retransmission was ended is
    never sent again. *)
From S2P Require Import Prelude DataStr SipHeap SipUdp SipTxnFacts.
Import DataStr SipHeap SipUdp SipTxnFacts.

Module SipUdpFacts.

Section Facts.
Context {Q : PriorityQueue}.
Variable env : Environment.

(** * One container *)

(** What [send] establishes of a container before it queues it. *)
Record ready (c : SipMsgContainer) : Prop := mkReady {
  ready_soFar : exists k, retransSoFar c = Some k /\ 0 <= k;
  ready_in : exists m, in_ c = Some m /\
    (getType m <> SIP_STATUS -> exists cmd, decode env (in_encode c) = Some cmd /\ isCommand cmd = true);
  ready_addr : exists a, netAddr c = Some a;
  ready_text : zlen (in_encode c) <> 0;
  ready_wait : 0 <= wait_period c <= 8000
}.

(** Whether a container is still to be sent. *)
Definition live (c : SipMsgContainer) : bool :=
  match retransSoFar c with Some k => k <? retransCount c | None => false end.

Definition counted (c : SipMsgContainer) : SipMsgContainer :=
  match retransSoFar c with Some k => setRetransSoFar (k + 1) c | None => c end.

(** The container after its turn at time [now]. *)
Definition handled (now : Z) (c : SipMsgContainer) : SipMsgContainer :=
  if live c then (if live (counted c) then backoff now (counted c) else counted c) else c.

(** Whether it goes back to the queue. *)
Definition requeued (c : SipMsgContainer) : bool := live c && live (counted c).

Definition busy (r : sendResult) : bool :=
  match r with SendError e => (e =? EAGAIN) || (e =? EINTR) || (e =? 0) | Sent => false end.

(** The outcome of an attempt: the queues stay, at most the container's
    datagram is sent, and it is put off only when the socket was busy. *)
Definition attempt_result h (c : SipMsgContainer) (u : SipUdpConnection) (st : option Z)
  (u' : SipUdpConnection) : Prop :=
  sendQ u' = sendQ u /\ rcvFifo u' = rcvFifo u /\ randomLosePercent u' = randomLosePercent u /\
  (calls u <= calls u')%nat /\
  (st = None -> busy (sendto env (calls u)) = true /\ sent u' = sent u) /\
  (sent u' = sent u \/ exists a, netAddr c = Some a /\ sent u' = sent u ++ [(h, in_encode c, a)]) /\
  (randomLosePercent u = 0 -> sendto env (calls u) = Sent -> st = Some 0 /\
     exists a, netAddr c = Some a /\ sent u' = sent u ++ [(h, in_encode c, a)]).

Lemma attempt_spec h s u c :
  s !! h = Some c -> ready c ->
  exists st u', attempt env h s u = Ret (st, u') /\ attempt_result h c u st u'.
Proof.
  intros Hh [_ _ (a & Ha) Ht _]. unfold attempt.
  set (draw := negb (randomLosePercent u =? 0)).
  set (u1 := if draw then _ else u).
  assert (sendQ u1 = sendQ u /\ rcvFifo u1 = rcvFifo u /\ randomLosePercent u1 = randomLosePercent u /\
    calls u1 = calls u /\ sent u1 = sent u) as (E1 & E2 & E3 & E4 & E5) by (unfold u1; now destruct draw).
  assert (randomLosePercent u = 0 -> draw = false) as Hdraw by (unfold draw; intros ->; reflexivity).
  assert (forall st u2, sendQ u2 = sendQ u -> rcvFifo u2 = rcvFifo u ->
    randomLosePercent u2 = randomLosePercent u -> (calls u <= calls u2)%nat ->
    (st = None -> busy (sendto env (calls u)) = true /\ sent u2 = sent u) ->
    (sent u2 = sent u \/ exists a, netAddr c = Some a /\ sent u2 = sent u ++ [(h, in_encode c, a)]) ->
    (randomLosePercent u = 0 -> sendto env (calls u) = Sent -> st = Some 0 /\
       exists a, netAddr c = Some a /\ sent u2 = sent u ++ [(h, in_encode c, a)]) ->
    attempt_result h c u st u2) as Hres by (unfold attempt_result; intuition).
  destruct (draw && _) eqn:El.
  { do 2 eexists. split; [reflexivity|]. apply Hres; try assumption; try lia; try discriminate.
    - now left.
    - intros Hz _. rewrite (Hdraw Hz) in El. discriminate. }
  unfold udpSend. rewrite (proj2 (load_Ret h s c) Hh). cbn [mbind outcome_bind].
  destruct (Z.eqb_spec (zlen (in_encode c)) 0); [contradiction|]. cbn [negb cassert mbind outcome_bind].
  rewrite Ha. cbn [deref mbind outcome_bind mret outcome_ret]. unfold doTransmitTo. rewrite E4.
  destruct (sendto env (calls u)) as [|e] eqn:Es.
  - pose proof (zlen_nonneg (in_encode c)). destruct (Z.ltb_spec (zlen (in_encode c)) 0); [lia|].
    destruct (Z.eqb_spec (zlen (in_encode c)) 0); [contradiction|].
    do 2 eexists. split; [reflexivity|]. apply Hres; cbn; rewrite ?E1, ?E2, ?E3, ?E5; try reflexivity; try lia;
      try discriminate; eauto.
  - set (ret := if (e =? EAGAIN) || (e =? EINTR) then 0 else - e).
    set (u2 := mkUdp _ _ _ _ _ _).
    assert (sent u2 = sent u) as E6 by exact E5.
    assert (forall st, (st = None -> busy (SendError e) = true) -> attempt_result h c u st u2) as Hres2.
    { intros st Hst. apply Hres; try assumption; try (cbn; lia); [auto | now left | congruence]. }
    destruct ((e =? EAGAIN) || (e =? EINTR)) eqn:Eb; subst ret.
    { do 2 eexists. split; [reflexivity|]. apply Hres2. intros _. unfold busy. now rewrite Eb. }
    destruct (Z.ltb_spec (- e) 0).
    + apply orb_false_iff in Eb as [Ea Eb].
      destruct (Z.eqb_spec (- e) (- EAGAIN)); [lia|]. destruct (Z.eqb_spec (- e) (- EINTR)); [lia|].
      do 2 eexists. split; [reflexivity|]. apply Hres2. discriminate.
    + destruct (Z.eqb_spec (- e) 0) as [E0|]; do 2 eexists; (split; [reflexivity|]); apply Hres2; [|discriminate].
      intros _. unfold busy. rewrite Eb. destruct (Z.eqb_spec e 0); [reflexivity | lia].
Qed.

Lemma receiveStatus_spec c m code s u :
  ready c -> in_ c = Some m -> getType m <> SIP_STATUS ->
  exists x, receiveStatus env (in_encode c) code s u =
    Ret (s ++ [x], with_rcvFifo (rcvFifo u ++ [length s]) u).
Proof.
  intros [_ (m' & Hm & Hd) _ _ _] Hin Ht. assert (m' = m) as -> by congruence.
  destruct (Hd Ht) as (cmd & Hcmd & Hc). unfold receiveStatus. rewrite Hcmd. cbn [deref mbind outcome_bind].
  rewrite Hc. cbn. eauto.
Qed.

Lemma insert_app_here (s l : heap) h c x :
  s !! h = Some c -> <[h := x]> (s ++ l) = <[h := x]> s ++ l.
Proof. intros H. apply insert_app_l. now apply lookup_lt_Some in H. Qed.

(** The outcome of the loop's body for a container. *)
Record message_result (h : handle) (now : Z) (c : SipMsgContainer) (s : heap) (u : SipUdpConnection)
  (more : bool) (s' : heap) (u' : SipUdpConnection) : Prop := mkResult {
  mr_lose : randomLosePercent u' = randomLosePercent u;
  mr_calls : (calls u <= calls u')%nat;
  mr_sent : sent u' = sent u \/
    live c = true /\ exists a, netAddr c = Some a /\ sent u' = sent u ++ [(h, in_encode c, a)];
  mr_later : more = false -> s' = s /\ sendQ u' = pq_push (txTime s) h (sendQ u) /\
    busy (sendto env (calls u)) = true /\ sent u' = sent u;
  mr_done : more = true -> exists l, s' = <[h := handled now c]> s ++ l /\
    sendQ u' = if requeued c then pq_push (txTime s') h (sendQ u) else sendQ u;
  mr_reliable : randomLosePercent u = 0 -> sendto env (calls u) = Sent ->
    more = true /\ (live c = true -> exists a, netAddr c = Some a /\ sent u' = sent u ++ [(h, in_encode c, a)])
}.

(** What is left to do once a container was transmitted or lost: its counter,
    and for an error the response. *)
Lemma tickMessage_spec h now s u c :
  s !! h = Some c -> ready c ->
  exists more s' u', tickMessage env h now s u = Ret (more, s', u') /\ message_result h now c s u more s' u'.
Proof.
  intros Hh Hr. destruct (ready_soFar c Hr) as (k & Hk & Hk0). destruct (ready_in c Hr) as (m & Hm & Hdec).
  unfold tickMessage. rewrite (proj2 (load_Ret h s c) Hh). cbn [mbind outcome_bind].
  rewrite Hk. cbn [initialised mbind outcome_bind].
  assert (live c = (k <? retransCount c)) as Hlive by (unfold live; now rewrite Hk).
  assert (counted c = setRetransSoFar (k + 1) c) as Hcnt by (unfold counted; now rewrite Hk).
  assert (live (counted c) = (k + 1 <? retransCount c)) as Hlive' by now rewrite Hcnt.
  destruct (Z.ltb_spec k (retransCount c)) as [Hlt | Hge].
  2:{ do 3 eexists. split; [reflexivity|]. split; try reflexivity; try discriminate.
      - now left.
      - intros _. exists []. unfold handled, requeued. rewrite Hlive. cbn [andb]. rewrite app_nil_r.
        split; [|reflexivity]. symmetry. now apply list_insert_id.
      - intros _ _. split; [reflexivity | congruence]. }
  destruct (attempt_spec h s u c Hh Hr) as (st & u1 & -> & E1 & E2 & E3 & E4 & Hbusy & Hsent & Hrel).
  cbn [mbind outcome_bind]. destruct st as [code|].
  2:{ destruct (Hbusy eq_refl) as [Hb Hs]. do 3 eexists. split; [reflexivity|]. split; cbn.
      - exact E3.
      - exact E4.
      - now left.
      - intros _. rewrite E1. auto.
      - discriminate.
      - intros H1 H2. destruct (Hrel H1 H2) as [[=] _]. }
  rewrite Hm. cbn [andb].
  (* the two places that may report an error leave the queue and the container alone *)
  assert (forall (b : bool) s0 u0, (b = true -> getType m <> SIP_STATUS) -> exists l x,
    (if b then receiveStatus env (in_encode c) code s0 u0 else mret (s0, u0)) =
      Ret (s0 ++ l, with_rcvFifo x u0)) as Hrep.
  { intros b s0 u0 Hb. destruct b.
    - destruct (receiveStatus_spec c m code s0 u0 Hr Hm (Hb eq_refl)) as (x & ->). eauto.
    - exists [], (rcvFifo u0). rewrite app_nil_r. destruct u0. reflexivity. }
  edestruct (Hrep (negb (code =? 0) && negb (is_method (getType m) SIP_STATUS)) s u1) as (l1 & x1 & ->).
  { intros Hb. apply andb_prop in Hb as [_ Hb]. apply negb_true_iff, bool_decide_eq_false in Hb. exact Hb. }
  cbn [mbind outcome_bind].
  assert ((s ++ l1) !! h = Some c) as Hh1 by now apply lookup_app_l_Some.
  rewrite (store_defined h _ _ c Hh1). cbn [mbind outcome_bind].
  rewrite (insert_app_here s l1 h c _ Hh).
  set (c1 := setRetransSoFar (k + 1) c).
  assert ((<[h := c1]> s) !! h = Some c1) as Hc1 by (apply list_lookup_insert_eq; now apply lookup_lt_Some in Hh).
  destruct (Z.ltb_spec (k + 1) (retransCount c)) as [Hlt2 | Hge2].
  - rewrite (store_defined h _ _ c1) by now apply lookup_app_l_Some. cbn [mbind outcome_bind].
    rewrite (insert_app_here _ l1 h c1 _ Hc1), list_insert_insert_eq.
    do 3 eexists. split; [reflexivity|]. split; cbn; try assumption; try discriminate.
    + destruct Hsent as [Hs | Hs]; [now left | right; auto].
    + intros _. exists l1. unfold handled, requeued. rewrite Hlive, Hlive', Hcnt, E1. auto.
    + intros H1 H2. split; [reflexivity|]. intros _. now apply Hrel.
  - assert (handled now c = c1 /\ requeued c = false) as [Hh2 Hrq]
      by (unfold handled, requeued; rewrite Hlive, Hlive', Hcnt; auto).
    destruct (negb (code =? 0)).
    + cbn [deref mbind outcome_bind].
      edestruct (Hrep (negb (is_method (getType m) SIP_ACK) && negb (is_method (getType m) SIP_STATUS))
        (<[h:=c1]> s ++ l1) (with_rcvFifo x1 u1)) as (l2 & x2 & E).
      { intros Hb. apply andb_prop in Hb as [_ Hb]. apply negb_true_iff, bool_decide_eq_false in Hb. exact Hb. }
      assert (exists l3 x3, (if negb (is_method (getType m) SIP_ACK) && negb (is_method (getType m) SIP_STATUS)
         then '(s1, u2) ← receiveStatus env (in_encode c) code (<[h:=c1]> s ++ l1) (with_rcvFifo x1 u1);
              mret (true, s1, u2)
         else mret (true, <[h:=c1]> s ++ l1, with_rcvFifo x1 u1)) =
         Ret (true, <[h:=c1]> s ++ l3, with_rcvFifo x3 u1)) as (l3 & x3 & ->).
      { destruct (negb _ && negb _); [rewrite E; exists (l1 ++ l2), x2; cbn; now rewrite app_assoc | eauto]. }
      do 3 eexists. split; [reflexivity|]. split; cbn; try assumption; try discriminate.
      * destruct Hsent as [Hs | Hs]; [now left | right; auto].
      * intros _. exists l3. rewrite Hh2, Hrq. auto.
      * intros H1 H2. split; [reflexivity|]. intros _. now apply Hrel.
    + do 3 eexists. split; [reflexivity|]. split; cbn; try assumption; try discriminate.
      * destruct Hsent as [Hs | Hs]; [now left | right; auto].
      * intros _. exists l1. rewrite Hh2, Hrq. auto.
      * intros H1 H2. split; [reflexivity|]. intros _. now apply Hrel.
Qed.

(** * The back-off *)

(** The waiting period after a turn. *)
Definition nextWait (w : Z) : Z :=
  if w =? 0 then 500 else if w <? 4000 then 2 * w else w.

Lemma backoff_fields now c :
  0 <= wait_period c <= 8000 -> 0 <= now -> now + 16000 < 2 ^ 64 ->
  backoff now c = setNextTx (now + nextWait (wait_period c)) (setWaitPeriod (nextWait (wait_period c)) c).
Proof.
  intros Hw H0 H64. unfold backoff, nextWait, retransmitTimeInitial, retransmitTimeMax.
  destruct (Z.eqb_spec (wait_period c) 0); [cbn [wait_period setWaitPeriod]; now rewrite wrap_small by lia|].
  destruct (Z.ltb_spec (wait_period c) 4000).
  - rewrite swrap_small by lia. cbn [wait_period setWaitPeriod]. rewrite wrap_small by lia.
    now rewrite (Z.mul_comm 2).
  - rewrite wrap_small by lia. destruct c; reflexivity.
Qed.

Lemma nextWait_pos w : 0 <= w <= 8000 -> 0 < nextWait w <= 8000.
Proof. intros. unfold nextWait. destruct (Z.eqb_spec w 0), (Z.ltb_spec w 4000); lia. Qed.

Definition clock_ok (now : Z) : Prop := 0 <= now /\ now + 16000 < 2 ^ 64.

Lemma counted_wait c : wait_period (counted c) = wait_period c.
Proof. unfold counted. now destruct (retransSoFar c). Qed.

Lemma handled_ready now c : clock_ok now -> ready c -> ready (handled now c).
Proof.
  intros [H0 H64] Hr. unfold handled. destruct (live c); [|exact Hr].
  assert (ready (counted c)) as Hc.
  { unfold counted. destruct Hr as [(k & Hk & Hk0) Hi Ha Ht Hw]. rewrite Hk. split; try assumption.
    exists (k + 1). split; [reflexivity | lia]. }
  destruct (live (counted c)); [|exact Hc]. destruct Hc as [Hk Hi Ha Ht Hw].
  rewrite backoff_fields by assumption. split; try assumption. cbn.
  pose proof (nextWait_pos _ Hw). lia.
Qed.

Lemma requeued_time now c : clock_ok now -> ready c -> requeued c = true -> now < nextTx (handled now c).
Proof.
  intros [H0 H64] Hr [H1 H2]%andb_prop. unfold handled. rewrite H1, H2.
  destruct Hr as [_ _ _ _ Hw]. rewrite <- counted_wait in Hw. rewrite backoff_fields by assumption. cbn.
  pose proof (nextWait_pos _ Hw). lia.
Qed.

(** * The loop *)

Record conn_ok (s : heap) (u : SipUdpConnection) : Prop := mkConnOk {
  ok_order : pq_ok (txTime s) (sendQ u);
  ok_nodup : NoDup (pq_elems (sendQ u));
  ok_ready : forall h, h ∈ pq_elems (sendQ u) -> exists c, s !! h = Some c /\ ready c
}.

Definition dueb (now : Z) (s : heap) (h : handle) : bool := txTime s h <=? now.

Record loop_result (now : Z) (s : heap) (u : SipUdpConnection) (P : list handle)
  (s' : heap) (u' : SipUdpConnection) : Prop := mkLoop {
  lr_ok : conn_ok s' u';
  lr_nodup : NoDup P;
  lr_due : forall h, h ∈ P -> h ∈ pq_elems (sendQ u) /\ txTime s h <= now;
  lr_heap : forall h c, s !! h = Some c -> s' !! h = Some (if decide (h ∈ P) then handled now c else c);
  lr_queue : forall h, h ∈ pq_elems (sendQ u') <->
    h ∈ pq_elems (sendQ u) /\ (h ∈ P -> exists c, s !! h = Some c /\ requeued c = true);
  lr_lose : randomLosePercent u' = randomLosePercent u;
  lr_calls : (calls u <= calls u')%nat;
  lr_all : (forall h, h ∈ pq_elems (sendQ u) -> txTime s h <= now -> h ∈ P) \/
    exists n, (calls u <= n)%nat /\ busy (sendto env n) = true;
  lr_sent : exists l, sent u' = sent u ++ l /\ NoDup (map (fun x => x.1.1) l) /\
    (forall h d a, (h, d, a) ∈ l -> h ∈ P /\ exists c, s !! h = Some c /\ live c = true /\
       d = in_encode c /\ netAddr c = Some a) /\
    (randomLosePercent u = 0 -> (forall n, (calls u <= n)%nat -> sendto env n = Sent) ->
       forall h c, h ∈ P -> s !! h = Some c -> live c = true -> exists a, (h, in_encode c, a) ∈ l)
}.

Lemma loop_stop now s u :
  conn_ok s u ->
  ((forall h, h ∈ pq_elems (sendQ u) -> txTime s h <= now -> False) \/
   exists n, (calls u <= n)%nat /\ busy (sendto env n) = true) ->
  loop_result now s u [] s u.
Proof.
  intros Hok Hall. split; try assumption; try reflexivity; [constructor| | | | |].
  - intros h Hh. now apply not_elem_of_nil in Hh.
  - intros h c Hc. now rewrite decide_False by apply not_elem_of_nil.
  - intros h. split; [|now intros [? _]]. intros Hh. split; [exact Hh|]. intros H. now apply not_elem_of_nil in H.
  - destruct Hall as [H | H]; [left | now right]. intros h H1 H2. now destruct (H h H1 H2).
  - exists []. rewrite app_nil_r. split; [reflexivity|]. split; [constructor|]. split.
    + intros h d a H. now apply not_elem_of_nil in H.
    + intros _ _ h c H. now apply not_elem_of_nil in H.
Qed.

Lemma loop_result_queue now s u u0 P s' u' :
  pq_elems (sendQ u) ≡ₚ pq_elems (sendQ u0) -> calls u0 = calls u -> randomLosePercent u0 = randomLosePercent u ->
  sent u0 = sent u -> loop_result now s u0 P s' u' -> loop_result now s u P s' u'.
Proof.
  intros Hq Hc Hl Hs [R1 R2 R3 R4 R5 R6 R7 R8 R9]. rewrite Hc, Hl, Hs in *.
  split; try assumption; try (setoid_rewrite Hq; assumption).
Qed.

(** Times after one container had its turn. *)
Lemma txTime_after now s h c l x :
  s !! h = Some c -> x <> h -> (exists cx, s !! x = Some cx) ->
  txTime (<[h := handled now c]> s ++ l) x = txTime s x.
Proof.
  intros Hh Hx (cx & Hcx). unfold txTime.
  rewrite (lookup_app_l_Some _ _ _ cx); [now rewrite Hcx|]. now rewrite list_lookup_insert_ne by congruence.
Qed.

Lemma lookup_after now s h c l x cx :
  s !! h = Some c -> s !! x = Some cx ->
  (<[h := handled now c]> s ++ l) !! x = Some (if decide (x = h) then handled now c else cx).
Proof.
  intros Hh Hx. apply lookup_app_l_Some. destruct (decide (x = h)) as [-> | Hne].
  - apply list_lookup_insert_eq. now apply lookup_lt_Some in Hh.
  - now rewrite list_lookup_insert_ne by congruence.
Qed.

Lemma filter_ext_in {A} (f g : A -> bool) l :
  (forall x, x ∈ l -> f x = g x) -> List.filter f l = List.filter g l.
Proof.
  induction l as [|x l IH]; intros H; [reflexivity|]. cbn. rewrite (H x) by left.
  rewrite IH by (intros; apply H; now right). reflexivity.
Qed.

Lemma filter_perm {A} (f : A -> bool) l k : l ≡ₚ k -> length (List.filter f l) = length (List.filter f k).
Proof.
  induction 1 as [|x l k _ IH|x y l|l k m _ IH1 _ IH2]; cbn; try congruence.
  - destruct (f x); cbn; congruence.
  - destruct (f x), (f y); reflexivity.
Qed.

(** The state for the next round: the container [h] of the least time had its
    turn; it went back to the queue or not. *)
Lemma round_ok now s h c l q u1 :
  clock_ok now -> pq_ok (txTime s) q -> NoDup (h :: pq_elems q) ->
  (forall x, x ∈ h :: pq_elems q -> exists cx, s !! x = Some cx /\ ready cx) ->
  s !! h = Some c ->
  let s1 := <[h := handled now c]> s ++ l in
  sendQ u1 = (if requeued c then pq_push (txTime s1) h q else q) ->
  conn_ok s1 u1 /\
  length (List.filter (dueb now s1) (pq_elems (sendQ u1))) = length (List.filter (dueb now s) (pq_elems q)) /\
  (forall x, x ∈ pq_elems (sendQ u1) <-> x ∈ pq_elems q \/ x = h /\ requeued c = true) /\
  (requeued c = true -> now < txTime s1 h).
Proof.
  intros Hclk Hok Hnd Hready Hh s1 Eq. apply list.NoDup_cons in Hnd as [Hni Hnd].
  assert (forall x, x ∈ pq_elems q -> txTime s1 x = txTime s x) as Htime.
  { intros x Hx. destruct (Hready x) as (cx & Hcx & _); [now right|].
    apply txTime_after; eauto. now intros ->. }
  assert (ready c) as Hrc.
  { destruct (Hready h) as (c' & Hc' & ?); [left|]. congruence. }
  assert (forall x, x ∈ h :: pq_elems q -> exists cx, s1 !! x = Some cx /\ ready cx) as Hready1.
  { intros x Hx. destruct (Hready x Hx) as (cx & Hcx & Hrx). unfold s1.
    rewrite (lookup_after now s h c l x cx Hh Hcx). eexists. split; [reflexivity|].
    case_decide; [now apply handled_ready | exact Hrx]. }
  assert (pq_ok (txTime s1) q) as Hok1.
  { apply (pq_ok_ext (txTime s)); [exact Hok|]. apply List.Forall_forall. intros x Hx.
    symmetry. apply Htime. now apply list_elem_of_In. }
  assert (requeued c = true -> now < txTime s1 h) as Hlate.
  { intros Hq. unfold txTime, s1. rewrite (lookup_after now s h c l h c Hh Hh), decide_True by reflexivity.
    now apply requeued_time. }
  assert (length (List.filter (dueb now s1) (pq_elems q)) = length (List.filter (dueb now s) (pq_elems q))) as Hdue.
  { f_equal. apply filter_ext_in. intros x Hx. unfold dueb. now rewrite Htime. }
  destruct (requeued c) eqn:Er.
  - assert (pq_elems (sendQ u1) ≡ₚ h :: pq_elems q) as Hp by (rewrite Eq; apply pq_push_elems).
    split; [split|split; [|split]].
    + rewrite Eq. now apply pq_push_ok.
    + rewrite Hp. now constructor.
    + intros x Hx. apply Hready1. now rewrite <- Hp.
    + rewrite (filter_perm _ _ _ Hp). cbn [List.filter]. unfold dueb at 1.
      destruct (Z.leb_spec (txTime s1 h) now); [specialize (Hlate eq_refl); lia | exact Hdue].
    + intros x. rewrite Hp, elem_of_cons. intuition.
    + exact Hlate.
  - split; [split|split; [|split]]; rewrite ?Eq; try assumption.
    + intros x Hx. apply Hready1. now right.
    + intros x. intuition discriminate.
Qed.

(** The loop stops because the socket is busy. *)
Lemma loop_later now s u u1 :
  conn_ok s u -> pq_elems (sendQ u1) ≡ₚ pq_elems (sendQ u) -> pq_ok (txTime s) (sendQ u1) ->
  sent u1 = sent u -> randomLosePercent u1 = randomLosePercent u -> (calls u <= calls u1)%nat ->
  busy (sendto env (calls u)) = true -> loop_result now s u [] s u1.
Proof.
  intros [H1 H2 H3] Hp Hok Hs Hl Hc Hb. split; try assumption; [| constructor | | | | |].
  - split; [exact Hok | now rewrite Hp |]. intros h. rewrite Hp. apply H3.
  - intros h Hh. now apply not_elem_of_nil in Hh.
  - intros h c Hx. now rewrite decide_False by apply not_elem_of_nil.
  - intros h. rewrite Hp. split; [|now intros [? _]]. intros Hh. split; [exact Hh|]. intros H.
    now apply not_elem_of_nil in H.
  - right. eauto.
  - exists []. rewrite app_nil_r. split; [exact Hs|]. split; [constructor|]. split.
    + intros h d a H. now apply not_elem_of_nil in H.
    + intros _ _ h c H. now apply not_elem_of_nil in H.
Qed.

(** One round followed by the rest of the loop. *)
Lemma loop_compose now s u h c q l s1 u1 P s' u' :
  conn_ok s u -> pq_elems (sendQ u) ≡ₚ h :: pq_elems q -> txTime s h <= now -> s !! h = Some c ->
  s1 = <[h := handled now c]> s ++ l ->
  (forall x, x ∈ pq_elems (sendQ u1) <-> x ∈ pq_elems q \/ x = h /\ requeued c = true) ->
  (requeued c = true -> now < txTime s1 h) ->
  message_result h now c s (with_sendQ q u) true s1 u1 ->
  loop_result now s1 u1 P s' u' -> loop_result now s u (h :: P) s' u'.
Proof.
  intros Hok Hperm Hdue Hc Es1 Hq1 Hlate [M1 M2 M3 _ _ M6] [R1 R2 R3 R4 R5 R6 R7 R8 (l2 & R9 & R10 & R11 & R12)].
  cbn in M1, M2, M3, M6.
  assert (NoDup (h :: pq_elems q)) as Hnd by (rewrite <- Hperm; apply (ok_nodup _ _ Hok)).
  apply list.NoDup_cons in Hnd as [Hni _].
  assert (h ∉ P) as HP.
  { intros Hin. destruct (R3 h Hin) as [Hel Ht]. apply Hq1 in Hel as [Hel | [_ Hr]]; [contradiction|].
    specialize (Hlate Hr). lia. }
  assert (forall x cx, s !! x = Some cx -> s1 !! x = Some (if decide (x = h) then handled now c else cx)) as Hlook.
  { intros x cx Hx. rewrite Es1. now apply lookup_after. }
  assert (forall x, x ∈ P -> x <> h /\ x ∈ pq_elems q /\ txTime s1 x = txTime s x /\
     exists cx, s !! x = Some cx /\ s1 !! x = Some cx) as HPq.
  { intros x Hx. assert (x <> h) as Hne by now intros ->. destruct (R3 x Hx) as [Hel _].
    apply Hq1 in Hel as [Hel | [? _]]; [|contradiction].
    destruct (ok_ready _ _ Hok x) as (cx & Hcx & _); [rewrite Hperm; now right|].
    split; [exact Hne|]. split; [exact Hel|]. split; [rewrite Es1; eapply txTime_after; eauto|].
    exists cx. rewrite (Hlook x cx Hcx), decide_False by assumption. auto. }
  split.
  - exact R1.
  - now constructor.
  - intros x Hx. apply elem_of_cons in Hx as [-> | Hx]; [rewrite Hperm; split; [left | exact Hdue]|].
    destruct (HPq x Hx) as (_ & Hel & Ht & _). destruct (R3 x Hx) as [_ Hd]. rewrite Hperm.
    split; [now right | congruence].
  - intros x cx Hx. rewrite (R4 x _ (Hlook x cx Hx)). f_equal.
    destruct (decide (x = h)) as [-> | Hne].
    + rewrite decide_False by assumption. rewrite decide_True by left. congruence.
    + destruct (decide (x ∈ P)); [rewrite decide_True by (now right); reflexivity|].
      rewrite decide_False; [reflexivity|]. intros [? | ?]%elem_of_cons; contradiction.
  - intros x. rewrite R5, Hq1, Hperm, !elem_of_cons. split.
    + intros [[Hel | [-> Hr]] Himp].
      * split; [now right|]. intros [-> | Hx]; [contradiction|].
        destruct (Himp Hx) as (cx & Hcx & Hrq). destruct (HPq x Hx) as (_ & _ & _ & cy & Hy & Hy1).
        exists cy. split; [exact Hy | congruence].
      * split; [now left|]. intros _. eauto.
    + intros [Hel Himp]. split.
      * destruct Hel as [-> | Hel]; [|now left]. right. split; [reflexivity|].
        destruct (Himp (or_introl eq_refl)) as (cx & Hcx & Hr). congruence.
      * intros Hx. destruct (Himp (or_intror Hx)) as (cx & Hcx & Hr).
        destruct (HPq x Hx) as (_ & _ & _ & cy & Hy & Hy1). exists cy. split; [exact Hy1 | congruence].
  - congruence.
  - lia.
  - destruct R8 as [R8 | (n & Hn & Hb)]; [left | right; exists n; split; [lia | exact Hb]].
    intros x Hx Ht. rewrite Hperm, elem_of_cons in Hx. destruct Hx as [-> | Hx]; [left|]. right.
    apply R8; [apply Hq1; now left|].
    destruct (ok_ready _ _ Hok x) as (cx & Hcx & _); [rewrite Hperm; now right|].
    rewrite Es1. rewrite (txTime_after now s h c l x Hc); [exact Ht | now intros -> | eauto].
  - assert (exists l1, sent u1 = sent u ++ l1 /\ NoDup (map (fun x => x.1.1) l1) /\
      (forall x d a, (x, d, a) ∈ l1 -> x = h /\ live c = true /\ d = in_encode c /\ netAddr c = Some a) /\
      (randomLosePercent u = 0 -> sendto env (calls u) = Sent -> live c = true ->
         exists a, (h, in_encode c, a) ∈ l1)) as (l1 & E1 & N1 & F1 & G1).
    { destruct M3 as [E | (Hlive & a & Ha & E)].
      - exists []. rewrite app_nil_r. split; [exact E|]. split; [constructor|].
        split; [intros x d a H; now apply not_elem_of_nil in H|].
        intros Hz Hs Hl. destruct (M6 Hz Hs) as [_ (a & _ & Hb)]; [exact Hl|].
        rewrite E in Hb. apply (f_equal length) in Hb. rewrite length_app in Hb. cbn in Hb. lia.
      - exists [(h, in_encode c, a)]. split; [exact E|]. split; [apply NoDup_singleton|].
        split; [|intros; exists a; left].
        intros x d b H. apply list_elem_of_singleton in H. injection H as -> -> ->. auto. }
    exists (l1 ++ l2). split; [now rewrite R9, E1, app_assoc|]. split; [|split].
    + rewrite map_app. apply list.NoDup_app. split; [exact N1|]. split; [|exact R10].
      intros x Hx1 Hx2. apply list_elem_of_fmap in Hx1 as ([[x1 d1] a1] & -> & Hx1).
      apply list_elem_of_fmap in Hx2 as ([[x2 d2] a2] & Heq & Hx2). cbn in Heq. subst x2.
      destruct (F1 _ _ _ Hx1) as [-> _]. destruct (R11 _ _ _ Hx2) as [Hin _]. contradiction.
    + intros x d a [Hx | Hx]%elem_of_app.
      * destruct (F1 _ _ _ Hx) as (-> & ? & ? & ?). split; [left | eauto 6].
      * destruct (R11 _ _ _ Hx) as (Hin & cx & Hcx & ? & ? & ?). split; [now right|].
        destruct (HPq x Hin) as (_ & _ & _ & cy & Hy & Hy1). exists cy.
        assert (cy = cx) as -> by congruence. auto.
    + intros Hz Hs x cx Hx Hcx Hl. apply elem_of_cons in Hx as [-> | Hx].
      * assert (cx = c) as -> by congruence. destruct (G1 Hz (Hs _ (le_n _)) Hl) as (a & Ha).
        exists a. apply elem_of_app. now left.
      * destruct (HPq x Hx) as (_ & _ & _ & cy & Hy & Hy1). assert (cy = cx) as -> by congruence.
        destruct (R12 ltac:(congruence) ltac:(intros; apply Hs; lia) x cx Hx Hy1 Hl) as (a & Ha).
        exists a. apply elem_of_app. now right.
Qed.

Lemma sendLoop_spec now fuel : clock_ok now -> forall s u,
  conn_ok s u -> (length (List.filter (dueb now s) (pq_elems (sendQ u))) < fuel)%nat ->
  exists s' u' P, sendLoop env fuel now s u = Ret (s', u') /\ loop_result now s u P s' u'.
Proof.
  intros Hclk. induction fuel as [|fuel IH]; intros s u Hok Hfuel; [lia|]. cbn [sendLoop].
  destruct (pq_pop (txTime s) (sendQ u)) as [[h q]|] eqn:Ep.
  2:{ exists s, u, []. split; [reflexivity|]. apply loop_stop; [exact Hok|]. left. intros h Hh.
      apply pq_pop_none in Ep. rewrite Ep in Hh. now apply not_elem_of_nil in Hh. }
  pose proof (pq_pop_elems _ _ _ _ Ep) as Hperm.
  destruct (pq_pop_least _ _ _ _ (ok_order _ _ Hok) Ep) as [Hq Hleast].
  destruct (Z.ltb_spec now (txTime s h)) as [Hwait | Hdue].
  { exists s, u, []. split; [reflexivity|]. apply loop_stop; [exact Hok|]. left. intros x Hx Ht.
    rewrite Hperm, elem_of_cons in Hx. destruct Hx as [-> | Hx]; [lia|].
    rewrite List.Forall_forall in Hleast. specialize (Hleast x (proj1 (list_elem_of_In _ _) Hx)). lia. }
  destruct (ok_ready _ _ Hok h) as (c & Hc & Hrc); [rewrite Hperm; left|].
  destruct (tickMessage_spec h now s (with_sendQ q u) c Hc Hrc) as (more & s1 & u1 & -> & Hres).
  cbn [mbind outcome_bind]. destruct more.
  - destruct (mr_done _ _ _ _ _ _ _ _ Hres eq_refl) as (l & Es1 & Eq1).
    assert (NoDup (h :: pq_elems q)) as Hnd by (rewrite <- Hperm; apply (ok_nodup _ _ Hok)).
    assert (forall x, x ∈ h :: pq_elems q -> exists cx, s !! x = Some cx /\ ready cx) as Hready
      by (intros x; rewrite <- Hperm; apply (ok_ready _ _ Hok)).
    cbn [sendQ with_sendQ] in Eq1. rewrite Es1 in Eq1 at 1.
    destruct (round_ok now s h c l q u1 Hclk Hq Hnd Hready Hc Eq1) as (Hok1 & Hlen & Hel & Hlate).
    rewrite <- Es1 in Hok1, Hlen, Hlate.
    assert (length (List.filter (dueb now s) (pq_elems (sendQ u))) =
      S (length (List.filter (dueb now s) (pq_elems q)))) as Hn.
    { rewrite (filter_perm _ _ _ Hperm). cbn. unfold dueb at 1. now destruct (Z.leb_spec (txTime s h) now); [|lia]. }
    destruct (IH s1 u1 Hok1 ltac:(lia)) as (s' & u' & P & E & Hr).
    exists s', u', (h :: P). split; [exact E|]. eapply loop_compose; eauto.
  - destruct (mr_later _ _ _ _ _ _ _ _ Hres eq_refl) as (-> & Eq1 & Hb & Es).
    exists s, u1, []. split; [reflexivity|]. apply loop_later; try assumption.
    + rewrite Eq1, Hperm. apply pq_push_elems.
    + rewrite Eq1. now apply pq_push_ok.
    + apply (mr_lose _ _ _ _ _ _ _ _ Hres).
    + apply (mr_calls _ _ _ _ _ _ _ _ Hres).
Qed.

End Facts.
End SipUdpFacts.
