(* ===== verification/SipUdpProps.v ===== *)
(** The properties of the connection: sending, ticking, the back-off, and
    that a stopped container stays silent. *)
From S2P Require Import Prelude DataStr SipHeap SipSamples SipUdp SipTxnFacts SipUdpFacts.
Import DataStr SipHeap SipSamples SipUdp SipTxnFacts SipUdpFacts.

Module SipUdpProps.

Section Props.
Context {Q : PriorityQueue}.
Variable env : Environment.

Lemma conn_ok_app s x u : conn_ok env s u -> conn_ok env (s ++ x) u.
Proof.
  intros [H1 H2 H3]. split; [|exact H2|].
  - eapply pq_ok_ext; [exact H1|]. apply List.Forall_forall. intros h Hh. unfold txTime.
    destruct (H3 h) as (c & Hc & _); [now apply list_elem_of_In|].
    now rewrite Hc, (lookup_app_l_Some _ _ _ c Hc).
  - intros h Hh. destruct (H3 h Hh) as (c & Hc & Hr). exists c. split; [now apply lookup_app_l_Some | exact Hr].
Qed.

Lemma conn_ok_fifo s l u : conn_ok env s u -> conn_ok env s (with_rcvFifo l u).
Proof. intros [H1 H2 H3]. now split. Qed.

(** Writes that leave the time of a container alone and keep it ready. *)
Lemma conn_ok_write h c c' s u :
  conn_ok env s u -> s !! h = Some c -> nextTx c' = nextTx c -> (ready env c -> ready env c') ->
  conn_ok env (<[h := c']> s) u.
Proof.
  intros [H1 H2 H3] Hc Ht Hr.
  assert ((<[h := c']> s) !! h = Some c') as Hc' by (apply list_lookup_insert_eq; now apply lookup_lt_Some in Hc).
  split; [|exact H2|].
  - eapply pq_ok_ext; [exact H1|]. apply List.Forall_forall. intros x _. unfold txTime.
    destruct (decide (x = h)) as [-> | Hne]; [now rewrite Hc, Hc'|].
    now rewrite list_lookup_insert_ne by congruence.
  - intros x Hx. destruct (decide (x = h)) as [-> | Hne].
    + exists c'. split; [exact Hc'|]. apply Hr. destruct (H3 h Hx) as (y & Hy & Hry). congruence.
    + rewrite list_lookup_insert_ne by congruence. apply (H3 x Hx).
Qed.

Lemma ready_stop c : ready env c -> ready env (setRetransmitMax 0 c).
Proof. now intros []. Qed.

(** A ready container that may not be sent any more is not live. *)
Lemma stopped_not_live c : ready env c -> live (setRetransmitMax 0 c) = false.
Proof.
  intros Hr. destruct (ready_soFar _ _ Hr) as (k & Hk & Hk0). unfold live. cbn. rewrite Hk. apply Z.ltb_ge. lia.
Qed.

(** [tick] is the loop, after a message may have been put into the heap. *)
Lemma tick_spec readable r now s u :
  clock_ok now -> conn_ok env s u ->
  exists x s' u' P, tick env readable r now s u = Ret (s', u') /\ loop_result env now (s ++ x) u P s' u'.
Proof.
  intros Hclk Hok. unfold tick.
  assert (exists m x, (if readable then receiveMessage env r s else (None, s)) = (m, s ++ x)) as (m & x & ->).
  { destruct readable; [|exists None, []; now rewrite app_nil_r].
    destruct r as [| |text ip port]; try (exists None, []; now rewrite app_nil_r).
    cbn. destruct (decode env text); [eauto | exists None, []; now rewrite app_nil_r]. }
  set (u1 := match m with Some h => with_rcvFifo (rcvFifo u ++ [h]) u | None => u end).
  assert (exists f, u1 = with_rcvFifo f u) as (f & ->).
  { unfold u1. destruct m; [eauto|]. exists (rcvFifo u). now destruct u. }
  destruct (sendLoop_spec env now (tickFuel (with_rcvFifo f u)) Hclk (s ++ x) (with_rcvFifo f u))
    as (s' & u' & P & E & Hr).
  - apply conn_ok_fifo, conn_ok_app, Hok.
  - unfold tickFuel. cbn [sendQ with_rcvFifo]. pose proof (List.filter_length_le (dueb now (s ++ x)) (pq_elems (sendQ u))).
    lia.
  - exists x, s', u', P. split; [exact E|]. eapply loop_result_queue; [| | | |exact Hr]; reflexivity.
Qed.

(** C7: every tick returns and keeps the connection in order. It gives the
    socket only datagrams of queued containers whose time has come and whose
    transmissions are not used up, each container at most once; and unless
    the socket was busy, nothing that is due is left in the queue. *)
Theorem tick_sends_due_once readable r now s u :
  clock_ok now -> conn_ok env s u ->
  exists s' u' l, tick env readable r now s u = Ret (s', u') /\ conn_ok env s' u' /\
    sent u' = sent u ++ l /\ NoDup (map (fun x => x.1.1) l) /\
    (forall h d a, (h, d, a) ∈ l -> h ∈ pq_elems (sendQ u) /\ exists c, s !! h = Some c /\
       nextTx c <= now /\ live c = true /\ d = in_encode c /\ netAddr c = Some a) /\
    ((forall h, h ∈ pq_elems (sendQ u') -> now < txTime s' h) \/
     exists n, (calls u <= n)%nat /\ busy (sendto env n) = true).
Proof.
  intros Hclk Hok. destruct (tick_spec readable r now s u Hclk Hok)
    as (x & s' & u' & P & E & [R1 R2 R3 R4 R5 R6 R7 R8 (l & R9 & R10 & R11 & _)]).
  assert (forall h, h ∈ pq_elems (sendQ u) -> exists c, s !! h = Some c /\ (s ++ x) !! h = Some c /\ ready env c) as Hin.
  { intros h Hh. destruct (ok_ready _ _ _ Hok h Hh) as (c & Hc & Hr).
    exists c. split; [exact Hc|]. split; [now apply lookup_app_l_Some | exact Hr]. }
  exists s', u', l. split; [exact E|]. split; [exact R1|]. split; [exact R9|]. split; [exact R10|]. split.
  - intros h d a Hl. destruct (R11 h d a Hl) as (HP & c & Hc & ? & ? & ?). destruct (R3 h HP) as [Hel Ht].
    split; [exact Hel|]. destruct (Hin h Hel) as (c' & Hc' & Hcx & _). assert (c' = c) as -> by congruence.
    exists c. split; [exact Hc'|]. unfold txTime in Ht. rewrite Hc in Ht. auto.
  - destruct R8 as [R8 | R8]; [left | now right]. intros h Hh. apply R5 in Hh as [Hel Himp].
    destruct (Hin h Hel) as (c & Hc & Hcx & Hr). unfold txTime. rewrite (R4 h c Hcx).
    destruct (decide (h ∈ P)) as [HP | HP].
    + destruct (Himp HP) as (c' & Hc' & Hrq). assert (c' = c) as -> by congruence.
      now apply (requeued_time env).
    + destruct (Z.lt_ge_cases now (nextTx c)) as [H | H]; [exact H|]. destruct HP. apply R8; [exact Hel|].
      unfold txTime. now rewrite Hcx.
Qed.

(** C33: when the network takes every datagram, a container that is due and
    has transmissions left is sent, counted, and put back for its next waiting
    period, which starts at 500 ms and doubles up to 4 s; after its last
    transmission it leaves the queue. *)
Theorem due_message_backs_off readable r now s u h c k :
  clock_ok now -> conn_ok env s u -> randomLosePercent u = 0 -> (forall n, sendto env n = Sent) ->
  h ∈ pq_elems (sendQ u) -> s !! h = Some c -> nextTx c <= now ->
  retransSoFar c = Some k -> k < retransCount c ->
  let wait := if wait_period c =? 0 then 500 else if wait_period c <? 4000 then 2 * wait_period c
              else wait_period c in
  exists s' u' l a c', tick env readable r now s u = Ret (s', u') /\ sent u' = sent u ++ l /\
    (h, in_encode c, a) ∈ l /\ netAddr c = Some a /\ s' !! h = Some c' /\ retransSoFar c' = Some (k + 1) /\
    (k + 1 < retransCount c -> h ∈ pq_elems (sendQ u') /\ wait_period c' = wait /\ nextTx c' = now + wait) /\
    (retransCount c <= k + 1 -> ~ h ∈ pq_elems (sendQ u')).
Proof.
  intros Hclk Hok Hz Hs Hel Hc Ht Hk Hlt wait. destruct (tick_spec readable r now s u Hclk Hok)
    as (x & s' & u' & P & E & [R1 R2 R3 R4 R5 R6 R7 R8 (l & R9 & R10 & R11 & R12)]).
  assert ((s ++ x) !! h = Some c) as Hcx by now apply lookup_app_l_Some.
  assert (live c = true) as Hl by (unfold live; rewrite Hk; now apply Z.ltb_lt).
  assert (h ∈ P) as HP.
  { destruct R8 as [R8 | (n & _ & Hb)]; [|rewrite Hs in Hb; discriminate].
    apply R8; [exact Hel|]. unfold txTime. now rewrite Hcx. }
  destruct (R12 Hz (fun n _ => Hs n) h c HP Hcx Hl) as (a & Ha).
  destruct (R11 _ _ _ Ha) as (_ & c0 & Hc0 & _ & _ & Hadr). assert (c0 = c) as -> by congruence.
  destruct (ok_ready _ _ _ Hok h Hel) as (c1 & Hc1 & Hr). assert (c1 = c) as -> by congruence.
  pose proof (R4 h c Hcx) as Hh. rewrite decide_True in Hh by exact HP.
  assert (counted c = setRetransSoFar (k + 1) c) as Hcnt by (unfold counted; now rewrite Hk).
  assert (live (counted c) = (k + 1 <? retransCount c)) as Hlive by now rewrite Hcnt.
  exists s', u', l, a, (handled now c). split; [exact E|]. split; [exact R9|]. split; [exact Ha|].
  split; [exact Hadr|]. split; [exact Hh|]. destruct Hclk as [H0 H64].
  unfold handled. rewrite Hl, Hlive. destruct (Z.ltb_spec (k + 1) (retransCount c)) as [Hlt2 | Hge].
  - rewrite Hcnt, backoff_fields by (try assumption; apply (ready_wait _ _ Hr)). split; [reflexivity|]. split; [|lia].
    intros _. split; [|split; reflexivity]. apply R5. split; [exact Hel|]. intros _. exists c.
    split; [exact Hcx|]. unfold requeued. now rewrite Hl, Hlive.
  - rewrite Hcnt. split; [reflexivity|]. split; [lia|]. intros _ Hin. apply R5 in Hin as [_ Himp].
    destruct (Himp HP) as (c2 & Hc2 & Hrq). assert (c2 = c) as -> by congruence.
    unfold requeued in Hrq. now rewrite Hl, Hlive in Hrq.
Qed.

(** A sequence of ticks. *)
Fixpoint runTicks (l : list (bool * received * Z)) (s : heap) (u : SipUdpConnection)
  : outcome (heap * SipUdpConnection) :=
  match l with
  | [] => mret (s, u)
  | (readable, r, now) :: l' => '(s, u) ← tick env readable r now s u; runTicks l' s u
  end.

Lemma silent_run ticks h c : forall s u,
  Forall (fun t => clock_ok t.2) ticks -> conn_ok env s u -> s !! h = Some c -> live c = false ->
  exists s' u' l, runTicks ticks s u = Ret (s', u') /\ conn_ok env s' u' /\ sent u' = sent u ++ l /\
    s' !! h = Some c /\ forall x d a, (x, d, a) ∈ l -> x <> h.
Proof.
  induction ticks as [|[[readable r] now] ticks IH]; intros s u Hclk Hok Hc Hl.
  { exists s, u, []. rewrite app_nil_r. repeat (split; [first [reflexivity | assumption]|]).
    intros x d a H. now apply not_elem_of_nil in H. }
  apply Forall_cons_1 in Hclk as [Hclk1 Hclk]. cbn in Hclk1.
  destruct (tick_spec readable r now s u Hclk1 Hok)
    as (x & s1 & u1 & P & E & [R1 R2 R3 R4 R5 R6 R7 R8 (l & R9 & R10 & R11 & R12)]).
  assert ((s ++ x) !! h = Some c) as Hcx by now apply lookup_app_l_Some.
  assert (s1 !! h = Some c) as Hc1.
  { rewrite (R4 h c Hcx). f_equal. case_decide; [|reflexivity]. unfold handled. now rewrite Hl. }
  destruct (IH s1 u1 Hclk R1 Hc1 Hl) as (s2 & u2 & l2 & E2 & Hok2 & Es2 & Hc2 & Hl2).
  exists s2, u2, (l ++ l2). cbn [runTicks]. rewrite E. cbn [mbind outcome_bind].
  split; [exact E2|]. split; [exact Hok2|]. split; [now rewrite Es2, R9, app_assoc|]. split; [exact Hc2|].
  intros y d a [Hy | Hy]%elem_of_app; [|eauto]. intros ->.
  destruct (R11 h d a Hy) as (_ & c' & Hc' & Hl' & _). congruence.
Qed.

(** Once the retransmission of a container has been ended, by whoever holds
    it, no tick ever sends it again, wherever it is in the queue. *)
Theorem stopped_message_is_silent ticks h c s u :
  Forall (fun t => clock_ok t.2) ticks -> conn_ok env s u -> s !! h = Some c -> ready env c ->
  exists s' u' l, runTicks ticks (<[h := setRetransmitMax 0 c]> s) u = Ret (s', u') /\ conn_ok env s' u' /\
    sent u' = sent u ++ l /\ forall x d a, (x, d, a) ∈ l -> x <> h.
Proof.
  intros Hclk Hok Hc Hr. set (c0 := setRetransmitMax 0 c).
  assert ((<[h := c0]> s) !! h = Some c0) as Hc0 by (apply list_lookup_insert_eq; now apply lookup_lt_Some in Hc).
  destruct (silent_run ticks h c0 (<[h := c0]> s) u Hclk) as (s' & u' & l & E & H1 & H2 & _ & H3);
    [| exact Hc0 | now apply stopped_not_live |].
  - apply (conn_ok_write h c); [exact Hok | exact Hc | reflexivity | apply ready_stop].
  - exists s', u', l. auto.
Qed.

(** ** Sending *)

(** A container that is ready may be put into the queue it is not in. *)
Lemma push_ok h c c0 s u :
  conn_ok env s u -> s !! h = Some c0 -> h ∉ pq_elems (sendQ u) -> ready env c ->
  conn_ok env (<[h := c]> s) (push h (<[h := c]> s) u).
Proof.
  intros [K1 K2 K3] Hc Hni Hr. assert (pq_elems (sendQ (push h (<[h := c]> s) u)) ≡ₚ h :: pq_elems (sendQ u)) as Hp
    by apply pq_push_elems.
  split; cbn [push with_sendQ sendQ].
  - apply pq_push_ok. eapply pq_ok_ext; [exact K1|]. apply List.Forall_forall. intros x Hx.
    unfold txTime. rewrite list_lookup_insert_ne; [reflexivity|]. intros ->. apply Hni. now apply list_elem_of_In.
  - rewrite Hp. now constructor.
  - intros x. rewrite Hp. intros [-> | Hx]%elem_of_cons.
    + exists c. split; [|exact Hr]. apply list_lookup_insert_eq. now apply lookup_lt_Some in Hc.
    + rewrite list_lookup_insert_ne; [now apply K3|]. now intros ->.
Qed.

Lemma fresh_ready c m a :
  in_ c = Some m -> wait_period c = 0 -> zlen (encode env m) <> 0 ->
  (getType m <> SIP_STATUS -> exists cmd, decode env (encode env m) = Some cmd /\ isCommand cmd = true) ->
  ready env (setRetransSoFar 0 (setNetworkAddr a (setEncode (encode env m) c))).
Proof.
  intros Hin Hw Htext Hdec. split; cbn; [exists 0; auto with lia | eauto | eauto | exact Htext |].
  rewrite Hw. lia.
Qed.

(** [send] of a message that was not sent before. *)
Lemma send_fresh h c m host port nhost nport s u :
  s !! h = Some c -> in_ c = Some m -> in_encode c = [] -> netAddr c = None ->
  (if zlen host =? 0 then getHostPort m else p ← toInt port; mret (host, p)) = Ret (nhost, nport) ->
  let address := resolve env (cstr nhost) in
  let c' := setRetransSoFar 0 (setNetworkAddr (mkAddr address nport) (setEncode (encode env m) c)) in
  send env h host port s u =
    if address =? 0 then Ret (-1, <[h := setEncode (encode env m) c]> s, u)
    else if 0 <=? nport then Ret (0, <[h := c']> s, push h (<[h := c']> s) u)
    else Fault AssertFailed.
Proof.
  intros Hc Hin Henc Hadr Hdest address c'. unfold send.
  rewrite (proj2 (load_Ret h s c) Hc). cbn [mbind outcome_bind]. rewrite Henc.
  change (zlen (@nil Z) =? 0) with true. rewrite Hin. cbn [mbind outcome_bind mret outcome_ret].
  cbn [mbind outcome_bind mret outcome_ret] in Hdest. rewrite Hdest. cbn [mbind outcome_bind mret outcome_ret].
  rewrite (store_defined h _ s c Hc). cbn [mbind outcome_bind]. rewrite Hadr. cbn [getIp4Address].
  fold address. set (c1 := setEncode (encode env m) c) in *.
  assert (forall x, (<[h := x]> s) !! h = Some x) as Hw
    by (intros x; apply list_lookup_insert_eq; now apply lookup_lt_Some in Hc).
  destruct (Z.eqb_spec address 0) as [H0 | H0]; [reflexivity|].
  rewrite (store_defined h _ _ c1 (Hw c1)). cbn [mbind outcome_bind mret outcome_ret].
  rewrite list_insert_insert_eq, (store_defined h _ _ _ (Hw _)). cbn [mbind outcome_bind].
  rewrite list_insert_insert_eq. fold c'. rewrite (proj2 (load_Ret h _ c') (Hw c')).
  cbn [mbind outcome_bind netAddr deref c' setRetransSoFar setNetworkAddr addrPort].
  now destruct (0 <=? nport).
Qed.

(** A message is queued for its destination at once, to be transmitted
    from zero; if the destination does not resolve, [send] reports -1, and
    nothing is queued. *)
Theorem send_queues_or_drops h c m host port nhost nport s u :
  conn_ok env s u -> s !! h = Some c -> ~ h ∈ pq_elems (sendQ u) ->
  in_ c = Some m -> in_encode c = [] -> netAddr c = None -> wait_period c = 0 ->
  zlen (encode env m) <> 0 ->
  (getType m <> SIP_STATUS -> exists cmd, decode env (encode env m) = Some cmd /\ isCommand cmd = true) ->
  (if zlen host =? 0 then getHostPort m else p ← toInt port; mret (host, p)) = Ret (nhost, nport) ->
  0 <= nport ->
  let address := resolve env (cstr nhost) in
  (address = 0 -> exists s', send env h host port s u = Ret (-1, s', u)) /\
  (address <> 0 -> exists s' u' c', send env h host port s u = Ret (0, s', u') /\ conn_ok env s' u' /\
     pq_elems (sendQ u') ≡ₚ h :: pq_elems (sendQ u) /\ sent u' = sent u /\ s' !! h = Some c' /\
     in_encode c' = encode env m /\ netAddr c' = Some (mkAddr address nport) /\
     retransSoFar c' = Some 0 /\ retransCount c' = retransCount c /\ nextTx c' = nextTx c).
Proof.
  intros Hok Hc Hni Hin Henc Hadr Hw Htext Hdec Hdest Hport address.
  rewrite (send_fresh h c m host port nhost nport s u Hc Hin Henc Hadr Hdest). fold address.
  rewrite (proj2 (Z.leb_le 0 nport) Hport).
  destruct (Z.eqb_spec address 0) as [H0 | H0]; (split; [intros ?; try contradiction | intros ?; try contradiction]).
  - eauto.
  - set (c' := setRetransSoFar 0 _). exists (<[h := c']> s), (push h (<[h := c']> s) u), c'.
    split; [reflexivity|]. split; [|split; [apply pq_push_elems|]; split; [reflexivity|]; split].
    + apply (push_ok h c' c); try assumption. now apply fresh_ready.
    + apply list_lookup_insert_eq. now apply lookup_lt_Some in Hc.
    + auto.
Qed.

End Props.

(** * Concrete runs *)

(** A network that takes everything, and knows the host 10.0.0.2. *)
Definition sampleEnv : Environment :=
  mkEnv (fun _ => Sent) (fun _ => 0) (fun h => if textEq h (str "10.0.0.2") then 167772162 else 0)
    (fun a => a) (fun _ => false) (fun _ => str "INVITE sip:bob@10.0.0.2 SIP/2.0") (fun _ => Some invite).

Definition sampleUdp (l : list handle) : SipUdpConnection (Q := listQueue) :=
  @mkUdp listQueue l [] 0 [] 0 0.

Lemma sample_ready k n : 0 <= k -> ready sampleEnv (queued invite k n).
Proof. intros Hk. split; cbn; [eauto | eauto | eauto | discriminate | lia]. Qed.

Lemma sample_conn k n : 0 <= k -> conn_ok (Q := listQueue) sampleEnv [queued invite k n] (sampleUdp [0%nat]).
Proof.
  intros Hk. split; [repeat constructor | apply NoDup_singleton |].
  intros h ->%list_elem_of_singleton. eexists. split; [reflexivity | now apply sample_ready].
Qed.

Lemma tick_sends_due_once_witness :
  exists s' u' l, tick (Q := listQueue) sampleEnv false Nothing 100 [queued invite 0 7] (sampleUdp [0%nat])
    = Ret (s', u') /\ sent u' = [] ++ l.
Proof.
  destruct (tick_sends_due_once (Q := listQueue) sampleEnv false Nothing 100 [queued invite 0 7] (sampleUdp [0%nat]))
    as (s' & u' & l & E & _ & H & _); [split; lia | now apply sample_conn | eauto].
Defined.

Lemma due_message_backs_off_witness :
  exists s' u' c', tick (Q := listQueue) sampleEnv false Nothing 100 [queued invite 0 7] (sampleUdp [0%nat])
    = Ret (s', u') /\ s' !! 0%nat = Some c' /\ retransSoFar c' = Some 1 /\ nextTx c' = 600.
Proof.
  destruct (due_message_backs_off (Q := listQueue) sampleEnv false Nothing 100 [queued invite 0 7] (sampleUdp [0%nat])
    0 (queued invite 0 7) 0)
    as (s' & u' & l & a & c' & E & _ & _ & _ & H1 & H2 & H3 & _);
    [split; lia | now apply sample_conn | reflexivity | reflexivity | left | reflexivity | cbn; lia | reflexivity
    | cbn; lia |].
  exists s', u', c'. split; [exact E|]. split; [exact H1|]. split; [exact H2|]. now apply H3.
Defined.

Lemma stopped_message_is_silent_witness :
  exists s' u' l, runTicks (Q := listQueue) sampleEnv [(false, Nothing, 100); (false, Nothing, 700)]
      [queued invite 0 0] (sampleUdp [0%nat]) = Ret (s', u') /\ sent u' = [] ++ l /\
    forall x d a, (x, d, a) ∈ l -> x <> 0%nat.
Proof.
  destruct (stopped_message_is_silent (Q := listQueue) sampleEnv [(false, Nothing, 100); (false, Nothing, 700)]
    0 (queued invite 0 7) [queued invite 0 7] (sampleUdp [0%nat]))
    as (s' & u' & l & E & _ & H1 & H2);
    [repeat constructor; cbn; lia | now apply sample_conn | reflexivity | now apply sample_ready |].
  exists s', u', l. split; [exact E|]. split; [exact H1 | exact H2].
Defined.

Lemma send_queues_or_drops_witness :
  exists s' u', send (Q := listQueue) sampleEnv 0 [] [] [arrived invite] (sampleUdp []) = Ret (0, s', u') /\
    pq_elems (sendQ u') ≡ₚ [0%nat].
Proof.
  destruct (send_queues_or_drops (Q := listQueue) sampleEnv 0 (arrived invite) invite [] []
    (str "10.0.0.2") 5060 [arrived invite] (sampleUdp [])) as [_ H];
    [split; [constructor | constructor | intros h H; now apply not_elem_of_nil in H]
    | reflexivity | apply not_elem_of_nil | reflexivity | reflexivity | reflexivity | reflexivity
    | discriminate | eauto | reflexivity | lia |].
  destruct H as (s' & u' & c' & E & _ & Hp & _); [discriminate|]. exists s', u'. split; [exact E | exact Hp].
Defined.

End SipUdpProps.
