(* ===== verification/SipTransceiver.v ===== *)
(** The SIP stack as its users see it (sip/sipstack/SipTransceiver): requests
    and responses go through the transaction databases to the connection, and
    what arrives goes back through them to the application.

    The TCP connection is a list of what was given to it and a list of what it
    has received; everything else is the code of the other files. *)
From stdpp Require Import gmap.
From S2P Require Import Prelude DataStr SipHeap SipTxn SipUdp.
Import DataStr SipHeap SipTxn SipUdp.

Module SipTransceiver.

Section Transceiver.
Context {Q : PriorityQueue}.
Variable env : Environment.

Record SipTransceiver := mkTransceiver {
  containers : heap;
  sentRequestDB : SipTransactionDB;
  sentResponseDB : SipTransactionDB;
  udpConnection : SipUdpConnection;
  tcpSent : list (handle * bytes * bytes);
  tcpFifo : list handle;
  natOn : bool;
  isProxy : bool;                       (** [myAppContext == APP_CONTEXT_PROXY] *)
  lastPurge : Z
}.

Definition with_udp (s : heap) (u : SipUdpConnection) (t : SipTransceiver) : SipTransceiver :=
  mkTransceiver s (sentRequestDB t) (sentResponseDB t) u (tcpSent t) (tcpFifo t) (natOn t) (isProxy t)
    (lastPurge t).
Definition with_requests (s : heap) (db : SipTransactionDB) (t : SipTransceiver) : SipTransceiver :=
  mkTransceiver s db (sentResponseDB t) (udpConnection t) (tcpSent t) (tcpFifo t) (natOn t) (isProxy t)
    (lastPurge t).
Definition with_responses (s : heap) (db : SipTransactionDB) (t : SipTransceiver) : SipTransceiver :=
  mkTransceiver s (sentRequestDB t) db (udpConnection t) (tcpSent t) (tcpFifo t) (natOn t) (isProxy t)
    (lastPurge t).

(** [send]; the result of the UDP connection is ignored. *)
Definition sendTo (h : handle) (host iport : bytes) (t : SipTransceiver) : outcome SipTransceiver :=
  c ← load h (containers t);
  let port := if textEq iport (str "0") then str "5060" else iport in
  if eqNoCase (transport c) (str "TCP") || textEq (transport c) (str "tcp") then
    mret (mkTransceiver (containers t) (sentRequestDB t) (sentResponseDB t) (udpConnection t)
      (tcpSent t ++ [(h, host, port)]) (tcpFifo t) (natOn t) (isProxy t) (lastPurge t))
  else
    '(_, s, u) ← send env h host port (containers t) (udpConnection t);
    mret (with_udp s u t).

(** [sendAsync] without a destination. *)
Definition sendAsync (now : Z) (sipMessage : SipMsg) (t : SipTransceiver) : outcome SipTransceiver :=
  if negb (checkMaxForwards sipMessage) then mret t
  else
    '(h, s, db) ← SipSentRequestDB.processSend now sipMessage (containers t) (sentRequestDB t);
    sendTo h [] [] (with_requests s db t).

(** [sendAsync] to a given host and port. *)
Definition sendAsyncTo (now : Z) (sipMessage : SipMsg) (host iport : bytes) (t : SipTransceiver)
  : outcome SipTransceiver :=
  let port := if textEq iport (str "0") || (zlen iport =? 0) then str "5060" else iport in
  if negb (checkMaxForwards sipMessage) then mret t
  else
    '(h, s, db) ← SipSentRequestDB.processSend now sipMessage (containers t) (sentRequestDB t);
    sendTo h host port (with_requests s db t).

Definition sendReply (sipMessage : SipMsg) (t : SipTransceiver) : outcome SipTransceiver :=
  '(h, s, db) ← SipSentResponseDB.processSend (isProxy t) sipMessage (containers t) (sentResponseDB t);
  sendTo h [] [] (with_responses s db t).

(** [setCallPurgeTimer] *)
Definition setPurge (forCall : SipTransactionId) (expire_at_ms : Z) (t : SipTransceiver) : SipTransceiver :=
  mkTransceiver (containers t) (setCallPurgeTimer forCall expire_at_ms (sentRequestDB t))
    (setCallPurgeTimer forCall expire_at_ms (sentResponseDB t)) (udpConnection t) (tcpSent t) (tcpFifo t)
    (natOn t) (isProxy t) (lastPurge t).

(** The purge of [tick]. *)
Definition purge (now : Z) (t : SipTransceiver) : SipTransceiver :=
  if u64 (lastPurge t + 5000) <? now then
    mkTransceiver (containers t) (purgeOldCalls now (sentRequestDB t))
      (purgeOldCalls now (sentResponseDB t)) (udpConnection t) (tcpSent t) (tcpFifo t) (natOn t)
      (isProxy t) now
  else t.

(** [tick], less the tick of the TCP connection. *)
Definition tickAll (readable : bool) (r : received) (now : Z) (t : SipTransceiver) : outcome SipTransceiver :=
  '(s, u) ← tick env readable r now (containers t) (udpConnection t);
  mret (purge now (with_udp s u t)).

(** [setReceivedhost] and [setReceivedport] on a Via. *)
Definition setReceived (host port : bytes) (via : SipVia) : SipVia :=
  let h := if isIp6 env host then str "[" ++ host ++ str "]" else host in
  mkVia (viaTransport via) (viaHost via) (viaPort via) (branchToken via) (maddr via)
    (if 0 <? zlen h then true else viaReceived via) h port.

(** The NAT handling of [receiveNB]. *)
Definition natMsg (m : SipMsg) : SipMsg :=
  let addr1 := cstr (viaHost (topVia m)) in
  let addr2 := cstr (recvdIPName m) in
  if negb (zlen addr2 =? 0)
     && (negb (bool_decide (ipName env addr1 = ipName env addr2)) || (zlen addr1 =? 0)) then
    mkSipMsg (class m) (toKey m) (fromKey m) (callIdData m) (callIdLocal m) (cseqData m) (cseqMethod m)
      (setReceived (recvdIPName m) (recvdIPPort m) (topVia m)) (recvdIPName m) (recvdIPPort m)
  else m.

(** The next message that was received. *)
Definition nextReceived (t : SipTransceiver) : option handle * SipTransceiver :=
  match getNextMessage (udpConnection t) with
  | (Some h, u) => (Some h, with_udp (containers t) u t)
  | (None, _) =>
      match tcpFifo t with
      | h :: l => (Some h, mkTransceiver (containers t) (sentRequestDB t) (sentResponseDB t)
                             (udpConnection t) (tcpSent t) l (natOn t) (isProxy t) (lastPurge t))
      | [] => (None, t)
      end
  end.

(** [receiveNB]: the queue for the application, if any. *)
Definition receiveNB (t : SipTransceiver) : outcome (option (list (option SipMsg)) * SipTransceiver) :=
  match nextReceived t with
  | (None, t) => mret (None, t)
  | (Some h, t) =>
      c ← load h (containers t);
      m ← deref (in_ c);
      s ← (if natOn t then store h (setMsgIn (natMsg m)) (containers t) else mret (containers t));
      c ← load h s;
      m ← deref (in_ c);
      if is_method (getType m) SIP_STATUS then
        '(q, s, db) ← SipSentRequestDB.processRecv (isProxy t) h s (sentRequestDB t);
        mret (q, with_requests s db t)
      else
        '(q, s, db) ← SipSentResponseDB.processRecv (isProxy t) h s (sentResponseDB t);
        mret (q, with_responses s db t)
  end.

End Transceiver.

End SipTransceiver.
