(* ===== verification/SipTransceiverFacts.v ===== *)
(** The transceiver as a whole: an INVITE that was sent falls silent once a
    response to it has been received, whatever the connection did meanwhile;
    receiving never sends; a request out of order stays without an answer; and
    the purge removes exactly the calls whose time is over. *)
From stdpp Require Import gmap.
From S2P Require Import Prelude DataStr DataStrFacts DataStrText SipHeap SipTxn SipSamples SipUdp SipTransceiver.
From S2P Require Import SipTxnFacts SipAnswerFacts SipUdpFacts SipUdpProps.
Import DataStr SipHeap SipTxn SipSamples SipUdp SipTransceiver SipTxnFacts SipAnswerFacts SipUdpFacts SipUdpProps.

Module SipTransceiverFacts.

Section Facts.
Context {Q : PriorityQueue}.
Variable env : Environment.

(** * What ticks leave alone *)

Definition soFar_ok (c : SipMsgContainer) : Prop := exists k, retransSoFar c = Some k /\ 0 <= k.

Record kept (c c' : SipMsgContainer) : Prop := mkKept {
  kept_in : in_ c' = in_ c;
  kept_id : trans_id c' = trans_id c;
  kept_soFar : soFar_ok c -> soFar_ok c'
}.

Lemma kept_refl c : kept c c.
Proof. now split. Qed.

Lemma kept_trans c1 c2 c3 : kept c1 c2 -> kept c2 c3 -> kept c1 c3.
Proof. intros [] []. split; try congruence. auto. Qed.

Lemma counted_kept c : kept c (counted c).
Proof.
  unfold counted. destruct (retransSoFar c) eqn:E; [|apply kept_refl]. split; try reflexivity.
  intros (k & Hk & H0). exists (z + 1). cbn. split; [reflexivity|]. rewrite E in Hk. injection Hk as ->. lia.
Qed.

Lemma backoff_kept now c : kept c (backoff now c).
Proof. unfold backoff. destruct (wait_period c =? 0), (wait_period c <? retransmitTimeMax); now split. Qed.

Lemma handled_kept now c : kept c (handled now c).
Proof.
  unfold handled. destruct (live c); [|apply kept_refl].
  destruct (live (counted c)); [|apply counted_kept].
  eapply kept_trans; [apply counted_kept | apply backoff_kept].
Qed.

Definition keeps (s s' : heap) : Prop := forall h c, s !! h = Some c -> exists c', s' !! h = Some c' /\ kept c c'.

Lemma keeps_extends s s' : keeps s s' -> extends s s'.
Proof. intros H h c Hc. destruct (H h c Hc) as (c' & Hc' & Hk). exists c'. split; [exact Hc' | apply Hk]. Qed.

Lemma runTicks_keeps ticks : forall s u,
  Forall (fun t => clock_ok t.2) ticks -> conn_ok env s u ->
  exists s' u', runTicks env ticks s u = Ret (s', u') /\ conn_ok env s' u' /\ keeps s s'.
Proof.
  induction ticks as [|[[readable r] now] ticks IH]; intros s u Hclk Hok.
  { exists s, u. split; [reflexivity|]. split; [exact Hok|]. intros h c Hc. eauto using kept_refl. }
  apply Forall_cons_1 in Hclk as [Hclk1 Hclk]. cbn in Hclk1.
  destruct (tick_spec env readable r now s u Hclk1 Hok) as (x & s1 & u1 & P & E & Hr).
  destruct (IH s1 u1 Hclk (lr_ok _ _ _ _ _ _ _ Hr)) as (s2 & u2 & E2 & Hok2 & Hk).
  exists s2, u2. cbn [runTicks]. rewrite E. cbn [mbind outcome_bind]. split; [exact E2|]. split; [exact Hok2|].
  intros h c Hc. pose proof (lr_heap _ _ _ _ _ _ _ Hr h c (lookup_app_l_Some _ _ _ _ Hc)) as Hc1.
  destruct (Hk h _ Hc1) as (c' & Hc' & Hkc). exists c'. split; [exact Hc'|].
  eapply kept_trans; [|exact Hkc]. case_decide; [apply handled_kept | apply kept_refl].
Qed.

(** * Ticks of the transceiver *)

Fixpoint runAll (l : list (bool * received * Z)) (t : SipTransceiver) : outcome SipTransceiver :=
  match l with
  | [] => mret t
  | (readable, r, now) :: l' => t ← tickAll env readable r now t; runAll l' t
  end.

Lemma purge_lookup now db k :
  purgeOldCalls now db !! k =
    match db !! k with Some c => if expired now c then None else Some c | None => None end.
Proof.
  unfold purgeOldCalls. destruct (db !! k) as [c|] eqn:E.
  - destruct (expired now c) eqn:Ex.
    + apply map_lookup_filter_None. right. intros c' Hc'. cbn. congruence.
    + now apply map_lookup_filter_Some.
  - apply map_lookup_filter_None. now left.
Qed.

Lemma purge_unset now db i call :
  getCallContainer i db = Some call -> purgeAt call = 0 -> getCallContainer i (purgeOldCalls now db) = Some call.
Proof.
  unfold getCallContainer. intros H H0. rewrite purge_lookup, H. unfold expired. now rewrite H0.
Qed.

(** The connection and the containers move as in a run of the connection's
    ticks, and calls without a purge time stay. *)
Lemma runAll_spec ticks : forall t s u,
  runTicks env ticks (containers t) (udpConnection t) = Ret (s, u) ->
  exists t', runAll ticks t = Ret t' /\ containers t' = s /\ udpConnection t' = u /\
    natOn t' = natOn t /\ isProxy t' = isProxy t /\
    forall i call, getCallContainer i (sentRequestDB t) = Some call -> purgeAt call = 0 ->
      getCallContainer i (sentRequestDB t') = Some call.
Proof.
  induction ticks as [|[[readable r] now] ticks IH]; intros t s u; cbn [runTicks runAll].
  { intros [= <- <-]. exists t. auto 6. }
  unfold tickAll. intros ([s1 u1] & E & H)%bind_Ret_inv. rewrite E. cbn [mbind outcome_bind mret outcome_ret].
  destruct (IH (purge now (with_udp s1 u1 t)) s u) as (t' & E' & H1 & H2 & H3 & H4 & H5).
  { unfold purge. now destruct (_ <? now). }
  exists t'. split; [exact E'|]. split; [exact H1|]. split; [exact H2|]. rewrite H3, H4.
  unfold purge in *. destruct (_ <? now); cbn in *; auto using purge_unset.
Qed.

(** * A request and its response *)

(** A response as the application sees it. *)
Definition delivered (t : SipTransceiver) (m : SipMsg) : SipMsg := if natOn t then natMsg env m else m.

Lemma delivered_same t m :
  transactionId (delivered t m) = transactionId m /\ class (delivered t m) = class m.
Proof.
  unfold delivered, natMsg. destruct (natOn t); [|auto]. destruct (_ && _); [|auto]. now cbn.
Qed.

(** The call of an INVITE that was just sent. *)
Lemma invited_call now msg h i :
  getType msg = SIP_INVITE -> withRequest now msg h (newCall i) = invited i h.
Proof. intros Ht. unfold withRequest. now rewrite bool_decide_eq_false_2 by congruence. Qed.

(** The transceiver takes a response out of the receive queue. *)
Lemma receive_response t mc l st code i h c :
  rcvFifo (udpConnection t) = mc :: l -> holds_response (containers t) mc st code i ->
  getCallContainer i (sentRequestDB t) = Some (invited i h) ->
  containers t !! h = Some c -> trans_id c = i -> h <> mc ->
  exists q db, let st' := delivered t st in
    receiveNB env t = Ret (Some q, with_requests (<[h := setRetransmitMax 0 c]>
      (if natOn t then match containers t !! mc with Some cm => <[mc := setMsgIn st' cm]> (containers t) | None => [] end
       else containers t)) db (with_udp (containers t) (with_rcvFifo l (udpConnection t)) t)) /\
    In (Some st') q.
Proof.
  intros Hq (cm & Hm & Hin & Hst & Hid) Hcall Hc Hci Hne. destruct (delivered_same t st) as [Ei Ec].
  assert (getType st = SIP_STATUS) as Ht by (unfold asStatus, getType in *; now destruct (class st)).
  unfold receiveNB, nextReceived, getNextMessage. rewrite Hq. cbn [with_udp containers natOn].
  rewrite (proj2 (load_Ret mc _ cm) Hm). cbn [mbind outcome_bind]. rewrite Hin. cbn [deref mbind outcome_bind].
  set (st' := delivered t st). unfold delivered in st'. rewrite Hm.
  set (s2 := if natOn t then <[mc := setMsgIn st' cm]> (containers t) else containers t).
  assert ((if natOn t then store mc (setMsgIn (natMsg env st)) (containers t) else mret (containers t)) = Ret s2) as ->.
  { unfold s2, st'. destruct (natOn t); [now rewrite (store_defined _ _ _ cm Hm) | reflexivity]. }
  cbn [mbind outcome_bind].
  assert (exists cm', s2 !! mc = Some cm' /\ in_ cm' = Some st') as (cm' & Hm' & Hin').
  { unfold s2, st'. destruct (natOn t); [|eauto]. eexists.
    split; [apply list_lookup_insert_eq; now apply lookup_lt_Some in Hm | reflexivity]. }
  rewrite (proj2 (load_Ret mc _ cm') Hm'). cbn [mbind outcome_bind]. rewrite Hin'. cbn [deref mbind outcome_bind].
  assert (getType st' = SIP_STATUS) as -> by (unfold getType in *; fold (delivered t st) in st'; unfold st'; now rewrite Ec).
  cbn [bool_decide].
  assert (holds_response s2 mc st' code i) as Hst'.
  { exists cm'. split; [exact Hm'|]. split; [exact Hin'|]. split.
    - unfold asStatus in *. fold (delivered t st) in st'. unfold st'. now rewrite Ec.
    - fold (delivered t st) in st'. unfold st'. now rewrite Ei. }
  assert (s2 !! h = Some c) as Hc2 by (unfold s2; destruct (natOn t); [now rewrite list_lookup_insert_ne | exact Hc]).
  rewrite bool_decide_eq_true_2 by reflexivity. cbn [sentRequestDB with_udp isProxy].
  rewrite (processRecv_response (isProxy t) mc st' code s2 _ i (invited i h) 0 h None c Hst' Hcall); try assumption;
    [|apply (invite_found i i s2 h c); [exact Hc2 | rewrite Hci | ]; apply same_transaction_refl | reflexivity].
  destruct ((code <? 200) || _); cbn [mbind outcome_bind]; (do 2 eexists; split; [reflexivity|]); cbn; auto.
Qed.

(** Receiving it leaves a connection in order, in which the request is stopped. *)
Lemma stopped_after_receive mc st st' code h c cm s u l :
  conn_ok env s u -> s !! mc = Some cm -> in_ cm = Some st -> asStatus st = Some code -> class st' = class st ->
  s !! h = Some c -> h <> mc -> soFar_ok c ->
  forall (nat : bool), let s2 := if nat then <[mc := setMsgIn st' cm]> s else s in
  let s3 := <[h := setRetransmitMax 0 c]> s2 in
  conn_ok env s3 (with_rcvFifo l u) /\ s3 !! h = Some (setRetransmitMax 0 c) /\ live (setRetransmitMax 0 c) = false.
Proof.
  intros Hok Hm Hin Hst Ecl Hc Hne (k & Hk & Hk0) nat s2 s3.
  assert (s2 !! h = Some c) as Hc2 by (unfold s2; destruct nat; [now rewrite list_lookup_insert_ne | exact Hc]).
  assert (conn_ok env s2 u) as Hok2.
  { unfold s2. destruct nat; [|exact Hok]. apply (conn_ok_write env mc cm); [exact Hok | exact Hm | reflexivity |].
    intros [H1 _ H3 H4 H5]. split; try assumption. exists st'. split; [reflexivity|]. intros []. unfold getType.
    unfold asStatus in Hst. rewrite Ecl. now destruct (class st). }
  split; [|split].
  - apply conn_ok_fifo, (conn_ok_write env h c); [exact Hok2 | exact Hc2 | reflexivity | apply ready_stop].
  - apply list_lookup_insert_eq. now apply lookup_lt_Some in Hc2.
  - unfold live. cbn. rewrite Hk. apply Z.ltb_ge. lia.
Qed.

(** The transport that [sendTo] hands to TCP. *)
Definition overTcp (c : SipMsgContainer) : bool :=
  eqNoCase (transport c) (str "TCP") || textEq (transport c) (str "tcp").

(** Sending an INVITE for a new call over UDP. *)
Lemma sendAsync_invite now msg t host port :
  getType msg = SIP_INVITE -> has_other_url msg = false -> checkMaxForwards msg = true ->
  overTcp (requestContainer msg) = false -> getCallContainer (transactionId msg) (sentRequestDB t) = None ->
  conn_ok env (containers t) (udpConnection t) ->
  getHostPort msg = Ret (host, port) -> 0 <= port -> resolve env (cstr host) <> 0 ->
  zlen (encode env msg) <> 0 ->
  (exists cmd, decode env (encode env msg) = Some cmd /\ isCommand cmd = true) ->
  let i := transactionId msg in let h := length (containers t) in
  exists t1 c1, sendAsync env now msg t = Ret t1 /\ conn_ok env (containers t1) (udpConnection t1) /\
    h ∈ pq_elems (sendQ (udpConnection t1)) /\ containers t1 !! h = Some c1 /\ in_ c1 = Some msg /\
    trans_id c1 = i /\ soFar_ok c1 /\ sent (udpConnection t1) = sent (udpConnection t) /\
    getCallContainer i (sentRequestDB t1) = Some (invited i h) /\ natOn t1 = natOn t.
Proof.
  intros Ht Hu Hmax Htcp Hnone Hok Hdest Hport Hres Htext Hdec i h. unfold sendAsync. rewrite Hmax. cbn [negb].
  assert (isCommand msg = true) as Hcmd by (unfold isCommand, getType in *; now destruct (class msg)).
  assert (new_in i (containers t) (sentRequestDB t) (newCall i)) as Hnew by (unfold new_in, i; now rewrite Hnone).
  rewrite (processSend_new now msg _ _ _ Hcmd Hu ltac:(congruence) Hnew).
  cbn [mbind outcome_bind]. rewrite (invited_call now msg _ _ Ht). fold i h.
  set (r := requestContainer msg) in *. set (s1 := containers t ++ [r]).
  assert (s1 !! h = Some r) as Hr by apply alloc_lookup.
  unfold sendTo. cbn [with_requests containers udpConnection]. rewrite (proj2 (load_Ret h s1 r) Hr).
  cbn [mbind outcome_bind]. unfold overTcp in Htcp. rewrite Htcp. change (textEq [] (str "0")) with false. cbn [negb].
  assert (in_encode r = [] /\ netAddr r = None /\ wait_period r = 0) as (He & Hn & Hw)
    by (unfold r, requestContainer; destruct (class msg) as [m0 [|u0|] n0|code]; now destruct (is_method _ _)).
  rewrite (send_fresh env h r msg [] [] host port s1 (udpConnection t) Hr (requestContainer_in msg) He Hn Hdest),
    (proj2 (Z.leb_le 0 port) Hport).
  destruct (Z.eqb_spec (resolve env (cstr host)) 0) as [|_]; [contradiction|].
  cbn [mbind outcome_bind mret outcome_ret]. set (c1 := setRetransSoFar 0 _).
  eexists _, c1. split; [reflexivity|]. cbn [containers with_udp udpConnection sentRequestDB with_requests natOn].
  split. { apply (push_ok env h c1 r); [now apply conn_ok_app | exact Hr | | apply (fresh_ready env r msg _ (requestContainer_in msg)); auto].
    intros Hin. destruct (ok_ready _ _ _ Hok h Hin) as (x & Hx & _). apply lookup_lt_Some in Hx. unfold h in Hx. lia. }
  split. { cbn. rewrite (pq_push_elems _ h). left. }
  split. { apply list_lookup_insert_eq. now apply lookup_lt_Some in Hr. }
  split; [apply requestContainer_in|]. split; [apply requestContainer_id|].
  split. { exists 0. split; [reflexivity | lia]. }
  split; [reflexivity|]. split; [now apply getCallContainer_put | reflexivity].
Qed.

(** C1: an INVITE for a new call is queued for its destination.  Run the
    transceiver for as long as you like; when a response of the transaction
    then arrives, the application is given it, and whatever happens to the
    clock and the network after that, the INVITE is never put on the wire
    again. *)
Theorem answered_invite_is_silent now msg t host port :
  getType msg = SIP_INVITE -> has_other_url msg = false -> checkMaxForwards msg = true ->
  overTcp (requestContainer msg) = false -> getCallContainer (transactionId msg) (sentRequestDB t) = None ->
  conn_ok env (containers t) (udpConnection t) ->
  getHostPort msg = Ret (host, port) -> 0 <= port -> resolve env (cstr host) <> 0 ->
  zlen (encode env msg) <> 0 ->
  (exists cmd, decode env (encode env msg) = Some cmd /\ isCommand cmd = true) ->
  let h := length (containers t) in
  exists t1, sendAsync env now msg t = Ret t1 /\ h ∈ pq_elems (sendQ (udpConnection t1)) /\
    forall ticks, Forall (fun x => clock_ok x.2) ticks ->
    exists t2, runAll ticks t1 = Ret t2 /\
      forall mc l st code, rcvFifo (udpConnection t2) = mc :: l ->
        holds_response (containers t2) mc st code (transactionId msg) ->
      exists q t3, receiveNB env t2 = Ret (Some q, t3) /\ In (Some (delivered t st)) q /\
        forall ticks', Forall (fun x => clock_ok x.2) ticks' ->
        exists t4 l', runAll ticks' t3 = Ret t4 /\ sent (udpConnection t4) = sent (udpConnection t2) ++ l' /\
          forall x d a, (x, d, a) ∈ l' -> x <> h.
Proof.
  intros Ht Hu Hmax Htcp Hnone Hok Hdest Hport Hres Htext Hdec h.
  destruct (sendAsync_invite now msg t host port Ht Hu Hmax Htcp Hnone Hok Hdest Hport Hres Htext Hdec)
    as (t1 & c1 & E1 & Hok1 & Hq1 & Hc1 & Hin1 & Hid1 & Hs1 & _ & Hdb1 & Hnat1).
  exists t1. split; [exact E1|]. split; [exact Hq1|]. intros ticks Hclk.
  destruct (runTicks_keeps ticks _ _ Hclk Hok1) as (s2 & u2 & Er & Hok2 & Hkeep).
  destruct (runAll_spec ticks t1 s2 u2 Er) as (t2 & E2 & Ec2 & Eu2 & Hnat2 & _ & Hdb2). subst s2 u2.
  exists t2. split; [exact E2|]. intros mc l st code Hfifo Hst.
  destruct (Hkeep _ _ Hc1) as (c2 & Hc2 & [Hin2 Hid2 Hs2]).
  assert (length (containers t) <> mc) as Hne.
  { intros <-. destruct Hst as (cm & Hm & Hin & Hst & _). assert (cm = c2) as -> by congruence.
    assert (st = msg) as -> by congruence. unfold asStatus, getType in *. destruct (class msg); discriminate. }
  destruct (receive_response t2 mc l st code _ _ c2 Hfifo Hst (Hdb2 _ _ Hdb1 eq_refl) Hc2 ltac:(congruence) Hne)
    as (q & db & E3 & Hq).
  assert (delivered t2 st = delivered t st) as Hd by (unfold delivered; now rewrite Hnat2, Hnat1). rewrite Hd in E3, Hq.
  eexists q, _. split; [exact E3|]. split; [exact Hq|]. intros ticks' Hclk'.
  destruct Hst as (cm & Hm & Hin & Hst & _). rewrite Hm in *.
  destruct (stopped_after_receive mc st (delivered t st) code _ c2 cm _ _ l Hok2 Hm Hin Hst
    (proj2 (delivered_same t st)) Hc2 Hne (Hs2 Hs1) (natOn t2)) as (Hok3 & Hc3 & Hlive).
  destruct (silent_run env ticks' _ _ _ _ Hclk' Hok3 Hc3 Hlive) as (s4 & u4 & l4 & Er4 & _ & Hl4 & _ & Hsil).
  match goal with |- context [runAll ticks' ?t3] => destruct (runAll_spec ticks' t3 s4 u4) as (t4 & E4 & _ & Eu4 & _) end.
  - exact Er4.
  - exists t4, l4. split; [exact E4|]. rewrite Eu4. split; [exact Hl4 | exact Hsil].
Qed.

(** * A request out of order *)

(** A request goes to the database of responses. *)
Lemma receive_request t h l c m :
  natOn t = false -> rcvFifo (udpConnection t) = h :: l -> containers t !! h = Some c -> in_ c = Some m ->
  isCommand m = true -> getType m <> SIP_STATUS ->
  receiveNB env t =
    '(q, s, db) ← SipSentResponseDB.processRecv (isProxy t) h (containers t) (sentResponseDB t);
    mret (q, with_responses s db (with_udp (containers t) (with_rcvFifo l (udpConnection t)) t)).
Proof.
  intros Hnat Hfifo Hc Hin Hcmd Ht.
  unfold receiveNB, nextReceived, getNextMessage. rewrite Hfifo. cbn [with_udp containers natOn].
  rewrite (proj2 (load_Ret h _ c) Hc), Hnat. cbn [mbind outcome_bind mret outcome_ret]. rewrite Hin.
  cbn [deref mbind outcome_bind]. rewrite (proj2 (load_Ret h _ c) Hc). cbn [mbind outcome_bind]. rewrite Hin.
  cbn [deref mbind outcome_bind]. now rewrite bool_decide_eq_false_2.
Qed.

Lemma insert_last (s : heap) b b' : <[length s := b']> (s ++ [b]) = s ++ [b'].
Proof. now rewrite insert_app_r_alt, Nat.sub_diag by lia. Qed.

(** The response that the database makes of a 400. *)
Lemma processSend_bad m call db s k h :
  let i := transactionId m in let bad := statusMsg m 400 in
  findMsgPair i s call = Ret (Some k) -> msgs call !! k = Some (mkPair (Some h) None) ->
  exists b, SipSentResponseDB.processSend false bad s (putCall i call db) =
      Ret (length s, s ++ [b], putCall i (with_msgs (<[k := mkPair (Some h) (Some (length s))]> (msgs call)) call)
        (putCall i call db)) /\ in_ b = Some bad.
Proof.
  intros i bad Hf Hk. unfold SipSentResponseDB.processSend.
  cbn [asStatus bad statusMsg class mbind outcome_bind mret outcome_ret alloc].
  change (200 <=? 400) with true. cbv iota. change (transactionId (statusMsg m 400)) with i. fold bad.
  change (mkSipMsg (Status 400) _ _ _ _ _ _ _ _ _) with bad. change (transactionId bad) with i.
  set (b := setTransport _ _). rewrite getCallContainer_put by reflexivity.
  rewrite (findMsgPair_mono i i _ _ _ _ (idEq_refl i) (extends_app s [b]) Hf). cbn [mbind outcome_bind].
  rewrite Hk. cbn [deref mbind outcome_bind response request].
  destruct (_ && _); [|exists b; split; reflexivity].
  rewrite (store_defined _ _ _ b) by apply alloc_lookup. cbn [mbind outcome_bind]. rewrite insert_last.
  eexists. split; reflexivity.
Qed.

(** The database's side of a request out of order. *)
Lemma processRecv_out_of_order h c m n call s db :
  let i := transactionId m in
  s !! h = Some c -> in_ c = Some m -> trans_id c = i -> isCommand m = true ->
  getType m <> SIP_ACK -> getType m <> SIP_CANCEL -> getCallContainer i db = Some call ->
  findMsgPair i s call = Ret None -> toInt (cseqData m) = Ret n -> setSeq call = true -> n <= curSeqNum call ->
  exists s1 b db', SipSentResponseDB.processRecv false h s db = Ret (None, s1 ++ [b], db') /\
    length s1 = length s /\ in_ b = Some (statusMsg m 400) /\
    exists call', getCallContainer i db' = Some call' /\ curSeqNum call' = curSeqNum call /\
      msgs call' = msgs call ++ [mkPair (Some h) (Some (length s1))].
Proof.
  intros i Hc Hin Hid Hcmd Hack Hcan Hcall Hf Hn Hset Hle.
  assert (new_in i s db call) as Hnew by (unfold new_in; now rewrite Hcall).
  rewrite (processRecv_new false h m c s _ call Hc Hin Hcmd Hnew) by (fold i; congruence). fold i.
  unfold SipSentResponseDB.firstReceive. rewrite Hn. cbn [mbind outcome_bind].
  rewrite (bool_decide_eq_false_2 (getType m = SIP_ACK)), (bool_decide_eq_false_2 (getType m = SIP_CANCEL)) by assumption.
  cbn [orb negb andb]. unfold SipSentResponseDB.checkSeq. cbn [setSeq addMsgPair with_msgs curSeqNum]. rewrite Hset.
  destruct (Z.ltb_spec (curSeqNum call) n); [lia|]. set (f := fun c0 => setRetransmitMax 1 _).
  rewrite (store_defined h f s c Hc). cbn [mbind outcome_bind].
  set (known := with_msgs (msgs call ++ [mkPair (Some h) None]) call). set (s1 := <[h := f c]> s).
  assert (s1 !! h = Some (f c)) as Hc1 by (apply list_lookup_insert_eq; now apply lookup_lt_Some in Hc).
  assert (findMsgPair i s1 known = Ret (Some (length (msgs call)))) as Hf1.
  { apply (find_added i s1 call h (f c)); [|exact Hc1 |
      unfold matches; change (trans_id (f c)) with (trans_id c); rewrite Hid; apply idEq_refl].
    apply (findMsgPair_mono i i s s1); [apply idEq_refl | | exact Hf].
    eapply store_extends; [|apply (store_defined h f s c Hc)]. reflexivity. }
  destruct (processSend_bad m known (putCall i call db) s1 (length (msgs call)) h Hf1) as (b & E & Hb).
  { cbn. now rewrite lookup_app_r, Nat.sub_diag by lia. }
  change (addMsgPair (mkPair (Some h) None) call) with known. rewrite E.
  cbn [mbind outcome_bind]. exists s1, b. eexists. split; [reflexivity|].
  split; [apply length_insert|]. split; [exact Hb|]. eexists. split; [now apply getCallContainer_put|].
  split; [reflexivity|]. cbn. rewrite insert_app_r_alt, Nat.sub_diag by lia. reflexivity.
Qed.

(** A request of a known call, neither ACK nor CANCEL, whose sequence number
    is not above the last one, is kept from the application.  A 400 is put into
    the database as its response, but nothing is queued or sent: the sender is
    never told. *)
Theorem out_of_order_request_unanswered t h l c m n call :
  natOn t = false -> isProxy t = false -> conn_ok env (containers t) (udpConnection t) ->
  rcvFifo (udpConnection t) = h :: l -> containers t !! h = Some c -> in_ c = Some m ->
  trans_id c = transactionId m -> isCommand m = true ->
  getType m <> SIP_STATUS -> getType m <> SIP_ACK -> getType m <> SIP_CANCEL ->
  getCallContainer (transactionId m) (sentResponseDB t) = Some call ->
  findMsgPair (transactionId m) (containers t) call = Ret None ->
  toInt (cseqData m) = Ret n -> setSeq call = true -> n <= curSeqNum call ->
  exists t' h2 c2, receiveNB env t = Ret (None, t') /\
    sendQ (udpConnection t') = sendQ (udpConnection t) /\ sent (udpConnection t') = sent (udpConnection t) /\
    tcpSent t' = tcpSent t /\
    containers t' !! h2 = Some c2 /\ in_ c2 = Some (statusMsg m 400) /\
    (h2 ∉ pq_elems (sendQ (udpConnection t'))) /\
    exists call', getCallContainer (transactionId m) (sentResponseDB t') = Some call' /\
      curSeqNum call' = curSeqNum call /\ msgs call' = msgs call ++ [mkPair (Some h) (Some h2)].
Proof.
  intros Hnat Hp Hok Hfifo Hc Hin Hid Hcmd Hst Hack Hcan Hcall Hf Hn Hset Hle.
  destruct (processRecv_out_of_order h c m n call (containers t) (sentResponseDB t) Hc Hin Hid Hcmd Hack Hcan
    Hcall Hf Hn Hset Hle) as (s1 & b & db' & E & Hlen & Hb & Hcall').
  rewrite (receive_request t h l c m Hnat Hfifo Hc Hin Hcmd Hst), Hp, E.
  cbn [mbind outcome_bind mret outcome_ret]. eexists _, (length s1), b. split; [reflexivity|].
  cbn [udpConnection with_responses with_udp with_rcvFifo sendQ sent tcpSent containers sentResponseDB].
  repeat (split; [reflexivity|]). split; [apply alloc_lookup|]. split; [exact Hb|]. split; [|exact Hcall'].
  intros Hel. destruct (ok_ready _ _ _ Hok _ Hel) as (x & Hx & _). apply lookup_lt_Some in Hx. lia.
Qed.

(** * The way back through a NAT *)

(** A provisional response that goes over UDP to where [getHostPort] says. *)
Lemma sendReply_provisional r code host port t :
  asStatus r = Some code -> code < 200 -> getHostPort r = Ret (host, port) ->
  (eqNoCase (cstr (viaTransport (topVia r))) (str "TCP") || textEq (cstr (viaTransport (topVia r))) (str "tcp")) = false ->
  resolve env (cstr host) <> 0 -> port < 0 -> sendReply env r t = Fault AssertFailed.
Proof.
  intros Hst Hcode Hdest Htcp Hres Hport. unfold sendReply, SipSentResponseDB.processSend. rewrite Hst.
  cbn [mbind outcome_bind mret outcome_ret alloc]. destruct (Z.leb_spec 200 code); [lia|].
  cbn [mbind outcome_bind mret outcome_ret].
  set (c := setTransport _ _). set (s := containers t ++ [c]). assert (s !! length (containers t) = Some c) as Hc by apply alloc_lookup.
  unfold sendTo. cbn [with_responses containers udpConnection]. rewrite (proj2 (load_Ret _ s c) Hc).
  cbn [mbind outcome_bind]. change (transport c) with (cstr (viaTransport (topVia r))). rewrite Htcp.
  change (textEq [] (str "0")) with false. cbv iota.
  rewrite (send_fresh env _ c r [] [] host port s (udpConnection t) Hc eq_refl eq_refl eq_refl Hdest).
  destruct (Z.eqb_spec (resolve env (cstr host)) 0); [contradiction|]. now destruct (Z.leb_spec 0 port); [lia|].
Qed.

(** C30: a request that arrives through a NAT is answered at the address and the
    port it came from, provided that the port is below 32768.  From there on the
    port is negative when the answer is addressed, and sending the answer aborts
    the process. *)
Theorem reply_to_high_port_aborts text ip p m0 code s t :
  decode env text = Some m0 -> cstr ip = ip -> ip <> [] -> isIp6 env ip = false ->
  ipName env (cstr (viaHost (topVia m0))) <> ipName env ip -> 0 < p < 65536 ->
  exists m c s', receiveMessage env (Received text ip p) s = (Some (length s), s') /\
    s' !! length s = Some c /\ in_ c = Some m /\
    let r := statusMsg (natMsg env m) code in
    getHostPort r = Ret (ip, if p <? 32768 then p else p - 65536) /\
    (32768 <= p -> code < 200 -> resolve env ip <> 0 ->
     (eqNoCase (cstr (viaTransport (topVia m0))) (str "TCP")
      || textEq (cstr (viaTransport (topVia m0))) (str "tcp")) = false ->
     sendReply env r t = Fault AssertFailed).
Proof.
  intros Hdec Hip Hne H6 Hname Hp. cbn [receiveMessage]. rewrite Hdec. cbv zeta.
  assert (zlen ip <> 0) as Hz by (destruct ip; [congruence | rewrite zlen_cons; pose proof (zlen_nonneg ip); lia]).
  destruct (Z.eqb_spec (zlen ip) 0) as [|_]; [contradiction|]. set (m := mkSipMsg _ _ _ _ _ _ _ _ ip _). cbn [alloc].
  eexists m, _, _. split; [reflexivity|]. split; [apply alloc_lookup|]. split; [reflexivity|].
  assert (natMsg env m = mkSipMsg (class m) (toKey m) (fromKey m) (callIdData m) (callIdLocal m) (cseqData m)
    (cseqMethod m) (setReceived env ip (itoa (swrap 16 p)) (topVia m0)) ip (itoa (swrap 16 p))) as ->.
  { unfold natMsg. cbn [recvdIPName recvdIPPort topVia m]. rewrite Hip.
    destruct (Z.eqb_spec (zlen ip) 0) as [|_]; [contradiction|].
    rewrite bool_decide_eq_false_2 by assumption. reflexivity. }
  set (r := statusMsg _ code). cbv zeta.
  assert (swrap 16 p = if p <? 32768 then p else p - 65536) as Hw.
  { unfold swrap. change (2 ^ 16) with 65536. change (2 ^ (16 - 1)) with 32768. rewrite Z.mod_small by lia. reflexivity. }
  assert (getHostPort r = Ret (ip, if p <? 32768 then p else p - 65536)) as Hdest.
  { unfold getHostPort. cbn [class r statusMsg topVia setReceived viaReceived receivedHost rportValue]. rewrite H6.
    destruct (Z.ltb_spec 0 (zlen ip)); [|pose proof (zlen_nonneg ip); lia].
    rewrite toInt_itoa by (pose proof (swrap_range 16 p); change (2 ^ (16 - 1)) with 32768 in *; lia).
    cbn [mbind outcome_bind mret outcome_ret]. rewrite Hw. destruct (Z.ltb_spec p 32768).
    - now destruct (Z.eqb_spec p 0); [lia|].
    - now destruct (Z.eqb_spec (p - 65536) 0); [lia|]. }
  split; [exact Hdest|]. intros Hhigh Hcode Hres Htcp. destruct (Z.ltb_spec p 32768); [lia|].
  apply (sendReply_provisional r code ip (p - 65536)); try assumption; try reflexivity; [rewrite Hip; exact Hres | lia].
Qed.

(** * The purge *)

(** A call with a purge time stays in both databases until that time, and
    is gone after the first purge later than that; purges are at least five
    seconds apart and take no call whose time is not set or not over. *)
Theorem call_lives_until_purge_time t i e now :
  0 <= lastPurge t -> lastPurge t + 5000 < 2 ^ 64 -> e <> 0 ->
  let t' := purge now (setPurge i e t) in
  let at_ db db' := forall call, getCallContainer i db = Some call ->
    (now <= e -> getCallContainer i db' = Some (setPurgeTimer e call)) /\
    (e < now -> lastPurge t + 5000 < now -> getCallContainer i db' = None) in
  at_ (sentRequestDB t) (sentRequestDB t') /\ at_ (sentResponseDB t) (sentResponseDB t') /\
  (lastPurge t' = if lastPurge t + 5000 <? now then now else lastPurge t) /\
  forall j call, cstr (call_id j) <> cstr (call_id i) -> purgeAt call = 0 \/ now <= purgeAt call ->
    getCallContainer j (sentRequestDB t) = Some call -> getCallContainer j (sentRequestDB t') = Some call.
Proof.
  intros H0 H64 He t' at_.
  assert (forall db, let db' := if lastPurge t + 5000 <? now then purgeOldCalls now (setCallPurgeTimer i e db)
     else setCallPurgeTimer i e db in at_ db db' /\
     forall j call, cstr (call_id j) <> cstr (call_id i) -> purgeAt call = 0 \/ now <= purgeAt call ->
       getCallContainer j db = Some call -> getCallContainer j db' = Some call) as Hdb.
  { intros db db'. split.
    - intros call Hcall. assert (setCallPurgeTimer i e db !! cstr (call_id i) = Some (setPurgeTimer e call)) as Hput
        by (unfold setCallPurgeTimer; rewrite Hcall; apply lookup_insert_eq).
      unfold db', getCallContainer. destruct (Z.ltb_spec (lastPurge t + 5000) now); [|split; [now intros _ | lia]].
      rewrite purge_lookup, Hput. unfold expired. cbn [purgeAt setPurgeTimer].
      destruct (Z.eqb_spec e 0), (Z.ltb_spec e now); cbn; split; intros; (reflexivity || lia).
    - intros j call Hne Hp Hcall. unfold getCallContainer in Hcall.
      assert (setCallPurgeTimer i e db !! cstr (call_id j) = Some call) as Hput
        by (unfold setCallPurgeTimer; destruct (getCallContainer i db); [rewrite lookup_insert_ne by congruence|]; exact Hcall).
      unfold db', getCallContainer. destruct (_ <? now); [|exact Hput]. rewrite purge_lookup, Hput. unfold expired.
      destruct (Z.eqb_spec (purgeAt call) 0), (Z.ltb_spec (purgeAt call) now); cbn; (reflexivity || lia). }
  destruct (Hdb (sentRequestDB t)) as [Hq Hother]. destruct (Hdb (sentResponseDB t)) as [Hr _].
  unfold t', purge. cbn [setPurge lastPurge sentRequestDB sentResponseDB]. rewrite wrap_small by lia.
  destruct (_ <? now); auto.
Qed.

End Facts.

(** * Concrete runs *)

Definition sampleTransceiver (s : heap) (db : SipTransactionDB) (fifo : list handle) : SipTransceiver (Q := listQueue) :=
  @mkTransceiver listQueue s ∅ db (with_rcvFifo fifo (sampleUdp [])) [] [] false false 0.

Lemma sample_idle s fifo : conn_ok (Q := listQueue) sampleEnv s (with_rcvFifo fifo (sampleUdp [])).
Proof. split; [constructor | constructor | intros h H; now apply not_elem_of_nil in H]. Qed.

Lemma answered_invite_is_silent_witness :
  exists t1 t2, sendAsync (Q := listQueue) sampleEnv 0 invite (sampleTransceiver [] ∅ []) = Ret t1 /\
    0%nat ∈ pq_elems (sendQ (udpConnection t1)) /\
    runAll sampleEnv [(false, Nothing, 10); (false, Nothing, 600)] t1 = Ret t2.
Proof.
  destruct (answered_invite_is_silent (Q := listQueue) sampleEnv 0 invite (sampleTransceiver [] ∅ [])
    (str "10.0.0.2") 5060) as (t1 & E & Hq & H); try reflexivity; try discriminate.
  - apply sample_idle.
  - exists invite. split; reflexivity.
  - destruct (H [(false, Nothing, 10); (false, Nothing, 600)]) as (t2 & E2 & _); [repeat constructor; cbn; lia|].
    exists t1, t2. split; [exact E|]. split; [exact Hq | exact E2].
Defined.

Lemma out_of_order_request_unanswered_witness :
  exists t', receiveNB (Q := listQueue) sampleEnv (sampleTransceiver [arrived invite; arrived (bye (str "1"))]
      (sampleDB (sampleCall [mkPair (Some 0%nat) None] 1 true)) [1%nat]) = Ret (None, t') /\
    sent (udpConnection t') = [].
Proof.
  destruct (out_of_order_request_unanswered (Q := listQueue) sampleEnv
    (sampleTransceiver [arrived invite; arrived (bye (str "1"))]
      (sampleDB (sampleCall [mkPair (Some 0%nat) None] 1 true)) [1%nat]) 1 []
    (arrived (bye (str "1"))) (bye (str "1")) 1 (sampleCall [mkPair (Some 0%nat) None] 1 true))
    as (t' & h2 & c2 & E & _ & Hs & _); try reflexivity; try discriminate; try lia.
  - apply sample_idle.
  - exists t'. split; [exact E | exact Hs].
Defined.

Lemma reply_to_high_port_aborts_witness :
  exists m, fst (receiveMessage sampleEnv (Received (str "INVITE") (str "10.0.0.2") 40000) []) = Some 0%nat /\
    getHostPort (statusMsg (natMsg sampleEnv m) 100) = Ret (str "10.0.0.2", -25536) /\
    sendReply (Q := listQueue) sampleEnv (statusMsg (natMsg sampleEnv m) 100) (sampleTransceiver [] ∅ []) =
      Fault AssertFailed.
Proof.
  destruct (reply_to_high_port_aborts (Q := listQueue) sampleEnv (str "INVITE") (str "10.0.0.2") 40000 invite 100 []
    (sampleTransceiver [] ∅ [])) as (m & c & s' & E & _ & _ & H1 & H2); try reflexivity; try discriminate; try lia.
  exists m. rewrite E. split; [reflexivity|]. split; [exact H1|]. apply H2; [lia | lia | discriminate | reflexivity].
Defined.

Lemma call_lives_until_purge_time_witness :
  getCallContainer (transactionId invite) (sentResponseDB (purge 20000 (setPurge (transactionId invite) 10000
    (sampleTransceiver [] (sampleDB (sampleCall [] 1 true)) [])))) = None.
Proof.
  destruct (call_lives_until_purge_time (Q := listQueue) (sampleTransceiver [] (sampleDB (sampleCall [] 1 true)) [])
    (transactionId invite) 10000 20000) as (_ & H & _); cbn; try lia.
  apply (H (sampleCall [] 1 true)); [reflexivity | cbn; lia | cbn; lia].
Defined.
End SipTransceiverFacts.
