(* ===== verification/SipText.v ===== *)
(** The operations of Data that the SIP stack parses with, on texts: each is
    run on a fresh object that holds the text.  What an operation returns
    depends on the text alone, which the equations of this file show. *)
From S2P Require Import Prelude DataStr DataStrFacts DataStrText SipHeap.
Import DataStr DataStrFacts DataStrText SipHeap.

Module SipText.

(** * The operations *)

Definition textOf (d : Data) : outcome bytes := values (mBuf d) (mLength d).

(** Runs a splitting operation: what it returns, its flag and what is left. *)
Definition splitText {F} (op : Data -> outcome (Data * F * Data)) (l : bytes) : outcome (bytes * F * bytes) :=
  '(found, flag, rest) ← op (ofStr l);
  found ← textOf found; rest ← textOf rest; mret (found, flag, rest).

Definition parseText (match_ : bytes) := splitText (parse match_).
Definition parseOutsideQuotesText (match_ : bytes) (useQuote useAngle : bool) :=
  splitText (parseOutsideQuotes match_ useQuote useAngle).
Definition getLineText := splitText getLine.
Definition lowercaseText (l : bytes) : outcome bytes := d ← lowercase (ofStr l); textOf d.
Definition removeSpacesText (l : bytes) : outcome bytes := d ← removeSpaces (ofStr l); textOf d.

Definition matchCharText (match_ : bytes) := splitText (matchChar match_).

(** [match] without a text to put in the place of the match: what was found,
    the text before it and the text left. *)
Definition matchText (match_ : bytes) (replace : bool) (l : bytes) : outcome (matchResult * option bytes * bytes) :=
  '(ret, found, d) ← matchData match_ replace emptyData (ofStr l);
  found ← (match found with Some f => t ← textOf f; mret (Some t) | None => mret None end);
  rest ← textOf d; mret (ret, found, rest).

(** * What they compute *)

Lemma textOf_repr d l : repr d l -> textOf d = Ret l.
Proof. apply values_repr. Qed.

Lemma parseText_eq m l :
  parseText m l = Ret match breakIn m l with Some (b, _, r) => (b, false, dropIn m r) | None => ([], true, l) end.
Proof.
  unfold parseText, splitText. pose proof (parse_repr m (ofStr l) l (ofStr_repr l)) as H.
  destruct (breakIn m l) as [[[b c] r]|].
  - destruct H as (d & -> & Hd). cbn [mbind outcome_bind].
    now rewrite (textOf_repr _ _ (ofStr_repr b)), (textOf_repr _ _ Hd).
  - rewrite H. cbn [mbind outcome_bind].
    now rewrite (textOf_repr _ _ emptyData_repr), (textOf_repr _ _ (ofStr_repr l)).
Qed.

Lemma parseOutsideQuotesText_eq m uq ua l :
  parseOutsideQuotesText m uq ua l =
    Ret match breakOutside uq ua m (false, false) l with
        | Some (b, r) => (b, false, dropIn m r)
        | None => ([], true, l)
        end.
Proof.
  unfold parseOutsideQuotesText, splitText.
  pose proof (parseOutsideQuotes_repr m uq ua (ofStr l) l (ofStr_repr l)) as H.
  destruct (breakOutside uq ua m (false, false) l) as [[b r]|].
  - destruct H as (d & -> & Hd). cbn [mbind outcome_bind].
    now rewrite (textOf_repr _ _ (ofStr_repr b)), (textOf_repr _ _ Hd).
  - rewrite H. cbn [mbind outcome_bind].
    now rewrite (textOf_repr _ _ emptyData_repr), (textOf_repr _ _ (ofStr_repr l)).
Qed.

Lemma getLineText_eq l :
  getLineText l =
    Ret match breakIn [10] l with Some (b, _, r) => (chopCR b, false, r) | None => ([], true, l) end.
Proof.
  unfold getLineText, splitText. pose proof (getLine_repr (ofStr l) l (ofStr_repr l)) as H.
  destruct (breakIn [10] l) as [[[b c] r]|].
  - destruct H as (d & -> & Hd). cbn [mbind outcome_bind].
    now rewrite (textOf_repr _ _ (ofStr_repr (chopCR b))), (textOf_repr _ _ Hd).
  - rewrite H. cbn [mbind outcome_bind].
    now rewrite (textOf_repr _ _ emptyData_repr), (textOf_repr _ _ (ofStr_repr l)).
Qed.

Lemma removeSpacesText_eq l : removeSpacesText l = Ret (trimEnd (dropIn [32] l)).
Proof.
  unfold removeSpacesText. destruct (removeSpaces_repr (ofStr l) l (ofStr_repr l)) as (d & -> & H).
  now apply textOf_repr.
Qed.

(** The loop of [lowercase] ends at the first NUL. *)
Fixpoint lowerText (l : bytes) : bytes :=
  match l with [] => [] | c :: l' => if c =? 0 then l else tolower c :: lowerText l' end.

Lemma tolower_nul c : (tolower c =? 0) = (c =? 0).
Proof. unfold tolower. destruct (Z.leb_spec 65 c), (Z.leb_spec c 90); cbn; lia. Qed.

Lemma mapCase_lower l : forall a fuel rest, (length l < fuel)%nat ->
  mapCase fuel tolower (zlen a) (a ++ map Some l ++ Some 0 :: rest) =
    Ret (a ++ map Some (lowerText l) ++ Some 0 :: rest).
Proof.
  induction l as [|c l IH]; intros a fuel rest Hf; (destruct fuel; [cbn in Hf; lia|]); cbn [mapCase].
  - unfold rdc. cbn [map app]. rewrite rd_app_mid. cbn [mbind outcome_bind initialised].
    rewrite wr_app_mid. reflexivity.
  - unfold rdc. cbn [map app]. rewrite rd_app_mid. cbn [mbind outcome_bind initialised].
    rewrite wr_app_mid. cbn [mbind outcome_bind lowerText]. rewrite tolower_nul.
    destruct (Z.eqb_spec c 0) as [-> |]; [reflexivity|].
    specialize (IH (a ++ [Some (tolower c)]) fuel rest ltac:(cbn in Hf; lia)).
    rewrite zlen_snoc, <- !app_assoc in IH. exact IH.
Qed.

Lemma zlen_lowerText l : zlen (lowerText l) = zlen l.
Proof.
  induction l as [|c l IH]; [reflexivity|]. cbn [lowerText]. destruct (c =? 0); [reflexivity|].
  now rewrite !zlen_cons, IH.
Qed.

Lemma lowercaseText_eq l : lowercaseText l = Ret (lowerText l).
Proof.
  unfold lowercaseText, lowercase. cbn [ofStr mBuf mLength].
  pose proof (mapCase_lower l [] (length (map Some l ++ [Some 0])) []) as H. cbn [app] in H.
  change (zlen (@nil (option Z))) with 0 in H.
  rewrite H by (rewrite length_app, length_map; cbn; lia). cbn [mbind outcome_bind].
  apply textOf_repr. split; cbn; [now rewrite zlen_lowerText | now exists [] |].
  rewrite zlen_app, zlen_map, zlen_lowerText. reflexivity.
Qed.

Lemma textEq_nil l : textEq l [] = match l with [] => true | c :: _ => c =? 0 end.
Proof.
  destruct l as [|c l]; [reflexivity|]. unfold textEq. cbn [cstr]. destruct (Z.eqb_spec c 0); reflexivity.
Qed.

Lemma matchCharText_eq m l :
  matchCharText m l = Ret match breakIn m l with Some (b, c, r) => (b, c, r) | None => ([], 0, l) end.
Proof.
  unfold matchCharText, splitText. pose proof (matchChar_repr m (ofStr l) l (ofStr_repr l)) as H.
  destruct (breakIn m l) as [[[b c] r]|].
  - destruct H as (d & -> & Hd). cbn [mbind outcome_bind].
    now rewrite (textOf_repr _ _ (ofStr_repr b)), (textOf_repr _ _ Hd).
  - rewrite H. cbn [mbind outcome_bind].
    now rewrite (textOf_repr _ _ emptyData_repr), (textOf_repr _ _ (ofStr_repr l)).
Qed.

Lemma memmove_front d a b :
  repr d (a ++ b) ->
  exists buf, memmove (mBuf d) 0 (zlen a) (zlen b + 1) = Ret buf /\ repr (with_buf (zlen b) buf d) b.
Proof.
  intros H. destruct (eat_repr d a b H) as (d' & E & H'). unfold eat in E.
  rewrite (repr_length _ _ H), zlen_app in E. replace (zlen a + zlen b - zlen a) with (zlen b) in E by lia.
  destruct (memmove (mBuf d) 0 (zlen a) (zlen b + 1)) as [buf|f]; [|discriminate].
  exists buf. split; [reflexivity|]. now injection E as <-.
Qed.

Lemma overwrite_nothing {A} (buf : list A) : overwrite buf 0 [] = Ret buf.
Proof.
  unfold overwrite. change (zlen (@nil A)) with 0. pose proof (zlen_nonneg buf).
  destruct (Z.leb_spec (0 + 0) (zlen buf)); [reflexivity | lia].
Qed.

Lemma matchData_repr (m : bytes) (replace : bool) (d : Data) (l : bytes) :
  repr d l -> m <> [] -> zlen l < npos ->
  match search m l 0 with
  | Some p => exists (b r : bytes) d', l = b ++ m ++ r /\ p = zlen b /\ repr d' (if replace then r else l) /\
      matchData m replace emptyData d = Ret ((if p =? 0 then FIRST else FOUND), Some (ofStr b), d')
  | None => matchData m replace emptyData d = Ret (NOT_FOUND, None, d)
  end.
Proof.
  intros H Hm Hl. unfold matchData. pose proof (find_repr m [] l d H Hm Hl) as Hf. cbn [app] in Hf.
  change (zlen (@nil Z)) with 0 in Hf. rewrite Hf. cbn [mbind outcome_bind].
  pose proof (search_spec m l 0) as Hs. destruct (search m l 0) as [p|]; [|reflexivity].
  destruct Hs as (b & -> & (r & ->) & _). rewrite Z.add_0_l.
  destruct (Z.eqb_spec (zlen b) npos); [zlen_lia|].
  rewrite (ofMem_repr d b _ H). cbn [mbind outcome_bind mLength ofStr emptyData mBuf].
  destruct replace; [|exists b, r, d; eauto].
  pose proof (repr_fits _ _ H) as Hc. rewrite (repr_length _ _ H).
  replace (zlen (b ++ m ++ r) - zlen b - zlen m) with (zlen r) by zlen_lia. rewrite Z.add_0_r.
  destruct (Z.leb_spec (zlen r) (mCapacity d)); [|zlen_lia].
  pose proof H as Hr. rewrite app_assoc in Hr. destruct (memmove_front d (b ++ m) r Hr) as (buf & Eb & Hb).
  replace (zlen b + zlen m) with (zlen (b ++ m)) by zlen_lia. rewrite Eb. cbn [mbind outcome_bind].
  exists b, r, (with_buf (zlen r) buf d). split; [reflexivity|]. split; [reflexivity|]. split; [exact Hb|].
  change (slice (Some 0 :: newChars 63) 0 0) with (@Ret cells []). cbn [mbind outcome_bind].
  now rewrite overwrite_nothing.
Qed.

Lemma search_single c l : forall i,
  search [c] l i = match breakIn [c] l with Some (b, _, _) => Some (i + zlen b) | None => None end.
Proof.
  induction l as [|x l IH]; intros i; [reflexivity|]. cbn [search prefixOf breakIn].
  rewrite isIn_single, andb_true_r, (Z.eqb_sym x c). destruct (Z.eqb_spec c x); [f_equal; change (zlen (@nil Z)) with 0; lia|].
  rewrite IH. destruct (breakIn [c] l) as [[[b y] r]|]; cbn [mbind option_bind]; [|reflexivity]. f_equal. rewrite zlen_cons. lia.
Qed.

(** [match] for one character. *)
Lemma matchText_eq c replace l :
  zlen l < npos ->
  matchText [c] replace l =
    Ret match breakIn [c] l with
        | Some (b, _, r) => ((if zlen b =? 0 then FIRST else FOUND), Some b, if replace then r else l)
        | None => (NOT_FOUND, None, l)
        end.
Proof.
  intros Hl. unfold matchText.
  pose proof (matchData_repr [c] replace (ofStr l) l (ofStr_repr l) ltac:(discriminate) Hl) as H.
  rewrite search_single in H. destruct (breakIn [c] l) as [[[b x] r]|] eqn:E.
  - destruct H as (b' & r' & d & El & Eb & Hd & ->). cbn [mbind outcome_bind]. rewrite (textOf_repr _ _ Hd).
    cbn [mbind outcome_bind]. destruct (breakIn_Some _ _ _ _ _ E) as [E' Hx]. rewrite isIn_single in Hx.
    apply Z.eqb_eq in Hx as ->. rewrite E' in El. rewrite Z.add_0_l in Eb. unfold zlen in Eb.
    apply Nat2Z.inj in Eb. apply app_inj_1 in El as [-> [= ->]]; [|exact Eb]. now rewrite (textOf_repr _ _ (ofStr_repr b')).
  - rewrite H. cbn [mbind outcome_bind mret outcome_ret]. now rewrite (textOf_repr _ _ (ofStr_repr l)).
Qed.

Create Rewrite HintDb texts.
#[export] Hint Rewrite parseText_eq parseOutsideQuotesText_eq getLineText_eq removeSpacesText_eq
  lowercaseText_eq matchCharText_eq : texts.

(** * Texts free of some characters *)

Definition noneOf (m l : bytes) : bool := forallb (fun c => negb (isIn c m)) l.

Definition startsWith (m l : bytes) : bool := match l with c :: _ => isIn c m | [] => false end.

Lemma breakIn_none m l : noneOf m l = true -> breakIn m l = None.
Proof.
  induction l as [|c l IH]; cbn [noneOf forallb breakIn]; [reflexivity|].
  intros [Hc Hl]%andb_prop. apply negb_true_iff in Hc. rewrite Hc. unfold noneOf in IH. now rewrite IH.
Qed.

Lemma breakIn_first m b c r : noneOf m b = true -> isIn c m = true -> breakIn m (b ++ c :: r) = Some (b, c, r).
Proof.
  intros Hb Hc. induction b as [|x b IH]; cbn [app breakIn noneOf forallb] in *; [now rewrite Hc|].
  apply andb_prop in Hb as [Hx Hb]. apply negb_true_iff in Hx. rewrite Hx. unfold noneOf in IH. now rewrite IH.
Qed.

Lemma dropIn_clean m l : startsWith m l = false -> dropIn m l = l.
Proof. destruct l as [|c l]; cbn; [reflexivity|]. now intros ->. Qed.

Lemma noneOf_app m a b : noneOf m (a ++ b) = noneOf m a && noneOf m b.
Proof. apply forallb_app. Qed.

Lemma noneOf_cons m c l : noneOf m (c :: l) = negb (isIn c m) && noneOf m l.
Proof. reflexivity. Qed.

Lemma noneOf_weaken m m' l :
  (forall c, isIn c m' = true -> isIn c m = true) -> noneOf m l = true -> noneOf m' l = true.
Proof.
  intros Hm. unfold noneOf. rewrite !forallb_forall. intros H c Hc. specialize (H c Hc).
  apply negb_true_iff in H. apply negb_true_iff. destruct (isIn c m') eqn:E; [|reflexivity].
  apply Hm in E. congruence.
Qed.

Lemma trimEnd_clean l : startsWith [32] (rev l) = false -> trimEnd l = l.
Proof. intros H. unfold trimEnd. now rewrite dropIn_clean, rev_involutive. Qed.

Lemma startsWith_sub m m' l :
  (forall c, isIn c m' = true -> isIn c m = true) -> startsWith m l = false -> startsWith m' l = false.
Proof.
  intros H. destruct l as [|c l]; [reflexivity|]. cbn. intros Hc. destruct (isIn c m') eqn:E; [|reflexivity].
  apply H in E. congruence.
Qed.

Lemma breakIn_noneOf m l : noneOf m l = false -> exists b c r, breakIn m l = Some (b, c, r).
Proof.
  induction l as [|c l IH]; cbn [noneOf forallb breakIn]; [discriminate|].
  destruct (isIn c m); [eauto|]. cbn [negb andb]. intros H. destruct (IH H) as (b & x & r & ->). cbn. eauto.
Qed.

(** A text without blanks at its ends. *)
Definition trimmed (l : bytes) : bool := negb (startsWith [32] l) && negb (startsWith [32] (rev l)).

Lemma removeSpacesText_trimmed l : trimmed l = true -> removeSpacesText l = Ret l.
Proof.
  unfold trimmed. rewrite andb_true_iff, !negb_true_iff. intros [H1 H2].
  now rewrite removeSpacesText_eq, dropIn_clean, trimEnd_clean.
Qed.

Lemma noneOf_rev m l : noneOf m (rev l) = noneOf m l.
Proof.
  induction l as [|c l IH]; [reflexivity|]. cbn [rev]. rewrite noneOf_app, IH, !noneOf_cons. cbn [noneOf forallb].
  now rewrite andb_true_r, andb_comm.
Qed.

Lemma noneOf_startsWith m l : noneOf m l = true -> startsWith m l = false.
Proof. destruct l as [|c l]; [reflexivity|]. rewrite noneOf_cons. intros [H _]%andb_prop. now apply negb_true_iff. Qed.

Lemma noneOf_trimmed l : noneOf [32] l = true -> trimmed l = true.
Proof. intros H. unfold trimmed. rewrite !noneOf_startsWith; [reflexivity | now rewrite noneOf_rev | exact H]. Qed.

Lemma trimmed_app a b c : trimmed (a ++ c) = true -> a <> [] -> c <> [] -> trimmed (a ++ b ++ c) = true.
Proof.
  unfold trimmed. rewrite !andb_true_iff, !rev_app_distr. intros [H1 H2] Ha Hc. split.
  - destruct a; [congruence | exact H1].
  - destruct (rev c) as [|x r] eqn:E; [|exact H2]. apply (f_equal (@rev Z)) in E. rewrite rev_involutive in E. now subst.
Qed.

End SipText.
