(* ===== verification/SipViaHdr.v ===== *)
(** The Via header (sip/sipstack/SipVia.cxx): its fields with the flags that
    say which of them are present, its parser and its printer.

    [strict] is the parser mode: the strict parser, which is the default,
    throws an exception where the lenient one goes on with what it has.  An
    object whose constructor throws is never seen, so [Thrown] carries none.
    The check for IPv6 addresses of NetworkAddress is the parameter [isIp6].
    The literals compare without case, texts compare as C strings.
    [parseComment], whose only call is commented out, is left out. *)
From S2P Require Import Prelude DataStr DataStrFacts DataStrText SipHeap SipText.
Import DataStr SipHeap SipText.

Module SipViaHdr.

Record Via := mkVia {
  host : bytes;
  port : bytes;
  protocolName : bytes;
  protocolVersion : bytes;
  transport : bytes;
  receivedHost : bytes;
  branchToken : bytes;
  comment : bytes;
  ttl : bytes;
  extparm : bytes;
  extvalue : bytes;
  maddr : bytes;
  viaBranch : bool;
  viaComment : bool;
  viaReceived : bool;
  viaHidden : bool;
  viaTtl : bool;
  viaMaddr : bool;
  rport : bool;
  rportValue : bytes
}.

(** What a parser that may throw leaves. *)
Inductive parsed (A : Type) : Type :=
| Parsed (a : A)
| Thrown.
Arguments Parsed {A} a.
Arguments Thrown {A}.

(** * Setters *)

Definition setHost (newHost : bytes) (v : Via) : Via :=
  mkVia newHost (port v) (protocolName v) (protocolVersion v) (transport v) (receivedHost v) (branchToken v)
    (comment v) (ttl v) (extparm v) (extvalue v) (maddr v) (viaBranch v) (viaComment v) (viaReceived v)
    (viaHidden v) (viaTtl v) (viaMaddr v) (rport v) (rportValue v).
Definition setPort (newport : Z) (v : Via) : Via :=
  mkVia (host v) (itoa newport) (protocolName v) (protocolVersion v) (transport v) (receivedHost v) (branchToken
    v) (comment v) (ttl v) (extparm v) (extvalue v) (maddr v) (viaBranch v) (viaComment v) (viaReceived v)
    (viaHidden v) (viaTtl v) (viaMaddr v) (rport v) (rportValue v).
Definition setprotoName (protoName : bytes) (v : Via) : Via :=
  mkVia (host v) (port v) protoName (protocolVersion v) (transport v) (receivedHost v) (branchToken v) (comment
    v) (ttl v) (extparm v) (extvalue v) (maddr v) (viaBranch v) (viaComment v) (viaReceived v) (viaHidden v)
    (viaTtl v) (viaMaddr v) (rport v) (rportValue v).
Definition setprotoVersion (protoVer : bytes) (v : Via) : Via :=
  mkVia (host v) (port v) (protocolName v) protoVer (transport v) (receivedHost v) (branchToken v) (comment v)
    (ttl v) (extparm v) (extvalue v) (maddr v) (viaBranch v) (viaComment v) (viaReceived v) (viaHidden v)
    (viaTtl v) (viaMaddr v) (rport v) (rportValue v).
Definition setTransport (trans : bytes) (v : Via) : Via :=
  mkVia (host v) (port v) (protocolName v) (protocolVersion v) trans (receivedHost v) (branchToken v) (comment
    v) (ttl v) (extparm v) (extvalue v) (maddr v) (viaBranch v) (viaComment v) (viaReceived v) (viaHidden v)
    (viaTtl v) (viaMaddr v) (rport v) (rportValue v).
Definition setTtl (newttl : bytes) (v : Via) : Via :=
  mkVia (host v) (port v) (protocolName v) (protocolVersion v) (transport v) (receivedHost v) (branchToken v)
    (comment v) newttl (extparm v) (extvalue v) (maddr v) (viaBranch v) (viaComment v) (viaReceived v)
    (viaHidden v) (if 0 <? zlen newttl then true else viaTtl v) (viaMaddr v) (rport v) (rportValue v).
Definition setMaddr (newmaddr : bytes) (v : Via) : Via :=
  mkVia (host v) (port v) (protocolName v) (protocolVersion v) (transport v) (receivedHost v) (branchToken v)
    (comment v) (ttl v) (extparm v) (extvalue v) newmaddr (viaBranch v) (viaComment v) (viaReceived v)
    (viaHidden v) (viaTtl v) (if 0 <? zlen newmaddr then true else viaMaddr v) (rport v) (rportValue v).
Definition setComment (newcomment : bytes) (v : Via) : Via :=
  mkVia (host v) (port v) (protocolName v) (protocolVersion v) (transport v) (receivedHost v) (branchToken v)
    newcomment (ttl v) (extparm v) (extvalue v) (maddr v) (viaBranch v) (if 0 <? zlen newcomment then true else
    viaComment v) (viaReceived v) (viaHidden v) (viaTtl v) (viaMaddr v) (rport v) (rportValue v).
Definition setBranch (newtoken : bytes) (v : Via) : Via :=
  mkVia (host v) (port v) (protocolName v) (protocolVersion v) (transport v) (receivedHost v) newtoken (comment
    v) (ttl v) (extparm v) (extvalue v) (maddr v) (0 <? zlen newtoken) (viaComment v) (viaReceived v) (viaHidden
    v) (viaTtl v) (viaMaddr v) (rport v) (rportValue v).
Definition setRPort (p : bytes) (v : Via) : Via :=
  mkVia (host v) (port v) (protocolName v) (protocolVersion v) (transport v) (receivedHost v) (branchToken v)
    (comment v) (ttl v) (extparm v) (extvalue v) (maddr v) (viaBranch v) (viaComment v) (viaReceived v)
    (viaHidden v) (viaTtl v) (viaMaddr v) true p.
Definition setRPortFlag (flag : bool) (v : Via) : Via :=
  mkVia (host v) (port v) (protocolName v) (protocolVersion v) (transport v) (receivedHost v) (branchToken v)
    (comment v) (ttl v) (extparm v) (extvalue v) (maddr v) (viaBranch v) (viaComment v) (viaReceived v)
    (viaHidden v) (viaTtl v) (viaMaddr v) flag [].
Definition setRport (b : bool) (v : Via) : Via :=
  mkVia (host v) (port v) (protocolName v) (protocolVersion v) (transport v) (receivedHost v) (branchToken v)
    (comment v) (ttl v) (extparm v) (extvalue v) (maddr v) (viaBranch v) (viaComment v) (viaReceived v)
    (viaHidden v) (viaTtl v) (viaMaddr v) b (rportValue v).
Definition setViaHidden (b : bool) (v : Via) : Via :=
  mkVia (host v) (port v) (protocolName v) (protocolVersion v) (transport v) (receivedHost v) (branchToken v)
    (comment v) (ttl v) (extparm v) (extvalue v) (maddr v) (viaBranch v) (viaComment v) (viaReceived v) b
    (viaTtl v) (viaMaddr v) (rport v) (rportValue v).
Definition setExtension (parm value : bytes) (v : Via) : Via :=
  mkVia (host v) (port v) (protocolName v) (protocolVersion v) (transport v) (receivedHost v) (branchToken v)
    (comment v) (ttl v) parm value (maddr v) (viaBranch v) (viaComment v) (viaReceived v) (viaHidden v) (viaTtl
    v) (viaMaddr v) (rport v) (rportValue v).

Definition setHidden (hidden : bytes) (v : Via) : Via :=
  if eqNoCase (str "hidden") hidden then setViaHidden true v else v.

Section Via.
Context (strict : bool) (isIp6 : bytes -> bool).

Definition setReceivedhost (recvdhost : bytes) (v : Via) : Via :=
  let r := if isIp6 recvdhost then str "[" ++ recvdhost ++ str "]" else recvdhost in
  mkVia (host v) (port v) (protocolName v) (protocolVersion v) (transport v) r (branchToken v) (comment v) (ttl
    v) (extparm v) (extvalue v) (maddr v) (viaBranch v) (viaComment v) (if 0 <? zlen r then true else
    viaReceived v) (viaHidden v) (viaTtl v) (viaMaddr v) (rport v) (rportValue v).

(** * The parser *)

(** [if (sipParserMode()) throw ...] where nothing more is done. *)
Definition complain (v : Via) : outcome (parsed Via) := mret (if strict then Thrown else Parsed v).

(** What [match] leaves in an empty object. *)
Definition textBefore (found : option bytes) : bytes := default [] found.

Definition parseBranch (branchdata : bytes) (v : Via) : outcome Via :=
  branchdat ← removeSpacesText branchdata;
  '(test, branchval, brdat) ← matchText (str "(") true branchdat;
  match test with
  | FOUND =>
      let v := setBranch (textBefore branchval) v in
      '(ret, brval, _) ← matchText (str ")") true brdat;
      mret match ret with FOUND => setComment (textBefore brval) v | _ => v end
  | NOT_FOUND => mret (setBranch branchdat v)
  | FIRST => mret v
  end.

Definition parseViaParm (data value : bytes) (v : Via) : outcome (parsed Via) :=
  if eqNoCase data (str "maddr") then mret (Parsed (setMaddr value v))
  else if eqNoCase data (str "received") then mret (Parsed (setReceivedhost value v))
  else if eqNoCase data (str "ttl") then
    n ← toInt value;
    if (0 <=? n) && (n <=? 255) then mret (Parsed (setTtl value v)) else complain v
  else if eqNoCase data (str "branch") then v ← parseBranch value v; mret (Parsed v)
  else if eqNoCase data (str "rport") then mret (Parsed (setRPort value v))
  else mret (Parsed (setExtension data value v)).

Definition parseViaParmHidden (data : bytes) (v : Via) : outcome (parsed Via) :=
  viaparm ← removeSpacesText data;
  if eqNoCase viaparm (str "hidden") then mret (Parsed (setViaHidden true v))
  else
    '(check, value, viaparm) ← matchText (str "=") true viaparm;
    match check with
    | NOT_FOUND =>
        viaparm ← removeSpacesText viaparm;
        if eqNoCase viaparm (str "rport") then mret (Parsed (setRport true v)) else complain v
    | FIRST => complain v
    | FOUND =>
        if 0 <? zlen viaparm then
          value ← removeSpacesText (textBefore value);
          viaparm ← removeSpacesText viaparm;
          parseViaParm value viaparm v
        else mret (Parsed v)
    end.

Fixpoint parseViaParms (fuel : nat) (viaparms : bytes) (v : Via) : outcome (parsed Via) :=
  if zlen viaparms =? 0 then mret (Parsed v)
  else
    match fuel with
    | O => Fault OutOfFuel
    | S fuel' =>
        '(ret, parm, rest) ← matchText (str ";") true viaparms;
        match ret with
        | NOT_FOUND => parseViaParmHidden viaparms v
        | FIRST => if strict then mret Thrown else parseViaParms fuel' rest v
        | FOUND =>
            p ← parseViaParmHidden (textBefore parm) v;
            match p with Parsed v => parseViaParms fuel' rest v | Thrown => mret Thrown end
        end
    end.

(** [char tmp = ':'; hostport.matchChar(&tmp);]: the set of characters is one
    colon without the NUL that ends such a set, so that to look up any other
    character reads what is beyond [tmp]. *)
Definition matchColon (hostport : bytes) : outcome bytes :=
  match hostport with
  | [] => mret []
  | c :: rest => if c =? 58 then mret rest else Fault OutOfBounds
  end.

(** The part of [parseHost] for a host that is followed by a port. *)
Definition setHostPort (hostdata hostport : bytes) (v : Via) : outcome Via :=
  '(retu, _, hostdata) ← matchText (str " ") true hostdata;
  n ← toInt hostport;
  mret (setPort n match retu with FOUND => v | _ => setHost hostdata v end).

Definition parseHost (newHost : bytes) (v : Via) : outcome Via :=
  '(ret, hostdata, hostport) ← matchText (str "]") true newHost;
  match ret with
  | FOUND => hostport ← matchColon hostport; setHostPort (textBefore hostdata ++ str "]") hostport v
  | NOT_FOUND =>
      '(ret, hostdata, hostport) ← matchText (str ":") true hostport;
      match ret with
      | FOUND => setHostPort (textBefore hostdata) hostport v
      | FIRST => mret v
      | NOT_FOUND => hostport ← removeSpacesText hostport; mret (setHost hostport v)
      end
  | FIRST => mret v
  end.

(** The host with its comment, when there are no parameters. *)
Definition parseHostComment (commentdata : bytes) (v : Via) : outcome (parsed Via) :=
  '(retrnm, commentvalue, commentdata) ← matchText (str "(") true commentdata;
  match retrnm with
  | NOT_FOUND => v ← parseHost commentdata v; mret (Parsed v)
  | FIRST => complain v
  | FOUND =>
      v ← parseHost (textBefore commentvalue) v;
      '(r, cvalue, _) ← matchText (str ")") true commentdata;
      match r with FOUND => mret (Parsed (setComment (textBefore cvalue) v)) | _ => complain v end
  end.

Definition parseRestVia (restdata : bytes) (v : Via) : outcome (parsed Via) :=
  viarestdata ← removeSpacesText restdata;
  '(ret, transdata, viarestdata) ← matchText (str " ") true viarestdata;
  match ret with
  | FOUND =>
      transdata ← removeSpacesText (textBefore transdata);
      let v := setTransport transdata v in
      '(retn, hostdata, hostviadata) ← matchText (str ";") true viarestdata;
      match retn with
      | NOT_FOUND => parseHostComment hostviadata v
      | FIRST => complain v
      | FOUND =>
          v ← parseHost (textBefore hostdata) v;
          parseViaParms (S (length hostviadata)) hostviadata v
      end
  | _ => complain v
  end.

Definition scanSipVia (tmpdata : bytes) (v : Via) : outcome (parsed Via) :=
  '(ret, viadata, newdata) ← matchText (str "/") true tmpdata;
  match ret with
  | FOUND =>
      viadata ← removeSpacesText (textBefore viadata);
      let v := setprotoName viadata v in
      '(retn, newviadata, newdata) ← matchText (str "/") true newdata;
      match retn with
      | FOUND => parseRestVia newdata (setprotoVersion (textBefore newviadata) v)
      | _ => complain v
      end
  | _ => complain v
  end.

(** The fields of a new object. *)
Definition defaultVia : Via :=
  mkVia [] (str "5060") (str "SIP") (str "2.0") (str "UDP") [] [] [] [] [] [] []
    false false false false false false false [].

(** [SipVia(data, local_ip)] *)
Definition decodeVia (data : bytes) : outcome (parsed Via) :=
  if textEq data [] then mret (Parsed defaultVia) else scanSipVia data defaultVia.

End Via.

(** * The printer *)

Definition formOtherparms (v : Via) : bytes :=
  (if viaHidden v then str ";" ++ str "hidden" else []) ++
  (if viaTtl v then str ";" ++ str "ttl" ++ str "=" ++ ttl v else []) ++
  (if rport v then str ";" ++ str "rport" ++ (if 0 <? zlen (rportValue v) then str "=" ++ rportValue v else [])
   else []) ++
  (if viaMaddr v then str ";" ++ str "maddr" ++ str "=" ++ maddr v else []) ++
  (if viaReceived v then str ";" ++ str "received" ++ str "=" ++ receivedHost v else []) ++
  (if viaBranch v then str ";" ++ str "branch" ++ str "=" ++ branchToken v else []) ++
  (if viaComment v then str "(" ++ comment v ++ str ")" else []).

Definition encodeVia (v : Via) : outcome bytes :=
  pport ← toInt (port v);
  let pport := itoa pport in
  mret (str "Via:" ++ str " " ++
    (protocolName v ++ str "/" ++ str "2.0" ++ str "/" ++ transport v ++ str " ") ++ host v ++
    (if 0 <? zlen pport then str ":" ++ pport else []) ++ formOtherparms v ++ [13; 10]).

(** * Comparison *)

Definition viaEq (a b : Via) : bool :=
  textEq (host a) (host b) && textEq (port a) (port b) && textEq (protocolName a) (protocolName b) &&
  textEq (transport a) (transport b) && textEq (protocolVersion a) (protocolVersion b) &&
  textEq (receivedHost a) (receivedHost b) && textEq (branchToken a) (branchToken b) &&
  textEq (comment a) (comment b) && textEq (extparm a) (extparm b) && textEq (extvalue a) (extvalue b) &&
  textEq (ttl a) (ttl b) && textEq (maddr a) (maddr b) && eqb (viaBranch a) (viaBranch b) &&
  eqb (viaComment a) (viaComment b) && eqb (viaReceived a) (viaReceived b) && eqb (viaHidden a) (viaHidden b) &&
  eqb (viaTtl a) (viaTtl b) && eqb (viaMaddr a) (viaMaddr b) &&
  (eqb (rport a) (rport b) && textEq (rportValue a) (rportValue b)).

Definition textLt (a b : bytes) : bool := strcmp (cstr a) (cstr b) <? 0.
Definition boolLt (a b : bool) : bool := negb a && b.

Definition viaLt (a b : Via) : bool :=
  textLt (host a) (host b) || textLt (port a) (port b) || textLt (protocolName a) (protocolName b) ||
  textLt (transport a) (transport b) || textLt (protocolVersion a) (protocolVersion b) ||
  textLt (receivedHost a) (receivedHost b) || textLt (branchToken a) (branchToken b) ||
  textLt (comment a) (comment b) || textLt (extparm a) (extparm b) || textLt (extvalue a) (extvalue b) ||
  textLt (ttl a) (ttl b) || textLt (maddr a) (maddr b) || boolLt (viaBranch a) (viaBranch b) ||
  boolLt (viaComment a) (viaComment b) || boolLt (viaReceived a) (viaReceived b) ||
  boolLt (viaHidden a) (viaHidden b) || boolLt (viaTtl a) (viaTtl b) || boolLt (viaMaddr a) (viaMaddr b).

End SipViaHdr.
