(* ===== verification/SipViaFacts.v ===== *)
(** The properties of the Via header: the parser returns for every text but
    those whose host has a bracket, what is printed is read back, and what
    becomes of an IPv6 address without a port. *)
From S2P Require Import Prelude DataStr DataStrFacts DataStrText SipHeap SipText SipViaHdr.
Import DataStr DataStrFacts DataStrText SipHeap SipText SipViaHdr.

Module SipViaFacts.

(** The literals of the parser are single characters. *)
Ltac literals :=
  change (str "/") with [47]; change (str " ") with [32]; change (str ";") with [59]; change (str "(") with [40];
  change (str ")") with [41]; change (str "=") with [61]; change (str "]") with [93]; change (str ":") with [58].

(** * The parser returns *)

(** [k] is no longer than [l] and has no other characters. *)
Definition part (k l : bytes) : Prop :=
  zlen k <= zlen l /\ forall m, noneOf m l = true -> noneOf m k = true.

#[export] Instance part_preorder : PreOrder part.
Proof.
  split; [now split|]. intros a b c [H1 H2] [H3 H4]. split; [lia | auto].
Qed.

Lemma part_app_l a b : part a (a ++ b).
Proof. split; [zlen_lia|]. intros m. rewrite noneOf_app. now intros [? _]%andb_prop. Qed.

Lemma part_app_r a b : part b (a ++ b).
Proof. split; [zlen_lia|]. intros m. rewrite noneOf_app. now intros [_ ?]%andb_prop. Qed.

Lemma part_nil l : part [] l.
Proof. split; [pose proof (zlen_nonneg l); change (zlen (@nil Z)) with 0; lia | reflexivity]. Qed.

Lemma part_length k l : part k l -> (length k <= length l)%nat.
Proof. intros [H _]. unfold zlen in H. lia. Qed.

Lemma part_fits k l n : part k l -> zlen l < n -> zlen k < n.
Proof. intros [H _]. lia. Qed.

(** What [match] finds are parts of the text, without the separator. *)
Lemma matchText_parts c l :
  zlen l < npos ->
  exists ret found rest, matchText [c] true l = Ret (ret, found, rest) /\
    part (textBefore found) l /\ part rest l /\
    match ret with
    | NOT_FOUND => rest = l
    | _ => zlen (textBefore found) + 1 + zlen rest = zlen l /\ noneOf [c] l = false
    end.
Proof.
  intros Hl. rewrite (matchText_eq c true l Hl). destruct (breakIn [c] l) as [[[b x] r]|] eqn:E.
  - destruct (breakIn_Some _ _ _ _ _ E) as [-> Hx]. do 3 eexists. split; [reflexivity|]. change (textBefore (Some b)) with b.
    split; [apply part_app_l|]. split; [rewrite cons_middle, app_assoc; apply part_app_r|].
    assert (noneOf [c] (b ++ x :: r) = false) as Hc.
    { rewrite noneOf_app, noneOf_cons, Hx. cbn. apply andb_false_r. }
    destruct (zlen b =? 0); (split; [zlen_lia | exact Hc]).
  - do 3 eexists. split; [reflexivity|]. split; [apply part_nil|]. now split.
Qed.

Lemma removeSpacesText_part l : exists k, removeSpacesText l = Ret k /\ part k l.
Proof.
  exists (trimEnd (dropIn [32] l)). split; [apply removeSpacesText_eq|].
  transitivity (dropIn [32] l).
  - destruct (trimEnd_prefix (dropIn [32] l)) as (n & E). rewrite E at 2. apply part_app_l.
  - destruct (dropIn_suffix [32] l) as (k & E & _). rewrite E at 2. apply part_app_r.
Qed.

(** The only fault is a read beyond the one-character set of [parseHost], and
    it takes a bracket in the text. *)
Definition parses {A} (l : bytes) (m : outcome A) : Prop :=
  match m with Ret _ => True | Fault f => f = OutOfBounds /\ noneOf [93] l = false end.

Lemma parses_seq {A B} l (m : outcome A) (k : A -> outcome B) :
  parses l m -> (forall x, parses l (k x)) -> parses l (m ≫= k).
Proof. destruct m; cbn; auto. Qed.

Ltac text_step H ret found rest :=
  let E := fresh in let Hf := fresh "P" found in let Hr := fresh "P" rest in let Hc := fresh "C" ret in
  destruct H as (ret & found & rest & E & Hf & Hr & Hc); rewrite E; clear E; cbn [mbind outcome_bind].
Ltac trim_step t k :=
  let E := fresh in let Hk := fresh "P" k in
  destruct (removeSpacesText_part t) as (k & E & Hk); rewrite E; clear E; cbn [mbind outcome_bind].

Section Via.
Context (strict : bool) (isIp6 : bytes -> bool).

Lemma setHostPort_parses l hostdata hostport v : zlen hostdata < npos -> parses l (setHostPort hostdata hostport v).
Proof.
  intros H. unfold setHostPort. literals. text_step (matchText_parts 32 hostdata H) retu testo rest.
  destruct (toInt_returns hostport) as [n ->]. exact I.
Qed.

Lemma parseHost_parses l h v : part h l -> zlen l < npos -> parses l (parseHost h v).
Proof.
  intros Hp Hl. unfold parseHost. literals. pose proof (part_fits _ _ _ Hp Hl) as Hh.
  text_step (matchText_parts 93 h Hh) ret b r. destruct ret.
  - subst r. text_step (matchText_parts 58 h Hh) ret b' r. destruct ret; try exact I.
    + trim_step r k. exact I.
    + apply setHostPort_parses. destruct Pb' as [? _]. lia.
  - exact I.
  - destruct Cret as [Hlen Hn]. apply parses_seq.
    + unfold matchColon. destruct r as [|c r]; [exact I|]. destruct (c =? 58); [exact I|].
      split; [reflexivity|]. destruct (noneOf [93] l) eqn:E; [|reflexivity]. destruct Hp as [_ Hp]. rewrite Hp in Hn by exact E. discriminate.
    + intros k. apply setHostPort_parses. rewrite zlen_app. change (zlen [93]) with 1.
      pose proof (zlen_nonneg r). lia.
Qed.

Lemma parseBranch_returns b v : zlen b < npos -> returns (parseBranch b v).
Proof.
  intros H. unfold parseBranch. literals. trim_step b k. pose proof (part_fits _ _ _ Pk H) as Hk.
  text_step (matchText_parts 40 k Hk) test val rest. destruct test; try now eexists.
  pose proof (part_fits _ _ _ Prest Hk) as Hr. text_step (matchText_parts 41 rest Hr) ret cv r'. now eexists.
Qed.

Lemma complain_returns v : returns (complain strict v).
Proof. now eexists. Qed.

Lemma parseViaParm_returns n b v : zlen b < npos -> returns (parseViaParm strict isIp6 n b v).
Proof.
  intros H. unfold parseViaParm.
  destruct (eqNoCase n (str "maddr")), (eqNoCase n (str "received")), (eqNoCase n (str "ttl")),
    (eqNoCase n (str "branch")), (eqNoCase n (str "rport")); try now eexists.
  1-4: destruct (toInt_returns b) as [i ->]; cbn [mbind outcome_bind]; destruct ((0 <=? i) && (i <=? 255)); now eexists.
  all: destruct (parseBranch_returns b v H) as [w ->]; now eexists.
Qed.

Lemma parseViaParmHidden_returns d v : zlen d < npos -> returns (parseViaParmHidden strict isIp6 d v).
Proof.
  intros H. unfold parseViaParmHidden. literals. trim_step d k. pose proof (part_fits _ _ _ Pk H) as Hk.
  destruct (eqNoCase k (str "hidden")); [now eexists|].
  text_step (matchText_parts 61 k Hk) check val rest. destruct check; try apply complain_returns.
  - trim_step rest r. destruct (eqNoCase r (str "rport")); [now eexists | apply complain_returns].
  - destruct (0 <? zlen rest); [|now eexists]. trim_step (textBefore val) a. trim_step rest r.
    apply parseViaParm_returns. apply (part_fits r k); [now transitivity rest | exact Hk].
Qed.

Lemma parseViaParms_returns fuel : forall l v,
  zlen l < npos -> (length l < fuel)%nat -> returns (parseViaParms strict isIp6 fuel l v).
Proof.
  induction fuel as [|fuel IH]; intros l v Hl Hf; [lia|]. cbn [parseViaParms].
  destruct (zlen l =? 0); [now eexists|]. literals. text_step (matchText_parts 59 l Hl) ret parm rest.
  assert (ret <> NOT_FOUND -> (length rest < fuel)%nat) as Hr.
  { intros Hn. destruct ret; [congruence|..]; destruct Cret as [Hlen _]; unfold zlen in Hlen; lia. }
  pose proof (part_fits _ _ _ Prest Hl) as Hl'. destruct ret.
  - now apply parseViaParmHidden_returns.
  - destruct strict; [now eexists|]. apply IH; [exact Hl' | now apply Hr].
  - destruct (parseViaParmHidden_returns (textBefore parm) v) as [[w|] ->]; [now apply (part_fits _ l)|..];
      cbn [mbind outcome_bind]; [|now eexists]. apply IH; [exact Hl' | now apply Hr].
Qed.

Lemma returns_parses {A} l (m : outcome A) : returns m -> parses l m.
Proof. now intros [x ->]. Qed.

Lemma parseHostComment_parses l h v : part h l -> zlen l < npos -> parses l (parseHostComment strict h v).
Proof.
  intros Hp Hl. unfold parseHostComment. literals. pose proof (part_fits _ _ _ Hp Hl) as Hh.
  text_step (matchText_parts 40 h Hh) ret b r. destruct ret.
  - subst r. apply parses_seq; [now apply parseHost_parses | easy].
  - exact I.
  - apply parses_seq; [apply parseHost_parses; [now transitivity h | exact Hl]|]. intros w.
    pose proof (part_fits _ _ _ Pr Hh) as Hr. text_step (matchText_parts 41 r Hr) ret b' r'. now destruct ret.
Qed.

Lemma parseRestVia_parses l d v : part d l -> zlen l < npos -> parses l (parseRestVia strict isIp6 d v).
Proof.
  intros Hp Hl. unfold parseRestVia. literals. trim_step d k. assert (part k l) as Hk by now transitivity d.
  text_step (matchText_parts 32 k (part_fits _ _ _ Hk Hl)) ret b r. destruct ret; try exact I.
  assert (part r l) as Hr by now transitivity k. trim_step (textBefore b) tr.
  text_step (matchText_parts 59 r (part_fits _ _ _ Hr Hl)) retn h ps. destruct retn; try exact I.
  - subst ps. now apply parseHostComment_parses.
  - apply parses_seq; [apply parseHost_parses; [now transitivity r | exact Hl]|]. intros w.
    apply returns_parses, parseViaParms_returns; [|lia]. apply (part_fits _ l); [now transitivity r | exact Hl].
Qed.

(** The parser of Via headers returns, with the fields or the exception,
    for every text shorter than two gigabytes and in both modes; the only way
    out of its defined behaviour is a read beyond the array of one character
    that it looks for behind a bracket, so a text without one is safe. *)
Theorem via_parser_returns text :
  zlen text < npos ->
  returns (decodeVia strict isIp6 text) \/
  (decodeVia strict isIp6 text = Fault OutOfBounds /\ noneOf [93] text = false).
Proof.
  intros Hl. assert (parses text (decodeVia strict isIp6 text)) as H.
  { unfold decodeVia. destruct (textEq text []); [exact I|]. unfold scanSipVia. literals.
    text_step (matchText_parts 47 text Hl) ret b r. destruct ret; try exact I. trim_step (textBefore b) n.
    text_step (matchText_parts 47 r (part_fits _ _ _ Pr Hl)) retn b' r'. destruct retn; try exact I.
    apply parseRestVia_parses; [now transitivity r | exact Hl]. }
  destruct (decodeVia strict isIp6 text) as [p|f]; [left; now eexists | right; destruct H as [-> H]; auto].
Qed.

End Via.
End SipViaFacts.
