(* ===== verification/SipViaProps.v ===== *)
(** Printing a Via header and reading it back, and what becomes of a host in
    brackets. *)
From S2P Require Import Prelude DataStr DataStrFacts DataStrText SipHeap SipText SipViaHdr SipViaFacts.
Import DataStr DataStrFacts DataStrText SipHeap SipText SipViaHdr SipViaFacts.

Module SipViaProps.

(** * Headers that can be printed and read back *)

(** A text that is not empty and free of some characters. *)
Definition token (m l : bytes) : bool := match l with [] => false | _ :: _ => true end && noneOf m l.

(** A name or an IPv4 address, or anything up to a closing bracket. *)
Definition hostText (h : bytes) : bool :=
  token [93; 58; 32; 59; 40] h ||
  match breakIn [93] h with Some (b, _, []) => token [93; 32; 59; 40] b | _ => false end.

Definition portText (p : bytes) : bool :=
  match toInt p with
  | Ret n => (0 <=? n) && (n <? 2147483648) && bool_decide (p = itoa n)
  | Fault _ => false
  end.

(** The text of a parameter and the flag that says that there is one. *)
Definition parmText (m : bytes) (flag : bool) (l : bytes) : bool := eqb flag (0 <? zlen l) && noneOf m l.

Definition ttlText (l : bytes) : bool :=
  match toInt l with Ret n => (0 <=? n) && (n <=? 255) | Fault _ => false end.

Definition viaOk (isIp6 : bytes -> bool) (v : Via) : bool :=
  token [0; 47; 32] (protocolName v) && bool_decide (protocolVersion v = str "2.0") && token [32] (transport v) &&
  hostText (host v) && portText (port v) &&
  (parmText [59; 32] (viaTtl v) (ttl v) && implb (viaTtl v) (ttlText (ttl v))) &&
  (implb (negb (rport v)) (bool_decide (rportValue v = [])) && noneOf [59; 32] (rportValue v)) &&
  parmText [59; 32] (viaMaddr v) (maddr v) &&
  (parmText [59; 32] (viaReceived v) (receivedHost v) && negb (isIp6 (receivedHost v))) &&
  parmText [59; 32; 40] (viaBranch v) (branchToken v) &&
  (parmText [41; 59] (viaComment v) (comment v) &&
   (negb (viaComment v) || viaBranch v ||
    negb (viaHidden v || viaTtl v || rport v || viaMaddr v || viaReceived v))) &&
  bool_decide (extparm v = []) && bool_decide (extvalue v = []).

(** * One parameter *)

Lemma token_spec m l : token m l = true -> l <> [] /\ noneOf m l = true.
Proof. unfold token. intros [H1 H2]%andb_prop. split; [now destruct l | exact H2]. Qed.

Lemma noneOf_one c m l : noneOf m l = true -> isIn c m = true -> noneOf [c] l = true.
Proof.
  intros H Hc. revert H. apply noneOf_weaken. intros x. rewrite isIn_single. now intros ->%Z.eqb_eq.
Qed.

Lemma trimmed_ends x l y : x <> 32 -> y <> 32 -> trimmed (x :: l ++ [y]) = true.
Proof.
  intros Hx Hy. unfold trimmed. rewrite app_comm_cons, rev_app_distr. cbn [rev app startsWith isIn existsb].
  destruct (Z.eqb_spec x 32), (Z.eqb_spec y 32); try congruence. reflexivity.
Qed.

(** Texts whose first letters differ are not equal, whatever their case. *)
Lemma eqNoCase_head x a y b : tolower x <> tolower y -> x <> 0 -> y <> 0 -> eqNoCase (x :: a) (y :: b) = false.
Proof.
  intros H Hx Hy. unfold eqNoCase, strncasecmp, strncmp. cbn [cstr].
  destruct (Z.eqb_spec x 0), (Z.eqb_spec y 0); try congruence.
  destruct (zlen (x :: a) =? zlen (y :: b)); [|reflexivity]. cbn [andb].
  assert (Z.to_nat (zlen (x :: a)) = S (length a)) as -> by (unfold zlen; cbn; lia).
  cbn [map take firstn strcmp]. destruct (Z.eqb_spec (tolower x) (tolower y)); [congruence|].
  now destruct (tolower x <? tolower y).
Qed.

(** Evaluates comparisons of literals. *)
Ltac literal_names :=
  repeat match goal with
  | |- context [eqNoCase (str ?a) (str ?b)] =>
      let r := eval vm_compute in (eqNoCase (str a) (str b)) in change (eqNoCase (str a) (str b)) with r; cbv iota
  end.

Section Via.
Context (strict : bool) (isIp6 : bytes -> bool).

Lemma hidden_parm v : parseViaParmHidden strict isIp6 (str "hidden") v = Ret (Parsed (setViaHidden true v)).
Proof. unfold parseViaParmHidden. rewrite removeSpacesText_trimmed by reflexivity. reflexivity. Qed.

Lemma rport_parm v : parseViaParmHidden strict isIp6 (str "rport") v = Ret (Parsed (setRport true v)).
Proof.
  unfold parseViaParmHidden. literals. rewrite removeSpacesText_trimmed by reflexivity. cbn [mbind outcome_bind].
  literal_names. rewrite matchText_eq by reflexivity.
  change (breakIn [61] (str "rport")) with (@None (bytes * Z * bytes)). cbn [mbind outcome_bind].
  rewrite removeSpacesText_trimmed by reflexivity. reflexivity.
Qed.

(** A parameter [n=b] with one of the names that start with [x]. *)
Lemma value_parm n x m b v :
  n = x :: m -> tolower x <> 104 -> x <> 0 -> noneOf [61; 32] n = true -> b <> [] -> trimmed (n ++ 61 :: b) = true ->
  trimmed b = true -> zlen (n ++ 61 :: b) < npos ->
  parseViaParmHidden strict isIp6 (n ++ 61 :: b) v = parseViaParm strict isIp6 n b v.
Proof.
  intros Hn Hx Hx0 Hm Hb Ht Htb Hl. unfold parseViaParmHidden. literals.
  rewrite (removeSpacesText_trimmed _ Ht). cbn [mbind outcome_bind].
  assert (eqNoCase (n ++ 61 :: b) (str "hidden") = false) as ->.
  { rewrite Hn. apply (eqNoCase_head x _ 104); [exact Hx | exact Hx0 | lia]. }
  rewrite (matchText_eq 61 true _ Hl), (breakIn_first [61] n 61 b) by (now apply (noneOf_one 61 [61; 32]) || reflexivity).
  cbn [mbind outcome_bind].
  destruct (Z.eqb_spec (zlen n) 0) as [E|_]; [rewrite Hn in E; zlen_lia|].
  destruct (Z.ltb_spec 0 (zlen b)) as [_|E]; [|destruct b; [congruence | zlen_lia]].
  change (textBefore (Some n)) with n.
  rewrite (removeSpacesText_trimmed n) by (apply noneOf_trimmed; now apply (noneOf_one 32 [61; 32])).
  cbn [mbind outcome_bind]. now rewrite (removeSpacesText_trimmed b Htb).
Qed.

Lemma parm_trimmed x l b : x <> 32 -> b <> [] -> trimmed b = true -> trimmed ((x :: l) ++ 61 :: b) = true.
Proof.
  intros Hx Hb Ht. unfold trimmed in *. rewrite andb_true_iff, !negb_true_iff in *. destruct Ht as [_ Ht].
  split.
  - cbn. destruct (Z.eqb_spec x 32); [congruence | reflexivity].
  - rewrite rev_app_distr. cbn [rev]. rewrite <- app_assoc. destruct (rev b) eqn:E; [|exact Ht].
    apply (f_equal (@rev Z)) in E. rewrite rev_involutive in E. now subst.
Qed.

(** [value_parm] for a literal name. *)
Ltac named_parm Hb Ht Hl :=
  match goal with |- parseViaParmHidden _ _ (str ?n ++ 61 :: ?b) ?v = _ =>
    let l := eval vm_compute in (str n) in
    rewrite (value_parm (str n) (hd 0 l) (tl l) b v eq_refl) by
      (assumption || (vm_compute; congruence) || (apply (parm_trimmed (hd 0 l) (tl l)); [vm_compute; congruence | assumption..]))
  end; unfold parseViaParm; literal_names.

Lemma ttl_parm b v n :
  b <> [] -> trimmed b = true -> zlen (str "ttl" ++ 61 :: b) < npos -> toInt b = Ret n -> 0 <= n <= 255 ->
  parseViaParmHidden strict isIp6 (str "ttl" ++ 61 :: b) v = Ret (Parsed (setTtl b v)).
Proof.
  intros Hb Ht Hl Hn Hr. named_parm Hb Ht Hl. rewrite Hn. cbn [mbind outcome_bind].
  destruct (Z.leb_spec 0 n), (Z.leb_spec n 255); try lia. reflexivity.
Qed.

Lemma rport_value_parm b v :
  b <> [] -> trimmed b = true -> zlen (str "rport" ++ 61 :: b) < npos ->
  parseViaParmHidden strict isIp6 (str "rport" ++ 61 :: b) v = Ret (Parsed (setRPort b v)).
Proof. intros Hb Ht Hl. named_parm Hb Ht Hl. reflexivity. Qed.

Lemma maddr_parm b v :
  b <> [] -> trimmed b = true -> zlen (str "maddr" ++ 61 :: b) < npos ->
  parseViaParmHidden strict isIp6 (str "maddr" ++ 61 :: b) v = Ret (Parsed (setMaddr b v)).
Proof. intros Hb Ht Hl. named_parm Hb Ht Hl. reflexivity. Qed.

Lemma received_parm b v :
  b <> [] -> trimmed b = true -> zlen (str "received" ++ 61 :: b) < npos ->
  parseViaParmHidden strict isIp6 (str "received" ++ 61 :: b) v = Ret (Parsed (setReceivedhost isIp6 b v)).
Proof. intros Hb Ht Hl. named_parm Hb Ht Hl. reflexivity. Qed.

(** The branch, with the comment that may follow it. *)
Definition branchText (b c : bytes) : bytes := b ++ (if 0 <? zlen c then 40 :: c ++ [41] else []).

Lemma branch_trimmed b c : b <> [] -> noneOf [32] b = true -> trimmed (branchText b c) = true /\ branchText b c <> [].
Proof.
  intros Hb H32. unfold branchText. split; [|destruct b; [congruence | intros E; discriminate E]].
  destruct (0 <? zlen c); [|rewrite app_nil_r; now apply noneOf_trimmed].
  destruct b as [|x b]; [congruence|].
  replace ((x :: b) ++ 40 :: c ++ [41]) with (x :: (b ++ 40 :: c) ++ [41]) by (rewrite <- app_assoc; reflexivity).
  apply trimmed_ends; [|lia]. rewrite noneOf_cons in H32. intros ->. discriminate.
Qed.

Lemma ends_named (n b : bytes) : b <> [] -> trimmed b = true -> startsWith [32] (rev (n ++ 61 :: b)) = false.
Proof.
  intros Hb [_ H]%andb_prop. apply negb_true_iff in H. rewrite rev_app_distr. cbn [rev]. rewrite <- app_assoc.
  destruct (rev b) eqn:E; [|exact H]. apply (f_equal (@rev Z)) in E. rewrite rev_involutive in E. now subst.
Qed.

Lemma branch_parm b c v :
  b <> [] -> noneOf [59; 32; 40] b = true -> noneOf [41; 59] c = true ->
  zlen (str "branch" ++ 61 :: branchText b c) < npos ->
  parseViaParmHidden strict isIp6 (str "branch" ++ 61 :: branchText b c) v =
    Ret (Parsed (if 0 <? zlen c then setComment c (setBranch b v) else setBranch b v)).
Proof.
  intros Hb Hbt Hc Hl.
  destruct (branch_trimmed b c Hb (noneOf_one 32 [59; 32; 40] b Hbt eq_refl)) as [Ht Hne].
  named_parm Hne Ht Hl. unfold parseBranch. literals. rewrite (removeSpacesText_trimmed _ Ht).
  cbn [mbind outcome_bind]. assert (zlen (branchText b c) < npos) as Hl' by zlen_lia.
  rewrite (matchText_eq 40 true _ Hl'). unfold branchText in *. destruct (Z.ltb_spec 0 (zlen c)) as [Hz|Hz].
  - rewrite (breakIn_first [40] b 40) by (now apply (noneOf_one 40 [59; 32; 40]) || reflexivity).
    destruct (Z.eqb_spec (zlen b) 0); [destruct b; [congruence | zlen_lia]|]. cbn [mbind outcome_bind].
    rewrite (matchText_eq 41) by zlen_lia.
    rewrite (breakIn_first [41] c 41 []) by (now apply (noneOf_one 41 [41; 59]) || reflexivity).
    destruct (Z.eqb_spec (zlen c) 0); [lia|]. reflexivity.
  - rewrite app_nil_r in *. rewrite breakIn_none by now apply (noneOf_one 40 [59; 32; 40]). reflexivity.
Qed.

(** * All the parameters *)

(** A parameter: its text and what it does to the header that is read. *)
Abbreviation parm := (bytes * (Via -> Via))%type.

Definition piece {A} (b : bool) (x : A) : list A := if b then [x] else [].

Definition parmsOf (v : Via) : list parm :=
  piece (viaHidden v) (str "hidden", setViaHidden true) ++
  piece (viaTtl v) (str "ttl" ++ 61 :: ttl v, setTtl (ttl v)) ++
  piece (rport v) (if 0 <? zlen (rportValue v) then (str "rport" ++ 61 :: rportValue v, setRPort (rportValue v))
                   else (str "rport", setRport true)) ++
  piece (viaMaddr v) (str "maddr" ++ 61 :: maddr v, setMaddr (maddr v)) ++
  piece (viaReceived v) (str "received" ++ 61 :: receivedHost v, setReceivedhost isIp6 (receivedHost v)) ++
  piece (viaBranch v) (str "branch" ++ 61 :: branchText (branchToken v) (comment v),
    fun w => if 0 <? zlen (comment v) then setComment (comment v) (setBranch (branchToken v) w)
             else setBranch (branchToken v) w).

(** The parameter is read as it should be, and is a piece between semicolons. *)
Definition readable (p : parm) : Prop :=
  zlen p.1 < npos ->
  (forall w, parseViaParmHidden strict isIp6 p.1 w = Ret (Parsed (p.2 w))) /\ noneOf [59] p.1 = true /\ p.1 <> [].

(** The parameter does not end in a blank. *)
Definition tight (p : parm) : Prop := p.1 <> [] /\ startsWith [32] (rev p.1) = false.

Definition semis (ps : list bytes) : bytes :=
  match ps with [] => [] | p :: ps' => p ++ mjoin (map (fun q => 59 :: q) ps') end.

Definition run (ps : list parm) (w : Via) : Via := fold_left (fun w p => p.2 w) ps w.

Lemma parseViaParms_run ps : forall fuel w,
  Forall readable ps -> ps <> [] -> zlen (semis (map fst ps)) < npos -> (length (semis (map fst ps)) < fuel)%nat ->
  parseViaParms strict isIp6 fuel (semis (map fst ps)) w = Ret (Parsed (run ps w)).
Proof.
  induction ps as [|p ps IH]; intros fuel w Hps Hne Hl Hf; [congruence|].
  destruct fuel as [|fuel]; [lia|]. inversion Hps as [|? ? Hp Hps']; subst.
  assert (zlen p.1 < npos) as Hpl by (cbn [semis map] in Hl; zlen_lia).
  destruct (Hp Hpl) as (Hrun & Hn & Hpne). cbn [parseViaParms]. literals.
  destruct (Z.eqb_spec (zlen (semis (map fst (p :: ps)))) 0) as [E|_].
  { cbn [semis map] in E. destruct p.1; [congruence | zlen_lia]. }
  rewrite (matchText_eq 59 true _ Hl). destruct ps as [|q ps].
  - cbn [semis map mjoin list_join]. rewrite app_nil_r. rewrite breakIn_none by exact Hn. cbn [mbind outcome_bind]. apply Hrun.
  - assert (semis (map fst (p :: q :: ps)) = p.1 ++ 59 :: semis (map fst (q :: ps))) as E by reflexivity.
    rewrite E in *. rewrite (breakIn_first [59] p.1 59) by (exact Hn || reflexivity).
    destruct (Z.eqb_spec (zlen p.1) 0) as [Ez|_]; [destruct p.1; [congruence | zlen_lia]|].
    cbn [mbind outcome_bind]. change (textBefore (Some p.1)) with p.1. rewrite Hrun. cbn [mbind outcome_bind].
    apply IH; [exact Hps' | discriminate | zlen_lia | rewrite length_app in Hf; cbn [length] in Hf; lia].
Qed.

(** What [viaOk] says, one conjunct at a time. *)
Ltac ok_facts H :=
  unfold viaOk, parmText in H; repeat rewrite andb_true_iff in H;
  repeat match goal with H : _ /\ _ |- _ => destruct H end;
  repeat match goal with H : bool_decide _ = true |- _ => apply bool_decide_eq_true in H end;
  repeat match goal with H : eqb _ _ = true |- _ => apply eqb_prop in H end.

Lemma flag_nonempty (b : bool) (l : bytes) : b = true -> b = (0 <? zlen l) -> l <> [].
Proof. intros -> H ->. discriminate H. Qed.

Lemma no_blank l : noneOf [59; 32] l = true -> trimmed l = true.
Proof. intros H. now apply noneOf_trimmed, (noneOf_one 32 [59; 32]). Qed.

Lemma noneOf_named m n (b : bytes) :
  noneOf m n = true -> isIn 61 m = false -> noneOf m b = true -> noneOf m (n ++ 61 :: b) = true.
Proof. intros Hn H61 Hb. now rewrite noneOf_app, noneOf_cons, Hn, H61, Hb. Qed.

Lemma named_nonempty (n b : bytes) : n ++ 61 :: b <> [].
Proof. destruct n; intros E; discriminate E. Qed.

Lemma branchText_clean m b c :
  noneOf m b = true -> noneOf m c = true -> isIn 40 m = false -> isIn 41 m = false ->
  noneOf m (branchText b c) = true.
Proof.
  intros Hb Hc H40 H41. unfold branchText. destruct (0 <? zlen c); [|now rewrite app_nil_r].
  rewrite !noneOf_app, noneOf_cons, noneOf_app, noneOf_cons, Hb, Hc, H40, H41. reflexivity.
Qed.

Lemma piece_readable b p : (b = true -> readable p) -> Forall readable (piece b p).
Proof. intros H. destruct b; [apply List.Forall_cons; auto | apply List.Forall_nil]. Qed.

Lemma parmsOf_readable v : viaOk isIp6 v = true -> Forall readable (parmsOf v).
Proof.
  intros H. ok_facts H. unfold parmsOf. repeat (apply Forall_app; split); apply piece_readable; intros Hflag; intros Hl;
    cbn [fst snd] in *.
  - split; [intros w; apply hidden_parm|]. split; [reflexivity | discriminate].
  - pose proof (flag_nonempty _ _ Hflag ltac:(eassumption)) as Hne. rewrite Hflag in *.
    match goal with H : implb true (ttlText _) = true |- _ => cbn [implb] in H; unfold ttlText in H;
      destruct (toInt (ttl v)) as [n|] eqn:En; [|discriminate]; apply andb_prop in H as [? ?] end.
    split; [|split; [|apply named_nonempty]].
    + intros w. apply (ttl_parm _ _ n); auto using no_blank. lia.
    + apply noneOf_named; auto. now apply (noneOf_one 59 [59; 32]).
  - destruct (Z.ltb_spec 0 (zlen (rportValue v))) as [Hz|Hz]; cbn [fst snd] in *.
    + assert (rportValue v <> []) as Hne by (intros E; rewrite E in Hz; change (zlen (@nil Z)) with 0 in Hz; lia).
      split; [|split; [|apply named_nonempty]].
      * intros w. apply rport_value_parm; auto using no_blank.
      * apply noneOf_named; auto. now apply (noneOf_one 59 [59; 32]).
    + split; [intros w; apply rport_parm|]. split; [reflexivity | discriminate].
  - pose proof (flag_nonempty _ _ Hflag ltac:(eassumption)) as Hne.
    split; [|split; [|apply named_nonempty]].
    + intros w. apply maddr_parm; auto using no_blank.
    + apply noneOf_named; auto. now apply (noneOf_one 59 [59; 32]).
  - pose proof (flag_nonempty _ _ Hflag ltac:(eassumption)) as Hne.
    split; [|split; [|apply named_nonempty]].
    + intros w. apply received_parm; auto using no_blank.
    + apply noneOf_named; auto. now apply (noneOf_one 59 [59; 32]).
  - pose proof (flag_nonempty _ _ Hflag ltac:(eassumption)) as Hne.
    split; [|split; [|apply named_nonempty]].
    + intros w. now apply branch_parm.
    + apply noneOf_named; auto. apply branchText_clean; auto; [now apply (noneOf_one 59 [59; 32; 40]) | now apply (noneOf_one 59 [41; 59])].
Qed.

(** The parameters are printed each with its semicolon; the comment follows
    the branch, or the address when there are no parameters. *)
Lemma formOtherparms_parms v :
  viaOk isIp6 v = true ->
  formOtherparms v = mjoin (map (fun p => 59 :: p.1) (parmsOf v)) ++
    (if viaBranch v then [] else if viaComment v then 40 :: comment v ++ [41] else []).
Proof.
  intros H. ok_facts H. unfold formOtherparms, parmsOf, branchText. literals.
  match goal with H : viaComment v = _ |- _ => rewrite <- H end.
  destruct (viaHidden v), (viaTtl v), (rport v), (viaMaddr v), (viaReceived v); cbn [piece app map mjoin list_join];
    destruct (0 <? zlen (rportValue v)), (viaBranch v), (viaComment v); cbn [piece app map mjoin list_join fst];
    rewrite ?app_nil_r; repeat (progress (rewrite <- ?app_assoc; cbn [app])); reflexivity.
Qed.

Lemma no_parms v :
  viaOk isIp6 v = true -> viaBranch v = false -> viaComment v = true -> parmsOf v = [].
Proof.
  intros H Hb Hc. ok_facts H. unfold parmsOf. rewrite Hb, Hc in *. cbn [negb orb] in *.
  match goal with H : negb _ = true |- _ => apply negb_true_iff in H; repeat rewrite orb_false_iff in H;
    destruct H as [[[[-> ->] ->] ->] ->] end. reflexivity.
Qed.

(** ** Fields before the parameters *)

(** The header read so far when the parameters begin. *)
Definition addressed (v : Via) : Via :=
  setPort match toInt (port v) with Ret n => n | Fault _ => 0 end
    (setHost (host v) (setTransport (transport v) (setprotoVersion (str "2.0") (setprotoName (protocolName v) defaultVia)))).

Lemma run_app ps qs w : run (ps ++ qs) w = run qs (run ps w).
Proof. apply fold_left_app. Qed.

Lemma setReceivedhost_plain l w :
  isIp6 l = false ->
  setReceivedhost isIp6 l w =
    mkVia (host w) (port w) (protocolName w) (protocolVersion w) (transport w) l (branchToken w) (comment w) (ttl w)
      (extparm w) (extvalue w) (maddr w) (viaBranch w) (viaComment w) (if 0 <? zlen l then true else viaReceived w)
      (viaHidden w) (viaTtl w) (viaMaddr w) (rport w) (rportValue w).
Proof. intros H. unfold setReceivedhost. now rewrite H. Qed.

Lemma no_flag (l : bytes) : false = (0 <? zlen l) -> l = [].
Proof. destruct l as [|c l]; [reflexivity|]. rewrite zlen_cons. pose proof (zlen_nonneg l). lia. Qed.

(** Each parameter puts its text and its flag into a header without it. *)
Lemma run_hidden b (x : bytes) ho po pn pv tr rh bt co tt ep ev ma vb vc vr vt vm rp rv :
  run (piece b (x, setViaHidden true))
    (mkVia ho po pn pv tr rh bt co tt ep ev ma vb vc vr false vt vm rp rv) =
    mkVia ho po pn pv tr rh bt co tt ep ev ma vb vc vr b vt vm rp rv.
Proof. now destruct b. Qed.

Lemma run_ttl b (x l : bytes) ho po pn pv tr rh bt co ep ev ma vb vc vr vh vm rp rv :
  b = (0 <? zlen l) -> run (piece b (x, setTtl l))
    (mkVia ho po pn pv tr rh bt co [] ep ev ma vb vc vr vh false vm rp rv) =
    mkVia ho po pn pv tr rh bt co l ep ev ma vb vc vr vh b vm rp rv.
Proof. intros Hb. destruct b; cbn [piece run fold_left snd]; [unfold setTtl; now rewrite <- Hb|]. now apply no_flag in Hb as ->. Qed.

Lemma run_maddr b (x l : bytes) ho po pn pv tr rh bt co tt ep ev vb vc vr vh vt rp rv :
  b = (0 <? zlen l) -> run (piece b (x, setMaddr l))
    (mkVia ho po pn pv tr rh bt co tt ep ev [] vb vc vr vh vt false rp rv) =
    mkVia ho po pn pv tr rh bt co tt ep ev l vb vc vr vh vt b rp rv.
Proof. intros Hb. destruct b; cbn [piece run fold_left snd]; [unfold setMaddr; now rewrite <- Hb|]. now apply no_flag in Hb as ->. Qed.

Lemma run_received b (x l : bytes) ho po pn pv tr bt co tt ep ev ma vb vc vh vt vm rp rv :
  isIp6 l = false -> b = (0 <? zlen l) -> run (piece b (x, setReceivedhost isIp6 l))
    (mkVia ho po pn pv tr [] bt co tt ep ev ma vb vc false vh vt vm rp rv) =
    mkVia ho po pn pv tr l bt co tt ep ev ma vb vc b vh vt vm rp rv.
Proof. intros Hi Hb. destruct b; cbn [piece run fold_left snd]; [unfold setReceivedhost; now rewrite Hi, <- Hb|].
  now apply no_flag in Hb as ->. Qed.

Lemma run_rport b (l : bytes) ho po pn pv tr rh bt co tt ep ev ma vb vc vr vh vt vm :
  (b = false -> l = []) -> run (piece b (if 0 <? zlen l then (str "rport" ++ 61 :: l, setRPort l) else (str "rport", setRport true)))
    (mkVia ho po pn pv tr rh bt co tt ep ev ma vb vc vr vh vt vm false []) =
    mkVia ho po pn pv tr rh bt co tt ep ev ma vb vc vr vh vt vm b l.
Proof. intros Hl. destruct b; cbn [piece run fold_left snd]; [|now rewrite Hl].
  destruct (0 <? zlen l) eqn:E; [reflexivity|]. symmetry in E. now apply no_flag in E as ->. Qed.

(** The branch and its comment, or the comment alone. *)
Lemma run_branch b (l x : bytes) c d ho po pn pv tr rh tt ep ev ma vr vh vt vm rp rv :
  b = (0 <? zlen l) -> c = (0 <? zlen d) ->
  (let w :=
    mkVia ho po pn pv tr rh [] [] tt ep ev ma false false vr vh vt vm rp rv in
   if b then run (piece b (x, fun w => if 0 <? zlen d then setComment d (setBranch l w) else setBranch l w)) w
   else if c then setComment d w else w) =
    mkVia ho po pn pv tr rh l d tt ep ev ma b c vr vh vt vm rp rv.
Proof.
  intros Hb Hc. cbv zeta. rewrite <- Hc. destruct b; cbn [piece run fold_left snd].
  - unfold setBranch, setComment. rewrite <- Hb. destruct c; [now rewrite <- Hc|]. now apply no_flag in Hc as ->.
  - apply no_flag in Hb as ->. unfold setComment. rewrite <- Hc. destruct c; [reflexivity|]. now apply no_flag in Hc as ->.
Qed.

Lemma start_fields h n t p :
  setPort n (setHost h (setTransport t (setprotoVersion (str "2.0") (setprotoName p defaultVia)))) =
    mkVia h (itoa n) p (str "2.0") t [] [] [] [] [] [] [] false false false false false false false [].
Proof. reflexivity. Qed.

(** Running all the parameters gives the header that was printed. *)
Lemma run_parms v :
  viaOk isIp6 v = true ->
  (if viaBranch v then run (parmsOf v) (addressed v)
   else if viaComment v then setComment (comment v) (run (parmsOf v) (addressed v))
   else run (parmsOf v) (addressed v)) = v.
Proof.
  intros H. ok_facts H. rename H into Hproto.
  match goal with H : portText _ = true |- _ => unfold portText in H;
    destruct (toInt (port v)) as [n|] eqn:En; [|discriminate]; rewrite !andb_true_iff in H;
    destruct H as [_ Hport]; apply bool_decide_eq_true in Hport end.
  match goal with H : negb (isIp6 _) = true |- _ => apply negb_true_iff in H; rename H into Hip end.
  assert (rport v = false -> rportValue v = []) as Hrp.
  { intros E. rewrite E in *. match goal with H : implb _ _ = true |- _ => cbn in H; now apply bool_decide_eq_true in H end. }
  unfold parmsOf, addressed. rewrite En, !app_assoc, run_app, <- !app_assoc.
  replace (if viaBranch v then _ else _) with
    (let w := run (piece (viaHidden v) (str "hidden", setViaHidden true) ++
        piece (viaTtl v) (str "ttl" ++ 61 :: ttl v, setTtl (ttl v)) ++
        piece (rport v) (if 0 <? zlen (rportValue v) then (str "rport" ++ 61 :: rportValue v, setRPort (rportValue v))
                         else (str "rport", setRport true)) ++
        piece (viaMaddr v) (str "maddr" ++ 61 :: maddr v, setMaddr (maddr v)) ++
        piece (viaReceived v) (str "received" ++ 61 :: receivedHost v, setReceivedhost isIp6 (receivedHost v)))
      (setPort n (setHost (host v) (setTransport (transport v) (setprotoVersion (str "2.0") (setprotoName (protocolName v) defaultVia)))))
     in if viaBranch v then run (piece (viaBranch v) (str "branch" ++ 61 :: branchText (branchToken v) (comment v),
            fun w => if 0 <? zlen (comment v) then setComment (comment v) (setBranch (branchToken v) w)
                     else setBranch (branchToken v) w)) w
        else if viaComment v then setComment (comment v) w else w)
    by (destruct (viaBranch v); [reflexivity | now destruct (viaComment v)]).
  rewrite !run_app, start_fields.
  rewrite run_hidden, run_ttl, run_rport, run_maddr, run_received by assumption.
  rewrite run_branch by assumption. destruct v.
  cbn [host port protocolName protocolVersion transport receivedHost branchToken comment ttl extparm extvalue maddr
    viaBranch viaComment viaReceived viaHidden viaTtl viaMaddr rport rportValue] in *. congruence.
Qed.

(** * The address *)

Lemma itoa_digits n : 0 <= n -> Forall (fun c => 48 <= c <= 57) (itoa n) /\ itoa n <> [].
Proof.
  intros Hn. unfold itoa, decimalText. destruct (Z.eqb_spec n 0).
  - split; [apply List.Forall_cons; [lia | apply List.Forall_nil] | discriminate].
  - destruct (Z.ltb_spec n 0); [lia|]. cbn [app]. rewrite Z.abs_eq by lia. split.
    + apply List.Forall_forall. intros c. apply decimal_digits.
    + apply decimal_nonempty. lia.
Qed.

Lemma digits_noneOf m l :
  (forall c, isIn c m = true -> c < 48 \/ 57 < c) -> Forall (fun c => 48 <= c <= 57) l -> noneOf m l = true.
Proof.
  intros Hm H. induction H as [|c l Hc H IH]; [reflexivity|]. rewrite noneOf_cons, IH, andb_true_r.
  destruct (isIn c m) eqn:E; [|reflexivity]. apply Hm in E. lia.
Qed.

Lemma portText_spec p :
  portText p = true ->
  exists n, toInt p = Ret n /\ p = itoa n /\ p <> [] /\ noneOf [93; 58; 32; 59; 40] p = true.
Proof.
  unfold portText. destruct (toInt p) as [n|]; [|discriminate]. rewrite !andb_true_iff.
  intros [[Hn _] ->%bool_decide_eq_true]. apply Z.leb_le in Hn. destruct (itoa_digits n Hn) as [Hd Hne].
  exists n. repeat split; [exact Hne|]. apply digits_noneOf; [|exact Hd]. intros c. cbn.
  rewrite !orb_true_iff, !Z.eqb_eq. intros Hc. intuition lia.
Qed.

Lemma hostText_spec h :
  hostText h = true ->
  h <> [] /\ noneOf [32; 59; 40] h = true /\
  (token [93; 58] h = true \/ exists b, b <> [] /\ noneOf [93] b = true /\ h = b ++ [93]).
Proof.
  unfold hostText. intros [H|H]%orb_prop.
  - destruct (token_spec _ _ H) as [Hne Hn]. split; [exact Hne|]. split.
    + revert Hn. apply noneOf_weaken. intros c. cbn. rewrite !orb_true_iff. tauto.
    + left. unfold token. apply andb_true_intro. split; [now destruct h|]. revert Hn. apply noneOf_weaken.
      intros c. cbn. rewrite !orb_true_iff. intuition discriminate.
  - destruct (breakIn [93] h) as [[[b c] [|x r]]|] eqn:E; try discriminate.
    destruct (breakIn_Some _ _ _ _ _ E) as [-> Hc]. rewrite isIn_single in Hc. apply Z.eqb_eq in Hc as ->.
    destruct (token_spec _ _ H) as [Hne Hn]. split; [now destruct b|]. split.
    + rewrite noneOf_app. apply andb_true_intro. split; [|reflexivity]. revert Hn. apply noneOf_weaken.
      intros c. cbn. rewrite !orb_true_iff. tauto.
    + right. exists b. split; [exact Hne|]. split; [now apply (noneOf_one 93 [93; 32; 59; 40]) | reflexivity].
Qed.

Lemma setHostPort_plain h p n v :
  noneOf [32] h = true -> zlen h < npos -> toInt p = Ret n -> setHostPort h p v = Ret (setPort n (setHost h v)).
Proof.
  intros Hh Hl Hn. unfold setHostPort. literals. rewrite (matchText_eq 32 true h Hl), (breakIn_none _ _ Hh).
  cbn [mbind outcome_bind]. now rewrite Hn.
Qed.

Lemma parseHost_plain h p n v :
  hostText h = true -> noneOf [93] p = true -> toInt p = Ret n -> zlen (h ++ 58 :: p) < npos ->
  parseHost (h ++ 58 :: p) v = Ret (setPort n (setHost h v)).
Proof.
  intros Hh Hp Hn Hl. destruct (hostText_spec h Hh) as (Hne & Hc & Hk). unfold parseHost. literals.
  assert (noneOf [32] h = true) as H32 by now apply (noneOf_one 32 [32; 59; 40]).
  destruct Hk as [Ht | (b & Hb & Hbn & ->)].
  - destruct (token_spec _ _ Ht) as [_ Hn']. rewrite (matchText_eq 93 true _ Hl), breakIn_none.
    2:{ rewrite noneOf_app, noneOf_cons, Hp, (noneOf_one 93 [93; 58] h Hn' eq_refl). reflexivity. }
    cbn [mbind outcome_bind]. rewrite (matchText_eq 58 true _ Hl), (breakIn_first [58] h 58)
      by (now apply (noneOf_one 58 [93; 58]) || reflexivity).
    destruct (Z.eqb_spec (zlen h) 0); [destruct h; [congruence | zlen_lia]|]. cbn [mbind outcome_bind].
    change (textBefore (Some h)) with h. apply setHostPort_plain; [exact H32 | zlen_lia | exact Hn].
  - rewrite <- app_assoc in *. cbn [app] in *. rewrite (matchText_eq 93 true _ Hl), (breakIn_first [93] b 93) by (exact Hbn || reflexivity).
    destruct (Z.eqb_spec (zlen b) 0); [destruct b; [congruence | zlen_lia]|]. cbn [mbind outcome_bind matchColon].
    change (58 =? 58) with true. cbv iota. cbn [mbind outcome_bind]. change (textBefore (Some b)) with b.
    apply setHostPort_plain; [exact H32 | zlen_lia | exact Hn].
Qed.

(** * Printing and reading *)

Definition hostPort (v : Via) : bytes := host v ++ 58 :: port v.

Definition viaText (v : Via) : bytes :=
  protocolName v ++ 47 :: str "2.0" ++ 47 :: transport v ++ 32 :: hostPort v ++ formOtherparms v.

Lemma encodeVia_text v : portText (port v) = true -> encodeVia v = Ret (str "Via: " ++ viaText v ++ [13; 10]).
Proof.
  intros Hp. destruct (portText_spec _ Hp) as (n & Hn & E & Hne & _). unfold encodeVia. rewrite Hn. cbn [mbind outcome_bind].
  rewrite <- E. destruct (Z.ltb_spec 0 (zlen (port v))); [|destruct (port v); [congruence | zlen_lia]].
  unfold viaText, hostPort. literals. change (str "Via: ") with (str "Via:" ++ [32]).
  repeat (progress (rewrite <- ?app_assoc; cbn [app])). reflexivity.
Qed.

Lemma semis_parms ps : mjoin (map (fun p : parm => 59 :: p.1) ps) = match ps with [] => [] | _ => 59 :: semis (map fst ps) end.
Proof.
  destruct ps as [|p ps]; [reflexivity|]. cbn [map mjoin list_join semis app]. f_equal. f_equal.
  now rewrite map_map.
Qed.

Lemma piece_tight b p : (b = true -> tight p) -> Forall tight (piece b p).
Proof. intros H. destruct b; [apply List.Forall_cons; auto | apply List.Forall_nil]. Qed.

Lemma parmsOf_tight v : viaOk isIp6 v = true -> Forall tight (parmsOf v).
Proof.
  intros H. ok_facts H. rename H into Hproto. unfold parmsOf. repeat (apply Forall_app; split); apply piece_tight; intros Hflag;
    unfold tight; cbn [fst snd].
  - split; [discriminate | reflexivity].
  - pose proof (flag_nonempty _ _ Hflag ltac:(eassumption)) as Hne.
    split; [apply named_nonempty | apply ends_named; auto using no_blank].
  - destruct (Z.ltb_spec 0 (zlen (rportValue v))) as [Hz|Hz]; cbn [fst]; [|split; [discriminate | reflexivity]].
    assert (rportValue v <> []) as Hne by (intros E; rewrite E in Hz; change (zlen (@nil Z)) with 0 in Hz; lia).
    split; [apply named_nonempty | apply ends_named; auto using no_blank].
  - pose proof (flag_nonempty _ _ Hflag ltac:(eassumption)) as Hne.
    split; [apply named_nonempty | apply ends_named; auto using no_blank].
  - pose proof (flag_nonempty _ _ Hflag ltac:(eassumption)) as Hne.
    split; [apply named_nonempty | apply ends_named; auto using no_blank].
  - pose proof (flag_nonempty _ _ Hflag ltac:(eassumption)) as Hne.
    destruct (branch_trimmed (branchToken v) (comment v) Hne) as [Ht Hn]; [now apply (noneOf_one 32 [59; 32; 40])|].
    split; [apply named_nonempty | now apply ends_named].
Qed.

Lemma ends_app (a b : bytes) :
  startsWith [32] (rev b) = false -> (b = [] -> startsWith [32] (rev a) = false) -> startsWith [32] (rev (a ++ b)) = false.
Proof.
  intros Hb Ha. rewrite rev_app_distr. destruct (rev b) as [|x r] eqn:E; [|exact Hb].
  apply Ha. apply (f_equal (@rev Z)) in E. now rewrite rev_involutive in E.
Qed.

Lemma ends_parms ps : Forall tight ps -> startsWith [32] (rev (mjoin (map (fun p : parm => 59 :: p.1) ps))) = false.
Proof.
  intros H. induction H as [|p ps [Hne Hp] H IH]; [reflexivity|]. cbn [map mjoin list_join].
  apply ends_app; [exact IH|]. intros _. cbn [rev]. destruct (rev p.1) eqn:E; [|exact Hp].
  apply (f_equal (@rev Z)) in E. rewrite rev_involutive in E. now subst.
Qed.

(** The text after the transport does not end in a blank. *)
Lemma tail_trimmed v : viaOk isIp6 v = true -> startsWith [32] (rev (hostPort v ++ formOtherparms v)) = false.
Proof.
  intros H. rewrite formOtherparms_parms by exact H. pose proof (parmsOf_tight v H) as Ht. ok_facts H. rename H into Hproto.
  match goal with H : portText _ = true |- _ => destruct (portText_spec _ H) as (n & _ & _ & Hne & Hp) end.
  rewrite app_assoc. apply ends_app.
  - destruct (viaBranch v); [reflexivity|]. destruct (viaComment v); [|reflexivity].
    rewrite app_comm_cons, rev_app_distr. reflexivity.
  - intros _. apply ends_app; [now apply ends_parms|]. intros _. unfold hostPort. rewrite rev_app_distr. cbn [rev].
    rewrite <- app_assoc. destruct (rev (port v)) as [|x r] eqn:E.
    { apply (f_equal (@rev Z)) in E. rewrite rev_involutive in E. now destruct Hne. }
    assert (noneOf [32] (rev (port v)) = true) as Hr by (rewrite noneOf_rev; now apply (noneOf_one 32 [93; 58; 32; 59; 40])).
    rewrite E in Hr. now apply noneOf_startsWith in Hr.
Qed.

Lemma hostPort_clean v :
  viaOk isIp6 v = true -> noneOf [59] (hostPort v) = true /\ noneOf [40] (hostPort v) = true /\ hostPort v <> [].
Proof.
  intros H. ok_facts H. rename H into Hproto.
  match goal with H : portText _ = true |- _ => destruct (portText_spec _ H) as (n & _ & _ & _ & Hp) end.
  match goal with H : hostText _ = true |- _ => destruct (hostText_spec _ H) as (Hne & Hh & _) end.
  unfold hostPort. rewrite !noneOf_app, !noneOf_cons.
  rewrite (noneOf_one 59 [32; 59; 40] _ Hh eq_refl), (noneOf_one 40 [32; 59; 40] _ Hh eq_refl).
  rewrite (noneOf_one 59 [93; 58; 32; 59; 40] _ Hp eq_refl), (noneOf_one 40 [93; 58; 32; 59; 40] _ Hp eq_refl).
  repeat split. destruct (host v); intros E; discriminate E.
Qed.

Lemma nonempty_len {A} (l : list A) : l <> [] -> (zlen l =? 0) = false.
Proof. destruct l as [|x l]; [congruence|]. rewrite zlen_cons. pose proof (zlen_nonneg l). intros _. apply Z.eqb_neq. lia. Qed.

(** Reading up to the address, and from there as [k] says. *)
Lemma decodeVia_head v :
  viaOk isIp6 v = true -> zlen (viaText v) < npos ->
  decodeVia strict isIp6 (viaText v) =
    (let w := setTransport (transport v) (setprotoVersion (str "2.0") (setprotoName (protocolName v) defaultVia)) in
     '(retn, hostdata, hostviadata) ← matchText (str ";") true (hostPort v ++ formOtherparms v);
     match retn with
     | NOT_FOUND => parseHostComment strict hostviadata w
     | FIRST => complain strict w
     | FOUND =>
         w ← parseHost (textBefore hostdata) w;
         parseViaParms strict isIp6 (S (length hostviadata)) hostviadata w
     end).
Proof.
  intros H Hl. pose proof (tail_trimmed v H) as Htail. ok_facts H. rename H into Hproto.
  destruct (token_spec _ _ Hproto) as [Hpn Hp].
  match goal with H : token [32] _ = true |- _ => destruct (token_spec _ _ H) as [Htn Ht] end.
  unfold decodeVia. assert (textEq (viaText v) [] = false) as ->.
  { rewrite textEq_nil. unfold viaText. revert Hpn Hp. destruct (protocolName v) as [|c p]; [congruence|]. intros _ Hp. cbn [app].
    rewrite noneOf_cons in Hp. apply andb_prop in Hp as [Hp _]. cbn in Hp. now destruct (c =? 0). }
  unfold scanSipVia. literals. rewrite (matchText_eq 47 true _ Hl). unfold viaText in *.
  rewrite (breakIn_first [47] (protocolName v) 47) by (now apply (noneOf_one 47 [0; 47; 32]) || reflexivity).
  rewrite (nonempty_len _ Hpn).
  cbn [mbind outcome_bind]. change (textBefore (Some (protocolName v))) with (protocolName v).
  rewrite removeSpacesText_trimmed by (apply noneOf_trimmed; now apply (noneOf_one 32 [0; 47; 32])).
  cbn [mbind outcome_bind]. rewrite (matchText_eq 47) by zlen_lia.
  rewrite (breakIn_first [47] (str "2.0") 47) by reflexivity. change (zlen (str "2.0") =? 0) with false.
  cbn [mbind outcome_bind]. unfold parseRestVia. literals. set (tl := hostPort v ++ formOtherparms v) in *.
  rewrite removeSpacesText_trimmed.
  2:{ unfold trimmed. apply andb_true_intro. split; apply negb_true_iff.
      - revert Htn Ht. destruct (transport v) as [|c t]; [congruence|]. intros _ Ht. now apply noneOf_startsWith in Ht.
      - rewrite cons_middle, app_assoc. apply ends_app; [exact Htail|]. intros E. exfalso.
        unfold tl, hostPort in E. destruct (host v); discriminate E. }
  cbn [mbind outcome_bind]. rewrite (matchText_eq 32) by zlen_lia.
  rewrite (breakIn_first [32] (transport v) 32) by (exact Ht || reflexivity).
  rewrite (nonempty_len _ Htn).
  cbn [mbind outcome_bind]. change (textBefore (Some (transport v))) with (transport v).
  rewrite removeSpacesText_trimmed by now apply noneOf_trimmed. reflexivity.
Qed.

Lemma viaText_long v : zlen (hostPort v ++ formOtherparms v) < zlen (viaText v).
Proof. unfold viaText. zlen_lia. Qed.

Lemma viaOk_address v w :
  viaOk isIp6 v = true -> zlen (hostPort v) < npos ->
  exists n, toInt (port v) = Ret n /\ parseHost (hostPort v) w = Ret (setPort n (setHost (host v) w)).
Proof.
  intros H Hl. ok_facts H. rename H into Hproto.
  match goal with H : portText _ = true |- _ => destruct (portText_spec _ H) as (n & Hn & _ & _ & Hp) end.
  exists n. split; [exact Hn|]. apply parseHost_plain; [assumption | now apply (noneOf_one 93 [93; 58; 32; 59; 40]) | exact Hn | exact Hl].
Qed.

Lemma comment_clean v : viaOk isIp6 v = true -> viaComment v = (0 <? zlen (comment v)) /\ noneOf [41] (comment v) = true /\ noneOf [59] (comment v) = true.
Proof.
  intros H. ok_facts H. rename H into Hproto. split; [assumption|].
  split; [now apply (noneOf_one 41 [41; 59]) | now apply (noneOf_one 59 [41; 59])].
Qed.

(** The address with or without a comment, when there are no parameters. *)
Lemma parseHostComment_plain v w :
  viaOk isIp6 v = true -> viaBranch v = false -> parmsOf v = [] -> zlen (hostPort v ++ formOtherparms v) < npos ->
  exists n, toInt (port v) = Ret n /\
    parseHostComment strict (hostPort v ++ formOtherparms v) w =
      Ret (Parsed (let u := setPort n (setHost (host v) w) in if viaComment v then setComment (comment v) u else u)).
Proof.
  intros H Hb Hps Hl. rewrite (formOtherparms_parms v H), Hps, Hb in *. cbn [map mjoin list_join app] in *.
  destruct (hostPort_clean v H) as (_ & Hh & Hne). destruct (comment_clean v H) as (Hc & Hc41 & _).
  destruct (viaOk_address v w H) as (n & Hn & Ha); [zlen_lia|]. exists n. split; [exact Hn|].
  unfold parseHostComment. literals. rewrite (matchText_eq 40 true _ Hl). destruct (viaComment v) eqn:Ec.
  - rewrite (breakIn_first [40] (hostPort v) 40) by (exact Hh || reflexivity). rewrite (nonempty_len _ Hne).
    cbn [mbind outcome_bind]. change (textBefore (Some (hostPort v))) with (hostPort v). rewrite Ha.
    cbn [mbind outcome_bind]. rewrite (matchText_eq 41) by zlen_lia.
    rewrite (breakIn_first [41] (comment v) 41 []) by (exact Hc41 || reflexivity).
    assert ((zlen (comment v) =? 0) = false) as -> by (symmetry in Hc; lia). reflexivity.
  - rewrite app_nil_r, (breakIn_none _ _ Hh). cbn [mbind outcome_bind]. now rewrite Ha.
Qed.

Lemma encodeVia_ok v : viaOk isIp6 v = true -> encodeVia v = Ret (str "Via: " ++ viaText v ++ [13; 10]).
Proof. intros H. ok_facts H. now apply encodeVia_text. Qed.

Lemma decodeVia_text v :
  viaOk isIp6 v = true -> zlen (viaText v) < npos -> decodeVia strict isIp6 (viaText v) = Ret (Parsed v).
Proof.
  intros H Hl. pose proof (viaText_long v) as Hlong. rewrite (decodeVia_head v H Hl). cbv zeta. literals.
  pose proof (run_parms v H) as Hrun. unfold addressed in Hrun. destruct (hostPort_clean v H) as (Hh & _ & Hne).
  rewrite matchText_eq by lia. destruct (parmsOf v) as [|p ps] eqn:Eps.
  - assert (viaBranch v = false) as Hb.
    { destruct (viaBranch v) eqn:E; [|reflexivity]. unfold parmsOf in Eps. rewrite E in Eps.
      rewrite !app_nil in Eps. destruct Eps as (_ & _ & _ & _ & _ & Eps). discriminate. }
    destruct (parseHostComment_plain v (setTransport (transport v)
      (setprotoVersion (str "2.0") (setprotoName (protocolName v) defaultVia))) H Hb Eps) as (n & Hn & Ha); [lia|].
    assert (noneOf [59] (hostPort v ++ formOtherparms v) = true) as Hnone.
    { rewrite (formOtherparms_parms v H), Eps, Hb. cbn [map mjoin list_join app]. rewrite noneOf_app, Hh.
      destruct (comment_clean v H) as (_ & _ & Hc). destruct (viaComment v); [|reflexivity].
      rewrite noneOf_cons, noneOf_app, Hc. reflexivity. }
    rewrite (breakIn_none _ _ Hnone). cbn [mbind outcome_bind]. rewrite Ha. f_equal. f_equal.
    rewrite Hb, Hn in Hrun. cbn [run fold_left] in Hrun. exact Hrun.
  - assert (viaBranch v = true \/ viaComment v = false) as Hbc.
    { destruct (viaBranch v) eqn:E; [now left|]. right. destruct (viaComment v) eqn:Ec; [|reflexivity].
      rewrite (no_parms v H E Ec) in Eps. discriminate. }
    assert (formOtherparms v = 59 :: semis (map fst (p :: ps))) as Ef.
    { rewrite (formOtherparms_parms v H), Eps, semis_parms. destruct Hbc as [-> | ->]; [apply app_nil_r|].
      destruct (viaBranch v); apply app_nil_r. }
    rewrite Ef in *. rewrite (breakIn_first [59] (hostPort v) 59) by (exact Hh || reflexivity).
    rewrite (nonempty_len _ Hne). cbn [mbind outcome_bind]. change (textBefore (Some (hostPort v))) with (hostPort v).
    destruct (viaOk_address v (setTransport (transport v)
      (setprotoVersion (str "2.0") (setprotoName (protocolName v) defaultVia))) H) as (n & Hn & Ha); [zlen_lia|].
    rewrite Ha. cbn [mbind outcome_bind].
    rewrite parseViaParms_run; [| rewrite <- Eps; now apply parmsOf_readable | discriminate | zlen_lia | lia].
    f_equal. f_equal. rewrite Hn in Hrun. destruct Hbc as [E | E]; rewrite E in Hrun; [exact Hrun|].
    now destruct (viaBranch v).
Qed.

(** C18: a Via that is printed is read back.  For every header whose fields the
    format can carry, with any combination of parameters, printing gives one
    Via line, and both parsers read all fields and flags from its value; host
    names, IPv4 addresses and IPv6 addresses in brackets alike. *)
Theorem via_roundtrip v :
  viaOk isIp6 v = true ->
  exists text, encodeVia v = Ret (str "Via: " ++ text ++ [13; 10]) /\
    (zlen text < npos -> decodeVia strict isIp6 text = Ret (Parsed v)).
Proof. intros H. exists (viaText v). split; [now apply encodeVia_ok | now apply decodeVia_text]. Qed.

(** An IPv6 address without a port gets the port 0 instead of 5060, and
    when a blank, or anything else but a colon, follows its bracket, the parser
    reads beyond an array. *)
Theorem bracketed_host_without_port h v :
  noneOf [93; 32] h = true -> zlen h + 2 < npos ->
  parseHost (91 :: h ++ [93]) v = Ret (setPort 0 (setHost (91 :: h ++ [93]) v)) /\
  forall c r, c <> 58 -> zlen (91 :: h ++ 93 :: c :: r) < npos ->
    parseHost (91 :: h ++ 93 :: c :: r) v = Fault OutOfBounds.
Proof.
  intros Hh Hl. assert (noneOf [93] (91 :: h) = true) as H93.
  { rewrite noneOf_cons. now rewrite (noneOf_one 93 [93; 32] h Hh eq_refl). }
  assert (noneOf [32] ((91 :: h) ++ [93]) = true) as H32.
  { rewrite noneOf_app, noneOf_cons. now rewrite (noneOf_one 32 [93; 32] h Hh eq_refl). }
  split.
  - rewrite app_comm_cons in *. unfold parseHost. literals. rewrite (matchText_eq 93) by zlen_lia.
    rewrite (breakIn_first [93] (91 :: h) 93 []) by (exact H93 || reflexivity).
    rewrite nonempty_len by discriminate. cbn [mbind outcome_bind matchColon].
    change (textBefore (Some (91 :: h))) with (91 :: h).
    apply setHostPort_plain; [exact H32 | zlen_lia | reflexivity].
  - intros c r Hc Hr. rewrite app_comm_cons in *. unfold parseHost. literals. rewrite (matchText_eq 93 true _ Hr).
    rewrite (breakIn_first [93] (91 :: h) 93) by (exact H93 || reflexivity).
    rewrite nonempty_len by discriminate. cbn [mbind outcome_bind matchColon].
    destruct (Z.eqb_spec c 58); [congruence | reflexivity].
Qed.

End Via.

(** [operator<] is true when any field is less, so that of two headers each can
    be less than the other. *)
Lemma viaLt_both : exists a b, viaLt a b = true /\ viaLt b a = true.
Proof.
  exists (setHost (str "a") (setPort 5 defaultVia)), (setHost (str "b") (setPort 4 defaultVia)).
  split; reflexivity.
Qed.

(** * Samples *)

Definition sampleVia : Via :=
  mkVia (str "[fe80::1]") (str "5070") (str "SIP") (str "2.0") (str "UDP") (str "10.0.0.1") (str "z9hG4bK7")
    (str "a comment") (str "5") [] [] (str "224.2.0.1") true true true true true true true (str "40000").

Lemma via_roundtrip_witness :
  exists text, encodeVia sampleVia = Ret (str "Via: " ++ text ++ [13; 10]) /\
    (zlen text < npos -> decodeVia true (fun _ => false) text = Ret (Parsed sampleVia)).
Proof. apply (via_roundtrip true (fun _ => false) sampleVia). vm_compute. reflexivity. Defined.

Lemma via_parser_returns_witness :
  returns (decodeVia false (fun _ => false) (str "SIP/2.0/UDP h;;x")) \/
  (decodeVia false (fun _ => false) (str "SIP/2.0/UDP h;;x") = Fault OutOfBounds /\
   noneOf [93] (str "SIP/2.0/UDP h;;x") = false).
Proof. apply (via_parser_returns false (fun _ => false) (str "SIP/2.0/UDP h;;x")). reflexivity. Defined.

Lemma bracketed_host_without_port_witness :
  parseHost (91 :: str "::1" ++ [93]) defaultVia = Ret (setPort 0 (setHost (91 :: str "::1" ++ [93]) defaultVia)) /\
  forall c r, c <> 58 -> zlen (91 :: str "::1" ++ 93 :: c :: r) < npos ->
    parseHost (91 :: str "::1" ++ 93 :: c :: r) defaultVia = Fault OutOfBounds.
Proof. apply (bracketed_host_without_port (str "::1") defaultVia); reflexivity. Defined.

End SipViaProps.
