(* ===== verification/SipRaw.v ===== *)
(** Raw headers and their container (sip/sipstack: SipHeader.cxx,
    SipRawHeader.cxx, SipRawHeaderContainer.cxx).

    A message keeps, for each type of header, the linked list of the headers of
    that type; a header is kept as text and parsed when somebody asks for it.
    The list from a [Sptr<SipRawHeader>] on is a [chain], the null pointer the
    empty one; the container is the vector of 56 chains.  A chain is reached
    through one pointer only: every copy of it is deep.

    Strings are kept as their text (SipText.v).  The classes derived from SipHeader, one per
    type, are reached through virtual functions: they are the class
    [SipHeaderClass].  What [shallowEquals] writes to the mutable [header] is
    part of its result. *)
From S2P Require Import Prelude DataStr DataStrFacts DataStrText SipHeap SipText.
Import DataStr SipHeap SipText.

Module SipRaw.

(** * Header types *)

Inductive SipHeaderType : Set :=
  | SIP_ACCEPT_HDR | SIP_ACCEPT_ENCODING_HDR | SIP_ACCEPT_LANGUAGE_HDR | SIP_ALLOW_HDR | SIP_ALSO_HDR
  | SIP_AUTHORIZATION_HDR | SIP_CALLID_HDR | SIP_CALL_LEG_HDR | SIP_CONTACT_HDR | SIP_CONTENT_DATA_HDR
  | SIP_CONTENT_DISPOSITION_HDR | SIP_CONTENT_ENCODING_HDR | SIP_CONTENT_LANGUAGE_HDR
  | SIP_CONTENT_LENGTH_HDR | SIP_CONTENT_TYPE_HDR | SIP_CSEQ_HDR | SIP_DATE_HDR | SIP_DIVERSION_HDR
  | SIP_ENCRYPTION_HDR | SIP_EXPIRES_HDR | SIP_EVENT_HDR | SIP_FROM_HDR | SIP_HIDE_HDR
  | SIP_IN_REPLY_TO_HDR | SIP_MAX_FORWARDS_HDR | SIP_MIME_VERSION_HDR | SIP_ORGANIZATION_HDR
  | SIP_OSP_AUTHORIZATION_HDR | SIP_PRIORITY_HDR | SIP_PROXY_AUTHENTICATE_HDR
  | SIP_PROXY_AUTHORIZATION_HDR | SIP_PROXY_REQUIRE_HDR | SIP_RECORD_ROUTE_HDR | SIP_REFERRED_BY_HDR
  | SIP_REFER_TO_HDR | SIP_REPLACES_HDR | SIP_REQUIRE_HDR | SIP_RESPONSE_KEY_HDR | SIP_RETRY_AFTER_HDR
  | SIP_ROUTE_HDR | SIP_SERVER_HDR | SIP_SESSION_HDR | SIP_SUBJECT_HDR | SIP_SUBSCRIPTION_NOTIFY_HDR
  | SIP_SUPPORTED_HDR | SIP_TIMESTAMP_HDR | SIP_TO_HDR | SIP_TRANSFER_TO_HDR | SIP_UNSUPPORTED_HDR
  | SIP_USER_AGENT_HDR | SIP_VIA_HDR | SIP_WARNING_HDR | SIP_WWW_AUTHENTICATE_HDR
  | SIP_SESSION_EXPIRES_HDR | SIP_MIN_SE_HDR | SIP_UNKNOWN_HDR.

#[export] Instance SipHeaderType_eq_dec : EqDecision SipHeaderType.
Proof. solve_decision. Defined.

(** The value of an enumerator. *)
Definition typeIndex (t : SipHeaderType) : Z :=
  match t with
  | SIP_ACCEPT_HDR => 0 | SIP_ACCEPT_ENCODING_HDR => 1 | SIP_ACCEPT_LANGUAGE_HDR => 2
  | SIP_ALLOW_HDR => 3 | SIP_ALSO_HDR => 4 | SIP_AUTHORIZATION_HDR => 5 | SIP_CALLID_HDR => 6
  | SIP_CALL_LEG_HDR => 7 | SIP_CONTACT_HDR => 8 | SIP_CONTENT_DATA_HDR => 9
  | SIP_CONTENT_DISPOSITION_HDR => 10 | SIP_CONTENT_ENCODING_HDR => 11 | SIP_CONTENT_LANGUAGE_HDR => 12
  | SIP_CONTENT_LENGTH_HDR => 13 | SIP_CONTENT_TYPE_HDR => 14 | SIP_CSEQ_HDR => 15 | SIP_DATE_HDR => 16
  | SIP_DIVERSION_HDR => 17 | SIP_ENCRYPTION_HDR => 18 | SIP_EXPIRES_HDR => 19 | SIP_EVENT_HDR => 20
  | SIP_FROM_HDR => 21 | SIP_HIDE_HDR => 22 | SIP_IN_REPLY_TO_HDR => 23 | SIP_MAX_FORWARDS_HDR => 24
  | SIP_MIME_VERSION_HDR => 25 | SIP_ORGANIZATION_HDR => 26 | SIP_OSP_AUTHORIZATION_HDR => 27
  | SIP_PRIORITY_HDR => 28 | SIP_PROXY_AUTHENTICATE_HDR => 29 | SIP_PROXY_AUTHORIZATION_HDR => 30
  | SIP_PROXY_REQUIRE_HDR => 31 | SIP_RECORD_ROUTE_HDR => 32 | SIP_REFERRED_BY_HDR => 33
  | SIP_REFER_TO_HDR => 34 | SIP_REPLACES_HDR => 35 | SIP_REQUIRE_HDR => 36 | SIP_RESPONSE_KEY_HDR => 37
  | SIP_RETRY_AFTER_HDR => 38 | SIP_ROUTE_HDR => 39 | SIP_SERVER_HDR => 40 | SIP_SESSION_HDR => 41
  | SIP_SUBJECT_HDR => 42 | SIP_SUBSCRIPTION_NOTIFY_HDR => 43 | SIP_SUPPORTED_HDR => 44
  | SIP_TIMESTAMP_HDR => 45 | SIP_TO_HDR => 46 | SIP_TRANSFER_TO_HDR => 47 | SIP_UNSUPPORTED_HDR => 48
  | SIP_USER_AGENT_HDR => 49 | SIP_VIA_HDR => 50 | SIP_WARNING_HDR => 51
  | SIP_WWW_AUTHENTICATE_HDR => 52 | SIP_SESSION_EXPIRES_HDR => 53 | SIP_MIN_SE_HDR => 54
  | SIP_UNKNOWN_HDR => 55
  end.

Definition sipHeaderNameCount : Z := typeIndex SIP_UNKNOWN_HDR + 1.

Record SipHeaderTableEntry := mkEntry {
  entryType : SipHeaderType;
  lowerName : bytes;
  upperName : bytes;
  shortName : bytes
}.

Definition sipHeaderTable : list SipHeaderTableEntry := [
  mkEntry SIP_ACCEPT_HDR (str "accept") (str "Accept") (str "");
  mkEntry SIP_ACCEPT_ENCODING_HDR (str "accept-encoding") (str "Accept-Encoding") (str "");
  mkEntry SIP_ACCEPT_LANGUAGE_HDR (str "accept-language") (str "Accept-Language") (str "");
  mkEntry SIP_ALLOW_HDR (str "allow") (str "Allow") (str "");
  mkEntry SIP_ALSO_HDR (str "also") (str "Also") (str "");
  mkEntry SIP_AUTHORIZATION_HDR (str "authorization") (str "Authorization") (str "");
  mkEntry SIP_CALLID_HDR (str "call-id") (str "Call-ID") (str "i");
  mkEntry SIP_CALL_LEG_HDR (str "call-leg") (str "Call-Leg") (str "");
  mkEntry SIP_CONTACT_HDR (str "contact") (str "Contact") (str "m");
  mkEntry SIP_CONTENT_DATA_HDR (str "content-data") (str "Content-Data") (str "");
  mkEntry SIP_CONTENT_DISPOSITION_HDR (str "content-disposition") (str "Content-Disposition") (str "");
  mkEntry SIP_CONTENT_ENCODING_HDR (str "content-encoding") (str "Content-Encoding") (str "e");
  mkEntry SIP_CONTENT_LANGUAGE_HDR (str "content-language") (str "Content-Language") (str "");
  mkEntry SIP_CONTENT_LENGTH_HDR (str "content-length") (str "Content-Length") (str "l");
  mkEntry SIP_CONTENT_TYPE_HDR (str "content-type") (str "Content-Type") (str "c");
  mkEntry SIP_CSEQ_HDR (str "cseq") (str "CSeq") (str "");
  mkEntry SIP_DATE_HDR (str "date") (str "Date") (str "");
  mkEntry SIP_DIVERSION_HDR (str "diversion") (str "Diversion") (str "");
  mkEntry SIP_ENCRYPTION_HDR (str "encryption") (str "Encryption") (str "");
  mkEntry SIP_EXPIRES_HDR (str "expires") (str "Expires") (str "");
  mkEntry SIP_EVENT_HDR (str "event") (str "Event") (str "");
  mkEntry SIP_FROM_HDR (str "from") (str "From") (str "f");
  mkEntry SIP_HIDE_HDR (str "hide") (str "Hide") (str "");
  mkEntry SIP_IN_REPLY_TO_HDR (str "in-reply-to") (str "In-Reply-To") (str "");
  mkEntry SIP_MAX_FORWARDS_HDR (str "max-forwards") (str "Max-Forwards") (str "");
  mkEntry SIP_MIME_VERSION_HDR (str "mime-version") (str "Mime-Version") (str "");
  mkEntry SIP_ORGANIZATION_HDR (str "organization") (str "Organization") (str "");
  mkEntry SIP_OSP_AUTHORIZATION_HDR (str "osp-authorization-token") (str "OSP-Authorization-Token") (str "");
  mkEntry SIP_PRIORITY_HDR (str "priority") (str "Priority") (str "");
  mkEntry SIP_PROXY_AUTHENTICATE_HDR (str "proxy-authenticate") (str "Proxy-Authenticate") (str "");
  mkEntry SIP_PROXY_AUTHORIZATION_HDR (str "proxy-authorization") (str "Proxy-Authorization") (str "");
  mkEntry SIP_PROXY_REQUIRE_HDR (str "proxy-require") (str "Proxy-Require") (str "");
  mkEntry SIP_RECORD_ROUTE_HDR (str "record-route") (str "Record-Route") (str "");
  mkEntry SIP_REFERRED_BY_HDR (str "referred-by") (str "Referred-By") (str "b");
  mkEntry SIP_REFER_TO_HDR (str "refer-to") (str "Refer-To") (str "r");
  mkEntry SIP_REPLACES_HDR (str "replaces") (str "Replaces") (str "");
  mkEntry SIP_REQUIRE_HDR (str "require") (str "Require") (str "");
  mkEntry SIP_RESPONSE_KEY_HDR (str "response-key") (str "Response-Key") (str "");
  mkEntry SIP_RETRY_AFTER_HDR (str "retry-after") (str "Retry-After") (str "");
  mkEntry SIP_ROUTE_HDR (str "route") (str "Route") (str "");
  mkEntry SIP_SERVER_HDR (str "server") (str "Server") (str "");
  mkEntry SIP_SESSION_HDR (str "session") (str "Session") (str "");
  mkEntry SIP_SUBJECT_HDR (str "subject") (str "Subject") (str "s");
  mkEntry SIP_SUBSCRIPTION_NOTIFY_HDR (str "subscription-notify") (str "Subscription-Notify") (str "");
  mkEntry SIP_SUPPORTED_HDR (str "supported") (str "Supported") (str "k");
  mkEntry SIP_TIMESTAMP_HDR (str "timestamp") (str "Timestamp") (str "");
  mkEntry SIP_TO_HDR (str "to") (str "To") (str "t");
  mkEntry SIP_TRANSFER_TO_HDR (str "transfer-to") (str "Transfer-To") (str "");
  mkEntry SIP_UNSUPPORTED_HDR (str "unsupported") (str "Unsupported") (str "");
  mkEntry SIP_USER_AGENT_HDR (str "user-agent") (str "User-Agent") (str "");
  mkEntry SIP_VIA_HDR (str "via") (str "Via") (str "v");
  mkEntry SIP_WARNING_HDR (str "warning") (str "Warning") (str "");
  mkEntry SIP_WWW_AUTHENTICATE_HDR (str "www-authenticate") (str "WWW-Authenticate") (str "");
  mkEntry SIP_SESSION_EXPIRES_HDR (str "session-expires") (str "Session-Expires") (str "x");
  mkEntry SIP_MIN_SE_HDR (str "min-se") (str "Min-SE") (str "");
  mkEntry SIP_UNKNOWN_HDR (str "") (str "") (str "")
].

(** [headerTypeDecode]: the first entry of the table with this name. *)
Definition headerTypeDecode (headerName : bytes) : SipHeaderType :=
  match List.find (fun e => textEq headerName (lowerName e) || textEq headerName (shortName e)) sipHeaderTable with
  | Some e => entryType e
  | None => SIP_UNKNOWN_HDR
  end.

Definition headerTypeEncode (type : SipHeaderType) : bytes :=
  match sipHeaderTable !! Z.to_nat (typeIndex type) with Some e => upperName e | None => [] end.

Definition sipHeaderOutputOrder : list SipHeaderType := [
  SIP_VIA_HDR; SIP_TO_HDR; SIP_FROM_HDR; SIP_DATE_HDR; SIP_TRANSFER_TO_HDR; SIP_CALLID_HDR;
  SIP_CSEQ_HDR; SIP_PRIORITY_HDR; SIP_PROXY_AUTHORIZATION_HDR; SIP_OSP_AUTHORIZATION_HDR;
  SIP_MAX_FORWARDS_HDR; SIP_ORGANIZATION_HDR; SIP_SUBJECT_HDR; SIP_HIDE_HDR; SIP_EXPIRES_HDR;
  SIP_RESPONSE_KEY_HDR; SIP_REFER_TO_HDR; SIP_REFERRED_BY_HDR; SIP_REPLACES_HDR; SIP_SERVER_HDR;
  SIP_ROUTE_HDR; SIP_REQUIRE_HDR; SIP_RECORD_ROUTE_HDR; SIP_CONTACT_HDR; SIP_ACCEPT_HDR;
  SIP_ACCEPT_ENCODING_HDR; SIP_ACCEPT_LANGUAGE_HDR; SIP_ALLOW_HDR; SIP_ALSO_HDR; SIP_AUTHORIZATION_HDR;
  SIP_CALL_LEG_HDR; SIP_CONTENT_DATA_HDR; SIP_CONTENT_DISPOSITION_HDR; SIP_CONTENT_ENCODING_HDR;
  SIP_CONTENT_LANGUAGE_HDR; SIP_DIVERSION_HDR; SIP_ENCRYPTION_HDR; SIP_IN_REPLY_TO_HDR;
  SIP_MIME_VERSION_HDR; SIP_PROXY_AUTHENTICATE_HDR; SIP_PROXY_REQUIRE_HDR; SIP_RETRY_AFTER_HDR;
  SIP_SESSION_HDR; SIP_SUBSCRIPTION_NOTIFY_HDR; SIP_SUPPORTED_HDR; SIP_TIMESTAMP_HDR;
  SIP_UNSUPPORTED_HDR; SIP_USER_AGENT_HDR; SIP_WARNING_HDR; SIP_WWW_AUTHENTICATE_HDR; SIP_EVENT_HDR;
  SIP_SESSION_EXPIRES_HDR; SIP_MIN_SE_HDR; SIP_CONTENT_TYPE_HDR; SIP_CONTENT_LENGTH_HDR; SIP_UNKNOWN_HDR
].

(** The virtual functions of SipHeader and the constructors of its classes. *)
Class SipHeaderClass := {
  SipHeader : Type;
  construct : SipHeaderType -> bytes -> bytes -> outcome SipHeader;
  newCallLeg : bytes -> SipHeader;
  encodeHeader : SipHeader -> bytes;
  duplicateHeader : SipHeader -> SipHeader;
  compareSipHeader : SipHeader -> option SipHeader -> outcome bool
}.

(** * One raw header *)

Module Raw.
Section Raw.
Context {SH : SipHeaderClass}.

Record SipRawHeader := mkRaw {
  headerName : bytes;
  headerNameOriginal : bytes;
  headerValue : bytes;
  headerType : SipHeaderType;
  header : option SipHeader;
  local_ip : bytes
}.

Abbreviation chain := (list SipRawHeader).

Definition newRaw (ip : bytes) : SipRawHeader := mkRaw [] [] [] SIP_UNKNOWN_HDR None ip.

Definition setValue (v : bytes) (h : SipRawHeader) : SipRawHeader :=
  mkRaw (headerName h) (headerNameOriginal h) v (headerType h) (header h) (local_ip h).
Definition setHeader (p : option SipHeader) (h : SipRawHeader) : SipRawHeader :=
  mkRaw (headerName h) (headerNameOriginal h) (headerValue h) (headerType h) p (local_ip h).
Definition setType (t : SipHeaderType) (h : SipRawHeader) : SipRawHeader :=
  mkRaw (headerName h) (headerNameOriginal h) (headerValue h) t (header h) (local_ip h).

(** [SipHeader::decodeHeader] *)
Definition decodeHeader (type : SipHeaderType) (value ip : bytes) : outcome (option SipHeader) :=
  match type with
  | SIP_CALL_LEG_HDR => if textEq value [] then mret (Some (newCallLeg ip)) else Fault AssertFailed
  | SIP_CONTENT_DATA_HDR | SIP_UNKNOWN_HDR => mret None
  | _ => h ← construct type value ip; mret (Some h)
  end.

Definition parse (h : SipRawHeader) : outcome SipRawHeader :=
  match header h with
  | Some _ => mret h
  | None => p ← decodeHeader (headerType h) (headerValue h) (local_ip h); mret (setHeader p h)
  end.

Definition parseDeep (c : chain) : outcome chain := mapM parse c.

(** ** Comparison *)

(** The result and both headers, which the comparison may parse. *)
Definition shallowEquals (h src : SipRawHeader) : outcome (bool * SipRawHeader * SipRawHeader) :=
  match header src, header h with
  | None, None =>
      mret (bool_decide (headerType h = headerType src) && textEq (headerValue h) (headerValue src) &&
        (negb (bool_decide (headerType h = SIP_UNKNOWN_HDR)) || textEq (headerName src) (headerName h)), h, src)
  | _, _ =>
      src ← parse src;
      h ← parse h;
      p ← deref (header h);
      same ← compareSipHeader p (header src);
      mret (same, h, src)
  end.

Definition shallowEqualsNul (h : SipRawHeader) : bool :=
  match header h with
  | None => false
  | Some p =>
      match headerType h with
      | SIP_CONTENT_TYPE_HDR | SIP_CONTENT_LENGTH_HDR | SIP_CONTENT_DISPOSITION_HDR
      | SIP_CONTENT_ENCODING_HDR | SIP_CONTENT_LANGUAGE_HDR | SIP_MAX_FORWARDS_HDR => true
      | _ => textEq (encodeHeader p) []
      end
  end.

(** The loop of [operator==] over the rest of both chains. *)
Fixpoint equalsFrom (compare : bool) (left right : chain) : outcome (bool * chain * chain) :=
  match compare, left, right with
  | true, l :: left', r :: right' =>
      '(compare, l, r) ← shallowEquals l r;
      '(compare, left', right') ← equalsFrom compare left' right';
      mret (compare, l :: left', r :: right')
  | _, _, _ => mret (compare && match left, right with [], [] => true | _, _ => false end, left, right)
  end.

(** [operator==] of two headers, with the headers that follow them. *)
Definition equals (this : SipRawHeader) (next : chain) (src : SipRawHeader) (srcNext : chain)
  : outcome (bool * chain * chain) :=
  '(compare, this, src) ← shallowEquals this src;
  '(compare, next, srcNext) ← equalsFrom compare next srcNext;
  mret (compare, this :: next, src :: srcNext).

(** ** Printing *)

Definition encodeShallowPutsName (h : SipRawHeader) (msg : bytes) : bytes :=
  match header h with
  | Some p => msg ++ encodeHeader p
  | None =>
      msg ++ (if bool_decide (headerType h <> SIP_UNKNOWN_HDR) then headerTypeEncode (headerType h)
              else headerNameOriginal h) ++ str ": " ++ headerValue h ++ [13; 10]
  end.

Definition encodeShallowNoName (h : SipRawHeader) (msg : bytes) (comma : bool) : bytes :=
  match header h with
  | Some p => msg ++ (if comma then str "," else []) ++ encodeHeader p
  | None =>
      if zlen (headerValue h) =? 0 then msg else msg ++ (if comma then str "," else []) ++ headerValue h
  end.

(** The types whose headers are printed on one line. *)
Definition listType (type : SipHeaderType) : bool :=
  match type with
  | SIP_ACCEPT_HDR | SIP_ACCEPT_ENCODING_HDR | SIP_ACCEPT_LANGUAGE_HDR | SIP_CONTENT_ENCODING_HDR
  | SIP_RECORD_ROUTE_HDR | SIP_SUPPORTED_HDR | SIP_CONTENT_LANGUAGE_HDR | SIP_ALLOW_HDR
  | SIP_PROXY_REQUIRE_HDR | SIP_REQUIRE_HDR | SIP_ROUTE_HDR => true
  | _ => false
  end.

Definition encode (h : SipRawHeader) (next : chain) (msg : bytes) : bytes :=
  if listType (headerType h) then
    fold_left (fun m x => encodeShallowNoName x m true) next
      (encodeShallowNoName h (msg ++ headerTypeEncode (headerType h) ++ str ": ") false) ++ [13; 10]
  else fold_left (fun m x => encodeShallowPutsName x m) next (encodeShallowPutsName h msg).

(** ** Reading *)

(** The types of which a line may hold several, separated by commas. *)
Definition multiType (type : SipHeaderType) : bool :=
  match type with
  | SIP_VIA_HDR | SIP_DIVERSION_HDR | SIP_ACCEPT_HDR | SIP_ACCEPT_ENCODING_HDR | SIP_ACCEPT_LANGUAGE_HDR
  | SIP_RECORD_ROUTE_HDR | SIP_SUPPORTED_HDR | SIP_CONTENT_LANGUAGE_HDR | SIP_ALLOW_HDR
  | SIP_CONTENT_ENCODING_HDR | SIP_PROXY_REQUIRE_HDR | SIP_REQUIRE_HDR | SIP_ROUTE_HDR
  | SIP_UNSUPPORTED_HDR | SIP_IN_REPLY_TO_HDR | SIP_WARNING_HDR | SIP_CONTACT_HDR => true
  | _ => false
  end.

(** The header that follows [h] after a comma. *)
Definition sibling (h : SipRawHeader) (v : bytes) : SipRawHeader :=
  mkRaw (headerName h) (headerNameOriginal h) v (headerType h) None (local_ip h).

(** The loop that splits the value of [current]: the headers it leaves. *)
Fixpoint splitMany (fuel : nat) (current : SipRawHeader) : outcome chain :=
  match fuel with
  | O => Fault OutOfFuel
  | S fuel' =>
      '(found, notFound, tmp) ← parseOutsideQuotesText (str ",") true true (headerValue current);
      if notFound : bool then mret [current]
      else if negb (textEq found []) then
        v ← removeSpacesText tmp;
        rest ← splitMany fuel' (sibling current v);
        mret (setValue found current :: rest)
      else splitMany fuel' (setValue tmp current)
  end.

(** [decode]: whether it failed, and the header with those that follow it. *)
Definition decode (headerData : bytes) (this : SipRawHeader) (next : chain) : outcome (bool * chain) :=
  '(name, noMatch, value) ← parseText [58; 32; 9] headerData;
  lower ← lowercaseText name;
  let type := headerTypeDecode lower in
  let this := mkRaw lower name value type (header this) (local_ip this) in
  if multiType type then
    many ← splitMany (S (length value)) this;
    mret (noMatch, match many with [one] => one :: next | _ => many end)
  else mret (noMatch, this :: next).

(** ** Copying *)

Definition duplicateOne (h : SipRawHeader) : SipRawHeader := setHeader (duplicateHeader <$> header h) h.

Definition duplicate (c : chain) : chain := map duplicateOne c.

End Raw.

Abbreviation chain := (list SipRawHeader).

End Raw.
Import Raw.

(** * The container *)

Module Container.
Section Container.
Context {SH : SipHeaderClass}.

Abbreviation container := (list chain).

Definition newContainer : container := replicate (Z.to_nat sipHeaderNameCount) [].

(** [operator[](type)] and the assignment to it. *)
Definition at_ (c : container) (type : SipHeaderType) : outcome chain := rd c (typeIndex type).
Definition set_ (type : SipHeaderType) (x : chain) (c : container) : outcome container := wr c (typeIndex type) x.

(** One turn of the copying loops: a null pointer of the source is skipped. *)
Fixpoint copyOver (src dst : container) : outcome container :=
  match src, dst with
  | [], _ => mret dst
  | _ :: _, [] => Fault OutOfBounds
  | s :: src', d :: dst' =>
      rest ← copyOver src' dst'; mret ((match s with [] => d | _ :: _ => duplicate s end) :: rest)
  end.

(** The copy constructor. *)
Definition copyContainer (src : container) : outcome container := copyOver src newContainer.

(** [operator=] from another container. *)
Definition assign (src this : container) : outcome container := copyOver src this.

(** One place of [operator==]: the chain of the source and that of [this]. *)
Definition equalsAt (i j : chain) : outcome (bool * chain * chain) :=
  match i, j with
  | i0 :: it, j0 :: jt => '(b, j, i) ← equals j0 jt i0 it; mret (b, i, j)
  | i0 :: _, [] => mret (shallowEqualsNul i0, i, j)
  | [], j0 :: _ => mret (shallowEqualsNul j0, i, j)
  | [], [] => mret (true, i, j)
  end.

(** [operator==] with another container: the answer, the source and [this]. *)
Fixpoint equalsContainer (src this : container) : outcome (bool * container * container) :=
  match src, this with
  | [], _ => mret (true, src, this)
  | _ :: _, [] => Fault OutOfBounds
  | i :: src', j :: this' =>
      '(tmp, i, j) ← equalsAt i j;
      '(compare, src', this') ← equalsContainer src' this';
      mret (tmp && compare, i :: src', j :: this')
  end.

Definition insertManyHeader (h : SipRawHeader) (next : chain) (c : container) : outcome container :=
  x ← at_ c (headerType h); set_ (headerType h) (x ++ h :: next) c.

(** The walk of [insertHeader] from a place of the chain. *)
Fixpoint insertAt (h : SipRawHeader) (pos : Z) (x : chain) : outcome chain :=
  match x with
  | y :: x' =>
      if pos =? 0 then mret (h :: x)
      else x' ← insertAt h (if 0 <? pos then pos - 1 else pos) x'; mret (y :: x')
  | [] => if (pos =? 0) || (pos =? -1) then mret [h] else Fault AssertFailed
  end.

Definition insertHeader (h : SipRawHeader) (pos : Z) (c : container) : outcome container :=
  x ← at_ c (headerType h); x ← insertAt h pos x; set_ (headerType h) x c.

Fixpoint walkTo (p : chain) (index : Z) : outcome chain :=
  if index =? 0 then mret p
  else match p with [] => Fault AssertFailed | _ :: p' => walkTo p' (index - 1) end.

(** [getHeader]: the chain from the header on. *)
Definition getHeader (type : SipHeaderType) (index : Z) (c : container) : outcome chain :=
  p ← at_ c type; walkTo p index.

Definition replaceHeader (type : SipHeaderType) (x : chain) (c : container) : outcome container := set_ type x c.

Definition emptyHeader (type : SipHeaderType) (ip : bytes) : SipRawHeader := setType type (newRaw ip).

(** The loop of [getHeaderOrCreate] for an index that is not negative. *)
Fixpoint createTo (type : SipHeaderType) (ip : bytes) (index : nat) (p : chain) : chain :=
  match index, p with
  | O, [] => [emptyHeader type ip]
  | O, _ => p
  | S i, [] => emptyHeader type ip :: createTo type ip i []
  | S i, h :: p' => h :: createTo type ip i p'
  end.

(** [getHeaderOrCreate]: the container and where in its chain the header is. *)
Definition getHeaderOrCreate (type : SipHeaderType) (ip : bytes) (index : Z) (c : container)
  : outcome (container * nat) :=
  p ← at_ c type;
  if 0 <=? index then
    c ← set_ type (createTo type ip (Z.to_nat index) p) c; mret (c, Z.to_nat index)
  else
    let p := match p with [] => [emptyHeader type ip] | _ => p end in
    c ← set_ type p c; mret (c, (length p - 1)%nat).

(** [getParsedHeader]: the container and the parsed header. *)
Definition getParsedHeader (type : SipHeaderType) (ip : bytes) (index : Z) (c : container)
  : outcome (container * option SipHeader) :=
  '(c, i) ← getHeaderOrCreate type ip index c;
  p ← at_ c type;
  h ← deref (p !! i);
  h ← parse h;
  c ← set_ type (<[i := h]> p) c;
  mret (c, header h).

(** The loop of [decode]: whether it failed, the container and the text left. *)
Fixpoint decodeLoop (fuel : nat) (ip : bytes) (headers : bytes) (c : container) : outcome (bool * container * bytes) :=
  match fuel with
  | O => Fault OutOfFuel
  | S fuel' =>
      '(oneLine, noMatch, headers) ← getLineText headers;
      if noMatch : bool then mret (false, c, headers)
      else if textEq oneLine [] then mret (false, c, headers)
      else
        '(error, oneHeader) ← Raw.decode oneLine (newRaw ip) [];
        if error : bool then mret (true, c, headers)
        else
          match oneHeader with
          | h :: next => c ← insertManyHeader h next c; decodeLoop fuel' ip headers c
          | [] => Fault NullDeref
          end
  end.

Definition decode (ip : bytes) (headers : bytes) (c : container) : outcome (bool * container * bytes) :=
  decodeLoop (S (length headers)) ip headers c.

(** The loop of [encode] over the types, in the order of the table. *)
Fixpoint encodeTypes (types : list SipHeaderType) (c : container) (msg : bytes) : outcome bytes :=
  match types with
  | [] => mret msg
  | t :: types' =>
      x ← at_ c t;
      encodeTypes types' c match x with [] => msg | h :: next => Raw.encode h next msg end
  end.

Definition encode (c : container) (msg : bytes) : outcome bytes := encodeTypes sipHeaderOutputOrder c msg.

Fixpoint mask (types : list SipHeaderType) (c : container) : outcome container :=
  match types with
  | [] => mret c
  | t :: types' => c ← set_ t [] c; mask types' c
  end.

Definition getNumHeaders (type : SipHeaderType) (c : container) : outcome Z := x ← at_ c type; mret (zlen x).

(** The walk of [removeHeader] for an index other than -1. *)
Fixpoint removeAt (index : Z) (p : chain) : outcome chain :=
  match p with
  | [] => if index =? 0 then mret [] else Fault AssertFailed
  | h :: p' => if index =? 0 then mret p' else p' ← removeAt (index - 1) p'; mret (h :: p')
  end.

Fixpoint removeLast (p : chain) : chain :=
  match p with
  | [] | [_] => []
  | h :: p' => h :: removeLast p'
  end.

Definition removeHeader (type : SipHeaderType) (index : Z) (c : container) : outcome container :=
  p ← at_ c type;
  p ← (if index =? -1 then mret (removeLast p) else removeAt index p);
  set_ type p c.

Definition setNumHeaders (type : SipHeaderType) (number : Z) (c : container) : outcome container :=
  _ ← cassert (0 <=? number);
  p ← at_ c type; set_ type (take (Z.to_nat number) p) c.

Definition appendHeader (type : SipHeaderType) (p : SipHeader) (ip : bytes) (pos : Z) (c : container)
  : outcome container :=
  insertHeader (setType type (setHeader (Some p) (newRaw ip))) pos c.

Definition forceParse (c : container) : outcome container := mapM parseDeep c.

End Container.

Abbreviation container := (list chain).

End Container.

End SipRaw.
