(* ===== verification/SipRawFacts.v ===== *)
(** Lemmas on raw headers and their container: the chains of a container as a function of the type, reading one
    header line, and the relation that says what a reader of headers does. *)
From S2P Require Import Prelude DataStr DataStrFacts DataStrText SipHeap SipText SipRaw.
Import DataStr DataStrFacts DataStrText SipHeap SipText SipRaw Raw Container.

Module SipRawFacts.

(** * Types *)

Lemma typeIndex_range t : 0 <= typeIndex t < sipHeaderNameCount.
Proof. destruct t; vm_compute; split; congruence. Qed.

Lemma sipHeaderTable_typeIndex t :
  exists e, sipHeaderTable !! Z.to_nat (typeIndex t) = Some e /\ entryType e = t.
Proof. destruct t; (eexists; split; [reflexivity | reflexivity]). Qed.

Lemma typeIndex_inj t u : typeIndex t = typeIndex u -> t = u.
Proof.
  intros E. destruct (sipHeaderTable_typeIndex t) as (e & Ht & <-), (sipHeaderTable_typeIndex u) as (e' & Hu & <-).
  rewrite E in Ht. congruence.
Qed.

Lemma typeIndex_onto (i : nat) : (i < Z.to_nat sipHeaderNameCount)%nat -> exists t, Z.to_nat (typeIndex t) = i.
Proof.
  intros Hi. assert (is_Some (sipHeaderTable !! i)) as [e He] by now apply lookup_lt_is_Some_2.
  exists (entryType e).
  assert (forallb (fun k => match sipHeaderTable !! k with
      Some e => Z.to_nat (typeIndex (entryType e)) =? k | None => false end)%nat (seq 0 56) = true) as H
    by (vm_compute; reflexivity).
  rewrite forallb_forall in H. specialize (H i). rewrite He in H. apply Nat.eqb_eq, H, List.in_seq.
  change (Z.to_nat sipHeaderNameCount) with 56%nat in Hi. lia.
Qed.

Lemma headerTypeDecode_Encode t :
  t <> SIP_UNKNOWN_HDR -> headerTypeDecode (lowerText (headerTypeEncode t)) = t.
Proof. destruct t; intros H; try (vm_compute; reflexivity). congruence. Qed.

Lemma sipHeaderOutputOrder_all t : t ∈ sipHeaderOutputOrder.
Proof. apply list_elem_of_In. destruct t; vm_compute; tauto. Qed.

Lemma sipHeaderOutputOrder_NoDup : NoDup sipHeaderOutputOrder.
Proof. apply (bool_decide_unpack _). vm_compute. exact I. Qed.

(** What ends the name of a header: colon, space, tab. *)
Abbreviation separators := [58; 32; 9].

Section Facts.
Context {SH : SipHeaderClass}.

(** * A container as a function of the type *)

Definition wf (c : container) : Prop := length c = Z.to_nat sipHeaderNameCount.

Definition slot (c : container) (t : SipHeaderType) : chain := default [] (c !! Z.to_nat (typeIndex t)).

Definition upd (t : SipHeaderType) (x : chain) (c : container) : container := <[Z.to_nat (typeIndex t) := x]> c.

Lemma wf_lookup c t : wf c -> c !! Z.to_nat (typeIndex t) = Some (slot c t).
Proof.
  intros Hc. pose proof (typeIndex_range t). unfold slot.
  destruct (c !! Z.to_nat (typeIndex t)) as [x|] eqn:E; [reflexivity|].
  apply lookup_ge_None_1 in E. rewrite Hc in E. lia.
Qed.

Lemma at_slot c t : wf c -> at_ c t = Ret (slot c t).
Proof.
  intros Hc. pose proof (typeIndex_range t). unfold at_, rd. rewrite (wf_lookup c t Hc).
  destruct (Z.leb_spec 0 (typeIndex t)); [reflexivity | lia].
Qed.

Lemma set_upd t x c : wf c -> set_ t x c = Ret (upd t x c).
Proof.
  intros Hc. pose proof (typeIndex_range t). unfold set_, wr, zlen. rewrite Hc.
  destruct (Z.leb_spec 0 (typeIndex t)), (Z.ltb_spec (typeIndex t) (Z.of_nat (Z.to_nat sipHeaderNameCount)));
    cbn [andb]; try lia. reflexivity.
Qed.

Lemma wf_upd t x c : wf c -> wf (upd t x c).
Proof. intros Hc. unfold wf, upd. now rewrite length_insert. Qed.

Lemma wf_new : wf newContainer.
Proof. reflexivity. Qed.

Lemma slot_new t : slot newContainer t = [].
Proof. unfold slot, newContainer. destruct (decide (Z.to_nat (typeIndex t) < 56)%nat) as [H | H].
  - now rewrite lookup_replicate_2.
  - pose proof (typeIndex_range t) as Ht. change sipHeaderNameCount with 56 in Ht. lia.
Qed.

Lemma slot_upd t x c : wf c -> slot (upd t x c) t = x.
Proof.
  intros Hc. pose proof (typeIndex_range t). unfold slot, upd. rewrite list_lookup_insert_eq; [reflexivity|].
  rewrite Hc. lia.
Qed.

Lemma slot_upd_ne t u x c : t <> u -> slot (upd t x c) u = slot c u.
Proof.
  intros Hn. unfold slot, upd. rewrite list_lookup_insert_ne; [reflexivity|].
  intros E. apply Hn, typeIndex_inj. pose proof (typeIndex_range t). pose proof (typeIndex_range u). lia.
Qed.

Lemma container_ext c d : wf c -> wf d -> (forall t, slot c t = slot d t) -> c = d.
Proof.
  intros Hc Hd H. apply list_eq. intros i. destruct (decide (i < Z.to_nat sipHeaderNameCount)%nat) as [Hi | Hi].
  - destruct (typeIndex_onto i Hi) as (t & <-). now rewrite (wf_lookup c t Hc), (wf_lookup d t Hd), H.
  - rewrite !lookup_ge_None_2; [reflexivity | rewrite Hd; lia | rewrite Hc; lia].
Qed.

Lemma upd_same t x y c : upd t x (upd t y c) = upd t x c.
Proof. apply list_insert_insert_eq. Qed.

Lemma upd_slot t c : wf c -> upd t (slot c t) c = c.
Proof. intros Hc. apply list_insert_id, wf_lookup, Hc. Qed.

(** [upd] of all the headers of one line. *)
Definition add (x : chain) (c : container) : container :=
  match x with [] => c | h :: _ => upd (headerType h) (slot c (headerType h) ++ x) c end.

Lemma insertManyHeader_add h next c : wf c -> insertManyHeader h next c = Ret (add (h :: next) c).
Proof. intros Hc. unfold insertManyHeader. rewrite at_slot by exact Hc. cbn [mbind outcome_bind]. now apply set_upd. Qed.

Lemma wf_add x c : wf c -> wf (add x c).
Proof. intros Hc. destruct x; [exact Hc | now apply wf_upd]. Qed.

(** * The values of one line *)

(** The values that a line with several headers is split into.  A piece that
    is empty, or starts with NUL, is dropped with its comma; the text after a
    piece that is kept loses its blanks at both ends. *)
Inductive Splits : bytes -> list bytes -> Prop :=
| Splits_last v : breakOutside true true (str ",") (false, false) v = None -> Splits v [v]
| Splits_piece v b r vs :
    breakOutside true true (str ",") (false, false) v = Some (b, r) -> textEq b [] = false ->
    Splits (trimEnd (dropIn [32] (dropIn (str ",") r))) vs -> Splits v (b :: vs)
| Splits_empty v b r vs :
    breakOutside true true (str ",") (false, false) v = Some (b, r) -> textEq b [] = true ->
    Splits (dropIn (str ",") r) vs -> Splits v vs.

(** The header with the values of its line: itself and those after it. *)
Definition spread (this : SipRawHeader) (vs : list bytes) : chain :=
  match vs with [] => [] | v :: vs' => setValue v this :: map (sibling this) vs' end.

Lemma setValue_id h : setValue (headerValue h) h = h.
Proof. now destruct h. Qed.

Lemma spread_setValue v h vs : spread (setValue v h) vs = spread h vs.
Proof. now destruct vs. Qed.

Lemma spread_sibling v h vs : vs <> [] -> spread (sibling h v) vs = map (sibling h) vs.
Proof. destruct vs; [congruence | reflexivity]. Qed.

Lemma Splits_nonempty v vs : Splits v vs -> vs <> [].
Proof. induction 1; congruence. Qed.

Lemma dropIn_length m l : (length (dropIn m l) <= length l)%nat.
Proof. induction l as [|c l IH]; cbn [dropIn]; [lia|]. destruct (isIn c m); cbn [length]; lia. Qed.

Lemma trimEnd_length l : (length (trimEnd l) <= length l)%nat.
Proof. unfold trimEnd. rewrite length_rev. pose proof (dropIn_length [32] (rev l)). rewrite length_rev in *. lia. Qed.

Lemma breakOutside_shorter uq ua m st l b r : breakOutside uq ua m st l = Some (b, r) -> (length r < length l)%nat.
Proof. intros H. destruct (breakOutside_Some _ _ _ _ _ _ _ H) as (c & -> & _). rewrite length_app. cbn [length]. lia. Qed.

Ltac shorter := repeat match goal with
  | H : breakOutside _ _ _ _ ?l = Some (_, ?r) |- _ =>
      lazymatch goal with H' : (length r < length l)%nat |- _ => fail | _ => pose proof (breakOutside_shorter _ _ _ _ _ _ _ H) end
  | |- context [trimEnd ?l] =>
      lazymatch goal with H' : (length (trimEnd l) <= _)%nat |- _ => fail | _ => pose proof (trimEnd_length l) end
  | _ : context [trimEnd ?l] |- _ =>
      lazymatch goal with H' : (length (trimEnd l) <= _)%nat |- _ => fail | _ => pose proof (trimEnd_length l) end
  | |- context [dropIn ?m ?l] =>
      lazymatch goal with H' : (length (dropIn m l) <= _)%nat |- _ => fail | _ => pose proof (dropIn_length m l) end
  | _ : context [dropIn ?m ?l] |- _ =>
      lazymatch goal with H' : (length (dropIn m l) <= _)%nat |- _ => fail | _ => pose proof (dropIn_length m l) end
  end; lia.

Lemma Splits_exists v : exists vs, Splits v vs.
Proof.
  induction v as [v IH] using (induction_ltof1 _ (@length Z)). unfold ltof in IH.
  destruct (breakOutside true true (str ",") (false, false) v) as [[b r]|] eqn:E.
  - destruct (textEq b []) eqn:Hb.
    + destruct (IH (dropIn (str ",") r)) as (vs & H); [shorter|]. eauto using Splits_empty.
    + destruct (IH (trimEnd (dropIn [32] (dropIn (str ",") r)))) as (vs & H); [shorter|].
      eauto using Splits_piece.
  - eauto using Splits_last.
Qed.

Lemma splitMany_sound v vs : Splits v vs -> forall fuel this,
  headerValue this = v -> (length v < fuel)%nat -> splitMany fuel this = Ret (spread this vs).
Proof.
  induction 1 as [v E | v b r vs E Hb Hs IH | v b r vs E Hb Hs IH]; intros fuel this Ht Hf;
    (destruct fuel as [|fuel]; [lia|]); cbn [splitMany]; rewrite parseOutsideQuotesText_eq, Ht, E;
    cbn [mbind outcome_bind negb]; [|rewrite Hb; cbn [negb]..].
  - cbn [spread map]. now rewrite <- Ht, setValue_id.
  - rewrite removeSpacesText_eq. cbn [mbind outcome_bind]. rewrite IH by (reflexivity || shorter).
    cbn [mbind outcome_bind mret outcome_ret spread]. now rewrite spread_sibling by now apply Splits_nonempty in Hs.
  - rewrite IH by (reflexivity || shorter). now rewrite spread_setValue.
Qed.

Lemma Splits_deterministic v vs ws : Splits v vs -> Splits v ws -> vs = ws.
Proof.
  intros H. revert ws. induction H as [v E | v b r vs E Hb Hs IH | v b r vs E Hb Hs IH];
    intros ws Hw; destruct Hw as [w E' | w b' r' ws E' Hb' Hs' | w b' r' ws E' Hb' Hs']; try congruence.
  - assert (b' = b /\ r' = r) as [-> ->] by (split; congruence). f_equal. auto.
  - assert (b' = b /\ r' = r) as [-> ->] by (split; congruence). auto.
Qed.

(** * One line *)

(** The header that a line starts as, after its name [n] and separators. *)
Definition named (ip n value : bytes) : SipRawHeader :=
  mkRaw (lowerText n) n value (headerTypeDecode (lowerText n)) None ip.

(** The headers that a line holds. *)
Inductive HeaderLine (ip line : bytes) : chain -> Prop :=
| HeaderLine_one n x r :
    breakIn separators line = Some (n, x, r) -> multiType (headerTypeDecode (lowerText n)) = false ->
    HeaderLine ip line [named ip n (dropIn separators r)]
| HeaderLine_many n x r vs :
    breakIn separators line = Some (n, x, r) -> multiType (headerTypeDecode (lowerText n)) = true ->
    Splits (dropIn separators r) vs ->
    HeaderLine ip line (spread (named ip n (dropIn separators r)) vs).

Lemma HeaderLine_exists ip line n x r : breakIn separators line = Some (n, x, r) -> exists y, HeaderLine ip line y.
Proof.
  intros E. destruct (multiType (headerTypeDecode (lowerText n))) eqn:Hm.
  - destruct (Splits_exists (dropIn separators r)) as (vs & Hs). eauto using HeaderLine_many.
  - eauto using HeaderLine_one.
Qed.

Lemma HeaderLine_cons ip line y : HeaderLine ip line y -> exists h next, y = h :: next.
Proof.
  intros [n x r E Hm | n x r vs E Hm Hs]; [eauto|]. apply Splits_nonempty in Hs.
  destruct vs as [|v vs]; [congruence | cbn; eauto].
Qed.

Lemma many_or_one (h : SipRawHeader) vs :
  vs <> [] -> match spread h vs with [one] => [one] | _ => spread h vs end = spread h vs.
Proof. now destruct vs as [|v [|w vs]]. Qed.

Lemma rawDecode_line ip line y : HeaderLine ip line y -> Raw.decode line (newRaw ip) [] = Ret (false, y).
Proof.
  intros [n x r E Hm | n x r vs E Hm Hs]; unfold Raw.decode; rewrite parseText_eq, E; cbn [mbind outcome_bind];
    rewrite lowercaseText_eq; cbn [mbind outcome_bind]; rewrite Hm; [reflexivity|].
  rewrite (splitMany_sound _ _ Hs) by (reflexivity || lia). cbn [mbind outcome_bind mret outcome_ret].
  rewrite many_or_one by now apply Splits_nonempty in Hs. reflexivity.
Qed.

Lemma rawDecode_bad ip line : breakIn separators line = None -> exists y, Raw.decode line (newRaw ip) [] = Ret (true, y).
Proof.
  intros E. unfold Raw.decode. rewrite parseText_eq, E. cbn [mbind outcome_bind]. rewrite lowercaseText_eq.
  cbn [mbind outcome_bind]. destruct (multiType _); [|cbn; eauto].
  destruct (Splits_exists line) as (vs & Hs). rewrite (splitMany_sound _ _ Hs) by (reflexivity || lia). cbn; eauto.
Qed.

(** * A block of lines *)

(** Reading headers into a container: it ends at a blank line, at a line that
    has no separator after its name, which is an error, or where no line is
    left. *)
Inductive Reads (ip : bytes) : bytes -> container -> bool -> container -> bytes -> Prop :=
| Reads_end t c : breakIn [10] t = None -> Reads ip t c false c t
| Reads_blank t c b x r :
    breakIn [10] t = Some (b, x, r) -> textEq (chopCR b) [] = true -> Reads ip t c false c r
| Reads_bad t c b x r :
    breakIn [10] t = Some (b, x, r) -> textEq (chopCR b) [] = false ->
    breakIn separators (chopCR b) = None -> Reads ip t c true c r
| Reads_header t c b x r y e c' rest :
    breakIn [10] t = Some (b, x, r) -> textEq (chopCR b) [] = false -> HeaderLine ip (chopCR b) y ->
    Reads ip r (add y c) e c' rest -> Reads ip t c e c' rest.

Lemma breakIn_shorter m l b x r : breakIn m l = Some (b, x, r) -> (length r < length l)%nat.
Proof. intros H. destruct (breakIn_Some _ _ _ _ _ H) as [-> _]. rewrite length_app. cbn [length]. lia. Qed.

Lemma decodeLoop_line fuel ip t c b x r y :
  wf c -> breakIn [10] t = Some (b, x, r) -> textEq (chopCR b) [] = false -> HeaderLine ip (chopCR b) y ->
  decodeLoop (S fuel) ip t c = decodeLoop fuel ip r (add y c).
Proof.
  intros Hc E Hb Hy. cbn [decodeLoop]. rewrite getLineText_eq, E. cbn [mbind outcome_bind].
  rewrite Hb, (rawDecode_line _ _ _ Hy). cbn [mbind outcome_bind].
  destruct (HeaderLine_cons _ _ _ Hy) as (h & next & ->). now rewrite insertManyHeader_add.
Qed.

Lemma decodeLoop_Reads ip t c e c' rest :
  Reads ip t c e c' rest -> forall fuel, wf c -> (length t < fuel)%nat -> decodeLoop fuel ip t c = Ret (e, c', rest).
Proof.
  induction 1 as [t c E | t c b x r E Hb | t c b x r E Hb Hs | t c b x r y e c' rest E Hb Hy Hr IH];
    intros fuel Hc Hf; (destruct fuel as [|fuel]; [lia|]).
  4:{ rewrite (decodeLoop_line _ _ _ _ _ _ _ _ Hc E Hb Hy). apply IH; [now apply wf_add|].
      apply breakIn_shorter in E. lia. }
  all: cbn [decodeLoop]; rewrite getLineText_eq, E; cbn [mbind outcome_bind]; try rewrite Hb; try reflexivity.
  destruct (rawDecode_bad ip _ Hs) as (y & ->). reflexivity.
Qed.

Lemma Reads_exists ip t : forall c, wf c -> exists e c' rest, Reads ip t c e c' rest /\ wf c'.
Proof.
  induction t as [t IH] using (induction_ltof1 _ (@length Z)). unfold ltof in IH. intros c Hc.
  destruct (breakIn [10] t) as [[[b x] r]|] eqn:E; [|eauto 6 using Reads_end].
  destruct (textEq (chopCR b) []) eqn:Hb; [eauto 6 using Reads_blank|].
  destruct (breakIn separators (chopCR b)) as [[[n y] v]|] eqn:Hs; [|eauto 6 using Reads_bad].
  destruct (HeaderLine_exists ip _ _ _ _ Hs) as (h & Hh).
  destruct (IH r (breakIn_shorter _ _ _ _ _ E) (add h c) (wf_add h c Hc)) as (e & c' & rest & Hr & Hc').
  exists e, c', rest. eauto using Reads_header.
Qed.

End Facts.
End SipRawFacts.
