(* ===== verification/SipRawProps.v ===== *)
(** The properties of raw headers and their container: every text is read as
    the relation [Reads] says, headers that are printed are read back, a
    container is a list per type, and what assignment leaves behind. *)
From S2P Require Import Prelude DataStr DataStrFacts DataStrText SipHeap SipText SipRaw SipRawFacts.
Import DataStr DataStrFacts DataStrText SipHeap SipText SipRaw Raw Container SipRawFacts.

Module SipRawProps.

(** * Texts that can be printed and read back *)

Definition noComma (v : bytes) : bool :=
  match breakOutside true true (str ",") (false, false) v with Some _ => false | None => true end.

(** The name of a header: not empty, without separators or line breaks. *)
Definition nameText (n : bytes) : bool :=
  match n with [] => false | _ :: _ => negb (startsWith [0] n) end && noneOf (10 :: separators) n.

(** A value between commas: quotes and brackets are closed. *)
Definition itemText (v : bytes) : bool :=
  match v with [] => false | _ :: _ => negb (startsWith [0] v) end && negb (startsWith [32] (rev v)) && noComma v &&
  bool_decide (fold_left (quoteStep true true) v (false, false) = (false, false)).

Definition valueText (t : SipHeaderType) (v : bytes) : bool :=
  noneOf [10] v && negb (startsWith separators v) && implb (multiType t) (noComma v) && implb (listType t) (itemText v).

Section Props.
Context {SH : SipHeaderClass}.

(** A raw header of type [t] as [decode] makes it. *)
Record Clean (ip : bytes) (t : SipHeaderType) (h : SipRawHeader) : Prop := {
  clean_named : h = named ip (headerNameOriginal h) (headerValue h);
  clean_type : headerType h = t;
  clean_known : t <> SIP_UNKNOWN_HDR -> headerNameOriginal h = headerTypeEncode t;
  clean_name : nameText (headerNameOriginal h) = true;
  clean_value : valueText t (headerValue h) = true
}.

(** * What is printed *)

Definition joined (vs : list bytes) : bytes :=
  match vs with [] => [] | v :: vs' => v ++ mjoin (map (fun w => 44 :: w) vs') end.

Definition oneLine (n v : bytes) : bytes := n ++ str ": " ++ v.

Definition chainText (t : SipHeaderType) (x : chain) : bytes :=
  match x with
  | [] => []
  | _ :: _ =>
      if listType t then oneLine (headerTypeEncode t) (joined (map headerValue x)) ++ [13; 10]
      else mjoin (map (fun h => oneLine (headerNameOriginal h) (headerValue h) ++ [13; 10]) x)
  end.

Lemma listType_known t : listType t = true -> t <> SIP_UNKNOWN_HDR.
Proof. now intros H ->. Qed.

Lemma clean_raw ip t h : Clean ip t h -> header h = None.
Proof. intros H. rewrite (clean_named _ _ _ H). reflexivity. Qed.

Lemma clean_item ip t h : Clean ip t h -> listType t = true -> itemText (headerValue h) = true.
Proof. intros H Hl. pose proof (clean_value _ _ _ H) as Hv. unfold valueText in Hv. rewrite Hl in Hv. now apply andb_prop in Hv as [_ ?]. Qed.

Lemma encodeShallowPutsName_clean ip t h msg :
  Clean ip t h -> encodeShallowPutsName h msg = msg ++ oneLine (headerNameOriginal h) (headerValue h) ++ [13; 10].
Proof.
  intros H. unfold encodeShallowPutsName, oneLine. rewrite (clean_raw _ _ _ H).
  rewrite (clean_type _ _ _ H). case_bool_decide as Ht; [rewrite <- (clean_known _ _ _ H Ht)|];
    now rewrite <- !app_assoc.
Qed.

Lemma encodeShallowNoName_item h msg comma :
  header h = None -> headerValue h <> [] ->
  encodeShallowNoName h msg comma = msg ++ (if comma then [44] else []) ++ headerValue h.
Proof.
  intros H Hv. unfold encodeShallowNoName. rewrite H.
  destruct (headerValue h); [congruence|]. rewrite zlen_cons. pose proof (zlen_nonneg l).
  destruct (Z.eqb_spec (1 + zlen l) 0); [lia | reflexivity].
Qed.

Lemma encode_puts ip t x : forall msg, Forall (Clean ip t) x ->
  fold_left (fun m h => encodeShallowPutsName h m) x msg =
    msg ++ mjoin (map (fun h => oneLine (headerNameOriginal h) (headerValue h) ++ [13; 10]) x).
Proof.
  induction x as [|h x IH]; intros msg Hx; cbn [fold_left map mjoin list_join]; [now rewrite app_nil_r|].
  inversion_clear Hx as [|? ? Hh Hx']. rewrite (encodeShallowPutsName_clean ip t) by assumption.
  rewrite IH by assumption. now rewrite <- app_assoc.
Qed.

Lemma item_nonempty v : itemText v = true -> v <> [].
Proof. now destruct v. Qed.

Lemma encode_list ip t x : listType t = true -> forall msg, Forall (Clean ip t) x ->
  fold_left (fun m h => encodeShallowNoName h m true) x msg =
    msg ++ mjoin (map (fun w => 44 :: w) (map headerValue x)).
Proof.
  intros Hl. induction x as [|h x IH]; intros msg Hx; cbn [fold_left map mjoin list_join]; [now rewrite app_nil_r|].
  inversion_clear Hx as [|? ? Hh Hx']. rewrite encodeShallowNoName_item.
  - rewrite IH by assumption. now rewrite <- !app_assoc.
  - now apply (clean_raw ip t).
  - now apply item_nonempty, (clean_item ip t).
Qed.

Lemma encode_chain ip t h next msg :
  Forall (Clean ip t) (h :: next) -> Raw.encode h next msg = msg ++ chainText t (h :: next).
Proof.
  intros Hx. inversion_clear Hx as [|? ? Hh Hx']. unfold Raw.encode, chainText.
  rewrite (clean_type _ _ _ Hh). destruct (listType t) eqn:Hl.
  - rewrite encodeShallowNoName_item by (now apply (clean_raw ip t) || now apply item_nonempty, (clean_item ip t)).
    rewrite (encode_list ip t) by assumption. unfold oneLine. cbn [map joined app]. now rewrite <- !app_assoc.
  - rewrite (encodeShallowPutsName_clean ip t), (encode_puts ip t) by assumption.
    cbn [map mjoin list_join]. now rewrite <- !app_assoc.
Qed.

Lemma encodeTypes_text ip c types : wf c -> (forall t, Forall (Clean ip t) (slot c t)) -> forall msg,
  encodeTypes types c msg = Ret (msg ++ mjoin (map (fun t => chainText t (slot c t)) types)).
Proof.
  intros Hc Hx. induction types as [|t types IH]; intros msg; cbn [encodeTypes map mjoin list_join]; [now rewrite app_nil_r|].
  rewrite at_slot by assumption. cbn [mbind outcome_bind]. specialize (Hx t).
  destruct (slot c t) as [|h next]; rewrite IH; [reflexivity|]. rewrite (encode_chain ip t) by assumption.
  now rewrite <- app_assoc.
Qed.

(** * What is read back *)

Lemma name_no_separator n : nameText n = true -> noneOf separators n = true.
Proof. intros [_ H]%andb_prop. revert H. apply noneOf_weaken. intros c Hc. cbn [isIn existsb] in *. now rewrite Hc, orb_true_r. Qed.

Lemma name_no_lf n : nameText n = true -> noneOf [10] n = true.
Proof.
  intros [_ H]%andb_prop. revert H. apply noneOf_weaken. intros c Hc. cbn [isIn existsb] in *.
  rewrite orb_false_r in Hc. now rewrite Hc.
Qed.

(** The name ends where it should, and the value starts after the blank. *)
Lemma breakIn_oneLine n v : nameText n = true -> breakIn separators (oneLine n v) = Some (n, 58, 32 :: v).
Proof. intros Hn. apply (breakIn_first separators n 58 (32 :: v)); [now apply name_no_separator | reflexivity]. Qed.

Lemma oneLine_not_blank n v : nameText n = true -> textEq (oneLine n v) [] = false.
Proof.
  intros [H _]%andb_prop. rewrite textEq_nil. destruct n as [|c n]; [discriminate|]. cbn in *.
  rewrite orb_false_r in H. now apply negb_true_iff.
Qed.

(** Reading any line that holds headers adds them. *)
Lemma Reads_line ip line y c e c' rest r :
  noneOf [10] line = true -> textEq line [] = false -> HeaderLine ip line y -> Reads ip r (add y c) e c' rest ->
  Reads ip ((line ++ [13; 10]) ++ r) c e c' rest.
Proof.
  intros Hl Hb Hy Hr. apply (Reads_header ip _ c (line ++ [13]) 10 r y); rewrite ?chopCR_snoc; auto.
  replace ((line ++ [13; 10]) ++ r) with ((line ++ [13]) ++ 10 :: r) by now rewrite <- !app_assoc.
  apply breakIn_first; [|reflexivity]. rewrite noneOf_app, Hl. reflexivity.
Qed.

(** Reading the line that holds [n: v] adds the headers of the line. *)
Lemma Reads_oneLine ip n v y c e c' rest r :
  nameText n = true -> noneOf [10] v = true ->
  HeaderLine ip (oneLine n v) y -> Reads ip r (add y c) e c' rest ->
  Reads ip ((oneLine n v ++ [13; 10]) ++ r) c e c' rest.
Proof.
  intros Hn Hv Hy Hr. apply (Reads_line ip _ y); auto using oneLine_not_blank.
  unfold oneLine. rewrite !noneOf_app, (name_no_lf n Hn), Hv. reflexivity.
Qed.

Lemma HeaderLine_single ip t h :
  Clean ip t h -> listType t = false -> HeaderLine ip (oneLine (headerNameOriginal h) (headerValue h)) [h].
Proof.
  intros H Hl. pose proof (clean_value _ _ _ H) as Hv. unfold valueText in Hv.
  rewrite Hl in Hv. cbn [implb] in Hv. rewrite andb_true_r in Hv. apply andb_prop in Hv as [[_ Hs]%andb_prop Hm].
  apply negb_true_iff in Hs. pose proof (breakIn_oneLine _ (headerValue h) (clean_name _ _ _ H)) as Hb.
  assert (dropIn separators (32 :: headerValue h) = headerValue h) as Hd by (cbn; now apply dropIn_clean).
  assert (headerTypeDecode (lowerText (headerNameOriginal h)) = t) as Ht.
  { rewrite <- (clean_type _ _ _ H). rewrite (clean_named _ _ _ H) at 2. reflexivity. }
  rewrite (clean_named _ _ _ H) at 3. rewrite <- Hd at 2.
  destruct (multiType t) eqn:Hmt.
  - change [named ip (headerNameOriginal h) (dropIn separators (32 :: headerValue h))]
      with (spread (named ip (headerNameOriginal h) (dropIn separators (32 :: headerValue h)))
             [dropIn separators (32 :: headerValue h)]).
    apply (HeaderLine_many ip _ _ 58); [assumption | now rewrite Ht |]. rewrite Hd. apply Splits_last.
    cbn [implb] in Hm. unfold noComma in Hm. now destruct (breakOutside _ _ _ _ _).
  - apply (HeaderLine_one ip _ _ 58); [assumption | now rewrite Ht].
Qed.

(** ** Values joined by commas *)

Lemma breakOutside_app uq ua m v w : forall st,
  breakOutside uq ua m st v = None ->
  breakOutside uq ua m st (v ++ w) =
    '(b, r) ← breakOutside uq ua m (fold_left (quoteStep uq ua) v st) w; Some (v ++ b, r).
Proof.
  induction v as [|c v IH]; intros st; cbn [app breakOutside fold_left].
  - intros _. now destruct (breakOutside uq ua m st w) as [[b r]|].
  - destruct (negb _ && negb _ && isIn c m); [discriminate|].
    destruct (breakOutside uq ua m (quoteStep uq ua st c) v) as [[b r]|] eqn:E; [discriminate|]. intros _.
    rewrite IH by assumption. now destruct (breakOutside _ _ _ _ w) as [[b r]|].
Qed.

Lemma item_noComma v : itemText v = true -> breakOutside true true (str ",") (false, false) v = None.
Proof.
  unfold itemText, noComma. rewrite !andb_true_iff. intros [[_ H] _]. now destruct (breakOutside _ _ _ _ _).
Qed.

Lemma item_closed v : itemText v = true -> fold_left (quoteStep true true) v (false, false) = (false, false).
Proof. unfold itemText. rewrite !andb_true_iff. intros [_ H]. now apply bool_decide_eq_true in H. Qed.

Lemma item_cut v w : itemText v = true -> breakOutside true true (str ",") (false, false) (v ++ 44 :: w) = Some (v, w).
Proof.
  intros Hv. rewrite breakOutside_app, item_closed by auto using item_noComma.
  change (breakOutside true true (str ",") (false, false) (44 :: w)) with (Some (@nil Z, w)).
  cbn. now rewrite app_nil_r.
Qed.

Lemma joined_cons v w vs : joined (v :: w :: vs) = v ++ 44 :: joined (w :: vs).
Proof. reflexivity. Qed.

Lemma item_trimmed v : itemText v = true -> startsWith [32] (rev v) = false.
Proof. unfold itemText. rewrite !andb_true_iff. intros [[[_ H] _] _]. now apply negb_true_iff. Qed.

Lemma joined_end vs : vs <> [] -> Forall (fun v => itemText v = true) vs -> startsWith [32] (rev (joined vs)) = false.
Proof.
  intros _ H. induction H as [|v vs Hv H IH]; [reflexivity|]. destruct vs as [|w vs].
  - cbn [joined map mjoin list_join]. rewrite app_nil_r. now apply item_trimmed.
  - rewrite joined_cons, rev_app_distr. cbn [rev]. rewrite <- app_assoc. cbn [app].
    destruct (rev (joined (w :: vs))) as [|c l] eqn:E; [|exact IH].
    reflexivity.
Qed.

Lemma item_start v : itemText v = true -> startsWith [0; 44] v = false.
Proof.
  intros H. pose proof (item_noComma v H) as Hc. unfold itemText in H. rewrite !andb_true_iff in H.
  destruct H as [[[H _] _] _]. destruct v as [|c v]; [reflexivity|]. cbn in H |- *.
  rewrite orb_false_r in H |- *. apply negb_true_iff in H. rewrite H. cbn.
  destruct (Z.eqb_spec c 44) as [-> |]; [discriminate | reflexivity].
Qed.

Lemma item_no_nul v : itemText v = true -> textEq v [] = false.
Proof.
  intros H. pose proof (item_start v H) as Hs. rewrite textEq_nil.
  destruct v as [|c v]; [discriminate|]. cbn in Hs. now apply orb_false_iff in Hs as [-> _].
Qed.

Lemma startsWith_joined m v vs : v <> [] -> startsWith m (joined (v :: vs)) = startsWith m v.
Proof. now destruct v. Qed.

Lemma Splits_joined vs :
  vs <> [] -> Forall (fun v => itemText v = true /\ startsWith separators v = false) vs -> Splits (joined vs) vs.
Proof.
  intros Hn H. revert Hn. induction H as [|v vs [Hv _] H IH]; [congruence|]. intros _. destruct vs as [|w vs].
  { cbn [joined map mjoin list_join]. rewrite app_nil_r. now apply Splits_last, item_noComma. }
  specialize (IH ltac:(discriminate)). rewrite joined_cons.
  apply (Splits_piece _ v (joined (w :: vs))); [now apply item_cut | now apply item_no_nul |].
  inversion H as [|? ? [Hw Hs] H']; subst. pose proof (item_nonempty w Hw) as Hne.
  rewrite (dropIn_clean (str ",")), (dropIn_clean [32]), trimEnd_clean; [exact IH | ..].
  - apply joined_end; [discriminate|]. revert H. apply Forall_impl. now intros v' [? _].
  - rewrite startsWith_joined by assumption. revert Hs. apply startsWith_sub. intros c Hc. cbn in *.
    rewrite orb_false_r in Hc. rewrite Hc. now rewrite !orb_true_r.
  - rewrite startsWith_joined by assumption. pose proof (item_start w Hw) as H0. revert H0. apply startsWith_sub.
    intros c Hc. change (str ",") with [44] in Hc. cbn in *. rewrite orb_false_r in Hc. now rewrite Hc, orb_true_r.
Qed.

Lemma clean_values ip t x :
  listType t = true -> Forall (Clean ip t) x ->
  Forall (fun v => itemText v = true /\ startsWith separators v = false) (map headerValue x).
Proof.
  intros Hl H. apply Forall_map. revert H. apply Forall_impl. intros h Hh. split; [now apply (clean_item ip t)|].
  pose proof (clean_value _ _ _ Hh) as Hv. unfold valueText in Hv. rewrite !andb_true_iff in Hv.
  destruct Hv as [[[_ Hs] _] _]. now apply negb_true_iff.
Qed.

Lemma listType_multiType t : listType t = true -> multiType t = true.
Proof. now destruct t. Qed.

Lemma headerTypeEncode_name t : t <> SIP_UNKNOWN_HDR -> nameText (headerTypeEncode t) = true.
Proof. destruct t; intros H; try (vm_compute; reflexivity). congruence. Qed.

(** A chain of a list type is what its one line is spread into. *)
Lemma HeaderLine_list ip t h next :
  listType t = true -> Forall (Clean ip t) (h :: next) ->
  HeaderLine ip (oneLine (headerTypeEncode t) (joined (map headerValue (h :: next)))) (h :: next).
Proof.
  intros Hl Hx. pose proof (listType_known t Hl) as Ht. set (v := joined (map headerValue (h :: next))).
  pose proof (breakIn_oneLine _ v (headerTypeEncode_name t Ht)) as Hb.
  pose proof (clean_values ip t (h :: next) Hl Hx) as Hv.
  assert (dropIn separators (32 :: v) = v) as Hd.
  { change (dropIn separators (32 :: v)) with (dropIn separators v). apply dropIn_clean. inversion Hv as [|? ? [Hi Hs] _]; subst. unfold v. cbn [map].
    rewrite startsWith_joined by now apply item_nonempty. exact Hs. }
  assert (h :: next = spread (named ip (headerTypeEncode t) v) (map headerValue (h :: next))) as E.
  { cbn [map spread]. f_equal.
    - inversion Hx as [|? ? Hh _]; subst. rewrite (clean_named _ _ _ Hh) at 1.
      now rewrite (clean_known _ _ _ Hh Ht).
    - inversion Hx as [|? ? _ Hn]; subst. clear - Hn Ht. induction Hn as [|g x Hg Hn IH]; [reflexivity|].
      cbn [map]. f_equal; [|exact IH]. rewrite (clean_named _ _ _ Hg) at 1. now rewrite (clean_known _ _ _ Hg Ht). }
  rewrite E. rewrite <- Hd at 2. apply (HeaderLine_many ip _ _ 58); [exact Hb | |].
  - rewrite headerTypeDecode_Encode by assumption. now apply listType_multiType.
  - rewrite Hd. apply Splits_joined; [discriminate | exact Hv].
Qed.

(** ** Chains and containers *)

Lemma noneOf_joined m vs :
  isIn 44 m = false -> Forall (fun v => noneOf m v = true) vs -> noneOf m (joined vs) = true.
Proof.
  intros Hm H. induction H as [|v vs Hv H IH]; [reflexivity|]. destruct vs as [|w vs].
  - cbn [joined map mjoin list_join]. now rewrite app_nil_r.
  - rewrite joined_cons, noneOf_app, noneOf_cons, Hv, Hm. exact IH.
Qed.

Lemma clean_no_lf ip t h : Clean ip t h -> noneOf [10] (headerValue h) = true.
Proof. intros H. pose proof (clean_value _ _ _ H) as Hv. unfold valueText in Hv. rewrite !andb_true_iff in Hv. tauto. Qed.

Lemma add_clean ip t h next c :
  Clean ip t h -> add (h :: next) c = upd t (slot c t ++ h :: next) c.
Proof. intros H. unfold add. now rewrite (clean_type _ _ _ H). Qed.

Lemma Reads_lines ip t x c r e c' rest :
  wf c -> listType t = false -> Forall (Clean ip t) x ->
  Reads ip r (upd t (slot c t ++ x) c) e c' rest ->
  Reads ip (mjoin (map (fun h => oneLine (headerNameOriginal h) (headerValue h) ++ [13; 10]) x) ++ r) c e c' rest.
Proof.
  intros Hc Hl Hx. revert c Hc. induction Hx as [|h x Hh Hx IH]; intros c Hc Hr; cbn [map mjoin list_join].
  - now rewrite app_nil_r, upd_slot in Hr.
  - rewrite <- app_assoc. apply (Reads_oneLine ip _ _ [h]);
      [exact (clean_name _ _ _ Hh) | now apply (clean_no_lf ip t) | now apply (HeaderLine_single ip t) |].
    rewrite (add_clean ip t) by assumption. apply IH; [now apply wf_upd|].
    rewrite slot_upd, upd_same, <- app_assoc by assumption. exact Hr.
Qed.

Lemma Reads_chain ip t x c r e c' rest :
  wf c -> Forall (Clean ip t) x -> Reads ip r (upd t (slot c t ++ x) c) e c' rest ->
  Reads ip (chainText t x ++ r) c e c' rest.
Proof.
  intros Hc Hx Hr. destruct x as [|h x]; [now rewrite app_nil_r, upd_slot in Hr|].
  unfold chainText. destruct (listType t) eqn:Hl; [|now apply (Reads_lines ip t)].
  apply (Reads_oneLine ip _ _ (h :: x)).
  - now apply headerTypeEncode_name, listType_known.
  - apply noneOf_joined; [reflexivity|]. apply Forall_map. revert Hx. apply Forall_impl. apply clean_no_lf.
  - now apply HeaderLine_list.
  - inversion Hx; subst. rewrite (add_clean ip t) by assumption. exact Hr.
Qed.

(** The container [c0] with the chains of [c] for some types. *)
Definition filled (c : container) (types : list SipHeaderType) (c0 : container) : container :=
  fold_left (fun acc t => upd t (slot c t) acc) types c0.

Lemma Reads_types ip c types r e c' rest :
  (forall t, Forall (Clean ip t) (slot c t)) -> NoDup types -> forall c0, wf c0 ->
  (forall t, t ∈ types -> slot c0 t = []) -> Reads ip r (filled c types c0) e c' rest ->
  Reads ip (mjoin (map (fun t => chainText t (slot c t)) types) ++ r) c0 e c' rest.
Proof.
  intros Hx Hn. induction Hn as [|t types Ht Hn IH]; intros c0 H0 Hs Hr; cbn [map mjoin list_join]; [exact Hr|].
  rewrite <- app_assoc. apply Reads_chain; [assumption | apply Hx|]. rewrite (Hs t) by apply list_elem_of_here.
  apply IH; [now apply wf_upd | | exact Hr]. intros u Hu. rewrite slot_upd_ne by congruence.
  now apply Hs, list_elem_of_further.
Qed.

Lemma wf_filled c types : forall c0, wf c0 -> wf (filled c types c0).
Proof. induction types as [|t types IH]; intros c0 H; [exact H | now apply IH, wf_upd]. Qed.

Lemma slot_filled c types t : forall c0, wf c0 -> slot c0 t = slot c t \/ t ∈ types -> slot (filled c types c0) t = slot c t.
Proof.
  induction types as [|u types IH]; intros c0 H0 Ht.
  - destruct Ht as [Ht | Ht]; [exact Ht | now apply elem_of_nil in Ht].
  - apply IH; [now apply wf_upd|]. destruct (decide (u = t)) as [-> | Hu]; [left; now apply slot_upd|].
    rewrite slot_upd_ne by assumption. rewrite elem_of_cons in Ht.
    destruct Ht as [Ht | [Ht | Ht]]; [now left | congruence | now right].
Qed.

Lemma filled_all c : wf c -> filled c sipHeaderOutputOrder newContainer = c.
Proof.
  intros Hc. apply container_ext; [now apply wf_filled | exact Hc|]. intros t.
  apply slot_filled; [exact wf_new | right; apply sipHeaderOutputOrder_all].
Qed.

(** All headers as they are printed. *)
Definition headersText (c : container) : bytes := mjoin (map (fun t => chainText t (slot c t)) sipHeaderOutputOrder).

Lemma encode_headersText ip c msg :
  wf c -> (forall t, Forall (Clean ip t) (slot c t)) -> Container.encode c msg = Ret (msg ++ headersText c).
Proof. intros Hc Hx. exact (encodeTypes_text ip c sipHeaderOutputOrder Hc Hx msg). Qed.

Lemma decode_headersText ip c body :
  wf c -> (forall t, Forall (Clean ip t) (slot c t)) ->
  Container.decode ip (headersText c ++ [13; 10] ++ body) newContainer = Ret (false, c, body).
Proof.
  intros Hc Hx. apply decodeLoop_Reads; [|exact wf_new | lia].
  apply Reads_types; [exact Hx | exact sipHeaderOutputOrder_NoDup | exact wf_new | intros; apply slot_new |].
  rewrite filled_all by assumption. now apply (Reads_blank ip _ c [13] 10).
Qed.

(** C6: headers that are printed are read back.  For every container whose
    headers are kept as text, with names and values that the format can carry,
    printing succeeds, and reading what was printed, followed by a blank line
    and anything else, gives the same container and leaves what follows. *)
Theorem raw_headers_roundtrip ip c body :
  wf c -> (forall t, Forall (Clean ip t) (slot c t)) ->
  exists text, Container.encode c [] = Ret text /\
    Container.decode ip (text ++ [13; 10] ++ body) newContainer = Ret (false, c, body).
Proof.
  intros Hc Hx. exists (headersText c). split; [exact (encode_headersText ip c [] Hc Hx) | now apply (decode_headersText ip c body)].
Qed.

(** C19: every text is read.  Reading a block of headers into a container
    returns for any text whatever, without an assertion or an access outside a
    buffer, and what it returns is what the relation [Reads] says: one header
    line after the other, split at the commas outside quotes and brackets, up
    to a blank line, a line without a separator or the end of the lines. *)
Theorem header_block_read ip text c :
  wf c ->
  (exists e c' rest, Container.decode ip text c = Ret (e, c', rest) /\ wf c') /\
  (forall e c' rest, Container.decode ip text c = Ret (e, c', rest) <-> Reads ip text c e c' rest).
Proof.
  intros Hc. destruct (Reads_exists ip text c Hc) as (e & c' & rest & Hr & Hc').
  assert (Container.decode ip text c = Ret (e, c', rest)) as E by (apply decodeLoop_Reads; [exact Hr | exact Hc | lia]).
  split; [eauto|]. intros e1 c1 rest1. rewrite E. split; [now intros [= <- <- <-]|].
  intros H1. rewrite <- E. apply decodeLoop_Reads; [exact H1 | exact Hc | lia].
Qed.

(** * The list of a type *)

Lemma insertAt_in h x : forall n, (n <= length x)%nat ->
  insertAt h (Z.of_nat n) x = Ret (take n x ++ h :: drop n x).
Proof.
  induction x as [|y x IH]; intros n Hn; cbn [length insertAt] in *.
  - now assert (n = 0%nat) as -> by lia.
  - destruct n as [|n]; [reflexivity|]. destruct (Z.eqb_spec (Z.of_nat (S n)) 0); [lia|].
    destruct (Z.ltb_spec 0 (Z.of_nat (S n))); [|lia].
    replace (Z.of_nat (S n) - 1) with (Z.of_nat n) by lia. rewrite IH by lia. reflexivity.
Qed.

Lemma insertAt_end h x : insertAt h (-1) x = Ret (x ++ [h]).
Proof. induction x as [|y x IH]; [reflexivity|]. cbn [insertAt Z.eqb Z.ltb Z.compare]. now rewrite IH. Qed.

Lemma insertAt_beyond h x : forall pos, zlen x < pos -> insertAt h pos x = Fault AssertFailed.
Proof.
  induction x as [|y x IH]; intros pos Hp; cbn [insertAt].
  - change (zlen (@nil SipRawHeader)) with 0 in Hp. destruct (Z.eqb_spec pos 0), (Z.eqb_spec pos (-1)); try lia. reflexivity.
  - rewrite zlen_cons in Hp. pose proof (zlen_nonneg x). destruct (Z.eqb_spec pos 0); [lia|].
    destruct (Z.ltb_spec 0 pos); [|lia]. now rewrite IH by lia.
Qed.

Lemma removeAt_in x h y : removeAt (zlen x) (x ++ h :: y) = Ret (x ++ y).
Proof.
  induction x as [|z x IH]; [reflexivity|]. rewrite zlen_cons. pose proof (zlen_nonneg x). cbn [app removeAt].
  destruct (Z.eqb_spec (1 + zlen x) 0); [lia|]. replace (1 + zlen x - 1) with (zlen x) by lia. now rewrite IH.
Qed.

Lemma removeAt_past x : removeAt (zlen x) x = Ret x.
Proof.
  induction x as [|z x IH]; [reflexivity|]. rewrite zlen_cons. pose proof (zlen_nonneg x). cbn [removeAt].
  destruct (Z.eqb_spec (1 + zlen x) 0); [lia|]. replace (1 + zlen x - 1) with (zlen x) by lia. now rewrite IH.
Qed.

Lemma removeAt_beyond x : forall i, zlen x < i -> removeAt i x = Fault AssertFailed.
Proof.
  induction x as [|z x IH]; intros i Hi; cbn [removeAt].
  - change (zlen (@nil SipRawHeader)) with 0 in Hi. destruct (Z.eqb_spec i 0); [lia | reflexivity].
  - rewrite zlen_cons in Hi. pose proof (zlen_nonneg x). destruct (Z.eqb_spec i 0); [lia|].
    now rewrite IH by lia.
Qed.

Lemma removeLast_snoc x h : removeLast (x ++ [h]) = x.
Proof. induction x as [|y x IH]; [reflexivity|]. cbn [app removeLast]. rewrite IH. now destruct x. Qed.

Lemma walkTo_in x y : walkTo (x ++ y) (zlen x) = Ret y.
Proof.
  induction x as [|z x IH]; [now destruct y|]. rewrite zlen_cons. pose proof (zlen_nonneg x). cbn [app walkTo].
  destruct (Z.eqb_spec (1 + zlen x) 0); [lia|]. replace (1 + zlen x - 1) with (zlen x) by lia. exact IH.
Qed.

(** C34: the headers of a type are a list.  Inserting at a position of the list
    or at its end is found there, counted, leaves the other types alone and is
    undone by removing; positions beyond the end abort.  Removing just past the
    end does nothing. *)
Theorem headers_are_a_list h a b c :
  wf c -> slot c (headerType h) = a ++ b ->
  (exists c', insertHeader h (zlen a) c = Ret c' /\ wf c' /\
     (forall u, slot c' u = if decide (u = headerType h) then a ++ h :: b else slot c u) /\
     getHeader (headerType h) (zlen a) c' = Ret (h :: b) /\
     getNumHeaders (headerType h) c' = Ret (zlen (a ++ b) + 1) /\
     removeHeader (headerType h) (zlen a) c' = Ret c) /\
  (exists c', insertHeader h (-1) c = Ret c' /\ slot c' (headerType h) = a ++ b ++ [h] /\
     removeHeader (headerType h) (-1) c' = Ret c) /\
  (forall pos, zlen (a ++ b) < pos ->
     insertHeader h pos c = Fault AssertFailed /\ removeHeader (headerType h) pos c = Fault AssertFailed) /\
  removeHeader (headerType h) (zlen (a ++ b)) c = Ret c.
Proof.
  intros Hc Hx. set (t := headerType h) in *.
  assert (forall i x, upd t x (upd t i c) = upd t x c) as Hu by (intros; apply upd_same).
  assert (upd t (a ++ b) c = c) as Hs by (rewrite <- Hx; now apply upd_slot).
  unfold insertHeader, getHeader, getNumHeaders, removeHeader. fold t. rewrite !at_slot, Hx by assumption.
  cbn [mbind outcome_bind]. split; [|split; [|split]].
  - exists (upd t (a ++ h :: b) c). unfold zlen at 1. rewrite insertAt_in by (rewrite length_app; lia).
    rewrite take_app_length, drop_app_length. cbn [mbind outcome_bind]. rewrite set_upd by assumption.
    split; [reflexivity|]. split; [now apply wf_upd|]. rewrite !at_slot, slot_upd by now try apply wf_upd.
    cbn [mbind outcome_bind mret outcome_ret]. rewrite walkTo_in, removeAt_in. split.
    { intros u. case_decide as Hut; [subst u; now apply slot_upd | apply slot_upd_ne; congruence]. }
    destruct (Z.eqb_spec (zlen a) (-1)); [pose proof (zlen_nonneg a); lia|]. cbn [mbind outcome_bind].
    rewrite set_upd, Hu, Hs by now apply wf_upd. repeat split. f_equal. zlen_lia.
  - exists (upd t ((a ++ b) ++ [h]) c). rewrite insertAt_end. cbn [mbind outcome_bind]. rewrite set_upd by assumption.
    split; [reflexivity|]. rewrite at_slot, slot_upd by now try apply wf_upd. split; [now rewrite app_assoc|].
    cbn [mbind outcome_bind Z.eqb Pos.eqb]. rewrite removeLast_snoc. cbn [mbind outcome_bind mret outcome_ret].
    rewrite set_upd, Hu, Hs by now apply wf_upd. reflexivity.
  - intros pos Hp. rewrite insertAt_beyond, removeAt_beyond by assumption.
    destruct (Z.eqb_spec pos (-1)); [pose proof (zlen_nonneg (a ++ b)); lia|]. split; reflexivity.
  - destruct (Z.eqb_spec (zlen (a ++ b)) (-1)); [pose proof (zlen_nonneg (a ++ b)); lia|].
    rewrite removeAt_past. cbn [mbind outcome_bind]. now rewrite set_upd, Hs.
Qed.

(** * Assignment *)

Lemma copyOver_spec src dst :
  length src = length dst ->
  exists c, copyOver src dst = Ret c /\ length c = length dst /\
    forall i, c !! i = match src !! i, dst !! i with
                       | Some s, Some d => Some (match s with [] => d | _ :: _ => duplicate s end)
                       | _, _ => None
                       end.
Proof.
  revert dst. induction src as [|s src IH]; intros [|d dst] Hl; try discriminate.
  - exists []. split; [reflexivity|]. split; [reflexivity|]. intros i. now rewrite !lookup_nil.
  - destruct (IH dst) as (c & Ec & Hc & Hi); [now injection Hl|]. cbn [copyOver]. rewrite Ec.
    cbn [mbind outcome_bind mret outcome_ret]. eexists. split; [reflexivity|]. cbn [length]. split; [now rewrite Hc|].
    intros [|i]; [reflexivity | apply Hi].
Qed.

(** Assignment does not make the containers the same.  The headers of a
    type that the source has replace those of the destination; the headers of
    a type that only the destination has stay in it. *)
Theorem assignment_keeps_old_headers src this :
  wf src -> wf this ->
  exists c, assign src this = Ret c /\ wf c /\
    (forall t, slot src t <> [] -> slot c t = duplicate (slot src t)) /\
    (forall t, slot src t = [] -> slot c t = slot this t).
Proof.
  intros Hs Ht. destruct (copyOver_spec src this) as (c & Ec & Hl & Hi); [now rewrite Hs, Ht|].
  assert (forall t, slot c t = match slot src t with [] => slot this t | _ :: _ => duplicate (slot src t) end) as H.
  { intros t. unfold slot at 1. rewrite Hi, (wf_lookup src t Hs), (wf_lookup this t Ht). reflexivity. }
  exists c. split; [exact Ec|]. split; [unfold wf; congruence|].
  split; intros t E; rewrite H; [now destruct (slot src t) | now rewrite E].
Qed.

(** * A header without a name *)

(** A line that starts with its colon has no name, and is taken for an
    Accept header: the short name of Accept in the table is the empty text. *)
Theorem unnamed_header_is_accept ip v :
  noneOf [10] v = true ->
  exists c, Container.decode ip (58 :: v ++ [13; 10] ++ [13; 10]) newContainer = Ret (false, c, []) /\
    slot c SIP_ACCEPT_HDR <> [] /\ forall t, t <> SIP_ACCEPT_HDR -> slot c t = [].
Proof.
  intros Hv. destruct (Splits_exists (dropIn separators v)) as (vs & Hs).
  pose proof (HeaderLine_many ip (58 :: v) [] 58 v vs eq_refl eq_refl Hs) as Hy.
  destruct (HeaderLine_cons _ _ _ Hy) as (h & next & E).
  assert (headerType h = SIP_ACCEPT_HDR) as Ht.
  { apply Splits_nonempty in Hs. destruct vs as [|w vs]; [congruence|]. now injection E as <- _. }
  rewrite E in Hy. exists (add (h :: next) newContainer). split.
  - apply decodeLoop_Reads; [|exact wf_new | lia].
    apply (Reads_header ip _ _ ((58 :: v) ++ [13]) 10 [13; 10] (h :: next)); rewrite ?chopCR_snoc; [|reflexivity|exact Hy|].
    + change (58 :: v ++ [13; 10] ++ [13; 10]) with ((58 :: v) ++ [13] ++ 10 :: [13; 10]). rewrite app_assoc.
      apply breakIn_first; [|reflexivity]. rewrite noneOf_app, noneOf_cons, Hv. reflexivity.
    + now apply (Reads_blank ip _ _ [13] 10).
  - unfold add. rewrite Ht. split; [rewrite slot_upd by exact wf_new; now destruct (slot newContainer SIP_ACCEPT_HDR)|].
    intros t Hn. rewrite slot_upd_ne by congruence. apply slot_new.
Qed.

End Props.

(** * Samples *)

(** Headers whose parsed form is their text. *)
#[local] Instance textHeaders : SipHeaderClass := {|
  SipHeader := bytes;
  construct _ value _ := Ret value;
  newCallLeg _ := [];
  encodeHeader v := v;
  duplicateHeader v := v;
  compareSipHeader a b := Ret match b with Some b => textEq a b | None => false end
|}.

Definition sampleHeader (n v : String.string) : SipRawHeader := named [] (str n) (str v).
Arguments sampleHeader n%_string_scope v%_string_scope.

Definition sampleContainer : container :=
  upd SIP_VIA_HDR [sampleHeader "Via" "SIP/2.0/UDP a;branch=1"; sampleHeader "Via" "SIP/2.0/UDP b"]
    (upd SIP_ROUTE_HDR [sampleHeader "Route" "<sip:a,b@c>"; sampleHeader "Route" "<sip:d>"]
      (upd SIP_UNKNOWN_HDR [sampleHeader "X-Color" "red, blue"; sampleHeader "X-Empty" ""] newContainer)).

Lemma raw_headers_roundtrip_witness :
  exists text, Container.encode sampleContainer [] = Ret text /\
    Container.decode [] (text ++ [13; 10] ++ str "body") newContainer = Ret (false, sampleContainer, str "body").
Proof.
  apply (raw_headers_roundtrip [] sampleContainer (str "body")); [reflexivity|].
  intros t. destruct t; repeat constructor; intros H; congruence.
Defined.

Lemma header_block_read_witness :
  exists e c' rest, Container.decode [] (str "To: a") newContainer = Ret (e, c', rest) /\ wf c'.
Proof. apply (header_block_read [] (str "To: a") newContainer). reflexivity. Defined.

Lemma headers_are_a_list_witness :
  removeHeader SIP_VIA_HDR (zlen (slot sampleContainer SIP_VIA_HDR)) sampleContainer = Ret sampleContainer.
Proof.
  apply (headers_are_a_list (sampleHeader "Via" "SIP/2.0/UDP c") [sampleHeader "Via" "SIP/2.0/UDP a;branch=1"]
    [sampleHeader "Via" "SIP/2.0/UDP b"] sampleContainer); reflexivity.
Defined.

Lemma assignment_keeps_old_headers_witness :
  exists c, assign newContainer sampleContainer = Ret c /\ wf c /\
    (forall t, slot newContainer t <> [] -> slot c t = duplicate (slot newContainer t)) /\
    (forall t, slot newContainer t = [] -> slot c t = slot sampleContainer t).
Proof. apply (assignment_keeps_old_headers newContainer sampleContainer); reflexivity. Defined.

Lemma unnamed_header_is_accept_witness :
  exists c, Container.decode [] (58 :: str "json" ++ [13; 10] ++ [13; 10]) newContainer = Ret (false, c, []) /\
    slot c SIP_ACCEPT_HDR <> [] /\ forall t, t <> SIP_ACCEPT_HDR -> slot c t = [].
Proof. apply (unnamed_header_is_accept [] (str "json")). reflexivity. Defined.

End SipRawProps.
