(* ===== verification/SipFields.v ===== *)
(** Header classes of one or two fields (sip/sipstack: SipCallId, SipCSeq,
    SipMaxForwards, SipExpires, SipContentLength, SipSubject, SipOrganization,
    SipPriority, SipHide, SipMimeVersion, SipContentEncoding): the fields, the
    parser that the constructor runs, and the printer; and the classes of the
    stack as an instance of [SipHeaderClass], with the Via header and, for the
    types that are not modelled, any other instance.

    [strict] is the parser mode.  An exception of a constructor is caught and
    thrown again by every level of it, so that it leaves the parser as the
    fault [Exception]; the lenient parser goes on with what it has. *)
From S2P Require Import Prelude DataStr DataStrFacts DataStrText SipHeap SipText SipViaHdr SipRaw.
Import DataStr SipHeap SipText SipRaw.

Module SipFields.

Definition isDigit (c : Z) : bool := (48 <=? c) && (c <=? 57).

(** The end of a line that is printed when there is something on it. *)
Definition printed (name : String.string) (value : bytes) : bytes := str name ++ value ++ [13; 10].
Arguments printed name%_string_scope value.

Definition found (f : option bytes) : bytes := default [] f.

Section Fields.
Context (strict : bool).

(** [if (sipParserMode()) throw ...], and otherwise [x]. *)
Definition throws {A} (x : A) : outcome A := if strict then Fault Exception else mret x.

(** * Call-ID *)

Record SipCallId := mkCallId { localid : bytes; host : bytes }.

Definition scanSipCallId (data : bytes) (c : SipCallId) : outcome SipCallId :=
  '(ret, sipdata, data) ← matchText (str "@") true data;
  match ret with
  | FOUND => mret (mkCallId (found sipdata) data)
  | NOT_FOUND => mret (mkCallId data (host c))
  | FIRST => throws c
  end.

(** The constructor; [randomHex] is what [RandomHex::get] returns. *)
Definition newCallId (randomHex : bytes) (data local_ip : bytes) : outcome SipCallId :=
  if textEq data [] then mret (mkCallId randomHex local_ip) else scanSipCallId data (mkCallId [] []).

Definition getCallIdData (c : SipCallId) : bytes :=
  (if 0 <? zlen (localid c) then localid c else []) ++ (if 0 <? zlen (host c) then str "@" ++ host c else []).

Definition encodeCallId (c : SipCallId) : bytes :=
  if 0 <? zlen (localid c) then printed "Call-ID: " (getCallIdData c) else [].

Definition eqCallId (a b : SipCallId) : bool := textEq (localid a) (localid b) && textEq (host a) (host b).

(** * CSeq *)

Record SipCSeq := mkCSeq { cseq : bytes; method : bytes }.

Definition newCSeq (data : bytes) : outcome SipCSeq :=
  if textEq data [] then mret (mkCSeq [] [])
  else
    '(ret, sipdata, data) ← matchText (str " ") true data;
    match ret with
    | FOUND => m ← removeSpacesText data; mret (mkCSeq (found sipdata) m)
    | _ => throws (mkCSeq [] [])
    end.

Definition encodeCSeq (c : SipCSeq) : bytes := printed "CSeq: " (cseq c ++ str " " ++ method c).

Definition eqCSeq (a b : SipCSeq) : bool := textEq (cseq a) (cseq b) && textEq (method a) (method b).

(** * Max-Forwards *)

Definition newMaxForwards (data : bytes) : outcome Z :=
  if textEq data [] then mret 70
  else
    let newdata := cstr data in
    if forallb isDigit newdata then if 0 <? zlen newdata then toInt newdata else mret 70
    else throws 70.

(** [decrement]: the value that is returned and the header. *)
Definition decrement (value : Z) : Z * Z := if 0 <? value then (value - 1, value - 1) else (-1, value).

Definition encodeMaxForwards (value : Z) : bytes := if 0 <? value then printed "Max-Forwards: " (itoa value) else [].

(** * Expires *)

Definition newExpires (data : bytes) : bytes :=
  if textEq data [] then [] else if forallb isDigit data then data else str "3600".

Definition encodeExpires (delta : bytes) : bytes := if textEq delta [] then [] else printed "Expires: " delta.

(** * Headers that keep a text *)

Definition newText (data : bytes) : bytes := if textEq data [] then [] else data.

Definition encodeContentLength (contentLength : bytes) : bytes :=
  printed "Content-Length: " (if zlen contentLength =? 0 then str "0" else contentLength).

Definition encodeSubject (data : bytes) : bytes := if 0 <? zlen data then printed "Subject: " data else [].

Definition newOrganization (data : bytes) : bytes := if textEq data [] then [] else cstr data.

Definition encodeOrganization (organization : bytes) : bytes :=
  if 0 <? zlen organization then printed "Organization:  " organization else [].

(** * Priority *)

Definition newPriority (data : bytes) : bytes :=
  if textEq data [] then []
  else if eqNoCase data (str "emergency") || eqNoCase data (str "urgent") || eqNoCase data (str "normal") ||
          eqNoCase data (str "non-urgent") then data
  else [].

Definition encodePriority (data : bytes) : bytes := if 0 <? zlen data then printed "Priority: " data else [].

(** The copy constructor leaves the text empty. *)
Definition copyPriority (_ : bytes) : bytes := [].

(** * Hide *)

Definition newHide (data : bytes) : outcome bytes :=
  if textEq data [] then mret []
  else
    let d := if eqNoCase data (str "route") then data else [] in
    if eqNoCase data (str "hop") then mret data else throws d.

Definition encodeHide (data : bytes) : bytes := if 0 <? zlen data then printed "Hide: " data else [].

(** * Mime-Version *)

(** [set]: only a value that is there already is replaced. *)
Definition setMimeVersion (newValue value : bytes) : bytes := if 0 <? zlen value then newValue else value.

Definition newMimeVersion (data : bytes) : outcome bytes :=
  if textEq data [] then mret []
  else
    '(test, rdata, newdata) ← matchText (str ".") true data;
    match test with
    | FOUND =>
        if forallb isDigit (cstr (found rdata)) then
          if forallb isDigit (cstr newdata) then mret (setMimeVersion data []) else throws []
        else throws []
    | _ => throws []
    end.

Definition encodeMimeVersion (value : bytes) : bytes := if 0 <? zlen value then printed "Mime-Version: " value else [].

(** * Content-Encoding *)

Definition isToken (c : Z) : bool :=
  isIn c (str "0123456789abcdefghijklmnopqrstuvwxyzABCDEFGHIJKLMNOPQRSTUVWXYZ-.!%*_+'~").

Definition newContentEncoding (data : bytes) : outcome bytes :=
  if textEq data [] then mret []
  else let newdata := cstr data in if forallb isToken newdata then mret newdata else throws [].

Definition encodeContentEncoding (data : bytes) : bytes := str "Content-Encoding " ++ str ":" ++ data.

(** * The classes of the stack *)

Context (isIp6 : bytes -> bool) (randomHex : bytes) {Other : SipHeaderClass}.

(** The classes that are modelled; the others are those of [Other]. *)
Inductive Field : Type :=
| FVia (v : SipViaHdr.Via)
| FCallId (c : SipCallId)
| FCSeq (c : SipCSeq)
| FMaxForwards (value : Z)
| FExpires (delta : bytes)
| FContentLength (contentLength : bytes)
| FSubject (data : bytes)
| FOrganization (organization : bytes)
| FPriority (data : bytes)
| FHide (data : bytes)
| FMimeVersion (value : bytes)
| FContentEncoding (data : bytes)
| FOther (h : SipHeader).

Definition constructField (type : SipHeaderType) (value local_ip : bytes) : outcome Field :=
  match type with
  | SIP_VIA_HDR =>
      p ← SipViaHdr.decodeVia strict isIp6 value;
      match p with SipViaHdr.Parsed v => mret (FVia v) | SipViaHdr.Thrown => Fault Exception end
  | SIP_CALLID_HDR => c ← newCallId randomHex value local_ip; mret (FCallId c)
  | SIP_CSEQ_HDR => c ← newCSeq value; mret (FCSeq c)
  | SIP_MAX_FORWARDS_HDR => n ← newMaxForwards value; mret (FMaxForwards n)
  | SIP_EXPIRES_HDR => mret (FExpires (newExpires value))
  | SIP_CONTENT_LENGTH_HDR => mret (FContentLength (newText value))
  | SIP_SUBJECT_HDR => mret (FSubject (newText value))
  | SIP_ORGANIZATION_HDR => mret (FOrganization (newOrganization value))
  | SIP_PRIORITY_HDR => mret (FPriority (newPriority value))
  | SIP_HIDE_HDR => d ← newHide value; mret (FHide d)
  | SIP_MIME_VERSION_HDR => v ← newMimeVersion value; mret (FMimeVersion v)
  | SIP_CONTENT_ENCODING_HDR => d ← newContentEncoding value; mret (FContentEncoding d)
  | _ => h ← construct type value local_ip; mret (FOther h)
  end.

Definition encodeField (f : Field) : bytes :=
  match f with
  | FVia v => match SipViaHdr.encodeVia v with Ret t => t | Fault _ => [] end
  | FCallId c => encodeCallId c
  | FCSeq c => encodeCSeq c
  | FMaxForwards n => encodeMaxForwards n
  | FExpires d => encodeExpires d
  | FContentLength l => encodeContentLength l
  | FSubject d => encodeSubject d
  | FOrganization o => encodeOrganization o
  | FPriority d => encodePriority d
  | FHide d => encodeHide d
  | FMimeVersion v => encodeMimeVersion v
  | FContentEncoding d => encodeContentEncoding d
  | FOther h => encodeHeader h
  end.

Definition duplicateField (f : Field) : Field :=
  match f with
  | FPriority d => FPriority (copyPriority d)
  | FOther h => FOther (duplicateHeader h)
  | _ => f
  end.

(** [compareSipHeader]: a header of another class, or none, is different. *)
Definition compareField (a : Field) (b : option Field) : outcome bool :=
  match a, b with
  | FVia x, Some (FVia y) => mret (SipViaHdr.viaEq x y)
  | FCallId x, Some (FCallId y) => mret (eqCallId x y)
  | FCSeq x, Some (FCSeq y) => mret (eqCSeq x y)
  | FMaxForwards x, Some (FMaxForwards y) => mret (x =? y)
  | FExpires x, Some (FExpires y) | FContentLength x, Some (FContentLength y) | FSubject x, Some (FSubject y)
  | FOrganization x, Some (FOrganization y) | FPriority x, Some (FPriority y) | FHide x, Some (FHide y)
  | FMimeVersion x, Some (FMimeVersion y) | FContentEncoding x, Some (FContentEncoding y) => mret (textEq x y)
  | FOther x, Some (FOther y) => compareSipHeader x (Some y)
  | FOther x, _ => compareSipHeader x None
  | _, _ => mret false
  end.

#[export] Instance stackHeaders : SipHeaderClass := {|
  SipHeader := Field;
  construct := constructField;
  newCallLeg ip := FOther (newCallLeg ip);
  encodeHeader := encodeField;
  duplicateHeader := duplicateField;
  compareSipHeader := compareField
|}.

End Fields.
End SipFields.
