(* ===== verification/SipParsed.v ===== *)
(** Messages whose headers are parsed: a container of text headers is parsed
    header by header, printed from the parsed fields and read again.  The first
    part holds for every instance of [SipHeaderClass]; the second says which
    values the classes of the stack print so that they are read back. *)
From S2P Require Import Prelude DataStr DataStrFacts DataStrText SipHeap SipText SipViaHdr SipViaFacts SipViaProps SipRaw SipRawFacts SipRawProps SipFields.
Import DataStr DataStrFacts DataStrText SipHeap SipText SipRaw Raw Container SipRawFacts SipRawProps SipFields.

Module SipParsed.

Section Parsed.
Context {SH : SipHeaderClass}.

(** A line that is read as the one header [h]. *)
Definition lineOf (ip line : bytes) (h : SipRawHeader) : Prop :=
  noneOf [10] line = true /\ textEq line [] = false /\ HeaderLine ip line [h].

(** The text header [h] of type [t] is printed, after it was parsed, so that
    it is read as [h] again. *)
Inductive Survives (ip : bytes) (t : SipHeaderType) (h : SipRawHeader) : Prop :=
| Survives_text :
    decodeHeader t (headerValue h) ip = Ret None -> Survives ip t h
| Survives_line p line :
    listType t = false -> decodeHeader t (headerValue h) ip = Ret (Some p) ->
    encodeHeader p = line ++ [13; 10] -> lineOf ip line h -> Survives ip t h
| Survives_item p :
    listType t = true -> decodeHeader t (headerValue h) ip = Ret (Some p) ->
    encodeHeader p = headerValue h -> Survives ip t h.

(** [h] with its parsed form. *)
Definition parsedOf (h : SipRawHeader) : SipRawHeader :=
  match decodeHeader (headerType h) (headerValue h) (local_ip h) with Ret p => setHeader p h | Fault _ => h end.

Lemma clean_ip ip t h : Clean ip t h -> local_ip h = ip.
Proof. intros H. rewrite (clean_named _ _ _ H). reflexivity. Qed.

Lemma clean_decode ip t h :
  Clean ip t h -> decodeHeader (headerType h) (headerValue h) (local_ip h) = decodeHeader t (headerValue h) ip.
Proof. intros H. now rewrite (clean_type _ _ _ H), (clean_ip _ _ _ H). Qed.

Lemma parse_survives ip t h : Clean ip t h -> Survives ip t h -> parse h = Ret (parsedOf h).
Proof.
  intros H Hs. unfold parse, parsedOf. rewrite (clean_raw _ _ _ H), (clean_decode _ _ _ H).
  destruct Hs as [E | p line _ E _ _ | p _ E _]; now rewrite E.
Qed.

Lemma parsedOf_header ip t h p :
  Clean ip t h -> decodeHeader t (headerValue h) ip = Ret p ->
  parsedOf h = setHeader p h.
Proof. intros H E. unfold parsedOf. now rewrite (clean_decode _ _ _ H), E. Qed.

Lemma setHeader_None ip t h : Clean ip t h -> setHeader None h = h.
Proof. intros H. rewrite (clean_named _ _ _ H). reflexivity. Qed.

(** What is printed for one header of a type that has a line for each. *)
Lemma puts_survives ip t h :
  Clean ip t h -> Survives ip t h -> listType t = false ->
  exists line, lineOf ip line h /\
    forall msg, encodeShallowPutsName (parsedOf h) msg = msg ++ line ++ [13; 10].
Proof.
  intros H Hs Hl. destruct Hs as [E | p line _ E Ep Hline | p Hl' _ _]; [| |congruence].
  - exists (oneLine (headerNameOriginal h) (headerValue h)). split.
    + split; [|split; [|now apply (HeaderLine_single ip t)]].
      * unfold oneLine. now rewrite !noneOf_app, (name_no_lf _ (clean_name _ _ _ H)), (clean_no_lf _ _ _ H).
      * apply oneLine_not_blank, (clean_name _ _ _ H).
    + intros msg. rewrite (parsedOf_header _ _ _ _ H E), (setHeader_None _ _ _ H).
      now apply (encodeShallowPutsName_clean ip t).
  - exists line. split; [exact Hline|]. intros msg. rewrite (parsedOf_header _ _ _ _ H E).
    unfold encodeShallowPutsName. cbn [header setHeader]. now rewrite Ep.
Qed.

(** What is printed for one header of a type that has one line. *)
Lemma item_survives ip t h msg comma :
  Clean ip t h -> Survives ip t h -> listType t = true ->
  encodeShallowNoName (parsedOf h) msg comma = msg ++ (if comma then [44] else []) ++ headerValue h.
Proof.
  intros H Hs Hl. assert (headerValue h <> []) as Hv by now apply item_nonempty, (clean_item ip t).
  destruct Hs as [E | p line Hl' _ _ _ | p _ E Ep]; [|congruence|]; rewrite (parsedOf_header _ _ _ _ H E).
  - rewrite (setHeader_None _ _ _ H). apply encodeShallowNoName_item; [now apply (clean_raw ip t) | exact Hv].
  - unfold encodeShallowNoName. cbn [header setHeader]. rewrite Ep. reflexivity.
Qed.

(** ** Chains *)

(** Printing the chain [y] appends a text that is read as the chain [x]. *)
Definition shows (ip : bytes) (t : SipHeaderType) (x y : chain) : Prop :=
  exists text,
    (forall msg, match y with [] => msg | h :: next => Raw.encode h next msg end = msg ++ text) /\
    forall c r e c' rest, wf c -> Reads ip r (upd t (slot c t ++ x) c) e c' rest -> Reads ip (text ++ r) c e c' rest.

Lemma puts_chain ip t x :
  listType t = false -> Forall (fun h => Clean ip t h /\ Survives ip t h) x ->
  exists text,
    (forall msg, fold_left (fun m h => encodeShallowPutsName h m) (map parsedOf x) msg = msg ++ text) /\
    forall c r e c' rest, wf c -> Reads ip r (upd t (slot c t ++ x) c) e c' rest -> Reads ip (text ++ r) c e c' rest.
Proof.
  intros Hl Hx. induction Hx as [|h x [Hh Hs] Hx (text & Hp & Hr)].
  - exists []. split; [intros msg; now rewrite app_nil_r|]. intros c r e c' rest Hc H. now rewrite app_nil_r, upd_slot in H.
  - destruct (puts_survives ip t h Hh Hs Hl) as (line & (Hlf & Hb & Hline) & Hput).
    exists ((line ++ [13; 10]) ++ text). split.
    + intros msg. cbn [map fold_left]. rewrite Hput, Hp. now rewrite <- !app_assoc.
    + intros c r e c' rest Hc H. rewrite <- app_assoc. apply (Reads_line ip line [h]); auto.
      rewrite (add_clean ip t) by exact Hh. apply Hr; [now apply wf_upd|].
      rewrite slot_upd, upd_same, <- app_assoc by assumption. exact H.
Qed.

Lemma items_chain ip t x msg :
  listType t = true -> Forall (fun h => Clean ip t h /\ Survives ip t h) x ->
  fold_left (fun m h => encodeShallowNoName h m true) (map parsedOf x) msg =
    msg ++ mjoin (map (fun w => 44 :: w) (map headerValue x)).
Proof.
  intros Hl Hx. revert msg. induction Hx as [|h x [Hh Hs] Hx IH]; intros msg; cbn [map fold_left mjoin list_join];
    [now rewrite app_nil_r|]. rewrite (item_survives ip t), IH by assumption. now rewrite <- !app_assoc.
Qed.

Lemma parsedOf_type h : headerType (parsedOf h) = headerType h.
Proof. unfold parsedOf. now destruct (decodeHeader _ _ _). Qed.

Lemma chain_shows ip t x :
  Forall (fun h => Clean ip t h /\ Survives ip t h) x -> shows ip t x (map parsedOf x).
Proof.
  intros Hx. destruct (listType t) eqn:Hl.
  - exists (chainText t x). split.
    + intros msg. destruct x as [|h x]; [now rewrite app_nil_r|]. cbn [map]. unfold Raw.encode, chainText.
      rewrite parsedOf_type. inversion Hx as [|? ? [Hh Hs] Hx']; subst. rewrite (clean_type _ _ _ Hh), Hl.
      rewrite (item_survives ip t), (items_chain ip t) by assumption. unfold oneLine. cbn [map joined app].
      now rewrite <- !app_assoc.
    + intros c r e c' rest Hc H. apply Reads_chain; [exact Hc | | exact H]. revert Hx. apply Forall_impl. now intros ? [? _].
  - destruct (puts_chain ip t x Hl Hx) as (text & Hp & Hr). exists text. split; [|exact Hr].
    intros msg. rewrite <- Hp. destruct x as [|h x]; [reflexivity|]. cbn [map fold_left]. unfold Raw.encode.
    rewrite parsedOf_type. inversion Hx as [|? ? [Hh _] _]; subst. now rewrite (clean_type _ _ _ Hh), Hl.
Qed.

(** ** Containers *)

Lemma mapM_all {A B} (f : A -> outcome B) (g : A -> B) l :
  Forall (fun x => f x = Ret (g x)) l -> mapM f l = Ret (map g l).
Proof. intros H. induction H as [|x l Hx H IH]; [reflexivity|]. cbn in *. now rewrite Hx, IH. Qed.

Lemma forceParse_survives ip c :
  wf c -> (forall t, Forall (fun h => Clean ip t h /\ Survives ip t h) (slot c t)) ->
  forceParse c = Ret (map (map parsedOf) c).
Proof.
  intros Hc Hx. apply mapM_all. apply List.Forall_forall. intros x Hin. apply list_elem_of_In in Hin.
  apply list_elem_of_lookup in Hin as (i & Hi). assert (i < length c)%nat as Hlt by now apply lookup_lt_Some in Hi.
  rewrite Hc in Hlt. destruct (typeIndex_onto i Hlt) as (t & <-). rewrite (wf_lookup c t Hc) in Hi. injection Hi as <-.
  apply mapM_all. specialize (Hx t). revert Hx. apply Forall_impl. intros h [Hh Hs]. now apply (parse_survives ip t).
Qed.

Lemma slot_map (f : chain -> chain) c t : wf c -> slot (map f c) t = f (slot c t).
Proof.
  intros Hc. unfold slot at 1. change (map f c) with (f <$> c). rewrite list_lookup_fmap, (wf_lookup c t Hc). reflexivity.
Qed.

Lemma encodeTypes_shows ip c types :
  wf c -> (forall t, Forall (fun h => Clean ip t h /\ Survives ip t h) (slot c t)) -> NoDup types ->
  exists text,
    (forall msg, encodeTypes types (map (map parsedOf) c) msg = Ret (msg ++ text)) /\
    forall c0 r e c' rest, wf c0 -> (forall t, t ∈ types -> slot c0 t = []) ->
      Reads ip r (filled c types c0) e c' rest -> Reads ip (text ++ r) c0 e c' rest.
Proof.
  intros Hc Hx Hn. assert (wf (map (map parsedOf) c)) as Hc' by (unfold wf; now rewrite length_map).
  induction Hn as [|t types Ht Hn (text & He & Hr)].
  - exists []. split; [intros msg; now rewrite app_nil_r | auto].
  - destruct (chain_shows ip t (slot c t) (Hx t)) as (line & Hl & Hlr). exists (line ++ text). split.
    + intros msg. cbn [encodeTypes]. rewrite at_slot, slot_map by assumption. cbn [mbind outcome_bind].
      rewrite Hl, He. now rewrite <- app_assoc.
    + intros c0 r e c' rest H0 Hs H. rewrite <- app_assoc. apply Hlr; [exact H0|]. rewrite (Hs t) by apply list_elem_of_here.
      apply Hr; [now apply wf_upd | | exact H]. intros u Hu. rewrite slot_upd_ne by congruence.
      now apply Hs, list_elem_of_further.
Qed.

(** Whatever the header classes are, a message all of whose headers survive is
    parsed, printed and read back as it was. *)
Lemma survivors_roundtrip ip c body :
  wf c -> (forall t, Forall (fun h => Clean ip t h /\ Survives ip t h) (slot c t)) ->
  exists c' text, forceParse c = Ret c' /\ Container.encode c' [] = Ret text /\
    Container.decode ip (text ++ [13; 10] ++ body) newContainer = Ret (false, c, body).
Proof.
  intros Hc Hx. destruct (encodeTypes_shows ip c sipHeaderOutputOrder Hc Hx sipHeaderOutputOrder_NoDup) as (text & He & Hr).
  exists (map (map parsedOf) c), text. split; [now apply (forceParse_survives ip)|]. split; [apply (He [])|].
  apply decodeLoop_Reads; [|exact wf_new | lia].
  apply Hr; [exact wf_new | intros; apply slot_new |]. rewrite filled_all by assumption.
  now apply (Reads_blank ip _ c [13] 10).
Qed.

End Parsed.

(** * The classes of the stack *)

Section Stack.
Context (strict : bool) (isIp6 : bytes -> bool) (randomHex : bytes) {Other : SipHeaderClass}.

(** The fields of the stack, whose other classes are those of [Other]. *)
Abbreviation field := (@Field Other).
Definition constructStack : SipHeaderType -> bytes -> bytes -> outcome field := constructField strict isIp6 randomHex.
Definition encodeStack : field -> bytes := encodeField.
Definition duplicateStack : field -> field := duplicateField.

#[local] Instance stack : SipHeaderClass := stackHeaders strict isIp6 randomHex (Other := Other).

(** A text that the classes do not take for an empty one. *)
Definition starts (v : bytes) : bool := negb (textEq v []).

(** The types whose class is modelled. *)
Definition modelled (t : SipHeaderType) : bool :=
  match t with
  | SIP_VIA_HDR | SIP_CALLID_HDR | SIP_CSEQ_HDR | SIP_MAX_FORWARDS_HDR | SIP_EXPIRES_HDR
  | SIP_CONTENT_LENGTH_HDR | SIP_SUBJECT_HDR | SIP_ORGANIZATION_HDR | SIP_PRIORITY_HDR | SIP_HIDE_HDR
  | SIP_MIME_VERSION_HDR | SIP_CONTENT_ENCODING_HDR | SIP_CONTENT_DATA_HDR | SIP_UNKNOWN_HDR => true
  | _ => false
  end.

(** The values that a class prints as it reads them. *)
Inductive Canonical : SipHeaderType -> bytes -> Prop :=
| Canonical_via v :
    SipViaProps.viaOk isIp6 v = true -> zlen (SipViaProps.viaText v) < npos -> Canonical SIP_VIA_HDR (SipViaProps.viaText v)
| Canonical_local_id l :
    starts l = true -> noneOf [64] l = true -> zlen l < npos -> Canonical SIP_CALLID_HDR l
| Canonical_id l h :
    starts (l ++ 64 :: h) = true -> l <> [] -> h <> [] -> noneOf [64] l = true -> zlen (l ++ 64 :: h) < npos ->
    Canonical SIP_CALLID_HDR (l ++ 64 :: h)
| Canonical_cseq n m :
    starts (n ++ 32 :: m) = true -> n <> [] -> noneOf [32] n = true -> trimmed m = true -> zlen (n ++ 32 :: m) < npos ->
    Canonical SIP_CSEQ_HDR (n ++ 32 :: m)
| Canonical_hops n : 0 < n < 2147483648 -> Canonical SIP_MAX_FORWARDS_HDR (itoa n)
| Canonical_expires d : starts d = true -> forallb isDigit d = true -> Canonical SIP_EXPIRES_HDR d
| Canonical_length l : starts l = true -> Canonical SIP_CONTENT_LENGTH_HDR l
| Canonical_subject d : starts d = true -> Canonical SIP_SUBJECT_HDR d
| Canonical_organization d : starts d = true -> noneOf [0] d = true -> Canonical SIP_ORGANIZATION_HDR d
| Canonical_priority d :
    starts d = true ->
    eqNoCase d (str "emergency") || eqNoCase d (str "urgent") || eqNoCase d (str "normal") ||
      eqNoCase d (str "non-urgent") = true ->
    Canonical SIP_PRIORITY_HDR d
| Canonical_hide d : starts d = true -> eqNoCase d (str "hop") = true -> Canonical SIP_HIDE_HDR d
| Canonical_data d : Canonical SIP_CONTENT_DATA_HDR d
| Canonical_unknown d : Canonical SIP_UNKNOWN_HDR d.

Lemma starts_long v : starts v = true -> (0 <? zlen v) = true /\ (zlen v =? 0) = false /\ textEq v [] = false.
Proof.
  unfold starts. intros H%negb_true_iff. rewrite H. destruct v as [|c v]; [discriminate|].
  rewrite zlen_cons. pose proof (zlen_nonneg v). repeat split; lia.
Qed.

Lemma cstr_clean v : noneOf [0] v = true -> cstr v = v.
Proof.
  induction v as [|c v IH]; [reflexivity|]. rewrite noneOf_cons, isIn_single. intros [Hc Hv]%andb_prop.
  cbn [cstr]. destruct (c =? 0); [discriminate|]. now rewrite IH.
Qed.

(** The number of hops is read as it is written. *)
Lemma newMaxForwards_itoa n : 0 < n < 2147483648 -> newMaxForwards strict (itoa n) = Ret n.
Proof.
  intros Hn. destruct (SipViaProps.itoa_digits n) as [Hd Hne]; [lia|]. unfold newMaxForwards.
  assert (noneOf [0] (itoa n) = true) as H0.
  { apply SipViaProps.digits_noneOf; [|exact Hd]. intros c. rewrite isIn_single. lia. }
  rewrite cstr_clean by exact H0. assert (forallb isDigit (itoa n) = true) as ->.
  { apply forallb_forall. intros c Hc. rewrite List.Forall_forall in Hd. unfold isDigit. specialize (Hd c Hc). lia. }
  assert (textEq (itoa n) [] = false) as ->.
  { rewrite textEq_nil. destruct (itoa n) as [|c l]; [congruence|]. rewrite noneOf_cons, isIn_single in H0.
    apply andb_prop in H0 as [H0 _]. now apply negb_true_iff. }
  destruct (itoa n) as [|c l] eqn:E; [congruence|]. rewrite zlen_cons. pose proof (zlen_nonneg l).
  destruct (Z.ltb_spec 0 (1 + zlen l)); [|lia]. rewrite <- E. apply toInt_itoa. lia.
Qed.

(** An identification is split at its first [@]. *)
Lemma scanSipCallId_local l c :
  noneOf [64] l = true -> zlen l < npos -> scanSipCallId strict l c = Ret (mkCallId l (host c)).
Proof.
  intros Hl Hn. unfold scanSipCallId. change (str "@") with [64]. now rewrite matchText_eq, breakIn_none.
Qed.

Lemma scanSipCallId_full l h c :
  l <> [] -> noneOf [64] l = true -> zlen (l ++ 64 :: h) < npos ->
  scanSipCallId strict (l ++ 64 :: h) c = Ret (mkCallId l h).
Proof.
  intros Hl Hc Hn. unfold scanSipCallId. change (str "@") with [64]. rewrite matchText_eq by exact Hn.
  rewrite (breakIn_first [64] l 64) by (exact Hc || reflexivity). now rewrite SipViaProps.nonempty_len.
Qed.

Lemma newCSeq_read n m :
  starts (n ++ 32 :: m) = true -> n <> [] -> noneOf [32] n = true -> trimmed m = true -> zlen (n ++ 32 :: m) < npos ->
  newCSeq strict (n ++ 32 :: m) = Ret (mkCSeq n m).
Proof.
  intros Hs Hn Hc Hm Hl. apply starts_long in Hs as (_ & _ & Ht). unfold newCSeq. rewrite Ht. change (str " ") with [32].
  rewrite matchText_eq by exact Hl. rewrite (breakIn_first [32] n 32) by (exact Hc || reflexivity).
  rewrite SipViaProps.nonempty_len by exact Hn. cbn [mbind outcome_bind]. now rewrite removeSpacesText_trimmed.
Qed.

Lemma nonempty_positive {A} (l : list A) : l <> [] -> (0 <? zlen l) = true.
Proof. intros H. apply SipViaProps.nonempty_len in H. pose proof (zlen_nonneg l). lia. Qed.

Lemma printed_line t name v :
  str name = headerTypeEncode t ++ str ": " -> printed name v = oneLine (headerTypeEncode t) v ++ [13; 10].
Proof. intros E. unfold printed, oneLine. now rewrite E, <- !app_assoc. Qed.

(** A canonical value is printed as the line [name: value], but for the two
    blanks of an Organization. *)
Definition lineValue (t : SipHeaderType) (v : bytes) : bytes :=
  if bool_decide (t = SIP_ORGANIZATION_HDR) then 32 :: v else v.

Definition printsAs (t : SipHeaderType) (v : bytes) (f : field) : Prop :=
  encodeStack f = oneLine (headerTypeEncode t) (lineValue t v) ++ [13; 10].

(** Rewrites with the known values of tests. *)
Ltac tests := repeat match goal with H : @eq bool ?x _ |- context [?x] => rewrite H end.

Lemma canonical_field t v ip :
  Canonical t v ->
  decodeHeader t v ip = Ret None \/
  exists f, constructStack t v ip = Ret f /\ printsAs t v f.
Proof.
  intros H. unfold printsAs. destruct H; try (left; reflexivity); right; unfold constructStack; cbn [constructField];
    repeat match goal with H : starts ?w = true |- _ =>
      lazymatch goal with H' : textEq w [] = false |- _ => fail | _ => pose proof (starts_long _ H) as (? & ? & ?) end end.
  - exists (FVia v). rewrite SipViaProps.decodeVia_text by assumption. split; [reflexivity|].
    unfold encodeStack; cbn [encodeField]. now rewrite (SipViaProps.encodeVia_ok isIp6).
  - exists (FCallId (mkCallId l [])). unfold newCallId. rewrite scanSipCallId_local by assumption. tests. split; [reflexivity|].
    unfold encodeStack; cbn [encodeField]. unfold encodeCallId, getCallIdData. cbn [localid host]. tests. rewrite app_nil_r. now apply printed_line.
  - exists (FCallId (mkCallId l h)). unfold newCallId. rewrite scanSipCallId_full by assumption. tests. split; [reflexivity|].
    unfold encodeStack; cbn [encodeField]. unfold encodeCallId, getCallIdData. cbn [localid host]. rewrite !nonempty_positive by assumption.
    now apply printed_line.
  - exists (FCSeq (mkCSeq n m)). rewrite newCSeq_read by assumption. split; [reflexivity | now apply printed_line].
  - exists (FMaxForwards n). rewrite newMaxForwards_itoa by assumption. split; [reflexivity|]. unfold encodeStack; cbn [encodeField].
    unfold encodeMaxForwards. destruct (Z.ltb_spec 0 n); [now apply printed_line | lia].
  - exists (FExpires d). unfold newExpires. tests. split; [reflexivity|]. unfold encodeStack; cbn [encodeField]. unfold encodeExpires. tests.
    now apply printed_line.
  - exists (FContentLength l). unfold newText. tests. split; [reflexivity|]. unfold encodeStack; cbn [encodeField]. unfold encodeContentLength. tests.
    now apply printed_line.
  - exists (FSubject d). unfold newText. tests. split; [reflexivity|]. unfold encodeStack; cbn [encodeField]. unfold encodeSubject. tests.
    now apply printed_line.
  - exists (FOrganization d). unfold newOrganization. rewrite cstr_clean by assumption. tests. split; [reflexivity|].
    unfold encodeStack; cbn [encodeField]. unfold encodeOrganization. tests. reflexivity.
  - exists (FPriority d). unfold newPriority. tests. split; [reflexivity|]. unfold encodeStack; cbn [encodeField]. unfold encodePriority. tests.
    now apply printed_line.
  - exists (FHide d). unfold newHide. tests. split; [reflexivity|]. unfold encodeStack; cbn [encodeField]. unfold encodeHide. tests.
    now apply printed_line.
Qed.

(** A second blank after the colon is skipped like the first. *)
Lemma HeaderLine_blank ip n v y :
  nameText n = true -> HeaderLine ip (oneLine n v) y -> HeaderLine ip (oneLine n (32 :: v)) y.
Proof.
  intros Hn H. pose proof (breakIn_oneLine n (32 :: v) Hn) as E. pose proof (breakIn_oneLine n v Hn) as E'.
  destruct H as [n' x r Hb Hm | n' x r vs Hb Hm Hs]; rewrite E' in Hb; injection Hb as <- <- <-.
  - exact (HeaderLine_one ip _ n 58 (32 :: 32 :: v) E Hm).
  - exact (HeaderLine_many ip _ n 58 (32 :: 32 :: v) vs E Hm Hs).
Qed.

Lemma canonical_single t v : Canonical t v -> listType t = false.
Proof. now destruct 1. Qed.

Lemma canonical_known t v ip f :
  Canonical t v -> decodeHeader t v ip = Ret None \/
  (constructStack t v ip = Ret f -> decodeHeader (SH := stack) t v ip = Ret (Some f)).
Proof. destruct 1; try (left; reflexivity); right; intros E; unfold decodeHeader; cbn [construct stack stackHeaders]; fold constructStack; now rewrite E. Qed.

Lemma canonical_survives ip t h : Clean ip t h -> Canonical t (headerValue h) -> Survives ip t h.
Proof.
  intros Hh Hc. pose proof (canonical_single _ _ Hc) as Hl. pose proof (HeaderLine_single ip t h Hh Hl) as Hline.
  destruct (canonical_field _ _ ip Hc) as [E | (f & E & Hp)]; [now apply Survives_text|].
  destruct (canonical_known _ _ ip f Hc) as [E' | E']; [now apply Survives_text|]. specialize (E' E).
  assert (t <> SIP_UNKNOWN_HDR) as Ht by (intros ->; discriminate E').
  rewrite (clean_known _ _ _ Hh Ht) in Hline. pose proof (headerTypeEncode_name t Ht) as Hn.
  apply (Survives_line (SH := stack) _ _ _ f (oneLine (headerTypeEncode t) (lineValue t (headerValue h)))); [exact Hl | exact E' | exact Hp |].
  split; [|split; [now apply oneLine_not_blank|]].
  - unfold oneLine. rewrite !noneOf_app, (name_no_lf _ Hn). unfold lineValue.
    case_bool_decide; rewrite ?noneOf_cons; now rewrite (clean_no_lf _ _ _ Hh).
  - unfold lineValue. case_bool_decide; [now apply HeaderLine_blank | exact Hline].
Qed.

(** A message with parsed headers is read back.  A container whose headers
    are parsed one after the other, as [SipMsg::forceParse] does, by the
    classes of the stack prints a message that is read as the container that
    was parsed: for every value in the form that its class prints, and for the
    classes that are not modelled if their headers survive. *)
Theorem parsed_message_roundtrip ip c body :
  wf c ->
  (forall t, Forall (fun h => Clean ip t h /\
     if modelled t then Canonical t (headerValue h) else Survives ip t h) (slot c t)) ->
  exists c' text, forceParse c = Ret c' /\ Container.encode c' [] = Ret text /\
    Container.decode ip (text ++ [13; 10] ++ body) newContainer = Ret (false, c, body).
Proof.
  intros Hc Hx. apply survivors_roundtrip; [exact Hc|]. intros t. specialize (Hx t). revert Hx. apply Forall_impl.
  intros h [Hh Hs]. split; [exact Hh|]. destruct (modelled t); [now apply canonical_survives | exact Hs].
Qed.

(** What parsing loses.  A header is printed as nothing once it was parsed
    when it is a Max-Forwards of 0 or any Mime-Version; a Content-Encoding is
    printed with its name twice; a Priority that is copied is printed as
    nothing; and the strict parser throws for the value [route] of Hide. *)
Theorem parsed_header_lost ip v :
  (exists n, constructStack SIP_MAX_FORWARDS_HDR (str "0") ip = Ret (FMaxForwards n) /\
     encodeStack (FMaxForwards n) = []) /\
  (zlen v < npos -> constructStack SIP_MIME_VERSION_HDR v ip = Fault Exception \/
     exists m, constructStack SIP_MIME_VERSION_HDR v ip = Ret (FMimeVersion m) /\
       encodeStack (FMimeVersion m) = []) /\
  (starts v = true -> forallb isToken v = true ->
     exists d, constructStack SIP_CONTENT_ENCODING_HDR v ip = Ret (FContentEncoding d) /\
       encodeStack (FContentEncoding d) = str "Content-Encoding :" ++ v) /\
  (forall p, encodeStack (duplicateStack (FPriority p)) = []) /\
  (strict = true -> constructStack SIP_HIDE_HDR (str "route") ip = Fault Exception).
Proof.
  split; [|split; [|split; [|split]]].
  - exists 0. split; reflexivity.
  - intros Hv. unfold constructStack; cbn [constructField]. unfold newMimeVersion, throws. destruct (textEq v []); [right; now exists []|].
    change (str ".") with [46]. rewrite matchText_eq by exact Hv.
    destruct strict, (breakIn [46] v) as [[[b x] r]|]; cbn [mbind outcome_bind]; try destruct (_ =? 0);
      repeat destruct (forallb _ _); (now left) || (right; now exists []).
  - intros Hs Ht. exists v. unfold constructStack; cbn [constructField]. unfold newContentEncoding, starts in *.
    apply negb_true_iff in Hs. rewrite Hs, cstr_clean, Ht; [split; reflexivity|].
    clear Hs. induction v as [|x v IH]; [reflexivity|]. cbn [forallb] in Ht. apply andb_prop in Ht as [Hx Ht].
    rewrite noneOf_cons, isIn_single, IH by exact Ht. destruct (Z.eqb_spec x 0) as [->|]; [discriminate Hx | reflexivity].
  - reflexivity.
  - intros E. unfold constructStack, constructField, newHide, throws. now rewrite E.
Qed.

End Stack.

(** * Samples *)

#[local] Instance sampleStack : SipHeaderClass := stack true (fun _ => false) [] (Other := textHeaders).

Definition stackHeader (n v : String.string) : SipRawHeader := named [] (str n) (str v).
Arguments stackHeader n%_string_scope v%_string_scope.

Definition sampleMessage : container :=
  upd SIP_VIA_HDR [stackHeader "Via" "SIP/2.0/UDP a:5060"; stackHeader "Via" "SIP/2.0/UDP b:5060"]
    (upd SIP_CALLID_HDR [stackHeader "Call-ID" "1@h"] (upd SIP_CSEQ_HDR [stackHeader "CSeq" "1 INVITE"]
      (upd SIP_MAX_FORWARDS_HDR [stackHeader "Max-Forwards" "70"]
        (upd SIP_ORGANIZATION_HDR [stackHeader "Organization" "Vovida"]
          (upd SIP_CONTENT_LENGTH_HDR [stackHeader "Content-Length" "0"]
            (upd SIP_UNKNOWN_HDR [stackHeader "X-Color" "red"] newContainer)))))).

Definition plainVia (h : String.string) : SipViaHdr.Via :=
  SipViaHdr.mkVia (str h) (str "5060") (str "SIP") (str "2.0") (str "UDP") [] [] [] [] [] [] [] false false false false false
    false false [].
Arguments plainVia h%_string_scope.

(** Solves that a header of the sample is clean and canonical. *)
Ltac sample_header H := split; [constructor; (reflexivity || (intros; congruence)) | apply H; solve [reflexivity | discriminate | lia]].

Lemma parsed_message_roundtrip_witness :
  exists c' text, forceParse sampleMessage = Ret c' /\ Container.encode c' [] = Ret text /\
    Container.decode [] (text ++ [13; 10] ++ str "body") newContainer = Ret (false, sampleMessage, str "body").
Proof.
  apply (parsed_message_roundtrip true (fun _ => false) [] (Other := textHeaders) [] sampleMessage (str "body")); [reflexivity|].
  intros t. destruct t; try apply List.Forall_nil; cbn [slot]; repeat apply List.Forall_cons; try apply List.Forall_nil.
  - sample_header (Canonical_id (fun _ => false) (str "1") (str "h")).
  - sample_header (Canonical_length (fun _ => false) (str "0")).
  - sample_header (Canonical_cseq (fun _ => false) (str "1") (str "INVITE")).
  - sample_header (Canonical_hops (fun _ => false) 70).
  - sample_header (Canonical_organization (fun _ => false) (str "Vovida")).
  - sample_header (Canonical_via (fun _ => false) (plainVia "a")).
  - sample_header (Canonical_via (fun _ => false) (plainVia "b")).
  - sample_header (Canonical_unknown (fun _ => false) (str "red")).
Defined.

Lemma parsed_header_lost_witness :
  exists d, constructStack true (fun _ => false) [] (Other := textHeaders) SIP_CONTENT_ENCODING_HDR (str "gzip") [] =
      Ret (FContentEncoding d) /\
    encodeStack (FContentEncoding d) = str "Content-Encoding :gzip".
Proof. apply (parsed_header_lost true (fun _ => false) [] (Other := textHeaders) [] (str "gzip")); reflexivity. Defined.

End SipParsed.
