(* ===== verification/SipEscape.v ===== *)
(** Headers inside a SIP URL (sip/sipstack/EmbeddedObj.cxx): what follows the
    question mark of a URL is unescaped and read as the headers of a message.

    The unescaping works in an array of 512 characters, [buf], which is set to
    zero first.  The headers that the object holds are kept as the text that
    they are read from. *)
From S2P Require Import Prelude DataStr DataStrFacts DataStrText SipHeap SipText SipRaw.
Import DataStr DataStrFacts DataStrText SipHeap SipText SipRaw.

Module SipEscape.

(** * The program *)

(** [_escRMap]: the character of a two-character code. *)
Definition escRMap (code : bytes) : option Z :=
  let oneOf l := existsb (fun c => bool_decide (code = str c)) l in
  if oneOf ["20"%string] then Some 32
  else if oneOf ["2C"%string; "2c"%string] then Some 44
  else if oneOf ["3D"%string; "3d"%string] then Some 61
  else if oneOf ["3B"%string; "3b"%string] then Some 59
  else if oneOf ["40"%string] then Some 64
  else if oneOf ["3A"%string; "3a"%string] then Some 58
  else if oneOf ["3c"%string; "3C"%string] then Some 60
  else if oneOf ["3e"%string; "3E"%string] then Some 62
  else None.

(** [_escFMap] *)
Definition escFMap (c : Z) : option bytes :=
  if c =? 32 then Some (str "%20") else if c =? 44 then Some (str "%2C") else if c =? 61 then Some (str "%3D")
  else if c =? 59 then Some (str "%3B") else if c =? 64 then Some (str "%40") else if c =? 58 then Some (str "%3A")
  else if c =? 60 then Some (str "%3C") else if c =? 62 then Some (str "%3E") else None.

Definition resChar : bytes := str " :,@;>=<".

(** The loop of [doForwardEscape] from [copyStartPos] on. *)
Fixpoint doForwardEscape (src : bytes) : bytes :=
  match src with
  | [] => []
  | c :: src' => (if isIn c resChar then default [] (escFMap c) else [c]) ++ doForwardEscape src'
  end.

(** [strlen] *)
Fixpoint strlen (m : bytes) : outcome Z :=
  match m with
  | [] => Fault OutOfBounds
  | c :: m' => if c =? 0 then mret 0 else n ← strlen m'; mret (1 + n)
  end.

Definition strlenAt (buf : bytes) (i : Z) : outcome Z :=
  if 0 <=? i then strlen (drop (Z.to_nat i) buf) else Fault OutOfBounds.

(** The position of the first [%] of the string in [buf]. *)
Definition escapeAt (buf : bytes) : option Z := search (str "%") (cstr buf) 0.

(** The loop that moves what follows the code at [k] over it. *)
Fixpoint closeUp (fuel : nat) (buf : bytes) (k i : Z) : outcome bytes :=
  match fuel with
  | O => Fault OutOfFuel
  | S fuel' =>
      n ← strlenAt buf (k - 1);
      if i <=? n then
        c ← rd buf (k + 3 + i);
        buf ← wr buf (k + 1 + i) c;
        closeUp fuel' buf k (i + 1)
      else mret buf
  end.

(** The loop over the codes. *)
Fixpoint reverseLoop (fuel : nat) (buf : bytes) : outcome bytes :=
  match fuel with
  | O => Fault OutOfFuel
  | S fuel' =>
      match escapeAt buf with
      | None => mret buf
      | Some k =>
          match escRMap (cstr (take 2 (drop (Z.to_nat (k + 1)) buf))) with
          | Some c => buf ← wr buf k c; buf ← closeUp (S (length buf)) buf k 0; reverseLoop fuel' buf
          | None => reverseLoop fuel' buf
          end
      end
  end.

Definition bufSize : Z := 512.

Definition doReverseEscape (fuel : nat) (src : bytes) : outcome bytes :=
  if zlen src <? bufSize then
    buf ← reverseLoop fuel (src ++ replicate (Z.to_nat (bufSize - zlen src)) 0);
    mret (cstr buf)
  else Fault OutOfBounds.

Record EmbeddedObj := mkEmbedded {
  headerText : option bytes;  (** what [_headerList] is read from *)
  rawData : bytes;
  escFData : bytes
}.

(** The constructor, [decode] and [fastDecode]. *)
Definition newEmbedded (raw : bytes) : outcome EmbeddedObj :=
  let src := cstr raw in
  if negb (noneOf (str "%") src) then
    s ← doReverseEscape (S (length src)) src;
    mret (mkEmbedded (Some (s ++ [13; 10])) raw src)
  else mret (mkEmbedded None raw (doForwardEscape src)).

(** [_headerList] *)
Definition headerList {SH : SipHeaderClass} (ip : bytes) (e : EmbeddedObj) : outcome Container.container :=
  match headerText e with
  | None => mret Container.newContainer
  | Some t => '(_, c, _) ← Container.decode ip t Container.newContainer; mret c
  end.

(** * What it computes *)

(** The text without its codes, or nothing when one is not known. *)
Fixpoint unescape (l : bytes) : option bytes :=
  match l with
  | [] => Some []
  | c :: l' =>
      if c =? 37 then
        match l' with
        | x :: y :: r => match escRMap [x; y] with Some d => cons d <$> unescape r | None => None end
        | _ => None
        end
      else cons c <$> unescape l'
  end.

Definition noNul (l : bytes) : bool := noneOf [0] l.

Lemma cstr_noNul l r : noNul l = true -> cstr (l ++ 0 :: r) = l.
Proof.
  intros H. apply cstr_nonzero. unfold noNul, noneOf in H. rewrite forallb_forall in H. apply List.Forall_forall.
  intros x Hx ->. specialize (H 0 Hx). discriminate H.
Qed.

Lemma strlen_text s r : noNul s = true -> strlen (s ++ 0 :: r) = Ret (zlen s).
Proof.
  induction s as [|c s IH]; [reflexivity|]. unfold noNul in *. rewrite noneOf_cons, isIn_single. intros [Hc Hs]%andb_prop.
  cbn [app strlen]. destruct (c =? 0); [discriminate|]. rewrite IH by exact Hs. cbn [mbind outcome_bind mret outcome_ret].
  now rewrite zlen_cons.
Qed.

(** The array while the code [x y] behind [c] is closed up: [i] characters of
    what follows have moved. *)
Definition moved (a : bytes) (c x y : Z) (b : bytes) (i : nat) : bytes :=
  a ++ c :: take i b ++ drop i (x :: y :: b).

Lemma moved_rd a c x y b i d : b !! i = Some d -> rd (moved a c x y b i) (zlen a + 3 + Z.of_nat i) = Ret d.
Proof.
  intros Hd. unfold rd, moved. pose proof (zlen_nonneg a). destruct (Z.leb_spec 0 (zlen a + 3 + Z.of_nat i)); [|lia].
  assert (i < length b)%nat as Hi by now apply lookup_lt_Some in Hd.
  replace (Z.to_nat (zlen a + 3 + Z.of_nat i)) with (length a + (3 + i))%nat by (unfold zlen; lia).
  rewrite lookup_app_r by lia. replace (length a + (3 + i) - length a)%nat with (S (2 + i)) by lia.
  rewrite lookup_cons, lookup_app_r by (rewrite length_take; lia). rewrite length_take, lookup_drop.
  replace (i + (2 + i - i `min` length b))%nat with (S (S i)) by lia. rewrite !lookup_cons. now rewrite Hd.
Qed.

Lemma moved_wr a c x y b i d :
  b !! i = Some d -> wr (moved a c x y b i) (zlen a + 1 + Z.of_nat i) d = Ret (moved a c x y b (S i)).
Proof.
  intros Hd. assert (i < length b)%nat as Hi by now apply lookup_lt_Some in Hd.
  assert (zlen (moved a c x y b i) = zlen a + 3 + zlen b) as Hz.
  { unfold moved, zlen. rewrite length_app. cbn [length]. rewrite length_app, length_take, length_drop. cbn [length]. lia. }
  unfold wr. rewrite Hz.
  assert ((0 <=? zlen a + 1 + Z.of_nat i) && (zlen a + 1 + Z.of_nat i <? zlen a + 3 + zlen b) = true) as ->.
  { apply andb_true_intro. split; apply Z.leb_le || apply Z.ltb_lt; unfold zlen; lia. }
  f_equal. unfold moved. replace (Z.to_nat (zlen a + 1 + Z.of_nat i)) with (length a + S i)%nat by (unfold zlen; lia).
  rewrite insert_app_r. f_equal.
  change (<[S i:=d]> (c :: take i b ++ drop i (x :: y :: b))) with (c :: <[i:=d]> (take i b ++ drop i (x :: y :: b))).
  f_equal. rewrite (take_S_r b i d Hd), <- app_assoc, insert_app_r_alt by (rewrite length_take; lia). f_equal.
  rewrite length_take, Nat.min_l, Nat.sub_diag by lia.
  destruct (drop i (x :: y :: b)) as [|z l] eqn:E.
  { apply (f_equal length) in E. rewrite length_drop in E. cbn in E. lia. }
  change (<[0%nat:=d]> (z :: l)) with (d :: l). cbn [app]. f_equal. replace (S i) with (i + 1)%nat by lia. now rewrite <- drop_drop, E.
Qed.

Lemma noneOf_take m n l : noneOf m l = true -> noneOf m (take n l) = true.
Proof. intros H. rewrite <- (take_drop n l), noneOf_app in H. now apply andb_prop in H. Qed.

Lemma noneOf_drop m n l : noneOf m l = true -> noneOf m (drop n l) = true.
Proof. intros H. rewrite <- (take_drop n l), noneOf_app in H. now apply andb_prop in H. Qed.

(** The length of the string from before the code on, while it is closed up. *)
Lemma moved_strlen a p c x y b m i :
  noNul [p; c] = true -> noNul (x :: y :: b) = true -> (i <= length b + 3)%nat -> (3 <= m)%nat ->
  exists n, strlenAt (moved (a ++ [p]) c x y (b ++ replicate m 0) i) (zlen a) = Ret n /\
    (Z.of_nat i <=? n) = bool_decide (i < length b + 3)%nat.
Proof.
  intros Hpc Hb Hi Hm. unfold strlenAt, moved. destruct (Z.leb_spec 0 (zlen a)); [|pose proof (zlen_nonneg a); lia].
  unfold zlen. rewrite Nat2Z.id, <- app_assoc, drop_app_length.
  destruct (decide (i <= length b)%nat) as [Hib | Hib].
  - rewrite take_app_le by exact Hib. change (x :: y :: b ++ replicate m 0) with ((x :: y :: b) ++ replicate m 0).
    rewrite drop_app_le by (cbn; lia). exists (Z.of_nat (length b + 4)). destruct m as [|m]; [lia|].
    change ([p] ++ c :: ?l) with ([p; c] ++ l). rewrite !app_assoc. change (replicate (S m) 0) with (0 :: replicate m 0).
    rewrite strlen_text.
    + split; [|rewrite bool_decide_true by lia; apply Z.leb_le; lia]. f_equal. unfold zlen. rewrite !length_app, length_take, length_drop.
      cbn [length]. lia.
    + unfold noNul in *. now rewrite !noneOf_app, Hpc, noneOf_take, noneOf_drop by (exact Hb || now rewrite !noneOf_cons in Hb; rewrite !andb_true_iff in Hb).
  - exists (Z.of_nat (length b + 2)). rewrite take_app_ge, <- app_assoc by lia.
    destruct (take (i - length b) (replicate m 0)) as [|z r] eqn:E.
    { apply (f_equal length) in E. rewrite length_take, length_replicate in E. cbn in E. lia. }
    assert (z = 0) as ->.
    { assert (z ∈ replicate m 0) as Hz by (rewrite <- (take_drop (i - length b) (replicate m 0)), E; apply list_elem_of_here).
      now apply elem_of_replicate in Hz. }
    change ([p] ++ c :: b ++ (0 :: r) ++ drop i (x :: y :: b ++ replicate m 0))
      with ((p :: c :: b) ++ 0 :: r ++ drop i (x :: y :: b ++ replicate m 0)).
    assert (noNul (p :: c :: b) = true) as Hn.
    { unfold noNul in *. rewrite !noneOf_cons in *. rewrite !andb_true_iff in *. tauto. }
    rewrite strlen_text by exact Hn. split; [f_equal; rewrite !zlen_cons; unfold zlen; lia|].
    destruct (decide (i < length b + 3)%nat) as [Hlt | Hge].
    + rewrite bool_decide_true by exact Hlt. apply Z.leb_le. lia.
    + rewrite bool_decide_false by exact Hge. apply Z.leb_gt. lia.
Qed.

(** The loop moves all that follows, and ends. *)
Lemma closeUp_moved a p c x y b m : forall i fuel,
  noNul [p; c] = true -> noNul (x :: y :: b) = true -> (3 <= m)%nat -> (i <= length b + 3)%nat ->
  (length b + 3 - i < fuel)%nat ->
  closeUp fuel (moved (a ++ [p]) c x y (b ++ replicate m 0) i) (zlen a + 1) (Z.of_nat i) =
    Ret (moved (a ++ [p]) c x y (b ++ replicate m 0) (length b + 3)).
Proof.
  intros i fuel Hpc Hb Hm. remember (length b + 3 - i)%nat as todo eqn:Et. revert i fuel Et.
  induction todo as [|todo IH]; intros i fuel Et Hi Hf; (destruct fuel as [|fuel]; [lia|]); cbn [closeUp];
    replace (zlen a + 1 - 1) with (zlen a) by lia;
    destruct (moved_strlen a p c x y b m i Hpc Hb Hi Hm) as (n & -> & Hn); cbn [mbind outcome_bind]; rewrite Hn.
  - rewrite bool_decide_false by lia. now replace (length b + 3)%nat with i by lia.
  - rewrite bool_decide_true by lia. assert (exists d, (b ++ replicate m 0) !! i = Some d) as (d & Hd).
    { apply lookup_lt_is_Some_2. rewrite length_app, length_replicate. lia. }
    assert (zlen (a ++ [p]) = zlen a + 1) as Hz by zlen_lia. rewrite <- Hz.
    rewrite (moved_rd _ _ _ _ _ _ d Hd). cbn [mbind outcome_bind]. rewrite (moved_wr _ _ _ _ _ _ d Hd).
    cbn [mbind outcome_bind]. rewrite Hz. replace (Z.of_nat i + 1) with (Z.of_nat (S i)) by lia. apply IH; lia.
Qed.

(** What one code becomes. *)
Lemma closeUp_text a p c x y b m :
  noNul [p; c] = true -> noNul (x :: y :: b) = true -> (3 <= m)%nat ->
  forall buf, buf = (a ++ [p]) ++ c :: x :: y :: b ++ replicate m 0 ->
  closeUp (S (length buf)) buf (zlen a + 1) 0 = Ret ((a ++ [p]) ++ c :: b ++ replicate (m + 2) 0).
Proof.
  intros Hpc Hb Hm buf ->. pose proof (closeUp_moved a p c x y b m 0) as H. unfold moved in H at 1. cbn [take drop app] in H.
  change (Z.of_nat 0) with 0 in H. rewrite H by (rewrite ?length_app, ?length_cons, ?length_app, ?length_replicate; cbn; lia || assumption).
  unfold moved. f_equal. f_equal. f_equal. rewrite take_app_ge by lia.
  change (x :: y :: b ++ replicate m 0) with ((x :: y :: b) ++ replicate m 0). rewrite drop_app_ge by (cbn; lia).
  rewrite <- app_assoc. f_equal. cbn [length].
  replace (length b + 3 - length b)%nat with 3%nat by lia. replace (length b + 3 - S (S (length b)))%nat with 1%nat by lia.
  rewrite take_replicate, drop_replicate, <- replicate_add. f_equal. lia.
Qed.

(** ** The loop over the codes *)

Lemma noNul_app a b : noNul (a ++ b) = noNul a && noNul b.
Proof. apply noneOf_app. Qed.

Lemma cstr_padded l m : noNul l = true -> (0 < m)%nat -> cstr (l ++ replicate m 0) = l.
Proof. intros Hl Hm. destruct m as [|m]; [lia|]. now apply cstr_noNul. Qed.

Lemma escapeAt_padded l m :
  noNul l = true -> (0 < m)%nat ->
  escapeAt (l ++ replicate m 0) = match breakIn [37] l with Some (b, _, _) => Some (zlen b) | None => None end.
Proof.
  intros Hl Hm. unfold escapeAt. rewrite cstr_padded by assumption. change (str "%") with [37]. rewrite search_single.
  now destruct (breakIn [37] l) as [[[b x] r]|].
Qed.

Lemma escRMap_char code c : escRMap code = Some c -> c <> 0 /\ c <> 37.
Proof. unfold escRMap. repeat destruct (existsb _ _); intros [= <-] || discriminate; split; discriminate. Qed.

Lemma escRMap_long code c : escRMap code = Some c -> exists x y, code = [x; y].
Proof.
  unfold escRMap. intros H. destruct code as [|x [|y [|z code]]]; [discriminate | | eauto |]; exfalso; revert H;
    cbn [existsb]; repeat rewrite bool_decide_false by (vm_compute; discriminate); discriminate.
Qed.

(** The code that is looked up behind a [%] of the string. *)
Lemma code_at a r m :
  noNul (a ++ 37 :: r) = true -> (1 < m)%nat ->
  cstr (take 2 (drop (Z.to_nat (zlen a + 1)) ((a ++ 37 :: r) ++ replicate m 0))) = take 2 r.
Proof.
  intros H Hm. replace (Z.to_nat (zlen a + 1)) with (length (a ++ [37])) by (rewrite length_app; unfold zlen; cbn; lia).
  rewrite (cons_middle 37 a r), (app_assoc a), <- app_assoc, drop_app_length.
  rewrite noNul_app in H. apply andb_prop in H as [_ H]. unfold noNul in H. rewrite noneOf_cons in H. apply andb_prop in H as [_ H].
  destruct m as [|[|m]]; [lia..|]. destruct r as [|x [|y r]]; [reflexivity | |].
  - cbn. rewrite noneOf_cons, isIn_single in H. now destruct (x =? 0).
  - cbn. rewrite !noneOf_cons, !isIn_single in H. now destruct (x =? 0), (y =? 0).
Qed.

(** One step of the loop over a code that is known. *)
Lemma reverse_known fuel a x y b c m :
  noNul (a ++ 37 :: x :: y :: b) = true -> noneOf [37] a = true -> a <> [] -> (3 <= m)%nat -> escRMap [x; y] = Some c ->
  reverseLoop (S fuel) ((a ++ 37 :: x :: y :: b) ++ replicate m 0) = reverseLoop fuel ((a ++ c :: b) ++ replicate (m + 2) 0).
Proof.
  intros Hn Ha Hne Hm Hc. cbn [reverseLoop]. rewrite escapeAt_padded, (breakIn_first [37] a 37) by (assumption || reflexivity || lia).
  rewrite code_at by (assumption || lia). change (take 2 (x :: y :: b)) with [x; y]. rewrite Hc.
  destruct (escRMap_char _ _ Hc) as [Hc0 _].
  assert (wr ((a ++ 37 :: x :: y :: b) ++ replicate m 0) (zlen a) c = Ret (a ++ c :: x :: y :: b ++ replicate m 0)) as ->.
  { rewrite <- app_assoc. apply wr_app_mid. }
  cbn [mbind outcome_bind]. destruct (exists_last Hne) as (a' & p & ->).
  rewrite noNul_app, noNul_app in Hn. apply andb_prop in Hn as [[_ Hp]%andb_prop Hb].
  replace (zlen (a' ++ [p])) with (zlen a' + 1) by zlen_lia.
  rewrite (closeUp_text a' p c x y b m); [| | | assumption | reflexivity].
  - cbn [mbind outcome_bind]. now rewrite <- (app_assoc (a' ++ [p]) (c :: b)).
  - unfold noNul in *. rewrite !noneOf_cons in *. apply andb_prop in Hp as [-> _]. rewrite isIn_single.
    destruct (Z.eqb_spec c 0); [contradiction | reflexivity].
  - unfold noNul in *. rewrite noneOf_cons in Hb. now apply andb_prop in Hb as [_ Hb].
Qed.

Lemma unescape_clean b l : noneOf [37] b = true -> unescape (b ++ l) = app b <$> unescape l.
Proof.
  induction b as [|c b IH]; cbn [app].
  - intros _. now destruct (unescape l).
  - rewrite noneOf_cons, isIn_single. intros [Hc Hb]%andb_prop. cbn [unescape]. destruct (c =? 37); [discriminate|].
    rewrite IH by exact Hb. now destruct (unescape l).
Qed.

(** An unknown code stays where it is, and the loop finds it again. *)
Lemma reverse_unknown fuel a r m :
  noNul (a ++ 37 :: r) = true -> noneOf [37] a = true -> (3 <= m)%nat -> escRMap (take 2 r) = None ->
  reverseLoop fuel ((a ++ 37 :: r) ++ replicate m 0) = Fault OutOfFuel.
Proof.
  intros Hn Ha Hm Hc. induction fuel as [|fuel IH]; [reflexivity|]. cbn [reverseLoop].
  rewrite escapeAt_padded, (breakIn_first [37] a 37) by (assumption || reflexivity || lia).
  rewrite code_at by (assumption || lia). rewrite Hc. exact IH.
Qed.

Lemma unescape_code x y b : unescape (37 :: x :: y :: b) = match escRMap [x; y] with Some d => cons d <$> unescape b | None => None end.
Proof. reflexivity. Qed.

Lemma unescape_short r : (length r < 2)%nat -> unescape (37 :: r) = None /\ escRMap (take 2 r) = None.
Proof.
  intros H. assert (escRMap (take 2 r) = None) as E.
  { destruct (escRMap (take 2 r)) as [c|] eqn:E; [|reflexivity]. apply escRMap_long in E as (x & y & E).
    apply (f_equal length) in E. rewrite length_take in E. cbn [length] in E. lia. }
  split; [|exact E]. now destruct r as [|x [|y r]]; [| |cbn in H; lia].
Qed.

(** The loop computes [unescape], or never ends. *)
Lemma reverseLoop_unescape n : forall l a m fuel,
  (length l <= n)%nat -> noNul (a ++ l) = true -> noneOf [37] a = true -> a <> [] -> (3 <= m)%nat ->
  match unescape l with
  | Some t =>
      (length l < fuel)%nat -> noNul (a ++ t) = true /\
      exists m', (0 < m')%nat /\ reverseLoop fuel ((a ++ l) ++ replicate m 0) = Ret ((a ++ t) ++ replicate m' 0)
  | None => reverseLoop fuel ((a ++ l) ++ replicate m 0) = Fault OutOfFuel
  end.
Proof.
  induction n as [n IH] using lt_wf_ind. intros l a m fuel Hl Hn Ha Hne Hm.
  destruct (breakIn [37] l) as [[[b x] r]|] eqn:E.
  - destruct (breakIn_Some _ _ _ _ _ E) as [-> Hx]. rewrite isIn_single in Hx. apply Z.eqb_eq in Hx as ->.
    assert (noneOf [37] b = true) as Hb by now apply breakIn_before in E.
    rewrite app_assoc in Hn |- *. assert (noneOf [37] (a ++ b) = true) as Hab by now rewrite noneOf_app, Ha, Hb.
    rewrite unescape_clean by exact Hb. destruct (decide (length r < 2)%nat) as [Hs | Hs].
    { destruct (unescape_short r Hs) as [-> Hc]. now apply reverse_unknown. }
    destruct r as [|x [|y r]]; [cbn [length] in Hs; lia.. | clear Hs].
    rewrite unescape_code. destruct (escRMap [x; y]) as [c|] eqn:Hc; [|now apply reverse_unknown].
    destruct (escRMap_char _ _ Hc) as [Hc0 Hc37]. rewrite length_app in Hl. cbn [length] in Hl.
    assert (noneOf [37] ((a ++ b) ++ [c]) = true) as Hd.
    { rewrite noneOf_app, Hab, noneOf_cons, isIn_single. now destruct (Z.eqb_spec c 37). }
    assert (noNul (((a ++ b) ++ [c]) ++ r) = true) as Hr.
    { unfold noNul in *. rewrite <- app_assoc. cbn [app]. rewrite noneOf_app, !noneOf_cons, !isIn_single in *.
      rewrite !andb_true_iff in *. destruct (Z.eqb_spec c 0); [contradiction|]. tauto. }
    specialize (IH (length r) ltac:(lia) r ((a ++ b) ++ [c]) (m + 2)%nat (pred fuel) ltac:(lia) Hr Hd
      ltac:(now destruct (a ++ b)) ltac:(lia)).
    assert (forall z, ((a ++ b) ++ [c]) ++ z = (a ++ b) ++ c :: z) as Ez by (intros z; now rewrite <- app_assoc).
    rewrite Ez in IH. destruct fuel as [|fuel].
    { destruct (unescape r); cbn [fmap option_fmap option_map]; [intros Hf; lia | reflexivity]. }
    rewrite reverse_known with (c := c) by (assumption || now destruct a).
    destruct (unescape r) as [t|]; cbn [fmap option_fmap option_map]; [|exact IH].
    intros Hf. cbn [pred] in IH. rewrite length_app in Hf. cbn [length] in Hf.
    destruct (IH ltac:(lia)) as (Ht & m' & Hm' & ->). rewrite !Ez in *. rewrite (app_assoc a b). split; [exact Ht | now exists m'].

  - assert (noneOf [37] l = true) as Hc.
    { destruct (noneOf [37] l) eqn:Hc; [reflexivity|]. destruct (breakIn_noneOf _ _ Hc) as (? & ? & ? & ?). congruence. }
    assert (unescape l = Some l) as ->.
    { rewrite <- (app_nil_r l) at 1. rewrite unescape_clean by exact Hc. cbn. now rewrite app_nil_r. }
    intros Hf. split; [exact Hn|]. exists m. split; [lia|]. destruct fuel as [|fuel]; [lia|]. cbn [reverseLoop].
    rewrite escapeAt_padded, breakIn_none by (rewrite ?noneOf_app, ?Ha; assumption || lia). reflexivity.
Qed.

Lemma maps_agree c : isIn c resChar = true -> exists x y, escFMap c = Some [37; x; y] /\ escRMap [x; y] = Some c.
Proof.
  intros (d & Hd & ->%Z.eqb_eq)%existsb_exists.
  repeat (destruct Hd as [<- | Hd]; [do 2 eexists; split; vm_compute; reflexivity|]). destruct Hd.
Qed.

(** The codes of [doForwardEscape] are known. *)
Lemma unescape_forward l : noneOf [37] l = true -> unescape (doForwardEscape l) = Some l.
Proof.
  induction l as [|c l IH]; [reflexivity|]. rewrite noneOf_cons, isIn_single. intros [Hc Hl]%andb_prop. specialize (IH Hl).
  cbn [doForwardEscape]. destruct (isIn c resChar) eqn:E.
  - destruct (maps_agree c E) as (x & y & -> & Hr). 
    change (unescape (37 :: x :: y :: doForwardEscape l) = Some (c :: l)). now rewrite unescape_code, Hr, IH.
  - cbn [app unescape]. destruct (c =? 37); [discriminate|]. now rewrite IH.
Qed.

Lemma noNul_forward l : noneOf [0; 37] l = true -> noNul (doForwardEscape l) = true.
Proof.
  induction l as [|c l IH]; [reflexivity|]. rewrite noneOf_cons. intros [Hc Hl]%andb_prop. cbn [doForwardEscape].
  rewrite noNul_app, (IH Hl), andb_true_r. destruct (isIn c resChar) eqn:E.
  - apply existsb_exists in E as (d & Hd & ->%Z.eqb_eq).
    repeat (destruct Hd as [<- | Hd]; [reflexivity|]). destruct Hd.
  - unfold noNul. rewrite noneOf_cons, isIn_single. cbn in Hc. now destruct (c =? 0).
Qed.

(** The whole operation on a text that does not begin with a code. *)
Lemma doReverseEscape_unescape p src :
  noNul (p :: src) = true -> p <> 37 -> zlen (p :: src) + 3 <= bufSize ->
  match unescape (p :: src) with
  | Some t => forall fuel, (length src < fuel)%nat -> doReverseEscape fuel (p :: src) = Ret t
  | None => forall fuel, doReverseEscape fuel (p :: src) = Fault OutOfFuel
  end.
Proof.
  intros Hn Hp Hl. unfold doReverseEscape. destruct (Z.ltb_spec (zlen (p :: src)) bufSize); [|lia].
  assert (noneOf [37] [p] = true) as Hp' by (rewrite noneOf_cons, isIn_single; now destruct (Z.eqb_spec p 37)).
  pose proof (fun fuel => reverseLoop_unescape (length src) src [p] (Z.to_nat (bufSize - zlen (p :: src))) fuel
    ltac:(lia) Hn Hp' ltac:(discriminate) ltac:(lia)) as H1.
  change (p :: src) with ([p] ++ src) at 1. rewrite unescape_clean by exact Hp'.
  change ([p] ++ src) with (p :: src) in H1.
  destruct (unescape src) as [t|]; cbn [fmap option_fmap option_map]; intros fuel; specialize (H1 fuel).
  - intros Hf. destruct (H1 Hf) as (Ht & m' & Hm' & ->). cbn [mbind outcome_bind mret outcome_ret].
    now rewrite cstr_padded.
  - now rewrite H1.
Qed.

(** * Properties *)

(** C22: the headers of a URL can stop the program.  A text that is unescaped,
    of fewer than 510 characters and not beginning with a code, becomes the text
    with the codes replaced when all of them are known; with one unknown code
    the loop never ends, whatever it is given.  A text that begins with a known
    code is read before the array, one of 512 characters or more is written
    beyond it. *)
Theorem unescaped_or_stuck p src :
  noNul (p :: src) = true ->
  (p <> 37 -> zlen (p :: src) + 3 <= bufSize ->
     match unescape (p :: src) with
     | Some t => forall fuel, (length src < fuel)%nat -> doReverseEscape fuel (p :: src) = Ret t
     | None => forall fuel, doReverseEscape fuel (p :: src) = Fault OutOfFuel
     end) /\
  (p = 37 -> zlen (p :: src) + 3 <= bufSize -> escRMap (take 2 src) <> None ->
     forall fuel, doReverseEscape (S fuel) (p :: src) = Fault OutOfBounds) /\
  (bufSize <= zlen (p :: src) -> forall fuel, doReverseEscape fuel (p :: src) = Fault OutOfBounds).
Proof.
  intros Hn. split; [|split].
  - intros Hp Hl. now apply doReverseEscape_unescape.
  - intros -> Hl Hc fuel. unfold doReverseEscape. destruct (Z.ltb_spec (zlen (37 :: src)) bufSize); [|lia]. cbn [reverseLoop].
    pose proof (escapeAt_padded (37 :: src) (Z.to_nat (bufSize - zlen (37 :: src))) Hn ltac:(lia)) as E. rewrite E.
    pose proof (code_at [] src (Z.to_nat (bufSize - zlen (37 :: src))) Hn ltac:(lia)) as Ec.
    change (breakIn [37] (37 :: src)) with (Some (@nil Z, 37, src)). change ([] ++ 37 :: src) with (37 :: src) in Ec. cbv beta iota.
    rewrite Ec. destruct (escRMap (take 2 src)) as [c|]; [|contradiction].
    reflexivity.
  - intros Hl fuel. unfold doReverseEscape. destruct (Z.ltb_spec (zlen (p :: src)) bufSize); [lia | reflexivity].
Qed.

(** Escaping is undone.  A text without percent signs that is escaped by the
    object, and does not begin with a reserved character, is unescaped to the
    same text if the escaped one is short enough. *)
Theorem escape_roundtrip p l :
  noneOf [0; 37] (p :: l) = true -> isIn p resChar = false -> zlen (doForwardEscape (p :: l)) + 3 <= bufSize ->
  doReverseEscape (S (length (doForwardEscape (p :: l)))) (doForwardEscape (p :: l)) = Ret (p :: l).
Proof.
  intros Hn Hp Hl. assert (noneOf [37] (p :: l) = true) as H37.
  { revert Hn. apply noneOf_weaken. intros c Hc. cbn in *. rewrite orb_false_r in *. now rewrite Hc, orb_true_r. }
  pose proof (noNul_forward (p :: l) Hn) as H0. pose proof (unescape_forward (p :: l) H37) as Hu.
  assert (doForwardEscape (p :: l) = p :: doForwardEscape l) as E by (cbn [doForwardEscape]; now rewrite Hp).
  rewrite E in *. pose proof (doReverseEscape_unescape p (doForwardEscape l) H0) as H. rewrite Hu in H.
  apply H; [|exact Hl|cbn [length]; lia]. intros ->. discriminate H37.
Qed.

Lemma unescaped_or_stuck_witness :
  (forall fuel, (12 < fuel)%nat -> doReverseEscape fuel (str "Route=%3Ca%3E") = Ret (str "Route=<a>")) /\
  (forall fuel, doReverseEscape fuel (str "Subject=%41") = Fault OutOfFuel).
Proof.
  split; [intros fuel Hf|intros fuel].
  - apply (unescaped_or_stuck 82 (str "oute=%3Ca%3E")); [reflexivity | discriminate | discriminate |].
    exact Hf.
  - apply (unescaped_or_stuck 83 (str "ubject=%41")); [reflexivity | discriminate | discriminate].
Defined.

Lemma escape_roundtrip_witness :
  doReverseEscape (S (length (doForwardEscape (str "Route=<a>")))) (doForwardEscape (str "Route=<a>")) = Ret (str "Route=<a>").
Proof. apply (escape_roundtrip 82 (str "oute=<a>")); [reflexivity | reflexivity | discriminate]. Defined.

End SipEscape.
