(* ===== verification/SipUser.v ===== *)
(** The users of URLs (sip/sipstack: BaseUser.cxx, SipUser.cxx,
    SipTelSubscriberUser.cxx): a text, or a telephone number with its
    parameters.

    The texts that [getGlobalPhoneNumber] and [getLocalPhoneNumber] keep for the
    next call are not part of the state: a number as the parser makes it has
    none, the setters drop it, and otherwise it is the one that would be computed
    (except after a second [decode] into the same object). *)
From S2P Require Import Prelude DataStr DataStrFacts DataStrText SipHeap SipText SipViaHdr.
Import DataStr SipHeap SipText.

Module SipUser.

Record SipTelSubscriberUser := mkTel {
  isGlobalPhoneNumber : bool;
  basePhoneNumber : bytes;
  isdnSubAddress : bytes;
  postDial : bytes;
  phoneContext : bytes;
  serviceProvider : bytes;
  futureExtensionName : bytes;
  futureExtensionValue : bytes
}.

Definition emptyTel : SipTelSubscriberUser := mkTel false [] [] [] [] [] [] [].

(** One parameter of a number. *)
Definition telParam (key value : bytes) (t : SipTelSubscriberUser) : SipTelSubscriberUser :=
  let '(mkTel g b i p c s n v) := t in
  if textEq key (str "isub") then mkTel g b value p c s n v
  else if textEq key (str "postd") then mkTel g b i value c s n v
  else if textEq key (str "phone-context") then mkTel g b i p value s n v
  else if textEq key (str "tsp") then mkTel g b i p c value n v
  else mkTel g b i p c s key value.

(** The loop over the parameters. *)
Fixpoint telParams (fuel : nat) (phoneData : bytes) (t : SipTelSubscriberUser) : outcome SipTelSubscriberUser :=
  match fuel with
  | O => Fault OutOfFuel
  | S fuel' =>
      '(key, matchedChar, phoneData) ← matchCharText (str "=") phoneData;
      if matchedChar =? 61 then
        '(value, matchedChar, phoneData) ← matchCharText (str ";") phoneData;
        let '(value, phoneData) := if matchedChar =? 59 then (value, phoneData) else (phoneData, []) in
        telParams fuel' phoneData (telParam key value t)
      else mret t
  end.

(** [SipTelSubscriberUser::decode]: a plus sign anywhere makes the number global. *)
Definition decodeTel (data : bytes) (t : SipTelSubscriberUser) : outcome SipTelSubscriberUser :=
  let '(mkTel g b i p c s n v) := t in
  '(_, parseFailed, phoneData) ← parseText (str "+") data;
  let g := if parseFailed : bool then g else true in
  '(base, matchFailed, phoneData) ← parseText (str ";") phoneData;
  if matchFailed : bool then mret (mkTel g phoneData i p c s n v)
  else telParams (S (length phoneData)) phoneData (mkTel g base i p c s n v).

Definition param (name : String.string) (value : bytes) : bytes :=
  if 0 <? zlen value then str ";" ++ str name ++ value else [].
Arguments param name%_string_scope value.

Definition futureExtension (t : SipTelSubscriberUser) : bytes :=
  if (0 <? zlen (futureExtensionName t)) && (0 <? zlen (futureExtensionValue t))
  then str ";" ++ futureExtensionName t ++ str "=" ++ futureExtensionValue t else [].

Definition getTelParams (t : SipTelSubscriberUser) : bytes :=
  param "isub=" (isdnSubAddress t) ++ param "postd=" (postDial t) ++ param "phone-context=" (phoneContext t) ++
  param "tsp=" (serviceProvider t) ++ futureExtension t.

Definition getGlobalPhoneNumber (t : SipTelSubscriberUser) : bytes :=
  if 0 <? zlen (basePhoneNumber t) then
    str "+" ++ basePhoneNumber t ++ param "isub=" (isdnSubAddress t) ++ param "postd=" (postDial t) ++
    param "phone-context" (phoneContext t) ++ param "tsp" (serviceProvider t) ++ futureExtension t
  else [].

Definition getLocalPhoneNumber (t : SipTelSubscriberUser) : bytes :=
  if 0 <? zlen (basePhoneNumber t) then
    basePhoneNumber t ++ param "isdn=" (isdnSubAddress t) ++ param "postd=" (postDial t) ++
    param "phone-context=" (phoneContext t) ++ param "tsp=" (serviceProvider t) ++ futureExtension t
  else [].

Definition encodeWithParams (t : SipTelSubscriberUser) : bytes :=
  if isGlobalPhoneNumber t then getGlobalPhoneNumber t else getLocalPhoneNumber t.

Definition encodeTel (t : SipTelSubscriberUser) : bytes :=
  (if isGlobalPhoneNumber t then str "+" else []) ++ basePhoneNumber t.

Definition telEq (a b : SipTelSubscriberUser) : bool :=
  eqb (isGlobalPhoneNumber a) (isGlobalPhoneNumber b) &&
  (textEq (basePhoneNumber a) (basePhoneNumber b) && textEq (isdnSubAddress a) (isdnSubAddress b) &&
   textEq (postDial a) (postDial b) && textEq (phoneContext a) (phoneContext b) &&
   textEq (serviceProvider a) (serviceProvider b) && textEq (futureExtensionName a) (futureExtensionName b) &&
   textEq (futureExtensionValue a) (futureExtensionValue b)).

Definition telLt (a b : SipTelSubscriberUser) : bool :=
  SipViaHdr.textLt (basePhoneNumber a) (basePhoneNumber b) || SipViaHdr.textLt (isdnSubAddress a) (isdnSubAddress b) ||
  SipViaHdr.textLt (postDial a) (postDial b) || SipViaHdr.textLt (phoneContext a) (phoneContext b) ||
  SipViaHdr.textLt (serviceProvider a) (serviceProvider b) ||
  SipViaHdr.textLt (futureExtensionName a) (futureExtensionName b) ||
  SipViaHdr.textLt (futureExtensionValue a) (futureExtensionValue b).

(** * The class BaseUser *)

Inductive BaseUser : Type :=
| IsSipUser (user : bytes)
| IsTelUser (t : SipTelSubscriberUser).

Definition encodeUser (u : BaseUser) : bytes :=
  match u with IsSipUser user => user | IsTelUser t => encodeTel t end.

Definition decodeUser (data : bytes) (u : BaseUser) : outcome BaseUser :=
  match u with
  | IsSipUser _ => mret (IsSipUser data)
  | IsTelUser t => t ← decodeTel data t; mret (IsTelUser t)
  end.

(** [areEqual] and [isLessThan]: of a telephone number with a null pointer they
    call a function of the null pointer. *)
Definition areEqualUser (u : BaseUser) (other : option BaseUser) : outcome bool :=
  match u, other with
  | IsSipUser a, Some (IsSipUser b) => mret (textEq a b)
  | IsTelUser a, Some (IsTelUser b) => mret (telEq a b)
  | IsTelUser _, None => Fault NullDeref
  | _, _ => mret false
  end.

Definition isLessThanUser (u : BaseUser) (other : option BaseUser) : outcome bool :=
  match u, other with
  | IsSipUser a, Some (IsSipUser b) => mret (SipViaHdr.textLt a b)
  | IsTelUser a, Some (IsTelUser b) => mret (telLt a b)
  | IsTelUser _, None => Fault NullDeref
  | _, _ => mret false
  end.

(** [operator<] of two pointers. *)
Definition userLt (left right : option BaseUser) : outcome bool :=
  match left, right with
  | None, None => mret false
  | None, Some _ => mret true
  | Some u, _ => isLessThanUser u right
  end.

End SipUser.
