(* ===== verification/SipUri.v ===== *)
(** SIP URLs (sip/sipstack/SipUrl.cxx): the fields, the parser [fastDecode] with
    what it leaves when it fails, the printers, the comparisons and the setters
    that do more than assign.

    [strict] is the parser mode: the constructor throws for a text that is not
    a URL, the lenient one keeps what was read.  The test for IPv6 addresses
    of NetworkAddress is the parameter [isIp6]. *)
From S2P Require Import Prelude DataStr DataStrFacts DataStrText SipHeap SipText SipViaHdr SipFields SipEscape SipUser.
Import DataStr DataStrFacts SipHeap(textEq, eqNoCase, toInt, itoa) SipText SipFields(isDigit) SipEscape SipUser.

Module SipUri.

Record SipUrl := mkSipUrl {
  local_ip : bytes;
  schemeName : bytes;
  user : option BaseUser;
  passwd : bytes;
  host : bytes;
  port : bytes;
  transportParam : bytes;
  ttlParam : bytes;
  maddrParam : bytes;
  userParam : bytes;
  methodParam : bytes;
  otherParam : bytes;
  otherName : bytes;
  headers : bytes;
  lrParam : bool;
  ipv6Addr : bool;
  EscObj : option EmbeddedObj
}.

Definition emptyUrl (ip : bytes) (lr : bool) : SipUrl :=
  mkSipUrl ip (str "sip") None [] [] [] [] [] [] [] [] [] [] [] lr false None.

(** * Setters *)

Definition setScheme (x : bytes) (u : SipUrl) : SipUrl :=
  mkSipUrl (local_ip u) x (user u) (passwd u) (host u) (port u) (transportParam u) (ttlParam u) (maddrParam u)
    (userParam u) (methodParam u) (otherParam u) (otherName u) (headers u) (lrParam u) (ipv6Addr u) (EscObj u).
Definition setUserField (x : option BaseUser) (u : SipUrl) : SipUrl :=
  mkSipUrl (local_ip u) (schemeName u) x (passwd u) (host u) (port u) (transportParam u) (ttlParam u) (maddrParam u)
    (userParam u) (methodParam u) (otherParam u) (otherName u) (headers u) (lrParam u) (ipv6Addr u) (EscObj u).
Definition setHostField (x : bytes) (u : SipUrl) : SipUrl :=
  mkSipUrl (local_ip u) (schemeName u) (user u) (passwd u) x (port u) (transportParam u) (ttlParam u) (maddrParam u)
    (userParam u) (methodParam u) (otherParam u) (otherName u) (headers u) (lrParam u) (ipv6Addr u) (EscObj u).
Definition setPortField (x : bytes) (u : SipUrl) : SipUrl :=
  mkSipUrl (local_ip u) (schemeName u) (user u) (passwd u) (host u) x (transportParam u) (ttlParam u) (maddrParam u)
    (userParam u) (methodParam u) (otherParam u) (otherName u) (headers u) (lrParam u) (ipv6Addr u) (EscObj u).
Definition setTransportParam (x : bytes) (u : SipUrl) : SipUrl :=
  mkSipUrl (local_ip u) (schemeName u) (user u) (passwd u) (host u) (port u) x (ttlParam u) (maddrParam u)
    (userParam u) (methodParam u) (otherParam u) (otherName u) (headers u) (lrParam u) (ipv6Addr u) (EscObj u).
Definition setTtlField (x : bytes) (u : SipUrl) : SipUrl :=
  mkSipUrl (local_ip u) (schemeName u) (user u) (passwd u) (host u) (port u) (transportParam u) x (maddrParam u)
    (userParam u) (methodParam u) (otherParam u) (otherName u) (headers u) (lrParam u) (ipv6Addr u) (EscObj u).
Definition setMaddrParam (x : bytes) (u : SipUrl) : SipUrl :=
  mkSipUrl (local_ip u) (schemeName u) (user u) (passwd u) (host u) (port u) (transportParam u) (ttlParam u) x
    (userParam u) (methodParam u) (otherParam u) (otherName u) (headers u) (lrParam u) (ipv6Addr u) (EscObj u).
Definition setUserParam (x : bytes) (u : SipUrl) : SipUrl :=
  mkSipUrl (local_ip u) (schemeName u) (user u) (passwd u) (host u) (port u) (transportParam u) (ttlParam u) (maddrParam u)
    x (methodParam u) (otherParam u) (otherName u) (headers u) (lrParam u) (ipv6Addr u) (EscObj u).
Definition setMethodParam (x : bytes) (u : SipUrl) : SipUrl :=
  mkSipUrl (local_ip u) (schemeName u) (user u) (passwd u) (host u) (port u) (transportParam u) (ttlParam u) (maddrParam u)
    (userParam u) x (otherParam u) (otherName u) (headers u) (lrParam u) (ipv6Addr u) (EscObj u).
Definition setOther (name x : bytes) (u : SipUrl) : SipUrl :=
  mkSipUrl (local_ip u) (schemeName u) (user u) (passwd u) (host u) (port u) (transportParam u) (ttlParam u) (maddrParam u)
    (userParam u) (methodParam u) x name (headers u) (lrParam u) (ipv6Addr u) (EscObj u).
Definition setHeaders (x : bytes) (u : SipUrl) : SipUrl :=
  mkSipUrl (local_ip u) (schemeName u) (user u) (passwd u) (host u) (port u) (transportParam u) (ttlParam u) (maddrParam u)
    (userParam u) (methodParam u) (otherParam u) (otherName u) x (lrParam u) (ipv6Addr u) (EscObj u).
Definition setLr (x : bool) (u : SipUrl) : SipUrl :=
  mkSipUrl (local_ip u) (schemeName u) (user u) (passwd u) (host u) (port u) (transportParam u) (ttlParam u) (maddrParam u)
    (userParam u) (methodParam u) (otherParam u) (otherName u) (headers u) x (ipv6Addr u) (EscObj u).
Definition setIpv6 (x : bool) (u : SipUrl) : SipUrl :=
  mkSipUrl (local_ip u) (schemeName u) (user u) (passwd u) (host u) (port u) (transportParam u) (ttlParam u) (maddrParam u)
    (userParam u) (methodParam u) (otherParam u) (otherName u) (headers u) (lrParam u) x (EscObj u).
Definition setEscObj (x : option EmbeddedObj) (u : SipUrl) : SipUrl :=
  mkSipUrl (local_ip u) (schemeName u) (user u) (passwd u) (host u) (port u) (transportParam u) (ttlParam u) (maddrParam u)
    (userParam u) (methodParam u) (otherParam u) (otherName u) (headers u) (lrParam u) (ipv6Addr u) x.

Definition initializeFrom (u : SipUrl) : SipUrl := setLr false (setHeaders [] (setMaddrParam [] (setTransportParam [] u))).
Definition initializeTo (u : SipUrl) : SipUrl := setLr false (setTtlField [] (setMaddrParam [] (setTransportParam [] u))).

(** [operator=] of an object of its own: a user and embedded headers stay when
    [src] has none, and the name of the other parameter always stays. *)
Definition assign (src this : SipUrl) : SipUrl :=
  mkSipUrl (local_ip src) (schemeName src) (match user src with Some x => Some x | None => user this end) (passwd src)
    (host src) (port src) (transportParam src) (ttlParam src) (maddrParam src) (userParam src) (methodParam src)
    (otherParam src) (otherName this) (headers src) (lrParam src) (ipv6Addr src)
    (match EscObj src with Some e => Some e | None => EscObj this end).

(** What [strtol] with base 10 leaves of a text: all of it when there is no number. *)
Fixpoint afterDigits (l : bytes) : bytes :=
  match l with c :: l' => if isDigit c then afterDigits l' else l | [] => [] end.

Fixpoint afterSpaces (l : bytes) : bytes :=
  match l with c :: l' => if (c =? 32) || ((9 <=? c) && (c <=? 13)) then afterSpaces l' else l | [] => [] end.

Definition strtolEnd (l : bytes) : bytes :=
  let number := match afterSpaces l with c :: l' => if (c =? 43) || (c =? 45) then l' else c :: l' | [] => [] end in
  let rest := afterDigits number in
  if zlen rest =? zlen number then l else rest.

(** [setPort] of a text that is not a number aborts. *)
Definition setPortData (newport : bytes) (u : SipUrl) : outcome SipUrl :=
  _ ← cassert (zlen (strtolEnd (cstr newport)) =? 0); mret (setPortField newport u).

Definition setPortNumber (p : Z) (u : SipUrl) : SipUrl := setPortField (itoa (u16 p)) u.

Section Url.
Context (strict : bool) (isIp6 : bytes -> bool).

Definition setHost (newhost : bytes) (u : SipUrl) : SipUrl := setHostField newhost (setIpv6 (isIp6 newhost) u).

(** The exception of a time to live out of range leaves the object as it was. *)
Definition setTtlParam (newttl : bytes) (u : SipUrl) : outcome SipUrl :=
  myttl ← toInt newttl;
  if (myttl <? 0) || (255 <? myttl) then Fault Exception else mret (setTtlField newttl u).

Definition setUserValue (newUser newUserParam : bytes) (u : SipUrl) : outcome (bool * SipUrl) :=
  let found :=
    match user u with
    | Some x => Some x
    | None =>
        if textEq newUserParam [] || textEq newUserParam (str "ip") then Some (IsSipUser [])
        else if textEq newUserParam (str "phone") then Some (IsTelUser emptyTel)
        else None
    end in
  match found with
  | None => mret (false, u)
  | Some x => x ← decodeUser newUser x; mret (true, setUserParam newUserParam (setUserField (Some x) u))
  end.

(** * The parser *)

(** [parseIpv6Address]: whether there is one, the URL and what follows. *)
Definition parseIpv6Address (inData : bytes) (u : SipUrl) : outcome (bool * SipUrl * bytes) :=
  '(aAddr, matchedChar, inData) ← matchCharText (str "]") inData;
  if matchedChar =? 93 then mret (true, setHostField (str "[" ++ aAddr ++ str "]") u, inData) else mret (false, u, inData).

(** What the parsing of the address leaves: whether it failed, the flags
    [hostValid] and [portValid], the URL and the text that follows. *)
Record address := mkAddress { hostValid : bool; portValid : bool; addressUrl : SipUrl; afterAddress : bytes }.

(** The port, up to a semicolon or the end. *)
Definition portBehind (valid : bool) (myData : bytes) (u : SipUrl) : outcome (option address * SipUrl) :=
  '(p, matchedChar, myData) ← matchCharText (str ";") myData;
  let '(p, myData) := if matchedChar =? 59 then (p, myData) else (myData, []) in
  let u := setPortField p u in mret (Some (mkAddress valid true u myData), u).

(** The address behind a user. *)
Definition addressAfterUser (myData : bytes) (u : SipUrl) : outcome (option address * SipUrl) :=
  '(before, matchedChar, myData) ← matchCharText (str "[") myData;
  let u := setHostField before u in
  '(ret, u, myData) ← (if matchedChar =? 91 then parseIpv6Address myData u else mret (true, u, myData));
  if negb ret then mret (None, u)
  else
    '(valid, matchedChar, u, myData) ←
      (if 0 <? zlen (host u) then
         '(_, matchedChar, myData) ← matchCharText (str ":;") myData; mret (true, matchedChar, u, myData)
       else
         '(h, matchedChar, myData) ← matchCharText (str ":;") myData;
         mret (0 <? zlen h, matchedChar, setHostField h u, myData));
    if matchedChar =? 58 then portBehind valid myData u
    else if matchedChar =? 59 then mret (Some (mkAddress valid false u myData), u)
    else let u := setHostField myData u in mret (Some (mkAddress true false u []), u).

(** The address without a user. *)
Definition addressOnly (myData : bytes) (u : SipUrl) : outcome (option address * SipUrl) :=
  '(_, matchedChar, myData) ← matchCharText (str "[") myData;
  '(ret, valid, u, myData) ←
    (if matchedChar =? 91 then '(ret, u, myData) ← parseIpv6Address myData u; mret (ret, ret, u, myData)
     else mret (true, false, u, myData));
  if negb ret then mret (None, u)
  else
    '(valid, matchedChar, u, myData) ←
      (if 0 <? zlen (host u) then
         '(_, matchedChar, myData) ← matchCharText (str ":;") myData; mret (valid, matchedChar, u, myData)
       else
         '(h, matchedChar, myData) ← matchCharText (str ":;") myData;
         mret (valid || (0 <? zlen h), matchedChar, setHostField h u, myData));
    if matchedChar =? 58 then portBehind valid myData u
    else if matchedChar =? 59 then mret (Some (mkAddress valid false u myData), u)
    else if negb valid then let u := setHostField myData u in mret (Some (mkAddress true false u []), u)
    else mret (Some (mkAddress valid false u myData), u).

(** One parameter: the URL, the text of the user and [userParamValid]. *)
Definition urlParam (key value : bytes) (matchedParam : bool) (u : SipUrl) (userInfo : bytes) (valid : bool)
  : SipUrl * bytes * bool :=
  if textEq key (str "user") then (setUserParam value u, userInfo, true)
  else if textEq key (str "transport") then (setTransportParam value u, userInfo, valid)
  else if textEq key (str "ttl") then (setTtlField value u, userInfo, valid)
  else if textEq key (str "maddr") then (setMaddrParam value u, userInfo, valid)
  else if textEq key (str "method") then (setMethodParam value u, userInfo, valid)
  else if matchedParam then
    if textEq (userParam u) (str "phone") then (u, userInfo ++ str ";" ++ key ++ str "=" ++ value, valid)
    else (setOther key value u, userInfo, valid)
  else (u, userInfo, valid).

(** The loop over the parameters, with what it leaves of the text. *)
Fixpoint urlParams (fuel : nat) (myData : bytes) (u : SipUrl) (userInfo : bytes) (valid : bool)
  : outcome (SipUrl * bytes * bool * bytes) :=
  match fuel with
  | O => Fault OutOfFuel
  | S fuel' =>
      '(key, matchedChar, myData) ← matchCharText (str "=") myData;
      if matchedChar =? 61 then
        '(value, matchedChar, myData) ← matchCharText (str ";?") myData;
        let '(value, myData, u, matchedParam) :=
          if matchedChar =? 63 then (value, [], setHeaders myData u, false)
          else if matchedChar =? 59 then (value, myData, u, true)
          else (myData, [], u, true) in
        key ← removeSpacesText key;
        let '(u, userInfo, valid) := urlParam key value matchedParam u userInfo valid in
        urlParams fuel' myData u userInfo valid
      else mret (u, userInfo, valid, myData)
  end.

(** The user, when there is one: a telephone number if the parameter [user] is
    there and not [ip]. *)
Definition makeUser (userInfo : bytes) (valid : bool) (u : SipUrl) : outcome BaseUser :=
  if negb valid || textEq (userParam u) (str "ip") then mret (IsSipUser userInfo)
  else t ← decodeTel userInfo emptyTel; mret (IsTelUser t).

Definition afterScheme (myData : bytes) (u : SipUrl) : outcome (bool * SipUrl) :=
  '(tmpData, matchedChar, myData) ← matchCharText (str "@") myData;
  let userValid := matchedChar =? 64 in
  let userInfo := if userValid then tmpData else [] in
  '(a, u) ← (if userValid then addressAfterUser myData u else addressOnly myData u);
  match a with
  | None => mret (false, u)
  | Some a =>
      if negb (hostValid a) then mret (false, u)
      else if portValid a && negb (forallb isDigit (port u)) then mret (false, u)
      else
        '(u, userInfo, valid, rest) ← urlParams (S (length (afterAddress a))) (afterAddress a) u userInfo false;
        let u := if textEq rest (str "lr") then setLr true u else u in
        if userValid then x ← makeUser userInfo valid u; mret (true, setUserField (Some x) u)
        else mret (true, u)
  end.

Definition fastDecode (myData : bytes) (u : SipUrl) : outcome (bool * SipUrl) :=
  '(myData, u) ←
    match breakIn (str "?") (cstr myData) with
    | Some (b, _, escData) => e ← newEmbedded escData; mret (b, setEscObj (Some e) u)
    | None => mret (myData, u)
    end;
  '(urlType, parseFailed, myData) ← parseText (str ":") myData;
  if parseFailed : bool then mret (false, u)
  else if negb (eqNoCase urlType (str "sip")) then mret (false, u)
  else afterScheme myData (setScheme urlType u).

(** The constructor. *)
Definition newSipUrl (data ip : bytes) (lr : bool) : outcome SipUrl :=
  if textEq data [] then mret (emptyUrl ip lr)
  else
    '(ok, u) ← fastDecode data (emptyUrl ip lr);
    if ok : bool then mret u else if strict then Fault Exception else mret u.

(** * Printing *)

Definition urlParamText (name : String.string) (value : bytes) : bytes :=
  if 0 <? zlen value then str ";" ++ str name ++ value else [].
Arguments urlParamText name%_string_scope value.

(** The user with its password, if what it prints is not blank. *)
Definition userInfoText (u : SipUrl) : outcome bytes :=
  match user u with
  | None => mret []
  | Some x =>
      blank ← removeSpacesText (encodeUser x);
      if 0 <? zlen blank then
        mret (encodeUser x ++ (if 0 <? zlen (passwd u) then str ":" ++ passwd u else []) ++ str "@")
      else mret []
  end.

Definition hostText (u : SipUrl) : bytes := if ipv6Addr u then str "[" ++ host u ++ str "]" else host u.

Definition portText (u : SipUrl) : bytes :=
  if (0 <? zlen (port u)) && negb (textEq (port u) (str "0")) then str ":" ++ port u else [].

Definition otherText (u : SipUrl) : bytes :=
  if 0 <? zlen (otherParam u) then str ";" ++ otherName u ++ str "=" ++ otherParam u else [].

Definition headersText (u : SipUrl) : bytes :=
  match EscObj u with Some e => str "?" ++ escFData e | None => [] end ++
  (if 0 <? zlen (headers u) then str "?" ++ headers u else []).

Definition encode (u : SipUrl) : outcome bytes :=
  info ← userInfoText u;
  mret (schemeName u ++ str ":" ++ info ++ hostText u ++ portText u ++
    urlParamText "transport=" (transportParam u) ++ urlParamText "ttl=" (ttlParam u) ++
    urlParamText "maddr=" (maddrParam u) ++ urlParamText "user=" (userParam u) ++
    urlParamText "method=" (methodParam u) ++ (if lrParam u then str ";lr" else []) ++ otherText u ++ headersText u ++
    match user u with Some (IsTelUser t) => getTelParams t | _ => [] end).

Definition getNameAddr (u : SipUrl) : outcome bytes :=
  info ← userInfoText u;
  mret ((if 0 <? zlen (schemeName u) then schemeName u ++ str ":" else []) ++ info ++ hostText u ++ portText u).

Definition getUserValue (u : SipUrl) : bytes := match user u with Some x => encodeUser x | None => [] end.

Definition getNameAddrNoPort (u : SipUrl) : bytes :=
  schemeName u ++ getUserValue u ++ (if 0 <? zlen (passwd u) then str ":" ++ passwd u else []) ++
  (if 0 <? zlen (getUserValue u) then str "@" else []) ++ hostText u ++
  (if (0 <? zlen (port u)) && negb (textEq (port u) (str "0")) && negb (textEq (port u) (str "5060"))
   then str ":" ++ port u else []).

Definition getUrlParam (u : SipUrl) : bytes :=
  urlParamText "transport=" (transportParam u) ++ urlParamText "ttl=" (ttlParam u) ++
  urlParamText "maddr=" (maddrParam u) ++ urlParamText "user=" (userParam u) ++
  urlParamText "method=" (methodParam u) ++ otherText u ++ headersText u.

(** * Comparison *)

(** A field that is not there counts as [default]. *)
Definition orDefault (default : String.string) (x : bytes) : bytes := if zlen x =? 0 then str default else x.
Arguments orDefault default%_string_scope x.

Definition equals (a b : SipUrl) : outcome bool :=
  equal ← match user a, user b with
          | Some x, Some y => areEqualUser x (Some y)
          | None, None => mret true
          | _, _ => mret false
          end;
  mret (equal && eqNoCase (schemeName a) (schemeName b) && textEq (passwd a) (passwd b) &&
    eqNoCase (host a) (host b) && eqNoCase (ttlParam a) (ttlParam b) && textEq (maddrParam a) (maddrParam b) &&
    eqNoCase (userParam a) (userParam b) && textEq (methodParam a) (methodParam b) &&
    eqNoCase (otherParam a) (otherParam b) && eqNoCase (headers a) (headers b) &&
    textEq (orDefault "5060" (port a)) (orDefault "5060" (port b)) &&
    textEq (orDefault "udp" (transportParam a)) (orDefault "udp" (transportParam b))).

(** [IsLess]: decides, or goes on. *)
Fixpoint lexLess (l : list (bytes * bytes)) : bool :=
  match l with
  | [] => false
  | (a, b) :: l' => if SipViaHdr.textLt a b then true else if SipViaHdr.textLt b a then false else lexLess l'
  end.

Definition less (a b : SipUrl) : outcome bool :=
  lt ← userLt (user a) (user b);
  if lt : bool then mret true
  else
    gt ← userLt (user b) (user a);
    if gt : bool then mret false
    else mret (lexLess [(passwd a, passwd b); (ttlParam a, ttlParam b); (maddrParam a, maddrParam b);
      (userParam a, userParam b); (methodParam a, methodParam b); (otherParam a, otherParam b); (port a, port b);
      (headers a, headers b)]).

End Url.
End SipUri.
