(* ===== verification/SipUriFacts.v ===== *)
(** SIP URLs: the parser ends for every text without embedded headers, and what
    it does with the parts of a URL. *)
From S2P Require Import Prelude DataStr DataStrFacts DataStrText SipHeap SipText SipViaHdr SipViaProps SipFields SipEscape SipUser SipUri.
Import DataStr DataStrFacts DataStrText SipHeap(textEq, eqNoCase, toInt, itoa) SipText SipFields(isDigit) SipEscape SipUser SipUri.

Module SipUriFacts.

(** Rewrites the literals of one character. *)
Ltac chars :=
  change (str "=") with [61] in *; change (str ";") with [59] in *; change (str "@") with [64] in *;
  change (str "[") with [91] in *; change (str "]") with [93] in *; change (str ":") with [58] in *;
  change (str "+") with [43] in *; change (str "?") with [63] in *; change (str ":;") with [58; 59] in *;
  change (str ";?") with [59; 63] in *.

(** * Lists of parameters *)

Abbreviation pair := (bytes * bytes)%type.

(** The parameters with what follows them, separated by semicolons. *)
Fixpoint paramsText (ps : list pair) (rest : bytes) : bytes :=
  match ps with
  | [] => rest
  | (k, v) :: ps' =>
      k ++ 61 :: v ++ match ps', rest with [], [] => [] | _, _ => 59 :: paramsText ps' rest end
  end.

(** The same with a semicolon before each. *)
Definition semiText (ps : list pair) (rest : bytes) : bytes :=
  match ps, rest with [], [] => [] | _, _ => 59 :: paramsText ps rest end.

Lemma paramsText_cons k v ps rest : paramsText ((k, v) :: ps) rest = k ++ 61 :: v ++ semiText ps rest.
Proof. destruct ps, rest; reflexivity. Qed.

Lemma semiText_join ps rest :
  mjoin (map (fun p : pair => 59 :: p.1 ++ 61 :: p.2) ps) ++ (match rest with [] => [] | _ :: _ => 59 :: rest end) = semiText ps rest.
Proof.
  induction ps as [|[k v] ps IH]; cbn [map mjoin list_join app fst snd]; [now destruct rest|].
  rewrite <- app_assoc. cbn [app]. unfold semiText at 1. rewrite paramsText_cons, <- IH. cbn [fst snd].
  destruct ps; (f_equal; rewrite <- app_assoc; cbn [app]; reflexivity).
Qed.

(** A parameter that can be read back. *)
Definition pairOk (p : pair) : Prop :=
  trimmed p.1 = true /\ noneOf [61] p.1 = true /\ noneOf [59; 63] p.2 = true.

(** The text of all the parameters is one parameter after the other. *)
Lemma semi_cut v ps rest :
  noneOf [59; 63] v = true ->
  breakIn [59; 63] (v ++ semiText ps rest) =
    match ps, rest with [], [] => None | _, _ => Some (v, 59, paramsText ps rest) end.
Proof.
  intros Hv. unfold semiText. destruct ps as [|p ps], rest as [|c rest];
    try (rewrite (breakIn_first [59; 63] v 59) by (exact Hv || reflexivity); reflexivity).
  rewrite app_nil_r. now apply breakIn_none.
Qed.

(** What the loop does with the parameters. *)
Definition urlRun (ps : list pair) (w : SipUrl * bytes * bool) : SipUrl * bytes * bool :=
  fold_left (fun '(u, info, valid) p => urlParam p.1 p.2 true u info valid) ps w.

Lemma urlParams_run ps rest : forall fuel u info valid,
  Forall pairOk ps -> noneOf [61] rest = true -> (length (paramsText ps rest) < fuel)%nat ->
  urlParams fuel (paramsText ps rest) u info valid =
    Ret (let '(u, info, valid) := urlRun ps (u, info, valid) in (u, info, valid, rest)).
Proof.
  intros fuel u info valid Hps Hr. revert fuel u info valid.
  induction Hps as [|[k v] ps (Ht & Hk & Hv) Hps IH]; intros fuel u info valid Hf; (destruct fuel as [|fuel]; [lia|]);
    cbn [urlParams]; chars; rewrite matchCharText_eq.
  - cbn [paramsText]. rewrite breakIn_none by exact Hr. reflexivity.
  - cbn [fst snd] in *. rewrite paramsText_cons in *. rewrite (breakIn_first [61] k 61) by (exact Hk || reflexivity).
    cbn [mbind outcome_bind]. change (61 =? 61) with true. cbv iota. rewrite matchCharText_eq, semi_cut by exact Hv.
    assert (forall u' info' valid', urlParams fuel (match ps, rest with [], [] => [] | _, _ => paramsText ps rest end) u' info' valid' =
      Ret (let '(u, info, valid) := urlRun ps (u', info', valid') in (u, info, valid, rest))) as Hgo.
    { intros u' info' valid'. rewrite length_app in Hf. cbn [length] in Hf. rewrite length_app in Hf.
      assert (length (paramsText ps rest) <= length (semiText ps rest))%nat by (unfold semiText; destruct ps, rest; cbn [length paramsText]; lia).
      destruct ps, rest; apply IH; lia. }
    destruct ps as [|p ps], rest as [|c rest]; cbn [mbind outcome_bind];
      rewrite removeSpacesText_trimmed by exact Ht; cbn [mbind outcome_bind];
      unfold urlRun; cbn [fold_left fst snd Z.eqb Pos.eqb].
    + rewrite app_nil_r. destruct (urlParam k v true u info valid) as [[u' info'] valid']. apply (Hgo u' info' valid').
    + destruct (urlParam k v true u info valid) as [[u' info'] valid']. apply (Hgo u' info' valid').
    + destruct (urlParam k v true u info valid) as [[u' info'] valid']. apply (Hgo u' info' valid').
    + destruct (urlParam k v true u info valid) as [[u' info'] valid']. apply (Hgo u' info' valid').
Qed.

(** * Telephone numbers *)

Definition field (name value : bytes) : list pair := if 0 <? zlen value then [(name, value)] else [].

Definition telPairs (t : SipTelSubscriberUser) : list pair :=
  field (str "isub") (isdnSubAddress t) ++ field (str "postd") (postDial t) ++
  field (str "phone-context") (phoneContext t) ++ field (str "tsp") (serviceProvider t) ++
  field (futureExtensionName t) (futureExtensionValue t).

Definition pairText (p : pair) : bytes := 59 :: p.1 ++ 61 :: p.2.

Lemma pairText_field name value :
  mjoin (map pairText (field name value)) = if 0 <? zlen value then 59 :: name ++ 61 :: value else [].
Proof. unfold field. destruct (0 <? zlen value); [|reflexivity]. cbn. now rewrite app_nil_r. Qed.

Lemma mjoin_app (a b : list bytes) : mjoin (a ++ b) = mjoin a ++ mjoin b.
Proof.
  induction a as [|x a IH]; [reflexivity|]. change (x ++ mjoin (a ++ b) = (x ++ mjoin a) ++ mjoin b).
  now rewrite IH, app_assoc.
Qed.

(** A name that no class of parameters knows. *)
Definition unknownTo (names : list bytes) (n : bytes) : bool := forallb (fun k => negb (textEq n k)) names.

Definition telNames : list bytes := [str "isub"; str "postd"; str "phone-context"; str "tsp"].

(** The extension is there with its name, or not at all. *)
Definition extensionOk (names : list bytes) (name value : bytes) : bool :=
  if 0 <? zlen value then (0 <? zlen name) && unknownTo names name else zlen name =? 0.

Definition telOk (t : SipTelSubscriberUser) : bool :=
  noneOf [43; 59] (basePhoneNumber t) &&
  forallb (noneOf [43; 59; 63]) [isdnSubAddress t; postDial t; phoneContext t; serviceProvider t; futureExtensionValue t] &&
  (noneOf [43; 59; 61] (futureExtensionName t) && trimmed (futureExtensionName t)) &&
  extensionOk telNames (futureExtensionName t) (futureExtensionValue t).

Lemma getTelParams_pairs t :
  extensionOk telNames (futureExtensionName t) (futureExtensionValue t) = true ->
  getTelParams t = mjoin (map pairText (telPairs t)).
Proof.
  intros H. unfold getTelParams, telPairs, futureExtension, param. rewrite !map_app, !mjoin_app, !pairText_field.
  repeat (f_equal; [destruct (0 <? zlen _); reflexivity|]). unfold extensionOk in H.
  destruct (0 <? zlen (futureExtensionValue t)); [|now rewrite andb_false_r].
  apply andb_prop in H as [-> _]. reflexivity.
Qed.

Definition telRun (ps : list pair) (t : SipTelSubscriberUser) : SipTelSubscriberUser :=
  fold_left (fun t p => telParam p.1 p.2 t) ps t.

Lemma semi_cut1 v ps :
  noneOf [59] v = true ->
  breakIn [59] (v ++ semiText ps []) = match ps with [] => None | _ :: _ => Some (v, 59, paramsText ps []) end.
Proof.
  intros Hv. unfold semiText. destruct ps as [|p ps].
  - rewrite app_nil_r. now apply breakIn_none.
  - now rewrite (breakIn_first [59] v 59).
Qed.

Lemma telParams_run ps : forall fuel t,
  Forall (fun p : pair => noneOf [61] p.1 = true /\ noneOf [59] p.2 = true) ps ->
  (length (paramsText ps []) < fuel)%nat -> telParams fuel (paramsText ps []) t = Ret (telRun ps t).
Proof.
  intros fuel t Hps. revert fuel t.
  induction Hps as [|[k v] ps (Hk & Hv) Hps IH]; intros fuel t Hf; (destruct fuel as [|fuel]; [lia|]);
    cbn [telParams]; chars; rewrite matchCharText_eq; [reflexivity|].
  cbn [fst snd] in *. rewrite paramsText_cons in *. rewrite (breakIn_first [61] k 61) by (exact Hk || reflexivity).
  cbn [mbind outcome_bind]. change (61 =? 61) with true. cbv iota. rewrite matchCharText_eq, semi_cut1 by exact Hv.
  rewrite length_app in Hf. cbn [length] in Hf. rewrite length_app in Hf.
  assert (length (paramsText ps []) <= length (semiText ps []))%nat by (unfold semiText; destruct ps; cbn [length paramsText]; lia).
  destruct ps as [|p ps]; cbn [mbind outcome_bind Z.eqb Pos.eqb semiText paramsText].
  - rewrite app_nil_r. apply (IH fuel (telParam k v t)). lia.
  - apply (IH fuel (telParam k v t)). lia.
Qed.

Lemma zlen_positive (l : bytes) : (0 <? zlen l) = false -> l = [].
Proof. destruct l as [|c l]; [reflexivity|]. rewrite zlen_cons. pose proof (zlen_nonneg l). intros E. apply Z.ltb_ge in E. lia. Qed.

Lemma zlen_zero (l : bytes) : (zlen l =? 0) = true -> l = [].
Proof. destruct l as [|c l]; [reflexivity|]. rewrite zlen_cons. pose proof (zlen_nonneg l). intros E. apply Z.eqb_eq in E. lia. Qed.

Lemma telRun_pairs g b i p c s n v :
  extensionOk telNames n v = true -> telRun (telPairs (mkTel g b i p c s n v)) (mkTel g b [] [] [] [] [] []) = mkTel g b i p c s n v.
Proof.
  intros H. unfold telPairs, telRun. cbn [isdnSubAddress postDial phoneContext serviceProvider futureExtensionName futureExtensionValue].
  rewrite !fold_left_app. unfold field.
  destruct (0 <? zlen i) eqn:Ei; [|apply zlen_positive in Ei as ->];
  (destruct (0 <? zlen p) eqn:Ep; [|apply zlen_positive in Ep as ->]);
  (destruct (0 <? zlen c) eqn:Ec; [|apply zlen_positive in Ec as ->]);
  (destruct (0 <? zlen s) eqn:Es; [|apply zlen_positive in Es as ->]);
  (unfold extensionOk in H; destruct (0 <? zlen v) eqn:Ev; [|apply zlen_positive in Ev as ->; apply zlen_zero in H as ->]);
  cbn [fold_left fst snd]; try reflexivity; unfold telParam;
  apply andb_prop in H as [_ H]; unfold unknownTo, telNames in H; cbn [forallb] in H;
  rewrite !andb_true_iff, !negb_true_iff in H; destruct H as (-> & -> & -> & -> & _); reflexivity.
Qed.

Lemma noneOf_params m ps rest :
  isIn 59 m = false -> isIn 61 m = false -> Forall (fun p : pair => noneOf m p.1 = true /\ noneOf m p.2 = true) ps ->
  noneOf m rest = true -> noneOf m (paramsText ps rest) = true /\ noneOf m (semiText ps rest) = true.
Proof.
  intros H59 H61 Hps Hr. induction Hps as [|[k v] ps [Hk Hv] Hps [IH1 IH2]].
  - split; [exact Hr|]. unfold semiText. destruct rest; [reflexivity|]. cbn [paramsText]. now rewrite noneOf_cons, H59.
  - assert (noneOf m (paramsText ((k, v) :: ps) rest) = true) as H.
    { rewrite paramsText_cons, noneOf_app, noneOf_cons, noneOf_app, H61. cbn [fst snd] in *. now rewrite Hk, Hv, IH2. }
    split; [exact H|]. unfold semiText. now rewrite noneOf_cons, H59.
Qed.

(** The text of parameters does not begin with a semicolon. *)
Lemma paramsText_start ps rest :
  Forall (fun p : pair => noneOf [59] p.1 = true) ps -> startsWith [59] rest = false -> startsWith [59] (paramsText ps rest) = false.
Proof.
  intros Hps Hr. destruct Hps as [|[k v] ps Hk Hps]; [exact Hr|]. rewrite paramsText_cons.
  destruct k as [|c k]; [reflexivity|]. cbn [fst] in Hk. rewrite noneOf_cons in Hk. apply andb_prop in Hk as [Hk _].
  now apply negb_true_iff in Hk.
Qed.

Lemma Forall_field (P : pair -> Prop) name value : ((0 <? zlen value) = true -> P (name, value)) -> Forall P (field name value).
Proof. intros H. unfold field. destruct (0 <? zlen value); [apply List.Forall_cons; [auto | apply List.Forall_nil] | apply List.Forall_nil]. Qed.

Lemma Forall_telPairs (P : pair -> Prop) t :
  P (str "isub", isdnSubAddress t) -> P (str "postd", postDial t) -> P (str "phone-context", phoneContext t) ->
  P (str "tsp", serviceProvider t) -> P (futureExtensionName t, futureExtensionValue t) -> Forall P (telPairs t).
Proof. intros. unfold telPairs. rewrite !Forall_app. repeat split; apply Forall_field; auto. Qed.

Lemma noneOf_join m1 m2 m l :
  noneOf m1 l = true -> noneOf m2 l = true -> (forall c, isIn c m = true -> isIn c m1 = true \/ isIn c m2 = true) -> noneOf m l = true.
Proof.
  intros H1 H2 Hm. induction l as [|c l IH]; [reflexivity|]. rewrite noneOf_cons in *.
  apply andb_prop in H1 as [H1 H1']. apply andb_prop in H2 as [H2 H2']. rewrite IH by assumption. rewrite andb_true_r.
  apply negb_true_iff in H1, H2. apply negb_true_iff. destruct (isIn c m) eqn:E; [|reflexivity].
  destruct (Hm c E); congruence.
Qed.

Ltac sub_noneOf := match goal with
  | H : noneOf ?m ?l = true |- noneOf ?m' ?l = true =>
      revert H; apply (noneOf_weaken m m'); let c := fresh in intros c; cbn; rewrite !orb_true_iff; intuition congruence
  end.

Lemma telOk_spec t :
  telOk t = true ->
  noneOf [43; 59] (basePhoneNumber t) = true /\ extensionOk telNames (futureExtensionName t) (futureExtensionValue t) = true /\
  Forall (fun p : pair => trimmed p.1 = true /\ noneOf [43; 59; 61] p.1 = true /\ noneOf [43; 59; 63] p.2 = true) (telPairs t).
Proof.
  unfold telOk. rewrite !andb_true_iff. intros (((Hb & Hf) & Hn & Ht) & He). split; [exact Hb|]. split; [exact He|].
  cbn [forallb] in Hf. rewrite !andb_true_iff in Hf. destruct Hf as (H1 & H2 & H3 & H4 & H5 & _).
  apply Forall_telPairs; cbn [fst snd]; repeat split; assumption || reflexivity.
Qed.

(** A number that is printed is read back. *)
Lemma decodeTel_text t : telOk t = true -> decodeTel (encodeTel t ++ getTelParams t) emptyTel = Ret t.
Proof.
  intros H. destruct (telOk_spec t H) as (Hb & He & Hps). rewrite (getTelParams_pairs t He).
  pose proof (semiText_join (telPairs t) []) as Ej. rewrite app_nil_r in Ej. change (fun p : pair => 59 :: p.1 ++ 61 :: p.2) with pairText in Ej.
  rewrite Ej. unfold decodeTel, emptyTel, encodeTel. chars.
  assert (noneOf [43] (basePhoneNumber t ++ semiText (telPairs t) []) = true) as H43.
  { rewrite noneOf_app. apply andb_true_intro. split; [sub_noneOf|].
    apply noneOf_params; [reflexivity | reflexivity | | reflexivity]. revert Hps. apply Forall_impl.
    intros p (_ & Hk & Hv). split; sub_noneOf. }
  assert (parseText [43] (((if isGlobalPhoneNumber t then [43] else []) ++ basePhoneNumber t) ++ semiText (telPairs t) []) =
    Ret (if isGlobalPhoneNumber t then ([], false, basePhoneNumber t ++ semiText (telPairs t) [])
         else ([], true, basePhoneNumber t ++ semiText (telPairs t) []))) as ->.
  { rewrite parseText_eq, <- app_assoc. destruct (isGlobalPhoneNumber t); cbn [app].
    - cbn [breakIn isIn existsb Z.eqb Pos.eqb orb]. now rewrite dropIn_clean by now apply noneOf_startsWith.
    - now rewrite breakIn_none. }
  assert (parseText [59] (basePhoneNumber t ++ semiText (telPairs t) []) =
    Ret match telPairs t with [] => ([], true, basePhoneNumber t) | _ :: _ => (basePhoneNumber t, false, paramsText (telPairs t) []) end) as E59.
  { rewrite parseText_eq, semi_cut1 by sub_noneOf. destruct (telPairs t) as [|p ps] eqn:Ep.
    - unfold semiText. now rewrite app_nil_r.
    - rewrite dropIn_clean; [reflexivity|]. apply paramsText_start; [|reflexivity]. rewrite <- Ep in *. revert Hps. apply Forall_impl.
      intros q (_ & Hk & _). sub_noneOf. }
  assert (forall g, telParams (S (length (paramsText (telPairs t) []))) (paramsText (telPairs t) [])
    (mkTel g (basePhoneNumber t) [] [] [] [] [] []) = Ret (telRun (telPairs t) (mkTel g (basePhoneNumber t) [] [] [] [] [] []))) as Hrun.
  { intros g. apply telParams_run; [|lia]. revert Hps. apply Forall_impl.
    intros q (_ & Hk & Hv). split; sub_noneOf. }
  assert (telRun (telPairs t) (mkTel (isGlobalPhoneNumber t) (basePhoneNumber t) [] [] [] [] [] []) = t) as Et.
  { destruct t. now apply telRun_pairs. }
  destruct (isGlobalPhoneNumber t); cbn [mbind outcome_bind]; rewrite E59; cbn [mbind outcome_bind];
    (destruct (telPairs t) as [|p ps]; [cbn [mret outcome_ret]; f_equal; exact Et | etransitivity; [apply Hrun | now f_equal]]).
Qed.

(** * The address *)

(** A name or an IPv4 address, or an address in brackets. *)
Definition plainHost (h : bytes) : bool := (0 <? zlen h) && noneOf [58; 59; 91] h.
Definition bracketed (h : bytes) : bool :=
  match h with
  | c :: h' => (c =? 91) && match breakIn [93] h' with Some (_, _, []) => true | _ => false end
  | [] => false
  end.

Definition portPart (p : bytes) : bytes := match p with [] => [] | _ :: _ => 58 :: p end.

(** Nothing follows the host. *)
Definition bare (p : bytes) (ps : list pair) (rest : bytes) : bool :=
  match p, ps, rest with [], [], [] => true | _, _, _ => false end.

Lemma semi_cut2 x ps rest :
  noneOf [59] x = true ->
  breakIn [59] (x ++ semiText ps rest) = match ps, rest with [], [] => None | _, _ => Some (x, 59, paramsText ps rest) end.
Proof.
  intros Hx. unfold semiText. destruct ps as [|p ps], rest as [|c rest];
    try (rewrite (breakIn_first [59] x 59) by (exact Hx || reflexivity); reflexivity).
  rewrite app_nil_r. now apply breakIn_none.
Qed.

Lemma tail_cut x p ps rest :
  noneOf [58; 59] x = true ->
  breakIn [58; 59] (x ++ portPart p ++ semiText ps rest) =
    match p with
    | [] => match ps, rest with [], [] => None | _, _ => Some (x, 59, paramsText ps rest) end
    | _ :: _ => Some (x, 58, p ++ semiText ps rest)
    end.
Proof.
  intros Hx. destruct p as [|c p]; cbn [portPart app].
  - unfold semiText. destruct ps as [|q ps], rest as [|d rest];
      try (rewrite (breakIn_first [58; 59] x 59) by (exact Hx || reflexivity); reflexivity).
    rewrite app_nil_r. now apply breakIn_none.
  - now rewrite (breakIn_first [58; 59] x 58).
Qed.

Definition withPort (p : bytes) (u : SipUrl) : SipUrl := match p with [] => u | _ :: _ => setPortField p u end.

Lemma bracketed_spec h : bracketed h = true -> exists a, h = 91 :: a ++ [93] /\ noneOf [93] a = true.
Proof.
  destruct h as [|c h]; [discriminate|]. cbn [bracketed]. intros [->%Z.eqb_eq H]%andb_prop.
  destruct (breakIn [93] h) as [[[a x] r]|] eqn:E; [|discriminate]. destruct r; [|discriminate].
  pose proof (breakIn_before _ _ _ _ _ E) as Ha. destruct (breakIn_Some _ _ _ _ _ E) as [-> Hx]. rewrite isIn_single in Hx.
  apply Z.eqb_eq in Hx as ->. now exists a.
Qed.

Lemma parseIpv6_text a r u :
  noneOf [93] a = true -> parseIpv6Address (a ++ 93 :: r) u = Ret (true, setHostField (91 :: a ++ [93]) u, r).
Proof.
  intros Ha. unfold parseIpv6Address. chars. rewrite matchCharText_eq, (breakIn_first [93] a 93) by (exact Ha || reflexivity).
  reflexivity.
Qed.

Lemma portBehind_text valid p ps rest u :
  noneOf [59] p = true ->
  portBehind valid (p ++ semiText ps rest) u =
    Ret (let v := setPortField p u in (Some (mkAddress valid true v (paramsText ps rest)), v)).
Proof.
  intros Hp. unfold portBehind. chars. rewrite matchCharText_eq, semi_cut2 by exact Hp.
  destruct ps as [|q ps], rest as [|d rest]; try reflexivity. unfold semiText. now rewrite app_nil_r.
Qed.

Lemma not_bracket h p ps rest :
  plainHost h = true -> noneOf [91] p = true -> noneOf [91] (semiText ps rest) = true ->
  noneOf [91] (h ++ portPart p ++ semiText ps rest) = true.
Proof.
  intros [_ Hn]%andb_prop Hp Hr. rewrite !noneOf_app, Hr, andb_true_r. apply andb_true_intro. split; [sub_noneOf|].
  destruct p; [reflexivity|]. cbn [portPart]. rewrite noneOf_cons. apply andb_true_intro. now split.
Qed.

(** The address that is read when the host is [h] and the port [p]. *)
Definition readAs (p : bytes) (ps : list pair) (rest : bytes) (v : SipUrl) : outcome (option address * SipUrl) :=
  Ret (Some (mkAddress true (0 <? zlen p) v (paramsText ps rest)), v).

Lemma zlen_cons_positive (c : Z) l : (0 <? zlen (c :: l)) = true.
Proof. rewrite zlen_cons. pose proof (zlen_nonneg l). lia. Qed.

Lemma address_plain_user h p ps rest u :
  plainHost h = true -> noneOf [59; 91] p = true -> noneOf [91] (semiText ps rest) = true ->
  addressAfterUser (h ++ portPart p ++ semiText ps rest) u = readAs p ps rest (withPort p (setHostField h u)).
Proof.
  intros Hh Hp Hr. unfold addressAfterUser. chars. assert (noneOf [91] p = true) as Hp91 by sub_noneOf.
  rewrite matchCharText_eq, breakIn_none by now apply not_bracket. cbn [mbind outcome_bind mret outcome_ret Z.eqb negb].
  change (0 <? zlen (host (setHostField [] u))) with false. cbv iota.
  apply andb_prop in Hh as [Hh Hn]. rewrite matchCharText_eq, tail_cut by sub_noneOf.
  destruct p as [|c p]; cbn [portPart].
  - destruct ps as [|q ps], rest as [|d rest]; cbn [mbind outcome_bind mret outcome_ret]; rewrite ?Hh; try reflexivity.
    unfold semiText. now rewrite app_nil_r.
  - cbn [mbind outcome_bind mret outcome_ret]. change (58 =? 58) with true. cbv iota. rewrite portBehind_text, Hh by sub_noneOf.
    unfold readAs. now rewrite zlen_cons_positive.
Qed.

Lemma bracket_cut h r : bracketed h = true -> breakIn [91] (h ++ r) = Some ([], 91, tail h ++ r) /\
  forall u, parseIpv6Address (tail h ++ r) u = Ret (true, setHostField h u, r).
Proof.
  intros H. destruct (bracketed_spec h H) as (a & -> & Ha). split; [reflexivity|]. intros u. cbn [tail].
  rewrite <- app_assoc. now apply parseIpv6_text.
Qed.

Lemma bracketed_long h u : bracketed h = true -> (0 <? zlen (host (setHostField h u))) = true.
Proof. intros H. destruct (bracketed_spec h H) as (a & -> & _). cbn [host setHostField]. apply zlen_cons_positive. Qed.

(** Behind a user an address in brackets is read if anything follows it. *)
Lemma address_bracketed_user h p ps rest u :
  bracketed h = true -> noneOf [59] p = true -> bare p ps rest = false ->
  addressAfterUser (h ++ portPart p ++ semiText ps rest) u = readAs p ps rest (withPort p (setHostField h u)).
Proof.
  intros Hh Hp Hb. unfold addressAfterUser. chars. destruct (bracket_cut h (portPart p ++ semiText ps rest) Hh) as [E Hi].
  rewrite matchCharText_eq, E. cbn [mbind outcome_bind]. change (91 =? 91) with true. cbv iota. rewrite Hi.
  cbn [mbind outcome_bind mret outcome_ret negb].
  change (setHostField h (setHostField [] u)) with (setHostField h u). rewrite bracketed_long by exact Hh.
  rewrite matchCharText_eq. pose proof (tail_cut [] p ps rest eq_refl) as Et. cbn [app] in Et. rewrite Et.
  destruct p as [|c p]; cbn [portPart].
  - destruct ps as [|q ps], rest as [|d rest]; cbn [mbind outcome_bind mret outcome_ret]; try reflexivity. discriminate Hb.
  - cbn [mbind outcome_bind mret outcome_ret]. change (58 =? 58) with true. cbv iota. rewrite portBehind_text by exact Hp.
    unfold readAs. now rewrite zlen_cons_positive.
Qed.

(** With nothing behind it, the address is lost. *)
Lemma address_bracketed_bare h u :
  bracketed h = true -> addressAfterUser h u = readAs [] [] [] (setHostField [] u).
Proof.
  intros Hh. unfold addressAfterUser. chars. destruct (bracket_cut h [] Hh) as [E Hi]. rewrite !app_nil_r in *.
  rewrite matchCharText_eq, E. cbn [mbind outcome_bind]. change (91 =? 91) with true. cbv iota. rewrite Hi.
  cbn [mbind outcome_bind mret outcome_ret negb]. change (setHostField h (setHostField [] u)) with (setHostField h u).
  rewrite bracketed_long by exact Hh. rewrite matchCharText_eq. reflexivity.
Qed.

Lemma address_plain h p ps rest u :
  plainHost h = true -> noneOf [59; 91] p = true -> noneOf [91] (semiText ps rest) = true -> host u = [] ->
  addressOnly (h ++ portPart p ++ semiText ps rest) u = readAs p ps rest (withPort p (setHostField h u)).
Proof.
  intros Hh Hp Hr Hu. unfold addressOnly. chars. assert (noneOf [91] p = true) as Hp91 by sub_noneOf.
  rewrite matchCharText_eq, breakIn_none by now apply not_bracket. cbn [mbind outcome_bind mret outcome_ret Z.eqb negb].
  rewrite Hu. change (0 <? zlen (@nil Z)) with false. cbv iota.
  apply andb_prop in Hh as [Hh Hn]. rewrite matchCharText_eq, tail_cut by sub_noneOf.
  destruct p as [|c p]; cbn [portPart].
  - destruct ps as [|q ps], rest as [|d rest]; cbn [mbind outcome_bind mret outcome_ret orb]; rewrite ?Hh; try reflexivity.
    unfold semiText. now rewrite app_nil_r.
  - cbn [mbind outcome_bind mret outcome_ret orb]. change (58 =? 58) with true. cbv iota. rewrite portBehind_text, Hh by sub_noneOf.
    unfold readAs. now rewrite zlen_cons_positive.
Qed.

Lemma address_bracketed h p ps rest u :
  bracketed h = true -> noneOf [59] p = true ->
  addressOnly (h ++ portPart p ++ semiText ps rest) u = readAs p ps rest (withPort p (setHostField h u)).
Proof.
  intros Hh Hp. unfold addressOnly. chars. destruct (bracket_cut h (portPart p ++ semiText ps rest) Hh) as [E Hi].
  rewrite matchCharText_eq, E. cbn [mbind outcome_bind]. change (91 =? 91) with true. cbv iota. rewrite Hi.
  cbn [mbind outcome_bind mret outcome_ret negb]. rewrite bracketed_long by exact Hh.
  rewrite matchCharText_eq. pose proof (tail_cut [] p ps rest eq_refl) as Et. cbn [app] in Et. rewrite Et.
  destruct p as [|c p]; cbn [portPart].
  - destruct ps as [|q ps], rest as [|d rest]; cbn [mbind outcome_bind mret outcome_ret]; reflexivity.
  - cbn [mbind outcome_bind mret outcome_ret]. change (58 =? 58) with true. cbv iota. rewrite portBehind_text by exact Hp.
    unfold readAs. now rewrite zlen_cons_positive.
Qed.

End SipUriFacts.
