(* ===== verification/SipUriProps.v ===== *)
(** The properties of SIP URLs: a URL that is printed is read back; the parser
    returns for every text without embedded headers; what it loses; and the
    order on URLs. *)
From S2P Require Import Prelude DataStr DataStrFacts DataStrText SipHeap SipText SipViaHdr SipViaProps SipFields SipEscape SipUser SipUri SipUriFacts.
Import DataStr DataStrFacts DataStrText SipHeap(textEq, eqNoCase, toInt, itoa) SipText SipFields(isDigit) SipEscape SipUser SipUri SipUriFacts.

Module SipUriProps.

(** * URLs that can be printed and read back *)

Definition urlNames : list bytes := [str "user"; str "transport"; str "ttl"; str "maddr"; str "method"].

Definition notBlank (x : bytes) : bool := 0 <? zlen (trimEnd (dropIn [32] x)).

Definition telPairsOf (u : SipUrl) : list pair := match user u with Some (IsTelUser t) => telPairs t | _ => [] end.

Definition urlPairs (u : SipUrl) : list pair :=
  field (str "transport") (transportParam u) ++ field (str "ttl") (ttlParam u) ++ field (str "maddr") (maddrParam u) ++
  field (str "user") (userParam u) ++ field (str "method") (methodParam u) ++ field (otherName u) (otherParam u) ++ telPairsOf u.

Definition lrText (u : SipUrl) : bytes := if lrParam u then str "lr" else [].

Definition userOk (u : SipUrl) : bool :=
  match user u with
  | None => negb (textEq (userParam u) (str "phone")) || (zlen (otherParam u) =? 0)
  | Some (IsSipUser x) =>
      notBlank x && noneOf [63; 64] x && negb (startsWith [58] x) && ((zlen (userParam u) =? 0) || textEq (userParam u) (str "ip"))
  | Some (IsTelUser t) =>
      notBlank (encodeTel t) && telOk t && negb (startsWith [58] (encodeTel t)) && textEq (userParam u) (str "phone") && (zlen (otherParam u) =? 0) &&
      forallb (noneOf [63; 64; 91])
        [basePhoneNumber t; isdnSubAddress t; postDial t; phoneContext t; serviceProvider t; futureExtensionName t;
         futureExtensionValue t] &&
      unknownTo urlNames (futureExtensionName t)
  end.

(** The fields that the parser sets from the address, and what it never sets. *)
Definition addressOk (u : SipUrl) : bool :=
  eqNoCase (schemeName u) (str "sip") && noneOf [0; 58; 63] (schemeName u) &&
  (plainHost (host u) || bracketed (host u)) && noneOf [63; 64] (host u) &&
  forallb isDigit (port u) && negb (textEq (port u) (str "0")) &&
  bool_decide (passwd u = []) && bool_decide (headers u = []) && negb (ipv6Addr u) &&
  match EscObj u with None => true | Some _ => false end.

Definition paramsOk (u : SipUrl) : bool :=
  forallb (noneOf [59; 63; 64; 91])
    [transportParam u; ttlParam u; maddrParam u; userParam u; methodParam u; otherParam u] &&
  (noneOf [59; 61; 63; 64; 91] (otherName u) && trimmed (otherName u)) &&
  extensionOk urlNames (otherName u) (otherParam u) &&
  implb (lrParam u) ((zlen (otherParam u) =? 0) && match telPairsOf u with [] => true | _ => false end).

(** An address in brackets behind a user has something behind it. *)
Definition urlOk (u : SipUrl) : bool :=
  addressOk u && paramsOk u && userOk u &&
  match user u with
  | Some _ => plainHost (host u) || negb (bare (port u) (urlPairs u) (lrText u))
  | None => true
  end.

(** * What is printed *)

Definition infoText (u : SipUrl) : bytes := match user u with Some x => encodeUser x ++ [64] | None => [] end.

Definition urlBody (u : SipUrl) : bytes :=
  infoText u ++ host u ++ portPart (port u) ++ semiText (urlPairs u) (lrText u).

Definition urlText (u : SipUrl) : bytes := schemeName u ++ 58 :: urlBody u.

Lemma paramText_pair (name : bytes) v :
  (if 0 <? zlen v then 59 :: name ++ 61 :: v else []) = mjoin (map pairText (field name v)).
Proof. now rewrite pairText_field. Qed.

Lemma userInfoText_ok u : userOk u = true -> passwd u = [] -> userInfoText u = Ret (infoText u).
Proof.
  intros H Hp. unfold userInfoText, infoText, userOk in *. destruct (user u) as [x|]; [|reflexivity].
  rewrite removeSpacesText_eq, Hp. cbn [mbind outcome_bind]. change (0 <? zlen (@nil Z)) with false. cbn [app].
  assert (notBlank (encodeUser x) = true) as Hb by (destruct x; rewrite !andb_true_iff in H; tauto).
  unfold notBlank in Hb. now rewrite Hb.
Qed.

Lemma lr_last u :
  implb (lrParam u) ((zlen (otherParam u) =? 0) && match telPairsOf u with [] => true | _ => false end) = true ->
  (if lrParam u then str ";lr" else []) ++ mjoin (map pairText (field (otherName u) (otherParam u))) ++ mjoin (map pairText (telPairsOf u)) =
  (mjoin (map pairText (field (otherName u) (otherParam u))) ++ mjoin (map pairText (telPairsOf u))) ++
    match lrText u with [] => [] | _ :: _ => 59 :: lrText u end.
Proof.
  unfold lrText. destruct (lrParam u); cbn [implb]; [|intros _; now rewrite app_nil_r].
  intros [Ho Ht]%andb_prop. apply zlen_zero in Ho. rewrite Ho. destruct (telPairsOf u); [reflexivity | discriminate].
Qed.

Ltac bools := repeat match goal with
  | H : _ && _ = true |- _ => apply andb_prop in H as [? ?]
  | H : negb _ = true |- _ => apply negb_true_iff in H
  | H : bool_decide _ = true |- _ => apply bool_decide_eq_true in H
  end.

Lemma encode_ok u : urlOk u = true -> encode u = Ret (urlText u).
Proof.
  intros H. unfold urlOk, addressOk, paramsOk in H. bools. unfold encode. rewrite userInfoText_ok by assumption.
  cbn [mbind outcome_bind mret outcome_ret]. f_equal. unfold urlText, urlBody, SipUri.hostText, SipUri.portText, headersText.
  repeat match goal with E : _ = false |- _ => rewrite E | E : headers u = [] |- _ => rewrite E end.
  destruct (EscObj u); [discriminate|]. chars. change (0 <? zlen (@nil Z)) with false. cbn [app negb]. rewrite andb_true_r. f_equal.
  f_equal. f_equal. f_equal.
  assert ((if 0 <? zlen (port u) then 58 :: port u else []) = portPart (port u)) as ->.
  { destruct (port u) as [|c p]; [reflexivity|]. now rewrite zlen_cons_positive. }
  f_equal. rewrite <- semiText_join. change (fun p : pair => 59 :: p.1 ++ 61 :: p.2) with pairText.
  unfold urlPairs. rewrite !map_app, !mjoin_app, <- !app_assoc.
  assert (otherText u = mjoin (map pairText (field (otherName u) (otherParam u)))) as ->.
  { unfold otherText. rewrite pairText_field. destruct (0 <? zlen (otherParam u)); reflexivity. }
  assert (match user u with Some (IsTelUser t) => getTelParams t | _ => [] end = mjoin (map pairText (telPairsOf u))) as ->.
  { unfold telPairsOf. unfold userOk in *. destruct (user u) as [[x|t]|]; [reflexivity | | reflexivity]. bools.
    apply getTelParams_pairs. now apply telOk_spec. }
  unfold urlParamText. rewrite !pairText_field. repeat (f_equal; [destruct (0 <? zlen _); reflexivity|]).
  rewrite <- pairText_field. rewrite lr_last by assumption. now rewrite <- app_assoc.
Qed.

(** * What the parameters do *)

Lemma urlRun_app ps qs w : urlRun (ps ++ qs) w = urlRun qs (urlRun ps w).
Proof. apply fold_left_app. Qed.

(** A field that was empty has the value of its parameter. *)
Lemma run_field n v set u info valid :
  (forall u, urlParam n v true u info valid = (set v u, info, valid)) -> set [] u = u ->
  urlRun (field n v) (u, info, valid) = (set v u, info, valid).
Proof.
  intros Hs He. unfold field, urlRun. destruct (0 <? zlen v) eqn:E; cbn [fold_left fst snd]; [apply Hs|].
  apply zlen_positive in E as ->. now rewrite He.
Qed.

Lemma run_user v u info valid :
  setUserParam [] u = u -> urlRun (field (str "user") v) (u, info, valid) = (setUserParam v u, info, valid || (0 <? zlen v)).
Proof.
  intros He. unfold field, urlRun. destruct (0 <? zlen v) eqn:E; cbn [fold_left fst snd]; [now rewrite orb_true_r|].
  apply zlen_positive in E as ->. now rewrite He, orb_false_r.
Qed.

Lemma urlParam_unknown n v u info valid :
  unknownTo urlNames n = true ->
  urlParam n v true u info valid =
    if textEq (userParam u) (str "phone") then (u, info ++ pairText (n, v), valid) else (setOther n v u, info, valid).
Proof.
  unfold unknownTo, urlNames. cbn [forallb]. intros H. bools. unfold urlParam.
  repeat match goal with E : textEq n _ = false |- _ => rewrite E end. reflexivity.
Qed.

Lemma run_other n v u info valid :
  extensionOk urlNames n v = true -> textEq (userParam u) (str "phone") = false \/ v = [] -> setOther [] [] u = u ->
  urlRun (field n v) (u, info, valid) = (setOther n v u, info, valid).
Proof.
  unfold extensionOk. intros H Hp He. unfold field, urlRun. destruct (0 <? zlen v) eqn:E; cbn [fold_left fst snd].
  - bools. rewrite urlParam_unknown by assumption. destruct Hp as [-> | ->]; [reflexivity | discriminate].
  - apply zlen_positive in E as ->. apply zlen_zero in H as ->. now rewrite He.
Qed.

(** The parameters of a telephone number go to the text of the user. *)
Lemma run_tel ps : forall u info valid,
  textEq (userParam u) (str "phone") = true -> Forall (fun p : pair => unknownTo urlNames p.1 = true) ps ->
  urlRun ps (u, info, valid) = (u, info ++ mjoin (map pairText ps), valid).
Proof.
  intros u info valid Hu Hps. revert info. induction Hps as [|[n v] ps Hn Hps IH]; intros info; cbn [map mjoin list_join].
  - now rewrite app_nil_r.
  - change (urlRun ((n, v) :: ps) (u, info, valid)) with (urlRun ps (urlParam n v true u info valid)).
    rewrite urlParam_unknown, Hu by exact Hn. rewrite IH. now rewrite <- app_assoc.
Qed.

(** The URL as the parser has it before the parameters. *)
Definition located (u : SipUrl) (ip : bytes) : SipUrl :=
  withPort (port u) (setHostField (host u) (setScheme (schemeName u) (emptyUrl ip false))).

Lemma located_fields u ip :
  located u ip = mkSipUrl ip (schemeName u) None [] (host u) (port u) [] [] [] [] [] [] [] [] false false None.
Proof. unfold located. destruct (port u); reflexivity. Qed.

(** The URL with all its fields but the user and [lr]. *)
Definition filledUrl (u : SipUrl) (ip : bytes) : SipUrl :=
  mkSipUrl ip (schemeName u) None [] (host u) (port u) (transportParam u) (ttlParam u) (maddrParam u) (userParam u)
    (methodParam u) (otherParam u) (otherName u) [] false false None.

Lemma run_pairs u ip info :
  paramsOk u = true -> userOk u = true ->
  urlRun (urlPairs u) (located u ip, info, false) =
    (filledUrl u ip, info ++ mjoin (map pairText (telPairsOf u)), 0 <? zlen (userParam u)).
Proof.
  intros Hp Hu. rewrite located_fields. unfold urlPairs. rewrite !urlRun_app.
  rewrite (run_field (str "transport") _ setTransportParam), (run_field (str "ttl") _ setTtlField),
    (run_field (str "maddr") _ setMaddrParam), run_user, (run_field (str "method") _ setMethodParam) by reflexivity.
  unfold paramsOk in Hp. bools. rewrite run_other.
  2:{ assumption. }
  2:{ cbn [userParam setMethodParam setUserParam]. unfold userOk in Hu. destruct (user u) as [[x|t]|]; bools.
      - left. match goal with E : _ || _ = true |- _ => apply orb_prop in E as [E | E] end.
        + match goal with E : (zlen (userParam u) =? 0) = true |- _ => apply zlen_zero in E as -> end. reflexivity.
        + unfold textEq in *. match goal with E : (strcmp _ _ =? 0) = true |- _ => apply Z.eqb_eq, SipHeap.strcmp_eq in E as -> end. reflexivity.
      - right. now apply zlen_zero.
      - apply orb_prop in Hu as [Hu | Hu]; [left; now apply negb_true_iff | right; now apply zlen_zero]. }
  2:{ reflexivity. }
  unfold telPairsOf. destruct (user u) as [[x|t]|] eqn:Eu; cbn [map mjoin list_join]; rewrite ?app_nil_r; try reflexivity.
  unfold userOk in Hu. rewrite Eu in Hu. bools. rewrite run_tel; [reflexivity | assumption|].
  apply Forall_telPairs; cbn [fst]; try reflexivity. assumption.
Qed.

(** ** The texts of the fields *)

Definition pairClean (p : pair) : Prop :=
  trimmed p.1 = true /\ noneOf [59; 61; 63; 64; 91] p.1 = true /\ noneOf [59; 63; 64; 91] p.2 = true.

Lemma urlPairs_clean u : paramsOk u = true -> userOk u = true -> Forall pairClean (urlPairs u).
Proof.
  intros Hp Hu. unfold paramsOk in Hp. cbn [forallb] in Hp. bools. unfold urlPairs. rewrite !Forall_app.
  repeat (split; [apply Forall_field; intros _; repeat split; assumption || reflexivity|]).
  unfold telPairsOf. unfold userOk in Hu. destruct (user u) as [[x|t]|]; [apply List.Forall_nil | | apply List.Forall_nil].
  cbn [forallb] in Hu. bools. pose proof (telOk_spec t ltac:(assumption)) as (_ & _ & Ht).
  assert (Forall (fun p : pair => noneOf [63; 64; 91] p.1 = true /\ noneOf [63; 64; 91] p.2 = true) (telPairs t)) as Hx.
  { apply Forall_telPairs; cbn [fst snd]; split; assumption || reflexivity. }
  revert Ht Hx. intros Ht Hx. pose proof (List.Forall_and Ht Hx) as Hb. revert Hb. apply Forall_impl.
  intros p ((E1 & E2 & E3) & E4 & E5). split; [exact E1|]. split.
  - apply (noneOf_join [43; 59; 61] [63; 64; 91]); [exact E2 | exact E4|]. intros c. cbn. rewrite !orb_true_iff. intuition.
  - apply (noneOf_join [43; 59; 63] [63; 64; 91]); [exact E3 | exact E5|]. intros c. cbn. rewrite !orb_true_iff. intuition.
Qed.

Lemma urlPairs_noneOf m u :
  paramsOk u = true -> userOk u = true -> noneOf m (str "lr") = true -> isIn 59 m = false -> isIn 61 m = false ->
  (forall c, isIn c m = true -> isIn c [63; 64; 91] = true) ->
  noneOf m (semiText (urlPairs u) (lrText u)) = true.
Proof.
  intros Hp Hu Hl H59 H61 Hm. apply noneOf_params; [exact H59 | exact H61 | | unfold lrText; now destruct (lrParam u)].
  pose proof (urlPairs_clean u Hp Hu) as H. revert H. apply Forall_impl. intros p (_ & H1 & H2).
  split; [revert H1 | revert H2]; apply noneOf_weaken; intros c Hc; apply Hm in Hc; cbn in *; rewrite !orb_true_iff in *; intuition.
Qed.

Lemma digits_clean m p : forallb isDigit p = true -> (forall c, isIn c m = true -> c < 48 \/ 57 < c) -> noneOf m p = true.
Proof.
  intros H Hm. apply SipViaProps.digits_noneOf; [exact Hm|]. apply List.Forall_forall. intros c Hc. rewrite forallb_forall in H.
  specialize (H c Hc). unfold isDigit in H. apply andb_prop in H as [H1 H2]. lia.
Qed.

Lemma noneOf_cstr m l : noneOf m l = true -> noneOf m (cstr l) = true.
Proof.
  induction l as [|c l IH]; [reflexivity|]. rewrite noneOf_cons. intros [Hc Hl]%andb_prop. cbn [cstr].
  destruct (c =? 0); [reflexivity|]. rewrite noneOf_cons, Hc. now apply IH.
Qed.

(** ** Reading *)

(** The address of a printed URL is read, whatever form it has. *)
Lemma address_ok u ip :
  urlOk u = true ->
  (match user u with Some _ => addressAfterUser | None => addressOnly end)
    (host u ++ portPart (port u) ++ semiText (urlPairs u) (lrText u)) (setScheme (schemeName u) (emptyUrl ip false)) =
  readAs (port u) (urlPairs u) (lrText u) (located u ip).
Proof.
  intros H. unfold urlOk, addressOk in H. bools.
  assert (noneOf [91] (semiText (urlPairs u) (lrText u)) = true) as H91.
  { apply urlPairs_noneOf; try assumption || reflexivity. intros c. cbn. rewrite !orb_true_iff. intuition. }
  assert (noneOf [59; 91] (port u) = true) as Hport.
  { apply digits_clean; [assumption|]. intros c. cbn. rewrite !orb_true_iff, !Z.eqb_eq. intuition lia. }
  assert (noneOf [59] (port u) = true) as Hport' by sub_noneOf.
  destruct (user u) as [x|].
  - destruct (plainHost (host u)) eqn:Eh; [now apply address_plain_user|].
    cbn [orb] in *. apply address_bracketed_user; [assumption | assumption | now apply negb_true_iff].
  - destruct (plainHost (host u)) eqn:Eh; [now apply address_plain | now apply address_bracketed].
Qed.

Lemma makeUser_ok u ip x :
  userOk u = true -> user u = Some x ->
  makeUser (encodeUser x ++ mjoin (map pairText (telPairsOf u))) (0 <? zlen (userParam u)) (filledUrl u ip) = Ret x.
Proof.
  intros Hu Ex. unfold makeUser, telPairsOf, userOk in *. rewrite Ex in *. cbn [userParam filledUrl].
  destruct x as [x|t]; bools; cbn [encodeUser map mjoin list_join].
  - rewrite app_nil_r. match goal with E : _ || _ = true |- _ => apply orb_prop in E as [E | E] end.
    + match goal with E : (zlen (userParam u) =? 0) = true |- _ => apply zlen_zero in E as -> end. reflexivity.
    + match goal with E : textEq (userParam u) _ = true |- _ => rewrite E end. now rewrite orb_true_r.
  - match goal with E : textEq (userParam u) _ = true |- _ => apply SipHeap.textEq_spec in E as Ep end.
    assert ((0 <? zlen (userParam u)) = true) as -> by (destruct (userParam u); [discriminate Ep | apply zlen_cons_positive]).
    assert (textEq (userParam u) (str "ip") = false) as ->.
    { destruct (textEq (userParam u) (str "ip")) eqn:E; [|reflexivity]. apply SipHeap.textEq_spec in E. rewrite Ep in E. discriminate E. }
    cbn [negb orb]. rewrite <- getTelParams_pairs by now apply telOk_spec. now rewrite decodeTel_text.
Qed.

(** Everything behind the scheme. *)
Lemma afterScheme_ok u ip :
  urlOk u = true ->
  afterScheme (urlBody u) (setScheme (schemeName u) (emptyUrl ip false)) =
    Ret (true, mkSipUrl ip (schemeName u) (user u) [] (host u) (port u) (transportParam u) (ttlParam u) (maddrParam u)
      (userParam u) (methodParam u) (otherParam u) (otherName u) [] (lrParam u) false None).
Proof.
  intros H. pose proof (address_ok u ip H) as Ha. pose proof H as Hall. unfold urlOk, addressOk in H. bools.
  unfold afterScheme, urlBody, infoText. chars.
  set (tl := host u ++ portPart (port u) ++ semiText (urlPairs u) (lrText u)) in *.
  assert (noneOf [64] tl = true) as H64.
  { unfold tl. rewrite !noneOf_app. rewrite urlPairs_noneOf; try assumption || reflexivity.
    2:{ intros c. cbn. rewrite !orb_true_iff. intuition. }
    rewrite andb_true_r. apply andb_true_intro. split; [sub_noneOf|]. destruct (port u) as [|c p] eqn:Ep; [reflexivity|].
    cbn [portPart]. rewrite noneOf_cons, <- Ep. apply andb_true_intro. split; [reflexivity|]. apply digits_clean; [now rewrite Ep|].
    intros d. rewrite isIn_single. lia. }
  assert (forall info, urlParams (S (length (paramsText (urlPairs u) (lrText u)))) (paramsText (urlPairs u) (lrText u))
      (located u ip) info false =
    Ret (filledUrl u ip, info ++ mjoin (map pairText (telPairsOf u)), 0 <? zlen (userParam u), lrText u)) as Hrun.
  { intros info. rewrite urlParams_run; [now rewrite run_pairs | | unfold lrText; now destruct (lrParam u) | lia].
    pose proof (urlPairs_clean u ltac:(assumption) ltac:(assumption)) as Hc. revert Hc. apply Forall_impl.
    intros p (E1 & E2 & E3). repeat split; [exact E1 | sub_noneOf | sub_noneOf]. }
  assert (port (located u ip) = port u) as Eport by now rewrite located_fields.
  assert ((if textEq (lrText u) (str "lr") then setLr true (filledUrl u ip) else filledUrl u ip) =
    setLr (lrParam u) (filledUrl u ip)) as Elr by (unfold lrText; now destruct (lrParam u)).
  destruct (user u) as [x|] eqn:Ex.
  - assert (noneOf [64] (encodeUser x) = true) as Hx.
    { unfold userOk in *. rewrite Ex in *. destruct x as [y|t]; cbn [encodeUser]; bools; [sub_noneOf|].
      unfold encodeTel. rewrite noneOf_app. cbn [forallb] in *. bools.
      destruct (isGlobalPhoneNumber t); apply andb_true_intro; split; reflexivity || sub_noneOf. }
    rewrite <- app_assoc. cbn [app]. rewrite matchCharText_eq, (breakIn_first [64] (encodeUser x) 64) by (exact Hx || reflexivity).
    cbn [mbind outcome_bind]. change (64 =? 64) with true. cbv iota. rewrite Ha. unfold readAs.
    cbn [mbind outcome_bind hostValid portValid afterAddress negb]. rewrite Eport.
    match goal with E : forallb isDigit (port u) = true |- _ => rewrite E end. rewrite andb_false_r, Hrun.
    cbn [mbind outcome_bind]. rewrite Elr.
    replace (makeUser _ _ (setLr (lrParam u) (filledUrl u ip))) with (Ret x).
    { reflexivity. }
    symmetry. rewrite <- (makeUser_ok u ip x) at 1 by assumption. reflexivity.
  - cbn [app]. rewrite matchCharText_eq, breakIn_none by exact H64. cbn [mbind outcome_bind].
    change (0 =? 64) with false. cbv iota. rewrite Ha. unfold readAs.
    cbn [mbind outcome_bind hostValid portValid afterAddress negb]. rewrite Eport.
    match goal with E : forallb isDigit (port u) = true |- _ => rewrite E end. rewrite andb_false_r, Hrun.
    cbn [mbind outcome_bind]. rewrite Elr. reflexivity.
Qed.

Lemma scheme_long u : addressOk u = true -> exists c l, schemeName u = c :: l /\ (c =? 0) = false.
Proof.
  intros H. unfold addressOk in H. bools. destruct (schemeName u) as [|c l]; [discriminate|]. exists c, l. split; [reflexivity|].
  match goal with E : noneOf _ (c :: l) = true |- _ => rewrite noneOf_cons in E; cbn in E; bools end. now destruct (c =? 0).
Qed.

Lemma urlText_clean u : urlOk u = true -> noneOf [63] (urlText u) = true.
Proof.
  intros H. unfold urlOk, addressOk in H. bools. unfold urlText, urlBody. rewrite noneOf_app, noneOf_cons, !noneOf_app.
  rewrite urlPairs_noneOf; try assumption || reflexivity; [|intros c; cbn; rewrite !orb_true_iff; intuition].
  assert (noneOf [63] (infoText u) = true) as ->.
  { unfold infoText, userOk in *. destruct (user u) as [[x|t]|]; [| |reflexivity]; bools; cbn [encodeUser].
    - rewrite noneOf_app. apply andb_true_intro. split; [sub_noneOf | reflexivity].
    - unfold encodeTel. rewrite !noneOf_app. cbn [forallb] in *. bools.
      destruct (isGlobalPhoneNumber t); repeat (apply andb_true_intro; split); reflexivity || sub_noneOf. }
  assert (noneOf [63] (portPart (port u)) = true) as ->.
  { destruct (port u) as [|c p] eqn:Ep; [reflexivity|]. cbn [portPart]. rewrite noneOf_cons, <- Ep. apply andb_true_intro.
    split; [reflexivity|]. apply digits_clean; [now rewrite Ep|]. intros d. rewrite isIn_single. lia. }
  repeat (apply andb_true_intro; split); try reflexivity; sub_noneOf.
Qed.

(** The text behind the scheme does not begin with a colon, which would be
    skipped with the first one. *)
Lemma urlBody_start u : urlOk u = true -> startsWith [58] (urlBody u) = false.
Proof.
  intros H. unfold urlOk, addressOk in H. bools. unfold urlBody, infoText, userOk in *.
  destruct (user u) as [[x|t]|]; bools; cbn [encodeUser app].
  - destruct x as [|c x]; [discriminate | assumption].
  - destruct (encodeTel t) as [|c x]; [discriminate | assumption].
  - match goal with E : plainHost _ || _ = true |- _ => apply orb_prop in E as [E | E] end.
    + destruct (host u) as [|c h]; [discriminate|]. unfold plainHost in *. bools.
      match goal with E : noneOf [58; _; _] _ = true |- _ => rewrite noneOf_cons in E; cbn in E; bools end.
      cbn. rewrite orb_false_r. match goal with E : (c =? 58) || _ = false |- _ => now apply orb_false_iff in E as [-> _] end.
    + destruct (bracketed_spec (host u)) as (a & -> & _); [assumption | reflexivity].
Qed.

Lemma fastDecode_text u ip :
  urlOk u = true -> local_ip u = ip -> fastDecode (urlText u) (emptyUrl ip false) = Ret (true, u).
Proof.
  intros H <-. unfold fastDecode. chars. rewrite breakIn_none by now apply noneOf_cstr, urlText_clean.
  cbn [mbind outcome_bind mret outcome_ret]. pose proof (urlBody_start u H) as Hs. pose proof (afterScheme_ok u (local_ip u) H) as Ha.
  unfold urlOk, addressOk in H. bools. rewrite parseText_eq. unfold urlText.
  rewrite (breakIn_first [58] (schemeName u) 58) by (sub_noneOf || reflexivity). rewrite dropIn_clean by exact Hs.
  cbn [mbind outcome_bind]. match goal with E : eqNoCase (schemeName u) _ = true |- _ => rewrite E end. cbn [negb].
  rewrite Ha. destruct u as [u1 u2 u3 u4 u5 u6 u7 u8 u9 u10 u11 u12 u13 u14 u15 u16 u17].
  cbn [passwd headers ipv6Addr EscObj] in *. subst. destruct u17; [discriminate | reflexivity].
Qed.

Lemma newSipUrl_text strict u : urlOk u = true -> newSipUrl strict (urlText u) (local_ip u) false = Ret u.
Proof.
  intros H. unfold newSipUrl. destruct (scheme_long u) as (c & l & E & Hc); [unfold urlOk in H; now bools|].
  assert (textEq (urlText u) [] = false) as ->.
  { rewrite textEq_nil. unfold urlText. now rewrite E. }
  rewrite fastDecode_text by auto. reflexivity.
Qed.

(** * Every text is parsed *)

Lemma matchChar_parts m l :
  exists b c r, matchCharText m l = Ret (b, c, r) /\ (length r <= length l)%nat /\ (isIn c m = true -> isIn 0 m = false -> length r < length l)%nat.
Proof.
  rewrite matchCharText_eq. destruct (breakIn m l) as [[[b c] r]|] eqn:E.
  - exists b, c, r. destruct (breakIn_Some _ _ _ _ _ E) as [-> _]. rewrite length_app. cbn [length]. split; [reflexivity|].
    split; [lia | intros _ _; lia].
  - exists [], 0, l. split; [reflexivity|]. split; [lia | congruence].
Qed.

(** Runs the next [matchCharText]. *)
Ltac next_match b c r H := match goal with |- context [matchCharText ?m ?l] =>
  destruct (matchChar_parts m l) as (b & c & r & -> & H & ?); cbn [mbind outcome_bind] end.

Lemma telParams_returns fuel : forall l t, (length l < fuel)%nat -> returns (telParams fuel l t).
Proof.
  induction fuel as [|fuel IH]; intros l t Hf; [lia|]. cbn [telParams]. next_match k c r H.
  destruct (Z.eqb_spec c 61) as [->|]; [|now eexists]. specialize (H0 eq_refl eq_refl). next_match v d r' H1.
  destruct (d =? 59); apply IH; cbn [length]; lia.
Qed.

Lemma decodeTel_returns l t : returns (decodeTel l t).
Proof.
  destruct t. unfold decodeTel. rewrite parseText_eq. destruct (breakIn (str "+") l) as [[[b c] r]|]; cbn [mbind outcome_bind];
    rewrite parseText_eq; destruct (breakIn (str ";") _) as [[[b' c'] r']|]; cbn [mbind outcome_bind];
    (now eexists) || (apply telParams_returns; lia).
Qed.

Lemma urlParams_returns fuel : forall l u info valid, (length l < fuel)%nat -> returns (urlParams fuel l u info valid).
Proof.
  induction fuel as [|fuel IH]; intros l u info valid Hf; [lia|]. cbn [urlParams]. next_match k c r H.
  destruct (Z.eqb_spec c 61) as [->|]; [|now eexists]. specialize (H0 eq_refl eq_refl). next_match v d r' H1.
  assert (forall v' l' u' b, (length l' <= length r)%nat ->
    returns (key ← removeSpacesText k;
      let '(u, userInfo, valid) := urlParam key v' b u' info valid in urlParams fuel l' u userInfo valid)) as Hgo.
  { intros v' l' u' b Hl. rewrite removeSpacesText_eq. cbn [mbind outcome_bind].
    destruct (urlParam _ v' b u' info valid) as [[u2 i2] v2]. apply IH. lia. }
  destruct (d =? 63), (d =? 59); apply Hgo; cbn [length]; lia.
Qed.

Lemma parseIpv6_returns l u : returns (parseIpv6Address l u).
Proof. unfold parseIpv6Address. next_match b c r H. destruct (c =? 93); now eexists. Qed.

Lemma portBehind_returns valid l u : returns (portBehind valid l u).
Proof. unfold portBehind. next_match b c r H. destruct (c =? 59); now eexists. Qed.

(** Runs what follows the host. *)
Ltac behind_host u := destruct (0 <? zlen (host u)); let h := fresh in let c := fresh in let r := fresh in let H := fresh in next_match h c r H; cbn [mbind outcome_bind mret outcome_ret];
  match goal with |- context [if ?c =? 58 then _ else _] => destruct (c =? 58); [apply portBehind_returns|]; destruct (c =? 59) end;
  try destruct (negb _); now eexists.

Lemma addressAfterUser_returns l u : returns (addressAfterUser l u).
Proof.
  unfold addressAfterUser. next_match b c r H. destruct (c =? 91).
  - destruct (parseIpv6_returns r (setHostField b u)) as [[[ok v] l'] ->]. cbn [mbind outcome_bind].
    destruct ok; cbn [negb]; [behind_host v | now eexists].
  - cbn [mbind outcome_bind mret outcome_ret negb]. behind_host (setHostField b u).
Qed.

Lemma addressOnly_returns l u : returns (addressOnly l u).
Proof.
  unfold addressOnly. next_match b c r H. destruct (c =? 91).
  - destruct (parseIpv6_returns r u) as [[[ok v] l'] ->]. cbn [mbind outcome_bind mret outcome_ret].
    destruct ok; cbn [negb]; [behind_host v | now eexists].
  - cbn [mbind outcome_bind mret outcome_ret negb]. behind_host u.
Qed.

Lemma address_returns (withUser : bool) l u : returns ((if withUser then addressAfterUser else addressOnly) l u).
Proof. destruct withUser; [apply addressAfterUser_returns | apply addressOnly_returns]. Qed.

Lemma afterScheme_returns l u : returns (afterScheme l u).
Proof.
  unfold afterScheme. next_match b c r H. pose proof (address_returns (c =? 64) r u) as [[a v] E].
  replace ((if c =? 64 then addressAfterUser r u else addressOnly r u)) with (Ret (a, v)) by (destruct (c =? 64); now rewrite E).
  cbn [mbind outcome_bind]. destruct a as [a|]; [|now eexists]. destruct (negb (hostValid a)); [now eexists|].
  destruct (portValid a && negb (forallb isDigit (port v))); [now eexists|].
  destruct (urlParams_returns (S (length (afterAddress a))) (afterAddress a) v (if c =? 64 then b else []) false ltac:(lia)) as [[[[w info] valid] rest] Er].
  rewrite Er. cbn [mbind outcome_bind]. destruct (c =? 64); [|now eexists]. unfold makeUser.
  destruct (negb valid || _); cbn [mbind outcome_bind mret outcome_ret]; [now eexists|].
  destruct (decodeTel_returns info emptyTel) as [t Et]. rewrite Et. now eexists.
Qed.

Lemma newEmbedded_plain raw : noneOf [37] raw = true -> returns (newEmbedded raw).
Proof.
  intros H. unfold newEmbedded. change (str "%") with [37]. rewrite noneOf_cstr by exact H. now eexists.
Qed.

Lemma fastDecode_returns l u : noneOf [37] l = true -> returns (fastDecode l u).
Proof.
  intros H. unfold fastDecode. destruct (breakIn (str "?") (cstr l)) as [[[b x] e]|] eqn:E.
  - assert (noneOf [37] e = true) as He.
    { apply noneOf_cstr in H. destruct (breakIn_Some _ _ _ _ _ E) as [E' _]. rewrite E', noneOf_app, noneOf_cons in H. now bools. }
    destruct (newEmbedded_plain e He) as [o ->]. cbn [mbind outcome_bind mret outcome_ret]. rewrite parseText_eq.
    destruct (breakIn (str ":") b) as [[[p q] r]|]; cbn [mbind outcome_bind]; [|now eexists].
    destruct (negb (eqNoCase p (str "sip"))); [now eexists | apply afterScheme_returns].
  - cbn [mbind outcome_bind mret outcome_ret]. rewrite parseText_eq.
    destruct (breakIn (str ":") l) as [[[p q] r]|]; cbn [mbind outcome_bind]; [|now eexists].
    destruct (negb (eqNoCase p (str "sip"))); [now eexists | apply afterScheme_returns].
Qed.

(** * Properties *)


(** Every text without percent signs is parsed.  The constructor of a SIP
    URL ends for it without reading beyond a buffer, whatever else it holds: the
    lenient parser returns an object, the strict one does or throws. *)
Theorem url_parser_returns strict text ip lr :
  noneOf [37] text = true ->
  returns (newSipUrl strict text ip lr) \/ (strict = true /\ newSipUrl strict text ip lr = Fault Exception).
Proof.
  intros H. unfold newSipUrl. destruct (textEq text []); [left; now eexists|].
  destruct (fastDecode_returns text (emptyUrl ip lr) H) as [[ok u] ->]. cbn [mbind outcome_bind].
  destruct ok; [left; now eexists|]. destruct strict; [right | left; eexists]; auto.
Qed.

(** The constructor on a text with the scheme. *)
Lemma newSipUrl_body strict body ip lr :
  noneOf [63] body = true -> startsWith [58] body = false ->
  newSipUrl strict (str "sip:" ++ body) ip lr =
    ('(ok, u) ← afterScheme body (setScheme (str "sip") (emptyUrl ip lr));
     if ok : bool then mret u else if strict then Fault Exception else mret u).
Proof.
  intros Hb Hs. unfold newSipUrl, fastDecode. chars. change (str "sip:") with (str "sip" ++ [58]). rewrite <- app_assoc. cbn [app].
  assert (textEq (str "sip" ++ 58 :: body) [] = false) as -> by reflexivity.
  rewrite breakIn_none.
  2:{ apply noneOf_cstr. rewrite noneOf_app, noneOf_cons, Hb. reflexivity. }
  cbn [mbind outcome_bind mret outcome_ret]. rewrite parseText_eq, (breakIn_first [58] (str "sip") 58) by reflexivity.
  rewrite dropIn_clean by exact Hs. reflexivity.
Qed.

(** What the parser of URLs loses.  An IPv6 address behind a user is lost
    when nothing follows it; a bracket in a parameter is taken for the host,
    and the parameter is lost; the flag [lr] is only seen as the last one. *)
Theorem url_parser_loses x h a b ip :
  noneOf [58; 63; 64] x = true -> bracketed h = true -> noneOf [63; 64] h = true ->
  plainHost a = true -> noneOf [63; 64] a = true -> noneOf [59; 63; 64; 91] b = true ->
  (exists u, newSipUrl true (str "sip:" ++ x ++ 64 :: h) ip false = Ret u /\ host u = [] /\ user u = Some (IsSipUser x)) /\
  (exists u, newSipUrl true (str "sip:" ++ a ++ str ";maddr=" ++ h) ip false = Ret u /\ host u = h /\ maddrParam u = []) /\
  (exists u, newSipUrl true (str "sip:" ++ a ++ str ";lr;x=" ++ b) ip false = Ret u /\ host u = a /\ lrParam u = false).
Proof.
  intros Hx Hh Hh' Ha Ha' Hb. split; [|split].
  - eexists. split. { rewrite newSipUrl_body.
    + unfold afterScheme. chars. rewrite matchCharText_eq, (breakIn_first [64] x 64) by (sub_noneOf || reflexivity).
      cbn [mbind outcome_bind]. change (64 =? 64) with true. cbv iota. rewrite address_bracketed_bare by exact Hh. reflexivity.
    + rewrite noneOf_app, noneOf_cons. repeat (apply andb_true_intro; split); reflexivity || sub_noneOf.
    + destruct x as [|c x]; [reflexivity|]. rewrite noneOf_cons in Hx. cbn in *. bools. now destruct (c =? 58). }
    split; reflexivity.
  - destruct (bracket_cut h [] Hh) as [E Hi]. rewrite !app_nil_r in *.
    eexists. split. { rewrite newSipUrl_body.
    + unfold afterScheme. chars. rewrite matchCharText_eq, breakIn_none.
      2:{ rewrite !noneOf_app. repeat (apply andb_true_intro; split); reflexivity || sub_noneOf. }
      cbn [mbind outcome_bind]. change (0 =? 64) with false. cbv iota. unfold addressOnly. chars.
      rewrite matchCharText_eq.
      assert (breakIn [91] (a ++ str ";maddr=" ++ h) = Some (a ++ str ";maddr=", 91, tail h)) as ->.
      { destruct (bracketed_spec h Hh) as (i & -> & Hi'). rewrite app_assoc. apply breakIn_first; [|reflexivity].
        rewrite noneOf_app. apply andb_true_intro. split; [|reflexivity]. apply andb_prop in Ha as [_ Ha]. sub_noneOf. }
      cbn [mbind outcome_bind]. change (91 =? 91) with true. cbv iota. rewrite Hi. cbn [mbind outcome_bind mret outcome_ret negb].
      rewrite bracketed_long by exact Hh. rewrite matchCharText_eq. reflexivity.
    + rewrite !noneOf_app. repeat (apply andb_true_intro; split); reflexivity || sub_noneOf.
    + destruct a as [|c a]; [discriminate|]. unfold plainHost in Ha. rewrite noneOf_cons in Ha. cbn in *. bools. now destruct (c =? 58). }
    split; reflexivity.
  - pose (ps := [(str "lr;x", b)]).
    assert (a ++ str ";lr;x=" ++ b = a ++ portPart [] ++ semiText ps []) as Et.
    { cbn. now rewrite app_nil_r. }
    rewrite Et. eexists. split. { rewrite newSipUrl_body.
    + unfold afterScheme. chars. rewrite matchCharText_eq, breakIn_none.
      2:{ rewrite <- Et, !noneOf_app. repeat (apply andb_true_intro; split); reflexivity || sub_noneOf. }
      cbn [mbind outcome_bind]. change (0 =? 64) with false. cbv iota. rewrite address_plain; [| exact Ha | reflexivity | | reflexivity].
      2:{ apply noneOf_params; try reflexivity. apply List.Forall_cons; [|apply List.Forall_nil]. split; [reflexivity|]. cbn [snd]. sub_noneOf. }
      unfold readAs. cbn [mbind outcome_bind hostValid portValid afterAddress negb andb zlen length].
      rewrite urlParams_run; [reflexivity | | reflexivity | lia].
      apply List.Forall_cons; [|apply List.Forall_nil]. split; [reflexivity|]. split; [reflexivity|]. cbn [snd]. sub_noneOf.
    + rewrite <- Et, !noneOf_app. repeat (apply andb_true_intro; split); reflexivity || sub_noneOf.
    + destruct a as [|c a]; [discriminate|]. unfold plainHost in Ha. rewrite noneOf_cons in Ha. cbn in *. bools. now destruct (c =? 58). }
    split; reflexivity.
Qed.

Lemma strcmp_refl a : strcmp a a = 0.
Proof. now apply SipHeap.strcmp_eq. Qed.

Lemma textEq_refl a : textEq a a = true.
Proof. unfold textEq. now rewrite strcmp_refl. Qed.

Lemma eqNoCase_refl a : eqNoCase a a = true.
Proof. unfold eqNoCase, strncasecmp, strncmp. now rewrite strcmp_refl, Z.eqb_refl. Qed.

Lemma lexLess_refl l : lexLess (map (fun x => (x, x)) l) = false.
Proof.
  induction l as [|x l IH]; [reflexivity|]. cbn [map lexLess]. unfold SipViaHdr.textLt. now rewrite strcmp_refl.
Qed.

(** The order of URLs.  Two URLs that differ only in their hosts are not
    less than each other, so that what is ordered by them takes them for the
    same, though they are not equal; and comparing the URL of a telephone
    number with one that has no user calls a function of a null pointer. *)
Theorem url_order_ignores_host h u t :
  match user u with Some (IsTelUser _) => false | _ => true end = true ->
  less u (setHostField h u) = Ret false /\ less (setHostField h u) u = Ret false /\
  equals u (setHostField h u) = Ret (eqNoCase (host u) h) /\
  less (setUserField (Some (IsTelUser t)) u) (setUserField None u) = Fault NullDeref.
Proof.
  intros Hu.
  assert (userLt (user u) (user u) = Ret false) as Hl.
  { destruct (user u) as [[n|?]|]; [|discriminate|reflexivity]. cbn. unfold SipViaHdr.textLt. now rewrite strcmp_refl. }
  assert (match user u, user u with Some x, Some y => areEqualUser x (Some y) | None, None => Ret true | _, _ => Ret false end = Ret true) as He.
  { destruct (user u) as [[n|?]|]; [|discriminate|reflexivity]. cbn. now rewrite textEq_refl. }
  split; [|split; [|split]]; [| | |reflexivity].
  - unfold less. cbn [user setHostField]. rewrite Hl. exact (f_equal Ret (lexLess_refl [_; _; _; _; _; _; _; _])).
  - unfold less. cbn [user setHostField]. rewrite Hl. exact (f_equal Ret (lexLess_refl [_; _; _; _; _; _; _; _])).
  - unfold equals. cbn -[areEqualUser textEq eqNoCase orDefault]. unfold mret, outcome_ret in *. rewrite He. cbn [mbind outcome_bind].
    rewrite !textEq_refl, !eqNoCase_refl, !andb_true_r. reflexivity.
Qed.

(** * Witnesses *)

Lemma url_parser_returns_witness :
  noneOf [37] (str "sip:a@[::1") = true /\
  (returns (newSipUrl true (str "sip:a@[::1") [] false) \/
   (true = true /\ newSipUrl true (str "sip:a@[::1") [] false = Fault Exception)).
Proof. split; [reflexivity | apply (url_parser_returns true (str "sip:a@[::1") [] false); reflexivity]. Defined.

Definition exampleUrl : SipUrl :=
  mkSipUrl (str "10.0.0.1") (str "sip") (Some (IsSipUser (str "joe"))) [] (str "a.example.com") (str "5062")
    (str "tcp") (str "4") (str "224.0.0.1") (str "ip") (str "INVITE") (str "v") (str "x") [] false false None.


Lemma url_parser_loses_witness :
  (exists u, newSipUrl true (str "sip:joe@[::1]") [] false = Ret u /\ host u = [] /\ user u = Some (IsSipUser (str "joe"))) /\
  (exists u, newSipUrl true (str "sip:proxy;maddr=[::1]") [] false = Ret u /\ host u = str "[::1]" /\ maddrParam u = []) /\
  (exists u, newSipUrl true (str "sip:proxy;lr;x=y") [] false = Ret u /\ host u = str "proxy" /\ lrParam u = false).
Proof. apply (url_parser_loses (str "joe") (str "[::1]") (str "proxy") (str "y") []); vm_compute; reflexivity. Defined.

Lemma url_order_ignores_host_witness :
  less exampleUrl (setHostField (str "b") exampleUrl) = Ret false /\
  less (setHostField (str "b") exampleUrl) exampleUrl = Ret false /\
  equals exampleUrl (setHostField (str "b") exampleUrl) = Ret (eqNoCase (str "a.example.com") (str "b")) /\
  less (setUserField (Some (IsTelUser emptyTel)) exampleUrl) (setUserField None exampleUrl) = Fault NullDeref.
Proof. apply (url_order_ignores_host (str "b") exampleUrl emptyTel). reflexivity. Defined.

End SipUriProps.
