(* ===== verification/SipBaseUrl.v ===== *)
(** The kinds of URLs (sip/sipstack: BaseUrl.cxx, TelUrl.cxx, ImpBaseUrl.cxx,
    ImUrl.cxx, PresUrl.cxx, UnknownUrl.cxx, NullUrl.cxx) and the operations that
    are virtual in BaseUrl.

    URLs are values: what [duplicate] returns for a telephone URL shares its
    user with the original, and so do only the two while one of them is
    changed by [setUserValue], which this does not have. *)
From S2P Require Import Prelude DataStr DataStrFacts DataStrText SipHeap SipText SipViaHdr SipFields SipEscape SipUser SipUri.
Import DataStr SipHeap SipText SipUser SipUri.

Module SipBaseUrl.

Inductive UrlType := SIP_URL | TEL_URL | IM_URL | PRES_URL | UNKNOWN_URL | NULL_URL.

#[export] Instance UrlType_eq : EqDecision UrlType.
Proof. solve_decision. Defined.

Record TelUrl := mkTelUrl { telScheme : bytes; telUser : option SipTelSubscriberUser }.

Record ImpBaseUrl := mkImp { impScheme : bytes; impUser : bytes; impHost : bytes }.

Inductive BaseUrl :=
| ASipUrl (u : SipUrl)
| ATelUrl (u : TelUrl)
| AnImUrl (u : ImpBaseUrl)
| APresUrl (u : ImpBaseUrl)
| AnUnknownUrl (myUrl : bytes)
| ANullUrl.

Definition getType (u : BaseUrl) : UrlType :=
  match u with
  | ASipUrl _ => SIP_URL
  | ATelUrl _ => TEL_URL
  | AnImUrl _ => IM_URL
  | APresUrl _ => PRES_URL
  | AnUnknownUrl _ => UNKNOWN_URL
  | ANullUrl => NULL_URL
  end.

Section BaseUrl.
Context (strict : bool).

(** * Parsing *)

Definition newTelUrl (data : bytes) : outcome TelUrl :=
  '(urlType, parseFailed, myData) ← parseText (str ":") data;
  if parseFailed : bool then SipFields.throws strict (mkTelUrl [] None)
  else if negb (eqNoCase urlType (str "tel")) then SipFields.throws strict (mkTelUrl [] None)
  else if 0 <? zlen myData then t ← decodeTel myData emptyTel; mret (mkTelUrl urlType (Some t))
  else SipFields.throws strict (mkTelUrl urlType None).

(** The constructor of both classes below [ImpBaseUrl], with the scheme. *)
Definition newImpBaseUrl (data sName : bytes) : outcome ImpBaseUrl :=
  '(urlType, parseFailed, myData) ← parseText (str ":") data;
  if parseFailed : bool then SipFields.throws strict (mkImp sName [] [])
  else if negb (eqNoCase urlType sName) then SipFields.throws strict (mkImp sName [] [])
  else
    '(tmpData, matchedChar, myData) ← matchCharText (str "@") myData;
    if matchedChar =? 64 then
      '(host, matchedChar, myData) ← matchCharText (str ";") myData;
      if matchedChar =? 59 then SipFields.throws strict (mkImp sName tmpData host)
      else mret (mkImp sName tmpData myData)
    else SipFields.throws strict (mkImp sName [] []).

(** [BaseUrl::decode] *)
Definition decode (data ip : bytes) : outcome BaseUrl :=
  '(ret, urlType, _) ← matchText (str ":") false data;
  let urlType := default [] urlType in
  match ret with
  | NOT_FOUND | FIRST => mret (AnUnknownUrl data)
  | FOUND =>
      if eqNoCase urlType (str "sip") then u ← newSipUrl strict data ip false; mret (ASipUrl u)
      else if eqNoCase urlType (str "tel") then u ← newTelUrl data; mret (ATelUrl u)
      else if eqNoCase urlType (str "im") then u ← newImpBaseUrl data (str "im"); mret (AnImUrl u)
      else if eqNoCase urlType (str "pres") then u ← newImpBaseUrl data (str "pres"); mret (APresUrl u)
      else mret (AnUnknownUrl data)
  end.

End BaseUrl.

(** * Printing *)

Definition encodeTelUrl (u : TelUrl) : bytes :=
  telScheme u ++ str ":" ++ match telUser u with Some t => encodeWithParams t | None => [] end.

Definition encodeImp (u : ImpBaseUrl) : bytes :=
  impScheme u ++ str ":" ++ (if zlen (impUser u) =? 0 then [] else impUser u ++ str "@") ++ impHost u.

Definition encodeUrl (u : BaseUrl) : outcome bytes :=
  match u with
  | ASipUrl u => SipUri.encode u
  | ATelUrl u => mret (encodeTelUrl u)
  | AnImUrl u | APresUrl u => mret (encodeImp u)
  | AnUnknownUrl myUrl => mret myUrl
  | ANullUrl => mret []
  end.

Definition getUserValueUrl (u : BaseUrl) : bytes :=
  match u with
  | ASipUrl u => SipUri.getUserValue u
  | ATelUrl u => match telUser u with Some t => encodeTel t | None => [] end
  | AnImUrl u | APresUrl u => impUser u
  | AnUnknownUrl _ | ANullUrl => []
  end.

Definition getNameAddrImp (u : ImpBaseUrl) : bytes :=
  (if 0 <? zlen (impScheme u) then impScheme u ++ str ":" else []) ++
  (if 0 <? zlen (impUser u) then impUser u ++ str "@" else []) ++ impHost u.

Definition getUniqueKey (u : BaseUrl) : outcome bytes :=
  match u with
  | ASipUrl u => SipUri.getNameAddr u
  | ATelUrl _ => mret (getUserValueUrl u)
  | AnImUrl u | APresUrl u => mret (getNameAddrImp u)
  | AnUnknownUrl myUrl => mret myUrl
  | ANullUrl => mret (str "null-url")
  end.

(** * Copying and changing *)

(** The virtual [duplicate]: the text of an unknown URL is not copied. *)
Definition duplicate (u : BaseUrl) : BaseUrl :=
  match u with AnUnknownUrl _ => AnUnknownUrl [] | _ => u end.

(** [duplicateUrl] with the second argument [false]. *)
Definition duplicateUrl (original : option BaseUrl) : option BaseUrl :=
  match original with
  | Some u => if decide (getType u = NULL_URL) then None else Some (duplicate u)
  | None => None
  end.

(** [duplicateUrl] with the second argument [true]. *)
Definition duplicateUrlOrNull (original : option BaseUrl) : BaseUrl := default ANullUrl (duplicateUrl original).

(** The virtual [setUserValue] with its second argument left out. *)
Definition setUserValueUrl (data : bytes) (u : BaseUrl) : outcome BaseUrl :=
  match u with
  | ASipUrl u => '(_, u) ← SipUri.setUserValue data [] u; mret (ASipUrl u)
  | ATelUrl u => t ← decodeTel data (default emptyTel (telUser u)); mret (ATelUrl (mkTelUrl (telScheme u) (Some t)))
  | AnImUrl u => mret (AnImUrl (mkImp (impScheme u) data (impHost u)))
  | APresUrl u => mret (APresUrl (mkImp (impScheme u) data (impHost u)))
  | AnUnknownUrl _ | ANullUrl => mret u
  end.

(** * Comparing *)

Definition telUrlLt (a b : TelUrl) : bool :=
  if SipViaHdr.textLt (telScheme a) (telScheme b) then true
  else
    match telUser a, telUser b with
    | Some x, Some y => telLt x y
    | None, Some _ => true
    | _, _ => false
    end.

Definition telUrlEq (a b : TelUrl) : bool :=
  eqNoCase (telScheme a) (telScheme b) &&
  match telUser a, telUser b with Some x, Some y => telEq x y | _, _ => true end.

Definition impEq (a b : ImpBaseUrl) : bool :=
  eqNoCase (impScheme a) (impScheme b) && eqNoCase (impUser a) (impUser b) && eqNoCase (impHost a) (impHost b).

(** [areEqual] of an object with another that is not null; a telephone URL
    converts the other one to its own class when that is of the class SipUrl. *)
Definition areEqual (a b : BaseUrl) : outcome bool :=
  match a with
  | ASipUrl x => match b with ASipUrl y => SipUri.equals x y | _ => mret false end
  | ATelUrl x =>
      if decide (getType b = SIP_URL) then match b with ATelUrl y => mret (telUrlEq x y) | _ => Fault BadCast end
      else mret false
  | AnImUrl x => match b with AnImUrl y => mret (impEq x y) | _ => mret false end
  | APresUrl x => match b with APresUrl y => mret (impEq x y) | _ => mret false end
  | AnUnknownUrl x =>
      if decide (getType b = UNKNOWN_URL) then k ← getUniqueKey b; mret (textEq x k) else mret false
  | ANullUrl => mret (bool_decide (getType b = NULL_URL))
  end.

Definition isLessThan (a b : BaseUrl) : outcome bool :=
  match a with
  | ASipUrl x => match b with ASipUrl y => SipUri.less x y | _ => mret false end
  | ATelUrl x => match b with ATelUrl y => mret (telUrlLt x y) | _ => mret false end
  | AnImUrl x => match b with AnImUrl y => mret (SipViaHdr.textLt (impUser x) (impUser y)) | _ => mret false end
  | APresUrl x => match b with APresUrl y => mret (SipViaHdr.textLt (impUser x) (impUser y)) | _ => mret false end
  | AnUnknownUrl x =>
      if decide (getType b = NULL_URL) then mret false
      else k ← getUniqueKey b; mret (SipViaHdr.textLt x k)
  | ANullUrl => mret (negb (bool_decide (getType b = NULL_URL)))
  end.

End SipBaseUrl.
