(* ===== verification/SipAddr.v ===== *)
(** The headers From and To (sip/sipstack: SipFrom.cxx, SipTo.cxx): a URL with
    a display name, a tag and further parameters.  The two classes are the same
    code but for the differences that [side] decides.

    [urlType] is [None] while nothing was written to it: some constructors do
    not.  [local_ip] is an argument where a URL is made. *)
From S2P Require Import Prelude DataStr DataStrFacts DataStrText SipHeap SipText SipViaHdr SipRaw SipFields SipUser SipUri SipBaseUrl.
Import DataStr SipHeap SipText SipRaw SipUri SipBaseUrl.

Module SipAddr.

Inductive side := From | To.

#[export] Instance side_eq : EqDecision side.
Proof. solve_decision. Defined.

(** * The map of parameters

    A map of the C++ library is the list of its entries in their order. *)

Definition tokens := list (bytes * bytes).

(** [m[k] = v] *)
Fixpoint setToken (k v : bytes) (m : tokens) : tokens :=
  match m with
  | [] => [(k, v)]
  | (k', v') :: m' =>
      if SipViaHdr.textLt k k' then (k, v) :: m
      else if SipViaHdr.textLt k' k then (k', v') :: setToken k v m'
      else (k', v) :: m'
  end.

Fixpoint findToken (k : bytes) (m : tokens) : option bytes :=
  match m with
  | [] => None
  | (k', v') :: m' => if SipViaHdr.textLt k k' || SipViaHdr.textLt k' k then findToken k m' else Some v'
  end.

Fixpoint tokensEq (a b : tokens) : bool :=
  match a, b with
  | [], [] => true
  | (k, v) :: a', (k', v') :: b' => textEq k k' && textEq v v' && tokensEq a' b'
  | _, _ => false
  end.

Record SipAddr := mkAddr {
  displayName : bytes;
  url : option BaseUrl;
  urlType : option UrlType;
  tag : bytes;
  token : bytes;
  qstring : bytes;
  tokenMap : tokens
}.

Definition emptyAddr (t : option UrlType) : SipAddr := mkAddr [] None t [] [] [] [].

Definition setDisplayName (x : bytes) (a : SipAddr) : SipAddr :=
  mkAddr x (url a) (urlType a) (tag a) (token a) (qstring a) (tokenMap a).
Definition setUrlField (x : option BaseUrl) (a : SipAddr) : SipAddr :=
  mkAddr (displayName a) x (urlType a) (tag a) (token a) (qstring a) (tokenMap a).
Definition setUrlType (x : option UrlType) (a : SipAddr) : SipAddr :=
  mkAddr (displayName a) (url a) x (tag a) (token a) (qstring a) (tokenMap a).
Definition setTag (x : bytes) (a : SipAddr) : SipAddr :=
  mkAddr (displayName a) (url a) (urlType a) x (token a) (qstring a) (tokenMap a).
Definition setTokenDetails (k v : bytes) (a : SipAddr) : SipAddr :=
  mkAddr (displayName a) (url a) (urlType a) (tag a) (token a) (qstring a) (setToken k v (tokenMap a)).

Definition getTokenValue (k : bytes) (a : SipAddr) : bytes := default [] (findToken k (tokenMap a)).

Section Addr.
Context (strict : bool) (s : side).

(** What a SIP URL loses in a From or a To. *)
Definition initializeUrl (u : BaseUrl) : BaseUrl :=
  match u with
  | ASipUrl x => ASipUrl (match s with From => initializeFrom x | To => initializeTo x end)
  | _ => u
  end.

Definition initialize (a : SipAddr) : SipAddr := setUrlField (initializeUrl <$> url a) a.

(** * The parser *)

Definition parseTag (ltoken vdata : bytes) (a : SipAddr) : outcome SipAddr :=
  if eqNoCase ltoken (str "tag") then t ← removeSpacesText vdata; mret (setTag t a)
  else
    copy ← removeSpacesText ltoken;
    copy2 ← removeSpacesText vdata;
    mret (setTokenDetails copy copy2 a).

Definition parseAddrParamExt (newdat : bytes) (a : SipAddr) : outcome SipAddr :=
  '(retn, parmvalue, checkdata) ← matchText (str "=") true newdat;
  match retn with
  | NOT_FOUND => mret (setTokenDetails checkdata [] a)
  | FIRST => mret a
  | FOUND => parmvalue ← removeSpacesText (default [] parmvalue); parseTag parmvalue checkdata a
  end.

Fixpoint addrParams (fuel : nat) (addrparm : bytes) (a : SipAddr) : outcome SipAddr :=
  match fuel with
  | O => Fault OutOfFuel
  | S fuel' =>
      '(ret, parm, addrparm) ← matchText (str ";") true addrparm;
      match ret with
      | NOT_FOUND => parseAddrParamExt addrparm a
      | FIRST => addrParams fuel' addrparm a
      | FOUND => a ← parseAddrParamExt (default [] parm) a; addrParams fuel' addrparm a
      end
  end.

Definition parseAddrParam (data : bytes) (a : SipAddr) : outcome SipAddr := addrParams (S (length data)) data a.

Definition parseUrl (data ip : bytes) (a : SipAddr) : outcome SipAddr :=
  '(retur, avalue, urlvalue) ← matchText (str ">") true data;
  match retur with
  | NOT_FOUND | FIRST => SipFields.throws strict a
  | FOUND =>
      avalue ← removeSpacesText (default [] avalue);
      u ← SipBaseUrl.decode strict avalue ip;
      let a := setUrlField (Some u) a in
      te ← removeSpacesText urlvalue;
      '(rety, _, te) ← matchText (str ";") true te;
      match rety with
      | FOUND => match s with From => SipFields.throws strict a | To => mret a end
      | FIRST => parseAddrParam te a
      | NOT_FOUND => mret a
      end
  end.

(** [scanSipFrom] and [scanSipTo] *)
Definition scan (data ip : bytes) (a : SipAddr) : outcome SipAddr :=
  '(ret, sipdata, data) ← matchText (str "<") true data;
  match ret with
  | NOT_FOUND =>
      '(retn, value, data) ← matchText (str ";") true data;
      match retn with
      | NOT_FOUND =>
          u ← SipBaseUrl.decode strict data ip;
          let a := setUrlField (Some u) a in
          mret (match s with From => setUrlType (Some (getType u)) a | To => a end)
      | FIRST => SipFields.throws strict a
      | FOUND =>
          let value := default [] value in
          tmpval ← (match s with From => mret value | To => removeSpacesText value end);
          u ← SipBaseUrl.decode strict tmpval ip;
          parseAddrParam data (setUrlField (Some u) a)
      end
  | FIRST => parseUrl data ip a
  | FOUND => parseUrl data ip (setDisplayName (default [] sipdata) a)
  end.

(** The constructor from a text. *)
Definition newAddr (data ip : bytes) (uType : UrlType) : outcome SipAddr :=
  if textEq data [] then mret (emptyAddr (Some uType))
  else
    a ← scan data ip (emptyAddr (match s with From => None | To => Some uType end));
    let a :=
      match s, url a with
      | To, Some u => setUrlType (Some (getType u)) a
      | _, _ => a
      end in
    mret (initialize a).

(** * Other constructors and assignment *)

(** The constructor from a URL: the one of To does not write [urlType]. *)
Definition ofUrl (src : option BaseUrl) : SipAddr :=
  let u := duplicateUrl src in
  let t := match s with
           | From => Some (match u with Some (ASipUrl _) => SIP_URL | _ => UNKNOWN_URL end)
           | To => None
           end in
  initialize (setUrlField u (emptyAddr t)).

(** The copy constructor. *)
Definition copy (src : SipAddr) : SipAddr := initialize (setUrlField (duplicateUrl (url src)) src).

(** The constructor of one class from the other. *)
Definition ofOther (src : SipAddr) : SipAddr :=
  let u := duplicateUrlOrNull (url src) in initialize (setUrlType (Some (getType u)) (setUrlField (Some u) src)).

(** [operator=] of an object of its own. *)
Definition assignAddr (src this : SipAddr) : SipAddr :=
  match s with
  | From => copy src
  | To => setUrlType (urlType this) (setUrlField (duplicateUrl (url src)) src)
  end.

(** * Comparing *)

Definition equalsAddr (a b : SipAddr) : outcome bool :=
  equal ← match url a, url b with
          | Some x, Some y => areEqual x y
          | None, None => mret true
          | _, _ => mret false
          end;
  mret (equal && textEq (tag a) (tag b) && tokensEq (tokenMap a) (tokenMap b)).

Definition lessAddr (a b : SipAddr) : outcome bool :=
  lt ← match url a, url b with
       | Some x, Some y => isLessThan x y
       | None, Some _ => mret true
       | _, _ => mret false
       end;
  mret (lt || SipViaHdr.textLt (tag a) (tag b) || SipViaHdr.textLt (token a) (token b) ||
    SipViaHdr.textLt (qstring a) (qstring b)).

(** * Printing *)

Definition displayText (name : bytes) : outcome bytes :=
  dispName ← removeSpacesText name;
  mret match dispName with
       | [] => []
       | c :: _ => (if c =? 34 then [] else [34]) ++ dispName ++ (if List.last dispName 0 =? 34 then [] else [34]) ++ str " "
       end.

Definition tokenText (e : bytes * bytes) : bytes := e.1 ++ (if 0 <? zlen e.2 then str "=" ++ e.2 else []).

Fixpoint tokensText (m : tokens) : bytes :=
  match m with
  | [] => []
  | [e] => tokenText e
  | e :: m' => tokenText e ++ str ";" ++ tokensText m'
  end.

Definition paramsOf (a : SipAddr) : bytes :=
  (if 0 <? zlen (tag a) then str ";tag=" ++ tag a else []) ++
  (match tokenMap a with [] => [] | _ => str ";" end) ++ tokensText (tokenMap a).

Definition headerName : bytes := match s with From => str "From:" | To => str "To:" end.

(** A To without a URL is not printed; a From without one is printed from its
    parameters on. *)
Definition encodeAddr (a : SipAddr) : outcome bytes :=
  match url a with
  | Some u =>
      name ← displayText (displayName a);
      text ← encodeUrl u;
      mret (headerName ++ str " " ++ name ++ str "<" ++ text ++ str ">" ++ paramsOf a ++ [13; 10])
  | None => mret (match s with From => paramsOf a ++ [13; 10] | To => [] end)
  end.

(** * Setters and getters with a case for the kind of URL *)

(** The URL that a setter changes, made when there is none. *)
Definition withSipUrl (ip : bytes) (f : SipUrl -> outcome SipUrl) (a : SipAddr) : outcome SipAddr :=
  t ← initialised (urlType a);
  if decide (t = TEL_URL) then mret a
  else
    u ← match default (ASipUrl (emptyUrl ip false)) (url a) with
        | ASipUrl x => x ← f x; mret (ASipUrl x)
        | u => mret u
        end;
    mret (setUrlField (Some u) a).

Definition setPortText (ip newport : bytes) : SipAddr -> outcome SipAddr := withSipUrl ip (SipUri.setPortData newport).
Definition setPort (ip : bytes) (p : Z) : SipAddr -> outcome SipAddr := withSipUrl ip (fun u => mret (setPortNumber p u)).

Definition setHostAddr (isIp6 : bytes -> bool) (ip newhost : bytes) : SipAddr -> outcome SipAddr :=
  withSipUrl ip (fun u => mret (SipUri.setHost isIp6 newhost u)).

Definition setUser (ip newuser : bytes) (a : SipAddr) : outcome SipAddr :=
  u ← match url a with
      | Some u => mret (Some u)
      | None =>
          t ← initialised (urlType a);
          mret (if decide (t = SIP_URL) then Some (ASipUrl (emptyUrl ip false))
                else if decide (t = TEL_URL) then Some (ATelUrl (mkTelUrl [] None)) else None)
      end;
  u ← match u with Some u => u ← setUserValueUrl newuser u; mret (Some u) | None => mret None end;
  let a := setUrlField u a in
  mret (if zlen (displayName a) =? 0 then setDisplayName newuser a else a).

Definition getUser (a : SipAddr) : bytes := match url a with Some u => getUserValueUrl u | None => [] end.

Definition getHost (a : SipAddr) : bytes := match url a with Some (ASipUrl u) => host u | _ => [] end.

Definition getPort (a : SipAddr) : outcome Z :=
  match url a with
  | Some (ASipUrl u) => toInt (port u)
  | _ => match s with From => mret 0 | To => toInt [] end
  end.

End Addr.

(** * The class SipTo

    Its members, each with its own code in SipTo.cxx, are the definitions above
    for the side [To]. *)
Module SipTo.

Definition SipTo_parseAddrParam : bytes -> SipAddr -> outcome SipAddr := parseAddrParam.
Definition SipTo_parseAddrParamExt : bytes -> SipAddr -> outcome SipAddr := parseAddrParamExt.
Definition SipTo_parseTag : bytes -> bytes -> SipAddr -> outcome SipAddr := parseTag.
Definition SipTo_parseUrl (strict : bool) : bytes -> bytes -> SipAddr -> outcome SipAddr := parseUrl strict To.
Definition scanSipTo (strict : bool) : bytes -> bytes -> SipAddr -> outcome SipAddr := scan strict To.
Definition newSipTo (strict : bool) : bytes -> bytes -> UrlType -> outcome SipAddr := newAddr strict To.
Definition SipTo_ofUrl : option BaseUrl -> SipAddr := ofUrl To.
Definition SipTo_copy : SipAddr -> SipAddr := copy To.
Definition SipTo_ofFrom : SipAddr -> SipAddr := ofOther To.
Definition SipTo_assign : SipAddr -> SipAddr -> SipAddr := assignAddr To.
Definition SipTo_equals : SipAddr -> SipAddr -> outcome bool := equalsAddr.
Definition SipTo_less : SipAddr -> SipAddr -> outcome bool := lessAddr.
Definition SipTo_encode : SipAddr -> outcome bytes := encodeAddr To.
Definition SipTo_setPortData : bytes -> bytes -> SipAddr -> outcome SipAddr := setPortText.
Definition SipTo_setPort : bytes -> Z -> SipAddr -> outcome SipAddr := setPort.
Definition SipTo_getPort : SipAddr -> outcome Z := getPort To.
Definition SipTo_setHost : (bytes -> bool) -> bytes -> bytes -> SipAddr -> outcome SipAddr := setHostAddr.
Definition SipTo_setUser : bytes -> bytes -> SipAddr -> outcome SipAddr := setUser.

End SipTo.
End SipAddr.
