(* ===== verification/SipAddrFacts.v ===== *)
(** From and To: the map of parameters, and what the parser does with the parts
    of a header. *)
From S2P Require Import Prelude DataStr DataStrFacts DataStrText SipHeap SipText SipViaHdr SipViaFacts SipViaProps SipRaw SipFields SipEscape SipUser SipUri SipUriFacts SipUriProps SipBaseUrl SipAddr.
Import DataStr DataStrFacts DataStrText SipHeap SipText SipUser SipUri SipUriFacts SipUriProps SipBaseUrl SipAddr.

Module SipAddrFacts.

(** * The order of texts *)

Lemma strcmp_opposite a : forall b, strcmp b a = - strcmp a b.
Proof.
  induction a as [|x a IH]; intros [|y b]; try reflexivity. cbn [strcmp]. rewrite (Z.eqb_sym y x).
  destruct (Z.eqb_spec x y); [apply IH|]. destruct (Z.ltb_spec y x), (Z.ltb_spec x y); lia.
Qed.

Lemma strcmp_trans a : forall b c, strcmp a b < 0 -> strcmp b c < 0 -> strcmp a c < 0.
Proof.
  induction a as [|x a IH]; intros [|y b] [|z c]; cbn [strcmp]; try lia.
  destruct (Z.eqb_spec x y), (Z.eqb_spec y z), (Z.eqb_spec x z), (Z.ltb_spec x y), (Z.ltb_spec y z), (Z.ltb_spec x z);
    try lia. apply IH.
Qed.

Lemma textLt_irrefl a : SipViaHdr.textLt a a = false.
Proof. unfold SipViaHdr.textLt. now rewrite strcmp_refl. Qed.

Lemma textLt_asym a b : SipViaHdr.textLt a b = true -> SipViaHdr.textLt b a = false.
Proof. unfold SipViaHdr.textLt. rewrite (strcmp_opposite (cstr a) (cstr b)). lia. Qed.

Lemma textLt_trans a b c : SipViaHdr.textLt a b = true -> SipViaHdr.textLt b c = true -> SipViaHdr.textLt a c = true.
Proof. unfold SipViaHdr.textLt. rewrite !Z.ltb_lt. apply strcmp_trans. Qed.

(** Neither is less: they are equal texts. *)
Lemma textLt_total a b : SipViaHdr.textLt a b = false -> SipViaHdr.textLt b a = false -> cstr a = cstr b.
Proof. unfold SipViaHdr.textLt. rewrite (strcmp_opposite (cstr a) (cstr b)). intros. apply strcmp_eq. lia. Qed.

Lemma textLt_cstr a b c : cstr a = cstr b -> SipViaHdr.textLt a c = SipViaHdr.textLt b c /\ SipViaHdr.textLt c a = SipViaHdr.textLt c b.
Proof. unfold SipViaHdr.textLt. now intros ->. Qed.

(** * The map of parameters *)

(** The keys are in ascending order. *)
Fixpoint sortedTokens (m : tokens) : bool :=
  match m with
  | [] => true
  | (k, _) :: m' => forallb (fun e => SipViaHdr.textLt k e.1) m' && sortedTokens m'
  end.

Lemma setToken_above k v p m :
  forallb (fun e : bytes * bytes => SipViaHdr.textLt p e.1) m = true -> SipViaHdr.textLt p k = true ->
  forallb (fun e : bytes * bytes => SipViaHdr.textLt p e.1) (setToken k v m) = true.
Proof.
  intros Hm Hk. induction m as [|[k' v'] m IH]; cbn [setToken forallb fst] in *; [now rewrite Hk|].
  apply andb_prop in Hm as [Hk' Hm]. destruct (SipViaHdr.textLt k k'), (SipViaHdr.textLt k' k); cbn [forallb fst];
    rewrite ?Hk, ?Hk', ?Hm, ?IH; auto.
Qed.

Lemma setToken_sorted k v m : sortedTokens m = true -> sortedTokens (setToken k v m) = true.
Proof.
  induction m as [|[k' v'] m IH]; [reflexivity|]. cbn [sortedTokens setToken]. intros [Hk' Hm]%andb_prop.
  destruct (SipViaHdr.textLt k k') eqn:E.
  - cbn [sortedTokens forallb fst]. rewrite E, Hk', Hm. cbn [andb]. rewrite andb_true_r.
    rewrite forallb_forall in *. intros e He. apply (textLt_trans k k'); [exact E | now apply Hk'].
  - destruct (SipViaHdr.textLt k' k) eqn:E'; cbn [sortedTokens]; [|now rewrite Hk', Hm].
    rewrite IH by exact Hm. rewrite setToken_above; auto.
Qed.

Lemma findToken_same k k' m : cstr k = cstr k' -> findToken k m = findToken k' m.
Proof.
  intros E. induction m as [|[x v] m IH]; [reflexivity|]. cbn [findToken].
  destruct (textLt_cstr k k' x E) as [-> ->]. now rewrite IH.
Qed.

Lemma findToken_set k v m : findToken k (setToken k v m) = Some v.
Proof.
  induction m as [|[k' v'] m IH]; cbn [setToken findToken]; [now rewrite textLt_irrefl|].
  destruct (SipViaHdr.textLt k k') eqn:E; cbn [findToken]; [now rewrite textLt_irrefl|].
  destruct (SipViaHdr.textLt k' k) eqn:E'; cbn [findToken]; now rewrite E, E'.
Qed.

Lemma findToken_other k v k' m :
  sortedTokens m = true -> cstr k' <> cstr k -> findToken k' (setToken k v m) = findToken k' m.
Proof.
  intros Hm Hne. assert (SipViaHdr.textLt k' k || SipViaHdr.textLt k k' = true) as Hd.
  { destruct (SipViaHdr.textLt k' k) eqn:E1; [reflexivity|]. destruct (SipViaHdr.textLt k k') eqn:E2; [reflexivity|].
    destruct Hne. now apply textLt_total. }
  induction m as [|[x w] m IH]; cbn [setToken findToken sortedTokens] in *; [now rewrite Hd|].
  apply andb_prop in Hm as [_ Hm].
  destruct (SipViaHdr.textLt k x) eqn:E1; cbn [findToken]; [now rewrite Hd|].
  destruct (SipViaHdr.textLt x k) eqn:E2; cbn [findToken]; [now rewrite (IH Hm)|].
  assert (cstr x = cstr k) as E by now apply textLt_total.
  destruct (textLt_cstr x k k' E) as [E3 E4]. now rewrite E3, E4, Hd.
Qed.

(** A key above all others goes to the end. *)
Lemma setToken_last k v m :
  forallb (fun e => SipViaHdr.textLt e.1 k) m = true -> setToken k v m = m ++ [(k, v)].
Proof.
  induction m as [|[x w] m IH]; [reflexivity|]. cbn [forallb setToken fst app]. intros [Hx Hm]%andb_prop.
  rewrite (textLt_asym _ _ Hx), Hx. now rewrite IH.
Qed.

(** * URLs of every kind *)

Lemma eqNoCase_subst a b c : eqNoCase a b = true -> eqNoCase a c = eqNoCase b c.
Proof.
  unfold eqNoCase, strncasecmp, strncmp. intros [Hl Hc]%andb_prop. apply Z.eqb_eq in Hl, Hc. apply strcmp_eq in Hc.
  rewrite Hl in *. now rewrite Hc.
Qed.

(** The scheme is spelled in some way. *)
Definition schemeOk (name x : bytes) : bool := eqNoCase x name && noneOf [58] x.

Definition telUrlOk (x : TelUrl) : bool :=
  match telUser x with
  | None => false
  | Some t =>
      schemeOk (str "tel") (telScheme x) && (0 <? zlen (basePhoneNumber t)) && telOk t && negb (startsWith [58] (encodeTel t)) &&
      if isGlobalPhoneNumber t then bool_decide (phoneContext t = []) && bool_decide (serviceProvider t = [])
      else bool_decide (isdnSubAddress t = [])
  end.

Definition impOk (name : bytes) (x : ImpBaseUrl) : bool :=
  bool_decide (impScheme x = name) && (0 <? zlen (impUser x)) && noneOf [64] (impUser x) &&
  negb (startsWith [58] (impUser x)) && noneOf [59] (impHost x).

(** A text of no known scheme. *)
Definition unknownOk (x : bytes) : bool :=
  match breakIn [58] x with
  | None => true
  | Some (b, _, _) =>
      (zlen b =? 0) || forallb (fun n => negb (eqNoCase b n)) [str "sip"; str "tel"; str "im"; str "pres"]
  end.

Definition urlReads (ip : bytes) (u : BaseUrl) : bool :=
  match u with
  | ASipUrl x => urlOk x && bool_decide (local_ip x = ip)
  | ATelUrl x => telUrlOk x
  | AnImUrl x => impOk (str "im") x
  | APresUrl x => impOk (str "pres") x
  | AnUnknownUrl x => unknownOk x
  | ANullUrl => false
  end.

(** The scheme decides the class. *)
Lemma decode_scheme strict name x r ip :
  schemeOk name x = true -> (0 <? zlen name) = true -> zlen (x ++ 58 :: r) < npos ->
  SipBaseUrl.decode strict (x ++ 58 :: r) ip =
    if eqNoCase name (str "sip") then u ← newSipUrl strict (x ++ 58 :: r) ip false; mret (ASipUrl u)
    else if eqNoCase name (str "tel") then u ← newTelUrl strict (x ++ 58 :: r); mret (ATelUrl u)
    else if eqNoCase name (str "im") then u ← newImpBaseUrl strict (x ++ 58 :: r) (str "im"); mret (AnImUrl u)
    else if eqNoCase name (str "pres") then u ← newImpBaseUrl strict (x ++ 58 :: r) (str "pres"); mret (APresUrl u)
    else mret (AnUnknownUrl (x ++ 58 :: r)).
Proof.
  unfold schemeOk. intros [He Hx]%andb_prop Hn Hl. unfold SipBaseUrl.decode. chars. rewrite matchText_eq by exact Hl.
  rewrite (breakIn_first [58] x 58) by (exact Hx || reflexivity). cbn [mbind outcome_bind default from_option id].
  destruct (Z.eqb_spec (zlen x) 0) as [E|E].
  - pose proof He as He'. unfold eqNoCase in He'. apply andb_prop in He' as [He' _]. lia.
  - now rewrite !(eqNoCase_subst x name).
Qed.

Lemma newTelUrl_text strict x : telUrlOk x = true -> newTelUrl strict (encodeTelUrl x) = Ret x.
Proof.
  destruct x as [sc [t|]]; [|discriminate]. unfold telUrlOk, schemeOk. cbn [telUser telScheme]. intros H. bools.
  assert (encodeWithParams t = encodeTel t ++ getTelParams t) as Et.
  { unfold encodeWithParams, getGlobalPhoneNumber, getLocalPhoneNumber, encodeTel, getTelParams.
    match goal with E : (0 <? _) = true |- _ => rewrite E end. destruct (isGlobalPhoneNumber t); bools; repeat match goal with E : _ = [] |- _ => rewrite E end;
      rewrite <- ?app_assoc; reflexivity. }
  unfold newTelUrl, encodeTelUrl. cbn [telUser telScheme]. chars. rewrite parseText_eq. cbn [app].
  rewrite (breakIn_first [58] sc 58) by (assumption || reflexivity). rewrite Et.
  assert (exists c r, encodeTel t ++ getTelParams t = c :: r /\ (c =? 58) = false) as (c & r & E & Hc).
  { unfold encodeTel in *. destruct (isGlobalPhoneNumber t); [eexists _, _; split; reflexivity|].
    destruct (basePhoneNumber t) as [|c b]; [discriminate|]. eexists _, _. split; [reflexivity|].
    cbn [app startsWith isIn existsb] in *. match goal with E : _ || false = false |- _ => rewrite orb_false_r in E; exact E end. }
  rewrite dropIn_clean by (rewrite E; cbn [startsWith isIn existsb]; now rewrite orb_false_r).
  cbn [mbind outcome_bind]. match goal with E : eqNoCase _ _ = true |- _ => rewrite E end. cbn [negb].
  rewrite E, zlen_cons_positive, <- E. now rewrite decodeTel_text.
Qed.

Lemma newImpBaseUrl_text strict name x :
  noneOf [58] name = true -> impOk name x = true -> newImpBaseUrl strict (encodeImp x) name = Ret x.
Proof.
  destruct x as [sc u h]. unfold impOk. cbn [impScheme impUser impHost]. intros Hn H. bools.
  subst sc.
  unfold newImpBaseUrl, encodeImp. cbn [impScheme impUser impHost]. chars. cbn [app]. rewrite parseText_eq.
  rewrite (breakIn_first [58] name 58) by (assumption || reflexivity).
  destruct (Z.eqb_spec (zlen u) 0); [lia|].
  rewrite dropIn_clean by (destruct u as [|c u]; [reflexivity|]; cbn [app startsWith] in *; assumption).
  cbn [mbind outcome_bind]. rewrite eqNoCase_refl. cbn [negb]. rewrite <- app_assoc. cbn [app].
  rewrite matchCharText_eq, (breakIn_first [64] u 64) by (assumption || reflexivity). cbn [mbind outcome_bind].
  change (64 =? 64) with true. cbv iota. now rewrite matchCharText_eq, breakIn_none.
Qed.

(** A URL of any kind that is printed is read back. *)
Lemma decode_text strict ip u text :
  urlReads ip u = true -> encodeUrl u = Ret text -> zlen text < npos -> SipBaseUrl.decode strict text ip = Ret u.
Proof.
  intros H E Hl. destruct u as [x|x|x|x|x|]; cbn [urlReads encodeUrl mret outcome_ret] in *; [| | | | |discriminate].
  - bools. subst ip.
    match goal with Hx : urlOk x = true |- _ => rewrite encode_ok in E by exact Hx; injection E as <-;
      pose proof (newSipUrl_text strict x Hx) as En; unfold urlOk, addressOk in Hx end. bools.
    unfold urlText in *. rewrite (decode_scheme strict (str "sip")); [now rewrite En | | reflexivity | exact Hl].
    unfold schemeOk. apply andb_true_intro. split; [assumption | sub_noneOf].
  - injection E as <-. pose proof (newTelUrl_text strict x H) as En. unfold telUrlOk in H. destruct (telUser x) as [t|] eqn:Et; [|discriminate].
    bools. unfold encodeTelUrl in *. rewrite Et in *. chars. cbn [app] in *.
    rewrite (decode_scheme strict (str "tel")); [now rewrite En | assumption | reflexivity | exact Hl].
  - injection E as <-. pose proof (newImpBaseUrl_text strict (str "im") x eq_refl H) as En. unfold impOk in H. bools.
    match goal with E : impScheme _ = _ |- _ => unfold encodeImp in *; rewrite E in * end.
    chars. cbn [app] in *. rewrite (decode_scheme strict (str "im")); [now rewrite En | reflexivity | reflexivity | exact Hl].
  - injection E as <-. pose proof (newImpBaseUrl_text strict (str "pres") x eq_refl H) as En. unfold impOk in H. bools.
    match goal with E : impScheme _ = _ |- _ => unfold encodeImp in *; rewrite E in * end.
    chars. cbn [app] in *. rewrite (decode_scheme strict (str "pres")); [now rewrite En | reflexivity | reflexivity | exact Hl].
  - injection E as <-. unfold unknownOk in H. unfold SipBaseUrl.decode. chars. rewrite matchText_eq by exact Hl.
    destruct (breakIn [58] x) as [[[b c] r]|]; [|reflexivity]. cbn [mbind outcome_bind default from_option id].
    destruct (zlen b =? 0); [reflexivity|]. cbn [orb forallb] in H. bools.
    repeat match goal with E : _ = false |- _ => rewrite E end. reflexivity.
Qed.

End SipAddrFacts.
