(* ===== verification/SipAddrText.v ===== *)
(** From and To: what the parser reads from a header that was printed. *)
From S2P Require Import Prelude DataStr DataStrFacts DataStrText SipHeap SipText SipViaHdr SipViaFacts SipViaProps SipRaw SipFields SipEscape SipUser SipUri SipUriFacts SipUriProps SipBaseUrl SipAddr SipAddrFacts.
Import DataStr DataStrFacts DataStrText SipHeap SipText SipUser SipUri SipUriFacts SipUriProps SipBaseUrl SipAddr SipAddrFacts.

Module SipAddrText.

(** * Parameters *)

(** Pieces with semicolons between them. *)
Fixpoint joinSemi (ps : list bytes) : bytes :=
  match ps with [] => [] | [p] => p | p :: ps' => p ++ 59 :: joinSemi ps' end.

Definition pieces (a : SipAddr) : list bytes :=
  (if 0 <? zlen (tag a) then [str "tag=" ++ tag a] else []) ++ map tokenText (tokenMap a).

Definition semiPieces (ps : list bytes) : bytes := match ps with [] => [] | _ => 59 :: joinSemi ps end.

Lemma joinSemi_cons p ps : joinSemi (p :: ps) = p ++ semiPieces ps.
Proof. destruct ps; cbn; now rewrite ?app_nil_r. Qed.

Lemma tokensText_join m : tokensText m = joinSemi (map tokenText m).
Proof.
  induction m as [|e m IH]; [reflexivity|]. destruct m as [|e' m]; [reflexivity|].
  change (tokenText e ++ str ";" ++ tokensText (e' :: m) = tokenText e ++ 59 :: joinSemi (map tokenText (e' :: m))). now rewrite IH.
Qed.

Lemma paramsOf_pieces a : paramsOf a = semiPieces (pieces a).
Proof.
  unfold paramsOf, pieces. rewrite tokensText_join.
  assert (match tokenMap a with [] => [] | _ => str ";" end ++ joinSemi (map tokenText (tokenMap a)) = semiPieces (map tokenText (tokenMap a))) as ->
    by (now destruct (tokenMap a)).
  destruct (0 <? zlen (tag a)); cbn [app]; [|reflexivity]. cbn [semiPieces]. rewrite joinSemi_cons.
  change (str ";tag=") with (59 :: str "tag="). cbn [app]. now rewrite <- app_assoc.
Qed.

Lemma noneOf_pieces m ps :
  isIn 59 m = false -> Forall (fun p => noneOf m p = true) ps -> noneOf m (semiPieces ps) = true.
Proof.
  intros H59 H. induction H as [|p ps Hp H IH]; [reflexivity|]. cbn [semiPieces].
  now rewrite joinSemi_cons, noneOf_cons, noneOf_app, H59, Hp, IH.
Qed.

(** The loop takes one piece after the other. *)
Definition foldPieces (ps : list bytes) (a : SipAddr) : outcome SipAddr :=
  fold_left (fun m p => a ← m; parseAddrParamExt p a) ps (Ret a).

Lemma foldPieces_cons p ps a b : parseAddrParamExt p a = Ret b -> foldPieces (p :: ps) a = foldPieces ps b.
Proof. unfold foldPieces. cbn [fold_left mbind outcome_bind]. now intros ->. Qed.

Lemma foldPieces_fault p ps a f : parseAddrParamExt p a = Fault f -> foldPieces (p :: ps) a = Fault f.
Proof.
  unfold foldPieces. cbn [fold_left mbind outcome_bind]. intros ->. induction ps as [|q ps IH]; [reflexivity | exact IH].
Qed.

Lemma addrParams_pieces p ps : forall fuel a b,
  Forall (fun q => q <> [] /\ noneOf [59] q = true) (p :: ps) -> zlen (joinSemi (p :: ps)) < npos ->
  (length (joinSemi (p :: ps)) < fuel)%nat -> foldPieces (p :: ps) a = Ret b ->
  addrParams fuel (joinSemi (p :: ps)) a = Ret b.
Proof.
  revert p. induction ps as [|q ps IH]; intros p fuel a b Hps Hl Hf E; (destruct fuel as [|fuel]; [lia|]);
    apply List.Forall_cons_iff in Hps as [[Hne Hp] Hps]; rewrite joinSemi_cons in *; cbn [addrParams]; chars; rewrite matchText_eq by exact Hl.
  - cbn [semiPieces] in *. rewrite app_nil_r in *. rewrite breakIn_none by exact Hp. exact E.
  - cbn [semiPieces] in *. rewrite (breakIn_first [59] p 59) by (exact Hp || reflexivity).
    rewrite SipViaProps.nonempty_len by exact Hne. cbn [mbind outcome_bind default from_option id].
    destruct (parseAddrParamExt p a) as [c|f] eqn:Ec; cbn [mbind outcome_bind].
    + rewrite (foldPieces_cons p (q :: ps) a c Ec) in E. apply IH; [exact Hps | | | exact E].
      * rewrite zlen_app, zlen_cons in Hl. pose proof (zlen_nonneg p). lia.
      * rewrite length_app in Hf. cbn [length] in Hf. lia.
    + now rewrite (foldPieces_fault p (q :: ps) a f Ec) in E.
Qed.

(** A key that is stored as it is printed. *)
Definition tokenOk (e : bytes * bytes) : bool :=
  (0 <? zlen e.1) && noneOf [32; 59; 60; 61; 62] e.1 && negb (eqNoCase e.1 (str "tag")) && noneOf [32; 59; 60; 62] e.2.

Lemma tokenText_read k v a :
  tokenOk (k, v) = true -> zlen (tokenText (k, v)) < npos ->
  parseAddrParamExt (tokenText (k, v)) a = Ret (setTokenDetails k v a).
Proof.
  unfold tokenOk, tokenText, parseAddrParamExt. cbn [fst snd]. intros H Hl. bools. chars. rewrite matchText_eq by exact Hl.
  destruct v as [|c v].
  - cbn [app] in *. change (0 <? zlen (@nil Z)) with false. cbv iota. rewrite app_nil_r, breakIn_none by sub_noneOf. reflexivity.
  - rewrite zlen_cons_positive. cbn [app]. rewrite (breakIn_first [61] k 61) by (sub_noneOf || reflexivity).
    destruct (Z.eqb_spec (zlen k) 0); [lia|]. cbn [mbind outcome_bind default from_option id].
    rewrite removeSpacesText_trimmed by (apply noneOf_trimmed; sub_noneOf). cbn [mbind outcome_bind]. unfold parseTag.
    match goal with E : eqNoCase _ _ = false |- _ => rewrite E end.
    rewrite !removeSpacesText_trimmed by (apply noneOf_trimmed; sub_noneOf). reflexivity.
Qed.

Lemma tag_read t a :
  noneOf [32] t = true -> zlen (str "tag=" ++ t) < npos -> parseAddrParamExt (str "tag=" ++ t) a = Ret (setTag t a).
Proof.
  intros Ht Hl. unfold parseAddrParamExt. chars. rewrite matchText_eq by exact Hl. change (str "tag=") with (str "tag" ++ [61]).
  rewrite <- app_assoc. cbn [app]. rewrite (breakIn_first [61] (str "tag") 61) by reflexivity.
  cbn [mbind outcome_bind default from_option id]. change (removeSpacesText (str "tag")) with (Ret (str "tag")).
  change (zlen (str "tag") =? 0) with false. cbn [mbind outcome_bind]. unfold parseTag. rewrite eqNoCase_refl.
  now rewrite removeSpacesText_trimmed by now apply noneOf_trimmed.
Qed.

Lemma tokens_read m : forall p a,
  sortedTokens (p ++ m) = true -> forallb tokenOk m = true -> Forall (fun e => zlen (tokenText e) < npos) m ->
  tokenMap a = p ->
  foldPieces (map tokenText m) a =
    Ret (mkAddr (displayName a) (url a) (urlType a) (tag a) (token a) (qstring a) (p ++ m)).
Proof.
  induction m as [|[k v] m IH]; intros p a Hs Ho Hl Hp.
  - rewrite app_nil_r. subst p. now destruct a.
  - cbn [forallb map] in *. apply andb_prop in Ho as [Hk Ho]. apply List.Forall_cons_iff in Hl as [Hlk Hl].
    rewrite (foldPieces_cons _ _ _ _ (tokenText_read k v a Hk Hlk)).
    assert (setToken k v p = p ++ [(k, v)]) as E.
    { apply setToken_last. clear -Hs. induction p as [|[x w] p IH]; [reflexivity|]. cbn [app sortedTokens forallb fst] in *.
      apply andb_prop in Hs as [Hx Hs]. rewrite (IH Hs), andb_true_r. rewrite forallb_app in Hx. cbn [forallb fst] in Hx. now bools. }
    rewrite (IH (p ++ [(k, v)])); [| now rewrite <- app_assoc | exact Ho | exact Hl | unfold setTokenDetails; cbn [tokenMap]; now rewrite Hp].
    unfold setTokenDetails. cbn. now rewrite <- app_assoc.
Qed.

End SipAddrText.
