(* ===== verification/SipAddrProps.v ===== *)
(** The properties of From and To: a header that is printed is read back; the
    parser ends and keeps its parameters as a map; what a copy and a comparison
    do with URLs of other kinds; and a From without a URL. *)
From S2P Require Import Prelude DataStr DataStrFacts DataStrText SipHeap SipText SipViaHdr SipViaFacts SipViaProps SipRaw SipRawFacts SipFields SipEscape SipUser SipUri SipUriFacts SipUriProps SipBaseUrl SipAddr SipAddrFacts SipAddrText.
Import DataStr DataStrFacts DataStrText SipHeap SipText SipRaw SipUser SipUri SipUriFacts SipUriProps SipBaseUrl SipAddr SipAddrFacts SipAddrText.
Import SipViaFacts(part, part_app_l, part_app_r, part_nil, part_fits, matchText_parts, removeSpacesText_part).

Module SipAddrProps.

(** * The display name *)

Lemma last_snoc (l : bytes) x d : List.last (l ++ [x]) d = x.
Proof. apply last_last. Qed.

(** The name as it is printed. *)
Definition quoted (d : bytes) : bytes := (if startsWith [34] d then [] else [34]) ++ d ++ (if List.last d 0 =? 34 then [] else [34]).

Lemma displayText_eq d :
  displayText d = Ret (match trimEnd (dropIn [32] d) with [] => [] | _ => quoted (trimEnd (dropIn [32] d)) ++ [32] end).
Proof.
  unfold displayText. rewrite removeSpacesText_eq. cbn [mbind outcome_bind]. destruct (trimEnd (dropIn [32] d)) as [|c l]; [reflexivity|].
  unfold quoted. cbn [startsWith isIn existsb]. rewrite orb_false_r, <- !app_assoc. reflexivity.
Qed.

Lemma noneOf_trim m d : noneOf m d = true -> noneOf m (trimEnd (dropIn [32] d)) = true.
Proof.
  intros H. destruct (removeSpacesText_part d) as (k & E & Hk). rewrite removeSpacesText_eq in E. injection E as ->.
  now apply Hk.
Qed.

Lemma noneOf_quoted m d : noneOf m d = true -> isIn 34 m = false -> noneOf m (quoted d) = true.
Proof.
  intros H H34. unfold quoted. rewrite !noneOf_app, H. assert (noneOf m [34] = true) as E by (rewrite noneOf_cons; now rewrite H34).
  destruct (startsWith [34] d), (List.last d 0 =? 34); now rewrite ?E.
Qed.

(** A quoted name that is read is printed as it was. *)
Lemma quoted_again d : d <> [] -> displayText (quoted d ++ [32]) = Ret (quoted d ++ [32]).
Proof.
  intros Hd. rewrite displayText_eq.
  assert (exists c l, quoted d = c :: l /\ startsWith [34] (quoted d) = true /\ (c =? 32) = false) as (c & l & E & Hs & Hc).
  { unfold quoted. destruct d as [|c d]; [contradiction|]. destruct (startsWith [34] (c :: d)) eqn:E; cbn [app].
    - do 2 eexists. split; [reflexivity|]. split; [exact E|]. cbn [startsWith isIn existsb] in E. rewrite orb_false_r in E. lia.
    - do 2 eexists. split; [reflexivity|]. split; reflexivity. }
  assert (List.last (quoted d) 0 = 34) as Hl.
  { unfold quoted. destruct (Z.eqb_spec (List.last d 0) 34) as [El|_]; [|now rewrite app_assoc, last_snoc].
    rewrite app_nil_r. destruct (startsWith [34] d); [exact El|]. cbn [app]. destruct d; [contradiction | exact El]. }
  assert (trimEnd (dropIn [32] (quoted d ++ [32])) = quoted d) as ->.
  { rewrite dropIn_clean by (rewrite E; cbn [app startsWith isIn existsb]; now rewrite orb_false_r).
    destruct (exists_last (l := quoted d)) as (l' & x & Ex); [congruence|]. rewrite Ex in *. rewrite last_snoc in Hl. subst x.
    now rewrite !trimEnd_snoc. }
  rewrite E. cbv beta iota. rewrite <- E. unfold quoted at 1. rewrite Hs, Hl. cbn [app Z.eqb Pos.eqb]. now rewrite app_nil_r.
Qed.

(** * Addresses that can be printed and read back *)

(** A SIP URL without what the header drops. *)
Definition initialized (s : side) (u : SipUrl) : bool :=
  bool_decide (transportParam u = []) && bool_decide (maddrParam u = []) && negb (lrParam u) &&
  match s with From => bool_decide (headers u = []) | To => bool_decide (ttlParam u = []) end.

Lemma initialized_same s u : initialized s u = true -> initializeUrl s (ASipUrl u) = ASipUrl u.
Proof.
  unfold initialized. intros H. bools. unfold initializeUrl, initializeFrom, initializeTo. f_equal.
  destruct u, s; cbn in *; bools; subst; reflexivity.
Qed.

Definition paramsClean (a : SipAddr) : bool :=
  noneOf [32; 59; 60; 62] (tag a) && forallb tokenOk (tokenMap a) && sortedTokens (tokenMap a).

Definition holds (P : bytes -> bool) (m : outcome bytes) : bool := match m with Ret t => P t | Fault _ => false end.

Definition addrOk (s : side) (ip : bytes) (a : SipAddr) : bool :=
  match url a with
  | Some u =>
      urlReads ip u && (match u with ASipUrl x => initialized s x | _ => true end) &&
      holds (fun t => (0 <? zlen t) && noneOf [60; 62] t && trimmed t) (encodeUrl u)
  | None => false
  end && noneOf [60] (displayName a) && paramsClean a && holds (fun t => zlen t <? npos) (encodeAddr s a).

Lemma addrOk_url s ip a u :
  addrOk s ip a = true -> url a = Some u -> urlReads ip u = true /\ initializeUrl s u = u.
Proof.
  unfold addrOk. intros H E. rewrite E in H. bools. split; [assumption|]. destruct u as [x|x|x|x|x|]; try reflexivity. now apply initialized_same.
Qed.

Lemma pieces_clean m a :
  paramsClean a = true -> isIn 59 m = false -> isIn 61 m = false ->
  (forall c, isIn c m = true -> isIn c [32; 59; 60; 62] = true) -> noneOf m (paramsOf a) = true.
Proof.
  intros H H59 H61 Hm. rewrite paramsOf_pieces. apply noneOf_pieces; [exact H59|]. unfold pieces, paramsClean in *. bools.
  assert (forall x, noneOf [32; 59; 60; 62] x = true -> noneOf m x = true) as Hw by (intros x; now apply noneOf_weaken).
  apply List.Forall_app. split.
  - destruct (0 <? zlen (tag a)); [|constructor]. constructor; [|constructor]. rewrite noneOf_app.
    rewrite (Hw (tag a)), andb_true_r by assumption. change (str "tag=") with [116; 97; 103; 61].
    rewrite !noneOf_cons, H61. cbn [negb andb]. repeat (apply andb_true_intro; split); try reflexivity;
      match goal with |- negb (isIn ?c m) = true => destruct (isIn c m) eqn:E; [apply Hm in E; discriminate E | reflexivity] end.
  - apply List.Forall_map. apply List.Forall_forall. intros [k v] He. match goal with E : forallb tokenOk _ = true |- _ => rewrite forallb_forall in E; specialize (E _ He) end.
    unfold tokenOk in *. cbn [fst snd] in *. bools. unfold tokenText. cbn [fst snd]. rewrite noneOf_app.
    rewrite (Hw k) by sub_noneOf. destruct (0 <? zlen v); [|reflexivity]. chars. rewrite noneOf_app, (Hw v) by assumption.
    rewrite noneOf_cons, H61. reflexivity.
Qed.

Lemma joinSemi_fits p ps : In p ps -> zlen p <= zlen (joinSemi ps).
Proof.
  induction ps as [|q ps IH]; [contradiction|]. rewrite joinSemi_cons, zlen_app. pose proof (zlen_nonneg (semiPieces ps)). pose proof (zlen_nonneg q).
  intros [->|Hin]; [lia|]. specialize (IH Hin). destruct ps as [|q' ps]; [contradiction|]. cbn [semiPieces] in *. rewrite zlen_cons. lia.
Qed.

Lemma pieces_nonempty a : paramsClean a = true -> Forall (fun q => q <> [] /\ noneOf [59] q = true) (pieces a).
Proof.
  unfold pieces, paramsClean. intros H. bools. apply List.Forall_app. split.
  - destruct (0 <? zlen (tag a)); [|constructor]. constructor; [|constructor]. split; [discriminate|].
    rewrite noneOf_app. apply andb_true_intro. split; [reflexivity | sub_noneOf].
  - apply List.Forall_map. apply List.Forall_forall. intros [k v] He. match goal with E : forallb tokenOk _ = true |- _ => rewrite forallb_forall in E; specialize (E _ He) end.
    unfold tokenOk, tokenText in *. cbn [fst snd] in *. bools. destruct k as [|c k]; [discriminate|]. split; [discriminate|].
    rewrite noneOf_app. apply andb_true_intro. split; [sub_noneOf|]. destruct (0 <? zlen v); [|reflexivity]. chars. cbn [app].
    rewrite noneOf_cons. apply andb_true_intro. split; [reflexivity | sub_noneOf].
Qed.

(** The parameters that are printed are read into an address without any. *)
Lemma params_read a a0 :
  paramsClean a = true -> zlen (paramsOf a) < npos -> pieces a <> [] -> tag a0 = [] -> tokenMap a0 = [] ->
  parseAddrParam (joinSemi (pieces a)) a0 =
    Ret (mkAddr (displayName a0) (url a0) (urlType a0) (tag a) (token a0) (qstring a0) (tokenMap a)).
Proof.
  intros H Hl Hne Ht Hm. pose proof (pieces_nonempty a H) as Hp. rewrite paramsOf_pieces in Hl. unfold parseAddrParam.
  assert (Forall (fun q => zlen q < npos) (pieces a) /\ zlen (joinSemi (pieces a)) < npos) as [Hf Hj].
  { destruct (pieces a) as [|p ps]; [contradiction|]. cbn [semiPieces] in Hl. rewrite zlen_cons in Hl. split; [|lia].
    apply List.Forall_forall. intros q Hq. pose proof (joinSemi_fits q (p :: ps) Hq). lia. }
  assert (foldPieces (pieces a) a0 =
    Ret (mkAddr (displayName a0) (url a0) (urlType a0) (tag a) (token a0) (qstring a0) (tokenMap a))) as E.
  { unfold pieces, paramsClean in *. bools. destruct (0 <? zlen (tag a)) eqn:Etag; cbn [app] in *.
    - apply List.Forall_cons_iff in Hf as [Hf1 Hf]. rewrite (foldPieces_cons _ _ _ _ (tag_read (tag a) a0 ltac:(sub_noneOf) Hf1)).
      rewrite (tokens_read (tokenMap a) [] (setTag (tag a) a0)); try assumption; [reflexivity|].
      now apply List.Forall_map in Hf.
    - rewrite (tokens_read (tokenMap a) [] a0); try assumption; [|now apply List.Forall_map in Hf].
      apply zlen_positive in Etag. now rewrite Etag, Ht. }
  destruct (pieces a) as [|p ps]; [contradiction|]. apply addrParams_pieces; auto.
Qed.

(** A URL in angle brackets with the parameters behind it. *)
Lemma parseUrl_text strict s text u a a0 ip :
  (0 <? zlen text) = true -> noneOf [60; 62] text = true -> trimmed text = true -> SipBaseUrl.decode strict text ip = Ret u ->
  paramsClean a = true -> zlen (text ++ 62 :: paramsOf a) < npos -> tag a0 = [] -> tokenMap a0 = [] ->
  parseUrl strict s (text ++ 62 :: paramsOf a) ip a0 =
    Ret (mkAddr (displayName a0) (Some u) (urlType a0) (tag a) (token a0) (qstring a0) (tokenMap a)).
Proof.
  intros Hp Hn Ht Hu Hc Hl Hta Hma. unfold parseUrl. change (str ">") with [62]. rewrite matchText_eq by exact Hl.
  rewrite (breakIn_first [62] text 62) by (sub_noneOf || reflexivity).
  destruct (Z.eqb_spec (zlen text) 0); [lia|]. cbn [mbind outcome_bind default from_option id].
  rewrite (removeSpacesText_trimmed text) by exact Ht. cbn [mbind outcome_bind]. rewrite Hu. cbn [mbind outcome_bind].
  assert (zlen (paramsOf a) < npos) as Hl' by (rewrite zlen_app, zlen_cons in Hl; pose proof (zlen_nonneg text); lia).
  rewrite removeSpacesText_trimmed.
  2:{ apply noneOf_trimmed, pieces_clean; try reflexivity; [exact Hc|]. intros c. rewrite isIn_single. intros E%Z.eqb_eq. now subst c. }
  cbn [mbind outcome_bind]. chars. rewrite matchText_eq by exact Hl'. rewrite paramsOf_pieces in *.
  destruct (pieces a) as [|p ps] eqn:E.
  - cbn. unfold pieces in E. apply app_eq_nil in E as [E1 E2]. unfold setUrlField. rewrite Hta, Hma.
    destruct (0 <? zlen (tag a)) eqn:Etag; [discriminate|]. apply zlen_positive in Etag. apply map_eq_nil in E2. now rewrite Etag, E2.
  - cbn [semiPieces breakIn isIn existsb Z.eqb Pos.eqb orb]. change (zlen (@nil Z) =? 0) with true. cbn [mbind outcome_bind].
    rewrite <- E in *. rewrite (params_read a); auto; [rewrite paramsOf_pieces; now rewrite E in * | congruence].
Qed.

(** The text behind the name of the header. *)
Definition valueText (name text : bytes) (a : SipAddr) : bytes := name ++ 60 :: text ++ 62 :: paramsOf a.

(** The address with the name that is read. *)
Definition readBack (s : side) (name : bytes) (a : SipAddr) : SipAddr :=
  mkAddr name (url a) (match s with From => None | To => getType <$> url a end) (tag a) [] [] (tokenMap a).

Lemma displayText_clean d :
  noneOf [60] d = true ->
  exists name, displayText d = Ret name /\ noneOf [60] name = true /\ displayText name = Ret name /\
    (name = [] \/ (zlen name =? 0) = false /\ startsWith [34] name = true).
Proof.
  intros H. rewrite displayText_eq. destruct (trimEnd (dropIn [32] d)) as [|c l] eqn:E.
  - exists []. repeat split; auto.
  - assert (noneOf [60] (c :: l) = true) as Hc by (rewrite <- E; now apply noneOf_trim).
    exists (quoted (c :: l) ++ [32]). split; [reflexivity|]. split.
    + rewrite noneOf_app, noneOf_quoted; auto.
    + split; [now apply quoted_again|]. right. unfold quoted. destruct (startsWith [34] (c :: l)) eqn:Es; cbn [app];
        rewrite zlen_cons; (split; [|reflexivity || exact Es]); apply Z.eqb_neq; pose proof (zlen_nonneg ((l ++ (if List.last (c :: l) 0 =? 34 then [] else [34])) ++ [32]));
        pose proof (zlen_nonneg (((c :: l) ++ (if List.last (c :: l) 0 =? 34 then [] else [34])) ++ [32])); cbn [app] in *; lia.
Qed.

(** What the constructor reads from the text behind the name. *)
Lemma newAddr_text strict s ip t a u name text :
  addrOk s ip a = true -> url a = Some u -> encodeUrl u = Ret text -> displayText (displayName a) = Ret name ->
  noneOf [60] name = true -> (name = [] \/ (zlen name =? 0) = false /\ startsWith [34] name = true) ->
  newAddr strict s (valueText name text a) ip t = Ret (readBack s name a).
Proof.
  intros H Hu Et Hd Hn Hname. destruct (addrOk_url s ip a u H Hu) as [Hr Hi]. unfold addrOk in H. rewrite Hu in H. bools.
  unfold holds, encodeAddr in *. rewrite Hu, Et, Hd in *. cbn [mbind outcome_bind mret outcome_ret] in *. bools.
  assert (zlen (valueText name text a) < npos) as Hl.
  { unfold valueText. match goal with E : (zlen _ <? npos) = true |- _ => apply Z.ltb_lt in E; revert E end.
    change (str "<") with [60]. change (str ">") with [62]. change (str " ") with [32].
    rewrite !zlen_app, !zlen_cons, !zlen_app, !zlen_cons. change (zlen (@nil Z)) with 0. pose proof (zlen_nonneg (headerName s)). lia. }
  assert (zlen (text ++ 62 :: paramsOf a) < npos) as Hl2.
  { unfold valueText in Hl. rewrite zlen_app, zlen_cons in Hl. pose proof (zlen_nonneg name). lia. }
  assert (zlen text < npos) as Hl3 by (rewrite zlen_app, zlen_cons in Hl2; pose proof (zlen_nonneg (paramsOf a)); lia).
  assert (SipBaseUrl.decode strict text ip = Ret u) as Hdec by now apply decode_text.
  unfold newAddr. assert (textEq (valueText name text a) [] = false) as ->.
  { rewrite textEq_nil. unfold valueText. destruct Hname as [-> | [_ Hs]]; [reflexivity|]. destruct name as [|c r]; [discriminate|].
    cbn [app startsWith isIn existsb] in *. rewrite orb_false_r in Hs. lia. }
  unfold scan. change (str "<") with [60]. rewrite matchText_eq by exact Hl. unfold valueText.
  rewrite (breakIn_first [60] name 60) by (exact Hn || reflexivity). cbn [mbind outcome_bind].
  assert (forall a0, tag a0 = [] -> tokenMap a0 = [] ->
    parseUrl strict s (text ++ 62 :: paramsOf a) ip a0 =
      Ret (mkAddr (displayName a0) (Some u) (urlType a0) (tag a) (token a0) (qstring a0) (tokenMap a))) as Hpu.
  { intros a0 Ha1 Ha2. apply parseUrl_text; auto. }
  destruct Hname as [-> | [Hz _]]; [change (zlen (@nil Z) =? 0) with true | rewrite Hz]; cbv iota; cbn [default from_option id];
    rewrite Hpu by reflexivity; cbn [mbind outcome_bind mret outcome_ret]; unfold readBack, initialize, setUrlField, setUrlType;
    rewrite Hu; destruct s; cbn; rewrite Hi; reflexivity.
Qed.

(** What is printed: the name of the header and the value, which is read as
    [readBack], and that is printed as the same text. *)
Lemma encodeAddr_value s ip a :
  addrOk s ip a = true ->
  exists name text, encodeAddr s a = Ret (headerName s ++ 32 :: valueText name text a ++ [13; 10]) /\
    (forall strict t, newAddr strict s (valueText name text a) ip t = Ret (readBack s name a)) /\
    encodeAddr s (readBack s name a) = Ret (headerName s ++ 32 :: valueText name text a ++ [13; 10]).
Proof.
  intros H. pose proof H as H'. unfold addrOk in H'. destruct (url a) as [u|] eqn:Hu; [|discriminate]. bools.
  destruct (encodeUrl u) as [text|f] eqn:Et; [|discriminate].
  destruct (displayText_clean (displayName a)) as (name & Hd & Hn & Hd' & Hname); [assumption|].
  exists name, text.
  assert (forall b, url b = Some u -> displayText (displayName b) = Ret name -> paramsOf b = paramsOf a ->
    encodeAddr s b = Ret (headerName s ++ 32 :: valueText name text a ++ [13; 10])) as He.
  { intros b Eu Ed Ep. unfold encodeAddr. rewrite Eu, Ed, Et, Ep. cbn [mbind outcome_bind]. unfold valueText.
    change (str "<") with [60]. change (str ">") with [62]. change (str " ") with [32]. cbn [app]. rewrite <- !app_assoc. cbn [app].
    now rewrite <- app_assoc. }
  split; [now apply He|]. split; [|now apply He]. intros strict t. now apply (newAddr_text strict s ip t a u).
Qed.

(** * The parser ends *)

(** [m] returns what satisfies [Q], or throws in strict mode. *)
Definition sound {A} (strict : bool) (Q : A -> Prop) (m : outcome A) : Prop :=
  match m with Ret x => Q x | Fault f => strict = true /\ f = Exception end.

Lemma sound_seq {A B} strict (P : A -> Prop) (Q : B -> Prop) (m : outcome A) (k : A -> outcome B) :
  sound strict P m -> (forall x, P x -> sound strict Q (k x)) -> sound strict Q (m ≫= k).
Proof. destruct m as [x|f]; cbn; auto. Qed.

Lemma sound_throws {A} strict (Q : A -> Prop) x : Q x -> sound strict Q (SipFields.throws strict x).
Proof. unfold SipFields.throws. destruct strict; cbn; auto. Qed.

Lemma newSipUrl_sound strict text ip lr : noneOf [37] text = true -> sound strict (fun _ => True) (newSipUrl strict text ip lr).
Proof.
  intros H. unfold newSipUrl. destruct (textEq text []); [exact I|].
  destruct (fastDecode_returns text (emptyUrl ip lr) H) as [[ok u] ->]. cbn [mbind outcome_bind].
  destruct ok; [exact I|]. destruct strict; cbn; auto.
Qed.

Lemma newTelUrl_sound strict text : sound strict (fun _ => True) (newTelUrl strict text).
Proof.
  unfold newTelUrl. rewrite parseText_eq. destruct (breakIn (str ":") text) as [[[b c] r]|]; cbn [mbind outcome_bind]; [|now apply sound_throws].
  destruct (negb _); [now apply sound_throws|]. destruct (0 <? _); [|now apply sound_throws].
  destruct (decodeTel_returns (dropIn (str ":") r) emptyTel) as [x ->]. exact I.
Qed.

Lemma newImpBaseUrl_sound strict text name : sound strict (fun _ => True) (newImpBaseUrl strict text name).
Proof.
  unfold newImpBaseUrl. rewrite parseText_eq. destruct (breakIn (str ":") text) as [[[b c] r]|]; cbn [mbind outcome_bind]; [|now apply sound_throws].
  destruct (negb _); [now apply sound_throws|]. rewrite matchCharText_eq.
  destruct (breakIn (str "@") _) as [[[b1 c1] r1]|]; cbn [mbind outcome_bind]; [|now apply sound_throws].
  destruct (c1 =? 64); [|now apply sound_throws]. rewrite matchCharText_eq.
  destruct (breakIn (str ";") r1) as [[[b2 c2] r2]|]; cbn [mbind outcome_bind]; destruct (_ =? 59); exact I || now apply sound_throws.
Qed.

Lemma decode_sound strict text ip :
  noneOf [37] text = true -> zlen text < npos -> sound strict (fun _ => True) (SipBaseUrl.decode strict text ip).
Proof.
  intros H Hl. unfold SipBaseUrl.decode. chars. rewrite matchText_eq by exact Hl.
  destruct (breakIn [58] text) as [[[b c] r]|]; cbn [mbind outcome_bind]; [|exact I]. destruct (zlen b =? 0); [exact I|].
  repeat match goal with |- sound _ _ (if ?x then _ else _) => destruct x end;
    try (apply (sound_seq _ (fun _ => True)); [auto using newSipUrl_sound, newTelUrl_sound, newImpBaseUrl_sound | now intros]). exact I.
Qed.

(** The address has its parameters in order. *)
Definition ordered (a : SipAddr) : Prop := sortedTokens (tokenMap a) = true.

Lemma parseAddrParamExt_ordered text a :
  zlen text < npos -> ordered a -> exists b, parseAddrParamExt text a = Ret b /\ ordered b.
Proof.
  intros Hl Ha. unfold parseAddrParamExt. chars. rewrite matchText_eq by exact Hl. unfold ordered in *.
  destruct (breakIn [61] text) as [[[b c] r]|]; cbn [mbind outcome_bind].
  - destruct (zlen b =? 0); [now eexists|]. rewrite removeSpacesText_eq. cbn [mbind outcome_bind]. unfold parseTag.
    destruct (eqNoCase _ _); rewrite !removeSpacesText_eq; cbn [mbind outcome_bind mret outcome_ret]; [now eexists|].
    eexists. split; [reflexivity|]. now apply setToken_sorted.
  - eexists. split; [reflexivity|]. now apply setToken_sorted.
Qed.

Lemma addrParams_ordered fuel : forall text a,
  (length text < fuel)%nat -> zlen text < npos -> ordered a -> exists b, addrParams fuel text a = Ret b /\ ordered b.
Proof.
  induction fuel as [|fuel IH]; intros text a Hf Hl Ha; [lia|]. cbn [addrParams]. chars. rewrite matchText_eq by exact Hl.
  destruct (breakIn [59] text) as [[[b c] r]|] eqn:E; cbn [mbind outcome_bind].
  - destruct (breakIn_Some _ _ _ _ _ E) as [-> _]. rewrite length_app in Hf. rewrite zlen_app, zlen_cons in Hl. cbn [length] in Hf.
    pose proof (zlen_nonneg b). pose proof (zlen_nonneg r). destruct (zlen b =? 0); [apply IH; auto; lia|].
    destruct (parseAddrParamExt_ordered b a) as (a' & Ea & Ha'); [lia | exact Ha |]. cbn [default from_option id]. rewrite Ea.
    cbn [mbind outcome_bind]. apply IH; auto; lia.
  - now apply parseAddrParamExt_ordered.
Qed.

Lemma parseAddrParam_sound strict text a : zlen text < npos -> ordered a -> sound strict ordered (parseAddrParam text a).
Proof. intros Hl Ha. destruct (addrParams_ordered (S (length text)) text a) as (b & E & Hb); auto. unfold parseAddrParam. now rewrite E. Qed.

Lemma parseUrl_sound strict s text ip a :
  noneOf [37] text = true -> zlen text < npos -> ordered a -> sound strict ordered (parseUrl strict s text ip a).
Proof.
  intros H Hl Ha. unfold parseUrl. change (str ">") with [62]. rewrite matchText_eq by exact Hl.
  destruct (breakIn [62] text) as [[[b c] r]|] eqn:E; cbn [mbind outcome_bind]; [|now apply sound_throws].
  destruct (breakIn_Some _ _ _ _ _ E) as [-> _]. rewrite noneOf_app, noneOf_cons in H. rewrite zlen_app, zlen_cons in Hl. bools.
  pose proof (zlen_nonneg b). pose proof (zlen_nonneg r). destruct (zlen b =? 0); [now apply sound_throws|].
  destruct (removeSpacesText_part b) as (b' & Eb & Hb1 & Hb2). cbn [default from_option id]. rewrite Eb. cbn [mbind outcome_bind].
  apply (sound_seq _ (fun _ => True)); [apply decode_sound; [now apply Hb2 | lia]|]. intros u _.
  destruct (removeSpacesText_part r) as (r' & Er & Hr1 & Hr2). rewrite Er. cbn [mbind outcome_bind]. chars.
  rewrite matchText_eq by lia. destruct (breakIn [59] r') as [[[p x] q]|] eqn:Ep; cbn [mbind outcome_bind]; [|exact Ha].
  destruct (breakIn_Some _ _ _ _ _ Ep) as [-> _]. rewrite zlen_app, zlen_cons in Hr1. pose proof (zlen_nonneg p).
  destruct (zlen p =? 0); [apply parseAddrParam_sound; [lia | exact Ha]|]. destruct s; [now apply sound_throws | exact Ha].
Qed.

Lemma scan_sound strict s text ip a :
  noneOf [37] text = true -> zlen text < npos -> ordered a -> sound strict ordered (scan strict s text ip a).
Proof.
  intros H Hl Ha. unfold scan. change (str "<") with [60]. chars. rewrite matchText_eq by exact Hl.
  destruct (breakIn [60] text) as [[[b c] r]|] eqn:E; cbn [mbind outcome_bind].
  - destruct (breakIn_Some _ _ _ _ _ E) as [-> _]. rewrite noneOf_app, noneOf_cons in H. rewrite zlen_app, zlen_cons in Hl. bools.
    pose proof (zlen_nonneg b). destruct (zlen b =? 0); apply parseUrl_sound; auto; lia.
  - rewrite matchText_eq by exact Hl. destruct (breakIn [59] text) as [[[b c] r]|] eqn:E2; cbn [mbind outcome_bind].
    + destruct (breakIn_Some _ _ _ _ _ E2) as [-> _]. rewrite noneOf_app, noneOf_cons in H. rewrite zlen_app, zlen_cons in Hl. bools.
      pose proof (zlen_nonneg b). pose proof (zlen_nonneg r). destruct (zlen b =? 0); [now apply sound_throws|]. cbn [default from_option id].
      destruct (removeSpacesText_part b) as (b' & Eb & Hb1 & Hb2).
      destruct s; rewrite ?Eb; cbn [mbind outcome_bind mret outcome_ret]; (apply (sound_seq _ (fun _ => True)); [apply decode_sound; auto; lia|]);
        intros u _; apply parseAddrParam_sound; auto; lia.
    + apply (sound_seq _ (fun _ => True)); [now apply decode_sound|]. intros u _. destruct s; exact Ha.
Qed.

(** * Properties *)


(** C23: the parser of From and To returns.  For every text without percent
    signs and shorter than the largest int it ends without reading beyond a
    buffer and returns, or throws in strict mode; and the parameters of what
    it returns are a map: they are in order, and after one is set it has its
    value and all others have theirs. *)
Theorem address_parser_returns strict s text ip t :
  noneOf [37] text = true -> zlen text < npos ->
  (exists a, newAddr strict s text ip t = Ret a /\ sortedTokens (tokenMap a) = true /\
     forall k v, sortedTokens (tokenMap (setTokenDetails k v a)) = true /\
       getTokenValue k (setTokenDetails k v a) = v /\
       forall k', cstr k' <> cstr k -> getTokenValue k' (setTokenDetails k v a) = getTokenValue k' a) \/
  (strict = true /\ newAddr strict s text ip t = Fault Exception).
Proof.
  intros H Hl. assert (sound strict ordered (newAddr strict s text ip t)) as Hs.
  { unfold newAddr. destruct (textEq text []); [reflexivity|].
    apply (sound_seq _ ordered); [apply scan_sound; [exact H | exact Hl | reflexivity]|]. intros a Ha. destruct s, (url a); exact Ha. }
  destruct (newAddr strict s text ip t) as [a|f]; [left | right; destruct Hs as [? ->]; auto].
  exists a. split; [reflexivity|]. split; [exact Hs|]. intros k v. unfold getTokenValue, setTokenDetails. cbn [tokenMap].
  split; [now apply setToken_sorted|]. split; [now rewrite findToken_set|]. intros k' Hne. now rewrite findToken_other.
Qed.

(** A From without a URL ends the headers.  The strict parser throws for a
    value that begins with a semicolon; the lenient one returns an address
    without URL, which a To prints as nothing, and a From as an empty line, so
    that whatever is printed behind it is read as the body. *)
Theorem from_without_url_ends_headers x ip t rest :
  noneOf [60] x = true -> zlen (59 :: x) < npos ->
  (forall s, newAddr true s (59 :: x) ip t = Fault Exception) /\
  (exists a, newAddr false To (59 :: x) ip t = Ret a /\ encodeAddr To a = Ret []) /\
  (exists a text, newAddr false From (59 :: x) ip t = Ret a /\ encodeAddr From a = Ret text /\
     forall (SH : SipHeaderClass), Container.decode ip (text ++ rest) Container.newContainer = Ret (false, Container.newContainer, rest)).
Proof.
  intros Hx Hl. assert (forall strict s, newAddr strict s (59 :: x) ip t =
    a ← SipFields.throws strict (emptyAddr (match s with From => None | To => Some t end)); Ret a) as E.
  { intros strict s. unfold newAddr. assert (textEq (59 :: x) [] = false) as -> by (now rewrite textEq_nil). unfold scan.
    change (str "<") with [60]. chars. rewrite matchText_eq, breakIn_none; [|rewrite noneOf_cons; now rewrite Hx | exact Hl].
    cbn [mbind outcome_bind]. rewrite matchText_eq by exact Hl. cbn [breakIn isIn existsb Z.eqb Pos.eqb orb mbind outcome_bind].
    change (zlen (@nil Z) =? 0) with true. cbv iota. unfold SipFields.throws. destruct strict, s; reflexivity. }
  split; [intros s; now rewrite E|]. split.
  - eexists. rewrite E. split; reflexivity.
  - do 2 eexists. rewrite E. split; [reflexivity|]. split; [reflexivity|]. intros SH.
    apply SipRawFacts.decodeLoop_Reads; [|exact SipRawFacts.wf_new | lia]. now apply (SipRawFacts.Reads_blank ip _ _ [13] 10).
Qed.

(** What copies and comparisons do with URLs of other kinds.  A copy of an
    address with a URL of an unknown scheme has lost it; two addresses with
    telephone URLs are never equal, not even one and itself, and comparing one
    with an address that has a SIP URL throws, in every parser mode. *)
Theorem other_urls_compared s a x y z b :
  (url a = Some (AnUnknownUrl x) -> url (copy s a) = Some (AnUnknownUrl [])) /\
  (url a = Some (ATelUrl y) -> equalsAddr a a = Ret false /\
     (url b = Some (ATelUrl z) -> equalsAddr a b = Ret false) /\
     (forall u, url b = Some (ASipUrl u) -> equalsAddr a b = Fault BadCast)).
Proof.
  split; [intros E; unfold copy, initialize, setUrlField, duplicateUrl; rewrite E; reflexivity|].
  intros E. unfold equalsAddr. rewrite E. split; [reflexivity|].
  split; [intros E'; now rewrite E' | intros u E'; now rewrite E'].
Qed.

(** * Witnesses *)

Definition exampleAddr : SipAddr :=
  mkAddr (str "Joe") (Some (ASipUrl (setHostField (str "a") (setUserField (Some (IsSipUser (str "joe"))) (emptyUrl [] false)))))
    None (str "1") [] [] [(str "color", str "red"); (str "x", [])].


Lemma address_parser_returns_witness :
  (exists a, newAddr true To (str "<sip:a>;b=1;tag=2") [] SIP_URL = Ret a /\ sortedTokens (tokenMap a) = true /\
     forall k v, sortedTokens (tokenMap (setTokenDetails k v a)) = true /\
       getTokenValue k (setTokenDetails k v a) = v /\
       forall k', cstr k' <> cstr k -> getTokenValue k' (setTokenDetails k v a) = getTokenValue k' a) \/
  (true = true /\ newAddr true To (str "<sip:a>;b=1;tag=2") [] SIP_URL = Fault Exception).
Proof. apply (address_parser_returns true To (str "<sip:a>;b=1;tag=2") [] SIP_URL); reflexivity. Defined.

Lemma from_without_url_ends_headers_witness :
  (forall s, newAddr true s (str ";tag=1") [] SIP_URL = Fault Exception) /\
  (exists a, newAddr false To (str ";tag=1") [] SIP_URL = Ret a /\ encodeAddr To a = Ret []) /\
  (exists a text, newAddr false From (str ";tag=1") [] SIP_URL = Ret a /\ encodeAddr From a = Ret text /\
     forall (SH : SipHeaderClass),
       Container.decode [] (text ++ str "CSeq: 1 ACK") Container.newContainer = Ret (false, Container.newContainer, str "CSeq: 1 ACK")).
Proof. apply (from_without_url_ends_headers (str "tag=1") [] SIP_URL (str "CSeq: 1 ACK")); reflexivity. Defined.

Lemma other_urls_compared_witness :
  equalsAddr (mkAddr [] (Some (ATelUrl (mkTelUrl (str "tel") None))) None [] [] [] []) exampleAddr = Fault BadCast.
Proof.
  apply (proj2 (other_urls_compared From (mkAddr [] (Some (ATelUrl (mkTelUrl (str "tel") None))) None [] [] [] []) []
    (mkTelUrl (str "tel") None) (mkTelUrl (str "tel") None) exampleAddr) eq_refl) with (u := setHostField (str "a") (setUserField (Some (IsSipUser (str "joe"))) (emptyUrl [] false))).
  reflexivity.
Defined.

End SipAddrProps.
