(* ===== verification/SipAddrHeaders.v ===== *)
(** From and To among the classes of the stack: an instance of
    [SipHeaderClass] that has them and takes the other classes from another
    instance, and messages that are parsed and printed with it. *)
From S2P Require Import Prelude DataStr DataStrFacts DataStrText SipHeap SipText SipViaHdr SipViaProps SipRaw SipRawFacts SipRawProps SipFields SipParsed SipEscape SipUser SipUri SipUriProps SipBaseUrl SipAddr SipAddrProps.
Import DataStr DataStrFacts DataStrText SipHeap SipText SipRaw Raw Container SipRawFacts SipRawProps SipFields SipParsed.
Import SipBaseUrl(SIP_URL) SipAddr SipAddrProps.

Module SipAddrHeaders.

Section Headers.
Context (strict : bool) {Other : SipHeaderClass}.

Inductive AddrHeader :=
| HAddr (s : side) (a : SipAddr)
| HOther (h : SipHeader).

Definition constructAddr (type : SipHeaderType) (value ip : bytes) : outcome AddrHeader :=
  match type with
  | SIP_FROM_HDR => a ← newAddr strict From value ip SIP_URL; mret (HAddr From a)
  | SIP_TO_HDR => a ← newAddr strict To value ip SIP_URL; mret (HAddr To a)
  | _ => h ← construct type value ip; mret (HOther h)
  end.

Definition encodeAddrHeader (h : AddrHeader) : bytes :=
  match h with
  | HAddr s a => match encodeAddr s a with Ret t => t | Fault _ => [] end
  | HOther h => encodeHeader h
  end.

Definition duplicateAddr (h : AddrHeader) : AddrHeader :=
  match h with HAddr s a => HAddr s (copy s a) | HOther h => HOther (duplicateHeader h) end.

Definition compareAddr (h : AddrHeader) (other : option AddrHeader) : outcome bool :=
  match h, other with
  | HAddr s a, Some (HAddr s' b) => if decide (s = s') then equalsAddr a b else mret false
  | HOther x, Some (HOther y) => compareSipHeader x (Some y)
  | HOther x, _ => compareSipHeader x None
  | _, _ => mret false
  end.

Definition addressHeaders : SipHeaderClass := {|
  SipHeader := AddrHeader;
  construct := constructAddr;
  newCallLeg ip := HOther (newCallLeg ip);
  encodeHeader := encodeAddrHeader;
  duplicateHeader := duplicateAddr;
  compareSipHeader := compareAddr
|}.

End Headers.

Section Messages.
Context (strict : bool) (isIp6 : bytes -> bool) (randomHex : bytes) {Other : SipHeaderClass}.

#[local] Instance addresses : SipHeaderClass := addressHeaders strict (Other := Other).
#[local] Instance full : SipHeaderClass := stackHeaders strict isIp6 randomHex (Other := addresses).

Definition sideOf (t : SipHeaderType) : option side :=
  match t with SIP_FROM_HDR => Some From | SIP_TO_HDR => Some To | _ => None end.

(** The value is what an address prints behind the name of its header. *)
Definition AddressValue (s : side) (ip value : bytes) : Prop :=
  exists a, addrOk s ip a = true /\ encodeAddr s a = Ret (headerName s ++ 32 :: value ++ [13; 10]).

Lemma address_survives ip t s h :
  sideOf t = Some s -> Clean ip t h -> AddressValue s ip (headerValue h) -> Survives (SH := full) ip t h.
Proof.
  intros Hs Hh (a & Ha & He). destruct (encodeAddr_value s ip a Ha) as (name & text & Et & Hn & He'). rewrite Et in He.
  injection He as He. apply app_inv_head in He. injection He as He. apply app_inv_tail in He. rewrite He in *. clear He Et.
  assert (listType t = false) as Hl by (destruct t; try discriminate Hs; reflexivity).
  assert (t <> SIP_UNKNOWN_HDR) as Ht by (intros ->; discriminate Hs).
  pose proof (HeaderLine_single ip t h Hh Hl) as Hline. rewrite (clean_known _ _ _ Hh Ht) in Hline.
  pose proof (headerTypeEncode_name t Ht) as Hname.
  apply (Survives_line (SH := full) _ _ _ (@FOther addresses (@HAddr Other s (readBack s name a))) (oneLine (headerTypeEncode t) (headerValue h))); [exact Hl | | |].
  - destruct t; try discriminate Hs; injection Hs as <-; unfold decodeHeader; cbn [construct full stackHeaders constructField addresses addressHeaders constructAddr];
      rewrite Hn; reflexivity.
  - cbn [encodeHeader full stackHeaders encodeField addresses addressHeaders encodeAddrHeader]. rewrite He'.
    destruct t; try discriminate Hs; injection Hs as <-; reflexivity.
  - split; [|split; [now apply oneLine_not_blank | exact Hline]]. unfold oneLine. now rewrite !noneOf_app, (name_no_lf _ Hname), (clean_no_lf _ _ _ Hh).
Qed.

(** C15: a message whose values are in the form that their classes print is not
    changed by parsing its headers.  Take a container whose headers are clean; let
    every From and To have a value that is the print of an address of the form
    [addrOk] (the name, if there is one, quoted, and the URL in angle brackets);
    let every Via, Call-ID, CSeq, Max-Forwards, Expires, Content-Length, Subject,
    Organization, Priority and Hide be [Canonical] (headers of unknown names may
    be as they are); and let each header of a class that is not modelled be read
    back from what that class prints.  Then all of the headers are parsed, the
    container that is parsed is printed, and what is printed is read as the
    container that there was, with the body behind it.
    Values of other forms are changed: an unquoted name comes back quoted, for
    example; and Content-Encoding and MIME-Version, which are not printed as they
    were read, are left out of the form. *)
Theorem addressed_message_roundtrip ip c body :
  wf (SH := full) c ->
  (forall t, Forall (fun h => Clean ip t h /\
     match sideOf t with
     | Some s => AddressValue s ip (headerValue h)
     | None => if modelled t then Canonical isIp6 t (headerValue h) else Survives (SH := full) ip t h
     end) (slot c t)) ->
  exists c' text, forceParse (SH := full) c = Ret c' /\ Container.encode (SH := full) c' [] = Ret text /\
    Container.decode (SH := full) ip (text ++ [13; 10] ++ body) newContainer = Ret (false, c, body).
Proof.
  intros Hc Hx. apply survivors_roundtrip; [exact Hc|]. intros t. specialize (Hx t). revert Hx. apply Forall_impl.
  intros h [Hh Hs]. split; [exact Hh|]. destruct (sideOf t) as [s|] eqn:E; [now apply (address_survives ip t s)|].
  destruct (modelled t); [now apply (canonical_survives strict isIp6 randomHex (Other := addresses)) | exact Hs].
Qed.

End Messages.

(** * Samples *)

Definition sampleUrl (x h : String.string) : SipUri.SipUrl :=
  SipUri.setHostField (str h) (SipUri.setUserField (Some (SipUser.IsSipUser (str x))) (SipUri.emptyUrl [] false)).
Arguments sampleUrl x%_string_scope h%_string_scope.

Definition sampleAddr (name x h t : String.string) : SipAddr :=
  mkAddr (str name) (Some (SipBaseUrl.ASipUrl (sampleUrl x h))) None (str t) [] [] [].
Arguments sampleAddr name%_string_scope x%_string_scope h%_string_scope t%_string_scope.

#[local] Instance sampleFull : SipHeaderClass := full true (fun _ => false) [] (Other := textHeaders).

Definition sampleAddressed : container :=
  upd SIP_VIA_HDR [named [] (str "Via") (str "SIP/2.0/UDP a:5060")] (upd SIP_CALLID_HDR [named [] (str "Call-ID") (str "1@h")]
    (upd SIP_CSEQ_HDR [named [] (str "CSeq") (str "1 INVITE")]
      (upd SIP_FROM_HDR [named [] (str "From") (34 :: str "Joe" ++ 34 :: str " <sip:joe@a>;tag=1")]
        (upd SIP_TO_HDR [named [] (str "To") (str "<sip:ann@b>")] newContainer)))).

Lemma addressed_message_roundtrip_witness :
  exists c' text, forceParse sampleAddressed = Ret c' /\ Container.encode c' [] = Ret text /\
    Container.decode [] (text ++ [13; 10] ++ str "body") newContainer = Ret (false, sampleAddressed, str "body").
Proof.
  apply (addressed_message_roundtrip true (fun _ => false) [] (Other := textHeaders) [] sampleAddressed (str "body")); [reflexivity|].
  intros t. destruct t; try apply List.Forall_nil; cbn [slot]; repeat apply List.Forall_cons; try apply List.Forall_nil.
  - sample_header (Canonical_id (fun _ => false) (str "1") (str "h")).
  - sample_header (Canonical_cseq (fun _ => false) (str "1") (str "INVITE")).
  - split; [constructor; (reflexivity || (intros; congruence))|]. exists (sampleAddr "Joe" "joe" "a" "1"). split; vm_compute; reflexivity.
  - split; [constructor; (reflexivity || (intros; congruence))|]. exists (sampleAddr "" "ann" "b" ""). split; vm_compute; reflexivity.
  - sample_header (Canonical_via (fun _ => false) (plainVia "a")).
Defined.

End SipAddrHeaders.
