(* ===== verification/SipContent.v ===== *)
(** The headers that describe the body (sip/sipstack: SipContentType.cxx,
    SipContentDisposition.cxx) with the lists of parameters
    (SipParameterList.cxx), and both among the classes of the stack. *)
From S2P Require Import Prelude DataStr DataStrFacts DataStrText SipHeap SipText SipViaHdr SipRaw SipFields SipAddr.
Import DataStr SipHeap SipText SipRaw.
Import SipAddr(tokens, setToken, findToken, tokensEq).

Module SipContent.

(** * SipParameterList, a map *)

Definition isspace (c : Z) : bool := (c =? 32) || ((9 <=? c) && (c <=? 13)).

(** The loop of [decode] over the characters that are left: the key and the
    value so far, whether it is in a value and in quotes, and the map. *)
Fixpoint decodeChars (delimiter : Z) (eatWhitespace : bool) (data key val : bytes) (in_val in_quotes : bool) (m : tokens)
  : outcome (bytes * bytes * tokens) :=
  match data with
  | [] => mret (key, val, m)
  | c :: data' =>
      if negb in_val then
        if isspace c then decodeChars delimiter eatWhitespace data' key val in_val in_quotes m
        else if c =? 61 then decodeChars delimiter eatWhitespace data' key val true in_quotes m
        else if c =? delimiter then decodeChars delimiter eatWhitespace data' [] val in_val in_quotes (setToken key [] m)
        else decodeChars delimiter eatWhitespace data' (key ++ [tolower c]) val in_val in_quotes m
      else if c =? 34 then decodeChars delimiter eatWhitespace data' key (val ++ [c]) in_val (negb in_quotes) m
      else if c =? delimiter then
        if in_quotes then decodeChars delimiter eatWhitespace data' key (val ++ [c]) in_val in_quotes m
        else
          val ← (if eatWhitespace then removeSpacesText (cstr val) else mret val);
          decodeChars delimiter eatWhitespace data' [] [] false in_quotes (setToken key val m)
      else decodeChars delimiter eatWhitespace data' key (val ++ [c]) in_val in_quotes m
  end.

Definition decodeList (data : bytes) (delimiter : Z) (eatWhitespace : bool) (m : tokens) : outcome tokens :=
  '(key, val, m) ← decodeChars delimiter eatWhitespace data [] [] false false m;
  mret (if 0 <? zlen key then setToken key val m else m).

(** The names whose values are printed in quotes. *)
Definition quotedNames : list bytes :=
  [str "realm"; str "nonce"; str "cnonce"; str "opaque"; str "domain"; str "username"; str "uri"; str "response"].

Definition encodeParam (k v : bytes) : bytes :=
  let addQuotes := if noneOf [34] v then [34] else [] in
  k ++ (if 0 <? zlen v then
          str "=" ++ (if existsb (textEq k) quotedNames then addQuotes ++ v ++ addQuotes else v)
        else []).

Fixpoint encodeList (delimiter : Z) (start : bool) (m : tokens) : bytes :=
  match m with
  | [] => []
  | (k, v) :: m' =>
      if 0 <? zlen k then (if start then [] else [delimiter]) ++ encodeParam k v ++ encodeList delimiter false m'
      else encodeList delimiter start m'
  end.

Definition getValue (k : bytes) (m : tokens) : bytes := default [] (findToken k m).

(** [erase(key)] *)
Fixpoint clearValue (k : bytes) (m : tokens) : tokens :=
  match m with
  | [] => []
  | (k', v') :: m' =>
      if SipViaHdr.textLt k k' || SipViaHdr.textLt k' k then (k', v') :: clearValue k m' else m'
  end.

Section Content.
Context (strict : bool).

(** * SipContentType *)

Record SipContentType := mkContentType { ctype : bytes; subtype : bytes; media : bytes; params : tokens }.

Definition setType (x : bytes) (t : SipContentType) : outcome SipContentType :=
  x ← lowercaseText x; mret (mkContentType x (subtype t) (media t) (params t)).
Definition setSubType (x : bytes) (t : SipContentType) : outcome SipContentType :=
  x ← lowercaseText x; mret (mkContentType (ctype t) x (media t) (params t)).

(** Without a slash it aborts; what it throws is thrown in strict mode. *)
Definition scanSipContentType (adata : bytes) (t : SipContentType) : outcome SipContentType :=
  '(_, _, data) ← matchText (str ":") true adata;
  '(ret, sipdata, data) ← matchText (str "/") true data;
  match ret with
  | NOT_FOUND => if strict then Fault AssertFailed else mret t
  | FIRST => SipFields.throws strict t
  | FOUND =>
      sipdata ← removeSpacesText (default [] sipdata);
      t ← setType sipdata t;
      '(retn, lsubtype, unparsedData) ← matchText (str ";") true data;
      match retn with
      | NOT_FOUND => setSubType unparsedData t
      | FIRST => SipFields.throws strict t
      | FOUND =>
          t ← setSubType (default [] lsubtype) t;
          m ← decodeList unparsedData 59 true (params t);
          mret (mkContentType (ctype t) (subtype t) (media t) m)
      end
  end.

(** [parse] aborts for what is thrown below it. *)
Definition parseContentType (ctypedata : bytes) (t : SipContentType) : outcome SipContentType :=
  '(remcrlf, ndat, data) ← matchText [13; 10] true ctypedata;
  t ← match scanSipContentType (match remcrlf with NOT_FOUND => data | _ => default [] ndat end) t with
      | Fault Exception => Fault AssertFailed
      | m => m
      end;
  t ← setType (ctype t) t; setSubType (subtype t) t.

Definition newContentType (data : bytes) : outcome SipContentType :=
  let t := mkContentType [] [] [] [] in
  if textEq data [] then mret t else parseContentType data t.

Definition copyContentType (t : SipContentType) : outcome SipContentType :=
  t ← setType (ctype t) (mkContentType (ctype t) (subtype t) [] (params t)); setSubType (subtype t) t.

Definition assignContentType (src this : SipContentType) : SipContentType :=
  mkContentType (ctype src) (subtype src) (media this) (params src).

Definition eqContentType (a b : SipContentType) : bool :=
  textEq (ctype a) (ctype b) && textEq (subtype a) (subtype b) && tokensEq (params a) (params b).

(** A line break inside keeps [encode] from adding the one at the end. *)
Definition encodeContentType (t : SipContentType) : outcome bytes :=
  if 0 <? zlen (ctype t) then
    let content := str "Content-Type:" ++ str " " ++ ctype t ++ str "/" ++ subtype t ++
      (match params t with [] => [] | m => str "; " ++ encodeList 59 true m end) in
    '(rcrlf, _, content) ← matchText [13; 10] false content;
    match rcrlf with
    | FIRST => SipFields.throws strict content
    | NOT_FOUND => mret (content ++ [13; 10])
    | FOUND => mret content
    end
  else mret [].

(** What it returns stays, and is returned by later calls. *)
Definition getMediatype (t : SipContentType) : bytes * SipContentType :=
  if negb (zlen (media t) =? 0) then (media t, t)
  else let m := ctype t ++ str "/" ++ subtype t in (m, mkContentType (ctype t) (subtype t) m (params t)).

Definition setMediatype (data : bytes) (t : SipContentType) : outcome SipContentType :=
  '(value1, line1, cdata) ← matchText (str "/") true data;
  mret (match value1 with FOUND => mkContentType (default [] line1) cdata data (params t) | _ => t end).

(** * SipContentDisposition *)

Record SipContentDisposition := mkDisposition {
  attribute : bytes;
  value : bytes;
  handleparm : bytes;
  dispositiontype : bytes
}.

Definition parseFinParms (dspdata dspvalue : bytes) (d : SipContentDisposition) : outcome SipContentDisposition :=
  if eqNoCase dspdata (str "handling") then
    if eqNoCase dspvalue (str "required") || eqNoCase dspvalue (str "optional")
    then mret (mkDisposition (attribute d) (value d) dspvalue (dispositiontype d))
    else SipFields.throws strict d
  else mret (mkDisposition dspdata dspvalue (handleparm d) (dispositiontype d)).

Definition parseParms (tpdata : bytes) (d : SipContentDisposition) : outcome SipContentDisposition :=
  '(test, dsvalue, dsdata) ← matchText (str "=") true tpdata;
  match test with FOUND => parseFinParms (default [] dsvalue) dsdata d | _ => mret d end.

Fixpoint parseDispositionParm (fuel : nat) (parmdata : bytes) (d : SipContentDisposition) : outcome SipContentDisposition :=
  match fuel with
  | O => Fault OutOfFuel
  | S fuel' =>
      if zlen parmdata =? 0 then mret d
      else
        '(test, parmvalue, parmdata) ← matchText (str ";") true parmdata;
        match test with
        | FOUND => d ← parseParms (default [] parmvalue) d; parseDispositionParm fuel' parmdata d
        | NOT_FOUND => parseParms parmdata d
        | FIRST => parseDispositionParm fuel' parmdata d
        end
  end.

Definition scanSipContentDisposition (data : bytes) (d : SipContentDisposition) : outcome SipContentDisposition :=
  '(test, despvalue, despdata) ← matchText (str ";") true data;
  match test with
  | FOUND =>
      parseDispositionParm (S (length despdata)) despdata
        (mkDisposition (attribute d) (value d) (handleparm d) (default [] despvalue))
  | NOT_FOUND => mret (mkDisposition (attribute d) (value d) (handleparm d) despdata)
  | FIRST => SipFields.throws strict d
  end.

Definition newContentDisposition (data : bytes) : outcome SipContentDisposition :=
  let d := mkDisposition [] [] [] [] in
  if textEq data [] then mret d else scanSipContentDisposition data d.

Definition eqDisposition (a b : SipContentDisposition) : bool :=
  textEq (attribute a) (attribute b) && textEq (value a) (value b) && textEq (handleparm a) (handleparm b) &&
  textEq (dispositiontype a) (dispositiontype b).

Definition encodeDisposition (d : SipContentDisposition) : bytes :=
  if negb (zlen (dispositiontype d) =? 0) || negb (zlen (handleparm d) =? 0) || negb (zlen (attribute d) =? 0) then
    str "Content-Disposition" ++ str ": " ++ dispositiontype d ++
    (if 0 <? zlen (handleparm d) then str ";" ++ str "handling" ++ str "=" ++ handleparm d else []) ++
    (if (0 <? zlen (attribute d)) && (0 <? zlen (value d)) then str ";" ++ attribute d ++ str "=" ++ value d else []) ++
    [13; 10]
  else [].

(** * Among the classes of the stack *)

Context {Other : SipHeaderClass}.

Inductive ContentHeader :=
| HContentType (t : SipContentType)
| HDisposition (d : SipContentDisposition)
| HOtherContent (h : SipHeader).

Definition constructContent (type : SipHeaderType) (value ip : bytes) : outcome ContentHeader :=
  match type with
  | SIP_CONTENT_TYPE_HDR => t ← newContentType value; mret (HContentType t)
  | SIP_CONTENT_DISPOSITION_HDR => d ← newContentDisposition value; mret (HDisposition d)
  | _ => h ← construct type value ip; mret (HOtherContent h)
  end.

Definition encodeContent (h : ContentHeader) : bytes :=
  match h with
  | HContentType t => match encodeContentType t with Ret x => x | Fault _ => [] end
  | HDisposition d => encodeDisposition d
  | HOtherContent h => encodeHeader h
  end.

Definition duplicateContent (h : ContentHeader) : ContentHeader :=
  match h with
  | HContentType t => match copyContentType t with Ret t => HContentType t | Fault _ => h end
  | HDisposition d => h
  | HOtherContent h => HOtherContent (duplicateHeader h)
  end.

Definition compareContent (h : ContentHeader) (other : option ContentHeader) : outcome bool :=
  match h, other with
  | HContentType a, Some (HContentType b) => mret (eqContentType a b)
  | HDisposition a, Some (HDisposition b) => mret (eqDisposition a b)
  | HOtherContent x, Some (HOtherContent y) => compareSipHeader x (Some y)
  | HOtherContent x, _ => compareSipHeader x None
  | _, _ => mret false
  end.

Definition contentHeaders : SipHeaderClass := {|
  SipHeader := ContentHeader;
  construct := constructContent;
  newCallLeg ip := HOtherContent (newCallLeg ip);
  encodeHeader := encodeContent;
  duplicateHeader := duplicateContent;
  compareSipHeader := compareContent
|}.

End Content.
End SipContent.
