(* ===== verification/SipContentFacts.v ===== *)
(** The headers that describe the body: what the parsers read from a list of
    parameters, a content type and a disposition that were printed. *)
From S2P Require Import Prelude DataStr DataStrFacts DataStrText SipHeap SipText SipViaHdr SipViaProps SipRaw SipFields SipParsed SipUriFacts SipUriProps SipAddr SipAddrFacts SipAddrProps SipContent.
Import DataStr DataStrFacts DataStrText SipHeap SipText SipUriFacts SipUriProps SipContent.
Import SipAddr(tokens, setToken) SipAddrFacts(sortedTokens, setToken_last) SipAddrProps(sound, sound_seq, sound_throws).

Module SipContentFacts.

(** * Texts *)

(** A text without one of its characters does not hold a literal. *)
Lemma matchText_absent m x replace l :
  x ∈ m -> noneOf [x] l = true -> zlen l < npos -> matchText m replace l = Ret (NOT_FOUND, None, l).
Proof.
  intros Hx Hn Hl. unfold matchText. assert (m <> []) as Hm by (intros ->; now apply not_elem_of_nil in Hx).
  pose proof (matchData_repr m replace (ofStr l) l (ofStr_repr l) Hm Hl) as H.
  destruct (search m l 0) as [p|].
  - destruct H as (b & r & d & -> & _). rewrite !noneOf_app in Hn. bools. apply list_elem_of_split in Hx as (m1 & m2 & ->).
    rewrite noneOf_app, noneOf_cons, isIn_single, Z.eqb_refl in *. bools. discriminate.
  - rewrite H. cbn [mbind outcome_bind mret outcome_ret]. now rewrite (textOf_repr _ _ (ofStr_repr l)).
Qed.

Lemma zlen_app_l (a b : bytes) n : zlen (a ++ b) < n -> zlen a < n.
Proof. rewrite zlen_app. pose proof (zlen_nonneg b). lia. Qed.

Lemma zlen_app_r (a b : bytes) n : zlen (a ++ b) < n -> zlen b < n.
Proof. rewrite zlen_app. pose proof (zlen_nonneg a). lia. Qed.

Lemma zlen_cons_r (c : Z) (b : bytes) n : zlen (c :: b) < n -> zlen b < n.
Proof. rewrite zlen_cons. lia. Qed.

(** * Lists of parameters *)

(** A character that stays as it is in a name. *)
Definition nameChar (c : Z) : bool := negb (isspace c) && negb (isIn c [0; 10; 58; 59; 61]) && (tolower c =? c).

(** Whether a value that begins inside quotes, or not, ends outside of them
    and has its semicolons only in them. *)
Fixpoint closed (in_quotes : bool) (v : bytes) : bool :=
  match v with
  | [] => negb in_quotes
  | c :: v' => (in_quotes || negb (c =? 59)) && closed (if c =? 34 then negb in_quotes else in_quotes) v'
  end.

(** A parameter that is printed as it is read. *)
Definition paramOk (e : bytes * bytes) : bool :=
  (0 <? zlen e.1) && forallb nameChar e.1 && noneOf [0; 10; 58] e.2 && trimmed e.2 && closed false e.2 &&
  negb (existsb (textEq e.1) quotedNames && (0 <? zlen e.2) && noneOf [34] e.2).

Definition paramText (e : bytes * bytes) : bytes := e.1 ++ (if 0 <? zlen e.2 then 61 :: e.2 else []).

Lemma encodeParam_ok e : paramOk e = true -> encodeParam e.1 e.2 = paramText e.
Proof.
  unfold paramOk, encodeParam, paramText. intros H. bools. f_equal. change (str "=") with [61]. destruct (0 <? zlen e.2); [|reflexivity].
  destruct (existsb (textEq e.1) quotedNames); [|reflexivity]. cbn [andb] in *.
  match goal with E : noneOf _ _ = false |- _ => rewrite E end. cbn [app]. now rewrite app_nil_r.
Qed.

(** The parameters, each after a semicolon. *)
Definition moreParams (m : tokens) : bytes := mjoin (map (fun e => 59 :: paramText e) m).

Lemma encodeList_more m : forallb paramOk m = true -> encodeList 59 false m = moreParams m.
Proof.
  unfold moreParams. induction m as [|[k v] m IH]; [reflexivity|]. cbn [forallb encodeList map mjoin list_join]. intros [Hp Hm]%andb_prop.
  rewrite (IH Hm). pose proof (encodeParam_ok _ Hp) as E. cbn [fst snd] in E. rewrite E.
  unfold paramOk in Hp. bools. cbn [fst] in *. destruct (0 <? zlen k); [reflexivity | discriminate].
Qed.

Lemma encodeList_text e m :
  forallb paramOk (e :: m) = true -> encodeList 59 true (e :: m) = paramText e ++ moreParams m.
Proof.
  destruct e as [k v]. cbn [forallb encodeList]. intros [Hp Hm]%andb_prop. rewrite (encodeList_more _ Hm).
  pose proof (encodeParam_ok _ Hp) as E. cbn [fst snd] in E. rewrite E.
  unfold paramOk in Hp. bools. cbn [fst] in *. destruct (0 <? zlen k); [reflexivity | discriminate].
Qed.

Lemma decodeChars_name k : forall r key val q m, forallb nameChar k = true ->
  decodeChars 59 true (k ++ r) key val false q m = decodeChars 59 true r (key ++ k) val false q m.
Proof.
  induction k as [|c k IH]; intros r key val q m Hk; [now rewrite app_nil_r|]. cbn [forallb] in Hk. apply andb_prop in Hk as [Hc Hk].
  unfold nameChar in Hc. bools. cbn [app decodeChars negb]. rewrite H. cbn [isIn existsb] in *. apply Z.eqb_eq in H0.
  destruct (Z.eqb_spec c 61), (Z.eqb_spec c 59); try (rewrite ?orb_true_r in *; discriminate).
  rewrite H0, IH by exact Hk. now rewrite <- app_assoc.
Qed.

(** A value up to what follows it: nothing, or the next parameter. *)
Lemma decodeChars_value v : forall key val q m, closed q v = true ->
  decodeChars 59 true v key val true q m = Ret (key, val ++ v, m) /\
  forall r, decodeChars 59 true (v ++ 59 :: r) key val true q m =
    (w ← removeSpacesText (cstr (val ++ v)); decodeChars 59 true r [] [] false false (setToken key w m)).
Proof.
  induction v as [|c v IH]; intros key val q m Hv; cbn [closed] in Hv.
  - destruct q; [discriminate|]. rewrite app_nil_r. split; reflexivity.
  - apply andb_prop in Hv as [Hc Hv]. cbn [app decodeChars negb].
    assert (forall r : bytes, val ++ c :: r = (val ++ [c]) ++ r) as E by (intros r; now rewrite <- app_assoc).
    destruct (Z.eqb_spec c 34) as [-> | Hne]; [rewrite (E v); now apply IH|].
    destruct (Z.eqb_spec c 59) as [-> | Hns]; [|rewrite (E v); now apply IH].
    destruct q; [|discriminate]. rewrite (E v). now apply IH.
Qed.

Lemma decodeChars_equals r key val q m :
  decodeChars 59 true (61 :: r) key val false q m = decodeChars 59 true r key val true q m.
Proof. reflexivity. Qed.

(** One parameter with the rest of the list. *)
Lemma decodeChars_param e r m :
  paramOk e = true ->
  decodeChars 59 true (paramText e ++ 59 :: r) [] [] false false m = decodeChars 59 true r [] [] false false (setToken e.1 e.2 m) /\
  exists key, ('(key, val, m) ← decodeChars 59 true (paramText e) [] [] false false m;
     @mret outcome _ _ (if 0 <? zlen key then setToken key val m else m)) = Ret (setToken e.1 e.2 m) /\ key = e.1.
Proof.
  unfold paramOk, paramText. destruct e as [k v]. cbn [fst snd]. intros H. bools.
  assert (decodeChars 59 true (k ++ 59 :: r) [] [] false false m = decodeChars 59 true r [] [] false false (setToken k [] m)) as Ek
    by (now rewrite decodeChars_name).
  assert (decodeChars 59 true k [] [] false false m = Ret (k, [], m)) as Ek'.
  { rewrite <- (app_nil_r k) at 1. now rewrite decodeChars_name. }
  destruct v as [|c v].
  - change (0 <? zlen (@nil Z)) with false. cbv iota. rewrite app_nil_r. split; [exact Ek|]. exists k. rewrite Ek'.
    cbn [mbind outcome_bind mret outcome_ret]. split; [|reflexivity]. now replace (0 <? zlen k) with true.
  - rewrite zlen_cons_positive. destruct (decodeChars_value (c :: v) k [] false m) as [E1 E2]; [assumption|].
    assert (noneOf [0] (c :: v) = true) as Hnul by (eapply noneOf_weaken; [|eassumption]; intros x; cbn; rewrite orb_false_r; now intros ->).
    split.
    + rewrite <- app_assoc. rewrite decodeChars_name by assumption. change ((61 :: c :: v) ++ 59 :: r) with (61 :: (c :: v) ++ 59 :: r).
      rewrite decodeChars_equals, E2. cbn [app]. rewrite SipParsed.cstr_clean by exact Hnul.
      now rewrite removeSpacesText_trimmed.
    + exists k. split; [|reflexivity]. rewrite decodeChars_name, decodeChars_equals by assumption. cbn [app] in *. rewrite E1.
      cbn [mbind outcome_bind mret outcome_ret app]. now replace (0 <? zlen k) with true.
Qed.

Lemma setToken_next k v m p :
  sortedTokens (p ++ (k, v) :: m) = true -> setToken k v p = p ++ [(k, v)].
Proof.
  intros Hs. apply setToken_last. induction p as [|[x w] p IH]; [reflexivity|]. cbn [app sortedTokens forallb fst] in *.
  apply andb_prop in Hs as [Hx Hs]. rewrite (IH Hs), andb_true_r. rewrite forallb_app in Hx. cbn [forallb fst] in Hx. now bools.
Qed.

Lemma decodeList_params m : forall e p,
  forallb paramOk (e :: m) = true -> sortedTokens (p ++ e :: m) = true ->
  decodeList (paramText e ++ moreParams m) 59 true p = Ret (p ++ e :: m).
Proof.
  induction m as [|e' m IH]; intros [k v] p Ho Hs; cbn [forallb] in Ho; apply andb_prop in Ho as [He Ho].
  - unfold moreParams. cbn [map mjoin list_join]. rewrite app_nil_r. unfold decodeList.
    destruct (decodeChars_param _ [] p He) as (_ & key & E & _). rewrite E. cbn [fst snd]. now rewrite (setToken_next k v [] p).
  - unfold decodeList, moreParams. cbn [map mjoin list_join app].
    destruct (decodeChars_param _ (paramText e' ++ moreParams m) p He) as (E & _).
    change (59 :: paramText e' ++ mjoin (map (fun e => 59 :: paramText e) m)) with (59 :: paramText e' ++ moreParams m).
    rewrite E. cbn [fst snd]. rewrite (setToken_next k v (e' :: m) p Hs).
    change (decodeList (paramText e' ++ moreParams m) 59 true (p ++ [(k, v)]) = Ret (p ++ (k, v) :: e' :: m)).
    rewrite IH; [now rewrite <- app_assoc | exact Ho | now rewrite <- app_assoc].
Qed.

Lemma noneOf_nameChars k : forallb nameChar k = true -> noneOf [0; 10; 58; 59; 61] k = true.
Proof.
  induction k as [|c k IH]; [reflexivity|]. cbn [forallb]. intros [Hc Hk]%andb_prop. rewrite noneOf_cons, (IH Hk), andb_true_r.
  unfold nameChar in Hc. bools. now apply negb_true_iff.
Qed.

Lemma noneOf_param e : paramOk e = true -> noneOf [10; 58] (paramText e) = true.
Proof.
  unfold paramOk, paramText. intros H. bools. rewrite noneOf_app.
  assert (noneOf [10; 58] e.1 = true) as -> by (pose proof (noneOf_nameChars e.1 ltac:(assumption)); sub_noneOf).
  destruct (0 <? zlen e.2); [|reflexivity]. rewrite noneOf_cons. cbn [isIn existsb Z.eqb Pos.eqb orb negb andb]. sub_noneOf.
Qed.

Lemma noneOf_more m : forallb paramOk m = true -> noneOf [10; 58] (moreParams m) = true.
Proof.
  unfold moreParams. induction m as [|e m IH]; [reflexivity|]. cbn [forallb map mjoin list_join app]. intros [He Hm]%andb_prop.
  rewrite noneOf_cons, noneOf_app, (noneOf_param e He). exact (IH Hm).
Qed.

(** * Content-Type *)

(** A text that is already in lower case. *)
Definition lowered (l : bytes) : bool := bool_decide (lowerText l = l).

(** A content type that can be printed and read back. *)
Definition contentTypeOk (t : SipContentType) : bool :=
  (0 <? zlen (ctype t)) && noneOf [0; 10; 47; 58] (ctype t) && trimmed (ctype t) && lowered (ctype t) &&
  (0 <? zlen (subtype t)) && noneOf [10; 58; 59] (subtype t) && lowered (subtype t) && sortedTokens (params t) && forallb paramOk (params t) &&
  bool_decide (media t = []).

(** What is printed behind the name of the header. *)
Definition contentTypeText (t : SipContentType) : bytes :=
  ctype t ++ 47 :: subtype t ++
  match params t with [] => [] | e :: m => 59 :: 32 :: paramText e ++ moreParams m end.

Lemma noneOf_contentType t : contentTypeOk t = true -> noneOf [10; 58] (contentTypeText t) = true.
Proof.
  unfold contentTypeOk, contentTypeText. intros H. bools. rewrite !noneOf_app, noneOf_cons, noneOf_app.
  assert (noneOf [10; 58] (ctype t) = true) as -> by sub_noneOf. assert (noneOf [10; 58] (subtype t) = true) as -> by sub_noneOf.
  destruct (params t) as [|e m]; [reflexivity|]. cbn [forallb] in *. bools.
  now rewrite !noneOf_cons, noneOf_app, noneOf_param, noneOf_more.
Qed.

Lemma encodeContentType_text strict t :
  contentTypeOk t = true -> zlen (str "Content-Type: " ++ contentTypeText t) < npos ->
  encodeContentType strict t = Ret (str "Content-Type: " ++ contentTypeText t ++ [13; 10]).
Proof.
  intros H Hl. pose proof (noneOf_contentType t H) as Hn. unfold contentTypeOk in H. bools. unfold encodeContentType.
  match goal with E : (0 <? zlen (ctype t)) = true |- _ => rewrite E end.
  assert (match params t with [] => [] | m => str "; " ++ encodeList 59 true m end =
    match params t with [] => [] | e :: m => 59 :: 32 :: paramText e ++ moreParams m end) as ->.
  { destruct (params t) as [|e m]; [reflexivity|]. now rewrite encodeList_text. }
  assert (str "Content-Type:" ++ str " " ++ ctype t ++ str "/" ++ subtype t ++
    match params t with [] => [] | e :: m => 59 :: 32 :: paramText e ++ moreParams m end = str "Content-Type: " ++ contentTypeText t) as -> by reflexivity.
  rewrite (matchText_absent [13; 10] 10); [cbn [mbind outcome_bind]; now rewrite <- app_assoc | repeat constructor | | exact Hl].
  rewrite noneOf_app. change (noneOf [10] (str "Content-Type: ")) with true. cbn [andb]. sub_noneOf.
Qed.

Lemma setType_lowered x t : lowered x = true -> setType x t = Ret (mkContentType x (subtype t) (media t) (params t)).
Proof. unfold lowered, setType. intros H. bools. rewrite lowercaseText_eq. cbn [mbind outcome_bind]. now rewrite H. Qed.

Lemma setSubType_lowered x t : lowered x = true -> setSubType x t = Ret (mkContentType (ctype t) x (media t) (params t)).
Proof. unfold lowered, setSubType. intros H. bools. rewrite lowercaseText_eq. cbn [mbind outcome_bind]. now rewrite H. Qed.

Lemma decodeList_blank l m : decodeList (32 :: l) 59 true m = decodeList l 59 true m.
Proof. reflexivity. Qed.

Lemma scanSipContentType_text strict t :
  contentTypeOk t = true -> zlen (contentTypeText t) < npos ->
  scanSipContentType strict (contentTypeText t) (mkContentType [] [] [] []) = Ret t.
Proof.
  intros H Hl. pose proof (noneOf_contentType t H) as Hn. unfold contentTypeOk in H. bools. unfold scanSipContentType.
  chars. change (str "/") with [47]. rewrite matchText_eq by exact Hl. rewrite breakIn_none by sub_noneOf. cbn [mbind outcome_bind].
  rewrite matchText_eq by exact Hl. unfold contentTypeText in *. pose proof (zlen_app_r _ _ _ Hl) as Hl'. apply zlen_cons_r in Hl'.
  rewrite (breakIn_first [47] (ctype t) 47) by (sub_noneOf || reflexivity). cbn [mbind outcome_bind default from_option id].
  rewrite SipViaProps.nonempty_len by (intros E; rewrite E in *; discriminate).
  rewrite removeSpacesText_trimmed by assumption. cbn [mbind outcome_bind]. rewrite setType_lowered by assumption.
  cbn [mbind outcome_bind subtype media params]. rewrite matchText_eq by exact Hl'.
  destruct t as [ty sub med par]. cbn [ctype subtype media params] in *. subst med. destruct par as [|e m].
  - rewrite app_nil_r. rewrite breakIn_none by sub_noneOf. cbn [mbind outcome_bind]. now rewrite setSubType_lowered.
  - rewrite (breakIn_first [59] sub 59) by (sub_noneOf || reflexivity). cbn [mbind outcome_bind default from_option id].
    rewrite SipViaProps.nonempty_len by (intros E; rewrite E in *; discriminate).
    rewrite setSubType_lowered by assumption. cbn [mbind outcome_bind ctype subtype media params]. rewrite decodeList_blank.
    now rewrite decodeList_params.
Qed.

Lemma starts_nonempty l : (0 <? zlen l) = true -> noneOf [0] l = true -> forall r, textEq (l ++ r) [] = false.
Proof.
  intros Hl Hn r. destruct l as [|c l]; [discriminate|]. cbn [app]. rewrite textEq_nil. rewrite noneOf_cons, isIn_single in Hn. now bools.
Qed.

(** The constructor reads what was printed. *)
Lemma newContentType_text strict t :
  contentTypeOk t = true -> zlen (contentTypeText t) < npos -> newContentType strict (contentTypeText t) = Ret t.
Proof.
  intros H Hl. pose proof (noneOf_contentType t H) as Hn. pose proof (scanSipContentType_text strict t H Hl) as Hs.
  unfold contentTypeOk in H. bools. unfold newContentType.
  assert (textEq (contentTypeText t) [] = false) as -> by (apply starts_nonempty; [assumption | sub_noneOf]).
  unfold parseContentType. rewrite (matchText_absent [13; 10] 10); [| repeat constructor | sub_noneOf | exact Hl].
  cbn [mbind outcome_bind]. rewrite Hs. cbn [mbind outcome_bind]. rewrite setType_lowered by assumption.
  cbn [mbind outcome_bind subtype]. rewrite setSubType_lowered by assumption. now destruct t.
Qed.

(** * Content-Disposition *)

(** A disposition that can be printed and read back. *)
Definition dispositionOk (d : SipContentDisposition) : bool :=
  (0 <? zlen (dispositiontype d)) && noneOf [0; 10; 59] (dispositiontype d) &&
  (if 0 <? zlen (handleparm d) then (eqNoCase (handleparm d) (str "required") || eqNoCase (handleparm d) (str "optional")) && noneOf [10; 59] (handleparm d)
   else bool_decide (handleparm d = [])) &&
  (if 0 <? zlen (attribute d) then (0 <? zlen (value d)) && noneOf [10; 59; 61] (attribute d) && noneOf [10; 59] (value d) &&
     negb (eqNoCase (attribute d) (str "handling"))
   else bool_decide (attribute d = []) && bool_decide (value d = [])).

Definition handlingText (d : SipContentDisposition) : list bytes :=
  if 0 <? zlen (handleparm d) then [str "handling=" ++ handleparm d] else [].
Definition attributeText (d : SipContentDisposition) : list bytes :=
  if 0 <? zlen (attribute d) then [attribute d ++ 61 :: value d] else [].

(** What is printed behind the name of the header. *)
Definition dispositionText (d : SipContentDisposition) : bytes :=
  dispositiontype d ++ mjoin (map (cons 59) (handlingText d ++ attributeText d)).

Lemma encodeDisposition_text d :
  dispositionOk d = true -> encodeDisposition d = str "Content-Disposition: " ++ dispositionText d ++ [13; 10].
Proof.
  unfold dispositionOk, encodeDisposition, dispositionText, handlingText, attributeText. intros H. bools.
  assert ((zlen (dispositiontype d) =? 0) = false) as -> by lia. cbn [negb orb].
  change (str "Content-Disposition: ") with (str "Content-Disposition" ++ str ": "). rewrite <- !app_assoc. f_equal. f_equal. f_equal.
  destruct (0 <? zlen (handleparm d)), (0 <? zlen (attribute d)); bools; cbn [andb];
    repeat match goal with E : (0 <? _) = true |- _ => rewrite E end; cbn [map mjoin list_join app];
    change (str ";") with [59]; change (str "=") with [61]; change (str "handling=") with (str "handling" ++ [61]);
    cbn [app]; rewrite ?app_nil_r, <- ?app_assoc; cbn [app]; rewrite <- ?app_assoc; reflexivity.
Qed.

(** The loop takes one parameter after the other. *)
Lemma parseDisposition_piece strict fuel p r d :
  p <> [] -> noneOf [59] p = true -> zlen (p ++ 59 :: r) < npos ->
  parseDispositionParm strict (S fuel) (p ++ 59 :: r) d = (d ← parseParms strict p d; parseDispositionParm strict fuel r d).
Proof.
  intros Hp Hn Hl. cbn [parseDispositionParm]. rewrite SipViaProps.nonempty_len by (destruct p; [contradiction | discriminate]). chars.
  rewrite matchText_eq by exact Hl. rewrite (breakIn_first [59] p 59) by (exact Hn || reflexivity).
  now rewrite SipViaProps.nonempty_len.
Qed.

Lemma piece_clean n v : noneOf [59] n = true -> noneOf [59] v = true -> noneOf [59] (n ++ 61 :: v) = true.
Proof. intros Hn Hv. rewrite noneOf_app, noneOf_cons, Hn, Hv. reflexivity. Qed.

Lemma app_cons_ne (n : bytes) (c : Z) v : n ++ c :: v <> [].
Proof. destruct n; discriminate. Qed.

Lemma parseDisposition_last strict fuel p d :
  p <> [] -> noneOf [59] p = true -> zlen p < npos -> (0 < fuel)%nat -> parseDispositionParm strict fuel p d = parseParms strict p d.
Proof.
  intros Hp Hn Hl Hf. destruct fuel as [|fuel]; [lia|]. cbn [parseDispositionParm]. rewrite SipViaProps.nonempty_len by exact Hp. chars.
  rewrite matchText_eq by exact Hl. now rewrite breakIn_none.
Qed.

Lemma parseParms_split strict n v d :
  n <> [] -> noneOf [61] n = true -> zlen (n ++ 61 :: v) < npos -> parseParms strict (n ++ 61 :: v) d = parseFinParms strict n v d.
Proof.
  intros Hp Hn Hl. unfold parseParms. chars. rewrite matchText_eq by exact Hl. rewrite (breakIn_first [61] n 61) by (exact Hn || reflexivity).
  now rewrite SipViaProps.nonempty_len.
Qed.

(** The constructor reads what was printed. *)
Lemma newContentDisposition_text strict d :
  dispositionOk d = true -> zlen (dispositionText d) < npos -> newContentDisposition strict (dispositionText d) = Ret d.
Proof.
  intros H Hl. unfold dispositionOk in H. bools. unfold newContentDisposition.
  assert (textEq (dispositionText d) [] = false) as -> by (apply starts_nonempty; [assumption | sub_noneOf]).
  unfold scanSipContentDisposition, dispositionText in *. chars. rewrite matchText_eq by exact Hl.
  destruct d as [att val han typ]. cbn [attribute value handleparm dispositiontype] in *.
  assert (typ <> []) as Ht by (intros ->; discriminate).
  assert (handlingText (mkDisposition att val han typ) = if 0 <? zlen han then [str "handling" ++ 61 :: han] else []) as Eh by reflexivity.
  rewrite Eh in *. clear Eh. unfold attributeText in *. cbn [attribute value] in *.
  assert (str "handling" <> [] /\ noneOf [61; 59] (str "handling") = true) as [Hh1 Hh2] by (split; [discriminate | reflexivity]).
  assert (forall b, parseFinParms strict (str "handling") han b = Ret (mkDisposition (attribute b) (value b) han (dispositiontype b)) \/ (0 <? zlen han) = false) as Hf.
  { intros b. destruct (0 <? zlen han); [left | now right]. bools. unfold parseFinParms. rewrite eqNoCase_refl.
    now match goal with E : (_ || _) = true |- _ => rewrite E end. }
  destruct (0 <? zlen han) eqn:Elh, (0 <? zlen att) eqn:Ela; bools; subst; cbn [app map mjoin list_join] in *;
    rewrite ?app_nil_r in *.
  - rewrite (breakIn_first [59] typ 59) by (sub_noneOf || reflexivity). rewrite SipViaProps.nonempty_len by exact Ht.
    cbn [mbind outcome_bind default from_option id dispositiontype]. pose proof (zlen_app_r _ _ _ Hl) as Hl1. apply zlen_cons_r in Hl1.
    pose proof (zlen_app_r _ _ _ Hl1) as Hl2. apply zlen_cons_r in Hl2.
    change ((str "handling" ++ 61 :: han) ++ 59 :: att ++ 61 :: val) with ((str "handling" ++ 61 :: han) ++ 59 :: (att ++ 61 :: val)).
    rewrite parseDisposition_piece; [| discriminate | apply piece_clean; [reflexivity | sub_noneOf] | exact Hl1].
    rewrite parseParms_split by (discriminate || reflexivity || exact (zlen_app_l _ _ _ Hl1)).
    destruct (Hf (mkDisposition [] [] [] typ)) as [-> | ?]; [|discriminate]. cbn [mbind outcome_bind attribute value dispositiontype].
    rewrite parseDisposition_last; [| apply app_cons_ne | apply piece_clean; sub_noneOf | exact Hl2 | cbn; lia].
    rewrite parseParms_split by ((intros ->; discriminate) || sub_noneOf || exact Hl2). unfold parseFinParms.
    now match goal with E : eqNoCase _ _ = false |- _ => rewrite E end.
  - rewrite (breakIn_first [59] typ 59) by (sub_noneOf || reflexivity). rewrite SipViaProps.nonempty_len by exact Ht.
    cbn [mbind outcome_bind default from_option id dispositiontype]. pose proof (zlen_app_r _ _ _ Hl) as Hl1. apply zlen_cons_r in Hl1.
    change (59 :: str "handling" ++ 61 :: han) with (59 :: (str "handling" ++ 61 :: han)).
    rewrite parseDisposition_last; [| discriminate | apply piece_clean; [reflexivity | sub_noneOf] | exact Hl1 | cbn; lia].
    rewrite parseParms_split by (discriminate || reflexivity || exact Hl1).
    destruct (Hf (mkDisposition [] [] [] typ)) as [-> | ?]; [reflexivity | discriminate].
  - rewrite (breakIn_first [59] typ 59) by (sub_noneOf || reflexivity). rewrite SipViaProps.nonempty_len by exact Ht.
    cbn [mbind outcome_bind default from_option id dispositiontype]. pose proof (zlen_app_r _ _ _ Hl) as Hl1. apply zlen_cons_r in Hl1.
    rewrite parseDisposition_last; [| apply app_cons_ne | apply piece_clean; sub_noneOf | exact Hl1 | lia].
    rewrite parseParms_split by ((intros ->; discriminate) || sub_noneOf || exact Hl1). unfold parseFinParms.
    now match goal with E : eqNoCase _ _ = false |- _ => rewrite E end.
  - rewrite breakIn_none by sub_noneOf. reflexivity.
Qed.

End SipContentFacts.
