(* ===== verification/SipContentProps.v ===== *)
(** The properties of the headers that describe the body: their parsers end,
    for which values the one of Content-Type aborts, and both headers among
    the classes of the stack are read back. *)
From S2P Require Import Prelude DataStr DataStrFacts DataStrText SipHeap SipText SipViaHdr SipViaFacts SipViaProps SipRaw SipRawFacts SipRawProps SipFields SipParsed SipUriFacts SipUriProps SipAddr SipAddrFacts SipAddrProps SipAddrHeaders SipContent SipContentFacts.
Import DataStr DataStrFacts DataStrText SipHeap SipText SipRaw Raw Container SipRawFacts SipRawProps SipParsed SipAddrHeaders SipContent SipContentFacts.

Import SipAddrProps(sound, sound_seq, sound_throws).

Module SipContentProps.

(** * The parsers end *)

Lemma matchText_returns m l :
  m <> [] -> zlen l < npos ->
  exists ret found rest, matchText m true l = Ret (ret, found, rest) /\ zlen (default [] found) <= zlen l /\ zlen rest <= zlen l.
Proof.
  intros Hm Hl. unfold matchText. pose proof (matchData_repr m true (ofStr l) l (ofStr_repr l) Hm Hl) as H.
  destruct (search m l 0) as [p|].
  - destruct H as (b & r & d & E & _ & Hd & ->). cbn [mbind outcome_bind]. rewrite (textOf_repr _ _ Hd), (textOf_repr _ _ (ofStr_repr b)).
    do 3 eexists. split; [reflexivity|]. cbn [default from_option id]. rewrite E, !zlen_app.
    pose proof (zlen_nonneg b). pose proof (zlen_nonneg m). pose proof (zlen_nonneg r). lia.
  - rewrite H. cbn [mbind outcome_bind mret outcome_ret]. rewrite (textOf_repr _ _ (ofStr_repr l)).
    do 3 eexists. split; [reflexivity|]. cbn [default from_option id]. pose proof (zlen_nonneg l). change (zlen (@nil Z)) with 0. lia.
Qed.

Lemma decodeChars_returns data : forall key val in_val in_quotes m,
  exists x, decodeChars 59 true data key val in_val in_quotes m = Ret x.
Proof.
  induction data as [|c data IH]; intros; cbn [decodeChars]; [eauto|].
  destruct in_val, (isspace c), (c =? 61), (c =? 59), (c =? 34), in_quotes; cbn [negb]; auto;
    rewrite removeSpacesText_eq; apply IH.
Qed.

(** [m] returns, or faults in strict mode, and if so it aborts or throws. *)
Definition guarded {A} (strict : bool) (m : outcome A) : Prop :=
  match m with Ret _ => True | Fault f => strict = true /\ (f = AssertFailed \/ f = Exception) end.

Lemma guarded_bind {A B} strict (m : outcome A) (k : A -> outcome B) :
  guarded strict m -> (forall x, guarded strict (k x)) -> guarded strict (m ≫= k).
Proof. destruct m; cbn; auto. Qed.

Lemma guarded_throws {A} strict (x : A) : guarded strict (SipFields.throws strict x).
Proof. unfold SipFields.throws. destruct strict; cbn; auto. Qed.

Lemma setType_returns x t : exists t', setType x t = Ret t'.
Proof. unfold setType. rewrite lowercaseText_eq. cbn; eauto. Qed.

Lemma setSubType_returns x t : exists t', setSubType x t = Ret t'.
Proof. unfold setSubType. rewrite lowercaseText_eq. cbn; eauto. Qed.

Lemma scanSipContentType_guarded strict data t : zlen data < npos -> guarded strict (scanSipContentType strict data t).
Proof.
  intros Hl. unfold scanSipContentType. destruct (matchText_returns (str ":") data ltac:(discriminate) Hl) as (r1 & f1 & d1 & -> & _ & H1).
  cbn [mbind outcome_bind]. destruct (matchText_returns (str "/") d1 ltac:(discriminate) ltac:(lia)) as (r2 & f2 & d2 & -> & _ & H2).
  cbn [mbind outcome_bind]. destruct r2; [destruct strict; cbn; auto | apply guarded_throws |].
  rewrite removeSpacesText_eq. cbn [mbind outcome_bind]. destruct (setType_returns (trimEnd (dropIn [32] (default [] f2))) t) as (t1 & ->).
  cbn [mbind outcome_bind]. destruct (matchText_returns (str ";") d2 ltac:(discriminate) ltac:(lia)) as (r3 & f3 & d3 & -> & _ & _).
  cbn [mbind outcome_bind]. destruct r3; [| apply guarded_throws |].
  - destruct (setSubType_returns d3 t1) as (t2 & ->). exact I.
  - destruct (setSubType_returns (default [] f3) t1) as (t2 & ->). cbn [mbind outcome_bind]. unfold decodeList.
    destruct (decodeChars_returns d3 [] [] false false (params t2)) as ([[k v] m] & ->). exact I.
Qed.

Lemma parseContentType_returns strict data t :
  zlen data < npos -> (exists t', parseContentType strict data t = Ret t') \/ (strict = true /\ parseContentType strict data t = Fault AssertFailed).
Proof.
  intros Hl. unfold parseContentType. destruct (matchText_returns [13; 10] data ltac:(discriminate) Hl) as (r & f & d & -> & Hf & Hd).
  cbn [mbind outcome_bind]. set (text := match r with NOT_FOUND => d | _ => default [] f end).
  assert (zlen text < npos) as Ht by (unfold text; destruct r; lia). pose proof (scanSipContentType_guarded strict text t Ht) as Hs.
  destruct (scanSipContentType strict text t) as [t1|x].
  - cbn [mbind outcome_bind]. destruct (setType_returns (ctype t1) t1) as (t2 & ->). cbn [mbind outcome_bind].
    destruct (setSubType_returns (subtype t2) t2) as (t3 & ->). eauto.
  - destruct Hs as [-> [-> | ->]]; right; auto.
Qed.

(** The loop over the parameters of a disposition ends. *)
Lemma parseParms_sound strict text d : zlen text < npos -> sound strict (fun _ => True) (parseParms strict text d).
Proof.
  intros Hl. unfold parseParms. change (str "=") with [61]. rewrite matchText_eq by exact Hl.
  assert (forall n v, sound strict (fun _ => True) (parseFinParms strict n v d)) as Hf.
  { intros n v. unfold parseFinParms. destruct (eqNoCase _ _); [|exact I]. destruct (_ || _); [exact I | now apply sound_throws]. }
  destruct (breakIn [61] text) as [[[b c] r]|]; cbn [mbind outcome_bind]; [|exact I]. destruct (zlen b =? 0); [exact I | apply Hf].
Qed.

Lemma parseDispositionParm_sound strict fuel : forall text d,
  (length text < fuel)%nat -> zlen text < npos -> sound strict (fun _ => True) (parseDispositionParm strict fuel text d).
Proof.
  induction fuel as [|fuel IH]; intros text d Hf Hl; [lia|]. cbn [parseDispositionParm]. destruct (zlen text =? 0); [exact I|].
  change (str ";") with [59]. rewrite matchText_eq by exact Hl. destruct (breakIn [59] text) as [[[b c] r]|] eqn:E; cbn [mbind outcome_bind].
  - destruct (breakIn_Some _ _ _ _ _ E) as [-> _]. rewrite length_app in Hf. cbn [length] in Hf. rewrite zlen_app, zlen_cons in Hl.
    pose proof (zlen_nonneg b). pose proof (zlen_nonneg r). destruct (zlen b =? 0); [apply IH; lia|]. cbn [default from_option id].
    apply (sound_seq _ (fun _ => True)); [apply parseParms_sound; lia | intros x _; apply IH; lia].
  - now apply parseParms_sound.
Qed.

Lemma newContentDisposition_sound strict text : zlen text < npos -> sound strict (fun _ => True) (newContentDisposition strict text).
Proof.
  intros Hl. unfold newContentDisposition. destruct (textEq text []); [exact I|]. unfold scanSipContentDisposition.
  change (str ";") with [59]. rewrite matchText_eq by exact Hl. destruct (breakIn [59] text) as [[[b c] r]|] eqn:E; cbn [mbind outcome_bind]; [|exact I].
  destruct (breakIn_Some _ _ _ _ _ E) as [-> _]. rewrite zlen_app, zlen_cons in Hl. pose proof (zlen_nonneg b).
  destruct (zlen b =? 0); [now apply sound_throws|]. apply parseDispositionParm_sound; lia.
Qed.

Lemma newContentType_returns strict v :
  zlen v < npos -> (exists t, newContentType strict v = Ret t) \/ (strict = true /\ newContentType strict v = Fault AssertFailed).
Proof.
  intros Hl. unfold newContentType. destruct (textEq v []); [left; eexists; reflexivity | now apply parseContentType_returns].
Qed.

(** A value that has no slash, or none behind its first colon, as has one with
    a colon in a parameter. *)
Definition noSlash (v : bytes) : bool :=
  noneOf [10] v && negb (textEq v []) && noneOf [47] (match breakIn [58] v with Some (_, _, r) => r | None => v end).

(** Such a value aborts the program. *)
Lemma noSlash_aborts v : zlen v < npos -> noSlash v = true -> newContentType true v = Fault AssertFailed.
Proof.
  unfold noSlash. intros Hl H. apply andb_prop in H as [[Hn Hv%negb_true_iff]%andb_prop Hs].
  unfold newContentType, parseContentType. rewrite Hv.
  rewrite (matchText_absent [13; 10] 10); [| repeat constructor | exact Hn | exact Hl]. cbn [mbind outcome_bind].
  unfold scanSipContentType. change (str ":") with [58]. change (str "/") with [47]. rewrite matchText_eq by exact Hl.
  destruct (breakIn [58] v) as [[[b c] r]|] eqn:E; cbn [mbind outcome_bind]; [|now rewrite matchText_eq, breakIn_none].
  destruct (breakIn_Some _ _ _ _ _ E) as [-> _]. pose proof (zlen_cons_r _ _ _ (zlen_app_r _ _ _ Hl)) as Hlr.
  now rewrite matchText_eq, breakIn_none.
Qed.

(** * Among the classes of the stack *)

Section Headers.
Context (strict : bool) (isIp6 : bytes -> bool) (randomHex : bytes) {Other : SipHeaderClass}.

#[local] Instance contents : SipHeaderClass := contentHeaders strict (Other := Other).
#[local] Instance fullC : SipHeaderClass := full strict isIp6 randomHex (Other := contents).

(** The value is what a header of the body prints behind its name. *)
Inductive ContentValue : SipHeaderType -> bytes -> Prop :=
| ContentValue_type t :
    contentTypeOk t = true -> zlen (str "Content-Type: " ++ contentTypeText t) < npos ->
    ContentValue SIP_CONTENT_TYPE_HDR (contentTypeText t)
| ContentValue_disposition d :
    dispositionOk d = true -> zlen (dispositionText d) < npos -> ContentValue SIP_CONTENT_DISPOSITION_HDR (dispositionText d).

Lemma ContentValue_type_inv v : ContentValue SIP_CONTENT_TYPE_HDR v ->
  exists t, contentTypeOk t = true /\ zlen (str "Content-Type: " ++ contentTypeText t) < npos /\ v = contentTypeText t.
Proof. intros H. inversion H; subst; eauto. Qed.

Lemma ContentValue_disposition_inv v : ContentValue SIP_CONTENT_DISPOSITION_HDR v ->
  exists d, dispositionOk d = true /\ zlen (dispositionText d) < npos /\ v = dispositionText d.
Proof. intros H. inversion H; subst; eauto. Qed.

Definition contentHeader (t : SipHeaderType) : bool :=
  match t with SIP_CONTENT_TYPE_HDR | SIP_CONTENT_DISPOSITION_HDR => true | _ => false end.

(** The constructor reads the value, and it is printed as it was. *)
Lemma content_reads t v ip :
  ContentValue t v ->
  exists h, constructContent strict (Other := Other) t v ip = Ret h /\ encodeContent strict (Other := Other) h = oneLine (headerTypeEncode t) v ++ [13; 10].
Proof.
  intros [x Hx Hl | d Hd Hl]; unfold constructContent.
  - rewrite newContentType_text by (exact Hx || exact (zlen_app_r _ _ _ Hl)). eexists. split; [reflexivity|].
    cbn [encodeContent]. rewrite encodeContentType_text by assumption. reflexivity.
  - rewrite newContentDisposition_text by assumption. eexists. split; [reflexivity|].
    cbn [encodeContent]. rewrite encodeDisposition_text by assumption. reflexivity.
Qed.

Lemma content_survives ip t h :
  Clean ip t h -> ContentValue t (headerValue h) -> Survives (SH := fullC) ip t h.
Proof.
  intros Hh Hv. destruct (content_reads t (headerValue h) ip Hv) as (x & Hc & He).
  assert (listType t = false /\ t <> SIP_UNKNOWN_HDR) as [Hl Ht] by (destruct Hv; split; (reflexivity || discriminate)).
  pose proof (HeaderLine_single ip t h Hh Hl) as Hline. rewrite (clean_known _ _ _ Hh Ht) in Hline.
  pose proof (headerTypeEncode_name t Ht) as Hname.
  apply (Survives_line (SH := fullC) _ _ _ (@SipFields.FOther (addresses strict (Other := contents)) (@HOther contents x)) (oneLine (headerTypeEncode t) (headerValue h)));
    [exact Hl | | exact He |].
  - destruct Hv; unfold decodeHeader; cbn [construct fullC full SipFields.stackHeaders SipFields.constructField addresses addressHeaders constructAddr contents contentHeaders];
      rewrite Hc; reflexivity.
  - split; [|split; [now apply oneLine_not_blank | exact Hline]]. unfold oneLine. now rewrite !noneOf_app, (name_no_lf _ Hname), (clean_no_lf _ _ _ Hh).
Qed.

End Headers.

End SipContentProps.
