(* ===== verification/SipStartLine.v ===== *)
(** The first line of a message (sip/sipstack: SipMethod.cxx,
    SipRequestLine.cxx, SipStatusLine.cxx). *)
From S2P Require Import Prelude DataStr DataStrFacts DataStrText SipHeap SipText SipViaHdr SipFields SipUser SipUri SipBaseUrl.
Import DataStr SipText SipBaseUrl.
Import SipHeap(textEq, eqNoCase, toInt, itoa, Method(..), is_method).

Module SipStartLine.

(** * The names of the methods *)

Definition dataToMethod (data : bytes) : Method :=
  if eqNoCase data (str "INVITE") then SIP_INVITE
  else if eqNoCase data (str "CANCEL") then SIP_CANCEL
  else if eqNoCase data (str "REFER") then SIP_REFER
  else if eqNoCase data (str "ACK") then SIP_ACK
  else if eqNoCase data (str "BYE") then SIP_BYE
  else if eqNoCase data (str "INFO") then SIP_INFO
  else if eqNoCase data (str "OPTIONS") then SIP_OPTIONS
  else if eqNoCase data (str "REGISTER") then SIP_REGISTER
  else if eqNoCase data (str "SUBSCRIBE") then SIP_SUBSCRIBE
  else if eqNoCase data (str "NOTIFY") then SIP_NOTIFY
  else if textEq data (str "SIP/2.0") then SIP_STATUS
  else if eqNoCase data (str "MESSAGE") then SIP_MESSAGE
  else SIP_UNKNOWN.

Definition methodToData (method : Method) : outcome bytes :=
  match method with
  | SIP_INVITE => mret (str "INVITE")
  | SIP_CANCEL => mret (str "CANCEL")
  | SIP_ACK => mret (str "ACK")
  | SIP_BYE => mret (str "BYE")
  | SIP_REGISTER => mret (str "REGISTER")
  | SIP_OPTIONS => mret (str "OPTIONS")
  | SIP_INFO => mret (str "INFO")
  | SIP_TRANSFER => mret (str "TRANSFER")
  | SIP_REFER => mret (str "REFER")
  | SIP_SUBSCRIBE => mret (str "SUBSCRIBE")
  | SIP_NOTIFY => mret (str "NOTIFY")
  | SIP_MESSAGE => mret (str "MESSAGE")
  | _ => Fault AssertFailed
  end.

(** * The line of a request *)

(** Without the local address, which its operations take as an argument, and the
    type of the URL, which none of them reads. *)
Record SipRequestLine := mkRequestLine {
  requestUrl : option BaseUrl;
  method : bytes;
  version : bytes;
  protocol : bytes
}.

Section Request.
Context (strict : bool).

(** The constructor from an address. *)
Definition newRequestLine : SipRequestLine := mkRequestLine None (str "UNKNOWN") (str "2.0") (str "SIP").

(** The constructor from a method and a URL. *)
Definition requestLineOf (amethod : Method) (url : option BaseUrl) : outcome SipRequestLine :=
  m ← methodToData amethod; mret (mkRequestLine url m (str "2.0") (str "SIP")).

Definition setUrl (u : option BaseUrl) (r : SipRequestLine) : SipRequestLine :=
  mkRequestLine u (method r) (version r) (protocol r).
Definition setMethod (m : bytes) (r : SipRequestLine) : SipRequestLine :=
  mkRequestLine (requestUrl r) m (version r) (protocol r).

(** [setUrl], which copies. *)
Definition setUrlCopy (u : option BaseUrl) (r : SipRequestLine) : SipRequestLine := setUrl (duplicateUrl u) r.

(** The copy constructor, and [operator=]. *)
Definition copyRequestLine (r : SipRequestLine) : SipRequestLine := setUrlCopy (requestUrl r) r.

(** Whether [parseVersion] throws, and the line. *)
Definition parseVersion (newver : bytes) (r : SipRequestLine) : outcome (bool * SipRequestLine) :=
  '(test, finvalue, finaldata) ← matchText (str "/") true newver;
  mret match test with
       | FOUND => (false, mkRequestLine (requestUrl r) (method r) finaldata (default [] finvalue))
       | FIRST => (false, r)
       | NOT_FOUND => (true, r)
       end.

(** Whether the class of the URL is SipUrl, whose exception is the one that is
    caught. *)
Definition isSipUrl (data : bytes) : outcome bool :=
  '(ret, urlType, _) ← matchText (str ":") false data;
  mret match ret with FOUND => eqNoCase (default [] urlType) (str "sip") | _ => false end.

(** The URL, or that its parser threw.  When there is one already it is the
    static [decode] that is called, and the URL stays. *)
Definition decodeUrl (data ip : bytes) (r : SipRequestLine) : outcome (option BaseUrl) :=
  sip ← isSipUrl data;
  match SipBaseUrl.decode strict data ip with
  | Ret u => mret (Some (default u (requestUrl r)))
  | Fault Exception => if sip : bool then mret None else Fault Unexpected
  | Fault f => Fault f
  end.

(** Whether it throws, and the line, which keeps what was read before. *)
Definition scanSipRequestLine (tmpdata ip : bytes) (r : SipRequestLine) : outcome (bool * SipRequestLine) :=
  '(ret, reqvalue, reqdata) ← matchText (str " ") true tmpdata;
  match ret with
  | FOUND =>
      let r := setMethod (default [] reqvalue) r in
      '(retn, reqsvalue, reqsdata) ← matchText (str " ") true reqdata;
      match retn with
      | FOUND =>
          u ← decodeUrl (default [] reqsvalue) ip r;
          match u with
          | Some u => parseVersion reqsdata (setUrl (Some u) r)
          | None => mret (true, r)
          end
      | _ => mret (true, r)
      end
  | _ => mret (true, r)
  end.

(** [decode], which throws what [scanSipRequestLine] does. *)
Definition decodeRequestLine : bytes -> bytes -> SipRequestLine -> outcome (bool * SipRequestLine) := scanSipRequestLine.

(** The constructor from a text. *)
Definition requestLineFrom (srcData ip : bytes) : outcome SipRequestLine :=
  '(failed, r) ← decodeRequestLine srcData ip (mkRequestLine None [] [] []);
  if (failed : bool) && strict then Fault Exception else mret r.

Definition isLooseRouterPresent (u : BaseUrl) : bool := match u with ASipUrl x => SipUri.lrParam x | _ => false end.

Definition encodeRequestLine (r : SipRequestLine) : outcome bytes :=
  match requestUrl r with
  | Some u =>
      text ← encodeUrl u;
      mret (method r ++ str " " ++ text ++ (if isLooseRouterPresent u then str ";lr" else []) ++ str " " ++
        protocol r ++ str "/" ++ version r ++ [13; 10])
  | None => mret []
  end.

Definition eqRequestLine (a b : SipRequestLine) : outcome bool :=
  same ← match requestUrl a, requestUrl b with
         | Some x, Some y => areEqual x y
         | None, None => mret true
         | _, _ => mret false
         end;
  mret (same && textEq (method a) (method b) && textEq (version a) (version b) && textEq (protocol a) (protocol b)).

(** * The line of a response *)

Record SipStatusLine := mkStatusLine {
  statusCode : bytes;
  reasonPhrase : bytes;
  statusVersion : bytes;
  statusProtocol : bytes;
  statusLine : bytes
}.

Definition newStatusLine : SipStatusLine := mkStatusLine [] [] (str "2.0") (str "SIP") [].

(** [statusCodes] without the entry that ends it. *)
Definition statusCodes : list (Z * bytes) := [
  (100, str "Trying"); (180, str "Ringing"); (181, str "Call is Being Forwarded"); (182, str "Queued");
  (183, str "Session Progress"); (200, str "OK"); (202, str "Accepted"); (300, str "Multiple Choices");
  (301, str "Moved Permanently"); (302, str "Moved Temporarily"); (305, str "Use Proxy");
  (380, str "Alternative Service"); (400, str "Bad Request"); (401, str "Unauthorized");
  (402, str "Payment Required"); (403, str "Forbidden"); (404, str "Not Found"); (405, str "Method Not Allowed");
  (406, str "Not Acceptable"); (407, str "Proxy Authentication Required"); (408, str "Request Timeout");
  (409, str "Conflict"); (410, str "Gone"); (413, str "Request Entity Too Large");
  (414, str "Request-URI Too Large"); (415, str "Unsupported Media Type"); (420, str "Bad Extension");
  (480, str "Temporarily Unavailable"); (481, str "Call Leg/Transaction Does Not Exist");
  (482, str "Loop Detected"); (483, str "Too Many Hops"); (484, str "Address Incomplete"); (485, str "Ambiguous");
  (486, str "Busy Here"); (487, str "Request Terminated"); (488, str "Not Acceptable Here");
  (500, str "Server Internal Error"); (501, str "Not Implemented"); (502, str "Bad Gateway");
  (503, str "Service Unavailable"); (504, str "Server Timed-out"); (505, str "Version Not Supported");
  (513, str "Message Too Large"); (600, str "Busy Everywhere"); (603, str "Decline");
  (604, str "Does Not Exist Anywhere"); (606, str "Not Acceptable")
].

Fixpoint findReason (n : Z) (table : list (Z * bytes)) : option bytes :=
  match table with
  | [] => None
  | (k, reason) :: table' => if k =? n then Some reason else findReason n table'
  end.

Definition setReasonPhrase (reason : bytes) (s : SipStatusLine) : SipStatusLine :=
  mkStatusLine (statusCode s) reason (statusVersion s) (statusProtocol s) (statusLine s).

(** A code that is not in the table has the reason of its class; the recursive
    call is for a code that is in the table. *)
Fixpoint setDefaultReason (fuel : nat) (findStatusCode : bytes) (s : SipStatusLine) : outcome SipStatusLine :=
  match fuel with
  | O => Fault OutOfFuel
  | S fuel' =>
      n ← toInt findStatusCode;
      match findReason n statusCodes with
      | Some reason => mret (setReasonPhrase reason s)
      | None =>
          let info := List.hd 0 findStatusCode in
          if info =? 49 then setDefaultReason fuel' (itoa 100) s
          else if info =? 50 then setDefaultReason fuel' (itoa 200) s
          else if info =? 51 then setDefaultReason fuel' (itoa 300) s
          else if info =? 52 then setDefaultReason fuel' (itoa 400) s
          else if info =? 53 then setDefaultReason fuel' (itoa 500) s
          else if info =? 54 then setDefaultReason fuel' (itoa 600) s
          else mret s
      end
  end.

Definition setStatusCode (newStatusCode : Z) (s : SipStatusLine) : outcome SipStatusLine :=
  setDefaultReason 2 (itoa newStatusCode)
    (mkStatusLine (itoa newStatusCode) (reasonPhrase s) (statusVersion s) (statusProtocol s) (statusLine s)).

Definition getStatusCode (s : SipStatusLine) : outcome Z := toInt (statusCode s).

Definition parseStatusVersion (newver : bytes) (s : SipStatusLine) : outcome SipStatusLine :=
  '(test, finalvalue, finaldata) ← matchText (str "/") true newver;
  mret match test with
       | FOUND => mkStatusLine (statusCode s) (reasonPhrase s) finaldata (default [] finalvalue) (statusLine s)
       | _ => s
       end.

Definition scanSipStatusLine (tmpdata : bytes) (s : SipStatusLine) : outcome SipStatusLine :=
  '(ret, reqvalue, reqdata) ← matchText (str " ") true tmpdata;
  match ret with
  | FOUND =>
      s ← parseStatusVersion (default [] reqvalue) s;
      '(retn, reqsvalue, reqsdata) ← matchText (str " ") true reqdata;
      match retn with
      | FOUND =>
          n ← toInt (default [] reqsvalue);
          s ← setStatusCode n s;
          mret (setReasonPhrase reqsdata s)
      | _ => SipFields.throws strict s
      end
  | _ => SipFields.throws strict s
  end.

(** [decode] aborts for what is thrown below it. *)
Definition decodeStatusLine (data : bytes) (s : SipStatusLine) : outcome SipStatusLine :=
  match scanSipStatusLine data s with Fault Exception => Fault AssertFailed | m => m end.

Definition encodeStatusLine (s : SipStatusLine) : bytes :=
  statusProtocol s ++ str "/" ++ statusVersion s ++ str " " ++ statusCode s ++ str " " ++ reasonPhrase s ++ [13; 10].

Definition eqStatusLine (a b : SipStatusLine) : bool :=
  textEq (statusCode a) (statusCode b) && textEq (reasonPhrase a) (reasonPhrase b) &&
  textEq (statusVersion a) (statusVersion b) && textEq (statusProtocol a) (statusProtocol b) &&
  textEq (statusLine a) (statusLine b).

End Request.
End SipStartLine.
