(* ===== verification/SipMessage.v ===== *)
(** Messages (sip/sipstack: SipMsg.cxx, SipCommand.cxx, StatusMsg.cxx,
    SipContentDataContainer.cxx and the constructors of the classes below
    SipCommand): what [SipMsg::decode] makes of a text, and what is printed.

    A body is kept as a text; what [SipContentDataContainer::parse] makes of it
    is not modelled.  The addresses, the version and the flags of SipMsg, which
    neither reads nor prints, are left out. *)
From S2P Require Import Prelude DataStr DataStrFacts DataStrText SipHeap SipText SipViaHdr SipRaw SipFields SipUser SipUri SipBaseUrl SipAddr SipAddrHeaders SipContent SipStartLine.
Import SipHeap DataStr SipText SipRaw Raw Container SipAddrHeaders SipContent SipStartLine.

Module SipMessage.

(** * Operations on texts *)

Definition removeLWSText (l : bytes) : outcome bytes := d ← removeLWS (ofStr l); textOf d.
Definition substringText (first last : Z) (l : bytes) : outcome bytes := d ← substring first last (ofStr l); textOf d.

(** The place of the first character that is not a blank or a line break. *)
Fixpoint skipBlanks (l : bytes) (i : Z) : Z :=
  match l with
  | [] => i
  | c :: l' => if isIn c [32; 13; 10; 9] then skipBlanks l' (i + 1) else i
  end.

(** The exceptions that [catch(VException&)] and [catch(...)] take. *)
Definition caught (f : fault) : bool := match f with Exception | BadCast => true | _ => false end.

Section Messages.
Context (strict : bool) (isIp6 : bytes -> bool) (randomHex : bytes) {Other : SipHeaderClass} (ip : bytes).

(** The classes of the headers: the body's, those with addresses, the others. *)
#[local] Instance classes : SipHeaderClass := full strict isIp6 randomHex (Other := contentHeaders strict (Other := Other)).

(** * Messages *)

(** SipContentDataContainer before [parse]. *)
Record MimeList := mkMime {
  contentLength : bytes;
  contentType : SipContentType;
  contentDisposition : SipContentDisposition;
  mimeData : bytes
}.

Definition newMime : MimeList := mkMime [] (mkContentType [] [] [] []) (mkDisposition [] [] [] []) [].

(** A request with its class, or a response. *)
Inductive StartLine :=
| Request (class : Method) (line : SipRequestLine)
| Response (line : SipStatusLine).

Record SipMsg := mkMsg { startLine : StartLine; myHeaderList : container; myMimeList : MimeList }.

Definition newMsg (s : StartLine) : SipMsg := mkMsg s newContainer newMime.
Definition setHeaders (c : container) (m : SipMsg) : SipMsg := mkMsg (startLine m) c (myMimeList m).
Definition setStart (s : StartLine) (m : SipMsg) : SipMsg := mkMsg s (myHeaderList m) (myMimeList m).

(** * Headers of the body *)

(** [getParsedHeader] of the first header of the type: the container, and the
    header unless its class threw. *)
Definition parsedHeader (type : SipHeaderType) (c : container) : outcome (container * option SipHeader) :=
  '(c, _) ← getHeaderOrCreate type ip 0 c;
  match getParsedHeader type ip 0 c with
  | Ret (c, Some h) => mret (c, Some h)
  | Ret (_, None) => Fault NullDeref
  | Fault f => if caught f then mret (c, None) else Fault f
  end.

(** The cast to the class of the type is not checked. *)
Definition asLength (h : SipHeader) : outcome bytes :=
  match h with SipFields.FContentLength l => mret l | _ => Fault OutOfBounds end.
Definition asType (h : SipHeader) : outcome SipContentType :=
  match h with SipFields.FOther (HOther (HContentType t)) => mret t | _ => Fault OutOfBounds end.
Definition asDisposition (h : SipHeader) : outcome SipContentDisposition :=
  match h with SipFields.FOther (HOther (HDisposition d)) => mret d | _ => Fault OutOfBounds end.

(** [parseMime]: whether it threw, and the message. *)
Definition parseMime (msg : bytes) (m : SipMsg) : outcome (bool * SipMsg) :=
  '(c, len) ← parsedHeader SIP_CONTENT_LENGTH_HDR (myHeaderList m);
  match len with
  | None => mret (true, setHeaders c m)
  | Some h =>
      contlen ← asLength h;
      '(c, type) ← parsedHeader SIP_CONTENT_TYPE_HDR c;
      match type with
      | None => mret (true, setHeaders c m)
      | Some h =>
          t ← asType h; contType ← copyContentType t;
          '(c, disp) ← parsedHeader SIP_CONTENT_DISPOSITION_HDR c;
          match disp with
          | None => mret (true, setHeaders c m)
          | Some h =>
              contDisp ← asDisposition h;
              mret (false, mkMsg (startLine m) c (mkMime contlen contType contDisp msg))
          end
      end
  end.

(** [SipMsg::parse]: what it returned, unless it threw, and the message. *)
Definition parseMsg (msg : bytes) (m : SipMsg) : outcome (option bool * SipMsg) :=
  '(retVal, c, msg) ← Container.decode ip msg (myHeaderList m);
  '(threw, m) ← parseMime msg (setHeaders c m);
  mret (if threw : bool then None else Some retVal, m).

(** * Requests *)

Definition parseRequestLine (line1 : bytes) (r : SipRequestLine) : outcome (bool * SipRequestLine) :=
  '(_, _, line2) ← matchText [10] true line1;
  '(fieldvalue, _, line2) ← matchText (str " ") false line2;
  match fieldvalue with
  | FOUND => line2 ← removeSpacesText line2; decodeRequestLine strict line2 ip r
  | _ => mret (false, r)
  end.

(** [SipCommand::decode] of a new object of the class. *)
Definition decodeCommand (class : Method) (inputData : bytes) : outcome (option bool * SipMsg) :=
  '(line, _, rawMsg) ← getLineText inputData;
  '(requestLineError, r) ← parseRequestLine line newRequestLine;
  '(headerError, m) ← parseMsg rawMsg (newMsg (Request class r));
  mret (match headerError with Some e => Some (requestLineError || e) | None => None end, m).

(** The classes whose constructor keeps what was read before it failed. *)
Definition keepsFailed (class : Method) : bool :=
  match class with SIP_REFER | SIP_SUBSCRIBE | SIP_NOTIFY => true | _ => false end.

(** The constructor of the class, with the [catch] around it. *)
Definition newCommand (class : Method) (data : bytes) : outcome (option SipMsg) :=
  '(r, m) ← decodeCommand class data;
  mret match r with Some _ => Some m | None => if keepsFailed class then Some m else None end.

(** * Responses *)

Definition isStatusCodes (code : bytes) : outcome bool :=
  n ← toInt code; mret ((100 <=? n) && (n <=? 700)).

Definition isprotocolSIP (pheader : bytes) : outcome bool :=
  '(value, protoVersion, _) ← matchText (str "/") true pheader;
  mret match value with FOUND => eqNoCase (default [] protoVersion) (str "SIP") | _ => false end.

(** A [match] that finds nothing leaves the text of the one before it. *)
Definition parseStatusLine (plin : bytes) (s : SipStatusLine) : outcome SipStatusLine :=
  '(fieldvalue1, header1, _) ← matchText (str " ") false plin;
  match fieldvalue1 with
  | FOUND =>
      let header1 := default [] header1 in
      sip ← isprotocolSIP header1;
      if sip : bool then
        '(_, found, lstatusLine) ← matchText (str " ") true plin;
        let header1 := default header1 found in
        '(_, found, lstatusLine) ← matchText (str " ") true lstatusLine;
        let header1 := default header1 found in
        code ← isStatusCodes header1;
        if code : bool then decodeStatusLine strict plin s else mret s
      else mret s
  | _ => mret s
  end.

(** [StatusMsg::decode] of a new object. *)
Definition decodeStatus (sltdata : bytes) : outcome (option bool * SipMsg) :=
  '(line, _, rawMsg) ← getLineText sltdata;
  s ← parseStatusLine line newStatusLine;
  parseMsg rawMsg (newMsg (Response s)).

Definition newStatusMsg (data : bytes) : outcome (option SipMsg) :=
  '(r, m) ← decodeStatus data;
  mret match r with Some _ => Some m | None => None end.

(** * [SipMsg::decode] *)

(** Whether the line of a request, behind its method, ends in a version of SIP. *)
Definition isSipRequest (startline : bytes) : outcome bool :=
  '(_, matchedChar, version) ← matchCharText [32; 9] startline;
  if matchedChar =? 0 then mret false
  else
    '(protocol, matchedChar, _) ← matchCharText (str "/") version;
    if matchedChar =? 0 then mret false else mret (eqNoCase protocol (str "sip")).

(** What [decode] does with the text once it is prepared. *)
Definition decodePrepared (data : bytes) : outcome (option SipMsg) :=
  '(startline, getLineFailed, _) ← getLineText data;
  if getLineFailed : bool then mret None
  else
    '(method, _, startline) ← matchCharText [32; 9] startline;
    let sipMethod := dataToMethod method in
    sip ← (if is_method sipMethod SIP_STATUS then mret true else isSipRequest startline);
    if sip : bool then
      if is_method sipMethod SIP_STATUS then newStatusMsg data else newCommand sipMethod data
    else mret None.

Definition decodeMsg (data : bytes) : outcome (option SipMsg) :=
  data ← substringText (skipBlanks data 0) (-1) data;
  data ← removeLWSText data;
  data ← removeSpacesText data;
  decodePrepared data.

(** * Printing *)

(** [SipContentDataContainer::encode] of a body that was not parsed. *)
Definition encodeMime (mime : MimeList) (data : bytes) : bytes :=
  if negb (zlen (mimeData mime) =? 0) then data ++ [13; 10] ++ mimeData mime else data ++ [13; 10].

(** An assignment to the first header of the type, once it is parsed. *)
Definition assignHeader (type : SipHeaderType) (f : SipHeader -> outcome SipHeader) (c : container) : outcome container :=
  '(c, h) ← getParsedHeader type ip 0 c;
  h ← deref h;
  h ← f h;
  x ← at_ c type;
  match x with
  | raw :: next => set_ type (setHeader (Some h) raw :: next) c
  | [] => Fault NullDeref
  end.

Definition setLength (contLen : bytes) (h : SipHeader) : outcome SipHeader :=
  _ ← asLength h; mret (SipFields.FContentLength contLen).
Definition setType (contType : SipContentType) (h : SipHeader) : outcome SipHeader :=
  t ← asType h;
  mret (@SipFields.FOther (addresses strict (Other := contentHeaders strict (Other := Other)))
    (@HOther (contentHeaders strict (Other := Other)) (HContentType (assignContentType contType t)))).
Definition setDisposition (contDisp : SipContentDisposition) (h : SipHeader) : outcome SipHeader :=
  _ ← asDisposition h;
  mret (@SipFields.FOther (addresses strict (Other := contentHeaders strict (Other := Other)))
    (@HOther (contentHeaders strict (Other := Other)) (HDisposition contDisp))).

(** [encodeBody]: the text, and the message, whose headers it changes. *)
Definition encodeBody (msg : bytes) (m : SipMsg) : outcome (bytes * SipMsg) :=
  let mime := myMimeList m in
  let body := encodeMime mime [] in
  c ← assignHeader SIP_CONTENT_LENGTH_HDR (setLength (contentLength mime)) (myHeaderList m);
  c ← assignHeader SIP_CONTENT_TYPE_HDR (setType (contentType mime)) c;
  c ← assignHeader SIP_CONTENT_DISPOSITION_HDR (setDisposition (contentDisposition mime)) c;
  msg ← Container.encode c msg;
  mret (msg ++ body, setHeaders c m).

(** [SipCommand::encode] and [StatusMsg::encode] *)
Definition encodeMsg (m : SipMsg) : outcome (bytes * SipMsg) :=
  text ← match startLine m with
         | Request _ r => encodeRequestLine r
         | Response s => mret (encodeStatusLine s)
         end;
  encodeBody text m.

End Messages.
End SipMessage.
