(* ===== verification/SipMessageFacts.v ===== *)
(** Messages: the operations that prepare a text, the first lines that are
    read as they are printed, and the headers of the body in a container. *)
From S2P Require Import Prelude DataStr DataStrFacts DataStrText SipHeap SipText SipViaHdr SipViaProps SipRaw SipRawFacts SipRawProps SipFields SipParsed SipUser SipUri SipUriFacts SipUriProps SipBaseUrl SipAddr SipAddrFacts SipAddrProps SipAddrHeaders SipContent SipContentFacts SipContentProps SipStartLine SipMessage.
Import SipHeap DataStr DataStrFacts DataStrText SipText SipRaw Raw Container SipRawFacts SipRawProps SipUriFacts SipUriProps SipContentFacts SipStartLine SipMessage.
Import SipBaseUrl(BaseUrl(..), encodeUrl) SipAddrFacts(urlReads, decode_text).

Module SipMessageFacts.

(** * Folded lines *)

(** The text with two spaces in the place of a line break before a blank. *)
Fixpoint unfoldText (l : bytes) : bytes :=
  match l with
  | [] => []
  | a :: l' =>
      match l' with
      | b :: l'' =>
          if (a =? 13) && (b =? 10) && startsWith [32; 9] l'' then 32 :: 32 :: unfoldText l'' else a :: unfoldText l'
      | [] => [a]
      end
  end.

Lemma rdc_mid a x r : rdc (map Some a ++ Some x :: r) (zlen a) = Ret x.
Proof. unfold rdc. now rewrite <- (zlen_map Some a), rd_app_mid. Qed.

Lemma wr_mid a (x y : option Z) r : wr (map Some a ++ x :: r) (zlen a) y = Ret (map Some a ++ y :: r).
Proof. now rewrite <- (zlen_map Some a), wr_app_mid. Qed.

(** A cell that was passed. *)
Lemma pass_cell a x (r : cells) : map Some a ++ Some x :: r = map Some (a ++ [x]) ++ r.
Proof. now rewrite map_app, <- app_assoc. Qed.

Lemma foldedAt_eq a l rest :
  3 <= zlen l ->
  foldedAt (map Some a ++ map Some l ++ rest) (zlen a) =
    Ret match l with x :: y :: l'' => (x =? 13) && (y =? 10) && startsWith [32; 9] l'' | _ => false end.
Proof.
  intros Hl. destruct l as [|x [|y [|z l]]]; try zlen_lia. unfold foldedAt. cbn [map app].
  rewrite rdc_mid. cbn [mbind outcome_bind]. destruct (x =? 13); [|reflexivity].
  rewrite pass_cell, <- zlen_snoc with (x := x), rdc_mid. cbn [mbind outcome_bind]. destruct (y =? 10); [|reflexivity].
  rewrite pass_cell. replace (zlen a + 2) with (zlen ((a ++ [x]) ++ [y])) by zlen_lia.
  rewrite rdc_mid. cbn [mbind outcome_bind mret outcome_ret startsWith isIn existsb andb]. now rewrite orb_false_r.
Qed.

Lemma unfoldText_short l : zlen l <= 2 -> unfoldText l = l.
Proof.
  destruct l as [|x [|y [|z l]]]; try reflexivity; intros H; [|rewrite !zlen_cons in H; pose proof (zlen_nonneg l); lia].
  cbn. now rewrite !andb_false_r.
Qed.

Lemma zlen_unfoldText l : zlen (unfoldText l) = zlen l.
Proof.
  induction l as [l IH] using (induction_ltof1 _ (@length Z)). unfold ltof in IH. destruct l as [|a [|b l]]; try reflexivity.
  cbn [unfoldText]. destruct (_ && _ && _); rewrite !zlen_cons.
  - rewrite IH by (cbn; lia). lia.
  - change (match l with [] => [b] | _ => _ end) with (unfoldText (b :: l)). rewrite IH by (cbn; lia). now rewrite zlen_cons.
Qed.

Lemma unfoldLines_eq l : forall a fuel rest, (length l < fuel)%nat ->
  unfoldLines fuel (zlen a) (zlen a + zlen l - 2) (map Some a ++ map Some l ++ rest) =
    Ret (map Some a ++ map Some (unfoldText l) ++ rest).
Proof.
  induction l as [l IH] using (induction_ltof1 _ (@length Z)). unfold ltof in IH. intros a fuel rest Hf.
  destruct fuel as [|fuel]; [lia|]. cbn [unfoldLines]. destruct (Z.ltb_spec (zlen a) (zlen a + zlen l - 2)) as [Hl|Hl];
    [|now rewrite unfoldText_short by lia].
  rewrite foldedAt_eq by lia. cbn [mbind outcome_bind].
  destruct l as [|x [|y l]]; try zlen_lia. cbn [unfoldText].
  destruct (_ && _ && _) eqn:E.
  - cbn [map app]. rewrite wr_mid. cbn [mbind outcome_bind]. rewrite pass_cell, <- zlen_snoc with (x := 32), wr_mid.
    cbn [mbind outcome_bind]. specialize (IH l ltac:(cbn [length]; lia) ((a ++ [32]) ++ [32]) fuel rest ltac:(cbn [length] in Hf; lia)).
    rewrite pass_cell. replace (zlen a + 2) with (zlen ((a ++ [32]) ++ [32])) by zlen_lia.
    replace (zlen a + zlen (x :: y :: l) - 2) with (zlen ((a ++ [32]) ++ [32]) + zlen l - 2) by zlen_lia. rewrite IH.
    now rewrite <- !pass_cell.
  - specialize (IH (y :: l) ltac:(cbn [length]; lia) (a ++ [x]) fuel rest ltac:(cbn [length] in *; lia)).
    cbn [map app] in *. rewrite pass_cell, <- zlen_snoc with (x := x).
    replace (zlen a + zlen (x :: y :: l) - 2) with (zlen (a ++ [x]) + zlen (y :: l) - 2) by zlen_lia. rewrite IH.
    now rewrite <- pass_cell.
Qed.

Lemma removeLWSText_eq l : removeLWSText l = Ret (unfoldText l).
Proof.
  unfold removeLWSText, removeLWS. pose proof (unfoldLines_eq l [] (fuelOf (ofStr l)) [Some 0]) as H. cbn [map app] in H.
  change (zlen (@nil Z) + zlen l - 2) with (zlen l - 2) in H. cbn [ofStr mLength mBuf]. change (zlen (@nil Z)) with 0 in H. rewrite H
    by (unfold fuelOf; cbn [ofStr mLength]; unfold zlen; lia).
  cbn [mbind outcome_bind mret outcome_ret]. apply textOf_repr. split; cbn [with_buf mLength mBuf mCapacity ofStr].
  - now rewrite zlen_unfoldText.
  - now exists [].
  - rewrite zlen_app, zlen_map, zlen_unfoldText. reflexivity.
Qed.

(** * The text that is read *)

Abbreviation blanks := [32; 13; 10; 9].

Lemma skipBlanks_eq l : forall i, exists a, l = a ++ dropIn blanks l /\ skipBlanks l i = i + zlen a.
Proof.
  induction l as [|c l IH]; intros i; cbn [dropIn skipBlanks]; [exists []; split; [reflexivity | zlen_lia]|].
  destruct (isIn c blanks); [|exists []; split; [reflexivity | zlen_lia]].
  destruct (IH (i + 1)) as (a & E & ->). exists (c :: a). split; [cbn [app]; now rewrite <- E | zlen_lia].
Qed.

Lemma substring_end a b d : repr d (a ++ b) -> zlen (a ++ b) < npos -> substring (zlen a) (-1) d = Ret (ofStr b).
Proof.
  intros H Hn. pose proof H as H'. rewrite <- (app_nil_r b) in H'. pose proof (substring_repr a b [] d H' Hn) as E.
  rewrite <- E. unfold substring. cbn [Z.eqb Pos.eqb orb]. rewrite (repr_length _ _ H).
  destruct (Z.eqb_spec (zlen (a ++ b)) (-1)); [zlen_lia|]. destruct (Z.eqb_spec (zlen (a ++ b)) npos); [lia|]. reflexivity.
Qed.

(** What is left of a text once it is prepared. *)
Definition prepare (data : bytes) : bytes := trimEnd (dropIn [32] (unfoldText (dropIn blanks data))).

(** A text that is left as it is: it neither begins nor ends with a blank, and
    none of its lines is folded. *)
Definition framed (data : bytes) : bool :=
  negb (startsWith blanks data) && negb (startsWith [32] (rev data)) && bool_decide (unfoldText data = data).

Lemma prepare_framed data : framed data = true -> prepare data = data.
Proof.
  unfold framed, prepare. intros H. bools. rewrite (dropIn_clean blanks) by assumption.
  match goal with E : unfoldText data = data |- _ => rewrite E end.
  rewrite dropIn_clean, trimEnd_clean; [reflexivity | assumption |].
  apply (startsWith_sub blanks); [|assumption]. intros c. cbn. rewrite !orb_true_iff. intuition.
Qed.

(** * Lines with two spaces *)

(** The method, the URL and the version, with spaces between them. *)
Definition lineText (m u v : bytes) : bytes := m ++ 32 :: u ++ 32 :: v.

(** A line that is split at its spaces. *)
Record LineOk (m u v : bytes) : Prop := {
  line_m : (0 <? zlen m) = true;
  line_m_clean : noneOf [9; 10; 13; 32] m = true;
  line_u : (0 <? zlen u) = true;
  line_u_clean : noneOf [9; 10; 32] u = true;
  line_v_clean : noneOf [10] v = true;
  line_v_end : startsWith [32] (rev v) = false
}.

Lemma lineText_clean m u v : LineOk m u v -> v <> [] -> noneOf [10] (lineText m u v) = true /\ trimmed (lineText m u v) = true.
Proof.
  intros [H1 H2 H3 H4 H5 H6] Hv. unfold lineText, trimmed. split.
  - rewrite noneOf_app, noneOf_cons, noneOf_app, noneOf_cons. cbn [isIn existsb Z.eqb Pos.eqb orb negb andb].
    repeat (apply andb_true_intro; split); sub_noneOf.
  - apply andb_true_intro. split; apply negb_true_iff.
    + destruct m as [|c m]; [discriminate|]. cbn [app startsWith]. rewrite noneOf_cons in H2. bools. cbn [isIn existsb] in *.
      rewrite !orb_false_iff in *. intuition.
    + rewrite !rev_app_distr. cbn [rev]. rewrite !rev_app_distr. cbn [rev].
      destruct (rev v) as [|c w] eqn:E; [|exact H6]. apply (f_equal (@rev Z)) in E. rewrite rev_involutive in E. contradiction.
Qed.

Lemma line_method m u v : LineOk m u v -> matchCharText [32; 9] (lineText m u v) = Ret (m, 32, u ++ 32 :: v).
Proof. intros H. unfold lineText. pose proof (line_m_clean _ _ _ H). now rewrite matchCharText_eq, (breakIn_first [32; 9] m 32) by (sub_noneOf || reflexivity). Qed.

Lemma line_sip m u p w : LineOk m u (p ++ 47 :: w) -> noneOf [47] p = true -> isSipRequest (u ++ 32 :: p ++ 47 :: w) = Ret (eqNoCase p (str "sip")).
Proof.
  intros H Hp. unfold isSipRequest. pose proof (line_u_clean _ _ _ H).
  rewrite matchCharText_eq, (breakIn_first [32; 9] u 32) by (sub_noneOf || reflexivity). rewrite bind_Ret. change (32 =? 0) with false. cbv iota.
  change (str "/") with [47]. now rewrite matchCharText_eq, (breakIn_first [47] p 47) by (exact Hp || reflexivity).
Qed.

Section Messages.
Context (strict : bool) (isIp6 : bytes -> bool) (randomHex : bytes) {Other : SipHeaderClass} (ip : bytes).

Abbreviation decodeMsg := (decodeMsg strict isIp6 randomHex (Other := Other) ip).
Abbreviation decodePrepared := (decodePrepared strict isIp6 randomHex (Other := Other) ip).

Lemma decodeMsg_prepared data : zlen data < npos -> decodeMsg data = decodePrepared (prepare data).
Proof.
  intros Hl. unfold SipMessage.decodeMsg, substringText. destruct (skipBlanks_eq data 0) as (a & E & ->). rewrite Z.add_0_l.
  assert (substring (zlen a) (-1) (ofStr data) = Ret (ofStr (dropIn blanks data))) as ->.
  { apply substring_end; [rewrite <- E; apply ofStr_repr | now rewrite <- E]. }
  cbn [mbind outcome_bind]. rewrite (textOf_repr _ _ (ofStr_repr _)). cbn [mbind outcome_bind].
  rewrite removeLWSText_eq. cbn [mbind outcome_bind]. now rewrite removeSpacesText_eq.
Qed.

(** * The line of a request *)

(** A line that is read as it is printed. *)
Definition requestOk (r : SipRequestLine) : bool :=
  (0 <? zlen (method r)) && noneOf [9; 10; 13; 32] (method r) && negb (is_method (dataToMethod (method r)) SIP_STATUS) &&
  match requestUrl r with
  | Some u => urlReads ip u && negb (isLooseRouterPresent u) &&
      match encodeUrl u with Ret t => (0 <? zlen t) && noneOf [9; 10; 32] t | Fault _ => false end
  | None => false
  end &&
  eqNoCase (protocol r) (str "sip") && noneOf [10; 47] (protocol r) &&
  noneOf [10] (version r) && negb (startsWith [32] (rev (version r))).

Definition urlTextOf (r : SipRequestLine) : bytes :=
  match requestUrl r with Some u => match encodeUrl u with Ret t => t | Fault _ => [] end | None => [] end.

Definition requestText (r : SipRequestLine) : bytes := lineText (method r) (urlTextOf r) (protocol r ++ 47 :: version r).

Lemma requestOk_url r : requestOk r = true ->
  exists u t, requestUrl r = Some u /\ encodeUrl u = Ret t /\ urlTextOf r = t /\ urlReads ip u = true /\
    isLooseRouterPresent u = false /\ (0 <? zlen t) = true /\ noneOf [9; 10; 32] t = true.
Proof.
  unfold requestOk, urlTextOf. intros H. bools. destruct (requestUrl r) as [u|]; [|discriminate]. bools.
  destruct (encodeUrl u) as [t|] eqn:E; [|discriminate]. bools. exists u, t. repeat split; assumption.
Qed.

Lemma encodeRequestLine_text r : requestOk r = true -> encodeRequestLine r = Ret (requestText r ++ [13; 10]).
Proof.
  intros H. destruct (requestOk_url r H) as (u & t & Hu & Ht & Et & _ & Hlr & _). unfold encodeRequestLine, requestText, lineText.
  rewrite Hu, Ht, Hlr, Et. cbn [mbind outcome_bind mret outcome_ret]. change (str " ") with [32]. change (str "/") with [47]. cbn [app].
  rewrite <- app_assoc. cbn [app]. rewrite <- app_assoc. cbn [app]. now rewrite <- app_assoc.
Qed.

Lemma isSipUrl_returns text : zlen text < npos -> exists b, isSipUrl text = Ret b.
Proof.
  intros Hl. unfold isSipUrl. change (str ":") with [58]. rewrite matchText_eq by exact Hl.
  destruct (breakIn [58] text) as [[[b c] r]|]; cbn; eauto.
Qed.

Lemma decodeUrl_text t u r :
  urlReads ip u = true -> encodeUrl u = Ret t -> zlen t < npos -> requestUrl r = None ->
  decodeUrl strict t ip r = Ret (Some u).
Proof.
  intros Hu Ht Hl Hr. unfold decodeUrl. destruct (isSipUrl_returns t Hl) as (b & ->). cbn [mbind outcome_bind].
  rewrite (decode_text strict ip u t Hu Ht Hl), Hr. reflexivity.
Qed.

Lemma nonzero (l : bytes) : (0 <? zlen l) = true -> (zlen l =? 0) = false.
Proof. lia. Qed.

Lemma scanRequestLine_parts m u w v r :
  LineOk m u w -> zlen (lineText m u v) < npos ->
  scanSipRequestLine strict (lineText m u v) ip r =
    (x ← decodeUrl strict u ip (setMethod m r);
     match x with Some y => parseVersion v (setUrl (Some y) (setMethod m r)) | None => mret (true, setMethod m r) end).
Proof.
  intros [H1 H2 H3 H4 _ _] Hl. unfold lineText, scanSipRequestLine in *. change (str " ") with [32].
  pose proof (zlen_cons_r _ _ _ (zlen_app_r _ _ _ Hl)) as Hl1.
  rewrite matchText_eq, (breakIn_first [32] m 32) by (exact Hl || reflexivity || sub_noneOf).
  rewrite nonzero by assumption. cbn [mbind outcome_bind default from_option id].
  rewrite matchText_eq, (breakIn_first [32] u 32) by (exact Hl1 || reflexivity || sub_noneOf).
  now rewrite nonzero by assumption.
Qed.

Lemma parseRequestLine_parts m u v r :
  LineOk m u v -> v <> [] -> zlen (lineText m u v) < npos ->
  parseRequestLine strict ip (lineText m u v) r = scanSipRequestLine strict (lineText m u v) ip r.
Proof.
  intros H Hv Hl. destruct (lineText_clean m u v H Hv) as [Hn Ht]. unfold parseRequestLine.
  rewrite matchText_eq, breakIn_none by assumption. rewrite bind_Ret. change (str " ") with [32].
  rewrite matchText_eq by exact Hl. assert (breakIn [32] (lineText m u v) = Some (m, 32, u ++ 32 :: v)) as ->
    by (unfold lineText; pose proof (line_m_clean _ _ _ H); apply breakIn_first; [sub_noneOf | reflexivity]).
  rewrite nonzero by apply H. now rewrite bind_Ret, removeSpacesText_trimmed, bind_Ret by exact Ht.
Qed.

Lemma requestOk_line r : requestOk r = true -> LineOk (method r) (urlTextOf r) (protocol r ++ 47 :: version r).
Proof.
  intros H. destruct (requestOk_url r H) as (u & t & Hu & Ht & Et & Hread & _ & Hlt & Hnt). unfold requestOk in H. bools.
  rewrite Et. split; try assumption.
  - rewrite noneOf_app, noneOf_cons. cbn [isIn existsb Z.eqb Pos.eqb orb negb andb]. apply andb_true_intro; split; sub_noneOf.
  - rewrite rev_app_distr. cbn [rev]. destruct (rev (version r)) as [|c v]; [reflexivity | assumption].
Qed.

Lemma requestText_line r : requestOk r = true -> noneOf [10] (requestText r) = true.
Proof. intros H. apply (lineText_clean _ _ _ (requestOk_line r H)). apply app_cons_ne. Qed.

Lemma parseRequestLine_text r :
  requestOk r = true -> zlen (requestText r) < npos ->
  parseRequestLine strict ip (requestText r) newRequestLine = Ret (false, r).
Proof.
  intros H Hl. pose proof (requestOk_line r H) as Hline. destruct (requestOk_url r H) as (u & t & Hu & Ht & Et & Hread & _ & Hlt & Hnt).
  unfold requestOk in H. bools. unfold requestText in *.
  rewrite parseRequestLine_parts, (scanRequestLine_parts _ _ (protocol r ++ 47 :: version r)) by (assumption || apply app_cons_ne). rewrite Et in *. unfold lineText in Hl.
  pose proof (zlen_cons_r _ _ _ (zlen_app_r _ _ _ Hl)) as Hl1. pose proof (zlen_cons_r _ _ _ (zlen_app_r _ _ _ Hl1)) as Hl2.
  rewrite (decodeUrl_text t u) by (assumption || reflexivity || exact (zlen_app_l _ _ _ Hl1)).
  rewrite bind_Ret. unfold parseVersion. change (str "/") with [47].
  rewrite matchText_eq, (breakIn_first [47] (protocol r) 47) by (exact Hl2 || reflexivity || sub_noneOf).
  assert ((zlen (protocol r) =? 0) = false) as ->.
  { match goal with E : eqNoCase _ _ = true |- _ => unfold eqNoCase in E; apply andb_prop in E as [E _]; apply Z.eqb_eq in E; rewrite E end. reflexivity. }
  cbn [mbind outcome_bind mret outcome_ret default from_option id]. destruct r as [ru m v p]. cbn in Hu |- *. now rewrite Hu.
Qed.

(** A line that was printed is read again into any other. *)
Lemma decodeRequestLine_again r r0 :
  requestOk r = true -> zlen (requestText r) + 2 < npos ->
  exists r', decodeRequestLine strict (requestText r ++ [13; 10]) ip r0 = Ret (false, r').
Proof.
  intros H Hl. pose proof (requestOk_line r H) as Hline. destruct (requestOk_url r H) as (u & t & Hu & Ht & Et & Hread & _ & Hlt & Hnt).
  unfold requestOk in H. bools.
  assert (requestText r ++ [13; 10] = lineText (method r) t (protocol r ++ 47 :: version r ++ [13; 10])) as ->
    by (unfold requestText, lineText; rewrite Et; repeat (rewrite <- app_assoc; cbn [app]); reflexivity).
  assert (zlen (lineText (method r) t (protocol r ++ 47 :: version r ++ [13; 10])) < npos) as Hl'
    by (unfold requestText, lineText in *; rewrite Et in Hl; repeat (rewrite ?zlen_app, ?zlen_cons in * ); change (zlen (@nil Z)) with 0; lia).
  rewrite Et in Hline. unfold decodeRequestLine. rewrite (scanRequestLine_parts _ _ _ _ _ Hline Hl'). unfold lineText in Hl'.
  pose proof (zlen_cons_r _ _ _ (zlen_app_r _ _ _ Hl')) as Hl1. pose proof (zlen_cons_r _ _ _ (zlen_app_r _ _ _ Hl1)) as Hl2.
  pose proof (zlen_app_l _ _ _ Hl1) as Hlt'. unfold decodeUrl. destruct (isSipUrl_returns t Hlt') as (b & ->). cbn [mbind outcome_bind].
  rewrite (decode_text strict ip u t Hread Ht Hlt'). cbn [mbind outcome_bind mret outcome_ret]. unfold parseVersion. change (str "/") with [47].
  rewrite matchText_eq, (breakIn_first [47] (protocol r) 47) by (exact Hl2 || reflexivity || sub_noneOf).
  assert ((zlen (protocol r) =? 0) = false) as ->.
  { match goal with E : eqNoCase _ _ = true |- _ => unfold eqNoCase in E; apply andb_prop in E as [E _]; apply Z.eqb_eq in E; rewrite E end. reflexivity. }
  cbn [mbind outcome_bind mret outcome_ret]. eexists. reflexivity.
Qed.

Lemma requestText_method r : requestOk r = true ->
  matchCharText [32; 9] (requestText r) = Ret (method r, 32, urlTextOf r ++ 32 :: protocol r ++ 47 :: version r).
Proof. intros H. exact (line_method _ _ _ (requestOk_line r H)). Qed.

Lemma isSipRequest_text r : requestOk r = true -> isSipRequest (urlTextOf r ++ 32 :: protocol r ++ 47 :: version r) = Ret true.
Proof.
  intros H. pose proof (requestOk_line r H) as Hline. unfold requestOk in H. bools.
  rewrite (line_sip _ _ _ _ Hline) by sub_noneOf. now match goal with E : eqNoCase _ _ = true |- _ => rewrite E end.
Qed.

(** * The line of a response *)

(** A line that is read as it is printed. *)
Definition statusOk (s : SipStatusLine) : bool :=
  bool_decide (statusProtocol s = str "SIP") && bool_decide (statusVersion s = str "2.0") && bool_decide (statusLine s = []) &&
  match toInt (statusCode s) with
  | Ret n => (100 <=? n) && (n <=? 700) && bool_decide (statusCode s = itoa n)
  | Fault _ => false
  end && noneOf [10] (reasonPhrase s).

Definition statusText (s : SipStatusLine) : bytes := str "SIP/2.0" ++ 32 :: statusCode s ++ 32 :: reasonPhrase s.

(** A default is found for every code, and it is only a reason. *)
Lemma setDefaultReason_returns fuel code s :
  (1 < fuel)%nat -> exists reason, setDefaultReason fuel code s = Ret (setReasonPhrase reason s).
Proof.
  intros Hf. destruct fuel as [|[|fuel]]; [lia|lia|]. cbn [setDefaultReason]. destruct (toInt_returns code) as (n & ->). cbn [mbind outcome_bind].
  destruct (findReason n statusCodes) as [reason|]; [eauto|]. set (info := List.hd 0 code).
  repeat match goal with
  | |- context [if info =? ?k then _ else _] => destruct (info =? k);
      [match goal with |- context [toInt ?c] => let v := eval vm_compute in (toInt c) in change (toInt c) with v end;
       cbn [mbind outcome_bind]; match goal with |- context [findReason ?c ?t] => let v := eval vm_compute in (findReason c t) in change (findReason c t) with v end;
       eauto|]
  end.
  exists (reasonPhrase s). now destruct s.
Qed.

Lemma setStatusCode_returns n s : exists reason,
  setStatusCode n s = Ret (mkStatusLine (itoa n) reason (statusVersion s) (statusProtocol s) (statusLine s)).
Proof. unfold setStatusCode. destruct (setDefaultReason_returns 2 (itoa n) (mkStatusLine (itoa n) (reasonPhrase s) (statusVersion s) (statusProtocol s) (statusLine s))) as (x & ->); [lia | eauto]. Qed.

Lemma statusCode_digits s n : statusCode s = itoa n -> 100 <= n <= 700 ->
  (0 <? zlen (statusCode s)) = true /\ noneOf [32; 10] (statusCode s) = true.
Proof.
  intros E Hn. destruct (SipViaProps.itoa_digits n) as [Hd Hne]; [lia|]. rewrite E. split.
  - destruct (itoa n); [congruence|]. apply zlen_cons_positive.
  - apply SipViaProps.digits_noneOf; [|exact Hd]. intros c. cbn. lia.
Qed.

Lemma statusOk_code s : statusOk s = true ->
  exists n, toInt (statusCode s) = Ret n /\ 100 <= n <= 700 /\ statusCode s = itoa n /\
    (0 <? zlen (statusCode s)) = true /\ noneOf [32; 10] (statusCode s) = true.
Proof.
  unfold statusOk. intros H. bools. destruct (toInt (statusCode s)) as [n|] eqn:E; [|discriminate]. bools.
  exists n. destruct (statusCode_digits s n) as [Hc1 Hc2]; [assumption | lia |]. repeat split; (assumption || lia).
Qed.

Lemma parseStatusLine_text s :
  statusOk s = true -> zlen (statusText s) < npos -> parseStatusLine strict (statusText s) newStatusLine = Ret s.
Proof.
  intros H Hl. destruct (statusOk_code s H) as (n & En & Hn & Ec & Hlc & Hnc). unfold statusOk in H. bools.
  unfold parseStatusLine, decodeStatusLine, scanSipStatusLine, statusText in *. change (str " ") with [32].
  pose proof (zlen_cons_r _ _ _ (zlen_app_r _ _ _ Hl)) as Hl1.
  assert (forall b, matchText [32] b (str "SIP/2.0" ++ 32 :: statusCode s ++ 32 :: reasonPhrase s) =
    Ret (FOUND, Some (str "SIP/2.0"), if b then statusCode s ++ 32 :: reasonPhrase s else str "SIP/2.0" ++ 32 :: statusCode s ++ 32 :: reasonPhrase s)) as E1.
  { intros b. now rewrite matchText_eq, (breakIn_first [32] (str "SIP/2.0") 32) by (exact Hl || reflexivity). }
  assert (matchText [32] true (statusCode s ++ 32 :: reasonPhrase s) = Ret (FOUND, Some (statusCode s), reasonPhrase s)) as E2.
  { rewrite matchText_eq, (breakIn_first [32] (statusCode s) 32) by (exact Hl1 || reflexivity || sub_noneOf). now rewrite nonzero. }
  rewrite !E1. cbn [mbind outcome_bind default from_option id].
  change (isprotocolSIP (str "SIP/2.0")) with (Ret true). cbn [mbind outcome_bind]. rewrite E2. cbn [mbind outcome_bind default from_option id].
  unfold isStatusCodes. rewrite En. cbn [mbind outcome_bind mret outcome_ret].
  assert ((100 <=? n) && (n <=? 700) = true) as -> by lia.
  change (parseStatusVersion (str "SIP/2.0") newStatusLine) with (Ret (mkStatusLine [] [] (str "2.0") (str "SIP") [])).
  cbn [mbind outcome_bind]. 
  destruct (setStatusCode_returns n (mkStatusLine [] [] (str "2.0") (str "SIP") [])) as (x & ->). cbn [mbind outcome_bind mret outcome_ret].
  destruct s as [c r v p l]. cbn in *. subst. reflexivity.
Qed.

(** * The first line of a message *)

Definition startOk (s : StartLine) : bool :=
  match s with
  | Request class r => is_method class (dataToMethod (method r)) && requestOk r
  | Response x => statusOk x
  end.

Definition startText (s : StartLine) : bytes := match s with Request _ r => requestText r | Response x => statusText x end.

Lemma encode_start s :
  startOk s = true ->
  match s with Request _ r => encodeRequestLine r | Response x => mret (encodeStatusLine x) end = Ret (startText s ++ [13; 10]).
Proof.
  destruct s as [class r|x]; cbn [startOk startText]; intros H; bools; [now apply encodeRequestLine_text|].
  unfold statusOk in H. bools. unfold encodeStatusLine, statusText.
  match goal with E : statusProtocol x = _ |- _ => rewrite E end. match goal with E : statusVersion x = _ |- _ => rewrite E end.
  change (str "SIP/2.0") with (str "SIP" ++ str "/" ++ str "2.0"). change (str " ") with [32]. cbn [mret outcome_ret].
  rewrite <- !app_assoc. cbn [app]. now rewrite <- !app_assoc.
Qed.

Lemma getLineText_line l r : noneOf [10] l = true -> getLineText (l ++ [13; 10] ++ r) = Ret (l, false, r).
Proof.
  intros H. rewrite getLineText_eq. change (l ++ [13; 10] ++ r) with (l ++ 13 :: 10 :: r).
  replace (l ++ 13 :: 10 :: r) with ((l ++ [13]) ++ 10 :: r) by (now rewrite <- app_assoc).
  rewrite (breakIn_first [10] (l ++ [13]) 10); [| rewrite noneOf_app, H; reflexivity | reflexivity].
  unfold chopCR. rewrite rev_app_distr. cbn [rev app]. now rewrite rev_involutive.
Qed.

Lemma statusText_line s : statusOk s = true -> noneOf [10] (statusText s) = true.
Proof.
  intros H. destruct (statusOk_code s H) as (n & _ & _ & _ & _ & Hn). unfold statusOk in H. bools. unfold statusText.
  rewrite noneOf_app, noneOf_cons, noneOf_app, noneOf_cons. cbn [isIn existsb Z.eqb Pos.eqb orb negb andb].
  change (noneOf [10] (str "SIP/2.0")) with true. cbn [andb]. apply andb_true_intro; split; sub_noneOf.
Qed.

Lemma statusText_method s :
  matchCharText [32; 9] (statusText s) = Ret (str "SIP/2.0", 32, statusCode s ++ 32 :: reasonPhrase s).
Proof. unfold statusText. now rewrite matchCharText_eq, (breakIn_first [32; 9] (str "SIP/2.0") 32) by reflexivity. Qed.

(** Whether an object is kept though an exception ended its constructor. *)
Definition keepsStart (s : StartLine) : bool := match s with Request class _ => keepsFailed class | Response _ => false end.

Lemma decodePrepared_start s rest :
  startOk s = true -> zlen (startText s ++ [13; 10] ++ rest) < npos ->
  decodePrepared (startText s ++ [13; 10] ++ rest) =
    ('(x, m) ← parseMsg strict isIp6 randomHex (Other := Other) ip rest (newMsg strict isIp6 randomHex (Other := Other) s);
     mret match x with Some _ => Some m | None => if keepsStart s then Some m else None end).
Proof.
  intros H Hl. pose proof (zlen_app_l _ _ _ Hl) as Hls. unfold SipMessage.decodePrepared.
  destruct s as [class r|x]; cbn [startOk startText keepsStart] in *; bools.
  - rewrite getLineText_line by (now apply requestText_line). cbn [mbind outcome_bind].
    rewrite requestText_method by assumption. cbn [mbind outcome_bind].
    assert (is_method (dataToMethod (method r)) SIP_STATUS = false) as Em by (match goal with E : requestOk r = true |- _ => unfold requestOk in E end; bools; assumption).
    rewrite Em, isSipRequest_text by assumption. cbn [mbind outcome_bind].
    subst class. unfold newCommand, decodeCommand. rewrite getLineText_line by (now apply requestText_line). cbn [mbind outcome_bind].
    rewrite parseRequestLine_text by assumption. cbn [mbind outcome_bind].
    destruct (parseMsg _ _ _ _ _ _) as [[[e|] m]|f]; reflexivity.
  - rewrite getLineText_line by (now apply statusText_line). cbn [mbind outcome_bind].
    rewrite statusText_method. cbn [mbind outcome_bind].
    change (is_method (dataToMethod (str "SIP/2.0")) SIP_STATUS) with true. cbn [mbind outcome_bind mret outcome_ret].
    unfold newStatusMsg, decodeStatus. rewrite getLineText_line by (now apply statusText_line). cbn [mbind outcome_bind].
    rewrite parseStatusLine_text by assumption. cbn [mbind outcome_bind].
    destruct (parseMsg _ _ _ _ _ _) as [[[e|] m]|f]; reflexivity.
Qed.

End Messages.

End SipMessageFacts.
