(* ===== verification/SipMessageProps.v ===== *)
(** The properties of messages: a message in the form in which it is printed is
    read and printed as it was, and what the reader does with any text. *)
From S2P Require Import Prelude DataStr DataStrFacts DataStrText SipHeap SipText SipViaHdr SipViaProps SipRaw SipRawFacts SipRawProps SipFields SipParsed SipUser SipUri SipUriFacts SipUriProps SipBaseUrl SipAddr SipAddrFacts SipAddrProps SipAddrHeaders SipContent SipContentFacts SipContentProps SipStartLine SipMessage SipMessageFacts.
Import SipHeap DataStr DataStrFacts DataStrText SipText SipRaw Raw Container SipRawFacts SipRawProps SipUriFacts SipUriProps.
Import SipAddrHeaders SipContent SipContentFacts SipContentProps SipStartLine SipMessage SipMessageFacts.
Import SipParsed(starts, starts_long, clean_ip) SipBaseUrl(BaseUrl(..)).

Module SipMessageProps.

(** * The first header of a type *)

Section Chains.
Context {SH : SipHeaderClass} (ip : bytes).

Definition print (x : chain) (msg : bytes) : bytes := match x with [] => msg | h :: next => Raw.encode h next msg end.

(** The headers of a type, with the one that is made when there is none. *)
Definition chainOr (t : SipHeaderType) (x : chain) : chain := match x with [] => [emptyHeader t ip] | _ => x end.

(** The first header with its parsed form. *)
Definition settled (t : SipHeaderType) (p : SipHeader) (x : chain) : chain :=
  match chainOr t x with raw :: next => setHeader (Some p) raw :: next | [] => [] end.

(** The container with the first header of a type parsed. *)
Definition settle (t : SipHeaderType) (p : SipHeader) (c : container) : container := upd t (settled t p (slot c t)) c.

(** The first header of the type is read as [p], which is printed as it was. *)
Record Settles (t : SipHeaderType) (x : chain) (p : SipHeader) : Prop := {
  settles_parse : exists raw next, chainOr t x = raw :: next /\ parse raw = Ret (setHeader (Some p) raw);
  settles_print : forall msg, print (settled t p x) msg = print x msg
}.

Lemma getParsed_first t c raw next raw' p :
  wf c -> slot c t = raw :: next -> parse raw = Ret raw' -> header raw' = Some p ->
  getParsedHeader t ip 0 c = Ret (upd t (raw' :: next) c, Some p).
Proof.
  intros Hc Hs Hp Hh. unfold getParsedHeader, getHeaderOrCreate. rewrite at_slot by exact Hc. cbn [mbind outcome_bind].
  change (0 <=? 0) with true. cbv iota. change (Z.to_nat 0) with 0%nat. rewrite Hs. cbn [createTo].
  rewrite set_upd by exact Hc. cbn [mbind outcome_bind mret outcome_ret]. rewrite at_slot, slot_upd by (exact Hc || now apply wf_upd).
  cbn [mbind outcome_bind lookup list_lookup deref]. rewrite Hp. cbn [mbind outcome_bind].
  rewrite set_upd by now apply wf_upd. cbn [mbind outcome_bind mret outcome_ret insert list_insert]. now rewrite upd_same, Hh.
Qed.

Lemma getParsed_fault t c raw next f :
  wf c -> slot c t = raw :: next -> parse raw = Fault f -> getParsedHeader t ip 0 c = Fault f.
Proof.
  intros Hc Hs Hp. unfold getParsedHeader, getHeaderOrCreate. rewrite at_slot by exact Hc. cbn [mbind outcome_bind].
  change (0 <=? 0) with true. cbv iota. change (Z.to_nat 0) with 0%nat. rewrite Hs. cbn [createTo].
  rewrite set_upd by exact Hc. cbn [mbind outcome_bind mret outcome_ret]. rewrite at_slot, slot_upd by (exact Hc || now apply wf_upd).
  cbn [mbind outcome_bind lookup list_lookup deref]. now rewrite Hp.
Qed.

Lemma encodeTypes_same types c d :
  wf c -> wf d -> (forall t msg, print (slot d t) msg = print (slot c t) msg) -> forall msg, encodeTypes types d msg = encodeTypes types c msg.
Proof.
  intros Hc Hd H. induction types as [|t types IH]; intros msg; [reflexivity|]. cbn [encodeTypes].
  rewrite !at_slot by assumption. cbn [mbind outcome_bind]. specialize (H t msg). unfold print in H. rewrite H. apply IH.
Qed.

(** Types that have a line for each header. *)
Lemma Settles_line t x p :
  listType t = false -> t <> SIP_UNKNOWN_HDR ->
  match x with
  | [] => decodeHeader t [] ip = Ret (Some p) /\ encodeHeader p = []
  | h :: _ => Clean ip t h /\ decodeHeader t (headerValue h) ip = Ret (Some p) /\
      encodeHeader p = oneLine (headerTypeEncode t) (headerValue h) ++ [13; 10]
  end -> Settles t x p.
Proof.
  intros Hl Ht H. destruct x as [|h next].
  - destruct H as [Hd He]. split.
    + exists (emptyHeader t ip), []. split; [reflexivity|]. unfold parse. cbn [header emptyHeader SipRaw.Raw.setType newRaw headerType headerValue local_ip].
      now rewrite Hd.
    + intros msg. unfold settled, print, Raw.encode. cbn [chainOr headerType setHeader emptyHeader SipRaw.Raw.setType newRaw]. rewrite Hl. cbn [fold_left].
      unfold encodeShallowPutsName. cbn [header setHeader]. now rewrite He, app_nil_r.
  - destruct H as (Hc & Hd & He). split.
    + exists h, next. split; [reflexivity|]. unfold parse. rewrite (clean_raw _ _ _ Hc), (clean_type _ _ _ Hc), (clean_ip _ _ _ Hc), Hd. reflexivity.
    + intros msg. unfold settled, print, Raw.encode. cbn [chainOr headerType setHeader]. rewrite (clean_type _ _ _ Hc), Hl.
      f_equal. rewrite (encodeShallowPutsName_clean ip t h msg Hc). unfold encodeShallowPutsName. cbn [header setHeader].
      now rewrite He, (clean_known _ _ _ Hc Ht).
Qed.

Lemma settle_slot t p c u : t <> u -> slot (settle t p c) u = slot c u.
Proof. apply slot_upd_ne. Qed.

Lemma wf_settle t p c : wf c -> wf (settle t p c).
Proof. apply wf_upd. Qed.

Lemma settle_print t p c : wf c -> Settles t (slot c t) p -> forall u msg, print (slot (settle t p c) u) msg = print (slot c u) msg.
Proof.
  intros Hc Hs u msg. destruct (decide (t = u)) as [<- | Hn]; [|now rewrite settle_slot].
  unfold settle. rewrite slot_upd by exact Hc. apply Hs.
Qed.

(** The parsed first header of a type. *)
Lemma settle_first t p c : wf c -> Settles t (slot c t) p ->
  exists raw next, slot (settle t p c) t = raw :: next /\ header raw = Some p.
Proof.
  intros Hc [(raw & next & E & _) _]. unfold settle. rewrite slot_upd by exact Hc. unfold settled. rewrite E. eauto.
Qed.

End Chains.

Section Messages.
Context (strict : bool) (isIp6 : bytes -> bool) (randomHex : bytes) {Other : SipHeaderClass} (ip : bytes).

#[local] Instance messageClasses : SipHeaderClass := classes strict isIp6 randomHex (Other := Other).

Abbreviation decodeMsg := (decodeMsg strict isIp6 randomHex (Other := Other) ip).
Abbreviation encodeMsg := (encodeMsg strict isIp6 randomHex (Other := Other) ip).
Abbreviation parseMime := (parseMime strict isIp6 randomHex (Other := Other) ip).
Abbreviation parsedHeader := (parsedHeader strict isIp6 randomHex (Other := Other) ip).
Abbreviation assignHeader := (assignHeader strict isIp6 randomHex (Other := Other) ip).
Abbreviation SipMsg := (SipMsg strict isIp6 randomHex (Other := Other)).

Abbreviation settle := (settle (SH := messageClasses) ip).
Abbreviation Settles := (Settles (SH := messageClasses) ip).

Ltac fold_classes := change (classes strict isIp6 randomHex (Other := Other)) with messageClasses in *.

Lemma parsedHeader_settles t c p :
  wf c -> Settles t (slot c t) p -> parsedHeader t c = Ret (settle t p c, Some p).
Proof.
  intros Hc [(raw & next & Hs & Hp) _]. unfold SipMessage.parsedHeader, getHeaderOrCreate. fold_classes. rewrite at_slot by exact Hc.
  cbn [mbind outcome_bind]. change (0 <=? 0) with true. cbv iota. change (Z.to_nat 0) with 0%nat.
  assert (createTo t ip 0 (slot c t) = chainOr ip t (slot c t)) as -> by reflexivity. rewrite set_upd by exact Hc.
  cbn [mbind outcome_bind mret outcome_ret]. unfold SipMessageProps.settle, settled. rewrite Hs.
  rewrite (getParsed_first ip t _ raw next (setHeader (Some p) raw) p); [now rewrite upd_same | now apply wf_upd | now apply slot_upd | exact Hp | reflexivity].
Qed.

Lemma assignHeader_same t f c raw next p :
  wf c -> slot c t = raw :: next -> header raw = Some p -> f p = Ret p -> assignHeader t f c = Ret c.
Proof.
  intros Hc Hs Hh Hf. unfold SipMessage.assignHeader. fold_classes.
  rewrite (getParsed_first ip t c raw next raw p); [| exact Hc | exact Hs | unfold parse; now rewrite Hh | exact Hh].
  rewrite <- Hs, upd_slot by exact Hc. cbn [mbind outcome_bind deref]. rewrite Hf. cbn [mbind outcome_bind].
  rewrite at_slot by exact Hc. cbn [mbind outcome_bind]. rewrite Hs, set_upd by exact Hc.
  assert (setHeader (Some p) raw = raw) as -> by (rewrite <- Hh; now destruct raw). now rewrite <- Hs, upd_slot.
Qed.

(** The headers of the body: a length, and a type and a disposition if any. *)
Definition bodyHeaders (c : container) : Prop :=
  match slot c SIP_CONTENT_LENGTH_HDR with [] => False | h :: _ => starts (headerValue h) = true end /\
  match slot c SIP_CONTENT_TYPE_HDR with [] => True | h :: _ => ContentValue SIP_CONTENT_TYPE_HDR (headerValue h) end /\
  match slot c SIP_CONTENT_DISPOSITION_HDR with [] => True | h :: _ => ContentValue SIP_CONTENT_DISPOSITION_HDR (headerValue h) end.

Lemma length_settles c :
  (forall t, Forall (Clean ip t) (slot c t)) -> bodyHeaders c ->
  exists len, Settles SIP_CONTENT_LENGTH_HDR (slot c SIP_CONTENT_LENGTH_HDR) (SipFields.FContentLength len).
Proof.
  intros Hx (H & _). specialize (Hx SIP_CONTENT_LENGTH_HDR). destruct (slot c SIP_CONTENT_LENGTH_HDR) as [|h next]; [contradiction|].
  exists (headerValue h). apply (Settles_line (SH := messageClasses) ip); [reflexivity | discriminate |]. inversion Hx as [|? ? Hh _]; subst. split; [exact Hh|].
  destruct (starts_long _ H) as (_ & Hz & He). split.
  - unfold decodeHeader. cbn [construct messageClasses classes full SipFields.stackHeaders SipFields.constructField].
    unfold SipFields.newText. now rewrite He.
  - cbn [encodeHeader messageClasses classes full SipFields.stackHeaders SipFields.encodeField]. unfold SipFields.encodeContentLength. now rewrite Hz.
Qed.

Abbreviation contentField h := (@SipFields.FOther (addresses strict (Other := contentHeaders strict (Other := Other))) (@HOther (contentHeaders strict (Other := Other)) h)).

(** How the two classes of the body are reached through the interface. *)
Lemma decodeHeader_type v : decodeHeader (SH := messageClasses) SIP_CONTENT_TYPE_HDR v ip =
  (t ← newContentType strict v; Ret (Some (contentField (HContentType t)))).
Proof.
  unfold decodeHeader. cbn [construct messageClasses classes full SipFields.stackHeaders SipFields.constructField addresses addressHeaders constructAddr contentHeaders constructContent].
  now destruct (newContentType strict v).
Qed.

Lemma decodeHeader_disposition v : decodeHeader (SH := messageClasses) SIP_CONTENT_DISPOSITION_HDR v ip =
  (d ← newContentDisposition strict v; Ret (Some (contentField (HDisposition d)))).
Proof.
  unfold decodeHeader. cbn [construct messageClasses classes full SipFields.stackHeaders SipFields.constructField addresses addressHeaders constructAddr contentHeaders constructContent].
  now destruct (newContentDisposition strict v).
Qed.

Lemma newContentType_empty : newContentType strict [] = Ret (mkContentType [] [] [] []).
Proof. reflexivity. Qed.

Lemma newContentDisposition_empty : newContentDisposition strict [] = Ret (mkDisposition [] [] [] []).
Proof. reflexivity. Qed.

Lemma encodeHeader_type t : encodeHeader (SipHeaderClass := messageClasses) (contentField (HContentType t)) =
  encodeContent strict (HContentType t).
Proof. reflexivity. Qed.

Lemma encodeHeader_disposition d : encodeHeader (SipHeaderClass := messageClasses) (contentField (HDisposition d)) = encodeDisposition d.
Proof. reflexivity. Qed.

Lemma type_settles c :
  (forall t, Forall (Clean ip t) (slot c t)) -> bodyHeaders c ->
  exists x, Settles SIP_CONTENT_TYPE_HDR (slot c SIP_CONTENT_TYPE_HDR) (contentField (HContentType x)) /\
    copyContentType x = Ret x /\ assignContentType x x = x.
Proof.
  intros Hx (_ & H & _). specialize (Hx SIP_CONTENT_TYPE_HDR). destruct (slot c SIP_CONTENT_TYPE_HDR) as [|h next].
  - exists (mkContentType [] [] [] []). split; [|split; reflexivity].
    apply (Settles_line (SH := messageClasses) ip); [reflexivity | discriminate |].
    rewrite decodeHeader_type, newContentType_empty, encodeHeader_type. now split.
  - inversion Hx as [|? ? Hh _]; subst. destruct (ContentValue_type_inv _ H) as (x & Hok & Hl & Ev). exists x. split.
    + apply (Settles_line (SH := messageClasses) ip); [reflexivity | discriminate |]. split; [exact Hh|]. rewrite Ev. split.
      * now rewrite decodeHeader_type, newContentType_text by (exact Hok || exact (zlen_app_r _ _ _ Hl)).
      * rewrite encodeHeader_type. cbn [encodeContent]. now rewrite encodeContentType_text by assumption.
    + unfold contentTypeOk in Hok. bools. unfold copyContentType, assignContentType. destruct x as [ty sub med par]. cbn [ctype subtype media params] in *. subst med.
      rewrite setType_lowered by assumption. cbn [mbind outcome_bind]. rewrite setSubType_lowered by assumption. now split.
Qed.

Lemma disposition_settles c :
  (forall t, Forall (Clean ip t) (slot c t)) -> bodyHeaders c ->
  exists d, Settles SIP_CONTENT_DISPOSITION_HDR (slot c SIP_CONTENT_DISPOSITION_HDR) (contentField (HDisposition d)).
Proof.
  intros Hx (_ & _ & H). specialize (Hx SIP_CONTENT_DISPOSITION_HDR). destruct (slot c SIP_CONTENT_DISPOSITION_HDR) as [|h next].
  - exists (mkDisposition [] [] [] []). apply (Settles_line (SH := messageClasses) ip); [reflexivity | discriminate |].
    rewrite decodeHeader_disposition, newContentDisposition_empty, encodeHeader_disposition. now split.
  - inversion Hx as [|? ? Hh _]; subst. destruct (ContentValue_disposition_inv _ H) as (d & Hok & Hl & Ev). exists d.
    apply (Settles_line (SH := messageClasses) ip); [reflexivity | discriminate |]. split; [exact Hh|]. rewrite Ev. split.
    + now rewrite decodeHeader_disposition, newContentDisposition_text by assumption.
    + now rewrite encodeHeader_disposition, encodeDisposition_text by assumption.
Qed.

(** The container with all three headers of the body parsed. *)
Definition settleBody (len : bytes) (ty : SipContentType) (d : SipContentDisposition) (c : container) : container :=
  settle SIP_CONTENT_DISPOSITION_HDR (contentField (HDisposition d))
    (settle SIP_CONTENT_TYPE_HDR (contentField (HContentType ty)) (settle SIP_CONTENT_LENGTH_HDR (SipFields.FContentLength len) c)).

Record SettlesBody (c : container) (len : bytes) (ty : SipContentType) (d : SipContentDisposition) : Prop := {
  body_wf : wf c;
  body_length : Settles SIP_CONTENT_LENGTH_HDR (slot c SIP_CONTENT_LENGTH_HDR) (SipFields.FContentLength len);
  body_type : Settles SIP_CONTENT_TYPE_HDR (slot c SIP_CONTENT_TYPE_HDR) (contentField (HContentType ty));
  body_disposition : Settles SIP_CONTENT_DISPOSITION_HDR (slot c SIP_CONTENT_DISPOSITION_HDR) (contentField (HDisposition d));
  body_copy : copyContentType ty = Ret ty;
  body_assign : assignContentType ty ty = ty
}.

Lemma parseMime_settles s c mime body len ty d :
  SettlesBody c len ty d ->
  parseMime body (mkMsg strict isIp6 randomHex (Other := Other) s c mime) =
    Ret (false, mkMsg strict isIp6 randomHex (Other := Other) s (settleBody len ty d c) (mkMime len ty d body)).
Proof.
  intros [Hc Hlen Hty Hd Hcopy _]. unfold SipMessage.parseMime, settleBody. cbn [myHeaderList startLine].
  rewrite (parsedHeader_settles _ c _ Hc Hlen). cbn [mbind outcome_bind asLength mret outcome_ret].
  rewrite (parsedHeader_settles _ (settle _ _ c) (contentField (HContentType ty))) by (repeat apply wf_settle; exact Hc || now rewrite !settle_slot).
  cbn [mbind outcome_bind asType mret outcome_ret]. rewrite Hcopy. cbn [mbind outcome_bind].
  rewrite (parsedHeader_settles _ (settle _ _ (settle _ _ c)) (contentField (HDisposition d))) by (repeat apply wf_settle; exact Hc || now rewrite !settle_slot).
  reflexivity.
Qed.

Lemma settleBody_slot len ty d c t :
  t <> SIP_CONTENT_LENGTH_HDR -> t <> SIP_CONTENT_TYPE_HDR -> t <> SIP_CONTENT_DISPOSITION_HDR -> slot (settleBody len ty d c) t = slot c t.
Proof. intros. unfold settleBody. now rewrite !settle_slot by congruence. Qed.

Lemma encode_settleBody len ty d c msg : SettlesBody c len ty d -> Container.encode (settleBody len ty d c) msg = Container.encode c msg.
Proof.
  intros [Hc Hlen Hty Hd _ _]. unfold Container.encode.
  apply (encodeTypes_same (SH := messageClasses)); [exact Hc | unfold settleBody; repeat apply wf_settle; exact Hc |]. intros u m. unfold settleBody.
  rewrite settle_print by (repeat apply wf_settle; exact Hc || now rewrite !settle_slot).
  rewrite settle_print by (repeat apply wf_settle; exact Hc || now rewrite !settle_slot). now rewrite settle_print.
Qed.

Lemma assign_settled t p c f : wf c -> Settles t (slot c t) p -> f p = Ret p ->
  forall c' : container, wf c' -> slot c' t = slot (settle t p c) t -> assignHeader t f c' = Ret c'.
Proof.
  intros Hc Hs Hf c' Hc' E. destruct (settle_first ip t p c Hc Hs) as (raw & next & Es & Fs).
  apply (assignHeader_same t f c' raw next p Hc'); [exact (eq_trans E Es) | exact Fs | exact Hf].
Qed.

(** A message whose headers the assignments leave as they are. *)
Lemma encodeBody_same s c len ty d body msg text :
  assignHeader SIP_CONTENT_LENGTH_HDR (setLength strict isIp6 randomHex (Other := Other) len) c = Ret c ->
  assignHeader SIP_CONTENT_TYPE_HDR (setType strict isIp6 randomHex (Other := Other) ty) c = Ret c ->
  assignHeader SIP_CONTENT_DISPOSITION_HDR (setDisposition strict isIp6 randomHex (Other := Other) d) c = Ret c ->
  Container.encode c msg = Ret text ->
  let m := mkMsg strict isIp6 randomHex (Other := Other) s c (mkMime len ty d body) in
  encodeBody strict isIp6 randomHex (Other := Other) ip msg m = Ret (text ++ [13; 10] ++ body, m).
Proof.
  intros H1 H2 H3 He m. unfold encodeBody, m. cbn [myHeaderList myMimeList contentLength contentType contentDisposition].
  rewrite H1, bind_Ret, H2, bind_Ret, H3, bind_Ret. fold_classes. rewrite He, bind_Ret. unfold encodeMime. cbn [mimeData].
  destruct (Z.eqb_spec (zlen body) 0) as [E|E]; cbn [negb app]; [|reflexivity].
  destruct body; [reflexivity|]. rewrite zlen_cons in E. pose proof (zlen_nonneg body). lia.
Qed.

Lemma encodeBody_settles s c body len ty d msg :
  SettlesBody c len ty d -> (forall t, Forall (Clean ip t) (slot c t)) ->
  let m := mkMsg strict isIp6 randomHex (Other := Other) s (settleBody len ty d c) (mkMime len ty d body) in
  encodeBody strict isIp6 randomHex (Other := Other) ip msg m = Ret (msg ++ headersText c ++ [13; 10] ++ body, m).
Proof.
  intros Hs Hx m. pose proof Hs as [Hc Hlen Hty Hd _ Hassign]. rewrite app_assoc.
  assert (wf (settleBody len ty d c)) as Hw by (unfold settleBody; repeat apply wf_settle; exact Hc).
  apply encodeBody_same.
  - apply (assign_settled _ _ c _ Hc Hlen); [reflexivity | exact Hw |]. unfold settleBody. now do 2 rewrite settle_slot by discriminate.
  - apply (assign_settled SIP_CONTENT_TYPE_HDR (contentField (HContentType ty)) (settle SIP_CONTENT_LENGTH_HDR (SipFields.FContentLength len) c));
      [now apply wf_settle | now rewrite settle_slot | | exact Hw | unfold settleBody; now rewrite settle_slot by discriminate].
    unfold setType. cbn [asType mbind outcome_bind mret outcome_ret]. now rewrite Hassign.
  - apply (assign_settled SIP_CONTENT_DISPOSITION_HDR (contentField (HDisposition d))
      (settle SIP_CONTENT_TYPE_HDR (contentField (HContentType ty)) (settle SIP_CONTENT_LENGTH_HDR (SipFields.FContentLength len) c)));
      [now repeat apply wf_settle | now rewrite !settle_slot | reflexivity | exact Hw | reflexivity].
  - exact (eq_trans (encode_settleBody len ty d c msg Hs) (encode_headersText ip c msg Hc Hx)).
Qed.

Lemma bodyHeaders_settles c :
  wf c -> (forall t, Forall (Clean ip t) (slot c t)) -> bodyHeaders c -> exists len ty d, SettlesBody c len ty d.
Proof.
  intros Hc Hx Hb. destruct (length_settles c Hx Hb) as (len & Hlen), (type_settles c Hx Hb) as (ty & Hty & Hcopy & Hassign),
    (disposition_settles c Hx Hb) as (d & Hd). exists len, ty, d. now split.
Qed.

(** C11: a message is printed as it was read.  For every first line of a request
    or a response and every list of headers in the form in which they are
    printed, among them the length of the body, and any body, if the text has
    no folded line and no blank at its ends: the text is read as a message with
    this first line and this body, whose headers that do not describe the body
    are kept as they are, and printing the message gives the text again. *)
Theorem message_roundtrip s c body :
  startOk ip s = true -> wf c -> (forall t, Forall (Clean ip t) (slot c t)) -> bodyHeaders c ->
  let text := startText s ++ [13; 10] ++ headersText c ++ [13; 10] ++ body in
  framed text = true -> zlen text < npos ->
  exists m, decodeMsg text = Ret (Some m) /\ startLine _ _ _ m = s /\ mimeData (myMimeList _ _ _ m) = body /\
    (forall t, t <> SIP_CONTENT_LENGTH_HDR -> t <> SIP_CONTENT_TYPE_HDR -> t <> SIP_CONTENT_DISPOSITION_HDR ->
       slot (myHeaderList _ _ _ m) t = slot c t) /\
    encodeMsg m = Ret (text, m).
Proof.
  intros Hs Hc Hx Hb text Hf Hl. destruct (bodyHeaders_settles c Hc Hx Hb) as (len & ty & d & Hbody).
  exists (mkMsg strict isIp6 randomHex (Other := Other) s (settleBody len ty d c) (mkMime len ty d body)).
  split; [|split; [reflexivity | split; [reflexivity | split; [intros; now apply settleBody_slot|]]]].
  - rewrite decodeMsg_prepared, prepare_framed by assumption. unfold text in *. rewrite decodePrepared_start by assumption.
    unfold parseMsg, newMsg. cbn [myHeaderList]. fold_classes. rewrite decode_headersText, bind_Ret by assumption.
    unfold setHeaders. cbn [startLine myMimeList]. rewrite (parseMime_settles s c newMime body len ty d Hbody). reflexivity.
  - unfold SipMessage.encodeMsg. cbn [startLine]. rewrite (encode_start ip s Hs), bind_Ret, (encodeBody_settles s c body len ty d _ Hbody Hx).
    unfold text. now rewrite <- app_assoc.
Qed.

End Messages.

(** * Samples *)

#[local] Instance sampleClasses : SipHeaderClass := classes true (fun _ => false) [] (Other := textHeaders).

Definition sampleRequest : SipRequestLine :=
  mkRequestLine (Some (ASipUrl (sampleUrl "bob" "b"))) (str "INVITE") (str "2.0") (str "SIP").

Definition sampleMessage : container :=
  upd SIP_VIA_HDR [named [] (str "Via") (str "SIP/2.0/UDP a:5060")] (upd SIP_CALLID_HDR [named [] (str "Call-ID") (str "1@h")]
    (upd SIP_CONTENT_TYPE_HDR [named [] (str "Content-Type") (str "text/plain; charset=utf-8")]
      (upd SIP_CONTENT_LENGTH_HDR [named [] (str "Content-Length") (str "4")] newContainer))).

Definition sampleText : bytes := startText (Request SIP_INVITE sampleRequest) ++ [13; 10] ++ headersText sampleMessage ++ [13; 10] ++ str "body".

Lemma message_roundtrip_witness :
  exists m, decodeMsg true (fun _ => false) [] (Other := textHeaders) [] sampleText = Ret (Some m) /\
    startLine _ _ _ m = Request SIP_INVITE sampleRequest /\ mimeData (myMimeList _ _ _ m) = str "body" /\
    (forall t, t <> SIP_CONTENT_LENGTH_HDR -> t <> SIP_CONTENT_TYPE_HDR -> t <> SIP_CONTENT_DISPOSITION_HDR ->
       slot (myHeaderList _ _ _ m) t = slot sampleMessage t) /\
    encodeMsg true (fun _ => false) [] (Other := textHeaders) [] m = Ret (sampleText, m).
Proof.
  apply (message_roundtrip true (fun _ => false) [] (Other := textHeaders) [] (Request SIP_INVITE sampleRequest) sampleMessage (str "body")).
  - vm_compute. reflexivity.
  - reflexivity.
  - intros t. destruct t; try apply List.Forall_nil; cbn [slot]; repeat apply List.Forall_cons; try apply List.Forall_nil;
      (constructor; (reflexivity || (intros; congruence))).
  - split; [vm_compute; reflexivity|]. split; [|exact I].
    exact (ContentValue_type (mkContentType (str "text") (str "plain") [] [(str "charset", str "utf-8")]) eq_refl eq_refl).
  - vm_compute. reflexivity.
  - vm_compute. reflexivity.
Defined.

(** A loose router in the line of a request is printed twice, and so it is not
    read back: the parameter is printed with the URL and once more behind it. *)
Definition looseRequest : SipRequestLine :=
  mkRequestLine (Some (ASipUrl (SipUri.setHostField (str "proxy") (SipUri.emptyUrl [] true)))) (str "INVITE") (str "2.0") (str "SIP").

Example loose_router_lost :
  encodeRequestLine looseRequest = Ret (str "INVITE sip:proxy;lr;lr SIP/2.0" ++ [13; 10]) /\
  exists r u, decodeRequestLine true (str "INVITE sip:proxy;lr;lr SIP/2.0") [] newRequestLine = Ret (false, r) /\
    requestUrl r = Some (ASipUrl u) /\ SipUri.lrParam u = false.
Proof. split; [vm_compute; reflexivity|]. eexists _, _. split; [vm_compute; reflexivity|]. split; reflexivity. Qed.

(** A body with a line that begins with a blank is not what was sent: the
    message is read as if the line had been joined to the one before. *)
Example folded_body_changed :
  let headers := str "ACK sip:b SIP/2.0" ++ [13; 10; 13; 10] in
  let read := decodeMsg true (fun _ => false) [] (Other := textHeaders) [] in
  read (headers ++ str "a" ++ [13; 10] ++ str " b  ") = read (headers ++ str "a   b").
Proof. cbv zeta. rewrite !decodeMsg_prepared by reflexivity. reflexivity. Qed.

(** The line of a response without a reason is not read: the response has no
    status code. *)
Example status_without_reason : parseStatusLine true (str "SIP/2.0 200") newStatusLine = Ret newStatusLine.
Proof. reflexivity. Qed.

End SipMessageProps.
