(* ===== verification/SipMessageSafe.v ===== *)
(** Messages: what the reader does with any text from the network.  It returns
    or, in strict mode, ends the program; and texts for which it does. *)
From S2P Require Import Prelude DataStr DataStrFacts DataStrText SipHeap SipText SipViaHdr SipViaFacts SipViaProps SipRaw SipRawFacts SipRawProps SipFields SipParsed SipUser SipUri SipUriFacts SipUriProps SipBaseUrl SipAddr SipAddrFacts SipAddrProps SipAddrHeaders SipContent SipContentFacts SipContentProps SipStartLine SipMessage SipMessageFacts SipMessageProps.
Import SipHeap DataStr DataStrFacts DataStrText SipText SipRaw Raw Container SipRawFacts SipRawProps SipUriFacts SipUriProps.
Import SipAddrHeaders SipContent SipContentFacts SipContentProps SipStartLine SipMessage SipMessageFacts SipMessageProps.
Import SipViaFacts.
Import SipAddrProps(sound, sound_seq, sound_throws, decode_sound).

Module SipMessageSafe.

(** * Containers of headers that are not parsed *)

Section Raw.
Context {SH : SipHeaderClass}.

(** A text header of the type. *)
Definition rawHeader (t : SipHeaderType) (h : SipRawHeader) : Prop :=
  headerType h = t /\ header h = None /\ zlen (headerValue h) < npos.

Definition rawContainer (c : container) : Prop := wf c /\ forall t, Forall (rawHeader t) (slot c t).

Lemma zlen_dropIn m l : zlen (dropIn m l) <= zlen l.
Proof. pose proof (dropIn_length m l). unfold zlen. lia. Qed.

Lemma zlen_trimEnd l : zlen (trimEnd l) <= zlen l.
Proof. pose proof (trimEnd_length l). unfold zlen. lia. Qed.

Lemma zlen_breakIn m l b c r : breakIn m l = Some (b, c, r) -> zlen b <= zlen l /\ zlen r < zlen l.
Proof. intros E. destruct (breakIn_Some _ _ _ _ _ E) as [-> _]. rewrite zlen_app, zlen_cons. pose proof (zlen_nonneg b). pose proof (zlen_nonneg r). lia. Qed.

Lemma zlen_breakOutside uq ua m st l b r : breakOutside uq ua m st l = Some (b, r) -> zlen b <= zlen l /\ zlen r < zlen l.
Proof.
  intros E. destruct (breakOutside_Some _ _ _ _ _ _ _ E) as (c & -> & _). rewrite zlen_app, zlen_cons.
  pose proof (zlen_nonneg b). pose proof (zlen_nonneg r). lia.
Qed.

Lemma Splits_fit v vs : Splits v vs -> Forall (fun w => zlen w <= zlen v) vs.
Proof.
  induction 1 as [v E | v b r vs E Hb Hs IH | v b r vs E Hb Hs IH].
  - repeat constructor. lia.
  - destruct (zlen_breakOutside _ _ _ _ _ _ _ E). constructor; [lia|]. revert IH. apply Forall_impl. intros w Hw.
    pose proof (zlen_trimEnd (dropIn [32] (dropIn (str ",") r))). pose proof (zlen_dropIn [32] (dropIn (str ",") r)).
    pose proof (zlen_dropIn (str ",") r). lia.
  - destruct (zlen_breakOutside _ _ _ _ _ _ _ E). revert IH. apply Forall_impl. intros w Hw. pose proof (zlen_dropIn (str ",") r). lia.
Qed.

Lemma HeaderLine_raw ip line y :
  HeaderLine ip line y -> zlen line < npos -> exists h next, y = h :: next /\ Forall (rawHeader (headerType h)) y.
Proof.
  intros [n x r E Hm | n x r vs E Hm Hs] Hl; destruct (zlen_breakIn _ _ _ _ _ E) as [_ Hr]; pose proof (zlen_dropIn separators r).
  - do 2 eexists. split; [reflexivity|]. repeat constructor. cbn [headerValue named]. lia.
  - pose proof (Splits_fit _ _ Hs) as Hf. pose proof (Splits_nonempty _ _ Hs) as Hne. destruct vs as [|v vs]; [congruence|].
    inversion Hf as [|? ? Hv Hvs]; subst. do 2 eexists. split; [reflexivity|]. constructor.
    + repeat split. cbn [headerValue setValue]. lia.
    + apply Forall_map. revert Hvs. apply Forall_impl. intros w Hw. repeat split. cbn. lia.
Qed.

Lemma rawContainer_new : rawContainer newContainer.
Proof. split; [exact wf_new|]. intros t. rewrite slot_new. constructor. Qed.

Lemma rawContainer_add h next c :
  rawContainer c -> Forall (rawHeader (headerType h)) (h :: next) -> rawContainer (add (h :: next) c).
Proof.
  intros [Hc Hx] Hy. split; [now apply wf_add|]. intros t. cbn [add]. destruct (decide (headerType h = t)) as [<- | Hn].
  - rewrite slot_upd by exact Hc. now apply Forall_app.
  - now rewrite slot_upd_ne.
Qed.

Lemma chopCR_part l : part (chopCR l) l.
Proof.
  pose proof (crState_chop l) as H. destruct (crState l); try (rewrite H; reflexivity). transitivity (chopCR l ++ [13]); [apply part_app_l | now rewrite <- H].
Qed.

Lemma zlen_chopCR l : zlen (chopCR l) <= zlen l.
Proof. apply chopCR_part. Qed.

Lemma Reads_raw ip t c e c' rest :
  Reads ip t c e c' rest -> zlen t < npos -> rawContainer c -> rawContainer c' /\ zlen rest < npos.
Proof.
  induction 1 as [t c E | t c b x r E Hb | t c b x r E Hb Hs | t c b x r y e c' rest E Hb Hy Hr IH]; intros Hl Hc.
  - now split.
  - destruct (zlen_breakIn _ _ _ _ _ E). split; [exact Hc | lia].
  - destruct (zlen_breakIn _ _ _ _ _ E). split; [exact Hc | lia].
  - destruct (zlen_breakIn _ _ _ _ _ E). pose proof (zlen_chopCR b). destruct (HeaderLine_raw _ _ _ Hy) as (h & next & -> & Hh); [lia|].
    apply IH; [lia | now apply rawContainer_add].
Qed.

(** A block of headers is read into a container of text headers. *)
Lemma decode_raw ip text :
  zlen text < npos ->
  exists e c rest, Container.decode ip text newContainer = Ret (e, c, rest) /\ rawContainer c /\ zlen rest < npos.
Proof.
  intros Hl. destruct (Reads_exists ip text newContainer wf_new) as (e & c & rest & Hr & _). exists e, c, rest.
  split; [apply decodeLoop_Reads; [exact Hr | exact wf_new | lia]|]. exact (Reads_raw _ _ _ _ _ _ Hr Hl rawContainer_new).
Qed.

End Raw.

Lemma throws_outcome {A} strict (x : A) :
  SipFields.throws strict x = Ret x \/ (strict = true /\ SipFields.throws strict x = Fault Exception).
Proof. destruct strict; [right | left]; repeat split. Qed.

Section Messages.
Context (strict : bool) (isIp6 : bytes -> bool) (randomHex : bytes) {Other : SipHeaderClass} (ip : bytes).

#[local] Instance safeClasses : SipHeaderClass := classes strict isIp6 randomHex (Other := Other).
Ltac fold_classes := change (classes strict isIp6 randomHex (Other := Other)) with safeClasses in *.

Abbreviation decodeMsg := (decodeMsg strict isIp6 randomHex (Other := Other) ip).
Abbreviation parsedHeader := (parsedHeader strict isIp6 randomHex (Other := Other) ip).

(** [m] returns what satisfies [Q], or ends the program in strict mode. *)
Definition safe {A} (Q : A -> Prop) (m : outcome A) : Prop :=
  match m with Ret x => Q x | Fault f => strict = true /\ (f = AssertFailed \/ f = Unexpected) end.

Lemma safe_bind {A B} (P : A -> Prop) (Q : B -> Prop) (m : outcome A) (k : A -> outcome B) :
  safe P m -> (forall x, P x -> safe Q (k x)) -> safe Q (m ≫= k).
Proof. destruct m as [x|f]; cbn; auto. Qed.

(** * The headers of the body *)

(** What the class of a type makes of a value: a header of the class, or it
    aborts or throws in strict mode. *)
Definition constructs (t : SipHeaderType) (P : SipHeader -> Prop) : Prop :=
  forall v ip', zlen v < npos ->
    match decodeHeader t v ip' with
    | Ret (Some p) => P p
    | Ret None => False
    | Fault f => strict = true /\ (f = AssertFailed \/ f = Exception)
    end.

Lemma chainOr_raw t x : Forall (rawHeader t) x -> exists raw next, chainOr ip t x = raw :: next /\ rawHeader t raw.
Proof.
  intros Hx. destruct x as [|h x]; cbn [chainOr].
  - do 2 eexists. split; [reflexivity|]. repeat split.
  - inversion Hx; subst. eauto.
Qed.

Lemma parsedHeader_safe t c P :
  wf c -> Forall (rawHeader t) (slot c t) -> constructs t P ->
  safe (fun '(c', o) => wf c' /\ (forall u, t <> u -> slot c' u = slot c u) /\ match o with Some p => P p | None => True end) (parsedHeader t c).
Proof.
  intros Hc Hx Hp. unfold SipMessage.parsedHeader, getHeaderOrCreate. fold_classes. rewrite at_slot by exact Hc. cbn [mbind outcome_bind].
  change (0 <=? 0) with true. cbv iota. change (Z.to_nat 0) with 0%nat. rewrite set_upd by exact Hc. cbn [mbind outcome_bind mret outcome_ret].
  destruct (chainOr_raw t (slot c t) Hx) as (raw & next & E & Ht & Hh & Hv).
  change (createTo t ip 0 (slot c t)) with (chainOr ip t (slot c t)).
  rewrite E. set (c1 := upd t (raw :: next) c). assert (wf c1) as W1 by (now apply wf_upd). assert (slot c1 t = raw :: next) as S1 by (now apply slot_upd).
  assert (forall x u, t <> u -> slot (upd t x c1) u = slot c u) as Hn by (intros x u Hu; unfold c1; rewrite !slot_upd_ne by exact Hu; reflexivity).
  assert (forall u, t <> u -> slot c1 u = slot c u) as Hn1 by (intros u Hu; unfold c1; rewrite slot_upd_ne by exact Hu; reflexivity).
  specialize (Hp (headerValue raw) (local_ip raw) Hv).
  assert (parse raw = (p ← decodeHeader t (headerValue raw) (local_ip raw); mret (setHeader p raw))) as Er
    by (unfold parse; now rewrite Hh, Ht).
  destruct (decodeHeader t (headerValue raw) (local_ip raw)) as [[p|]|f].
  - rewrite (getParsed_first ip t c1 raw next (setHeader (Some p) raw) p W1 S1 Er eq_refl).
    cbn [safe mret outcome_ret]. split; [now apply wf_upd|]. split; [apply Hn | exact Hp].
  - contradiction.
  - rewrite (getParsed_fault ip t c1 raw next f W1 S1 Er). destruct Hp as [Hst [-> | ->]]; cbn [caught]; [cbn; auto|].
    cbn [safe mret outcome_ret]. split; [exact W1|]. split; [exact Hn1 | exact I].
Qed.

Lemma constructs_length : constructs SIP_CONTENT_LENGTH_HDR (fun p => exists l, p = SipFields.FContentLength l).
Proof. intros v ip' Hl. cbn. eauto. Qed.

Lemma constructs_type : constructs SIP_CONTENT_TYPE_HDR (fun p => exists t, asType strict isIp6 randomHex p = Ret t).
Proof.
  intros v ip' Hl. unfold decodeHeader.
  cbn [construct safeClasses classes full SipFields.stackHeaders SipFields.constructField addresses addressHeaders constructAddr contentHeaders constructContent].
  destruct (newContentType_returns strict v Hl) as [(t & ->) | (Hs & ->)]; cbn; eauto.
Qed.

Lemma constructs_disposition : constructs SIP_CONTENT_DISPOSITION_HDR (fun p => exists d, asDisposition strict isIp6 randomHex p = Ret d).
Proof.
  intros v ip' Hl. unfold decodeHeader.
  cbn [construct safeClasses classes full SipFields.stackHeaders SipFields.constructField addresses addressHeaders constructAddr contentHeaders constructContent].
  pose proof (newContentDisposition_sound strict v Hl) as H. destruct (newContentDisposition strict v) as [d|f]; cbn; [eauto|].
  destruct H as [-> ->]. auto.
Qed.

(** ** The body *)

Lemma parseMime_safe body m : rawContainer (myHeaderList _ _ _ m) ->
  safe (fun _ => True) (parseMime strict isIp6 randomHex (Other := Other) ip body m).
Proof.
  intros [Hc Hx]. unfold parseMime.
  apply (safe_bind _ _ _ _ (parsedHeader_safe _ _ _ Hc (Hx SIP_CONTENT_LENGTH_HDR) constructs_length)).
  intros [c1 [p1|]] (W1 & S1 & H1); [|exact I]. destruct H1 as (l & ->). cbn [asLength]. rewrite bind_Ret.
  apply (safe_bind _ _ _ _ (parsedHeader_safe SIP_CONTENT_TYPE_HDR c1 _ W1 ltac:(rewrite S1 by discriminate; apply Hx) constructs_type)).
  intros [c2 [p2|]] (W2 & S2 & H2); [|exact I]. destruct H2 as (t & ->). rewrite bind_Ret.
  unfold copyContentType. destruct (setType_returns (ctype t) (mkContentType (ctype t) (subtype t) [] (params t))) as (t1 & ->). rewrite bind_Ret.
  destruct (setSubType_returns (subtype t1) t1) as (t2 & ->). rewrite bind_Ret.
  apply (safe_bind _ _ _ _ (parsedHeader_safe SIP_CONTENT_DISPOSITION_HDR c2 _ W2 ltac:(rewrite S2, S1 by discriminate; apply Hx) constructs_disposition)).
  intros [c3 [p3|]] (W3 & S3 & H3); [|exact I]. destruct H3 as (d & ->). exact I.
Qed.

Lemma parseMsg_safe text s :
  zlen text < npos ->
  safe (fun _ => True) (parseMsg strict isIp6 randomHex (Other := Other) ip text (newMsg strict isIp6 randomHex (Other := Other) s)).
Proof.
  intros Hl. unfold parseMsg, newMsg. cbn [myHeaderList]. destruct (decode_raw (SH := safeClasses) ip text Hl) as (e & c & rest & E & Hc & _).
  fold_classes. rewrite E, bind_Ret. apply (safe_bind (fun _ => True)); [now apply parseMime_safe | now intros [threw m] _].
Qed.

(** * The first lines *)

Lemma matchSpace_parts l : zlen l < npos ->
  exists ret f rest, matchText [32] true l = Ret (ret, f, rest) /\ part (default [] f) l /\ part rest l.
Proof.
  intros Hl. destruct (SipViaFacts.matchText_parts 32 l Hl) as (ret & f & rest & E & Hf & Hr & _). exists ret, f, rest.
  split; [exact E|]. split; [destruct f; exact Hf | exact Hr].
Qed.

Lemma decodeUrl_safe text r :
  noneOf [37] text = true -> zlen text < npos -> safe (fun _ => True) (decodeUrl strict text ip r).
Proof.
  intros Hn Hl. unfold decodeUrl. destruct (isSipUrl_returns text Hl) as (b & ->). rewrite bind_Ret.
  pose proof (decode_sound strict text ip Hn Hl) as H. destruct (SipBaseUrl.decode strict text ip) as [u|f]; [exact I|].
  destruct H as [Hs ->]. destruct b; cbn; auto.
Qed.

Lemma parseVersion_returns text r : zlen text < npos -> exists x, parseVersion text r = Ret x.
Proof.
  intros Hl. unfold parseVersion. change (str "/") with [47]. rewrite matchText_eq by exact Hl.
  destruct (breakIn [47] text) as [[[b c] k]|]; cbn; eauto.
Qed.

Lemma scanRequestLine_safe text r :
  noneOf [37] text = true -> zlen text < npos -> safe (fun _ => True) (scanSipRequestLine strict text ip r).
Proof.
  intros Hn Hl. unfold scanSipRequestLine. change (str " ") with [32].
  destruct (matchSpace_parts text Hl) as (r1 & f1 & t1 & -> & _ & P1). rewrite bind_Ret. destruct r1; try exact I.
  pose proof (part_fits _ _ _ P1 Hl) as L1. destruct (matchSpace_parts t1 L1) as (r2 & f2 & t2 & -> & P2 & P3). rewrite bind_Ret.
  destruct r2; try exact I. apply (safe_bind (fun _ => True)).
  - apply decodeUrl_safe; [apply P2, P1, Hn | exact (part_fits _ _ _ P2 L1)].
  - intros [u|] _; [|exact I]. destruct (parseVersion_returns t2 (setUrl (Some u) (setMethod (default [] f1) r)) (part_fits _ _ _ P3 L1)) as (x & ->). exact I.
Qed.

Lemma parseRequestLine_safe text r :
  noneOf [37] text = true -> zlen text < npos -> safe (fun _ => True) (parseRequestLine strict ip text r).
Proof.
  intros Hn Hl. unfold parseRequestLine. destruct (SipViaFacts.matchText_parts 10 text Hl) as (r1 & f1 & t1 & -> & _ & P1 & _).
  rewrite bind_Ret. change (str " ") with [32]. pose proof (part_fits _ _ _ P1 Hl) as L1. rewrite matchText_eq by exact L1.
  assert (forall ret, safe (fun _ => True) (match ret with FOUND => line2 ← removeSpacesText t1; decodeRequestLine strict line2 ip r | _ => mret (false, r) end)) as H.
  { intros ret. destruct ret; try exact I. destruct (removeSpacesText_part t1) as (k & -> & Pk). rewrite bind_Ret.
    apply scanRequestLine_safe; [apply Pk, P1, Hn | exact (part_fits _ _ _ Pk L1)]. }
  destruct (breakIn [32] t1) as [[[b c] k]|]; rewrite bind_Ret; [|exact I]. destruct (zlen b =? 0); [exact (H FIRST) | exact (H FOUND)].
Qed.

Lemma decodeStatusLine_safe text s : zlen text < npos -> safe (fun _ => True) (decodeStatusLine strict text s).
Proof.
  intros Hl. unfold decodeStatusLine, scanSipStatusLine. change (str " ") with [32].
  destruct (matchSpace_parts text Hl) as (r1 & f1 & t1 & -> & P0 & P1). rewrite bind_Ret.
  assert (forall x, safe (fun _ => True) match SipFields.throws strict x : outcome SipStatusLine with Fault Exception => Fault AssertFailed | m => m end) as Ht.
  { intros x. destruct (throws_outcome strict x) as [-> | [Hs ->]]; cbn; auto. }
  destruct r1; [apply Ht | apply Ht |]. pose proof (part_fits _ _ _ P1 Hl) as L1. unfold parseStatusVersion. change (str "/") with [47].
  rewrite (matchText_eq 47) by exact (part_fits _ _ _ P0 Hl).
  destruct (breakIn [47] (default [] f1)) as [[[b c] k]|]; rewrite !bind_Ret;
    (destruct (matchSpace_parts t1 L1) as (r2 & f2 & t2 & -> & P2 & P3); rewrite bind_Ret; destruct r2; [apply Ht | apply Ht |];
     destruct (toInt_returns (default [] f2)) as (n & ->); rewrite bind_Ret;
     match goal with |- context [setStatusCode n ?s] => destruct (setStatusCode_returns n s) as (x & ->) end; exact I).
Qed.

Lemma parseStatusLine_safe text s : zlen text < npos -> safe (fun _ => True) (parseStatusLine strict text s).
Proof.
  intros Hl. unfold parseStatusLine. change (str " ") with [32].
  assert (forall h, safe (fun _ => True) (isStatusCodes h)) as Hc.
  { intros h. unfold isStatusCodes. destruct (toInt_returns h) as (n & ->). exact I. }
  rewrite (matchText_eq 32 false) by exact Hl. destruct (breakIn [32] text) as [[[b c] k]|] eqn:E; rewrite bind_Ret; [|exact I].
  destruct (zlen b =? 0); [exact I|]. cbn [default from_option id]. destruct (zlen_breakIn _ _ _ _ _ E) as [Hb _].
  unfold isprotocolSIP. change (str "/") with [47]. rewrite (matchText_eq 47) by lia.
  assert (forall sip : bool, safe (fun _ => True) (if sip then
     '(_, found, lstatusLine) ← matchText [32] true text; let header1 := default b found in
     '(_, found, lstatusLine) ← matchText [32] true lstatusLine; let header1 := default header1 found in
     code ← isStatusCodes header1; if code : bool then decodeStatusLine strict text s else mret s else mret s)) as H.
  { intros [|]; [|exact I]. destruct (matchSpace_parts text Hl) as (r1 & f1 & t1 & -> & _ & P1). rewrite bind_Ret. cbv zeta.
    destruct (matchSpace_parts t1 (part_fits _ _ _ P1 Hl)) as (r2 & f2 & t2 & -> & _). rewrite bind_Ret.
    apply (safe_bind (fun _ => True)); [apply Hc|]. intros [|] _; [now apply decodeStatusLine_safe | exact I]. }
  destruct (breakIn [47] b) as [[[b' c'] k']|]; cbn [mret outcome_ret]; rewrite !bind_Ret; [|exact I].
  exact (H _).
Qed.

(** * Any text *)

Lemma getLineText_parts text : exists line fail rest, getLineText text = Ret (line, fail, rest) /\ part line text /\ part rest text.
Proof.
  rewrite getLineText_eq. destruct (breakIn [10] text) as [[[b c] r]|] eqn:E.
  - do 3 eexists. split; [reflexivity|]. destruct (breakIn_Some _ _ _ _ _ E) as [-> _]. split.
    + transitivity b; [apply chopCR_part | apply part_app_l].
    + rewrite cons_middle, app_assoc. apply part_app_r.
  - do 3 eexists. split; [reflexivity|]. split; [apply part_nil | reflexivity].
Qed.

Lemma decodeCommand_safe class text :
  noneOf [37] text = true -> zlen text < npos ->
  safe (fun _ => True) (decodeCommand strict isIp6 randomHex (Other := Other) ip class text).
Proof.
  intros Hn Hl. unfold decodeCommand. destruct (getLineText_parts text) as (line & e & rest & -> & P1 & P2). rewrite bind_Ret.
  apply (safe_bind (fun _ => True)); [apply parseRequestLine_safe; [now apply P1 | exact (part_fits _ _ _ P1 Hl)]|].
  intros [e' r] _. apply (safe_bind (fun _ => True)); [apply parseMsg_safe; exact (part_fits _ _ _ P2 Hl)|]. now intros [h m] _.
Qed.

Lemma decodeStatus_safe text :
  zlen text < npos -> safe (fun _ => True) (decodeStatus strict isIp6 randomHex (Other := Other) ip text).
Proof.
  intros Hl. unfold decodeStatus. destruct (getLineText_parts text) as (line & e & rest & -> & P1 & P2). rewrite bind_Ret.
  apply (safe_bind (fun _ => True)); [apply parseStatusLine_safe; exact (part_fits _ _ _ P1 Hl)|].
  intros s _. apply parseMsg_safe. exact (part_fits _ _ _ P2 Hl).
Qed.

Lemma isSipRequest_returns line : exists b, isSipRequest line = Ret b.
Proof.
  unfold isSipRequest. rewrite matchCharText_eq. destruct (breakIn [32; 9] line) as [[[b c] r]|]; rewrite bind_Ret; [|cbn; eauto].
  destruct (c =? 0); [cbn; eauto|]. rewrite matchCharText_eq. destruct (breakIn (str "/") r) as [[[b' c'] r']|]; rewrite bind_Ret; [|cbn; eauto].
  destruct (c' =? 0); cbn; eauto.
Qed.

Lemma decodePrepared_safe text :
  noneOf [37] text = true -> zlen text < npos ->
  safe (fun _ => True) (decodePrepared strict isIp6 randomHex (Other := Other) ip text).
Proof.
  intros Hn Hl. unfold decodePrepared. destruct (getLineText_parts text) as (line & [|] & rest & -> & _); rewrite bind_Ret; [exact I|].
  rewrite matchCharText_eq. assert (forall m l, safe (fun _ => True) (let sipMethod := dataToMethod m in
    sip ← (if is_method sipMethod SIP_STATUS then mret true else isSipRequest l);
    if sip : bool then if is_method sipMethod SIP_STATUS then newStatusMsg strict isIp6 randomHex (Other := Other) ip text
      else newCommand strict isIp6 randomHex (Other := Other) ip sipMethod text else mret None)) as H.
  { intros m l. cbv zeta. apply (safe_bind (fun _ => True)).
    - destruct (is_method _ _); [exact I|]. destruct (isSipRequest_returns l) as (b & ->). exact I.
    - intros [|] _; [|exact I]. destruct (is_method _ _).
      + unfold newStatusMsg. apply (safe_bind (fun _ => True)); [now apply decodeStatus_safe | now intros [r x] _].
      + unfold newCommand. apply (safe_bind (fun _ => True)); [now apply decodeCommand_safe | now intros [r x] _]. }
  destruct (breakIn [32; 9] line) as [[[b c] r]|]; rewrite bind_Ret; apply H.
Qed.

Lemma noneOf_unfoldText m l : isIn 32 m = false -> noneOf m l = true -> noneOf m (unfoldText l) = true.
Proof.
  intros H32. induction l as [l IH] using (induction_ltof1 _ (@length Z)). unfold ltof in IH. destruct l as [|a [|b l]]; try (intros H; exact H).
  cbn [unfoldText]. rewrite !noneOf_cons. intros [Ha [Hb Hl]%andb_prop]%andb_prop. destruct (_ && _ && _).
  - rewrite !noneOf_cons, H32, IH; [reflexivity | cbn [length]; lia | exact Hl].
  - change (match l with [] => [b] | _ => _ end) with (unfoldText (b :: l)).
    rewrite noneOf_cons, Ha, IH; [reflexivity | cbn [length]; lia | rewrite noneOf_cons; now rewrite Hb].
Qed.

Lemma prepare_part text : noneOf [37] text = true -> noneOf [37] (prepare text) = true /\ zlen (prepare text) <= zlen text.
Proof.
  intros Hn. unfold prepare. pose proof (zlen_trimEnd (dropIn [32] (unfoldText (dropIn blanks text)))).
  pose proof (zlen_dropIn [32] (unfoldText (dropIn blanks text))). pose proof (zlen_dropIn blanks text). rewrite zlen_unfoldText in *. split; [|lia].
  destruct (removeSpacesText_part (unfoldText (dropIn blanks text))) as (k & E & Hk). rewrite removeSpacesText_eq in E. injection E as ->.
  apply Hk, noneOf_unfoldText; [reflexivity|]. destruct (dropIn_suffix blanks text) as (a & Ea & _). rewrite Ea, noneOf_app in Hn. now bools.
Qed.

(** C12: whatever arrives, the reader of messages returns or ends the program.
    For every text without percent signs and shorter than the largest int it
    returns a message or null, without a read beyond a buffer and without an
    exception that leaves it; in strict mode, which is hard-wired, a text may
    also abort the program or make it terminate. *)
Theorem message_decode_safe text :
  noneOf [37] text = true -> zlen text < npos ->
  (exists m, decodeMsg text = Ret m) \/
  (strict = true /\ (decodeMsg text = Fault AssertFailed \/ decodeMsg text = Fault Unexpected)).
Proof.
  intros Hn Hl. destruct (prepare_part text Hn) as [Hn' Hl']. rewrite decodeMsg_prepared by exact Hl.
  pose proof (decodePrepared_safe (prepare text) Hn' ltac:(lia)) as H.
  destruct (decodePrepared strict isIp6 randomHex ip (prepare text)) as [m|f]; [eauto|].
  destruct H as [Hs [-> | ->]]; auto.
Qed.

(** * Texts that end the program *)

Lemma parsedHeader_first t c raw next p :
  wf c -> chainOr ip t (slot c t) = raw :: next -> parse raw = Ret (setHeader (Some p) raw) ->
  exists c', parsedHeader t c = Ret (c', Some p) /\ wf c' /\ forall u, t <> u -> slot c' u = slot c u.
Proof.
  intros Hc E Hp. exists (upd t (setHeader (Some p) raw :: next) c). split; [|split; [now apply wf_upd | intros; now apply slot_upd_ne]].
  unfold SipMessage.parsedHeader, getHeaderOrCreate. fold_classes. rewrite at_slot by exact Hc. cbn [mbind outcome_bind].
  change (0 <=? 0) with true. cbv iota. change (Z.to_nat 0) with 0%nat. rewrite set_upd by exact Hc. cbn [mbind outcome_bind mret outcome_ret].
  change (createTo t ip 0 (slot c t)) with (chainOr ip t (slot c t)). rewrite E.
  rewrite (getParsed_first ip t _ raw next (setHeader (Some p) raw) p); [now rewrite upd_same | now apply wf_upd | now apply slot_upd | exact Hp | reflexivity].
Qed.

Lemma parsedHeader_aborts t c raw next :
  wf c -> slot c t = raw :: next -> parse raw = Fault AssertFailed -> parsedHeader t c = Fault AssertFailed.
Proof.
  intros Hc E Hp. unfold SipMessage.parsedHeader, getHeaderOrCreate. fold_classes. rewrite at_slot by exact Hc. cbn [mbind outcome_bind].
  change (0 <=? 0) with true. cbv iota. change (Z.to_nat 0) with 0%nat. rewrite set_upd by exact Hc. cbn [mbind outcome_bind mret outcome_ret].
  rewrite E. cbn [createTo]. now rewrite (getParsed_fault ip t _ raw next AssertFailed); [|apply wf_upd | apply slot_upd |].
Qed.

End Messages.

(** A Content-Type without a slash aborts the program.  Whatever the first
    line of the message, and whatever its other headers and its body: if the
    value of its Content-Type has no slash, or none behind its first colon, an
    assertion fails in the reader, which is in strict mode. *)
Theorem content_type_ends_program isIp6 randomHex (Other : SipHeaderClass) ip s headers e c rest h next :
  startOk ip s = true ->
  Container.decode (SH := classes true isIp6 randomHex (Other := Other)) ip headers newContainer = Ret (e, c, rest) ->
  slot (SH := classes true isIp6 randomHex (Other := Other)) c SIP_CONTENT_TYPE_HDR = h :: next ->
  noSlash (headerValue h) = true ->
  let text := startText s ++ [13; 10] ++ headers in
  framed text = true -> zlen text < npos ->
  decodeMsg true isIp6 randomHex (Other := Other) ip text = Fault AssertFailed.
Proof.
  intros Hs Hd Hh Hv text Hf Hl. rewrite decodeMsg_prepared, prepare_framed by assumption. unfold text in *.
  rewrite decodePrepared_start by assumption. unfold parseMsg, newMsg. cbn [myHeaderList]. rewrite Hd, bind_Ret.
  assert (zlen headers < npos) as Hlh by (rewrite !zlen_app in Hl; pose proof (zlen_nonneg (startText s)); pose proof (zlen_nonneg [13; 10]); lia).
  destruct (decode_raw (SH := classes true isIp6 randomHex (Other := Other)) ip headers Hlh) as (e' & c' & rest' & E & [Hc Hx] & _).
  rewrite Hd in E. injection E as <- <- <-. unfold setHeaders. cbn [startLine myMimeList].
  unfold parseMime. cbn [myHeaderList].
  destruct (chainOr_raw true isIp6 randomHex ip SIP_CONTENT_LENGTH_HDR _ (Hx SIP_CONTENT_LENGTH_HDR)) as (raw & n & Er & Ht & Hn & _).
  destruct (parsedHeader_first true isIp6 randomHex ip SIP_CONTENT_LENGTH_HDR c raw n (SipFields.FContentLength (SipFields.newText (headerValue raw))) Hc Er) as (c1 & -> & W1 & S1).
  { unfold safeClasses in *. unfold parse. rewrite Hn, Ht. reflexivity. }
  rewrite bind_Ret. cbn [asLength]. rewrite bind_Ret.
  pose proof (Hx SIP_CONTENT_TYPE_HDR) as Hct. rewrite Hh in Hct. inversion Hct as [|? ? (Tt & Tn & Tv) _]; subst.
  rewrite (parsedHeader_aborts true isIp6 randomHex ip SIP_CONTENT_TYPE_HDR c1 h next); [reflexivity | exact W1 | now rewrite S1 |].
  unfold parse. rewrite Tn, Tt. unfold decodeHeader.
  cbn [construct classes full SipFields.stackHeaders SipFields.constructField addresses addressHeaders constructAddr contentHeaders constructContent].
  now rewrite noSlash_aborts.
Qed.

(** A URL whose parser throws an exception that is not SipUrl's. *)
Lemma decodeUrl_im x ip r :
  noneOf [58; 64] x = true -> zlen (str "im:" ++ x) < npos -> decodeUrl true (str "im:" ++ x) ip r = Fault Unexpected.
Proof.
  intros Hx Hl. unfold decodeUrl, isSipUrl, SipBaseUrl.decode, SipBaseUrl.newImpBaseUrl. change (str ":") with [58].
  assert (breakIn [58] (str "im:" ++ x) = Some (str "im", 58, x)) as Eb by reflexivity.
  rewrite matchText_eq, Eb by exact Hl. change (zlen (str "im") =? 0) with false. cbn [mbind outcome_bind mret outcome_ret default from_option id].
  change (eqNoCase (str "im") (str "sip")) with false. change (eqNoCase (str "im") (str "tel")) with false. change (eqNoCase (str "im") (str "im")) with true.
  cbv iota. rewrite parseText_eq, Eb. cbn [mbind outcome_bind]. change (eqNoCase (str "im") (str "im")) with true. cbn [negb].
  rewrite dropIn_clean by (apply noneOf_startsWith; SipUriFacts.sub_noneOf). change (str "@") with [64].
  rewrite matchCharText_eq, breakIn_none by SipUriFacts.sub_noneOf. reflexivity.
Qed.

(** A request to an address of another kind makes the program terminate.
    The line of a request is read by a function that may throw no exception but
    its own; it catches what the parser of SIP URLs throws, but not what those
    of telephone, instant message and presence URLs do.  A request of any
    method to an instant message URL without an at sign ends the program,
    whatever headers and body follow. *)
Theorem request_url_ends_program isIp6 randomHex (Other : SipHeaderClass) ip m x v rest :
  LineOk m (str "im:" ++ x) (str "SIP/" ++ v) -> dataToMethod m <> SIP_STATUS -> noneOf [58; 64] x = true ->
  let text := lineText m (str "im:" ++ x) (str "SIP/" ++ v) ++ [13; 10] ++ rest in
  framed text = true -> zlen text < npos ->
  decodeMsg true isIp6 randomHex (Other := Other) ip text = Fault Unexpected.
Proof.
  intros H Hst Hx text Hf Hl. rewrite decodeMsg_prepared, prepare_framed by assumption. unfold text in *.
  assert (str "SIP/" ++ v <> []) as Hv by discriminate. destruct (lineText_clean _ _ _ H Hv) as [Hn _]. pose proof (zlen_app_l _ _ _ Hl) as Hll.
  unfold decodePrepared. rewrite getLineText_line, bind_Ret, (line_method _ _ _ H), bind_Ret by exact Hn. cbv zeta.
  assert (is_method (dataToMethod m) SIP_STATUS = false) as -> by now apply bool_decide_eq_false.
  assert (isSipRequest ((str "im:" ++ x) ++ 32 :: str "SIP/" ++ v) = Ret true) as -> by exact (line_sip m _ (str "SIP") v H eq_refl).
  rewrite bind_Ret. unfold newCommand, decodeCommand.
  rewrite getLineText_line, bind_Ret, parseRequestLine_parts, (scanRequestLine_parts true isIp6 randomHex ip _ _ _ _ _ H Hll) by assumption.
  rewrite decodeUrl_im; [reflexivity | exact Hx | exact (zlen_app_l _ _ _ (zlen_cons_r _ _ _ (zlen_app_r _ _ _ Hll)))].
Qed.

(** * Witnesses *)

#[local] Instance killClasses : SipHeaderClass := classes true (fun _ => false) [] (Other := textHeaders).

Lemma message_decode_safe_witness :
  (exists m, decodeMsg true (fun _ => false) [] (Other := textHeaders) [] sampleText = Ret m) \/
  (true = true /\ (decodeMsg true (fun _ => false) [] (Other := textHeaders) [] sampleText = Fault AssertFailed \/
     decodeMsg true (fun _ => false) [] (Other := textHeaders) [] sampleText = Fault Unexpected)).
Proof. apply (message_decode_safe true (fun _ => false) [] (Other := textHeaders) [] sampleText); vm_compute; reflexivity. Defined.

Definition sampleKill : container := upd SIP_CONTENT_TYPE_HDR [named [] (str "Content-Type") (str "text")] newContainer.

Lemma content_type_ends_program_witness :
  decodeMsg true (fun _ => false) [] (Other := textHeaders) []
    (startText (Request SIP_INVITE sampleRequest) ++ [13; 10] ++ headersText sampleKill ++ [13; 10] ++ str "x") = Fault AssertFailed.
Proof.
  refine (content_type_ends_program (fun _ => false) [] textHeaders [] (Request SIP_INVITE sampleRequest)
    (headersText sampleKill ++ [13; 10] ++ str "x") false sampleKill (str "x") (named [] (str "Content-Type") (str "text")) [] _ _ _ _ _ _).
  - vm_compute. reflexivity.
  - apply (decode_headersText (SH := killClasses)); [reflexivity|]. intros t. destruct t; try apply List.Forall_nil; cbn [slot];
      repeat apply List.Forall_cons; try apply List.Forall_nil; (constructor; (reflexivity || (intros; congruence))).
  - reflexivity.
  - vm_compute. reflexivity.
  - vm_compute. reflexivity.
  - vm_compute. reflexivity.
Defined.

Lemma request_url_ends_program_witness :
  decodeMsg true (fun _ => false) [] (Other := textHeaders) [] (str "INVITE im:joe SIP/2.0" ++ [13; 10; 13; 10]) = Fault Unexpected.
Proof.
  refine (request_url_ends_program (fun _ => false) [] textHeaders [] (str "INVITE") (str "joe") (str "2.0") [13; 10] _ _ _ _ _);
    [split; reflexivity | discriminate | reflexivity | vm_compute; reflexivity | vm_compute; reflexivity].
Defined.

End SipMessageSafe.
