(* ===== verification/UaMsg.v ===== *)
(** Messages as the SIP user agent reads and builds them (sip/sipstack:
    StatusMsg, SipCommand, AckMsg, ByeMsg, CancelMsg, SipCSeq).

    A message is a value: every accessor the agent uses to take a header from
    one message and put it into another copies the header ([duplicateUrl],
    [copyHeader], the copy constructors).  Of a URL the model keeps the user,
    the host and the port, of a session description the address of its
    connection line and the rest as one text; headers that the agent neither
    reads nor sets are left out.  The request line of an ACK is built by the
    classes of [SipStartLine] and [SipUri], because setting it ends the program
    when its text cannot be read. *)
From S2P Require Import Prelude SipHeap SipUser SipUri SipBaseUrl SipStartLine.
Import SipHeap.

Module UaMsg.

(** * Data *)

Record SipUrl := mkUrl {
  urlUser : bytes;
  urlHost : bytes;
  urlPort : bytes
}.

(** The URL of a header.  A header without one hands out a [NullUrl], and is
    made to have none by one. *)
Inductive BaseUrl :=
| NullUrl
| SipUri (u : SipUrl)
| TelUri (number : bytes).

(** [dynamicCast<SipUrl>] *)
Definition asSipUrl (u : BaseUrl) : option SipUrl :=
  match u with SipUri u => Some u | _ => None end.

Definition getUserValue (u : BaseUrl) : bytes :=
  match u with NullUrl => [] | SipUri u => urlUser u | TelUri n => n end.

Definition setHost (h : bytes) (u : SipUrl) : SipUrl := mkUrl (urlUser u) h (urlPort u).
Definition setPort (p : bytes) (u : SipUrl) : SipUrl := mkUrl (urlUser u) (urlHost u) p.

(** To and From. *)
Record Party := mkParty {
  partyUrl : BaseUrl;
  displayName : bytes;
  tag : bytes
}.

Definition getUser (p : Party) : bytes := getUserValue (partyUrl p).
Definition setTag (t : bytes) (p : Party) : Party := mkParty (partyUrl p) (displayName p) t.

Record SipCSeq := mkCSeq {
  cseq : bytes;
  cseqMethodName : bytes
}.

Record SipSdp := mkSdp {
  connection : bytes;
  otherLines : bytes
}.

Inductive SipContentData :=
| SdpContent (s : SipSdp)
| OtherContent (body : bytes).

Inductive kind :=
| Request (method : Method) (uri : BaseUrl)
| Response (statusCode : Z).

Record Msg := mkMsg {
  msgKind : kind;
  toHdr : Party;
  fromHdr : Party;
  callId : bytes;
  cseqHdr : SipCSeq;
  vias : list SipVia;
  routes : list BaseUrl;
  recordRoutes : list BaseUrl;
  contacts : list BaseUrl;
  allow : list bytes;
  contents : list SipContentData;
  receivedIPName : bytes
}.

(** * Accessors *)

Definition getType (m : Msg) : Method :=
  match msgKind m with Request method _ => method | Response _ => SIP_STATUS end.

(** [dynamicCast<StatusMsg>] and its status code. *)
Definition asStatus (m : Msg) : option Z :=
  match msgKind m with Response code => Some code | Request _ _ => None end.

(** [dynamicCast<SipCommand>] and the URL of its request line. *)
Definition asCommand (m : Msg) : option BaseUrl :=
  match msgKind m with Request _ uri => Some uri | Response _ => None end.

(** [SipVia("", local_ip)] *)
Definition newVia : SipVia :=
  mkVia (str "UDP") [] (str "5060") [] [] false [] [].

Definition viaTo (host : bytes) (port : Z) (transport : bytes) : SipVia :=
  mkVia transport host (itoa port) [] [] false [] [].

(** [getVia(0)]: a Via with the defaults is created when there is none. *)
Definition getVia0 (m : Msg) : SipVia := hd newVia (vias m).

(** [viaFront] *)
Definition viaFront (m : Msg) : outcome SipVia :=
  match vias m with v :: _ => mret v | [] => Fault AssertFailed end.

(** [getContact()]: the last one, created when there is none. *)
Definition getContact (m : Msg) : BaseUrl := List.last (contacts m) NullUrl.

(** [getContact(0)] under a check that there is one. *)
Definition firstContact (m : Msg) : option BaseUrl := head (contacts m).

(** [getContentData(0)], cast to a session description. *)
Definition getSdp (m : Msg) : option SipSdp :=
  match contents m with SdpContent s :: _ => Some s | _ => None end.

Definition hasMethod (name : bytes) (m : Msg) : bool := eqNoCase (cseqMethodName (cseqHdr m)) name.

(** * Setters *)

Definition with_kind (k : kind) (m : Msg) : Msg :=
  mkMsg k (toHdr m) (fromHdr m) (callId m) (cseqHdr m) (vias m) (routes m) (recordRoutes m) (contacts m)
    (allow m) (contents m) (receivedIPName m).
Definition with_to (p : Party) (m : Msg) : Msg :=
  mkMsg (msgKind m) p (fromHdr m) (callId m) (cseqHdr m) (vias m) (routes m) (recordRoutes m) (contacts m)
    (allow m) (contents m) (receivedIPName m).
Definition with_from (p : Party) (m : Msg) : Msg :=
  mkMsg (msgKind m) (toHdr m) p (callId m) (cseqHdr m) (vias m) (routes m) (recordRoutes m) (contacts m)
    (allow m) (contents m) (receivedIPName m).
Definition with_callId (i : bytes) (m : Msg) : Msg :=
  mkMsg (msgKind m) (toHdr m) (fromHdr m) i (cseqHdr m) (vias m) (routes m) (recordRoutes m) (contacts m)
    (allow m) (contents m) (receivedIPName m).
Definition with_cseq (c : SipCSeq) (m : Msg) : Msg :=
  mkMsg (msgKind m) (toHdr m) (fromHdr m) (callId m) c (vias m) (routes m) (recordRoutes m) (contacts m)
    (allow m) (contents m) (receivedIPName m).
Definition with_vias (l : list SipVia) (m : Msg) : Msg :=
  mkMsg (msgKind m) (toHdr m) (fromHdr m) (callId m) (cseqHdr m) l (routes m) (recordRoutes m) (contacts m)
    (allow m) (contents m) (receivedIPName m).
Definition with_routes (l : list BaseUrl) (m : Msg) : Msg :=
  mkMsg (msgKind m) (toHdr m) (fromHdr m) (callId m) (cseqHdr m) (vias m) l (recordRoutes m) (contacts m)
    (allow m) (contents m) (receivedIPName m).
Definition with_recordRoutes (l : list BaseUrl) (m : Msg) : Msg :=
  mkMsg (msgKind m) (toHdr m) (fromHdr m) (callId m) (cseqHdr m) (vias m) (routes m) l (contacts m)
    (allow m) (contents m) (receivedIPName m).
Definition with_contacts (l : list BaseUrl) (m : Msg) : Msg :=
  mkMsg (msgKind m) (toHdr m) (fromHdr m) (callId m) (cseqHdr m) (vias m) (routes m) (recordRoutes m) l
    (allow m) (contents m) (receivedIPName m).
Definition with_allow (l : list bytes) (m : Msg) : Msg :=
  mkMsg (msgKind m) (toHdr m) (fromHdr m) (callId m) (cseqHdr m) (vias m) (routes m) (recordRoutes m)
    (contacts m) l (contents m) (receivedIPName m).
Definition with_contents (l : list SipContentData) (m : Msg) : Msg :=
  mkMsg (msgKind m) (toHdr m) (fromHdr m) (callId m) (cseqHdr m) (vias m) (routes m) (recordRoutes m)
    (contacts m) (allow m) l (receivedIPName m).

(** [getMutableRequestLine().setUrl(u)] *)
Definition setRequestUrl (u : BaseUrl) (m : Msg) : Msg :=
  match msgKind m with Request method _ => with_kind (Request method u) m | Response _ => m end.

(** A URL among those of [SipUri], with the parts that this model leaves out
    missing. *)
Definition fullUrl (ip : bytes) (u : SipUrl) : SipUri.SipUrl :=
  SipUri.setPortField (urlPort u) (SipUri.setHostField (urlHost u)
    (SipUri.setUserField (match urlUser u with [] => None | x => Some (SipUser.IsSipUser x) end) (SipUri.emptyUrl ip false))).

(** [SipRequestLine(method, url, ip)] of a [SipUrl] or a null pointer. *)
Definition requestLineTo (ip : bytes) (method : Method) (url : option SipUrl) : outcome SipStartLine.SipRequestLine :=
  SipStartLine.requestLineOf method (option_map (fun u => SipBaseUrl.ASipUrl (fullUrl ip u)) url).

(** [setRequestLine] of such a line: it is printed and read again, and the
    program ends when what was printed cannot be read; of a line without a URL
    nothing is printed. *)
Definition setRequestLine (strict : bool) (ip : bytes) (method : Method) (url : option SipUrl) (m : Msg) : outcome Msg :=
  req ← requestLineTo ip method url;
  e ← SipStartLine.encodeRequestLine req;
  match SipStartLine.decodeRequestLine strict e ip (SipStartLine.copyRequestLine req) with
  | Ret (false, _) => mret (setRequestUrl (match url with Some u => SipUri u | None => NullUrl end) m)
  | Ret (true, _) | Fault Exception => Fault AssertFailed
  | Fault f => Fault f
  end.

(** [removeRoute(0)] *)
Definition popRoute (m : Msg) : Msg := with_routes (tail (routes m)) m.

(** The first route becomes the URL of the request line. *)
Definition routeToUrl (m : Msg) : Msg :=
  match routes m with [] => m | r :: _ => popRoute (setRequestUrl r m) end.

(** [setNumContentData(0)] and [setContentData]. *)
Definition setSdp (s : option SipSdp) (m : Msg) : Msg :=
  match s with Some s => with_contents [SdpContent s] m | None => m end.

(** * Sequence numbers *)

Definition getNextCSeq (c : SipCSeq) : outcome Z :=
  v ← toInt (cseq c);
  mret (if u32 v <? 2147483647 then u32 v + 1 else 2147483647).

Definition incrCSeq (c : SipCSeq) : outcome SipCSeq :=
  n ← getNextCSeq c; mret (mkCSeq (itoa n) (cseqMethodName c)).

(** [setCSeq(unsigned)] *)
Definition setCSeq (n : Z) (c : SipCSeq) : SipCSeq :=
  mkCSeq (itoa (if n <? 2147483648 then n else 2147483647)) (cseqMethodName c).

(** [value++] on the number, under another method. *)
Definition nextFor (method : bytes) (c : SipCSeq) : outcome SipCSeq :=
  v ← toInt (cseq c); mret (mkCSeq (itoa (s32 (v + 1))) method).

(** * Construction *)

(** Whether [StatusMsg(command, code)] puts a tag of its own into To. *)
Definition needsTag (command : Msg) (code : Z) : bool :=
  (100 <? code) && (code <? 500) && (zlen (tag (toHdr command)) =? 0).

(** [StatusMsg(command, code)], given the random tag. *)
Definition statusMsg (randomTag : bytes) (command : Msg) (code : Z) : Msg :=
  mkMsg (Response code)
    (if needsTag command code then setTag randomTag (toHdr command) else toHdr command)
    (fromHdr command) (callId command) (cseqHdr command) (vias command) []
    (if (100 <? code) && (code <=? 200) then recordRoutes command else []) [] [] [] [].

(** [SipCommand(status)]; the classes derived from it set the method. *)
Definition commandOf (method : Method) (status : Msg) (code : Z) : outcome Msg :=
  c ← incrCSeq (cseqHdr status);
  mret (mkMsg (Request method (default NullUrl (firstContact status)))
    (toHdr status) (fromHdr status) (callId status) c []
    (if (180 <=? code) && (code <? 300) then rev (recordRoutes status) else []) [] [] [] [] []).

(** The contact of the response becomes the last route. *)
Definition pushContactRoute (status : Msg) (m : Msg) : Msg :=
  match firstContact status with
  | Some u => with_routes (routes m ++ [u]) m
  | None => m
  end.

(** [AckMsg(status)] *)
Definition ackMsg (status : Msg) (code : Z) : outcome Msg :=
  m ← commandOf SIP_ACK status code;
  let m := with_vias (take 1 (vias status)) m in
  let m := with_cseq (mkCSeq (cseq (cseqHdr status)) (str "ACK")) m in
  mret (pushContactRoute status (routeToUrl m)).

(** [ByeMsg(status)] *)
Definition byeOfStatus (status : Msg) (code : Z) : outcome Msg :=
  m ← commandOf SIP_BYE status code;
  c ← nextFor (str "BYE") (cseqHdr status);
  mret (pushContactRoute status (routeToUrl (with_cseq c m))).

(** [ByeMsg(command)]: the ACK of the caller is turned round. *)
Definition byeOfAck (command : Msg) (uri : BaseUrl) : outcome Msg :=
  c ← nextFor (str "BYE") (cseqHdr command);
  mret (with_from (toHdr command) (with_to (fromHdr command)
    (with_cseq c (with_kind (Request SIP_BYE uri) command)))).

(** [CancelMsg(command)]: the copy of the request has its Vias already. *)
Definition cancelMsg (command : Msg) (uri : BaseUrl) : outcome Msg :=
  v ← viaFront command;
  mret (with_vias (v :: vias command)
    (with_cseq (mkCSeq (cseq (cseqHdr command)) (str "CANCEL"))
      (with_kind (Request SIP_CANCEL uri) command))).

End UaMsg.
