(* ===== verification/UaAgent.v ===== *)
(** The SIP user agent (sip/libsipua: UaBase, UaClient, UaServer,
    SipCallLegData and the states of uaState/).

    An agent is one side of a call: a client made by the INVITE it is to send
    or a server made by the INVITE that came in.  Its state decides what each
    of the four operations does: a request or a response received, a request
    or a response to be sent.  What an agent gives to the transceiver and what
    it tells its controller is kept in order in [out].

    Parameters: [randomHex n] is the [n]-th random tag, [ipName] the address a
    host name resolves to, [strict] the parser mode of the stack, and
    [controller] what the call controller does to the agent when it is told
    something ([BasicAgent] is abstract, and a controller may use the agent, so
    its effect is any function). *)
From S2P Require Import Prelude SipHeap UaMsg.
Import SipHeap UaMsg.

Module UaAgent.

(** * The agent *)

Inductive UStateType :=
| U_STATE_IDLE | U_STATE_S_TRYING | U_STATE_C_TRYING | U_STATE_RINGING | U_STATE_FAILURE
| U_STATE_INCALL | U_STATE_END | U_STATE_REDIRECT | U_STATE_HOLD.

#[export] Instance UStateType_eq_dec : EqDecision UStateType.
Proof. solve_decision. Defined.

Inductive AgentRole := A_SERVER | A_CLIENT.

#[export] Instance AgentRole_eq_dec : EqDecision AgentRole.
Proof. solve_decision. Defined.

Inductive CallLegState := CLS_NONE | C_HOLD | C_LIVE | C_DISCONNECTED.

(** The calls of [BasicAgent]. *)
Inductive Callback :=
| InCall | CallFailed | EndCall | DoCancel | DoHold
| HoldAndResumeReinvite (m : Msg)
| ReqResume (m : Msg)
| ReceivedRequest (m : Msg)
| ReceivedStatus (m : Msg).

Inductive Output :=
| SendAsync (m : Msg)
| SendAsyncTo (m : Msg) (host port : bytes)
| SendReply (m : Msg)
| Told (c : Callback).

(** [BaseFacade] *)
Record BaseFacade := mkFacade {
  localIp : bytes;
  localSipPort : Z;
  natHost : bytes;
  transportKind : Z;
  proxyIpName : bytes;
  proxyPort : Z;
  shouldFixSdpForNat : bool
}.

(** [UaBase] with its base [SipCallLegData]. *)
Record UaBase := mkUa {
  facade : BaseFacade;
  myAgentRole : AgentRole;
  myState : UStateType;
  hasController : bool;
  myRequestMsg : Msg;
  myResponseMsg : option Msg;
  myAckMsg : option Msg;
  myLocalSdpData : option SipSdp;
  myRemoteSdpData : option SipSdp;
  myCallLegState : CallLegState;
  myRouteList : list BaseUrl;
  myLocalCSeq : SipCSeq;
  draws : nat;
  out : list Output
}.

Definition isAClient (a : UaBase) : bool := bool_decide (myAgentRole a = A_CLIENT).
Definition isAServer (a : UaBase) : bool := bool_decide (myAgentRole a = A_SERVER).

(** The constructor of [UaBase]; the role is set by that of the derived class. *)
Definition newAgent (f : BaseFacade) (role : AgentRole) (controlled : bool) (reqMsg : Msg) : UaBase :=
  mkUa f role U_STATE_IDLE controlled reqMsg None None (getSdp reqMsg) None CLS_NONE []
    (cseqHdr reqMsg) 0 [].

Definition with_state (s : UStateType) (a : UaBase) : UaBase :=
  mkUa (facade a) (myAgentRole a) s (hasController a) (myRequestMsg a) (myResponseMsg a) (myAckMsg a)
    (myLocalSdpData a) (myRemoteSdpData a) (myCallLegState a) (myRouteList a) (myLocalCSeq a) (draws a)
    (out a).
Definition with_request (m : Msg) (a : UaBase) : UaBase :=
  mkUa (facade a) (myAgentRole a) (myState a) (hasController a) m (myResponseMsg a) (myAckMsg a)
    (myLocalSdpData a) (myRemoteSdpData a) (myCallLegState a) (myRouteList a) (myLocalCSeq a) (draws a)
    (out a).
Definition with_response (m : Msg) (a : UaBase) : UaBase :=
  mkUa (facade a) (myAgentRole a) (myState a) (hasController a) (myRequestMsg a) (Some m) (myAckMsg a)
    (myLocalSdpData a) (myRemoteSdpData a) (myCallLegState a) (myRouteList a) (myLocalCSeq a) (draws a)
    (out a).
Definition with_ack (m : Msg) (a : UaBase) : UaBase :=
  mkUa (facade a) (myAgentRole a) (myState a) (hasController a) (myRequestMsg a) (myResponseMsg a) (Some m)
    (myLocalSdpData a) (myRemoteSdpData a) (myCallLegState a) (myRouteList a) (myLocalCSeq a) (draws a)
    (out a).
Definition setLocalSdp (s : option SipSdp) (a : UaBase) : UaBase :=
  mkUa (facade a) (myAgentRole a) (myState a) (hasController a) (myRequestMsg a) (myResponseMsg a)
    (myAckMsg a) s (myRemoteSdpData a) (myCallLegState a) (myRouteList a) (myLocalCSeq a) (draws a) (out a).
Definition setRemoteSdp (s : option SipSdp) (a : UaBase) : UaBase :=
  mkUa (facade a) (myAgentRole a) (myState a) (hasController a) (myRequestMsg a) (myResponseMsg a)
    (myAckMsg a) (myLocalSdpData a) s (myCallLegState a) (myRouteList a) (myLocalCSeq a) (draws a) (out a).
Definition setCallLegState (s : CallLegState) (a : UaBase) : UaBase :=
  mkUa (facade a) (myAgentRole a) (myState a) (hasController a) (myRequestMsg a) (myResponseMsg a)
    (myAckMsg a) (myLocalSdpData a) (myRemoteSdpData a) s (myRouteList a) (myLocalCSeq a) (draws a) (out a).
Definition with_routeList (l : list BaseUrl) (a : UaBase) : UaBase :=
  mkUa (facade a) (myAgentRole a) (myState a) (hasController a) (myRequestMsg a) (myResponseMsg a)
    (myAckMsg a) (myLocalSdpData a) (myRemoteSdpData a) (myCallLegState a) l (myLocalCSeq a) (draws a)
    (out a).
Definition setLocalCSeq (c : SipCSeq) (a : UaBase) : UaBase :=
  mkUa (facade a) (myAgentRole a) (myState a) (hasController a) (myRequestMsg a) (myResponseMsg a)
    (myAckMsg a) (myLocalSdpData a) (myRemoteSdpData a) (myCallLegState a) (myRouteList a) c (draws a)
    (out a).
Definition with_draws (n : nat) (a : UaBase) : UaBase :=
  mkUa (facade a) (myAgentRole a) (myState a) (hasController a) (myRequestMsg a) (myResponseMsg a)
    (myAckMsg a) (myLocalSdpData a) (myRemoteSdpData a) (myCallLegState a) (myRouteList a) (myLocalCSeq a) n
    (out a).
Definition emit (o : Output) (a : UaBase) : UaBase :=
  mkUa (facade a) (myAgentRole a) (myState a) (hasController a) (myRequestMsg a) (myResponseMsg a)
    (myAckMsg a) (myLocalSdpData a) (myRemoteSdpData a) (myCallLegState a) (myRouteList a) (myLocalCSeq a)
    (draws a) (out a ++ [o]).

(** [SipCallLegData]: the setters check the type of what they are given. *)
Definition setRequest (m : Msg) (a : UaBase) : outcome UaBase :=
  _ ← cassert (is_method (getType m) SIP_INVITE); mret (with_request m a).
Definition setResponse (m : Msg) (a : UaBase) : outcome UaBase :=
  _ ← cassert (is_method (getType m) SIP_STATUS); mret (with_response m a).
Definition setAck (m : Msg) (a : UaBase) : outcome UaBase :=
  _ ← cassert (is_method (getType m) SIP_ACK); mret (with_ack m a).

(** [agent.getResponse()->setCSeq(c)] *)
Definition setResponseCSeq (c : SipCSeq) (a : UaBase) : outcome UaBase :=
  r ← deref (myResponseMsg a); mret (with_response (with_cseq c r) a).

(** A cast that is asserted to succeed. *)
Definition statusCodeOf (m : Msg) : outcome Z :=
  match asStatus m with Some code => mret code | None => Fault AssertFailed end.
Definition commandUri (m : Msg) : outcome BaseUrl :=
  match asCommand m with Some uri => mret uri | None => Fault AssertFailed end.
Definition sipUrlOf (u : BaseUrl) : outcome SipUrl :=
  match asSipUrl u with Some u => mret u | None => Fault AssertFailed end.

(** The agent's own Via. *)
Definition selfVia (a : UaBase) : SipVia :=
  viaTo (localIp (facade a)) (localSipPort (facade a))
    (if transportKind (facade a) =? 2 then str "TCP" else str "UDP").

(** [addSelfInVia] *)
Definition addSelfInVia (a : UaBase) (m : Msg) : Msg := with_vias [selfVia a] m.

(** The Via of a BYE, which never asks for the transport. *)
Definition byeVia (a : UaBase) : SipVia :=
  viaTo (localIp (facade a)) (localSipPort (facade a)) (str "UDP").

(** The contact made of a URL: this host, as [host] names it. *)
Definition contactAt (host : bytes) (a : UaBase) (u : SipUrl) : BaseUrl :=
  SipUri (setPort (itoa (localSipPort (facade a))) (setHost host u)).

Definition allowField : bytes := str "INVITE,ACK,CANCEL,BYE,OPTIONS".

(** * Routes *)

(** The loop of [saveRouteList].  A tel: URL is skipped without moving on, so
    the loop does not end there. *)
Fixpoint routesOf (fuel : nat) (rr : list BaseUrl) (reverse : bool) (acc : list BaseUrl)
  : outcome (list BaseUrl) :=
  match fuel with
  | O => Fault OutOfFuel
  | S fuel =>
      match rr with
      | [] => mret acc
      | TelUri n :: _ => routesOf fuel rr reverse acc
      | u :: rr' =>
          _ ← sipUrlOf u;
          routesOf fuel rr' reverse (if reverse then u :: acc else acc ++ [u])
      end
  end.

(** The contact that is appended, if there is one. *)
Definition contactRoute (m : Msg) : list BaseUrl :=
  match contacts m with [] => [] | _ => [getContact m] end.

Definition saveRouteList (fuel : nat) (m : Msg) (reverse : bool) (a : UaBase) : outcome UaBase :=
  l ← routesOf fuel (recordRoutes m) reverse [];
  mret (with_routeList (l ++ contactRoute m) a).

(** Fuel for the routes of a message. *)
Definition routeFuel (m : Msg) : nat := S (length (recordRoutes m)).

(** * Operations that the states share *)

Section Agent.
Variable randomHex : nat -> bytes.
Variable ipName : bytes -> bytes.
Variable controller : Callback -> UaBase -> outcome UaBase.
(** The parser mode of the stack. *)
Variable strict : bool.

(** [ba->c()] when the controller that was asked for, [ba], is there. *)
Definition tell (ba : bool) (c : Callback) (a : UaBase) : outcome UaBase :=
  if ba then controller c (emit (Told c) a) else mret a.

(** A response made of a request; only a needed tag is drawn. *)
Definition newStatus (command : Msg) (code : Z) (a : UaBase) : Msg * UaBase :=
  (statusMsg (randomHex (draws a)) command code,
   if needsTag command code then with_draws (S (draws a)) a else a).

Definition sendReplyForRequest (m : Msg) (code : Z) (content : option SipSdp) (memorize : bool)
    (a : UaBase) : outcome UaBase :=
  _ ← commandUri m;
  let '(r, a) := newStatus m code a in
  let r := setSdp content r in
  let a := emit (SendReply r) a in
  if memorize then setResponse r a else mret a.

(** [sendReplyForRequest(msg, code)] *)
Definition reply (m : Msg) (code : Z) (a : UaBase) : outcome UaBase :=
  sendReplyForRequest m code None true a.

(** The request line of the ACK has the URL of the INVITE, cast to a SIP URL.
    The local address that goes with it, in the code that of the response, is
    the agent's. *)
Definition ackStatus (m : Msg) (sdp : option SipSdp) (a : UaBase) : outcome UaBase :=
  code ← statusCodeOf m;
  if 200 <=? code then
    ack ← ackMsg m code;
    uri ← commandUri (myRequestMsg a);
    let ack := with_vias [getVia0 (myRequestMsg a)] ack in
    let ack := popRoute (with_routes (myRouteList a) ack) in
    ack ← setRequestLine strict (localIp (facade a)) SIP_ACK (asSipUrl uri) ack;
    mret (emit (SendAsync (setSdp sdp ack)) a)
  else mret a.

(** The ACK of a response that is not a success, as it is sent while the
    INVITE is pending. *)
Definition ackFailure (m : Msg) (code : Z) (a : UaBase) : outcome UaBase :=
  ack ← ackMsg m code;
  uri ← commandUri (myRequestMsg a);
  mret (emit (SendAsync (setRequestUrl uri (addSelfInVia a ack))) a).

(** The CANCEL of the agent's request. *)
Definition sendCancel (a : UaBase) : outcome UaBase :=
  uri ← deref (asCommand (myRequestMsg a));
  c ← cancelMsg (myRequestMsg a) uri;
  mret (emit (SendAsync c) a).

(** The contact of a 200 and the session description are those of the other
    side of a NAT.  The message is changed in place. *)
Definition fixSdpForNat (a : UaBase) (m : Msg) (natIp : bytes) : outcome Msg :=
  if negb (shouldFixSdpForNat (facade a)) then mret m
  else
    let addr1 := cstr (viaHost (getVia0 m)) in
    if negb (0 <? zlen addr1) || negb (0 <? zlen natIp) then mret m
    else if 0 <? zlen (recordRoutes m) then mret m
    else if textEq (ipName addr1) (ipName (cstr natIp)) then mret m
    else
      let setConnection m :=
        match contents m with
        | SdpContent s :: l => with_contents (SdpContent (mkSdp (cstr natIp) (otherLines s)) :: l) m
        | _ => m
        end in
      match msgKind m with
      | Response code =>
          if code =? 200 then
            u ← sipUrlOf (getContact m);
            mret (setConnection (with_contacts [SipUri (setHost natIp u)] m))
          else mret m
      | Request SIP_INVITE _ | Request SIP_ACK _ => mret (setConnection m)
      | Request _ _ => mret m
      end.

(** [createInvite], as it is called: without a change of the Call-ID. *)
Definition createInvite (a : UaBase) (invMsg : Msg) : outcome Msg :=
  u ← sipUrlOf (partyUrl (fromHdr invMsg));
  let m := with_allow [allowField] invMsg in
  let m := with_contacts [contactAt (natHost (facade a)) a u] m in
  let m := with_vias [selfVia a] m in
  mret (with_routes [] (with_recordRoutes [] m)).

Definition createReInvite (invMsg : Msg) (a : UaBase) : outcome (Msg * UaBase) :=
  m ← createInvite a invMsg;
  let m := with_allow [allowField] m in
  _ ← cassert (0 <? zlen (myRouteList a));
  let m := routeToUrl (with_routes (myRouteList a) m) in
  let m := with_callId (callId (myRequestMsg a)) m in
  c ← incrCSeq (myLocalCSeq a);
  mret (with_cseq c m, setLocalCSeq c a).

(** The re-INVITE that [UaStateInCall] and [UaStateInHold] send: its tags are
    those of the response, by the users of the parties. *)
Definition sendReInvite (invMsg : Msg) (a : UaBase) : outcome UaBase :=
  '(m, a) ← createReInvite invMsg a;
  let m := with_callId (callId (myRequestMsg a)) m in
  r ← deref (myResponseMsg a);
  let toTag := if textEq (getUser (toHdr m)) (getUser (toHdr r)) then tag (toHdr r) else tag (fromHdr r) in
  let m := with_to (setTag toTag (toHdr m)) m in
  let fromTag := if textEq (getUser (fromHdr m)) (getUser (fromHdr r)) then tag (fromHdr r) else tag (toHdr r) in
  let m := with_from (setTag fromTag (fromHdr m)) m in
  mret (emit (SendAsync m) a).

(** The end of both [sendBye]s: the saved routes, the agent's Via and the
    number. *)
Definition addressBye (a : UaBase) (n : Z) (m : Msg) : Msg :=
  let m := match myRouteList a with [] => m | _ => routeToUrl (with_routes (myRouteList a) m) end in
  let m := with_vias [byeVia a] m in
  with_cseq (setCSeq n (cseqHdr m)) m.

(** [UaClient::sendBye] *)
Definition clientBye (a : UaBase) : outcome (UaBase * option Msg) :=
  r ← match myResponseMsg a with Some r => mret r | None => Fault AssertFailed end;
  code ← statusCodeOf r;
  bye ← byeOfStatus r code;
  c ← incrCSeq (myLocalCSeq a);
  let a := setLocalCSeq c a in
  n ← toInt (cseq c);
  let bye := addressBye a (u32 n) bye in
  mret (emit (SendAsync bye) a, Some bye).

(** [UaServer::sendBye] *)
Definition serverBye (a : UaBase) : outcome (UaBase * option Msg) :=
  match myAckMsg a with
  | None => mret (a, None)
  | Some ack =>
      uri ← deref (asCommand ack);
      bye ← byeOfAck ack uri;
      n ← getNextCSeq (myLocalCSeq a);
      let bye := addressBye a n bye in
      mret (emit (SendAsync bye) a, Some bye)
  end.

Definition sendBye (a : UaBase) : outcome (UaBase * option Msg) :=
  match myAgentRole a with A_CLIENT => clientBye a | A_SERVER => serverBye a end.

End Agent.

End UaAgent.
