(* ===== verification/UaState.v ===== *)
(** The states of the SIP user agent (sip/libsipua/uaState), each with its
    handlers, and the dispatch on the state of [UaBase].  A handler that a
    state does not override is that of [UaState], which only logs and reports
    -1.  The one exception that is thrown, by [UaStateRinging::sendStatus], is
    the answer [Threw]. *)
From S2P Require Import Prelude SipHeap UaMsg UaAgent.
Import SipHeap UaMsg UaAgent.

Module UaState.

Definition EINVAL : Z := 22.

(** How a sending operation ends. *)
Inductive answer :=
| Returned (rv : Z)
| Threw.

Section States.
Variable randomHex : nat -> bytes.
Variable ipName : bytes -> bytes.
Variable controller : Callback -> UaBase -> outcome UaBase.
Variable strict : bool.

Abbreviation tell := (tell controller).
Abbreviation newStatus := (newStatus randomHex).
Abbreviation reply := (reply randomHex).
Abbreviation sendReplyForRequest := (sendReplyForRequest randomHex).
Abbreviation fixSdpForNat := (fixSdpForNat ipName).
Abbreviation is_type m t := (is_method (getType m) t).

(** [changeState] at the end of a receiving operation, and of a sending one. *)
Definition goto (s : UStateType) (a : UaBase) : outcome UaBase := mret (with_state s a).
Definition sent (s : UStateType) (a : UaBase) : outcome (UaBase * answer) :=
  mret (with_state s a, Returned 0).
Definition refused (rv : Z) (a : UaBase) : outcome (UaBase * answer) := mret (a, Returned rv).

(** * Idle *)

Definition idleRecvRequest (a : UaBase) (m : Msg) : outcome UaBase :=
  if isAServer a && is_type m SIP_INVITE then
    a ← saveRouteList (routeFuel m) m false a;
    a ← reply m 100 a;
    let a := match getSdp m with Some s => setRemoteSdp (Some s) a | None => a end in
    goto U_STATE_S_TRYING a
  else mret a.

Definition idleSendRequest (a : UaBase) (m : Msg) : outcome (UaBase * answer) :=
  if isAClient a && is_type m SIP_INVITE then
    let proxy := proxyIpName (facade a) in
    let o := if (0 <? zlen proxy) && negb (bool_decide (proxy = str "0.0.0.0"))
             then SendAsyncTo m proxy (itoa (proxyPort (facade a)))
             else SendAsync m in
    sent U_STATE_C_TRYING (emit o a)
  else refused (-1) a.

(** * Trying, server side *)

Definition sTryingRecvRequest (a : UaBase) (m : Msg) : outcome UaBase :=
  let ba := hasController a in
  if is_type m SIP_CANCEL || is_type m SIP_BYE then
    a ← reply m 200 a;
    a ← (if is_type m SIP_CANCEL then
           a ← reply (myRequestMsg a) 487 a; tell ba DoCancel a
         else mret a);
    a ← tell ba (ReceivedRequest m) a;
    goto U_STATE_FAILURE a
  else if is_type m SIP_INVITE then goto U_STATE_S_TRYING a
  else mret a.

(** A 200 with the contact of this host, which [UasStateTrying],
    [UaStateRinging], [UaStateInCall] and [UaStateInHold] make. *)
Definition okFor (command : Msg) (code : Z) (body : list SipContentData) (host : bytes) (u : SipUrl)
    (a : UaBase) : Msg * UaBase :=
  let '(r, a) := newStatus command code a in
  (with_contacts [contactAt host a u] (with_contents body r), a).

Definition sdpBody (s : option SipSdp) : list SipContentData :=
  match s with Some s => [SdpContent s] | None => [] end.

Definition sTryingSendStatus (a : UaBase) (m : Msg) : outcome (UaBase * answer) :=
  code ← statusCodeOf m;
  if code =? 100 then refused (-1) a
  else if (180 <=? code) && (code <? 200) then
    a ← sendReplyForRequest (myRequestMsg a) code (getSdp m) true a;
    sent U_STATE_RINGING a
  else if (300 <=? code) && (code <? 400) then
    _ ← commandUri (myRequestMsg a);
    let '(r, a) := newStatus (myRequestMsg a) code a in
    let r := with_contacts [getContact m] r in
    a ← setResponse r (emit (SendReply r) a);
    sent U_STATE_FAILURE a
  else if 400 <=? code then
    a ← reply (myRequestMsg a) code a;
    sent U_STATE_FAILURE a
  else if code =? 200 then
    _ ← commandUri (myRequestMsg a);
    let a := match getSdp m with Some s => setLocalSdp (Some s) a | None => a end in
    u ← sipUrlOf (partyUrl (toHdr (myRequestMsg a)));
    let '(r, a) := okFor (myRequestMsg a) code (sdpBody (getSdp m)) (natHost (facade a)) u a in
    a ← setResponse r (emit (SendReply r) a);
    a ← tell (hasController a) InCall a;
    sent U_STATE_INCALL (setCallLegState C_LIVE a)
  else refused 0 a.

(** * Trying, client side *)

Definition cTryingSendRequest (a : UaBase) (m : Msg) : outcome (UaBase * answer) :=
  if is_type m SIP_CANCEL || is_type m SIP_BYE then
    a ← sendCancel a;
    sent U_STATE_FAILURE a
  else if is_type m SIP_INVITE then refused 0 (emit (SendAsync m) a)
  else refused (- EINVAL) a.

(** A response of 200 is stored, then changed for the NAT; the route list is
    that of before the change, the response and the description that of after
    it. *)
Definition cTryingRecvStatus (a : UaBase) (m : Msg) : outcome UaBase :=
  code ← statusCodeOf m;
  if code =? 200 then
    a ← setResponse m a;
    a ← saveRouteList (routeFuel m) m true a;
    m ← fixSdpForNat a m (receivedIPName m);
    let a := setRemoteSdp (getSdp m) (with_response m a) in
    a ← tell (hasController a) (ReceivedStatus m) a;
    goto U_STATE_INCALL (setCallLegState C_LIVE a)
  else if 200 <? code then
    a ← (if code =? 408 then mret a else ackFailure m code a);
    if (code =? 401) || (code =? 407) then tell (hasController a) (ReceivedStatus m) a
    else if code =? 302 then
      match contacts m with
      | [] => let a := with_state U_STATE_IDLE a in tell (hasController a) CallFailed a
      | _ => let a := with_state U_STATE_REDIRECT a in tell (hasController a) (ReceivedStatus m) a
      end
    else let a := with_state U_STATE_IDLE a in tell (hasController a) (ReceivedStatus m) a
  else
    let a := if 180 <=? code then with_state U_STATE_RINGING a else a in
    tell (hasController a) (ReceivedStatus m) a.

Definition cTryingRecvRequest (a : UaBase) (m : Msg) : outcome UaBase :=
  tell (hasController a) (ReceivedRequest m) a.

(** * Ringing *)

Definition ringingRecvStatus (a : UaBase) (m : Msg) : outcome UaBase :=
  code ← statusCodeOf m;
  if code =? 200 then
    m ← fixSdpForNat a m (receivedIPName m);
    a ← setResponse m a;
    a ← saveRouteList (routeFuel m) m true a;
    let a := setRemoteSdp (getSdp m) a in
    a ← setResponseCSeq (cseqHdr m) a;
    let a := setLocalCSeq (cseqHdr m) a in
    a ← tell (hasController a) (ReceivedStatus m) a;
    goto U_STATE_INCALL (setCallLegState C_LIVE a)
  else if 200 <? code then
    a ← (if code =? 408 then mret a else ackFailure m code a);
    a ← tell (hasController a) (ReceivedStatus m) a;
    goto U_STATE_IDLE a
  else mret a.

Definition ringingSendStatus (a : UaBase) (m : Msg) : outcome (UaBase * answer) :=
  code ← statusCodeOf m;
  if code <? 200 then refused (-1) a
  else if ((200 <? code) && (code <? 400)) || (500 <? code) then
    a ← tell (hasController a) EndCall a;
    sent U_STATE_IDLE a
  else if (400 <=? code) && (code <? 500) then
    _ ← commandUri (myRequestMsg a);
    u ← sipUrlOf (partyUrl (toHdr (myRequestMsg a)));
    let '(r, a) := okFor (myRequestMsg a) code [] (natHost (facade a)) u a in
    a ← setResponse r (emit (SendReply r) a);
    let a := setCallLegState C_LIVE a in
    a ← setResponse r a;
    a ← tell (hasController a) CallFailed a;
    sent U_STATE_FAILURE a
  else
    _ ← commandUri (myRequestMsg a);
    let a := match getSdp m with Some s => setLocalSdp (Some s) a | None => a end in
    match asSipUrl (partyUrl (toHdr (myRequestMsg a))) with
    | None =>
        let '(_, a) := newStatus (myRequestMsg a) code a in
        mret (with_state U_STATE_IDLE a, Threw)
    | Some u =>
        let '(r, a) := okFor (myRequestMsg a) code (sdpBody (getSdp m)) (natHost (facade a)) u a in
        a ← setResponse r (emit (SendReply r) a);
        a ← tell (hasController a) InCall a;
        let a := setCallLegState C_LIVE a in
        a ← setResponse r a;
        sent U_STATE_INCALL a
    end.

Definition ringingRecvRequest (a : UaBase) (m : Msg) : outcome UaBase :=
  if is_type m SIP_CANCEL || is_type m SIP_BYE then
    a ← reply m 200 a;
    a ← (if is_type m SIP_CANCEL then reply (myRequestMsg a) 487 a else mret a);
    let a := setCallLegState CLS_NONE a in
    a ← tell (hasController a) (ReceivedRequest m) a;
    goto U_STATE_FAILURE a
  else mret a.

Definition ringingSendRequest (a : UaBase) (m : Msg) : outcome (UaBase * answer) :=
  if is_type m SIP_CANCEL || is_type m SIP_BYE then
    a ← sendCancel (setCallLegState CLS_NONE a);
    sent U_STATE_FAILURE a
  else refused (- EINVAL) a.

(** * In a call *)

Definition inCallRecvRequest (a : UaBase) (m : Msg) : outcome UaBase :=
  _ ← commandUri m;
  match getType m with
  | SIP_INFO =>
      a ← reply m 200 a;
      tell (hasController a) (ReceivedRequest m) a
  | SIP_BYE =>
      a ← reply m 200 a;
      let ba := hasController a in
      a ← tell ba EndCall a;
      a ← tell ba (ReceivedRequest m) a;
      goto U_STATE_IDLE a
  | SIP_ACK =>
      a ← setAck m a;
      tell (hasController a) (ReceivedRequest m) a
  | SIP_INVITE =>
      a ← sendReplyForRequest m 100 None false a;
      a ← setRequest m a;
      a ← tell (hasController a) (HoldAndResumeReinvite m) a;
      goto U_STATE_HOLD a
  | SIP_CANCEL =>
      a ← reply m 200 a;
      a ← reply m 487 a;
      let ba := hasController a in
      a ← tell ba (ReceivedRequest m) a;
      a ← tell ba EndCall a;
      goto U_STATE_FAILURE a
  | SIP_OPTIONS =>
      let '(r, a) := newStatus m 200 a in
      mret (emit (SendReply (with_allow [allowField] r)) a)
  | _ => mret a
  end.

Definition inCallSendRequest (a : UaBase) (m : Msg) : outcome (UaBase * answer) :=
  match getType m with
  | SIP_BYE => '(a, _) ← sendBye a; sent U_STATE_END a
  | SIP_INVITE => a ← sendReInvite m a; sent U_STATE_HOLD a
  | SIP_ACK =>
      r ← match myResponseMsg a with Some r => mret r | None => Fault AssertFailed end;
      code ← statusCodeOf r;
      a ← ackStatus strict r (getSdp m) a;
      _ ← ackMsg r code;
      refused 0 (match getSdp m with Some s => setRemoteSdp (Some s) a | None => a end)
  | SIP_CANCEL => a ← sendCancel a; sent U_STATE_END a
  | _ => refused (- EINVAL) a
  end.

Definition inCallRecvStatus (a : UaBase) (m : Msg) : outcome UaBase :=
  code ← statusCodeOf m;
  a ← (if 200 <? code then
         ack ← ackMsg m code;
         uri ← commandUri (myRequestMsg a);
         let ack := popRoute (with_routes (myRouteList a) (addSelfInVia a ack)) in
         mret (emit (SendAsync (setRequestUrl uri ack)) a)
       else mret a);
  a ← (if (code =? 200) && hasMethod (str "INVITE") m then
         _ ← ackMsg m code;
         a ← setResponseCSeq (cseqHdr m) a;
         mret (setLocalCSeq (cseqHdr m) a)
       else mret a);
  tell (hasController a) (ReceivedStatus m) a.

(** A response of the application in a call or in hold; [host] is the host of
    its contact. *)
Definition sendStatusAt (host : bytes) (a : UaBase) (m : Msg) : outcome (UaBase * answer) :=
  code ← statusCodeOf m;
  if code =? 200 then
    _ ← commandUri (myRequestMsg a);
    u ← sipUrlOf (partyUrl (toHdr (myRequestMsg a)));
    let '(r, a) := okFor (myRequestMsg a) code (take 1 (contents m)) host u a in
    refused 0 (emit (SendReply r) a)
  else if 200 <? code then
    a ← reply (myRequestMsg a) code a; refused 0 a
  else refused 0 a.

Definition inCallSendStatus (a : UaBase) (m : Msg) : outcome (UaBase * answer) :=
  sendStatusAt (natHost (facade a)) a m.

(** * On hold *)

Definition inHoldRecvStatus (a : UaBase) (m : Msg) : outcome UaBase :=
  code ← statusCodeOf m;
  a ← (if (200 <=? code) && hasMethod (str "INVITE") m then
         ack ← ackMsg m code;
         mret (emit (SendAsync (addSelfInVia a ack)) a)
       else mret a);
  if (code =? 200) && hasMethod (str "INVITE") m then
    a ← setResponseCSeq (cseqHdr m) a;
    tell (hasController a) DoHold a
  else tell (hasController a) (ReceivedStatus m) a.

Definition inHoldSendStatus (a : UaBase) (m : Msg) : outcome (UaBase * answer) :=
  sendStatusAt (localIp (facade a)) a m.

Definition inHoldRecvRequest (a : UaBase) (m : Msg) : outcome UaBase :=
  _ ← commandUri m;
  match getType m with
  | SIP_INFO =>
      a ← reply m 200 a;
      tell (hasController a) (ReceivedRequest m) a
  | SIP_BYE =>
      a ← reply m 200 a;
      let ba := hasController a in
      a ← tell ba EndCall a;
      a ← tell ba (ReceivedRequest m) a;
      goto U_STATE_IDLE a
  | SIP_ACK =>
      a ← setAck m a;
      tell (hasController a) (ReceivedRequest m) a
  | SIP_INVITE =>
      a ← sendReplyForRequest m 100 None false a;
      a ← setRequest m a;
      a ← tell (hasController a) (ReqResume m) a;
      goto U_STATE_INCALL a
  | SIP_CANCEL =>
      a ← reply m 200 a;
      a ← reply m 487 a;
      let ba := hasController a in
      a ← tell ba (ReceivedRequest m) a;
      a ← tell ba EndCall a;
      goto U_STATE_FAILURE a
  | _ => mret a
  end.

Definition inHoldSendRequest (a : UaBase) (m : Msg) : outcome (UaBase * answer) :=
  match getType m with
  | SIP_BYE => '(a, _) ← sendBye a; sent U_STATE_END a
  | SIP_INVITE => a ← sendReInvite m a; sent U_STATE_INCALL a
  | SIP_ACK =>
      r ← match myResponseMsg a with Some r => mret r | None => Fault AssertFailed end;
      code ← statusCodeOf r;
      ack ← ackMsg r code;
      refused 0 (emit (SendAsync (addSelfInVia a ack)) a)
  | SIP_CANCEL => a ← sendCancel a; sent U_STATE_END a
  | _ => refused (- EINVAL) a
  end.

(** * After a failure *)

Definition failureRecvRequest (a : UaBase) (m : Msg) : outcome UaBase :=
  if is_type m SIP_ACK && isAServer a then
    a ← tell (hasController a) CallFailed a;
    goto U_STATE_IDLE a
  else mret a.

Definition failureRecvStatus (a : UaBase) (m : Msg) : outcome UaBase :=
  _ ← cassert (isAClient a);
  code ← statusCodeOf m;
  if 200 <? code then
    a ← (if code =? 487 then
           uri ← match asCommand (myRequestMsg a) with
                 | Some uri => if is_type (myRequestMsg a) SIP_INVITE then mret uri else Fault AssertFailed
                 | None => Fault AssertFailed
                 end;
           ack ← ackMsg m code;
           let ack := with_vias [getVia0 (myRequestMsg a)] ack in
           ack ← setRequestLine strict (localIp (facade a)) SIP_ACK (asSipUrl uri) ack;
           mret (emit (SendAsync ack) a)
         else mret a);
    let ba := hasController a in
    a ← tell ba (ReceivedStatus m) a;
    a ← tell ba CallFailed a;
    goto U_STATE_IDLE a
  else mret a.

(** * Redirected *)

Definition redirectRecvStatus (a : UaBase) (m : Msg) : outcome UaBase :=
  code ← statusCodeOf m;
  if code =? 200 then
    a ← setResponse m a;
    a ← saveRouteList (routeFuel m) m true a;
    let a := setRemoteSdp (getSdp m) a in
    a ← tell (hasController a) (ReceivedStatus m) a;
    goto U_STATE_INCALL (setCallLegState C_LIVE a)
  else if 200 <? code then
    a ← (if code =? 408 then mret a else ackFailure m code a);
    let a := with_state U_STATE_IDLE a in
    tell (hasController a) (ReceivedStatus m) a
  else
    let a := if 180 <=? code then with_state U_STATE_RINGING a else a in
    tell (hasController a) (ReceivedStatus m) a.

(** * Ended *)

Definition endRecvStatus (a : UaBase) (m : Msg) : outcome UaBase :=
  _ ← statusCodeOf m;
  let a := with_state U_STATE_IDLE a in
  tell (hasController a) (ReceivedStatus m) a.

(** * Dispatch *)

Definition recvRequest (a : UaBase) (m : Msg) : outcome UaBase :=
  match myState a with
  | U_STATE_IDLE => idleRecvRequest a m
  | U_STATE_S_TRYING => sTryingRecvRequest a m
  | U_STATE_C_TRYING => cTryingRecvRequest a m
  | U_STATE_RINGING => ringingRecvRequest a m
  | U_STATE_FAILURE => failureRecvRequest a m
  | U_STATE_INCALL => inCallRecvRequest a m
  | U_STATE_HOLD => inHoldRecvRequest a m
  | U_STATE_END | U_STATE_REDIRECT => mret a
  end.

Definition recvStatus (a : UaBase) (m : Msg) : outcome UaBase :=
  match myState a with
  | U_STATE_IDLE | U_STATE_S_TRYING => mret a
  | U_STATE_C_TRYING => cTryingRecvStatus a m
  | U_STATE_RINGING => ringingRecvStatus a m
  | U_STATE_FAILURE => failureRecvStatus a m
  | U_STATE_INCALL => inCallRecvStatus a m
  | U_STATE_HOLD => inHoldRecvStatus a m
  | U_STATE_END => endRecvStatus a m
  | U_STATE_REDIRECT => redirectRecvStatus a m
  end.

Definition sendRequest (a : UaBase) (m : Msg) : outcome (UaBase * answer) :=
  match myState a with
  | U_STATE_IDLE => idleSendRequest a m
  | U_STATE_C_TRYING => cTryingSendRequest a m
  | U_STATE_RINGING => ringingSendRequest a m
  | U_STATE_INCALL => inCallSendRequest a m
  | U_STATE_HOLD => inHoldSendRequest a m
  | U_STATE_REDIRECT => refused 0 a
  | U_STATE_S_TRYING | U_STATE_FAILURE | U_STATE_END => refused (-1) a
  end.

Definition sendStatus (a : UaBase) (m : Msg) : outcome (UaBase * answer) :=
  match myState a with
  | U_STATE_S_TRYING => sTryingSendStatus a m
  | U_STATE_RINGING => ringingSendStatus a m
  | U_STATE_INCALL => inCallSendStatus a m
  | U_STATE_HOLD => inHoldSendStatus a m
  | U_STATE_IDLE | U_STATE_C_TRYING | U_STATE_FAILURE | U_STATE_END | U_STATE_REDIRECT => refused (-1) a
  end.

(** [UaBase::receivedMsg] and [UaBase::sendMsg]. *)
Definition receivedMsg (a : UaBase) (m : Msg) : outcome UaBase :=
  if is_type m SIP_STATUS then recvStatus a m else recvRequest a m.

Definition sendMsg (a : UaBase) (m : Msg) : outcome (UaBase * answer) :=
  if is_type m SIP_STATUS then sendStatus a m else sendRequest a m.

End States.

End UaState.
