(* ===== verification/UaFacts.v ===== *)
(** The invariant of the SIP user agent: every operation keeps an agent well
    formed, and a message that is received is handled without a failed
    assertion or a null pointer except in the cases that are listed. *)
From S2P Require Import Prelude DataStr DataStrFacts DataStrText SipHeap SipBaseUrl SipStartLine SipMessageFacts UaMsg UaAgent UaState.
Import DataStr DataStrFacts SipHeap UaMsg UaAgent UaState.
Import SipMessageFacts(requestOk, requestText).

Module UaFacts.

Lemma incrCSeq_returns c : returns (incrCSeq c).
Proof. unfold incrCSeq, getNextCSeq. destruct (toInt_returns (cseq c)) as [v ->]. cbn. now eexists. Qed.

Lemma ackMsg_returns m code : returns (ackMsg m code).
Proof.
  unfold ackMsg, commandOf. destruct (incrCSeq_returns (cseqHdr m)) as [c ->]. cbn. now eexists.
Qed.

(** * Well-formed agents *)

(** A command is of a class whose type is not that of a response. *)
Definition wfMsg (m : Msg) : Prop :=
  match msgKind m with Request method _ => method <> SIP_STATUS | Response _ => True end.

Definition wfInvite (m : Msg) : Prop := getType m = SIP_INVITE.
Definition wfResponse (m : Msg) : Prop := is_Some (asStatus m).

(** What a state presupposes of its agent. *)
Definition stateOk (s : UStateType) (role : AgentRole) (response : option Msg) : Prop :=
  match s with
  | U_STATE_S_TRYING => role = A_SERVER
  | U_STATE_C_TRYING | U_STATE_REDIRECT => role = A_CLIENT
  | U_STATE_INCALL | U_STATE_HOLD => is_Some response
  | _ => True
  end.

Definition wf (a : UaBase) : Prop :=
  wfInvite (myRequestMsg a)
  /\ (forall r, myResponseMsg a = Some r -> wfResponse r)
  /\ (forall k, myAckMsg a = Some k -> getType k = SIP_ACK)
  /\ stateOk (myState a) (myAgentRole a) (myResponseMsg a).

(** What no operation undoes. *)
Definition keeps (a a' : UaBase) : Prop :=
  wf a' /\ myAgentRole a' = myAgentRole a /\ (is_Some (myResponseMsg a) -> is_Some (myResponseMsg a')).

Lemma keeps_refl a : wf a -> keeps a a.
Proof. intros H. split; [exact H|]. split; [reflexivity | tauto]. Qed.

Lemma keeps_trans a b c : keeps a b -> keeps b c -> keeps a c.
Proof. intros (_ & E & Hr) (W & E' & Hr'). split; [exact W|]. split; [congruence | auto]. Qed.

Lemma keeps_wf a a' : keeps a a' -> wf a'.
Proof. now intros [H _]. Qed.

Lemma keeps_state s a a' :
  keeps a a' -> stateOk s (myAgentRole a) (myResponseMsg a') -> keeps a (with_state s a').
Proof.
  intros ((Hi & Hr & Hk & _) & E & H) Hs. split; [|split; [exact E | exact H]].
  split; [exact Hi|]. split; [exact Hr|]. split; [exact Hk|]. cbn. now rewrite E.
Qed.

(** Changes of what the invariant does not mention. *)
Lemma keeps_same a a' b :
  keeps a a' -> myState b = myState a' -> myAgentRole b = myAgentRole a' -> myRequestMsg b = myRequestMsg a' ->
  myResponseMsg b = myResponseMsg a' -> myAckMsg b = myAckMsg a' -> keeps a b.
Proof.
  intros ((Hi & Hr & Hk & Hs) & E & H) E1 E2 E3 E4 E5. unfold keeps, wf.
  rewrite E1, E2, E3, E4, E5. tauto.
Qed.

Lemma keeps_response r a a' : keeps a a' -> wfResponse r -> keeps a (with_response r a').
Proof.
  intros ((Hi & Hr & Hk & Hs) & E & H) Hw. split; [|split; [exact E | eauto]].
  split; [exact Hi|]. split; [cbn; congruence|]. split; [exact Hk|].
  cbn. destruct (myState a'); cbn in *; eauto.
Qed.

Lemma keeps_request r a a' : keeps a a' -> wfInvite r -> keeps a (with_request r a').
Proof. intros ((Hi & Hr & Hk & Hs) & E & H) Hw. split; [|split; [exact E | exact H]]. split; [exact Hw | tauto]. Qed.

Lemma keeps_ack k a a' : keeps a a' -> getType k = SIP_ACK -> keeps a (with_ack k a').
Proof.
  intros ((Hi & Hr & Hk & Hs) & E & H) Hw. split; [|split; [exact E | exact H]].
  split; [exact Hi|]. split; [exact Hr|]. split; [cbn; congruence | exact Hs].
Qed.

Lemma wf_request_uri a : wf a -> exists uri, asCommand (myRequestMsg a) = Some uri.
Proof.
  intros [H _]. unfold wfInvite, getType, asCommand in *. destruct (msgKind (myRequestMsg a)); [eauto | discriminate].
Qed.

(** * The request line of an ACK *)

Definition ackLine (ip : bytes) (u : SipUrl) : SipStartLine.SipRequestLine :=
  SipStartLine.mkRequestLine (Some (SipBaseUrl.ASipUrl (fullUrl ip u))) (str "ACK") (str "2.0") (str "SIP").

(** A URL that the line of an ACK can carry: a SIP URL whose parts the format
    can print and read. *)
Definition ackable (ip : bytes) (uri : BaseUrl) : bool :=
  match asSipUrl uri with
  | Some u => requestOk ip (ackLine ip u) && (zlen (requestText (ackLine ip u)) + 2 <? npos)
  | None => false
  end.

Lemma setRequestLine_ackable strict ip uri m :
  ackable ip uri = true -> setRequestLine strict ip SIP_ACK (asSipUrl uri) m = Ret (setRequestUrl uri m).
Proof.
  unfold ackable, setRequestLine, requestLineTo. destruct uri as [|u|n]; [discriminate | | discriminate]. cbn [asSipUrl option_map].
  intros [H Hl]%andb_prop. apply Z.ltb_lt in Hl. change (SipStartLine.requestLineOf SIP_ACK _) with (@Ret SipStartLine.SipRequestLine (ackLine ip u)).
  cbn [mbind outcome_bind]. rewrite (SipMessageFacts.encodeRequestLine_text ip _ H). cbn [mbind outcome_bind].
  destruct (SipMessageFacts.decodeRequestLine_again strict (fun _ => false) [] ip _ (SipStartLine.copyRequestLine (ackLine ip u)) H Hl) as (r & ->). reflexivity.
Qed.

(** Of a URL that is not a SIP URL the line is empty. *)
Lemma setRequestLine_none strict ip m : setRequestLine strict ip SIP_ACK None m = Fault AssertFailed.
Proof. vm_compute. reflexivity. Qed.

Lemma wp_setRequestLine E (Q : Msg -> Prop) strict ip uri m :
  (ackable ip uri = false -> E) -> (forall m', Q m') -> wp E Q (setRequestLine strict ip SIP_ACK (asSipUrl uri) m).
Proof.
  intros HE HQ. destruct (ackable ip uri) eqn:H.
  - rewrite setRequestLine_ackable by exact H. apply HQ.
  - destruct (setRequestLine _ _ _ _ _); [apply HQ | now apply HE].
Qed.

(** * The operations the states share *)

Section Controlled.
Variable randomHex : nat -> bytes.
Variable ipName : bytes -> bytes.
Variable controller : Callback -> UaBase -> outcome UaBase.
Variable strict : bool.

(** A controller that uses the agent by its operations keeps it well formed. *)
Hypothesis controller_keeps : forall c a, wf a -> exists a', controller c a = Ret a' /\ keeps a a'.

Implicit Types (E : Prop) (a b : UaBase) (m : Msg).

Lemma wp_tell E a b ba c : keeps a b -> wp E (keeps a) (tell controller ba c b).
Proof.
  intros H. unfold tell. destruct ba; [|exact H].
  destruct (controller_keeps c (emit (Told c) b)) as (b' & -> & Hb).
  - apply (keeps_wf _ _ H).
  - apply (keeps_trans _ _ _ H), Hb.
Qed.

Lemma wp_command E (Q : BaseUrl -> Prop) m : is_Some (asCommand m) -> (forall u, Q u) -> wp E Q (commandUri m).
Proof. intros [u Hu] H. unfold commandUri. rewrite Hu. apply H. Qed.

Lemma command_of_wf a : wf a -> is_Some (asCommand (myRequestMsg a)).
Proof. intros H. destruct (wf_request_uri a H) as [u ->]. now eexists. Qed.

Lemma keeps_newStatus a b c code r b' :
  keeps a b -> newStatus randomHex c code b = (r, b') -> keeps a b' /\ asStatus r = Some code.
Proof.
  intros H [= <- <-]. split; [|reflexivity]. destruct (needsTag c code); [|exact H].
  now apply (keeps_same a b).
Qed.

Lemma wp_setResponse E a b r : keeps a b -> wfResponse r -> wp E (keeps a) (setResponse r b).
Proof.
  intros H Hr. unfold setResponse. pose proof (keeps_response r a b H Hr) as K.
  destruct Hr as [code Hr]. unfold asStatus in Hr. unfold getType. destruct (msgKind r); [discriminate | exact K].
Qed.

Lemma asStatus_setSdp s r : asStatus (setSdp s r) = asStatus r.
Proof. now destruct s. Qed.

Lemma wp_reply E a b m code s mem :
  keeps a b -> is_Some (asCommand m) -> wp E (keeps a) (sendReplyForRequest randomHex m code s mem b).
Proof.
  intros H Hm. unfold sendReplyForRequest. apply wp_bind, wp_command; [exact Hm|]. intros _.
  destruct (newStatus randomHex m code b) as [r b'] eqn:Er.
  destruct (keeps_newStatus _ _ _ _ _ _ H Er) as [H' Hr].
  assert (keeps a (emit (SendReply (setSdp s r)) b')) as H'' by now apply (keeps_same a b').
  destruct mem; [|exact H'']. apply wp_setResponse; [exact H''|].
  unfold wfResponse. rewrite asStatus_setSdp, Hr. now eexists.
Qed.

Definition isSip (u : BaseUrl) : Prop := is_Some (asSipUrl u).

Lemma routesOf_returns rev rr : forall fuel acc, Forall isSip rr -> (length rr < fuel)%nat ->
  routesOf fuel rr rev acc = Ret (if rev : bool then List.rev rr ++ acc else acc ++ rr).
Proof.
  induction rr as [|u rr IH]; intros fuel acc H Hf; (destruct fuel as [|fuel]; [cbn in Hf; lia|]); cbn [routesOf].
  - destruct rev; cbn; now rewrite ?app_nil_r.
  - apply Forall_cons_1 in H as [[v Hu] H]. destruct u as [|u|n]; [discriminate| |discriminate].
    cbn [sipUrlOf asSipUrl mbind outcome_bind mret outcome_ret]. rewrite IH by (cbn in Hf; auto; lia).
    destruct rev; cbn [List.rev]; now rewrite <- app_assoc.
Qed.

Lemma saveRouteList_returns m rev a :
  Forall isSip (recordRoutes m) ->
  saveRouteList (routeFuel m) m rev a =
    Ret (with_routeList ((if rev : bool then List.rev (recordRoutes m) else recordRoutes m) ++ contactRoute m) a).
Proof.
  intros H. unfold saveRouteList. rewrite routesOf_returns by (auto; unfold routeFuel; lia).
  cbn. now rewrite app_nil_r.
Qed.

Lemma routesOf_faults rev fuel : forall rr acc, ~ Forall isSip rr -> exists f, routesOf fuel rr rev acc = Fault f.
Proof.
  induction fuel as [|fuel IH]; intros rr acc H; [now exists OutOfFuel|]. cbn [routesOf].
  destruct rr as [|[|u|n] rr]; [now destruct H; constructor | now eexists | | now apply IH].
  cbn [sipUrlOf asSipUrl mbind outcome_bind mret outcome_ret]. apply IH. intros Hr. apply H. constructor; [now eexists | exact Hr].
Qed.

Lemma isSip_dec u : {isSip u} + {~ isSip u}.
Proof. unfold isSip. destruct (asSipUrl u); [left; now eexists | right; now intros [? ?]]. Qed.

Lemma wp_saveRouteList E a b m rev :
  keeps a b -> (~ Forall isSip (recordRoutes m) -> E) -> wp E (keeps a) (saveRouteList (routeFuel m) m rev b).
Proof.
  intros H HE. destruct (Forall_dec isSip isSip_dec (recordRoutes m)) as [Hs | Hs].
  - rewrite saveRouteList_returns by exact Hs. now apply (keeps_same a b).
  - destruct (saveRouteList (routeFuel m) m rev b) eqn:Es; [|now apply HE].
    unfold saveRouteList in Es. destruct (routesOf _ _ _ _) as [l|]; [|discriminate].
    injection Es as <-. now apply (keeps_same a b).
Qed.

Lemma wp_ackFailure E a b m code : keeps a b -> wp E (keeps a) (ackFailure m code b).
Proof.
  intros H. unfold ackFailure. apply wp_first; [apply ackMsg_returns|]. intros ack _.
  apply wp_bind, wp_command; [apply command_of_wf, (keeps_wf _ _ H)|]. intros u. now apply (keeps_same a b).
Qed.

(** The NAT's address is put into a 200 only if its contact is a SIP URL. *)
Definition natTrouble a m : Prop :=
  shouldFixSdpForNat (facade a) = true /\ asStatus m = Some 200 /\ ~ isSip (getContact m).

Lemma fixSdpForNat_kind a m nat :
  wp (natTrouble a m) (fun m' => msgKind m' = msgKind m) (fixSdpForNat ipName a m nat).
Proof.
  unfold fixSdpForNat, natTrouble. destruct (shouldFixSdpForNat (facade a)); [|reflexivity]. cbn [negb].
  destruct (_ || _); [reflexivity|]. destruct (_ <? _); [reflexivity|]. destruct (textEq _ _); [reflexivity|].
  unfold asStatus. destruct (msgKind m) as [meth uri|code] eqn:Ek.
  - destruct meth; try exact eq_refl; destruct (contents m) as [|[] ?]; exact Ek || reflexivity.
  - destruct (Z.eqb_spec code 200) as [->|]; [|exact Ek].
    unfold isSip, sipUrlOf. destruct (asSipUrl (getContact m)); cbn.
    + destruct (contents m) as [|[] ?]; exact Ek.
    + split; [reflexivity|]. split; [reflexivity|]. now intros [? ?].
Qed.

Lemma fixSdpForNat_rr a m nat :
  wp True (fun m' => recordRoutes m' = recordRoutes m) (fixSdpForNat ipName a m nat).
Proof.
  unfold fixSdpForNat. destruct (shouldFixSdpForNat (facade a)); [|reflexivity]. cbn [negb].
  destruct (_ || _); [reflexivity|]. destruct (_ <? _); [reflexivity|]. destruct (textEq _ _); [reflexivity|].
  destruct (msgKind m) as [meth uri|code].
  - destruct meth; try exact eq_refl; destruct (contents m) as [|[] ?]; reflexivity.
  - destruct (code =? 200); [|reflexivity]. unfold sipUrlOf. destruct (asSipUrl (getContact m)); [|exact I].
    cbn. destruct (contents m) as [|[] ?]; reflexivity.
Qed.

(** * Every operation keeps its agent well formed *)

Lemma wp_then E a (m : outcome UaBase) k :
  wp E (keeps a) m -> (forall b, keeps a b -> wp E (keeps a) (k b)) -> wp E (keeps a) (m ≫= k).
Proof. apply wp_seq. Qed.

Ltac keep :=
  match goal with
  | H : keeps ?a ?b |- keeps ?a ?b => exact H
  | H : wf ?a |- keeps ?a ?a => exact (keeps_refl a H)
  | |- keeps _ (with_state _ _) => apply keeps_state; [keep | try exact I]
  | |- keeps _ (with_response _ _) => apply keeps_response; [keep |]
  | |- keeps _ (if _ then _ else _) => case_match; keep
  | |- keeps _ (match _ with Some _ => _ | None => _ end) => case_match; keep
  | |- keeps ?a (?f ?x ?b) => apply (keeps_same a b); [keep | reflexivity..]
  | _ => idtac
  end.

Ltac ua_step :=
  match goal with
  | |- wp _ _ (UaAgent.reply _ _ _ _) => apply wp_reply; [keep |]
  | |- wp _ _ (UaAgent.sendReplyForRequest _ _ _ _ _ _) => apply wp_reply; [keep |]
  | |- wp _ _ (UaAgent.tell _ _ _ _) => apply wp_tell; keep
  | |- wp _ _ (ackFailure _ _ _) => apply wp_ackFailure; keep
  | |- wp _ _ (setResponse _ _) => apply wp_setResponse; [keep |]
  | |- wp _ _ (saveRouteList _ _ _ _) => apply wp_saveRouteList; [keep |]
  | |- wp _ _ (if ?c then _ else _) => destruct c eqn:?
  | |- wp _ (keeps _) (mbind _ _) => apply wp_then; [|intros ? ?]
  | |- wp _ (keeps ?a) (goto ?s ?b) => change (keeps a (with_state s b)); keep
  | |- wp _ (keeps ?a) (mret ?b) => change (keeps a b); keep
  end.

Ltac ua := repeat ua_step.

Lemma command_of_keeps a b : keeps a b -> is_Some (asCommand (myRequestMsg b)).
Proof. intros H. apply command_of_wf, (keeps_wf _ _ H). Qed.

Lemma response_of_keeps a b : keeps a b -> is_Some (myResponseMsg a) -> is_Some (myResponseMsg b).
Proof. intros (_ & _ & H). exact H. Qed.

(** A request, as [getType] tells it. *)
Lemma request_command m : wfMsg m -> is_method (getType m) SIP_STATUS = false -> is_Some (asCommand m).
Proof. unfold getType, asCommand. destruct (msgKind m); [now eexists | discriminate]. Qed.

Lemma status_code m : wfMsg m -> is_method (getType m) SIP_STATUS = true -> is_Some (asStatus m).
Proof.
  unfold wfMsg, getType, asStatus. destruct (msgKind m) as [meth uri|code]; [|now eexists].
  intros Hm Ht. apply bool_decide_eq_true in Ht. contradiction.
Qed.

Lemma is_method_true (x y : Method) : is_method x y = true -> x = y.
Proof. apply bool_decide_eq_true_1. Qed.

Lemma keeps_stateOk s role r r' : stateOk s role r -> (is_Some r -> is_Some r') -> stateOk s role r'.
Proof. destruct s; cbn; auto. Qed.

Create HintDb ua.
#[local] Hint Resolve command_of_keeps command_of_wf response_of_keeps keeps_refl : ua.

Lemma idleRecvRequest_wp E a m :
  wf a -> is_Some (asCommand m) -> (myAgentRole a = A_SERVER -> ~ Forall isSip (recordRoutes m) -> E) ->
  wp E (keeps a) (idleRecvRequest randomHex a m).
Proof.
  intros Hw Hm HE. unfold idleRecvRequest, isAServer. ua; auto with ua.
  all: apply andb_true_iff in Heqb as [Hs _]; apply bool_decide_eq_true_1 in Hs; auto.
Qed.

Lemma sTryingRecvRequest_wp E a m :
  wf a -> myState a = U_STATE_S_TRYING -> is_Some (asCommand m) ->
  wp E (keeps a) (sTryingRecvRequest randomHex controller a m).
Proof.
  intros Hw Hs Hm. unfold sTryingRecvRequest. ua; eauto with ua.
  destruct Hw as (_ & _ & _ & Hw). now rewrite Hs in Hw.
Qed.

Lemma ringingRecvRequest_wp E a m :
  wf a -> is_Some (asCommand m) -> wp E (keeps a) (ringingRecvRequest randomHex controller a m).
Proof. intros Hw Hm. unfold ringingRecvRequest. ua; eauto with ua. Qed.

Lemma failureRecvRequest_wp E a m :
  wf a -> wp E (keeps a) (failureRecvRequest controller a m).
Proof. intros Hw. unfold failureRecvRequest. ua. Qed.

Lemma wp_setRequest E a b m : keeps a b -> getType m = SIP_INVITE -> wp E (keeps a) (setRequest m b).
Proof. intros H Hm. unfold setRequest. rewrite Hm. cbn. now apply keeps_request. Qed.

Lemma wp_setAck E a b m : keeps a b -> getType m = SIP_ACK -> wp E (keeps a) (setAck m b).
Proof. intros H Hm. unfold setAck. rewrite Hm. cbn. now apply keeps_ack. Qed.

Lemma keeps_with_newStatus a m code b :
  keeps a b -> keeps a (snd (newStatus randomHex m code b)).
Proof. intros H. eapply keeps_newStatus; [exact H | reflexivity]. Qed.

(** A call in progress, in which a response is stored. *)
Definition inDialog a : Prop := is_Some (myResponseMsg a).

Lemma inCallRecvRequest_wp E a m :
  wf a -> inDialog a -> is_Some (asCommand m) -> wp E (keeps a) (inCallRecvRequest randomHex controller a m).
Proof.
  intros Hw Hd Hm. unfold inCallRecvRequest. apply wp_bind, wp_command; [exact Hm|]. intros _.
  destruct (getType m) eqn:Et; ua; eauto with ua; try (apply wp_setRequest || apply wp_setAck; [keep | exact Et]).
  - now apply (response_of_keeps a).
  - apply (keeps_same a (snd (newStatus randomHex m 200 a)));
      [now apply keeps_with_newStatus, keeps_refl | reflexivity..].
Qed.

Lemma inHoldRecvRequest_wp E a m :
  wf a -> inDialog a -> is_Some (asCommand m) -> wp E (keeps a) (inHoldRecvRequest randomHex controller a m).
Proof.
  intros Hw Hd Hm. unfold inHoldRecvRequest. apply wp_bind, wp_command; [exact Hm|]. intros _.
  destruct (getType m) eqn:Et; ua; eauto with ua; try (apply wp_setRequest || apply wp_setAck; [keep | exact Et]).
  now apply (response_of_keeps a).
Qed.

(** The URL of the agent's INVITE cannot be that of an ACK. *)
Definition unackable a : Prop :=
  exists uri, asCommand (myRequestMsg a) = Some uri /\ ackable (localIp (facade a)) uri = false.

(** The ways a received message ends the process. *)
Definition troubled a m : Prop :=
  match myState a with
  | U_STATE_IDLE => myAgentRole a = A_SERVER /\ ~ Forall isSip (recordRoutes m)
  | U_STATE_FAILURE => is_Some (asStatus m) /\ (myAgentRole a = A_SERVER \/ asStatus m = Some 487 /\ unackable a)
  | U_STATE_C_TRYING | U_STATE_RINGING =>
      asStatus m = Some 200 /\ (~ Forall isSip (recordRoutes m) \/ natTrouble a m)
  | U_STATE_REDIRECT => asStatus m = Some 200 /\ ~ Forall isSip (recordRoutes m)
  | _ => False
  end.

Theorem recvRequest_wp a m :
  wf a -> is_Some (asCommand m) -> wp (troubled a m) (keeps a) (recvRequest randomHex controller a m).
Proof.
  intros Hw Hm. pose proof Hw as (_ & _ & _ & Hs). unfold recvRequest, troubled.
  destruct (myState a) eqn:Es; cbn [stateOk] in Hs.
  - apply idleRecvRequest_wp; auto.
  - now apply sTryingRecvRequest_wp.
  - unfold cTryingRecvRequest. ua.
  - now apply ringingRecvRequest_wp.
  - now apply failureRecvRequest_wp.
  - now apply inCallRecvRequest_wp.
  - now apply keeps_refl.
  - now apply keeps_refl.
  - now apply inHoldRecvRequest_wp.
Qed.

(** ** Responses received *)

Lemma setResponse_status r a : wfResponse r -> setResponse r a = Ret (with_response r a).
Proof.
  intros [code H]. unfold setResponse, getType. unfold asStatus in H. now destruct (msgKind r).
Qed.

Lemma statusCodeOf_Ret m code : asStatus m = Some code -> statusCodeOf m = Ret code.
Proof. intros H. unfold statusCodeOf. now rewrite H. Qed.

Lemma wp_weaken {A} (E E' : Prop) (Q : A -> Prop) (m : outcome A) : wp E Q m -> (E -> E') -> wp E' Q m.
Proof. destruct m; cbn; auto. Qed.

Lemma wfResponse_kind m m' : wfResponse m -> msgKind m' = msgKind m -> wfResponse m'.
Proof. unfold wfResponse, asStatus. now intros H ->. Qed.

Lemma saveRouteList_seq E {B} (Q : B -> Prop) m rev a (k : UaBase -> outcome B) :
  (~ Forall isSip (recordRoutes m) -> E) ->
  (forall l, wp E Q (k (with_routeList l a))) ->
  wp E Q (saveRouteList (routeFuel m) m rev a ≫= k).
Proof.
  intros HE Hk. destruct (Forall_dec isSip isSip_dec (recordRoutes m)) as [Hs | Hs].
  - rewrite saveRouteList_returns by exact Hs. apply Hk.
  - unfold saveRouteList. destruct (routesOf_faults rev (routeFuel m) _ [] Hs) as [f ->]. now apply HE.
Qed.

(** The end of a 200 to an INVITE, in three states. *)
Lemma answered_wp E a b m :
  keeps a b -> inDialog b ->
  wp E (keeps a) (c ← tell controller (hasController b) (ReceivedStatus m) b; goto U_STATE_INCALL (setCallLegState C_LIVE c)).
Proof.
  intros Hk Hd. apply (wp_mono _ (keeps b)); [|intros c Hc; exact (keeps_trans a b c Hk Hc)].
  pose proof (keeps_wf _ _ Hk). ua. now apply (response_of_keeps b).
Qed.

Lemma cTryingRecvStatus_wp a m :
  wf a -> myState a = U_STATE_C_TRYING -> wfResponse m ->
  wp (troubled a m) (keeps a) (cTryingRecvStatus ipName controller a m).
Proof.
  intros Hw Hs Hm. pose proof Hm as [code Hc]. unfold cTryingRecvStatus, troubled. rewrite Hs, Hc.
  rewrite (statusCodeOf_Ret _ _ Hc). cbn [mbind outcome_bind]. destruct (Z.eqb_spec code 200) as [->|Hn].
  - rewrite setResponse_status by exact Hm. cbn [mbind outcome_bind]. apply saveRouteList_seq; [tauto|].
    intros l. eapply wp_seq; [eapply wp_weaken; [apply fixSdpForNat_kind |]|].
    { intros Ht. split; [reflexivity | right; exact Ht]. }
    intros m' Hk. apply answered_wp; [|now eexists]. keep; [exact Hm | now apply (wfResponse_kind m)].
  - destruct (200 <? code); [|cbn; ua].
    ua. destruct (contacts m); ua. 1,2: destruct Hw as (_ & _ & _ & Hw); rewrite Hs in Hw; exact Hw.
Qed.

Lemma setResponseCSeq_some c a r :
  myResponseMsg a = Some r -> setResponseCSeq c a = Ret (with_response (with_cseq c r) a).
Proof. intros H. unfold setResponseCSeq. now rewrite H. Qed.

Lemma ringingRecvStatus_wp a m :
  wf a -> myState a = U_STATE_RINGING -> wfResponse m ->
  wp (troubled a m) (keeps a) (ringingRecvStatus ipName controller a m).
Proof.
  intros Hw Hs Hm. pose proof Hm as [code Hc]. unfold ringingRecvStatus, troubled. rewrite Hs, Hc.
  rewrite (statusCodeOf_Ret _ _ Hc). cbn [mbind outcome_bind]. destruct (Z.eqb_spec code 200) as [->|Hn]; [|ua].
  apply wp_bind. pose proof (fixSdpForNat_rr a m (receivedIPName m)) as Hrr.
  pose proof (fixSdpForNat_kind a m (receivedIPName m)) as Hk.
  destruct (fixSdpForNat ipName a m (receivedIPName m)) as [m'|]; [|cbn in *; tauto]. cbn in Hk, Hrr |- *.
  pose proof (wfResponse_kind m m' Hm Hk) as Hm'.
  rewrite setResponse_status by exact Hm'. cbn [mbind outcome_bind]. apply saveRouteList_seq; [rewrite Hrr; tauto|].
  intros l. rewrite (setResponseCSeq_some _ _ m') by reflexivity. cbn [mbind outcome_bind mret outcome_ret].
  match goal with |- context [tell controller _ _ ?b] => apply (answered_wp _ a b) end; [|now eexists].
  keep; assumption.
Qed.

Lemma redirectRecvStatus_wp a m :
  wf a -> myState a = U_STATE_REDIRECT -> wfResponse m ->
  wp (troubled a m) (keeps a) (redirectRecvStatus controller a m).
Proof.
  intros Hw Hs Hm. pose proof Hm as [code Hc]. unfold redirectRecvStatus, troubled. rewrite Hs, Hc.
  rewrite (statusCodeOf_Ret _ _ Hc). cbn [mbind outcome_bind]. destruct (Z.eqb_spec code 200) as [->|Hn]; [|ua].
  rewrite setResponse_status by exact Hm. cbn [mbind outcome_bind]. apply saveRouteList_seq; [tauto|].
  intros l. apply answered_wp; [|now eexists]. keep. exact Hm.
Qed.

Lemma endRecvStatus_wp E a m : wf a -> wfResponse m -> wp E (keeps a) (endRecvStatus controller a m).
Proof.
  intros Hw [code Hc]. unfold endRecvStatus. rewrite (statusCodeOf_Ret _ _ Hc). cbn [mbind outcome_bind]. ua.
Qed.

Lemma failureRecvStatus_wp E a m :
  wf a -> wfResponse m -> (myAgentRole a = A_SERVER \/ asStatus m = Some 487 /\ unackable a -> E) ->
  wp E (keeps a) (failureRecvStatus controller strict a m).
Proof.
  intros Hw [code Hc] HE. unfold failureRecvStatus, isAClient. rewrite (statusCodeOf_Ret _ _ Hc).
  destruct (myAgentRole a) eqn:Er; [apply HE; now left|]. change (cassert _) with (@Ret unit tt). cbn [mbind outcome_bind].
  ua. destruct (wf_request_uri a Hw) as [uri Hu]. rewrite Hu. pose proof Hw as [Hi _]. unfold wfInvite in Hi. rewrite Hi.
  cbn [bool_decide]. change (is_method SIP_INVITE SIP_INVITE) with true. cbn [mbind outcome_bind mret outcome_ret].
  apply wp_first; [apply ackMsg_returns|]. intros ack _. apply wp_bind, wp_setRequestLine; [|intros; ua].
  intros Ha. apply HE. right. split; [|now exists uri]. rewrite Hc. f_equal. now apply Z.eqb_eq.
Qed.

Lemma wp_setResponseCSeq E a b c : keeps a b -> inDialog a -> wp E (keeps a) (setResponseCSeq c b).
Proof.
  intros H Hd. destruct (response_of_keeps a b H Hd) as [r Hr]. rewrite (setResponseCSeq_some _ _ _ Hr).
  apply keeps_response; [exact H|]. destruct H as ((_ & Hw & _) & _). exact (Hw _ Hr).
Qed.

Lemma inCallRecvStatus_wp E a m :
  wf a -> inDialog a -> wfResponse m -> wp E (keeps a) (inCallRecvStatus controller a m).
Proof.
  intros Hw Hd [code Hc]. unfold inCallRecvStatus. rewrite (statusCodeOf_Ret _ _ Hc). cbn [mbind outcome_bind]. ua.
  - apply wp_first; [apply ackMsg_returns|]. intros ack _. apply wp_bind, wp_command; [now apply command_of_wf|].
    intros u. ua.
  - apply wp_first; [apply ackMsg_returns|]. intros ack _. ua. now apply wp_setResponseCSeq.
Qed.

Lemma inHoldRecvStatus_wp E a m :
  wf a -> inDialog a -> wfResponse m -> wp E (keeps a) (inHoldRecvStatus controller a m).
Proof.
  intros Hw Hd [code Hc]. unfold inHoldRecvStatus. rewrite (statusCodeOf_Ret _ _ Hc). cbn [mbind outcome_bind]. ua.
  - apply wp_first; [apply ackMsg_returns|]. intros ack _. ua.
  - now apply wp_setResponseCSeq.
Qed.

Theorem recvStatus_wp a m :
  wf a -> wfResponse m -> wp (troubled a m) (keeps a) (recvStatus ipName controller strict a m).
Proof.
  intros Hw Hm. pose proof Hw as (_ & _ & _ & Hs). unfold recvStatus.
  destruct (myState a) eqn:Es; cbn [stateOk] in Hs; try (now apply keeps_refl).
  - now apply cTryingRecvStatus_wp.
  - now apply ringingRecvStatus_wp.
  - apply failureRecvStatus_wp; auto. unfold troubled. now rewrite Es.
  - now apply inCallRecvStatus_wp.
  - now apply endRecvStatus_wp.
  - now apply redirectRecvStatus_wp.
  - now apply inHoldRecvStatus_wp.
Qed.

(** ** Sending *)

(** The ways a message to be sent ends the process. *)
Definition sendTroubled a m : Prop :=
  match asStatus m with
  | Some _ => ~ isSip (partyUrl (toHdr (myRequestMsg a)))
  | None =>
      match getType m with
      | SIP_INVITE => ~ isSip (partyUrl (fromHdr m)) \/ myRouteList a = []
      | SIP_ACK => myState a = U_STATE_INCALL /\ unackable a /\
          exists r code, myResponseMsg a = Some r /\ asStatus r = Some code /\ 200 <= code
      | SIP_CANCEL | SIP_BYE => vias (myRequestMsg a) = []
      | _ => False
      end
  end.

Abbreviation sending a := (fun p : UaBase * answer => keeps a (fst p)).

Lemma wp_sending E a (m : outcome UaBase) k :
  wp E (keeps a) m -> (forall b, keeps a b -> wp E (sending a) (k b)) -> wp E (sending a) (m ≫= k).
Proof. apply wp_seq. Qed.

Ltac us_step :=
  match goal with
  | |- wp _ (fun _ => _) (if ?c then _ else _) => destruct c eqn:?
  | |- wp _ (fun _ => _) (sent _ _) => cbn [sent wp mret outcome_ret fst]; keep
  | |- wp _ (fun _ => _) (refused _ _) => cbn [refused wp mret outcome_ret fst]; keep
  | |- wp _ (fun _ => _) (mbind (A:=UaBase) _ _) => apply wp_sending; [|intros ? ?]
  | |- wp _ (keeps _) _ => ua_step
  end.
Ltac us := repeat us_step.

Lemma wp_sendCancel E a b : keeps a b -> (vias (myRequestMsg b) = [] -> E) -> wp E (keeps a) (sendCancel b).
Proof.
  intros H HE. unfold sendCancel, cancelMsg, viaFront. destruct (command_of_keeps a b H) as [u ->]. cbn [deref mbind outcome_bind].
  destruct (vias (myRequestMsg b)); [now apply HE|]. cbn. keep.
Qed.

Lemma wp_sipUrl E (Q : SipUrl -> Prop) u : (~ isSip u -> E) -> (forall v, Q v) -> wp E Q (sipUrlOf u).
Proof.
  intros HE HQ. unfold sipUrlOf. destruct (asSipUrl u) eqn:Eu; [apply HQ|]. apply HE. unfold isSip. rewrite Eu. now intros [? ?].
Qed.

(** A response made for the agent's request by [okFor]. *)
Lemma keeps_okFor a b command code body host u r b' :
  keeps a b -> okFor randomHex command code body host u b = (r, b') -> keeps a b' /\ wfResponse r.
Proof.
  intros H. unfold okFor. destruct (newStatus randomHex command code b) as [r0 b0] eqn:E0. intros [= <- <-].
  destruct (keeps_newStatus _ _ _ _ _ _ H E0) as [Hk Hr]. split; [exact Hk|]. exists code. exact Hr.
Qed.

Lemma wp_tell_dialog E a b ba c :
  keeps a b -> inDialog b -> wp E (fun d => keeps a d /\ inDialog d) (tell controller ba c b).
Proof.
  intros H Hd. eapply wp_mono; [apply (wp_tell E b b), keeps_refl, (keeps_wf _ _ H)|].
  intros d K. split; [exact (keeps_trans _ _ _ H K) | now apply (response_of_keeps b)].
Qed.

Lemma withLocalSdp a s :
  wf a ->
  let b := match s with Some s => setLocalSdp (Some s) a | None => a end in
  keeps a b /\ myRequestMsg b = myRequestMsg a /\ facade b = facade a.
Proof. intros Hw. destruct s; (split; [keep | now split]). Qed.

Lemma sTryingSendStatus_wp E a m :
  wf a -> is_Some (asStatus m) -> (~ isSip (partyUrl (toHdr (myRequestMsg a))) -> E) ->
  wp E (sending a) (sTryingSendStatus randomHex controller a m).
Proof.
  intros Hw [code Hc] HE. unfold sTryingSendStatus. rewrite (statusCodeOf_Ret _ _ Hc). cbn [mbind outcome_bind].
  us; eauto with ua.
  - apply wp_bind, wp_command; [now apply command_of_wf|]. intros _.
    destruct (newStatus randomHex (myRequestMsg a) code a) as [r b] eqn:Er.
    destruct (keeps_newStatus _ _ _ _ _ _ (keeps_refl a Hw) Er) as [Hk Hr]. us. now exists code.
  - apply wp_bind, wp_command; [now apply command_of_wf|]. intros _.
    destruct (withLocalSdp a (getSdp m) Hw) as (Hk & E1 & _).
    generalize dependent (match getSdp m with Some s => setLocalSdp (Some s) a | None => a end). intros b Hk E1.
    rewrite E1. apply wp_bind, wp_sipUrl; [exact HE|]. intros u.
    destruct (okFor _ _ _ _ _ _ _) as [r b'] eqn:Eo. destruct (keeps_okFor _ _ _ _ _ _ _ _ _ Hk Eo) as [Hk' Hr'].
    rewrite setResponse_status by exact Hr'. cbn [mbind outcome_bind].
    eapply wp_seq; [apply (wp_tell_dialog _ a); [keep; exact Hr' | now eexists]|]. intros c [Hc' Hd]. us. exact Hd.
Qed.

Lemma ringingSendStatus_wp E a m :
  wf a -> is_Some (asStatus m) -> (~ isSip (partyUrl (toHdr (myRequestMsg a))) -> E) ->
  wp E (sending a) (ringingSendStatus randomHex controller a m).
Proof.
  intros Hw [code Hc] HE. unfold ringingSendStatus. rewrite (statusCodeOf_Ret _ _ Hc). cbn [mbind outcome_bind]. us.
  - apply wp_bind, wp_command; [now apply command_of_wf|]. intros _. apply wp_bind, wp_sipUrl; [exact HE|]. intros u.
    destruct (okFor _ _ _ _ _ _ _) as [r b] eqn:Eo.
    destruct (keeps_okFor _ _ _ _ _ _ _ _ _ (keeps_refl a Hw) Eo) as [Hk Hr]. us; exact Hr.
  - apply wp_bind, wp_command; [now apply command_of_wf|]. intros _.
    destruct (withLocalSdp a (getSdp m) Hw) as (Hk & E1 & _).
    generalize dependent (match getSdp m with Some s => setLocalSdp (Some s) a | None => a end). intros b Hk E1.
    destruct (asSipUrl _) as [u|].
    + destruct (okFor _ _ _ _ _ _ _) as [r b'] eqn:Eo. destruct (keeps_okFor _ _ _ _ _ _ _ _ _ Hk Eo) as [Hk' Hr'].
      rewrite setResponse_status by exact Hr'. cbn [mbind outcome_bind].
      eapply wp_seq; [apply (wp_tell_dialog _ a); [keep; exact Hr' | now eexists]|]. intros c [Hc' Hd].
      rewrite setResponse_status by exact Hr'. cbn [mbind outcome_bind]. us; [exact Hr' | now eexists].
    + destruct (newStatus randomHex (myRequestMsg b) code b) as [r b'] eqn:Er.
      destruct (keeps_newStatus _ _ _ _ _ _ Hk Er) as [Hk' _]. cbn. keep.
Qed.

Lemma sendStatusAt_wp E host a m :
  wf a -> is_Some (asStatus m) -> (~ isSip (partyUrl (toHdr (myRequestMsg a))) -> E) ->
  wp E (sending a) (sendStatusAt randomHex host a m).
Proof.
  intros Hw [code Hc] HE. unfold sendStatusAt. rewrite (statusCodeOf_Ret _ _ Hc). cbn [mbind outcome_bind].
  us; eauto with ua. apply wp_bind, wp_command; [now apply command_of_wf|]. intros _.
  apply wp_bind, wp_sipUrl; [exact HE|]. intros u. destruct (okFor _ _ _ _ _ _ _) as [r b] eqn:Eo.
  destruct (keeps_okFor _ _ _ _ _ _ _ _ _ (keeps_refl a Hw) Eo) as [Hk Hr]. us.
Qed.

Lemma createReInvite_wp E a m :
  wf a -> (~ isSip (partyUrl (fromHdr m)) \/ myRouteList a = [] -> E) ->
  wp E (fun p => keeps a (snd p)) (createReInvite m a).
Proof.
  intros Hw HE. unfold createReInvite, createInvite.
  apply wp_bind, wp_bind, wp_sipUrl; [auto|]. intros u. apply wp_bind.
  destruct (Z.ltb_spec 0 (zlen (myRouteList a))) as [Hl | Hl].
  - apply wp_first; [apply incrCSeq_returns|]. intros c _. cbn [wp mret outcome_ret snd]. keep.
  - apply HE. right. destruct (myRouteList a); [reflexivity | zlen_lia].
Qed.

Lemma wp_sendReInvite E a m :
  wf a -> inDialog a -> (~ isSip (partyUrl (fromHdr m)) \/ myRouteList a = [] -> E) ->
  wp E (keeps a) (sendReInvite m a).
Proof.
  intros Hw Hd HE. unfold sendReInvite. eapply wp_seq; [now apply createReInvite_wp|]. intros [m' b] Hb.
  destruct (response_of_keeps a b Hb Hd) as [r Hr]. rewrite Hr. cbn [deref mbind outcome_bind wp mret outcome_ret]. keep.
Qed.

Lemma wp_ackStatus E a b m s : keeps a b -> wfResponse m ->
  ((exists code, asStatus m = Some code /\ 200 <= code) -> unackable b -> E) -> wp E (keeps a) (ackStatus strict m s b).
Proof.
  intros H [code Hc] HE. unfold ackStatus. rewrite (statusCodeOf_Ret _ _ Hc). cbn [mbind outcome_bind]. ua.
  apply wp_first; [apply ackMsg_returns|]. intros ack _. destruct (command_of_keeps a b H) as [uri Hu]. unfold commandUri. rewrite Hu.
  cbn [mbind outcome_bind mret outcome_ret]. apply wp_bind, wp_setRequestLine; [|intros; ua].
  intros Ha. apply HE; [exists code; split; [exact Hc | now apply Z.leb_le] | now exists uri].
Qed.

Lemma nextFor_returns name c : returns (nextFor name c).
Proof. unfold nextFor. destruct (toInt_returns (cseq c)) as [v ->]. now eexists. Qed.

Lemma byeOfStatus_returns m code : returns (byeOfStatus m code).
Proof.
  unfold byeOfStatus, commandOf. destruct (incrCSeq_returns (cseqHdr m)) as [c ->]. cbn [mbind outcome_bind mret outcome_ret].
  destruct (nextFor_returns (str "BYE") (cseqHdr m)) as [d ->]. cbn. now eexists.
Qed.

Lemma wp_sendBye E a :
  wf a -> (myAgentRole a = A_CLIENT -> myResponseMsg a = None -> E) -> wp E (fun p => keeps a (fst p)) (sendBye a).
Proof.
  intros Hw HE. unfold sendBye. destruct (myAgentRole a).
  - unfold serverBye. destruct (myAckMsg a) as [k|] eqn:Ek; [|now apply keeps_refl].
    pose proof Hw as (_ & _ & Ha & _). pose proof (Ha k Ek) as Hk. unfold getType in Hk. unfold asCommand.
    destruct (msgKind k); [|discriminate]. cbn [deref mbind outcome_bind]. unfold byeOfAck.
    destruct (nextFor_returns (str "BYE") (cseqHdr k)) as [d ->]. cbn [mbind outcome_bind mret outcome_ret].
    unfold getNextCSeq. destruct (toInt_returns (cseq (myLocalCSeq a))) as [v ->].
    cbn [mbind outcome_bind mret outcome_ret wp fst]. keep.
  - unfold clientBye. destruct (myResponseMsg a) as [r|] eqn:Hr; [|now apply HE].
    cbn [mbind outcome_bind mret outcome_ret]. pose proof Hw as (_ & Hp & _ & _).
    destruct (Hp r Hr) as [code Hc]. rewrite (statusCodeOf_Ret _ _ Hc). cbn [mbind outcome_bind].
    apply wp_first; [apply byeOfStatus_returns|]. intros bye _. apply wp_first; [apply incrCSeq_returns|]. intros c _.
    apply wp_first; [apply toInt_returns|]. intros n _. cbn [wp mret outcome_ret fst]. keep.
Qed.

(** The ACK the application sends in a call, and on hold. *)
Lemma inCallSendRequest_wp a m :
  wf a -> myState a = U_STATE_INCALL -> inDialog a -> asStatus m = None ->
  wp (sendTroubled a m) (sending a) (inCallSendRequest strict a m).
Proof.
  intros Hw Hst Hd Hm. unfold inCallSendRequest, sendTroubled. rewrite Hm. pose proof (keeps_refl a Hw) as Hk.
  destruct (getType m) eqn:Et; try (exact Hk).
  - apply wp_sending; [now apply wp_sendReInvite|]. intros b Hb. us. now apply (response_of_keeps a).
  - destruct Hd as [r Hr]. rewrite Hr. cbn [mbind outcome_bind mret outcome_ret]. pose proof Hw as (_ & Hp & _ & _).
    pose proof (Hp r Hr) as [code Hc]. rewrite (statusCodeOf_Ret _ _ Hc). cbn [mbind outcome_bind].
    apply wp_sending; [apply wp_ackStatus; [exact Hk | now exists code |]|].
    { intros (code' & Hc' & Hl) Hu. split; [exact Hst|]. split; [exact Hu|]. now exists r, code'. }
    intros b Hb.
    apply wp_first; [apply ackMsg_returns|]. intros ack _. us.
  - eapply wp_seq; [apply wp_sendBye; [exact Hw | intros _ Hn; destruct Hd; congruence]|].
    intros [b o] Hb. cbn in Hb |- *. keep.
  - apply wp_sending; [apply wp_sendCancel; auto|]. intros b Hb. us.
Qed.

Lemma inHoldSendRequest_wp a m :
  wf a -> inDialog a -> asStatus m = None -> wp (sendTroubled a m) (sending a) (inHoldSendRequest a m).
Proof.
  intros Hw Hd Hm. unfold inHoldSendRequest, sendTroubled. rewrite Hm. pose proof (keeps_refl a Hw) as Hk.
  destruct (getType m) eqn:Et; try (exact Hk).
  - apply wp_sending; [now apply wp_sendReInvite|]. intros b Hb. us. now apply (response_of_keeps a).
  - destruct Hd as [r Hr]. rewrite Hr. cbn [mbind outcome_bind mret outcome_ret]. pose proof Hw as (_ & Hp & _ & _).
    pose proof (Hp r Hr) as [code Hc]. rewrite (statusCodeOf_Ret _ _ Hc). cbn [mbind outcome_bind].
    apply wp_first; [apply ackMsg_returns|]. intros ack _. us.
  - eapply wp_seq; [apply wp_sendBye; [exact Hw | intros _ Hn; destruct Hd; congruence]|].
    intros [b o] Hb. cbn in Hb |- *. keep.
  - apply wp_sending; [apply wp_sendCancel; auto|]. intros b Hb. us.
Qed.

(** A CANCEL or a BYE while the INVITE is pending. *)
Lemma pendingCancel_wp a b m :
  keeps a b -> myRequestMsg b = myRequestMsg a -> asStatus m = None ->
  is_method (getType m) SIP_CANCEL || is_method (getType m) SIP_BYE = true ->
  wp (sendTroubled a m) (sending a) (c ← sendCancel b; sent U_STATE_FAILURE c).
Proof.
  intros Hk E Hm Ht. apply wp_sending; [apply wp_sendCancel; [exact Hk|]|intros; us].
  rewrite E. unfold sendTroubled. rewrite Hm. apply orb_true_iff in Ht as [Ht | Ht]; apply is_method_true in Ht; now rewrite Ht.
Qed.

Theorem sendRequest_wp a m :
  wf a -> asStatus m = None -> wp (sendTroubled a m) (sending a) (sendRequest strict a m).
Proof.
  intros Hw Hm. pose proof Hw as (_ & _ & _ & Hs). pose proof (keeps_refl a Hw) as Hk. unfold sendRequest.
  destruct (myState a) eqn:Es; cbn [stateOk] in Hs; try exact Hk.
  - unfold idleSendRequest, isAClient. us.
    + apply andb_true_iff in Heqb as [Hr _]. now apply bool_decide_eq_true_1 in Hr.
  - unfold cTryingSendRequest. destruct (_ || _) eqn:Ht; [now apply pendingCancel_wp | us].
  - unfold ringingSendRequest. destruct (_ || _) eqn:Ht; [|us].
    apply (pendingCancel_wp a (setCallLegState CLS_NONE a)); [exact Hk | reflexivity | assumption..].
  - now apply inCallSendRequest_wp.
  - now apply inHoldSendRequest_wp.
Qed.

Theorem sendStatus_wp a m :
  wf a -> is_Some (asStatus m) -> wp (sendTroubled a m) (sending a) (sendStatus randomHex controller a m).
Proof.
  intros Hw Hm. pose proof (keeps_refl a Hw) as Hk. unfold sendStatus.
  assert (~ isSip (partyUrl (toHdr (myRequestMsg a))) -> sendTroubled a m) as HE.
  { intros H. unfold sendTroubled. destruct Hm as [code ->]. exact H. }
  destruct (myState a); try exact Hk.
  - now apply sTryingSendStatus_wp.
  - now apply ringingSendStatus_wp.
  - now apply sendStatusAt_wp.
  - now apply sendStatusAt_wp.
Qed.

Lemma receivedMsg_wp a m :
  wf a -> wfMsg m -> wp (troubled a m) (keeps a) (receivedMsg randomHex ipName controller strict a m).
Proof.
  intros Hw Hm. unfold receivedMsg. destruct (is_method (getType m) SIP_STATUS) eqn:Et.
  - apply recvStatus_wp; [exact Hw | now apply status_code].
  - apply recvRequest_wp; [exact Hw | now apply request_command].
Qed.

Lemma sendMsg_wp a m :
  wf a -> wfMsg m -> wp (sendTroubled a m) (sending a) (sendMsg randomHex controller strict a m).
Proof.
  intros Hw Hm. unfold sendMsg. destruct (is_method (getType m) SIP_STATUS) eqn:Et.
  - apply sendStatus_wp; [exact Hw | now apply status_code].
  - apply sendRequest_wp; [exact Hw|]. destruct (request_command m Hm Et) as [u Hu].
    unfold asCommand, asStatus in *. now destruct (msgKind m).
Qed.

End Controlled.

End UaFacts.
