(* ===== verification/UaCalls.v ===== *)
(** Calls: what the SIP user agents of the two sides do to each other when the
    messages of one reach the other, and how a call is refused, held and ended. *)
From S2P Require Import Prelude DataStr DataStrFacts DataStrText SipHeap UaMsg UaAgent UaState UaFacts.
Import DataStr DataStrFacts SipHeap UaMsg UaAgent UaState UaFacts.

Module UaCalls.

(** * What was sent *)

Definition sentMsg (o : Output) : option Msg :=
  match o with SendAsync m | SendAsyncTo m _ _ | SendReply m => Some m | Told _ => None end.

(** The messages an agent has given to the transceiver, in order. *)
Definition sentMsgs (a : UaBase) : list Msg := omap sentMsg (out a).

Definition lastSent (a : UaBase) : outcome Msg := deref (list.last (sentMsgs a)).

Section Calls.
Variable randomHex : nat -> bytes.
Variable ipName : bytes -> bytes.
Variable controller : Callback -> UaBase -> outcome UaBase.
Variable strict : bool.

(** The application only watches. *)
Hypothesis quiet : forall c a, controller c a = Ret a.

Abbreviation receivedMsg := (receivedMsg randomHex ipName controller strict).
Abbreviation sendMsg := (sendMsg randomHex controller strict).

(** The set-up of a call: [inv] goes to a server agent of its own, through
    proxies that record their routes [rr]; the callee rings and accepts with
    the messages [ringing] and [accept] of its application; the caller's
    application has the answer acknowledged. *)
Definition setUp (fa fb : BaseFacade) (ca cb : bool) (inv : Msg) (rr : list BaseUrl) (ringing accept ackCmd : Msg)
  : outcome (UaBase * UaBase) :=
  let arrived := with_recordRoutes rr inv in
  '(a, _) ← sendMsg (newAgent fa A_CLIENT ca inv) inv;
  b ← receivedMsg (newAgent fb A_SERVER cb arrived) arrived;
  '(b, _) ← sendMsg b ringing;
  m ← lastSent b; a ← receivedMsg a m;
  '(b, _) ← sendMsg b accept;
  m ← lastSent b; a ← receivedMsg a m;
  '(a, _) ← sendMsg a ackCmd;
  m ← lastSent a; b ← receivedMsg b m;
  mret (a, b).

Lemma tell_quiet ba c a : tell controller ba c a = Ret (if ba then emit (Told c) a else a).
Proof. unfold tell. destruct ba; [apply quiet | reflexivity]. Qed.

Lemma lastSent_emit a o m : sentMsg o = Some m -> lastSent (emit o a) = Ret m.
Proof.
  intros H. unfold lastSent, sentMsgs. cbn [out emit].
  rewrite omap_app. cbn. rewrite H. now rewrite last_snoc.
Qed.

Lemma lastSent_told a c : lastSent (emit (Told c) a) = lastSent a.
Proof. unfold lastSent, sentMsgs. cbn [out emit]. rewrite omap_app. cbn. now rewrite app_nil_r. Qed.

(** ** The steps of a call *)

Lemma client_invites f ca inv :
  getType inv = SIP_INVITE ->
  exists o, sentMsg o = Some inv /\
  sendMsg (newAgent f A_CLIENT ca inv) inv =
    Ret (with_state U_STATE_C_TRYING (emit o (newAgent f A_CLIENT ca inv)), Returned 0).
Proof.
  intros H. unfold UaState.sendMsg, sendRequest, idleSendRequest. rewrite H. cbn [is_method].
  change (is_method SIP_INVITE SIP_STATUS) with false. change (is_method SIP_INVITE SIP_INVITE) with true.
  change (isAClient (newAgent f A_CLIENT ca inv)) with true. cbn [newAgent myState andb facade].
  destruct (_ && _); eexists; (split; [|reflexivity]); reflexivity.
Qed.

(** What a reply does to the agent. *)
Definition replied (m : Msg) (code : Z) (s : option SipSdp) (mem : bool) (a : UaBase) : UaBase :=
  let r := setSdp s (statusMsg (randomHex (draws a)) m code) in
  let b := emit (SendReply r) (snd (newStatus randomHex m code a)) in
  if mem then with_response r b else b.

Lemma reply_Ret m code s mem a :
  is_Some (asCommand m) -> sendReplyForRequest randomHex m code s mem a = Ret (replied m code s mem a).
Proof.
  intros [u Hu]. unfold sendReplyForRequest, commandUri, replied. rewrite Hu. cbn [mbind outcome_bind mret outcome_ret newStatus snd].
  destruct mem; [|reflexivity]. apply setResponse_status. exists code. now rewrite asStatus_setSdp.
Qed.

Lemma type_command m t : getType m = t -> t <> SIP_STATUS -> is_Some (asCommand m).
Proof. unfold getType, asCommand. destruct (msgKind m); [now eexists | congruence]. Qed.

Lemma lastSent_replied m code s mem a :
  lastSent (replied m code s mem a) = Ret (setSdp s (statusMsg (randomHex (draws a)) m code)).
Proof. unfold replied. destruct mem; now apply (lastSent_emit _ (SendReply _)). Qed.

Lemma server_tries f cb inv :
  getType inv = SIP_INVITE -> Forall isSip (recordRoutes inv) ->
  exists b, receivedMsg (newAgent f A_SERVER cb inv) inv = Ret b /\
    myState b = U_STATE_S_TRYING /\ myAgentRole b = A_SERVER /\ facade b = f /\ hasController b = cb /\
    myRequestMsg b = inv /\ myRouteList b = recordRoutes inv ++ contactRoute inv /\
    myRemoteSdpData b = getSdp inv /\ draws b = 0%nat /\ lastSent b = Ret (statusMsg [] inv 100) /\
    myLocalCSeq b = cseqHdr inv /\ myAckMsg b = None.
Proof.
  intros H Hr. unfold UaState.receivedMsg, recvRequest, idleRecvRequest. rewrite H.
  change (is_method SIP_INVITE SIP_STATUS) with false. change (is_method SIP_INVITE SIP_INVITE) with true.
  change (isAServer (newAgent f A_SERVER cb inv)) with true. cbn [newAgent myState andb].
  rewrite saveRouteList_returns by exact Hr. cbn [mbind outcome_bind].
  unfold reply. rewrite reply_Ret by (now apply (type_command _ SIP_INVITE)). cbn [mbind outcome_bind].
  eexists. split; [reflexivity|].
  replace (match getSdp inv with Some s => _ | None => _ end) with
    (setRemoteSdp (getSdp inv) (replied inv 100 None true
      (with_routeList (recordRoutes inv ++ contactRoute inv) (newAgent f A_SERVER cb inv)))) by (now destruct (getSdp inv)).
  repeat split.
Qed.

(** An agent that has told its controller, if it has one. *)
Definition told (c : Callback) (a : UaBase) : UaBase := if hasController a then emit (Told c) a else a.

Lemma tell_told c a : tell controller (hasController a) c a = Ret (told c a).
Proof. apply tell_quiet. Qed.

Lemma status_type m code : asStatus m = Some code -> is_method (getType m) SIP_STATUS = true.
Proof. unfold asStatus, getType. destruct (msgKind m); [discriminate | reflexivity]. Qed.

(** Dispatch on a response, and on a request. *)
Lemma sendMsg_status a m code : asStatus m = Some code -> sendMsg a m = sendStatus randomHex controller a m.
Proof. intros H. unfold UaState.sendMsg. now rewrite (status_type m code H). Qed.

Lemma receivedMsg_status a m code : asStatus m = Some code -> receivedMsg a m = recvStatus ipName controller strict a m.
Proof. intros H. unfold UaState.receivedMsg. now rewrite (status_type m code H). Qed.

Lemma server_rings b m code :
  myState b = U_STATE_S_TRYING -> asStatus m = Some code -> 180 <= code < 200 -> is_Some (asCommand (myRequestMsg b)) ->
  sendMsg b m =
    Ret (with_state U_STATE_RINGING (replied (myRequestMsg b) code (getSdp m) true b), Returned 0).
Proof.
  intros Hs Hm Hc Hr. rewrite (sendMsg_status _ _ _ Hm). unfold sendStatus. rewrite Hs. unfold sTryingSendStatus.
  rewrite (statusCodeOf_Ret _ _ Hm). cbn [mbind outcome_bind].
  destruct (Z.eqb_spec code 100); [lia|].
  destruct (Z.leb_spec 180 code); [|lia]. destruct (Z.ltb_spec code 200); [|lia]. cbn [andb].
  now rewrite reply_Ret.
Qed.

(** The 200 with this host for contact. *)
Definition okResponse (b : UaBase) (m : Msg) (u : SipUrl) : Msg :=
  with_contacts [contactAt (natHost (facade b)) b u]
    (with_contents (sdpBody (getSdp m)) (statusMsg (randomHex (draws b)) (myRequestMsg b) 200)).

Definition accepted (b : UaBase) (m : Msg) (u : SipUrl) : UaBase :=
  let b1 := match getSdp m with Some s => setLocalSdp (Some s) b | None => b end in
  let b2 := if needsTag (myRequestMsg b) 200 then with_draws (S (draws b)) b1 else b1 in
  let b3 := told InCall (with_response (okResponse b m u) (emit (SendReply (okResponse b m u)) b2)) in
  with_state U_STATE_INCALL (with_response (okResponse b m u) (setCallLegState C_LIVE b3)).

Lemma ringing_accepts b m u :
  myState b = U_STATE_RINGING -> asStatus m = Some 200 -> is_Some (asCommand (myRequestMsg b)) ->
  partyUrl (toHdr (myRequestMsg b)) = SipUri u ->
  sendMsg b m = Ret (accepted b m u, Returned 0).
Proof.
  intros Hs Hm [uri Hr] Hu. rewrite (sendMsg_status _ _ _ Hm). unfold sendStatus. rewrite Hs. unfold ringingSendStatus.
  rewrite (statusCodeOf_Ret _ _ Hm). cbn [mbind outcome_bind Z.ltb Z.leb Z.compare Pos.compare Pos.compare_cont andb orb].
  unfold commandUri. rewrite Hr. cbn [mbind outcome_bind mret outcome_ret].
  unfold accepted, okFor, newStatus.
  destruct (getSdp m) as [s|] eqn:Es; cbn [setLocalSdp myRequestMsg facade]; rewrite Hu; cbn [asSipUrl];
    destruct (needsTag (myRequestMsg b) 200) eqn:Et;
    rewrite setResponse_status by (now exists 200); cbn [mbind outcome_bind]; rewrite tell_told; cbn [mbind outcome_bind];
    rewrite setResponse_status by (now exists 200); cbn [mbind outcome_bind]; unfold okResponse; rewrite Es; reflexivity.
Qed.

Lemma client_rings a m code :
  myState a = U_STATE_C_TRYING -> asStatus m = Some code -> 180 <= code < 200 ->
  receivedMsg a m = Ret (told (ReceivedStatus m) (with_state U_STATE_RINGING a)).
Proof.
  intros Hs Hm Hc. rewrite (receivedMsg_status _ _ _ Hm). unfold recvStatus. rewrite Hs. unfold cTryingRecvStatus.
  rewrite (statusCodeOf_Ret _ _ Hm). cbn [mbind outcome_bind].
  destruct (Z.eqb_spec code 200); [lia|]. destruct (Z.ltb_spec 200 code); [lia|].
  destruct (Z.leb_spec 180 code); [|lia]. apply tell_told.
Qed.

Lemma fixSdpForNat_off a m n : shouldFixSdpForNat (facade a) = false -> fixSdpForNat ipName a m n = Ret m.
Proof. intros H. unfold fixSdpForNat. now rewrite H. Qed.

(** The caller's side of the answer. *)
Definition answeredBy (a : UaBase) (m : Msg) : UaBase :=
  let a1 := setRemoteSdp (getSdp m)
    (with_routeList (List.rev (recordRoutes m) ++ contactRoute m) (with_response m a)) in
  let a2 := setLocalCSeq (cseqHdr m) (with_response (with_cseq (cseqHdr m) m) a1) in
  with_state U_STATE_INCALL (setCallLegState C_LIVE (told (ReceivedStatus m) a2)).

Lemma client_answered a m :
  myState a = U_STATE_RINGING -> asStatus m = Some 200 -> shouldFixSdpForNat (facade a) = false ->
  Forall isSip (recordRoutes m) ->
  receivedMsg a m = Ret (answeredBy a m).
Proof.
  intros Hs Hm Hf Hr. rewrite (receivedMsg_status _ _ _ Hm). unfold recvStatus. rewrite Hs. unfold ringingRecvStatus.
  rewrite (statusCodeOf_Ret _ _ Hm). cbn [mbind outcome_bind Z.eqb Pos.eqb].
  rewrite fixSdpForNat_off by exact Hf. cbn [mbind outcome_bind].
  rewrite setResponse_status by (now exists 200). cbn [mbind outcome_bind].
  rewrite saveRouteList_returns by exact Hr. cbn [mbind outcome_bind].
  rewrite (setResponseCSeq_some _ _ m) by reflexivity. cbn [mbind outcome_bind]. now rewrite tell_told.
Qed.

(** ** Requests built of a response *)

Definition commandFrom (method : Method) (name num : bytes) (m : Msg) (code : Z) (vs : list SipVia) : Msg :=
  pushContactRoute m (routeToUrl
    (mkMsg (Request method (default NullUrl (firstContact m))) (toHdr m) (fromHdr m) (callId m) (mkCSeq num name) vs
      (if (180 <=? code) && (code <? 300) then rev (recordRoutes m) else []) [] [] [] [] [])).

Lemma ackMsg_Ret m code :
  ackMsg m code = Ret (commandFrom SIP_ACK (str "ACK") (cseq (cseqHdr m)) m code (take 1 (vias m))).
Proof. unfold ackMsg, commandOf. destruct (incrCSeq_returns (cseqHdr m)) as [c ->]. reflexivity. Qed.

Lemma byeOfStatus_Ret m code n :
  toInt (cseq (cseqHdr m)) = Ret n ->
  byeOfStatus m code = Ret (commandFrom SIP_BYE (str "BYE") (itoa (s32 (n + 1))) m code []).
Proof.
  intros H. unfold byeOfStatus, commandOf, nextFor. destruct (incrCSeq_returns (cseqHdr m)) as [c ->].
  cbn [mbind outcome_bind mret outcome_ret]. now rewrite H.
Qed.

(** Headers that adding and removing routes leaves alone. *)
Definition sameDialog (m m' : Msg) : Prop :=
  toHdr m' = toHdr m /\ fromHdr m' = fromHdr m /\ callId m' = callId m.

Lemma commandFrom_dialog method name num m code vs : sameDialog m (commandFrom method name num m code vs).
Proof.
  unfold sameDialog, commandFrom, pushContactRoute, routeToUrl.
  destruct (firstContact m), (if (180 <=? code) && (code <? 300) then rev (recordRoutes m) else []); repeat split.
Qed.

Lemma commandFrom_kind method name num m code vs :
  getType (commandFrom method name num m code vs) = method /\
  is_Some (asCommand (commandFrom method name num m code vs)) /\
  cseqHdr (commandFrom method name num m code vs) = mkCSeq num name.
Proof.
  unfold commandFrom, pushContactRoute, routeToUrl.
  destruct (firstContact m), (if (180 <=? code) && (code <? 300) then rev (recordRoutes m) else []); (split; [reflexivity|]; split; [now eexists | reflexivity]).
Qed.

(** The ACK of a success, as [ackStatus] addresses it. *)
Definition ackSent (a : UaBase) (r : Msg) (code : Z) (uri : BaseUrl) (s : option SipSdp) : Msg :=
  setSdp s (setRequestUrl uri
    (popRoute (with_routes (myRouteList a) (with_vias [getVia0 (myRequestMsg a)]
      (commandFrom SIP_ACK (str "ACK") (cseq (cseqHdr r)) r code (take 1 (vias r))))))).

Lemma ackSent_dialog a r code uri s :
  sameDialog r (ackSent a r code uri s) /\ getType (ackSent a r code uri s) = SIP_ACK /\
  cseqHdr (ackSent a r code uri s) = mkCSeq (cseq (cseqHdr r)) (str "ACK").
Proof.
  unfold ackSent. set (m := commandFrom _ _ _ _ _ _).
  pose proof (commandFrom_dialog SIP_ACK (str "ACK") (cseq (cseqHdr r)) r code (take 1 (vias r))) as H.
  destruct (commandFrom_kind SIP_ACK (str "ACK") (cseq (cseqHdr r)) r code (take 1 (vias r))) as (Ht & _ & Hc).
  fold m in H, Ht, Hc. unfold sameDialog in *. unfold getType in Ht. unfold setRequestUrl, popRoute, getType.
  cbn [msgKind with_routes with_vias]. destruct (msgKind m); [|discriminate]. destruct s; cbn; now rewrite Ht.
Qed.

(** The application of a caller in a call has an answer acknowledged. *)
Lemma client_acks_by a k r code uri :
  myState a = U_STATE_INCALL -> getType k = SIP_ACK -> myResponseMsg a = Some r -> asStatus r = Some code ->
  200 <= code -> asCommand (myRequestMsg a) = Some uri ->
  sendMsg a k =
    (ack ← setRequestLine strict (localIp (facade a)) SIP_ACK (asSipUrl uri)
       (popRoute (with_routes (myRouteList a) (with_vias [getVia0 (myRequestMsg a)]
         (commandFrom SIP_ACK (str "ACK") (cseq (cseqHdr r)) r code (take 1 (vias r))))));
     mret ((match getSdp k with Some s => setRemoteSdp (Some s) | None => fun a => a end)
             (emit (SendAsync (setSdp (getSdp k) ack)) a), Returned 0)).
Proof.
  intros Hs Hk Hr Hc Hl Hu. unfold UaState.sendMsg. rewrite Hk. change (is_method SIP_ACK SIP_STATUS) with false.
  unfold sendRequest. rewrite Hs. unfold inCallSendRequest. rewrite Hk, Hr. cbn [mbind outcome_bind mret outcome_ret].
  rewrite (statusCodeOf_Ret _ _ Hc). cbn [mbind outcome_bind]. unfold ackStatus. rewrite (statusCodeOf_Ret _ _ Hc).
  cbn [mbind outcome_bind]. destruct (Z.leb_spec 200 code); [|lia]. rewrite ackMsg_Ret. cbn [mbind outcome_bind].
  unfold commandUri. rewrite Hu. cbn [mbind outcome_bind mret outcome_ret].
  destruct (setRequestLine _ _ _ _ _); [|reflexivity]. cbn [mbind outcome_bind]. now destruct (getSdp k).
Qed.

Lemma client_acks a k r code uri :
  myState a = U_STATE_INCALL -> getType k = SIP_ACK -> myResponseMsg a = Some r -> asStatus r = Some code ->
  200 <= code -> asCommand (myRequestMsg a) = Some uri -> ackable (localIp (facade a)) uri = true ->
  sendMsg a k =
    Ret ((match getSdp k with Some s => setRemoteSdp (Some s) | None => fun a => a end)
           (emit (SendAsync (ackSent a r code uri (getSdp k))) a), Returned 0).
Proof.
  intros Hs Hk Hr Hc Hl Hu Ha. rewrite (client_acks_by a k r code uri) by assumption.
  now rewrite setRequestLine_ackable by exact Ha.
Qed.

(** The ACK of an INVITE to a URL that is not a SIP URL aborts. *)
Lemma client_cannot_ack a k r code uri :
  myState a = U_STATE_INCALL -> getType k = SIP_ACK -> myResponseMsg a = Some r -> asStatus r = Some code ->
  200 <= code -> asCommand (myRequestMsg a) = Some uri -> asSipUrl uri = None -> sendMsg a k = Fault AssertFailed.
Proof.
  intros Hs Hk Hr Hc Hl Hu Ha. rewrite (client_acks_by a k r code uri) by assumption. rewrite Ha.
  now rewrite setRequestLine_none.
Qed.

Lemma server_acked b k :
  myState b = U_STATE_INCALL -> getType k = SIP_ACK ->
  receivedMsg b k = Ret (told (ReceivedRequest k) (with_ack k b)).
Proof.
  intros Hs Hk. unfold UaState.receivedMsg. rewrite Hk. change (is_method SIP_ACK SIP_STATUS) with false.
  unfold recvRequest. rewrite Hs. unfold inCallRecvRequest. rewrite Hk.
  destruct (type_command k SIP_ACK Hk ltac:(discriminate)) as [u Hu]. unfold commandUri. rewrite Hu.
  cbn [mbind outcome_bind mret outcome_ret]. unfold setAck. rewrite Hk. change (cassert _) with (@Ret unit tt).
  cbn [mbind outcome_bind mret outcome_ret]. apply tell_told.
Qed.

(** * The set-up of a call *)

Lemma lastSent_state s a : lastSent (with_state s a) = lastSent a.
Proof. reflexivity. Qed.

Lemma lastSent_told_if c a : lastSent (told c a) = lastSent a.
Proof. unfold told. destruct (hasController a); [apply lastSent_told | reflexivity]. Qed.

Lemma lastSent_accepted b m u : lastSent (accepted b m u) = Ret (okResponse b m u).
Proof.
  unfold accepted.
  set (x := with_response _ (emit _ _)).
  change (lastSent (told InCall x) = Ret (okResponse b m u)).
  rewrite lastSent_told_if. now apply (lastSent_emit _ (SendReply _)).
Qed.

(** What a reply leaves alone. *)
Lemma replied_same m code s mem b :
  let b' := replied m code s mem b in
  myRequestMsg b' = myRequestMsg b /\ facade b' = facade b /\ myRouteList b' = myRouteList b /\
  myRemoteSdpData b' = myRemoteSdpData b /\ hasController b' = hasController b /\
  draws b' = (if needsTag m code then S (draws b) else draws b) /\
  out b' = out b ++ [SendReply (setSdp s (statusMsg (randomHex (draws b)) m code))].
Proof. unfold replied, newStatus. cbn [snd]. destruct (needsTag m code), mem; repeat split. Qed.

(** What telling the controller leaves alone. *)
Lemma told_same c a :
  let b := told c a in
  myState b = myState a /\ myCallLegState b = myCallLegState a /\ myRemoteSdpData b = myRemoteSdpData a /\
  myLocalSdpData b = myLocalSdpData a /\ myRouteList b = myRouteList a /\ myResponseMsg b = myResponseMsg a /\
  myAckMsg b = myAckMsg a /\ facade b = facade a /\ incl (out a) (out b).
Proof.
  unfold told. destruct (hasController a); repeat split; try apply incl_refl. apply incl_appl, incl_refl.
Qed.

Lemma emit_same o a :
  myState (emit o a) = myState a /\ myCallLegState (emit o a) = myCallLegState a /\
  myRemoteSdpData (emit o a) = myRemoteSdpData a /\ myRouteList (emit o a) = myRouteList a /\
  myResponseMsg (emit o a) = myResponseMsg a.
Proof. repeat split. Qed.

(** The callee's agent when it has accepted. *)
Lemma accepted_same b m u s :
  getSdp m = Some s ->
  let b' := accepted b m u in
  (myState b' = U_STATE_INCALL /\ myCallLegState b' = C_LIVE) /\
  myLocalSdpData b' = Some s /\ myRemoteSdpData b' = myRemoteSdpData b /\
  myRouteList b' = myRouteList b /\ facade b' = facade b /\ incl (out b) (out b').
Proof.
  intros Hs. cbn zeta. split; [split; reflexivity|]. unfold accepted. rewrite Hs. set (x := with_response _ (emit _ _)).
  destruct (told_same InCall x) as (_ & _ & T3 & T4 & T5 & _ & _ & T8 & T9).
  cbn [myLocalSdpData myRemoteSdpData myRouteList facade out with_state with_response setCallLegState] in *.
  rewrite T3, T4, T5, T8. subst x.
  destruct (needsTag (myRequestMsg b) 200); (repeat split); (eapply incl_tran; [|exact T9]);
    apply incl_appl, incl_refl.
Qed.

(** The agents before the ACK: [b2] is the callee's while it rings, and [a2]
    the caller's. *)
Lemma setUp_answered fa fb ca cb inv uri rr ringing accept ackCmd code tu :
  msgKind inv = Request SIP_INVITE uri -> partyUrl (toHdr inv) = SipUri tu ->
  Forall isSip rr -> shouldFixSdpForNat fa = false ->
  asStatus ringing = Some code -> 180 <= code < 200 ->
  asStatus accept = Some 200 -> getType ackCmd = SIP_ACK -> getSdp ackCmd = None ->
  let arrived := with_recordRoutes rr inv in
  let early := setSdp (getSdp ringing) (statusMsg (randomHex 0) arrived code) in
  exists a2 b2,
    (myRequestMsg b2 = arrived /\ facade b2 = fb /\ myRouteList b2 = rr ++ contactRoute inv /\
      myRemoteSdpData b2 = getSdp inv /\ draws b2 = (if needsTag arrived code then 1%nat else 0%nat) /\
      In (SendReply early) (out b2)) /\
    let ok := okResponse b2 accept tu in
    let r := with_cseq (cseqHdr ok) ok in
    let a3 := answeredBy a2 ok in
    myResponseMsg a3 = Some r /\ asCommand (myRequestMsg a3) = Some uri /\ facade a3 = fa /\
    setUp fa fb ca cb inv rr ringing accept ackCmd =
      ('(a, _) ← sendMsg a3 ackCmd; m ← lastSent a; b ← receivedMsg (accepted b2 accept tu) m; mret (a, b)).
Proof.
  intros Hk Hto Hrr Hfix Hring Hcode Hacc Hack Hnone arrived early.
  assert (getType inv = SIP_INVITE) as Hinv by (unfold getType; now rewrite Hk).
  destruct (client_invites fa ca inv Hinv) as (o & Ho & E1).
  destruct (server_tries fb cb arrived Hinv Hrr) as (b1 & E2 & Hb1 & _ & Hb3 & Hb4 & Hb5 & Hb6 & Hb7 & Hb8 & _).
  assert (is_Some (asCommand (myRequestMsg b1))) as Hcmd by (rewrite Hb5; now apply (type_command _ SIP_INVITE)).
  pose proof (server_rings b1 ringing code Hb1 Hring Hcode Hcmd) as E3.
  set (b2 := with_state U_STATE_RINGING (replied (myRequestMsg b1) code (getSdp ringing) true b1)) in *.
  assert (early = setSdp (getSdp ringing) (statusMsg (randomHex (draws b1)) (myRequestMsg b1) code)) as Eearly
    by (unfold early; now rewrite Hb5, Hb8).
  assert (asStatus early = Some code) as Hearly by (unfold early; now rewrite asStatus_setSdp).
  set (a1 := with_state U_STATE_C_TRYING (emit o (newAgent fa A_CLIENT ca inv))) in *.
  pose proof (client_rings a1 early code eq_refl Hearly Hcode) as E4. set (a2 := told _ _) in E4.
  destruct (replied_same (myRequestMsg b1) code (getSdp ringing) true b1) as (R1 & R2 & R3 & R4 & R5 & R6 & R7).
  change (myRequestMsg b2 = myRequestMsg b1) in R1. change (facade b2 = facade b1) in R2.
  change (myRouteList b2 = myRouteList b1) in R3. change (myRemoteSdpData b2 = myRemoteSdpData b1) in R4.
  change (draws b2 = if needsTag (myRequestMsg b1) code then S (draws b1) else draws b1) in R6.
  rewrite <- Eearly in R7. change (out b2 = out b1 ++ [SendReply early]) in R7.
  rewrite Hb5 in R1. rewrite Hb3 in R2.
  pose proof (ringing_accepts b2 accept tu eq_refl Hacc ltac:(rewrite R1; now apply (type_command _ SIP_INVITE))
    ltac:(rewrite R1; exact Hto)) as E5.
  set (ok := okResponse b2 accept tu).
  assert (recordRoutes ok = rr) as Hokr by (unfold ok, okResponse; cbn [recordRoutes with_contacts with_contents statusMsg]; now rewrite R1).
  pose proof (client_answered a2 ok ltac:(now destruct ca) eq_refl ltac:(now destruct ca) ltac:(now rewrite Hokr)) as E6.
  set (a3 := answeredBy a2 ok) in E6. set (r := with_cseq (cseqHdr ok) ok).
  exists a2, b2. split.
  { repeat split; [exact R1 | exact R2 | now rewrite R3, Hb6 | now rewrite R4, Hb7 | now rewrite R6, Hb5, Hb8 |].
    rewrite R7. apply in_or_app. right. now left. }
  cbn zeta. fold ok r a3. split; [now destruct ca|]. split; [unfold asCommand; destruct ca; cbn; now rewrite Hk|].
  split; [now destruct ca|].
  unfold setUp. fold arrived. rewrite E1. cbn [mbind outcome_bind]. rewrite E2. cbn [mbind outcome_bind]. rewrite E3.
  cbn [mbind outcome_bind].
  replace (lastSent b2) with (Ret early) by (symmetry; rewrite Eearly; exact (lastSent_replied _ _ _ true b1)).
  cbn [mbind outcome_bind]. rewrite E4. cbn [mbind outcome_bind]. rewrite E5. cbn [mbind outcome_bind].
  rewrite lastSent_accepted. cbn [mbind outcome_bind]. fold ok. now rewrite E6.
Qed.

(** The agents at the end of a set-up. *)
Lemma setUp_Ret fa fb ca cb inv uri rr ringing accept ackCmd code tu :
  msgKind inv = Request SIP_INVITE uri -> partyUrl (toHdr inv) = SipUri tu ->
  Forall isSip rr -> shouldFixSdpForNat fa = false ->
  asStatus ringing = Some code -> 180 <= code < 200 ->
  asStatus accept = Some 200 -> getType ackCmd = SIP_ACK -> getSdp ackCmd = None -> ackable (localIp fa) uri = true ->
  let arrived := with_recordRoutes rr inv in
  let early := setSdp (getSdp ringing) (statusMsg (randomHex 0) arrived code) in
  exists a2 b2,
    (myRequestMsg b2 = arrived /\ facade b2 = fb /\ myRouteList b2 = rr ++ contactRoute inv /\
      myRemoteSdpData b2 = getSdp inv /\ draws b2 = (if needsTag arrived code then 1%nat else 0%nat) /\
      In (SendReply early) (out b2)) /\
    let ok := okResponse b2 accept tu in
    let r := with_cseq (cseqHdr ok) ok in
    let a3 := answeredBy a2 ok in
    let k := ackSent a3 r 200 uri None in
    myResponseMsg a3 = Some r /\
    setUp fa fb ca cb inv rr ringing accept ackCmd =
      Ret (emit (SendAsync k) a3, told (ReceivedRequest k) (with_ack k (accepted b2 accept tu))).
Proof.
  intros Hk Hto Hrr Hfix Hring Hcode Hacc Hack Hnone Hable arrived early.
  destruct (setUp_answered fa fb ca cb inv uri rr ringing accept ackCmd code tu Hk Hto Hrr Hfix Hring Hcode Hacc Hack Hnone)
    as (a2 & b2 & H2 & Hr & Hu & Hf & E).
  exists a2, b2. split; [exact H2|]. cbn zeta. split; [exact Hr|]. rewrite E. set (r := with_cseq _ _) in *. set (a3 := answeredBy _ _) in *.
  assert (asStatus r = Some 200) as Hc by reflexivity. assert (myState a3 = U_STATE_INCALL) as Hs by reflexivity. clearbody r a3.
  rewrite (client_acks a3 ackCmd r 200 uri) by (assumption || lia || now rewrite Hf). rewrite Hnone. cbn [mbind outcome_bind].
  set (k := ackSent a3 r 200 uri None). destruct (ackSent_dialog a3 r 200 uri None) as (Hd & Hkt & Hkc).
  rewrite (lastSent_emit _ (SendAsync k) k) by reflexivity. cbn [mbind outcome_bind].
  now rewrite (server_acked (accepted b2 accept tu) k eq_refl Hkt).
Qed.

(** With a request to a URL that is not a SIP URL the caller aborts in the end. *)
Lemma setUp_aborts fa fb ca cb inv uri rr ringing accept ackCmd code tu :
  msgKind inv = Request SIP_INVITE uri -> partyUrl (toHdr inv) = SipUri tu ->
  Forall isSip rr -> shouldFixSdpForNat fa = false ->
  asStatus ringing = Some code -> 180 <= code < 200 ->
  asStatus accept = Some 200 -> getType ackCmd = SIP_ACK -> getSdp ackCmd = None -> asSipUrl uri = None ->
  setUp fa fb ca cb inv rr ringing accept ackCmd = Fault AssertFailed.
Proof.
  intros Hk Hto Hrr Hfix Hring Hcode Hacc Hack Hnone Hu.
  destruct (setUp_answered fa fb ca cb inv uri rr ringing accept ackCmd code tu Hk Hto Hrr Hfix Hring Hcode Hacc Hack Hnone)
    as (a2 & b2 & H2 & Hr & Hc & Hf & ->).
  set (r := with_cseq _ _) in *. set (a3 := answeredBy _ _) in *.
  assert (asStatus r = Some 200) as Hs by reflexivity. assert (myState a3 = U_STATE_INCALL) as Ha by reflexivity. clearbody r a3.
  now rewrite (client_cannot_ack a3 ackCmd r 200 uri) by (assumption || lia).
Qed.

(** The caller's agent when it is answered. *)
Lemma answeredBy_same a m :
  myState (answeredBy a m) = U_STATE_INCALL /\ myCallLegState (answeredBy a m) = C_LIVE /\
  myRemoteSdpData (answeredBy a m) = getSdp m /\
  myRouteList (answeredBy a m) = List.rev (recordRoutes m) ++ contactRoute m.
Proof.
  unfold answeredBy. set (x := setLocalCSeq _ _).
  destruct (told_same (ReceivedStatus m) x) as (_ & _ & C3 & _ & C5 & _).
  split; [reflexivity|]. split; [reflexivity|]. split; [exact C3 | exact C5].
Qed.

Lemma needsTag_invite m code : tag (toHdr m) = [] -> 100 < code < 500 -> needsTag m code = true.
Proof.
  intros H Hc. unfold needsTag. rewrite H. destruct (Z.ltb_spec 100 code); [|lia].
  now destruct (Z.ltb_spec code 500); [|lia].
Qed.

Lemma statusMsg_tag t m code s : needsTag m code = true -> tag (toHdr (setSdp s (statusMsg t m code))) = t.
Proof. intros H. destruct s; cbn; now rewrite H. Qed.

(** ** The end of a call *)

Lemma byeOfStatus_some m code : exists num, byeOfStatus m code = Ret (commandFrom SIP_BYE (str "BYE") num m code []).
Proof. destruct (toInt_returns (cseq (cseqHdr m))) as [n Hn]. eexists. apply (byeOfStatus_Ret m code n Hn). Qed.

(** A BYE with the saved routes: the first is the URL, the others are its routes. *)
Lemma addressBye_routed a n m x l :
  getType m = SIP_BYE -> myRouteList a = x :: l -> cseqMethodName (cseqHdr m) = str "BYE" -> n < 2147483648 ->
  let bye := addressBye a n m in
  getType bye = SIP_BYE /\ asCommand bye = Some x /\ routes bye = l /\ vias bye = [byeVia a] /\
  cseqHdr bye = mkCSeq (itoa n) (str "BYE") /\ sameDialog m bye.
Proof.
  intros Ht Hr Hm Hn. unfold addressBye. rewrite Hr. unfold getType in Ht. unfold routeToUrl, setRequestUrl, getType, asCommand.
  cbn [routes with_routes msgKind]. destruct (msgKind m); [|discriminate]. cbn. rewrite Ht. unfold setCSeq. rewrite Hm.
  destruct (Z.ltb_spec n 2147483648); [|lia]. repeat split.
Qed.

Lemma u32_small n : 0 <= n < 2147483648 -> u32 n = n.
Proof. intros H. apply wrap_small. lia. Qed.

Lemma incrCSeq_Ret c n :
  toInt (cseq c) = Ret n -> 0 <= n < 2147483647 -> incrCSeq c = Ret (mkCSeq (itoa (n + 1)) (cseqMethodName c)).
Proof.
  intros H Hn. unfold incrCSeq, getNextCSeq. rewrite H. cbn [mbind outcome_bind mret outcome_ret].
  rewrite u32_small by lia. destruct (Z.ltb_spec n 2147483647); [reflexivity | lia].
Qed.

Lemma clientBye_Ret a r code n :
  myResponseMsg a = Some r -> asStatus r = Some code -> toInt (cseq (myLocalCSeq a)) = Ret n -> 0 <= n < 2147483647 ->
  exists num c,
    let bye := addressBye (setLocalCSeq c a) (n + 1) (commandFrom SIP_BYE (str "BYE") num r code []) in
    c = mkCSeq (itoa (n + 1)) (cseqMethodName (myLocalCSeq a)) /\
    clientBye a = Ret (emit (SendAsync bye) (setLocalCSeq c a), Some bye).
Proof.
  intros Hr Hc Hn Hb. destruct (byeOfStatus_some r code) as [num E]. exists num. eexists. split; [reflexivity|].
  unfold clientBye. rewrite Hr. cbn [mbind outcome_bind mret outcome_ret]. rewrite (statusCodeOf_Ret _ _ Hc).
  cbn [mbind outcome_bind]. rewrite E. cbn [mbind outcome_bind]. rewrite (incrCSeq_Ret _ n Hn Hb). cbn [mbind outcome_bind cseq].
  rewrite toInt_itoa by lia. cbn [mbind outcome_bind mret outcome_ret]. now rewrite u32_small by lia.
Qed.

(** A request that ends or cancels, as an agent in a call takes it. *)
Lemma told_twice c c' a :
  exists b, (x ← tell controller (hasController a) c a; tell controller (hasController a) c' x) = Ret b /\
    lastSent b = lastSent a /\ myState b = myState a /\ myAgentRole b = myAgentRole a /\ myResponseMsg b = myResponseMsg a.
Proof.
  rewrite tell_quiet. cbn [mbind outcome_bind]. rewrite tell_quiet. eexists. split; [reflexivity|].
  destruct (hasController a); [|repeat split]. rewrite !lastSent_told. repeat split.
Qed.

Lemma bye_received b m :
  myState b = U_STATE_INCALL \/ myState b = U_STATE_HOLD -> getType m = SIP_BYE ->
  exists b', receivedMsg b m = Ret b' /\ myState b' = U_STATE_IDLE /\
    lastSent b' = Ret (statusMsg (randomHex (draws b)) m 200).
Proof.
  intros Hs Hm. pose proof (type_command m SIP_BYE Hm ltac:(discriminate)) as Hu.
  assert (receivedMsg b m = (x ← (y ← tell controller (hasController (replied m 200 None true b)) EndCall (replied m 200 None true b);
      tell controller (hasController (replied m 200 None true b)) (ReceivedRequest m) y); goto U_STATE_IDLE x)) as ->.
  { unfold UaState.receivedMsg. rewrite Hm. change (is_method SIP_BYE SIP_STATUS) with false. unfold recvRequest.
    destruct Hs as [-> | ->]; unfold inCallRecvRequest, inHoldRecvRequest, reply; rewrite Hm; destruct Hu as [u Hu];
      unfold commandUri; rewrite Hu; cbn [mbind outcome_bind mret outcome_ret];
      rewrite reply_Ret by (now exists u); cbn [mbind outcome_bind];
      rewrite tell_quiet; cbn [mbind outcome_bind]; now rewrite tell_quiet. }
  destruct (told_twice EndCall (ReceivedRequest m) (replied m 200 None true b)) as (b' & -> & Hl & _).
  exists (with_state U_STATE_IDLE b'). split; [reflexivity|]. split; [reflexivity|].
  rewrite lastSent_state, Hl. exact (lastSent_replied m 200 None true b).
Qed.

End Calls.

End UaCalls.
