(* ===== verification/UaProps.v ===== *)
(** What the SIP user agent does to a call: the properties of its states, its
    routes and its calls, with concrete calls that meet their hypotheses. *)
From S2P Require Import Prelude DataStr DataStrFacts DataStrText SipHeap UaMsg UaAgent UaState UaFacts UaCalls.
Import DataStr DataStrFacts SipHeap UaMsg UaAgent UaState UaFacts UaCalls.

Module UaProps.

Section Calls.
Variable randomHex : nat -> bytes.
Variable ipName : bytes -> bytes.
Variable controller : Callback -> UaBase -> outcome UaBase.
Variable strict : bool.
Hypothesis quiet : forall c a, controller c a = Ret a.

Abbreviation receivedMsg := (receivedMsg randomHex ipName controller strict).
Abbreviation sendMsg := (sendMsg randomHex controller strict).
Abbreviation setUp := (setUp randomHex ipName controller strict).

(** C2: When an INVITE reaches a server agent through proxies that record
    their routes, and the callee's application rings and accepts and the
    caller's has the answer acknowledged, then, if the URL of the INVITE is a
    SIP URL that the request line can carry (no blank or line end in it, and
    the like), both agents are in the call.  Each has the session description
    of the other; the caller's routes are the recorded ones in reverse and
    then the callee's contact, the callee's are the recorded ones and then the
    caller's contact; and the ACK the callee keeps is of the dialog of the
    200.  That dialog's tag is not the one the caller was told of while it
    rang: every response draws a tag of its own.  If the URL of the INVITE is
    no SIP URL but, for example, a tel: URL, the call does not come about: the
    caller's process aborts when it builds the ACK. *)
Theorem call_established fa fb ca cb inv uri rr ringing accept ackCmd code s tu :
  msgKind inv = Request SIP_INVITE uri -> partyUrl (toHdr inv) = SipUri tu -> tag (toHdr inv) = [] ->
  Forall isSip rr -> shouldFixSdpForNat fa = false ->
  asStatus ringing = Some code -> 180 <= code < 200 ->
  asStatus accept = Some 200 -> getSdp accept = Some s ->
  getType ackCmd = SIP_ACK -> getSdp ackCmd = None ->
  (ackable (localIp fa) uri = true ->
  exists a b early r k,
    setUp fa fb ca cb inv rr ringing accept ackCmd = Ret (a, b) /\
    (myState a = U_STATE_INCALL /\ myState b = U_STATE_INCALL) /\
    (myCallLegState a = C_LIVE /\ myCallLegState b = C_LIVE) /\
    (myRemoteSdpData a = Some s /\ myLocalSdpData b = Some s /\ myRemoteSdpData b = getSdp inv) /\
    (myRouteList a = rev rr ++ [contactAt (natHost fb) b tu] /\ myRouteList b = rr ++ contactRoute inv) /\
    (myResponseMsg a = Some r /\ myAckMsg b = Some k /\ sameDialog r k /\
      cseqHdr k = mkCSeq (cseq (cseqHdr inv)) (str "ACK")) /\
    (In (SendReply early) (out b) /\ asStatus early = Some code /\
      tag (toHdr early) = randomHex 0 /\ tag (toHdr r) = randomHex 1)) /\
  (asSipUrl uri = None -> setUp fa fb ca cb inv rr ringing accept ackCmd = Fault AssertFailed).
Proof.
  intros Hk Hto Htag Hrr Hfix Hring Hcode Hacc Hs Hack Hnone. split.
  2: exact (setUp_aborts randomHex ipName controller strict quiet fa fb ca cb inv uri rr ringing accept ackCmd code tu Hk Hto
       Hrr Hfix Hring Hcode Hacc Hack Hnone).
  intros Hable.
  destruct (setUp_Ret randomHex ipName controller strict quiet fa fb ca cb inv uri rr ringing accept ackCmd code tu Hk Hto Hrr Hfix
    Hring Hcode Hacc Hack Hnone Hable) as (a2 & b2 & (R1 & R2 & R3 & R4 & R6 & R7) & Hresp & Hset).
  set (ok := okResponse randomHex b2 accept tu) in *. set (r := with_cseq (cseqHdr ok) ok) in *.
  destruct (accepted_same randomHex b2 accept tu s Hs) as ((A1 & A2) & A3 & A4 & A5 & A8 & A9).
  destruct (answeredBy_same a2 ok) as (C1 & C2 & C3 & C5).
  destruct (ackSent_dialog (answeredBy a2 ok) r 200 uri None) as (Hd & _ & Hkc).
  assert (recordRoutes ok = rr) as Hokr by (unfold ok, okResponse; cbn [recordRoutes with_contacts with_contents statusMsg]; now rewrite R1).
  assert (contactRoute ok = [contactAt (natHost (facade b2)) b2 tu]) as Hokc by reflexivity.
  assert (cseqHdr r = cseqHdr inv) as Hrc
    by (unfold r, ok, okResponse; cbn [cseqHdr with_cseq with_contacts with_contents statusMsg]; now rewrite R1).
  assert (getSdp ok = Some s) as Hoks by (unfold ok, okResponse; now rewrite Hs).
  assert (tag (toHdr r) = randomHex 1) as Hrt.
  { unfold r, ok, okResponse. cbn [toHdr with_cseq with_contacts with_contents]. rewrite R6, R1.
    rewrite (needsTag_invite (with_recordRoutes rr inv) code Htag ltac:(lia)).
    exact (statusMsg_tag (randomHex 1) _ 200 None (needsTag_invite (with_recordRoutes rr inv) 200 Htag ltac:(lia))). }
  generalize dependent (ackSent (answeredBy a2 ok) r 200 uri None). intros k Hset Hd Hkc.
  generalize dependent (answeredBy a2 ok). intros a3 Hresp C1 C2 C3 C5 Hset.
  generalize dependent (accepted randomHex b2 accept tu). intros b3 A1 A2 A3 A4 A5 A8 A9 Hset.
  clearbody r. clearbody ok.
  destruct (told_same (ReceivedRequest k) (with_ack k b3)) as (T1 & T2 & T3 & T4 & T5 & _ & T7 & T8 & T9).
  cbn [myState myCallLegState myRemoteSdpData myLocalSdpData myRouteList myAckMsg facade out with_ack] in *.
  generalize dependent (told (ReceivedRequest k) (with_ack k b3)). intros b Hset T1 T2 T3 T4 T5 T7 T8 T9.
  destruct (emit_same (SendAsync k) a3) as (E1 & E2 & E3 & E4 & E5).
  exists (emit (SendAsync k) a3), b, (setSdp (getSdp ringing) (statusMsg (randomHex 0) (with_recordRoutes rr inv) code)), r, k.
  split; [exact Hset|]. rewrite E1, E2, E3, E4, E5, C1, C2, C3, C5, T1, T2, T3, T4, T5, T7, A1, A2, A3, A4, A5, Hokr, Hokc, Hoks, R3, R4.
  repeat split; auto; try apply Hd.
  - unfold contactAt. now rewrite R2, T8, A8, R2.
  - now rewrite Hkc, Hrc.
  - now rewrite asStatus_setSdp.
  - now apply statusMsg_tag, needsTag_invite; [|lia].
Qed.

(** * The end of a call *)

Lemma sendMsg_request a m t :
  getType m = t -> t <> SIP_STATUS -> sendMsg a m = sendRequest strict a m.
Proof. intros <- H. unfold UaState.sendMsg. now rewrite bool_decide_eq_false_2. Qed.

Lemma receivedMsg_request a m t :
  getType m = t -> t <> SIP_STATUS -> receivedMsg a m = recvRequest randomHex controller a m.
Proof. intros <- H. unfold UaState.receivedMsg. now rewrite bool_decide_eq_false_2. Qed.

(** C28: When the application of a caller that is in a call hangs up, the BYE
    is of the dialog of the answer, has the next number, this host's Via and
    the first saved route for URL with the others after it; the other side,
    in the call or on hold, answers it with 200 and is idle, and with that
    answer the caller is idle too. *)
Theorem caller_hangs_up a b r code x l m n :
  myAgentRole a = A_CLIENT -> myState a = U_STATE_INCALL -> myResponseMsg a = Some r -> asStatus r = Some code ->
  toInt (cseq (myLocalCSeq a)) = Ret n -> 0 <= n < 2147483647 -> myRouteList a = x :: l ->
  myState b = U_STATE_INCALL \/ myState b = U_STATE_HOLD -> getType m = SIP_BYE ->
  exists a1 bye b1 ok a2,
    sendMsg a m = Ret (a1, Returned 0) /\ myState a1 = U_STATE_END /\ lastSent a1 = Ret bye /\
    (getType bye = SIP_BYE /\ asCommand bye = Some x /\ routes bye = l /\ vias bye = [byeVia a] /\
      cseqHdr bye = mkCSeq (itoa (n + 1)) (str "BYE") /\ sameDialog r bye) /\
    receivedMsg b bye = Ret b1 /\ myState b1 = U_STATE_IDLE /\
    lastSent b1 = Ret ok /\ asStatus ok = Some 200 /\
    receivedMsg a1 ok = Ret a2 /\ myState a2 = U_STATE_IDLE.
Proof.
  intros Hrole Hs Hr Hc Hn Hb Hl Hbs Hm.
  destruct (clientBye_Ret a r code n Hr Hc Hn Hb) as (num & c & Ec & E).
  set (a0 := setLocalCSeq c a) in *. set (bye := addressBye a0 (n + 1) _) in E.
  destruct (commandFrom_kind SIP_BYE (str "BYE") num r code []) as (K1 & _ & K3).
  destruct (addressBye_routed a0 (n + 1) _ x l K1 Hl ltac:(now rewrite K3) ltac:(lia)) as (B1 & B2 & B3 & B4 & B5 & B6).
  fold bye in B1, B2, B3, B4, B5, B6.
  destruct (bye_received randomHex ipName controller strict quiet b bye Hbs B1) as (b1 & R1 & R2 & R3).
  set (a1 := with_state U_STATE_END (emit (SendAsync bye) a0)).
  set (ok := statusMsg (randomHex (draws b)) bye 200) in *.
  exists a1, bye, b1, ok, (with_state U_STATE_IDLE (told (ReceivedStatus ok) a1)).
  assert (sendMsg a m = Ret (a1, Returned 0)) as ->.
  { rewrite (sendMsg_request a m SIP_BYE Hm ltac:(discriminate)). unfold sendRequest. rewrite Hs.
    unfold inCallSendRequest. rewrite Hm. unfold sendBye. rewrite Hrole, E. reflexivity. }
  assert (lastSent a1 = Ret bye) as -> by now apply (lastSent_emit _ (SendAsync bye)).
  assert (receivedMsg a1 ok = Ret (told (ReceivedStatus ok) (with_state U_STATE_IDLE a1))) as E1.
  { rewrite (receivedMsg_status _ _ _ _ a1 ok 200 eq_refl). unfold recvStatus. cbn [myState with_state a1].
    unfold endRecvStatus. cbn [statusCodeOf asStatus ok msgKind statusMsg mbind outcome_bind mret outcome_ret].
    now apply tell_told. }
  rewrite E1. pose proof (commandFrom_dialog SIP_BYE (str "BYE") num r code []) as (D1 & D2 & D3).
  destruct B6 as (B6 & B7 & B8).
  repeat split; try assumption; try congruence.
  unfold told. now destruct (hasController _).
Qed.

(** A callee that has accepted a call but has had no ACK yet sends nothing
    when its application hangs up, and is ended all the same; from then on it
    takes no notice of any request, the ACK and the caller's own BYE among
    them. *)
Theorem early_hang_up_is_silent b m :
  myAgentRole b = A_SERVER -> myState b = U_STATE_INCALL \/ myState b = U_STATE_HOLD -> myAckMsg b = None ->
  getType m = SIP_BYE ->
  sendMsg b m = Ret (with_state U_STATE_END b, Returned 0) /\
  forall k, getType k <> SIP_STATUS ->
    receivedMsg (with_state U_STATE_END b) k = Ret (with_state U_STATE_END b).
Proof.
  intros Hr Hs Ha Hm. split.
  - rewrite (sendMsg_request b m SIP_BYE Hm ltac:(discriminate)). unfold sendRequest.
    destruct Hs as [-> | ->]; unfold inCallSendRequest, inHoldSendRequest; rewrite Hm; unfold sendBye, serverBye; now rewrite Hr, Ha.
  - intros k Hk. now rewrite (receivedMsg_request _ k (getType k) eq_refl Hk).
Qed.

(** A server agent that has failed, because a CANCEL came while it was in
    a call or on hold, aborts the process when a response reaches it: such as
    the answer to a re-INVITE of its own. *)
Theorem response_after_failure_aborts b cancel m code :
  myAgentRole b = A_SERVER -> myState b = U_STATE_INCALL \/ myState b = U_STATE_HOLD ->
  getType cancel = SIP_CANCEL -> asStatus m = Some code ->
  exists b', receivedMsg b cancel = Ret b' /\ myState b' = U_STATE_FAILURE /\
    receivedMsg b' m = Fault AssertFailed.
Proof.
  intros Hr Hs Hc Hm. pose proof (type_command cancel SIP_CANCEL Hc ltac:(discriminate)) as Hu.
  set (b0 := replied randomHex cancel 487 None true (replied randomHex cancel 200 None true b)).
  assert (receivedMsg b cancel = (x ← (y ← tell controller (hasController b0) (ReceivedRequest cancel) b0;
      tell controller (hasController b0) EndCall y); goto U_STATE_FAILURE x)) as ->.
  { rewrite (receivedMsg_request b cancel SIP_CANCEL Hc ltac:(discriminate)). unfold recvRequest.
    destruct Hs as [-> | ->]; unfold inCallRecvRequest, inHoldRecvRequest, reply; rewrite Hc; pose proof Hu as [u Eu];
      unfold commandUri; rewrite Eu; cbn [mbind outcome_bind mret outcome_ret];
      rewrite reply_Ret by exact Hu; cbn [mbind outcome_bind]; rewrite reply_Ret by exact Hu; cbn [mbind outcome_bind];
      fold b0; rewrite (tell_quiet controller quiet); cbn [mbind outcome_bind]; now rewrite (tell_quiet controller quiet). }
  destruct (told_twice controller quiet (ReceivedRequest cancel) EndCall b0) as (b1 & -> & _ & _ & Hr1 & _).
  exists (with_state U_STATE_FAILURE b1). split; [reflexivity|]. split; [reflexivity|].
  rewrite (receivedMsg_status _ _ _ _ _ m code Hm). unfold recvStatus. cbn [myState with_state].
  unfold failureRecvStatus, isAClient. cbn [myAgentRole with_state]. rewrite Hr1.
  replace (myAgentRole b0) with A_SERVER; [reflexivity|].
  unfold b0, replied, newStatus. cbn [snd]. now destruct (needsTag cancel 200), (needsTag cancel 487).
Qed.

Lemma okFor_Ret command code body host u b :
  okFor randomHex command code body host u b =
    (with_contacts [contactAt host b u] (with_contents body (statusMsg (randomHex (draws b)) command code)),
     if needsTag command code then with_draws (S (draws b)) b else b).
Proof. unfold okFor, newStatus. now destruct (needsTag command code). Qed.

(** When the callee's application refuses a call that rings, a client
    error is sent and the agent waits for its ACK.  With exactly 500 the
    refusal is sent but the agent and its controller are in a call; with any
    other code that is not of the class 4 the agent is idle and the caller is
    sent nothing at all. *)
Theorem refusal_while_ringing b m code u :
  myState b = U_STATE_RINGING -> asStatus m = Some code -> 300 <= code ->
  is_Some (asCommand (myRequestMsg b)) -> partyUrl (toHdr (myRequestMsg b)) = SipUri u ->
  hasController b = true -> getSdp m = None ->
  exists b', sendMsg b m = Ret (b', Returned 0) /\
    myState b' = (if code =? 500 then U_STATE_INCALL
                  else if (400 <=? code) && (code <? 500) then U_STATE_FAILURE else U_STATE_IDLE) /\
    (exists s, omap sentMsg s = (if (400 <=? code) && (code <=? 500) then [with_contacts [contactAt (natHost (facade b)) b u]
        (statusMsg (randomHex (draws b)) (myRequestMsg b) code)] else []) /\
      out b' = out b ++ s ++ [Told (if code =? 500 then InCall
                                    else if (400 <=? code) && (code <? 500) then CallFailed else EndCall)]).
Proof.
  intros Hs Hm H3 [uri Hu] Hto Hc Hsdp. rewrite (sendMsg_status _ _ _ b m code Hm). unfold sendStatus. rewrite Hs.
  unfold ringingSendStatus. rewrite (statusCodeOf_Ret _ _ Hm). cbn [mbind outcome_bind].
  destruct (Z.ltb_spec code 200); [lia|]. destruct (Z.ltb_spec 200 code); [|lia]. cbn [andb].
  unfold commandUri. rewrite Hu, Hsdp, Hto. cbn [asSipUrl sipUrlOf mbind outcome_bind mret outcome_ret sdpBody].
  rewrite !okFor_Ret. set (d := if needsTag (myRequestMsg b) code then _ else b).
  set (r := with_contacts _ _). assert (setResponse r (emit (SendReply r) d) = Ret (with_response r (emit (SendReply r) d))) as E1
    by (apply setResponse_status; now exists code).
  assert (hasController d = true /\ out d = out b) as [Hd Ho] by (subst d; now destruct (needsTag _ _)).
  assert (forall a c, hasController a = true -> tell controller (hasController a) c a = Ret (emit (Told c) a)) as Htell
    by (intros a c Ha; rewrite Ha; apply quiet).
  destruct (Z.eqb_spec code 500) as [->|]; [|destruct (Z.leb_spec 400 code), (Z.ltb_spec code 500), (Z.ltb_spec code 400),
    (Z.ltb_spec 500 code), (Z.leb_spec code 500); try lia]; cbn [Z.ltb Z.leb Z.compare Pos.compare Pos.compare_cont andb orb];
    rewrite ?E1; cbn [mbind outcome_bind].
  - rewrite Htell by exact Hd. cbn [mbind outcome_bind]. rewrite setResponse_status by (now exists 500).
    eexists. split; [reflexivity|]. split; [reflexivity|]. exists [SendReply r]. split; [reflexivity|].
    cbn [out with_state with_response setCallLegState emit]. now rewrite Ho, <- app_assoc.
  - rewrite setResponse_status by (now exists code). cbn [mbind outcome_bind]. rewrite Htell by exact Hd.
    eexists. split; [reflexivity|]. split; [reflexivity|]. exists [SendReply r]. split; [reflexivity|].
    cbn [out with_state with_response setCallLegState emit]. now rewrite Ho, <- app_assoc.
  - rewrite Htell by exact Hc. eexists. split; [reflexivity|]. split; [reflexivity|]. now exists [].
  - rewrite Htell by exact Hc. eexists. split; [reflexivity|]. split; [reflexivity|]. now exists [].
Qed.

End Calls.

(** * Routes *)

(** C21: The routes of a message are saved, in order or reversed, with its last
    contact after them, when all of them are SIP URLs; when a tel: URL comes
    first among those that are not, the loop never ends, however long it
    runs. *)
Theorem saveRouteList_terminates m rev a :
  (Forall isSip (recordRoutes m) -> forall fuel, (length (recordRoutes m) < fuel)%nat ->
    saveRouteList fuel m rev a =
      Ret (with_routeList ((if rev : bool then List.rev (recordRoutes m) else recordRoutes m) ++ contactRoute m) a)) /\
  (forall pre n post, recordRoutes m = pre ++ TelUri n :: post -> Forall isSip pre ->
    forall fuel, saveRouteList fuel m rev a = Fault OutOfFuel).
Proof.
  split.
  - intros H fuel Hf. unfold saveRouteList. rewrite routesOf_returns by auto. cbn [mbind outcome_bind mret outcome_ret].
    rewrite app_nil_r. now destruct rev.
  - intros pre n post E Hp fuel. unfold saveRouteList. rewrite E. clear E.
    assert (forall acc, routesOf fuel (pre ++ TelUri n :: post) rev acc = Fault OutOfFuel) as ->; [|reflexivity].
    revert pre Hp. induction fuel as [|fuel IH]; intros pre Hp acc; [reflexivity|].
    destruct pre as [|u pre]; cbn [routesOf app]; [apply (IH []); constructor|].
    apply Forall_cons_1 in Hp as [[v Hv] Hp]. destruct u as [|w|]; [discriminate | | discriminate].
    cbn [sipUrlOf asSipUrl mbind outcome_bind mret outcome_ret]. now apply IH.
Qed.

(** The BYE made of a response is addressed the same by the routes its
    constructor takes from the response and by those the agent has saved from
    it; only when no proxy has recorded its route is the contact, which is
    the URL of the request already, a route as well. *)
Theorem bye_addressing_agrees m code c a a' bye n :
  180 <= code < 300 -> contacts m = [c] ->
  saveRouteList (routeFuel m) m true a = Ret a' -> byeOfStatus m code = Ret bye ->
  asCommand (addressBye a' n bye) = asCommand bye /\
  routes bye = routes (addressBye a' n bye) ++ (match recordRoutes m with [] => [c] | _ => [] end).
Proof.
  intros Hcode Hc Hs Hb. destruct (byeOfStatus_some m code) as [num E]. rewrite E in Hb. injection Hb as <-.
  assert (Forall isSip (recordRoutes m)) as Hr.
  { destruct (Forall_dec isSip isSip_dec (recordRoutes m)) as [H | H]; [exact H|].
    unfold saveRouteList in Hs. destruct (routesOf_faults true (routeFuel m) _ [] H) as [f Hf]. now rewrite Hf in Hs. }
  rewrite saveRouteList_returns in Hs by exact Hr. injection Hs as <-.
  unfold contactRoute, getContact. rewrite Hc. cbn [List.last].
  unfold commandFrom, pushContactRoute, firstContact. rewrite Hc. cbn [head].
  destruct (Z.leb_spec 180 code); [|lia]. destruct (Z.ltb_spec code 300); [|lia]. cbn [andb].
  destruct (recordRoutes m) as [|x l]; [now split|]. unfold addressBye. cbn [myRouteList with_routeList List.rev].
  destruct (List.rev l ++ [x]) as [|y k] eqn:E'; [now apply app_eq_nil in E' as [_ ?]|].
  cbn. split; [reflexivity | now rewrite app_nil_r].
Qed.

(** * The life of an agent *)

Section Life.
Variable randomHex : nat -> bytes.
Variable ipName : bytes -> bytes.
Variable controller : Callback -> UaBase -> outcome UaBase.
Variable strict : bool.

(** The agents that come of the constructor by the operations of [UaBase], the
    sending of a BYE and the setting of session descriptions. *)
Inductive reachable : UaBase -> Prop :=
| reach_new f role ctl req : wfInvite req -> reachable (newAgent f role ctl req)
| reach_received a m a' :
    reachable a -> wfMsg m -> receivedMsg randomHex ipName controller strict a m = Ret a' -> reachable a'
| reach_sent a m a' ans :
    reachable a -> wfMsg m -> sendMsg randomHex controller strict a m = Ret (a', ans) -> reachable a'
| reach_bye a a' bye : reachable a -> sendBye a = Ret (a', bye) -> reachable a'
| reach_local a s : reachable a -> reachable (setLocalSdp s a)
| reach_remote a s : reachable a -> reachable (setRemoteSdp s a).

(** C9: Every reachable agent is well formed: its request is an INVITE, the
    response and the ACK it keeps are a response and an ACK, a server's trying
    state is only a server's and a client's trying and redirected states only
    a client's, and in a call or on hold a response is kept; provided that the
    controller, when it is told something, keeps the agent well formed, in its
    role and with its response. *)
Theorem reachable_agent_wf :
  (forall c a, wf a -> exists a', controller c a = Ret a' /\ keeps a a') ->
  forall a, reachable a -> wf a.
Proof.
  intros Hc a H. induction H as [f role ctl req Hi | a m a' _ IH Hm E | a m a' ans _ IH Hm E | a a' bye _ IH E | |].
  - split; [exact Hi|]. split; [discriminate|]. split; [discriminate | exact I].
  - pose proof (receivedMsg_wp randomHex ipName controller strict Hc a m IH Hm) as H. rewrite E in H. apply (keeps_wf _ _ H).
  - pose proof (sendMsg_wp randomHex controller strict Hc a m IH Hm) as H. rewrite E in H. apply (keeps_wf _ _ H).
  - pose proof (wp_sendBye True a IH (fun _ _ => I)) as H. rewrite E in H. apply (keeps_wf _ _ H).
  - exact IHreachable.
  - exact IHreachable.
Qed.

(** C10: A well-formed agent takes every message without a failed assertion, a
    null pointer or an endless loop, and stays well formed, except in the
    cases [troubled] lists: a response comes to a failed server's agent; a 487
    comes to a failed client's agent whose INVITE has a request URL the ACK's
    request line cannot be built of (a tel: URL, or a SIP URL that does not
    print to one word); a server's first INVITE or a 200 to a client that
    waits for it records a route that is no SIP URL; the session description
    of a 200 is to be fixed for a NAT and the response has no contact that is
    a SIP URL.  In the same way it sends, except in the cases [sendTroubled]
    lists: To, From or the saved routes give it no address, the request to be
    cancelled has no Via, or it acknowledges the answer to an INVITE with such
    a request URL. *)
Theorem messages_are_handled :
  (forall c a, wf a -> exists a', controller c a = Ret a' /\ keeps a a') ->
  forall a m, wf a -> wfMsg m ->
  (~ troubled a m -> exists a', receivedMsg randomHex ipName controller strict a m = Ret a' /\ keeps a a') /\
  (~ sendTroubled a m -> exists a' ans, sendMsg randomHex controller strict a m = Ret (a', ans) /\ keeps a a').
Proof.
  intros Hc a m Hw Hm. split; intros Ht.
  - pose proof (receivedMsg_wp randomHex ipName controller strict Hc a m Hw Hm) as H.
    destruct (receivedMsg _ _ _ _ _) as [a'|]; [now exists a' | contradiction].
  - pose proof (sendMsg_wp randomHex controller strict Hc a m Hw Hm) as H.
    destruct (sendMsg _ _ _ _) as [[a' ans]|]; [now exists a', ans | contradiction].
Qed.

End Life.

(** * A concrete call *)

Definition quietly : Callback -> UaBase -> outcome UaBase := fun _ a => Ret a.
Definition hexTag (n : nat) : bytes := [48 + Z.of_nat n].
Definition asGiven (h : bytes) : bytes := h.

Definition sipUrl (user host : String.string) : BaseUrl := SipUri (mkUrl (str user) (str host) (str "5060")).
Definition alice : BaseUrl := sipUrl "alice" "a.example".
Definition bob : BaseUrl := sipUrl "bob" "b.example".
Definition proxy : BaseUrl := sipUrl "" "p.example".
Definition host (name : String.string) : BaseFacade := mkFacade (str name) 5060 (str name) 1 [] 0 false.

Definition offer : SipSdp := mkSdp (str "a.example") (str "m=audio 10000").
Definition answerSdp : SipSdp := mkSdp (str "b.example") (str "m=audio 20000").

Definition request (method : Method) (body : list SipContentData) : Msg :=
  mkMsg (Request method bob) (mkParty bob [] []) (mkParty alice [] (str "9")) (str "c1")
    (mkCSeq (str "1") (str "INVITE")) [viaTo (str "a.example") 5060 (str "UDP")] [] [] [alice] [] body [].
Definition inviteBob : Msg := request SIP_INVITE [SdpContent offer].
Definition response (code : Z) (body : list SipContentData) : Msg :=
  with_contacts [bob] (with_contents body (statusMsg (str "5") inviteBob code)).

Definition caller : UaBase := newAgent (host "a.example") A_CLIENT true inviteBob.
Definition callee : UaBase := newAgent (host "b.example") A_SERVER true inviteBob.
Definition callerIn : UaBase := with_state U_STATE_INCALL (with_routeList [proxy; bob] (with_response (response 200 []) caller)).
Definition calleeIn : UaBase := with_state U_STATE_INCALL (with_response (response 200 []) callee).

Lemma quietly_quiet c a : quietly c a = Ret a.
Proof. reflexivity. Qed.

Lemma quietly_keeps c a : wf a -> exists a', quietly c a = Ret a' /\ keeps a a'.
Proof. intros H. exists a. split; [reflexivity | now apply keeps_refl]. Qed.

Lemma isSip_sip u : isSip (SipUri u).
Proof. now exists u. Qed.

Lemma call_established_witness :
  (exists a b, setUp hexTag asGiven quietly false (host "a.example") (host "b.example") true true inviteBob [proxy]
    (response 180 []) (response 200 [SdpContent answerSdp]) (request SIP_ACK []) = Ret (a, b) /\
    myState a = U_STATE_INCALL /\ myState b = U_STATE_INCALL) /\
  setUp hexTag asGiven quietly false (host "a.example") (host "b.example") true true
    (with_kind (Request SIP_INVITE (TelUri (str "5551234"))) inviteBob) [proxy]
    (response 180 []) (response 200 [SdpContent answerSdp]) (request SIP_ACK []) = Fault AssertFailed.
Proof.
  split.
  - destruct (call_established hexTag asGiven quietly false quietly_quiet (host "a.example") (host "b.example") true true
      inviteBob bob [proxy] (response 180 []) (response 200 [SdpContent answerSdp]) (request SIP_ACK []) 180 answerSdp
      (mkUrl (str "bob") (str "b.example") (str "5060"))) as [H _]; try reflexivity; try lia.
    + apply List.Forall_cons; [apply isSip_sip | constructor].
    + destruct H as (a & b & _ & _ & _ & E & (Ha & Hb) & _); [vm_compute; reflexivity|].
      exists a, b. split; [exact E|]. split; [exact Ha | exact Hb].
  - apply (call_established hexTag asGiven quietly false quietly_quiet) with (uri := TelUri (str "5551234")) (code := 180)
      (s := answerSdp) (tu := mkUrl (str "bob") (str "b.example") (str "5060")); try reflexivity; try lia.
    apply List.Forall_cons; [apply isSip_sip | constructor].
Defined.

Lemma caller_hangs_up_witness :
  exists a1 a2 bye, sendMsg hexTag quietly false callerIn (request SIP_BYE []) = Ret (a1, Returned 0) /\
    asCommand bye = Some proxy /\ cseqHdr bye = mkCSeq (itoa 2) (str "BYE") /\ myState a2 = U_STATE_IDLE.
Proof.
  destruct (caller_hangs_up hexTag asGiven quietly false quietly_quiet callerIn calleeIn (response 200 []) 200 proxy [bob]
    (request SIP_BYE []) 1) as (a1 & bye & _ & _ & a2 & H1 & _ & _ & (_ & H2 & _ & _ & H3 & _) & _ & _ & _ & _ & _ & H4);
    try reflexivity; try lia; [now left|].
  exists a1, a2, bye. split; [exact H1|]. split; [exact H2|]. split; [exact H3 | exact H4].
Defined.

Lemma early_hang_up_is_silent_witness :
  sendMsg hexTag quietly false calleeIn (request SIP_BYE []) = Ret (with_state U_STATE_END calleeIn, Returned 0).
Proof.
  apply (early_hang_up_is_silent hexTag asGiven quietly false calleeIn (request SIP_BYE [])); try reflexivity. now left.
Defined.

Lemma response_after_failure_aborts_witness :
  exists b', receivedMsg hexTag asGiven quietly false calleeIn (request SIP_CANCEL []) = Ret b' /\
    receivedMsg hexTag asGiven quietly false b' (response 200 []) = Fault AssertFailed.
Proof.
  destruct (response_after_failure_aborts hexTag asGiven quietly false quietly_quiet calleeIn (request SIP_CANCEL [])
    (response 200 []) 200) as (b' & H & _ & H'); try reflexivity; [now left|].
  exists b'. split; [exact H | exact H'].
Defined.

Lemma refusal_while_ringing_witness :
  exists b', sendMsg hexTag quietly false (with_state U_STATE_RINGING callee) (response 603 []) = Ret (b', Returned 0) /\
    myState b' = U_STATE_IDLE.
Proof.
  destruct (refusal_while_ringing hexTag quietly false quietly_quiet (with_state U_STATE_RINGING callee) (response 603 []) 603
    (mkUrl (str "bob") (str "b.example") (str "5060"))) as (b' & H & H' & _); try reflexivity; try lia.
  - now exists bob.
  - exists b'. split; [exact H | exact H'].
Defined.

Lemma saveRouteList_terminates_witness :
  saveRouteList 1000 (with_recordRoutes [proxy; TelUri (str "5551234")] inviteBob) true callee = Fault OutOfFuel.
Proof.
  apply (saveRouteList_terminates (with_recordRoutes [proxy; TelUri (str "5551234")] inviteBob) true callee)
    with (pre := [proxy]) (n := str "5551234") (post := []); [reflexivity|].
  apply List.Forall_cons; [apply isSip_sip | constructor].
Defined.

Lemma bye_addressing_agrees_witness :
  exists bye, byeOfStatus (response 200 []) 200 = Ret bye /\
    asCommand (addressBye (with_routeList [bob] callee) 2 bye) = Some bob /\ routes bye = [bob].
Proof.
  eexists. split; [reflexivity|].
  destruct (bye_addressing_agrees (response 200 []) 200 bob callee (with_routeList [bob] callee) _ 2 ltac:(lia) eq_refl
    eq_refl eq_refl) as [H1 H2].
  split; [now rewrite H1 | now rewrite H2].
Defined.

(** The caller's agent after its INVITE and the 200. *)
Definition answeredCaller : outcome UaBase :=
  '(a, _) ← sendMsg hexTag quietly false caller inviteBob;
  receivedMsg hexTag asGiven quietly false a (response 200 []).

Lemma answeredCaller_inCall : myState <$> answeredCaller = Ret U_STATE_INCALL.
Proof. vm_compute. reflexivity. Qed.

Lemma caller_reachable : exists a, reachable hexTag asGiven quietly false a /\ myState a = U_STATE_INCALL.
Proof.
  pose proof answeredCaller_inCall as H. unfold answeredCaller in H.
  destruct (sendMsg hexTag quietly false caller inviteBob) as [[a1 ans]|] eqn:E1; [|discriminate]. cbn [mbind outcome_bind] in H.
  destruct (receivedMsg hexTag asGiven quietly false a1 (response 200 [])) as [a2|] eqn:E2; [|discriminate].
  exists a2. split; [|now injection H].
  apply (reach_received _ _ _ _ a1 (response 200 [])); [|exact I | exact E2].
  apply (reach_sent _ _ _ _ caller inviteBob a1 ans); [now apply reach_new | discriminate | exact E1].
Qed.

Lemma reachable_agent_wf_witness : exists a, myState a = U_STATE_INCALL /\ wf a.
Proof.
  destruct caller_reachable as (a & Ha & Hs). exists a. split; [exact Hs|].
  exact (reachable_agent_wf hexTag asGiven quietly false quietly_keeps a Ha).
Defined.

Lemma calleeIn_wf : wf calleeIn.
Proof.
  split; [reflexivity|]. split; [intros r [= <-]; now exists 200|]. split; [discriminate | now exists (response 200 [])].
Qed.

Lemma messages_are_handled_witness :
  exists a', receivedMsg hexTag asGiven quietly false calleeIn (request SIP_ACK []) = Ret a' /\ keeps calleeIn a'.
Proof.
  apply (messages_are_handled hexTag asGiven quietly false quietly_keeps calleeIn (request SIP_ACK []) calleeIn_wf).
  - discriminate.
  - intros H. exact H.
Defined.

End UaProps.
